(* ===== verification/_CoqProject ===== *)
-Q . S2P
Prelude.v
Double.v
ArmTable.v
State.v
Power.v
Cycles.v
ArmDecode.v
Energy.v
UserIo.v
Aging.v
HwModule.v
CpuState.v
Errors.v
OpHelper.v
CpuMode.v
Wfi.v
Sys.v
V7m.v
Exceptions.v
Mmu.v
CpRegs.v
CpTables.v
Cp15.v
Coproc.v
Dsp.v
Softfloat.v
Vfp.v
Estimate.v
Tcg.v
TransGen.v
TransArm.v
TransThumb2.v
TransThumb.v
TransStep.v
TransUser.v
TransBeside.v
TransConfined.v
TransDp.v
TransRam.v
TransExcl.v
TransBlock.v
TransFlat.v
TransEdge.v
TransVfp.v
TransNeonLs.v
TransVfpUser.v
TransVfpRam.v
TransVfpFlat.v
TransNeon.v
TransNeonData.v
TransNeonUser.v
TransNeonSpec.v
TransNeonFlat.v
TransIwmmxt.v
TransIwmmxtUser.v
TransIwmmxtSpec.v
Driver.v
DriverHw.v
User.v
Display.v
