(* ===== verification/Prelude.v ===== *)
(** * VarEMU: a verification library

    VarEMU extends the QEMU emulator so that an emulated ARM machine accounts
    for the cycles, time and energy its processor uses and injects hardware
    faults, and extends Linux so that the guest kernel charges these costs to
    its processes.  This library translates the program's own code into
    executable definitions and proves what makes it correct.

    ** The program and its parts

    - The emulator ([src/varemu]).  While translating guest code,
      [gen_vemu_info] ([target-arm/translate.c]) looks up each instruction in
      the tables of [vemu/vemu_arm.c] and stores its class and cost with the
      translated code.  At run time each instruction calls the helper
      [vemu_info] ([target-arm/op_helper.c]), which adds the cost to the
      counters of [vemu/vemu_cycles.c]; WFI and [cpu_has_work] ([cpu.h]) start
      and end a sleep period.  [vemu/vemu_energy.c] multiplies times by the
      power of the linked model [vemu/vemu_power_45nm.c].
      [vemu/vemu_user_io.c] reads the configuration file and serves the
      monitor's commands.  [vemu/vemu_errors.c] replaces an instruction by a
      faulty one.  [vemu/vemu_hw_module.c] is the memory-mapped device through
      which the guest takes snapshots and sets the fault register, the
      frequency and the voltage.
    - The kernel ([src/linux/linux-3.6.3-variability]).  The driver
      [drivers/misc/variability.c] reads the device at each context switch
      (hooks in [kernel/sched/core.c]; [kernel/fork.c] clears the counters of
      a new task) and offers two system calls.
    - The user library ([src/linux/fs/home/default/src/vemu.h]) wraps the
      system calls.

    - The emulated processor ([src/varemu/target-arm]), which VarEMU changes
      in several places and whose code decides what its hooks see: modes and
      status registers, exceptions of both profiles, address translation, the
      coprocessor registers, the instruction translator and the helpers of
      translated code.

    ** Files

    - [Prelude] (this file): outcomes of C code, the state and error monad and
      its notation, loops, machine integers ([u32], [u64], [s64], congruence
      modulo 2^64 as a setoid), bit fields, sums over finite maps, the tactic
      [mruns] that runs a computation symbolically, and the hint database.
    - [Double]: C doubles as the Standard Library's executable IEEE 754
      binary64, their conversions to integers (undefined out of range, as in
      C), and the lemmas that relate them to integers: a finite double is an
      integer multiple of 2^-1074 and addition is rounded integer addition.
    - [ArmTable]: the instruction tables of [vemu_arm.c], row by row.
    - [State]: [vemu_st], the global variables of the vemu modules.
    - [Power]: [vemu_power_45nm.c] ([Module Power45nm], with the printed power
      curve) and [vemu_power_tvlsi.c] ([Module PowerTvlsi]); the parameter
      accessors.
    - [Cycles], [Energy], [Aging], [UserIo], [Errors], [HwModule]:
      [vemu_cycles.c], [vemu_energy.c], the aging function of
      [vemu_power_45nm.c], [vemu_user_io.c], [vemu_errors.c] and
      [vemu_hw_module.c], one definition per C function, under its name.
    - [ArmDecode]: the decoder of [vemu_arm.c] and [gen_vemu_info].
    - [CpuState], [OpHelper], [CpuMode]: [CPUARMState] of [cpu.h], the helpers
      of [op_helper.c], and register banking and the CPSR of [helper.c].
    - [Wfi]: WFI and [cpu_has_work] composed with the time accounting.
    - [Sys]: coprocessor 15, memory and the interrupt controller beside
      [CPUARMState]; exception numbers and feature bits of [cpu.h].
    - [V7m], [Exceptions]: exception entry and return of the two profiles
      ([arm_v7m_cpu_do_interrupt], [do_v7m_exception_exit],
      [arm_cpu_do_interrupt], the return sequences of [translate.c]) and the
      M-profile special registers.
    - [Mmu]: the table walks, the protection unit, [get_phys_addr],
      [cpu_arm_handle_mmu_fault] and [tlb_fill].
    - [CpRegs], [CpTables], [Cp15], [Coproc]: coprocessor registers.  The
      first holds [ARMCPRegInfo] and the hash table, the second the register
      tables and [register_cp_regs_for_features], the third the access
      functions and [disas_coproc_insn], the fourth the theorems on all three.
    - [Dsp]: the integer arithmetic helpers of [helper.c].
    - [Softfloat], [Vfp], [Estimate]: the interface to the floating-point
      library, FPSCR and the floating-point helpers of [helper.c] with the
      translation block flags of [cpu.h], and the reciprocal estimates.
    - [Tcg]: the operations the translator emits, its context, the run-time
      state of translated code and the monad [T] in which a function of
      [translate.c] is the effect of the code it emits.
    - [TransGen], [TransArm], [TransThumb2], [TransThumb]: the building blocks
      ([gen_*]), [disas_arm_insn], [disas_thumb2_insn] and
      [disas_thumb_insn], split along their case distinctions.
    - [TransStep]: [gen_intermediate_code_internal] for a block of one
      instruction, with the vemu hooks before the instruction.
    - [TransVfp], [TransNeonLs], [TransNeon] and [TransNeonData],
      [TransIwmmxt]: [disas_vfp_insn], [disas_neon_ls_insn],
      [disas_neon_data_insn] on its building blocks, and [disas_iwmmxt_insn]
      with [disas_dsp_insn].
    - [TransBeside]: composing guests out of coprocessors.
    - [TransUser], [TransConfined], [TransDp], [TransRam], [TransExcl],
      [TransBlock]: the theorems on translated code.  [TransFlat] is a guest
      with flat memory on which they are evaluated, [TransEdge] the inputs on
      which the code does something else than it should.  [TransVfpUser], [TransVfpRam] and
      [TransVfpFlat] are the same for VFP and NEON loads and stores,
      [TransNeonUser], [TransNeonSpec] and [TransNeonFlat] for NEON data
      processing, [TransIwmmxtUser] and [TransIwmmxtSpec] for iWMMXt and
      XScale; [vfp_machine], [neon_machine] and [iw_machine] add the decoders
      to any guest, [media_machine] all of them.
    - [Driver]: [variability.c] and the kernel hooks; [kstep] is the step
      relation of the kernel (switches in two halves, forks, exits, system
      calls, the device running by itself).
    - [DriverHw]: the emulator's device as an instance of the driver's
      interface.
    - [User]: [vemu.h] on top of the driver.
    - [Display]: [vemu_display.h], the scaling of registers for display.

    ** Interfaces and parameters

    Code outside the repository is a class, and every theorem holds for all
    its instances: [VmClock] (the readings of QEMU's virtual clock), [Libm]
    ([exp] and [pow]), [CInput] (QEMU's JSON reader and the number
    conversions of the C library), [UserMem] (the kernel's user copies),
    [QemuConsts] (QEMU's exception and interrupt numbers), [PhysMem] and
    [PhysMemLaws] (physical memory), [Nvic] (the interrupt controller),
    [Semihosting], [MmuEnv] and [MmuEnvLaws] (protection bits and field
    extraction of QEMU's headers), [Tlb] and [TlbLaws] (the TLB), [CpEnv]
    and [CpEnvLaws] (code flush, interrupts and cache geometry), [Softfloat]
    with [SoftfloatLaws], [SoftfloatIeee] and [SoftfloatFormat] (the
    floating-point library), [GdbBuf] (byte order of the debugger's buffer),
    [HostOps] (leading zeros, parallel additions and a capability of the
    host), [DebugConsts] (the debugger's exception number).  [Guest] is what
    translated code sees of the machine around it: loads, stores and fetches
    that may fault, and the decoders of the coprocessor spaces; [GuestLaws]
    says that accesses only signal and that the coprocessor spaces keep
    privileged state in user mode, [Ram], [Ram64] and [ByteRam] that loads
    return what was stored, by words, by two words and by bytes.  [VfpBus] and [VfpBusLaws] are the floating-point state beside
    the bus, [IwBus] the iWMMXt registers and what unwritten temporaries
    hold, [IwmmxtHelpers] the arithmetic of [iwmmxt_helper.c],
    [NeonHelpers] with [NeonLaws] that of [neon_helper.c];
    [vfp_machine_laws], [neon_machine_laws] and [iw_machine_laws] show that a
    guest extended by these coprocessors keeps [GuestLaws].
    The laws state documented behaviour, and each has an instance.
    [PowerModel] is the interface between the energy accounting and the two
    power models, both of which are instances.  [VemuDevice] and
    [VemuDeviceLaws] are the interface between the driver and the device; the
    driver's theorems are proved against them and [DriverHw] discharges the
    laws for the emulator, so that the theorems of [User] and the witnesses
    of [Driver] are about the two programs together.

    ** What the theorems show

    - Accounting in the emulator: cycles are counted exactly up to 2^53
      although they are doubles; awake and asleep time add up to the emulated
      clock; energies never decrease, a second query changes nothing, and a
      monitor change of a parameter charges the elapsed time at the old power
      while one made through the device does not.
    - Sleeping: a processor in WFI stays asleep until the first interrupt
      with work, which wakes it with the period accounted for.
    - Decoding: after every configuration the emulator accepts, every
      instruction word in every instruction set decodes to the row of its
      encoding in the source's tables, up to the class the configuration
      assigns, which is in range when the declared numbers are; the fault
      hook is never emitted; Thumb branches are charged as ARM instructions.
    - Device: a snapshot latches all twenty registers, word reads reassemble
      them, frequency and voltage round trips, the exact bounds of reads.
    - Kernel: the charges to tasks and to the system add up to the device's
      counters in every execution; the one fault register refines one
      register per process; the results and errors of the system calls.
    - User library: voltage and frequency reach the power model; enabling
      faults is visible; the difference of two states; the exit command; the
      display scaling ends and yields the register in at most three digits,
      with a prefix that exists except for large values of two registers.
    - Faults: what a firing fault changes, when it does not fire, and that
      the privilege test for M-profile processors is inverted.
    - Processor helpers: saturation, shifts, table lookup, division, bit
      reversal and parallel arithmetic against mathematical definitions;
      register banking as a refinement of one register file per mode; CPSR
      round trip; user-register access.
    - Exceptions: entry followed by return restores the interrupted state,
      on both profiles; the special registers read back what they keep.
    - Address translation: it always ends, with the page in the TLB or an
      abort; its protection bits are exact for the three kinds of access, and
      refilling keeps every TLB entry equal to
      what a walk gives.
    - Coprocessor registers: registration succeeds for consistent feature
      sets and the hash table then answers as the tables specify; user mode
      cannot change address translation; writes leave no stale TLB entry.
    - Floating point: FPSCR reads back what was written, the modes softfloat
      computes with follow it in every execution, no recorded exception is
      lost; the estimates equal the architecture's integer tables; the flags
      of a translation block determine what the translator depends on.
    - Translated code: user-mode programs of A and R profiles, ARM and Thumb,
      cannot change privileged state whatever instruction they execute, up to
      the words and IT states on which the emulator itself fails; the ARM
      data-processing instructions equal the architecture's pseudocode,
      conditions, shifter and flags included; PUSH and POP are inverse; the
      exclusive accesses in all sizes; the IT state follows the architecture; every
      executed instruction is charged to the vemu counters exactly once.
    - Floating-point instructions: no VFP instruction of a user-mode program
      fails, changes privileged state or enables the unit; VPUSH and VPOP are
      inverse.  The same confinement holds for NEON data processing, whose
      operands stay inside the register file; VEXT extracts the bits it
      should, and immediate constants are the architecture's.  NEON loads and
      stores and iWMMXt instructions keep privileged state, and TANDC and TORC
      combine the flags of all lanes.
    - Configuration: class assignment, the power-model loader, parsing a line
      twice, and the monitor's argument handling.

    Where the code does not do what it means to, a lemma says what it does
    (the debugger's write of FPSCR, read-only MPU regions, small-page
    subpages, CONTEXTIDR, PAR, the IEPSR mask, monitor mode, the last
    display register and the prefixes of large values, the cleared exclusive
    monitor, SRS, stepping over a skipped SVC, MSR CONTROL, short
    vectors, register lists that leave the floating-point register file,
    VQDMULL, WANDN, WALIGNI, MIA).

    ** Bounds

    The loops of the code run over fixed index ranges, lists or dictionaries.
    Two have a variable number of steps: the long-descriptor walk carries a
    fuel of three levels, which suffices because each round goes down a level
    from the first at the earliest, and the display loop one of seven tests,
    since six divisions by 1000 bring every 64-bit value below 1000; that
    they suffice is part of the theorems.  The reference definition of the
    square-root estimate searches at most 512 values.  The time theorems
    assume that the emulated clock and the active time stay below 2^62 ns
    (146 years), so that signed 64-bit differences do not overflow; the cycle
    theorem assumes at most 2^53 cycles, the range in which doubles hold
    every integer.  Unsigned and signed 64-bit arithmetic wraps as in the
    code elsewhere; operations C leaves undefined (an index outside an array,
    a double out of range of an integer type, signed overflow, a shift by the
    width or more) yield [Undefined].

    ** Not modelled

    Of [translate.c], blocks of more than one instruction, in which the
    single [tb->vemu] that [gen_vemu_info] fills would be shared by all of
    them (the emulator is documented to run with one instruction per block);
    translation and execution are one step in the model, so what the
    translator would do for instructions that are then skipped is not
    visible.  The registration of the device with QEMU's object model and the
    machine files that place it; the monitor's command table and the option
    parser; printing; the scheduler and fork code of Linux around the hooks;
    the sample programs. *)
From Stdlib Require Import ZArith Lia.
From stdpp Require Import base list gmap.

#[global] Open Scope Z_scope.

Declare Scope vemu_scope.
Delimit Scope vemu_scope with vemu.
#[global] Open Scope vemu_scope.

(** ** Outcomes of C code

    A call returns, fails an [assert], runs into undefined behaviour (an
    access outside an array, a conversion the C standard leaves undefined),
    or ends the process through [exit]. *)
Inductive outcome (A : Type) : Type :=
| Done (a : A)
| AssertFailed
| Undefined
| Exited (code : Z).
Arguments Done {A} _.
Arguments AssertFailed {A}.
Arguments Undefined {A}.
Arguments Exited {A} _.

(** ** The state and error monad of the C translation units

    A computation takes the state of the global variables and yields an
    outcome that carries the result and the new state. *)
Definition M (S A : Type) : Type := S -> outcome (A * S).

Section Monad.
Context {S : Type}.

Definition ret {A} (a : A) : M S A := fun s => Done (a, s).
Definition bind {A B} (m : M S A) (k : A -> M S B) : M S B := fun s =>
  match m s with
  | Done (a, s') => k a s'
  | AssertFailed => AssertFailed
  | Undefined => Undefined
  | Exited c => Exited c
  end.
Definition gets {A} (f : S -> A) : M S A := fun s => Done (f s, s).
Definition modify (f : S -> S) : M S unit := fun s => Done (tt, f s).
Definition massert (b : bool) : M S unit := fun s =>
  if b then Done (tt, s) else AssertFailed.
Definition undefined {A} : M S A := fun _ => Undefined.
Definition mexit {A} (code : Z) : M S A := fun _ => Exited code.
(** A value that exists only where the C standard defines the operation. *)
Definition defined {A} (o : option A) : M S A :=
  match o with Some a => ret a | None => undefined end.
End Monad.

Notation "'let!' x ':=' m 'in' k" := (bind m (fun x => k))
  (at level 10, x name, m at level 100, k at level 200) : vemu_scope.
Notation "m ';;' k" := (bind m (fun _ => k))
  (at level 100, k at level 200, right associativity) : vemu_scope.

(** The body of a C [for] loop over the given indices. *)
Fixpoint mfor {S A} (l : list A) (body : A -> M S unit) : M S unit :=
  match l with
  | [] => ret tt
  | a :: l' => body a ;; mfor l' body
  end.

(** A loop that threads an accumulator. *)
Fixpoint mfold {S A B} (l : list A) (body : B -> A -> M S B) (acc : B) : M S B :=
  match l with
  | [] => ret acc
  | a :: l' => let! acc' := body acc a in mfold l' body acc'
  end.

Section MonadLemmas.
Context {S : Type}.
Implicit Types s : S.

Lemma bind_Done {A B} (m : M S A) (k : A -> M S B) s r :
  bind m k s = Done r <-> exists a s1, m s = Done (a, s1) /\ k a s1 = Done r.
Proof.
  unfold bind. destruct (m s) as [[a s1]| | |c] eqn:E; split; intros H.
  - eauto.
  - destruct H as (a' & s' & [= <- <-] & H). exact H.
  - discriminate.
  - destruct H as (a' & s' & H & _). discriminate.
  - discriminate.
  - destruct H as (a' & s' & H & _). discriminate.
  - discriminate.
  - destruct H as (a' & s' & H & _). discriminate.
Qed.

Lemma massert_Done b s x s' : massert b s = Done (x, s') <-> b = true /\ s = s'.
Proof. unfold massert. destruct b, x; split; try (intros [= <-]); try (intros [? <-]); done. Qed.

Lemma defined_Done {A} (o : option A) s x s' :
  defined o s = Done (x, s') <-> o = Some x /\ s = s'.
Proof.
  destruct o; cbn; unfold ret, undefined; split;
    try (intros [= <- <-]); try (intros [[= <-] <-]); done.
Qed.

Lemma ret_Done {A} (a x : A) s s' : ret a s = Done (x, s') <-> a = x /\ s = s'.
Proof. unfold ret. split; [intros [= <- <-]|intros [<- <-]]; done. Qed.

Lemma gets_Done {A} (f : S -> A) x s s' : gets f s = Done (x, s') <-> f s = x /\ s = s'.
Proof. unfold gets. split; [intros [= <- <-]|intros [<- <-]]; done. Qed.

Lemma modify_Done (f : S -> S) x s s' : modify f s = Done (x, s') <-> f s = s'.
Proof. unfold modify. destruct x. split; [intros [= <-]|intros <-]; done. Qed.

Lemma bind_run {A B} (m : M S A) (k : A -> M S B) s a s1 :
  m s = Done (a, s1) -> bind m k s = k a s1.
Proof. unfold bind. intros ->. reflexivity. Qed.

Lemma bind_ret_unit (m : M S unit) s : (m ;; ret tt) s = m s.
Proof. unfold bind, ret. destruct (m s) as [[[] s']| | |]; reflexivity. Qed.

(** Invariant rules for loops. *)
Lemma mfor_inv {A} (P : S -> Prop) (l : list A) body :
  (forall a s s', a ∈ l -> P s -> body a s = Done (tt, s') -> P s') ->
  forall s s', P s -> mfor l body s = Done (tt, s') -> P s'.
Proof.
  induction l as [|a l IH]; cbn; intros Hb s s' HP H.
  - injection H as <-. exact HP.
  - apply bind_Done in H as ([] & s1 & H1 & H2).
    eapply IH; [|eapply Hb; [|exact HP|exact H1]|exact H2]; [|set_solver].
    intros b t t' Hin. apply Hb. set_solver.
Qed.

(** A fold whose body only reads the state. *)
Lemma mfold_pure {A B} (f : B -> A -> B) (l : list A) body s :
  (forall acc a, a ∈ l -> body acc a s = Done (f acc a, s)) ->
  forall acc, mfold l body acc s = Done (fold_left f l acc, s).
Proof.
  induction l as [|a l IH]; intros Hb acc; [reflexivity|].
  cbn. erewrite bind_run by (apply Hb; set_solver).
  apply IH. intros. apply Hb. set_solver.
Qed.
End MonadLemmas.

Lemma Done_inj {A S} (a b : A) (s s' : S) : Done (a, s) = Done (b, s') -> a = b /\ s = s'.
Proof. intros [= <- <-]. done. Qed.

(** [mruns] decomposes the successful runs among the hypotheses into the
    runs of their parts, splitting on the conditions they branch on. *)
Ltac mrun_step :=
  match goal with
  | H : bind _ _ _ = Done _ |- _ =>
      let a := fresh "r" in let s := fresh "s" in
      let H1 := fresh "Hr" in let H2 := fresh "Hr" in
      apply bind_Done in H as (a & s & H1 & H2); cbn beta zeta in H2
  | H : massert _ _ = Done _ |- _ =>
      let Hb := fresh "Hassert" in apply massert_Done in H as [Hb H]; subst
  | H : defined _ _ = Done _ |- _ =>
      let Hd := fresh "Hdef" in apply defined_Done in H as [Hd H]; subst
  | H : ret _ _ = Done _ |- _ => apply ret_Done in H as [? H]; subst
  | H : gets _ _ = Done _ |- _ => apply gets_Done in H as [? H]; subst
  | H : modify _ _ = Done _ |- _ => apply modify_Done in H; subst
  | H : undefined _ = Done _ |- _ => discriminate H
  | H : mexit _ _ = Done _ |- _ => discriminate H
  | H : (if ?b then _ else _) _ = Done _ |- _ => let E := fresh "Hif" in destruct b eqn:E
  | H : Done (_, _) = Done (_, _) |- _ => apply Done_inj in H as [? ?]; subst
  | H : Done _ = Done _ |- _ => injection H as H; subst
  end.
Ltac mruns := repeat mrun_step.

(** ** Machine integers

    A [w]-bit unsigned value is the residue in [[0, 2^w)]; a signed one the
    two's complement residue. *)
Definition u8 (z : Z) : Z := z mod 2 ^ 8.
Definition u16 (z : Z) : Z := z mod 2 ^ 16.
Definition u32 (z : Z) : Z := z mod 2 ^ 32.
Definition u64 (z : Z) : Z := z mod 2 ^ 64.
Definition s16 (z : Z) : Z := (z + 2 ^ 15) mod 2 ^ 16 - 2 ^ 15.
Definition s32 (z : Z) : Z := (z + 2 ^ 31) mod 2 ^ 32 - 2 ^ 31.
Definition s64 (z : Z) : Z := (z + 2 ^ 63) mod 2 ^ 64 - 2 ^ 63.

Definition is_u32 (z : Z) : Prop := 0 <= z < 2 ^ 32.
Definition is_u64 (z : Z) : Prop := 0 <= z < 2 ^ 64.

Create HintDb vemu.
Create Rewrite HintDb vemu.

Lemma u32_range z : is_u32 (u32 z).
Proof. unfold is_u32, u32. apply Z.mod_pos_bound. lia. Qed.
Lemma u64_range z : is_u64 (u64 z).
Proof. unfold is_u64, u64. apply Z.mod_pos_bound. lia. Qed.
Lemma u32_small z : is_u32 z -> u32 z = z.
Proof. intros H. apply Z.mod_small. exact H. Qed.
Lemma u64_small z : is_u64 z -> u64 z = z.
Proof. intros H. apply Z.mod_small. exact H. Qed.
Lemma u64_of_u32 z : u64 (u32 z) = u32 z.
Proof. apply u64_small. pose proof (u32_range z). unfold is_u32, is_u64 in *. lia. Qed.
Lemma u32_u32 z : u32 (u32 z) = u32 z.
Proof. unfold u32. apply Z.mod_mod. lia. Qed.
Lemma u32_u64 z : u32 (u64 z) = u32 z.
Proof. unfold u32, u64. apply Z.mod_mod_divide. exists (2 ^ 32). reflexivity. Qed.
Lemma s64_range z : - 2 ^ 63 <= s64 z < 2 ^ 63.
Proof. unfold s64. pose proof (Z.mod_pos_bound (z + 2 ^ 63) (2 ^ 64) ltac:(lia)). lia. Qed.
Lemma s64_small z : - 2 ^ 63 <= z < 2 ^ 63 -> s64 z = z.
Proof. intros H. unfold s64. rewrite Z.mod_small; lia. Qed.
Lemma s32_range z : - 2 ^ 31 <= s32 z < 2 ^ 31.
Proof. unfold s32. pose proof (Z.mod_pos_bound (z + 2 ^ 31) (2 ^ 32) ltac:(lia)). lia. Qed.
Lemma s32_small z : - 2 ^ 31 <= z < 2 ^ 31 -> s32 z = z.
Proof. intros H. unfold s32. rewrite Z.mod_small; lia. Qed.
#[export] Hint Rewrite u32_u32 u32_u64 u64_of_u32 : vemu.
#[export] Hint Resolve u32_range u64_range s64_range s32_range : vemu.

(** ** Congruence modulo 2^64

    Counter arithmetic of the driver and of the sleep accounting is
    unsigned 64-bit arithmetic: equality of counters is congruence. *)
Definition eq64 (a b : Z) : Prop := u64 a = u64 b.
Infix "≡64" := eq64 (at level 70) : vemu_scope.

#[export] Instance eq64_equiv : Equivalence eq64.
Proof. split; unfold eq64; [intros ?|intros ??|intros ???]; congruence. Qed.
#[export] Instance add_eq64 : Proper (eq64 ==> eq64 ==> eq64) Z.add.
Proof.
  intros a a' Ha b b' Hb. unfold eq64, u64 in *.
  rewrite (Z.add_mod a b), (Z.add_mod a' b'), Ha, Hb by lia. reflexivity.
Qed.
#[export] Instance opp_eq64 : Proper (eq64 ==> eq64) Z.opp.
Proof.
  intros a a' Ha. unfold eq64, u64 in *.
  rewrite <- (Z.sub_0_l a), <- (Z.sub_0_l a'), (Zminus_mod 0 a), (Zminus_mod 0 a'), Ha.
  reflexivity.
Qed.
#[export] Instance sub_eq64 : Proper (eq64 ==> eq64 ==> eq64) Z.sub.
Proof. intros a a' Ha b b' Hb. rewrite <- !Z.add_opp_r, Ha, Hb. reflexivity. Qed.
#[export] Instance u64_eq64 : Proper (eq64 ==> eq) u64.
Proof. intros a b H. exact H. Qed.
Lemma u64_eq64_id z : u64 z ≡64 z.
Proof. unfold eq64, u64. apply Z.mod_mod. lia. Qed.
Lemma s64_eq64_id z : s64 z ≡64 z.
Proof.
  unfold eq64, s64, u64. rewrite Zminus_mod_idemp_l. f_equal. lia.
Qed.
(** Moving a congruence by a difference. *)
Lemma eq64_move a b a' c : a ≡64 b -> a' = a + (c - b) -> a' ≡64 c.
Proof. intros H ->. rewrite H. unfold eq64. f_equal. lia. Qed.
Create Rewrite HintDb eq64.
#[export] Hint Rewrite u64_eq64_id s64_eq64_id : eq64.

(** ** Sums *)
Definition zsum (l : list Z) : Z := foldr Z.add 0 l.

Lemma zsum_cons x l : zsum (x :: l) = x + zsum l.
Proof. reflexivity. Qed.

Lemma zsum_app l k : zsum (l ++ k) = zsum l + zsum k.
Proof. unfold zsum. induction l; cbn; lia. Qed.

Lemma zsum_insert l i (x y : Z) : l !! i = Some x -> zsum (<[i := y]> l) = zsum l - x + y.
Proof.
  unfold zsum. revert i. induction l as [|a l IH]; intros [|i] H; try discriminate; cbn in *.
  - injection H as ->. lia.
  - change (a + foldr Z.add 0 (<[i := y]> l) = a + foldr Z.add 0 l - x + y). rewrite (IH _ H). lia.
Qed.

Lemma zsum_nonneg l : Forall (fun x => 0 <= x) l -> 0 <= zsum l.
Proof. unfold zsum. induction 1; cbn; lia. Qed.

Lemma zsum_lookup_le l i x : Forall (fun x => 0 <= x) l -> l !! i = Some x -> x <= zsum l.
Proof.
  intros Hl H. pose proof (zsum_insert l i x 0 H) as E.
  pose proof (zsum_nonneg (<[i := 0]> l)) as Hn.
  assert (0 <= zsum (<[i := 0]> l)) by (apply Hn, Forall_insert; [exact Hl|lia]). lia.
Qed.

(** ** Bit fields *)

Lemma testbit_above b w n : 0 <= b < 2 ^ w -> 0 <= w <= n -> Z.testbit b n = false.
Proof. intros Hb Hw. rewrite <- (Z.mod_small b (2 ^ w)) by exact Hb. apply Z.mod_pow2_bits_high. lia. Qed.

Lemma land_mask_range z w : 0 <= w -> 0 <= Z.land z (Z.ones w) < 2 ^ w.
Proof. intros H. rewrite Z.land_ones by exact H. apply Z.mod_pos_bound, Z.pow_pos_nonneg; lia. Qed.

(** A value forced into an interval. *)
Definition clamp (lo hi z : Z) : Z := Z.max lo (Z.min hi z).

(** Bit operations within [w] bits. *)
Lemma below_pow2 z w : 0 <= z -> 0 <= w -> (forall n, w <= n -> Z.testbit z n = false) -> z < 2 ^ w.
Proof.
  intros Hz Hw H. replace z with (z mod 2 ^ w); [apply Z.mod_pos_bound, Z.pow_pos_nonneg; lia|].
  apply Z.bits_inj'. intros n Hn. destruct (Z.lt_ge_cases n w).
  - apply Z.mod_pow2_bits_low. lia.
  - rewrite Z.mod_pow2_bits_high, H by lia. reflexivity.
Qed.

Lemma land_below a m w : 0 <= w -> 0 <= a < 2 ^ w -> 0 <= Z.land a m < 2 ^ w.
Proof.
  intros Hw Ha. assert (H0 : 0 <= Z.land a m) by (apply Z.land_nonneg; lia). split; [exact H0|].
  apply below_pow2; [exact H0|exact Hw|]. intros n Hn. rewrite Z.land_spec, (testbit_above a w n) by lia. reflexivity.
Qed.

Lemma lor_below a b w : 0 <= w -> 0 <= a < 2 ^ w -> 0 <= b < 2 ^ w -> 0 <= Z.lor a b < 2 ^ w.
Proof.
  intros Hw Ha Hb. assert (H0 : 0 <= Z.lor a b) by (apply Z.lor_nonneg; lia). split; [exact H0|].
  apply below_pow2; [exact H0|exact Hw|]. intros n Hn.
  rewrite Z.lor_spec, (testbit_above a w n), (testbit_above b w n) by lia. reflexivity.
Qed.

Lemma land_pow2 z n : 0 <= n -> Z.land z (2 ^ n) = if Z.testbit z n then 2 ^ n else 0.
Proof.
  intros Hn. apply Z.bits_inj'. intros m Hm. rewrite Z.land_spec, Z.pow2_bits_eqb by lia.
  destruct (Z.eqb_spec n m) as [->|Hne].
  - rewrite andb_true_r. destruct (Z.testbit z m) eqn:E; [rewrite Z.pow2_bits_true by lia|rewrite Z.bits_0]; reflexivity.
  - rewrite andb_false_r. destruct (Z.testbit z n); [rewrite Z.pow2_bits_false by lia|rewrite Z.bits_0]; reflexivity.
Qed.

(** Two adjacent bit fields, joined. *)
Lemma lor_shift_add a b w : 0 <= w -> 0 <= b < 2 ^ w -> Z.lor (Z.shiftl a w) b = a * 2 ^ w + b.
Proof.
  intros Hw Hb. rewrite Z.shiftl_mul_pow2 by exact Hw.
  assert (Hd : Z.land (a * 2 ^ w) b = 0).
  { apply Z.bits_inj'. intros n Hn. rewrite Z.land_spec, Z.bits_0.
    destruct (Z.lt_ge_cases n w).
    - rewrite Z.mul_pow2_bits_low by lia. reflexivity.
    - rewrite (testbit_above b w n) by lia. apply andb_false_r. }
  rewrite <- Z.lxor_lor by exact Hd. symmetry. apply Z.add_nocarry_lxor. exact Hd.
Qed.

(** Two adjacent fields. *)
Lemma lor_join a b v w : 0 <= v -> 0 <= w -> 0 <= b < 2 ^ v ->
  Z.lor (Z.shiftl a (v + w)) (Z.shiftl b w) = Z.shiftl (a * 2 ^ v + b) w.
Proof.
  intros Hv Hw Hb. rewrite <- Z.shiftl_shiftl by exact Hv. rewrite <- Z.shiftl_lor, lor_shift_add by assumption.
  reflexivity.
Qed.

(** ** Little-endian byte strings *)

Fixpoint le_bytes (n : nat) (z : Z) : list Z :=
  match n with
  | O => []
  | S n' => z mod 256 :: le_bytes n' (z / 256)
  end.

Fixpoint le_val (bs : list Z) : Z :=
  match bs with [] => 0 | b :: bs' => b + 256 * le_val bs' end.

Definition is_byte (b : Z) : Prop := 0 <= b < 256.

Lemma length_le_bytes n z : length (le_bytes n z) = n.
Proof. revert z. induction n; intros; cbn; auto. Qed.

Lemma le_bytes_byte n z : Forall is_byte (le_bytes n z).
Proof.
  revert z. induction n as [|n IH]; intros z; cbn; constructor; [|apply IH].
  unfold is_byte. pose proof (Z.mod_pos_bound z 256 ltac:(lia)). lia.
Qed.

Lemma pow256_succ n : 256 ^ Z.of_nat (S n) = 256 * 256 ^ Z.of_nat n.
Proof. rewrite Nat2Z.inj_succ, Z.pow_succ_r by lia. reflexivity. Qed.

Lemma le_val_bytes n z : le_val (le_bytes n z) = z mod 256 ^ Z.of_nat n.
Proof.
  revert z. induction n as [|n IH]; intros z; [cbn; rewrite Z.mod_1_r; reflexivity|].
  cbn [le_bytes le_val]. rewrite IH, pow256_succ. rewrite Z.rem_mul_r; lia.
Qed.

Lemma le_val_app a b : le_val (a ++ b) = le_val a + 256 ^ Z.of_nat (length a) * le_val b.
Proof.
  induction a as [|x a IH]; [cbn [app le_val length]; lia|].
  cbn [app le_val length]. rewrite IH, pow256_succ. lia.
Qed.

Lemma le_val_range bs : Forall is_byte bs -> 0 <= le_val bs < 256 ^ Z.of_nat (length bs).
Proof.
  induction 1 as [|b bs Hb _ IH]; [cbn; lia|].
  cbn [le_val length]. rewrite pow256_succ. unfold is_byte in Hb. lia.
Qed.

(** Reading and assigning the [i]-th 64-bit word of a byte string, as the
    byte and word views of a C union do. *)
Definition get64 (b : list Z) (i : Z) : Z := le_val (take 8 (drop (Z.to_nat (8 * i)) b)).
Definition put64 (b : list Z) (i : Z) (v : Z) : list Z :=
  take (Z.to_nat (8 * i)) b ++ le_bytes 8 v ++ drop (Z.to_nat (8 * i) + 8) b.

(** ** Sums over finite maps *)
Section MapSum.
Context {A : Type} (f : A -> Z).
Implicit Types m : gmap Z A.

Definition msum (m : gmap Z A) : Z := map_fold (fun _ v acc => f v + acc) 0 m.

Lemma msum_empty : msum ∅ = 0.
Proof. apply map_fold_empty. Qed.

Lemma msum_new m k v : m !! k = None -> msum (<[k := v]> m) = f v + msum m.
Proof. intros H. apply (map_fold_insert_L (fun _ v acc => f v + acc)); [intros; lia|exact H]. Qed.

Lemma msum_delete m k v : m !! k = Some v -> msum m = f v + msum (delete k m).
Proof. intros H. rewrite <- (insert_delete_id m k v H) at 1. apply msum_new, lookup_delete_eq. Qed.

Lemma msum_update m k v w : m !! k = Some v -> msum (<[k := w]> m) = msum m - f v + f w.
Proof.
  intros H. rewrite (msum_delete m k v H), <- insert_delete_eq, msum_new by apply lookup_delete_eq. lia.
Qed.
End MapSum.
