(* ===== verification/Double.v ===== *)
(** * C doubles

    The emulator keeps its counters in C [double] variables.  A double is
    the binary64 format of the Standard Library's executable IEEE 754
    specification ([SpecFloat] with 53 bits of precision and maximal
    exponent 1024), rounded to nearest even.  This file defines the
    operations and conversions the sources use, and relates them to exact
    integer arithmetic: every finite double is an integer multiple of
    2^-1074, so [d_val] reads a double as an integer and addition is
    integer addition followed by [rne], rounding to nearest even. *)
From Stdlib Require Import ZArith Lia Bool.
From Stdlib Require Import SpecFloat.
Open Scope Z_scope.

Definition double : Type := spec_float.

Definition d_add : double -> double -> double := SFadd 53 1024.
Definition d_sub : double -> double -> double := SFsub 53 1024.
Definition d_mul : double -> double -> double := SFmul 53 1024.
Definition d_div : double -> double -> double := SFdiv 53 1024.
Definition d_opp : double -> double := SFopp.
(** C's [<], [<=] and [==] on doubles: false on NaN. *)
Definition d_ltb : double -> double -> bool := SFltb.
Definition d_leb : double -> double -> bool := SFleb.
Definition d_eqb : double -> double -> bool := SFeqb.
Definition d_valid : double -> bool := valid_binary 53 1024.
Definition d_zero : double := S754_zero false.

(** Conversion of an integer to double. *)
Definition d_of_Z (z : Z) : double := binary_normalize 53 1024 z 0 false.

(** The decimal literal [m * 10^-k]: one correctly rounded division. *)
Definition d_lit (m : positive) (k : Z) : double :=
  SFdiv 53 1024 (S754_finite false m 0) (S754_finite false (Z.to_pos (10 ^ k)) 0).

(** Truncation toward zero; infinities and NaN have no integer value. *)
Definition d_trunc (x : double) : option Z :=
  match x with
  | S754_zero _ => Some 0
  | S754_finite s m e =>
      let a := if 0 <=? e then Zpos m * 2 ^ e else Zpos m / 2 ^ (- e) in
      Some (if s then - a else a)
  | _ => None
  end.

(** The cast to [uint64_t]: undefined unless the truncated value fits. *)
Definition d_to_u64 (x : double) : option Z :=
  match d_trunc x with
  | Some z => if (0 <=? z) && (z <? 2 ^ 64) then Some z else None
  | None => None
  end.

(** ** Doubles as integer multiples of 2^-1074 *)

Definition d_val (x : double) : Z :=
  match x with
  | S754_finite s m e => (if s then -1 else 1) * (Zpos m * 2 ^ (e + 1074))
  | _ => 0
  end.

(** Zero or a positive finite number, in canonical form. *)
Definition d_nonneg (x : double) : Prop :=
  match x with
  | S754_zero s => s = false
  | S754_finite s m e => s = false /\ d_valid x = true
  | _ => False
  end.

(** Rounding to nearest even of an integer number of units. *)
Definition rexp (v : Z) : Z := Z.max (Zdigits2 v - 53) 0.
Definition rne_at (E v : Z) : Z :=
  let q := v / 2 ^ E in
  let r := v mod 2 ^ E in
  if 2 * r <? 2 ^ E then q
  else if (2 * r =? 2 ^ E) && Z.even q then q else q + 1.
Definition rne (v : Z) : Z := rne_at (rexp v) v * 2 ^ rexp v.

(** Case analysis on the integer comparisons of the goal. *)
Ltac zcases :=
  repeat match goal with
  | |- context [?a <? ?b] => destruct (Z.ltb_spec a b)
  | |- context [?a <=? ?b] => destruct (Z.leb_spec a b)
  | |- context [?a =? ?b] => destruct (Z.eqb_spec a b)
  end; cbn [andb orb negb].

(** ** Digits *)

Lemma digits2_log2 p : Zpos (digits2_pos p) = Z.log2 (Zpos p) + 1.
Proof.
  induction p as [p IH|p IH|]; cbn [digits2_pos]; [| |reflexivity].
  - rewrite Pos2Z.inj_succ, IH.
    change (Zpos p~1) with (2 * Zpos p + 1). rewrite Z.log2_succ_double by lia. lia.
  - rewrite Pos2Z.inj_succ, IH.
    change (Zpos p~0) with (2 * Zpos p). rewrite Z.log2_double by lia. lia.
Qed.

Lemma Zdigits2_log2 v : 0 < v -> Zdigits2 v = Z.log2 v + 1.
Proof. destruct v; try lia. intros _. cbn [Zdigits2]. apply digits2_log2. Qed.

Lemma Zdigits2_bounds v : 0 < v -> 2 ^ (Zdigits2 v - 1) <= v < 2 ^ Zdigits2 v.
Proof.
  intros H. rewrite Zdigits2_log2 by exact H.
  replace (Z.log2 v + 1 - 1) with (Z.log2 v) by lia.
  apply Z.log2_spec. exact H.
Qed.

Lemma Zdigits2_pos v : 0 < v -> 0 < Zdigits2 v.
Proof. intros H. rewrite Zdigits2_log2 by exact H. pose proof (Z.log2_nonneg v). lia. Qed.

Lemma Zdigits2_mul_pow2 v k : 0 < v -> 0 <= k -> Zdigits2 (v * 2 ^ k) = Zdigits2 v + k.
Proof.
  intros Hv Hk. assert (0 < 2 ^ k) by (apply Z.pow_pos_nonneg; lia).
  rewrite !Zdigits2_log2 by nia.
  rewrite Z.log2_mul_pow2 by lia. lia.
Qed.

Lemma Zdigits2_unique v d : 2 ^ (d - 1) <= v < 2 ^ d -> 0 < d -> Zdigits2 v = d.
Proof.
  intros H Hd. assert (0 < 2 ^ (d - 1)) by (apply Z.pow_pos_nonneg; lia).
  rewrite Zdigits2_log2 by lia.
  rewrite (Z.log2_unique v (d - 1)); [lia|lia|].
  replace (Z.succ (d - 1)) with d by lia. exact H.
Qed.

Lemma Zdigits2_mono a b : 0 < a <= b -> Zdigits2 a <= Zdigits2 b.
Proof.
  intros H. rewrite !Zdigits2_log2 by lia.
  pose proof (Z.log2_le_mono a b ltac:(lia)). lia.
Qed.

Lemma pow2_pos k : 0 <= k -> 0 < 2 ^ k.
Proof. intros. apply Z.pow_pos_nonneg; lia. Qed.

(** ** The shift-right record *)

Lemma iter_pos_nat {A} (f : A -> A) p x :
  iter_pos f p x = Nat.iter (Pos.to_nat p) f x.
Proof.
  revert x. induction p as [p IH|p IH|]; intros x; cbn [iter_pos].
  - rewrite !IH, Pos2Nat.inj_xI, Nat.iter_succ_r, <- Nat.iter_add. f_equal. lia.
  - rewrite !IH, Pos2Nat.inj_xO, <- Nat.iter_add. f_equal. lia.
  - reflexivity.
Qed.

Lemma shr_1_spec m r s : 0 <= m ->
  shr_1 (Build_shr_record m r s) = Build_shr_record (m / 2) (Z.odd m) (r || s).
Proof.
  intros H. rewrite <- Z.div2_div.
  destruct m as [|[p|p|]|p]; try lia; reflexivity.
Qed.

Definition sticky (m n : Z) : bool := negb (m mod 2 ^ n =? 0).

Lemma sticky_succ m n : 0 <= m -> 0 <= n ->
  sticky m (n + 1) = Z.odd (m / 2 ^ n) || sticky m n.
Proof.
  intros Hm Hn. unfold sticky. pose proof (pow2_pos n Hn).
  rewrite Z.pow_add_r, Z.rem_mul_r by lia. change (2 ^ 1) with 2.
  rewrite Zmod_odd. pose proof (Z.mod_pos_bound m (2 ^ n) ltac:(lia)).
  destruct (Z.odd (m / 2 ^ n)); zcases; try reflexivity; lia.
Qed.

Lemma shr_iter_spec m n : 0 <= m ->
  Nat.iter (S n) shr_1 (Build_shr_record m false false) =
  Build_shr_record (m / 2 ^ Z.of_nat (S n)) (Z.odd (m / 2 ^ Z.of_nat n)) (sticky m (Z.of_nat n)).
Proof.
  intros Hm. induction n as [|n IH].
  - cbn [Nat.iter]. rewrite shr_1_spec by exact Hm.
    change (2 ^ Z.of_nat 1) with 2. change (2 ^ Z.of_nat 0) with 1.
    unfold sticky. rewrite Z.div_1_r, Z.mod_1_r. reflexivity.
  - rewrite Nat.iter_succ, IH. pose proof (pow2_pos (Z.of_nat (S n)) ltac:(lia)).
    rewrite shr_1_spec by (apply Z.div_pos; lia).
    rewrite Z.div_div by lia. f_equal.
    + f_equal. replace (Z.of_nat (S (S n))) with (Z.of_nat (S n) + 1) by lia.
      rewrite Z.pow_add_r by lia. reflexivity.
    + rewrite (Nat2Z.inj_succ n), <- Z.add_1_r, sticky_succ by lia. reflexivity.
Qed.

Lemma shr_m_iter m r s n : 0 <= m ->
  shr_m (Nat.iter n shr_1 (Build_shr_record m r s)) = m / 2 ^ Z.of_nat n.
Proof.
  intros Hm. revert m r s Hm. induction n as [|n IH]; intros m r s Hm.
  - change (2 ^ Z.of_nat 0) with 1. rewrite Z.div_1_r. reflexivity.
  - rewrite Nat.iter_succ_r, shr_1_spec, IH by (try apply Z.div_pos; lia).
    rewrite Z.div_div by (try apply pow2_pos; lia). f_equal.
    rewrite Nat2Z.inj_succ, Z.pow_succ_r by lia. lia.
Qed.

(** Rounding after a shift by [n] bits is rounding at exponent [n]. *)
Lemma shr_round m e n mrs e' : 0 <= m -> 0 <= n ->
  shr (Build_shr_record m false false) e n = (mrs, e') ->
  e' = e + n /\ round_nearest_even (shr_m mrs) (loc_of_shr_record mrs) = rne_at n m.
Proof.
  intros Hm Hn. destruct n as [|p|p]; [| |lia]; cbn [shr]; intros [= <- <-].
  - split; [lia|]. unfold rne_at. cbn [shr_m loc_of_shr_record round_nearest_even].
    change (2 ^ 0) with 1. rewrite Z.div_1_r, Z.mod_1_r. reflexivity.
  - split; [reflexivity|]. rewrite iter_pos_nat.
    destruct (Pos2Nat.is_succ p) as [k Hk]. rewrite Hk, shr_iter_spec by exact Hm.
    replace (Zpos p) with (Z.of_nat k + 1) by lia.
    rewrite (Nat2Z.inj_succ k), <- Z.add_1_r.
    unfold rne_at, sticky. cbn [shr_m loc_of_shr_record].
    set (j := Z.of_nat k). assert (Hj : 0 <= j) by lia. pose proof (pow2_pos j Hj).
    rewrite Z.pow_add_r by lia. change (2 ^ 1) with 2.
    rewrite Z.rem_mul_r by lia. rewrite Zmod_odd.
    pose proof (Z.mod_pos_bound m (2 ^ j) ltac:(lia)).
    destruct (Z.odd (m / 2 ^ j)); zcases; cbn [round_nearest_even]; try reflexivity; lia.
Qed.

(** ** Rounding *)

Lemma fexp_eq d : fexp 53 1024 d = Z.max (d - 53) (-1074).
Proof. reflexivity. Qed.

Lemma rne_at_bounds E v : v / 2 ^ E <= rne_at E v <= v / 2 ^ E + 1.
Proof. unfold rne_at. destruct (Z.even (v / 2 ^ E)); zcases; lia. Qed.

Lemma div_digits m n : 0 < m -> 0 <= n -> m / 2 ^ n < 2 ^ Z.max 0 (Zdigits2 m - n).
Proof.
  intros Hm Hn. pose proof (Zdigits2_bounds m Hm). pose proof (pow2_pos n Hn).
  apply Z.div_lt_upper_bound; [lia|]. rewrite <- Z.pow_add_r by lia.
  eapply Z.lt_le_trans; [apply H|]. apply Z.pow_le_mono_r; lia.
Qed.

Lemma div_digits_lower m n : 0 < m -> 0 <= n < Zdigits2 m -> 2 ^ (Zdigits2 m - n - 1) <= m / 2 ^ n.
Proof.
  intros Hm Hn. pose proof (Zdigits2_bounds m Hm). pose proof (pow2_pos n ltac:(lia)).
  apply Z.div_le_lower_bound; [lia|]. rewrite <- Z.pow_add_r by lia.
  replace (n + (Zdigits2 m - n - 1)) with (Zdigits2 m - 1) by lia. lia.
Qed.

(** The renormalisation after rounding: the mantissa is at most 2^53 and
    either already canonical or exactly 2^53. *)
Lemma renormalize q e : 0 <= q <= 2 ^ 53 -> -1074 <= e -> (e = -1074 \/ 2 ^ 52 <= q) ->
  exists m'' e'', snd (shr_fexp 53 1024 q e loc_Exact) = e'' /\
    shr_m (fst (shr_fexp 53 1024 q e loc_Exact)) = m'' /\ e <= e'' /\ 0 <= m'' /\
    m'' * 2 ^ (e'' - e) = q /\ (0 < m'' -> fexp 53 1024 (Zdigits2 m'' + e'') = e'').
Proof.
  intros Hq He Hcan. unfold shr_fexp. rewrite fexp_eq. cbn [shr_record_of_loc].
  assert (q = 0 \/ q = 2 ^ 53 \/ 0 < q < 2 ^ 53) as [->|[->|Hq']] by lia.
  - assert (e = -1074) as -> by lia. exists 0, (-1074). cbn. repeat split; try lia.
  - exists (2 ^ 52), (e + 1). replace (Zdigits2 (2 ^ 53)) with 54 by reflexivity.
    replace (Z.max (54 + e - 53) (-1074) - e) with 1 by lia. cbn [shr snd fst].
    replace (e + 1 - e) with 1 by lia.
    repeat split; try lia; try reflexivity. intros _. rewrite fexp_eq.
    replace (Zdigits2 (2 ^ 52)) with 53 by reflexivity. lia.
  - assert (Hd : Zdigits2 q <= 53).
    { replace 53 with (Zdigits2 (2 ^ 53 - 1)) by reflexivity. apply Zdigits2_mono. lia. }
    assert (Hn : Z.max (Zdigits2 q + e - 53) (-1074) - e <= 0) by lia.
    replace (shr (Build_shr_record q false false) e (Z.max (Zdigits2 q + e - 53) (-1074) - e))
      with (Build_shr_record q false false, e)
      by (destruct (Z.max (Zdigits2 q + e - 53) (-1074) - e); try lia; reflexivity).
    exists q, e. cbn [snd fst shr_m]. replace (e - e) with 0 by lia.
    repeat split; try lia. intros _. rewrite fexp_eq.
    destruct Hcan as [->|Hc]; [lia|].
    assert (Zdigits2 (2 ^ 52) <= Zdigits2 q) by (apply Zdigits2_mono; lia).
    replace (Zdigits2 (2 ^ 52)) with 53 in * by reflexivity. lia.
Qed.

(** What [binary_round_aux] computes from a mantissa that has enough bits. *)
Lemma round_aux_general s m e l : 0 <= m -> e <= fexp 53 1024 (Zdigits2 m + e) ->
  exists q m'' e'', let e' := fexp 53 1024 (Zdigits2 m + e) in
    ((l = loc_Exact -> q = rne_at (e' - e) m) /\ m / 2 ^ (e' - e) <= q <= m / 2 ^ (e' - e) + 1) /\
    e' <= e'' /\ 0 <= m'' /\ m'' * 2 ^ (e'' - e') = q /\
    (0 < m'' -> fexp 53 1024 (Zdigits2 m'' + e'') = e'') /\
    binary_round_aux 53 1024 s m e l =
      match m'' with
      | Z0 => S754_zero s
      | Zpos p => if e'' <=? 971 then S754_finite s p e'' else S754_infinity s
      | Zneg _ => S754_nan
      end.
Proof.
  intros Hm He. unfold binary_round_aux.
  destruct (shr_fexp 53 1024 m e l) as [mrs e1] eqn:E1. unfold shr_fexp in E1.
  set (e' := fexp 53 1024 (Zdigits2 m + e)) in *. set (n := e' - e) in *.
  set (q := round_nearest_even (shr_m mrs) (loc_of_shr_record mrs)).
  assert (Hshr : e1 = e' /\ shr_m mrs = m / 2 ^ n).
  { unfold shr in E1. assert (Hl : forall k, shr_m (Nat.iter k shr_1 (shr_record_of_loc m l)) = m / 2 ^ Z.of_nat k)
      by (intros k; destruct l as [|[]]; apply shr_m_iter; exact Hm).
    destruct n as [|p|p] eqn:En; [| |lia].
    - injection E1 as <- <-. split; [lia|]. specialize (Hl 0%nat). exact Hl.
    - injection E1 as <- <-. split; [lia|]. rewrite iter_pos_nat, Hl. f_equal. f_equal. lia. }
  destruct Hshr as [-> Hsm].
  assert (Hq : m / 2 ^ n <= q <= m / 2 ^ n + 1).
  { unfold q. rewrite Hsm. destruct (loc_of_shr_record mrs) as [|[]]; cbn; try lia.
    destruct (Z.even _); lia. }
  assert (He' : -1074 <= e') by (unfold e'; rewrite fexp_eq; lia).
  assert (Hn0 : 0 <= n) by lia.
  assert (Hq53 : 0 <= q <= 2 ^ 53 /\ (e' = -1074 \/ 2 ^ 52 <= q)).
  { assert (m = 0 \/ 0 < m) as [->|Hmp] by lia.
    - rewrite Z.div_0_l in Hq by (pose proof (pow2_pos n Hn0); lia).
      assert (e' = -1074 \/ e' = e - 53) by (unfold e'; rewrite fexp_eq; cbn [Zdigits2]; lia).
      split; [lia|left; lia].
    - pose proof (div_digits m n Hmp Hn0) as Hd.
      pose proof (Z.div_pos m (2 ^ n) Hm (pow2_pos n Hn0)).
      assert (Hdn : Zdigits2 m - n <= 53) by (unfold n, e'; rewrite fexp_eq; lia).
      pose proof (Z.pow_le_mono_r 2 (Z.max 0 (Zdigits2 m - n)) 53 ltac:(lia) ltac:(lia)).
      split; [lia|]. destruct (Z.eq_dec e' (-1074)); [left; assumption|right].
      assert (Hdn' : Zdigits2 m - n = 53) by (unfold n, e' in *; rewrite fexp_eq in *; lia).
      pose proof (div_digits_lower m n Hmp ltac:(lia)) as Hlow.
      rewrite Hdn' in Hlow. replace (53 - 1) with 52 in Hlow by lia. lia. }
  destruct (renormalize q e' (proj1 Hq53) He' (proj2 Hq53)) as (m'' & e'' & H1 & H2 & H3 & H4 & H5 & H6).
  exists q, m'', e''. cbn zeta. split; [split; [|exact Hq]|repeat split; try assumption].
  - intros ->. apply (shr_round m e n mrs e'); auto.
  - fold q. destruct (shr_fexp 53 1024 q e' loc_Exact) as [mrs'' e2].
    cbn in H1, H2. subst. destruct (shr_m mrs''); reflexivity.
Qed.

(** Zero, a positive canonical number, or plus infinity. *)
Definition d_pos_or_inf (x : double) : Prop := d_nonneg x \/ x = S754_infinity false.

Lemma round_aux_pos m e l : 0 <= m -> e <= fexp 53 1024 (Zdigits2 m + e) ->
  d_pos_or_inf (binary_round_aux 53 1024 false m e l).
Proof.
  intros Hm He. destruct (round_aux_general false m e l Hm He) as (q & m'' & e'' & _ & _ & H0 & _ & Hcan & ->).
  unfold d_pos_or_inf, d_nonneg, d_valid. destruct m'' as [|p|p]; [left; reflexivity| |lia].
  destruct (Z.leb_spec e'' 971); [left|right; reflexivity].
  split; [reflexivity|]. cbn [valid_binary]. unfold bounded, canonical_mantissa.
  apply andb_true_intro. split; [apply Z.eqb_eq, Hcan; lia|apply Z.leb_le; exact H].
Qed.

Lemma pos_iter_xO p d : Zpos (Pos.iter xO p d) = Zpos p * 2 ^ Zpos d.
Proof.
  induction d as [|d IH] using Pos.peano_ind; [cbn; lia|].
  rewrite Pos.iter_succ, Pos2Z.inj_succ, Z.pow_succ_r by lia.
  change (Zpos (Pos.iter xO p d)~0) with (2 * Zpos (Pos.iter xO p d)). rewrite IH. lia.
Qed.

Lemma shl_align_spec p e e' : let '(mz, ez) := shl_align p e e' in
  ez = Z.min e e' /\ Zpos mz = Zpos p * 2 ^ (e - Z.min e e').
Proof.
  unfold shl_align. destruct (e' - e) as [|d|d] eqn:E.
  - replace (e - Z.min e e') with 0 by lia. split; lia.
  - replace (e - Z.min e e') with 0 by lia. split; lia.
  - split; [lia|]. rewrite pos_iter_xO. f_equal. f_equal. lia.
Qed.

Lemma scaled_ltb r a b : 0 < b -> (2 * (r * b) <? a * b) = (2 * r <? a).
Proof. intros Hb. zcases; try reflexivity; nia. Qed.
Lemma scaled_eqb r a b : 0 < b -> (2 * (r * b) =? a * b) = (2 * r =? a).
Proof. intros Hb. zcases; try reflexivity; nia. Qed.

(** Rounding a positive integer number of units [m * 2^e], [e >= -1074]. *)
Lemma binary_round_spec m e : -1074 <= e ->
  let v := Zpos m * 2 ^ (e + 1074) in
  let x := binary_round 53 1024 false m e in
  (x = S754_infinity false /\ 2 ^ (1024 + 1074) <= rne v) \/ (d_nonneg x /\ d_val x = rne v).
Proof.
  intros He v x. unfold x, binary_round. change (Zpos (digits2_pos m)) with (Zdigits2 (Zpos m)).
  pose proof (shl_align_spec m e (fexp 53 1024 (Zdigits2 (Zpos m) + e))) as Hal.
  destruct (shl_align m e (fexp 53 1024 (Zdigits2 (Zpos m) + e))) as [mz ez].
  rewrite fexp_eq in Hal. destruct Hal as [-> Hmz]. set (D := Zdigits2 (Zpos m) + e) in *.
  set (ez := Z.min e (Z.max (D - 53) (-1074))) in *.
  assert (HD : Zdigits2 (Zpos mz) + ez = D).
  { rewrite Hmz, Zdigits2_mul_pow2 by lia. lia. }
  assert (Hv : v = Zpos mz * 2 ^ (ez + 1074)).
  { unfold v. rewrite Hmz, <- Z.mul_assoc, <- Z.pow_add_r by lia. do 2 f_equal. lia. }
  assert (Hdv : Zdigits2 v = D + 1074) by (rewrite Hv, Zdigits2_mul_pow2; lia).
  assert (Hez : ez <= fexp 53 1024 (Zdigits2 (Zpos mz) + ez)) by (rewrite HD, fexp_eq; lia).
  pose proof (round_aux_pos (Zpos mz) ez loc_Exact ltac:(lia) Hez) as Hpos.
  destruct (round_aux_general false (Zpos mz) ez loc_Exact ltac:(lia) Hez)
    as (q & m'' & e'' & [Hq _] & He'' & H0 & Hm'' & Hcan & Heq).
  specialize (Hq eq_refl). rewrite HD, fexp_eq in *. set (e' := Z.max (D - 53) (-1074)) in *.
  assert (Hrne : rne v = q * 2 ^ (e' + 1074)).
  { unfold rne. replace (rexp v) with (e' + 1074) by (unfold rexp; rewrite Hdv; lia).
    f_equal. rewrite Hq, Hv. unfold rne_at.
    replace (2 ^ (e' + 1074)) with (2 ^ (e' - ez) * 2 ^ (ez + 1074))
      by (rewrite <- Z.pow_add_r by lia; f_equal; lia).
    pose proof (pow2_pos (ez + 1074) ltac:(lia)). pose proof (pow2_pos (e' - ez) ltac:(lia)).
    rewrite Z.div_mul_cancel_r, Z.mul_mod_distr_r by lia.
    rewrite scaled_ltb, scaled_eqb by lia. reflexivity. }
  assert (Hval : m'' * 2 ^ (e'' + 1074) = rne v).
  { rewrite Hrne, <- Hm'', <- Z.mul_assoc, <- Z.pow_add_r by lia. do 2 f_equal. lia. }
  rewrite Heq in *. destruct m'' as [|p|p]; [right; split; [reflexivity|rewrite <- Hval; reflexivity]| |lia].
  destruct (Z.leb_spec e'' 971) as [Hle|Hgt].
  - right. destruct Hpos as [Hpos|?]; [|discriminate]. split; [exact Hpos|].
    rewrite <- Hval. cbn [d_val]. lia.
  - left. split; [reflexivity|]. rewrite <- Hval. specialize (Hcan ltac:(lia)). rewrite ?fexp_eq in Hcan.
    pose proof (Zdigits2_bounds (Zpos p) ltac:(lia)) as Hb.
    replace (Zdigits2 (Zpos p)) with 53 in Hb by lia.
    replace (1024 + 1074) with (52 + (972 + 1074)) by lia. rewrite Z.pow_add_r by lia.
    pose proof (Z.pow_le_mono_r 2 (972 + 1074) (e'' + 1074) ltac:(lia) ltac:(lia)).
    apply Z.mul_le_mono_nonneg; lia.
Qed.

(** ** Canonical doubles are determined by their value *)

Lemma d_nonneg_exp s p e : d_nonneg (S754_finite s p e) ->
  s = false /\ -1074 <= e <= 971 /\ e = Z.max (Zdigits2 (Zpos p) + e - 53) (-1074).
Proof.
  intros [-> Hv]. unfold d_valid in Hv. cbn [valid_binary] in Hv. unfold bounded, canonical_mantissa in Hv.
  apply andb_prop in Hv as [H1 H2]. apply Z.eqb_eq in H1. apply Z.leb_le in H2.
  change (Zpos (digits2_pos p)) with (Zdigits2 (Zpos p)) in H1. rewrite fexp_eq in H1. lia.
Qed.

Lemma d_val_nonneg x : d_nonneg x -> 0 <= d_val x.
Proof.
  destruct x as [s|s| |s p e]; cbn [d_val]; try lia. intros H.
  apply d_nonneg_exp in H as (-> & He & _). pose proof (pow2_pos (e + 1074) ltac:(lia)). lia.
Qed.

Lemma d_val_inj x y : d_nonneg x -> d_nonneg y -> d_val x = d_val y -> x = y.
Proof.
  intros Hx Hy H. destruct x as [sx|sx| |sx px ex]; try contradiction;
    destruct y as [sy|sy| |sy py ey]; try contradiction; cbn [d_val] in H.
  - cbn in Hx, Hy. congruence.
  - apply d_nonneg_exp in Hy as (-> & He & _). pose proof (pow2_pos (ey + 1074) ltac:(lia)). nia.
  - apply d_nonneg_exp in Hx as (-> & He & _). pose proof (pow2_pos (ex + 1074) ltac:(lia)). nia.
  - apply d_nonneg_exp in Hx as (-> & He & Hc). apply d_nonneg_exp in Hy as (-> & He' & Hc').
    rewrite !Z.mul_1_l in H.
    assert (Hd : Zdigits2 (Zpos px) + (ex + 1074) = Zdigits2 (Zpos py) + (ey + 1074))
      by (rewrite <- !Zdigits2_mul_pow2, H by lia; reflexivity).
    assert (ex = ey) by lia. subst ey. apply Z.mul_reg_r in H; [congruence|].
    pose proof (pow2_pos (ex + 1074) ltac:(lia)). lia.
Qed.

Lemma d_val_unit x : d_nonneg x -> x = S754_zero false \/
  exists p e, x = S754_finite false p e /\ -1074 <= e <= 971 /\ d_val x = Zpos p * 2 ^ (e + 1074).
Proof.
  destruct x as [s|s| |s p e]; try contradiction; intros H.
  - cbn in H. subst. left. reflexivity.
  - right. destruct (d_nonneg_exp _ _ _ H) as (-> & He & _). exists p, e. cbn [d_val]. split; [reflexivity|lia].
Qed.

(** ** Addition of non-negative doubles is integer addition, rounded *)

Lemma rne_0 : rne 0 = 0.
Proof. reflexivity. Qed.

Lemma rexp_nonneg v : 0 <= rexp v.
Proof. unfold rexp. lia. Qed.

Lemma rne_multiple v : (2 ^ rexp v | v) -> rne v = v.
Proof.
  intros [k Hk]. unfold rne, rne_at. pose proof (pow2_pos (rexp v) (rexp_nonneg v)).
  replace (v mod 2 ^ rexp v) with 0 by (rewrite Hk at 1; rewrite Z.mod_mul by lia; reflexivity).
  replace (v / 2 ^ rexp v) with k by (rewrite Hk at 1; rewrite Z.div_mul by lia; reflexivity).
  zcases; lia.
Qed.

Lemma d_val_rne x : d_nonneg x -> rne (d_val x) = d_val x.
Proof.
  intros H. destruct (d_val_unit x H) as [->|(p & e & -> & He & Hv)]; [reflexivity|].
  apply rne_multiple. apply d_nonneg_exp in H as (_ & _ & Hc). rewrite Hv. unfold rexp.
  rewrite Zdigits2_mul_pow2 by lia.
  replace (Z.max (Zdigits2 (Zpos p) + (e + 1074) - 53) 0) with (e + 1074) by lia.
  apply Z.divide_factor_r.
Qed.

Theorem d_add_spec x y : d_nonneg x -> d_nonneg y ->
  (d_add x y = S754_infinity false /\ 2 ^ (1024 + 1074) <= rne (d_val x + d_val y)) \/
  (d_nonneg (d_add x y) /\ d_val (d_add x y) = rne (d_val x + d_val y)).
Proof.
  intros Hx Hy.
  destruct (d_val_unit x Hx) as [->|(px & ex & -> & Hex & Hvx)].
  { right. rewrite Z.add_0_l, d_val_rne by exact Hy.
    destruct (d_val_unit y Hy) as [->|(py & ey & -> & _)]; split; auto. }
  destruct (d_val_unit y Hy) as [->|(py & ey & -> & Hey & Hvy)].
  { right. change (d_val (S754_zero false)) with 0. rewrite Z.add_0_r, d_val_rne by exact Hx. split; auto. }
  unfold d_add. cbn [SFadd]. set (ez := Z.min ex ey).
  pose proof (shl_align_spec px ex ez) as Hax. pose proof (shl_align_spec py ey ez) as Hay.
  destruct (shl_align px ex ez) as [mx ?], (shl_align py ey ez) as [my ?]. cbn [fst cond_Zopp].
  destruct Hax as [_ Hax], Hay as [_ Hay].
  assert (Hsum : Zpos (mx + my) * 2 ^ (ez + 1074) = d_val (S754_finite false px ex) + d_val (S754_finite false py ey)).
  { rewrite Hvx, Hvy, Pos2Z.inj_add, Hax, Hay, Z.mul_add_distr_r.
    rewrite <- !Z.mul_assoc, <- !Z.pow_add_r by lia. f_equal; (f_equal; f_equal; lia). }
  change (Zpos mx + Zpos my) with (Zpos (mx + my)). cbn [binary_normalize].
  rewrite <- Hsum. apply binary_round_spec. lia.
Qed.

(** ** Rounding is monotone *)

Lemma rne_at_mono E v w : 0 <= E -> v <= w -> rne_at E v <= rne_at E w.
Proof.
  intros HE H. pose proof (pow2_pos E HE) as HP.
  pose proof (Z.div_le_mono v w (2 ^ E) HP H) as Hq.
  pose proof (rne_at_bounds E v). pose proof (rne_at_bounds E w).
  destruct (Z.eq_dec (v / 2 ^ E) (w / 2 ^ E)) as [Heq|Hne]; [|lia].
  assert (Hr : v mod 2 ^ E <= w mod 2 ^ E) by (rewrite !Z.mod_eq by lia; nia).
  unfold rne_at. rewrite Heq. destruct (Z.even (w / 2 ^ E)); zcases; lia.
Qed.

Lemma rne_upper v : 0 <= v -> rne v <= 2 ^ (53 + rexp v).
Proof.
  intros Hv. assert (v = 0 \/ 0 < v) as [->|Hp] by lia; [apply Z.pow_nonneg; lia|].
  unfold rne. rewrite Z.pow_add_r by (pose proof (rexp_nonneg v); lia).
  apply Z.mul_le_mono_nonneg_r; [apply Z.pow_nonneg; lia|].
  pose proof (rne_at_bounds (rexp v) v). pose proof (div_digits v (rexp v) Hp (rexp_nonneg v)).
  pose proof (Z.pow_le_mono_r 2 (Z.max 0 (Zdigits2 v - rexp v)) 53 ltac:(lia) ltac:(unfold rexp; lia)). lia.
Qed.

Lemma rne_lower v : 0 < v -> 0 < rexp v -> 2 ^ (52 + rexp v) <= rne v.
Proof.
  intros Hv HE. unfold rne. rewrite Z.pow_add_r by lia.
  apply Z.mul_le_mono_nonneg_r; [apply Z.pow_nonneg; lia|].
  pose proof (rne_at_bounds (rexp v) v).
  pose proof (div_digits_lower v (rexp v) Hv ltac:(unfold rexp in *; lia)) as Hl.
  replace (Zdigits2 v - rexp v - 1) with 52 in Hl by (unfold rexp in *; lia). lia.
Qed.

Lemma rne_mono v w : 0 <= v <= w -> rne v <= rne w.
Proof.
  intros [Hv H]. assert (v = 0 \/ 0 < v) as [->|Hp] by lia.
  { rewrite rne_0. unfold rne. apply Z.mul_nonneg_nonneg; [|apply Z.pow_nonneg; lia].
    pose proof (rne_at_bounds (rexp w) w).
    pose proof (Z.div_pos w (2 ^ rexp w) ltac:(lia) (pow2_pos _ (rexp_nonneg w))). lia. }
  pose proof (Zdigits2_mono v w ltac:(lia)) as Hd.
  pose proof (rexp_nonneg v). pose proof (rexp_nonneg w).
  assert (rexp v = rexp w \/ rexp v < rexp w) as [He|He] by (unfold rexp in *; lia).
  - unfold rne. rewrite He. apply Z.mul_le_mono_nonneg_r; [apply Z.pow_nonneg; lia|].
    apply rne_at_mono; lia.
  - pose proof (rne_upper v ltac:(lia)). pose proof (rne_lower w ltac:(lia) ltac:(lia)).
    pose proof (Z.pow_le_mono_r 2 (53 + rexp v) (52 + rexp w) ltac:(lia) ltac:(lia)). lia.
Qed.

(** Adding a non-negative double never decreases the value. *)
Lemma d_add_ge x y : d_nonneg x -> d_nonneg y -> d_nonneg (d_add x y) -> d_val x <= d_val (d_add x y).
Proof.
  intros Hx Hy Hs. destruct (d_add_spec x y Hx Hy) as [[E _]|[_ ->]]; [rewrite E in Hs; contradiction|].
  rewrite <- (d_val_rne x Hx) at 1. apply rne_mono.
  pose proof (d_val_nonneg x Hx). pose proof (d_val_nonneg y Hy). lia.
Qed.

Lemma d_val_lt_max x : d_nonneg x -> d_val x < 2 ^ (1024 + 1074).
Proof.
  intros Hs. destruct (d_val_unit _ Hs) as [->|(p & e & -> & He & ->)]; [reflexivity|].
  apply d_nonneg_exp in Hs as (_ & _ & Hc). pose proof (Zdigits2_bounds (Zpos p) ltac:(lia)).
  pose proof (Z.pow_le_mono_r 2 (Zdigits2 (Zpos p)) 53 ltac:(lia) ltac:(lia)).
  pose proof (Z.pow_le_mono_r 2 (e + 1074) (971 + 1074) ltac:(lia) ltac:(lia)).
  replace (1024 + 1074) with (53 + (971 + 1074)) by lia. rewrite (Z.pow_add_r 2 53 (971 + 1074)) by lia.
  pose proof (pow2_pos (e + 1074) ltac:(lia)). nia.
Qed.

Lemma d_add_mono x y x' y' : d_nonneg x -> d_nonneg y -> d_nonneg x' -> d_nonneg y' ->
  d_val x <= d_val x' -> d_val y <= d_val y' -> d_nonneg (d_add x' y') ->
  d_nonneg (d_add x y) /\ d_val (d_add x y) <= d_val (d_add x' y').
Proof.
  intros Hx Hy Hx' Hy' H1 H2 Hs.
  assert (Hle : rne (d_val x + d_val y) <= rne (d_val x' + d_val y')).
  { apply rne_mono. pose proof (d_val_nonneg x Hx). pose proof (d_val_nonneg y Hy). lia. }
  destruct (d_add_spec x' y' Hx' Hy') as [[E _]|[_ ->]]; [rewrite E in Hs; contradiction|].
  destruct (d_add_spec x y Hx Hy) as [[_ E]|[Hn ->]]; [|split; [exact Hn|exact Hle]].
  exfalso. apply (Z.lt_irrefl (2 ^ (1024 + 1074))). eapply Z.le_lt_trans; [eapply Z.le_trans; [exact E|exact Hle]|].
  destruct (d_add_spec x' y' Hx' Hy') as [[E' _]|[_ <-]]; [rewrite E' in Hs; contradiction|].
  apply d_val_lt_max. exact Hs.
Qed.

(** ** Integers up to 2^53 *)

Lemma d_of_Z_spec n : 0 <= n <= 2 ^ 53 -> d_nonneg (d_of_Z n) /\ d_val (d_of_Z n) = n * 2 ^ 1074.
Proof.
  intros Hn. destruct n as [|p|p]; [split; reflexivity| |lia].
  unfold d_of_Z. cbn [binary_normalize].
  assert (Hr : rne (Zpos p * 2 ^ (0 + 1074)) = Zpos p * 2 ^ 1074).
  { apply rne_multiple. unfold rexp. rewrite Zdigits2_mul_pow2 by lia.
    assert (Zdigits2 (Zpos p) <= Zdigits2 (2 ^ 53)) by (apply Zdigits2_mono; lia).
    assert (Zpos p = 2 ^ 53 \/ Zpos p < 2 ^ 53) as [->|Hlt] by lia.
    - replace (Z.max (Zdigits2 (2 ^ 53) + (0 + 1074) - 53) 0) with 1075 by reflexivity.
      exists (2 ^ 52). rewrite <- !Z.pow_add_r by lia. reflexivity.
    - assert (Zdigits2 (Zpos p) <= Zdigits2 (2 ^ 53 - 1)) by (apply Zdigits2_mono; lia).
      replace (Zdigits2 (2 ^ 53 - 1)) with 53 in * by reflexivity.
      apply Z.divide_mul_r. exists (2 ^ (0 + 1074 - Z.max (Zdigits2 (Zpos p) + (0 + 1074) - 53) 0)).
      rewrite <- Z.pow_add_r by lia. f_equal. lia. }
  destruct (binary_round_spec p 0 ltac:(lia)) as [[_ H]|[H1 H2]]; rewrite Hr in *.
  - exfalso. rewrite Z.pow_add_r in H by lia. apply Z.mul_le_mono_pos_r in H; [|reflexivity].
    assert (2 ^ 53 < 2 ^ 1024) by reflexivity. lia.
  - split; assumption.
Qed.

Lemma d_of_Z_nonneg n : 0 <= n <= 2 ^ 53 -> d_nonneg (d_of_Z n).
Proof. intros H. apply d_of_Z_spec, H. Qed.

(** Sums of integers below 2^53 are exact. *)
Theorem d_add_exact a b : 0 <= a -> 0 <= b -> a + b <= 2 ^ 53 ->
  d_add (d_of_Z a) (d_of_Z b) = d_of_Z (a + b).
Proof.
  intros Ha Hb Hab.
  destruct (d_of_Z_spec a ltac:(lia)) as [Na Va], (d_of_Z_spec b ltac:(lia)) as [Nb Vb],
    (d_of_Z_spec (a + b) ltac:(lia)) as [Nc Vc].
  assert (Hsum : d_val (d_of_Z a) + d_val (d_of_Z b) = d_val (d_of_Z (a + b))) by (rewrite Va, Vb, Vc; lia).
  destruct (d_add_spec _ _ Na Nb) as [[_ H]|[Hn Hv]]; rewrite Hsum, d_val_rne in * by exact Nc.
  - exfalso. rewrite Vc, Z.pow_add_r in H by lia. apply Z.mul_le_mono_pos_r in H; [|reflexivity].
    assert (2 ^ 53 < 2 ^ 1024) by reflexivity. lia.
  - apply d_val_inj; assumption.
Qed.

(** ** Truncation *)

Lemma d_trunc_val x : d_nonneg x -> d_trunc x = Some (d_val x / 2 ^ 1074).
Proof.
  intros H. destruct (d_val_unit x H) as [->|(p & e & -> & He & ->)]; [reflexivity|].
  cbn [d_trunc]. f_equal. destruct (Z.leb_spec 0 e).
  - rewrite Z.pow_add_r, Z.mul_assoc, Z.div_mul by (try lia; apply Z.pow_nonzero; lia). reflexivity.
  - replace 1074 with ((e + 1074) + - e) at 2 by lia. rewrite (Z.pow_add_r 2 (e + 1074) (- e)) by lia.
    rewrite Z.mul_comm, Z.div_mul_cancel_l; try apply Z.pow_nonzero; lia.
Qed.

Lemma d_to_u64_val x z : d_nonneg x -> d_to_u64 x = Some z <-> z = d_val x / 2 ^ 1074 /\ z < 2 ^ 64.
Proof.
  intros H. unfold d_to_u64. rewrite d_trunc_val by exact H.
  pose proof (Z.div_pos (d_val x) (2 ^ 1074) (d_val_nonneg x H) ltac:(reflexivity)).
  zcases; split; try (intros [= <-]; lia); try discriminate; try (intros [-> ?]; f_equal; lia); lia.
Qed.

Lemma d_to_u64_of_Z n : 0 <= n <= 2 ^ 53 -> d_to_u64 (d_of_Z n) = Some n.
Proof.
  intros H. destruct (d_of_Z_spec n H) as [Hn Hv]. apply d_to_u64_val; [exact Hn|].
  rewrite Hv, Z.div_mul by lia. lia.
Qed.

Lemma d_to_u64_range x z : d_to_u64 x = Some z -> 0 <= z < 2 ^ 64.
Proof.
  unfold d_to_u64. destruct (d_trunc x); [|discriminate].
  destruct (Z.leb_spec 0 z0); destruct (Z.ltb_spec z0 (2 ^ 64)); cbn; try discriminate.
  intros [= <-]. lia.
Qed.

Lemma d_to_u64_mono x y a b : d_nonneg x -> d_nonneg y -> d_val x <= d_val y ->
  d_to_u64 x = Some a -> d_to_u64 y = Some b -> a <= b.
Proof.
  intros Hx Hy H Ha Hb. apply d_to_u64_val in Ha as [-> _]; [|exact Hx].
  apply d_to_u64_val in Hb as [-> _]; [|exact Hy]. apply Z.div_le_mono; [reflexivity|exact H].
Qed.

(** The cast is defined whenever a larger double casts. *)
Lemma d_to_u64_le x y b : d_nonneg x -> d_nonneg y -> d_val x <= d_val y ->
  d_to_u64 y = Some b -> exists a, d_to_u64 x = Some a /\ a <= b.
Proof.
  intros Hx Hy H Hb. exists (d_val x / 2 ^ 1074). apply d_to_u64_val in Hb as [-> Hlt]; [|exact Hy].
  pose proof (Z.div_le_mono (d_val x) (d_val y) (2 ^ 1074) ltac:(reflexivity) H).
  split; [apply d_to_u64_val; [exact Hx|lia]|lia].
Qed.

(** ** Products and quotients of non-negative doubles *)

Lemma d_mul_pos x y : d_nonneg x -> d_nonneg y -> d_pos_or_inf (d_mul x y).
Proof.
  intros Hx Hy. destruct (d_val_unit x Hx) as [->|(px & ex & -> & Hex & _)];
    destruct (d_val_unit y Hy) as [->|(py & ey & -> & Hey & _)]; try (left; reflexivity).
  apply d_nonneg_exp in Hx as (_ & _ & Hcx). apply d_nonneg_exp in Hy as (_ & _ & Hcy).
  unfold d_mul. cbn [SFmul xorb]. apply round_aux_pos; [lia|].
  assert (Zdigits2 (Zpos px) <= Zdigits2 (Zpos (px * py))) by (apply Zdigits2_mono; nia).
  assert (Zdigits2 (Zpos py) <= Zdigits2 (Zpos (px * py))) by (apply Zdigits2_mono; nia).
  rewrite fexp_eq. lia.
Qed.

Lemma scale_match m s : 0 <= s ->
  match s with Z0 => m | Zpos _ => Z.shiftl m s | Zneg _ => 0 end = m * 2 ^ s.
Proof. intros Hs. rewrite <- Z.shiftl_mul_pow2 by exact Hs. destruct s; [reflexivity..|lia]. Qed.

Lemma div_core_digits m1 e1 m2 e2 : 0 < m1 -> 0 < m2 ->
  let '(q, e, _) := SFdiv_core_binary 53 1024 m1 e1 m2 e2 in
  0 <= q /\ e <= fexp 53 1024 (Zdigits2 q + e).
Proof.
  intros H1 H2. unfold SFdiv_core_binary. rewrite fexp_eq.
  set (e' := Z.min _ _). set (s := e1 - e2 - e').
  assert (Hs : 0 <= s) by lia.
  rewrite (scale_match m1 s Hs).
  pose proof (pow2_pos s Hs). pose proof (Z_div_mod (m1 * 2 ^ s) m2 ltac:(lia)) as Hdm.
  destruct (Z.div_eucl (m1 * 2 ^ s) m2) as [q r]. destruct Hdm as [Hdm Hr].
  assert (Hq : 0 <= q) by nia. split; [exact Hq|]. rewrite fexp_eq.
  pose proof (Zdigits2_mul_pow2 m1 s H1 Hs) as Hd.
  assert (Hdq : Zdigits2 m1 + s <= Zdigits2 q + Zdigits2 m2).
  { rewrite <- Hd. assert (m1 * 2 ^ s < 2 ^ (Zdigits2 q + Zdigits2 m2)).
    { pose proof (Zdigits2_bounds m2 H2). pose proof (Zdigits2_pos m2 H2).
      assert (0 <= Zdigits2 q /\ q < 2 ^ Zdigits2 q) as [Hq0 Hq1].
      { assert (q = 0 \/ 0 < q) as [->|Hp] by lia; [cbn; lia|].
        pose proof (Zdigits2_bounds q Hp). pose proof (Zdigits2_pos q Hp). lia. }
      rewrite Z.pow_add_r by lia. nia. }
    apply Z.lt_pred_le. rewrite <- Z.sub_1_r.
    pose proof (Zdigits2_bounds (m1 * 2 ^ s) ltac:(nia)).
    apply (Z.pow_lt_mono_r_iff 2); try lia.
    destruct q; cbn [Zdigits2]; pose proof (Zdigits2_pos m2 H2); lia. }
  lia.
Qed.

Lemma d_div_pos x y : d_nonneg x -> d_nonneg y -> y <> S754_zero false -> d_pos_or_inf (d_div x y).
Proof.
  intros Hx Hy Hy0. destruct (d_val_unit y Hy) as [->|(py & ey & -> & _)]; [contradiction|].
  destruct (d_val_unit x Hx) as [->|(px & ex & -> & _)]; [left; reflexivity|].
  unfold d_div. cbn [SFdiv xorb].
  pose proof (div_core_digits (Zpos px) ex (Zpos py) ey ltac:(lia) ltac:(lia)) as H.
  destruct (SFdiv_core_binary 53 1024 (Zpos px) ex (Zpos py) ey) as [[q e] l].
  destruct H as [Hq He]. apply round_aux_pos; assumption.
Qed.

Lemma d_of_Z_u64_nonneg n : 0 <= n < 2 ^ 64 -> d_nonneg (d_of_Z n).
Proof.
  intros Hn. destruct n as [|p|p]; [reflexivity| |lia]. unfold d_of_Z. cbn [binary_normalize].
  destruct (binary_round_spec p 0 ltac:(lia)) as [[_ H]|[H _]]; [|exact H]. exfalso.
  set (v := Zpos p * 2 ^ (0 + 1074)) in *.
  assert (Hv : 0 <= v <= d_val (S754_finite false (2 ^ 52) 971)).
  { unfold v. split; [apply Z.mul_nonneg_nonneg; [lia|apply Z.pow_nonneg; lia]|].
    transitivity (2 ^ 64 * 2 ^ 1074); [|vm_compute; discriminate].
    apply Z.mul_le_mono_nonneg_r; [apply Z.pow_nonneg; lia|lia]. }
  pose proof (rne_mono _ _ Hv) as Hm. rewrite d_val_rne in Hm by (split; reflexivity).
  assert (d_val (S754_finite false (2 ^ 52) 971) < 2 ^ (1024 + 1074)) by (vm_compute; reflexivity). lia.
Qed.

Lemma d_of_Z_nonzero n : 0 < n < 2 ^ 64 -> d_of_Z n <> S754_zero false.
Proof.
  intros Hn. destruct n as [|p|p]; try lia. unfold d_of_Z. cbn [binary_normalize].
  intros E. destruct (binary_round_spec p 0 ltac:(lia)) as [[H _]|[_ H]]; [congruence|].
  rewrite E in H. cbn [d_val] in H.
  pose proof (rne_mono 1 (Zpos p * 2 ^ (0 + 1074))) as Hm. rewrite <- H in Hm.
  change (rne 1) with 1 in Hm. assert (0 < 2 ^ (0 + 1074)) by reflexivity. nia.
Qed.

(** Adding plus zero changes nothing. *)
Lemma d_add_zero_r x : d_nonneg x -> d_add x d_zero = x.
Proof. intros H. destruct (d_val_unit x H) as [->|(p & e & -> & _)]; reflexivity. Qed.

(** Zero times a non-negative finite double. *)
Lemma d_mul_zero_l x : d_nonneg x -> d_mul d_zero x = d_zero.
Proof. intros H. destruct (d_val_unit x H) as [->|(p & e & -> & _)]; reflexivity. Qed.

(** A sum that casts to an integer has finite non-negative summands. *)
Lemma d_add_finite x y z : d_nonneg x -> d_pos_or_inf y -> d_to_u64 (d_add x y) = Some z ->
  d_nonneg y /\ d_nonneg (d_add x y).
Proof.
  intros Hx [Hy| ->] H.
  - split; [exact Hy|]. destruct (d_add_spec x y Hx Hy) as [[E _]|[E _]]; [|exact E].
    rewrite E in H. discriminate.
  - destruct (d_val_unit x Hx) as [->|(p & e & -> & _)]; discriminate.
Qed.

(** ** Accumulators

    What a counter can hold after adding non-negative amounts: a
    non-negative number, plus infinity or NaN. *)
Definition d_ok (x : double) : Prop := d_pos_or_inf x \/ x = S754_nan.

Lemma d_nonneg_ok x : d_nonneg x -> d_ok x.
Proof. intros H. left. left. exact H. Qed.

Lemma d_add_ok x y : d_ok x -> d_ok y -> d_ok (d_add x y).
Proof.
  intros [[Hx| ->]| ->] [[Hy| ->]| ->]; try (right; reflexivity); try (left; right; reflexivity).
  - destruct (d_add_spec x y Hx Hy) as [[-> _]|[H _]]; left; [right; reflexivity|left; exact H].
  - destruct (d_val_unit x Hx) as [->|(p & e & -> & _)]; left; right; reflexivity.
  - destruct (d_val_unit x Hx) as [->|(p & e & -> & _)]; right; reflexivity.
  - destruct (d_val_unit y Hy) as [->|(p & e & -> & _)]; left; right; reflexivity.
Qed.

Lemma d_mul_ok x y : d_nonneg x -> d_pos_or_inf y -> d_ok (d_mul x y).
Proof.
  intros Hx [Hy| ->]; [left; apply d_mul_pos; assumption|].
  destruct (d_val_unit x Hx) as [->|(p & e & -> & _)]; [right; reflexivity|left; right; reflexivity].
Qed.

(** A sum of accumulators that casts has finite summands. *)
Lemma d_add_cast x y : d_ok x -> d_ok y -> d_nonneg (d_add x y) -> d_nonneg x /\ d_nonneg y.
Proof.
  intros [[Hx| ->]| ->] [[Hy| ->]| ->] H; try contradiction; try (split; assumption).
  - destruct (d_val_unit x Hx) as [->|(p & e & -> & _)]; contradiction.
  - destruct (d_val_unit x Hx) as [->|(p & e & -> & _)]; contradiction.
  - destruct (d_val_unit y Hy) as [->|(p & e & -> & _)]; contradiction.
Qed.

Lemma d_ok_cast x z : d_ok x -> d_to_u64 x = Some z -> d_nonneg x.
Proof. intros [[Hx| ->]| ->] H; [exact Hx|discriminate..]. Qed.
