(* ===== verification/ArmTable.v ===== *)
(** * The instruction tables of [vemu_arm.c]

    The cycle costs ([CYCLES_*]) and the three tables that
    [vemu_target_decode_instr] indexes: [vemu_thumb_instr] (256 entries, by
    the top byte of a 16-bit Thumb instruction), [vemu_arm_instr] (4096
    entries, by bits 27-20 and 7-4 of an ARM instruction) and
    [vemu_thumb2_instr] (one entry).  The rows are in the order of the
    source; each table is the concatenation of blocks of 128 rows. *)
From Stdlib Require Import ZArith String.
From stdpp Require Import base list.
From S2P Require Import Double.
Open Scope string_scope.
Open Scope Z_scope.
Open Scope list_scope.

(** ** [vemu_instr_info] of [vemu.h] *)
Record vemu_instr_info : Type := {
  instr_opcode : Z;
  instr_name : string;
  instr_class : Z;
  instr_cycles : double;
  instr_errors : bool
}.

Definition VEMU_ERRORS_NONE : Z := 0.
Definition VEMU_ERRORS_REPLACE : Z := 1.
Definition VEMU_ERRORS_PRE : Z := 2.
Definition VEMU_ERRORS_POST : Z := 4.

(** Initialiser of one row: [errors] is a C [bool]. *)
Definition row (op : Z) (nm : string) (cl : Z) (cy : double) (er : Z) : vemu_instr_info :=
  {| instr_opcode := op; instr_name := nm; instr_class := cl; instr_cycles := cy;
     instr_errors := negb (er =? 0) |}.

Definition CLASS_DEFAULT : Z := 0.
Definition ERRORS_DEFAULT : Z := VEMU_ERRORS_NONE.

(** ** Cycle costs *)
Definition CYCLES_DATA_OP_ARITH : double := d_of_Z 1.
Definition CYCLES_DATA_OP_LOGIC : double := d_of_Z 1.
Definition CYCLES_BRANCH : double := d_of_Z 2.
Definition CYCLES_DEFAULT : double := d_of_Z 1.
Definition CYCLES_NONE : double := d_of_Z 0.
Definition CYCLES_ADC : double := CYCLES_DATA_OP_ARITH.
Definition CYCLES_ADCS : double := CYCLES_DATA_OP_ARITH.
Definition CYCLES_ADD : double := CYCLES_DATA_OP_ARITH.
Definition CYCLES_ADDS : double := CYCLES_DATA_OP_ARITH.
Definition CYCLES_AND : double := CYCLES_DATA_OP_LOGIC.
Definition CYCLES_ANDS : double := CYCLES_DATA_OP_LOGIC.
Definition CYCLES_ASR : double := CYCLES_DATA_OP_LOGIC.
Definition CYCLES_B : double := CYCLES_BRANCH.
Definition CYCLES_BCC : double := CYCLES_BRANCH.
Definition CYCLES_BCS : double := CYCLES_BRANCH.
Definition CYCLES_BEQ : double := CYCLES_BRANCH.
Definition CYCLES_BGE : double := CYCLES_BRANCH.
Definition CYCLES_BGT : double := CYCLES_BRANCH.
Definition CYCLES_BHI : double := CYCLES_BRANCH.
Definition CYCLES_BIC : double := CYCLES_DATA_OP_LOGIC.
Definition CYCLES_BICS : double := CYCLES_DATA_OP_LOGIC.
Definition CYCLES_BKPT : double := CYCLES_DATA_OP_ARITH.
Definition CYCLES_BL : double := CYCLES_BRANCH.
Definition CYCLES_BLE : double := CYCLES_BRANCH.
Definition CYCLES_BLS : double := CYCLES_BRANCH.
Definition CYCLES_BLT : double := CYCLES_BRANCH.
Definition CYCLES_BLX : double := CYCLES_BRANCH.
Definition CYCLES_BMI : double := CYCLES_BRANCH.
Definition CYCLES_BNE : double := CYCLES_BRANCH.
Definition CYCLES_BPL : double := CYCLES_BRANCH.
Definition CYCLES_BVC : double := CYCLES_BRANCH.
Definition CYCLES_BVS : double := CYCLES_BRANCH.
Definition CYCLES_BX : double := CYCLES_BRANCH.
Definition CYCLES_CBZ : double := CYCLES_BRANCH.
Definition CYCLES_CBNZ : double := CYCLES_BRANCH.
Definition CYCLES_CDP : double := d_of_Z 1.
Definition CYCLES_CLZ : double := d_of_Z 1.
Definition CYCLES_CMN : double := CYCLES_DATA_OP_ARITH.
Definition CYCLES_CMNS : double := CYCLES_DATA_OP_ARITH.
Definition CYCLES_CMP : double := CYCLES_DATA_OP_ARITH.
Definition CYCLES_CMPS : double := CYCLES_DATA_OP_ARITH.
Definition CYCLES_CPSIE : double := CYCLES_DEFAULT.
Definition CYCLES_DP : double := CYCLES_DEFAULT.
Definition CYCLES_EOR : double := CYCLES_DATA_OP_LOGIC.
Definition CYCLES_EORS : double := CYCLES_DATA_OP_LOGIC.
Definition CYCLES_ITE : double := CYCLES_BRANCH.
Definition CYCLES_LDC : double := d_of_Z 2.
Definition CYCLES_LDMDA : double := d_of_Z 1.
Definition CYCLES_LDMDB : double := d_of_Z 1.
Definition CYCLES_LDMIA : double := d_of_Z 1.
Definition CYCLES_LDMIB : double := d_of_Z 1.
Definition CYCLES_LDR : double := d_of_Z 3.
Definition CYCLES_LDRB : double := d_of_Z 3.
Definition CYCLES_LDRBT : double := d_of_Z 3.
Definition CYCLES_LDRD : double := d_of_Z 2.
Definition CYCLES_LDRH : double := d_of_Z 3.
Definition CYCLES_LDRPC : double := d_of_Z 3.
Definition CYCLES_LDRSB : double := d_of_Z 3.
Definition CYCLES_LDRSH : double := d_of_Z 3.
Definition CYCLES_LDRSP : double := d_of_Z 3.
Definition CYCLES_LDRT : double := d_of_Z 3.
Definition CYCLES_LSL : double := CYCLES_DATA_OP_LOGIC.
Definition CYCLES_LSR : double := CYCLES_DATA_OP_LOGIC.
Definition CYCLES_MCR : double := d_of_Z 2.
Definition CYCLES_MLA : double := d_of_Z 2.
Definition CYCLES_MLAS : double := d_of_Z 4.
Definition CYCLES_MOV : double := CYCLES_DATA_OP_LOGIC.
Definition CYCLES_MOVS : double := CYCLES_DATA_OP_LOGIC.
Definition CYCLES_MRC : double := d_of_Z 2.
Definition CYCLES_MRS : double := d_of_Z 2.
Definition CYCLES_MSR : double := d_of_Z 2.
Definition CYCLES_MUL : double := d_of_Z 2.
Definition CYCLES_MULS : double := d_of_Z 4.
Definition CYCLES_MVN : double := CYCLES_DATA_OP_LOGIC.
Definition CYCLES_MVNS : double := CYCLES_DATA_OP_LOGIC.
Definition CYCLES_O : double := CYCLES_DEFAULT.
Definition CYCLES_ORR : double := CYCLES_DATA_OP_LOGIC.
Definition CYCLES_ORRS : double := CYCLES_DATA_OP_LOGIC.
Definition CYCLES_PLD : double := d_of_Z 1.
Definition CYCLES_POP : double := d_of_Z 1.
Definition CYCLES_PUSH : double := d_of_Z 1.
Definition CYCLES_QADD : double := d_of_Z 1.
Definition CYCLES_QDADD : double := d_of_Z 1.
Definition CYCLES_QDSUB : double := d_of_Z 1.
Definition CYCLES_QSUB : double := d_of_Z 1.
Definition CYCLES_RSB : double := CYCLES_DATA_OP_ARITH.
Definition CYCLES_RSBS : double := CYCLES_DATA_OP_ARITH.
Definition CYCLES_RSC : double := CYCLES_DATA_OP_LOGIC.
Definition CYCLES_RSCS : double := CYCLES_DATA_OP_LOGIC.
Definition CYCLES_SBC : double := CYCLES_DATA_OP_ARITH.
Definition CYCLES_SBCS : double := CYCLES_DATA_OP_ARITH.
Definition CYCLES_SMLABB : double := d_of_Z 4.
Definition CYCLES_SMLABT : double := d_of_Z 4.
Definition CYCLES_SMLAL : double := d_of_Z 4.
Definition CYCLES_SMLALBB : double := d_of_Z 4.
Definition CYCLES_SMLALBT : double := d_of_Z 4.
Definition CYCLES_SMLALS : double := d_of_Z 5.
Definition CYCLES_SMLALTB : double := d_of_Z 4.
Definition CYCLES_SMLALTT : double := d_of_Z 4.
Definition CYCLES_SMLALxy : double := d_of_Z 2.
Definition CYCLES_SMLATB : double := d_of_Z 4.
Definition CYCLES_SMLATT : double := d_of_Z 4.
Definition CYCLES_SMLAWB : double := d_of_Z 4.
Definition CYCLES_SMLAWT : double := d_of_Z 4.
Definition CYCLES_SMLAWx : double := d_of_Z 1.
Definition CYCLES_SMLAxy : double := d_of_Z 1.
Definition CYCLES_SMULBB : double := d_of_Z 4.
Definition CYCLES_SMULBT : double := d_of_Z 4.
Definition CYCLES_SMULL : double := d_of_Z 4.
Definition CYCLES_SMULLS : double := d_of_Z 5.
Definition CYCLES_SMULTB : double := d_of_Z 4.
Definition CYCLES_SMULTT : double := d_of_Z 4.
Definition CYCLES_SMULWB : double := d_of_Z 4.
Definition CYCLES_SMULWT : double := d_of_Z 4.
Definition CYCLES_SMULWx : double := d_of_Z 1.
Definition CYCLES_SMULxy : double := d_of_Z 1.
Definition CYCLES_STC : double := d_of_Z 2.
Definition CYCLES_STMDA : double := d_of_Z 2.
Definition CYCLES_STMDB : double := d_of_Z 2.
Definition CYCLES_STMIA : double := d_of_Z 2.
Definition CYCLES_STMIB : double := d_of_Z 2.
Definition CYCLES_STR : double := d_of_Z 1.
Definition CYCLES_STRB : double := d_of_Z 1.
Definition CYCLES_STRBT : double := d_of_Z 1.
Definition CYCLES_STRD : double := d_of_Z 2.
Definition CYCLES_STRH : double := d_of_Z 1.
Definition CYCLES_STRSP : double := d_of_Z 1.
Definition CYCLES_STRT : double := d_of_Z 1.
Definition CYCLES_SUB : double := CYCLES_DATA_OP_ARITH.
Definition CYCLES_SUBS : double := CYCLES_DATA_OP_ARITH.
Definition CYCLES_SWI : double := d_of_Z 3.
Definition CYCLES_SWP : double := d_of_Z 2.
Definition CYCLES_SWPB : double := d_of_Z 2.
Definition CYCLES_TEQS : double := CYCLES_DATA_OP_LOGIC.
Definition CYCLES_TSTS : double := CYCLES_DATA_OP_LOGIC.
Definition CYCLES_UMLAL : double := d_of_Z 4.
Definition CYCLES_UMLALS : double := d_of_Z 5.
Definition CYCLES_UMULL : double := d_of_Z 4.
Definition CYCLES_UMULLS : double := d_of_Z 5.
Definition CYCLES_UXTB : double := CYCLES_DEFAULT.

(** ** Thumb, 16-bit encodings *)
Definition vemu_thumb_instr_00 : list vemu_instr_info := [
  row 0x00 "LSL imm" CLASS_DEFAULT CYCLES_LSL ERRORS_DEFAULT;
  row 0x01 "LSL imm" CLASS_DEFAULT CYCLES_LSL ERRORS_DEFAULT;
  row 0x02 "LSL imm" CLASS_DEFAULT CYCLES_LSL ERRORS_DEFAULT;
  row 0x03 "LSL imm" CLASS_DEFAULT CYCLES_LSL ERRORS_DEFAULT;
  row 0x04 "LSL imm" CLASS_DEFAULT CYCLES_LSL ERRORS_DEFAULT;
  row 0x05 "LSL imm" CLASS_DEFAULT CYCLES_LSL ERRORS_DEFAULT;
  row 0x06 "LSL imm" CLASS_DEFAULT CYCLES_LSL ERRORS_DEFAULT;
  row 0x07 "LSL imm" CLASS_DEFAULT CYCLES_LSL ERRORS_DEFAULT;
  row 0x08 "LSR imm" CLASS_DEFAULT CYCLES_LSR ERRORS_DEFAULT;
  row 0x09 "LSR imm" CLASS_DEFAULT CYCLES_LSR ERRORS_DEFAULT;
  row 0x0A "LSR imm" CLASS_DEFAULT CYCLES_LSR ERRORS_DEFAULT;
  row 0x0B "LSR imm" CLASS_DEFAULT CYCLES_LSR ERRORS_DEFAULT;
  row 0x0C "LSR imm" CLASS_DEFAULT CYCLES_LSR ERRORS_DEFAULT;
  row 0x0D "LSR imm" CLASS_DEFAULT CYCLES_LSR ERRORS_DEFAULT;
  row 0x0E "LSR imm" CLASS_DEFAULT CYCLES_LSR ERRORS_DEFAULT;
  row 0x0F "LSR imm" CLASS_DEFAULT CYCLES_LSR ERRORS_DEFAULT;
  row 0x10 "ASR imm" CLASS_DEFAULT CYCLES_ASR ERRORS_DEFAULT;
  row 0x11 "ASR imm" CLASS_DEFAULT CYCLES_ASR ERRORS_DEFAULT;
  row 0x12 "ASR imm" CLASS_DEFAULT CYCLES_ASR ERRORS_DEFAULT;
  row 0x13 "ASR imm" CLASS_DEFAULT CYCLES_ASR ERRORS_DEFAULT;
  row 0x14 "ASR imm" CLASS_DEFAULT CYCLES_ASR ERRORS_DEFAULT;
  row 0x15 "ASR imm" CLASS_DEFAULT CYCLES_ASR ERRORS_DEFAULT;
  row 0x16 "ASR imm" CLASS_DEFAULT CYCLES_ASR ERRORS_DEFAULT;
  row 0x17 "ASR imm" CLASS_DEFAULT CYCLES_ASR ERRORS_DEFAULT;
  row 0x18 "ADD reg" CLASS_DEFAULT CYCLES_ADD ERRORS_DEFAULT;
  row 0x19 "ADD reg" CLASS_DEFAULT CYCLES_ADD ERRORS_DEFAULT;
  row 0x1A "SUB reg" CLASS_DEFAULT CYCLES_SUB ERRORS_DEFAULT;
  row 0x1B "SUB reg" CLASS_DEFAULT CYCLES_SUB ERRORS_DEFAULT;
  row 0x1C "ADD imm3" CLASS_DEFAULT CYCLES_ADD ERRORS_DEFAULT;
  row 0x1D "ADD imm4" CLASS_DEFAULT CYCLES_ADD ERRORS_DEFAULT;
  row 0x1E "SUB imm3" CLASS_DEFAULT CYCLES_SUB ERRORS_DEFAULT;
  row 0x1F "SUB imm4" CLASS_DEFAULT CYCLES_SUB ERRORS_DEFAULT;
  row 0x20 "MOV i8r0" CLASS_DEFAULT CYCLES_MOV ERRORS_DEFAULT;
  row 0x21 "MOV i8r1" CLASS_DEFAULT CYCLES_MOV ERRORS_DEFAULT;
  row 0x22 "MOV i8r2" CLASS_DEFAULT CYCLES_MOV ERRORS_DEFAULT;
  row 0x23 "MOV i8r3" CLASS_DEFAULT CYCLES_MOV ERRORS_DEFAULT;
  row 0x24 "MOV i8r4" CLASS_DEFAULT CYCLES_MOV ERRORS_DEFAULT;
  row 0x25 "MOV i8r5" CLASS_DEFAULT CYCLES_MOV ERRORS_DEFAULT;
  row 0x26 "MOV i8r6" CLASS_DEFAULT CYCLES_MOV ERRORS_DEFAULT;
  row 0x27 "MOV i8r7" CLASS_DEFAULT CYCLES_MOV ERRORS_DEFAULT;
  row 0x28 "CMP i8r0" CLASS_DEFAULT CYCLES_CMP ERRORS_DEFAULT;
  row 0x29 "CMP i8r1" CLASS_DEFAULT CYCLES_CMP ERRORS_DEFAULT;
  row 0x2A "CMP i8r2" CLASS_DEFAULT CYCLES_CMP ERRORS_DEFAULT;
  row 0x2B "CMP i8r3" CLASS_DEFAULT CYCLES_CMP ERRORS_DEFAULT;
  row 0x2C "CMP i8r4" CLASS_DEFAULT CYCLES_CMP ERRORS_DEFAULT;
  row 0x2D "CMP i8r5" CLASS_DEFAULT CYCLES_CMP ERRORS_DEFAULT;
  row 0x2E "CMP i8r6" CLASS_DEFAULT CYCLES_CMP ERRORS_DEFAULT;
  row 0x2F "CMP i8r7" CLASS_DEFAULT CYCLES_CMP ERRORS_DEFAULT;
  row 0x30 "ADD i8r0" CLASS_DEFAULT CYCLES_ADD ERRORS_DEFAULT;
  row 0x31 "ADD i8r1" CLASS_DEFAULT CYCLES_ADD ERRORS_DEFAULT;
  row 0x32 "ADD i8r2" CLASS_DEFAULT CYCLES_ADD ERRORS_DEFAULT;
  row 0x33 "ADD i8r3" CLASS_DEFAULT CYCLES_ADD ERRORS_DEFAULT;
  row 0x34 "ADD i8r4" CLASS_DEFAULT CYCLES_ADD ERRORS_DEFAULT;
  row 0x35 "ADD i8r5" CLASS_DEFAULT CYCLES_ADD ERRORS_DEFAULT;
  row 0x36 "ADD i8r6" CLASS_DEFAULT CYCLES_ADD ERRORS_DEFAULT;
  row 0x37 "ADD i8r7" CLASS_DEFAULT CYCLES_ADD ERRORS_DEFAULT;
  row 0x38 "SUB i8r0" CLASS_DEFAULT CYCLES_SUB ERRORS_DEFAULT;
  row 0x39 "SUB i8r1" CLASS_DEFAULT CYCLES_SUB ERRORS_DEFAULT;
  row 0x3A "SUB i8r2" CLASS_DEFAULT CYCLES_SUB ERRORS_DEFAULT;
  row 0x3B "SUB i8r3" CLASS_DEFAULT CYCLES_SUB ERRORS_DEFAULT;
  row 0x3C "SUB i8r4" CLASS_DEFAULT CYCLES_SUB ERRORS_DEFAULT;
  row 0x3D "SUB i8r5" CLASS_DEFAULT CYCLES_SUB ERRORS_DEFAULT;
  row 0x3E "SUB i8r6" CLASS_DEFAULT CYCLES_SUB ERRORS_DEFAULT;
  row 0x3F "SUB i8r7" CLASS_DEFAULT CYCLES_SUB ERRORS_DEFAULT;
  row 0x40 "DP g1" CLASS_DEFAULT CYCLES_DP ERRORS_DEFAULT;
  row 0x41 "DP g2" CLASS_DEFAULT CYCLES_DP ERRORS_DEFAULT;
  row 0x42 "DP g3" CLASS_DEFAULT CYCLES_DP ERRORS_DEFAULT;
  row 0x43 "DP g4" CLASS_DEFAULT CYCLES_DP ERRORS_DEFAULT;
  row 0x44 "ADD H" CLASS_DEFAULT CYCLES_ADD ERRORS_DEFAULT;
  row 0x45 "CMP H" CLASS_DEFAULT CYCLES_CMP ERRORS_DEFAULT;
  row 0x46 "MOV H" CLASS_DEFAULT CYCLES_MOV ERRORS_DEFAULT;
  row 0x47 "BX reg" CLASS_DEFAULT CYCLES_BX ERRORS_DEFAULT;
  row 0x48 "LDRPC r0" CLASS_DEFAULT CYCLES_LDRPC ERRORS_DEFAULT;
  row 0x49 "LDRPC r1" CLASS_DEFAULT CYCLES_LDRPC ERRORS_DEFAULT;
  row 0x4A "LDRPC r2" CLASS_DEFAULT CYCLES_LDRPC ERRORS_DEFAULT;
  row 0x4B "LDRPC r3" CLASS_DEFAULT CYCLES_LDRPC ERRORS_DEFAULT;
  row 0x4C "LDRPC r4" CLASS_DEFAULT CYCLES_LDRPC ERRORS_DEFAULT;
  row 0x4D "LDRPC r5" CLASS_DEFAULT CYCLES_LDRPC ERRORS_DEFAULT;
  row 0x4E "LDRPC r6" CLASS_DEFAULT CYCLES_LDRPC ERRORS_DEFAULT;
  row 0x4F "LDRPC r7" CLASS_DEFAULT CYCLES_LDRPC ERRORS_DEFAULT;
  row 0x50 "STR reg" CLASS_DEFAULT CYCLES_STR ERRORS_DEFAULT;
  row 0x51 "STR reg" CLASS_DEFAULT CYCLES_STR ERRORS_DEFAULT;
  row 0x52 "STRH reg" CLASS_DEFAULT CYCLES_STRH ERRORS_DEFAULT;
  row 0x53 "STRH reg" CLASS_DEFAULT CYCLES_STRH ERRORS_DEFAULT;
  row 0x54 "STRB reg" CLASS_DEFAULT CYCLES_STRB ERRORS_DEFAULT;
  row 0x55 "STRB reg" CLASS_DEFAULT CYCLES_STRB ERRORS_DEFAULT;
  row 0x56 "LDRSB reg" CLASS_DEFAULT CYCLES_LDRSB ERRORS_DEFAULT;
  row 0x57 "LDRSB reg" CLASS_DEFAULT CYCLES_LDRSB ERRORS_DEFAULT;
  row 0x58 "LDR reg" CLASS_DEFAULT CYCLES_LDR ERRORS_DEFAULT;
  row 0x59 "LDR reg" CLASS_DEFAULT CYCLES_LDR ERRORS_DEFAULT;
  row 0x5A "LDRH reg" CLASS_DEFAULT CYCLES_LDRH ERRORS_DEFAULT;
  row 0x5B "LDRH reg" CLASS_DEFAULT CYCLES_LDRH ERRORS_DEFAULT;
  row 0x5C "LDRB reg" CLASS_DEFAULT CYCLES_LDRB ERRORS_DEFAULT;
  row 0x5D "LDRB reg" CLASS_DEFAULT CYCLES_LDRB ERRORS_DEFAULT;
  row 0x5E "LDRSH reg" CLASS_DEFAULT CYCLES_LDRSH ERRORS_DEFAULT;
  row 0x5F "LDRSH reg" CLASS_DEFAULT CYCLES_LDRSH ERRORS_DEFAULT;
  row 0x60 "STR imm5" CLASS_DEFAULT CYCLES_STR ERRORS_DEFAULT;
  row 0x61 "STR imm6" CLASS_DEFAULT CYCLES_STR ERRORS_DEFAULT;
  row 0x62 "STR imm7" CLASS_DEFAULT CYCLES_STR ERRORS_DEFAULT;
  row 0x63 "STR imm8" CLASS_DEFAULT CYCLES_STR ERRORS_DEFAULT;
  row 0x64 "STR imm9" CLASS_DEFAULT CYCLES_STR ERRORS_DEFAULT;
  row 0x65 "STR imm10" CLASS_DEFAULT CYCLES_STR ERRORS_DEFAULT;
  row 0x66 "STR imm11" CLASS_DEFAULT CYCLES_STR ERRORS_DEFAULT;
  row 0x67 "STR imm12" CLASS_DEFAULT CYCLES_STR ERRORS_DEFAULT;
  row 0x68 "LDR imm5" CLASS_DEFAULT CYCLES_LDR ERRORS_DEFAULT;
  row 0x69 "LDR imm6" CLASS_DEFAULT CYCLES_LDR ERRORS_DEFAULT;
  row 0x6A "LDR imm7" CLASS_DEFAULT CYCLES_LDR ERRORS_DEFAULT;
  row 0x6B "LDR imm8" CLASS_DEFAULT CYCLES_LDR ERRORS_DEFAULT;
  row 0x6C "LDR imm9" CLASS_DEFAULT CYCLES_LDR ERRORS_DEFAULT;
  row 0x6D "LDR imm10" CLASS_DEFAULT CYCLES_LDR ERRORS_DEFAULT;
  row 0x6E "LDR imm11" CLASS_DEFAULT CYCLES_LDR ERRORS_DEFAULT;
  row 0x6F "LDR imm12" CLASS_DEFAULT CYCLES_LDR ERRORS_DEFAULT;
  row 0x70 "STRB imm5" CLASS_DEFAULT CYCLES_STRB ERRORS_DEFAULT;
  row 0x71 "STRB imm6" CLASS_DEFAULT CYCLES_STRB ERRORS_DEFAULT;
  row 0x72 "STRB imm7" CLASS_DEFAULT CYCLES_STRB ERRORS_DEFAULT;
  row 0x73 "STRB imm8" CLASS_DEFAULT CYCLES_STRB ERRORS_DEFAULT;
  row 0x74 "STRB imm9" CLASS_DEFAULT CYCLES_STRB ERRORS_DEFAULT;
  row 0x75 "STRB imm10" CLASS_DEFAULT CYCLES_STRB ERRORS_DEFAULT;
  row 0x76 "STRB imm11" CLASS_DEFAULT CYCLES_STRB ERRORS_DEFAULT;
  row 0x77 "STRB imm12" CLASS_DEFAULT CYCLES_STRB ERRORS_DEFAULT;
  row 0x78 "LDRB imm5" CLASS_DEFAULT CYCLES_LDRB ERRORS_DEFAULT;
  row 0x79 "LDRB imm6" CLASS_DEFAULT CYCLES_LDRB ERRORS_DEFAULT;
  row 0x7A "LDRB imm7" CLASS_DEFAULT CYCLES_LDRB ERRORS_DEFAULT;
  row 0x7B "LDRB imm8" CLASS_DEFAULT CYCLES_LDRB ERRORS_DEFAULT;
  row 0x7C "LDRB imm9" CLASS_DEFAULT CYCLES_LDRB ERRORS_DEFAULT;
  row 0x7D "LDRB imm10" CLASS_DEFAULT CYCLES_LDRB ERRORS_DEFAULT;
  row 0x7E "LDRB imm11" CLASS_DEFAULT CYCLES_LDRB ERRORS_DEFAULT;
  row 0x7F "LDRB imm12" CLASS_DEFAULT CYCLES_LDRB ERRORS_DEFAULT].

Definition vemu_thumb_instr_01 : list vemu_instr_info := [
  row 0x80 "STRH imm5" CLASS_DEFAULT CYCLES_STRH ERRORS_DEFAULT;
  row 0x81 "STRH imm6" CLASS_DEFAULT CYCLES_STRH ERRORS_DEFAULT;
  row 0x82 "STRH imm7" CLASS_DEFAULT CYCLES_STRH ERRORS_DEFAULT;
  row 0x83 "STRH imm8" CLASS_DEFAULT CYCLES_STRH ERRORS_DEFAULT;
  row 0x84 "STRH imm9" CLASS_DEFAULT CYCLES_STRH ERRORS_DEFAULT;
  row 0x85 "STRH imm10" CLASS_DEFAULT CYCLES_STRH ERRORS_DEFAULT;
  row 0x86 "STRH imm11" CLASS_DEFAULT CYCLES_STRH ERRORS_DEFAULT;
  row 0x87 "STRH imm12" CLASS_DEFAULT CYCLES_STRH ERRORS_DEFAULT;
  row 0x88 "LDRH imm5" CLASS_DEFAULT CYCLES_LDRH ERRORS_DEFAULT;
  row 0x89 "LDRH imm6" CLASS_DEFAULT CYCLES_LDRH ERRORS_DEFAULT;
  row 0x8A "LDRH imm7" CLASS_DEFAULT CYCLES_LDRH ERRORS_DEFAULT;
  row 0x8B "LDRH imm8" CLASS_DEFAULT CYCLES_LDRH ERRORS_DEFAULT;
  row 0x8C "LDRH imm9" CLASS_DEFAULT CYCLES_LDRH ERRORS_DEFAULT;
  row 0x8D "LDRH imm10" CLASS_DEFAULT CYCLES_LDRH ERRORS_DEFAULT;
  row 0x8E "LDRH imm11" CLASS_DEFAULT CYCLES_LDRH ERRORS_DEFAULT;
  row 0x8F "LDRH imm12" CLASS_DEFAULT CYCLES_LDRH ERRORS_DEFAULT;
  row 0x90 "STRSP r0" CLASS_DEFAULT CYCLES_STRSP ERRORS_DEFAULT;
  row 0x91 "STRSP r1" CLASS_DEFAULT CYCLES_STRSP ERRORS_DEFAULT;
  row 0x92 "STRSP r2" CLASS_DEFAULT CYCLES_STRSP ERRORS_DEFAULT;
  row 0x93 "STRSP r3" CLASS_DEFAULT CYCLES_STRSP ERRORS_DEFAULT;
  row 0x94 "STRSP r4" CLASS_DEFAULT CYCLES_STRSP ERRORS_DEFAULT;
  row 0x95 "STRSP r5" CLASS_DEFAULT CYCLES_STRSP ERRORS_DEFAULT;
  row 0x96 "STRSP r6" CLASS_DEFAULT CYCLES_STRSP ERRORS_DEFAULT;
  row 0x97 "STRSP r7" CLASS_DEFAULT CYCLES_STRSP ERRORS_DEFAULT;
  row 0x98 "LDRSP r0" CLASS_DEFAULT CYCLES_LDRSP ERRORS_DEFAULT;
  row 0x99 "LDRSP r1" CLASS_DEFAULT CYCLES_LDRSP ERRORS_DEFAULT;
  row 0x9A "LDRSP r2" CLASS_DEFAULT CYCLES_LDRSP ERRORS_DEFAULT;
  row 0x9B "LDRSP r3" CLASS_DEFAULT CYCLES_LDRSP ERRORS_DEFAULT;
  row 0x9C "LDRSP r4" CLASS_DEFAULT CYCLES_LDRSP ERRORS_DEFAULT;
  row 0x9D "LDRSP r5" CLASS_DEFAULT CYCLES_LDRSP ERRORS_DEFAULT;
  row 0x9E "LDRSP r6" CLASS_DEFAULT CYCLES_LDRSP ERRORS_DEFAULT;
  row 0x9F "LDRSP r7" CLASS_DEFAULT CYCLES_LDRSP ERRORS_DEFAULT;
  row 0xA0 "ADD PCr0" CLASS_DEFAULT CYCLES_ADD ERRORS_DEFAULT;
  row 0xA1 "ADD PCr1" CLASS_DEFAULT CYCLES_ADD ERRORS_DEFAULT;
  row 0xA2 "ADD PCr2" CLASS_DEFAULT CYCLES_ADD ERRORS_DEFAULT;
  row 0xA3 "ADD PCr3" CLASS_DEFAULT CYCLES_ADD ERRORS_DEFAULT;
  row 0xA4 "ADD PCr4" CLASS_DEFAULT CYCLES_ADD ERRORS_DEFAULT;
  row 0xA5 "ADD PCr5" CLASS_DEFAULT CYCLES_ADD ERRORS_DEFAULT;
  row 0xA6 "ADD PCr6" CLASS_DEFAULT CYCLES_ADD ERRORS_DEFAULT;
  row 0xA7 "ADD PCr7" CLASS_DEFAULT CYCLES_ADD ERRORS_DEFAULT;
  row 0xA8 "ADD SPr0" CLASS_DEFAULT CYCLES_ADD ERRORS_DEFAULT;
  row 0xA9 "ADD SPr1" CLASS_DEFAULT CYCLES_ADD ERRORS_DEFAULT;
  row 0xAA "ADD SPr2" CLASS_DEFAULT CYCLES_ADD ERRORS_DEFAULT;
  row 0xAB "ADD SPr3" CLASS_DEFAULT CYCLES_ADD ERRORS_DEFAULT;
  row 0xAC "ADD SPr4" CLASS_DEFAULT CYCLES_ADD ERRORS_DEFAULT;
  row 0xAD "ADD SPr5" CLASS_DEFAULT CYCLES_ADD ERRORS_DEFAULT;
  row 0xAE "ADD SPr6" CLASS_DEFAULT CYCLES_ADD ERRORS_DEFAULT;
  row 0xAF "ADD SPr7" CLASS_DEFAULT CYCLES_ADD ERRORS_DEFAULT;
  row 0xB0 "ADD SPimm7" CLASS_DEFAULT CYCLES_ADD ERRORS_DEFAULT;
  row 0xB1 "CBZ" CLASS_DEFAULT CYCLES_CBZ ERRORS_DEFAULT;
  row 0xB2 "UXTB" CLASS_DEFAULT CYCLES_UXTB ERRORS_DEFAULT;
  row 0xB3 "CBZ" CLASS_DEFAULT CYCLES_CBZ ERRORS_DEFAULT;
  row 0xB4 "PUSH" CLASS_DEFAULT CYCLES_PUSH ERRORS_DEFAULT;
  row 0xB5 "PUSH lr" CLASS_DEFAULT CYCLES_PUSH ERRORS_DEFAULT;
  row 0xB6 "CPSIE" CLASS_DEFAULT CYCLES_CPSIE ERRORS_DEFAULT;
  row 0xB7 "" CLASS_DEFAULT CYCLES_NONE ERRORS_DEFAULT;
  row 0xB8 "" CLASS_DEFAULT CYCLES_NONE ERRORS_DEFAULT;
  row 0xB9 "CBNZ" CLASS_DEFAULT CYCLES_CBNZ ERRORS_DEFAULT;
  row 0xBA "" CLASS_DEFAULT CYCLES_NONE ERRORS_DEFAULT;
  row 0xBB "CBNZ" CLASS_DEFAULT CYCLES_CBNZ ERRORS_DEFAULT;
  row 0xBC "POP" CLASS_DEFAULT CYCLES_POP ERRORS_DEFAULT;
  row 0xBD "POP pc" CLASS_DEFAULT CYCLES_POP ERRORS_DEFAULT;
  row 0xBE "BKPT" CLASS_DEFAULT CYCLES_BKPT ERRORS_DEFAULT;
  row 0xBF "ITE" CLASS_DEFAULT CYCLES_ITE ERRORS_DEFAULT;
  row 0xC0 "STMIA r0" CLASS_DEFAULT CYCLES_STMIA ERRORS_DEFAULT;
  row 0xC1 "STMIA r1" CLASS_DEFAULT CYCLES_STMIA ERRORS_DEFAULT;
  row 0xC2 "STMIA r2" CLASS_DEFAULT CYCLES_STMIA ERRORS_DEFAULT;
  row 0xC3 "STMIA r3" CLASS_DEFAULT CYCLES_STMIA ERRORS_DEFAULT;
  row 0xC4 "STMIA r4" CLASS_DEFAULT CYCLES_STMIA ERRORS_DEFAULT;
  row 0xC5 "STMIA r5" CLASS_DEFAULT CYCLES_STMIA ERRORS_DEFAULT;
  row 0xC6 "STMIA r6" CLASS_DEFAULT CYCLES_STMIA ERRORS_DEFAULT;
  row 0xC7 "STMIA r7" CLASS_DEFAULT CYCLES_STMIA ERRORS_DEFAULT;
  row 0xC8 "LDMIA r0" CLASS_DEFAULT CYCLES_LDMIA ERRORS_DEFAULT;
  row 0xC9 "LDMIA r1" CLASS_DEFAULT CYCLES_LDMIA ERRORS_DEFAULT;
  row 0xCA "LDMIA r2" CLASS_DEFAULT CYCLES_LDMIA ERRORS_DEFAULT;
  row 0xCB "LDMIA r3" CLASS_DEFAULT CYCLES_LDMIA ERRORS_DEFAULT;
  row 0xCC "LDMIA r4" CLASS_DEFAULT CYCLES_LDMIA ERRORS_DEFAULT;
  row 0xCD "LDMIA r5" CLASS_DEFAULT CYCLES_LDMIA ERRORS_DEFAULT;
  row 0xCE "LDMIA r6" CLASS_DEFAULT CYCLES_LDMIA ERRORS_DEFAULT;
  row 0xCF "LDMIA r7" CLASS_DEFAULT CYCLES_LDMIA ERRORS_DEFAULT;
  row 0xD0 "BEQ" CLASS_DEFAULT CYCLES_BEQ ERRORS_DEFAULT;
  row 0xD1 "BNE" CLASS_DEFAULT CYCLES_BNE ERRORS_DEFAULT;
  row 0xD2 "BCS" CLASS_DEFAULT CYCLES_BCS ERRORS_DEFAULT;
  row 0xD3 "BCC" CLASS_DEFAULT CYCLES_BCC ERRORS_DEFAULT;
  row 0xD4 "BMI" CLASS_DEFAULT CYCLES_BMI ERRORS_DEFAULT;
  row 0xD5 "BPL" CLASS_DEFAULT CYCLES_BPL ERRORS_DEFAULT;
  row 0xD6 "BVS" CLASS_DEFAULT CYCLES_BVS ERRORS_DEFAULT;
  row 0xD7 "BVC" CLASS_DEFAULT CYCLES_BVC ERRORS_DEFAULT;
  row 0xD8 "BHI" CLASS_DEFAULT CYCLES_BHI ERRORS_DEFAULT;
  row 0xD9 "BLS" CLASS_DEFAULT CYCLES_BLS ERRORS_DEFAULT;
  row 0xDA "BGE" CLASS_DEFAULT CYCLES_BGE ERRORS_DEFAULT;
  row 0xDB "BLT" CLASS_DEFAULT CYCLES_BLT ERRORS_DEFAULT;
  row 0xDC "BGT" CLASS_DEFAULT CYCLES_BGT ERRORS_DEFAULT;
  row 0xDD "BLE" CLASS_DEFAULT CYCLES_BLE ERRORS_DEFAULT;
  row 0xDE "" CLASS_DEFAULT CYCLES_NONE ERRORS_DEFAULT;
  row 0xDF "SWI" CLASS_DEFAULT CYCLES_SWI ERRORS_DEFAULT;
  row 0xE0 "B" CLASS_DEFAULT CYCLES_B ERRORS_DEFAULT;
  row 0xE1 "B" CLASS_DEFAULT CYCLES_B ERRORS_DEFAULT;
  row 0xE2 "B" CLASS_DEFAULT CYCLES_B ERRORS_DEFAULT;
  row 0xE3 "B" CLASS_DEFAULT CYCLES_B ERRORS_DEFAULT;
  row 0xE4 "B" CLASS_DEFAULT CYCLES_B ERRORS_DEFAULT;
  row 0xE5 "B" CLASS_DEFAULT CYCLES_B ERRORS_DEFAULT;
  row 0xE6 "B" CLASS_DEFAULT CYCLES_B ERRORS_DEFAULT;
  row 0xE7 "B" CLASS_DEFAULT CYCLES_B ERRORS_DEFAULT;
  row 0xE8 "BLX off" CLASS_DEFAULT CYCLES_BLX ERRORS_DEFAULT;
  row 0xE9 "BLX off" CLASS_DEFAULT CYCLES_BLX ERRORS_DEFAULT;
  row 0xEA "BLX off" CLASS_DEFAULT CYCLES_BLX ERRORS_DEFAULT;
  row 0xEB "BLX off" CLASS_DEFAULT CYCLES_BLX ERRORS_DEFAULT;
  row 0xEC "BLX off" CLASS_DEFAULT CYCLES_BLX ERRORS_DEFAULT;
  row 0xED "BLX off" CLASS_DEFAULT CYCLES_BLX ERRORS_DEFAULT;
  row 0xEE "BLX off" CLASS_DEFAULT CYCLES_BLX ERRORS_DEFAULT;
  row 0xEF "BLX off" CLASS_DEFAULT CYCLES_BLX ERRORS_DEFAULT;
  row 0xF0 "BL setup" CLASS_DEFAULT CYCLES_BL ERRORS_DEFAULT;
  row 0xF1 "BL setup" CLASS_DEFAULT CYCLES_BL ERRORS_DEFAULT;
  row 0xF2 "BL setup" CLASS_DEFAULT CYCLES_BL ERRORS_DEFAULT;
  row 0xF3 "BL setup" CLASS_DEFAULT CYCLES_BL ERRORS_DEFAULT;
  row 0xF4 "BL setup" CLASS_DEFAULT CYCLES_BL ERRORS_DEFAULT;
  row 0xF5 "BL setup" CLASS_DEFAULT CYCLES_BL ERRORS_DEFAULT;
  row 0xF6 "BL setup" CLASS_DEFAULT CYCLES_BL ERRORS_DEFAULT;
  row 0xF7 "BL setup" CLASS_DEFAULT CYCLES_BL ERRORS_DEFAULT;
  row 0xF8 "BL off" CLASS_DEFAULT CYCLES_BL ERRORS_DEFAULT;
  row 0xF9 "BL off" CLASS_DEFAULT CYCLES_BL ERRORS_DEFAULT;
  row 0xFA "BL off" CLASS_DEFAULT CYCLES_BL ERRORS_DEFAULT;
  row 0xFB "BL off" CLASS_DEFAULT CYCLES_BL ERRORS_DEFAULT;
  row 0xFC "BL off" CLASS_DEFAULT CYCLES_BL ERRORS_DEFAULT;
  row 0xFD "BL off" CLASS_DEFAULT CYCLES_BL ERRORS_DEFAULT;
  row 0xFE "BL off" CLASS_DEFAULT CYCLES_BL ERRORS_DEFAULT;
  row 0xFF "BL off" CLASS_DEFAULT CYCLES_BL ERRORS_DEFAULT].

Definition vemu_thumb_instr : list vemu_instr_info :=
  vemu_thumb_instr_00 ++
  vemu_thumb_instr_01.

(** ** ARM encodings *)
Definition vemu_arm_instr_00 : list vemu_instr_info := [
  row 0x000 "AND lli" CLASS_DEFAULT CYCLES_AND ERRORS_DEFAULT;
  row 0x001 "AND llr" CLASS_DEFAULT CYCLES_AND ERRORS_DEFAULT;
  row 0x002 "AND lri" CLASS_DEFAULT CYCLES_AND ERRORS_DEFAULT;
  row 0x003 "AND lrr" CLASS_DEFAULT CYCLES_AND ERRORS_DEFAULT;
  row 0x004 "AND ari" CLASS_DEFAULT CYCLES_AND ERRORS_DEFAULT;
  row 0x005 "AND arr" CLASS_DEFAULT CYCLES_AND ERRORS_DEFAULT;
  row 0x006 "AND rri" CLASS_DEFAULT CYCLES_AND ERRORS_DEFAULT;
  row 0x007 "AND rrr" CLASS_DEFAULT CYCLES_AND ERRORS_DEFAULT;
  row 0x008 "AND lli" CLASS_DEFAULT CYCLES_AND ERRORS_DEFAULT;
  row 0x009 "MUL" CLASS_DEFAULT CYCLES_MUL ERRORS_DEFAULT;
  row 0x00A "AND lri" CLASS_DEFAULT CYCLES_AND ERRORS_DEFAULT;
  row 0x00B "STRH ptrm" CLASS_DEFAULT CYCLES_STRH ERRORS_DEFAULT;
  row 0x00C "AND ari" CLASS_DEFAULT CYCLES_AND ERRORS_DEFAULT;
  row 0x00D "LDRD ptrm" CLASS_DEFAULT CYCLES_LDRD ERRORS_DEFAULT;
  row 0x00E "AND rri" CLASS_DEFAULT CYCLES_AND ERRORS_DEFAULT;
  row 0x00F "STRD ptrm" CLASS_DEFAULT CYCLES_STRD ERRORS_DEFAULT;
  row 0x010 "ANDS lli" CLASS_DEFAULT CYCLES_ANDS ERRORS_DEFAULT;
  row 0x011 "ANDS llr" CLASS_DEFAULT CYCLES_ANDS ERRORS_DEFAULT;
  row 0x012 "ANDS lri" CLASS_DEFAULT CYCLES_ANDS ERRORS_DEFAULT;
  row 0x013 "ANDS lrr" CLASS_DEFAULT CYCLES_ANDS ERRORS_DEFAULT;
  row 0x014 "ANDS ari" CLASS_DEFAULT CYCLES_ANDS ERRORS_DEFAULT;
  row 0x015 "ANDS arr" CLASS_DEFAULT CYCLES_ANDS ERRORS_DEFAULT;
  row 0x016 "ANDS rri" CLASS_DEFAULT CYCLES_ANDS ERRORS_DEFAULT;
  row 0x017 "ANDS rrr" CLASS_DEFAULT CYCLES_ANDS ERRORS_DEFAULT;
  row 0x018 "ANDS lli" CLASS_DEFAULT CYCLES_ANDS ERRORS_DEFAULT;
  row 0x019 "MULS" CLASS_DEFAULT CYCLES_MULS ERRORS_DEFAULT;
  row 0x01A "ANDS lri" CLASS_DEFAULT CYCLES_ANDS ERRORS_DEFAULT;
  row 0x01B "LDRH ptrm" CLASS_DEFAULT CYCLES_LDRH ERRORS_DEFAULT;
  row 0x01C "ANDS ari" CLASS_DEFAULT CYCLES_ANDS ERRORS_DEFAULT;
  row 0x01D "LDRSB ptrm" CLASS_DEFAULT CYCLES_LDRSB ERRORS_DEFAULT;
  row 0x01E "ANDS rri" CLASS_DEFAULT CYCLES_ANDS ERRORS_DEFAULT;
  row 0x01F "LDRSH ptrm" CLASS_DEFAULT CYCLES_LDRSH ERRORS_DEFAULT;
  row 0x020 "EOR lli" CLASS_DEFAULT CYCLES_EOR ERRORS_DEFAULT;
  row 0x021 "EOR llr" CLASS_DEFAULT CYCLES_EOR ERRORS_DEFAULT;
  row 0x022 "EOR lri" CLASS_DEFAULT CYCLES_EOR ERRORS_DEFAULT;
  row 0x023 "EOR lrr" CLASS_DEFAULT CYCLES_EOR ERRORS_DEFAULT;
  row 0x024 "EOR ari" CLASS_DEFAULT CYCLES_EOR ERRORS_DEFAULT;
  row 0x025 "EOR arr" CLASS_DEFAULT CYCLES_EOR ERRORS_DEFAULT;
  row 0x026 "EOR rri" CLASS_DEFAULT CYCLES_EOR ERRORS_DEFAULT;
  row 0x027 "EOR rrrr" CLASS_DEFAULT CYCLES_EOR ERRORS_DEFAULT;
  row 0x028 "EOR lli" CLASS_DEFAULT CYCLES_EOR ERRORS_DEFAULT;
  row 0x029 "MLA" CLASS_DEFAULT CYCLES_MLA ERRORS_DEFAULT;
  row 0x02A "EOR lri" CLASS_DEFAULT CYCLES_EOR ERRORS_DEFAULT;
  row 0x02B "STRH ptrm" CLASS_DEFAULT CYCLES_STRH ERRORS_DEFAULT;
  row 0x02C "EOR ari" CLASS_DEFAULT CYCLES_EOR ERRORS_DEFAULT;
  row 0x02D "LDRD ptrm" CLASS_DEFAULT CYCLES_LDRD ERRORS_DEFAULT;
  row 0x02E "EOR rri" CLASS_DEFAULT CYCLES_EOR ERRORS_DEFAULT;
  row 0x02F "STRD ptrm" CLASS_DEFAULT CYCLES_STRD ERRORS_DEFAULT;
  row 0x030 "EORS lli" CLASS_DEFAULT CYCLES_EORS ERRORS_DEFAULT;
  row 0x031 "EORS llr" CLASS_DEFAULT CYCLES_EORS ERRORS_DEFAULT;
  row 0x032 "EORS lri" CLASS_DEFAULT CYCLES_EORS ERRORS_DEFAULT;
  row 0x033 "EORS lrr" CLASS_DEFAULT CYCLES_EORS ERRORS_DEFAULT;
  row 0x034 "EORS ari" CLASS_DEFAULT CYCLES_EORS ERRORS_DEFAULT;
  row 0x035 "EORS arr" CLASS_DEFAULT CYCLES_EORS ERRORS_DEFAULT;
  row 0x036 "EORS rri" CLASS_DEFAULT CYCLES_EORS ERRORS_DEFAULT;
  row 0x037 "EORS rrr" CLASS_DEFAULT CYCLES_EORS ERRORS_DEFAULT;
  row 0x038 "EORS lli" CLASS_DEFAULT CYCLES_EORS ERRORS_DEFAULT;
  row 0x039 "MLAS" CLASS_DEFAULT CYCLES_MLAS ERRORS_DEFAULT;
  row 0x03A "EORS lri" CLASS_DEFAULT CYCLES_EORS ERRORS_DEFAULT;
  row 0x03B "LDRH ptrm" CLASS_DEFAULT CYCLES_LDRH ERRORS_DEFAULT;
  row 0x03C "EORS ari" CLASS_DEFAULT CYCLES_EORS ERRORS_DEFAULT;
  row 0x03D "LDRSB ptrm" CLASS_DEFAULT CYCLES_LDRSB ERRORS_DEFAULT;
  row 0x03E "EORS rri" CLASS_DEFAULT CYCLES_EORS ERRORS_DEFAULT;
  row 0x03F "LDRSH ptrm" CLASS_DEFAULT CYCLES_LDRSH ERRORS_DEFAULT;
  row 0x040 "SUB lli" CLASS_DEFAULT CYCLES_SUB ERRORS_DEFAULT;
  row 0x041 "SUB llr" CLASS_DEFAULT CYCLES_SUB ERRORS_DEFAULT;
  row 0x042 "SUB lri" CLASS_DEFAULT CYCLES_SUB ERRORS_DEFAULT;
  row 0x043 "SUB lrr" CLASS_DEFAULT CYCLES_SUB ERRORS_DEFAULT;
  row 0x044 "SUB ari" CLASS_DEFAULT CYCLES_SUB ERRORS_DEFAULT;
  row 0x045 "SUB arr" CLASS_DEFAULT CYCLES_SUB ERRORS_DEFAULT;
  row 0x046 "SUB rri" CLASS_DEFAULT CYCLES_SUB ERRORS_DEFAULT;
  row 0x047 "SUB rrr" CLASS_DEFAULT CYCLES_SUB ERRORS_DEFAULT;
  row 0x048 "SUB lli" CLASS_DEFAULT CYCLES_SUB ERRORS_DEFAULT;
  row 0x049 "" CLASS_DEFAULT CYCLES_NONE ERRORS_DEFAULT;
  row 0x04A "SUB lri" CLASS_DEFAULT CYCLES_SUB ERRORS_DEFAULT;
  row 0x04B "STRH ptim" CLASS_DEFAULT CYCLES_STRH ERRORS_DEFAULT;
  row 0x04C "SUB ari" CLASS_DEFAULT CYCLES_SUB ERRORS_DEFAULT;
  row 0x04D "LDRD ptim" CLASS_DEFAULT CYCLES_LDRD ERRORS_DEFAULT;
  row 0x04E "SUB rri" CLASS_DEFAULT CYCLES_SUB ERRORS_DEFAULT;
  row 0x04F "STRD ptim" CLASS_DEFAULT CYCLES_STRD ERRORS_DEFAULT;
  row 0x050 "SUBS lli" CLASS_DEFAULT CYCLES_SUBS ERRORS_DEFAULT;
  row 0x051 "SUBS llr" CLASS_DEFAULT CYCLES_SUBS ERRORS_DEFAULT;
  row 0x052 "SUBS lri" CLASS_DEFAULT CYCLES_SUBS ERRORS_DEFAULT;
  row 0x053 "SUBS lrr" CLASS_DEFAULT CYCLES_SUBS ERRORS_DEFAULT;
  row 0x054 "SUBS ari" CLASS_DEFAULT CYCLES_SUBS ERRORS_DEFAULT;
  row 0x055 "SUBS arr" CLASS_DEFAULT CYCLES_SUBS ERRORS_DEFAULT;
  row 0x056 "SUBS rri" CLASS_DEFAULT CYCLES_SUBS ERRORS_DEFAULT;
  row 0x057 "SUBS rrr" CLASS_DEFAULT CYCLES_SUBS ERRORS_DEFAULT;
  row 0x058 "SUBS lli" CLASS_DEFAULT CYCLES_SUBS ERRORS_DEFAULT;
  row 0x059 "" CLASS_DEFAULT CYCLES_NONE ERRORS_DEFAULT;
  row 0x05A "SUBS lri" CLASS_DEFAULT CYCLES_SUBS ERRORS_DEFAULT;
  row 0x05B "LDRH ptim" CLASS_DEFAULT CYCLES_LDRH ERRORS_DEFAULT;
  row 0x05C "SUBS ari" CLASS_DEFAULT CYCLES_SUBS ERRORS_DEFAULT;
  row 0x05D "LDRSB ptim" CLASS_DEFAULT CYCLES_LDRSB ERRORS_DEFAULT;
  row 0x05E "SUBS rri" CLASS_DEFAULT CYCLES_SUBS ERRORS_DEFAULT;
  row 0x05F "LDRSH ptim" CLASS_DEFAULT CYCLES_LDRSH ERRORS_DEFAULT;
  row 0x060 "RSB lli" CLASS_DEFAULT CYCLES_RSB ERRORS_DEFAULT;
  row 0x061 "RSB llr" CLASS_DEFAULT CYCLES_RSB ERRORS_DEFAULT;
  row 0x062 "RSB lri" CLASS_DEFAULT CYCLES_RSB ERRORS_DEFAULT;
  row 0x063 "RSB lrr" CLASS_DEFAULT CYCLES_RSB ERRORS_DEFAULT;
  row 0x064 "RSB ari" CLASS_DEFAULT CYCLES_RSB ERRORS_DEFAULT;
  row 0x065 "RSB arr" CLASS_DEFAULT CYCLES_RSB ERRORS_DEFAULT;
  row 0x066 "RSB rri" CLASS_DEFAULT CYCLES_RSB ERRORS_DEFAULT;
  row 0x067 "RSB rrr" CLASS_DEFAULT CYCLES_RSB ERRORS_DEFAULT;
  row 0x068 "RSB lli" CLASS_DEFAULT CYCLES_RSB ERRORS_DEFAULT;
  row 0x069 "" CLASS_DEFAULT CYCLES_NONE ERRORS_DEFAULT;
  row 0x06A "RSB lri" CLASS_DEFAULT CYCLES_RSB ERRORS_DEFAULT;
  row 0x06B "STRH ptim" CLASS_DEFAULT CYCLES_STRH ERRORS_DEFAULT;
  row 0x06C "RSB ari" CLASS_DEFAULT CYCLES_RSB ERRORS_DEFAULT;
  row 0x06D "LDRD ptim" CLASS_DEFAULT CYCLES_LDRD ERRORS_DEFAULT;
  row 0x06E "RSB rri" CLASS_DEFAULT CYCLES_RSB ERRORS_DEFAULT;
  row 0x06F "STRD ptim" CLASS_DEFAULT CYCLES_STRD ERRORS_DEFAULT;
  row 0x070 "RSBS lli" CLASS_DEFAULT CYCLES_RSBS ERRORS_DEFAULT;
  row 0x071 "RSBS llr" CLASS_DEFAULT CYCLES_RSBS ERRORS_DEFAULT;
  row 0x072 "RSBS lri" CLASS_DEFAULT CYCLES_RSBS ERRORS_DEFAULT;
  row 0x073 "RSBS lrr" CLASS_DEFAULT CYCLES_RSBS ERRORS_DEFAULT;
  row 0x074 "RSBS ari" CLASS_DEFAULT CYCLES_RSBS ERRORS_DEFAULT;
  row 0x075 "RSBS arr" CLASS_DEFAULT CYCLES_RSBS ERRORS_DEFAULT;
  row 0x076 "RSBS rri" CLASS_DEFAULT CYCLES_RSBS ERRORS_DEFAULT;
  row 0x077 "RSBS rrr" CLASS_DEFAULT CYCLES_RSBS ERRORS_DEFAULT;
  row 0x078 "RSBS lli" CLASS_DEFAULT CYCLES_RSBS ERRORS_DEFAULT;
  row 0x079 "" CLASS_DEFAULT CYCLES_NONE ERRORS_DEFAULT;
  row 0x07A "RSBS lri" CLASS_DEFAULT CYCLES_RSBS ERRORS_DEFAULT;
  row 0x07B "LDRH ptim" CLASS_DEFAULT CYCLES_LDRH ERRORS_DEFAULT;
  row 0x07C "RSBS ari" CLASS_DEFAULT CYCLES_RSBS ERRORS_DEFAULT;
  row 0x07D "LDRSB ptim" CLASS_DEFAULT CYCLES_LDRSB ERRORS_DEFAULT;
  row 0x07E "RSBS rri" CLASS_DEFAULT CYCLES_RSBS ERRORS_DEFAULT;
  row 0x07F "LDRSH ptim" CLASS_DEFAULT CYCLES_LDRSH ERRORS_DEFAULT].

Definition vemu_arm_instr_01 : list vemu_instr_info := [
  row 0x080 "ADD lli" CLASS_DEFAULT CYCLES_ADD ERRORS_DEFAULT;
  row 0x081 "ADD llr" CLASS_DEFAULT CYCLES_ADD ERRORS_DEFAULT;
  row 0x082 "ADD lri" CLASS_DEFAULT CYCLES_ADD ERRORS_DEFAULT;
  row 0x083 "ADD lrr" CLASS_DEFAULT CYCLES_ADD ERRORS_DEFAULT;
  row 0x084 "ADD ari" CLASS_DEFAULT CYCLES_ADD ERRORS_DEFAULT;
  row 0x085 "ADD arr" CLASS_DEFAULT CYCLES_ADD ERRORS_DEFAULT;
  row 0x086 "ADD rri" CLASS_DEFAULT CYCLES_ADD ERRORS_DEFAULT;
  row 0x087 "ADD rrr" CLASS_DEFAULT CYCLES_ADD ERRORS_DEFAULT;
  row 0x088 "ADD lli" CLASS_DEFAULT CYCLES_ADD ERRORS_DEFAULT;
  row 0x089 "UMULL" CLASS_DEFAULT CYCLES_UMULL ERRORS_DEFAULT;
  row 0x08A "ADD lri" CLASS_DEFAULT CYCLES_ADD ERRORS_DEFAULT;
  row 0x08B "STRH ptrp" CLASS_DEFAULT CYCLES_STRH ERRORS_DEFAULT;
  row 0x08C "ADD ari" CLASS_DEFAULT CYCLES_ADD ERRORS_DEFAULT;
  row 0x08D "LDRD ptrp" CLASS_DEFAULT CYCLES_LDRD ERRORS_DEFAULT;
  row 0x08E "ADD rri" CLASS_DEFAULT CYCLES_ADD ERRORS_DEFAULT;
  row 0x08F "STRD ptrp" CLASS_DEFAULT CYCLES_STRD ERRORS_DEFAULT;
  row 0x090 "ADDS lli" CLASS_DEFAULT CYCLES_ADDS ERRORS_DEFAULT;
  row 0x091 "ADDS llr" CLASS_DEFAULT CYCLES_ADDS ERRORS_DEFAULT;
  row 0x092 "ADDS lri" CLASS_DEFAULT CYCLES_ADDS ERRORS_DEFAULT;
  row 0x093 "ADDS lrr" CLASS_DEFAULT CYCLES_ADDS ERRORS_DEFAULT;
  row 0x094 "ADDS ari" CLASS_DEFAULT CYCLES_ADDS ERRORS_DEFAULT;
  row 0x095 "ADDS arr" CLASS_DEFAULT CYCLES_ADDS ERRORS_DEFAULT;
  row 0x096 "ADDS rri" CLASS_DEFAULT CYCLES_ADDS ERRORS_DEFAULT;
  row 0x097 "ADDS rrr" CLASS_DEFAULT CYCLES_ADDS ERRORS_DEFAULT;
  row 0x098 "ADDS lli" CLASS_DEFAULT CYCLES_ADDS ERRORS_DEFAULT;
  row 0x099 "UMULLS" CLASS_DEFAULT CYCLES_UMULLS ERRORS_DEFAULT;
  row 0x09A "ADDS lri" CLASS_DEFAULT CYCLES_ADDS ERRORS_DEFAULT;
  row 0x09B "LDRH ptrp" CLASS_DEFAULT CYCLES_LDRH ERRORS_DEFAULT;
  row 0x09C "ADDS ari" CLASS_DEFAULT CYCLES_ADDS ERRORS_DEFAULT;
  row 0x09D "LDRSB ptrp" CLASS_DEFAULT CYCLES_LDRSB ERRORS_DEFAULT;
  row 0x09E "ADDS rri" CLASS_DEFAULT CYCLES_ADDS ERRORS_DEFAULT;
  row 0x09F "LDRSH ptrp" CLASS_DEFAULT CYCLES_LDRSH ERRORS_DEFAULT;
  row 0x0A0 "ADC lli" CLASS_DEFAULT CYCLES_ADC ERRORS_DEFAULT;
  row 0x0A1 "ADC llr" CLASS_DEFAULT CYCLES_ADC ERRORS_DEFAULT;
  row 0x0A2 "ADC lri" CLASS_DEFAULT CYCLES_ADC ERRORS_DEFAULT;
  row 0x0A3 "ADC lrr" CLASS_DEFAULT CYCLES_ADC ERRORS_DEFAULT;
  row 0x0A4 "ADC ari" CLASS_DEFAULT CYCLES_ADC ERRORS_DEFAULT;
  row 0x0A5 "ADC arr" CLASS_DEFAULT CYCLES_ADC ERRORS_DEFAULT;
  row 0x0A6 "ADC rri" CLASS_DEFAULT CYCLES_ADC ERRORS_DEFAULT;
  row 0x0A7 "ADC rrr" CLASS_DEFAULT CYCLES_ADC ERRORS_DEFAULT;
  row 0x0A8 "ADC lli" CLASS_DEFAULT CYCLES_ADC ERRORS_DEFAULT;
  row 0x0A9 "UMLAL" CLASS_DEFAULT CYCLES_UMLAL ERRORS_DEFAULT;
  row 0x0AA "ADC lri" CLASS_DEFAULT CYCLES_ADC ERRORS_DEFAULT;
  row 0x0AB "STRH ptrp" CLASS_DEFAULT CYCLES_STRH ERRORS_DEFAULT;
  row 0x0AC "ADC ari" CLASS_DEFAULT CYCLES_ADC ERRORS_DEFAULT;
  row 0x0AD "LDRD ptrp" CLASS_DEFAULT CYCLES_LDRD ERRORS_DEFAULT;
  row 0x0AE "ADC rri" CLASS_DEFAULT CYCLES_ADC ERRORS_DEFAULT;
  row 0x0AF "STRD ptrp" CLASS_DEFAULT CYCLES_STRD ERRORS_DEFAULT;
  row 0x0B0 "ADCS lli" CLASS_DEFAULT CYCLES_ADCS ERRORS_DEFAULT;
  row 0x0B1 "ADCS llr" CLASS_DEFAULT CYCLES_ADCS ERRORS_DEFAULT;
  row 0x0B2 "ADCS lri" CLASS_DEFAULT CYCLES_ADCS ERRORS_DEFAULT;
  row 0x0B3 "ADCS lrr" CLASS_DEFAULT CYCLES_ADCS ERRORS_DEFAULT;
  row 0x0B4 "ADCS ari" CLASS_DEFAULT CYCLES_ADCS ERRORS_DEFAULT;
  row 0x0B5 "ADCS arr" CLASS_DEFAULT CYCLES_ADCS ERRORS_DEFAULT;
  row 0x0B6 "ADCS rri" CLASS_DEFAULT CYCLES_ADCS ERRORS_DEFAULT;
  row 0x0B7 "ADCS rrr" CLASS_DEFAULT CYCLES_ADCS ERRORS_DEFAULT;
  row 0x0B8 "ADCS lli" CLASS_DEFAULT CYCLES_ADCS ERRORS_DEFAULT;
  row 0x0B9 "UMLALS" CLASS_DEFAULT CYCLES_UMLALS ERRORS_DEFAULT;
  row 0x0BA "ADCS lri" CLASS_DEFAULT CYCLES_ADCS ERRORS_DEFAULT;
  row 0x0BB "LDRH ptrp" CLASS_DEFAULT CYCLES_LDRH ERRORS_DEFAULT;
  row 0x0BC "ADCS ari" CLASS_DEFAULT CYCLES_ADCS ERRORS_DEFAULT;
  row 0x0BD "LDRSB ptrp" CLASS_DEFAULT CYCLES_LDRSB ERRORS_DEFAULT;
  row 0x0BE "ADCS rri" CLASS_DEFAULT CYCLES_ADCS ERRORS_DEFAULT;
  row 0x0BF "LDRSH ptrp" CLASS_DEFAULT CYCLES_LDRSH ERRORS_DEFAULT;
  row 0x0C0 "SBC lli" CLASS_DEFAULT CYCLES_SBC ERRORS_DEFAULT;
  row 0x0C1 "SBC llr" CLASS_DEFAULT CYCLES_SBC ERRORS_DEFAULT;
  row 0x0C2 "SBC lri" CLASS_DEFAULT CYCLES_SBC ERRORS_DEFAULT;
  row 0x0C3 "SBC lrr" CLASS_DEFAULT CYCLES_SBC ERRORS_DEFAULT;
  row 0x0C4 "SBC ari" CLASS_DEFAULT CYCLES_SBC ERRORS_DEFAULT;
  row 0x0C5 "SBC arr" CLASS_DEFAULT CYCLES_SBC ERRORS_DEFAULT;
  row 0x0C6 "SBC rri" CLASS_DEFAULT CYCLES_SBC ERRORS_DEFAULT;
  row 0x0C7 "SBC rrr" CLASS_DEFAULT CYCLES_SBC ERRORS_DEFAULT;
  row 0x0C8 "SBC lli" CLASS_DEFAULT CYCLES_SBC ERRORS_DEFAULT;
  row 0x0C9 "SMULL" CLASS_DEFAULT CYCLES_SMULL ERRORS_DEFAULT;
  row 0x0CA "SBC lri" CLASS_DEFAULT CYCLES_SBC ERRORS_DEFAULT;
  row 0x0CB "STRH ptip" CLASS_DEFAULT CYCLES_STRH ERRORS_DEFAULT;
  row 0x0CC "SBC ari" CLASS_DEFAULT CYCLES_SBC ERRORS_DEFAULT;
  row 0x0CD "LDRD ptip" CLASS_DEFAULT CYCLES_LDRD ERRORS_DEFAULT;
  row 0x0CE "SBC rri" CLASS_DEFAULT CYCLES_SBC ERRORS_DEFAULT;
  row 0x0CF "STRD ptip" CLASS_DEFAULT CYCLES_STRD ERRORS_DEFAULT;
  row 0x0D0 "SBCS lli" CLASS_DEFAULT CYCLES_SBCS ERRORS_DEFAULT;
  row 0x0D1 "SBCS llr" CLASS_DEFAULT CYCLES_SBCS ERRORS_DEFAULT;
  row 0x0D2 "SBCS lri" CLASS_DEFAULT CYCLES_SBCS ERRORS_DEFAULT;
  row 0x0D3 "SBCS lrr" CLASS_DEFAULT CYCLES_SBCS ERRORS_DEFAULT;
  row 0x0D4 "SBCS ari" CLASS_DEFAULT CYCLES_SBCS ERRORS_DEFAULT;
  row 0x0D5 "SBCS arr" CLASS_DEFAULT CYCLES_SBCS ERRORS_DEFAULT;
  row 0x0D6 "SBCS rri" CLASS_DEFAULT CYCLES_SBCS ERRORS_DEFAULT;
  row 0x0D7 "SBCS rrr" CLASS_DEFAULT CYCLES_SBCS ERRORS_DEFAULT;
  row 0x0D8 "SBCS lli" CLASS_DEFAULT CYCLES_SBCS ERRORS_DEFAULT;
  row 0x0D9 "SMULLS" CLASS_DEFAULT CYCLES_SMULLS ERRORS_DEFAULT;
  row 0x0DA "SBCS lri" CLASS_DEFAULT CYCLES_SBCS ERRORS_DEFAULT;
  row 0x0DB "LDRH ptip" CLASS_DEFAULT CYCLES_LDRH ERRORS_DEFAULT;
  row 0x0DC "SBCS ari" CLASS_DEFAULT CYCLES_SBCS ERRORS_DEFAULT;
  row 0x0DD "LDRSB ptip" CLASS_DEFAULT CYCLES_LDRSB ERRORS_DEFAULT;
  row 0x0DE "SBCS rri" CLASS_DEFAULT CYCLES_SBCS ERRORS_DEFAULT;
  row 0x0DF "LDRSH ptip" CLASS_DEFAULT CYCLES_LDRSH ERRORS_DEFAULT;
  row 0x0E0 "RSC lli" CLASS_DEFAULT CYCLES_RSC ERRORS_DEFAULT;
  row 0x0E1 "RSC llr" CLASS_DEFAULT CYCLES_RSC ERRORS_DEFAULT;
  row 0x0E2 "RSC lri" CLASS_DEFAULT CYCLES_RSC ERRORS_DEFAULT;
  row 0x0E3 "RSC lrr" CLASS_DEFAULT CYCLES_RSC ERRORS_DEFAULT;
  row 0x0E4 "RSC ari" CLASS_DEFAULT CYCLES_RSC ERRORS_DEFAULT;
  row 0x0E5 "RSC arr" CLASS_DEFAULT CYCLES_RSC ERRORS_DEFAULT;
  row 0x0E6 "RSC rri" CLASS_DEFAULT CYCLES_RSC ERRORS_DEFAULT;
  row 0x0E7 "RSC rrr" CLASS_DEFAULT CYCLES_RSC ERRORS_DEFAULT;
  row 0x0E8 "RSC lli" CLASS_DEFAULT CYCLES_RSC ERRORS_DEFAULT;
  row 0x0E9 "SMLAL" CLASS_DEFAULT CYCLES_SMLAL ERRORS_DEFAULT;
  row 0x0EA "RSC lri" CLASS_DEFAULT CYCLES_RSC ERRORS_DEFAULT;
  row 0x0EB "STRH ptip" CLASS_DEFAULT CYCLES_STRH ERRORS_DEFAULT;
  row 0x0EC "RSC ari" CLASS_DEFAULT CYCLES_RSC ERRORS_DEFAULT;
  row 0x0ED "LDRD ptip" CLASS_DEFAULT CYCLES_LDRD ERRORS_DEFAULT;
  row 0x0EE "RSC rri" CLASS_DEFAULT CYCLES_RSC ERRORS_DEFAULT;
  row 0x0EF "STRD ptip" CLASS_DEFAULT CYCLES_STRD ERRORS_DEFAULT;
  row 0x0F0 "RSCS lli" CLASS_DEFAULT CYCLES_RSCS ERRORS_DEFAULT;
  row 0x0F1 "RSCS llr" CLASS_DEFAULT CYCLES_RSCS ERRORS_DEFAULT;
  row 0x0F2 "RSCS lri" CLASS_DEFAULT CYCLES_RSCS ERRORS_DEFAULT;
  row 0x0F3 "RSCS lrr" CLASS_DEFAULT CYCLES_RSCS ERRORS_DEFAULT;
  row 0x0F4 "RSCS ari" CLASS_DEFAULT CYCLES_RSCS ERRORS_DEFAULT;
  row 0x0F5 "RSCS arr" CLASS_DEFAULT CYCLES_RSCS ERRORS_DEFAULT;
  row 0x0F6 "RSCS rri" CLASS_DEFAULT CYCLES_RSCS ERRORS_DEFAULT;
  row 0x0F7 "RSCS rrr" CLASS_DEFAULT CYCLES_RSCS ERRORS_DEFAULT;
  row 0x0F8 "RSCS lli" CLASS_DEFAULT CYCLES_RSCS ERRORS_DEFAULT;
  row 0x0F9 "SMLALS" CLASS_DEFAULT CYCLES_SMLALS ERRORS_DEFAULT;
  row 0x0FA "RSCS lri" CLASS_DEFAULT CYCLES_RSCS ERRORS_DEFAULT;
  row 0x0FB "LDRH ptip" CLASS_DEFAULT CYCLES_LDRH ERRORS_DEFAULT;
  row 0x0FC "RSCS ari" CLASS_DEFAULT CYCLES_RSCS ERRORS_DEFAULT;
  row 0x0FD "LDRSB ptip" CLASS_DEFAULT CYCLES_LDRSB ERRORS_DEFAULT;
  row 0x0FE "RSCS rri" CLASS_DEFAULT CYCLES_RSCS ERRORS_DEFAULT;
  row 0x0FF "LDRSH ptip" CLASS_DEFAULT CYCLES_LDRSH ERRORS_DEFAULT].

Definition vemu_arm_instr_02 : list vemu_instr_info := [
  row 0x100 "MRS rc" CLASS_DEFAULT CYCLES_MRS ERRORS_DEFAULT;
  row 0x101 "" CLASS_DEFAULT CYCLES_NONE ERRORS_DEFAULT;
  row 0x102 "" CLASS_DEFAULT CYCLES_NONE ERRORS_DEFAULT;
  row 0x103 "" CLASS_DEFAULT CYCLES_NONE ERRORS_DEFAULT;
  row 0x104 "" CLASS_DEFAULT CYCLES_NONE ERRORS_DEFAULT;
  row 0x105 "QADD" CLASS_DEFAULT CYCLES_QADD ERRORS_DEFAULT;
  row 0x106 "" CLASS_DEFAULT CYCLES_NONE ERRORS_DEFAULT;
  row 0x107 "" CLASS_DEFAULT CYCLES_NONE ERRORS_DEFAULT;
  row 0x108 "SMLABB" CLASS_DEFAULT CYCLES_SMLABB ERRORS_DEFAULT;
  row 0x109 "SWP" CLASS_DEFAULT CYCLES_SWP ERRORS_DEFAULT;
  row 0x10A "SMLATB" CLASS_DEFAULT CYCLES_SMLATB ERRORS_DEFAULT;
  row 0x10B "STRH ofrm" CLASS_DEFAULT CYCLES_STRH ERRORS_DEFAULT;
  row 0x10C "SMLABT" CLASS_DEFAULT CYCLES_SMLABT ERRORS_DEFAULT;
  row 0x10D "LDRD ofrm" CLASS_DEFAULT CYCLES_LDRD ERRORS_DEFAULT;
  row 0x10E "SMLATT" CLASS_DEFAULT CYCLES_SMLATT ERRORS_DEFAULT;
  row 0x10F "STRD ofrm" CLASS_DEFAULT CYCLES_STRD ERRORS_DEFAULT;
  row 0x110 "TSTS lli" CLASS_DEFAULT CYCLES_TSTS ERRORS_DEFAULT;
  row 0x111 "TSTS llr" CLASS_DEFAULT CYCLES_TSTS ERRORS_DEFAULT;
  row 0x112 "TSTS lri" CLASS_DEFAULT CYCLES_TSTS ERRORS_DEFAULT;
  row 0x113 "TSTS lrr" CLASS_DEFAULT CYCLES_TSTS ERRORS_DEFAULT;
  row 0x114 "TSTS ari" CLASS_DEFAULT CYCLES_TSTS ERRORS_DEFAULT;
  row 0x115 "TSTS arr" CLASS_DEFAULT CYCLES_TSTS ERRORS_DEFAULT;
  row 0x116 "TSTS rri" CLASS_DEFAULT CYCLES_TSTS ERRORS_DEFAULT;
  row 0x117 "TSTS rrr" CLASS_DEFAULT CYCLES_TSTS ERRORS_DEFAULT;
  row 0x118 "TSTS lli" CLASS_DEFAULT CYCLES_TSTS ERRORS_DEFAULT;
  row 0x119 "" CLASS_DEFAULT CYCLES_NONE ERRORS_DEFAULT;
  row 0x11A "TSTS lri" CLASS_DEFAULT CYCLES_TSTS ERRORS_DEFAULT;
  row 0x11B "LDRH ofrm" CLASS_DEFAULT CYCLES_LDRH ERRORS_DEFAULT;
  row 0x11C "TSTS ari" CLASS_DEFAULT CYCLES_TSTS ERRORS_DEFAULT;
  row 0x11D "LDRSB ofrm" CLASS_DEFAULT CYCLES_LDRSB ERRORS_DEFAULT;
  row 0x11E "TSTS rri" CLASS_DEFAULT CYCLES_TSTS ERRORS_DEFAULT;
  row 0x11F "LDRSH ofrm" CLASS_DEFAULT CYCLES_LDRSH ERRORS_DEFAULT;
  row 0x120 "MSR rc" CLASS_DEFAULT CYCLES_MSR ERRORS_DEFAULT;
  row 0x121 "BX" CLASS_DEFAULT CYCLES_BX ERRORS_DEFAULT;
  row 0x122 "" CLASS_DEFAULT CYCLES_NONE ERRORS_DEFAULT;
  row 0x123 "BLX reg" CLASS_DEFAULT CYCLES_BLX ERRORS_DEFAULT;
  row 0x124 "" CLASS_DEFAULT CYCLES_NONE ERRORS_DEFAULT;
  row 0x125 "QSUB" CLASS_DEFAULT CYCLES_QSUB ERRORS_DEFAULT;
  row 0x126 "" CLASS_DEFAULT CYCLES_NONE ERRORS_DEFAULT;
  row 0x127 "BKPT" CLASS_DEFAULT CYCLES_BKPT ERRORS_DEFAULT;
  row 0x128 "SMLAWB" CLASS_DEFAULT CYCLES_SMLAWB ERRORS_DEFAULT;
  row 0x129 "" CLASS_DEFAULT CYCLES_NONE ERRORS_DEFAULT;
  row 0x12A "SMULWB" CLASS_DEFAULT CYCLES_SMULWB ERRORS_DEFAULT;
  row 0x12B "STRH prrm" CLASS_DEFAULT CYCLES_STRH ERRORS_DEFAULT;
  row 0x12C "SMLAWT" CLASS_DEFAULT CYCLES_SMLAWT ERRORS_DEFAULT;
  row 0x12D "LDRD prrm" CLASS_DEFAULT CYCLES_LDRD ERRORS_DEFAULT;
  row 0x12E "SMULWT" CLASS_DEFAULT CYCLES_SMULWT ERRORS_DEFAULT;
  row 0x12F "STRD prrm" CLASS_DEFAULT CYCLES_STRD ERRORS_DEFAULT;
  row 0x130 "TEQS lli" CLASS_DEFAULT CYCLES_TEQS ERRORS_DEFAULT;
  row 0x131 "TEQS llr" CLASS_DEFAULT CYCLES_TEQS ERRORS_DEFAULT;
  row 0x132 "TEQS lri" CLASS_DEFAULT CYCLES_TEQS ERRORS_DEFAULT;
  row 0x133 "TEQS lrr" CLASS_DEFAULT CYCLES_TEQS ERRORS_DEFAULT;
  row 0x134 "TEQS ari" CLASS_DEFAULT CYCLES_TEQS ERRORS_DEFAULT;
  row 0x135 "TEQS arr" CLASS_DEFAULT CYCLES_TEQS ERRORS_DEFAULT;
  row 0x136 "TEQS rri" CLASS_DEFAULT CYCLES_TEQS ERRORS_DEFAULT;
  row 0x137 "TEQS rrr" CLASS_DEFAULT CYCLES_TEQS ERRORS_DEFAULT;
  row 0x138 "TEQS lli" CLASS_DEFAULT CYCLES_TEQS ERRORS_DEFAULT;
  row 0x139 "" CLASS_DEFAULT CYCLES_NONE ERRORS_DEFAULT;
  row 0x13A "TEQS lri" CLASS_DEFAULT CYCLES_TEQS ERRORS_DEFAULT;
  row 0x13B "LDRH prrm" CLASS_DEFAULT CYCLES_LDRH ERRORS_DEFAULT;
  row 0x13C "TEQS ari" CLASS_DEFAULT CYCLES_TEQS ERRORS_DEFAULT;
  row 0x13D "LDRSB prrm" CLASS_DEFAULT CYCLES_LDRSB ERRORS_DEFAULT;
  row 0x13E "TEQS rri" CLASS_DEFAULT CYCLES_TEQS ERRORS_DEFAULT;
  row 0x13F "LDRSH prrm" CLASS_DEFAULT CYCLES_LDRSH ERRORS_DEFAULT;
  row 0x140 "MRS rs" CLASS_DEFAULT CYCLES_MRS ERRORS_DEFAULT;
  row 0x141 "" CLASS_DEFAULT CYCLES_NONE ERRORS_DEFAULT;
  row 0x142 "" CLASS_DEFAULT CYCLES_NONE ERRORS_DEFAULT;
  row 0x143 "" CLASS_DEFAULT CYCLES_NONE ERRORS_DEFAULT;
  row 0x144 "" CLASS_DEFAULT CYCLES_NONE ERRORS_DEFAULT;
  row 0x145 "QDADD" CLASS_DEFAULT CYCLES_QDADD ERRORS_DEFAULT;
  row 0x146 "" CLASS_DEFAULT CYCLES_NONE ERRORS_DEFAULT;
  row 0x147 "" CLASS_DEFAULT CYCLES_NONE ERRORS_DEFAULT;
  row 0x148 "SMLALBB" CLASS_DEFAULT CYCLES_SMLALBB ERRORS_DEFAULT;
  row 0x149 "SWPB" CLASS_DEFAULT CYCLES_SWPB ERRORS_DEFAULT;
  row 0x14A "SMLALTB" CLASS_DEFAULT CYCLES_SMLALTB ERRORS_DEFAULT;
  row 0x14B "STRH ofim" CLASS_DEFAULT CYCLES_STRH ERRORS_DEFAULT;
  row 0x14C "SMLALBT" CLASS_DEFAULT CYCLES_SMLALBT ERRORS_DEFAULT;
  row 0x14D "LDRD ofim" CLASS_DEFAULT CYCLES_LDRD ERRORS_DEFAULT;
  row 0x14E "SMLALTT" CLASS_DEFAULT CYCLES_SMLALTT ERRORS_DEFAULT;
  row 0x14F "STRD ofim" CLASS_DEFAULT CYCLES_STRD ERRORS_DEFAULT;
  row 0x150 "CMPS lli" CLASS_DEFAULT CYCLES_CMPS ERRORS_DEFAULT;
  row 0x151 "CMPS llr" CLASS_DEFAULT CYCLES_CMPS ERRORS_DEFAULT;
  row 0x152 "CMPS lri" CLASS_DEFAULT CYCLES_CMPS ERRORS_DEFAULT;
  row 0x153 "CMPS lrr" CLASS_DEFAULT CYCLES_CMPS ERRORS_DEFAULT;
  row 0x154 "CMPS ari" CLASS_DEFAULT CYCLES_CMPS ERRORS_DEFAULT;
  row 0x155 "CMPS arr" CLASS_DEFAULT CYCLES_CMPS ERRORS_DEFAULT;
  row 0x156 "CMPS rri" CLASS_DEFAULT CYCLES_CMPS ERRORS_DEFAULT;
  row 0x157 "CMPS rrr" CLASS_DEFAULT CYCLES_CMPS ERRORS_DEFAULT;
  row 0x158 "CMPS lli" CLASS_DEFAULT CYCLES_CMPS ERRORS_DEFAULT;
  row 0x159 "" CLASS_DEFAULT CYCLES_NONE ERRORS_DEFAULT;
  row 0x15A "CMPS lri" CLASS_DEFAULT CYCLES_CMPS ERRORS_DEFAULT;
  row 0x15B "LDRH ofim" CLASS_DEFAULT CYCLES_LDRH ERRORS_DEFAULT;
  row 0x15C "CMPS ari" CLASS_DEFAULT CYCLES_CMPS ERRORS_DEFAULT;
  row 0x15D "LDRSB ofim" CLASS_DEFAULT CYCLES_LDRSB ERRORS_DEFAULT;
  row 0x15E "CMPS rri" CLASS_DEFAULT CYCLES_CMPS ERRORS_DEFAULT;
  row 0x15F "LDRSH ofim" CLASS_DEFAULT CYCLES_LDRSH ERRORS_DEFAULT;
  row 0x160 "MSR rs" CLASS_DEFAULT CYCLES_MSR ERRORS_DEFAULT;
  row 0x161 "CLZ" CLASS_DEFAULT CYCLES_CLZ ERRORS_DEFAULT;
  row 0x162 "" CLASS_DEFAULT CYCLES_NONE ERRORS_DEFAULT;
  row 0x163 "" CLASS_DEFAULT CYCLES_NONE ERRORS_DEFAULT;
  row 0x164 "" CLASS_DEFAULT CYCLES_NONE ERRORS_DEFAULT;
  row 0x165 "QDSUB" CLASS_DEFAULT CYCLES_QDSUB ERRORS_DEFAULT;
  row 0x166 "" CLASS_DEFAULT CYCLES_NONE ERRORS_DEFAULT;
  row 0x167 "" CLASS_DEFAULT CYCLES_NONE ERRORS_DEFAULT;
  row 0x168 "SMULBB" CLASS_DEFAULT CYCLES_SMULBB ERRORS_DEFAULT;
  row 0x169 "" CLASS_DEFAULT CYCLES_NONE ERRORS_DEFAULT;
  row 0x16A "SMULTB" CLASS_DEFAULT CYCLES_SMULTB ERRORS_DEFAULT;
  row 0x16B "STRH prim" CLASS_DEFAULT CYCLES_STRH ERRORS_DEFAULT;
  row 0x16C "SMULBT" CLASS_DEFAULT CYCLES_SMULBT ERRORS_DEFAULT;
  row 0x16D "LDRD prim" CLASS_DEFAULT CYCLES_LDRD ERRORS_DEFAULT;
  row 0x16E "SMULTT" CLASS_DEFAULT CYCLES_SMULTT ERRORS_DEFAULT;
  row 0x16F "STRD prim" CLASS_DEFAULT CYCLES_STRD ERRORS_DEFAULT;
  row 0x170 "CMNS lli" CLASS_DEFAULT CYCLES_CMNS ERRORS_DEFAULT;
  row 0x171 "CMNS llr" CLASS_DEFAULT CYCLES_CMNS ERRORS_DEFAULT;
  row 0x172 "CMNS lri" CLASS_DEFAULT CYCLES_CMNS ERRORS_DEFAULT;
  row 0x173 "CMNS lrr" CLASS_DEFAULT CYCLES_CMNS ERRORS_DEFAULT;
  row 0x174 "CMNS ari" CLASS_DEFAULT CYCLES_CMNS ERRORS_DEFAULT;
  row 0x175 "CMNS arr" CLASS_DEFAULT CYCLES_CMNS ERRORS_DEFAULT;
  row 0x176 "CMNS rri" CLASS_DEFAULT CYCLES_CMNS ERRORS_DEFAULT;
  row 0x177 "CMNS rrr" CLASS_DEFAULT CYCLES_CMNS ERRORS_DEFAULT;
  row 0x178 "CMNS lli" CLASS_DEFAULT CYCLES_CMNS ERRORS_DEFAULT;
  row 0x179 "" CLASS_DEFAULT CYCLES_NONE ERRORS_DEFAULT;
  row 0x17A "CMNS lri" CLASS_DEFAULT CYCLES_CMNS ERRORS_DEFAULT;
  row 0x17B "LDRH prim" CLASS_DEFAULT CYCLES_LDRH ERRORS_DEFAULT;
  row 0x17C "CMNS ari" CLASS_DEFAULT CYCLES_CMNS ERRORS_DEFAULT;
  row 0x17D "LDRSB prim" CLASS_DEFAULT CYCLES_LDRSB ERRORS_DEFAULT;
  row 0x17E "CMNS rri" CLASS_DEFAULT CYCLES_CMNS ERRORS_DEFAULT;
  row 0x17F "LDRSH prim" CLASS_DEFAULT CYCLES_LDRSH ERRORS_DEFAULT].

Definition vemu_arm_instr_03 : list vemu_instr_info := [
  row 0x180 "ORR lli" CLASS_DEFAULT CYCLES_ORR ERRORS_DEFAULT;
  row 0x181 "ORR llr" CLASS_DEFAULT CYCLES_ORR ERRORS_DEFAULT;
  row 0x182 "ORR lri" CLASS_DEFAULT CYCLES_ORR ERRORS_DEFAULT;
  row 0x183 "ORR lrr" CLASS_DEFAULT CYCLES_ORR ERRORS_DEFAULT;
  row 0x184 "ORR ari" CLASS_DEFAULT CYCLES_ORR ERRORS_DEFAULT;
  row 0x185 "ORR arr" CLASS_DEFAULT CYCLES_ORR ERRORS_DEFAULT;
  row 0x186 "ORR rri" CLASS_DEFAULT CYCLES_ORR ERRORS_DEFAULT;
  row 0x187 "O rrrrr" CLASS_DEFAULT CYCLES_O ERRORS_DEFAULT;
  row 0x188 "ORR lli" CLASS_DEFAULT CYCLES_ORR ERRORS_DEFAULT;
  row 0x189 "" CLASS_DEFAULT CYCLES_NONE ERRORS_DEFAULT;
  row 0x18A "ORR lri" CLASS_DEFAULT CYCLES_ORR ERRORS_DEFAULT;
  row 0x18B "STRH ofrp" CLASS_DEFAULT CYCLES_STRH ERRORS_DEFAULT;
  row 0x18C "ORR ari" CLASS_DEFAULT CYCLES_ORR ERRORS_DEFAULT;
  row 0x18D "LDRD ofrp" CLASS_DEFAULT CYCLES_LDRD ERRORS_DEFAULT;
  row 0x18E "ORR rri" CLASS_DEFAULT CYCLES_ORR ERRORS_DEFAULT;
  row 0x18F "STRD ofrp" CLASS_DEFAULT CYCLES_STRD ERRORS_DEFAULT;
  row 0x190 "ORRS lli" CLASS_DEFAULT CYCLES_ORRS ERRORS_DEFAULT;
  row 0x191 "ORRS llr" CLASS_DEFAULT CYCLES_ORRS ERRORS_DEFAULT;
  row 0x192 "ORRS lri" CLASS_DEFAULT CYCLES_ORRS ERRORS_DEFAULT;
  row 0x193 "ORRS lrr" CLASS_DEFAULT CYCLES_ORRS ERRORS_DEFAULT;
  row 0x194 "ORRS ari" CLASS_DEFAULT CYCLES_ORRS ERRORS_DEFAULT;
  row 0x195 "ORRS arr" CLASS_DEFAULT CYCLES_ORRS ERRORS_DEFAULT;
  row 0x196 "ORRS rri" CLASS_DEFAULT CYCLES_ORRS ERRORS_DEFAULT;
  row 0x197 "ORRS rrr" CLASS_DEFAULT CYCLES_ORRS ERRORS_DEFAULT;
  row 0x198 "ORRS lli" CLASS_DEFAULT CYCLES_ORRS ERRORS_DEFAULT;
  row 0x199 "" CLASS_DEFAULT CYCLES_NONE ERRORS_DEFAULT;
  row 0x19A "ORRS lri" CLASS_DEFAULT CYCLES_ORRS ERRORS_DEFAULT;
  row 0x19B "LDRH ofrp" CLASS_DEFAULT CYCLES_LDRH ERRORS_DEFAULT;
  row 0x19C "ORRS ari" CLASS_DEFAULT CYCLES_ORRS ERRORS_DEFAULT;
  row 0x19D "LDRSB ofrp" CLASS_DEFAULT CYCLES_LDRSB ERRORS_DEFAULT;
  row 0x19E "ORRS rri" CLASS_DEFAULT CYCLES_ORRS ERRORS_DEFAULT;
  row 0x19F "LDRSH ofrp" CLASS_DEFAULT CYCLES_LDRSH ERRORS_DEFAULT;
  row 0x1A0 "MOV lli" CLASS_DEFAULT CYCLES_MOV ERRORS_DEFAULT;
  row 0x1A1 "MOV llr" CLASS_DEFAULT CYCLES_MOV ERRORS_DEFAULT;
  row 0x1A2 "MOV lri" CLASS_DEFAULT CYCLES_MOV ERRORS_DEFAULT;
  row 0x1A3 "MOV lrr" CLASS_DEFAULT CYCLES_MOV ERRORS_DEFAULT;
  row 0x1A4 "MOV ari" CLASS_DEFAULT CYCLES_MOV ERRORS_DEFAULT;
  row 0x1A5 "MOV arr" CLASS_DEFAULT CYCLES_MOV ERRORS_DEFAULT;
  row 0x1A6 "MOV rri" CLASS_DEFAULT CYCLES_MOV ERRORS_DEFAULT;
  row 0x1A7 "MOV rrr" CLASS_DEFAULT CYCLES_MOV ERRORS_DEFAULT;
  row 0x1A8 "MOV lli" CLASS_DEFAULT CYCLES_MOV ERRORS_DEFAULT;
  row 0x1A9 "" CLASS_DEFAULT CYCLES_NONE ERRORS_DEFAULT;
  row 0x1AA "MOV lri" CLASS_DEFAULT CYCLES_MOV ERRORS_DEFAULT;
  row 0x1AB "STRH prrp" CLASS_DEFAULT CYCLES_STRH ERRORS_DEFAULT;
  row 0x1AC "MOV ari" CLASS_DEFAULT CYCLES_MOV ERRORS_DEFAULT;
  row 0x1AD "LDRD prrp" CLASS_DEFAULT CYCLES_LDRD ERRORS_DEFAULT;
  row 0x1AE "MOV rri" CLASS_DEFAULT CYCLES_MOV ERRORS_DEFAULT;
  row 0x1AF "STRD prrp" CLASS_DEFAULT CYCLES_STRD ERRORS_DEFAULT;
  row 0x1B0 "MOVS lli" CLASS_DEFAULT CYCLES_MOVS ERRORS_DEFAULT;
  row 0x1B1 "MOVS llr" CLASS_DEFAULT CYCLES_MOVS ERRORS_DEFAULT;
  row 0x1B2 "MOVS lri" CLASS_DEFAULT CYCLES_MOVS ERRORS_DEFAULT;
  row 0x1B3 "MOVS lrr" CLASS_DEFAULT CYCLES_MOVS ERRORS_DEFAULT;
  row 0x1B4 "MOVS ari" CLASS_DEFAULT CYCLES_MOVS ERRORS_DEFAULT;
  row 0x1B5 "MOVS arr" CLASS_DEFAULT CYCLES_MOVS ERRORS_DEFAULT;
  row 0x1B6 "MOVS rri" CLASS_DEFAULT CYCLES_MOVS ERRORS_DEFAULT;
  row 0x1B7 "MOVS rrr" CLASS_DEFAULT CYCLES_MOVS ERRORS_DEFAULT;
  row 0x1B8 "MOVS lli" CLASS_DEFAULT CYCLES_MOVS ERRORS_DEFAULT;
  row 0x1B9 "" CLASS_DEFAULT CYCLES_NONE ERRORS_DEFAULT;
  row 0x1BA "MOVS lri" CLASS_DEFAULT CYCLES_MOVS ERRORS_DEFAULT;
  row 0x1BB "LDRH prrp" CLASS_DEFAULT CYCLES_LDRH ERRORS_DEFAULT;
  row 0x1BC "MOVS ari" CLASS_DEFAULT CYCLES_MOVS ERRORS_DEFAULT;
  row 0x1BD "LDRSB prrp" CLASS_DEFAULT CYCLES_LDRSB ERRORS_DEFAULT;
  row 0x1BE "MOVS rri" CLASS_DEFAULT CYCLES_MOVS ERRORS_DEFAULT;
  row 0x1BF "LDRSH prrp" CLASS_DEFAULT CYCLES_LDRSH ERRORS_DEFAULT;
  row 0x1C0 "BIC lli" CLASS_DEFAULT CYCLES_BIC ERRORS_DEFAULT;
  row 0x1C1 "BIC llr" CLASS_DEFAULT CYCLES_BIC ERRORS_DEFAULT;
  row 0x1C2 "BIC lri" CLASS_DEFAULT CYCLES_BIC ERRORS_DEFAULT;
  row 0x1C3 "BIC lrr" CLASS_DEFAULT CYCLES_BIC ERRORS_DEFAULT;
  row 0x1C4 "BIC ari" CLASS_DEFAULT CYCLES_BIC ERRORS_DEFAULT;
  row 0x1C5 "BIC arr" CLASS_DEFAULT CYCLES_BIC ERRORS_DEFAULT;
  row 0x1C6 "BIC rri" CLASS_DEFAULT CYCLES_BIC ERRORS_DEFAULT;
  row 0x1C7 "BIC rrr" CLASS_DEFAULT CYCLES_BIC ERRORS_DEFAULT;
  row 0x1C8 "BIC lli" CLASS_DEFAULT CYCLES_BIC ERRORS_DEFAULT;
  row 0x1C9 "" CLASS_DEFAULT CYCLES_NONE ERRORS_DEFAULT;
  row 0x1CA "BIC lri" CLASS_DEFAULT CYCLES_BIC ERRORS_DEFAULT;
  row 0x1CB "STRH ofip" CLASS_DEFAULT CYCLES_STRH ERRORS_DEFAULT;
  row 0x1CC "BIC ari" CLASS_DEFAULT CYCLES_BIC ERRORS_DEFAULT;
  row 0x1CD "LDRD ofip" CLASS_DEFAULT CYCLES_LDRD ERRORS_DEFAULT;
  row 0x1CE "BIC rri" CLASS_DEFAULT CYCLES_BIC ERRORS_DEFAULT;
  row 0x1CF "STRD ofip" CLASS_DEFAULT CYCLES_STRD ERRORS_DEFAULT;
  row 0x1D0 "BICS lli" CLASS_DEFAULT CYCLES_BICS ERRORS_DEFAULT;
  row 0x1D1 "BICS llr" CLASS_DEFAULT CYCLES_BICS ERRORS_DEFAULT;
  row 0x1D2 "BICS lri" CLASS_DEFAULT CYCLES_BICS ERRORS_DEFAULT;
  row 0x1D3 "BICS lrr" CLASS_DEFAULT CYCLES_BICS ERRORS_DEFAULT;
  row 0x1D4 "BICS ari" CLASS_DEFAULT CYCLES_BICS ERRORS_DEFAULT;
  row 0x1D5 "BICS arr" CLASS_DEFAULT CYCLES_BICS ERRORS_DEFAULT;
  row 0x1D6 "BICS rri" CLASS_DEFAULT CYCLES_BICS ERRORS_DEFAULT;
  row 0x1D7 "BICS rrr" CLASS_DEFAULT CYCLES_BICS ERRORS_DEFAULT;
  row 0x1D8 "BICS lli" CLASS_DEFAULT CYCLES_BICS ERRORS_DEFAULT;
  row 0x1D9 "" CLASS_DEFAULT CYCLES_NONE ERRORS_DEFAULT;
  row 0x1DA "BICS lri" CLASS_DEFAULT CYCLES_BICS ERRORS_DEFAULT;
  row 0x1DB "LDRH ofip" CLASS_DEFAULT CYCLES_LDRH ERRORS_DEFAULT;
  row 0x1DC "BICS ari" CLASS_DEFAULT CYCLES_BICS ERRORS_DEFAULT;
  row 0x1DD "LDRSB ofip" CLASS_DEFAULT CYCLES_LDRSB ERRORS_DEFAULT;
  row 0x1DE "BICS rri" CLASS_DEFAULT CYCLES_BICS ERRORS_DEFAULT;
  row 0x1DF "LDRSH ofip" CLASS_DEFAULT CYCLES_LDRSH ERRORS_DEFAULT;
  row 0x1E0 "MVN lli" CLASS_DEFAULT CYCLES_MVN ERRORS_DEFAULT;
  row 0x1E1 "MVN llr" CLASS_DEFAULT CYCLES_MVN ERRORS_DEFAULT;
  row 0x1E2 "MVN lri" CLASS_DEFAULT CYCLES_MVN ERRORS_DEFAULT;
  row 0x1E3 "MVN lrr" CLASS_DEFAULT CYCLES_MVN ERRORS_DEFAULT;
  row 0x1E4 "MVN ari" CLASS_DEFAULT CYCLES_MVN ERRORS_DEFAULT;
  row 0x1E5 "MVN arr" CLASS_DEFAULT CYCLES_MVN ERRORS_DEFAULT;
  row 0x1E6 "MVN rri" CLASS_DEFAULT CYCLES_MVN ERRORS_DEFAULT;
  row 0x1E7 "MVN rrr" CLASS_DEFAULT CYCLES_MVN ERRORS_DEFAULT;
  row 0x1E8 "MVN lli" CLASS_DEFAULT CYCLES_MVN ERRORS_DEFAULT;
  row 0x1E9 "" CLASS_DEFAULT CYCLES_NONE ERRORS_DEFAULT;
  row 0x1EA "MVN lri" CLASS_DEFAULT CYCLES_MVN ERRORS_DEFAULT;
  row 0x1EB "STRH prip" CLASS_DEFAULT CYCLES_STRH ERRORS_DEFAULT;
  row 0x1EC "MVN ari" CLASS_DEFAULT CYCLES_MVN ERRORS_DEFAULT;
  row 0x1ED "LDRD prip" CLASS_DEFAULT CYCLES_LDRD ERRORS_DEFAULT;
  row 0x1EE "MVN rri" CLASS_DEFAULT CYCLES_MVN ERRORS_DEFAULT;
  row 0x1EF "STRD prip" CLASS_DEFAULT CYCLES_STRD ERRORS_DEFAULT;
  row 0x1F0 "MVNS lli" CLASS_DEFAULT CYCLES_MVNS ERRORS_DEFAULT;
  row 0x1F1 "MVNS llr" CLASS_DEFAULT CYCLES_MVNS ERRORS_DEFAULT;
  row 0x1F2 "MVNS lri" CLASS_DEFAULT CYCLES_MVNS ERRORS_DEFAULT;
  row 0x1F3 "MVNS lrr" CLASS_DEFAULT CYCLES_MVNS ERRORS_DEFAULT;
  row 0x1F4 "MVNS ari" CLASS_DEFAULT CYCLES_MVNS ERRORS_DEFAULT;
  row 0x1F5 "MVNS arr" CLASS_DEFAULT CYCLES_MVNS ERRORS_DEFAULT;
  row 0x1F6 "MVNS rri" CLASS_DEFAULT CYCLES_MVNS ERRORS_DEFAULT;
  row 0x1F7 "MVNS rrr" CLASS_DEFAULT CYCLES_MVNS ERRORS_DEFAULT;
  row 0x1F8 "MVNS lli" CLASS_DEFAULT CYCLES_MVNS ERRORS_DEFAULT;
  row 0x1F9 "" CLASS_DEFAULT CYCLES_NONE ERRORS_DEFAULT;
  row 0x1FA "MVNS lri" CLASS_DEFAULT CYCLES_MVNS ERRORS_DEFAULT;
  row 0x1FB "LDRH prip" CLASS_DEFAULT CYCLES_LDRH ERRORS_DEFAULT;
  row 0x1FC "MVNS ari" CLASS_DEFAULT CYCLES_MVNS ERRORS_DEFAULT;
  row 0x1FD "LDRSB prip" CLASS_DEFAULT CYCLES_LDRSB ERRORS_DEFAULT;
  row 0x1FE "MVNS rri" CLASS_DEFAULT CYCLES_MVNS ERRORS_DEFAULT;
  row 0x1FF "LDRSH prip" CLASS_DEFAULT CYCLES_LDRSH ERRORS_DEFAULT].

Definition vemu_arm_instr_04 : list vemu_instr_info := [
  row 0x200 "AND imm" CLASS_DEFAULT CYCLES_AND ERRORS_DEFAULT;
  row 0x201 "AND imm" CLASS_DEFAULT CYCLES_AND ERRORS_DEFAULT;
  row 0x202 "AND imm" CLASS_DEFAULT CYCLES_AND ERRORS_DEFAULT;
  row 0x203 "AND imm" CLASS_DEFAULT CYCLES_AND ERRORS_DEFAULT;
  row 0x204 "AND imm" CLASS_DEFAULT CYCLES_AND ERRORS_DEFAULT;
  row 0x205 "AND imm" CLASS_DEFAULT CYCLES_AND ERRORS_DEFAULT;
  row 0x206 "AND imm" CLASS_DEFAULT CYCLES_AND ERRORS_DEFAULT;
  row 0x207 "AND imm" CLASS_DEFAULT CYCLES_AND ERRORS_DEFAULT;
  row 0x208 "AND imm" CLASS_DEFAULT CYCLES_AND ERRORS_DEFAULT;
  row 0x209 "AND imm" CLASS_DEFAULT CYCLES_AND ERRORS_DEFAULT;
  row 0x20A "AND imm" CLASS_DEFAULT CYCLES_AND ERRORS_DEFAULT;
  row 0x20B "AND imm" CLASS_DEFAULT CYCLES_AND ERRORS_DEFAULT;
  row 0x20C "AND imm" CLASS_DEFAULT CYCLES_AND ERRORS_DEFAULT;
  row 0x20D "AND imm" CLASS_DEFAULT CYCLES_AND ERRORS_DEFAULT;
  row 0x20E "AND imm" CLASS_DEFAULT CYCLES_AND ERRORS_DEFAULT;
  row 0x20F "AND imm" CLASS_DEFAULT CYCLES_AND ERRORS_DEFAULT;
  row 0x210 "ANDS imm" CLASS_DEFAULT CYCLES_ANDS ERRORS_DEFAULT;
  row 0x211 "ANDS imm" CLASS_DEFAULT CYCLES_ANDS ERRORS_DEFAULT;
  row 0x212 "ANDS imm" CLASS_DEFAULT CYCLES_ANDS ERRORS_DEFAULT;
  row 0x213 "ANDS imm" CLASS_DEFAULT CYCLES_ANDS ERRORS_DEFAULT;
  row 0x214 "ANDS imm" CLASS_DEFAULT CYCLES_ANDS ERRORS_DEFAULT;
  row 0x215 "ANDS imm" CLASS_DEFAULT CYCLES_ANDS ERRORS_DEFAULT;
  row 0x216 "ANDS imm" CLASS_DEFAULT CYCLES_ANDS ERRORS_DEFAULT;
  row 0x217 "ANDS imm" CLASS_DEFAULT CYCLES_ANDS ERRORS_DEFAULT;
  row 0x218 "ANDS imm" CLASS_DEFAULT CYCLES_ANDS ERRORS_DEFAULT;
  row 0x219 "ANDS imm" CLASS_DEFAULT CYCLES_ANDS ERRORS_DEFAULT;
  row 0x21A "ANDS imm" CLASS_DEFAULT CYCLES_ANDS ERRORS_DEFAULT;
  row 0x21B "ANDS imm" CLASS_DEFAULT CYCLES_ANDS ERRORS_DEFAULT;
  row 0x21C "ANDS imm" CLASS_DEFAULT CYCLES_ANDS ERRORS_DEFAULT;
  row 0x21D "ANDS imm" CLASS_DEFAULT CYCLES_ANDS ERRORS_DEFAULT;
  row 0x21E "ANDS imm" CLASS_DEFAULT CYCLES_ANDS ERRORS_DEFAULT;
  row 0x21F "ANDS imm" CLASS_DEFAULT CYCLES_ANDS ERRORS_DEFAULT;
  row 0x220 "EOR imm" CLASS_DEFAULT CYCLES_EOR ERRORS_DEFAULT;
  row 0x221 "EOR imm" CLASS_DEFAULT CYCLES_EOR ERRORS_DEFAULT;
  row 0x222 "EOR imm" CLASS_DEFAULT CYCLES_EOR ERRORS_DEFAULT;
  row 0x223 "EOR imm" CLASS_DEFAULT CYCLES_EOR ERRORS_DEFAULT;
  row 0x224 "EOR imm" CLASS_DEFAULT CYCLES_EOR ERRORS_DEFAULT;
  row 0x225 "EOR imm" CLASS_DEFAULT CYCLES_EOR ERRORS_DEFAULT;
  row 0x226 "EOR imm" CLASS_DEFAULT CYCLES_EOR ERRORS_DEFAULT;
  row 0x227 "EOR imm" CLASS_DEFAULT CYCLES_EOR ERRORS_DEFAULT;
  row 0x228 "EOR imm" CLASS_DEFAULT CYCLES_EOR ERRORS_DEFAULT;
  row 0x229 "EOR imm" CLASS_DEFAULT CYCLES_EOR ERRORS_DEFAULT;
  row 0x22A "EOR imm" CLASS_DEFAULT CYCLES_EOR ERRORS_DEFAULT;
  row 0x22B "EOR imm" CLASS_DEFAULT CYCLES_EOR ERRORS_DEFAULT;
  row 0x22C "EOR imm" CLASS_DEFAULT CYCLES_EOR ERRORS_DEFAULT;
  row 0x22D "EOR imm" CLASS_DEFAULT CYCLES_EOR ERRORS_DEFAULT;
  row 0x22E "EOR imm" CLASS_DEFAULT CYCLES_EOR ERRORS_DEFAULT;
  row 0x22F "EOR imm" CLASS_DEFAULT CYCLES_EOR ERRORS_DEFAULT;
  row 0x230 "EORS imm" CLASS_DEFAULT CYCLES_EORS ERRORS_DEFAULT;
  row 0x231 "EORS imm" CLASS_DEFAULT CYCLES_EORS ERRORS_DEFAULT;
  row 0x232 "EORS imm" CLASS_DEFAULT CYCLES_EORS ERRORS_DEFAULT;
  row 0x233 "EORS imm" CLASS_DEFAULT CYCLES_EORS ERRORS_DEFAULT;
  row 0x234 "EORS imm" CLASS_DEFAULT CYCLES_EORS ERRORS_DEFAULT;
  row 0x235 "EORS imm" CLASS_DEFAULT CYCLES_EORS ERRORS_DEFAULT;
  row 0x236 "EORS imm" CLASS_DEFAULT CYCLES_EORS ERRORS_DEFAULT;
  row 0x237 "EORS imm" CLASS_DEFAULT CYCLES_EORS ERRORS_DEFAULT;
  row 0x238 "EORS imm" CLASS_DEFAULT CYCLES_EORS ERRORS_DEFAULT;
  row 0x239 "EORS imm" CLASS_DEFAULT CYCLES_EORS ERRORS_DEFAULT;
  row 0x23A "EORS imm" CLASS_DEFAULT CYCLES_EORS ERRORS_DEFAULT;
  row 0x23B "EORS imm" CLASS_DEFAULT CYCLES_EORS ERRORS_DEFAULT;
  row 0x23C "EORS imm" CLASS_DEFAULT CYCLES_EORS ERRORS_DEFAULT;
  row 0x23D "EORS imm" CLASS_DEFAULT CYCLES_EORS ERRORS_DEFAULT;
  row 0x23E "EORS imm" CLASS_DEFAULT CYCLES_EORS ERRORS_DEFAULT;
  row 0x23F "EORS imm" CLASS_DEFAULT CYCLES_EORS ERRORS_DEFAULT;
  row 0x240 "SUB imm" CLASS_DEFAULT CYCLES_SUB ERRORS_DEFAULT;
  row 0x241 "SUB imm" CLASS_DEFAULT CYCLES_SUB ERRORS_DEFAULT;
  row 0x242 "SUB imm" CLASS_DEFAULT CYCLES_SUB ERRORS_DEFAULT;
  row 0x243 "SUB imm" CLASS_DEFAULT CYCLES_SUB ERRORS_DEFAULT;
  row 0x244 "SUB imm" CLASS_DEFAULT CYCLES_SUB ERRORS_DEFAULT;
  row 0x245 "SUB imm" CLASS_DEFAULT CYCLES_SUB ERRORS_DEFAULT;
  row 0x246 "SUB imm" CLASS_DEFAULT CYCLES_SUB ERRORS_DEFAULT;
  row 0x247 "SUB imm" CLASS_DEFAULT CYCLES_SUB ERRORS_DEFAULT;
  row 0x248 "SUB imm" CLASS_DEFAULT CYCLES_SUB ERRORS_DEFAULT;
  row 0x249 "SUB imm" CLASS_DEFAULT CYCLES_SUB ERRORS_DEFAULT;
  row 0x24A "SUB imm" CLASS_DEFAULT CYCLES_SUB ERRORS_DEFAULT;
  row 0x24B "SUB imm" CLASS_DEFAULT CYCLES_SUB ERRORS_DEFAULT;
  row 0x24C "SUB imm" CLASS_DEFAULT CYCLES_SUB ERRORS_DEFAULT;
  row 0x24D "SUB imm" CLASS_DEFAULT CYCLES_SUB ERRORS_DEFAULT;
  row 0x24E "SUB imm" CLASS_DEFAULT CYCLES_SUB ERRORS_DEFAULT;
  row 0x24F "SUB imm" CLASS_DEFAULT CYCLES_SUB ERRORS_DEFAULT;
  row 0x250 "SUBS imm" CLASS_DEFAULT CYCLES_SUBS ERRORS_DEFAULT;
  row 0x251 "SUBS imm" CLASS_DEFAULT CYCLES_SUBS ERRORS_DEFAULT;
  row 0x252 "SUBS imm" CLASS_DEFAULT CYCLES_SUBS ERRORS_DEFAULT;
  row 0x253 "SUBS imm" CLASS_DEFAULT CYCLES_SUBS ERRORS_DEFAULT;
  row 0x254 "SUBS imm" CLASS_DEFAULT CYCLES_SUBS ERRORS_DEFAULT;
  row 0x255 "SUBS imm" CLASS_DEFAULT CYCLES_SUBS ERRORS_DEFAULT;
  row 0x256 "SUBS imm" CLASS_DEFAULT CYCLES_SUBS ERRORS_DEFAULT;
  row 0x257 "SUBS imm" CLASS_DEFAULT CYCLES_SUBS ERRORS_DEFAULT;
  row 0x258 "SUBS imm" CLASS_DEFAULT CYCLES_SUBS ERRORS_DEFAULT;
  row 0x259 "SUBS imm" CLASS_DEFAULT CYCLES_SUBS ERRORS_DEFAULT;
  row 0x25A "SUBS imm" CLASS_DEFAULT CYCLES_SUBS ERRORS_DEFAULT;
  row 0x25B "SUBS imm" CLASS_DEFAULT CYCLES_SUBS ERRORS_DEFAULT;
  row 0x25C "SUBS imm" CLASS_DEFAULT CYCLES_SUBS ERRORS_DEFAULT;
  row 0x25D "SUBS imm" CLASS_DEFAULT CYCLES_SUBS ERRORS_DEFAULT;
  row 0x25E "SUBS imm" CLASS_DEFAULT CYCLES_SUBS ERRORS_DEFAULT;
  row 0x25F "SUBS imm" CLASS_DEFAULT CYCLES_SUBS ERRORS_DEFAULT;
  row 0x260 "RSB imm" CLASS_DEFAULT CYCLES_RSB ERRORS_DEFAULT;
  row 0x261 "RSB imm" CLASS_DEFAULT CYCLES_RSB ERRORS_DEFAULT;
  row 0x262 "RSB imm" CLASS_DEFAULT CYCLES_RSB ERRORS_DEFAULT;
  row 0x263 "RSB imm" CLASS_DEFAULT CYCLES_RSB ERRORS_DEFAULT;
  row 0x264 "RSB imm" CLASS_DEFAULT CYCLES_RSB ERRORS_DEFAULT;
  row 0x265 "RSB imm" CLASS_DEFAULT CYCLES_RSB ERRORS_DEFAULT;
  row 0x266 "RSB imm" CLASS_DEFAULT CYCLES_RSB ERRORS_DEFAULT;
  row 0x267 "RSB imm" CLASS_DEFAULT CYCLES_RSB ERRORS_DEFAULT;
  row 0x268 "RSB imm" CLASS_DEFAULT CYCLES_RSB ERRORS_DEFAULT;
  row 0x269 "RSB imm" CLASS_DEFAULT CYCLES_RSB ERRORS_DEFAULT;
  row 0x26A "RSB imm" CLASS_DEFAULT CYCLES_RSB ERRORS_DEFAULT;
  row 0x26B "RSB imm" CLASS_DEFAULT CYCLES_RSB ERRORS_DEFAULT;
  row 0x26C "RSB imm" CLASS_DEFAULT CYCLES_RSB ERRORS_DEFAULT;
  row 0x26D "RSB imm" CLASS_DEFAULT CYCLES_RSB ERRORS_DEFAULT;
  row 0x26E "RSB imm" CLASS_DEFAULT CYCLES_RSB ERRORS_DEFAULT;
  row 0x26F "RSB imm" CLASS_DEFAULT CYCLES_RSB ERRORS_DEFAULT;
  row 0x270 "RSBS imm" CLASS_DEFAULT CYCLES_RSBS ERRORS_DEFAULT;
  row 0x271 "RSBS imm" CLASS_DEFAULT CYCLES_RSBS ERRORS_DEFAULT;
  row 0x272 "RSBS imm" CLASS_DEFAULT CYCLES_RSBS ERRORS_DEFAULT;
  row 0x273 "RSBS imm" CLASS_DEFAULT CYCLES_RSBS ERRORS_DEFAULT;
  row 0x274 "RSBS imm" CLASS_DEFAULT CYCLES_RSBS ERRORS_DEFAULT;
  row 0x275 "RSBS imm" CLASS_DEFAULT CYCLES_RSBS ERRORS_DEFAULT;
  row 0x276 "RSBS imm" CLASS_DEFAULT CYCLES_RSBS ERRORS_DEFAULT;
  row 0x277 "RSBS imm" CLASS_DEFAULT CYCLES_RSBS ERRORS_DEFAULT;
  row 0x278 "RSBS imm" CLASS_DEFAULT CYCLES_RSBS ERRORS_DEFAULT;
  row 0x279 "RSBS imm" CLASS_DEFAULT CYCLES_RSBS ERRORS_DEFAULT;
  row 0x27A "RSBS imm" CLASS_DEFAULT CYCLES_RSBS ERRORS_DEFAULT;
  row 0x27B "RSBS imm" CLASS_DEFAULT CYCLES_RSBS ERRORS_DEFAULT;
  row 0x27C "RSBS imm" CLASS_DEFAULT CYCLES_RSBS ERRORS_DEFAULT;
  row 0x27D "RSBS imm" CLASS_DEFAULT CYCLES_RSBS ERRORS_DEFAULT;
  row 0x27E "RSBS imm" CLASS_DEFAULT CYCLES_RSBS ERRORS_DEFAULT;
  row 0x27F "RSBS imm" CLASS_DEFAULT CYCLES_RSBS ERRORS_DEFAULT].

Definition vemu_arm_instr_05 : list vemu_instr_info := [
  row 0x280 "ADD imm" CLASS_DEFAULT CYCLES_ADD ERRORS_DEFAULT;
  row 0x281 "ADD imm" CLASS_DEFAULT CYCLES_ADD ERRORS_DEFAULT;
  row 0x282 "ADD imm" CLASS_DEFAULT CYCLES_ADD ERRORS_DEFAULT;
  row 0x283 "ADD imm" CLASS_DEFAULT CYCLES_ADD ERRORS_DEFAULT;
  row 0x284 "ADD imm" CLASS_DEFAULT CYCLES_ADD ERRORS_DEFAULT;
  row 0x285 "ADD imm" CLASS_DEFAULT CYCLES_ADD ERRORS_DEFAULT;
  row 0x286 "ADD imm" CLASS_DEFAULT CYCLES_ADD ERRORS_DEFAULT;
  row 0x287 "ADD imm" CLASS_DEFAULT CYCLES_ADD ERRORS_DEFAULT;
  row 0x288 "ADD imm" CLASS_DEFAULT CYCLES_ADD ERRORS_DEFAULT;
  row 0x289 "ADD imm" CLASS_DEFAULT CYCLES_ADD ERRORS_DEFAULT;
  row 0x28A "ADD imm" CLASS_DEFAULT CYCLES_ADD ERRORS_DEFAULT;
  row 0x28B "ADD imm" CLASS_DEFAULT CYCLES_ADD ERRORS_DEFAULT;
  row 0x28C "ADD imm" CLASS_DEFAULT CYCLES_ADD ERRORS_DEFAULT;
  row 0x28D "ADD imm" CLASS_DEFAULT CYCLES_ADD ERRORS_DEFAULT;
  row 0x28E "ADD imm" CLASS_DEFAULT CYCLES_ADD ERRORS_DEFAULT;
  row 0x28F "ADD imm" CLASS_DEFAULT CYCLES_ADD ERRORS_DEFAULT;
  row 0x290 "ADDS imm" CLASS_DEFAULT CYCLES_ADDS ERRORS_DEFAULT;
  row 0x291 "ADDS imm" CLASS_DEFAULT CYCLES_ADDS ERRORS_DEFAULT;
  row 0x292 "ADDS imm" CLASS_DEFAULT CYCLES_ADDS ERRORS_DEFAULT;
  row 0x293 "ADDS imm" CLASS_DEFAULT CYCLES_ADDS ERRORS_DEFAULT;
  row 0x294 "ADDS imm" CLASS_DEFAULT CYCLES_ADDS ERRORS_DEFAULT;
  row 0x295 "ADDS imm" CLASS_DEFAULT CYCLES_ADDS ERRORS_DEFAULT;
  row 0x296 "ADDS imm" CLASS_DEFAULT CYCLES_ADDS ERRORS_DEFAULT;
  row 0x297 "ADDS imm" CLASS_DEFAULT CYCLES_ADDS ERRORS_DEFAULT;
  row 0x298 "ADDS imm" CLASS_DEFAULT CYCLES_ADDS ERRORS_DEFAULT;
  row 0x299 "ADDS imm" CLASS_DEFAULT CYCLES_ADDS ERRORS_DEFAULT;
  row 0x29A "ADDS imm" CLASS_DEFAULT CYCLES_ADDS ERRORS_DEFAULT;
  row 0x29B "ADDS imm" CLASS_DEFAULT CYCLES_ADDS ERRORS_DEFAULT;
  row 0x29C "ADDS imm" CLASS_DEFAULT CYCLES_ADDS ERRORS_DEFAULT;
  row 0x29D "ADDS imm" CLASS_DEFAULT CYCLES_ADDS ERRORS_DEFAULT;
  row 0x29E "ADDS imm" CLASS_DEFAULT CYCLES_ADDS ERRORS_DEFAULT;
  row 0x29F "ADDS imm" CLASS_DEFAULT CYCLES_ADDS ERRORS_DEFAULT;
  row 0x2A0 "ADC imm" CLASS_DEFAULT CYCLES_ADC ERRORS_DEFAULT;
  row 0x2A1 "ADC imm" CLASS_DEFAULT CYCLES_ADC ERRORS_DEFAULT;
  row 0x2A2 "ADC imm" CLASS_DEFAULT CYCLES_ADC ERRORS_DEFAULT;
  row 0x2A3 "ADC imm" CLASS_DEFAULT CYCLES_ADC ERRORS_DEFAULT;
  row 0x2A4 "ADC imm" CLASS_DEFAULT CYCLES_ADC ERRORS_DEFAULT;
  row 0x2A5 "ADC imm" CLASS_DEFAULT CYCLES_ADC ERRORS_DEFAULT;
  row 0x2A6 "ADC imm" CLASS_DEFAULT CYCLES_ADC ERRORS_DEFAULT;
  row 0x2A7 "ADC imm" CLASS_DEFAULT CYCLES_ADC ERRORS_DEFAULT;
  row 0x2A8 "ADC imm" CLASS_DEFAULT CYCLES_ADC ERRORS_DEFAULT;
  row 0x2A9 "ADC imm" CLASS_DEFAULT CYCLES_ADC ERRORS_DEFAULT;
  row 0x2AA "ADC imm" CLASS_DEFAULT CYCLES_ADC ERRORS_DEFAULT;
  row 0x2AB "ADC imm" CLASS_DEFAULT CYCLES_ADC ERRORS_DEFAULT;
  row 0x2AC "ADC imm" CLASS_DEFAULT CYCLES_ADC ERRORS_DEFAULT;
  row 0x2AD "ADC imm" CLASS_DEFAULT CYCLES_ADC ERRORS_DEFAULT;
  row 0x2AE "ADC imm" CLASS_DEFAULT CYCLES_ADC ERRORS_DEFAULT;
  row 0x2AF "ADC imm" CLASS_DEFAULT CYCLES_ADC ERRORS_DEFAULT;
  row 0x2B0 "ADCS imm" CLASS_DEFAULT CYCLES_ADCS ERRORS_DEFAULT;
  row 0x2B1 "ADCS imm" CLASS_DEFAULT CYCLES_ADCS ERRORS_DEFAULT;
  row 0x2B2 "ADCS imm" CLASS_DEFAULT CYCLES_ADCS ERRORS_DEFAULT;
  row 0x2B3 "ADCS imm" CLASS_DEFAULT CYCLES_ADCS ERRORS_DEFAULT;
  row 0x2B4 "ADCS imm" CLASS_DEFAULT CYCLES_ADCS ERRORS_DEFAULT;
  row 0x2B5 "ADCS imm" CLASS_DEFAULT CYCLES_ADCS ERRORS_DEFAULT;
  row 0x2B6 "ADCS imm" CLASS_DEFAULT CYCLES_ADCS ERRORS_DEFAULT;
  row 0x2B7 "ADCS imm" CLASS_DEFAULT CYCLES_ADCS ERRORS_DEFAULT;
  row 0x2B8 "ADCS imm" CLASS_DEFAULT CYCLES_ADCS ERRORS_DEFAULT;
  row 0x2B9 "ADCS imm" CLASS_DEFAULT CYCLES_ADCS ERRORS_DEFAULT;
  row 0x2BA "ADCS imm" CLASS_DEFAULT CYCLES_ADCS ERRORS_DEFAULT;
  row 0x2BB "ADCS imm" CLASS_DEFAULT CYCLES_ADCS ERRORS_DEFAULT;
  row 0x2BC "ADCS imm" CLASS_DEFAULT CYCLES_ADCS ERRORS_DEFAULT;
  row 0x2BD "ADCS imm" CLASS_DEFAULT CYCLES_ADCS ERRORS_DEFAULT;
  row 0x2BE "ADCS imm" CLASS_DEFAULT CYCLES_ADCS ERRORS_DEFAULT;
  row 0x2BF "ADCS imm" CLASS_DEFAULT CYCLES_ADCS ERRORS_DEFAULT;
  row 0x2C0 "SBC imm" CLASS_DEFAULT CYCLES_SBC ERRORS_DEFAULT;
  row 0x2C1 "SBC imm" CLASS_DEFAULT CYCLES_SBC ERRORS_DEFAULT;
  row 0x2C2 "SBC imm" CLASS_DEFAULT CYCLES_SBC ERRORS_DEFAULT;
  row 0x2C3 "SBC imm" CLASS_DEFAULT CYCLES_SBC ERRORS_DEFAULT;
  row 0x2C4 "SBC imm" CLASS_DEFAULT CYCLES_SBC ERRORS_DEFAULT;
  row 0x2C5 "SBC imm" CLASS_DEFAULT CYCLES_SBC ERRORS_DEFAULT;
  row 0x2C6 "SBC imm" CLASS_DEFAULT CYCLES_SBC ERRORS_DEFAULT;
  row 0x2C7 "SBC imm" CLASS_DEFAULT CYCLES_SBC ERRORS_DEFAULT;
  row 0x2C8 "SBC imm" CLASS_DEFAULT CYCLES_SBC ERRORS_DEFAULT;
  row 0x2C9 "SBC imm" CLASS_DEFAULT CYCLES_SBC ERRORS_DEFAULT;
  row 0x2CA "SBC imm" CLASS_DEFAULT CYCLES_SBC ERRORS_DEFAULT;
  row 0x2CB "SBC imm" CLASS_DEFAULT CYCLES_SBC ERRORS_DEFAULT;
  row 0x2CC "SBC imm" CLASS_DEFAULT CYCLES_SBC ERRORS_DEFAULT;
  row 0x2CD "SBC imm" CLASS_DEFAULT CYCLES_SBC ERRORS_DEFAULT;
  row 0x2CE "SBC imm" CLASS_DEFAULT CYCLES_SBC ERRORS_DEFAULT;
  row 0x2CF "SBC imm" CLASS_DEFAULT CYCLES_SBC ERRORS_DEFAULT;
  row 0x2D0 "SBCS imm" CLASS_DEFAULT CYCLES_SBCS ERRORS_DEFAULT;
  row 0x2D1 "SBCS imm" CLASS_DEFAULT CYCLES_SBCS ERRORS_DEFAULT;
  row 0x2D2 "SBCS imm" CLASS_DEFAULT CYCLES_SBCS ERRORS_DEFAULT;
  row 0x2D3 "SBCS imm" CLASS_DEFAULT CYCLES_SBCS ERRORS_DEFAULT;
  row 0x2D4 "SBCS imm" CLASS_DEFAULT CYCLES_SBCS ERRORS_DEFAULT;
  row 0x2D5 "SBCS imm" CLASS_DEFAULT CYCLES_SBCS ERRORS_DEFAULT;
  row 0x2D6 "SBCS imm" CLASS_DEFAULT CYCLES_SBCS ERRORS_DEFAULT;
  row 0x2D7 "SBCS imm" CLASS_DEFAULT CYCLES_SBCS ERRORS_DEFAULT;
  row 0x2D8 "SBCS imm" CLASS_DEFAULT CYCLES_SBCS ERRORS_DEFAULT;
  row 0x2D9 "SBCS imm" CLASS_DEFAULT CYCLES_SBCS ERRORS_DEFAULT;
  row 0x2DA "SBCS imm" CLASS_DEFAULT CYCLES_SBCS ERRORS_DEFAULT;
  row 0x2DB "SBCS imm" CLASS_DEFAULT CYCLES_SBCS ERRORS_DEFAULT;
  row 0x2DC "SBCS imm" CLASS_DEFAULT CYCLES_SBCS ERRORS_DEFAULT;
  row 0x2DD "SBCS imm" CLASS_DEFAULT CYCLES_SBCS ERRORS_DEFAULT;
  row 0x2DE "SBCS imm" CLASS_DEFAULT CYCLES_SBCS ERRORS_DEFAULT;
  row 0x2DF "SBCS imm" CLASS_DEFAULT CYCLES_SBCS ERRORS_DEFAULT;
  row 0x2E0 "RSC imm" CLASS_DEFAULT CYCLES_RSC ERRORS_DEFAULT;
  row 0x2E1 "RSC imm" CLASS_DEFAULT CYCLES_RSC ERRORS_DEFAULT;
  row 0x2E2 "RSC imm" CLASS_DEFAULT CYCLES_RSC ERRORS_DEFAULT;
  row 0x2E3 "RSC imm" CLASS_DEFAULT CYCLES_RSC ERRORS_DEFAULT;
  row 0x2E4 "RSC imm" CLASS_DEFAULT CYCLES_RSC ERRORS_DEFAULT;
  row 0x2E5 "RSC imm" CLASS_DEFAULT CYCLES_RSC ERRORS_DEFAULT;
  row 0x2E6 "RSC imm" CLASS_DEFAULT CYCLES_RSC ERRORS_DEFAULT;
  row 0x2E7 "RSC imm" CLASS_DEFAULT CYCLES_RSC ERRORS_DEFAULT;
  row 0x2E8 "RSC imm" CLASS_DEFAULT CYCLES_RSC ERRORS_DEFAULT;
  row 0x2E9 "RSC imm" CLASS_DEFAULT CYCLES_RSC ERRORS_DEFAULT;
  row 0x2EA "RSC imm" CLASS_DEFAULT CYCLES_RSC ERRORS_DEFAULT;
  row 0x2EB "RSC imm" CLASS_DEFAULT CYCLES_RSC ERRORS_DEFAULT;
  row 0x2EC "RSC imm" CLASS_DEFAULT CYCLES_RSC ERRORS_DEFAULT;
  row 0x2ED "RSC imm" CLASS_DEFAULT CYCLES_RSC ERRORS_DEFAULT;
  row 0x2EE "RSC imm" CLASS_DEFAULT CYCLES_RSC ERRORS_DEFAULT;
  row 0x2EF "RSC imm" CLASS_DEFAULT CYCLES_RSC ERRORS_DEFAULT;
  row 0x2F0 "RSCS imm" CLASS_DEFAULT CYCLES_RSCS ERRORS_DEFAULT;
  row 0x2F1 "RSCS imm" CLASS_DEFAULT CYCLES_RSCS ERRORS_DEFAULT;
  row 0x2F2 "RSCS imm" CLASS_DEFAULT CYCLES_RSCS ERRORS_DEFAULT;
  row 0x2F3 "RSCS imm" CLASS_DEFAULT CYCLES_RSCS ERRORS_DEFAULT;
  row 0x2F4 "RSCS imm" CLASS_DEFAULT CYCLES_RSCS ERRORS_DEFAULT;
  row 0x2F5 "RSCS imm" CLASS_DEFAULT CYCLES_RSCS ERRORS_DEFAULT;
  row 0x2F6 "RSCS imm" CLASS_DEFAULT CYCLES_RSCS ERRORS_DEFAULT;
  row 0x2F7 "RSCS imm" CLASS_DEFAULT CYCLES_RSCS ERRORS_DEFAULT;
  row 0x2F8 "RSCS imm" CLASS_DEFAULT CYCLES_RSCS ERRORS_DEFAULT;
  row 0x2F9 "RSCS imm" CLASS_DEFAULT CYCLES_RSCS ERRORS_DEFAULT;
  row 0x2FA "RSCS imm" CLASS_DEFAULT CYCLES_RSCS ERRORS_DEFAULT;
  row 0x2FB "RSCS imm" CLASS_DEFAULT CYCLES_RSCS ERRORS_DEFAULT;
  row 0x2FC "RSCS imm" CLASS_DEFAULT CYCLES_RSCS ERRORS_DEFAULT;
  row 0x2FD "RSCS imm" CLASS_DEFAULT CYCLES_RSCS ERRORS_DEFAULT;
  row 0x2FE "RSCS imm" CLASS_DEFAULT CYCLES_RSCS ERRORS_DEFAULT;
  row 0x2FF "RSCS imm" CLASS_DEFAULT CYCLES_RSCS ERRORS_DEFAULT].

Definition vemu_arm_instr_06 : list vemu_instr_info := [
  row 0x300 "" CLASS_DEFAULT CYCLES_NONE ERRORS_DEFAULT;
  row 0x301 "" CLASS_DEFAULT CYCLES_NONE ERRORS_DEFAULT;
  row 0x302 "" CLASS_DEFAULT CYCLES_NONE ERRORS_DEFAULT;
  row 0x303 "" CLASS_DEFAULT CYCLES_NONE ERRORS_DEFAULT;
  row 0x304 "" CLASS_DEFAULT CYCLES_NONE ERRORS_DEFAULT;
  row 0x305 "" CLASS_DEFAULT CYCLES_NONE ERRORS_DEFAULT;
  row 0x306 "" CLASS_DEFAULT CYCLES_NONE ERRORS_DEFAULT;
  row 0x307 "" CLASS_DEFAULT CYCLES_NONE ERRORS_DEFAULT;
  row 0x308 "" CLASS_DEFAULT CYCLES_NONE ERRORS_DEFAULT;
  row 0x309 "" CLASS_DEFAULT CYCLES_NONE ERRORS_DEFAULT;
  row 0x30A "" CLASS_DEFAULT CYCLES_NONE ERRORS_DEFAULT;
  row 0x30B "" CLASS_DEFAULT CYCLES_NONE ERRORS_DEFAULT;
  row 0x30C "" CLASS_DEFAULT CYCLES_NONE ERRORS_DEFAULT;
  row 0x30D "" CLASS_DEFAULT CYCLES_NONE ERRORS_DEFAULT;
  row 0x30E "" CLASS_DEFAULT CYCLES_NONE ERRORS_DEFAULT;
  row 0x30F "" CLASS_DEFAULT CYCLES_NONE ERRORS_DEFAULT;
  row 0x310 "TSTS imm" CLASS_DEFAULT CYCLES_TSTS ERRORS_DEFAULT;
  row 0x311 "TSTS imm" CLASS_DEFAULT CYCLES_TSTS ERRORS_DEFAULT;
  row 0x312 "TSTS imm" CLASS_DEFAULT CYCLES_TSTS ERRORS_DEFAULT;
  row 0x313 "TSTS imm" CLASS_DEFAULT CYCLES_TSTS ERRORS_DEFAULT;
  row 0x314 "TSTS imm" CLASS_DEFAULT CYCLES_TSTS ERRORS_DEFAULT;
  row 0x315 "TSTS imm" CLASS_DEFAULT CYCLES_TSTS ERRORS_DEFAULT;
  row 0x316 "TSTS imm" CLASS_DEFAULT CYCLES_TSTS ERRORS_DEFAULT;
  row 0x317 "TSTS imm" CLASS_DEFAULT CYCLES_TSTS ERRORS_DEFAULT;
  row 0x318 "TSTS imm" CLASS_DEFAULT CYCLES_TSTS ERRORS_DEFAULT;
  row 0x319 "TSTS imm" CLASS_DEFAULT CYCLES_TSTS ERRORS_DEFAULT;
  row 0x31A "TSTS imm" CLASS_DEFAULT CYCLES_TSTS ERRORS_DEFAULT;
  row 0x31B "TSTS imm" CLASS_DEFAULT CYCLES_TSTS ERRORS_DEFAULT;
  row 0x31C "TSTS imm" CLASS_DEFAULT CYCLES_TSTS ERRORS_DEFAULT;
  row 0x31D "TSTS imm" CLASS_DEFAULT CYCLES_TSTS ERRORS_DEFAULT;
  row 0x31E "TSTS imm" CLASS_DEFAULT CYCLES_TSTS ERRORS_DEFAULT;
  row 0x31F "TSTS imm" CLASS_DEFAULT CYCLES_TSTS ERRORS_DEFAULT;
  row 0x320 "MSR ic" CLASS_DEFAULT CYCLES_MSR ERRORS_DEFAULT;
  row 0x321 "MSR ic" CLASS_DEFAULT CYCLES_MSR ERRORS_DEFAULT;
  row 0x322 "MSR ic" CLASS_DEFAULT CYCLES_MSR ERRORS_DEFAULT;
  row 0x323 "MSR ic" CLASS_DEFAULT CYCLES_MSR ERRORS_DEFAULT;
  row 0x324 "MSR ic" CLASS_DEFAULT CYCLES_MSR ERRORS_DEFAULT;
  row 0x325 "MSR ic" CLASS_DEFAULT CYCLES_MSR ERRORS_DEFAULT;
  row 0x326 "MSR ic" CLASS_DEFAULT CYCLES_MSR ERRORS_DEFAULT;
  row 0x327 "MSR ic" CLASS_DEFAULT CYCLES_MSR ERRORS_DEFAULT;
  row 0x328 "MSR ic" CLASS_DEFAULT CYCLES_MSR ERRORS_DEFAULT;
  row 0x329 "MSR ic" CLASS_DEFAULT CYCLES_MSR ERRORS_DEFAULT;
  row 0x32A "MSR ic" CLASS_DEFAULT CYCLES_MSR ERRORS_DEFAULT;
  row 0x32B "MSR ic" CLASS_DEFAULT CYCLES_MSR ERRORS_DEFAULT;
  row 0x32C "MSR ic" CLASS_DEFAULT CYCLES_MSR ERRORS_DEFAULT;
  row 0x32D "MSR ic" CLASS_DEFAULT CYCLES_MSR ERRORS_DEFAULT;
  row 0x32E "MSR ic" CLASS_DEFAULT CYCLES_MSR ERRORS_DEFAULT;
  row 0x32F "MSR ic" CLASS_DEFAULT CYCLES_MSR ERRORS_DEFAULT;
  row 0x330 "TEQS imm" CLASS_DEFAULT CYCLES_TEQS ERRORS_DEFAULT;
  row 0x331 "TEQS imm" CLASS_DEFAULT CYCLES_TEQS ERRORS_DEFAULT;
  row 0x332 "TEQS imm" CLASS_DEFAULT CYCLES_TEQS ERRORS_DEFAULT;
  row 0x333 "TEQS imm" CLASS_DEFAULT CYCLES_TEQS ERRORS_DEFAULT;
  row 0x334 "TEQS imm" CLASS_DEFAULT CYCLES_TEQS ERRORS_DEFAULT;
  row 0x335 "TEQS imm" CLASS_DEFAULT CYCLES_TEQS ERRORS_DEFAULT;
  row 0x336 "TEQS imm" CLASS_DEFAULT CYCLES_TEQS ERRORS_DEFAULT;
  row 0x337 "TEQS imm" CLASS_DEFAULT CYCLES_TEQS ERRORS_DEFAULT;
  row 0x338 "TEQS imm" CLASS_DEFAULT CYCLES_TEQS ERRORS_DEFAULT;
  row 0x339 "TEQS imm" CLASS_DEFAULT CYCLES_TEQS ERRORS_DEFAULT;
  row 0x33A "TEQS imm" CLASS_DEFAULT CYCLES_TEQS ERRORS_DEFAULT;
  row 0x33B "TEQS imm" CLASS_DEFAULT CYCLES_TEQS ERRORS_DEFAULT;
  row 0x33C "TEQS imm" CLASS_DEFAULT CYCLES_TEQS ERRORS_DEFAULT;
  row 0x33D "TEQS imm" CLASS_DEFAULT CYCLES_TEQS ERRORS_DEFAULT;
  row 0x33E "TEQS imm" CLASS_DEFAULT CYCLES_TEQS ERRORS_DEFAULT;
  row 0x33F "TEQS imm" CLASS_DEFAULT CYCLES_TEQS ERRORS_DEFAULT;
  row 0x340 "" CLASS_DEFAULT CYCLES_NONE ERRORS_DEFAULT;
  row 0x341 "" CLASS_DEFAULT CYCLES_NONE ERRORS_DEFAULT;
  row 0x342 "" CLASS_DEFAULT CYCLES_NONE ERRORS_DEFAULT;
  row 0x343 "" CLASS_DEFAULT CYCLES_NONE ERRORS_DEFAULT;
  row 0x344 "" CLASS_DEFAULT CYCLES_NONE ERRORS_DEFAULT;
  row 0x345 "" CLASS_DEFAULT CYCLES_NONE ERRORS_DEFAULT;
  row 0x346 "" CLASS_DEFAULT CYCLES_NONE ERRORS_DEFAULT;
  row 0x347 "" CLASS_DEFAULT CYCLES_NONE ERRORS_DEFAULT;
  row 0x348 "" CLASS_DEFAULT CYCLES_NONE ERRORS_DEFAULT;
  row 0x349 "" CLASS_DEFAULT CYCLES_NONE ERRORS_DEFAULT;
  row 0x34A "" CLASS_DEFAULT CYCLES_NONE ERRORS_DEFAULT;
  row 0x34B "" CLASS_DEFAULT CYCLES_NONE ERRORS_DEFAULT;
  row 0x34C "" CLASS_DEFAULT CYCLES_NONE ERRORS_DEFAULT;
  row 0x34D "" CLASS_DEFAULT CYCLES_NONE ERRORS_DEFAULT;
  row 0x34E "" CLASS_DEFAULT CYCLES_NONE ERRORS_DEFAULT;
  row 0x34F "" CLASS_DEFAULT CYCLES_NONE ERRORS_DEFAULT;
  row 0x350 "CMPS imm" CLASS_DEFAULT CYCLES_CMPS ERRORS_DEFAULT;
  row 0x351 "CMPS imm" CLASS_DEFAULT CYCLES_CMPS ERRORS_DEFAULT;
  row 0x352 "CMPS imm" CLASS_DEFAULT CYCLES_CMPS ERRORS_DEFAULT;
  row 0x353 "CMPS imm" CLASS_DEFAULT CYCLES_CMPS ERRORS_DEFAULT;
  row 0x354 "CMPS imm" CLASS_DEFAULT CYCLES_CMPS ERRORS_DEFAULT;
  row 0x355 "CMPS imm" CLASS_DEFAULT CYCLES_CMPS ERRORS_DEFAULT;
  row 0x356 "CMPS imm" CLASS_DEFAULT CYCLES_CMPS ERRORS_DEFAULT;
  row 0x357 "CMPS imm" CLASS_DEFAULT CYCLES_CMPS ERRORS_DEFAULT;
  row 0x358 "CMPS imm" CLASS_DEFAULT CYCLES_CMPS ERRORS_DEFAULT;
  row 0x359 "CMPS imm" CLASS_DEFAULT CYCLES_CMPS ERRORS_DEFAULT;
  row 0x35A "CMPS imm" CLASS_DEFAULT CYCLES_CMPS ERRORS_DEFAULT;
  row 0x35B "CMPS imm" CLASS_DEFAULT CYCLES_CMPS ERRORS_DEFAULT;
  row 0x35C "CMPS imm" CLASS_DEFAULT CYCLES_CMPS ERRORS_DEFAULT;
  row 0x35D "CMPS imm" CLASS_DEFAULT CYCLES_CMPS ERRORS_DEFAULT;
  row 0x35E "CMPS imm" CLASS_DEFAULT CYCLES_CMPS ERRORS_DEFAULT;
  row 0x35F "CMPS imm" CLASS_DEFAULT CYCLES_CMPS ERRORS_DEFAULT;
  row 0x360 "MSR is" CLASS_DEFAULT CYCLES_MSR ERRORS_DEFAULT;
  row 0x361 "MSR is" CLASS_DEFAULT CYCLES_MSR ERRORS_DEFAULT;
  row 0x362 "MSR is" CLASS_DEFAULT CYCLES_MSR ERRORS_DEFAULT;
  row 0x363 "MSR is" CLASS_DEFAULT CYCLES_MSR ERRORS_DEFAULT;
  row 0x364 "MSR is" CLASS_DEFAULT CYCLES_MSR ERRORS_DEFAULT;
  row 0x365 "MSR is" CLASS_DEFAULT CYCLES_MSR ERRORS_DEFAULT;
  row 0x366 "MSR is" CLASS_DEFAULT CYCLES_MSR ERRORS_DEFAULT;
  row 0x367 "MSR is" CLASS_DEFAULT CYCLES_MSR ERRORS_DEFAULT;
  row 0x368 "MSR is" CLASS_DEFAULT CYCLES_MSR ERRORS_DEFAULT;
  row 0x369 "MSR is" CLASS_DEFAULT CYCLES_MSR ERRORS_DEFAULT;
  row 0x36A "MSR is" CLASS_DEFAULT CYCLES_MSR ERRORS_DEFAULT;
  row 0x36B "MSR is" CLASS_DEFAULT CYCLES_MSR ERRORS_DEFAULT;
  row 0x36C "MSR is" CLASS_DEFAULT CYCLES_MSR ERRORS_DEFAULT;
  row 0x36D "MSR is" CLASS_DEFAULT CYCLES_MSR ERRORS_DEFAULT;
  row 0x36E "MSR is" CLASS_DEFAULT CYCLES_MSR ERRORS_DEFAULT;
  row 0x36F "MSR is" CLASS_DEFAULT CYCLES_MSR ERRORS_DEFAULT;
  row 0x370 "CMNS imm" CLASS_DEFAULT CYCLES_CMNS ERRORS_DEFAULT;
  row 0x371 "CMNS imm" CLASS_DEFAULT CYCLES_CMNS ERRORS_DEFAULT;
  row 0x372 "CMNS imm" CLASS_DEFAULT CYCLES_CMNS ERRORS_DEFAULT;
  row 0x373 "CMNS imm" CLASS_DEFAULT CYCLES_CMNS ERRORS_DEFAULT;
  row 0x374 "CMNS imm" CLASS_DEFAULT CYCLES_CMNS ERRORS_DEFAULT;
  row 0x375 "CMNS imm" CLASS_DEFAULT CYCLES_CMNS ERRORS_DEFAULT;
  row 0x376 "CMNS imm" CLASS_DEFAULT CYCLES_CMNS ERRORS_DEFAULT;
  row 0x377 "CMNS imm" CLASS_DEFAULT CYCLES_CMNS ERRORS_DEFAULT;
  row 0x378 "CMNS imm" CLASS_DEFAULT CYCLES_CMNS ERRORS_DEFAULT;
  row 0x379 "CMNS imm" CLASS_DEFAULT CYCLES_CMNS ERRORS_DEFAULT;
  row 0x37A "CMNS imm" CLASS_DEFAULT CYCLES_CMNS ERRORS_DEFAULT;
  row 0x37B "CMNS imm" CLASS_DEFAULT CYCLES_CMNS ERRORS_DEFAULT;
  row 0x37C "CMNS imm" CLASS_DEFAULT CYCLES_CMNS ERRORS_DEFAULT;
  row 0x37D "CMNS imm" CLASS_DEFAULT CYCLES_CMNS ERRORS_DEFAULT;
  row 0x37E "CMNS imm" CLASS_DEFAULT CYCLES_CMNS ERRORS_DEFAULT;
  row 0x37F "CMNS imm" CLASS_DEFAULT CYCLES_CMNS ERRORS_DEFAULT].

Definition vemu_arm_instr_07 : list vemu_instr_info := [
  row 0x380 "ORR imm" CLASS_DEFAULT CYCLES_ORR ERRORS_DEFAULT;
  row 0x381 "ORR imm" CLASS_DEFAULT CYCLES_ORR ERRORS_DEFAULT;
  row 0x382 "ORR imm" CLASS_DEFAULT CYCLES_ORR ERRORS_DEFAULT;
  row 0x383 "ORR imm" CLASS_DEFAULT CYCLES_ORR ERRORS_DEFAULT;
  row 0x384 "ORR imm" CLASS_DEFAULT CYCLES_ORR ERRORS_DEFAULT;
  row 0x385 "ORR imm" CLASS_DEFAULT CYCLES_ORR ERRORS_DEFAULT;
  row 0x386 "ORR imm" CLASS_DEFAULT CYCLES_ORR ERRORS_DEFAULT;
  row 0x387 "ORR imm" CLASS_DEFAULT CYCLES_ORR ERRORS_DEFAULT;
  row 0x388 "ORR imm" CLASS_DEFAULT CYCLES_ORR ERRORS_DEFAULT;
  row 0x389 "ORR imm" CLASS_DEFAULT CYCLES_ORR ERRORS_DEFAULT;
  row 0x38A "ORR imm" CLASS_DEFAULT CYCLES_ORR ERRORS_DEFAULT;
  row 0x38B "ORR imm" CLASS_DEFAULT CYCLES_ORR ERRORS_DEFAULT;
  row 0x38C "ORR imm" CLASS_DEFAULT CYCLES_ORR ERRORS_DEFAULT;
  row 0x38D "ORR imm" CLASS_DEFAULT CYCLES_ORR ERRORS_DEFAULT;
  row 0x38E "ORR imm" CLASS_DEFAULT CYCLES_ORR ERRORS_DEFAULT;
  row 0x38F "ORR imm" CLASS_DEFAULT CYCLES_ORR ERRORS_DEFAULT;
  row 0x390 "ORRS imm" CLASS_DEFAULT CYCLES_ORRS ERRORS_DEFAULT;
  row 0x391 "ORRS imm" CLASS_DEFAULT CYCLES_ORRS ERRORS_DEFAULT;
  row 0x392 "ORRS imm" CLASS_DEFAULT CYCLES_ORRS ERRORS_DEFAULT;
  row 0x393 "ORRS imm" CLASS_DEFAULT CYCLES_ORRS ERRORS_DEFAULT;
  row 0x394 "ORRS imm" CLASS_DEFAULT CYCLES_ORRS ERRORS_DEFAULT;
  row 0x395 "ORRS imm" CLASS_DEFAULT CYCLES_ORRS ERRORS_DEFAULT;
  row 0x396 "ORRS imm" CLASS_DEFAULT CYCLES_ORRS ERRORS_DEFAULT;
  row 0x397 "ORRS imm" CLASS_DEFAULT CYCLES_ORRS ERRORS_DEFAULT;
  row 0x398 "ORRS imm" CLASS_DEFAULT CYCLES_ORRS ERRORS_DEFAULT;
  row 0x399 "ORRS imm" CLASS_DEFAULT CYCLES_ORRS ERRORS_DEFAULT;
  row 0x39A "ORRS imm" CLASS_DEFAULT CYCLES_ORRS ERRORS_DEFAULT;
  row 0x39B "ORRS imm" CLASS_DEFAULT CYCLES_ORRS ERRORS_DEFAULT;
  row 0x39C "ORRS imm" CLASS_DEFAULT CYCLES_ORRS ERRORS_DEFAULT;
  row 0x39D "ORRS imm" CLASS_DEFAULT CYCLES_ORRS ERRORS_DEFAULT;
  row 0x39E "ORRS imm" CLASS_DEFAULT CYCLES_ORRS ERRORS_DEFAULT;
  row 0x39F "ORRS imm" CLASS_DEFAULT CYCLES_ORRS ERRORS_DEFAULT;
  row 0x3A0 "MOV imm" CLASS_DEFAULT CYCLES_MOV ERRORS_DEFAULT;
  row 0x3A1 "MOV imm" CLASS_DEFAULT CYCLES_MOV ERRORS_DEFAULT;
  row 0x3A2 "MOV imm" CLASS_DEFAULT CYCLES_MOV ERRORS_DEFAULT;
  row 0x3A3 "MOV imm" CLASS_DEFAULT CYCLES_MOV ERRORS_DEFAULT;
  row 0x3A4 "MOV imm" CLASS_DEFAULT CYCLES_MOV ERRORS_DEFAULT;
  row 0x3A5 "MOV imm" CLASS_DEFAULT CYCLES_MOV ERRORS_DEFAULT;
  row 0x3A6 "MOV imm" CLASS_DEFAULT CYCLES_MOV ERRORS_DEFAULT;
  row 0x3A7 "MOV imm" CLASS_DEFAULT CYCLES_MOV ERRORS_DEFAULT;
  row 0x3A8 "MOV imm" CLASS_DEFAULT CYCLES_MOV ERRORS_DEFAULT;
  row 0x3A9 "MOV imm" CLASS_DEFAULT CYCLES_MOV ERRORS_DEFAULT;
  row 0x3AA "MOV imm" CLASS_DEFAULT CYCLES_MOV ERRORS_DEFAULT;
  row 0x3AB "MOV imm" CLASS_DEFAULT CYCLES_MOV ERRORS_DEFAULT;
  row 0x3AC "MOV imm" CLASS_DEFAULT CYCLES_MOV ERRORS_DEFAULT;
  row 0x3AD "MOV imm" CLASS_DEFAULT CYCLES_MOV ERRORS_DEFAULT;
  row 0x3AE "MOV imm" CLASS_DEFAULT CYCLES_MOV ERRORS_DEFAULT;
  row 0x3AF "MOV imm" CLASS_DEFAULT CYCLES_MOV ERRORS_DEFAULT;
  row 0x3B0 "MOVS imm" CLASS_DEFAULT CYCLES_MOVS ERRORS_DEFAULT;
  row 0x3B1 "MOVS imm" CLASS_DEFAULT CYCLES_MOVS ERRORS_DEFAULT;
  row 0x3B2 "MOVS imm" CLASS_DEFAULT CYCLES_MOVS ERRORS_DEFAULT;
  row 0x3B3 "MOVS imm" CLASS_DEFAULT CYCLES_MOVS ERRORS_DEFAULT;
  row 0x3B4 "MOVS imm" CLASS_DEFAULT CYCLES_MOVS ERRORS_DEFAULT;
  row 0x3B5 "MOVS imm" CLASS_DEFAULT CYCLES_MOVS ERRORS_DEFAULT;
  row 0x3B6 "MOVS imm" CLASS_DEFAULT CYCLES_MOVS ERRORS_DEFAULT;
  row 0x3B7 "MOVS imm" CLASS_DEFAULT CYCLES_MOVS ERRORS_DEFAULT;
  row 0x3B8 "MOVS imm" CLASS_DEFAULT CYCLES_MOVS ERRORS_DEFAULT;
  row 0x3B9 "MOVS imm" CLASS_DEFAULT CYCLES_MOVS ERRORS_DEFAULT;
  row 0x3BA "MOVS imm" CLASS_DEFAULT CYCLES_MOVS ERRORS_DEFAULT;
  row 0x3BB "MOVS imm" CLASS_DEFAULT CYCLES_MOVS ERRORS_DEFAULT;
  row 0x3BC "MOVS imm" CLASS_DEFAULT CYCLES_MOVS ERRORS_DEFAULT;
  row 0x3BD "MOVS imm" CLASS_DEFAULT CYCLES_MOVS ERRORS_DEFAULT;
  row 0x3BE "MOVS imm" CLASS_DEFAULT CYCLES_MOVS ERRORS_DEFAULT;
  row 0x3BF "MOVS imm" CLASS_DEFAULT CYCLES_MOVS ERRORS_DEFAULT;
  row 0x3C0 "BIC imm" CLASS_DEFAULT CYCLES_BIC ERRORS_DEFAULT;
  row 0x3C1 "BIC imm" CLASS_DEFAULT CYCLES_BIC ERRORS_DEFAULT;
  row 0x3C2 "BIC imm" CLASS_DEFAULT CYCLES_BIC ERRORS_DEFAULT;
  row 0x3C3 "BIC imm" CLASS_DEFAULT CYCLES_BIC ERRORS_DEFAULT;
  row 0x3C4 "BIC imm" CLASS_DEFAULT CYCLES_BIC ERRORS_DEFAULT;
  row 0x3C5 "BIC imm" CLASS_DEFAULT CYCLES_BIC ERRORS_DEFAULT;
  row 0x3C6 "BIC imm" CLASS_DEFAULT CYCLES_BIC ERRORS_DEFAULT;
  row 0x3C7 "BIC imm" CLASS_DEFAULT CYCLES_BIC ERRORS_DEFAULT;
  row 0x3C8 "BIC imm" CLASS_DEFAULT CYCLES_BIC ERRORS_DEFAULT;
  row 0x3C9 "BIC imm" CLASS_DEFAULT CYCLES_BIC ERRORS_DEFAULT;
  row 0x3CA "BIC imm" CLASS_DEFAULT CYCLES_BIC ERRORS_DEFAULT;
  row 0x3CB "BIC imm" CLASS_DEFAULT CYCLES_BIC ERRORS_DEFAULT;
  row 0x3CC "BIC imm" CLASS_DEFAULT CYCLES_BIC ERRORS_DEFAULT;
  row 0x3CD "BIC imm" CLASS_DEFAULT CYCLES_BIC ERRORS_DEFAULT;
  row 0x3CE "BIC imm" CLASS_DEFAULT CYCLES_BIC ERRORS_DEFAULT;
  row 0x3CF "BIC imm" CLASS_DEFAULT CYCLES_BIC ERRORS_DEFAULT;
  row 0x3D0 "BICS imm" CLASS_DEFAULT CYCLES_BICS ERRORS_DEFAULT;
  row 0x3D1 "BICS imm" CLASS_DEFAULT CYCLES_BICS ERRORS_DEFAULT;
  row 0x3D2 "BICS imm" CLASS_DEFAULT CYCLES_BICS ERRORS_DEFAULT;
  row 0x3D3 "BICS imm" CLASS_DEFAULT CYCLES_BICS ERRORS_DEFAULT;
  row 0x3D4 "BICS imm" CLASS_DEFAULT CYCLES_BICS ERRORS_DEFAULT;
  row 0x3D5 "BICS imm" CLASS_DEFAULT CYCLES_BICS ERRORS_DEFAULT;
  row 0x3D6 "BICS imm" CLASS_DEFAULT CYCLES_BICS ERRORS_DEFAULT;
  row 0x3D7 "BICS imm" CLASS_DEFAULT CYCLES_BICS ERRORS_DEFAULT;
  row 0x3D8 "BICS imm" CLASS_DEFAULT CYCLES_BICS ERRORS_DEFAULT;
  row 0x3D9 "BICS imm" CLASS_DEFAULT CYCLES_BICS ERRORS_DEFAULT;
  row 0x3DA "BICS imm" CLASS_DEFAULT CYCLES_BICS ERRORS_DEFAULT;
  row 0x3DB "BICS imm" CLASS_DEFAULT CYCLES_BICS ERRORS_DEFAULT;
  row 0x3DC "BICS imm" CLASS_DEFAULT CYCLES_BICS ERRORS_DEFAULT;
  row 0x3DD "BICS imm" CLASS_DEFAULT CYCLES_BICS ERRORS_DEFAULT;
  row 0x3DE "BICS imm" CLASS_DEFAULT CYCLES_BICS ERRORS_DEFAULT;
  row 0x3DF "BICS imm" CLASS_DEFAULT CYCLES_BICS ERRORS_DEFAULT;
  row 0x3E0 "MVN imm" CLASS_DEFAULT CYCLES_MVN ERRORS_DEFAULT;
  row 0x3E1 "MVN imm" CLASS_DEFAULT CYCLES_MVN ERRORS_DEFAULT;
  row 0x3E2 "MVN imm" CLASS_DEFAULT CYCLES_MVN ERRORS_DEFAULT;
  row 0x3E3 "MVN imm" CLASS_DEFAULT CYCLES_MVN ERRORS_DEFAULT;
  row 0x3E4 "MVN imm" CLASS_DEFAULT CYCLES_MVN ERRORS_DEFAULT;
  row 0x3E5 "MVN imm" CLASS_DEFAULT CYCLES_MVN ERRORS_DEFAULT;
  row 0x3E6 "MVN imm" CLASS_DEFAULT CYCLES_MVN ERRORS_DEFAULT;
  row 0x3E7 "MVN imm" CLASS_DEFAULT CYCLES_MVN ERRORS_DEFAULT;
  row 0x3E8 "MVN imm" CLASS_DEFAULT CYCLES_MVN ERRORS_DEFAULT;
  row 0x3E9 "MVN imm" CLASS_DEFAULT CYCLES_MVN ERRORS_DEFAULT;
  row 0x3EA "MVN imm" CLASS_DEFAULT CYCLES_MVN ERRORS_DEFAULT;
  row 0x3EB "MVN imm" CLASS_DEFAULT CYCLES_MVN ERRORS_DEFAULT;
  row 0x3EC "MVN imm" CLASS_DEFAULT CYCLES_MVN ERRORS_DEFAULT;
  row 0x3ED "MVN imm" CLASS_DEFAULT CYCLES_MVN ERRORS_DEFAULT;
  row 0x3EE "MVN imm" CLASS_DEFAULT CYCLES_MVN ERRORS_DEFAULT;
  row 0x3EF "MVN imm" CLASS_DEFAULT CYCLES_MVN ERRORS_DEFAULT;
  row 0x3F0 "MVNS imm" CLASS_DEFAULT CYCLES_MVNS ERRORS_DEFAULT;
  row 0x3F1 "MVNS imm" CLASS_DEFAULT CYCLES_MVNS ERRORS_DEFAULT;
  row 0x3F2 "MVNS imm" CLASS_DEFAULT CYCLES_MVNS ERRORS_DEFAULT;
  row 0x3F3 "MVNS imm" CLASS_DEFAULT CYCLES_MVNS ERRORS_DEFAULT;
  row 0x3F4 "MVNS imm" CLASS_DEFAULT CYCLES_MVNS ERRORS_DEFAULT;
  row 0x3F5 "MVNS imm" CLASS_DEFAULT CYCLES_MVNS ERRORS_DEFAULT;
  row 0x3F6 "MVNS imm" CLASS_DEFAULT CYCLES_MVNS ERRORS_DEFAULT;
  row 0x3F7 "MVNS imm" CLASS_DEFAULT CYCLES_MVNS ERRORS_DEFAULT;
  row 0x3F8 "MVNS imm" CLASS_DEFAULT CYCLES_MVNS ERRORS_DEFAULT;
  row 0x3F9 "MVNS imm" CLASS_DEFAULT CYCLES_MVNS ERRORS_DEFAULT;
  row 0x3FA "MVNS imm" CLASS_DEFAULT CYCLES_MVNS ERRORS_DEFAULT;
  row 0x3FB "MVNS imm" CLASS_DEFAULT CYCLES_MVNS ERRORS_DEFAULT;
  row 0x3FC "MVNS imm" CLASS_DEFAULT CYCLES_MVNS ERRORS_DEFAULT;
  row 0x3FD "MVNS imm" CLASS_DEFAULT CYCLES_MVNS ERRORS_DEFAULT;
  row 0x3FE "MVNS imm" CLASS_DEFAULT CYCLES_MVNS ERRORS_DEFAULT;
  row 0x3FF "MVNS imm" CLASS_DEFAULT CYCLES_MVNS ERRORS_DEFAULT].

Definition vemu_arm_instr_08 : list vemu_instr_info := [
  row 0x400 "STR ptim" CLASS_DEFAULT CYCLES_STR ERRORS_DEFAULT;
  row 0x401 "STR ptim" CLASS_DEFAULT CYCLES_STR ERRORS_DEFAULT;
  row 0x402 "STR ptim" CLASS_DEFAULT CYCLES_STR ERRORS_DEFAULT;
  row 0x403 "STR ptim" CLASS_DEFAULT CYCLES_STR ERRORS_DEFAULT;
  row 0x404 "STR ptim" CLASS_DEFAULT CYCLES_STR ERRORS_DEFAULT;
  row 0x405 "STR ptim" CLASS_DEFAULT CYCLES_STR ERRORS_DEFAULT;
  row 0x406 "STR ptim" CLASS_DEFAULT CYCLES_STR ERRORS_DEFAULT;
  row 0x407 "STR ptim" CLASS_DEFAULT CYCLES_STR ERRORS_DEFAULT;
  row 0x408 "STR ptim" CLASS_DEFAULT CYCLES_STR ERRORS_DEFAULT;
  row 0x409 "STR ptim" CLASS_DEFAULT CYCLES_STR ERRORS_DEFAULT;
  row 0x40A "STR ptim" CLASS_DEFAULT CYCLES_STR ERRORS_DEFAULT;
  row 0x40B "STR ptim" CLASS_DEFAULT CYCLES_STR ERRORS_DEFAULT;
  row 0x40C "STR ptim" CLASS_DEFAULT CYCLES_STR ERRORS_DEFAULT;
  row 0x40D "STR ptim" CLASS_DEFAULT CYCLES_STR ERRORS_DEFAULT;
  row 0x40E "STR ptim" CLASS_DEFAULT CYCLES_STR ERRORS_DEFAULT;
  row 0x40F "STR ptim" CLASS_DEFAULT CYCLES_STR ERRORS_DEFAULT;
  row 0x410 "LDR ptim" CLASS_DEFAULT CYCLES_LDR ERRORS_DEFAULT;
  row 0x411 "LDR ptim" CLASS_DEFAULT CYCLES_LDR ERRORS_DEFAULT;
  row 0x412 "LDR ptim" CLASS_DEFAULT CYCLES_LDR ERRORS_DEFAULT;
  row 0x413 "LDR ptim" CLASS_DEFAULT CYCLES_LDR ERRORS_DEFAULT;
  row 0x414 "LDR ptim" CLASS_DEFAULT CYCLES_LDR ERRORS_DEFAULT;
  row 0x415 "LDR ptim" CLASS_DEFAULT CYCLES_LDR ERRORS_DEFAULT;
  row 0x416 "LDR ptim" CLASS_DEFAULT CYCLES_LDR ERRORS_DEFAULT;
  row 0x417 "LDR ptim" CLASS_DEFAULT CYCLES_LDR ERRORS_DEFAULT;
  row 0x418 "LDR ptim" CLASS_DEFAULT CYCLES_LDR ERRORS_DEFAULT;
  row 0x419 "LDR ptim" CLASS_DEFAULT CYCLES_LDR ERRORS_DEFAULT;
  row 0x41A "LDR ptim" CLASS_DEFAULT CYCLES_LDR ERRORS_DEFAULT;
  row 0x41B "LDR ptim" CLASS_DEFAULT CYCLES_LDR ERRORS_DEFAULT;
  row 0x41C "LDR ptim" CLASS_DEFAULT CYCLES_LDR ERRORS_DEFAULT;
  row 0x41D "LDR ptim" CLASS_DEFAULT CYCLES_LDR ERRORS_DEFAULT;
  row 0x41E "LDR ptim" CLASS_DEFAULT CYCLES_LDR ERRORS_DEFAULT;
  row 0x41F "LDR ptim" CLASS_DEFAULT CYCLES_LDR ERRORS_DEFAULT;
  row 0x420 "STRT ptim" CLASS_DEFAULT CYCLES_STRT ERRORS_DEFAULT;
  row 0x421 "STRT ptim" CLASS_DEFAULT CYCLES_STRT ERRORS_DEFAULT;
  row 0x422 "STRT ptim" CLASS_DEFAULT CYCLES_STRT ERRORS_DEFAULT;
  row 0x423 "STRT ptim" CLASS_DEFAULT CYCLES_STRT ERRORS_DEFAULT;
  row 0x424 "STRT ptim" CLASS_DEFAULT CYCLES_STRT ERRORS_DEFAULT;
  row 0x425 "STRT ptim" CLASS_DEFAULT CYCLES_STRT ERRORS_DEFAULT;
  row 0x426 "STRT ptim" CLASS_DEFAULT CYCLES_STRT ERRORS_DEFAULT;
  row 0x427 "STRT ptim" CLASS_DEFAULT CYCLES_STRT ERRORS_DEFAULT;
  row 0x428 "STRT ptim" CLASS_DEFAULT CYCLES_STRT ERRORS_DEFAULT;
  row 0x429 "STRT ptim" CLASS_DEFAULT CYCLES_STRT ERRORS_DEFAULT;
  row 0x42A "STRT ptim" CLASS_DEFAULT CYCLES_STRT ERRORS_DEFAULT;
  row 0x42B "STRT ptim" CLASS_DEFAULT CYCLES_STRT ERRORS_DEFAULT;
  row 0x42C "STRT ptim" CLASS_DEFAULT CYCLES_STRT ERRORS_DEFAULT;
  row 0x42D "STRT ptim" CLASS_DEFAULT CYCLES_STRT ERRORS_DEFAULT;
  row 0x42E "STRT ptim" CLASS_DEFAULT CYCLES_STRT ERRORS_DEFAULT;
  row 0x42F "STRT ptim" CLASS_DEFAULT CYCLES_STRT ERRORS_DEFAULT;
  row 0x430 "LDRT ptim" CLASS_DEFAULT CYCLES_LDRT ERRORS_DEFAULT;
  row 0x431 "LDRT ptim" CLASS_DEFAULT CYCLES_LDRT ERRORS_DEFAULT;
  row 0x432 "LDRT ptim" CLASS_DEFAULT CYCLES_LDRT ERRORS_DEFAULT;
  row 0x433 "LDRT ptim" CLASS_DEFAULT CYCLES_LDRT ERRORS_DEFAULT;
  row 0x434 "LDRT ptim" CLASS_DEFAULT CYCLES_LDRT ERRORS_DEFAULT;
  row 0x435 "LDRT ptim" CLASS_DEFAULT CYCLES_LDRT ERRORS_DEFAULT;
  row 0x436 "LDRT ptim" CLASS_DEFAULT CYCLES_LDRT ERRORS_DEFAULT;
  row 0x437 "LDRT ptim" CLASS_DEFAULT CYCLES_LDRT ERRORS_DEFAULT;
  row 0x438 "LDRT ptim" CLASS_DEFAULT CYCLES_LDRT ERRORS_DEFAULT;
  row 0x439 "LDRT ptim" CLASS_DEFAULT CYCLES_LDRT ERRORS_DEFAULT;
  row 0x43A "LDRT ptim" CLASS_DEFAULT CYCLES_LDRT ERRORS_DEFAULT;
  row 0x43B "LDRT ptim" CLASS_DEFAULT CYCLES_LDRT ERRORS_DEFAULT;
  row 0x43C "LDRT ptim" CLASS_DEFAULT CYCLES_LDRT ERRORS_DEFAULT;
  row 0x43D "LDRT ptim" CLASS_DEFAULT CYCLES_LDRT ERRORS_DEFAULT;
  row 0x43E "LDRT ptim" CLASS_DEFAULT CYCLES_LDRT ERRORS_DEFAULT;
  row 0x43F "LDRT ptim" CLASS_DEFAULT CYCLES_LDRT ERRORS_DEFAULT;
  row 0x440 "STRB ptim" CLASS_DEFAULT CYCLES_STRB ERRORS_DEFAULT;
  row 0x441 "STRB ptim" CLASS_DEFAULT CYCLES_STRB ERRORS_DEFAULT;
  row 0x442 "STRB ptim" CLASS_DEFAULT CYCLES_STRB ERRORS_DEFAULT;
  row 0x443 "STRB ptim" CLASS_DEFAULT CYCLES_STRB ERRORS_DEFAULT;
  row 0x444 "STRB ptim" CLASS_DEFAULT CYCLES_STRB ERRORS_DEFAULT;
  row 0x445 "STRB ptim" CLASS_DEFAULT CYCLES_STRB ERRORS_DEFAULT;
  row 0x446 "STRB ptim" CLASS_DEFAULT CYCLES_STRB ERRORS_DEFAULT;
  row 0x447 "STRB ptim" CLASS_DEFAULT CYCLES_STRB ERRORS_DEFAULT;
  row 0x448 "STRB ptim" CLASS_DEFAULT CYCLES_STRB ERRORS_DEFAULT;
  row 0x449 "STRB ptim" CLASS_DEFAULT CYCLES_STRB ERRORS_DEFAULT;
  row 0x44A "STRB ptim" CLASS_DEFAULT CYCLES_STRB ERRORS_DEFAULT;
  row 0x44B "STRB ptim" CLASS_DEFAULT CYCLES_STRB ERRORS_DEFAULT;
  row 0x44C "STRB ptim" CLASS_DEFAULT CYCLES_STRB ERRORS_DEFAULT;
  row 0x44D "STRB ptim" CLASS_DEFAULT CYCLES_STRB ERRORS_DEFAULT;
  row 0x44E "STRB ptim" CLASS_DEFAULT CYCLES_STRB ERRORS_DEFAULT;
  row 0x44F "STRB ptim" CLASS_DEFAULT CYCLES_STRB ERRORS_DEFAULT;
  row 0x450 "LDRB ptim" CLASS_DEFAULT CYCLES_LDRB ERRORS_DEFAULT;
  row 0x451 "LDRB ptim" CLASS_DEFAULT CYCLES_LDRB ERRORS_DEFAULT;
  row 0x452 "LDRB ptim" CLASS_DEFAULT CYCLES_LDRB ERRORS_DEFAULT;
  row 0x453 "LDRB ptim" CLASS_DEFAULT CYCLES_LDRB ERRORS_DEFAULT;
  row 0x454 "LDRB ptim" CLASS_DEFAULT CYCLES_LDRB ERRORS_DEFAULT;
  row 0x455 "LDRB ptim" CLASS_DEFAULT CYCLES_LDRB ERRORS_DEFAULT;
  row 0x456 "LDRB ptim" CLASS_DEFAULT CYCLES_LDRB ERRORS_DEFAULT;
  row 0x457 "LDRB ptim" CLASS_DEFAULT CYCLES_LDRB ERRORS_DEFAULT;
  row 0x458 "LDRB ptim" CLASS_DEFAULT CYCLES_LDRB ERRORS_DEFAULT;
  row 0x459 "LDRB ptim" CLASS_DEFAULT CYCLES_LDRB ERRORS_DEFAULT;
  row 0x45A "LDRB ptim" CLASS_DEFAULT CYCLES_LDRB ERRORS_DEFAULT;
  row 0x45B "LDRB ptim" CLASS_DEFAULT CYCLES_LDRB ERRORS_DEFAULT;
  row 0x45C "LDRB ptim" CLASS_DEFAULT CYCLES_LDRB ERRORS_DEFAULT;
  row 0x45D "LDRB ptim" CLASS_DEFAULT CYCLES_LDRB ERRORS_DEFAULT;
  row 0x45E "LDRB ptim" CLASS_DEFAULT CYCLES_LDRB ERRORS_DEFAULT;
  row 0x45F "LDRB ptim" CLASS_DEFAULT CYCLES_LDRB ERRORS_DEFAULT;
  row 0x460 "STRBT ptim" CLASS_DEFAULT CYCLES_STRBT ERRORS_DEFAULT;
  row 0x461 "STRBT ptim" CLASS_DEFAULT CYCLES_STRBT ERRORS_DEFAULT;
  row 0x462 "STRBT ptim" CLASS_DEFAULT CYCLES_STRBT ERRORS_DEFAULT;
  row 0x463 "STRBT ptim" CLASS_DEFAULT CYCLES_STRBT ERRORS_DEFAULT;
  row 0x464 "STRBT ptim" CLASS_DEFAULT CYCLES_STRBT ERRORS_DEFAULT;
  row 0x465 "STRBT ptim" CLASS_DEFAULT CYCLES_STRBT ERRORS_DEFAULT;
  row 0x466 "STRBT ptim" CLASS_DEFAULT CYCLES_STRBT ERRORS_DEFAULT;
  row 0x467 "STRBT ptim" CLASS_DEFAULT CYCLES_STRBT ERRORS_DEFAULT;
  row 0x468 "STRBT ptim" CLASS_DEFAULT CYCLES_STRBT ERRORS_DEFAULT;
  row 0x469 "STRBT ptim" CLASS_DEFAULT CYCLES_STRBT ERRORS_DEFAULT;
  row 0x46A "STRBT ptim" CLASS_DEFAULT CYCLES_STRBT ERRORS_DEFAULT;
  row 0x46B "STRBT ptim" CLASS_DEFAULT CYCLES_STRBT ERRORS_DEFAULT;
  row 0x46C "STRBT ptim" CLASS_DEFAULT CYCLES_STRBT ERRORS_DEFAULT;
  row 0x46D "STRBT ptim" CLASS_DEFAULT CYCLES_STRBT ERRORS_DEFAULT;
  row 0x46E "STRBT ptim" CLASS_DEFAULT CYCLES_STRBT ERRORS_DEFAULT;
  row 0x46F "STRBT ptim" CLASS_DEFAULT CYCLES_STRBT ERRORS_DEFAULT;
  row 0x470 "LDRBT ptim" CLASS_DEFAULT CYCLES_LDRBT ERRORS_DEFAULT;
  row 0x471 "LDRBT ptim" CLASS_DEFAULT CYCLES_LDRBT ERRORS_DEFAULT;
  row 0x472 "LDRBT ptim" CLASS_DEFAULT CYCLES_LDRBT ERRORS_DEFAULT;
  row 0x473 "LDRBT ptim" CLASS_DEFAULT CYCLES_LDRBT ERRORS_DEFAULT;
  row 0x474 "LDRBT ptim" CLASS_DEFAULT CYCLES_LDRBT ERRORS_DEFAULT;
  row 0x475 "LDRBT ptim" CLASS_DEFAULT CYCLES_LDRBT ERRORS_DEFAULT;
  row 0x476 "LDRBT ptim" CLASS_DEFAULT CYCLES_LDRBT ERRORS_DEFAULT;
  row 0x477 "LDRBT ptim" CLASS_DEFAULT CYCLES_LDRBT ERRORS_DEFAULT;
  row 0x478 "LDRBT ptim" CLASS_DEFAULT CYCLES_LDRBT ERRORS_DEFAULT;
  row 0x479 "LDRBT ptim" CLASS_DEFAULT CYCLES_LDRBT ERRORS_DEFAULT;
  row 0x47A "LDRBT ptim" CLASS_DEFAULT CYCLES_LDRBT ERRORS_DEFAULT;
  row 0x47B "LDRBT ptim" CLASS_DEFAULT CYCLES_LDRBT ERRORS_DEFAULT;
  row 0x47C "LDRBT ptim" CLASS_DEFAULT CYCLES_LDRBT ERRORS_DEFAULT;
  row 0x47D "LDRBT ptim" CLASS_DEFAULT CYCLES_LDRBT ERRORS_DEFAULT;
  row 0x47E "LDRBT ptim" CLASS_DEFAULT CYCLES_LDRBT ERRORS_DEFAULT;
  row 0x47F "LDRBT ptim" CLASS_DEFAULT CYCLES_LDRBT ERRORS_DEFAULT].

Definition vemu_arm_instr_09 : list vemu_instr_info := [
  row 0x480 "STR ptip" CLASS_DEFAULT CYCLES_STR ERRORS_DEFAULT;
  row 0x481 "STR ptip" CLASS_DEFAULT CYCLES_STR ERRORS_DEFAULT;
  row 0x482 "STR ptip" CLASS_DEFAULT CYCLES_STR ERRORS_DEFAULT;
  row 0x483 "STR ptip" CLASS_DEFAULT CYCLES_STR ERRORS_DEFAULT;
  row 0x484 "STR ptip" CLASS_DEFAULT CYCLES_STR ERRORS_DEFAULT;
  row 0x485 "STR ptip" CLASS_DEFAULT CYCLES_STR ERRORS_DEFAULT;
  row 0x486 "STR ptip" CLASS_DEFAULT CYCLES_STR ERRORS_DEFAULT;
  row 0x487 "STR ptip" CLASS_DEFAULT CYCLES_STR ERRORS_DEFAULT;
  row 0x488 "STR ptip" CLASS_DEFAULT CYCLES_STR ERRORS_DEFAULT;
  row 0x489 "STR ptip" CLASS_DEFAULT CYCLES_STR ERRORS_DEFAULT;
  row 0x48A "STR ptip" CLASS_DEFAULT CYCLES_STR ERRORS_DEFAULT;
  row 0x48B "STR ptip" CLASS_DEFAULT CYCLES_STR ERRORS_DEFAULT;
  row 0x48C "STR ptip" CLASS_DEFAULT CYCLES_STR ERRORS_DEFAULT;
  row 0x48D "STR ptip" CLASS_DEFAULT CYCLES_STR ERRORS_DEFAULT;
  row 0x48E "STR ptip" CLASS_DEFAULT CYCLES_STR ERRORS_DEFAULT;
  row 0x48F "STR ptip" CLASS_DEFAULT CYCLES_STR ERRORS_DEFAULT;
  row 0x490 "LDR ptip" CLASS_DEFAULT CYCLES_LDR ERRORS_DEFAULT;
  row 0x491 "LDR ptip" CLASS_DEFAULT CYCLES_LDR ERRORS_DEFAULT;
  row 0x492 "LDR ptip" CLASS_DEFAULT CYCLES_LDR ERRORS_DEFAULT;
  row 0x493 "LDR ptip" CLASS_DEFAULT CYCLES_LDR ERRORS_DEFAULT;
  row 0x494 "LDR ptip" CLASS_DEFAULT CYCLES_LDR ERRORS_DEFAULT;
  row 0x495 "LDR ptip" CLASS_DEFAULT CYCLES_LDR ERRORS_DEFAULT;
  row 0x496 "LDR ptip" CLASS_DEFAULT CYCLES_LDR ERRORS_DEFAULT;
  row 0x497 "LDR ptip" CLASS_DEFAULT CYCLES_LDR ERRORS_DEFAULT;
  row 0x498 "LDR ptip" CLASS_DEFAULT CYCLES_LDR ERRORS_DEFAULT;
  row 0x499 "LDR ptip" CLASS_DEFAULT CYCLES_LDR ERRORS_DEFAULT;
  row 0x49A "LDR ptip" CLASS_DEFAULT CYCLES_LDR ERRORS_DEFAULT;
  row 0x49B "LDR ptip" CLASS_DEFAULT CYCLES_LDR ERRORS_DEFAULT;
  row 0x49C "LDR ptip" CLASS_DEFAULT CYCLES_LDR ERRORS_DEFAULT;
  row 0x49D "LDR ptip" CLASS_DEFAULT CYCLES_LDR ERRORS_DEFAULT;
  row 0x49E "LDR ptip" CLASS_DEFAULT CYCLES_LDR ERRORS_DEFAULT;
  row 0x49F "LDR ptip" CLASS_DEFAULT CYCLES_LDR ERRORS_DEFAULT;
  row 0x4A0 "STRT ptip" CLASS_DEFAULT CYCLES_STRT ERRORS_DEFAULT;
  row 0x4A1 "STRT ptip" CLASS_DEFAULT CYCLES_STRT ERRORS_DEFAULT;
  row 0x4A2 "STRT ptip" CLASS_DEFAULT CYCLES_STRT ERRORS_DEFAULT;
  row 0x4A3 "STRT ptip" CLASS_DEFAULT CYCLES_STRT ERRORS_DEFAULT;
  row 0x4A4 "STRT ptip" CLASS_DEFAULT CYCLES_STRT ERRORS_DEFAULT;
  row 0x4A5 "STRT ptip" CLASS_DEFAULT CYCLES_STRT ERRORS_DEFAULT;
  row 0x4A6 "STRT ptip" CLASS_DEFAULT CYCLES_STRT ERRORS_DEFAULT;
  row 0x4A7 "STRT ptip" CLASS_DEFAULT CYCLES_STRT ERRORS_DEFAULT;
  row 0x4A8 "STRT ptip" CLASS_DEFAULT CYCLES_STRT ERRORS_DEFAULT;
  row 0x4A9 "STRT ptip" CLASS_DEFAULT CYCLES_STRT ERRORS_DEFAULT;
  row 0x4AA "STRT ptip" CLASS_DEFAULT CYCLES_STRT ERRORS_DEFAULT;
  row 0x4AB "STRT ptip" CLASS_DEFAULT CYCLES_STRT ERRORS_DEFAULT;
  row 0x4AC "STRT ptip" CLASS_DEFAULT CYCLES_STRT ERRORS_DEFAULT;
  row 0x4AD "STRT ptip" CLASS_DEFAULT CYCLES_STRT ERRORS_DEFAULT;
  row 0x4AE "STRT ptip" CLASS_DEFAULT CYCLES_STRT ERRORS_DEFAULT;
  row 0x4AF "STRT ptip" CLASS_DEFAULT CYCLES_STRT ERRORS_DEFAULT;
  row 0x4B0 "LDRT ptip" CLASS_DEFAULT CYCLES_LDRT ERRORS_DEFAULT;
  row 0x4B1 "LDRT ptip" CLASS_DEFAULT CYCLES_LDRT ERRORS_DEFAULT;
  row 0x4B2 "LDRT ptip" CLASS_DEFAULT CYCLES_LDRT ERRORS_DEFAULT;
  row 0x4B3 "LDRT ptip" CLASS_DEFAULT CYCLES_LDRT ERRORS_DEFAULT;
  row 0x4B4 "LDRT ptip" CLASS_DEFAULT CYCLES_LDRT ERRORS_DEFAULT;
  row 0x4B5 "LDRT ptip" CLASS_DEFAULT CYCLES_LDRT ERRORS_DEFAULT;
  row 0x4B6 "LDRT ptip" CLASS_DEFAULT CYCLES_LDRT ERRORS_DEFAULT;
  row 0x4B7 "LDRT ptip" CLASS_DEFAULT CYCLES_LDRT ERRORS_DEFAULT;
  row 0x4B8 "LDRT ptip" CLASS_DEFAULT CYCLES_LDRT ERRORS_DEFAULT;
  row 0x4B9 "LDRT ptip" CLASS_DEFAULT CYCLES_LDRT ERRORS_DEFAULT;
  row 0x4BA "LDRT ptip" CLASS_DEFAULT CYCLES_LDRT ERRORS_DEFAULT;
  row 0x4BB "LDRT ptip" CLASS_DEFAULT CYCLES_LDRT ERRORS_DEFAULT;
  row 0x4BC "LDRT ptip" CLASS_DEFAULT CYCLES_LDRT ERRORS_DEFAULT;
  row 0x4BD "LDRT ptip" CLASS_DEFAULT CYCLES_LDRT ERRORS_DEFAULT;
  row 0x4BE "LDRT ptip" CLASS_DEFAULT CYCLES_LDRT ERRORS_DEFAULT;
  row 0x4BF "LDRT ptip" CLASS_DEFAULT CYCLES_LDRT ERRORS_DEFAULT;
  row 0x4C0 "STRB ptip" CLASS_DEFAULT CYCLES_STRB ERRORS_DEFAULT;
  row 0x4C1 "STRB ptip" CLASS_DEFAULT CYCLES_STRB ERRORS_DEFAULT;
  row 0x4C2 "STRB ptip" CLASS_DEFAULT CYCLES_STRB ERRORS_DEFAULT;
  row 0x4C3 "STRB ptip" CLASS_DEFAULT CYCLES_STRB ERRORS_DEFAULT;
  row 0x4C4 "STRB ptip" CLASS_DEFAULT CYCLES_STRB ERRORS_DEFAULT;
  row 0x4C5 "STRB ptip" CLASS_DEFAULT CYCLES_STRB ERRORS_DEFAULT;
  row 0x4C6 "STRB ptip" CLASS_DEFAULT CYCLES_STRB ERRORS_DEFAULT;
  row 0x4C7 "STRB ptip" CLASS_DEFAULT CYCLES_STRB ERRORS_DEFAULT;
  row 0x4C8 "STRB ptip" CLASS_DEFAULT CYCLES_STRB ERRORS_DEFAULT;
  row 0x4C9 "STRB ptip" CLASS_DEFAULT CYCLES_STRB ERRORS_DEFAULT;
  row 0x4CA "STRB ptip" CLASS_DEFAULT CYCLES_STRB ERRORS_DEFAULT;
  row 0x4CB "STRB ptip" CLASS_DEFAULT CYCLES_STRB ERRORS_DEFAULT;
  row 0x4CC "STRB ptip" CLASS_DEFAULT CYCLES_STRB ERRORS_DEFAULT;
  row 0x4CD "STRB ptip" CLASS_DEFAULT CYCLES_STRB ERRORS_DEFAULT;
  row 0x4CE "STRB ptip" CLASS_DEFAULT CYCLES_STRB ERRORS_DEFAULT;
  row 0x4CF "STRB ptip" CLASS_DEFAULT CYCLES_STRB ERRORS_DEFAULT;
  row 0x4D0 "LDRB ptip" CLASS_DEFAULT CYCLES_LDRB ERRORS_DEFAULT;
  row 0x4D1 "LDRB ptip" CLASS_DEFAULT CYCLES_LDRB ERRORS_DEFAULT;
  row 0x4D2 "LDRB ptip" CLASS_DEFAULT CYCLES_LDRB ERRORS_DEFAULT;
  row 0x4D3 "LDRB ptip" CLASS_DEFAULT CYCLES_LDRB ERRORS_DEFAULT;
  row 0x4D4 "LDRB ptip" CLASS_DEFAULT CYCLES_LDRB ERRORS_DEFAULT;
  row 0x4D5 "LDRB ptip" CLASS_DEFAULT CYCLES_LDRB ERRORS_DEFAULT;
  row 0x4D6 "LDRB ptip" CLASS_DEFAULT CYCLES_LDRB ERRORS_DEFAULT;
  row 0x4D7 "LDRB ptip" CLASS_DEFAULT CYCLES_LDRB ERRORS_DEFAULT;
  row 0x4D8 "LDRB ptip" CLASS_DEFAULT CYCLES_LDRB ERRORS_DEFAULT;
  row 0x4D9 "LDRB ptip" CLASS_DEFAULT CYCLES_LDRB ERRORS_DEFAULT;
  row 0x4DA "LDRB ptip" CLASS_DEFAULT CYCLES_LDRB ERRORS_DEFAULT;
  row 0x4DB "LDRB ptip" CLASS_DEFAULT CYCLES_LDRB ERRORS_DEFAULT;
  row 0x4DC "LDRB ptip" CLASS_DEFAULT CYCLES_LDRB ERRORS_DEFAULT;
  row 0x4DD "LDRB ptip" CLASS_DEFAULT CYCLES_LDRB ERRORS_DEFAULT;
  row 0x4DE "LDRB ptip" CLASS_DEFAULT CYCLES_LDRB ERRORS_DEFAULT;
  row 0x4DF "LDRB ptip" CLASS_DEFAULT CYCLES_LDRB ERRORS_DEFAULT;
  row 0x4E0 "STRBT ptip" CLASS_DEFAULT CYCLES_STRBT ERRORS_DEFAULT;
  row 0x4E1 "STRBT ptip" CLASS_DEFAULT CYCLES_STRBT ERRORS_DEFAULT;
  row 0x4E2 "STRBT ptip" CLASS_DEFAULT CYCLES_STRBT ERRORS_DEFAULT;
  row 0x4E3 "STRBT ptip" CLASS_DEFAULT CYCLES_STRBT ERRORS_DEFAULT;
  row 0x4E4 "STRBT ptip" CLASS_DEFAULT CYCLES_STRBT ERRORS_DEFAULT;
  row 0x4E5 "STRBT ptip" CLASS_DEFAULT CYCLES_STRBT ERRORS_DEFAULT;
  row 0x4E6 "STRBT ptip" CLASS_DEFAULT CYCLES_STRBT ERRORS_DEFAULT;
  row 0x4E7 "STRBT ptip" CLASS_DEFAULT CYCLES_STRBT ERRORS_DEFAULT;
  row 0x4E8 "STRBT ptip" CLASS_DEFAULT CYCLES_STRBT ERRORS_DEFAULT;
  row 0x4E9 "STRBT ptip" CLASS_DEFAULT CYCLES_STRBT ERRORS_DEFAULT;
  row 0x4EA "STRBT ptip" CLASS_DEFAULT CYCLES_STRBT ERRORS_DEFAULT;
  row 0x4EB "STRBT ptip" CLASS_DEFAULT CYCLES_STRBT ERRORS_DEFAULT;
  row 0x4EC "STRBT ptip" CLASS_DEFAULT CYCLES_STRBT ERRORS_DEFAULT;
  row 0x4ED "STRBT ptip" CLASS_DEFAULT CYCLES_STRBT ERRORS_DEFAULT;
  row 0x4EE "STRBT ptip" CLASS_DEFAULT CYCLES_STRBT ERRORS_DEFAULT;
  row 0x4EF "STRBT ptip" CLASS_DEFAULT CYCLES_STRBT ERRORS_DEFAULT;
  row 0x4F0 "LDRBT ptip" CLASS_DEFAULT CYCLES_LDRBT ERRORS_DEFAULT;
  row 0x4F1 "LDRBT ptip" CLASS_DEFAULT CYCLES_LDRBT ERRORS_DEFAULT;
  row 0x4F2 "LDRBT ptip" CLASS_DEFAULT CYCLES_LDRBT ERRORS_DEFAULT;
  row 0x4F3 "LDRBT ptip" CLASS_DEFAULT CYCLES_LDRBT ERRORS_DEFAULT;
  row 0x4F4 "LDRBT ptip" CLASS_DEFAULT CYCLES_LDRBT ERRORS_DEFAULT;
  row 0x4F5 "LDRBT ptip" CLASS_DEFAULT CYCLES_LDRBT ERRORS_DEFAULT;
  row 0x4F6 "LDRBT ptip" CLASS_DEFAULT CYCLES_LDRBT ERRORS_DEFAULT;
  row 0x4F7 "LDRBT ptip" CLASS_DEFAULT CYCLES_LDRBT ERRORS_DEFAULT;
  row 0x4F8 "LDRBT ptip" CLASS_DEFAULT CYCLES_LDRBT ERRORS_DEFAULT;
  row 0x4F9 "LDRBT ptip" CLASS_DEFAULT CYCLES_LDRBT ERRORS_DEFAULT;
  row 0x4FA "LDRBT ptip" CLASS_DEFAULT CYCLES_LDRBT ERRORS_DEFAULT;
  row 0x4FB "LDRBT ptip" CLASS_DEFAULT CYCLES_LDRBT ERRORS_DEFAULT;
  row 0x4FC "LDRBT ptip" CLASS_DEFAULT CYCLES_LDRBT ERRORS_DEFAULT;
  row 0x4FD "LDRBT ptip" CLASS_DEFAULT CYCLES_LDRBT ERRORS_DEFAULT;
  row 0x4FE "LDRBT ptip" CLASS_DEFAULT CYCLES_LDRBT ERRORS_DEFAULT;
  row 0x4FF "LDRBT ptip" CLASS_DEFAULT CYCLES_LDRBT ERRORS_DEFAULT].

Definition vemu_arm_instr_10 : list vemu_instr_info := [
  row 0x500 "STR ofim" CLASS_DEFAULT CYCLES_STR ERRORS_DEFAULT;
  row 0x501 "STR ofim" CLASS_DEFAULT CYCLES_STR ERRORS_DEFAULT;
  row 0x502 "STR ofim" CLASS_DEFAULT CYCLES_STR ERRORS_DEFAULT;
  row 0x503 "STR ofim" CLASS_DEFAULT CYCLES_STR ERRORS_DEFAULT;
  row 0x504 "STR ofim" CLASS_DEFAULT CYCLES_STR ERRORS_DEFAULT;
  row 0x505 "STR ofim" CLASS_DEFAULT CYCLES_STR ERRORS_DEFAULT;
  row 0x506 "STR ofim" CLASS_DEFAULT CYCLES_STR ERRORS_DEFAULT;
  row 0x507 "STR ofim" CLASS_DEFAULT CYCLES_STR ERRORS_DEFAULT;
  row 0x508 "STR ofim" CLASS_DEFAULT CYCLES_STR ERRORS_DEFAULT;
  row 0x509 "STR ofim" CLASS_DEFAULT CYCLES_STR ERRORS_DEFAULT;
  row 0x50A "STR ofim" CLASS_DEFAULT CYCLES_STR ERRORS_DEFAULT;
  row 0x50B "STR ofim" CLASS_DEFAULT CYCLES_STR ERRORS_DEFAULT;
  row 0x50C "STR ofim" CLASS_DEFAULT CYCLES_STR ERRORS_DEFAULT;
  row 0x50D "STR ofim" CLASS_DEFAULT CYCLES_STR ERRORS_DEFAULT;
  row 0x50E "STR ofim" CLASS_DEFAULT CYCLES_STR ERRORS_DEFAULT;
  row 0x50F "STR ofim" CLASS_DEFAULT CYCLES_STR ERRORS_DEFAULT;
  row 0x510 "LDR ofim" CLASS_DEFAULT CYCLES_LDR ERRORS_DEFAULT;
  row 0x511 "LDR ofim" CLASS_DEFAULT CYCLES_LDR ERRORS_DEFAULT;
  row 0x512 "LDR ofim" CLASS_DEFAULT CYCLES_LDR ERRORS_DEFAULT;
  row 0x513 "LDR ofim" CLASS_DEFAULT CYCLES_LDR ERRORS_DEFAULT;
  row 0x514 "LDR ofim" CLASS_DEFAULT CYCLES_LDR ERRORS_DEFAULT;
  row 0x515 "LDR ofim" CLASS_DEFAULT CYCLES_LDR ERRORS_DEFAULT;
  row 0x516 "LDR ofim" CLASS_DEFAULT CYCLES_LDR ERRORS_DEFAULT;
  row 0x517 "LDR ofim" CLASS_DEFAULT CYCLES_LDR ERRORS_DEFAULT;
  row 0x518 "LDR ofim" CLASS_DEFAULT CYCLES_LDR ERRORS_DEFAULT;
  row 0x519 "LDR ofim" CLASS_DEFAULT CYCLES_LDR ERRORS_DEFAULT;
  row 0x51A "LDR ofim" CLASS_DEFAULT CYCLES_LDR ERRORS_DEFAULT;
  row 0x51B "LDR ofim" CLASS_DEFAULT CYCLES_LDR ERRORS_DEFAULT;
  row 0x51C "LDR ofim" CLASS_DEFAULT CYCLES_LDR ERRORS_DEFAULT;
  row 0x51D "LDR ofim" CLASS_DEFAULT CYCLES_LDR ERRORS_DEFAULT;
  row 0x51E "LDR ofim" CLASS_DEFAULT CYCLES_LDR ERRORS_DEFAULT;
  row 0x51F "LDR ofim" CLASS_DEFAULT CYCLES_LDR ERRORS_DEFAULT;
  row 0x520 "STR prim" CLASS_DEFAULT CYCLES_STR ERRORS_DEFAULT;
  row 0x521 "STR prim" CLASS_DEFAULT CYCLES_STR ERRORS_DEFAULT;
  row 0x522 "STR prim" CLASS_DEFAULT CYCLES_STR ERRORS_DEFAULT;
  row 0x523 "STR prim" CLASS_DEFAULT CYCLES_STR ERRORS_DEFAULT;
  row 0x524 "STR prim" CLASS_DEFAULT CYCLES_STR ERRORS_DEFAULT;
  row 0x525 "STR prim" CLASS_DEFAULT CYCLES_STR ERRORS_DEFAULT;
  row 0x526 "STR prim" CLASS_DEFAULT CYCLES_STR ERRORS_DEFAULT;
  row 0x527 "STR prim" CLASS_DEFAULT CYCLES_STR ERRORS_DEFAULT;
  row 0x528 "STR prim" CLASS_DEFAULT CYCLES_STR ERRORS_DEFAULT;
  row 0x529 "STR prim" CLASS_DEFAULT CYCLES_STR ERRORS_DEFAULT;
  row 0x52A "STR prim" CLASS_DEFAULT CYCLES_STR ERRORS_DEFAULT;
  row 0x52B "STR prim" CLASS_DEFAULT CYCLES_STR ERRORS_DEFAULT;
  row 0x52C "STR prim" CLASS_DEFAULT CYCLES_STR ERRORS_DEFAULT;
  row 0x52D "STR prim" CLASS_DEFAULT CYCLES_STR ERRORS_DEFAULT;
  row 0x52E "STR prim" CLASS_DEFAULT CYCLES_STR ERRORS_DEFAULT;
  row 0x52F "STR prim" CLASS_DEFAULT CYCLES_STR ERRORS_DEFAULT;
  row 0x530 "LDR prim" CLASS_DEFAULT CYCLES_LDR ERRORS_DEFAULT;
  row 0x531 "LDR prim" CLASS_DEFAULT CYCLES_LDR ERRORS_DEFAULT;
  row 0x532 "LDR prim" CLASS_DEFAULT CYCLES_LDR ERRORS_DEFAULT;
  row 0x533 "LDR prim" CLASS_DEFAULT CYCLES_LDR ERRORS_DEFAULT;
  row 0x534 "LDR prim" CLASS_DEFAULT CYCLES_LDR ERRORS_DEFAULT;
  row 0x535 "LDR prim" CLASS_DEFAULT CYCLES_LDR ERRORS_DEFAULT;
  row 0x536 "LDR prim" CLASS_DEFAULT CYCLES_LDR ERRORS_DEFAULT;
  row 0x537 "LDR prim" CLASS_DEFAULT CYCLES_LDR ERRORS_DEFAULT;
  row 0x538 "LDR prim" CLASS_DEFAULT CYCLES_LDR ERRORS_DEFAULT;
  row 0x539 "LDR prim" CLASS_DEFAULT CYCLES_LDR ERRORS_DEFAULT;
  row 0x53A "LDR prim" CLASS_DEFAULT CYCLES_LDR ERRORS_DEFAULT;
  row 0x53B "LDR prim" CLASS_DEFAULT CYCLES_LDR ERRORS_DEFAULT;
  row 0x53C "LDR prim" CLASS_DEFAULT CYCLES_LDR ERRORS_DEFAULT;
  row 0x53D "LDR prim" CLASS_DEFAULT CYCLES_LDR ERRORS_DEFAULT;
  row 0x53E "LDR prim" CLASS_DEFAULT CYCLES_LDR ERRORS_DEFAULT;
  row 0x53F "LDR prim" CLASS_DEFAULT CYCLES_LDR ERRORS_DEFAULT;
  row 0x540 "STRB ofim" CLASS_DEFAULT CYCLES_STRB ERRORS_DEFAULT;
  row 0x541 "STRB ofim" CLASS_DEFAULT CYCLES_STRB ERRORS_DEFAULT;
  row 0x542 "STRB ofim" CLASS_DEFAULT CYCLES_STRB ERRORS_DEFAULT;
  row 0x543 "STRB ofim" CLASS_DEFAULT CYCLES_STRB ERRORS_DEFAULT;
  row 0x544 "STRB ofim" CLASS_DEFAULT CYCLES_STRB ERRORS_DEFAULT;
  row 0x545 "STRB ofim" CLASS_DEFAULT CYCLES_STRB ERRORS_DEFAULT;
  row 0x546 "STRB ofim" CLASS_DEFAULT CYCLES_STRB ERRORS_DEFAULT;
  row 0x547 "STRB ofim" CLASS_DEFAULT CYCLES_STRB ERRORS_DEFAULT;
  row 0x548 "STRB ofim" CLASS_DEFAULT CYCLES_STRB ERRORS_DEFAULT;
  row 0x549 "STRB ofim" CLASS_DEFAULT CYCLES_STRB ERRORS_DEFAULT;
  row 0x54A "STRB ofim" CLASS_DEFAULT CYCLES_STRB ERRORS_DEFAULT;
  row 0x54B "STRB ofim" CLASS_DEFAULT CYCLES_STRB ERRORS_DEFAULT;
  row 0x54C "STRB ofim" CLASS_DEFAULT CYCLES_STRB ERRORS_DEFAULT;
  row 0x54D "STRB ofim" CLASS_DEFAULT CYCLES_STRB ERRORS_DEFAULT;
  row 0x54E "STRB ofim" CLASS_DEFAULT CYCLES_STRB ERRORS_DEFAULT;
  row 0x54F "STRB ofim" CLASS_DEFAULT CYCLES_STRB ERRORS_DEFAULT;
  row 0x550 "LDRB ofim" CLASS_DEFAULT CYCLES_LDRB ERRORS_DEFAULT;
  row 0x551 "LDRB ofim" CLASS_DEFAULT CYCLES_LDRB ERRORS_DEFAULT;
  row 0x552 "LDRB ofim" CLASS_DEFAULT CYCLES_LDRB ERRORS_DEFAULT;
  row 0x553 "LDRB ofim" CLASS_DEFAULT CYCLES_LDRB ERRORS_DEFAULT;
  row 0x554 "LDRB ofim" CLASS_DEFAULT CYCLES_LDRB ERRORS_DEFAULT;
  row 0x555 "LDRB ofim" CLASS_DEFAULT CYCLES_LDRB ERRORS_DEFAULT;
  row 0x556 "LDRB ofim" CLASS_DEFAULT CYCLES_LDRB ERRORS_DEFAULT;
  row 0x557 "LDRB ofim" CLASS_DEFAULT CYCLES_LDRB ERRORS_DEFAULT;
  row 0x558 "LDRB ofim" CLASS_DEFAULT CYCLES_LDRB ERRORS_DEFAULT;
  row 0x559 "LDRB ofim" CLASS_DEFAULT CYCLES_LDRB ERRORS_DEFAULT;
  row 0x55A "LDRB ofim" CLASS_DEFAULT CYCLES_LDRB ERRORS_DEFAULT;
  row 0x55B "LDRB ofim" CLASS_DEFAULT CYCLES_LDRB ERRORS_DEFAULT;
  row 0x55C "LDRB ofim" CLASS_DEFAULT CYCLES_LDRB ERRORS_DEFAULT;
  row 0x55D "LDRB ofim" CLASS_DEFAULT CYCLES_LDRB ERRORS_DEFAULT;
  row 0x55E "LDRB ofim" CLASS_DEFAULT CYCLES_LDRB ERRORS_DEFAULT;
  row 0x55F "LDRB ofim" CLASS_DEFAULT CYCLES_LDRB ERRORS_DEFAULT;
  row 0x560 "STRB prim" CLASS_DEFAULT CYCLES_STRB ERRORS_DEFAULT;
  row 0x561 "STRB prim" CLASS_DEFAULT CYCLES_STRB ERRORS_DEFAULT;
  row 0x562 "STRB prim" CLASS_DEFAULT CYCLES_STRB ERRORS_DEFAULT;
  row 0x563 "STRB prim" CLASS_DEFAULT CYCLES_STRB ERRORS_DEFAULT;
  row 0x564 "STRB prim" CLASS_DEFAULT CYCLES_STRB ERRORS_DEFAULT;
  row 0x565 "STRB prim" CLASS_DEFAULT CYCLES_STRB ERRORS_DEFAULT;
  row 0x566 "STRB prim" CLASS_DEFAULT CYCLES_STRB ERRORS_DEFAULT;
  row 0x567 "STRB prim" CLASS_DEFAULT CYCLES_STRB ERRORS_DEFAULT;
  row 0x568 "STRB prim" CLASS_DEFAULT CYCLES_STRB ERRORS_DEFAULT;
  row 0x569 "STRB prim" CLASS_DEFAULT CYCLES_STRB ERRORS_DEFAULT;
  row 0x56A "STRB prim" CLASS_DEFAULT CYCLES_STRB ERRORS_DEFAULT;
  row 0x56B "STRB prim" CLASS_DEFAULT CYCLES_STRB ERRORS_DEFAULT;
  row 0x56C "STRB prim" CLASS_DEFAULT CYCLES_STRB ERRORS_DEFAULT;
  row 0x56D "STRB prim" CLASS_DEFAULT CYCLES_STRB ERRORS_DEFAULT;
  row 0x56E "STRB prim" CLASS_DEFAULT CYCLES_STRB ERRORS_DEFAULT;
  row 0x56F "STRB prim" CLASS_DEFAULT CYCLES_STRB ERRORS_DEFAULT;
  row 0x570 "LDRB prim" CLASS_DEFAULT CYCLES_LDRB ERRORS_DEFAULT;
  row 0x571 "LDRB prim" CLASS_DEFAULT CYCLES_LDRB ERRORS_DEFAULT;
  row 0x572 "LDRB prim" CLASS_DEFAULT CYCLES_LDRB ERRORS_DEFAULT;
  row 0x573 "LDRB prim" CLASS_DEFAULT CYCLES_LDRB ERRORS_DEFAULT;
  row 0x574 "LDRB prim" CLASS_DEFAULT CYCLES_LDRB ERRORS_DEFAULT;
  row 0x575 "LDRB prim" CLASS_DEFAULT CYCLES_LDRB ERRORS_DEFAULT;
  row 0x576 "LDRB prim" CLASS_DEFAULT CYCLES_LDRB ERRORS_DEFAULT;
  row 0x577 "LDRB prim" CLASS_DEFAULT CYCLES_LDRB ERRORS_DEFAULT;
  row 0x578 "LDRB prim" CLASS_DEFAULT CYCLES_LDRB ERRORS_DEFAULT;
  row 0x579 "LDRB prim" CLASS_DEFAULT CYCLES_LDRB ERRORS_DEFAULT;
  row 0x57A "LDRB prim" CLASS_DEFAULT CYCLES_LDRB ERRORS_DEFAULT;
  row 0x57B "LDRB prim" CLASS_DEFAULT CYCLES_LDRB ERRORS_DEFAULT;
  row 0x57C "LDRB prim" CLASS_DEFAULT CYCLES_LDRB ERRORS_DEFAULT;
  row 0x57D "LDRB prim" CLASS_DEFAULT CYCLES_LDRB ERRORS_DEFAULT;
  row 0x57E "LDRB prim" CLASS_DEFAULT CYCLES_LDRB ERRORS_DEFAULT;
  row 0x57F "LDRB prim" CLASS_DEFAULT CYCLES_LDRB ERRORS_DEFAULT].

Definition vemu_arm_instr_11 : list vemu_instr_info := [
  row 0x580 "STR ofip" CLASS_DEFAULT CYCLES_STR ERRORS_DEFAULT;
  row 0x581 "STR ofip" CLASS_DEFAULT CYCLES_STR ERRORS_DEFAULT;
  row 0x582 "STR ofip" CLASS_DEFAULT CYCLES_STR ERRORS_DEFAULT;
  row 0x583 "STR ofip" CLASS_DEFAULT CYCLES_STR ERRORS_DEFAULT;
  row 0x584 "STR ofip" CLASS_DEFAULT CYCLES_STR ERRORS_DEFAULT;
  row 0x585 "STR ofip" CLASS_DEFAULT CYCLES_STR ERRORS_DEFAULT;
  row 0x586 "STR ofip" CLASS_DEFAULT CYCLES_STR ERRORS_DEFAULT;
  row 0x587 "STR ofip" CLASS_DEFAULT CYCLES_STR ERRORS_DEFAULT;
  row 0x588 "STR ofip" CLASS_DEFAULT CYCLES_STR ERRORS_DEFAULT;
  row 0x589 "STR ofip" CLASS_DEFAULT CYCLES_STR ERRORS_DEFAULT;
  row 0x58A "STR ofip" CLASS_DEFAULT CYCLES_STR ERRORS_DEFAULT;
  row 0x58B "STR ofip" CLASS_DEFAULT CYCLES_STR ERRORS_DEFAULT;
  row 0x58C "STR ofip" CLASS_DEFAULT CYCLES_STR ERRORS_DEFAULT;
  row 0x58D "STR ofip" CLASS_DEFAULT CYCLES_STR ERRORS_DEFAULT;
  row 0x58E "STR ofip" CLASS_DEFAULT CYCLES_STR ERRORS_DEFAULT;
  row 0x58F "STR ofip" CLASS_DEFAULT CYCLES_STR ERRORS_DEFAULT;
  row 0x590 "LDR ofip" CLASS_DEFAULT CYCLES_LDR ERRORS_DEFAULT;
  row 0x591 "LDR ofip" CLASS_DEFAULT CYCLES_LDR ERRORS_DEFAULT;
  row 0x592 "LDR ofip" CLASS_DEFAULT CYCLES_LDR ERRORS_DEFAULT;
  row 0x593 "LDR ofip" CLASS_DEFAULT CYCLES_LDR ERRORS_DEFAULT;
  row 0x594 "LDR ofip" CLASS_DEFAULT CYCLES_LDR ERRORS_DEFAULT;
  row 0x595 "LDR ofip" CLASS_DEFAULT CYCLES_LDR ERRORS_DEFAULT;
  row 0x596 "LDR ofip" CLASS_DEFAULT CYCLES_LDR ERRORS_DEFAULT;
  row 0x597 "LDR ofip" CLASS_DEFAULT CYCLES_LDR ERRORS_DEFAULT;
  row 0x598 "LDR ofip" CLASS_DEFAULT CYCLES_LDR ERRORS_DEFAULT;
  row 0x599 "LDR ofip" CLASS_DEFAULT CYCLES_LDR ERRORS_DEFAULT;
  row 0x59A "LDR ofip" CLASS_DEFAULT CYCLES_LDR ERRORS_DEFAULT;
  row 0x59B "LDR ofip" CLASS_DEFAULT CYCLES_LDR ERRORS_DEFAULT;
  row 0x59C "LDR ofip" CLASS_DEFAULT CYCLES_LDR ERRORS_DEFAULT;
  row 0x59D "LDR ofip" CLASS_DEFAULT CYCLES_LDR ERRORS_DEFAULT;
  row 0x59E "LDR ofip" CLASS_DEFAULT CYCLES_LDR ERRORS_DEFAULT;
  row 0x59F "LDR ofip" CLASS_DEFAULT CYCLES_LDR ERRORS_DEFAULT;
  row 0x5A0 "STR prip" CLASS_DEFAULT CYCLES_STR ERRORS_DEFAULT;
  row 0x5A1 "STR prip" CLASS_DEFAULT CYCLES_STR ERRORS_DEFAULT;
  row 0x5A2 "STR prip" CLASS_DEFAULT CYCLES_STR ERRORS_DEFAULT;
  row 0x5A3 "STR prip" CLASS_DEFAULT CYCLES_STR ERRORS_DEFAULT;
  row 0x5A4 "STR prip" CLASS_DEFAULT CYCLES_STR ERRORS_DEFAULT;
  row 0x5A5 "STR prip" CLASS_DEFAULT CYCLES_STR ERRORS_DEFAULT;
  row 0x5A6 "STR prip" CLASS_DEFAULT CYCLES_STR ERRORS_DEFAULT;
  row 0x5A7 "STR prip" CLASS_DEFAULT CYCLES_STR ERRORS_DEFAULT;
  row 0x5A8 "STR prip" CLASS_DEFAULT CYCLES_STR ERRORS_DEFAULT;
  row 0x5A9 "STR prip" CLASS_DEFAULT CYCLES_STR ERRORS_DEFAULT;
  row 0x5AA "STR prip" CLASS_DEFAULT CYCLES_STR ERRORS_DEFAULT;
  row 0x5AB "STR prip" CLASS_DEFAULT CYCLES_STR ERRORS_DEFAULT;
  row 0x5AC "STR prip" CLASS_DEFAULT CYCLES_STR ERRORS_DEFAULT;
  row 0x5AD "STR prip" CLASS_DEFAULT CYCLES_STR ERRORS_DEFAULT;
  row 0x5AE "STR prip" CLASS_DEFAULT CYCLES_STR ERRORS_DEFAULT;
  row 0x5AF "STR prip" CLASS_DEFAULT CYCLES_STR ERRORS_DEFAULT;
  row 0x5B0 "LDR prip" CLASS_DEFAULT CYCLES_LDR ERRORS_DEFAULT;
  row 0x5B1 "LDR prip" CLASS_DEFAULT CYCLES_LDR ERRORS_DEFAULT;
  row 0x5B2 "LDR prip" CLASS_DEFAULT CYCLES_LDR ERRORS_DEFAULT;
  row 0x5B3 "LDR prip" CLASS_DEFAULT CYCLES_LDR ERRORS_DEFAULT;
  row 0x5B4 "LDR prip" CLASS_DEFAULT CYCLES_LDR ERRORS_DEFAULT;
  row 0x5B5 "LDR prip" CLASS_DEFAULT CYCLES_LDR ERRORS_DEFAULT;
  row 0x5B6 "LDR prip" CLASS_DEFAULT CYCLES_LDR ERRORS_DEFAULT;
  row 0x5B7 "LDR prip" CLASS_DEFAULT CYCLES_LDR ERRORS_DEFAULT;
  row 0x5B8 "LDR prip" CLASS_DEFAULT CYCLES_LDR ERRORS_DEFAULT;
  row 0x5B9 "LDR prip" CLASS_DEFAULT CYCLES_LDR ERRORS_DEFAULT;
  row 0x5BA "LDR prip" CLASS_DEFAULT CYCLES_LDR ERRORS_DEFAULT;
  row 0x5BB "LDR prip" CLASS_DEFAULT CYCLES_LDR ERRORS_DEFAULT;
  row 0x5BC "LDR prip" CLASS_DEFAULT CYCLES_LDR ERRORS_DEFAULT;
  row 0x5BD "LDR prip" CLASS_DEFAULT CYCLES_LDR ERRORS_DEFAULT;
  row 0x5BE "LDR prip" CLASS_DEFAULT CYCLES_LDR ERRORS_DEFAULT;
  row 0x5BF "LDR prip" CLASS_DEFAULT CYCLES_LDR ERRORS_DEFAULT;
  row 0x5C0 "STRB ofip" CLASS_DEFAULT CYCLES_STRB ERRORS_DEFAULT;
  row 0x5C1 "STRB ofip" CLASS_DEFAULT CYCLES_STRB ERRORS_DEFAULT;
  row 0x5C2 "STRB ofip" CLASS_DEFAULT CYCLES_STRB ERRORS_DEFAULT;
  row 0x5C3 "STRB ofip" CLASS_DEFAULT CYCLES_STRB ERRORS_DEFAULT;
  row 0x5C4 "STRB ofip" CLASS_DEFAULT CYCLES_STRB ERRORS_DEFAULT;
  row 0x5C5 "STRB ofip" CLASS_DEFAULT CYCLES_STRB ERRORS_DEFAULT;
  row 0x5C6 "STRB ofip" CLASS_DEFAULT CYCLES_STRB ERRORS_DEFAULT;
  row 0x5C7 "STRB ofip" CLASS_DEFAULT CYCLES_STRB ERRORS_DEFAULT;
  row 0x5C8 "STRB ofip" CLASS_DEFAULT CYCLES_STRB ERRORS_DEFAULT;
  row 0x5C9 "STRB ofip" CLASS_DEFAULT CYCLES_STRB ERRORS_DEFAULT;
  row 0x5CA "STRB ofip" CLASS_DEFAULT CYCLES_STRB ERRORS_DEFAULT;
  row 0x5CB "STRB ofip" CLASS_DEFAULT CYCLES_STRB ERRORS_DEFAULT;
  row 0x5CC "STRB ofip" CLASS_DEFAULT CYCLES_STRB ERRORS_DEFAULT;
  row 0x5CD "STRB ofip" CLASS_DEFAULT CYCLES_STRB ERRORS_DEFAULT;
  row 0x5CE "STRB ofip" CLASS_DEFAULT CYCLES_STRB ERRORS_DEFAULT;
  row 0x5CF "STRB ofip" CLASS_DEFAULT CYCLES_STRB ERRORS_DEFAULT;
  row 0x5D0 "LDRB ofip" CLASS_DEFAULT CYCLES_LDRB ERRORS_DEFAULT;
  row 0x5D1 "LDRB ofip" CLASS_DEFAULT CYCLES_LDRB ERRORS_DEFAULT;
  row 0x5D2 "LDRB ofip" CLASS_DEFAULT CYCLES_LDRB ERRORS_DEFAULT;
  row 0x5D3 "LDRB ofip" CLASS_DEFAULT CYCLES_LDRB ERRORS_DEFAULT;
  row 0x5D4 "LDRB ofip" CLASS_DEFAULT CYCLES_LDRB ERRORS_DEFAULT;
  row 0x5D5 "LDRB ofip" CLASS_DEFAULT CYCLES_LDRB ERRORS_DEFAULT;
  row 0x5D6 "LDRB ofip" CLASS_DEFAULT CYCLES_LDRB ERRORS_DEFAULT;
  row 0x5D7 "LDRB ofip" CLASS_DEFAULT CYCLES_LDRB ERRORS_DEFAULT;
  row 0x5D8 "LDRB ofip" CLASS_DEFAULT CYCLES_LDRB ERRORS_DEFAULT;
  row 0x5D9 "LDRB ofip" CLASS_DEFAULT CYCLES_LDRB ERRORS_DEFAULT;
  row 0x5DA "LDRB ofip" CLASS_DEFAULT CYCLES_LDRB ERRORS_DEFAULT;
  row 0x5DB "LDRB ofip" CLASS_DEFAULT CYCLES_LDRB ERRORS_DEFAULT;
  row 0x5DC "LDRB ofip" CLASS_DEFAULT CYCLES_LDRB ERRORS_DEFAULT;
  row 0x5DD "LDRB ofip" CLASS_DEFAULT CYCLES_LDRB ERRORS_DEFAULT;
  row 0x5DE "LDRB ofip" CLASS_DEFAULT CYCLES_LDRB ERRORS_DEFAULT;
  row 0x5DF "LDRB ofip" CLASS_DEFAULT CYCLES_LDRB ERRORS_DEFAULT;
  row 0x5E0 "STRB prip" CLASS_DEFAULT CYCLES_STRB ERRORS_DEFAULT;
  row 0x5E1 "STRB prip" CLASS_DEFAULT CYCLES_STRB ERRORS_DEFAULT;
  row 0x5E2 "STRB prip" CLASS_DEFAULT CYCLES_STRB ERRORS_DEFAULT;
  row 0x5E3 "STRB prip" CLASS_DEFAULT CYCLES_STRB ERRORS_DEFAULT;
  row 0x5E4 "STRB prip" CLASS_DEFAULT CYCLES_STRB ERRORS_DEFAULT;
  row 0x5E5 "STRB prip" CLASS_DEFAULT CYCLES_STRB ERRORS_DEFAULT;
  row 0x5E6 "STRB prip" CLASS_DEFAULT CYCLES_STRB ERRORS_DEFAULT;
  row 0x5E7 "STRB prip" CLASS_DEFAULT CYCLES_STRB ERRORS_DEFAULT;
  row 0x5E8 "STRB prip" CLASS_DEFAULT CYCLES_STRB ERRORS_DEFAULT;
  row 0x5E9 "STRB prip" CLASS_DEFAULT CYCLES_STRB ERRORS_DEFAULT;
  row 0x5EA "STRB prip" CLASS_DEFAULT CYCLES_STRB ERRORS_DEFAULT;
  row 0x5EB "STRB prip" CLASS_DEFAULT CYCLES_STRB ERRORS_DEFAULT;
  row 0x5EC "STRB prip" CLASS_DEFAULT CYCLES_STRB ERRORS_DEFAULT;
  row 0x5ED "STRB prip" CLASS_DEFAULT CYCLES_STRB ERRORS_DEFAULT;
  row 0x5EE "STRB prip" CLASS_DEFAULT CYCLES_STRB ERRORS_DEFAULT;
  row 0x5EF "STRB prip" CLASS_DEFAULT CYCLES_STRB ERRORS_DEFAULT;
  row 0x5F0 "LDRB prip" CLASS_DEFAULT CYCLES_LDRB ERRORS_DEFAULT;
  row 0x5F1 "LDRB prip" CLASS_DEFAULT CYCLES_LDRB ERRORS_DEFAULT;
  row 0x5F2 "LDRB prip" CLASS_DEFAULT CYCLES_LDRB ERRORS_DEFAULT;
  row 0x5F3 "LDRB prip" CLASS_DEFAULT CYCLES_LDRB ERRORS_DEFAULT;
  row 0x5F4 "LDRB prip" CLASS_DEFAULT CYCLES_LDRB ERRORS_DEFAULT;
  row 0x5F5 "LDRB prip" CLASS_DEFAULT CYCLES_LDRB ERRORS_DEFAULT;
  row 0x5F6 "LDRB prip" CLASS_DEFAULT CYCLES_LDRB ERRORS_DEFAULT;
  row 0x5F7 "LDRB prip" CLASS_DEFAULT CYCLES_LDRB ERRORS_DEFAULT;
  row 0x5F8 "LDRB prip" CLASS_DEFAULT CYCLES_LDRB ERRORS_DEFAULT;
  row 0x5F9 "LDRB prip" CLASS_DEFAULT CYCLES_LDRB ERRORS_DEFAULT;
  row 0x5FA "LDRB prip" CLASS_DEFAULT CYCLES_LDRB ERRORS_DEFAULT;
  row 0x5FB "LDRB prip" CLASS_DEFAULT CYCLES_LDRB ERRORS_DEFAULT;
  row 0x5FC "LDRB prip" CLASS_DEFAULT CYCLES_LDRB ERRORS_DEFAULT;
  row 0x5FD "LDRB prip" CLASS_DEFAULT CYCLES_LDRB ERRORS_DEFAULT;
  row 0x5FE "LDRB prip" CLASS_DEFAULT CYCLES_LDRB ERRORS_DEFAULT;
  row 0x5FF "LDRB prip" CLASS_DEFAULT CYCLES_LDRB ERRORS_DEFAULT].

Definition vemu_arm_instr_12 : list vemu_instr_info := [
  row 0x600 "STR ptrmll" CLASS_DEFAULT CYCLES_STR ERRORS_DEFAULT;
  row 0x601 "" CLASS_DEFAULT CYCLES_NONE ERRORS_DEFAULT;
  row 0x602 "STR ptrmlr" CLASS_DEFAULT CYCLES_STR ERRORS_DEFAULT;
  row 0x603 "" CLASS_DEFAULT CYCLES_NONE ERRORS_DEFAULT;
  row 0x604 "STR ptrmar" CLASS_DEFAULT CYCLES_STR ERRORS_DEFAULT;
  row 0x605 "" CLASS_DEFAULT CYCLES_NONE ERRORS_DEFAULT;
  row 0x606 "STR ptrmrr" CLASS_DEFAULT CYCLES_STR ERRORS_DEFAULT;
  row 0x607 "" CLASS_DEFAULT CYCLES_NONE ERRORS_DEFAULT;
  row 0x608 "STR ptrmll" CLASS_DEFAULT CYCLES_STR ERRORS_DEFAULT;
  row 0x609 "" CLASS_DEFAULT CYCLES_NONE ERRORS_DEFAULT;
  row 0x60A "STR ptrmlr" CLASS_DEFAULT CYCLES_STR ERRORS_DEFAULT;
  row 0x60B "" CLASS_DEFAULT CYCLES_NONE ERRORS_DEFAULT;
  row 0x60C "STR ptrmar" CLASS_DEFAULT CYCLES_STR ERRORS_DEFAULT;
  row 0x60D "" CLASS_DEFAULT CYCLES_NONE ERRORS_DEFAULT;
  row 0x60E "STR ptrmrr" CLASS_DEFAULT CYCLES_STR ERRORS_DEFAULT;
  row 0x60F "" CLASS_DEFAULT CYCLES_NONE ERRORS_DEFAULT;
  row 0x610 "LDR ptrmll" CLASS_DEFAULT CYCLES_LDR ERRORS_DEFAULT;
  row 0x611 "" CLASS_DEFAULT CYCLES_NONE ERRORS_DEFAULT;
  row 0x612 "LDR ptrmlr" CLASS_DEFAULT CYCLES_LDR ERRORS_DEFAULT;
  row 0x613 "" CLASS_DEFAULT CYCLES_NONE ERRORS_DEFAULT;
  row 0x614 "LDR ptrmar" CLASS_DEFAULT CYCLES_LDR ERRORS_DEFAULT;
  row 0x615 "" CLASS_DEFAULT CYCLES_NONE ERRORS_DEFAULT;
  row 0x616 "LDR ptrmrr" CLASS_DEFAULT CYCLES_LDR ERRORS_DEFAULT;
  row 0x617 "" CLASS_DEFAULT CYCLES_NONE ERRORS_DEFAULT;
  row 0x618 "LDR ptrmll" CLASS_DEFAULT CYCLES_LDR ERRORS_DEFAULT;
  row 0x619 "" CLASS_DEFAULT CYCLES_NONE ERRORS_DEFAULT;
  row 0x61A "LDR ptrmlr" CLASS_DEFAULT CYCLES_LDR ERRORS_DEFAULT;
  row 0x61B "" CLASS_DEFAULT CYCLES_NONE ERRORS_DEFAULT;
  row 0x61C "LDR ptrmar" CLASS_DEFAULT CYCLES_LDR ERRORS_DEFAULT;
  row 0x61D "" CLASS_DEFAULT CYCLES_NONE ERRORS_DEFAULT;
  row 0x61E "LDR ptrmrr" CLASS_DEFAULT CYCLES_LDR ERRORS_DEFAULT;
  row 0x61F "" CLASS_DEFAULT CYCLES_NONE ERRORS_DEFAULT;
  row 0x620 "STRT ptrmll" CLASS_DEFAULT CYCLES_STRT ERRORS_DEFAULT;
  row 0x621 "" CLASS_DEFAULT CYCLES_NONE ERRORS_DEFAULT;
  row 0x622 "STRT ptrmlr" CLASS_DEFAULT CYCLES_STRT ERRORS_DEFAULT;
  row 0x623 "" CLASS_DEFAULT CYCLES_NONE ERRORS_DEFAULT;
  row 0x624 "STRT ptrmar" CLASS_DEFAULT CYCLES_STRT ERRORS_DEFAULT;
  row 0x625 "" CLASS_DEFAULT CYCLES_NONE ERRORS_DEFAULT;
  row 0x626 "STRT ptrmrr" CLASS_DEFAULT CYCLES_STRT ERRORS_DEFAULT;
  row 0x627 "" CLASS_DEFAULT CYCLES_NONE ERRORS_DEFAULT;
  row 0x628 "STRT ptrmll" CLASS_DEFAULT CYCLES_STRT ERRORS_DEFAULT;
  row 0x629 "" CLASS_DEFAULT CYCLES_NONE ERRORS_DEFAULT;
  row 0x62A "STRT ptrmlr" CLASS_DEFAULT CYCLES_STRT ERRORS_DEFAULT;
  row 0x62B "" CLASS_DEFAULT CYCLES_NONE ERRORS_DEFAULT;
  row 0x62C "STRT ptrmar" CLASS_DEFAULT CYCLES_STRT ERRORS_DEFAULT;
  row 0x62D "" CLASS_DEFAULT CYCLES_NONE ERRORS_DEFAULT;
  row 0x62E "STRT ptrmrr" CLASS_DEFAULT CYCLES_STRT ERRORS_DEFAULT;
  row 0x62F "" CLASS_DEFAULT CYCLES_NONE ERRORS_DEFAULT;
  row 0x630 "LDRT ptrmll" CLASS_DEFAULT CYCLES_LDRT ERRORS_DEFAULT;
  row 0x631 "" CLASS_DEFAULT CYCLES_NONE ERRORS_DEFAULT;
  row 0x632 "LDRT ptrmlr" CLASS_DEFAULT CYCLES_LDRT ERRORS_DEFAULT;
  row 0x633 "" CLASS_DEFAULT CYCLES_NONE ERRORS_DEFAULT;
  row 0x634 "LDRT ptrmar" CLASS_DEFAULT CYCLES_LDRT ERRORS_DEFAULT;
  row 0x635 "" CLASS_DEFAULT CYCLES_NONE ERRORS_DEFAULT;
  row 0x636 "LDRT ptrmrr" CLASS_DEFAULT CYCLES_LDRT ERRORS_DEFAULT;
  row 0x637 "" CLASS_DEFAULT CYCLES_NONE ERRORS_DEFAULT;
  row 0x638 "LDRT ptrmll" CLASS_DEFAULT CYCLES_LDRT ERRORS_DEFAULT;
  row 0x639 "" CLASS_DEFAULT CYCLES_NONE ERRORS_DEFAULT;
  row 0x63A "LDRT ptrmlr" CLASS_DEFAULT CYCLES_LDRT ERRORS_DEFAULT;
  row 0x63B "" CLASS_DEFAULT CYCLES_NONE ERRORS_DEFAULT;
  row 0x63C "LDRT ptrmar" CLASS_DEFAULT CYCLES_LDRT ERRORS_DEFAULT;
  row 0x63D "" CLASS_DEFAULT CYCLES_NONE ERRORS_DEFAULT;
  row 0x63E "LDRT ptrmrr" CLASS_DEFAULT CYCLES_LDRT ERRORS_DEFAULT;
  row 0x63F "" CLASS_DEFAULT CYCLES_NONE ERRORS_DEFAULT;
  row 0x640 "STRB ptrmll" CLASS_DEFAULT CYCLES_STRB ERRORS_DEFAULT;
  row 0x641 "" CLASS_DEFAULT CYCLES_NONE ERRORS_DEFAULT;
  row 0x642 "STRB ptrmlr" CLASS_DEFAULT CYCLES_STRB ERRORS_DEFAULT;
  row 0x643 "" CLASS_DEFAULT CYCLES_NONE ERRORS_DEFAULT;
  row 0x644 "STRB ptrmar" CLASS_DEFAULT CYCLES_STRB ERRORS_DEFAULT;
  row 0x645 "" CLASS_DEFAULT CYCLES_NONE ERRORS_DEFAULT;
  row 0x646 "STRB ptrmrr" CLASS_DEFAULT CYCLES_STRB ERRORS_DEFAULT;
  row 0x647 "" CLASS_DEFAULT CYCLES_NONE ERRORS_DEFAULT;
  row 0x648 "STRB ptrmll" CLASS_DEFAULT CYCLES_STRB ERRORS_DEFAULT;
  row 0x649 "" CLASS_DEFAULT CYCLES_NONE ERRORS_DEFAULT;
  row 0x64A "STRB ptrmlr" CLASS_DEFAULT CYCLES_STRB ERRORS_DEFAULT;
  row 0x64B "" CLASS_DEFAULT CYCLES_NONE ERRORS_DEFAULT;
  row 0x64C "STRB ptrmar" CLASS_DEFAULT CYCLES_STRB ERRORS_DEFAULT;
  row 0x64D "" CLASS_DEFAULT CYCLES_NONE ERRORS_DEFAULT;
  row 0x64E "STRB ptrmrr" CLASS_DEFAULT CYCLES_STRB ERRORS_DEFAULT;
  row 0x64F "" CLASS_DEFAULT CYCLES_NONE ERRORS_DEFAULT;
  row 0x650 "LDRB ptrmll" CLASS_DEFAULT CYCLES_LDRB ERRORS_DEFAULT;
  row 0x651 "" CLASS_DEFAULT CYCLES_NONE ERRORS_DEFAULT;
  row 0x652 "LDRB ptrmlr" CLASS_DEFAULT CYCLES_LDRB ERRORS_DEFAULT;
  row 0x653 "" CLASS_DEFAULT CYCLES_NONE ERRORS_DEFAULT;
  row 0x654 "LDRB ptrmar" CLASS_DEFAULT CYCLES_LDRB ERRORS_DEFAULT;
  row 0x655 "" CLASS_DEFAULT CYCLES_NONE ERRORS_DEFAULT;
  row 0x656 "LDRB ptrmrr" CLASS_DEFAULT CYCLES_LDRB ERRORS_DEFAULT;
  row 0x657 "" CLASS_DEFAULT CYCLES_NONE ERRORS_DEFAULT;
  row 0x658 "LDRB ptrmll" CLASS_DEFAULT CYCLES_LDRB ERRORS_DEFAULT;
  row 0x659 "" CLASS_DEFAULT CYCLES_NONE ERRORS_DEFAULT;
  row 0x65A "LDRB ptrmlr" CLASS_DEFAULT CYCLES_LDRB ERRORS_DEFAULT;
  row 0x65B "" CLASS_DEFAULT CYCLES_NONE ERRORS_DEFAULT;
  row 0x65C "LDRB ptrmar" CLASS_DEFAULT CYCLES_LDRB ERRORS_DEFAULT;
  row 0x65D "" CLASS_DEFAULT CYCLES_NONE ERRORS_DEFAULT;
  row 0x65E "LDRB ptrmrr" CLASS_DEFAULT CYCLES_LDRB ERRORS_DEFAULT;
  row 0x65F "" CLASS_DEFAULT CYCLES_NONE ERRORS_DEFAULT;
  row 0x660 "STRBT ptrmll" CLASS_DEFAULT CYCLES_STRBT ERRORS_DEFAULT;
  row 0x661 "" CLASS_DEFAULT CYCLES_NONE ERRORS_DEFAULT;
  row 0x662 "STRBT ptrmlr" CLASS_DEFAULT CYCLES_STRBT ERRORS_DEFAULT;
  row 0x663 "" CLASS_DEFAULT CYCLES_NONE ERRORS_DEFAULT;
  row 0x664 "STRBT ptrmar" CLASS_DEFAULT CYCLES_STRBT ERRORS_DEFAULT;
  row 0x665 "" CLASS_DEFAULT CYCLES_NONE ERRORS_DEFAULT;
  row 0x666 "STRBT ptrmrr" CLASS_DEFAULT CYCLES_STRBT ERRORS_DEFAULT;
  row 0x667 "" CLASS_DEFAULT CYCLES_NONE ERRORS_DEFAULT;
  row 0x668 "STRBT ptrmll" CLASS_DEFAULT CYCLES_STRBT ERRORS_DEFAULT;
  row 0x669 "" CLASS_DEFAULT CYCLES_NONE ERRORS_DEFAULT;
  row 0x66A "STRBT ptrmlr" CLASS_DEFAULT CYCLES_STRBT ERRORS_DEFAULT;
  row 0x66B "" CLASS_DEFAULT CYCLES_NONE ERRORS_DEFAULT;
  row 0x66C "STRBT ptrmar" CLASS_DEFAULT CYCLES_STRBT ERRORS_DEFAULT;
  row 0x66D "" CLASS_DEFAULT CYCLES_NONE ERRORS_DEFAULT;
  row 0x66E "STRBT ptrmrr" CLASS_DEFAULT CYCLES_STRBT ERRORS_DEFAULT;
  row 0x66F "" CLASS_DEFAULT CYCLES_NONE ERRORS_DEFAULT;
  row 0x670 "LDRBT ptrmll" CLASS_DEFAULT CYCLES_LDRBT ERRORS_DEFAULT;
  row 0x671 "" CLASS_DEFAULT CYCLES_NONE ERRORS_DEFAULT;
  row 0x672 "LDRBT ptrmlr" CLASS_DEFAULT CYCLES_LDRBT ERRORS_DEFAULT;
  row 0x673 "" CLASS_DEFAULT CYCLES_NONE ERRORS_DEFAULT;
  row 0x674 "LDRBT ptrmar" CLASS_DEFAULT CYCLES_LDRBT ERRORS_DEFAULT;
  row 0x675 "" CLASS_DEFAULT CYCLES_NONE ERRORS_DEFAULT;
  row 0x676 "LDRBT ptrmrr" CLASS_DEFAULT CYCLES_LDRBT ERRORS_DEFAULT;
  row 0x677 "" CLASS_DEFAULT CYCLES_NONE ERRORS_DEFAULT;
  row 0x678 "LDRBT ptrmll" CLASS_DEFAULT CYCLES_LDRBT ERRORS_DEFAULT;
  row 0x679 "" CLASS_DEFAULT CYCLES_NONE ERRORS_DEFAULT;
  row 0x67A "LDRBT ptrmlr" CLASS_DEFAULT CYCLES_LDRBT ERRORS_DEFAULT;
  row 0x67B "" CLASS_DEFAULT CYCLES_NONE ERRORS_DEFAULT;
  row 0x67C "LDRBT ptrmar" CLASS_DEFAULT CYCLES_LDRBT ERRORS_DEFAULT;
  row 0x67D "" CLASS_DEFAULT CYCLES_NONE ERRORS_DEFAULT;
  row 0x67E "LDRBT ptrmrr" CLASS_DEFAULT CYCLES_LDRBT ERRORS_DEFAULT;
  row 0x67F "" CLASS_DEFAULT CYCLES_NONE ERRORS_DEFAULT].

Definition vemu_arm_instr_13 : list vemu_instr_info := [
  row 0x680 "STR ptrpll" CLASS_DEFAULT CYCLES_STR ERRORS_DEFAULT;
  row 0x681 "" CLASS_DEFAULT CYCLES_NONE ERRORS_DEFAULT;
  row 0x682 "STR ptrplr" CLASS_DEFAULT CYCLES_STR ERRORS_DEFAULT;
  row 0x683 "" CLASS_DEFAULT CYCLES_NONE ERRORS_DEFAULT;
  row 0x684 "STR ptrpar" CLASS_DEFAULT CYCLES_STR ERRORS_DEFAULT;
  row 0x685 "" CLASS_DEFAULT CYCLES_NONE ERRORS_DEFAULT;
  row 0x686 "STR ptrprr" CLASS_DEFAULT CYCLES_STR ERRORS_DEFAULT;
  row 0x687 "" CLASS_DEFAULT CYCLES_NONE ERRORS_DEFAULT;
  row 0x688 "STR ptrpll" CLASS_DEFAULT CYCLES_STR ERRORS_DEFAULT;
  row 0x689 "" CLASS_DEFAULT CYCLES_NONE ERRORS_DEFAULT;
  row 0x68A "STR ptrplr" CLASS_DEFAULT CYCLES_STR ERRORS_DEFAULT;
  row 0x68B "" CLASS_DEFAULT CYCLES_NONE ERRORS_DEFAULT;
  row 0x68C "STR ptrpar" CLASS_DEFAULT CYCLES_STR ERRORS_DEFAULT;
  row 0x68D "" CLASS_DEFAULT CYCLES_NONE ERRORS_DEFAULT;
  row 0x68E "STR ptrprr" CLASS_DEFAULT CYCLES_STR ERRORS_DEFAULT;
  row 0x68F "" CLASS_DEFAULT CYCLES_NONE ERRORS_DEFAULT;
  row 0x690 "LDR ptrpll" CLASS_DEFAULT CYCLES_LDR ERRORS_DEFAULT;
  row 0x691 "" CLASS_DEFAULT CYCLES_NONE ERRORS_DEFAULT;
  row 0x692 "LDR ptrplr" CLASS_DEFAULT CYCLES_LDR ERRORS_DEFAULT;
  row 0x693 "" CLASS_DEFAULT CYCLES_NONE ERRORS_DEFAULT;
  row 0x694 "LDR ptrpar" CLASS_DEFAULT CYCLES_LDR ERRORS_DEFAULT;
  row 0x695 "" CLASS_DEFAULT CYCLES_NONE ERRORS_DEFAULT;
  row 0x696 "LDR ptrprr" CLASS_DEFAULT CYCLES_LDR ERRORS_DEFAULT;
  row 0x697 "" CLASS_DEFAULT CYCLES_NONE ERRORS_DEFAULT;
  row 0x698 "LDR ptrpll" CLASS_DEFAULT CYCLES_LDR ERRORS_DEFAULT;
  row 0x699 "" CLASS_DEFAULT CYCLES_NONE ERRORS_DEFAULT;
  row 0x69A "LDR ptrplr" CLASS_DEFAULT CYCLES_LDR ERRORS_DEFAULT;
  row 0x69B "" CLASS_DEFAULT CYCLES_NONE ERRORS_DEFAULT;
  row 0x69C "LDR ptrpar" CLASS_DEFAULT CYCLES_LDR ERRORS_DEFAULT;
  row 0x69D "" CLASS_DEFAULT CYCLES_NONE ERRORS_DEFAULT;
  row 0x69E "LDR ptrprr" CLASS_DEFAULT CYCLES_LDR ERRORS_DEFAULT;
  row 0x69F "" CLASS_DEFAULT CYCLES_NONE ERRORS_DEFAULT;
  row 0x6A0 "STRT ptrpll" CLASS_DEFAULT CYCLES_STRT ERRORS_DEFAULT;
  row 0x6A1 "" CLASS_DEFAULT CYCLES_NONE ERRORS_DEFAULT;
  row 0x6A2 "STRT ptrplr" CLASS_DEFAULT CYCLES_STRT ERRORS_DEFAULT;
  row 0x6A3 "" CLASS_DEFAULT CYCLES_NONE ERRORS_DEFAULT;
  row 0x6A4 "STRT ptrpar" CLASS_DEFAULT CYCLES_STRT ERRORS_DEFAULT;
  row 0x6A5 "" CLASS_DEFAULT CYCLES_NONE ERRORS_DEFAULT;
  row 0x6A6 "STRT ptrprr" CLASS_DEFAULT CYCLES_STRT ERRORS_DEFAULT;
  row 0x6A7 "" CLASS_DEFAULT CYCLES_NONE ERRORS_DEFAULT;
  row 0x6A8 "STRT ptrpll" CLASS_DEFAULT CYCLES_STRT ERRORS_DEFAULT;
  row 0x6A9 "" CLASS_DEFAULT CYCLES_NONE ERRORS_DEFAULT;
  row 0x6AA "STRT ptrplr" CLASS_DEFAULT CYCLES_STRT ERRORS_DEFAULT;
  row 0x6AB "" CLASS_DEFAULT CYCLES_NONE ERRORS_DEFAULT;
  row 0x6AC "STRT ptrpar" CLASS_DEFAULT CYCLES_STRT ERRORS_DEFAULT;
  row 0x6AD "" CLASS_DEFAULT CYCLES_NONE ERRORS_DEFAULT;
  row 0x6AE "STRT ptrprr" CLASS_DEFAULT CYCLES_STRT ERRORS_DEFAULT;
  row 0x6AF "" CLASS_DEFAULT CYCLES_NONE ERRORS_DEFAULT;
  row 0x6B0 "LDRT ptrpll" CLASS_DEFAULT CYCLES_LDRT ERRORS_DEFAULT;
  row 0x6B1 "" CLASS_DEFAULT CYCLES_NONE ERRORS_DEFAULT;
  row 0x6B2 "LDRT ptrplr" CLASS_DEFAULT CYCLES_LDRT ERRORS_DEFAULT;
  row 0x6B3 "" CLASS_DEFAULT CYCLES_NONE ERRORS_DEFAULT;
  row 0x6B4 "LDRT ptrpar" CLASS_DEFAULT CYCLES_LDRT ERRORS_DEFAULT;
  row 0x6B5 "" CLASS_DEFAULT CYCLES_NONE ERRORS_DEFAULT;
  row 0x6B6 "LDRT ptrprr" CLASS_DEFAULT CYCLES_LDRT ERRORS_DEFAULT;
  row 0x6B7 "" CLASS_DEFAULT CYCLES_NONE ERRORS_DEFAULT;
  row 0x6B8 "LDRT ptrpll" CLASS_DEFAULT CYCLES_LDRT ERRORS_DEFAULT;
  row 0x6B9 "" CLASS_DEFAULT CYCLES_NONE ERRORS_DEFAULT;
  row 0x6BA "LDRT ptrplr" CLASS_DEFAULT CYCLES_LDRT ERRORS_DEFAULT;
  row 0x6BB "" CLASS_DEFAULT CYCLES_NONE ERRORS_DEFAULT;
  row 0x6BC "LDRT ptrpar" CLASS_DEFAULT CYCLES_LDRT ERRORS_DEFAULT;
  row 0x6BD "" CLASS_DEFAULT CYCLES_NONE ERRORS_DEFAULT;
  row 0x6BE "LDRT ptrprr" CLASS_DEFAULT CYCLES_LDRT ERRORS_DEFAULT;
  row 0x6BF "" CLASS_DEFAULT CYCLES_NONE ERRORS_DEFAULT;
  row 0x6C0 "STRB ptrpll" CLASS_DEFAULT CYCLES_STRB ERRORS_DEFAULT;
  row 0x6C1 "" CLASS_DEFAULT CYCLES_NONE ERRORS_DEFAULT;
  row 0x6C2 "STRB ptrplr" CLASS_DEFAULT CYCLES_STRB ERRORS_DEFAULT;
  row 0x6C3 "" CLASS_DEFAULT CYCLES_NONE ERRORS_DEFAULT;
  row 0x6C4 "STRB ptrpar" CLASS_DEFAULT CYCLES_STRB ERRORS_DEFAULT;
  row 0x6C5 "" CLASS_DEFAULT CYCLES_NONE ERRORS_DEFAULT;
  row 0x6C6 "STRB ptrprr" CLASS_DEFAULT CYCLES_STRB ERRORS_DEFAULT;
  row 0x6C7 "" CLASS_DEFAULT CYCLES_NONE ERRORS_DEFAULT;
  row 0x6C8 "STRB ptrpll" CLASS_DEFAULT CYCLES_STRB ERRORS_DEFAULT;
  row 0x6C9 "" CLASS_DEFAULT CYCLES_NONE ERRORS_DEFAULT;
  row 0x6CA "STRB ptrplr" CLASS_DEFAULT CYCLES_STRB ERRORS_DEFAULT;
  row 0x6CB "" CLASS_DEFAULT CYCLES_NONE ERRORS_DEFAULT;
  row 0x6CC "STRB ptrpar" CLASS_DEFAULT CYCLES_STRB ERRORS_DEFAULT;
  row 0x6CD "" CLASS_DEFAULT CYCLES_NONE ERRORS_DEFAULT;
  row 0x6CE "STRB ptrprr" CLASS_DEFAULT CYCLES_STRB ERRORS_DEFAULT;
  row 0x6CF "" CLASS_DEFAULT CYCLES_NONE ERRORS_DEFAULT;
  row 0x6D0 "LDRB ptrpll" CLASS_DEFAULT CYCLES_LDRB ERRORS_DEFAULT;
  row 0x6D1 "" CLASS_DEFAULT CYCLES_NONE ERRORS_DEFAULT;
  row 0x6D2 "LDRB ptrplr" CLASS_DEFAULT CYCLES_LDRB ERRORS_DEFAULT;
  row 0x6D3 "" CLASS_DEFAULT CYCLES_NONE ERRORS_DEFAULT;
  row 0x6D4 "LDRB ptrpar" CLASS_DEFAULT CYCLES_LDRB ERRORS_DEFAULT;
  row 0x6D5 "" CLASS_DEFAULT CYCLES_NONE ERRORS_DEFAULT;
  row 0x6D6 "LDRB ptrprr" CLASS_DEFAULT CYCLES_LDRB ERRORS_DEFAULT;
  row 0x6D7 "" CLASS_DEFAULT CYCLES_NONE ERRORS_DEFAULT;
  row 0x6D8 "LDRB ptrpll" CLASS_DEFAULT CYCLES_LDRB ERRORS_DEFAULT;
  row 0x6D9 "" CLASS_DEFAULT CYCLES_NONE ERRORS_DEFAULT;
  row 0x6DA "LDRB ptrplr" CLASS_DEFAULT CYCLES_LDRB ERRORS_DEFAULT;
  row 0x6DB "" CLASS_DEFAULT CYCLES_NONE ERRORS_DEFAULT;
  row 0x6DC "LDRB ptrpar" CLASS_DEFAULT CYCLES_LDRB ERRORS_DEFAULT;
  row 0x6DD "" CLASS_DEFAULT CYCLES_NONE ERRORS_DEFAULT;
  row 0x6DE "LDRB ptrprr" CLASS_DEFAULT CYCLES_LDRB ERRORS_DEFAULT;
  row 0x6DF "" CLASS_DEFAULT CYCLES_NONE ERRORS_DEFAULT;
  row 0x6E0 "STRBT ptrpll" CLASS_DEFAULT CYCLES_STRBT ERRORS_DEFAULT;
  row 0x6E1 "" CLASS_DEFAULT CYCLES_NONE ERRORS_DEFAULT;
  row 0x6E2 "STRBT ptrplr" CLASS_DEFAULT CYCLES_STRBT ERRORS_DEFAULT;
  row 0x6E3 "" CLASS_DEFAULT CYCLES_NONE ERRORS_DEFAULT;
  row 0x6E4 "STRBT ptrpar" CLASS_DEFAULT CYCLES_STRBT ERRORS_DEFAULT;
  row 0x6E5 "" CLASS_DEFAULT CYCLES_NONE ERRORS_DEFAULT;
  row 0x6E6 "STRBT ptrprr" CLASS_DEFAULT CYCLES_STRBT ERRORS_DEFAULT;
  row 0x6E7 "" CLASS_DEFAULT CYCLES_NONE ERRORS_DEFAULT;
  row 0x6E8 "STRBT ptrpll" CLASS_DEFAULT CYCLES_STRBT ERRORS_DEFAULT;
  row 0x6E9 "" CLASS_DEFAULT CYCLES_NONE ERRORS_DEFAULT;
  row 0x6EA "STRBT ptrplr" CLASS_DEFAULT CYCLES_STRBT ERRORS_DEFAULT;
  row 0x6EB "" CLASS_DEFAULT CYCLES_NONE ERRORS_DEFAULT;
  row 0x6EC "STRBT ptrpar" CLASS_DEFAULT CYCLES_STRBT ERRORS_DEFAULT;
  row 0x6ED "" CLASS_DEFAULT CYCLES_NONE ERRORS_DEFAULT;
  row 0x6EE "STRBT ptrprr" CLASS_DEFAULT CYCLES_STRBT ERRORS_DEFAULT;
  row 0x6EF "" CLASS_DEFAULT CYCLES_NONE ERRORS_DEFAULT;
  row 0x6F0 "LDRBT ptrpll" CLASS_DEFAULT CYCLES_LDRBT ERRORS_DEFAULT;
  row 0x6F1 "" CLASS_DEFAULT CYCLES_NONE ERRORS_DEFAULT;
  row 0x6F2 "LDRBT ptrplr" CLASS_DEFAULT CYCLES_LDRBT ERRORS_DEFAULT;
  row 0x6F3 "" CLASS_DEFAULT CYCLES_NONE ERRORS_DEFAULT;
  row 0x6F4 "LDRBT ptrpar" CLASS_DEFAULT CYCLES_LDRBT ERRORS_DEFAULT;
  row 0x6F5 "" CLASS_DEFAULT CYCLES_NONE ERRORS_DEFAULT;
  row 0x6F6 "LDRBT ptrprr" CLASS_DEFAULT CYCLES_LDRBT ERRORS_DEFAULT;
  row 0x6F7 "" CLASS_DEFAULT CYCLES_NONE ERRORS_DEFAULT;
  row 0x6F8 "LDRBT ptrpll" CLASS_DEFAULT CYCLES_LDRBT ERRORS_DEFAULT;
  row 0x6F9 "" CLASS_DEFAULT CYCLES_NONE ERRORS_DEFAULT;
  row 0x6FA "LDRBT ptrplr" CLASS_DEFAULT CYCLES_LDRBT ERRORS_DEFAULT;
  row 0x6FB "" CLASS_DEFAULT CYCLES_NONE ERRORS_DEFAULT;
  row 0x6FC "LDRBT ptrpar" CLASS_DEFAULT CYCLES_LDRBT ERRORS_DEFAULT;
  row 0x6FD "" CLASS_DEFAULT CYCLES_NONE ERRORS_DEFAULT;
  row 0x6FE "LDRBT ptrprr" CLASS_DEFAULT CYCLES_LDRBT ERRORS_DEFAULT;
  row 0x6FF "" CLASS_DEFAULT CYCLES_NONE ERRORS_DEFAULT].

Definition vemu_arm_instr_14 : list vemu_instr_info := [
  row 0x700 "STR ofrmll" CLASS_DEFAULT CYCLES_STR ERRORS_DEFAULT;
  row 0x701 "" CLASS_DEFAULT CYCLES_NONE ERRORS_DEFAULT;
  row 0x702 "STR ofrmlr" CLASS_DEFAULT CYCLES_STR ERRORS_DEFAULT;
  row 0x703 "" CLASS_DEFAULT CYCLES_NONE ERRORS_DEFAULT;
  row 0x704 "STR ofrmar" CLASS_DEFAULT CYCLES_STR ERRORS_DEFAULT;
  row 0x705 "" CLASS_DEFAULT CYCLES_NONE ERRORS_DEFAULT;
  row 0x706 "STR ofrmrr" CLASS_DEFAULT CYCLES_STR ERRORS_DEFAULT;
  row 0x707 "" CLASS_DEFAULT CYCLES_NONE ERRORS_DEFAULT;
  row 0x708 "STR ofrmll" CLASS_DEFAULT CYCLES_STR ERRORS_DEFAULT;
  row 0x709 "" CLASS_DEFAULT CYCLES_NONE ERRORS_DEFAULT;
  row 0x70A "STR ofrmlr" CLASS_DEFAULT CYCLES_STR ERRORS_DEFAULT;
  row 0x70B "" CLASS_DEFAULT CYCLES_NONE ERRORS_DEFAULT;
  row 0x70C "STR ofrmar" CLASS_DEFAULT CYCLES_STR ERRORS_DEFAULT;
  row 0x70D "" CLASS_DEFAULT CYCLES_NONE ERRORS_DEFAULT;
  row 0x70E "STR ofrmrr" CLASS_DEFAULT CYCLES_STR ERRORS_DEFAULT;
  row 0x70F "" CLASS_DEFAULT CYCLES_NONE ERRORS_DEFAULT;
  row 0x710 "LDR ofrmll" CLASS_DEFAULT CYCLES_LDR ERRORS_DEFAULT;
  row 0x711 "" CLASS_DEFAULT CYCLES_NONE ERRORS_DEFAULT;
  row 0x712 "LDR ofrmlr" CLASS_DEFAULT CYCLES_LDR ERRORS_DEFAULT;
  row 0x713 "" CLASS_DEFAULT CYCLES_NONE ERRORS_DEFAULT;
  row 0x714 "LDR ofrmar" CLASS_DEFAULT CYCLES_LDR ERRORS_DEFAULT;
  row 0x715 "" CLASS_DEFAULT CYCLES_NONE ERRORS_DEFAULT;
  row 0x716 "LDR ofrmrr" CLASS_DEFAULT CYCLES_LDR ERRORS_DEFAULT;
  row 0x717 "" CLASS_DEFAULT CYCLES_NONE ERRORS_DEFAULT;
  row 0x718 "LDR ofrmll" CLASS_DEFAULT CYCLES_LDR ERRORS_DEFAULT;
  row 0x719 "" CLASS_DEFAULT CYCLES_NONE ERRORS_DEFAULT;
  row 0x71A "LDR ofrmlr" CLASS_DEFAULT CYCLES_LDR ERRORS_DEFAULT;
  row 0x71B "" CLASS_DEFAULT CYCLES_NONE ERRORS_DEFAULT;
  row 0x71C "LDR ofrmar" CLASS_DEFAULT CYCLES_LDR ERRORS_DEFAULT;
  row 0x71D "" CLASS_DEFAULT CYCLES_NONE ERRORS_DEFAULT;
  row 0x71E "LDR ofrmrr" CLASS_DEFAULT CYCLES_LDR ERRORS_DEFAULT;
  row 0x71F "" CLASS_DEFAULT CYCLES_NONE ERRORS_DEFAULT;
  row 0x720 "STR prrmll" CLASS_DEFAULT CYCLES_STR ERRORS_DEFAULT;
  row 0x721 "" CLASS_DEFAULT CYCLES_NONE ERRORS_DEFAULT;
  row 0x722 "STR prrmlr" CLASS_DEFAULT CYCLES_STR ERRORS_DEFAULT;
  row 0x723 "" CLASS_DEFAULT CYCLES_NONE ERRORS_DEFAULT;
  row 0x724 "STR prrmar" CLASS_DEFAULT CYCLES_STR ERRORS_DEFAULT;
  row 0x725 "" CLASS_DEFAULT CYCLES_NONE ERRORS_DEFAULT;
  row 0x726 "STR prrmrr" CLASS_DEFAULT CYCLES_STR ERRORS_DEFAULT;
  row 0x727 "" CLASS_DEFAULT CYCLES_NONE ERRORS_DEFAULT;
  row 0x728 "STR prrmll" CLASS_DEFAULT CYCLES_STR ERRORS_DEFAULT;
  row 0x729 "" CLASS_DEFAULT CYCLES_NONE ERRORS_DEFAULT;
  row 0x72A "STR prrmlr" CLASS_DEFAULT CYCLES_STR ERRORS_DEFAULT;
  row 0x72B "" CLASS_DEFAULT CYCLES_NONE ERRORS_DEFAULT;
  row 0x72C "STR prrmar" CLASS_DEFAULT CYCLES_STR ERRORS_DEFAULT;
  row 0x72D "" CLASS_DEFAULT CYCLES_NONE ERRORS_DEFAULT;
  row 0x72E "STR prrmrr" CLASS_DEFAULT CYCLES_STR ERRORS_DEFAULT;
  row 0x72F "" CLASS_DEFAULT CYCLES_NONE ERRORS_DEFAULT;
  row 0x730 "LDR prrmll" CLASS_DEFAULT CYCLES_LDR ERRORS_DEFAULT;
  row 0x731 "" CLASS_DEFAULT CYCLES_NONE ERRORS_DEFAULT;
  row 0x732 "LDR prrmlr" CLASS_DEFAULT CYCLES_LDR ERRORS_DEFAULT;
  row 0x733 "" CLASS_DEFAULT CYCLES_NONE ERRORS_DEFAULT;
  row 0x734 "LDR prrmar" CLASS_DEFAULT CYCLES_LDR ERRORS_DEFAULT;
  row 0x735 "" CLASS_DEFAULT CYCLES_NONE ERRORS_DEFAULT;
  row 0x736 "LDR prrmrr" CLASS_DEFAULT CYCLES_LDR ERRORS_DEFAULT;
  row 0x737 "" CLASS_DEFAULT CYCLES_NONE ERRORS_DEFAULT;
  row 0x738 "LDR prrmll" CLASS_DEFAULT CYCLES_LDR ERRORS_DEFAULT;
  row 0x739 "" CLASS_DEFAULT CYCLES_NONE ERRORS_DEFAULT;
  row 0x73A "LDR prrmlr" CLASS_DEFAULT CYCLES_LDR ERRORS_DEFAULT;
  row 0x73B "" CLASS_DEFAULT CYCLES_NONE ERRORS_DEFAULT;
  row 0x73C "LDR prrmar" CLASS_DEFAULT CYCLES_LDR ERRORS_DEFAULT;
  row 0x73D "" CLASS_DEFAULT CYCLES_NONE ERRORS_DEFAULT;
  row 0x73E "LDR prrmrr" CLASS_DEFAULT CYCLES_LDR ERRORS_DEFAULT;
  row 0x73F "" CLASS_DEFAULT CYCLES_NONE ERRORS_DEFAULT;
  row 0x740 "STRB ofrmll" CLASS_DEFAULT CYCLES_STRB ERRORS_DEFAULT;
  row 0x741 "" CLASS_DEFAULT CYCLES_NONE ERRORS_DEFAULT;
  row 0x742 "STRB ofrmlr" CLASS_DEFAULT CYCLES_STRB ERRORS_DEFAULT;
  row 0x743 "" CLASS_DEFAULT CYCLES_NONE ERRORS_DEFAULT;
  row 0x744 "STRB ofrmar" CLASS_DEFAULT CYCLES_STRB ERRORS_DEFAULT;
  row 0x745 "" CLASS_DEFAULT CYCLES_NONE ERRORS_DEFAULT;
  row 0x746 "STRB ofrmrr" CLASS_DEFAULT CYCLES_STRB ERRORS_DEFAULT;
  row 0x747 "" CLASS_DEFAULT CYCLES_NONE ERRORS_DEFAULT;
  row 0x748 "STRB ofrmll" CLASS_DEFAULT CYCLES_STRB ERRORS_DEFAULT;
  row 0x749 "" CLASS_DEFAULT CYCLES_NONE ERRORS_DEFAULT;
  row 0x74A "STRB ofrmlr" CLASS_DEFAULT CYCLES_STRB ERRORS_DEFAULT;
  row 0x74B "" CLASS_DEFAULT CYCLES_NONE ERRORS_DEFAULT;
  row 0x74C "STRB ofrmar" CLASS_DEFAULT CYCLES_STRB ERRORS_DEFAULT;
  row 0x74D "" CLASS_DEFAULT CYCLES_NONE ERRORS_DEFAULT;
  row 0x74E "STRB ofrmrr" CLASS_DEFAULT CYCLES_STRB ERRORS_DEFAULT;
  row 0x74F "" CLASS_DEFAULT CYCLES_NONE ERRORS_DEFAULT;
  row 0x750 "LDRB ofrmll" CLASS_DEFAULT CYCLES_LDRB ERRORS_DEFAULT;
  row 0x751 "" CLASS_DEFAULT CYCLES_NONE ERRORS_DEFAULT;
  row 0x752 "LDRB ofrmlr" CLASS_DEFAULT CYCLES_LDRB ERRORS_DEFAULT;
  row 0x753 "" CLASS_DEFAULT CYCLES_NONE ERRORS_DEFAULT;
  row 0x754 "LDRB ofrmar" CLASS_DEFAULT CYCLES_LDRB ERRORS_DEFAULT;
  row 0x755 "" CLASS_DEFAULT CYCLES_NONE ERRORS_DEFAULT;
  row 0x756 "LDRB ofrmrr" CLASS_DEFAULT CYCLES_LDRB ERRORS_DEFAULT;
  row 0x757 "" CLASS_DEFAULT CYCLES_NONE ERRORS_DEFAULT;
  row 0x758 "LDRB ofrmll" CLASS_DEFAULT CYCLES_LDRB ERRORS_DEFAULT;
  row 0x759 "" CLASS_DEFAULT CYCLES_NONE ERRORS_DEFAULT;
  row 0x75A "LDRB ofrmlr" CLASS_DEFAULT CYCLES_LDRB ERRORS_DEFAULT;
  row 0x75B "" CLASS_DEFAULT CYCLES_NONE ERRORS_DEFAULT;
  row 0x75C "LDRB ofrmar" CLASS_DEFAULT CYCLES_LDRB ERRORS_DEFAULT;
  row 0x75D "" CLASS_DEFAULT CYCLES_NONE ERRORS_DEFAULT;
  row 0x75E "LDRB ofrmrr" CLASS_DEFAULT CYCLES_LDRB ERRORS_DEFAULT;
  row 0x75F "" CLASS_DEFAULT CYCLES_NONE ERRORS_DEFAULT;
  row 0x760 "STRB prrmll" CLASS_DEFAULT CYCLES_STRB ERRORS_DEFAULT;
  row 0x761 "" CLASS_DEFAULT CYCLES_NONE ERRORS_DEFAULT;
  row 0x762 "STRB prrmlr" CLASS_DEFAULT CYCLES_STRB ERRORS_DEFAULT;
  row 0x763 "" CLASS_DEFAULT CYCLES_NONE ERRORS_DEFAULT;
  row 0x764 "STRB prrmar" CLASS_DEFAULT CYCLES_STRB ERRORS_DEFAULT;
  row 0x765 "" CLASS_DEFAULT CYCLES_NONE ERRORS_DEFAULT;
  row 0x766 "STRB prrmrr" CLASS_DEFAULT CYCLES_STRB ERRORS_DEFAULT;
  row 0x767 "" CLASS_DEFAULT CYCLES_NONE ERRORS_DEFAULT;
  row 0x768 "STRB prrmll" CLASS_DEFAULT CYCLES_STRB ERRORS_DEFAULT;
  row 0x769 "" CLASS_DEFAULT CYCLES_NONE ERRORS_DEFAULT;
  row 0x76A "STRB prrmlr" CLASS_DEFAULT CYCLES_STRB ERRORS_DEFAULT;
  row 0x76B "" CLASS_DEFAULT CYCLES_NONE ERRORS_DEFAULT;
  row 0x76C "STRB prrmar" CLASS_DEFAULT CYCLES_STRB ERRORS_DEFAULT;
  row 0x76D "" CLASS_DEFAULT CYCLES_NONE ERRORS_DEFAULT;
  row 0x76E "STRB prrmrr" CLASS_DEFAULT CYCLES_STRB ERRORS_DEFAULT;
  row 0x76F "" CLASS_DEFAULT CYCLES_NONE ERRORS_DEFAULT;
  row 0x770 "LDRB prrmll" CLASS_DEFAULT CYCLES_LDRB ERRORS_DEFAULT;
  row 0x771 "" CLASS_DEFAULT CYCLES_NONE ERRORS_DEFAULT;
  row 0x772 "LDRB prrmlr" CLASS_DEFAULT CYCLES_LDRB ERRORS_DEFAULT;
  row 0x773 "" CLASS_DEFAULT CYCLES_NONE ERRORS_DEFAULT;
  row 0x774 "LDRB prrmar" CLASS_DEFAULT CYCLES_LDRB ERRORS_DEFAULT;
  row 0x775 "" CLASS_DEFAULT CYCLES_NONE ERRORS_DEFAULT;
  row 0x776 "LDRB prrmrr" CLASS_DEFAULT CYCLES_LDRB ERRORS_DEFAULT;
  row 0x777 "" CLASS_DEFAULT CYCLES_NONE ERRORS_DEFAULT;
  row 0x778 "LDRB prrmll" CLASS_DEFAULT CYCLES_LDRB ERRORS_DEFAULT;
  row 0x779 "" CLASS_DEFAULT CYCLES_NONE ERRORS_DEFAULT;
  row 0x77A "LDRB prrmlr" CLASS_DEFAULT CYCLES_LDRB ERRORS_DEFAULT;
  row 0x77B "" CLASS_DEFAULT CYCLES_NONE ERRORS_DEFAULT;
  row 0x77C "LDRB prrmar" CLASS_DEFAULT CYCLES_LDRB ERRORS_DEFAULT;
  row 0x77D "" CLASS_DEFAULT CYCLES_NONE ERRORS_DEFAULT;
  row 0x77E "LDRB prrmrr" CLASS_DEFAULT CYCLES_LDRB ERRORS_DEFAULT;
  row 0x77F "" CLASS_DEFAULT CYCLES_NONE ERRORS_DEFAULT].

Definition vemu_arm_instr_15 : list vemu_instr_info := [
  row 0x780 "STR ofrpll" CLASS_DEFAULT CYCLES_STR ERRORS_DEFAULT;
  row 0x781 "" CLASS_DEFAULT CYCLES_NONE ERRORS_DEFAULT;
  row 0x782 "STR ofrplr" CLASS_DEFAULT CYCLES_STR ERRORS_DEFAULT;
  row 0x783 "" CLASS_DEFAULT CYCLES_NONE ERRORS_DEFAULT;
  row 0x784 "STR ofrpar" CLASS_DEFAULT CYCLES_STR ERRORS_DEFAULT;
  row 0x785 "" CLASS_DEFAULT CYCLES_NONE ERRORS_DEFAULT;
  row 0x786 "STR ofrprr" CLASS_DEFAULT CYCLES_STR ERRORS_DEFAULT;
  row 0x787 "" CLASS_DEFAULT CYCLES_NONE ERRORS_DEFAULT;
  row 0x788 "STR ofrpll" CLASS_DEFAULT CYCLES_STR ERRORS_DEFAULT;
  row 0x789 "" CLASS_DEFAULT CYCLES_NONE ERRORS_DEFAULT;
  row 0x78A "STR ofrplr" CLASS_DEFAULT CYCLES_STR ERRORS_DEFAULT;
  row 0x78B "" CLASS_DEFAULT CYCLES_NONE ERRORS_DEFAULT;
  row 0x78C "STR ofrpar" CLASS_DEFAULT CYCLES_STR ERRORS_DEFAULT;
  row 0x78D "" CLASS_DEFAULT CYCLES_NONE ERRORS_DEFAULT;
  row 0x78E "STR ofrprr" CLASS_DEFAULT CYCLES_STR ERRORS_DEFAULT;
  row 0x78F "" CLASS_DEFAULT CYCLES_NONE ERRORS_DEFAULT;
  row 0x790 "LDR ofrpll" CLASS_DEFAULT CYCLES_LDR ERRORS_DEFAULT;
  row 0x791 "" CLASS_DEFAULT CYCLES_NONE ERRORS_DEFAULT;
  row 0x792 "LDR ofrplr" CLASS_DEFAULT CYCLES_LDR ERRORS_DEFAULT;
  row 0x793 "" CLASS_DEFAULT CYCLES_NONE ERRORS_DEFAULT;
  row 0x794 "LDR ofrpar" CLASS_DEFAULT CYCLES_LDR ERRORS_DEFAULT;
  row 0x795 "" CLASS_DEFAULT CYCLES_NONE ERRORS_DEFAULT;
  row 0x796 "LDR ofrprr" CLASS_DEFAULT CYCLES_LDR ERRORS_DEFAULT;
  row 0x797 "" CLASS_DEFAULT CYCLES_NONE ERRORS_DEFAULT;
  row 0x798 "LDR ofrpll" CLASS_DEFAULT CYCLES_LDR ERRORS_DEFAULT;
  row 0x799 "" CLASS_DEFAULT CYCLES_NONE ERRORS_DEFAULT;
  row 0x79A "LDR ofrplr" CLASS_DEFAULT CYCLES_LDR ERRORS_DEFAULT;
  row 0x79B "" CLASS_DEFAULT CYCLES_NONE ERRORS_DEFAULT;
  row 0x79C "LDR ofrpar" CLASS_DEFAULT CYCLES_LDR ERRORS_DEFAULT;
  row 0x79D "" CLASS_DEFAULT CYCLES_NONE ERRORS_DEFAULT;
  row 0x79E "LDR ofrprr" CLASS_DEFAULT CYCLES_LDR ERRORS_DEFAULT;
  row 0x79F "" CLASS_DEFAULT CYCLES_NONE ERRORS_DEFAULT;
  row 0x7A0 "STR prrpll" CLASS_DEFAULT CYCLES_STR ERRORS_DEFAULT;
  row 0x7A1 "" CLASS_DEFAULT CYCLES_NONE ERRORS_DEFAULT;
  row 0x7A2 "STR prrplr" CLASS_DEFAULT CYCLES_STR ERRORS_DEFAULT;
  row 0x7A3 "" CLASS_DEFAULT CYCLES_NONE ERRORS_DEFAULT;
  row 0x7A4 "STR prrpar" CLASS_DEFAULT CYCLES_STR ERRORS_DEFAULT;
  row 0x7A5 "" CLASS_DEFAULT CYCLES_NONE ERRORS_DEFAULT;
  row 0x7A6 "STR prrprr" CLASS_DEFAULT CYCLES_STR ERRORS_DEFAULT;
  row 0x7A7 "" CLASS_DEFAULT CYCLES_NONE ERRORS_DEFAULT;
  row 0x7A8 "STR prrpll" CLASS_DEFAULT CYCLES_STR ERRORS_DEFAULT;
  row 0x7A9 "" CLASS_DEFAULT CYCLES_NONE ERRORS_DEFAULT;
  row 0x7AA "STR prrplr" CLASS_DEFAULT CYCLES_STR ERRORS_DEFAULT;
  row 0x7AB "" CLASS_DEFAULT CYCLES_NONE ERRORS_DEFAULT;
  row 0x7AC "STR prrpar" CLASS_DEFAULT CYCLES_STR ERRORS_DEFAULT;
  row 0x7AD "" CLASS_DEFAULT CYCLES_NONE ERRORS_DEFAULT;
  row 0x7AE "STR prrprr" CLASS_DEFAULT CYCLES_STR ERRORS_DEFAULT;
  row 0x7AF "" CLASS_DEFAULT CYCLES_NONE ERRORS_DEFAULT;
  row 0x7B0 "LDR prrpll" CLASS_DEFAULT CYCLES_LDR ERRORS_DEFAULT;
  row 0x7B1 "" CLASS_DEFAULT CYCLES_NONE ERRORS_DEFAULT;
  row 0x7B2 "LDR prrplr" CLASS_DEFAULT CYCLES_LDR ERRORS_DEFAULT;
  row 0x7B3 "" CLASS_DEFAULT CYCLES_NONE ERRORS_DEFAULT;
  row 0x7B4 "LDR prrpar" CLASS_DEFAULT CYCLES_LDR ERRORS_DEFAULT;
  row 0x7B5 "" CLASS_DEFAULT CYCLES_NONE ERRORS_DEFAULT;
  row 0x7B6 "LDR prrprr" CLASS_DEFAULT CYCLES_LDR ERRORS_DEFAULT;
  row 0x7B7 "" CLASS_DEFAULT CYCLES_NONE ERRORS_DEFAULT;
  row 0x7B8 "LDR prrpll" CLASS_DEFAULT CYCLES_LDR ERRORS_DEFAULT;
  row 0x7B9 "" CLASS_DEFAULT CYCLES_NONE ERRORS_DEFAULT;
  row 0x7BA "LDR prrplr" CLASS_DEFAULT CYCLES_LDR ERRORS_DEFAULT;
  row 0x7BB "" CLASS_DEFAULT CYCLES_NONE ERRORS_DEFAULT;
  row 0x7BC "LDR prrpar" CLASS_DEFAULT CYCLES_LDR ERRORS_DEFAULT;
  row 0x7BD "" CLASS_DEFAULT CYCLES_NONE ERRORS_DEFAULT;
  row 0x7BE "LDR prrprr" CLASS_DEFAULT CYCLES_LDR ERRORS_DEFAULT;
  row 0x7BF "" CLASS_DEFAULT CYCLES_NONE ERRORS_DEFAULT;
  row 0x7C0 "STRB ofrpll" CLASS_DEFAULT CYCLES_STRB ERRORS_DEFAULT;
  row 0x7C1 "" CLASS_DEFAULT CYCLES_NONE ERRORS_DEFAULT;
  row 0x7C2 "STRB ofrplr" CLASS_DEFAULT CYCLES_STRB ERRORS_DEFAULT;
  row 0x7C3 "" CLASS_DEFAULT CYCLES_NONE ERRORS_DEFAULT;
  row 0x7C4 "STRB ofrpar" CLASS_DEFAULT CYCLES_STRB ERRORS_DEFAULT;
  row 0x7C5 "" CLASS_DEFAULT CYCLES_NONE ERRORS_DEFAULT;
  row 0x7C6 "STRB ofrprr" CLASS_DEFAULT CYCLES_STRB ERRORS_DEFAULT;
  row 0x7C7 "" CLASS_DEFAULT CYCLES_NONE ERRORS_DEFAULT;
  row 0x7C8 "STRB ofrpll" CLASS_DEFAULT CYCLES_STRB ERRORS_DEFAULT;
  row 0x7C9 "" CLASS_DEFAULT CYCLES_NONE ERRORS_DEFAULT;
  row 0x7CA "STRB ofrplr" CLASS_DEFAULT CYCLES_STRB ERRORS_DEFAULT;
  row 0x7CB "" CLASS_DEFAULT CYCLES_NONE ERRORS_DEFAULT;
  row 0x7CC "STRB ofrpar" CLASS_DEFAULT CYCLES_STRB ERRORS_DEFAULT;
  row 0x7CD "" CLASS_DEFAULT CYCLES_NONE ERRORS_DEFAULT;
  row 0x7CE "STRB ofrprr" CLASS_DEFAULT CYCLES_STRB ERRORS_DEFAULT;
  row 0x7CF "" CLASS_DEFAULT CYCLES_NONE ERRORS_DEFAULT;
  row 0x7D0 "LDRB ofrpll" CLASS_DEFAULT CYCLES_LDRB ERRORS_DEFAULT;
  row 0x7D1 "" CLASS_DEFAULT CYCLES_NONE ERRORS_DEFAULT;
  row 0x7D2 "LDRB ofrplr" CLASS_DEFAULT CYCLES_LDRB ERRORS_DEFAULT;
  row 0x7D3 "" CLASS_DEFAULT CYCLES_NONE ERRORS_DEFAULT;
  row 0x7D4 "LDRB ofrpar" CLASS_DEFAULT CYCLES_LDRB ERRORS_DEFAULT;
  row 0x7D5 "" CLASS_DEFAULT CYCLES_NONE ERRORS_DEFAULT;
  row 0x7D6 "LDRB ofrprr" CLASS_DEFAULT CYCLES_LDRB ERRORS_DEFAULT;
  row 0x7D7 "" CLASS_DEFAULT CYCLES_NONE ERRORS_DEFAULT;
  row 0x7D8 "LDRB ofrpll" CLASS_DEFAULT CYCLES_LDRB ERRORS_DEFAULT;
  row 0x7D9 "" CLASS_DEFAULT CYCLES_NONE ERRORS_DEFAULT;
  row 0x7DA "LDRB ofrplr" CLASS_DEFAULT CYCLES_LDRB ERRORS_DEFAULT;
  row 0x7DB "" CLASS_DEFAULT CYCLES_NONE ERRORS_DEFAULT;
  row 0x7DC "LDRB ofrpar" CLASS_DEFAULT CYCLES_LDRB ERRORS_DEFAULT;
  row 0x7DD "" CLASS_DEFAULT CYCLES_NONE ERRORS_DEFAULT;
  row 0x7DE "LDRB ofrprr" CLASS_DEFAULT CYCLES_LDRB ERRORS_DEFAULT;
  row 0x7DF "" CLASS_DEFAULT CYCLES_NONE ERRORS_DEFAULT;
  row 0x7E0 "STRB prrpll" CLASS_DEFAULT CYCLES_STRB ERRORS_DEFAULT;
  row 0x7E1 "" CLASS_DEFAULT CYCLES_NONE ERRORS_DEFAULT;
  row 0x7E2 "STRB prrplr" CLASS_DEFAULT CYCLES_STRB ERRORS_DEFAULT;
  row 0x7E3 "" CLASS_DEFAULT CYCLES_NONE ERRORS_DEFAULT;
  row 0x7E4 "STRB prrpar" CLASS_DEFAULT CYCLES_STRB ERRORS_DEFAULT;
  row 0x7E5 "" CLASS_DEFAULT CYCLES_NONE ERRORS_DEFAULT;
  row 0x7E6 "STRB prrprr" CLASS_DEFAULT CYCLES_STRB ERRORS_DEFAULT;
  row 0x7E7 "" CLASS_DEFAULT CYCLES_NONE ERRORS_DEFAULT;
  row 0x7E8 "STRB prrpll" CLASS_DEFAULT CYCLES_STRB ERRORS_DEFAULT;
  row 0x7E9 "" CLASS_DEFAULT CYCLES_NONE ERRORS_DEFAULT;
  row 0x7EA "STRB prrplr" CLASS_DEFAULT CYCLES_STRB ERRORS_DEFAULT;
  row 0x7EB "" CLASS_DEFAULT CYCLES_NONE ERRORS_DEFAULT;
  row 0x7EC "STRB prrpar" CLASS_DEFAULT CYCLES_STRB ERRORS_DEFAULT;
  row 0x7ED "" CLASS_DEFAULT CYCLES_NONE ERRORS_DEFAULT;
  row 0x7EE "STRB prrprr" CLASS_DEFAULT CYCLES_STRB ERRORS_DEFAULT;
  row 0x7EF "" CLASS_DEFAULT CYCLES_NONE ERRORS_DEFAULT;
  row 0x7F0 "LDRB prrpll" CLASS_DEFAULT CYCLES_LDRB ERRORS_DEFAULT;
  row 0x7F1 "" CLASS_DEFAULT CYCLES_NONE ERRORS_DEFAULT;
  row 0x7F2 "LDRB prrplr" CLASS_DEFAULT CYCLES_LDRB ERRORS_DEFAULT;
  row 0x7F3 "" CLASS_DEFAULT CYCLES_NONE ERRORS_DEFAULT;
  row 0x7F4 "LDRB prrpar" CLASS_DEFAULT CYCLES_LDRB ERRORS_DEFAULT;
  row 0x7F5 "" CLASS_DEFAULT CYCLES_NONE ERRORS_DEFAULT;
  row 0x7F6 "LDRB prrprr" CLASS_DEFAULT CYCLES_LDRB ERRORS_DEFAULT;
  row 0x7F7 "" CLASS_DEFAULT CYCLES_NONE ERRORS_DEFAULT;
  row 0x7F8 "LDRB prrpll" CLASS_DEFAULT CYCLES_LDRB ERRORS_DEFAULT;
  row 0x7F9 "" CLASS_DEFAULT CYCLES_NONE ERRORS_DEFAULT;
  row 0x7FA "LDRB prrplr" CLASS_DEFAULT CYCLES_LDRB ERRORS_DEFAULT;
  row 0x7FB "" CLASS_DEFAULT CYCLES_NONE ERRORS_DEFAULT;
  row 0x7FC "LDRB prrpar" CLASS_DEFAULT CYCLES_LDRB ERRORS_DEFAULT;
  row 0x7FD "" CLASS_DEFAULT CYCLES_NONE ERRORS_DEFAULT;
  row 0x7FE "LDRB prrprr" CLASS_DEFAULT CYCLES_LDRB ERRORS_DEFAULT;
  row 0x7FF "" CLASS_DEFAULT CYCLES_NONE ERRORS_DEFAULT].

Definition vemu_arm_instr_16 : list vemu_instr_info := [
  row 0x800 "STMDA" CLASS_DEFAULT CYCLES_STMDA ERRORS_DEFAULT;
  row 0x801 "STMDA" CLASS_DEFAULT CYCLES_STMDA ERRORS_DEFAULT;
  row 0x802 "STMDA" CLASS_DEFAULT CYCLES_STMDA ERRORS_DEFAULT;
  row 0x803 "STMDA" CLASS_DEFAULT CYCLES_STMDA ERRORS_DEFAULT;
  row 0x804 "STMDA" CLASS_DEFAULT CYCLES_STMDA ERRORS_DEFAULT;
  row 0x805 "STMDA" CLASS_DEFAULT CYCLES_STMDA ERRORS_DEFAULT;
  row 0x806 "STMDA" CLASS_DEFAULT CYCLES_STMDA ERRORS_DEFAULT;
  row 0x807 "STMDA" CLASS_DEFAULT CYCLES_STMDA ERRORS_DEFAULT;
  row 0x808 "STMDA" CLASS_DEFAULT CYCLES_STMDA ERRORS_DEFAULT;
  row 0x809 "STMDA" CLASS_DEFAULT CYCLES_STMDA ERRORS_DEFAULT;
  row 0x80A "STMDA" CLASS_DEFAULT CYCLES_STMDA ERRORS_DEFAULT;
  row 0x80B "STMDA" CLASS_DEFAULT CYCLES_STMDA ERRORS_DEFAULT;
  row 0x80C "STMDA" CLASS_DEFAULT CYCLES_STMDA ERRORS_DEFAULT;
  row 0x80D "STMDA" CLASS_DEFAULT CYCLES_STMDA ERRORS_DEFAULT;
  row 0x80E "STMDA" CLASS_DEFAULT CYCLES_STMDA ERRORS_DEFAULT;
  row 0x80F "STMDA" CLASS_DEFAULT CYCLES_STMDA ERRORS_DEFAULT;
  row 0x810 "LDMDA" CLASS_DEFAULT CYCLES_LDMDA ERRORS_DEFAULT;
  row 0x811 "LDMDA" CLASS_DEFAULT CYCLES_LDMDA ERRORS_DEFAULT;
  row 0x812 "LDMDA" CLASS_DEFAULT CYCLES_LDMDA ERRORS_DEFAULT;
  row 0x813 "LDMDA" CLASS_DEFAULT CYCLES_LDMDA ERRORS_DEFAULT;
  row 0x814 "LDMDA" CLASS_DEFAULT CYCLES_LDMDA ERRORS_DEFAULT;
  row 0x815 "LDMDA" CLASS_DEFAULT CYCLES_LDMDA ERRORS_DEFAULT;
  row 0x816 "LDMDA" CLASS_DEFAULT CYCLES_LDMDA ERRORS_DEFAULT;
  row 0x817 "LDMDA" CLASS_DEFAULT CYCLES_LDMDA ERRORS_DEFAULT;
  row 0x818 "LDMDA" CLASS_DEFAULT CYCLES_LDMDA ERRORS_DEFAULT;
  row 0x819 "LDMDA" CLASS_DEFAULT CYCLES_LDMDA ERRORS_DEFAULT;
  row 0x81A "LDMDA" CLASS_DEFAULT CYCLES_LDMDA ERRORS_DEFAULT;
  row 0x81B "LDMDA" CLASS_DEFAULT CYCLES_LDMDA ERRORS_DEFAULT;
  row 0x81C "LDMDA" CLASS_DEFAULT CYCLES_LDMDA ERRORS_DEFAULT;
  row 0x81D "LDMDA" CLASS_DEFAULT CYCLES_LDMDA ERRORS_DEFAULT;
  row 0x81E "LDMDA" CLASS_DEFAULT CYCLES_LDMDA ERRORS_DEFAULT;
  row 0x81F "LDMDA" CLASS_DEFAULT CYCLES_LDMDA ERRORS_DEFAULT;
  row 0x820 "STMDA w" CLASS_DEFAULT CYCLES_STMDA ERRORS_DEFAULT;
  row 0x821 "STMDA w" CLASS_DEFAULT CYCLES_STMDA ERRORS_DEFAULT;
  row 0x822 "STMDA w" CLASS_DEFAULT CYCLES_STMDA ERRORS_DEFAULT;
  row 0x823 "STMDA w" CLASS_DEFAULT CYCLES_STMDA ERRORS_DEFAULT;
  row 0x824 "STMDA w" CLASS_DEFAULT CYCLES_STMDA ERRORS_DEFAULT;
  row 0x825 "STMDA w" CLASS_DEFAULT CYCLES_STMDA ERRORS_DEFAULT;
  row 0x826 "STMDA w" CLASS_DEFAULT CYCLES_STMDA ERRORS_DEFAULT;
  row 0x827 "STMDA w" CLASS_DEFAULT CYCLES_STMDA ERRORS_DEFAULT;
  row 0x828 "STMDA w" CLASS_DEFAULT CYCLES_STMDA ERRORS_DEFAULT;
  row 0x829 "STMDA w" CLASS_DEFAULT CYCLES_STMDA ERRORS_DEFAULT;
  row 0x82A "STMDA w" CLASS_DEFAULT CYCLES_STMDA ERRORS_DEFAULT;
  row 0x82B "STMDA w" CLASS_DEFAULT CYCLES_STMDA ERRORS_DEFAULT;
  row 0x82C "STMDA w" CLASS_DEFAULT CYCLES_STMDA ERRORS_DEFAULT;
  row 0x82D "STMDA w" CLASS_DEFAULT CYCLES_STMDA ERRORS_DEFAULT;
  row 0x82E "STMDA w" CLASS_DEFAULT CYCLES_STMDA ERRORS_DEFAULT;
  row 0x82F "STMDA w" CLASS_DEFAULT CYCLES_STMDA ERRORS_DEFAULT;
  row 0x830 "LDMDA w" CLASS_DEFAULT CYCLES_LDMDA ERRORS_DEFAULT;
  row 0x831 "LDMDA w" CLASS_DEFAULT CYCLES_LDMDA ERRORS_DEFAULT;
  row 0x832 "LDMDA w" CLASS_DEFAULT CYCLES_LDMDA ERRORS_DEFAULT;
  row 0x833 "LDMDA w" CLASS_DEFAULT CYCLES_LDMDA ERRORS_DEFAULT;
  row 0x834 "LDMDA w" CLASS_DEFAULT CYCLES_LDMDA ERRORS_DEFAULT;
  row 0x835 "LDMDA w" CLASS_DEFAULT CYCLES_LDMDA ERRORS_DEFAULT;
  row 0x836 "LDMDA w" CLASS_DEFAULT CYCLES_LDMDA ERRORS_DEFAULT;
  row 0x837 "LDMDA w" CLASS_DEFAULT CYCLES_LDMDA ERRORS_DEFAULT;
  row 0x838 "LDMDA w" CLASS_DEFAULT CYCLES_LDMDA ERRORS_DEFAULT;
  row 0x839 "LDMDA w" CLASS_DEFAULT CYCLES_LDMDA ERRORS_DEFAULT;
  row 0x83A "LDMDA w" CLASS_DEFAULT CYCLES_LDMDA ERRORS_DEFAULT;
  row 0x83B "LDMDA w" CLASS_DEFAULT CYCLES_LDMDA ERRORS_DEFAULT;
  row 0x83C "LDMDA w" CLASS_DEFAULT CYCLES_LDMDA ERRORS_DEFAULT;
  row 0x83D "LDMDA w" CLASS_DEFAULT CYCLES_LDMDA ERRORS_DEFAULT;
  row 0x83E "LDMDA w" CLASS_DEFAULT CYCLES_LDMDA ERRORS_DEFAULT;
  row 0x83F "LDMDA w" CLASS_DEFAULT CYCLES_LDMDA ERRORS_DEFAULT;
  row 0x840 "STMDA u" CLASS_DEFAULT CYCLES_STMDA ERRORS_DEFAULT;
  row 0x841 "STMDA u" CLASS_DEFAULT CYCLES_STMDA ERRORS_DEFAULT;
  row 0x842 "STMDA u" CLASS_DEFAULT CYCLES_STMDA ERRORS_DEFAULT;
  row 0x843 "STMDA u" CLASS_DEFAULT CYCLES_STMDA ERRORS_DEFAULT;
  row 0x844 "STMDA u" CLASS_DEFAULT CYCLES_STMDA ERRORS_DEFAULT;
  row 0x845 "STMDA u" CLASS_DEFAULT CYCLES_STMDA ERRORS_DEFAULT;
  row 0x846 "STMDA u" CLASS_DEFAULT CYCLES_STMDA ERRORS_DEFAULT;
  row 0x847 "STMDA u" CLASS_DEFAULT CYCLES_STMDA ERRORS_DEFAULT;
  row 0x848 "STMDA u" CLASS_DEFAULT CYCLES_STMDA ERRORS_DEFAULT;
  row 0x849 "STMDA u" CLASS_DEFAULT CYCLES_STMDA ERRORS_DEFAULT;
  row 0x84A "STMDA u" CLASS_DEFAULT CYCLES_STMDA ERRORS_DEFAULT;
  row 0x84B "STMDA u" CLASS_DEFAULT CYCLES_STMDA ERRORS_DEFAULT;
  row 0x84C "STMDA u" CLASS_DEFAULT CYCLES_STMDA ERRORS_DEFAULT;
  row 0x84D "STMDA u" CLASS_DEFAULT CYCLES_STMDA ERRORS_DEFAULT;
  row 0x84E "STMDA u" CLASS_DEFAULT CYCLES_STMDA ERRORS_DEFAULT;
  row 0x84F "STMDA u" CLASS_DEFAULT CYCLES_STMDA ERRORS_DEFAULT;
  row 0x850 "LDMDA u" CLASS_DEFAULT CYCLES_LDMDA ERRORS_DEFAULT;
  row 0x851 "LDMDA u" CLASS_DEFAULT CYCLES_LDMDA ERRORS_DEFAULT;
  row 0x852 "LDMDA u" CLASS_DEFAULT CYCLES_LDMDA ERRORS_DEFAULT;
  row 0x853 "LDMDA u" CLASS_DEFAULT CYCLES_LDMDA ERRORS_DEFAULT;
  row 0x854 "LDMDA u" CLASS_DEFAULT CYCLES_LDMDA ERRORS_DEFAULT;
  row 0x855 "LDMDA u" CLASS_DEFAULT CYCLES_LDMDA ERRORS_DEFAULT;
  row 0x856 "LDMDA u" CLASS_DEFAULT CYCLES_LDMDA ERRORS_DEFAULT;
  row 0x857 "LDMDA u" CLASS_DEFAULT CYCLES_LDMDA ERRORS_DEFAULT;
  row 0x858 "LDMDA u" CLASS_DEFAULT CYCLES_LDMDA ERRORS_DEFAULT;
  row 0x859 "LDMDA u" CLASS_DEFAULT CYCLES_LDMDA ERRORS_DEFAULT;
  row 0x85A "LDMDA u" CLASS_DEFAULT CYCLES_LDMDA ERRORS_DEFAULT;
  row 0x85B "LDMDA u" CLASS_DEFAULT CYCLES_LDMDA ERRORS_DEFAULT;
  row 0x85C "LDMDA u" CLASS_DEFAULT CYCLES_LDMDA ERRORS_DEFAULT;
  row 0x85D "LDMDA u" CLASS_DEFAULT CYCLES_LDMDA ERRORS_DEFAULT;
  row 0x85E "LDMDA u" CLASS_DEFAULT CYCLES_LDMDA ERRORS_DEFAULT;
  row 0x85F "LDMDA u" CLASS_DEFAULT CYCLES_LDMDA ERRORS_DEFAULT;
  row 0x860 "STMDA uw" CLASS_DEFAULT CYCLES_STMDA ERRORS_DEFAULT;
  row 0x861 "STMDA uw" CLASS_DEFAULT CYCLES_STMDA ERRORS_DEFAULT;
  row 0x862 "STMDA uw" CLASS_DEFAULT CYCLES_STMDA ERRORS_DEFAULT;
  row 0x863 "STMDA uw" CLASS_DEFAULT CYCLES_STMDA ERRORS_DEFAULT;
  row 0x864 "STMDA uw" CLASS_DEFAULT CYCLES_STMDA ERRORS_DEFAULT;
  row 0x865 "STMDA uw" CLASS_DEFAULT CYCLES_STMDA ERRORS_DEFAULT;
  row 0x866 "STMDA uw" CLASS_DEFAULT CYCLES_STMDA ERRORS_DEFAULT;
  row 0x867 "STMDA uw" CLASS_DEFAULT CYCLES_STMDA ERRORS_DEFAULT;
  row 0x868 "STMDA uw" CLASS_DEFAULT CYCLES_STMDA ERRORS_DEFAULT;
  row 0x869 "STMDA uw" CLASS_DEFAULT CYCLES_STMDA ERRORS_DEFAULT;
  row 0x86A "STMDA uw" CLASS_DEFAULT CYCLES_STMDA ERRORS_DEFAULT;
  row 0x86B "STMDA uw" CLASS_DEFAULT CYCLES_STMDA ERRORS_DEFAULT;
  row 0x86C "STMDA uw" CLASS_DEFAULT CYCLES_STMDA ERRORS_DEFAULT;
  row 0x86D "STMDA uw" CLASS_DEFAULT CYCLES_STMDA ERRORS_DEFAULT;
  row 0x86E "STMDA uw" CLASS_DEFAULT CYCLES_STMDA ERRORS_DEFAULT;
  row 0x86F "STMDA uw" CLASS_DEFAULT CYCLES_STMDA ERRORS_DEFAULT;
  row 0x870 "LDMDA uw" CLASS_DEFAULT CYCLES_LDMDA ERRORS_DEFAULT;
  row 0x871 "LDMDA uw" CLASS_DEFAULT CYCLES_LDMDA ERRORS_DEFAULT;
  row 0x872 "LDMDA uw" CLASS_DEFAULT CYCLES_LDMDA ERRORS_DEFAULT;
  row 0x873 "LDMDA uw" CLASS_DEFAULT CYCLES_LDMDA ERRORS_DEFAULT;
  row 0x874 "LDMDA uw" CLASS_DEFAULT CYCLES_LDMDA ERRORS_DEFAULT;
  row 0x875 "LDMDA uw" CLASS_DEFAULT CYCLES_LDMDA ERRORS_DEFAULT;
  row 0x876 "LDMDA uw" CLASS_DEFAULT CYCLES_LDMDA ERRORS_DEFAULT;
  row 0x877 "LDMDA uw" CLASS_DEFAULT CYCLES_LDMDA ERRORS_DEFAULT;
  row 0x878 "LDMDA uw" CLASS_DEFAULT CYCLES_LDMDA ERRORS_DEFAULT;
  row 0x879 "LDMDA uw" CLASS_DEFAULT CYCLES_LDMDA ERRORS_DEFAULT;
  row 0x87A "LDMDA uw" CLASS_DEFAULT CYCLES_LDMDA ERRORS_DEFAULT;
  row 0x87B "LDMDA uw" CLASS_DEFAULT CYCLES_LDMDA ERRORS_DEFAULT;
  row 0x87C "LDMDA uw" CLASS_DEFAULT CYCLES_LDMDA ERRORS_DEFAULT;
  row 0x87D "LDMDA uw" CLASS_DEFAULT CYCLES_LDMDA ERRORS_DEFAULT;
  row 0x87E "LDMDA uw" CLASS_DEFAULT CYCLES_LDMDA ERRORS_DEFAULT;
  row 0x87F "LDMDA uw" CLASS_DEFAULT CYCLES_LDMDA ERRORS_DEFAULT].

Definition vemu_arm_instr_17 : list vemu_instr_info := [
  row 0x880 "STMIA" CLASS_DEFAULT CYCLES_STMIA ERRORS_DEFAULT;
  row 0x881 "STMIA" CLASS_DEFAULT CYCLES_STMIA ERRORS_DEFAULT;
  row 0x882 "STMIA" CLASS_DEFAULT CYCLES_STMIA ERRORS_DEFAULT;
  row 0x883 "STMIA" CLASS_DEFAULT CYCLES_STMIA ERRORS_DEFAULT;
  row 0x884 "STMIA" CLASS_DEFAULT CYCLES_STMIA ERRORS_DEFAULT;
  row 0x885 "STMIA" CLASS_DEFAULT CYCLES_STMIA ERRORS_DEFAULT;
  row 0x886 "STMIA" CLASS_DEFAULT CYCLES_STMIA ERRORS_DEFAULT;
  row 0x887 "STMIA" CLASS_DEFAULT CYCLES_STMIA ERRORS_DEFAULT;
  row 0x888 "STMIA" CLASS_DEFAULT CYCLES_STMIA ERRORS_DEFAULT;
  row 0x889 "STMIA" CLASS_DEFAULT CYCLES_STMIA ERRORS_DEFAULT;
  row 0x88A "STMIA" CLASS_DEFAULT CYCLES_STMIA ERRORS_DEFAULT;
  row 0x88B "STMIA" CLASS_DEFAULT CYCLES_STMIA ERRORS_DEFAULT;
  row 0x88C "STMIA" CLASS_DEFAULT CYCLES_STMIA ERRORS_DEFAULT;
  row 0x88D "STMIA" CLASS_DEFAULT CYCLES_STMIA ERRORS_DEFAULT;
  row 0x88E "STMIA" CLASS_DEFAULT CYCLES_STMIA ERRORS_DEFAULT;
  row 0x88F "STMIA" CLASS_DEFAULT CYCLES_STMIA ERRORS_DEFAULT;
  row 0x890 "LDMIA" CLASS_DEFAULT CYCLES_LDMIA ERRORS_DEFAULT;
  row 0x891 "LDMIA" CLASS_DEFAULT CYCLES_LDMIA ERRORS_DEFAULT;
  row 0x892 "LDMIA" CLASS_DEFAULT CYCLES_LDMIA ERRORS_DEFAULT;
  row 0x893 "LDMIA" CLASS_DEFAULT CYCLES_LDMIA ERRORS_DEFAULT;
  row 0x894 "LDMIA" CLASS_DEFAULT CYCLES_LDMIA ERRORS_DEFAULT;
  row 0x895 "LDMIA" CLASS_DEFAULT CYCLES_LDMIA ERRORS_DEFAULT;
  row 0x896 "LDMIA" CLASS_DEFAULT CYCLES_LDMIA ERRORS_DEFAULT;
  row 0x897 "LDMIA" CLASS_DEFAULT CYCLES_LDMIA ERRORS_DEFAULT;
  row 0x898 "LDMIA" CLASS_DEFAULT CYCLES_LDMIA ERRORS_DEFAULT;
  row 0x899 "LDMIA" CLASS_DEFAULT CYCLES_LDMIA ERRORS_DEFAULT;
  row 0x89A "LDMIA" CLASS_DEFAULT CYCLES_LDMIA ERRORS_DEFAULT;
  row 0x89B "LDMIA" CLASS_DEFAULT CYCLES_LDMIA ERRORS_DEFAULT;
  row 0x89C "LDMIA" CLASS_DEFAULT CYCLES_LDMIA ERRORS_DEFAULT;
  row 0x89D "LDMIA" CLASS_DEFAULT CYCLES_LDMIA ERRORS_DEFAULT;
  row 0x89E "LDMIA" CLASS_DEFAULT CYCLES_LDMIA ERRORS_DEFAULT;
  row 0x89F "LDMIA" CLASS_DEFAULT CYCLES_LDMIA ERRORS_DEFAULT;
  row 0x8A0 "STMIA w" CLASS_DEFAULT CYCLES_STMIA ERRORS_DEFAULT;
  row 0x8A1 "STMIA w" CLASS_DEFAULT CYCLES_STMIA ERRORS_DEFAULT;
  row 0x8A2 "STMIA w" CLASS_DEFAULT CYCLES_STMIA ERRORS_DEFAULT;
  row 0x8A3 "STMIA w" CLASS_DEFAULT CYCLES_STMIA ERRORS_DEFAULT;
  row 0x8A4 "STMIA w" CLASS_DEFAULT CYCLES_STMIA ERRORS_DEFAULT;
  row 0x8A5 "STMIA w" CLASS_DEFAULT CYCLES_STMIA ERRORS_DEFAULT;
  row 0x8A6 "STMIA w" CLASS_DEFAULT CYCLES_STMIA ERRORS_DEFAULT;
  row 0x8A7 "STMIA w" CLASS_DEFAULT CYCLES_STMIA ERRORS_DEFAULT;
  row 0x8A8 "STMIA w" CLASS_DEFAULT CYCLES_STMIA ERRORS_DEFAULT;
  row 0x8A9 "STMIA w" CLASS_DEFAULT CYCLES_STMIA ERRORS_DEFAULT;
  row 0x8AA "STMIA w" CLASS_DEFAULT CYCLES_STMIA ERRORS_DEFAULT;
  row 0x8AB "STMIA w" CLASS_DEFAULT CYCLES_STMIA ERRORS_DEFAULT;
  row 0x8AC "STMIA w" CLASS_DEFAULT CYCLES_STMIA ERRORS_DEFAULT;
  row 0x8AD "STMIA w" CLASS_DEFAULT CYCLES_STMIA ERRORS_DEFAULT;
  row 0x8AE "STMIA w" CLASS_DEFAULT CYCLES_STMIA ERRORS_DEFAULT;
  row 0x8AF "STMIA w" CLASS_DEFAULT CYCLES_STMIA ERRORS_DEFAULT;
  row 0x8B0 "LDMIA w" CLASS_DEFAULT CYCLES_LDMIA ERRORS_DEFAULT;
  row 0x8B1 "LDMIA w" CLASS_DEFAULT CYCLES_LDMIA ERRORS_DEFAULT;
  row 0x8B2 "LDMIA w" CLASS_DEFAULT CYCLES_LDMIA ERRORS_DEFAULT;
  row 0x8B3 "LDMIA w" CLASS_DEFAULT CYCLES_LDMIA ERRORS_DEFAULT;
  row 0x8B4 "LDMIA w" CLASS_DEFAULT CYCLES_LDMIA ERRORS_DEFAULT;
  row 0x8B5 "LDMIA w" CLASS_DEFAULT CYCLES_LDMIA ERRORS_DEFAULT;
  row 0x8B6 "LDMIA w" CLASS_DEFAULT CYCLES_LDMIA ERRORS_DEFAULT;
  row 0x8B7 "LDMIA w" CLASS_DEFAULT CYCLES_LDMIA ERRORS_DEFAULT;
  row 0x8B8 "LDMIA w" CLASS_DEFAULT CYCLES_LDMIA ERRORS_DEFAULT;
  row 0x8B9 "LDMIA w" CLASS_DEFAULT CYCLES_LDMIA ERRORS_DEFAULT;
  row 0x8BA "LDMIA w" CLASS_DEFAULT CYCLES_LDMIA ERRORS_DEFAULT;
  row 0x8BB "LDMIA w" CLASS_DEFAULT CYCLES_LDMIA ERRORS_DEFAULT;
  row 0x8BC "LDMIA w" CLASS_DEFAULT CYCLES_LDMIA ERRORS_DEFAULT;
  row 0x8BD "LDMIA w" CLASS_DEFAULT CYCLES_LDMIA ERRORS_DEFAULT;
  row 0x8BE "LDMIA w" CLASS_DEFAULT CYCLES_LDMIA ERRORS_DEFAULT;
  row 0x8BF "LDMIA w" CLASS_DEFAULT CYCLES_LDMIA ERRORS_DEFAULT;
  row 0x8C0 "STMIA u" CLASS_DEFAULT CYCLES_STMIA ERRORS_DEFAULT;
  row 0x8C1 "STMIA u" CLASS_DEFAULT CYCLES_STMIA ERRORS_DEFAULT;
  row 0x8C2 "STMIA u" CLASS_DEFAULT CYCLES_STMIA ERRORS_DEFAULT;
  row 0x8C3 "STMIA u" CLASS_DEFAULT CYCLES_STMIA ERRORS_DEFAULT;
  row 0x8C4 "STMIA u" CLASS_DEFAULT CYCLES_STMIA ERRORS_DEFAULT;
  row 0x8C5 "STMIA u" CLASS_DEFAULT CYCLES_STMIA ERRORS_DEFAULT;
  row 0x8C6 "STMIA u" CLASS_DEFAULT CYCLES_STMIA ERRORS_DEFAULT;
  row 0x8C7 "STMIA u" CLASS_DEFAULT CYCLES_STMIA ERRORS_DEFAULT;
  row 0x8C8 "STMIA u" CLASS_DEFAULT CYCLES_STMIA ERRORS_DEFAULT;
  row 0x8C9 "STMIA u" CLASS_DEFAULT CYCLES_STMIA ERRORS_DEFAULT;
  row 0x8CA "STMIA u" CLASS_DEFAULT CYCLES_STMIA ERRORS_DEFAULT;
  row 0x8CB "STMIA u" CLASS_DEFAULT CYCLES_STMIA ERRORS_DEFAULT;
  row 0x8CC "STMIA u" CLASS_DEFAULT CYCLES_STMIA ERRORS_DEFAULT;
  row 0x8CD "STMIA u" CLASS_DEFAULT CYCLES_STMIA ERRORS_DEFAULT;
  row 0x8CE "STMIA u" CLASS_DEFAULT CYCLES_STMIA ERRORS_DEFAULT;
  row 0x8CF "STMIA u" CLASS_DEFAULT CYCLES_STMIA ERRORS_DEFAULT;
  row 0x8D0 "LDMIA u" CLASS_DEFAULT CYCLES_LDMIA ERRORS_DEFAULT;
  row 0x8D1 "LDMIA u" CLASS_DEFAULT CYCLES_LDMIA ERRORS_DEFAULT;
  row 0x8D2 "LDMIA u" CLASS_DEFAULT CYCLES_LDMIA ERRORS_DEFAULT;
  row 0x8D3 "LDMIA u" CLASS_DEFAULT CYCLES_LDMIA ERRORS_DEFAULT;
  row 0x8D4 "LDMIA u" CLASS_DEFAULT CYCLES_LDMIA ERRORS_DEFAULT;
  row 0x8D5 "LDMIA u" CLASS_DEFAULT CYCLES_LDMIA ERRORS_DEFAULT;
  row 0x8D6 "LDMIA u" CLASS_DEFAULT CYCLES_LDMIA ERRORS_DEFAULT;
  row 0x8D7 "LDMIA u" CLASS_DEFAULT CYCLES_LDMIA ERRORS_DEFAULT;
  row 0x8D8 "LDMIA u" CLASS_DEFAULT CYCLES_LDMIA ERRORS_DEFAULT;
  row 0x8D9 "LDMIA u" CLASS_DEFAULT CYCLES_LDMIA ERRORS_DEFAULT;
  row 0x8DA "LDMIA u" CLASS_DEFAULT CYCLES_LDMIA ERRORS_DEFAULT;
  row 0x8DB "LDMIA u" CLASS_DEFAULT CYCLES_LDMIA ERRORS_DEFAULT;
  row 0x8DC "LDMIA u" CLASS_DEFAULT CYCLES_LDMIA ERRORS_DEFAULT;
  row 0x8DD "LDMIA u" CLASS_DEFAULT CYCLES_LDMIA ERRORS_DEFAULT;
  row 0x8DE "LDMIA u" CLASS_DEFAULT CYCLES_LDMIA ERRORS_DEFAULT;
  row 0x8DF "LDMIA u" CLASS_DEFAULT CYCLES_LDMIA ERRORS_DEFAULT;
  row 0x8E0 "STMIA uw" CLASS_DEFAULT CYCLES_STMIA ERRORS_DEFAULT;
  row 0x8E1 "STMIA uw" CLASS_DEFAULT CYCLES_STMIA ERRORS_DEFAULT;
  row 0x8E2 "STMIA uw" CLASS_DEFAULT CYCLES_STMIA ERRORS_DEFAULT;
  row 0x8E3 "STMIA uw" CLASS_DEFAULT CYCLES_STMIA ERRORS_DEFAULT;
  row 0x8E4 "STMIA uw" CLASS_DEFAULT CYCLES_STMIA ERRORS_DEFAULT;
  row 0x8E5 "STMIA uw" CLASS_DEFAULT CYCLES_STMIA ERRORS_DEFAULT;
  row 0x8E6 "STMIA uw" CLASS_DEFAULT CYCLES_STMIA ERRORS_DEFAULT;
  row 0x8E7 "STMIA uw" CLASS_DEFAULT CYCLES_STMIA ERRORS_DEFAULT;
  row 0x8E8 "STMIA uw" CLASS_DEFAULT CYCLES_STMIA ERRORS_DEFAULT;
  row 0x8E9 "STMIA uw" CLASS_DEFAULT CYCLES_STMIA ERRORS_DEFAULT;
  row 0x8EA "STMIA uw" CLASS_DEFAULT CYCLES_STMIA ERRORS_DEFAULT;
  row 0x8EB "STMIA uw" CLASS_DEFAULT CYCLES_STMIA ERRORS_DEFAULT;
  row 0x8EC "STMIA uw" CLASS_DEFAULT CYCLES_STMIA ERRORS_DEFAULT;
  row 0x8ED "STMIA uw" CLASS_DEFAULT CYCLES_STMIA ERRORS_DEFAULT;
  row 0x8EE "STMIA uw" CLASS_DEFAULT CYCLES_STMIA ERRORS_DEFAULT;
  row 0x8EF "STMIA uw" CLASS_DEFAULT CYCLES_STMIA ERRORS_DEFAULT;
  row 0x8F0 "LDMIA uw" CLASS_DEFAULT CYCLES_LDMIA ERRORS_DEFAULT;
  row 0x8F1 "LDMIA uw" CLASS_DEFAULT CYCLES_LDMIA ERRORS_DEFAULT;
  row 0x8F2 "LDMIA uw" CLASS_DEFAULT CYCLES_LDMIA ERRORS_DEFAULT;
  row 0x8F3 "LDMIA uw" CLASS_DEFAULT CYCLES_LDMIA ERRORS_DEFAULT;
  row 0x8F4 "LDMIA uw" CLASS_DEFAULT CYCLES_LDMIA ERRORS_DEFAULT;
  row 0x8F5 "LDMIA uw" CLASS_DEFAULT CYCLES_LDMIA ERRORS_DEFAULT;
  row 0x8F6 "LDMIA uw" CLASS_DEFAULT CYCLES_LDMIA ERRORS_DEFAULT;
  row 0x8F7 "LDMIA uw" CLASS_DEFAULT CYCLES_LDMIA ERRORS_DEFAULT;
  row 0x8F8 "LDMIA uw" CLASS_DEFAULT CYCLES_LDMIA ERRORS_DEFAULT;
  row 0x8F9 "LDMIA uw" CLASS_DEFAULT CYCLES_LDMIA ERRORS_DEFAULT;
  row 0x8FA "LDMIA uw" CLASS_DEFAULT CYCLES_LDMIA ERRORS_DEFAULT;
  row 0x8FB "LDMIA uw" CLASS_DEFAULT CYCLES_LDMIA ERRORS_DEFAULT;
  row 0x8FC "LDMIA uw" CLASS_DEFAULT CYCLES_LDMIA ERRORS_DEFAULT;
  row 0x8FD "LDMIA uw" CLASS_DEFAULT CYCLES_LDMIA ERRORS_DEFAULT;
  row 0x8FE "LDMIA uw" CLASS_DEFAULT CYCLES_LDMIA ERRORS_DEFAULT;
  row 0x8FF "LDMIA uw" CLASS_DEFAULT CYCLES_LDMIA ERRORS_DEFAULT].

Definition vemu_arm_instr_18 : list vemu_instr_info := [
  row 0x900 "STMDB" CLASS_DEFAULT CYCLES_STMDB ERRORS_DEFAULT;
  row 0x901 "STMDB" CLASS_DEFAULT CYCLES_STMDB ERRORS_DEFAULT;
  row 0x902 "STMDB" CLASS_DEFAULT CYCLES_STMDB ERRORS_DEFAULT;
  row 0x903 "STMDB" CLASS_DEFAULT CYCLES_STMDB ERRORS_DEFAULT;
  row 0x904 "STMDB" CLASS_DEFAULT CYCLES_STMDB ERRORS_DEFAULT;
  row 0x905 "STMDB" CLASS_DEFAULT CYCLES_STMDB ERRORS_DEFAULT;
  row 0x906 "STMDB" CLASS_DEFAULT CYCLES_STMDB ERRORS_DEFAULT;
  row 0x907 "STMDB" CLASS_DEFAULT CYCLES_STMDB ERRORS_DEFAULT;
  row 0x908 "STMDB" CLASS_DEFAULT CYCLES_STMDB ERRORS_DEFAULT;
  row 0x909 "STMDB" CLASS_DEFAULT CYCLES_STMDB ERRORS_DEFAULT;
  row 0x90A "STMDB" CLASS_DEFAULT CYCLES_STMDB ERRORS_DEFAULT;
  row 0x90B "STMDB" CLASS_DEFAULT CYCLES_STMDB ERRORS_DEFAULT;
  row 0x90C "STMDB" CLASS_DEFAULT CYCLES_STMDB ERRORS_DEFAULT;
  row 0x90D "STMDB" CLASS_DEFAULT CYCLES_STMDB ERRORS_DEFAULT;
  row 0x90E "STMDB" CLASS_DEFAULT CYCLES_STMDB ERRORS_DEFAULT;
  row 0x90F "STMDB" CLASS_DEFAULT CYCLES_STMDB ERRORS_DEFAULT;
  row 0x910 "LDMDB" CLASS_DEFAULT CYCLES_LDMDB ERRORS_DEFAULT;
  row 0x911 "LDMDB" CLASS_DEFAULT CYCLES_LDMDB ERRORS_DEFAULT;
  row 0x912 "LDMDB" CLASS_DEFAULT CYCLES_LDMDB ERRORS_DEFAULT;
  row 0x913 "LDMDB" CLASS_DEFAULT CYCLES_LDMDB ERRORS_DEFAULT;
  row 0x914 "LDMDB" CLASS_DEFAULT CYCLES_LDMDB ERRORS_DEFAULT;
  row 0x915 "LDMDB" CLASS_DEFAULT CYCLES_LDMDB ERRORS_DEFAULT;
  row 0x916 "LDMDB" CLASS_DEFAULT CYCLES_LDMDB ERRORS_DEFAULT;
  row 0x917 "LDMDB" CLASS_DEFAULT CYCLES_LDMDB ERRORS_DEFAULT;
  row 0x918 "LDMDB" CLASS_DEFAULT CYCLES_LDMDB ERRORS_DEFAULT;
  row 0x919 "LDMDB" CLASS_DEFAULT CYCLES_LDMDB ERRORS_DEFAULT;
  row 0x91A "LDMDB" CLASS_DEFAULT CYCLES_LDMDB ERRORS_DEFAULT;
  row 0x91B "LDMDB" CLASS_DEFAULT CYCLES_LDMDB ERRORS_DEFAULT;
  row 0x91C "LDMDB" CLASS_DEFAULT CYCLES_LDMDB ERRORS_DEFAULT;
  row 0x91D "LDMDB" CLASS_DEFAULT CYCLES_LDMDB ERRORS_DEFAULT;
  row 0x91E "LDMDB" CLASS_DEFAULT CYCLES_LDMDB ERRORS_DEFAULT;
  row 0x91F "LDMDB" CLASS_DEFAULT CYCLES_LDMDB ERRORS_DEFAULT;
  row 0x920 "STMDB w" CLASS_DEFAULT CYCLES_STMDB ERRORS_DEFAULT;
  row 0x921 "STMDB w" CLASS_DEFAULT CYCLES_STMDB ERRORS_DEFAULT;
  row 0x922 "STMDB w" CLASS_DEFAULT CYCLES_STMDB ERRORS_DEFAULT;
  row 0x923 "STMDB w" CLASS_DEFAULT CYCLES_STMDB ERRORS_DEFAULT;
  row 0x924 "STMDB w" CLASS_DEFAULT CYCLES_STMDB ERRORS_DEFAULT;
  row 0x925 "STMDB w" CLASS_DEFAULT CYCLES_STMDB ERRORS_DEFAULT;
  row 0x926 "STMDB w" CLASS_DEFAULT CYCLES_STMDB ERRORS_DEFAULT;
  row 0x927 "STMDB w" CLASS_DEFAULT CYCLES_STMDB ERRORS_DEFAULT;
  row 0x928 "STMDB w" CLASS_DEFAULT CYCLES_STMDB ERRORS_DEFAULT;
  row 0x929 "STMDB w" CLASS_DEFAULT CYCLES_STMDB ERRORS_DEFAULT;
  row 0x92A "STMDB w" CLASS_DEFAULT CYCLES_STMDB ERRORS_DEFAULT;
  row 0x92B "STMDB w" CLASS_DEFAULT CYCLES_STMDB ERRORS_DEFAULT;
  row 0x92C "STMDB w" CLASS_DEFAULT CYCLES_STMDB ERRORS_DEFAULT;
  row 0x92D "STMDB w" CLASS_DEFAULT CYCLES_STMDB ERRORS_DEFAULT;
  row 0x92E "STMDB w" CLASS_DEFAULT CYCLES_STMDB ERRORS_DEFAULT;
  row 0x92F "STMDB w" CLASS_DEFAULT CYCLES_STMDB ERRORS_DEFAULT;
  row 0x930 "LDMDB w" CLASS_DEFAULT CYCLES_LDMDB ERRORS_DEFAULT;
  row 0x931 "LDMDB w" CLASS_DEFAULT CYCLES_LDMDB ERRORS_DEFAULT;
  row 0x932 "LDMDB w" CLASS_DEFAULT CYCLES_LDMDB ERRORS_DEFAULT;
  row 0x933 "LDMDB w" CLASS_DEFAULT CYCLES_LDMDB ERRORS_DEFAULT;
  row 0x934 "LDMDB w" CLASS_DEFAULT CYCLES_LDMDB ERRORS_DEFAULT;
  row 0x935 "LDMDB w" CLASS_DEFAULT CYCLES_LDMDB ERRORS_DEFAULT;
  row 0x936 "LDMDB w" CLASS_DEFAULT CYCLES_LDMDB ERRORS_DEFAULT;
  row 0x937 "LDMDB w" CLASS_DEFAULT CYCLES_LDMDB ERRORS_DEFAULT;
  row 0x938 "LDMDB w" CLASS_DEFAULT CYCLES_LDMDB ERRORS_DEFAULT;
  row 0x939 "LDMDB w" CLASS_DEFAULT CYCLES_LDMDB ERRORS_DEFAULT;
  row 0x93A "LDMDB w" CLASS_DEFAULT CYCLES_LDMDB ERRORS_DEFAULT;
  row 0x93B "LDMDB w" CLASS_DEFAULT CYCLES_LDMDB ERRORS_DEFAULT;
  row 0x93C "LDMDB w" CLASS_DEFAULT CYCLES_LDMDB ERRORS_DEFAULT;
  row 0x93D "LDMDB w" CLASS_DEFAULT CYCLES_LDMDB ERRORS_DEFAULT;
  row 0x93E "LDMDB w" CLASS_DEFAULT CYCLES_LDMDB ERRORS_DEFAULT;
  row 0x93F "LDMDB w" CLASS_DEFAULT CYCLES_LDMDB ERRORS_DEFAULT;
  row 0x940 "STMDB u" CLASS_DEFAULT CYCLES_STMDB ERRORS_DEFAULT;
  row 0x941 "STMDB u" CLASS_DEFAULT CYCLES_STMDB ERRORS_DEFAULT;
  row 0x942 "STMDB u" CLASS_DEFAULT CYCLES_STMDB ERRORS_DEFAULT;
  row 0x943 "STMDB u" CLASS_DEFAULT CYCLES_STMDB ERRORS_DEFAULT;
  row 0x944 "STMDB u" CLASS_DEFAULT CYCLES_STMDB ERRORS_DEFAULT;
  row 0x945 "STMDB u" CLASS_DEFAULT CYCLES_STMDB ERRORS_DEFAULT;
  row 0x946 "STMDB u" CLASS_DEFAULT CYCLES_STMDB ERRORS_DEFAULT;
  row 0x947 "STMDB u" CLASS_DEFAULT CYCLES_STMDB ERRORS_DEFAULT;
  row 0x948 "STMDB u" CLASS_DEFAULT CYCLES_STMDB ERRORS_DEFAULT;
  row 0x949 "STMDB u" CLASS_DEFAULT CYCLES_STMDB ERRORS_DEFAULT;
  row 0x94A "STMDB u" CLASS_DEFAULT CYCLES_STMDB ERRORS_DEFAULT;
  row 0x94B "STMDB u" CLASS_DEFAULT CYCLES_STMDB ERRORS_DEFAULT;
  row 0x94C "STMDB u" CLASS_DEFAULT CYCLES_STMDB ERRORS_DEFAULT;
  row 0x94D "STMDB u" CLASS_DEFAULT CYCLES_STMDB ERRORS_DEFAULT;
  row 0x94E "STMDB u" CLASS_DEFAULT CYCLES_STMDB ERRORS_DEFAULT;
  row 0x94F "STMDB u" CLASS_DEFAULT CYCLES_STMDB ERRORS_DEFAULT;
  row 0x950 "LDMDB u" CLASS_DEFAULT CYCLES_LDMDB ERRORS_DEFAULT;
  row 0x951 "LDMDB u" CLASS_DEFAULT CYCLES_LDMDB ERRORS_DEFAULT;
  row 0x952 "LDMDB u" CLASS_DEFAULT CYCLES_LDMDB ERRORS_DEFAULT;
  row 0x953 "LDMDB u" CLASS_DEFAULT CYCLES_LDMDB ERRORS_DEFAULT;
  row 0x954 "LDMDB u" CLASS_DEFAULT CYCLES_LDMDB ERRORS_DEFAULT;
  row 0x955 "LDMDB u" CLASS_DEFAULT CYCLES_LDMDB ERRORS_DEFAULT;
  row 0x956 "LDMDB u" CLASS_DEFAULT CYCLES_LDMDB ERRORS_DEFAULT;
  row 0x957 "LDMDB u" CLASS_DEFAULT CYCLES_LDMDB ERRORS_DEFAULT;
  row 0x958 "LDMDB u" CLASS_DEFAULT CYCLES_LDMDB ERRORS_DEFAULT;
  row 0x959 "LDMDB u" CLASS_DEFAULT CYCLES_LDMDB ERRORS_DEFAULT;
  row 0x95A "LDMDB u" CLASS_DEFAULT CYCLES_LDMDB ERRORS_DEFAULT;
  row 0x95B "LDMDB u" CLASS_DEFAULT CYCLES_LDMDB ERRORS_DEFAULT;
  row 0x95C "LDMDB u" CLASS_DEFAULT CYCLES_LDMDB ERRORS_DEFAULT;
  row 0x95D "LDMDB u" CLASS_DEFAULT CYCLES_LDMDB ERRORS_DEFAULT;
  row 0x95E "LDMDB u" CLASS_DEFAULT CYCLES_LDMDB ERRORS_DEFAULT;
  row 0x95F "LDMDB u" CLASS_DEFAULT CYCLES_LDMDB ERRORS_DEFAULT;
  row 0x960 "STMDB uw" CLASS_DEFAULT CYCLES_STMDB ERRORS_DEFAULT;
  row 0x961 "STMDB uw" CLASS_DEFAULT CYCLES_STMDB ERRORS_DEFAULT;
  row 0x962 "STMDB uw" CLASS_DEFAULT CYCLES_STMDB ERRORS_DEFAULT;
  row 0x963 "STMDB uw" CLASS_DEFAULT CYCLES_STMDB ERRORS_DEFAULT;
  row 0x964 "STMDB uw" CLASS_DEFAULT CYCLES_STMDB ERRORS_DEFAULT;
  row 0x965 "STMDB uw" CLASS_DEFAULT CYCLES_STMDB ERRORS_DEFAULT;
  row 0x966 "STMDB uw" CLASS_DEFAULT CYCLES_STMDB ERRORS_DEFAULT;
  row 0x967 "STMDB uw" CLASS_DEFAULT CYCLES_STMDB ERRORS_DEFAULT;
  row 0x968 "STMDB uw" CLASS_DEFAULT CYCLES_STMDB ERRORS_DEFAULT;
  row 0x969 "STMDB uw" CLASS_DEFAULT CYCLES_STMDB ERRORS_DEFAULT;
  row 0x96A "STMDB uw" CLASS_DEFAULT CYCLES_STMDB ERRORS_DEFAULT;
  row 0x96B "STMDB uw" CLASS_DEFAULT CYCLES_STMDB ERRORS_DEFAULT;
  row 0x96C "STMDB uw" CLASS_DEFAULT CYCLES_STMDB ERRORS_DEFAULT;
  row 0x96D "STMDB uw" CLASS_DEFAULT CYCLES_STMDB ERRORS_DEFAULT;
  row 0x96E "STMDB uw" CLASS_DEFAULT CYCLES_STMDB ERRORS_DEFAULT;
  row 0x96F "STMDB uw" CLASS_DEFAULT CYCLES_STMDB ERRORS_DEFAULT;
  row 0x970 "LDMDB uw" CLASS_DEFAULT CYCLES_LDMDB ERRORS_DEFAULT;
  row 0x971 "LDMDB uw" CLASS_DEFAULT CYCLES_LDMDB ERRORS_DEFAULT;
  row 0x972 "LDMDB uw" CLASS_DEFAULT CYCLES_LDMDB ERRORS_DEFAULT;
  row 0x973 "LDMDB uw" CLASS_DEFAULT CYCLES_LDMDB ERRORS_DEFAULT;
  row 0x974 "LDMDB uw" CLASS_DEFAULT CYCLES_LDMDB ERRORS_DEFAULT;
  row 0x975 "LDMDB uw" CLASS_DEFAULT CYCLES_LDMDB ERRORS_DEFAULT;
  row 0x976 "LDMDB uw" CLASS_DEFAULT CYCLES_LDMDB ERRORS_DEFAULT;
  row 0x977 "LDMDB uw" CLASS_DEFAULT CYCLES_LDMDB ERRORS_DEFAULT;
  row 0x978 "LDMDB uw" CLASS_DEFAULT CYCLES_LDMDB ERRORS_DEFAULT;
  row 0x979 "LDMDB uw" CLASS_DEFAULT CYCLES_LDMDB ERRORS_DEFAULT;
  row 0x97A "LDMDB uw" CLASS_DEFAULT CYCLES_LDMDB ERRORS_DEFAULT;
  row 0x97B "LDMDB uw" CLASS_DEFAULT CYCLES_LDMDB ERRORS_DEFAULT;
  row 0x97C "LDMDB uw" CLASS_DEFAULT CYCLES_LDMDB ERRORS_DEFAULT;
  row 0x97D "LDMDB uw" CLASS_DEFAULT CYCLES_LDMDB ERRORS_DEFAULT;
  row 0x97E "LDMDB uw" CLASS_DEFAULT CYCLES_LDMDB ERRORS_DEFAULT;
  row 0x97F "LDMDB uw" CLASS_DEFAULT CYCLES_LDMDB ERRORS_DEFAULT].

Definition vemu_arm_instr_19 : list vemu_instr_info := [
  row 0x980 "STMIB" CLASS_DEFAULT CYCLES_STMIB ERRORS_DEFAULT;
  row 0x981 "STMIB" CLASS_DEFAULT CYCLES_STMIB ERRORS_DEFAULT;
  row 0x982 "STMIB" CLASS_DEFAULT CYCLES_STMIB ERRORS_DEFAULT;
  row 0x983 "STMIB" CLASS_DEFAULT CYCLES_STMIB ERRORS_DEFAULT;
  row 0x984 "STMIB" CLASS_DEFAULT CYCLES_STMIB ERRORS_DEFAULT;
  row 0x985 "STMIB" CLASS_DEFAULT CYCLES_STMIB ERRORS_DEFAULT;
  row 0x986 "STMIB" CLASS_DEFAULT CYCLES_STMIB ERRORS_DEFAULT;
  row 0x987 "STMIB" CLASS_DEFAULT CYCLES_STMIB ERRORS_DEFAULT;
  row 0x988 "STMIB" CLASS_DEFAULT CYCLES_STMIB ERRORS_DEFAULT;
  row 0x989 "STMIB" CLASS_DEFAULT CYCLES_STMIB ERRORS_DEFAULT;
  row 0x98A "STMIB" CLASS_DEFAULT CYCLES_STMIB ERRORS_DEFAULT;
  row 0x98B "STMIB" CLASS_DEFAULT CYCLES_STMIB ERRORS_DEFAULT;
  row 0x98C "STMIB" CLASS_DEFAULT CYCLES_STMIB ERRORS_DEFAULT;
  row 0x98D "STMIB" CLASS_DEFAULT CYCLES_STMIB ERRORS_DEFAULT;
  row 0x98E "STMIB" CLASS_DEFAULT CYCLES_STMIB ERRORS_DEFAULT;
  row 0x98F "STMIB" CLASS_DEFAULT CYCLES_STMIB ERRORS_DEFAULT;
  row 0x990 "LDMIB" CLASS_DEFAULT CYCLES_LDMIB ERRORS_DEFAULT;
  row 0x991 "LDMIB" CLASS_DEFAULT CYCLES_LDMIB ERRORS_DEFAULT;
  row 0x992 "LDMIB" CLASS_DEFAULT CYCLES_LDMIB ERRORS_DEFAULT;
  row 0x993 "LDMIB" CLASS_DEFAULT CYCLES_LDMIB ERRORS_DEFAULT;
  row 0x994 "LDMIB" CLASS_DEFAULT CYCLES_LDMIB ERRORS_DEFAULT;
  row 0x995 "LDMIB" CLASS_DEFAULT CYCLES_LDMIB ERRORS_DEFAULT;
  row 0x996 "LDMIB" CLASS_DEFAULT CYCLES_LDMIB ERRORS_DEFAULT;
  row 0x997 "LDMIB" CLASS_DEFAULT CYCLES_LDMIB ERRORS_DEFAULT;
  row 0x998 "LDMIB" CLASS_DEFAULT CYCLES_LDMIB ERRORS_DEFAULT;
  row 0x999 "LDMIB" CLASS_DEFAULT CYCLES_LDMIB ERRORS_DEFAULT;
  row 0x99A "LDMIB" CLASS_DEFAULT CYCLES_LDMIB ERRORS_DEFAULT;
  row 0x99B "LDMIB" CLASS_DEFAULT CYCLES_LDMIB ERRORS_DEFAULT;
  row 0x99C "LDMIB" CLASS_DEFAULT CYCLES_LDMIB ERRORS_DEFAULT;
  row 0x99D "LDMIB" CLASS_DEFAULT CYCLES_LDMIB ERRORS_DEFAULT;
  row 0x99E "LDMIB" CLASS_DEFAULT CYCLES_LDMIB ERRORS_DEFAULT;
  row 0x99F "LDMIB" CLASS_DEFAULT CYCLES_LDMIB ERRORS_DEFAULT;
  row 0x9A0 "STMIB w" CLASS_DEFAULT CYCLES_STMIB ERRORS_DEFAULT;
  row 0x9A1 "STMIB w" CLASS_DEFAULT CYCLES_STMIB ERRORS_DEFAULT;
  row 0x9A2 "STMIB w" CLASS_DEFAULT CYCLES_STMIB ERRORS_DEFAULT;
  row 0x9A3 "STMIB w" CLASS_DEFAULT CYCLES_STMIB ERRORS_DEFAULT;
  row 0x9A4 "STMIB w" CLASS_DEFAULT CYCLES_STMIB ERRORS_DEFAULT;
  row 0x9A5 "STMIB w" CLASS_DEFAULT CYCLES_STMIB ERRORS_DEFAULT;
  row 0x9A6 "STMIB w" CLASS_DEFAULT CYCLES_STMIB ERRORS_DEFAULT;
  row 0x9A7 "STMIB w" CLASS_DEFAULT CYCLES_STMIB ERRORS_DEFAULT;
  row 0x9A8 "STMIB w" CLASS_DEFAULT CYCLES_STMIB ERRORS_DEFAULT;
  row 0x9A9 "STMIB w" CLASS_DEFAULT CYCLES_STMIB ERRORS_DEFAULT;
  row 0x9AA "STMIB w" CLASS_DEFAULT CYCLES_STMIB ERRORS_DEFAULT;
  row 0x9AB "STMIB w" CLASS_DEFAULT CYCLES_STMIB ERRORS_DEFAULT;
  row 0x9AC "STMIB w" CLASS_DEFAULT CYCLES_STMIB ERRORS_DEFAULT;
  row 0x9AD "STMIB w" CLASS_DEFAULT CYCLES_STMIB ERRORS_DEFAULT;
  row 0x9AE "STMIB w" CLASS_DEFAULT CYCLES_STMIB ERRORS_DEFAULT;
  row 0x9AF "STMIB w" CLASS_DEFAULT CYCLES_STMIB ERRORS_DEFAULT;
  row 0x9B0 "LDMIB w" CLASS_DEFAULT CYCLES_LDMIB ERRORS_DEFAULT;
  row 0x9B1 "LDMIB w" CLASS_DEFAULT CYCLES_LDMIB ERRORS_DEFAULT;
  row 0x9B2 "LDMIB w" CLASS_DEFAULT CYCLES_LDMIB ERRORS_DEFAULT;
  row 0x9B3 "LDMIB w" CLASS_DEFAULT CYCLES_LDMIB ERRORS_DEFAULT;
  row 0x9B4 "LDMIB w" CLASS_DEFAULT CYCLES_LDMIB ERRORS_DEFAULT;
  row 0x9B5 "LDMIB w" CLASS_DEFAULT CYCLES_LDMIB ERRORS_DEFAULT;
  row 0x9B6 "LDMIB w" CLASS_DEFAULT CYCLES_LDMIB ERRORS_DEFAULT;
  row 0x9B7 "LDMIB w" CLASS_DEFAULT CYCLES_LDMIB ERRORS_DEFAULT;
  row 0x9B8 "LDMIB w" CLASS_DEFAULT CYCLES_LDMIB ERRORS_DEFAULT;
  row 0x9B9 "LDMIB w" CLASS_DEFAULT CYCLES_LDMIB ERRORS_DEFAULT;
  row 0x9BA "LDMIB w" CLASS_DEFAULT CYCLES_LDMIB ERRORS_DEFAULT;
  row 0x9BB "LDMIB w" CLASS_DEFAULT CYCLES_LDMIB ERRORS_DEFAULT;
  row 0x9BC "LDMIB w" CLASS_DEFAULT CYCLES_LDMIB ERRORS_DEFAULT;
  row 0x9BD "LDMIB w" CLASS_DEFAULT CYCLES_LDMIB ERRORS_DEFAULT;
  row 0x9BE "LDMIB w" CLASS_DEFAULT CYCLES_LDMIB ERRORS_DEFAULT;
  row 0x9BF "LDMIB w" CLASS_DEFAULT CYCLES_LDMIB ERRORS_DEFAULT;
  row 0x9C0 "STMIB u" CLASS_DEFAULT CYCLES_STMIB ERRORS_DEFAULT;
  row 0x9C1 "STMIB u" CLASS_DEFAULT CYCLES_STMIB ERRORS_DEFAULT;
  row 0x9C2 "STMIB u" CLASS_DEFAULT CYCLES_STMIB ERRORS_DEFAULT;
  row 0x9C3 "STMIB u" CLASS_DEFAULT CYCLES_STMIB ERRORS_DEFAULT;
  row 0x9C4 "STMIB u" CLASS_DEFAULT CYCLES_STMIB ERRORS_DEFAULT;
  row 0x9C5 "STMIB u" CLASS_DEFAULT CYCLES_STMIB ERRORS_DEFAULT;
  row 0x9C6 "STMIB u" CLASS_DEFAULT CYCLES_STMIB ERRORS_DEFAULT;
  row 0x9C7 "STMIB u" CLASS_DEFAULT CYCLES_STMIB ERRORS_DEFAULT;
  row 0x9C8 "STMIB u" CLASS_DEFAULT CYCLES_STMIB ERRORS_DEFAULT;
  row 0x9C9 "STMIB u" CLASS_DEFAULT CYCLES_STMIB ERRORS_DEFAULT;
  row 0x9CA "STMIB u" CLASS_DEFAULT CYCLES_STMIB ERRORS_DEFAULT;
  row 0x9CB "STMIB u" CLASS_DEFAULT CYCLES_STMIB ERRORS_DEFAULT;
  row 0x9CC "STMIB u" CLASS_DEFAULT CYCLES_STMIB ERRORS_DEFAULT;
  row 0x9CD "STMIB u" CLASS_DEFAULT CYCLES_STMIB ERRORS_DEFAULT;
  row 0x9CE "STMIB u" CLASS_DEFAULT CYCLES_STMIB ERRORS_DEFAULT;
  row 0x9CF "STMIB u" CLASS_DEFAULT CYCLES_STMIB ERRORS_DEFAULT;
  row 0x9D0 "LDMIB u" CLASS_DEFAULT CYCLES_LDMIB ERRORS_DEFAULT;
  row 0x9D1 "LDMIB u" CLASS_DEFAULT CYCLES_LDMIB ERRORS_DEFAULT;
  row 0x9D2 "LDMIB u" CLASS_DEFAULT CYCLES_LDMIB ERRORS_DEFAULT;
  row 0x9D3 "LDMIB u" CLASS_DEFAULT CYCLES_LDMIB ERRORS_DEFAULT;
  row 0x9D4 "LDMIB u" CLASS_DEFAULT CYCLES_LDMIB ERRORS_DEFAULT;
  row 0x9D5 "LDMIB u" CLASS_DEFAULT CYCLES_LDMIB ERRORS_DEFAULT;
  row 0x9D6 "LDMIB u" CLASS_DEFAULT CYCLES_LDMIB ERRORS_DEFAULT;
  row 0x9D7 "LDMIB u" CLASS_DEFAULT CYCLES_LDMIB ERRORS_DEFAULT;
  row 0x9D8 "LDMIB u" CLASS_DEFAULT CYCLES_LDMIB ERRORS_DEFAULT;
  row 0x9D9 "LDMIB u" CLASS_DEFAULT CYCLES_LDMIB ERRORS_DEFAULT;
  row 0x9DA "LDMIB u" CLASS_DEFAULT CYCLES_LDMIB ERRORS_DEFAULT;
  row 0x9DB "LDMIB u" CLASS_DEFAULT CYCLES_LDMIB ERRORS_DEFAULT;
  row 0x9DC "LDMIB u" CLASS_DEFAULT CYCLES_LDMIB ERRORS_DEFAULT;
  row 0x9DD "LDMIB u" CLASS_DEFAULT CYCLES_LDMIB ERRORS_DEFAULT;
  row 0x9DE "LDMIB u" CLASS_DEFAULT CYCLES_LDMIB ERRORS_DEFAULT;
  row 0x9DF "LDMIB u" CLASS_DEFAULT CYCLES_LDMIB ERRORS_DEFAULT;
  row 0x9E0 "STMIB uw" CLASS_DEFAULT CYCLES_STMIB ERRORS_DEFAULT;
  row 0x9E1 "STMIB uw" CLASS_DEFAULT CYCLES_STMIB ERRORS_DEFAULT;
  row 0x9E2 "STMIB uw" CLASS_DEFAULT CYCLES_STMIB ERRORS_DEFAULT;
  row 0x9E3 "STMIB uw" CLASS_DEFAULT CYCLES_STMIB ERRORS_DEFAULT;
  row 0x9E4 "STMIB uw" CLASS_DEFAULT CYCLES_STMIB ERRORS_DEFAULT;
  row 0x9E5 "STMIB uw" CLASS_DEFAULT CYCLES_STMIB ERRORS_DEFAULT;
  row 0x9E6 "STMIB uw" CLASS_DEFAULT CYCLES_STMIB ERRORS_DEFAULT;
  row 0x9E7 "STMIB uw" CLASS_DEFAULT CYCLES_STMIB ERRORS_DEFAULT;
  row 0x9E8 "STMIB uw" CLASS_DEFAULT CYCLES_STMIB ERRORS_DEFAULT;
  row 0x9E9 "STMIB uw" CLASS_DEFAULT CYCLES_STMIB ERRORS_DEFAULT;
  row 0x9EA "STMIB uw" CLASS_DEFAULT CYCLES_STMIB ERRORS_DEFAULT;
  row 0x9EB "STMIB uw" CLASS_DEFAULT CYCLES_STMIB ERRORS_DEFAULT;
  row 0x9EC "STMIB uw" CLASS_DEFAULT CYCLES_STMIB ERRORS_DEFAULT;
  row 0x9ED "STMIB uw" CLASS_DEFAULT CYCLES_STMIB ERRORS_DEFAULT;
  row 0x9EE "STMIB uw" CLASS_DEFAULT CYCLES_STMIB ERRORS_DEFAULT;
  row 0x9EF "STMIB uw" CLASS_DEFAULT CYCLES_STMIB ERRORS_DEFAULT;
  row 0x9F0 "LDMIB uw" CLASS_DEFAULT CYCLES_LDMIB ERRORS_DEFAULT;
  row 0x9F1 "LDMIB uw" CLASS_DEFAULT CYCLES_LDMIB ERRORS_DEFAULT;
  row 0x9F2 "LDMIB uw" CLASS_DEFAULT CYCLES_LDMIB ERRORS_DEFAULT;
  row 0x9F3 "LDMIB uw" CLASS_DEFAULT CYCLES_LDMIB ERRORS_DEFAULT;
  row 0x9F4 "LDMIB uw" CLASS_DEFAULT CYCLES_LDMIB ERRORS_DEFAULT;
  row 0x9F5 "LDMIB uw" CLASS_DEFAULT CYCLES_LDMIB ERRORS_DEFAULT;
  row 0x9F6 "LDMIB uw" CLASS_DEFAULT CYCLES_LDMIB ERRORS_DEFAULT;
  row 0x9F7 "LDMIB uw" CLASS_DEFAULT CYCLES_LDMIB ERRORS_DEFAULT;
  row 0x9F8 "LDMIB uw" CLASS_DEFAULT CYCLES_LDMIB ERRORS_DEFAULT;
  row 0x9F9 "LDMIB uw" CLASS_DEFAULT CYCLES_LDMIB ERRORS_DEFAULT;
  row 0x9FA "LDMIB uw" CLASS_DEFAULT CYCLES_LDMIB ERRORS_DEFAULT;
  row 0x9FB "LDMIB uw" CLASS_DEFAULT CYCLES_LDMIB ERRORS_DEFAULT;
  row 0x9FC "LDMIB uw" CLASS_DEFAULT CYCLES_LDMIB ERRORS_DEFAULT;
  row 0x9FD "LDMIB uw" CLASS_DEFAULT CYCLES_LDMIB ERRORS_DEFAULT;
  row 0x9FE "LDMIB uw" CLASS_DEFAULT CYCLES_LDMIB ERRORS_DEFAULT;
  row 0x9FF "LDMIB uw" CLASS_DEFAULT CYCLES_LDMIB ERRORS_DEFAULT].

Definition vemu_arm_instr_20 : list vemu_instr_info := [
  row 0xA00 "B" CLASS_DEFAULT CYCLES_B ERRORS_DEFAULT;
  row 0xA01 "B" CLASS_DEFAULT CYCLES_B ERRORS_DEFAULT;
  row 0xA02 "B" CLASS_DEFAULT CYCLES_B ERRORS_DEFAULT;
  row 0xA03 "B" CLASS_DEFAULT CYCLES_B ERRORS_DEFAULT;
  row 0xA04 "B" CLASS_DEFAULT CYCLES_B ERRORS_DEFAULT;
  row 0xA05 "B" CLASS_DEFAULT CYCLES_B ERRORS_DEFAULT;
  row 0xA06 "B" CLASS_DEFAULT CYCLES_B ERRORS_DEFAULT;
  row 0xA07 "B" CLASS_DEFAULT CYCLES_B ERRORS_DEFAULT;
  row 0xA08 "B" CLASS_DEFAULT CYCLES_B ERRORS_DEFAULT;
  row 0xA09 "B" CLASS_DEFAULT CYCLES_B ERRORS_DEFAULT;
  row 0xA0A "B" CLASS_DEFAULT CYCLES_B ERRORS_DEFAULT;
  row 0xA0B "B" CLASS_DEFAULT CYCLES_B ERRORS_DEFAULT;
  row 0xA0C "B" CLASS_DEFAULT CYCLES_B ERRORS_DEFAULT;
  row 0xA0D "B" CLASS_DEFAULT CYCLES_B ERRORS_DEFAULT;
  row 0xA0E "B" CLASS_DEFAULT CYCLES_B ERRORS_DEFAULT;
  row 0xA0F "B" CLASS_DEFAULT CYCLES_B ERRORS_DEFAULT;
  row 0xA10 "B" CLASS_DEFAULT CYCLES_B ERRORS_DEFAULT;
  row 0xA11 "B" CLASS_DEFAULT CYCLES_B ERRORS_DEFAULT;
  row 0xA12 "B" CLASS_DEFAULT CYCLES_B ERRORS_DEFAULT;
  row 0xA13 "B" CLASS_DEFAULT CYCLES_B ERRORS_DEFAULT;
  row 0xA14 "B" CLASS_DEFAULT CYCLES_B ERRORS_DEFAULT;
  row 0xA15 "B" CLASS_DEFAULT CYCLES_B ERRORS_DEFAULT;
  row 0xA16 "B" CLASS_DEFAULT CYCLES_B ERRORS_DEFAULT;
  row 0xA17 "B" CLASS_DEFAULT CYCLES_B ERRORS_DEFAULT;
  row 0xA18 "B" CLASS_DEFAULT CYCLES_B ERRORS_DEFAULT;
  row 0xA19 "B" CLASS_DEFAULT CYCLES_B ERRORS_DEFAULT;
  row 0xA1A "B" CLASS_DEFAULT CYCLES_B ERRORS_DEFAULT;
  row 0xA1B "B" CLASS_DEFAULT CYCLES_B ERRORS_DEFAULT;
  row 0xA1C "B" CLASS_DEFAULT CYCLES_B ERRORS_DEFAULT;
  row 0xA1D "B" CLASS_DEFAULT CYCLES_B ERRORS_DEFAULT;
  row 0xA1E "B" CLASS_DEFAULT CYCLES_B ERRORS_DEFAULT;
  row 0xA1F "B" CLASS_DEFAULT CYCLES_B ERRORS_DEFAULT;
  row 0xA20 "B" CLASS_DEFAULT CYCLES_B ERRORS_DEFAULT;
  row 0xA21 "B" CLASS_DEFAULT CYCLES_B ERRORS_DEFAULT;
  row 0xA22 "B" CLASS_DEFAULT CYCLES_B ERRORS_DEFAULT;
  row 0xA23 "B" CLASS_DEFAULT CYCLES_B ERRORS_DEFAULT;
  row 0xA24 "B" CLASS_DEFAULT CYCLES_B ERRORS_DEFAULT;
  row 0xA25 "B" CLASS_DEFAULT CYCLES_B ERRORS_DEFAULT;
  row 0xA26 "B" CLASS_DEFAULT CYCLES_B ERRORS_DEFAULT;
  row 0xA27 "B" CLASS_DEFAULT CYCLES_B ERRORS_DEFAULT;
  row 0xA28 "B" CLASS_DEFAULT CYCLES_B ERRORS_DEFAULT;
  row 0xA29 "B" CLASS_DEFAULT CYCLES_B ERRORS_DEFAULT;
  row 0xA2A "B" CLASS_DEFAULT CYCLES_B ERRORS_DEFAULT;
  row 0xA2B "B" CLASS_DEFAULT CYCLES_B ERRORS_DEFAULT;
  row 0xA2C "B" CLASS_DEFAULT CYCLES_B ERRORS_DEFAULT;
  row 0xA2D "B" CLASS_DEFAULT CYCLES_B ERRORS_DEFAULT;
  row 0xA2E "B" CLASS_DEFAULT CYCLES_B ERRORS_DEFAULT;
  row 0xA2F "B" CLASS_DEFAULT CYCLES_B ERRORS_DEFAULT;
  row 0xA30 "B" CLASS_DEFAULT CYCLES_B ERRORS_DEFAULT;
  row 0xA31 "B" CLASS_DEFAULT CYCLES_B ERRORS_DEFAULT;
  row 0xA32 "B" CLASS_DEFAULT CYCLES_B ERRORS_DEFAULT;
  row 0xA33 "B" CLASS_DEFAULT CYCLES_B ERRORS_DEFAULT;
  row 0xA34 "B" CLASS_DEFAULT CYCLES_B ERRORS_DEFAULT;
  row 0xA35 "B" CLASS_DEFAULT CYCLES_B ERRORS_DEFAULT;
  row 0xA36 "B" CLASS_DEFAULT CYCLES_B ERRORS_DEFAULT;
  row 0xA37 "B" CLASS_DEFAULT CYCLES_B ERRORS_DEFAULT;
  row 0xA38 "B" CLASS_DEFAULT CYCLES_B ERRORS_DEFAULT;
  row 0xA39 "B" CLASS_DEFAULT CYCLES_B ERRORS_DEFAULT;
  row 0xA3A "B" CLASS_DEFAULT CYCLES_B ERRORS_DEFAULT;
  row 0xA3B "B" CLASS_DEFAULT CYCLES_B ERRORS_DEFAULT;
  row 0xA3C "B" CLASS_DEFAULT CYCLES_B ERRORS_DEFAULT;
  row 0xA3D "B" CLASS_DEFAULT CYCLES_B ERRORS_DEFAULT;
  row 0xA3E "B" CLASS_DEFAULT CYCLES_B ERRORS_DEFAULT;
  row 0xA3F "B" CLASS_DEFAULT CYCLES_B ERRORS_DEFAULT;
  row 0xA40 "B" CLASS_DEFAULT CYCLES_B ERRORS_DEFAULT;
  row 0xA41 "B" CLASS_DEFAULT CYCLES_B ERRORS_DEFAULT;
  row 0xA42 "B" CLASS_DEFAULT CYCLES_B ERRORS_DEFAULT;
  row 0xA43 "B" CLASS_DEFAULT CYCLES_B ERRORS_DEFAULT;
  row 0xA44 "B" CLASS_DEFAULT CYCLES_B ERRORS_DEFAULT;
  row 0xA45 "B" CLASS_DEFAULT CYCLES_B ERRORS_DEFAULT;
  row 0xA46 "B" CLASS_DEFAULT CYCLES_B ERRORS_DEFAULT;
  row 0xA47 "B" CLASS_DEFAULT CYCLES_B ERRORS_DEFAULT;
  row 0xA48 "B" CLASS_DEFAULT CYCLES_B ERRORS_DEFAULT;
  row 0xA49 "B" CLASS_DEFAULT CYCLES_B ERRORS_DEFAULT;
  row 0xA4A "B" CLASS_DEFAULT CYCLES_B ERRORS_DEFAULT;
  row 0xA4B "B" CLASS_DEFAULT CYCLES_B ERRORS_DEFAULT;
  row 0xA4C "B" CLASS_DEFAULT CYCLES_B ERRORS_DEFAULT;
  row 0xA4D "B" CLASS_DEFAULT CYCLES_B ERRORS_DEFAULT;
  row 0xA4E "B" CLASS_DEFAULT CYCLES_B ERRORS_DEFAULT;
  row 0xA4F "B" CLASS_DEFAULT CYCLES_B ERRORS_DEFAULT;
  row 0xA50 "B" CLASS_DEFAULT CYCLES_B ERRORS_DEFAULT;
  row 0xA51 "B" CLASS_DEFAULT CYCLES_B ERRORS_DEFAULT;
  row 0xA52 "B" CLASS_DEFAULT CYCLES_B ERRORS_DEFAULT;
  row 0xA53 "B" CLASS_DEFAULT CYCLES_B ERRORS_DEFAULT;
  row 0xA54 "B" CLASS_DEFAULT CYCLES_B ERRORS_DEFAULT;
  row 0xA55 "B" CLASS_DEFAULT CYCLES_B ERRORS_DEFAULT;
  row 0xA56 "B" CLASS_DEFAULT CYCLES_B ERRORS_DEFAULT;
  row 0xA57 "B" CLASS_DEFAULT CYCLES_B ERRORS_DEFAULT;
  row 0xA58 "B" CLASS_DEFAULT CYCLES_B ERRORS_DEFAULT;
  row 0xA59 "B" CLASS_DEFAULT CYCLES_B ERRORS_DEFAULT;
  row 0xA5A "B" CLASS_DEFAULT CYCLES_B ERRORS_DEFAULT;
  row 0xA5B "B" CLASS_DEFAULT CYCLES_B ERRORS_DEFAULT;
  row 0xA5C "B" CLASS_DEFAULT CYCLES_B ERRORS_DEFAULT;
  row 0xA5D "B" CLASS_DEFAULT CYCLES_B ERRORS_DEFAULT;
  row 0xA5E "B" CLASS_DEFAULT CYCLES_B ERRORS_DEFAULT;
  row 0xA5F "B" CLASS_DEFAULT CYCLES_B ERRORS_DEFAULT;
  row 0xA60 "B" CLASS_DEFAULT CYCLES_B ERRORS_DEFAULT;
  row 0xA61 "B" CLASS_DEFAULT CYCLES_B ERRORS_DEFAULT;
  row 0xA62 "B" CLASS_DEFAULT CYCLES_B ERRORS_DEFAULT;
  row 0xA63 "B" CLASS_DEFAULT CYCLES_B ERRORS_DEFAULT;
  row 0xA64 "B" CLASS_DEFAULT CYCLES_B ERRORS_DEFAULT;
  row 0xA65 "B" CLASS_DEFAULT CYCLES_B ERRORS_DEFAULT;
  row 0xA66 "B" CLASS_DEFAULT CYCLES_B ERRORS_DEFAULT;
  row 0xA67 "B" CLASS_DEFAULT CYCLES_B ERRORS_DEFAULT;
  row 0xA68 "B" CLASS_DEFAULT CYCLES_B ERRORS_DEFAULT;
  row 0xA69 "B" CLASS_DEFAULT CYCLES_B ERRORS_DEFAULT;
  row 0xA6A "B" CLASS_DEFAULT CYCLES_B ERRORS_DEFAULT;
  row 0xA6B "B" CLASS_DEFAULT CYCLES_B ERRORS_DEFAULT;
  row 0xA6C "B" CLASS_DEFAULT CYCLES_B ERRORS_DEFAULT;
  row 0xA6D "B" CLASS_DEFAULT CYCLES_B ERRORS_DEFAULT;
  row 0xA6E "B" CLASS_DEFAULT CYCLES_B ERRORS_DEFAULT;
  row 0xA6F "B" CLASS_DEFAULT CYCLES_B ERRORS_DEFAULT;
  row 0xA70 "B" CLASS_DEFAULT CYCLES_B ERRORS_DEFAULT;
  row 0xA71 "B" CLASS_DEFAULT CYCLES_B ERRORS_DEFAULT;
  row 0xA72 "B" CLASS_DEFAULT CYCLES_B ERRORS_DEFAULT;
  row 0xA73 "B" CLASS_DEFAULT CYCLES_B ERRORS_DEFAULT;
  row 0xA74 "B" CLASS_DEFAULT CYCLES_B ERRORS_DEFAULT;
  row 0xA75 "B" CLASS_DEFAULT CYCLES_B ERRORS_DEFAULT;
  row 0xA76 "B" CLASS_DEFAULT CYCLES_B ERRORS_DEFAULT;
  row 0xA77 "B" CLASS_DEFAULT CYCLES_B ERRORS_DEFAULT;
  row 0xA78 "B" CLASS_DEFAULT CYCLES_B ERRORS_DEFAULT;
  row 0xA79 "B" CLASS_DEFAULT CYCLES_B ERRORS_DEFAULT;
  row 0xA7A "B" CLASS_DEFAULT CYCLES_B ERRORS_DEFAULT;
  row 0xA7B "B" CLASS_DEFAULT CYCLES_B ERRORS_DEFAULT;
  row 0xA7C "B" CLASS_DEFAULT CYCLES_B ERRORS_DEFAULT;
  row 0xA7D "B" CLASS_DEFAULT CYCLES_B ERRORS_DEFAULT;
  row 0xA7E "B" CLASS_DEFAULT CYCLES_B ERRORS_DEFAULT;
  row 0xA7F "B" CLASS_DEFAULT CYCLES_B ERRORS_DEFAULT].

Definition vemu_arm_instr_21 : list vemu_instr_info := [
  row 0xA80 "B" CLASS_DEFAULT CYCLES_B ERRORS_DEFAULT;
  row 0xA81 "B" CLASS_DEFAULT CYCLES_B ERRORS_DEFAULT;
  row 0xA82 "B" CLASS_DEFAULT CYCLES_B ERRORS_DEFAULT;
  row 0xA83 "B" CLASS_DEFAULT CYCLES_B ERRORS_DEFAULT;
  row 0xA84 "B" CLASS_DEFAULT CYCLES_B ERRORS_DEFAULT;
  row 0xA85 "B" CLASS_DEFAULT CYCLES_B ERRORS_DEFAULT;
  row 0xA86 "B" CLASS_DEFAULT CYCLES_B ERRORS_DEFAULT;
  row 0xA87 "B" CLASS_DEFAULT CYCLES_B ERRORS_DEFAULT;
  row 0xA88 "B" CLASS_DEFAULT CYCLES_B ERRORS_DEFAULT;
  row 0xA89 "B" CLASS_DEFAULT CYCLES_B ERRORS_DEFAULT;
  row 0xA8A "B" CLASS_DEFAULT CYCLES_B ERRORS_DEFAULT;
  row 0xA8B "B" CLASS_DEFAULT CYCLES_B ERRORS_DEFAULT;
  row 0xA8C "B" CLASS_DEFAULT CYCLES_B ERRORS_DEFAULT;
  row 0xA8D "B" CLASS_DEFAULT CYCLES_B ERRORS_DEFAULT;
  row 0xA8E "B" CLASS_DEFAULT CYCLES_B ERRORS_DEFAULT;
  row 0xA8F "B" CLASS_DEFAULT CYCLES_B ERRORS_DEFAULT;
  row 0xA90 "B" CLASS_DEFAULT CYCLES_B ERRORS_DEFAULT;
  row 0xA91 "B" CLASS_DEFAULT CYCLES_B ERRORS_DEFAULT;
  row 0xA92 "B" CLASS_DEFAULT CYCLES_B ERRORS_DEFAULT;
  row 0xA93 "B" CLASS_DEFAULT CYCLES_B ERRORS_DEFAULT;
  row 0xA94 "B" CLASS_DEFAULT CYCLES_B ERRORS_DEFAULT;
  row 0xA95 "B" CLASS_DEFAULT CYCLES_B ERRORS_DEFAULT;
  row 0xA96 "B" CLASS_DEFAULT CYCLES_B ERRORS_DEFAULT;
  row 0xA97 "B" CLASS_DEFAULT CYCLES_B ERRORS_DEFAULT;
  row 0xA98 "B" CLASS_DEFAULT CYCLES_B ERRORS_DEFAULT;
  row 0xA99 "B" CLASS_DEFAULT CYCLES_B ERRORS_DEFAULT;
  row 0xA9A "B" CLASS_DEFAULT CYCLES_B ERRORS_DEFAULT;
  row 0xA9B "B" CLASS_DEFAULT CYCLES_B ERRORS_DEFAULT;
  row 0xA9C "B" CLASS_DEFAULT CYCLES_B ERRORS_DEFAULT;
  row 0xA9D "B" CLASS_DEFAULT CYCLES_B ERRORS_DEFAULT;
  row 0xA9E "B" CLASS_DEFAULT CYCLES_B ERRORS_DEFAULT;
  row 0xA9F "B" CLASS_DEFAULT CYCLES_B ERRORS_DEFAULT;
  row 0xAA0 "B" CLASS_DEFAULT CYCLES_B ERRORS_DEFAULT;
  row 0xAA1 "B" CLASS_DEFAULT CYCLES_B ERRORS_DEFAULT;
  row 0xAA2 "B" CLASS_DEFAULT CYCLES_B ERRORS_DEFAULT;
  row 0xAA3 "B" CLASS_DEFAULT CYCLES_B ERRORS_DEFAULT;
  row 0xAA4 "B" CLASS_DEFAULT CYCLES_B ERRORS_DEFAULT;
  row 0xAA5 "B" CLASS_DEFAULT CYCLES_B ERRORS_DEFAULT;
  row 0xAA6 "B" CLASS_DEFAULT CYCLES_B ERRORS_DEFAULT;
  row 0xAA7 "B" CLASS_DEFAULT CYCLES_B ERRORS_DEFAULT;
  row 0xAA8 "B" CLASS_DEFAULT CYCLES_B ERRORS_DEFAULT;
  row 0xAA9 "B" CLASS_DEFAULT CYCLES_B ERRORS_DEFAULT;
  row 0xAAA "B" CLASS_DEFAULT CYCLES_B ERRORS_DEFAULT;
  row 0xAAB "B" CLASS_DEFAULT CYCLES_B ERRORS_DEFAULT;
  row 0xAAC "B" CLASS_DEFAULT CYCLES_B ERRORS_DEFAULT;
  row 0xAAD "B" CLASS_DEFAULT CYCLES_B ERRORS_DEFAULT;
  row 0xAAE "B" CLASS_DEFAULT CYCLES_B ERRORS_DEFAULT;
  row 0xAAF "B" CLASS_DEFAULT CYCLES_B ERRORS_DEFAULT;
  row 0xAB0 "B" CLASS_DEFAULT CYCLES_B ERRORS_DEFAULT;
  row 0xAB1 "B" CLASS_DEFAULT CYCLES_B ERRORS_DEFAULT;
  row 0xAB2 "B" CLASS_DEFAULT CYCLES_B ERRORS_DEFAULT;
  row 0xAB3 "B" CLASS_DEFAULT CYCLES_B ERRORS_DEFAULT;
  row 0xAB4 "B" CLASS_DEFAULT CYCLES_B ERRORS_DEFAULT;
  row 0xAB5 "B" CLASS_DEFAULT CYCLES_B ERRORS_DEFAULT;
  row 0xAB6 "B" CLASS_DEFAULT CYCLES_B ERRORS_DEFAULT;
  row 0xAB7 "B" CLASS_DEFAULT CYCLES_B ERRORS_DEFAULT;
  row 0xAB8 "B" CLASS_DEFAULT CYCLES_B ERRORS_DEFAULT;
  row 0xAB9 "B" CLASS_DEFAULT CYCLES_B ERRORS_DEFAULT;
  row 0xABA "B" CLASS_DEFAULT CYCLES_B ERRORS_DEFAULT;
  row 0xABB "B" CLASS_DEFAULT CYCLES_B ERRORS_DEFAULT;
  row 0xABC "B" CLASS_DEFAULT CYCLES_B ERRORS_DEFAULT;
  row 0xABD "B" CLASS_DEFAULT CYCLES_B ERRORS_DEFAULT;
  row 0xABE "B" CLASS_DEFAULT CYCLES_B ERRORS_DEFAULT;
  row 0xABF "B" CLASS_DEFAULT CYCLES_B ERRORS_DEFAULT;
  row 0xAC0 "B" CLASS_DEFAULT CYCLES_B ERRORS_DEFAULT;
  row 0xAC1 "B" CLASS_DEFAULT CYCLES_B ERRORS_DEFAULT;
  row 0xAC2 "B" CLASS_DEFAULT CYCLES_B ERRORS_DEFAULT;
  row 0xAC3 "B" CLASS_DEFAULT CYCLES_B ERRORS_DEFAULT;
  row 0xAC4 "B" CLASS_DEFAULT CYCLES_B ERRORS_DEFAULT;
  row 0xAC5 "B" CLASS_DEFAULT CYCLES_B ERRORS_DEFAULT;
  row 0xAC6 "B" CLASS_DEFAULT CYCLES_B ERRORS_DEFAULT;
  row 0xAC7 "B" CLASS_DEFAULT CYCLES_B ERRORS_DEFAULT;
  row 0xAC8 "B" CLASS_DEFAULT CYCLES_B ERRORS_DEFAULT;
  row 0xAC9 "B" CLASS_DEFAULT CYCLES_B ERRORS_DEFAULT;
  row 0xACA "B" CLASS_DEFAULT CYCLES_B ERRORS_DEFAULT;
  row 0xACB "B" CLASS_DEFAULT CYCLES_B ERRORS_DEFAULT;
  row 0xACC "B" CLASS_DEFAULT CYCLES_B ERRORS_DEFAULT;
  row 0xACD "B" CLASS_DEFAULT CYCLES_B ERRORS_DEFAULT;
  row 0xACE "B" CLASS_DEFAULT CYCLES_B ERRORS_DEFAULT;
  row 0xACF "B" CLASS_DEFAULT CYCLES_B ERRORS_DEFAULT;
  row 0xAD0 "B" CLASS_DEFAULT CYCLES_B ERRORS_DEFAULT;
  row 0xAD1 "B" CLASS_DEFAULT CYCLES_B ERRORS_DEFAULT;
  row 0xAD2 "B" CLASS_DEFAULT CYCLES_B ERRORS_DEFAULT;
  row 0xAD3 "B" CLASS_DEFAULT CYCLES_B ERRORS_DEFAULT;
  row 0xAD4 "B" CLASS_DEFAULT CYCLES_B ERRORS_DEFAULT;
  row 0xAD5 "B" CLASS_DEFAULT CYCLES_B ERRORS_DEFAULT;
  row 0xAD6 "B" CLASS_DEFAULT CYCLES_B ERRORS_DEFAULT;
  row 0xAD7 "B" CLASS_DEFAULT CYCLES_B ERRORS_DEFAULT;
  row 0xAD8 "B" CLASS_DEFAULT CYCLES_B ERRORS_DEFAULT;
  row 0xAD9 "B" CLASS_DEFAULT CYCLES_B ERRORS_DEFAULT;
  row 0xADA "B" CLASS_DEFAULT CYCLES_B ERRORS_DEFAULT;
  row 0xADB "B" CLASS_DEFAULT CYCLES_B ERRORS_DEFAULT;
  row 0xADC "B" CLASS_DEFAULT CYCLES_B ERRORS_DEFAULT;
  row 0xADD "B" CLASS_DEFAULT CYCLES_B ERRORS_DEFAULT;
  row 0xADE "B" CLASS_DEFAULT CYCLES_B ERRORS_DEFAULT;
  row 0xADF "B" CLASS_DEFAULT CYCLES_B ERRORS_DEFAULT;
  row 0xAE0 "B" CLASS_DEFAULT CYCLES_B ERRORS_DEFAULT;
  row 0xAE1 "B" CLASS_DEFAULT CYCLES_B ERRORS_DEFAULT;
  row 0xAE2 "B" CLASS_DEFAULT CYCLES_B ERRORS_DEFAULT;
  row 0xAE3 "B" CLASS_DEFAULT CYCLES_B ERRORS_DEFAULT;
  row 0xAE4 "B" CLASS_DEFAULT CYCLES_B ERRORS_DEFAULT;
  row 0xAE5 "B" CLASS_DEFAULT CYCLES_B ERRORS_DEFAULT;
  row 0xAE6 "B" CLASS_DEFAULT CYCLES_B ERRORS_DEFAULT;
  row 0xAE7 "B" CLASS_DEFAULT CYCLES_B ERRORS_DEFAULT;
  row 0xAE8 "B" CLASS_DEFAULT CYCLES_B ERRORS_DEFAULT;
  row 0xAE9 "B" CLASS_DEFAULT CYCLES_B ERRORS_DEFAULT;
  row 0xAEA "B" CLASS_DEFAULT CYCLES_B ERRORS_DEFAULT;
  row 0xAEB "B" CLASS_DEFAULT CYCLES_B ERRORS_DEFAULT;
  row 0xAEC "B" CLASS_DEFAULT CYCLES_B ERRORS_DEFAULT;
  row 0xAED "B" CLASS_DEFAULT CYCLES_B ERRORS_DEFAULT;
  row 0xAEE "B" CLASS_DEFAULT CYCLES_B ERRORS_DEFAULT;
  row 0xAEF "B" CLASS_DEFAULT CYCLES_B ERRORS_DEFAULT;
  row 0xAF0 "B" CLASS_DEFAULT CYCLES_B ERRORS_DEFAULT;
  row 0xAF1 "B" CLASS_DEFAULT CYCLES_B ERRORS_DEFAULT;
  row 0xAF2 "B" CLASS_DEFAULT CYCLES_B ERRORS_DEFAULT;
  row 0xAF3 "B" CLASS_DEFAULT CYCLES_B ERRORS_DEFAULT;
  row 0xAF4 "B" CLASS_DEFAULT CYCLES_B ERRORS_DEFAULT;
  row 0xAF5 "B" CLASS_DEFAULT CYCLES_B ERRORS_DEFAULT;
  row 0xAF6 "B" CLASS_DEFAULT CYCLES_B ERRORS_DEFAULT;
  row 0xAF7 "B" CLASS_DEFAULT CYCLES_B ERRORS_DEFAULT;
  row 0xAF8 "B" CLASS_DEFAULT CYCLES_B ERRORS_DEFAULT;
  row 0xAF9 "B" CLASS_DEFAULT CYCLES_B ERRORS_DEFAULT;
  row 0xAFA "B" CLASS_DEFAULT CYCLES_B ERRORS_DEFAULT;
  row 0xAFB "B" CLASS_DEFAULT CYCLES_B ERRORS_DEFAULT;
  row 0xAFC "B" CLASS_DEFAULT CYCLES_B ERRORS_DEFAULT;
  row 0xAFD "B" CLASS_DEFAULT CYCLES_B ERRORS_DEFAULT;
  row 0xAFE "B" CLASS_DEFAULT CYCLES_B ERRORS_DEFAULT;
  row 0xAFF "B" CLASS_DEFAULT CYCLES_B ERRORS_DEFAULT].

Definition vemu_arm_instr_22 : list vemu_instr_info := [
  row 0xB00 "BL" CLASS_DEFAULT CYCLES_BL ERRORS_DEFAULT;
  row 0xB01 "BL" CLASS_DEFAULT CYCLES_BL ERRORS_DEFAULT;
  row 0xB02 "BL" CLASS_DEFAULT CYCLES_BL ERRORS_DEFAULT;
  row 0xB03 "BL" CLASS_DEFAULT CYCLES_BL ERRORS_DEFAULT;
  row 0xB04 "BL" CLASS_DEFAULT CYCLES_BL ERRORS_DEFAULT;
  row 0xB05 "BL" CLASS_DEFAULT CYCLES_BL ERRORS_DEFAULT;
  row 0xB06 "BL" CLASS_DEFAULT CYCLES_BL ERRORS_DEFAULT;
  row 0xB07 "BL" CLASS_DEFAULT CYCLES_BL ERRORS_DEFAULT;
  row 0xB08 "BL" CLASS_DEFAULT CYCLES_BL ERRORS_DEFAULT;
  row 0xB09 "BL" CLASS_DEFAULT CYCLES_BL ERRORS_DEFAULT;
  row 0xB0A "BL" CLASS_DEFAULT CYCLES_BL ERRORS_DEFAULT;
  row 0xB0B "BL" CLASS_DEFAULT CYCLES_BL ERRORS_DEFAULT;
  row 0xB0C "BL" CLASS_DEFAULT CYCLES_BL ERRORS_DEFAULT;
  row 0xB0D "BL" CLASS_DEFAULT CYCLES_BL ERRORS_DEFAULT;
  row 0xB0E "BL" CLASS_DEFAULT CYCLES_BL ERRORS_DEFAULT;
  row 0xB0F "BL" CLASS_DEFAULT CYCLES_BL ERRORS_DEFAULT;
  row 0xB10 "BL" CLASS_DEFAULT CYCLES_BL ERRORS_DEFAULT;
  row 0xB11 "BL" CLASS_DEFAULT CYCLES_BL ERRORS_DEFAULT;
  row 0xB12 "BL" CLASS_DEFAULT CYCLES_BL ERRORS_DEFAULT;
  row 0xB13 "BL" CLASS_DEFAULT CYCLES_BL ERRORS_DEFAULT;
  row 0xB14 "BL" CLASS_DEFAULT CYCLES_BL ERRORS_DEFAULT;
  row 0xB15 "BL" CLASS_DEFAULT CYCLES_BL ERRORS_DEFAULT;
  row 0xB16 "BL" CLASS_DEFAULT CYCLES_BL ERRORS_DEFAULT;
  row 0xB17 "BL" CLASS_DEFAULT CYCLES_BL ERRORS_DEFAULT;
  row 0xB18 "BL" CLASS_DEFAULT CYCLES_BL ERRORS_DEFAULT;
  row 0xB19 "BL" CLASS_DEFAULT CYCLES_BL ERRORS_DEFAULT;
  row 0xB1A "BL" CLASS_DEFAULT CYCLES_BL ERRORS_DEFAULT;
  row 0xB1B "BL" CLASS_DEFAULT CYCLES_BL ERRORS_DEFAULT;
  row 0xB1C "BL" CLASS_DEFAULT CYCLES_BL ERRORS_DEFAULT;
  row 0xB1D "BL" CLASS_DEFAULT CYCLES_BL ERRORS_DEFAULT;
  row 0xB1E "BL" CLASS_DEFAULT CYCLES_BL ERRORS_DEFAULT;
  row 0xB1F "BL" CLASS_DEFAULT CYCLES_BL ERRORS_DEFAULT;
  row 0xB20 "BL" CLASS_DEFAULT CYCLES_BL ERRORS_DEFAULT;
  row 0xB21 "BL" CLASS_DEFAULT CYCLES_BL ERRORS_DEFAULT;
  row 0xB22 "BL" CLASS_DEFAULT CYCLES_BL ERRORS_DEFAULT;
  row 0xB23 "BL" CLASS_DEFAULT CYCLES_BL ERRORS_DEFAULT;
  row 0xB24 "BL" CLASS_DEFAULT CYCLES_BL ERRORS_DEFAULT;
  row 0xB25 "BL" CLASS_DEFAULT CYCLES_BL ERRORS_DEFAULT;
  row 0xB26 "BL" CLASS_DEFAULT CYCLES_BL ERRORS_DEFAULT;
  row 0xB27 "BL" CLASS_DEFAULT CYCLES_BL ERRORS_DEFAULT;
  row 0xB28 "BL" CLASS_DEFAULT CYCLES_BL ERRORS_DEFAULT;
  row 0xB29 "BL" CLASS_DEFAULT CYCLES_BL ERRORS_DEFAULT;
  row 0xB2A "BL" CLASS_DEFAULT CYCLES_BL ERRORS_DEFAULT;
  row 0xB2B "BL" CLASS_DEFAULT CYCLES_BL ERRORS_DEFAULT;
  row 0xB2C "BL" CLASS_DEFAULT CYCLES_BL ERRORS_DEFAULT;
  row 0xB2D "BL" CLASS_DEFAULT CYCLES_BL ERRORS_DEFAULT;
  row 0xB2E "BL" CLASS_DEFAULT CYCLES_BL ERRORS_DEFAULT;
  row 0xB2F "BL" CLASS_DEFAULT CYCLES_BL ERRORS_DEFAULT;
  row 0xB30 "BL" CLASS_DEFAULT CYCLES_BL ERRORS_DEFAULT;
  row 0xB31 "BL" CLASS_DEFAULT CYCLES_BL ERRORS_DEFAULT;
  row 0xB32 "BL" CLASS_DEFAULT CYCLES_BL ERRORS_DEFAULT;
  row 0xB33 "BL" CLASS_DEFAULT CYCLES_BL ERRORS_DEFAULT;
  row 0xB34 "BL" CLASS_DEFAULT CYCLES_BL ERRORS_DEFAULT;
  row 0xB35 "BL" CLASS_DEFAULT CYCLES_BL ERRORS_DEFAULT;
  row 0xB36 "BL" CLASS_DEFAULT CYCLES_BL ERRORS_DEFAULT;
  row 0xB37 "BL" CLASS_DEFAULT CYCLES_BL ERRORS_DEFAULT;
  row 0xB38 "BL" CLASS_DEFAULT CYCLES_BL ERRORS_DEFAULT;
  row 0xB39 "BL" CLASS_DEFAULT CYCLES_BL ERRORS_DEFAULT;
  row 0xB3A "BL" CLASS_DEFAULT CYCLES_BL ERRORS_DEFAULT;
  row 0xB3B "BL" CLASS_DEFAULT CYCLES_BL ERRORS_DEFAULT;
  row 0xB3C "BL" CLASS_DEFAULT CYCLES_BL ERRORS_DEFAULT;
  row 0xB3D "BL" CLASS_DEFAULT CYCLES_BL ERRORS_DEFAULT;
  row 0xB3E "BL" CLASS_DEFAULT CYCLES_BL ERRORS_DEFAULT;
  row 0xB3F "BL" CLASS_DEFAULT CYCLES_BL ERRORS_DEFAULT;
  row 0xB40 "BL" CLASS_DEFAULT CYCLES_BL ERRORS_DEFAULT;
  row 0xB41 "BL" CLASS_DEFAULT CYCLES_BL ERRORS_DEFAULT;
  row 0xB42 "BL" CLASS_DEFAULT CYCLES_BL ERRORS_DEFAULT;
  row 0xB43 "BL" CLASS_DEFAULT CYCLES_BL ERRORS_DEFAULT;
  row 0xB44 "BL" CLASS_DEFAULT CYCLES_BL ERRORS_DEFAULT;
  row 0xB45 "BL" CLASS_DEFAULT CYCLES_BL ERRORS_DEFAULT;
  row 0xB46 "BL" CLASS_DEFAULT CYCLES_BL ERRORS_DEFAULT;
  row 0xB47 "BL" CLASS_DEFAULT CYCLES_BL ERRORS_DEFAULT;
  row 0xB48 "BL" CLASS_DEFAULT CYCLES_BL ERRORS_DEFAULT;
  row 0xB49 "BL" CLASS_DEFAULT CYCLES_BL ERRORS_DEFAULT;
  row 0xB4A "BL" CLASS_DEFAULT CYCLES_BL ERRORS_DEFAULT;
  row 0xB4B "BL" CLASS_DEFAULT CYCLES_BL ERRORS_DEFAULT;
  row 0xB4C "BL" CLASS_DEFAULT CYCLES_BL ERRORS_DEFAULT;
  row 0xB4D "BL" CLASS_DEFAULT CYCLES_BL ERRORS_DEFAULT;
  row 0xB4E "BL" CLASS_DEFAULT CYCLES_BL ERRORS_DEFAULT;
  row 0xB4F "BL" CLASS_DEFAULT CYCLES_BL ERRORS_DEFAULT;
  row 0xB50 "BL" CLASS_DEFAULT CYCLES_BL ERRORS_DEFAULT;
  row 0xB51 "BL" CLASS_DEFAULT CYCLES_BL ERRORS_DEFAULT;
  row 0xB52 "BL" CLASS_DEFAULT CYCLES_BL ERRORS_DEFAULT;
  row 0xB53 "BL" CLASS_DEFAULT CYCLES_BL ERRORS_DEFAULT;
  row 0xB54 "BL" CLASS_DEFAULT CYCLES_BL ERRORS_DEFAULT;
  row 0xB55 "BL" CLASS_DEFAULT CYCLES_BL ERRORS_DEFAULT;
  row 0xB56 "BL" CLASS_DEFAULT CYCLES_BL ERRORS_DEFAULT;
  row 0xB57 "BL" CLASS_DEFAULT CYCLES_BL ERRORS_DEFAULT;
  row 0xB58 "BL" CLASS_DEFAULT CYCLES_BL ERRORS_DEFAULT;
  row 0xB59 "BL" CLASS_DEFAULT CYCLES_BL ERRORS_DEFAULT;
  row 0xB5A "BL" CLASS_DEFAULT CYCLES_BL ERRORS_DEFAULT;
  row 0xB5B "BL" CLASS_DEFAULT CYCLES_BL ERRORS_DEFAULT;
  row 0xB5C "BL" CLASS_DEFAULT CYCLES_BL ERRORS_DEFAULT;
  row 0xB5D "BL" CLASS_DEFAULT CYCLES_BL ERRORS_DEFAULT;
  row 0xB5E "BL" CLASS_DEFAULT CYCLES_BL ERRORS_DEFAULT;
  row 0xB5F "BL" CLASS_DEFAULT CYCLES_BL ERRORS_DEFAULT;
  row 0xB60 "BL" CLASS_DEFAULT CYCLES_BL ERRORS_DEFAULT;
  row 0xB61 "BL" CLASS_DEFAULT CYCLES_BL ERRORS_DEFAULT;
  row 0xB62 "BL" CLASS_DEFAULT CYCLES_BL ERRORS_DEFAULT;
  row 0xB63 "BL" CLASS_DEFAULT CYCLES_BL ERRORS_DEFAULT;
  row 0xB64 "BL" CLASS_DEFAULT CYCLES_BL ERRORS_DEFAULT;
  row 0xB65 "BL" CLASS_DEFAULT CYCLES_BL ERRORS_DEFAULT;
  row 0xB66 "BL" CLASS_DEFAULT CYCLES_BL ERRORS_DEFAULT;
  row 0xB67 "BL" CLASS_DEFAULT CYCLES_BL ERRORS_DEFAULT;
  row 0xB68 "BL" CLASS_DEFAULT CYCLES_BL ERRORS_DEFAULT;
  row 0xB69 "BL" CLASS_DEFAULT CYCLES_BL ERRORS_DEFAULT;
  row 0xB6A "BL" CLASS_DEFAULT CYCLES_BL ERRORS_DEFAULT;
  row 0xB6B "BL" CLASS_DEFAULT CYCLES_BL ERRORS_DEFAULT;
  row 0xB6C "BL" CLASS_DEFAULT CYCLES_BL ERRORS_DEFAULT;
  row 0xB6D "BL" CLASS_DEFAULT CYCLES_BL ERRORS_DEFAULT;
  row 0xB6E "BL" CLASS_DEFAULT CYCLES_BL ERRORS_DEFAULT;
  row 0xB6F "BL" CLASS_DEFAULT CYCLES_BL ERRORS_DEFAULT;
  row 0xB70 "BL" CLASS_DEFAULT CYCLES_BL ERRORS_DEFAULT;
  row 0xB71 "BL" CLASS_DEFAULT CYCLES_BL ERRORS_DEFAULT;
  row 0xB72 "BL" CLASS_DEFAULT CYCLES_BL ERRORS_DEFAULT;
  row 0xB73 "BL" CLASS_DEFAULT CYCLES_BL ERRORS_DEFAULT;
  row 0xB74 "BL" CLASS_DEFAULT CYCLES_BL ERRORS_DEFAULT;
  row 0xB75 "BL" CLASS_DEFAULT CYCLES_BL ERRORS_DEFAULT;
  row 0xB76 "BL" CLASS_DEFAULT CYCLES_BL ERRORS_DEFAULT;
  row 0xB77 "BL" CLASS_DEFAULT CYCLES_BL ERRORS_DEFAULT;
  row 0xB78 "BL" CLASS_DEFAULT CYCLES_BL ERRORS_DEFAULT;
  row 0xB79 "BL" CLASS_DEFAULT CYCLES_BL ERRORS_DEFAULT;
  row 0xB7A "BL" CLASS_DEFAULT CYCLES_BL ERRORS_DEFAULT;
  row 0xB7B "BL" CLASS_DEFAULT CYCLES_BL ERRORS_DEFAULT;
  row 0xB7C "BL" CLASS_DEFAULT CYCLES_BL ERRORS_DEFAULT;
  row 0xB7D "BL" CLASS_DEFAULT CYCLES_BL ERRORS_DEFAULT;
  row 0xB7E "BL" CLASS_DEFAULT CYCLES_BL ERRORS_DEFAULT;
  row 0xB7F "BL" CLASS_DEFAULT CYCLES_BL ERRORS_DEFAULT].

Definition vemu_arm_instr_23 : list vemu_instr_info := [
  row 0xB80 "BL" CLASS_DEFAULT CYCLES_BL ERRORS_DEFAULT;
  row 0xB81 "BL" CLASS_DEFAULT CYCLES_BL ERRORS_DEFAULT;
  row 0xB82 "BL" CLASS_DEFAULT CYCLES_BL ERRORS_DEFAULT;
  row 0xB83 "BL" CLASS_DEFAULT CYCLES_BL ERRORS_DEFAULT;
  row 0xB84 "BL" CLASS_DEFAULT CYCLES_BL ERRORS_DEFAULT;
  row 0xB85 "BL" CLASS_DEFAULT CYCLES_BL ERRORS_DEFAULT;
  row 0xB86 "BL" CLASS_DEFAULT CYCLES_BL ERRORS_DEFAULT;
  row 0xB87 "BL" CLASS_DEFAULT CYCLES_BL ERRORS_DEFAULT;
  row 0xB88 "BL" CLASS_DEFAULT CYCLES_BL ERRORS_DEFAULT;
  row 0xB89 "BL" CLASS_DEFAULT CYCLES_BL ERRORS_DEFAULT;
  row 0xB8A "BL" CLASS_DEFAULT CYCLES_BL ERRORS_DEFAULT;
  row 0xB8B "BL" CLASS_DEFAULT CYCLES_BL ERRORS_DEFAULT;
  row 0xB8C "BL" CLASS_DEFAULT CYCLES_BL ERRORS_DEFAULT;
  row 0xB8D "BL" CLASS_DEFAULT CYCLES_BL ERRORS_DEFAULT;
  row 0xB8E "BL" CLASS_DEFAULT CYCLES_BL ERRORS_DEFAULT;
  row 0xB8F "BL" CLASS_DEFAULT CYCLES_BL ERRORS_DEFAULT;
  row 0xB90 "BL" CLASS_DEFAULT CYCLES_BL ERRORS_DEFAULT;
  row 0xB91 "BL" CLASS_DEFAULT CYCLES_BL ERRORS_DEFAULT;
  row 0xB92 "BL" CLASS_DEFAULT CYCLES_BL ERRORS_DEFAULT;
  row 0xB93 "BL" CLASS_DEFAULT CYCLES_BL ERRORS_DEFAULT;
  row 0xB94 "BL" CLASS_DEFAULT CYCLES_BL ERRORS_DEFAULT;
  row 0xB95 "BL" CLASS_DEFAULT CYCLES_BL ERRORS_DEFAULT;
  row 0xB96 "BL" CLASS_DEFAULT CYCLES_BL ERRORS_DEFAULT;
  row 0xB97 "BL" CLASS_DEFAULT CYCLES_BL ERRORS_DEFAULT;
  row 0xB98 "BL" CLASS_DEFAULT CYCLES_BL ERRORS_DEFAULT;
  row 0xB99 "BL" CLASS_DEFAULT CYCLES_BL ERRORS_DEFAULT;
  row 0xB9A "BL" CLASS_DEFAULT CYCLES_BL ERRORS_DEFAULT;
  row 0xB9B "BL" CLASS_DEFAULT CYCLES_BL ERRORS_DEFAULT;
  row 0xB9C "BL" CLASS_DEFAULT CYCLES_BL ERRORS_DEFAULT;
  row 0xB9D "BL" CLASS_DEFAULT CYCLES_BL ERRORS_DEFAULT;
  row 0xB9E "BL" CLASS_DEFAULT CYCLES_BL ERRORS_DEFAULT;
  row 0xB9F "BL" CLASS_DEFAULT CYCLES_BL ERRORS_DEFAULT;
  row 0xBA0 "BL" CLASS_DEFAULT CYCLES_BL ERRORS_DEFAULT;
  row 0xBA1 "BL" CLASS_DEFAULT CYCLES_BL ERRORS_DEFAULT;
  row 0xBA2 "BL" CLASS_DEFAULT CYCLES_BL ERRORS_DEFAULT;
  row 0xBA3 "BL" CLASS_DEFAULT CYCLES_BL ERRORS_DEFAULT;
  row 0xBA4 "BL" CLASS_DEFAULT CYCLES_BL ERRORS_DEFAULT;
  row 0xBA5 "BL" CLASS_DEFAULT CYCLES_BL ERRORS_DEFAULT;
  row 0xBA6 "BL" CLASS_DEFAULT CYCLES_BL ERRORS_DEFAULT;
  row 0xBA7 "BL" CLASS_DEFAULT CYCLES_BL ERRORS_DEFAULT;
  row 0xBA8 "BL" CLASS_DEFAULT CYCLES_BL ERRORS_DEFAULT;
  row 0xBA9 "BL" CLASS_DEFAULT CYCLES_BL ERRORS_DEFAULT;
  row 0xBAA "BL" CLASS_DEFAULT CYCLES_BL ERRORS_DEFAULT;
  row 0xBAB "BL" CLASS_DEFAULT CYCLES_BL ERRORS_DEFAULT;
  row 0xBAC "BL" CLASS_DEFAULT CYCLES_BL ERRORS_DEFAULT;
  row 0xBAD "BL" CLASS_DEFAULT CYCLES_BL ERRORS_DEFAULT;
  row 0xBAE "BL" CLASS_DEFAULT CYCLES_BL ERRORS_DEFAULT;
  row 0xBAF "BL" CLASS_DEFAULT CYCLES_BL ERRORS_DEFAULT;
  row 0xBB0 "BL" CLASS_DEFAULT CYCLES_BL ERRORS_DEFAULT;
  row 0xBB1 "BL" CLASS_DEFAULT CYCLES_BL ERRORS_DEFAULT;
  row 0xBB2 "BL" CLASS_DEFAULT CYCLES_BL ERRORS_DEFAULT;
  row 0xBB3 "BL" CLASS_DEFAULT CYCLES_BL ERRORS_DEFAULT;
  row 0xBB4 "BL" CLASS_DEFAULT CYCLES_BL ERRORS_DEFAULT;
  row 0xBB5 "BL" CLASS_DEFAULT CYCLES_BL ERRORS_DEFAULT;
  row 0xBB6 "BL" CLASS_DEFAULT CYCLES_BL ERRORS_DEFAULT;
  row 0xBB7 "BL" CLASS_DEFAULT CYCLES_BL ERRORS_DEFAULT;
  row 0xBB8 "BL" CLASS_DEFAULT CYCLES_BL ERRORS_DEFAULT;
  row 0xBB9 "BL" CLASS_DEFAULT CYCLES_BL ERRORS_DEFAULT;
  row 0xBBA "BL" CLASS_DEFAULT CYCLES_BL ERRORS_DEFAULT;
  row 0xBBB "BL" CLASS_DEFAULT CYCLES_BL ERRORS_DEFAULT;
  row 0xBBC "BL" CLASS_DEFAULT CYCLES_BL ERRORS_DEFAULT;
  row 0xBBD "BL" CLASS_DEFAULT CYCLES_BL ERRORS_DEFAULT;
  row 0xBBE "BL" CLASS_DEFAULT CYCLES_BL ERRORS_DEFAULT;
  row 0xBBF "BL" CLASS_DEFAULT CYCLES_BL ERRORS_DEFAULT;
  row 0xBC0 "BL" CLASS_DEFAULT CYCLES_BL ERRORS_DEFAULT;
  row 0xBC1 "BL" CLASS_DEFAULT CYCLES_BL ERRORS_DEFAULT;
  row 0xBC2 "BL" CLASS_DEFAULT CYCLES_BL ERRORS_DEFAULT;
  row 0xBC3 "BL" CLASS_DEFAULT CYCLES_BL ERRORS_DEFAULT;
  row 0xBC4 "BL" CLASS_DEFAULT CYCLES_BL ERRORS_DEFAULT;
  row 0xBC5 "BL" CLASS_DEFAULT CYCLES_BL ERRORS_DEFAULT;
  row 0xBC6 "BL" CLASS_DEFAULT CYCLES_BL ERRORS_DEFAULT;
  row 0xBC7 "BL" CLASS_DEFAULT CYCLES_BL ERRORS_DEFAULT;
  row 0xBC8 "BL" CLASS_DEFAULT CYCLES_BL ERRORS_DEFAULT;
  row 0xBC9 "BL" CLASS_DEFAULT CYCLES_BL ERRORS_DEFAULT;
  row 0xBCA "BL" CLASS_DEFAULT CYCLES_BL ERRORS_DEFAULT;
  row 0xBCB "BL" CLASS_DEFAULT CYCLES_BL ERRORS_DEFAULT;
  row 0xBCC "BL" CLASS_DEFAULT CYCLES_BL ERRORS_DEFAULT;
  row 0xBCD "BL" CLASS_DEFAULT CYCLES_BL ERRORS_DEFAULT;
  row 0xBCE "BL" CLASS_DEFAULT CYCLES_BL ERRORS_DEFAULT;
  row 0xBCF "BL" CLASS_DEFAULT CYCLES_BL ERRORS_DEFAULT;
  row 0xBD0 "BL" CLASS_DEFAULT CYCLES_BL ERRORS_DEFAULT;
  row 0xBD1 "BL" CLASS_DEFAULT CYCLES_BL ERRORS_DEFAULT;
  row 0xBD2 "BL" CLASS_DEFAULT CYCLES_BL ERRORS_DEFAULT;
  row 0xBD3 "BL" CLASS_DEFAULT CYCLES_BL ERRORS_DEFAULT;
  row 0xBD4 "BL" CLASS_DEFAULT CYCLES_BL ERRORS_DEFAULT;
  row 0xBD5 "BL" CLASS_DEFAULT CYCLES_BL ERRORS_DEFAULT;
  row 0xBD6 "BL" CLASS_DEFAULT CYCLES_BL ERRORS_DEFAULT;
  row 0xBD7 "BL" CLASS_DEFAULT CYCLES_BL ERRORS_DEFAULT;
  row 0xBD8 "BL" CLASS_DEFAULT CYCLES_BL ERRORS_DEFAULT;
  row 0xBD9 "BL" CLASS_DEFAULT CYCLES_BL ERRORS_DEFAULT;
  row 0xBDA "BL" CLASS_DEFAULT CYCLES_BL ERRORS_DEFAULT;
  row 0xBDB "BL" CLASS_DEFAULT CYCLES_BL ERRORS_DEFAULT;
  row 0xBDC "BL" CLASS_DEFAULT CYCLES_BL ERRORS_DEFAULT;
  row 0xBDD "BL" CLASS_DEFAULT CYCLES_BL ERRORS_DEFAULT;
  row 0xBDE "BL" CLASS_DEFAULT CYCLES_BL ERRORS_DEFAULT;
  row 0xBDF "BL" CLASS_DEFAULT CYCLES_BL ERRORS_DEFAULT;
  row 0xBE0 "BL" CLASS_DEFAULT CYCLES_BL ERRORS_DEFAULT;
  row 0xBE1 "BL" CLASS_DEFAULT CYCLES_BL ERRORS_DEFAULT;
  row 0xBE2 "BL" CLASS_DEFAULT CYCLES_BL ERRORS_DEFAULT;
  row 0xBE3 "BL" CLASS_DEFAULT CYCLES_BL ERRORS_DEFAULT;
  row 0xBE4 "BL" CLASS_DEFAULT CYCLES_BL ERRORS_DEFAULT;
  row 0xBE5 "BL" CLASS_DEFAULT CYCLES_BL ERRORS_DEFAULT;
  row 0xBE6 "BL" CLASS_DEFAULT CYCLES_BL ERRORS_DEFAULT;
  row 0xBE7 "BL" CLASS_DEFAULT CYCLES_BL ERRORS_DEFAULT;
  row 0xBE8 "BL" CLASS_DEFAULT CYCLES_BL ERRORS_DEFAULT;
  row 0xBE9 "BL" CLASS_DEFAULT CYCLES_BL ERRORS_DEFAULT;
  row 0xBEA "BL" CLASS_DEFAULT CYCLES_BL ERRORS_DEFAULT;
  row 0xBEB "BL" CLASS_DEFAULT CYCLES_BL ERRORS_DEFAULT;
  row 0xBEC "BL" CLASS_DEFAULT CYCLES_BL ERRORS_DEFAULT;
  row 0xBED "BL" CLASS_DEFAULT CYCLES_BL ERRORS_DEFAULT;
  row 0xBEE "BL" CLASS_DEFAULT CYCLES_BL ERRORS_DEFAULT;
  row 0xBEF "BL" CLASS_DEFAULT CYCLES_BL ERRORS_DEFAULT;
  row 0xBF0 "BL" CLASS_DEFAULT CYCLES_BL ERRORS_DEFAULT;
  row 0xBF1 "BL" CLASS_DEFAULT CYCLES_BL ERRORS_DEFAULT;
  row 0xBF2 "BL" CLASS_DEFAULT CYCLES_BL ERRORS_DEFAULT;
  row 0xBF3 "BL" CLASS_DEFAULT CYCLES_BL ERRORS_DEFAULT;
  row 0xBF4 "BL" CLASS_DEFAULT CYCLES_BL ERRORS_DEFAULT;
  row 0xBF5 "BL" CLASS_DEFAULT CYCLES_BL ERRORS_DEFAULT;
  row 0xBF6 "BL" CLASS_DEFAULT CYCLES_BL ERRORS_DEFAULT;
  row 0xBF7 "BL" CLASS_DEFAULT CYCLES_BL ERRORS_DEFAULT;
  row 0xBF8 "BL" CLASS_DEFAULT CYCLES_BL ERRORS_DEFAULT;
  row 0xBF9 "BL" CLASS_DEFAULT CYCLES_BL ERRORS_DEFAULT;
  row 0xBFA "BL" CLASS_DEFAULT CYCLES_BL ERRORS_DEFAULT;
  row 0xBFB "BL" CLASS_DEFAULT CYCLES_BL ERRORS_DEFAULT;
  row 0xBFC "BL" CLASS_DEFAULT CYCLES_BL ERRORS_DEFAULT;
  row 0xBFD "BL" CLASS_DEFAULT CYCLES_BL ERRORS_DEFAULT;
  row 0xBFE "BL" CLASS_DEFAULT CYCLES_BL ERRORS_DEFAULT;
  row 0xBFF "BL" CLASS_DEFAULT CYCLES_BL ERRORS_DEFAULT].

Definition vemu_arm_instr_24 : list vemu_instr_info := [
  row 0xC00 "STC ofm" CLASS_DEFAULT CYCLES_STC ERRORS_DEFAULT;
  row 0xC01 "STC ofm" CLASS_DEFAULT CYCLES_STC ERRORS_DEFAULT;
  row 0xC02 "STC ofm" CLASS_DEFAULT CYCLES_STC ERRORS_DEFAULT;
  row 0xC03 "STC ofm" CLASS_DEFAULT CYCLES_STC ERRORS_DEFAULT;
  row 0xC04 "STC ofm" CLASS_DEFAULT CYCLES_STC ERRORS_DEFAULT;
  row 0xC05 "STC ofm" CLASS_DEFAULT CYCLES_STC ERRORS_DEFAULT;
  row 0xC06 "STC ofm" CLASS_DEFAULT CYCLES_STC ERRORS_DEFAULT;
  row 0xC07 "STC ofm" CLASS_DEFAULT CYCLES_STC ERRORS_DEFAULT;
  row 0xC08 "STC ofm" CLASS_DEFAULT CYCLES_STC ERRORS_DEFAULT;
  row 0xC09 "STC ofm" CLASS_DEFAULT CYCLES_STC ERRORS_DEFAULT;
  row 0xC0A "STC ofm" CLASS_DEFAULT CYCLES_STC ERRORS_DEFAULT;
  row 0xC0B "STC ofm" CLASS_DEFAULT CYCLES_STC ERRORS_DEFAULT;
  row 0xC0C "STC ofm" CLASS_DEFAULT CYCLES_STC ERRORS_DEFAULT;
  row 0xC0D "STC ofm" CLASS_DEFAULT CYCLES_STC ERRORS_DEFAULT;
  row 0xC0E "STC ofm" CLASS_DEFAULT CYCLES_STC ERRORS_DEFAULT;
  row 0xC0F "STC ofm" CLASS_DEFAULT CYCLES_STC ERRORS_DEFAULT;
  row 0xC10 "LDC ofm" CLASS_DEFAULT CYCLES_LDC ERRORS_DEFAULT;
  row 0xC11 "LDC ofm" CLASS_DEFAULT CYCLES_LDC ERRORS_DEFAULT;
  row 0xC12 "LDC ofm" CLASS_DEFAULT CYCLES_LDC ERRORS_DEFAULT;
  row 0xC13 "LDC ofm" CLASS_DEFAULT CYCLES_LDC ERRORS_DEFAULT;
  row 0xC14 "LDC ofm" CLASS_DEFAULT CYCLES_LDC ERRORS_DEFAULT;
  row 0xC15 "LDC ofm" CLASS_DEFAULT CYCLES_LDC ERRORS_DEFAULT;
  row 0xC16 "LDC ofm" CLASS_DEFAULT CYCLES_LDC ERRORS_DEFAULT;
  row 0xC17 "LDC ofm" CLASS_DEFAULT CYCLES_LDC ERRORS_DEFAULT;
  row 0xC18 "LDC ofm" CLASS_DEFAULT CYCLES_LDC ERRORS_DEFAULT;
  row 0xC19 "LDC ofm" CLASS_DEFAULT CYCLES_LDC ERRORS_DEFAULT;
  row 0xC1A "LDC ofm" CLASS_DEFAULT CYCLES_LDC ERRORS_DEFAULT;
  row 0xC1B "LDC ofm" CLASS_DEFAULT CYCLES_LDC ERRORS_DEFAULT;
  row 0xC1C "LDC ofm" CLASS_DEFAULT CYCLES_LDC ERRORS_DEFAULT;
  row 0xC1D "LDC ofm" CLASS_DEFAULT CYCLES_LDC ERRORS_DEFAULT;
  row 0xC1E "LDC ofm" CLASS_DEFAULT CYCLES_LDC ERRORS_DEFAULT;
  row 0xC1F "LDC ofm" CLASS_DEFAULT CYCLES_LDC ERRORS_DEFAULT;
  row 0xC20 "STC prm" CLASS_DEFAULT CYCLES_STC ERRORS_DEFAULT;
  row 0xC21 "STC prm" CLASS_DEFAULT CYCLES_STC ERRORS_DEFAULT;
  row 0xC22 "STC prm" CLASS_DEFAULT CYCLES_STC ERRORS_DEFAULT;
  row 0xC23 "STC prm" CLASS_DEFAULT CYCLES_STC ERRORS_DEFAULT;
  row 0xC24 "STC prm" CLASS_DEFAULT CYCLES_STC ERRORS_DEFAULT;
  row 0xC25 "STC prm" CLASS_DEFAULT CYCLES_STC ERRORS_DEFAULT;
  row 0xC26 "STC prm" CLASS_DEFAULT CYCLES_STC ERRORS_DEFAULT;
  row 0xC27 "STC prm" CLASS_DEFAULT CYCLES_STC ERRORS_DEFAULT;
  row 0xC28 "STC prm" CLASS_DEFAULT CYCLES_STC ERRORS_DEFAULT;
  row 0xC29 "STC prm" CLASS_DEFAULT CYCLES_STC ERRORS_DEFAULT;
  row 0xC2A "STC prm" CLASS_DEFAULT CYCLES_STC ERRORS_DEFAULT;
  row 0xC2B "STC prm" CLASS_DEFAULT CYCLES_STC ERRORS_DEFAULT;
  row 0xC2C "STC prm" CLASS_DEFAULT CYCLES_STC ERRORS_DEFAULT;
  row 0xC2D "STC prm" CLASS_DEFAULT CYCLES_STC ERRORS_DEFAULT;
  row 0xC2E "STC prm" CLASS_DEFAULT CYCLES_STC ERRORS_DEFAULT;
  row 0xC2F "STC prm" CLASS_DEFAULT CYCLES_STC ERRORS_DEFAULT;
  row 0xC30 "LDC prm" CLASS_DEFAULT CYCLES_LDC ERRORS_DEFAULT;
  row 0xC31 "LDC prm" CLASS_DEFAULT CYCLES_LDC ERRORS_DEFAULT;
  row 0xC32 "LDC prm" CLASS_DEFAULT CYCLES_LDC ERRORS_DEFAULT;
  row 0xC33 "LDC prm" CLASS_DEFAULT CYCLES_LDC ERRORS_DEFAULT;
  row 0xC34 "LDC prm" CLASS_DEFAULT CYCLES_LDC ERRORS_DEFAULT;
  row 0xC35 "LDC prm" CLASS_DEFAULT CYCLES_LDC ERRORS_DEFAULT;
  row 0xC36 "LDC prm" CLASS_DEFAULT CYCLES_LDC ERRORS_DEFAULT;
  row 0xC37 "LDC prm" CLASS_DEFAULT CYCLES_LDC ERRORS_DEFAULT;
  row 0xC38 "LDC prm" CLASS_DEFAULT CYCLES_LDC ERRORS_DEFAULT;
  row 0xC39 "LDC prm" CLASS_DEFAULT CYCLES_LDC ERRORS_DEFAULT;
  row 0xC3A "LDC prm" CLASS_DEFAULT CYCLES_LDC ERRORS_DEFAULT;
  row 0xC3B "LDC prm" CLASS_DEFAULT CYCLES_LDC ERRORS_DEFAULT;
  row 0xC3C "LDC prm" CLASS_DEFAULT CYCLES_LDC ERRORS_DEFAULT;
  row 0xC3D "LDC prm" CLASS_DEFAULT CYCLES_LDC ERRORS_DEFAULT;
  row 0xC3E "LDC prm" CLASS_DEFAULT CYCLES_LDC ERRORS_DEFAULT;
  row 0xC3F "LDC prm" CLASS_DEFAULT CYCLES_LDC ERRORS_DEFAULT;
  row 0xC40 "STC ofm" CLASS_DEFAULT CYCLES_STC ERRORS_DEFAULT;
  row 0xC41 "STC ofm" CLASS_DEFAULT CYCLES_STC ERRORS_DEFAULT;
  row 0xC42 "STC ofm" CLASS_DEFAULT CYCLES_STC ERRORS_DEFAULT;
  row 0xC43 "STC ofm" CLASS_DEFAULT CYCLES_STC ERRORS_DEFAULT;
  row 0xC44 "STC ofm" CLASS_DEFAULT CYCLES_STC ERRORS_DEFAULT;
  row 0xC45 "STC ofm" CLASS_DEFAULT CYCLES_STC ERRORS_DEFAULT;
  row 0xC46 "STC ofm" CLASS_DEFAULT CYCLES_STC ERRORS_DEFAULT;
  row 0xC47 "STC ofm" CLASS_DEFAULT CYCLES_STC ERRORS_DEFAULT;
  row 0xC48 "STC ofm" CLASS_DEFAULT CYCLES_STC ERRORS_DEFAULT;
  row 0xC49 "STC ofm" CLASS_DEFAULT CYCLES_STC ERRORS_DEFAULT;
  row 0xC4A "STC ofm" CLASS_DEFAULT CYCLES_STC ERRORS_DEFAULT;
  row 0xC4B "STC ofm" CLASS_DEFAULT CYCLES_STC ERRORS_DEFAULT;
  row 0xC4C "STC ofm" CLASS_DEFAULT CYCLES_STC ERRORS_DEFAULT;
  row 0xC4D "STC ofm" CLASS_DEFAULT CYCLES_STC ERRORS_DEFAULT;
  row 0xC4E "STC ofm" CLASS_DEFAULT CYCLES_STC ERRORS_DEFAULT;
  row 0xC4F "STC ofm" CLASS_DEFAULT CYCLES_STC ERRORS_DEFAULT;
  row 0xC50 "LDC ofm" CLASS_DEFAULT CYCLES_LDC ERRORS_DEFAULT;
  row 0xC51 "LDC ofm" CLASS_DEFAULT CYCLES_LDC ERRORS_DEFAULT;
  row 0xC52 "LDC ofm" CLASS_DEFAULT CYCLES_LDC ERRORS_DEFAULT;
  row 0xC53 "LDC ofm" CLASS_DEFAULT CYCLES_LDC ERRORS_DEFAULT;
  row 0xC54 "LDC ofm" CLASS_DEFAULT CYCLES_LDC ERRORS_DEFAULT;
  row 0xC55 "LDC ofm" CLASS_DEFAULT CYCLES_LDC ERRORS_DEFAULT;
  row 0xC56 "LDC ofm" CLASS_DEFAULT CYCLES_LDC ERRORS_DEFAULT;
  row 0xC57 "LDC ofm" CLASS_DEFAULT CYCLES_LDC ERRORS_DEFAULT;
  row 0xC58 "LDC ofm" CLASS_DEFAULT CYCLES_LDC ERRORS_DEFAULT;
  row 0xC59 "LDC ofm" CLASS_DEFAULT CYCLES_LDC ERRORS_DEFAULT;
  row 0xC5A "LDC ofm" CLASS_DEFAULT CYCLES_LDC ERRORS_DEFAULT;
  row 0xC5B "LDC ofm" CLASS_DEFAULT CYCLES_LDC ERRORS_DEFAULT;
  row 0xC5C "LDC ofm" CLASS_DEFAULT CYCLES_LDC ERRORS_DEFAULT;
  row 0xC5D "LDC ofm" CLASS_DEFAULT CYCLES_LDC ERRORS_DEFAULT;
  row 0xC5E "LDC ofm" CLASS_DEFAULT CYCLES_LDC ERRORS_DEFAULT;
  row 0xC5F "LDC ofm" CLASS_DEFAULT CYCLES_LDC ERRORS_DEFAULT;
  row 0xC60 "STC prm" CLASS_DEFAULT CYCLES_STC ERRORS_DEFAULT;
  row 0xC61 "STC prm" CLASS_DEFAULT CYCLES_STC ERRORS_DEFAULT;
  row 0xC62 "STC prm" CLASS_DEFAULT CYCLES_STC ERRORS_DEFAULT;
  row 0xC63 "STC prm" CLASS_DEFAULT CYCLES_STC ERRORS_DEFAULT;
  row 0xC64 "STC prm" CLASS_DEFAULT CYCLES_STC ERRORS_DEFAULT;
  row 0xC65 "STC prm" CLASS_DEFAULT CYCLES_STC ERRORS_DEFAULT;
  row 0xC66 "STC prm" CLASS_DEFAULT CYCLES_STC ERRORS_DEFAULT;
  row 0xC67 "STC prm" CLASS_DEFAULT CYCLES_STC ERRORS_DEFAULT;
  row 0xC68 "STC prm" CLASS_DEFAULT CYCLES_STC ERRORS_DEFAULT;
  row 0xC69 "STC prm" CLASS_DEFAULT CYCLES_STC ERRORS_DEFAULT;
  row 0xC6A "STC prm" CLASS_DEFAULT CYCLES_STC ERRORS_DEFAULT;
  row 0xC6B "STC prm" CLASS_DEFAULT CYCLES_STC ERRORS_DEFAULT;
  row 0xC6C "STC prm" CLASS_DEFAULT CYCLES_STC ERRORS_DEFAULT;
  row 0xC6D "STC prm" CLASS_DEFAULT CYCLES_STC ERRORS_DEFAULT;
  row 0xC6E "STC prm" CLASS_DEFAULT CYCLES_STC ERRORS_DEFAULT;
  row 0xC6F "STC prm" CLASS_DEFAULT CYCLES_STC ERRORS_DEFAULT;
  row 0xC70 "LDC prm" CLASS_DEFAULT CYCLES_LDC ERRORS_DEFAULT;
  row 0xC71 "LDC prm" CLASS_DEFAULT CYCLES_LDC ERRORS_DEFAULT;
  row 0xC72 "LDC prm" CLASS_DEFAULT CYCLES_LDC ERRORS_DEFAULT;
  row 0xC73 "LDC prm" CLASS_DEFAULT CYCLES_LDC ERRORS_DEFAULT;
  row 0xC74 "LDC prm" CLASS_DEFAULT CYCLES_LDC ERRORS_DEFAULT;
  row 0xC75 "LDC prm" CLASS_DEFAULT CYCLES_LDC ERRORS_DEFAULT;
  row 0xC76 "LDC prm" CLASS_DEFAULT CYCLES_LDC ERRORS_DEFAULT;
  row 0xC77 "LDC prm" CLASS_DEFAULT CYCLES_LDC ERRORS_DEFAULT;
  row 0xC78 "LDC prm" CLASS_DEFAULT CYCLES_LDC ERRORS_DEFAULT;
  row 0xC79 "LDC prm" CLASS_DEFAULT CYCLES_LDC ERRORS_DEFAULT;
  row 0xC7A "LDC prm" CLASS_DEFAULT CYCLES_LDC ERRORS_DEFAULT;
  row 0xC7B "LDC prm" CLASS_DEFAULT CYCLES_LDC ERRORS_DEFAULT;
  row 0xC7C "LDC prm" CLASS_DEFAULT CYCLES_LDC ERRORS_DEFAULT;
  row 0xC7D "LDC prm" CLASS_DEFAULT CYCLES_LDC ERRORS_DEFAULT;
  row 0xC7E "LDC prm" CLASS_DEFAULT CYCLES_LDC ERRORS_DEFAULT;
  row 0xC7F "LDC prm" CLASS_DEFAULT CYCLES_LDC ERRORS_DEFAULT].

Definition vemu_arm_instr_25 : list vemu_instr_info := [
  row 0xC80 "STC ofp" CLASS_DEFAULT CYCLES_STC ERRORS_DEFAULT;
  row 0xC81 "STC ofp" CLASS_DEFAULT CYCLES_STC ERRORS_DEFAULT;
  row 0xC82 "STC ofp" CLASS_DEFAULT CYCLES_STC ERRORS_DEFAULT;
  row 0xC83 "STC ofp" CLASS_DEFAULT CYCLES_STC ERRORS_DEFAULT;
  row 0xC84 "STC ofp" CLASS_DEFAULT CYCLES_STC ERRORS_DEFAULT;
  row 0xC85 "STC ofp" CLASS_DEFAULT CYCLES_STC ERRORS_DEFAULT;
  row 0xC86 "STC ofp" CLASS_DEFAULT CYCLES_STC ERRORS_DEFAULT;
  row 0xC87 "STC ofp" CLASS_DEFAULT CYCLES_STC ERRORS_DEFAULT;
  row 0xC88 "STC ofp" CLASS_DEFAULT CYCLES_STC ERRORS_DEFAULT;
  row 0xC89 "STC ofp" CLASS_DEFAULT CYCLES_STC ERRORS_DEFAULT;
  row 0xC8A "STC ofp" CLASS_DEFAULT CYCLES_STC ERRORS_DEFAULT;
  row 0xC8B "STC ofp" CLASS_DEFAULT CYCLES_STC ERRORS_DEFAULT;
  row 0xC8C "STC ofp" CLASS_DEFAULT CYCLES_STC ERRORS_DEFAULT;
  row 0xC8D "STC ofp" CLASS_DEFAULT CYCLES_STC ERRORS_DEFAULT;
  row 0xC8E "STC ofp" CLASS_DEFAULT CYCLES_STC ERRORS_DEFAULT;
  row 0xC8F "STC ofp" CLASS_DEFAULT CYCLES_STC ERRORS_DEFAULT;
  row 0xC90 "LDC ofp" CLASS_DEFAULT CYCLES_LDC ERRORS_DEFAULT;
  row 0xC91 "LDC ofp" CLASS_DEFAULT CYCLES_LDC ERRORS_DEFAULT;
  row 0xC92 "LDC ofp" CLASS_DEFAULT CYCLES_LDC ERRORS_DEFAULT;
  row 0xC93 "LDC ofp" CLASS_DEFAULT CYCLES_LDC ERRORS_DEFAULT;
  row 0xC94 "LDC ofp" CLASS_DEFAULT CYCLES_LDC ERRORS_DEFAULT;
  row 0xC95 "LDC ofp" CLASS_DEFAULT CYCLES_LDC ERRORS_DEFAULT;
  row 0xC96 "LDC ofp" CLASS_DEFAULT CYCLES_LDC ERRORS_DEFAULT;
  row 0xC97 "LDC ofp" CLASS_DEFAULT CYCLES_LDC ERRORS_DEFAULT;
  row 0xC98 "LDC ofp" CLASS_DEFAULT CYCLES_LDC ERRORS_DEFAULT;
  row 0xC99 "LDC ofp" CLASS_DEFAULT CYCLES_LDC ERRORS_DEFAULT;
  row 0xC9A "LDC ofp" CLASS_DEFAULT CYCLES_LDC ERRORS_DEFAULT;
  row 0xC9B "LDC ofp" CLASS_DEFAULT CYCLES_LDC ERRORS_DEFAULT;
  row 0xC9C "LDC ofp" CLASS_DEFAULT CYCLES_LDC ERRORS_DEFAULT;
  row 0xC9D "LDC ofp" CLASS_DEFAULT CYCLES_LDC ERRORS_DEFAULT;
  row 0xC9E "LDC ofp" CLASS_DEFAULT CYCLES_LDC ERRORS_DEFAULT;
  row 0xC9F "LDC ofp" CLASS_DEFAULT CYCLES_LDC ERRORS_DEFAULT;
  row 0xCA0 "STC prp" CLASS_DEFAULT CYCLES_STC ERRORS_DEFAULT;
  row 0xCA1 "STC prp" CLASS_DEFAULT CYCLES_STC ERRORS_DEFAULT;
  row 0xCA2 "STC prp" CLASS_DEFAULT CYCLES_STC ERRORS_DEFAULT;
  row 0xCA3 "STC prp" CLASS_DEFAULT CYCLES_STC ERRORS_DEFAULT;
  row 0xCA4 "STC prp" CLASS_DEFAULT CYCLES_STC ERRORS_DEFAULT;
  row 0xCA5 "STC prp" CLASS_DEFAULT CYCLES_STC ERRORS_DEFAULT;
  row 0xCA6 "STC prp" CLASS_DEFAULT CYCLES_STC ERRORS_DEFAULT;
  row 0xCA7 "STC prp" CLASS_DEFAULT CYCLES_STC ERRORS_DEFAULT;
  row 0xCA8 "STC prp" CLASS_DEFAULT CYCLES_STC ERRORS_DEFAULT;
  row 0xCA9 "STC prp" CLASS_DEFAULT CYCLES_STC ERRORS_DEFAULT;
  row 0xCAA "STC prp" CLASS_DEFAULT CYCLES_STC ERRORS_DEFAULT;
  row 0xCAB "STC prp" CLASS_DEFAULT CYCLES_STC ERRORS_DEFAULT;
  row 0xCAC "STC prp" CLASS_DEFAULT CYCLES_STC ERRORS_DEFAULT;
  row 0xCAD "STC prp" CLASS_DEFAULT CYCLES_STC ERRORS_DEFAULT;
  row 0xCAE "STC prp" CLASS_DEFAULT CYCLES_STC ERRORS_DEFAULT;
  row 0xCAF "STC prp" CLASS_DEFAULT CYCLES_STC ERRORS_DEFAULT;
  row 0xCB0 "LDC prp" CLASS_DEFAULT CYCLES_LDC ERRORS_DEFAULT;
  row 0xCB1 "LDC prp" CLASS_DEFAULT CYCLES_LDC ERRORS_DEFAULT;
  row 0xCB2 "LDC prp" CLASS_DEFAULT CYCLES_LDC ERRORS_DEFAULT;
  row 0xCB3 "LDC prp" CLASS_DEFAULT CYCLES_LDC ERRORS_DEFAULT;
  row 0xCB4 "LDC prp" CLASS_DEFAULT CYCLES_LDC ERRORS_DEFAULT;
  row 0xCB5 "LDC prp" CLASS_DEFAULT CYCLES_LDC ERRORS_DEFAULT;
  row 0xCB6 "LDC prp" CLASS_DEFAULT CYCLES_LDC ERRORS_DEFAULT;
  row 0xCB7 "LDC prp" CLASS_DEFAULT CYCLES_LDC ERRORS_DEFAULT;
  row 0xCB8 "LDC prp" CLASS_DEFAULT CYCLES_LDC ERRORS_DEFAULT;
  row 0xCB9 "LDC prp" CLASS_DEFAULT CYCLES_LDC ERRORS_DEFAULT;
  row 0xCBA "LDC prp" CLASS_DEFAULT CYCLES_LDC ERRORS_DEFAULT;
  row 0xCBB "LDC prp" CLASS_DEFAULT CYCLES_LDC ERRORS_DEFAULT;
  row 0xCBC "LDC prp" CLASS_DEFAULT CYCLES_LDC ERRORS_DEFAULT;
  row 0xCBD "LDC prp" CLASS_DEFAULT CYCLES_LDC ERRORS_DEFAULT;
  row 0xCBE "LDC prp" CLASS_DEFAULT CYCLES_LDC ERRORS_DEFAULT;
  row 0xCBF "LDC prp" CLASS_DEFAULT CYCLES_LDC ERRORS_DEFAULT;
  row 0xCC0 "STC ofp" CLASS_DEFAULT CYCLES_STC ERRORS_DEFAULT;
  row 0xCC1 "STC ofp" CLASS_DEFAULT CYCLES_STC ERRORS_DEFAULT;
  row 0xCC2 "STC ofp" CLASS_DEFAULT CYCLES_STC ERRORS_DEFAULT;
  row 0xCC3 "STC ofp" CLASS_DEFAULT CYCLES_STC ERRORS_DEFAULT;
  row 0xCC4 "STC ofp" CLASS_DEFAULT CYCLES_STC ERRORS_DEFAULT;
  row 0xCC5 "STC ofp" CLASS_DEFAULT CYCLES_STC ERRORS_DEFAULT;
  row 0xCC6 "STC ofp" CLASS_DEFAULT CYCLES_STC ERRORS_DEFAULT;
  row 0xCC7 "STC ofp" CLASS_DEFAULT CYCLES_STC ERRORS_DEFAULT;
  row 0xCC8 "STC ofp" CLASS_DEFAULT CYCLES_STC ERRORS_DEFAULT;
  row 0xCC9 "STC ofp" CLASS_DEFAULT CYCLES_STC ERRORS_DEFAULT;
  row 0xCCA "STC ofp" CLASS_DEFAULT CYCLES_STC ERRORS_DEFAULT;
  row 0xCCB "STC ofp" CLASS_DEFAULT CYCLES_STC ERRORS_DEFAULT;
  row 0xCCC "STC ofp" CLASS_DEFAULT CYCLES_STC ERRORS_DEFAULT;
  row 0xCCD "STC ofp" CLASS_DEFAULT CYCLES_STC ERRORS_DEFAULT;
  row 0xCCE "STC ofp" CLASS_DEFAULT CYCLES_STC ERRORS_DEFAULT;
  row 0xCCF "STC ofp" CLASS_DEFAULT CYCLES_STC ERRORS_DEFAULT;
  row 0xCD0 "LDC ofp" CLASS_DEFAULT CYCLES_LDC ERRORS_DEFAULT;
  row 0xCD1 "LDC ofp" CLASS_DEFAULT CYCLES_LDC ERRORS_DEFAULT;
  row 0xCD2 "LDC ofp" CLASS_DEFAULT CYCLES_LDC ERRORS_DEFAULT;
  row 0xCD3 "LDC ofp" CLASS_DEFAULT CYCLES_LDC ERRORS_DEFAULT;
  row 0xCD4 "LDC ofp" CLASS_DEFAULT CYCLES_LDC ERRORS_DEFAULT;
  row 0xCD5 "LDC ofp" CLASS_DEFAULT CYCLES_LDC ERRORS_DEFAULT;
  row 0xCD6 "LDC ofp" CLASS_DEFAULT CYCLES_LDC ERRORS_DEFAULT;
  row 0xCD7 "LDC ofp" CLASS_DEFAULT CYCLES_LDC ERRORS_DEFAULT;
  row 0xCD8 "LDC ofp" CLASS_DEFAULT CYCLES_LDC ERRORS_DEFAULT;
  row 0xCD9 "LDC ofp" CLASS_DEFAULT CYCLES_LDC ERRORS_DEFAULT;
  row 0xCDA "LDC ofp" CLASS_DEFAULT CYCLES_LDC ERRORS_DEFAULT;
  row 0xCDB "LDC ofp" CLASS_DEFAULT CYCLES_LDC ERRORS_DEFAULT;
  row 0xCDC "LDC ofp" CLASS_DEFAULT CYCLES_LDC ERRORS_DEFAULT;
  row 0xCDD "LDC ofp" CLASS_DEFAULT CYCLES_LDC ERRORS_DEFAULT;
  row 0xCDE "LDC ofp" CLASS_DEFAULT CYCLES_LDC ERRORS_DEFAULT;
  row 0xCDF "LDC ofp" CLASS_DEFAULT CYCLES_LDC ERRORS_DEFAULT;
  row 0xCE0 "STC prp" CLASS_DEFAULT CYCLES_STC ERRORS_DEFAULT;
  row 0xCE1 "STC prp" CLASS_DEFAULT CYCLES_STC ERRORS_DEFAULT;
  row 0xCE2 "STC prp" CLASS_DEFAULT CYCLES_STC ERRORS_DEFAULT;
  row 0xCE3 "STC prp" CLASS_DEFAULT CYCLES_STC ERRORS_DEFAULT;
  row 0xCE4 "STC prp" CLASS_DEFAULT CYCLES_STC ERRORS_DEFAULT;
  row 0xCE5 "STC prp" CLASS_DEFAULT CYCLES_STC ERRORS_DEFAULT;
  row 0xCE6 "STC prp" CLASS_DEFAULT CYCLES_STC ERRORS_DEFAULT;
  row 0xCE7 "STC prp" CLASS_DEFAULT CYCLES_STC ERRORS_DEFAULT;
  row 0xCE8 "STC prp" CLASS_DEFAULT CYCLES_STC ERRORS_DEFAULT;
  row 0xCE9 "STC prp" CLASS_DEFAULT CYCLES_STC ERRORS_DEFAULT;
  row 0xCEA "STC prp" CLASS_DEFAULT CYCLES_STC ERRORS_DEFAULT;
  row 0xCEB "STC prp" CLASS_DEFAULT CYCLES_STC ERRORS_DEFAULT;
  row 0xCEC "STC prp" CLASS_DEFAULT CYCLES_STC ERRORS_DEFAULT;
  row 0xCED "STC prp" CLASS_DEFAULT CYCLES_STC ERRORS_DEFAULT;
  row 0xCEE "STC prp" CLASS_DEFAULT CYCLES_STC ERRORS_DEFAULT;
  row 0xCEF "STC prp" CLASS_DEFAULT CYCLES_STC ERRORS_DEFAULT;
  row 0xCF0 "LDC prp" CLASS_DEFAULT CYCLES_LDC ERRORS_DEFAULT;
  row 0xCF1 "LDC prp" CLASS_DEFAULT CYCLES_LDC ERRORS_DEFAULT;
  row 0xCF2 "LDC prp" CLASS_DEFAULT CYCLES_LDC ERRORS_DEFAULT;
  row 0xCF3 "LDC prp" CLASS_DEFAULT CYCLES_LDC ERRORS_DEFAULT;
  row 0xCF4 "LDC prp" CLASS_DEFAULT CYCLES_LDC ERRORS_DEFAULT;
  row 0xCF5 "LDC prp" CLASS_DEFAULT CYCLES_LDC ERRORS_DEFAULT;
  row 0xCF6 "LDC prp" CLASS_DEFAULT CYCLES_LDC ERRORS_DEFAULT;
  row 0xCF7 "LDC prp" CLASS_DEFAULT CYCLES_LDC ERRORS_DEFAULT;
  row 0xCF8 "LDC prp" CLASS_DEFAULT CYCLES_LDC ERRORS_DEFAULT;
  row 0xCF9 "LDC prp" CLASS_DEFAULT CYCLES_LDC ERRORS_DEFAULT;
  row 0xCFA "LDC prp" CLASS_DEFAULT CYCLES_LDC ERRORS_DEFAULT;
  row 0xCFB "LDC prp" CLASS_DEFAULT CYCLES_LDC ERRORS_DEFAULT;
  row 0xCFC "LDC prp" CLASS_DEFAULT CYCLES_LDC ERRORS_DEFAULT;
  row 0xCFD "LDC prp" CLASS_DEFAULT CYCLES_LDC ERRORS_DEFAULT;
  row 0xCFE "LDC prp" CLASS_DEFAULT CYCLES_LDC ERRORS_DEFAULT;
  row 0xCFF "LDC prp" CLASS_DEFAULT CYCLES_LDC ERRORS_DEFAULT].

Definition vemu_arm_instr_26 : list vemu_instr_info := [
  row 0xD00 "STC unm" CLASS_DEFAULT CYCLES_STC ERRORS_DEFAULT;
  row 0xD01 "STC unm" CLASS_DEFAULT CYCLES_STC ERRORS_DEFAULT;
  row 0xD02 "STC unm" CLASS_DEFAULT CYCLES_STC ERRORS_DEFAULT;
  row 0xD03 "STC unm" CLASS_DEFAULT CYCLES_STC ERRORS_DEFAULT;
  row 0xD04 "STC unm" CLASS_DEFAULT CYCLES_STC ERRORS_DEFAULT;
  row 0xD05 "STC unm" CLASS_DEFAULT CYCLES_STC ERRORS_DEFAULT;
  row 0xD06 "STC unm" CLASS_DEFAULT CYCLES_STC ERRORS_DEFAULT;
  row 0xD07 "STC unm" CLASS_DEFAULT CYCLES_STC ERRORS_DEFAULT;
  row 0xD08 "STC unm" CLASS_DEFAULT CYCLES_STC ERRORS_DEFAULT;
  row 0xD09 "STC unm" CLASS_DEFAULT CYCLES_STC ERRORS_DEFAULT;
  row 0xD0A "STC unm" CLASS_DEFAULT CYCLES_STC ERRORS_DEFAULT;
  row 0xD0B "STC unm" CLASS_DEFAULT CYCLES_STC ERRORS_DEFAULT;
  row 0xD0C "STC unm" CLASS_DEFAULT CYCLES_STC ERRORS_DEFAULT;
  row 0xD0D "STC unm" CLASS_DEFAULT CYCLES_STC ERRORS_DEFAULT;
  row 0xD0E "STC unm" CLASS_DEFAULT CYCLES_STC ERRORS_DEFAULT;
  row 0xD0F "STC unm" CLASS_DEFAULT CYCLES_STC ERRORS_DEFAULT;
  row 0xD10 "LDC unm" CLASS_DEFAULT CYCLES_LDC ERRORS_DEFAULT;
  row 0xD11 "LDC unm" CLASS_DEFAULT CYCLES_LDC ERRORS_DEFAULT;
  row 0xD12 "LDC unm" CLASS_DEFAULT CYCLES_LDC ERRORS_DEFAULT;
  row 0xD13 "LDC unm" CLASS_DEFAULT CYCLES_LDC ERRORS_DEFAULT;
  row 0xD14 "LDC unm" CLASS_DEFAULT CYCLES_LDC ERRORS_DEFAULT;
  row 0xD15 "LDC unm" CLASS_DEFAULT CYCLES_LDC ERRORS_DEFAULT;
  row 0xD16 "LDC unm" CLASS_DEFAULT CYCLES_LDC ERRORS_DEFAULT;
  row 0xD17 "LDC unm" CLASS_DEFAULT CYCLES_LDC ERRORS_DEFAULT;
  row 0xD18 "LDC unm" CLASS_DEFAULT CYCLES_LDC ERRORS_DEFAULT;
  row 0xD19 "LDC unm" CLASS_DEFAULT CYCLES_LDC ERRORS_DEFAULT;
  row 0xD1A "LDC unm" CLASS_DEFAULT CYCLES_LDC ERRORS_DEFAULT;
  row 0xD1B "LDC unm" CLASS_DEFAULT CYCLES_LDC ERRORS_DEFAULT;
  row 0xD1C "LDC unm" CLASS_DEFAULT CYCLES_LDC ERRORS_DEFAULT;
  row 0xD1D "LDC unm" CLASS_DEFAULT CYCLES_LDC ERRORS_DEFAULT;
  row 0xD1E "LDC unm" CLASS_DEFAULT CYCLES_LDC ERRORS_DEFAULT;
  row 0xD1F "LDC unm" CLASS_DEFAULT CYCLES_LDC ERRORS_DEFAULT;
  row 0xD20 "STC ptm" CLASS_DEFAULT CYCLES_STC ERRORS_DEFAULT;
  row 0xD21 "STC ptm" CLASS_DEFAULT CYCLES_STC ERRORS_DEFAULT;
  row 0xD22 "STC ptm" CLASS_DEFAULT CYCLES_STC ERRORS_DEFAULT;
  row 0xD23 "STC ptm" CLASS_DEFAULT CYCLES_STC ERRORS_DEFAULT;
  row 0xD24 "STC ptm" CLASS_DEFAULT CYCLES_STC ERRORS_DEFAULT;
  row 0xD25 "STC ptm" CLASS_DEFAULT CYCLES_STC ERRORS_DEFAULT;
  row 0xD26 "STC ptm" CLASS_DEFAULT CYCLES_STC ERRORS_DEFAULT;
  row 0xD27 "STC ptm" CLASS_DEFAULT CYCLES_STC ERRORS_DEFAULT;
  row 0xD28 "STC ptm" CLASS_DEFAULT CYCLES_STC ERRORS_DEFAULT;
  row 0xD29 "STC ptm" CLASS_DEFAULT CYCLES_STC ERRORS_DEFAULT;
  row 0xD2A "STC ptm" CLASS_DEFAULT CYCLES_STC ERRORS_DEFAULT;
  row 0xD2B "STC ptm" CLASS_DEFAULT CYCLES_STC ERRORS_DEFAULT;
  row 0xD2C "STC ptm" CLASS_DEFAULT CYCLES_STC ERRORS_DEFAULT;
  row 0xD2D "STC ptm" CLASS_DEFAULT CYCLES_STC ERRORS_DEFAULT;
  row 0xD2E "STC ptm" CLASS_DEFAULT CYCLES_STC ERRORS_DEFAULT;
  row 0xD2F "STC ptm" CLASS_DEFAULT CYCLES_STC ERRORS_DEFAULT;
  row 0xD30 "LDC ptm" CLASS_DEFAULT CYCLES_LDC ERRORS_DEFAULT;
  row 0xD31 "LDC ptm" CLASS_DEFAULT CYCLES_LDC ERRORS_DEFAULT;
  row 0xD32 "LDC ptm" CLASS_DEFAULT CYCLES_LDC ERRORS_DEFAULT;
  row 0xD33 "LDC ptm" CLASS_DEFAULT CYCLES_LDC ERRORS_DEFAULT;
  row 0xD34 "LDC ptm" CLASS_DEFAULT CYCLES_LDC ERRORS_DEFAULT;
  row 0xD35 "LDC ptm" CLASS_DEFAULT CYCLES_LDC ERRORS_DEFAULT;
  row 0xD36 "LDC ptm" CLASS_DEFAULT CYCLES_LDC ERRORS_DEFAULT;
  row 0xD37 "LDC ptm" CLASS_DEFAULT CYCLES_LDC ERRORS_DEFAULT;
  row 0xD38 "LDC ptm" CLASS_DEFAULT CYCLES_LDC ERRORS_DEFAULT;
  row 0xD39 "LDC ptm" CLASS_DEFAULT CYCLES_LDC ERRORS_DEFAULT;
  row 0xD3A "LDC ptm" CLASS_DEFAULT CYCLES_LDC ERRORS_DEFAULT;
  row 0xD3B "LDC ptm" CLASS_DEFAULT CYCLES_LDC ERRORS_DEFAULT;
  row 0xD3C "LDC ptm" CLASS_DEFAULT CYCLES_LDC ERRORS_DEFAULT;
  row 0xD3D "LDC ptm" CLASS_DEFAULT CYCLES_LDC ERRORS_DEFAULT;
  row 0xD3E "LDC ptm" CLASS_DEFAULT CYCLES_LDC ERRORS_DEFAULT;
  row 0xD3F "LDC ptm" CLASS_DEFAULT CYCLES_LDC ERRORS_DEFAULT;
  row 0xD40 "STC unm" CLASS_DEFAULT CYCLES_STC ERRORS_DEFAULT;
  row 0xD41 "STC unm" CLASS_DEFAULT CYCLES_STC ERRORS_DEFAULT;
  row 0xD42 "STC unm" CLASS_DEFAULT CYCLES_STC ERRORS_DEFAULT;
  row 0xD43 "STC unm" CLASS_DEFAULT CYCLES_STC ERRORS_DEFAULT;
  row 0xD44 "STC unm" CLASS_DEFAULT CYCLES_STC ERRORS_DEFAULT;
  row 0xD45 "STC unm" CLASS_DEFAULT CYCLES_STC ERRORS_DEFAULT;
  row 0xD46 "STC unm" CLASS_DEFAULT CYCLES_STC ERRORS_DEFAULT;
  row 0xD47 "STC unm" CLASS_DEFAULT CYCLES_STC ERRORS_DEFAULT;
  row 0xD48 "STC unm" CLASS_DEFAULT CYCLES_STC ERRORS_DEFAULT;
  row 0xD49 "STC unm" CLASS_DEFAULT CYCLES_STC ERRORS_DEFAULT;
  row 0xD4A "STC unm" CLASS_DEFAULT CYCLES_STC ERRORS_DEFAULT;
  row 0xD4B "STC unm" CLASS_DEFAULT CYCLES_STC ERRORS_DEFAULT;
  row 0xD4C "STC unm" CLASS_DEFAULT CYCLES_STC ERRORS_DEFAULT;
  row 0xD4D "STC unm" CLASS_DEFAULT CYCLES_STC ERRORS_DEFAULT;
  row 0xD4E "STC unm" CLASS_DEFAULT CYCLES_STC ERRORS_DEFAULT;
  row 0xD4F "STC unm" CLASS_DEFAULT CYCLES_STC ERRORS_DEFAULT;
  row 0xD50 "LDC unm" CLASS_DEFAULT CYCLES_LDC ERRORS_DEFAULT;
  row 0xD51 "LDC unm" CLASS_DEFAULT CYCLES_LDC ERRORS_DEFAULT;
  row 0xD52 "LDC unm" CLASS_DEFAULT CYCLES_LDC ERRORS_DEFAULT;
  row 0xD53 "LDC unm" CLASS_DEFAULT CYCLES_LDC ERRORS_DEFAULT;
  row 0xD54 "LDC unm" CLASS_DEFAULT CYCLES_LDC ERRORS_DEFAULT;
  row 0xD55 "LDC unm" CLASS_DEFAULT CYCLES_LDC ERRORS_DEFAULT;
  row 0xD56 "LDC unm" CLASS_DEFAULT CYCLES_LDC ERRORS_DEFAULT;
  row 0xD57 "LDC unm" CLASS_DEFAULT CYCLES_LDC ERRORS_DEFAULT;
  row 0xD58 "LDC unm" CLASS_DEFAULT CYCLES_LDC ERRORS_DEFAULT;
  row 0xD59 "LDC unm" CLASS_DEFAULT CYCLES_LDC ERRORS_DEFAULT;
  row 0xD5A "LDC unm" CLASS_DEFAULT CYCLES_LDC ERRORS_DEFAULT;
  row 0xD5B "LDC unm" CLASS_DEFAULT CYCLES_LDC ERRORS_DEFAULT;
  row 0xD5C "LDC unm" CLASS_DEFAULT CYCLES_LDC ERRORS_DEFAULT;
  row 0xD5D "LDC unm" CLASS_DEFAULT CYCLES_LDC ERRORS_DEFAULT;
  row 0xD5E "LDC unm" CLASS_DEFAULT CYCLES_LDC ERRORS_DEFAULT;
  row 0xD5F "LDC unm" CLASS_DEFAULT CYCLES_LDC ERRORS_DEFAULT;
  row 0xD60 "STC ptm" CLASS_DEFAULT CYCLES_STC ERRORS_DEFAULT;
  row 0xD61 "STC ptm" CLASS_DEFAULT CYCLES_STC ERRORS_DEFAULT;
  row 0xD62 "STC ptm" CLASS_DEFAULT CYCLES_STC ERRORS_DEFAULT;
  row 0xD63 "STC ptm" CLASS_DEFAULT CYCLES_STC ERRORS_DEFAULT;
  row 0xD64 "STC ptm" CLASS_DEFAULT CYCLES_STC ERRORS_DEFAULT;
  row 0xD65 "STC ptm" CLASS_DEFAULT CYCLES_STC ERRORS_DEFAULT;
  row 0xD66 "STC ptm" CLASS_DEFAULT CYCLES_STC ERRORS_DEFAULT;
  row 0xD67 "STC ptm" CLASS_DEFAULT CYCLES_STC ERRORS_DEFAULT;
  row 0xD68 "STC ptm" CLASS_DEFAULT CYCLES_STC ERRORS_DEFAULT;
  row 0xD69 "STC ptm" CLASS_DEFAULT CYCLES_STC ERRORS_DEFAULT;
  row 0xD6A "STC ptm" CLASS_DEFAULT CYCLES_STC ERRORS_DEFAULT;
  row 0xD6B "STC ptm" CLASS_DEFAULT CYCLES_STC ERRORS_DEFAULT;
  row 0xD6C "STC ptm" CLASS_DEFAULT CYCLES_STC ERRORS_DEFAULT;
  row 0xD6D "STC ptm" CLASS_DEFAULT CYCLES_STC ERRORS_DEFAULT;
  row 0xD6E "STC ptm" CLASS_DEFAULT CYCLES_STC ERRORS_DEFAULT;
  row 0xD6F "STC ptm" CLASS_DEFAULT CYCLES_STC ERRORS_DEFAULT;
  row 0xD70 "LDC ptm" CLASS_DEFAULT CYCLES_LDC ERRORS_DEFAULT;
  row 0xD71 "LDC ptm" CLASS_DEFAULT CYCLES_LDC ERRORS_DEFAULT;
  row 0xD72 "LDC ptm" CLASS_DEFAULT CYCLES_LDC ERRORS_DEFAULT;
  row 0xD73 "LDC ptm" CLASS_DEFAULT CYCLES_LDC ERRORS_DEFAULT;
  row 0xD74 "LDC ptm" CLASS_DEFAULT CYCLES_LDC ERRORS_DEFAULT;
  row 0xD75 "LDC ptm" CLASS_DEFAULT CYCLES_LDC ERRORS_DEFAULT;
  row 0xD76 "LDC ptm" CLASS_DEFAULT CYCLES_LDC ERRORS_DEFAULT;
  row 0xD77 "LDC ptm" CLASS_DEFAULT CYCLES_LDC ERRORS_DEFAULT;
  row 0xD78 "LDC ptm" CLASS_DEFAULT CYCLES_LDC ERRORS_DEFAULT;
  row 0xD79 "LDC ptm" CLASS_DEFAULT CYCLES_LDC ERRORS_DEFAULT;
  row 0xD7A "LDC ptm" CLASS_DEFAULT CYCLES_LDC ERRORS_DEFAULT;
  row 0xD7B "LDC ptm" CLASS_DEFAULT CYCLES_LDC ERRORS_DEFAULT;
  row 0xD7C "LDC ptm" CLASS_DEFAULT CYCLES_LDC ERRORS_DEFAULT;
  row 0xD7D "LDC ptm" CLASS_DEFAULT CYCLES_LDC ERRORS_DEFAULT;
  row 0xD7E "LDC ptm" CLASS_DEFAULT CYCLES_LDC ERRORS_DEFAULT;
  row 0xD7F "LDC ptm" CLASS_DEFAULT CYCLES_LDC ERRORS_DEFAULT].

Definition vemu_arm_instr_27 : list vemu_instr_info := [
  row 0xD80 "STC unp" CLASS_DEFAULT CYCLES_STC ERRORS_DEFAULT;
  row 0xD81 "STC unp" CLASS_DEFAULT CYCLES_STC ERRORS_DEFAULT;
  row 0xD82 "STC unp" CLASS_DEFAULT CYCLES_STC ERRORS_DEFAULT;
  row 0xD83 "STC unp" CLASS_DEFAULT CYCLES_STC ERRORS_DEFAULT;
  row 0xD84 "STC unp" CLASS_DEFAULT CYCLES_STC ERRORS_DEFAULT;
  row 0xD85 "STC unp" CLASS_DEFAULT CYCLES_STC ERRORS_DEFAULT;
  row 0xD86 "STC unp" CLASS_DEFAULT CYCLES_STC ERRORS_DEFAULT;
  row 0xD87 "STC unp" CLASS_DEFAULT CYCLES_STC ERRORS_DEFAULT;
  row 0xD88 "STC unp" CLASS_DEFAULT CYCLES_STC ERRORS_DEFAULT;
  row 0xD89 "STC unp" CLASS_DEFAULT CYCLES_STC ERRORS_DEFAULT;
  row 0xD8A "STC unp" CLASS_DEFAULT CYCLES_STC ERRORS_DEFAULT;
  row 0xD8B "STC unp" CLASS_DEFAULT CYCLES_STC ERRORS_DEFAULT;
  row 0xD8C "STC unp" CLASS_DEFAULT CYCLES_STC ERRORS_DEFAULT;
  row 0xD8D "STC unp" CLASS_DEFAULT CYCLES_STC ERRORS_DEFAULT;
  row 0xD8E "STC unp" CLASS_DEFAULT CYCLES_STC ERRORS_DEFAULT;
  row 0xD8F "STC unp" CLASS_DEFAULT CYCLES_STC ERRORS_DEFAULT;
  row 0xD90 "LDC unp" CLASS_DEFAULT CYCLES_LDC ERRORS_DEFAULT;
  row 0xD91 "LDC unp" CLASS_DEFAULT CYCLES_LDC ERRORS_DEFAULT;
  row 0xD92 "LDC unp" CLASS_DEFAULT CYCLES_LDC ERRORS_DEFAULT;
  row 0xD93 "LDC unp" CLASS_DEFAULT CYCLES_LDC ERRORS_DEFAULT;
  row 0xD94 "LDC unp" CLASS_DEFAULT CYCLES_LDC ERRORS_DEFAULT;
  row 0xD95 "LDC unp" CLASS_DEFAULT CYCLES_LDC ERRORS_DEFAULT;
  row 0xD96 "LDC unp" CLASS_DEFAULT CYCLES_LDC ERRORS_DEFAULT;
  row 0xD97 "LDC unp" CLASS_DEFAULT CYCLES_LDC ERRORS_DEFAULT;
  row 0xD98 "LDC unp" CLASS_DEFAULT CYCLES_LDC ERRORS_DEFAULT;
  row 0xD99 "LDC unp" CLASS_DEFAULT CYCLES_LDC ERRORS_DEFAULT;
  row 0xD9A "LDC unp" CLASS_DEFAULT CYCLES_LDC ERRORS_DEFAULT;
  row 0xD9B "LDC unp" CLASS_DEFAULT CYCLES_LDC ERRORS_DEFAULT;
  row 0xD9C "LDC unp" CLASS_DEFAULT CYCLES_LDC ERRORS_DEFAULT;
  row 0xD9D "LDC unp" CLASS_DEFAULT CYCLES_LDC ERRORS_DEFAULT;
  row 0xD9E "LDC unp" CLASS_DEFAULT CYCLES_LDC ERRORS_DEFAULT;
  row 0xD9F "LDC unp" CLASS_DEFAULT CYCLES_LDC ERRORS_DEFAULT;
  row 0xDA0 "STC ptp" CLASS_DEFAULT CYCLES_STC ERRORS_DEFAULT;
  row 0xDA1 "STC ptp" CLASS_DEFAULT CYCLES_STC ERRORS_DEFAULT;
  row 0xDA2 "STC ptp" CLASS_DEFAULT CYCLES_STC ERRORS_DEFAULT;
  row 0xDA3 "STC ptp" CLASS_DEFAULT CYCLES_STC ERRORS_DEFAULT;
  row 0xDA4 "STC ptp" CLASS_DEFAULT CYCLES_STC ERRORS_DEFAULT;
  row 0xDA5 "STC ptp" CLASS_DEFAULT CYCLES_STC ERRORS_DEFAULT;
  row 0xDA6 "STC ptp" CLASS_DEFAULT CYCLES_STC ERRORS_DEFAULT;
  row 0xDA7 "STC ptp" CLASS_DEFAULT CYCLES_STC ERRORS_DEFAULT;
  row 0xDA8 "STC ptp" CLASS_DEFAULT CYCLES_STC ERRORS_DEFAULT;
  row 0xDA9 "STC ptp" CLASS_DEFAULT CYCLES_STC ERRORS_DEFAULT;
  row 0xDAA "STC ptp" CLASS_DEFAULT CYCLES_STC ERRORS_DEFAULT;
  row 0xDAB "STC ptp" CLASS_DEFAULT CYCLES_STC ERRORS_DEFAULT;
  row 0xDAC "STC ptp" CLASS_DEFAULT CYCLES_STC ERRORS_DEFAULT;
  row 0xDAD "STC ptp" CLASS_DEFAULT CYCLES_STC ERRORS_DEFAULT;
  row 0xDAE "STC ptp" CLASS_DEFAULT CYCLES_STC ERRORS_DEFAULT;
  row 0xDAF "STC ptp" CLASS_DEFAULT CYCLES_STC ERRORS_DEFAULT;
  row 0xDB0 "LDC ptp" CLASS_DEFAULT CYCLES_LDC ERRORS_DEFAULT;
  row 0xDB1 "LDC ptp" CLASS_DEFAULT CYCLES_LDC ERRORS_DEFAULT;
  row 0xDB2 "LDC ptp" CLASS_DEFAULT CYCLES_LDC ERRORS_DEFAULT;
  row 0xDB3 "LDC ptp" CLASS_DEFAULT CYCLES_LDC ERRORS_DEFAULT;
  row 0xDB4 "LDC ptp" CLASS_DEFAULT CYCLES_LDC ERRORS_DEFAULT;
  row 0xDB5 "LDC ptp" CLASS_DEFAULT CYCLES_LDC ERRORS_DEFAULT;
  row 0xDB6 "LDC ptp" CLASS_DEFAULT CYCLES_LDC ERRORS_DEFAULT;
  row 0xDB7 "LDC ptp" CLASS_DEFAULT CYCLES_LDC ERRORS_DEFAULT;
  row 0xDB8 "LDC ptp" CLASS_DEFAULT CYCLES_LDC ERRORS_DEFAULT;
  row 0xDB9 "LDC ptp" CLASS_DEFAULT CYCLES_LDC ERRORS_DEFAULT;
  row 0xDBA "LDC ptp" CLASS_DEFAULT CYCLES_LDC ERRORS_DEFAULT;
  row 0xDBB "LDC ptp" CLASS_DEFAULT CYCLES_LDC ERRORS_DEFAULT;
  row 0xDBC "LDC ptp" CLASS_DEFAULT CYCLES_LDC ERRORS_DEFAULT;
  row 0xDBD "LDC ptp" CLASS_DEFAULT CYCLES_LDC ERRORS_DEFAULT;
  row 0xDBE "LDC ptp" CLASS_DEFAULT CYCLES_LDC ERRORS_DEFAULT;
  row 0xDBF "LDC ptp" CLASS_DEFAULT CYCLES_LDC ERRORS_DEFAULT;
  row 0xDC0 "STC unp" CLASS_DEFAULT CYCLES_STC ERRORS_DEFAULT;
  row 0xDC1 "STC unp" CLASS_DEFAULT CYCLES_STC ERRORS_DEFAULT;
  row 0xDC2 "STC unp" CLASS_DEFAULT CYCLES_STC ERRORS_DEFAULT;
  row 0xDC3 "STC unp" CLASS_DEFAULT CYCLES_STC ERRORS_DEFAULT;
  row 0xDC4 "STC unp" CLASS_DEFAULT CYCLES_STC ERRORS_DEFAULT;
  row 0xDC5 "STC unp" CLASS_DEFAULT CYCLES_STC ERRORS_DEFAULT;
  row 0xDC6 "STC unp" CLASS_DEFAULT CYCLES_STC ERRORS_DEFAULT;
  row 0xDC7 "STC unp" CLASS_DEFAULT CYCLES_STC ERRORS_DEFAULT;
  row 0xDC8 "STC unp" CLASS_DEFAULT CYCLES_STC ERRORS_DEFAULT;
  row 0xDC9 "STC unp" CLASS_DEFAULT CYCLES_STC ERRORS_DEFAULT;
  row 0xDCA "STC unp" CLASS_DEFAULT CYCLES_STC ERRORS_DEFAULT;
  row 0xDCB "STC unp" CLASS_DEFAULT CYCLES_STC ERRORS_DEFAULT;
  row 0xDCC "STC unp" CLASS_DEFAULT CYCLES_STC ERRORS_DEFAULT;
  row 0xDCD "STC unp" CLASS_DEFAULT CYCLES_STC ERRORS_DEFAULT;
  row 0xDCE "STC unp" CLASS_DEFAULT CYCLES_STC ERRORS_DEFAULT;
  row 0xDCF "STC unp" CLASS_DEFAULT CYCLES_STC ERRORS_DEFAULT;
  row 0xDD0 "LDC unp" CLASS_DEFAULT CYCLES_LDC ERRORS_DEFAULT;
  row 0xDD1 "LDC unp" CLASS_DEFAULT CYCLES_LDC ERRORS_DEFAULT;
  row 0xDD2 "LDC unp" CLASS_DEFAULT CYCLES_LDC ERRORS_DEFAULT;
  row 0xDD3 "LDC unp" CLASS_DEFAULT CYCLES_LDC ERRORS_DEFAULT;
  row 0xDD4 "LDC unp" CLASS_DEFAULT CYCLES_LDC ERRORS_DEFAULT;
  row 0xDD5 "LDC unp" CLASS_DEFAULT CYCLES_LDC ERRORS_DEFAULT;
  row 0xDD6 "LDC unp" CLASS_DEFAULT CYCLES_LDC ERRORS_DEFAULT;
  row 0xDD7 "LDC unp" CLASS_DEFAULT CYCLES_LDC ERRORS_DEFAULT;
  row 0xDD8 "LDC unp" CLASS_DEFAULT CYCLES_LDC ERRORS_DEFAULT;
  row 0xDD9 "LDC unp" CLASS_DEFAULT CYCLES_LDC ERRORS_DEFAULT;
  row 0xDDA "LDC unp" CLASS_DEFAULT CYCLES_LDC ERRORS_DEFAULT;
  row 0xDDB "LDC unp" CLASS_DEFAULT CYCLES_LDC ERRORS_DEFAULT;
  row 0xDDC "LDC unp" CLASS_DEFAULT CYCLES_LDC ERRORS_DEFAULT;
  row 0xDDD "LDC unp" CLASS_DEFAULT CYCLES_LDC ERRORS_DEFAULT;
  row 0xDDE "LDC unp" CLASS_DEFAULT CYCLES_LDC ERRORS_DEFAULT;
  row 0xDDF "LDC unp" CLASS_DEFAULT CYCLES_LDC ERRORS_DEFAULT;
  row 0xDE0 "STC ptp" CLASS_DEFAULT CYCLES_STC ERRORS_DEFAULT;
  row 0xDE1 "STC ptp" CLASS_DEFAULT CYCLES_STC ERRORS_DEFAULT;
  row 0xDE2 "STC ptp" CLASS_DEFAULT CYCLES_STC ERRORS_DEFAULT;
  row 0xDE3 "STC ptp" CLASS_DEFAULT CYCLES_STC ERRORS_DEFAULT;
  row 0xDE4 "STC ptp" CLASS_DEFAULT CYCLES_STC ERRORS_DEFAULT;
  row 0xDE5 "STC ptp" CLASS_DEFAULT CYCLES_STC ERRORS_DEFAULT;
  row 0xDE6 "STC ptp" CLASS_DEFAULT CYCLES_STC ERRORS_DEFAULT;
  row 0xDE7 "STC ptp" CLASS_DEFAULT CYCLES_STC ERRORS_DEFAULT;
  row 0xDE8 "STC ptp" CLASS_DEFAULT CYCLES_STC ERRORS_DEFAULT;
  row 0xDE9 "STC ptp" CLASS_DEFAULT CYCLES_STC ERRORS_DEFAULT;
  row 0xDEA "STC ptp" CLASS_DEFAULT CYCLES_STC ERRORS_DEFAULT;
  row 0xDEB "STC ptp" CLASS_DEFAULT CYCLES_STC ERRORS_DEFAULT;
  row 0xDEC "STC ptp" CLASS_DEFAULT CYCLES_STC ERRORS_DEFAULT;
  row 0xDED "STC ptp" CLASS_DEFAULT CYCLES_STC ERRORS_DEFAULT;
  row 0xDEE "STC ptp" CLASS_DEFAULT CYCLES_STC ERRORS_DEFAULT;
  row 0xDEF "STC ptp" CLASS_DEFAULT CYCLES_STC ERRORS_DEFAULT;
  row 0xDF0 "LDC ptp" CLASS_DEFAULT CYCLES_LDC ERRORS_DEFAULT;
  row 0xDF1 "LDC ptp" CLASS_DEFAULT CYCLES_LDC ERRORS_DEFAULT;
  row 0xDF2 "LDC ptp" CLASS_DEFAULT CYCLES_LDC ERRORS_DEFAULT;
  row 0xDF3 "LDC ptp" CLASS_DEFAULT CYCLES_LDC ERRORS_DEFAULT;
  row 0xDF4 "LDC ptp" CLASS_DEFAULT CYCLES_LDC ERRORS_DEFAULT;
  row 0xDF5 "LDC ptp" CLASS_DEFAULT CYCLES_LDC ERRORS_DEFAULT;
  row 0xDF6 "LDC ptp" CLASS_DEFAULT CYCLES_LDC ERRORS_DEFAULT;
  row 0xDF7 "LDC ptp" CLASS_DEFAULT CYCLES_LDC ERRORS_DEFAULT;
  row 0xDF8 "LDC ptp" CLASS_DEFAULT CYCLES_LDC ERRORS_DEFAULT;
  row 0xDF9 "LDC ptp" CLASS_DEFAULT CYCLES_LDC ERRORS_DEFAULT;
  row 0xDFA "LDC ptp" CLASS_DEFAULT CYCLES_LDC ERRORS_DEFAULT;
  row 0xDFB "LDC ptp" CLASS_DEFAULT CYCLES_LDC ERRORS_DEFAULT;
  row 0xDFC "LDC ptp" CLASS_DEFAULT CYCLES_LDC ERRORS_DEFAULT;
  row 0xDFD "LDC ptp" CLASS_DEFAULT CYCLES_LDC ERRORS_DEFAULT;
  row 0xDFE "LDC ptp" CLASS_DEFAULT CYCLES_LDC ERRORS_DEFAULT;
  row 0xDFF "LDC ptp" CLASS_DEFAULT CYCLES_LDC ERRORS_DEFAULT].

Definition vemu_arm_instr_28 : list vemu_instr_info := [
  row 0xE00 "CDP" CLASS_DEFAULT CYCLES_CDP ERRORS_DEFAULT;
  row 0xE01 "MCR" CLASS_DEFAULT CYCLES_MCR ERRORS_DEFAULT;
  row 0xE02 "CDP" CLASS_DEFAULT CYCLES_CDP ERRORS_DEFAULT;
  row 0xE03 "MCR" CLASS_DEFAULT CYCLES_MCR ERRORS_DEFAULT;
  row 0xE04 "CDP" CLASS_DEFAULT CYCLES_CDP ERRORS_DEFAULT;
  row 0xE05 "MCR" CLASS_DEFAULT CYCLES_MCR ERRORS_DEFAULT;
  row 0xE06 "CDP" CLASS_DEFAULT CYCLES_CDP ERRORS_DEFAULT;
  row 0xE07 "MCR" CLASS_DEFAULT CYCLES_MCR ERRORS_DEFAULT;
  row 0xE08 "CDP" CLASS_DEFAULT CYCLES_CDP ERRORS_DEFAULT;
  row 0xE09 "MCR" CLASS_DEFAULT CYCLES_MCR ERRORS_DEFAULT;
  row 0xE0A "CDP" CLASS_DEFAULT CYCLES_CDP ERRORS_DEFAULT;
  row 0xE0B "MCR" CLASS_DEFAULT CYCLES_MCR ERRORS_DEFAULT;
  row 0xE0C "CDP" CLASS_DEFAULT CYCLES_CDP ERRORS_DEFAULT;
  row 0xE0D "MCR" CLASS_DEFAULT CYCLES_MCR ERRORS_DEFAULT;
  row 0xE0E "CDP" CLASS_DEFAULT CYCLES_CDP ERRORS_DEFAULT;
  row 0xE0F "MCR" CLASS_DEFAULT CYCLES_MCR ERRORS_DEFAULT;
  row 0xE10 "CDP" CLASS_DEFAULT CYCLES_CDP ERRORS_DEFAULT;
  row 0xE11 "MRC" CLASS_DEFAULT CYCLES_MRC ERRORS_DEFAULT;
  row 0xE12 "CDP" CLASS_DEFAULT CYCLES_CDP ERRORS_DEFAULT;
  row 0xE13 "MRC" CLASS_DEFAULT CYCLES_MRC ERRORS_DEFAULT;
  row 0xE14 "CDP" CLASS_DEFAULT CYCLES_CDP ERRORS_DEFAULT;
  row 0xE15 "MRC" CLASS_DEFAULT CYCLES_MRC ERRORS_DEFAULT;
  row 0xE16 "CDP" CLASS_DEFAULT CYCLES_CDP ERRORS_DEFAULT;
  row 0xE17 "MRC" CLASS_DEFAULT CYCLES_MRC ERRORS_DEFAULT;
  row 0xE18 "CDP" CLASS_DEFAULT CYCLES_CDP ERRORS_DEFAULT;
  row 0xE19 "MRC" CLASS_DEFAULT CYCLES_MRC ERRORS_DEFAULT;
  row 0xE1A "CDP" CLASS_DEFAULT CYCLES_CDP ERRORS_DEFAULT;
  row 0xE1B "MRC" CLASS_DEFAULT CYCLES_MRC ERRORS_DEFAULT;
  row 0xE1C "CDP" CLASS_DEFAULT CYCLES_CDP ERRORS_DEFAULT;
  row 0xE1D "MRC" CLASS_DEFAULT CYCLES_MRC ERRORS_DEFAULT;
  row 0xE1E "CDP" CLASS_DEFAULT CYCLES_CDP ERRORS_DEFAULT;
  row 0xE1F "MRC" CLASS_DEFAULT CYCLES_MRC ERRORS_DEFAULT;
  row 0xE20 "CDP" CLASS_DEFAULT CYCLES_CDP ERRORS_DEFAULT;
  row 0xE21 "MCR" CLASS_DEFAULT CYCLES_MCR ERRORS_DEFAULT;
  row 0xE22 "CDP" CLASS_DEFAULT CYCLES_CDP ERRORS_DEFAULT;
  row 0xE23 "MCR" CLASS_DEFAULT CYCLES_MCR ERRORS_DEFAULT;
  row 0xE24 "CDP" CLASS_DEFAULT CYCLES_CDP ERRORS_DEFAULT;
  row 0xE25 "MCR" CLASS_DEFAULT CYCLES_MCR ERRORS_DEFAULT;
  row 0xE26 "CDP" CLASS_DEFAULT CYCLES_CDP ERRORS_DEFAULT;
  row 0xE27 "MCR" CLASS_DEFAULT CYCLES_MCR ERRORS_DEFAULT;
  row 0xE28 "CDP" CLASS_DEFAULT CYCLES_CDP ERRORS_DEFAULT;
  row 0xE29 "MCR" CLASS_DEFAULT CYCLES_MCR ERRORS_DEFAULT;
  row 0xE2A "CDP" CLASS_DEFAULT CYCLES_CDP ERRORS_DEFAULT;
  row 0xE2B "MCR" CLASS_DEFAULT CYCLES_MCR ERRORS_DEFAULT;
  row 0xE2C "CDP" CLASS_DEFAULT CYCLES_CDP ERRORS_DEFAULT;
  row 0xE2D "MCR" CLASS_DEFAULT CYCLES_MCR ERRORS_DEFAULT;
  row 0xE2E "CDP" CLASS_DEFAULT CYCLES_CDP ERRORS_DEFAULT;
  row 0xE2F "MCR" CLASS_DEFAULT CYCLES_MCR ERRORS_DEFAULT;
  row 0xE30 "CDP" CLASS_DEFAULT CYCLES_CDP ERRORS_DEFAULT;
  row 0xE31 "MRC" CLASS_DEFAULT CYCLES_MRC ERRORS_DEFAULT;
  row 0xE32 "CDP" CLASS_DEFAULT CYCLES_CDP ERRORS_DEFAULT;
  row 0xE33 "MRC" CLASS_DEFAULT CYCLES_MRC ERRORS_DEFAULT;
  row 0xE34 "CDP" CLASS_DEFAULT CYCLES_CDP ERRORS_DEFAULT;
  row 0xE35 "MRC" CLASS_DEFAULT CYCLES_MRC ERRORS_DEFAULT;
  row 0xE36 "CDP" CLASS_DEFAULT CYCLES_CDP ERRORS_DEFAULT;
  row 0xE37 "MRC" CLASS_DEFAULT CYCLES_MRC ERRORS_DEFAULT;
  row 0xE38 "CDP" CLASS_DEFAULT CYCLES_CDP ERRORS_DEFAULT;
  row 0xE39 "MRC" CLASS_DEFAULT CYCLES_MRC ERRORS_DEFAULT;
  row 0xE3A "CDP" CLASS_DEFAULT CYCLES_CDP ERRORS_DEFAULT;
  row 0xE3B "MRC" CLASS_DEFAULT CYCLES_MRC ERRORS_DEFAULT;
  row 0xE3C "CDP" CLASS_DEFAULT CYCLES_CDP ERRORS_DEFAULT;
  row 0xE3D "MRC" CLASS_DEFAULT CYCLES_MRC ERRORS_DEFAULT;
  row 0xE3E "CDP" CLASS_DEFAULT CYCLES_CDP ERRORS_DEFAULT;
  row 0xE3F "MRC" CLASS_DEFAULT CYCLES_MRC ERRORS_DEFAULT;
  row 0xE40 "CDP" CLASS_DEFAULT CYCLES_CDP ERRORS_DEFAULT;
  row 0xE41 "MCR" CLASS_DEFAULT CYCLES_MCR ERRORS_DEFAULT;
  row 0xE42 "CDP" CLASS_DEFAULT CYCLES_CDP ERRORS_DEFAULT;
  row 0xE43 "MCR" CLASS_DEFAULT CYCLES_MCR ERRORS_DEFAULT;
  row 0xE44 "CDP" CLASS_DEFAULT CYCLES_CDP ERRORS_DEFAULT;
  row 0xE45 "MCR" CLASS_DEFAULT CYCLES_MCR ERRORS_DEFAULT;
  row 0xE46 "CDP" CLASS_DEFAULT CYCLES_CDP ERRORS_DEFAULT;
  row 0xE47 "MCR" CLASS_DEFAULT CYCLES_MCR ERRORS_DEFAULT;
  row 0xE48 "CDP" CLASS_DEFAULT CYCLES_CDP ERRORS_DEFAULT;
  row 0xE49 "MCR" CLASS_DEFAULT CYCLES_MCR ERRORS_DEFAULT;
  row 0xE4A "CDP" CLASS_DEFAULT CYCLES_CDP ERRORS_DEFAULT;
  row 0xE4B "MCR" CLASS_DEFAULT CYCLES_MCR ERRORS_DEFAULT;
  row 0xE4C "CDP" CLASS_DEFAULT CYCLES_CDP ERRORS_DEFAULT;
  row 0xE4D "MCR" CLASS_DEFAULT CYCLES_MCR ERRORS_DEFAULT;
  row 0xE4E "CDP" CLASS_DEFAULT CYCLES_CDP ERRORS_DEFAULT;
  row 0xE4F "MCR" CLASS_DEFAULT CYCLES_MCR ERRORS_DEFAULT;
  row 0xE50 "CDP" CLASS_DEFAULT CYCLES_CDP ERRORS_DEFAULT;
  row 0xE51 "MRC" CLASS_DEFAULT CYCLES_MRC ERRORS_DEFAULT;
  row 0xE52 "CDP" CLASS_DEFAULT CYCLES_CDP ERRORS_DEFAULT;
  row 0xE53 "MRC" CLASS_DEFAULT CYCLES_MRC ERRORS_DEFAULT;
  row 0xE54 "CDP" CLASS_DEFAULT CYCLES_CDP ERRORS_DEFAULT;
  row 0xE55 "MRC" CLASS_DEFAULT CYCLES_MRC ERRORS_DEFAULT;
  row 0xE56 "CDP" CLASS_DEFAULT CYCLES_CDP ERRORS_DEFAULT;
  row 0xE57 "MRC" CLASS_DEFAULT CYCLES_MRC ERRORS_DEFAULT;
  row 0xE58 "CDP" CLASS_DEFAULT CYCLES_CDP ERRORS_DEFAULT;
  row 0xE59 "MRC" CLASS_DEFAULT CYCLES_MRC ERRORS_DEFAULT;
  row 0xE5A "CDP" CLASS_DEFAULT CYCLES_CDP ERRORS_DEFAULT;
  row 0xE5B "MRC" CLASS_DEFAULT CYCLES_MRC ERRORS_DEFAULT;
  row 0xE5C "CDP" CLASS_DEFAULT CYCLES_CDP ERRORS_DEFAULT;
  row 0xE5D "MRC" CLASS_DEFAULT CYCLES_MRC ERRORS_DEFAULT;
  row 0xE5E "CDP" CLASS_DEFAULT CYCLES_CDP ERRORS_DEFAULT;
  row 0xE5F "MRC" CLASS_DEFAULT CYCLES_MRC ERRORS_DEFAULT;
  row 0xE60 "CDP" CLASS_DEFAULT CYCLES_CDP ERRORS_DEFAULT;
  row 0xE61 "MCR" CLASS_DEFAULT CYCLES_MCR ERRORS_DEFAULT;
  row 0xE62 "CDP" CLASS_DEFAULT CYCLES_CDP ERRORS_DEFAULT;
  row 0xE63 "MCR" CLASS_DEFAULT CYCLES_MCR ERRORS_DEFAULT;
  row 0xE64 "CDP" CLASS_DEFAULT CYCLES_CDP ERRORS_DEFAULT;
  row 0xE65 "MCR" CLASS_DEFAULT CYCLES_MCR ERRORS_DEFAULT;
  row 0xE66 "CDP" CLASS_DEFAULT CYCLES_CDP ERRORS_DEFAULT;
  row 0xE67 "MCR" CLASS_DEFAULT CYCLES_MCR ERRORS_DEFAULT;
  row 0xE68 "CDP" CLASS_DEFAULT CYCLES_CDP ERRORS_DEFAULT;
  row 0xE69 "MCR" CLASS_DEFAULT CYCLES_MCR ERRORS_DEFAULT;
  row 0xE6A "CDP" CLASS_DEFAULT CYCLES_CDP ERRORS_DEFAULT;
  row 0xE6B "MCR" CLASS_DEFAULT CYCLES_MCR ERRORS_DEFAULT;
  row 0xE6C "CDP" CLASS_DEFAULT CYCLES_CDP ERRORS_DEFAULT;
  row 0xE6D "MCR" CLASS_DEFAULT CYCLES_MCR ERRORS_DEFAULT;
  row 0xE6E "CDP" CLASS_DEFAULT CYCLES_CDP ERRORS_DEFAULT;
  row 0xE6F "MCR" CLASS_DEFAULT CYCLES_MCR ERRORS_DEFAULT;
  row 0xE70 "CDP" CLASS_DEFAULT CYCLES_CDP ERRORS_DEFAULT;
  row 0xE71 "MRC" CLASS_DEFAULT CYCLES_MRC ERRORS_DEFAULT;
  row 0xE72 "CDP" CLASS_DEFAULT CYCLES_CDP ERRORS_DEFAULT;
  row 0xE73 "MRC" CLASS_DEFAULT CYCLES_MRC ERRORS_DEFAULT;
  row 0xE74 "CDP" CLASS_DEFAULT CYCLES_CDP ERRORS_DEFAULT;
  row 0xE75 "MRC" CLASS_DEFAULT CYCLES_MRC ERRORS_DEFAULT;
  row 0xE76 "CDP" CLASS_DEFAULT CYCLES_CDP ERRORS_DEFAULT;
  row 0xE77 "MRC" CLASS_DEFAULT CYCLES_MRC ERRORS_DEFAULT;
  row 0xE78 "CDP" CLASS_DEFAULT CYCLES_CDP ERRORS_DEFAULT;
  row 0xE79 "MRC" CLASS_DEFAULT CYCLES_MRC ERRORS_DEFAULT;
  row 0xE7A "CDP" CLASS_DEFAULT CYCLES_CDP ERRORS_DEFAULT;
  row 0xE7B "MRC" CLASS_DEFAULT CYCLES_MRC ERRORS_DEFAULT;
  row 0xE7C "CDP" CLASS_DEFAULT CYCLES_CDP ERRORS_DEFAULT;
  row 0xE7D "MRC" CLASS_DEFAULT CYCLES_MRC ERRORS_DEFAULT;
  row 0xE7E "CDP" CLASS_DEFAULT CYCLES_CDP ERRORS_DEFAULT;
  row 0xE7F "MRC" CLASS_DEFAULT CYCLES_MRC ERRORS_DEFAULT].

Definition vemu_arm_instr_29 : list vemu_instr_info := [
  row 0xE80 "CDP" CLASS_DEFAULT CYCLES_CDP ERRORS_DEFAULT;
  row 0xE81 "MCR" CLASS_DEFAULT CYCLES_MCR ERRORS_DEFAULT;
  row 0xE82 "CDP" CLASS_DEFAULT CYCLES_CDP ERRORS_DEFAULT;
  row 0xE83 "MCR" CLASS_DEFAULT CYCLES_MCR ERRORS_DEFAULT;
  row 0xE84 "CDP" CLASS_DEFAULT CYCLES_CDP ERRORS_DEFAULT;
  row 0xE85 "MCR" CLASS_DEFAULT CYCLES_MCR ERRORS_DEFAULT;
  row 0xE86 "CDP" CLASS_DEFAULT CYCLES_CDP ERRORS_DEFAULT;
  row 0xE87 "MCR" CLASS_DEFAULT CYCLES_MCR ERRORS_DEFAULT;
  row 0xE88 "CDP" CLASS_DEFAULT CYCLES_CDP ERRORS_DEFAULT;
  row 0xE89 "MCR" CLASS_DEFAULT CYCLES_MCR ERRORS_DEFAULT;
  row 0xE8A "CDP" CLASS_DEFAULT CYCLES_CDP ERRORS_DEFAULT;
  row 0xE8B "MCR" CLASS_DEFAULT CYCLES_MCR ERRORS_DEFAULT;
  row 0xE8C "CDP" CLASS_DEFAULT CYCLES_CDP ERRORS_DEFAULT;
  row 0xE8D "MCR" CLASS_DEFAULT CYCLES_MCR ERRORS_DEFAULT;
  row 0xE8E "CDP" CLASS_DEFAULT CYCLES_CDP ERRORS_DEFAULT;
  row 0xE8F "MCR" CLASS_DEFAULT CYCLES_MCR ERRORS_DEFAULT;
  row 0xE90 "CDP" CLASS_DEFAULT CYCLES_CDP ERRORS_DEFAULT;
  row 0xE91 "MRC" CLASS_DEFAULT CYCLES_MRC ERRORS_DEFAULT;
  row 0xE92 "CDP" CLASS_DEFAULT CYCLES_CDP ERRORS_DEFAULT;
  row 0xE93 "MRC" CLASS_DEFAULT CYCLES_MRC ERRORS_DEFAULT;
  row 0xE94 "CDP" CLASS_DEFAULT CYCLES_CDP ERRORS_DEFAULT;
  row 0xE95 "MRC" CLASS_DEFAULT CYCLES_MRC ERRORS_DEFAULT;
  row 0xE96 "CDP" CLASS_DEFAULT CYCLES_CDP ERRORS_DEFAULT;
  row 0xE97 "MRC" CLASS_DEFAULT CYCLES_MRC ERRORS_DEFAULT;
  row 0xE98 "CDP" CLASS_DEFAULT CYCLES_CDP ERRORS_DEFAULT;
  row 0xE99 "MRC" CLASS_DEFAULT CYCLES_MRC ERRORS_DEFAULT;
  row 0xE9A "CDP" CLASS_DEFAULT CYCLES_CDP ERRORS_DEFAULT;
  row 0xE9B "MRC" CLASS_DEFAULT CYCLES_MRC ERRORS_DEFAULT;
  row 0xE9C "CDP" CLASS_DEFAULT CYCLES_CDP ERRORS_DEFAULT;
  row 0xE9D "MRC" CLASS_DEFAULT CYCLES_MRC ERRORS_DEFAULT;
  row 0xE9E "CDP" CLASS_DEFAULT CYCLES_CDP ERRORS_DEFAULT;
  row 0xE9F "MRC" CLASS_DEFAULT CYCLES_MRC ERRORS_DEFAULT;
  row 0xEA0 "CDP" CLASS_DEFAULT CYCLES_CDP ERRORS_DEFAULT;
  row 0xEA1 "MCR" CLASS_DEFAULT CYCLES_MCR ERRORS_DEFAULT;
  row 0xEA2 "CDP" CLASS_DEFAULT CYCLES_CDP ERRORS_DEFAULT;
  row 0xEA3 "MCR" CLASS_DEFAULT CYCLES_MCR ERRORS_DEFAULT;
  row 0xEA4 "CDP" CLASS_DEFAULT CYCLES_CDP ERRORS_DEFAULT;
  row 0xEA5 "MCR" CLASS_DEFAULT CYCLES_MCR ERRORS_DEFAULT;
  row 0xEA6 "CDP" CLASS_DEFAULT CYCLES_CDP ERRORS_DEFAULT;
  row 0xEA7 "MCR" CLASS_DEFAULT CYCLES_MCR ERRORS_DEFAULT;
  row 0xEA8 "CDP" CLASS_DEFAULT CYCLES_CDP ERRORS_DEFAULT;
  row 0xEA9 "MCR" CLASS_DEFAULT CYCLES_MCR ERRORS_DEFAULT;
  row 0xEAA "CDP" CLASS_DEFAULT CYCLES_CDP ERRORS_DEFAULT;
  row 0xEAB "MCR" CLASS_DEFAULT CYCLES_MCR ERRORS_DEFAULT;
  row 0xEAC "CDP" CLASS_DEFAULT CYCLES_CDP ERRORS_DEFAULT;
  row 0xEAD "MCR" CLASS_DEFAULT CYCLES_MCR ERRORS_DEFAULT;
  row 0xEAE "CDP" CLASS_DEFAULT CYCLES_CDP ERRORS_DEFAULT;
  row 0xEAF "MCR" CLASS_DEFAULT CYCLES_MCR ERRORS_DEFAULT;
  row 0xEB0 "CDP" CLASS_DEFAULT CYCLES_CDP ERRORS_DEFAULT;
  row 0xEB1 "MRC" CLASS_DEFAULT CYCLES_MRC ERRORS_DEFAULT;
  row 0xEB2 "CDP" CLASS_DEFAULT CYCLES_CDP ERRORS_DEFAULT;
  row 0xEB3 "MRC" CLASS_DEFAULT CYCLES_MRC ERRORS_DEFAULT;
  row 0xEB4 "CDP" CLASS_DEFAULT CYCLES_CDP ERRORS_DEFAULT;
  row 0xEB5 "MRC" CLASS_DEFAULT CYCLES_MRC ERRORS_DEFAULT;
  row 0xEB6 "CDP" CLASS_DEFAULT CYCLES_CDP ERRORS_DEFAULT;
  row 0xEB7 "MRC" CLASS_DEFAULT CYCLES_MRC ERRORS_DEFAULT;
  row 0xEB8 "CDP" CLASS_DEFAULT CYCLES_CDP ERRORS_DEFAULT;
  row 0xEB9 "MRC" CLASS_DEFAULT CYCLES_MRC ERRORS_DEFAULT;
  row 0xEBA "CDP" CLASS_DEFAULT CYCLES_CDP ERRORS_DEFAULT;
  row 0xEBB "MRC" CLASS_DEFAULT CYCLES_MRC ERRORS_DEFAULT;
  row 0xEBC "CDP" CLASS_DEFAULT CYCLES_CDP ERRORS_DEFAULT;
  row 0xEBD "MRC" CLASS_DEFAULT CYCLES_MRC ERRORS_DEFAULT;
  row 0xEBE "CDP" CLASS_DEFAULT CYCLES_CDP ERRORS_DEFAULT;
  row 0xEBF "MRC" CLASS_DEFAULT CYCLES_MRC ERRORS_DEFAULT;
  row 0xEC0 "CDP" CLASS_DEFAULT CYCLES_CDP ERRORS_DEFAULT;
  row 0xEC1 "MCR" CLASS_DEFAULT CYCLES_MCR ERRORS_DEFAULT;
  row 0xEC2 "CDP" CLASS_DEFAULT CYCLES_CDP ERRORS_DEFAULT;
  row 0xEC3 "MCR" CLASS_DEFAULT CYCLES_MCR ERRORS_DEFAULT;
  row 0xEC4 "CDP" CLASS_DEFAULT CYCLES_CDP ERRORS_DEFAULT;
  row 0xEC5 "MCR" CLASS_DEFAULT CYCLES_MCR ERRORS_DEFAULT;
  row 0xEC6 "CDP" CLASS_DEFAULT CYCLES_CDP ERRORS_DEFAULT;
  row 0xEC7 "MCR" CLASS_DEFAULT CYCLES_MCR ERRORS_DEFAULT;
  row 0xEC8 "CDP" CLASS_DEFAULT CYCLES_CDP ERRORS_DEFAULT;
  row 0xEC9 "MCR" CLASS_DEFAULT CYCLES_MCR ERRORS_DEFAULT;
  row 0xECA "CDP" CLASS_DEFAULT CYCLES_CDP ERRORS_DEFAULT;
  row 0xECB "MCR" CLASS_DEFAULT CYCLES_MCR ERRORS_DEFAULT;
  row 0xECC "CDP" CLASS_DEFAULT CYCLES_CDP ERRORS_DEFAULT;
  row 0xECD "MCR" CLASS_DEFAULT CYCLES_MCR ERRORS_DEFAULT;
  row 0xECE "CDP" CLASS_DEFAULT CYCLES_CDP ERRORS_DEFAULT;
  row 0xECF "MCR" CLASS_DEFAULT CYCLES_MCR ERRORS_DEFAULT;
  row 0xED0 "CDP" CLASS_DEFAULT CYCLES_CDP ERRORS_DEFAULT;
  row 0xED1 "MRC" CLASS_DEFAULT CYCLES_MRC ERRORS_DEFAULT;
  row 0xED2 "CDP" CLASS_DEFAULT CYCLES_CDP ERRORS_DEFAULT;
  row 0xED3 "MRC" CLASS_DEFAULT CYCLES_MRC ERRORS_DEFAULT;
  row 0xED4 "CDP" CLASS_DEFAULT CYCLES_CDP ERRORS_DEFAULT;
  row 0xED5 "MRC" CLASS_DEFAULT CYCLES_MRC ERRORS_DEFAULT;
  row 0xED6 "CDP" CLASS_DEFAULT CYCLES_CDP ERRORS_DEFAULT;
  row 0xED7 "MRC" CLASS_DEFAULT CYCLES_MRC ERRORS_DEFAULT;
  row 0xED8 "CDP" CLASS_DEFAULT CYCLES_CDP ERRORS_DEFAULT;
  row 0xED9 "MRC" CLASS_DEFAULT CYCLES_MRC ERRORS_DEFAULT;
  row 0xEDA "CDP" CLASS_DEFAULT CYCLES_CDP ERRORS_DEFAULT;
  row 0xEDB "MRC" CLASS_DEFAULT CYCLES_MRC ERRORS_DEFAULT;
  row 0xEDC "CDP" CLASS_DEFAULT CYCLES_CDP ERRORS_DEFAULT;
  row 0xEDD "MRC" CLASS_DEFAULT CYCLES_MRC ERRORS_DEFAULT;
  row 0xEDE "CDP" CLASS_DEFAULT CYCLES_CDP ERRORS_DEFAULT;
  row 0xEDF "MRC" CLASS_DEFAULT CYCLES_MRC ERRORS_DEFAULT;
  row 0xEE0 "CDP" CLASS_DEFAULT CYCLES_CDP ERRORS_DEFAULT;
  row 0xEE1 "MCR" CLASS_DEFAULT CYCLES_MCR ERRORS_DEFAULT;
  row 0xEE2 "CDP" CLASS_DEFAULT CYCLES_CDP ERRORS_DEFAULT;
  row 0xEE3 "MCR" CLASS_DEFAULT CYCLES_MCR ERRORS_DEFAULT;
  row 0xEE4 "CDP" CLASS_DEFAULT CYCLES_CDP ERRORS_DEFAULT;
  row 0xEE5 "MCR" CLASS_DEFAULT CYCLES_MCR ERRORS_DEFAULT;
  row 0xEE6 "CDP" CLASS_DEFAULT CYCLES_CDP ERRORS_DEFAULT;
  row 0xEE7 "MCR" CLASS_DEFAULT CYCLES_MCR ERRORS_DEFAULT;
  row 0xEE8 "CDP" CLASS_DEFAULT CYCLES_CDP ERRORS_DEFAULT;
  row 0xEE9 "MCR" CLASS_DEFAULT CYCLES_MCR ERRORS_DEFAULT;
  row 0xEEA "CDP" CLASS_DEFAULT CYCLES_CDP ERRORS_DEFAULT;
  row 0xEEB "MCR" CLASS_DEFAULT CYCLES_MCR ERRORS_DEFAULT;
  row 0xEEC "CDP" CLASS_DEFAULT CYCLES_CDP ERRORS_DEFAULT;
  row 0xEED "MCR" CLASS_DEFAULT CYCLES_MCR ERRORS_DEFAULT;
  row 0xEEE "CDP" CLASS_DEFAULT CYCLES_CDP ERRORS_DEFAULT;
  row 0xEEF "MCR" CLASS_DEFAULT CYCLES_MCR ERRORS_DEFAULT;
  row 0xEF0 "CDP" CLASS_DEFAULT CYCLES_CDP ERRORS_DEFAULT;
  row 0xEF1 "MRC" CLASS_DEFAULT CYCLES_MRC ERRORS_DEFAULT;
  row 0xEF2 "CDP" CLASS_DEFAULT CYCLES_CDP ERRORS_DEFAULT;
  row 0xEF3 "MRC" CLASS_DEFAULT CYCLES_MRC ERRORS_DEFAULT;
  row 0xEF4 "CDP" CLASS_DEFAULT CYCLES_CDP ERRORS_DEFAULT;
  row 0xEF5 "MRC" CLASS_DEFAULT CYCLES_MRC ERRORS_DEFAULT;
  row 0xEF6 "CDP" CLASS_DEFAULT CYCLES_CDP ERRORS_DEFAULT;
  row 0xEF7 "MRC" CLASS_DEFAULT CYCLES_MRC ERRORS_DEFAULT;
  row 0xEF8 "CDP" CLASS_DEFAULT CYCLES_CDP ERRORS_DEFAULT;
  row 0xEF9 "MRC" CLASS_DEFAULT CYCLES_MRC ERRORS_DEFAULT;
  row 0xEFA "CDP" CLASS_DEFAULT CYCLES_CDP ERRORS_DEFAULT;
  row 0xEFB "MRC" CLASS_DEFAULT CYCLES_MRC ERRORS_DEFAULT;
  row 0xEFC "CDP" CLASS_DEFAULT CYCLES_CDP ERRORS_DEFAULT;
  row 0xEFD "MRC" CLASS_DEFAULT CYCLES_MRC ERRORS_DEFAULT;
  row 0xEFE "CDP" CLASS_DEFAULT CYCLES_CDP ERRORS_DEFAULT;
  row 0xEFF "MRC" CLASS_DEFAULT CYCLES_MRC ERRORS_DEFAULT].

Definition vemu_arm_instr_30 : list vemu_instr_info := [
  row 0xF00 "SWI" CLASS_DEFAULT CYCLES_SWI ERRORS_DEFAULT;
  row 0xF01 "SWI" CLASS_DEFAULT CYCLES_SWI ERRORS_DEFAULT;
  row 0xF02 "SWI" CLASS_DEFAULT CYCLES_SWI ERRORS_DEFAULT;
  row 0xF03 "SWI" CLASS_DEFAULT CYCLES_SWI ERRORS_DEFAULT;
  row 0xF04 "SWI" CLASS_DEFAULT CYCLES_SWI ERRORS_DEFAULT;
  row 0xF05 "SWI" CLASS_DEFAULT CYCLES_SWI ERRORS_DEFAULT;
  row 0xF06 "SWI" CLASS_DEFAULT CYCLES_SWI ERRORS_DEFAULT;
  row 0xF07 "SWI" CLASS_DEFAULT CYCLES_SWI ERRORS_DEFAULT;
  row 0xF08 "SWI" CLASS_DEFAULT CYCLES_SWI ERRORS_DEFAULT;
  row 0xF09 "SWI" CLASS_DEFAULT CYCLES_SWI ERRORS_DEFAULT;
  row 0xF0A "SWI" CLASS_DEFAULT CYCLES_SWI ERRORS_DEFAULT;
  row 0xF0B "SWI" CLASS_DEFAULT CYCLES_SWI ERRORS_DEFAULT;
  row 0xF0C "SWI" CLASS_DEFAULT CYCLES_SWI ERRORS_DEFAULT;
  row 0xF0D "SWI" CLASS_DEFAULT CYCLES_SWI ERRORS_DEFAULT;
  row 0xF0E "SWI" CLASS_DEFAULT CYCLES_SWI ERRORS_DEFAULT;
  row 0xF0F "SWI" CLASS_DEFAULT CYCLES_SWI ERRORS_DEFAULT;
  row 0xF10 "SWI" CLASS_DEFAULT CYCLES_SWI ERRORS_DEFAULT;
  row 0xF11 "SWI" CLASS_DEFAULT CYCLES_SWI ERRORS_DEFAULT;
  row 0xF12 "SWI" CLASS_DEFAULT CYCLES_SWI ERRORS_DEFAULT;
  row 0xF13 "SWI" CLASS_DEFAULT CYCLES_SWI ERRORS_DEFAULT;
  row 0xF14 "SWI" CLASS_DEFAULT CYCLES_SWI ERRORS_DEFAULT;
  row 0xF15 "SWI" CLASS_DEFAULT CYCLES_SWI ERRORS_DEFAULT;
  row 0xF16 "SWI" CLASS_DEFAULT CYCLES_SWI ERRORS_DEFAULT;
  row 0xF17 "SWI" CLASS_DEFAULT CYCLES_SWI ERRORS_DEFAULT;
  row 0xF18 "SWI" CLASS_DEFAULT CYCLES_SWI ERRORS_DEFAULT;
  row 0xF19 "SWI" CLASS_DEFAULT CYCLES_SWI ERRORS_DEFAULT;
  row 0xF1A "SWI" CLASS_DEFAULT CYCLES_SWI ERRORS_DEFAULT;
  row 0xF1B "SWI" CLASS_DEFAULT CYCLES_SWI ERRORS_DEFAULT;
  row 0xF1C "SWI" CLASS_DEFAULT CYCLES_SWI ERRORS_DEFAULT;
  row 0xF1D "SWI" CLASS_DEFAULT CYCLES_SWI ERRORS_DEFAULT;
  row 0xF1E "SWI" CLASS_DEFAULT CYCLES_SWI ERRORS_DEFAULT;
  row 0xF1F "SWI" CLASS_DEFAULT CYCLES_SWI ERRORS_DEFAULT;
  row 0xF20 "SWI" CLASS_DEFAULT CYCLES_SWI ERRORS_DEFAULT;
  row 0xF21 "SWI" CLASS_DEFAULT CYCLES_SWI ERRORS_DEFAULT;
  row 0xF22 "SWI" CLASS_DEFAULT CYCLES_SWI ERRORS_DEFAULT;
  row 0xF23 "SWI" CLASS_DEFAULT CYCLES_SWI ERRORS_DEFAULT;
  row 0xF24 "SWI" CLASS_DEFAULT CYCLES_SWI ERRORS_DEFAULT;
  row 0xF25 "SWI" CLASS_DEFAULT CYCLES_SWI ERRORS_DEFAULT;
  row 0xF26 "SWI" CLASS_DEFAULT CYCLES_SWI ERRORS_DEFAULT;
  row 0xF27 "SWI" CLASS_DEFAULT CYCLES_SWI ERRORS_DEFAULT;
  row 0xF28 "SWI" CLASS_DEFAULT CYCLES_SWI ERRORS_DEFAULT;
  row 0xF29 "SWI" CLASS_DEFAULT CYCLES_SWI ERRORS_DEFAULT;
  row 0xF2A "SWI" CLASS_DEFAULT CYCLES_SWI ERRORS_DEFAULT;
  row 0xF2B "SWI" CLASS_DEFAULT CYCLES_SWI ERRORS_DEFAULT;
  row 0xF2C "SWI" CLASS_DEFAULT CYCLES_SWI ERRORS_DEFAULT;
  row 0xF2D "SWI" CLASS_DEFAULT CYCLES_SWI ERRORS_DEFAULT;
  row 0xF2E "SWI" CLASS_DEFAULT CYCLES_SWI ERRORS_DEFAULT;
  row 0xF2F "SWI" CLASS_DEFAULT CYCLES_SWI ERRORS_DEFAULT;
  row 0xF30 "SWI" CLASS_DEFAULT CYCLES_SWI ERRORS_DEFAULT;
  row 0xF31 "SWI" CLASS_DEFAULT CYCLES_SWI ERRORS_DEFAULT;
  row 0xF32 "SWI" CLASS_DEFAULT CYCLES_SWI ERRORS_DEFAULT;
  row 0xF33 "SWI" CLASS_DEFAULT CYCLES_SWI ERRORS_DEFAULT;
  row 0xF34 "SWI" CLASS_DEFAULT CYCLES_SWI ERRORS_DEFAULT;
  row 0xF35 "SWI" CLASS_DEFAULT CYCLES_SWI ERRORS_DEFAULT;
  row 0xF36 "SWI" CLASS_DEFAULT CYCLES_SWI ERRORS_DEFAULT;
  row 0xF37 "SWI" CLASS_DEFAULT CYCLES_SWI ERRORS_DEFAULT;
  row 0xF38 "SWI" CLASS_DEFAULT CYCLES_SWI ERRORS_DEFAULT;
  row 0xF39 "SWI" CLASS_DEFAULT CYCLES_SWI ERRORS_DEFAULT;
  row 0xF3A "SWI" CLASS_DEFAULT CYCLES_SWI ERRORS_DEFAULT;
  row 0xF3B "SWI" CLASS_DEFAULT CYCLES_SWI ERRORS_DEFAULT;
  row 0xF3C "SWI" CLASS_DEFAULT CYCLES_SWI ERRORS_DEFAULT;
  row 0xF3D "SWI" CLASS_DEFAULT CYCLES_SWI ERRORS_DEFAULT;
  row 0xF3E "SWI" CLASS_DEFAULT CYCLES_SWI ERRORS_DEFAULT;
  row 0xF3F "SWI" CLASS_DEFAULT CYCLES_SWI ERRORS_DEFAULT;
  row 0xF40 "SWI" CLASS_DEFAULT CYCLES_SWI ERRORS_DEFAULT;
  row 0xF41 "SWI" CLASS_DEFAULT CYCLES_SWI ERRORS_DEFAULT;
  row 0xF42 "SWI" CLASS_DEFAULT CYCLES_SWI ERRORS_DEFAULT;
  row 0xF43 "SWI" CLASS_DEFAULT CYCLES_SWI ERRORS_DEFAULT;
  row 0xF44 "SWI" CLASS_DEFAULT CYCLES_SWI ERRORS_DEFAULT;
  row 0xF45 "SWI" CLASS_DEFAULT CYCLES_SWI ERRORS_DEFAULT;
  row 0xF46 "SWI" CLASS_DEFAULT CYCLES_SWI ERRORS_DEFAULT;
  row 0xF47 "SWI" CLASS_DEFAULT CYCLES_SWI ERRORS_DEFAULT;
  row 0xF48 "SWI" CLASS_DEFAULT CYCLES_SWI ERRORS_DEFAULT;
  row 0xF49 "SWI" CLASS_DEFAULT CYCLES_SWI ERRORS_DEFAULT;
  row 0xF4A "SWI" CLASS_DEFAULT CYCLES_SWI ERRORS_DEFAULT;
  row 0xF4B "SWI" CLASS_DEFAULT CYCLES_SWI ERRORS_DEFAULT;
  row 0xF4C "SWI" CLASS_DEFAULT CYCLES_SWI ERRORS_DEFAULT;
  row 0xF4D "SWI" CLASS_DEFAULT CYCLES_SWI ERRORS_DEFAULT;
  row 0xF4E "SWI" CLASS_DEFAULT CYCLES_SWI ERRORS_DEFAULT;
  row 0xF4F "SWI" CLASS_DEFAULT CYCLES_SWI ERRORS_DEFAULT;
  row 0xF50 "SWI" CLASS_DEFAULT CYCLES_SWI ERRORS_DEFAULT;
  row 0xF51 "SWI" CLASS_DEFAULT CYCLES_SWI ERRORS_DEFAULT;
  row 0xF52 "SWI" CLASS_DEFAULT CYCLES_SWI ERRORS_DEFAULT;
  row 0xF53 "SWI" CLASS_DEFAULT CYCLES_SWI ERRORS_DEFAULT;
  row 0xF54 "SWI" CLASS_DEFAULT CYCLES_SWI ERRORS_DEFAULT;
  row 0xF55 "SWI" CLASS_DEFAULT CYCLES_SWI ERRORS_DEFAULT;
  row 0xF56 "SWI" CLASS_DEFAULT CYCLES_SWI ERRORS_DEFAULT;
  row 0xF57 "SWI" CLASS_DEFAULT CYCLES_SWI ERRORS_DEFAULT;
  row 0xF58 "SWI" CLASS_DEFAULT CYCLES_SWI ERRORS_DEFAULT;
  row 0xF59 "SWI" CLASS_DEFAULT CYCLES_SWI ERRORS_DEFAULT;
  row 0xF5A "SWI" CLASS_DEFAULT CYCLES_SWI ERRORS_DEFAULT;
  row 0xF5B "SWI" CLASS_DEFAULT CYCLES_SWI ERRORS_DEFAULT;
  row 0xF5C "SWI" CLASS_DEFAULT CYCLES_SWI ERRORS_DEFAULT;
  row 0xF5D "SWI" CLASS_DEFAULT CYCLES_SWI ERRORS_DEFAULT;
  row 0xF5E "SWI" CLASS_DEFAULT CYCLES_SWI ERRORS_DEFAULT;
  row 0xF5F "SWI" CLASS_DEFAULT CYCLES_SWI ERRORS_DEFAULT;
  row 0xF60 "SWI" CLASS_DEFAULT CYCLES_SWI ERRORS_DEFAULT;
  row 0xF61 "SWI" CLASS_DEFAULT CYCLES_SWI ERRORS_DEFAULT;
  row 0xF62 "SWI" CLASS_DEFAULT CYCLES_SWI ERRORS_DEFAULT;
  row 0xF63 "SWI" CLASS_DEFAULT CYCLES_SWI ERRORS_DEFAULT;
  row 0xF64 "SWI" CLASS_DEFAULT CYCLES_SWI ERRORS_DEFAULT;
  row 0xF65 "SWI" CLASS_DEFAULT CYCLES_SWI ERRORS_DEFAULT;
  row 0xF66 "SWI" CLASS_DEFAULT CYCLES_SWI ERRORS_DEFAULT;
  row 0xF67 "SWI" CLASS_DEFAULT CYCLES_SWI ERRORS_DEFAULT;
  row 0xF68 "SWI" CLASS_DEFAULT CYCLES_SWI ERRORS_DEFAULT;
  row 0xF69 "SWI" CLASS_DEFAULT CYCLES_SWI ERRORS_DEFAULT;
  row 0xF6A "SWI" CLASS_DEFAULT CYCLES_SWI ERRORS_DEFAULT;
  row 0xF6B "SWI" CLASS_DEFAULT CYCLES_SWI ERRORS_DEFAULT;
  row 0xF6C "SWI" CLASS_DEFAULT CYCLES_SWI ERRORS_DEFAULT;
  row 0xF6D "SWI" CLASS_DEFAULT CYCLES_SWI ERRORS_DEFAULT;
  row 0xF6E "SWI" CLASS_DEFAULT CYCLES_SWI ERRORS_DEFAULT;
  row 0xF6F "SWI" CLASS_DEFAULT CYCLES_SWI ERRORS_DEFAULT;
  row 0xF70 "SWI" CLASS_DEFAULT CYCLES_SWI ERRORS_DEFAULT;
  row 0xF71 "SWI" CLASS_DEFAULT CYCLES_SWI ERRORS_DEFAULT;
  row 0xF72 "SWI" CLASS_DEFAULT CYCLES_SWI ERRORS_DEFAULT;
  row 0xF73 "SWI" CLASS_DEFAULT CYCLES_SWI ERRORS_DEFAULT;
  row 0xF74 "SWI" CLASS_DEFAULT CYCLES_SWI ERRORS_DEFAULT;
  row 0xF75 "SWI" CLASS_DEFAULT CYCLES_SWI ERRORS_DEFAULT;
  row 0xF76 "SWI" CLASS_DEFAULT CYCLES_SWI ERRORS_DEFAULT;
  row 0xF77 "SWI" CLASS_DEFAULT CYCLES_SWI ERRORS_DEFAULT;
  row 0xF78 "SWI" CLASS_DEFAULT CYCLES_SWI ERRORS_DEFAULT;
  row 0xF79 "SWI" CLASS_DEFAULT CYCLES_SWI ERRORS_DEFAULT;
  row 0xF7A "SWI" CLASS_DEFAULT CYCLES_SWI ERRORS_DEFAULT;
  row 0xF7B "SWI" CLASS_DEFAULT CYCLES_SWI ERRORS_DEFAULT;
  row 0xF7C "SWI" CLASS_DEFAULT CYCLES_SWI ERRORS_DEFAULT;
  row 0xF7D "SWI" CLASS_DEFAULT CYCLES_SWI ERRORS_DEFAULT;
  row 0xF7E "SWI" CLASS_DEFAULT CYCLES_SWI ERRORS_DEFAULT;
  row 0xF7F "SWI" CLASS_DEFAULT CYCLES_SWI ERRORS_DEFAULT].

Definition vemu_arm_instr_31 : list vemu_instr_info := [
  row 0xF80 "SWI" CLASS_DEFAULT CYCLES_SWI ERRORS_DEFAULT;
  row 0xF81 "SWI" CLASS_DEFAULT CYCLES_SWI ERRORS_DEFAULT;
  row 0xF82 "SWI" CLASS_DEFAULT CYCLES_SWI ERRORS_DEFAULT;
  row 0xF83 "SWI" CLASS_DEFAULT CYCLES_SWI ERRORS_DEFAULT;
  row 0xF84 "SWI" CLASS_DEFAULT CYCLES_SWI ERRORS_DEFAULT;
  row 0xF85 "SWI" CLASS_DEFAULT CYCLES_SWI ERRORS_DEFAULT;
  row 0xF86 "SWI" CLASS_DEFAULT CYCLES_SWI ERRORS_DEFAULT;
  row 0xF87 "SWI" CLASS_DEFAULT CYCLES_SWI ERRORS_DEFAULT;
  row 0xF88 "SWI" CLASS_DEFAULT CYCLES_SWI ERRORS_DEFAULT;
  row 0xF89 "SWI" CLASS_DEFAULT CYCLES_SWI ERRORS_DEFAULT;
  row 0xF8A "SWI" CLASS_DEFAULT CYCLES_SWI ERRORS_DEFAULT;
  row 0xF8B "SWI" CLASS_DEFAULT CYCLES_SWI ERRORS_DEFAULT;
  row 0xF8C "SWI" CLASS_DEFAULT CYCLES_SWI ERRORS_DEFAULT;
  row 0xF8D "SWI" CLASS_DEFAULT CYCLES_SWI ERRORS_DEFAULT;
  row 0xF8E "SWI" CLASS_DEFAULT CYCLES_SWI ERRORS_DEFAULT;
  row 0xF8F "SWI" CLASS_DEFAULT CYCLES_SWI ERRORS_DEFAULT;
  row 0xF90 "SWI" CLASS_DEFAULT CYCLES_SWI ERRORS_DEFAULT;
  row 0xF91 "SWI" CLASS_DEFAULT CYCLES_SWI ERRORS_DEFAULT;
  row 0xF92 "SWI" CLASS_DEFAULT CYCLES_SWI ERRORS_DEFAULT;
  row 0xF93 "SWI" CLASS_DEFAULT CYCLES_SWI ERRORS_DEFAULT;
  row 0xF94 "SWI" CLASS_DEFAULT CYCLES_SWI ERRORS_DEFAULT;
  row 0xF95 "SWI" CLASS_DEFAULT CYCLES_SWI ERRORS_DEFAULT;
  row 0xF96 "SWI" CLASS_DEFAULT CYCLES_SWI ERRORS_DEFAULT;
  row 0xF97 "SWI" CLASS_DEFAULT CYCLES_SWI ERRORS_DEFAULT;
  row 0xF98 "SWI" CLASS_DEFAULT CYCLES_SWI ERRORS_DEFAULT;
  row 0xF99 "SWI" CLASS_DEFAULT CYCLES_SWI ERRORS_DEFAULT;
  row 0xF9A "SWI" CLASS_DEFAULT CYCLES_SWI ERRORS_DEFAULT;
  row 0xF9B "SWI" CLASS_DEFAULT CYCLES_SWI ERRORS_DEFAULT;
  row 0xF9C "SWI" CLASS_DEFAULT CYCLES_SWI ERRORS_DEFAULT;
  row 0xF9D "SWI" CLASS_DEFAULT CYCLES_SWI ERRORS_DEFAULT;
  row 0xF9E "SWI" CLASS_DEFAULT CYCLES_SWI ERRORS_DEFAULT;
  row 0xF9F "SWI" CLASS_DEFAULT CYCLES_SWI ERRORS_DEFAULT;
  row 0xFA0 "SWI" CLASS_DEFAULT CYCLES_SWI ERRORS_DEFAULT;
  row 0xFA1 "SWI" CLASS_DEFAULT CYCLES_SWI ERRORS_DEFAULT;
  row 0xFA2 "SWI" CLASS_DEFAULT CYCLES_SWI ERRORS_DEFAULT;
  row 0xFA3 "SWI" CLASS_DEFAULT CYCLES_SWI ERRORS_DEFAULT;
  row 0xFA4 "SWI" CLASS_DEFAULT CYCLES_SWI ERRORS_DEFAULT;
  row 0xFA5 "SWI" CLASS_DEFAULT CYCLES_SWI ERRORS_DEFAULT;
  row 0xFA6 "SWI" CLASS_DEFAULT CYCLES_SWI ERRORS_DEFAULT;
  row 0xFA7 "SWI" CLASS_DEFAULT CYCLES_SWI ERRORS_DEFAULT;
  row 0xFA8 "SWI" CLASS_DEFAULT CYCLES_SWI ERRORS_DEFAULT;
  row 0xFA9 "SWI" CLASS_DEFAULT CYCLES_SWI ERRORS_DEFAULT;
  row 0xFAA "SWI" CLASS_DEFAULT CYCLES_SWI ERRORS_DEFAULT;
  row 0xFAB "SWI" CLASS_DEFAULT CYCLES_SWI ERRORS_DEFAULT;
  row 0xFAC "SWI" CLASS_DEFAULT CYCLES_SWI ERRORS_DEFAULT;
  row 0xFAD "SWI" CLASS_DEFAULT CYCLES_SWI ERRORS_DEFAULT;
  row 0xFAE "SWI" CLASS_DEFAULT CYCLES_SWI ERRORS_DEFAULT;
  row 0xFAF "SWI" CLASS_DEFAULT CYCLES_SWI ERRORS_DEFAULT;
  row 0xFB0 "SWI" CLASS_DEFAULT CYCLES_SWI ERRORS_DEFAULT;
  row 0xFB1 "SWI" CLASS_DEFAULT CYCLES_SWI ERRORS_DEFAULT;
  row 0xFB2 "SWI" CLASS_DEFAULT CYCLES_SWI ERRORS_DEFAULT;
  row 0xFB3 "SWI" CLASS_DEFAULT CYCLES_SWI ERRORS_DEFAULT;
  row 0xFB4 "SWI" CLASS_DEFAULT CYCLES_SWI ERRORS_DEFAULT;
  row 0xFB5 "SWI" CLASS_DEFAULT CYCLES_SWI ERRORS_DEFAULT;
  row 0xFB6 "SWI" CLASS_DEFAULT CYCLES_SWI ERRORS_DEFAULT;
  row 0xFB7 "SWI" CLASS_DEFAULT CYCLES_SWI ERRORS_DEFAULT;
  row 0xFB8 "SWI" CLASS_DEFAULT CYCLES_SWI ERRORS_DEFAULT;
  row 0xFB9 "SWI" CLASS_DEFAULT CYCLES_SWI ERRORS_DEFAULT;
  row 0xFBA "SWI" CLASS_DEFAULT CYCLES_SWI ERRORS_DEFAULT;
  row 0xFBB "SWI" CLASS_DEFAULT CYCLES_SWI ERRORS_DEFAULT;
  row 0xFBC "SWI" CLASS_DEFAULT CYCLES_SWI ERRORS_DEFAULT;
  row 0xFBD "SWI" CLASS_DEFAULT CYCLES_SWI ERRORS_DEFAULT;
  row 0xFBE "SWI" CLASS_DEFAULT CYCLES_SWI ERRORS_DEFAULT;
  row 0xFBF "SWI" CLASS_DEFAULT CYCLES_SWI ERRORS_DEFAULT;
  row 0xFC0 "SWI" CLASS_DEFAULT CYCLES_SWI ERRORS_DEFAULT;
  row 0xFC1 "SWI" CLASS_DEFAULT CYCLES_SWI ERRORS_DEFAULT;
  row 0xFC2 "SWI" CLASS_DEFAULT CYCLES_SWI ERRORS_DEFAULT;
  row 0xFC3 "SWI" CLASS_DEFAULT CYCLES_SWI ERRORS_DEFAULT;
  row 0xFC4 "SWI" CLASS_DEFAULT CYCLES_SWI ERRORS_DEFAULT;
  row 0xFC5 "SWI" CLASS_DEFAULT CYCLES_SWI ERRORS_DEFAULT;
  row 0xFC6 "SWI" CLASS_DEFAULT CYCLES_SWI ERRORS_DEFAULT;
  row 0xFC7 "SWI" CLASS_DEFAULT CYCLES_SWI ERRORS_DEFAULT;
  row 0xFC8 "SWI" CLASS_DEFAULT CYCLES_SWI ERRORS_DEFAULT;
  row 0xFC9 "SWI" CLASS_DEFAULT CYCLES_SWI ERRORS_DEFAULT;
  row 0xFCA "SWI" CLASS_DEFAULT CYCLES_SWI ERRORS_DEFAULT;
  row 0xFCB "SWI" CLASS_DEFAULT CYCLES_SWI ERRORS_DEFAULT;
  row 0xFCC "SWI" CLASS_DEFAULT CYCLES_SWI ERRORS_DEFAULT;
  row 0xFCD "SWI" CLASS_DEFAULT CYCLES_SWI ERRORS_DEFAULT;
  row 0xFCE "SWI" CLASS_DEFAULT CYCLES_SWI ERRORS_DEFAULT;
  row 0xFCF "SWI" CLASS_DEFAULT CYCLES_SWI ERRORS_DEFAULT;
  row 0xFD0 "SWI" CLASS_DEFAULT CYCLES_SWI ERRORS_DEFAULT;
  row 0xFD1 "SWI" CLASS_DEFAULT CYCLES_SWI ERRORS_DEFAULT;
  row 0xFD2 "SWI" CLASS_DEFAULT CYCLES_SWI ERRORS_DEFAULT;
  row 0xFD3 "SWI" CLASS_DEFAULT CYCLES_SWI ERRORS_DEFAULT;
  row 0xFD4 "SWI" CLASS_DEFAULT CYCLES_SWI ERRORS_DEFAULT;
  row 0xFD5 "SWI" CLASS_DEFAULT CYCLES_SWI ERRORS_DEFAULT;
  row 0xFD6 "SWI" CLASS_DEFAULT CYCLES_SWI ERRORS_DEFAULT;
  row 0xFD7 "SWI" CLASS_DEFAULT CYCLES_SWI ERRORS_DEFAULT;
  row 0xFD8 "SWI" CLASS_DEFAULT CYCLES_SWI ERRORS_DEFAULT;
  row 0xFD9 "SWI" CLASS_DEFAULT CYCLES_SWI ERRORS_DEFAULT;
  row 0xFDA "SWI" CLASS_DEFAULT CYCLES_SWI ERRORS_DEFAULT;
  row 0xFDB "SWI" CLASS_DEFAULT CYCLES_SWI ERRORS_DEFAULT;
  row 0xFDC "SWI" CLASS_DEFAULT CYCLES_SWI ERRORS_DEFAULT;
  row 0xFDD "SWI" CLASS_DEFAULT CYCLES_SWI ERRORS_DEFAULT;
  row 0xFDE "SWI" CLASS_DEFAULT CYCLES_SWI ERRORS_DEFAULT;
  row 0xFDF "SWI" CLASS_DEFAULT CYCLES_SWI ERRORS_DEFAULT;
  row 0xFE0 "SWI" CLASS_DEFAULT CYCLES_SWI ERRORS_DEFAULT;
  row 0xFE1 "SWI" CLASS_DEFAULT CYCLES_SWI ERRORS_DEFAULT;
  row 0xFE2 "SWI" CLASS_DEFAULT CYCLES_SWI ERRORS_DEFAULT;
  row 0xFE3 "SWI" CLASS_DEFAULT CYCLES_SWI ERRORS_DEFAULT;
  row 0xFE4 "SWI" CLASS_DEFAULT CYCLES_SWI ERRORS_DEFAULT;
  row 0xFE5 "SWI" CLASS_DEFAULT CYCLES_SWI ERRORS_DEFAULT;
  row 0xFE6 "SWI" CLASS_DEFAULT CYCLES_SWI ERRORS_DEFAULT;
  row 0xFE7 "SWI" CLASS_DEFAULT CYCLES_SWI ERRORS_DEFAULT;
  row 0xFE8 "SWI" CLASS_DEFAULT CYCLES_SWI ERRORS_DEFAULT;
  row 0xFE9 "SWI" CLASS_DEFAULT CYCLES_SWI ERRORS_DEFAULT;
  row 0xFEA "SWI" CLASS_DEFAULT CYCLES_SWI ERRORS_DEFAULT;
  row 0xFEB "SWI" CLASS_DEFAULT CYCLES_SWI ERRORS_DEFAULT;
  row 0xFEC "SWI" CLASS_DEFAULT CYCLES_SWI ERRORS_DEFAULT;
  row 0xFED "SWI" CLASS_DEFAULT CYCLES_SWI ERRORS_DEFAULT;
  row 0xFEE "SWI" CLASS_DEFAULT CYCLES_SWI ERRORS_DEFAULT;
  row 0xFEF "SWI" CLASS_DEFAULT CYCLES_SWI ERRORS_DEFAULT;
  row 0xFF0 "SWI" CLASS_DEFAULT CYCLES_SWI ERRORS_DEFAULT;
  row 0xFF1 "SWI" CLASS_DEFAULT CYCLES_SWI ERRORS_DEFAULT;
  row 0xFF2 "SWI" CLASS_DEFAULT CYCLES_SWI ERRORS_DEFAULT;
  row 0xFF3 "SWI" CLASS_DEFAULT CYCLES_SWI ERRORS_DEFAULT;
  row 0xFF4 "SWI" CLASS_DEFAULT CYCLES_SWI ERRORS_DEFAULT;
  row 0xFF5 "SWI" CLASS_DEFAULT CYCLES_SWI ERRORS_DEFAULT;
  row 0xFF6 "SWI" CLASS_DEFAULT CYCLES_SWI ERRORS_DEFAULT;
  row 0xFF7 "SWI" CLASS_DEFAULT CYCLES_SWI ERRORS_DEFAULT;
  row 0xFF8 "SWI" CLASS_DEFAULT CYCLES_SWI ERRORS_DEFAULT;
  row 0xFF9 "SWI" CLASS_DEFAULT CYCLES_SWI ERRORS_DEFAULT;
  row 0xFFA "SWI" CLASS_DEFAULT CYCLES_SWI ERRORS_DEFAULT;
  row 0xFFB "SWI" CLASS_DEFAULT CYCLES_SWI ERRORS_DEFAULT;
  row 0xFFC "SWI" CLASS_DEFAULT CYCLES_SWI ERRORS_DEFAULT;
  row 0xFFD "SWI" CLASS_DEFAULT CYCLES_SWI ERRORS_DEFAULT;
  row 0xFFE "SWI" CLASS_DEFAULT CYCLES_SWI ERRORS_DEFAULT;
  row 0xFFF "SWI" CLASS_DEFAULT CYCLES_SWI ERRORS_DEFAULT].

Definition vemu_arm_instr : list vemu_instr_info :=
  vemu_arm_instr_00 ++
  vemu_arm_instr_01 ++
  vemu_arm_instr_02 ++
  vemu_arm_instr_03 ++
  vemu_arm_instr_04 ++
  vemu_arm_instr_05 ++
  vemu_arm_instr_06 ++
  vemu_arm_instr_07 ++
  vemu_arm_instr_08 ++
  vemu_arm_instr_09 ++
  vemu_arm_instr_10 ++
  vemu_arm_instr_11 ++
  vemu_arm_instr_12 ++
  vemu_arm_instr_13 ++
  vemu_arm_instr_14 ++
  vemu_arm_instr_15 ++
  vemu_arm_instr_16 ++
  vemu_arm_instr_17 ++
  vemu_arm_instr_18 ++
  vemu_arm_instr_19 ++
  vemu_arm_instr_20 ++
  vemu_arm_instr_21 ++
  vemu_arm_instr_22 ++
  vemu_arm_instr_23 ++
  vemu_arm_instr_24 ++
  vemu_arm_instr_25 ++
  vemu_arm_instr_26 ++
  vemu_arm_instr_27 ++
  vemu_arm_instr_28 ++
  vemu_arm_instr_29 ++
  vemu_arm_instr_30 ++
  vemu_arm_instr_31.

(** ** Thumb-2, 32-bit encodings *)
Definition vemu_thumb2_instr : list vemu_instr_info := [
  row 0xFFF "UNKNOWN" CLASS_DEFAULT CYCLES_DEFAULT ERRORS_DEFAULT].
