(* ===== verification/State.v ===== *)
(** * Global variables of the emulator's vemu modules

    The C modules of [varemu/vemu] share their state through global
    variables.  [vemu_st] gathers them, one field group per translation
    unit; [list] fields are C arrays.  Code outside the repository that the
    modules call is a class parameter: the emulated machine's clock
    ([qemu_get_clock_ns]) and the C library's [exp] and [pow]. *)
From stdpp Require Import base list.
From S2P Require Import Prelude Double ArmTable.
Open Scope Z_scope.

Definition MAX_INSTR_CLASSES : Z := 4.
(** The loop [for (i = 0; i < MAX_INSTR_CLASSES; i++)]. *)
Definition all_classes : list Z := [0; 1; 2; 3].

(** ** vemu_cycles.c *)
Record cycles_st : Type := {
  cycle_count : list double;
  active_time : list double;
  total_sleep_time : Z;          (* int64_t *)
  last_active_time_vm : Z;       (* uint64_t *)
  last_active_time_cycles : Z;   (* uint64_t *)
  last_sleep_time : Z;           (* uint64_t *)
  entered_sleep_mode : bool
}.

(** ** vemu_energy.c *)
Record energy_st : Type := {
  act_time_ckpt : list Z;        (* uint64_t[] *)
  slp_time_ckpt : Z;             (* uint64_t *)
  act_energy : list double;
  slp_energy : double
}.

Record vemu_st : Type := {
  clock_reads : nat;             (* readings of vm_clock taken so far *)
  cyc : cycles_st;
  pm_array : list double;        (* vemu_power_45nm.c: pm_parameters *)
  eng : energy_st;
  vemu_errors_enabled : Z;       (* vemu_errors.c, uint64_t *)
  last_state : list Z;           (* vemu_hw_module.c: last_state.array8 *)
  thumb_table : list vemu_instr_info;   (* vemu_arm.c: vemu_thumb_instr *)
  arm_table : list vemu_instr_info      (* vemu_arm.c: vemu_arm_instr *)
}.

Definition set_clock_reads n (s : vemu_st) : vemu_st :=
  {| clock_reads := n; cyc := cyc s; pm_array := pm_array s; eng := eng s;
     vemu_errors_enabled := vemu_errors_enabled s; last_state := last_state s;
     thumb_table := thumb_table s; arm_table := arm_table s |}.
Definition set_cyc c (s : vemu_st) : vemu_st :=
  {| clock_reads := clock_reads s; cyc := c; pm_array := pm_array s; eng := eng s;
     vemu_errors_enabled := vemu_errors_enabled s; last_state := last_state s;
     thumb_table := thumb_table s; arm_table := arm_table s |}.
Definition set_pm_array a (s : vemu_st) : vemu_st :=
  {| clock_reads := clock_reads s; cyc := cyc s; pm_array := a; eng := eng s;
     vemu_errors_enabled := vemu_errors_enabled s; last_state := last_state s;
     thumb_table := thumb_table s; arm_table := arm_table s |}.
Definition set_eng e (s : vemu_st) : vemu_st :=
  {| clock_reads := clock_reads s; cyc := cyc s; pm_array := pm_array s; eng := e;
     vemu_errors_enabled := vemu_errors_enabled s; last_state := last_state s;
     thumb_table := thumb_table s; arm_table := arm_table s |}.
Definition set_errors_enabled v (s : vemu_st) : vemu_st :=
  {| clock_reads := clock_reads s; cyc := cyc s; pm_array := pm_array s; eng := eng s;
     vemu_errors_enabled := v; last_state := last_state s;
     thumb_table := thumb_table s; arm_table := arm_table s |}.
Definition set_last_state b (s : vemu_st) : vemu_st :=
  {| clock_reads := clock_reads s; cyc := cyc s; pm_array := pm_array s; eng := eng s;
     vemu_errors_enabled := vemu_errors_enabled s; last_state := b;
     thumb_table := thumb_table s; arm_table := arm_table s |}.
Definition set_tables th ar (s : vemu_st) : vemu_st :=
  {| clock_reads := clock_reads s; cyc := cyc s; pm_array := pm_array s; eng := eng s;
     vemu_errors_enabled := vemu_errors_enabled s; last_state := last_state s;
     thumb_table := th; arm_table := ar |}.

(** The process image before any vemu call: C zero-initialises globals. *)
Definition initial_st : vemu_st := {|
  clock_reads := 0%nat;
  cyc := {| cycle_count := replicate 4 d_zero; active_time := replicate 4 d_zero;
            total_sleep_time := 0; last_active_time_vm := 0; last_active_time_cycles := 0;
            last_sleep_time := 0; entered_sleep_mode := false |};
  pm_array := replicate 14 d_zero;
  eng := {| act_time_ckpt := replicate 4 0; slp_time_ckpt := 0;
            act_energy := replicate 4 d_zero; slp_energy := d_zero |};
  vemu_errors_enabled := 0;
  last_state := replicate 160 0;
  thumb_table := vemu_thumb_instr;
  arm_table := vemu_arm_instr
|}.

(** ** Array access: outside the bounds the behaviour is undefined *)
Definition znth {A} (l : list A) (i : Z) : option A :=
  if 0 <=? i then l !! Z.to_nat i else None.
Definition arr_get {S A} (l : list A) (i : Z) : M S A := defined (znth l i).
Definition zset {A} (l : list A) (i : Z) (a : A) : list A := <[Z.to_nat i := a]> l.
Definition in_bounds {A} (l : list A) (i : Z) : bool := (0 <=? i) && (i <? Z.of_nat (length l)).

(** ** Outside code *)

(** [qemu_get_clock_ns(vm_clock)]: the value of the n-th reading. *)
Class VmClock := { vm_clock_ns : nat -> Z }.

(** [exp] and [pow] of the C library. *)
Class Libm := { m_exp : double -> double; m_pow : double -> double -> double }.

Definition qemu_get_clock_ns `{VmClock} : M vemu_st Z := fun s =>
  Done (u64 (vm_clock_ns (clock_reads s)), set_clock_reads (S (clock_reads s)) s).

(** Signed 64-bit addition: overflow is undefined. *)
Definition sadd64 (a b : Z) : option Z :=
  if (- 2 ^ 63 <=? a + b) && (a + b <? 2 ^ 63) then Some (a + b) else None.

(** ** Lemmas on arrays *)

Lemma znth_Some {A} (l : list A) i a : znth l i = Some a -> 0 <= i < Z.of_nat (length l) /\ l !! Z.to_nat i = Some a.
Proof.
  unfold znth. destruct (Z.leb_spec 0 i); [|discriminate]. intros E.
  pose proof (lookup_lt_Some _ _ _ E). split; [lia|exact E].
Qed.

Lemma znth_lt {A} (l : list A) i : 0 <= i < Z.of_nat (length l) -> exists a, znth l i = Some a.
Proof.
  intros H. unfold znth. destruct (Z.leb_spec 0 i); [|lia]. apply lookup_lt_is_Some. lia.
Qed.

Lemma zset_zset {A} (l : list A) i a b : zset (zset l i a) i b = zset l i b.
Proof. apply list_insert_insert_eq. Qed.

(** An index of the class loops is in range of a per-class array. *)
Lemma arr_get_class {S A} (l : list A) i (d : A) (s : S) : length l = 4%nat -> i ∈ all_classes ->
  arr_get l i s = Done (nth (Z.to_nat i) l d, s).
Proof.
  intros Hl Hi. unfold all_classes in Hi.
  destruct l as [|a [|b [|c [|e [|]]]]]; try discriminate.
  repeat (apply elem_of_cons in Hi as [->|Hi]; [reflexivity|]). by apply not_elem_of_nil in Hi.
Qed.

Lemma znth_zset_eq {A} (l : list A) i a : 0 <= i < Z.of_nat (length l) -> znth (zset l i a) i = Some a.
Proof.
  intros H. unfold znth, zset. destruct (Z.leb_spec 0 i); [|lia]. apply list_lookup_insert_eq. lia.
Qed.

Lemma znth_zset_ne {A} (l : list A) i j a : 0 <= i -> i <> j -> znth (zset l i a) j = znth l j.
Proof.
  intros Hi H. unfold znth, zset. destruct (Z.leb_spec 0 j); [|reflexivity].
  apply list_lookup_insert_ne. lia.
Qed.

Lemma length_zset {A} (l : list A) i a : length (zset l i a) = length l.
Proof. apply length_insert. Qed.

Lemma Forall_zset {A} (P : A -> Prop) l i a : Forall P l -> P a -> Forall P (zset l i a).
Proof. intros Hl Ha. apply Forall_insert; assumption. Qed.

Lemma Forall_znth {A} (P : A -> Prop) l i a : Forall P l -> znth l i = Some a -> P a.
Proof. intros Hl H. apply znth_Some in H as [_ H]. eapply Forall_lookup_1; eauto. Qed.

Lemma sadd64_Some a b c : sadd64 a b = Some c -> c = a + b /\ - 2 ^ 63 <= c < 2 ^ 63.
Proof.
  unfold sadd64. destruct (Z.leb_spec (- 2 ^ 63) (a + b)); destruct (Z.ltb_spec (a + b) (2 ^ 63));
    cbn; try discriminate. intros [= <-]. lia.
Qed.

Lemma zset_id {A} (l : list A) i a : znth l i = Some a -> zset l i a = l.
Proof. intros H. apply znth_Some in H as [_ H]. apply list_insert_id. exact H. Qed.

#[export] Hint Rewrite @length_zset : vemu.
