(* ===== verification/Power.v ===== *)
(** * The power models

    [vemu_power_45nm.c] is the model the emulator links; its parameters are
    a C union of the struct [esweek_pm] and the array [pm_array[14]], so a
    parameter is an index.  [vemu_power_tvlsi.c] is the older model, kept in
    the tree but not linked.  Expressions are evaluated in the order and
    association of the C source, one IEEE rounding per operation. *)
From stdpp Require Import base list.
From S2P Require Import Prelude Double ArmTable State.
Open Scope Z_scope.

Declare Scope double_scope.
Delimit Scope double_scope with D.
Infix "+" := d_add : double_scope.
Infix "-" := d_sub : double_scope.
Infix "*" := d_mul : double_scope.
Infix "/" := d_div : double_scope.
Infix "<?" := d_ltb : double_scope.

(** [pm_array[i]]; the parameter structs have no index outside the array. *)
Definition param (a : list double) (i : nat) : double := nth i a d_zero.

(** ** The interface between the power models and the energy accounting *)

(** A power model: the number of its parameters and the power, in watts,
    asleep and per instruction class. *)
Class PowerModel := {
  pm_size : Z;
  pm_slp_power : list double -> double;
  pm_act_power : list double -> Z -> double
}.

(** ** vemu_power_45nm.c *)
Module Power45nm.

(** [esweek_pm]: the fields in the order of the struct. *)
Definition F (a : list double) := param a 0.
Definition Vdd (a : list double) := param a 1.
Definition T (a : list double) := param a 2.
Definition Nd (a : list double) := param a 3.
Definition Bd (a : list double) := param a 4.
Definition Cd (a : list double) := param a 5.
Definition Nl (a : list double) := param a 6.
Definition Al (a : list double) := param a 7.
Definition Bl (a : list double) := param a 8.
Definition Vnl (a : list double) := param a 9.
Definition Vpl (a : list double) := param a 10.
Definition delta_vtp (a : list double) := param a 11.
Definition mode (a : list double) := param a 12.
Definition Vdd_scalar (a : list double) := param a 13.

Section Model.
Context `{Libm}.

(** [ADAPTIVE] is defined (as 0), so the [#ifdef ADAPTIVE] blocks are
    compiled in. *)
Definition vemu_pm_slp_power (p : list double) : double :=
  (let t := T p + d_of_Z 273 in
   let v := Vdd p * Vdd_scalar p in
   let power := Nl p * v * t * t
                * (m_exp (Al p * Vnl p / t) + m_exp (Al p * (Vpl p + delta_vtp p) / t))
                * m_exp (Bl p * v / t) in
   power / d_of_Z 1000000)%D.

Definition vemu_pm_act_power (p : list double) (class : Z) : double :=
  (let f := F p / d_of_Z 1000000 in
   let v := Vdd p * Vdd_scalar p in
   let power := v * v + Bd p * m_pow (v - Cd p - delta_vtp p) (d_of_Z 3) in
   let power := power * Nd p * f in
   power + vemu_pm_slp_power p)%D.
End Model.

#[export] Instance power45nm `{Libm} : PowerModel := {
  pm_size := 14;
  pm_slp_power := vemu_pm_slp_power;
  pm_act_power := vemu_pm_act_power
}.

(** The body of the loop of [vemu_pm_print_temp_p_curve]: a printed row is
    appended to the output. *)
Definition curve_step `{Libm} (rows : list (Z * double * double)) (ttt : Z) : M vemu_st (list (Z * double * double)) :=
  modify (fun s => set_pm_array (zset (pm_array s) 0 (d_of_Z ttt)) s) ;;
  let! p := gets pm_array in
  ret (rows ++ [(ttt, vemu_pm_slp_power p, vemu_pm_act_power p 0)]).

Definition vemu_pm_print_temp_p_curve `{Libm} : M vemu_st (list (Z * double * double)) :=
  let! a := gets pm_array in
  let! oldT := arr_get a 0 in
  let! rows := mfold (seqZ (-20) 121) curve_step [] in
  modify (fun s => set_pm_array (zset (pm_array s) 0 oldT) s) ;;
  ret rows.

(** A row of the loop, as a function of the parameters before it. *)
Definition curve_row `{Libm} (a : list double) (ttt : Z) : Z * double * double :=
  let p := zset a 0 (d_of_Z ttt) in (ttt, vemu_pm_slp_power p, vemu_pm_act_power p 0).

(** Slot 0 is the frequency, which the leakage does not depend on. *)
Lemma slp_power_slot0 `{Libm} a v : vemu_pm_slp_power (zset a 0 v) = vemu_pm_slp_power a.
Proof. destruct a; reflexivity. Qed.

Lemma curve_loop `{Libm} l rows v s :
  mfold l curve_step rows (set_pm_array (zset (pm_array s) 0 v) s)
  = Done (rows ++ (curve_row (pm_array s) <$> l),
          set_pm_array (zset (pm_array s) 0 (fold_left (fun _ ttt => d_of_Z ttt) l v)) s).
Proof.
  revert rows v. induction l as [|x l IH]; intros rows v; cbn [mfold fmap list_fmap].
  - rewrite app_nil_r. reflexivity.
  - unfold curve_step at 1, bind, modify, gets, ret. cbn [pm_array set_pm_array].
    unfold zset in *. rewrite list_insert_insert_eq.
    rewrite (IH _ (d_of_Z x)), <- app_assoc. reflexivity.
Qed.

(**  The temperature curve: printing it always succeeds and leaves the
    parameters as they were, with one row per value from -20 to 100.  The
    loop varies slot 0, which is the frequency and not the temperature, so
    that the sleep power is the same in every row, that of the current
    temperature. *)
Lemma temp_curve_sweeps_frequency `{Libm} s : length (pm_array s) = 14%nat ->
  exists rows, vemu_pm_print_temp_p_curve s = Done (rows, s) /\
    rows.*1.*1 = seqZ (-20) 121 /\
    Forall (fun r => r.1.2 = vemu_pm_slp_power (pm_array s)) rows.
Proof.
  intros Hl. exists (curve_row (pm_array s) <$> seqZ (-20) 121). split_and!.
  - destruct s as [cr cy a en er ls tt at']. cbn [pm_array] in *. destruct a as [|x a]; [discriminate|].
    unfold vemu_pm_print_temp_p_curve. erewrite bind_run by reflexivity. cbn beta.
    erewrite bind_run by reflexivity. cbn beta.
    match goal with |- bind ?m ?k ?s = _ => erewrite (bind_run m k s) by exact (curve_loop _ [] x s) end.
    reflexivity.
  - rewrite <- !list_fmap_compose. apply list_fmap_id.
  - apply Forall_fmap, Forall_true. intros ttt. cbn. apply slp_power_slot0.
Qed.

Lemma temp_curve_sweeps_frequency_witness :
  let L := {| m_exp := fun x => x; m_pow := fun x _ => x |} in
  length (pm_array initial_st) = 14%nat /\
  exists rows, @vemu_pm_print_temp_p_curve L initial_st = Done (rows, initial_st) /\
    rows.*1.*1 = seqZ (-20) 121 /\
    Forall (fun r => r.1.2 = @vemu_pm_slp_power L (pm_array initial_st)) rows.
Proof.
  split; [reflexivity|].
  exact (@temp_curve_sweeps_frequency {| m_exp := fun x => x; m_pow := fun x _ => x |} initial_st eq_refl).
Defined.
End Power45nm.

(** ** Parameter access, common to the models

    [class] is accepted and ignored: all classes share one array. *)
Section Params.
Context `{PowerModel}.

Definition vemu_pm_change_parameter (class parameter : Z) (value : double) : M vemu_st unit :=
  massert (parameter <? pm_size) ;;
  let! a := gets pm_array in
  if in_bounds a parameter then modify (set_pm_array (zset a parameter value)) else undefined.

Definition vemu_pm_get_parameter (class parameter : Z) : M vemu_st double :=
  massert (parameter <? pm_size) ;;
  let! a := gets pm_array in
  arr_get a parameter.
End Params.

(** ** vemu_power_tvlsi.c *)
Module PowerTvlsi.

(** [tvlsi_pm]. *)
Definition T (a : list double) := param a 0.
Definition at1 (a : list double) := param a 1.
Definition at2 (a : list double) := param a 2.
Definition at3 (a : list double) := param a 3.
Definition ak1 (a : list double) := param a 4.
Definition ak2 (a : list double) := param a 5.
Definition ak3 (a : list double) := param a 6.
Definition aalpha (a : list double) := param a 7.
Definition abeta (a : list double) := param a 8.
Definition apt1 (a : list double) := param a 9.
Definition apt2 (a : list double) := param a 10.
Definition apt3 (a : list double) := param a 11.
Definition sA (a : list double) := param a 12.
Definition sB (a : list double) := param a 13.
Definition sC (a : list double) := param a 14.
Definition act_leak_alpha (a : list double) := param a 15.

Section Model.
Context `{Libm}.

Definition vemu_pm_slp_power (p : list double) : double :=
  (let t := T p + d_of_Z 273 in
   let power := sA p * t * t / m_exp (sB p / t) + sC p in
   let power := power * d_lit 18 1 in
   power / d_of_Z 1000000)%D.

Definition vemu_pm_act_power (p : list double) (class frequency : Z) : double :=
  (let power :=
     if T p <? at2 p then apt1 p + ak1 p * d_lit 1 3 * m_pow (T p - at1 p) (aalpha p)
     else if T p <? at3 p then apt2 p + ak2 p * d_lit 1 3 * (T p - at2 p)
     else apt3 p + ak3 p * d_lit 1 3 * m_pow (T p - at3 p) (abeta p) in
   power + vemu_pm_slp_power p * act_leak_alpha p)%D.
End Model.

#[export] Instance power_tvlsi `{Libm} : PowerModel := {
  pm_size := 16;
  pm_slp_power := vemu_pm_slp_power;
  pm_act_power p class := vemu_pm_act_power p class 0
}.
End PowerTvlsi.
