(* ===== verification/Cycles.v ===== *)
(** * Cycle and time accounting: [vemu_cycles.c] and its call sites

    The emulator counts the cycles of every executed instruction per
    instruction class, converts them to active time at the current
    frequency, and derives sleep time from the emulated machine's clock when
    the processor executes WFI. *)
From Stdlib Require Import String.
From stdpp Require Import base list relations.
From S2P Require Import Prelude Double ArmTable State Power.
Open Scope Z_scope.

(** [vemu_tb_info] of [vemu.h]. *)
Record vemu_tb_info : Type := {
  instr_word : Z;
  instr_info : vemu_instr_info
}.

Section Ops.
Context {CLK : VmClock} {PM : PowerModel}.

(** [period_ns]: [1e9/(uint64_t)vemu_pm_get_parameter(0,0)]. *)
Definition period_ns : M vemu_st double :=
  let! f := vemu_pm_get_parameter 0 0 in
  let! n := defined (d_to_u64 f) in
  ret (d_div (d_of_Z 1000000000) (d_of_Z n)).

Definition vemu_get_cycles (class : Z) : M vemu_st Z :=
  massert (class <? MAX_INSTR_CLASSES) ;;
  let! c := gets cyc in
  let! x := arr_get (cycle_count c) class in
  defined (d_to_u64 x).

(** [sum += cycle_count[i]] with [uint64_t sum]: the sum is converted to
    double, added, and converted back, at every iteration. *)
Definition vemu_get_cycles_all_classes : M vemu_st Z :=
  mfold all_classes (fun sum i =>
    let! c := gets cyc in
    let! x := arr_get (cycle_count c) i in
    defined (d_to_u64 (d_add (d_of_Z sum) x))) 0.

Definition vemu_get_act_time (class : Z) : M vemu_st Z :=
  massert (class <? MAX_INSTR_CLASSES) ;;
  let! c := gets cyc in
  let! x := arr_get (active_time c) class in
  defined (d_to_u64 x).

Definition vemu_get_act_time_all_classes : M vemu_st Z :=
  let! sum := mfold all_classes (fun sum i =>
    let! c := gets cyc in
    let! x := arr_get (active_time c) i in
    ret (d_add sum x)) d_zero in
  defined (d_to_u64 sum).

Definition vemu_get_slp_time : M vemu_st Z :=
  let! c := gets cyc in
  let! retval :=
    if entered_sleep_mode c then
      let! time := qemu_get_clock_ns in
      let interval := s64 (time - last_sleep_time c) in
      defined (sadd64 (total_sleep_time c) interval)
    else ret (total_sleep_time c) in
  if retval <? 0 then ret 0 else ret retval.

(** [cycles == 0] only prints a warning. *)
Definition vemu_increment_cycles (tb_info : vemu_tb_info) : M vemu_st unit :=
  let class := instr_class (instr_info tb_info) in
  let cycles := instr_cycles (instr_info tb_info) in
  massert (class <? MAX_INSTR_CLASSES) ;;
  let! c := gets cyc in
  let! n := arr_get (cycle_count c) class in
  let! p := period_ns in
  let! t := arr_get (active_time c) class in
  modify (set_cyc {|
    cycle_count := zset (cycle_count c) class (d_add n cycles);
    active_time := zset (active_time c) class (d_add t (d_mul cycles p));
    total_sleep_time := total_sleep_time c;
    last_active_time_vm := last_active_time_vm c;
    last_active_time_cycles := last_active_time_cycles c;
    last_sleep_time := last_sleep_time c;
    entered_sleep_mode := entered_sleep_mode c |}).

Definition vemu_active_start : M vemu_st unit :=
  let! c := gets cyc in
  if negb (entered_sleep_mode c) then ret tt
  else
    let! time := qemu_get_clock_ns in
    let interval := s64 (time - last_sleep_time c) in
    let! total := defined (sadd64 (total_sleep_time c) interval) in
    let! act := vemu_get_act_time_all_classes in
    modify (set_cyc {|
      cycle_count := cycle_count c;
      active_time := active_time c;
      total_sleep_time := total;
      last_active_time_vm := time;
      last_active_time_cycles := act;
      last_sleep_time := last_sleep_time c;
      entered_sleep_mode := false |}).

Definition vemu_sleep_start : M vemu_st unit :=
  let! c := gets cyc in
  let! time := qemu_get_clock_ns in
  let interval := u64 (time - last_active_time_vm c) in
  let! act := vemu_get_act_time_all_classes in
  let act_period := u64 (act - last_active_time_cycles c) in
  let delta := s64 (act_period - interval) in
  modify (set_cyc {|
    cycle_count := cycle_count c;
    active_time := active_time c;
    total_sleep_time := total_sleep_time c;
    last_active_time_vm := last_active_time_vm c;
    last_active_time_cycles := last_active_time_cycles c;
    last_sleep_time := u64 (time + delta);
    entered_sleep_mode := true |}).

(** [active_time] is not assigned. *)
Definition vemu_init_cycles : M vemu_st unit :=
  let! time := qemu_get_clock_ns in
  let! c := gets cyc in
  modify (set_cyc {|
    cycle_count := fold_left (fun a i => zset a i d_zero) all_classes (cycle_count c);
    active_time := active_time c;
    total_sleep_time := 0;
    last_active_time_vm := time;
    last_active_time_cycles := 0;
    last_sleep_time := time;
    entered_sleep_mode := false |}).
End Ops.

(** ** Well-formed counters *)

(** The arrays have their C length, and hold sums of non-negative amounts. *)
Definition cycles_wf (c : cycles_st) : Prop :=
  length (cycle_count c) = 4%nat /\ length (active_time c) = 4%nat /\
  Forall d_ok (cycle_count c) /\ Forall d_ok (active_time c).

(** A translated instruction whose class is in range and whose cost is a
    non-negative finite number. *)
Definition tb_ok (tb : vemu_tb_info) : Prop :=
  0 <= instr_class (instr_info tb) < MAX_INSTR_CLASSES /\ d_nonneg (instr_cycles (instr_info tb)).

(** The active time of all classes, as [vemu_get_act_time_all_classes]
    computes it. *)
Definition act_sum (l : list double) : double := fold_left d_add l d_zero.
Definition act_all (c : cycles_st) : option Z := d_to_u64 (act_sum (active_time c)).

(** Only the cycle counters may differ, the rest of the globals do not. *)
Definition only_cyc (s s' : vemu_st) : Prop :=
  pm_array s' = pm_array s /\ eng s' = eng s /\ vemu_errors_enabled s' = vemu_errors_enabled s /\
  last_state s' = last_state s /\ thumb_table s' = thumb_table s /\ arm_table s' = arm_table s.

Lemma list4 {A} (l : list A) : length l = 4%nat -> exists a b c d, l = [a; b; c; d].
Proof. destruct l as [|a [|b [|c [|d [|]]]]]; try discriminate. eauto. Qed.

Section Facts.
Context {CLK : VmClock} {PM : PowerModel}.

Lemma act_time_all_run s : length (active_time (cyc s)) = 4%nat ->
  vemu_get_act_time_all_classes s = match act_all (cyc s) with Some z => Done (z, s) | None => Undefined end.
Proof.
  intros Hl. unfold vemu_get_act_time_all_classes.
  erewrite bind_run by (apply (mfold_pure (fun sum i => d_add sum (nth (Z.to_nat i) (active_time (cyc s)) d_zero)));
    intros acc i Hi; erewrite bind_run by reflexivity; cbn beta;
    erewrite bind_run by (apply arr_get_class with (d := d_zero); eassumption); reflexivity).
  unfold act_all, act_sum. destruct (list4 _ Hl) as (a & b & c & d & ->).
  change (fold_left _ all_classes d_zero) with (fold_left d_add [a; b; c; d] d_zero).
  destruct (d_to_u64 (fold_left d_add [a; b; c; d] d_zero)); reflexivity.
Qed.

Lemma period_pos s p s' : period_ns s = Done (p, s') -> s' = s /\ d_pos_or_inf p.
Proof.
  unfold period_ns, vemu_pm_get_parameter, arr_get. intros Hr. mruns.
  split; [reflexivity|].
  match goal with Hd : d_to_u64 _ = Some ?n |- _ => apply d_to_u64_range in Hd; rename n into freq end.
  assert (freq = 0 \/ 0 < freq) as [->|Hp] by lia; [right; reflexivity|].
  apply d_div_pos; [apply d_of_Z_nonneg; lia|apply d_of_Z_u64_nonneg; lia|apply d_of_Z_nonzero; lia].
Qed.

(** What a successful [vemu_increment_cycles] does. *)
Lemma increment_run tb s s' : vemu_increment_cycles tb s = Done (tt, s') ->
  let k := instr_class (instr_info tb) in
  exists n t p, znth (cycle_count (cyc s)) k = Some n /\ znth (active_time (cyc s)) k = Some t /\
    d_pos_or_inf p /\ only_cyc s s' /\
    cycle_count (cyc s') = zset (cycle_count (cyc s)) k (d_add n (instr_cycles (instr_info tb))) /\
    active_time (cyc s') = zset (active_time (cyc s)) k (d_add t (d_mul (instr_cycles (instr_info tb)) p)) /\
    total_sleep_time (cyc s') = total_sleep_time (cyc s) /\
    last_active_time_vm (cyc s') = last_active_time_vm (cyc s) /\
    last_active_time_cycles (cyc s') = last_active_time_cycles (cyc s) /\
    entered_sleep_mode (cyc s') = entered_sleep_mode (cyc s).
Proof.
  unfold vemu_increment_cycles, arr_get. intros Hr. mruns.
  match goal with Hp : period_ns _ = Done _ |- _ => apply period_pos in Hp as [-> Hp] end.
  repeat eexists; eauto.
Qed.

Lemma increment_wf (tb : vemu_tb_info) (s s' : vemu_st) : tb_ok tb -> cycles_wf (cyc s) ->
  vemu_increment_cycles tb s = Done (tt, s') -> cycles_wf (cyc s').
Proof.
  intros [_ Htb] (L1 & L2 & F1 & F2) Hr. unfold cycles_wf.
  apply increment_run in Hr as (n & t & p & Hn & Ht & Hp & _ & -> & -> & _).
  pose proof (Forall_znth _ _ _ _ F1 Hn). pose proof (Forall_znth _ _ _ _ F2 Ht).
  split_and!; rewrite ?length_zset; try assumption; apply Forall_zset; try assumption;
    apply d_add_ok; auto using d_nonneg_ok, d_mul_ok.
Qed.
End Facts.

(** ** Time never runs backwards *)

Lemma act_sum_cons l : Forall d_ok l -> forall acc, d_ok acc -> d_nonneg (fold_left d_add l acc) ->
  d_nonneg acc /\ Forall d_nonneg l.
Proof.
  induction 1 as [|x l Hx Hl IH]; intros acc Hacc Hs; cbn in Hs; [auto|].
  destruct (IH _ (d_add_ok _ _ Hacc Hx) Hs) as [Ha Hf].
  apply d_add_cast in Ha as [? ?]; auto.
Qed.

Lemma act_sum_mono l l' : Forall2 (fun x y => d_nonneg x /\ d_nonneg y /\ d_val x <= d_val y) l l' ->
  forall acc acc', d_nonneg acc -> d_nonneg acc' -> d_val acc <= d_val acc' ->
  d_nonneg (fold_left d_add l' acc') ->
  d_nonneg (fold_left d_add l acc) /\ d_val (fold_left d_add l acc) <= d_val (fold_left d_add l' acc').
Proof.
  induction 1 as [|x y l l' (Hx & Hy & Hxy) Hl IH]; intros acc acc' Ha Ha' Hle Hs; cbn in *; [auto|].
  assert (Hok : Forall d_ok l').
  { clear -Hl. induction Hl as [|? ? ? ? (_ & ? & _)]; constructor; auto using d_nonneg_ok. }
  destruct (act_sum_cons l' Hok (d_add acc' y) ltac:(apply d_add_ok; auto using d_nonneg_ok) Hs) as [Hs' _].
  destruct (d_add_mono acc x acc' y Ha Hx Ha' Hy Hle Hxy Hs') as [Hn Hv].
  apply IH; assumption.
Qed.

Section Monotone.
Context {CLK : VmClock} {PM : PowerModel}.

(** The per-class and total times after an instruction bound those before. *)
Lemma increment_act_all tb s s' z' : tb_ok tb -> cycles_wf (cyc s) ->
  vemu_increment_cycles tb s = Done (tt, s') -> act_all (cyc s') = Some z' ->
  exists z, act_all (cyc s) = Some z /\ z <= z'.
Proof.
  intros Htb Hwf Hr Hz'. pose proof (increment_wf tb s s' Htb Hwf Hr) as Hwf'.
  destruct Htb as [_ Hc], Hwf as (_ & L2 & _ & F2), Hwf' as (_ & L2' & _ & F2').
  apply increment_run in Hr as (n & t & p & _ & Ht & Hp & _ & _ & Eact & _).
  unfold act_all, act_sum in *.
  assert (Hn' : d_nonneg (fold_left d_add (active_time (cyc s')) d_zero)).
  { eapply d_ok_cast; [|exact Hz']. clear -F2'.
    assert (Hz : d_ok d_zero) by (apply d_nonneg_ok; reflexivity). revert Hz. generalize d_zero.
    induction F2' as [|x l Hx _ IH]; intros acc Hacc; cbn; [exact Hacc|apply IH, d_add_ok; assumption]. }
  destruct (act_sum_cons _ F2' d_zero ltac:(apply d_nonneg_ok; reflexivity) Hn') as [_ Hall'].
  apply znth_Some in Ht as [Hk Ht].
  assert (Hnew : d_nonneg (d_add t (d_mul (instr_cycles (instr_info tb)) p))).
  { eapply Forall_lookup_1; [exact Hall'|]. rewrite Eact. apply list_lookup_insert_eq. lia. }
  pose proof (Forall_lookup_1 _ _ _ _ F2 Ht) as Htok.
  destruct (d_add_cast t _ Htok (d_mul_ok _ _ Hc Hp) Hnew) as [Htn Hmn].
  assert (Hle : Forall2 (fun x y => d_nonneg x /\ d_nonneg y /\ d_val x <= d_val y)
                  (active_time (cyc s)) (active_time (cyc s'))).
  { apply Forall2_same_length_lookup_2; [congruence|]. intros i x y Hx Hy.
    assert (Hyn : d_nonneg y) by (eapply Forall_lookup_1; eassumption).
    rewrite Eact in Hy. unfold zset in Hy.
    destruct (decide (i = Z.to_nat (instr_class (instr_info tb)))) as [->|Hne].
    - rewrite list_lookup_insert_eq in Hy by lia. injection Hy as <-.
      rewrite Ht in Hx. injection Hx as <-. auto using d_add_ge.
    - rewrite list_lookup_insert_ne in Hy by auto. rewrite Hx in Hy. injection Hy as <-. split_and!; [assumption..|lia]. }
  destruct (act_sum_mono _ _ Hle d_zero d_zero eq_refl eq_refl (Z.le_refl _) Hn') as [Hn Hv].
  exact (d_to_u64_le _ _ _ Hn Hn' Hv Hz').
Qed.
End Monotone.

(** ** Sleep and active time add up to the machine's clock

    A step of the emulated processor as far as the accounting sees it: an
    instruction while awake, WFI, an interrupt, a query of the sleep time,
    or a change of a power-model parameter. *)
Inductive cpu_step `{VmClock} `{PowerModel} (s s' : vemu_st) : Prop :=
| step_exec tb : entered_sleep_mode (cyc s) = false -> tb_ok tb ->
    vemu_increment_cycles tb s = Done (tt, s') -> cpu_step s s'
| step_wfi : vemu_sleep_start s = Done (tt, s') -> cpu_step s s'
| step_irq : vemu_active_start s = Done (tt, s') -> cpu_step s s'
| step_query z : vemu_get_slp_time s = Done (z, s') -> cpu_step s s'
| step_param c p v : vemu_pm_change_parameter c p v s = Done (tt, s') -> cpu_step s s'.

Section Conservation.
Context {CLK : VmClock} {PM : PowerModel}.
(** The machine's clock stays below 2^62 ns, about 146 years. *)
Hypothesis clock_bound : forall n, 0 <= vm_clock_ns n < 2 ^ 62.

Lemma clock_run s : qemu_get_clock_ns s =
  Done (vm_clock_ns (clock_reads s), set_clock_reads (S (clock_reads s)) s).
Proof.
  unfold qemu_get_clock_ns. rewrite u64_small; [reflexivity|].
  specialize (clock_bound (clock_reads s)). unfold is_u64. lia.
Qed.

(** The accounting relation at active time [act], with [t0] the clock
    value at initialisation. *)
Definition time_facts (t0 : Z) (c : cycles_st) (act : Z) : Prop :=
  0 <= last_active_time_vm c < 2 ^ 62 /\
  0 <= last_active_time_cycles c <= act /\
  total_sleep_time c = last_active_time_vm c - t0 - last_active_time_cycles c /\
  (entered_sleep_mode c = true ->
    last_sleep_time c = last_active_time_vm c + act - last_active_time_cycles c).

(** The invariant: as long as the active time is below 2^62 ns. *)
Definition time_inv (t0 : Z) (s : vemu_st) : Prop :=
  cycles_wf (cyc s) /\
  forall act, act_all (cyc s) = Some act -> act < 2 ^ 62 -> time_facts t0 (cyc s) act.

Lemma sleep_start_run s s' : cycles_wf (cyc s) -> vemu_sleep_start s = Done (tt, s') ->
  exists act, let c := cyc s in let T := vm_clock_ns (clock_reads s) in
    act_all c = Some act /\
    cyc s' = {| cycle_count := cycle_count c; active_time := active_time c;
      total_sleep_time := total_sleep_time c; last_active_time_vm := last_active_time_vm c;
      last_active_time_cycles := last_active_time_cycles c;
      last_sleep_time := u64 (T + s64 (u64 (act - last_active_time_cycles c) - u64 (T - last_active_time_vm c)));
      entered_sleep_mode := true |}.
Proof.
  intros (_ & Hl & _) Hr. unfold vemu_sleep_start in Hr.
  erewrite bind_run in Hr by reflexivity. cbn beta in Hr.
  erewrite bind_run in Hr by apply clock_run. cbn beta in Hr.
  apply bind_Done in Hr as (act & s1 & H1 & H2).
  rewrite act_time_all_run in H1 by exact Hl. cbn [cyc set_clock_reads] in H1.
  destruct (act_all (cyc s)) eqn:E; [|discriminate]. injection H1 as <- <-.
  apply modify_Done in H2. subst s'. eauto.
Qed.

(** The sleep start recorded at WFI is the end of the active period in
    emulated time, exactly. *)
Lemma sleep_exact c act T : time_facts T c act -> forall now, 0 <= now < 2 ^ 62 -> act < 2 ^ 62 ->
  u64 (now + s64 (u64 (act - last_active_time_cycles c) - u64 (now - last_active_time_vm c)))
    = last_active_time_vm c + act - last_active_time_cycles c.
Proof.
  intros (Hvm & Hc & _ & _) now Hnow Hact.
  rewrite (u64_small (act - last_active_time_cycles c)) by (unfold is_u64; lia).
  set (d := act - last_active_time_cycles c) in *.
  assert (E : now + s64 (d - u64 (now - last_active_time_vm c)) ≡64 last_active_time_vm c + d).
  { rewrite s64_eq64_id, u64_eq64_id. replace (now + (d - (now - last_active_time_vm c)))
      with (last_active_time_vm c + d) by lia. reflexivity. }
  unfold eq64 in E. rewrite E, u64_small by (unfold is_u64; lia). lia.
Qed.

Lemma time_inv_sleep t0 s s' : time_inv t0 s -> vemu_sleep_start s = Done (tt, s') -> time_inv t0 s'.
Proof.
  intros [Hwf Hf] Hr. destruct (sleep_start_run s s' Hwf Hr) as (act & Hact & Hcyc).
  split; [rewrite Hcyc; exact Hwf|]. intros act' Hact' Hlt. rewrite Hcyc in Hact' |- *.
  change (act_all (cyc s) = Some act') in Hact'. rewrite Hact in Hact'. injection Hact' as <-.
  pose proof (Hf act Hact Hlt) as Hfacts. pose proof Hfacts as (Hvm & Hc & Ht & _).
  split_and!; cbn; try assumption; try lia. intros _. eapply sleep_exact; eauto.
Qed.

Lemma active_start_run s s' : cycles_wf (cyc s) -> entered_sleep_mode (cyc s) = true ->
  vemu_active_start s = Done (tt, s') <->
  exists act total, let c := cyc s in let T := vm_clock_ns (clock_reads s) in
    act_all c = Some act /\ sadd64 (total_sleep_time c) (s64 (T - last_sleep_time c)) = Some total /\
    s' = set_cyc {| cycle_count := cycle_count c; active_time := active_time c;
      total_sleep_time := total; last_active_time_vm := T; last_active_time_cycles := act;
      last_sleep_time := last_sleep_time c; entered_sleep_mode := false |}
      (set_clock_reads (S (clock_reads s)) s).
Proof.
  intros (_ & Hl & _) Hsl. unfold vemu_active_start.
  erewrite bind_run by reflexivity. cbn beta. rewrite Hsl. cbn [negb].
  erewrite bind_run by apply clock_run. cbn beta zeta. unfold defined.
  destruct (sadd64 _ _) as [total|] eqn:Es.
  - erewrite bind_run by reflexivity. cbn beta. unfold bind.
    rewrite act_time_all_run by exact Hl. cbn [cyc set_clock_reads].
    destruct (act_all (cyc s)) as [act|] eqn:Ea.
    + split; [intros [= <-]; eauto|intros (? & ? & [= <-] & [= <-] & ->); reflexivity].
    + split; [discriminate|]. intros (? & ? & ? & _). discriminate.
  - split; [discriminate|]. intros (? & ? & _ & ? & _). discriminate.
Qed.

(** Waking is exact: the sleep time becomes the clock minus the active
    time, and no signed overflow occurs. *)
Lemma wake_exact t0 c act now : 0 <= t0 < 2 ^ 62 -> time_facts t0 c act ->
  entered_sleep_mode c = true -> 0 <= now < 2 ^ 62 -> act < 2 ^ 62 ->
  sadd64 (total_sleep_time c) (s64 (now - last_sleep_time c)) = Some (now - t0 - act).
Proof.
  intros Ht0 (Hvm & Hc & Ht & Hs) Hsl Hnow Hact. rewrite (Hs Hsl), s64_small, Ht by lia.
  unfold sadd64. replace (_ + _) with (now - t0 - act) by lia.
  destruct (Z.leb_spec (- 2 ^ 63) (now - t0 - act)); [|lia].
  destruct (Z.ltb_spec (now - t0 - act) (2 ^ 63)); [reflexivity|lia].
Qed.

Lemma time_inv_wake t0 s s' : 0 <= t0 < 2 ^ 62 -> time_inv t0 s ->
  vemu_active_start s = Done (tt, s') -> time_inv t0 s'.
Proof.
  intros Ht0 [Hwf Hf] Hr. destruct (entered_sleep_mode (cyc s)) eqn:Hsl.
  - apply active_start_run in Hr as (act & total & Hact & Htot & ->); [|assumption..].
    split; [exact Hwf|]. intros act' Hact' Hlt.
    change (act_all (cyc s) = Some act') in Hact'. rewrite Hact in Hact'. injection Hact' as <-.
    pose proof (Hf act Hact Hlt) as Hfacts.
    rewrite (wake_exact t0 _ _ _ Ht0 Hfacts Hsl (clock_bound _) Hlt) in Htot. injection Htot as <-.
    destruct Hfacts as (Hvm & Hc & _). specialize (clock_bound (clock_reads s)).
    split_and!; cbn; try lia; discriminate.
  - unfold vemu_active_start in Hr. erewrite bind_run in Hr by reflexivity. cbn beta in Hr.
    rewrite Hsl in Hr. injection Hr as <-. split; assumption.
Qed.

Lemma time_inv_exec t0 tb s s' : time_inv t0 s -> entered_sleep_mode (cyc s) = false -> tb_ok tb ->
  vemu_increment_cycles tb s = Done (tt, s') -> time_inv t0 s'.
Proof.
  intros [Hwf Hf] Hsl Htb Hr. split; [eapply increment_wf; eassumption|]. intros act' Hact' Hlt.
  destruct (increment_act_all tb s s' act' Htb Hwf Hr Hact') as (act & Hact & Hle).
  destruct (Hf act Hact ltac:(lia)) as (Hvm & Hc & Ht & _).
  apply increment_run in Hr as (_ & _ & _ & _ & _ & _ & _ & _ & _ & Ets & Evm & Ec & Esl).
  unfold time_facts. rewrite Ets, Evm, Ec, Esl, Hsl. split_and!; try lia; discriminate.
Qed.

Lemma get_slp_time_frame s z s' : vemu_get_slp_time s = Done (z, s') -> cyc s' = cyc s.
Proof.
  unfold vemu_get_slp_time, qemu_get_clock_ns. intros Hr. mruns; reflexivity.
Qed.

Lemma change_parameter_frame c p v s s' : vemu_pm_change_parameter c p v s = Done (tt, s') ->
  cyc s' = cyc s.
Proof. unfold vemu_pm_change_parameter. intros Hr. mruns. reflexivity. Qed.

Lemma cpu_step_inv t0 s s' : 0 <= t0 < 2 ^ 62 -> time_inv t0 s -> cpu_step s s' -> time_inv t0 s'.
Proof.
  intros Ht0 Hi [tb Hsl Htb Hr|Hr|Hr|z Hr|c p v Hr];
    eauto using time_inv_exec, time_inv_sleep, time_inv_wake.
  - apply get_slp_time_frame in Hr. unfold time_inv. rewrite Hr. exact Hi.
  - apply change_parameter_frame in Hr. unfold time_inv. rewrite Hr. exact Hi.
Qed.

Lemma init_time_inv s0 : vemu_init_cycles initial_st = Done (tt, s0) ->
  time_inv (vm_clock_ns 0) s0 /\ last_active_time_vm (cyc s0) = vm_clock_ns 0.
Proof.
  unfold vemu_init_cycles. erewrite bind_run by apply clock_run. intros [= <-].
  specialize (clock_bound 0). cbn [cyc set_cyc last_active_time_vm clock_reads initial_st].
  split; [|reflexivity]. split.
  - split_and!; try reflexivity; repeat constructor; apply d_nonneg_ok; reflexivity.
  - intros act [= <-] _. split_and!; cbn; try lia; discriminate.
Qed.

Lemma reachable_time_inv s0 s : vemu_init_cycles initial_st = Done (tt, s0) ->
  rtc cpu_step s0 s -> time_inv (vm_clock_ns 0) s.
Proof.
  intros Hinit Hr. destruct (init_time_inv s0 Hinit) as [Hi _]. clear Hinit.
  induction Hr as [s|s1 s2 s3 Hs _ IH]; [exact Hi|].
  apply IH. eapply cpu_step_inv; eauto.
Qed.

(** C2.  Conservation of time.  From initialisation, through any sequence
    of executed instructions, WFIs, interrupts, sleep-time queries and
    parameter changes, an interrupt that wakes the sleeping processor
    always succeeds, and leaves total sleep time = clock - clock at
    initialisation - active time, exactly, as long as the clock and the
    active time are below 2^62 ns. *)
Theorem wake_conserves_time s0 s act :
  vemu_init_cycles initial_st = Done (tt, s0) -> rtc cpu_step s0 s ->
  entered_sleep_mode (cyc s) = true -> act_all (cyc s) = Some act -> act < 2 ^ 62 ->
  exists s', vemu_active_start s = Done (tt, s') /\
    vemu_get_act_time_all_classes s' = Done (act, s') /\
    entered_sleep_mode (cyc s') = false /\
    total_sleep_time (cyc s') = last_active_time_vm (cyc s') - last_active_time_vm (cyc s0) - act.
Proof.
  intros Hinit Hr Hsl Hact Hlt. destruct (init_time_inv s0 Hinit) as [_ ->].
  destruct (reachable_time_inv s0 s Hinit Hr) as [Hwf Hf].
  pose proof (wake_exact _ _ _ _ (clock_bound 0) (Hf act Hact Hlt) Hsl (clock_bound (clock_reads s)) Hlt) as Hw.
  eexists. split_and!; [apply active_start_run; eauto|..]; try reflexivity.
  rewrite act_time_all_run by apply Hwf. cbn [cyc set_cyc]. unfold act_all in *. cbn [active_time].
  rewrite Hact. reflexivity.
Qed.

(** C19.  While asleep, the sleep time a reader sees is the clock minus the
    clock at initialisation minus the active time, or 0 when the host has
    run ahead of the emulated hardware and that difference is negative. *)
Theorem sleep_time_reading s0 s act :
  vemu_init_cycles initial_st = Done (tt, s0) -> rtc cpu_step s0 s ->
  entered_sleep_mode (cyc s) = true -> act_all (cyc s) = Some act -> act < 2 ^ 62 ->
  exists s', vemu_get_slp_time s =
    Done (Z.max 0 (vm_clock_ns (clock_reads s) - last_active_time_vm (cyc s0) - act), s').
Proof.
  intros Hinit Hr Hsl Hact Hlt. destruct (init_time_inv s0 Hinit) as [_ ->].
  destruct (reachable_time_inv s0 s Hinit Hr) as [Hwf Hf].
  pose proof (wake_exact _ _ _ _ (clock_bound 0) (Hf act Hact Hlt) Hsl (clock_bound (clock_reads s)) Hlt) as Hw.
  unfold vemu_get_slp_time. erewrite bind_run by reflexivity. cbn beta. rewrite Hsl.
  erewrite bind_run.
  2:{ erewrite bind_run by apply clock_run. cbn beta zeta. unfold defined. rewrite Hw. reflexivity. }
  destruct (Z.ltb_spec (vm_clock_ns (clock_reads s) - vm_clock_ns 0 - act) 0);
    eexists; unfold ret; do 2 f_equal; lia.
Qed.
End Conservation.

(** ** Cycle counts are exact up to 2^53 *)

(** The integer cost of an instruction. *)
Definition cost (tb : vemu_tb_info) : Z :=
  match d_trunc (instr_cycles (instr_info tb)) with Some z => z | None => 0 end.

Definition int_cost (tb : vemu_tb_info) : Prop :=
  0 <= instr_class (instr_info tb) < MAX_INSTR_CLASSES /\ 0 <= cost tb /\
  instr_cycles (instr_info tb) = d_of_Z (cost tb).

(** The reference: integer counters. *)
Definition add_cost (ns : list Z) (tb : vemu_tb_info) : list Z :=
  match znth ns (instr_class (instr_info tb)) with
  | Some n => zset ns (instr_class (instr_info tb)) (n + cost tb)
  | None => ns
  end.

Lemma znth_map {A B} (f : A -> B) l i a : znth l i = Some a -> znth (f <$> l) i = Some (f a).
Proof. unfold znth. destruct (0 <=? i); [|discriminate]. intros E. rewrite list_lookup_fmap, E. reflexivity. Qed.

Section Exact.
Context {CLK : VmClock} {PM : PowerModel}.

(** The counters of [s] are the doubles of the integers [ns], and the
    frequency parameter is a number that casts to [uint64_t]. *)
Definition counts (ns : list Z) (s : vemu_st) : Prop :=
  length ns = 4%nat /\ Forall (fun n => 0 <= n) ns /\
  cycle_count (cyc s) = d_of_Z <$> ns /\ length (active_time (cyc s)) = 4%nat /\
  0 < pm_size /\ exists f n, znth (pm_array s) 0 = Some f /\ d_to_u64 f = Some n.

Lemma increment_exact ns tb s : counts ns s -> int_cost tb -> zsum ns + cost tb <= 2 ^ 53 ->
  exists s', vemu_increment_cycles tb s = Done (tt, s') /\ counts (add_cost ns tb) s' /\
    zsum (add_cost ns tb) = zsum ns + cost tb.
Proof.
  intros (Hl & Hp & Hc & Ha & Hsz & f & k & Hf & Hk) (Hcl & Hcost & Hcy) Hb.
  unfold MAX_INSTR_CLASSES in Hcl.
  destruct (znth_lt ns (instr_class (instr_info tb)) ltac:(lia)) as [n Hn].
  destruct (znth_lt (active_time (cyc s)) (instr_class (instr_info tb)) ltac:(lia)) as [t Ht].
  destruct (znth_Some _ _ _ Hn) as [_ Hn'].
  pose proof (zsum_lookup_le _ _ _ Hp Hn'). pose proof (Forall_znth _ _ _ _ Hp Hn) as Hn0. cbn beta in Hn0.
  unfold add_cost. rewrite Hn.
  assert (Hperiod : exists p, period_ns s = Done (p, s)).
  { unfold period_ns, vemu_pm_get_parameter, arr_get, bind, massert, gets.
    destruct (Z.ltb_spec 0 pm_size); [|lia]. rewrite Hf. cbn. rewrite Hk. eexists. reflexivity. }
  destruct Hperiod as [p Hperiod].
  eexists. split; [|split].
  - unfold vemu_increment_cycles, MAX_INSTR_CLASSES, massert, arr_get.
    unfold bind at 1. destruct (Z.ltb_spec (instr_class (instr_info tb)) 4); [|lia].
    erewrite bind_run by reflexivity. cbn beta. rewrite Hc, (znth_map d_of_Z _ _ _ Hn), Ht.
    erewrite bind_run by reflexivity. cbn beta. erewrite bind_run by exact Hperiod. cbn beta.
    erewrite bind_run by reflexivity. cbn beta. rewrite Hcy, d_add_exact by lia. reflexivity.
  - unfold counts. cbn [cyc set_cyc cycle_count active_time pm_array]. rewrite !length_zset.
    split_and!; eauto.
    + apply Forall_zset; [exact Hp|lia].
    + unfold zset. rewrite list_fmap_insert. reflexivity.
  - unfold zset. erewrite zsum_insert by exact Hn'. lia.
Qed.

Definition total_cost (tbs : list vemu_tb_info) : Z := zsum (cost <$> tbs).

Lemma total_cost_nonneg tbs : Forall int_cost tbs -> 0 <= total_cost tbs.
Proof.
  induction 1 as [|tb l (_ & ? & _)]; [cbn; lia|].
  change (total_cost (tb :: l)) with (cost tb + total_cost l). lia.
Qed.

Lemma run_exact tbs : forall ns s, counts ns s -> Forall int_cost tbs ->
  zsum ns + total_cost tbs <= 2 ^ 53 ->
  exists s', mfor tbs vemu_increment_cycles s = Done (tt, s') /\
    counts (fold_left add_cost tbs ns) s' /\ zsum (fold_left add_cost tbs ns) = zsum ns + total_cost tbs.
Proof.
  induction tbs as [|tb tbs IH]; intros ns s Hc Hall Hb.
  - exists s. split; [reflexivity|]. split; [exact Hc|]. change (total_cost []) with 0. cbn [fold_left]. lia.
  - apply Forall_cons in Hall as [Htb Htbs]. pose proof (total_cost_nonneg tbs Htbs).
    change (total_cost (tb :: tbs)) with (cost tb + total_cost tbs) in *.
    destruct (increment_exact ns tb s Hc Htb ltac:(lia)) as (s1 & H1 & Hc1 & Hs1).
    destruct (IH _ s1 Hc1 Htbs ltac:(lia)) as (s' & H2 & Hc2 & Hs2).
    exists s'. cbn [mfor fold_left]. erewrite bind_run by exact H1. split_and!; auto. lia.
Qed.

Lemma get_cycles_counts ns s k n : counts ns s -> zsum ns <= 2 ^ 53 -> znth ns k = Some n ->
  vemu_get_cycles k s = Done (n, s).
Proof.
  intros (Hl & Hp & Hc & _) Hb Hn. destruct (znth_Some _ _ _ Hn) as [Hk Hn'].
  pose proof (zsum_lookup_le _ _ _ Hp Hn'). pose proof (Forall_znth _ _ _ _ Hp Hn) as Hn0. cbn beta in Hn0.
  unfold vemu_get_cycles, MAX_INSTR_CLASSES, massert, arr_get. unfold bind at 1.
  destruct (Z.ltb_spec k 4); [|lia]. erewrite bind_run by reflexivity. cbn beta.
  rewrite Hc, (znth_map d_of_Z _ _ _ Hn). erewrite bind_run by reflexivity. cbn beta.
  unfold defined. rewrite d_to_u64_of_Z by lia. reflexivity.
Qed.

Lemma get_cycles_all_counts ns s : counts ns s -> zsum ns <= 2 ^ 53 ->
  vemu_get_cycles_all_classes s = Done (zsum ns, s).
Proof.
  intros (Hl & Hp & Hc & _) Hb. destruct (list4 ns Hl) as (a & b & c & d & ->).
  repeat match goal with H : Forall _ (_ :: _) |- _ => apply Forall_cons in H as [? H] end.
  unfold zsum in Hb |- *. cbn [foldr] in Hb |- *.
  assert (Hstep : forall acc n i, znth [a; b; c; d] i = Some n -> 0 <= n -> 0 <= acc -> acc + n <= 2 ^ 53 ->
    (let! c0 := gets cyc in let! x := arr_get (cycle_count c0) i in
     defined (d_to_u64 (d_add (d_of_Z acc) x))) s = Done (acc + n, s)).
  { intros acc n i Hi Hn Hacc Hle. erewrite bind_run by reflexivity. cbn beta. unfold arr_get.
    rewrite Hc, (znth_map d_of_Z _ _ _ Hi). erewrite bind_run by reflexivity. cbn beta.
    unfold defined. rewrite d_add_exact, d_to_u64_of_Z by lia. reflexivity. }
  unfold vemu_get_cycles_all_classes, all_classes. cbn [mfold].
  erewrite bind_run by (apply (Hstep 0 a); [reflexivity|lia..]). cbn beta.
  erewrite bind_run by (apply (Hstep _ b); [reflexivity|lia..]). cbn beta.
  erewrite bind_run by (apply (Hstep _ c); [reflexivity|lia..]). cbn beta.
  erewrite bind_run by (apply (Hstep _ d); [reflexivity|lia..]).
  unfold ret. do 2 f_equal. lia.
Qed.

(** C8.  Counting cycles in doubles loses nothing: executing any sequence
    of instructions with integer costs succeeds, every class counter then
    reads as the integer sum of the costs of its instructions, and the
    total reads as the sum of all, as long as the total is at most 2^53. *)
Theorem cycle_counts_exact ns tbs s : counts ns s -> Forall int_cost tbs ->
  zsum ns + total_cost tbs <= 2 ^ 53 ->
  exists s', mfor tbs vemu_increment_cycles s = Done (tt, s') /\
    vemu_get_cycles_all_classes s' = Done (zsum ns + total_cost tbs, s') /\
    forall k n, znth (fold_left add_cost tbs ns) k = Some n -> vemu_get_cycles k s' = Done (n, s').
Proof.
  intros Hc Hall Hb. destruct (run_exact tbs ns s Hc Hall Hb) as (s' & H1 & H2 & H3).
  exists s'. split; [exact H1|]. split.
  - rewrite <- H3. apply get_cycles_all_counts; [exact H2|lia].
  - intros k n Hn. eapply get_cycles_counts; eauto. lia.
Qed.
End Exact.

(** ** Concrete runs *)

(** A clock that advances ten microseconds per reading, up to a bound. *)
Definition demo_clock : VmClock := {| vm_clock_ns := fun n => 10000 * Z.min (Z.of_nat n) 1000 |}.
(** Stand-ins for the C library functions. *)
Definition demo_libm : Libm := {| m_exp := fun _ => d_of_Z 1; m_pow := fun x _ => d_mul (d_mul x x) x |}.
Definition demo_pm : PowerModel := @Power45nm.power45nm demo_libm.

Lemma demo_clock_bound n : 0 <= @vm_clock_ns demo_clock n < 2 ^ 62.
Proof. cbn. lia. Qed.

(** The state a run leaves. *)
Definition final {A S} (d : S) (o : outcome (A * S)) : S := match o with Done (_, s) => s | _ => d end.
Definition result {A S} (o : outcome (A * S)) : option A := match o with Done (a, _) => Some a | _ => None end.

Lemma final_Done {A S} (d : S) (o : outcome (A * S)) a : result o = Some a -> o = Done (a, final d o).
Proof. destruct o as [[b s]| | |]; cbn; congruence. Qed.

Definition demo_tb : vemu_tb_info :=
  {| instr_word := 0xE0000091; instr_info := row 0x009 "MUL"%string CLASS_DEFAULT CYCLES_MUL ERRORS_DEFAULT |}.

Lemma demo_tb_ok : tb_ok demo_tb.
Proof. split; [cbn; unfold CLASS_DEFAULT, MAX_INSTR_CLASSES; lia|]. split; vm_compute; reflexivity. Qed.

(** The parameters of [power_model_data/45nm_nc.txt]. *)
Definition nc_params : list double :=
  [d_of_Z 100000000; d_of_Z 1; d_of_Z 21; d_lit 1 4; d_lit 2486397 6; d_lit 659349 6; d_lit 20213 6;
   d_of_Z (-9210); d_of_Z 890; d_lit 2 1; d_lit 232 3; d_zero; d_of_Z 1; d_of_Z 1].

(** Initialised, nominal parameters set, 100 MULs executed, asleep. *)
Definition demo_s0 : vemu_st := final initial_st (@vemu_init_cycles demo_clock initial_st).
Definition set_params (l : list double) : M vemu_st unit :=
  mfor (imap (fun i v => (Z.of_nat i, v)) l) (fun '(i, v) => @vemu_pm_change_parameter demo_pm 0 i v).
Definition demo_s1 : vemu_st := final initial_st (set_params nc_params demo_s0).
Definition demo_tbs : list vemu_tb_info := replicate 100 demo_tb.
Definition demo_s2 : vemu_st := final initial_st (mfor demo_tbs (@vemu_increment_cycles demo_pm) demo_s1).
Definition demo_s3 : vemu_st := final initial_st (@vemu_sleep_start demo_clock demo_s2).

Section Sequences.
Context {CLK : VmClock} {PM : PowerModel}.

Lemma params_reachable l : forall s s',
  mfor l (fun '(i, v) => vemu_pm_change_parameter 0 i v) s = Done (tt, s') -> rtc cpu_step s s'.
Proof.
  induction l as [|[i v] l IH]; intros s s' H; cbn [mfor] in H; mruns; [reflexivity|].
  destruct r. eapply rtc_l; [eapply step_param; eassumption|]. apply IH. assumption.
Qed.

Lemma execs_reachable tbs : Forall tb_ok tbs -> forall s s', entered_sleep_mode (cyc s) = false ->
  mfor tbs vemu_increment_cycles s = Done (tt, s') -> rtc cpu_step s s'.
Proof.
  induction 1 as [|tb tbs Htb _ IH]; intros s s' Hsl H; cbn [mfor] in H; mruns; [reflexivity|].
  destruct r. eapply rtc_l; [eapply step_exec; eassumption|]. apply IH; [|assumption].
  match goal with Hi : vemu_increment_cycles _ _ = Done _ |- _ =>
    apply increment_run in Hi as (_ & _ & _ & _ & _ & _ & _ & _ & _ & _ & _ & _ & ->) end. exact Hsl.
Qed.
End Sequences.

Lemma demo_reachable : rtc (@cpu_step demo_clock demo_pm) demo_s0 demo_s3.
Proof.
  etransitivity; [eapply (params_reachable (imap (fun i v => (Z.of_nat i, v)) nc_params) _ demo_s1);
    vm_compute; reflexivity|].
  etransitivity; [eapply (execs_reachable demo_tbs _ _ demo_s2); [vm_compute; reflexivity..]|].
  apply rtc_once. apply step_wfi. vm_compute. reflexivity.
  Unshelve. apply Forall_replicate, demo_tb_ok.
Qed.

Lemma wake_conserves_time_witness : exists s', @vemu_active_start demo_clock demo_s3 = Done (tt, s') /\
  vemu_get_act_time_all_classes s' = Done (2000, s') /\ entered_sleep_mode (cyc s') = false /\
  total_sleep_time (cyc s') = last_active_time_vm (cyc s') - last_active_time_vm (cyc demo_s0) - 2000.
Proof.
  exact (@wake_conserves_time demo_clock demo_pm demo_clock_bound demo_s0 demo_s3 2000
    eq_refl demo_reachable eq_refl ltac:(vm_compute; reflexivity) ltac:(lia)).
Defined.

Lemma sleep_time_reading_witness : exists s', @vemu_get_slp_time demo_clock demo_s3 = Done (18000, s').
Proof.
  exact (@sleep_time_reading demo_clock demo_pm demo_clock_bound demo_s0 demo_s3 2000
    eq_refl demo_reachable eq_refl ltac:(vm_compute; reflexivity) ltac:(lia)).
Defined.

Lemma cycle_counts_exact_witness : exists s', mfor demo_tbs (@vemu_increment_cycles demo_pm) demo_s1 = Done (tt, s') /\
  vemu_get_cycles_all_classes s' = Done (200, s').
Proof.
  destruct (@cycle_counts_exact demo_pm [0; 0; 0; 0] demo_tbs demo_s1) as (s' & H1 & H2 & _).
  - split_and!; try reflexivity; [repeat constructor; lia|vm_compute; reflexivity..|].
    exists (d_of_Z 100000000), 100000000. split; vm_compute; reflexivity.
  - apply Forall_replicate. split_and!; vm_compute; congruence.
  - vm_compute. discriminate.
  - exists s'. split; [exact H1|exact H2].
Defined.
