(* ===== verification/ArmDecode.v ===== *)
(** * Instruction decoding: [vemu_arm.c] and the hook in [translate.c]

    [gen_vemu_info] runs at translation time: it fetches the instruction,
    classifies it as ARM, 16-bit Thumb or 32-bit Thumb, and fills the
    translation block's [vemu_tb_info] from the tables. *)
From Stdlib Require Import String.
From stdpp Require Import base list.
From S2P Require Import Prelude Double ArmTable State Power Cycles.
Open Scope Z_scope.

(** ** vemu_arm.c *)

Definition vemu_target_get_all_instr_info (thumb : bool) : M vemu_st (list vemu_instr_info) :=
  gets (if thumb then thumb_table else arm_table).

Definition vemu_target_get_all_instr_size (thumb : bool) : M vemu_st Z :=
  let! t := vemu_target_get_all_instr_info thumb in ret (Z.of_nat (length t)).

(** The opcode of each instruction set: the index into its table. *)
Definition thumb_opcode (instr : Z) : Z :=
  let opcode := Z.land (Z.shiftr instr 12) 0xF in
  Z.lor (Z.shiftl opcode 4) (Z.land (Z.shiftr instr 8) 0xF).
Definition arm_opcode (instr : Z) : Z :=
  let opcode := Z.land (Z.shiftr instr 20) 0xFF in
  Z.lor (Z.shiftl opcode 4) (Z.land (Z.shiftr instr 4) 0xF).

(** [thumb] is 0, 1 or 2; any other value dereferences the null table. *)
Definition vemu_target_decode_instr (instr : Z) (thumb : Z) : M vemu_st vemu_tb_info :=
  let! info :=
    if thumb =? 1 then
      let opcode := thumb_opcode instr in
      massert (opcode <=? 0xff) ;;
      let! t := gets thumb_table in arr_get t opcode
    else if thumb =? 2 then arr_get vemu_thumb2_instr 0
    else if thumb =? 0 then
      let opcode := arm_opcode instr in
      massert (opcode <=? 0xfff) ;;
      let! t := gets arm_table in arr_get t opcode
    else undefined in
  ret {| instr_word := instr; instr_info := info |}.

(** ** translate.c: [gen_vemu_info]

    The instruction fetch is the emulator's code memory: [ld16] and [ld32]
    stand for [arm_lduw_code] and [arm_ldl_code]. *)
Section Fetch.
Variable ld16 ld32 : Z -> Z.

Definition thumb_kind (pc : Z) : Z * Z :=
  let insn := ld16 pc in
  if (Z.shiftr insn 12 =? 0xF) || (Z.shiftr insn 12 =? 0xE) then
    if negb ((Z.land insn (Z.shiftl 1 12) =? 0) || negb (Z.land insn (Z.shiftl 1 11) =? 0)) then
      (Z.lor (u32 (Z.shiftl insn 16)) (ld16 (pc + 2)), 2)
    else (insn, 0)
  else (insn, 1).

(** Returns the [vemu_tb_info] stored in the translation block. *)
Definition gen_vemu_info (thumb : bool) (pc : Z) : M vemu_st vemu_tb_info :=
  let '(insn, thumb_type) := if thumb then thumb_kind pc else (ld32 pc, 0) in
  vemu_target_decode_instr insn thumb_type.

(** [if (dc->tb->vemu.instr_info.errors & VEMU_ERRORS_REPLACE)]: whether
    the translator emits a call to the error helper before the
    instruction. *)
Definition emits_error_hook (tb : vemu_tb_info) : bool :=
  negb (Z.land (if instr_errors (instr_info tb) then 1 else 0) VEMU_ERRORS_REPLACE =? 0).
End Fetch.

(** ** Opcodes index their tables *)

Lemma thumb_opcode_eq instr :
  thumb_opcode instr = (Z.shiftr instr 12) mod 16 * 16 + (Z.shiftr instr 8) mod 16.
Proof.
  unfold thumb_opcode. change 0xF with (Z.ones 4).
  rewrite lor_shift_add by (try apply land_mask_range; lia). rewrite !Z.land_ones by lia. reflexivity.
Qed.

Lemma arm_opcode_eq instr :
  arm_opcode instr = (Z.shiftr instr 20) mod 256 * 16 + (Z.shiftr instr 4) mod 16.
Proof.
  unfold arm_opcode. change 0xF with (Z.ones 4). change 0xFF with (Z.ones 8).
  rewrite lor_shift_add by (try apply land_mask_range; lia). rewrite !Z.land_ones by lia. reflexivity.
Qed.

Lemma thumb_opcode_range instr : 0 <= thumb_opcode instr <= 0xff.
Proof. rewrite thumb_opcode_eq. pose proof (Z.mod_pos_bound (Z.shiftr instr 12) 16). pose proof (Z.mod_pos_bound (Z.shiftr instr 8) 16). lia. Qed.

Lemma arm_opcode_range instr : 0 <= arm_opcode instr <= 0xfff.
Proof. rewrite arm_opcode_eq. pose proof (Z.mod_pos_bound (Z.shiftr instr 20) 256). pose proof (Z.mod_pos_bound (Z.shiftr instr 4) 16). lia. Qed.

(** ** Facts about the tables, by evaluation *)

(** Structural equality of doubles. *)
Definition d_same (x y : double) : bool :=
  match x, y with
  | SpecFloat.S754_zero s, SpecFloat.S754_zero s' => Bool.eqb s s'
  | SpecFloat.S754_infinity s, SpecFloat.S754_infinity s' => Bool.eqb s s'
  | SpecFloat.S754_nan, SpecFloat.S754_nan => true
  | SpecFloat.S754_finite s m e, SpecFloat.S754_finite s' m' e' => Bool.eqb s s' && Pos.eqb m m' && (e =? e')
  | _, _ => false
  end.

Lemma d_same_eq x y : d_same x y = true -> x = y.
Proof.
  destruct x, y; cbn; try discriminate; intros H; repeat (apply andb_prop in H as [H ?]);
    repeat match goal with
    | E : Bool.eqb _ _ = true |- _ => apply Bool.eqb_prop in E
    | E : Pos.eqb _ _ = true |- _ => apply Pos.eqb_eq in E
    | E : (_ =? _) = true |- _ => apply Z.eqb_eq in E
    end; congruence.
Qed.

(** Entry [i] has opcode [i], a class in range, no error flag, and an
    integer cost between 0 and 5. *)
Definition entry_ok (i : nat) (e : vemu_instr_info) : bool :=
  (instr_opcode e =? Z.of_nat i)
  && ((0 <=? instr_class e) && (instr_class e <? MAX_INSTR_CLASSES))
  && negb (instr_errors e)
  && existsb (fun k => d_same (instr_cycles e) (d_of_Z k)) [0; 1; 2; 3; 4; 5].

Definition table_ok (t : list vemu_instr_info) : bool := forallb (uncurry entry_ok) (imap pair t).

(** Both tables of a state, after any reassignment of classes in range. *)
Definition tables_ok (s : vemu_st) : Prop :=
  length (thumb_table s) = 256%nat /\ length (arm_table s) = 4096%nat /\
  table_ok (thumb_table s) = true /\ table_ok (arm_table s) = true.

Lemma initial_tables_ok : tables_ok initial_st.
Proof. split_and!; vm_compute; reflexivity. Qed.

Lemma table_ok_lookup t i e : table_ok t = true -> t !! i = Some e -> entry_ok i e = true.
Proof.
  unfold table_ok. intros Ht He. rewrite forallb_forall in Ht.
  apply (Ht (i, e)), list_elem_of_In, list_elem_of_lookup. exists i. rewrite list_lookup_imap, He. reflexivity.
Qed.

Lemma entry_ok_spec i e w : entry_ok i e = true ->
  let tb := {| instr_word := w; instr_info := e |} in
  instr_opcode e = Z.of_nat i /\ instr_errors e = false /\ tb_ok tb /\ int_cost tb /\ cost tb <= 5.
Proof.
  intros H tb. unfold entry_ok in H. apply andb_prop in H as [H Hc]. apply andb_prop in H as [H He].
  apply andb_prop in H as [Ho Hcl]. apply andb_prop in Hcl as [Hl Hu].
  apply Z.eqb_eq in Ho. apply Z.leb_le in Hl. apply Z.ltb_lt in Hu. apply negb_true_iff in He.
  apply existsb_exists in Hc as (k & Hk & Hs). apply d_same_eq in Hs.
  assert (Hk' : 0 <= k <= 5) by (cbn in Hk; lia).
  assert (Hcost : cost tb = k).
  { unfold cost, tb. cbn [instr_info]. rewrite Hs.
    rewrite d_trunc_val by (apply d_of_Z_nonneg; lia).
    rewrite (proj2 (d_of_Z_spec k ltac:(lia))), Z.div_mul by (apply Z.pow_nonzero; lia). reflexivity. }
  unfold tb_ok, int_cost. rewrite Hcost. cbn [instr_info tb]. rewrite Hs.
  split_and!; try assumption; try lia; [apply d_of_Z_nonneg; lia|reflexivity].
Qed.

(** ** Decoding *)

Lemma decode_entry t op w (s : vemu_st) : table_ok t = true -> 0 <= op < Z.of_nat (length t) ->
  exists e, arr_get t op s = Done (e, s) /\ instr_opcode e = op /\ instr_errors e = false /\
    let tb := {| instr_word := w; instr_info := e |} in tb_ok tb /\ int_cost tb /\ cost tb <= 5.
Proof.
  intros Ht Hop. destruct (znth_lt t op Hop) as [e He]. exists e.
  destruct (znth_Some _ _ _ He) as [_ Hl].
  destruct (entry_ok_spec _ _ w (table_ok_lookup _ _ _ Ht Hl)) as (Ho & Herr & Htb & Hint & Hcost).
  unfold arr_get, defined. rewrite He. split_and!; auto. lia.
Qed.

(** The entry of [vemu_thumb2_instr] is well formed up to its opcode. *)
Lemma thumb2_entry w (s : vemu_st) : exists e, arr_get vemu_thumb2_instr 0 s = Done (e, s) /\
  instr_errors e = false /\ let tb := {| instr_word := w; instr_info := e |} in
  tb_ok tb /\ int_cost tb /\ cost tb <= 5.
Proof.
  eexists. split; [reflexivity|]. split; [reflexivity|]. split_and!; cbn; try (vm_compute; congruence).
  - split; [vm_compute; split; congruence|vm_compute; split; reflexivity].
  - split_and!; vm_compute; congruence.
Qed.

Lemma decode_run instr thumb s : tables_ok s -> thumb = 0 \/ thumb = 1 \/ thumb = 2 ->
  exists tb, vemu_target_decode_instr instr thumb s = Done (tb, s) /\
    instr_word tb = instr /\ tb_ok tb /\ int_cost tb /\ cost tb <= 5 /\ instr_errors (instr_info tb) = false /\
    (thumb = 0 -> instr_opcode (instr_info tb) = arm_opcode instr) /\
    (thumb = 1 -> instr_opcode (instr_info tb) = thumb_opcode instr).
Proof.
  intros (Lt & La & Tt & Ta) Hth. pose proof (thumb_opcode_range instr) as Rt. pose proof (arm_opcode_range instr) as Ra.
  unfold vemu_target_decode_instr. destruct Hth as [->|[->| ->]]; cbn [Z.eqb Pos.eqb].
  - destruct (decode_entry (arm_table s) (arm_opcode instr) instr s Ta ltac:(lia)) as (e & He & Ho & Herr & Hok).
    unfold massert, bind, gets. destruct (Z.leb_spec (arm_opcode instr) 0xfff); [|lia].
    rewrite He. eexists. split; [reflexivity|]. split_and!; try apply Hok; auto. discriminate.
  - destruct (decode_entry (thumb_table s) (thumb_opcode instr) instr s Tt ltac:(lia)) as (e & He & Ho & Herr & Hok).
    unfold massert, bind, gets. destruct (Z.leb_spec (thumb_opcode instr) 0xff); [|lia].
    rewrite He. eexists. split; [reflexivity|]. split_and!; try apply Hok; auto. discriminate.
  - destruct (thumb2_entry instr s) as (e & He & Herr & Hok).
    erewrite bind_run by exact He. eexists. split; [reflexivity|].
    split_and!; try apply Hok; auto; discriminate.
Qed.

(** Fault injection is never armed by the translator: no entry of the
    tables has its error flag set and nothing in the decoder sets it, so for
    every fetched instruction the test that guards the call of the error
    helper is false. *)
Lemma no_error_hook ld16 ld32 thumb pc s : tables_ok s ->
  exists tb, gen_vemu_info ld16 ld32 thumb pc s = Done (tb, s) /\ emits_error_hook tb = false.
Proof.
  intros Hs. unfold gen_vemu_info.
  assert (Hk : exists insn k, (if thumb then thumb_kind ld16 pc else (ld32 pc, 0)) = (insn, k) /\
                 (k = 0 \/ k = 1 \/ k = 2)).
  { destruct thumb; [|eauto]. unfold thumb_kind. destruct (_ || _); [destruct (negb _)|]; eauto 8. }
  destruct Hk as (insn & k & -> & Hk).
  destruct (decode_run insn k s Hs Hk) as (tb & Hd & _ & _ & _ & _ & He & _).
  exists tb. split; [exact Hd|]. unfold emits_error_hook. rewrite He. reflexivity.
Qed.

Lemma no_error_hook_witness : exists tb,
  gen_vemu_info (fun _ => 0xE000) (fun _ => 0) true 0 initial_st = Done (tb, initial_st) /\ emits_error_hook tb = false.
Proof. exact (no_error_hook (fun _ => 0xE000) (fun _ => 0) true 0 initial_st initial_tables_ok). Defined.

Lemma shiftr_div z k : 0 <= k -> Z.shiftr z k = z / 2 ^ k.
Proof. intros. apply Z.shiftr_div_pow2. assumption. Qed.

(**  A 16-bit Thumb unconditional branch (0xE000-0xE7FF) is charged as
    an ARM instruction: the hook classifies it as 32-bit Thumb, finds bit 12
    clear, leaves the type 0 and looks the halfword up in the ARM table at
    index bits 7-4, never in the Thumb table where it is listed as B. *)
Lemma thumb_branch_charged_as_arm ld16 ld32 pc s : tables_ok s -> 0xE000 <= ld16 pc < 0xE800 ->
  exists tb, gen_vemu_info ld16 ld32 true pc s = Done (tb, s) /\
    znth (arm_table s) (Z.shiftr (ld16 pc) 4 mod 16) = Some (instr_info tb) /\
    0xE0 <= thumb_opcode (ld16 pc) < 0xE8.
Proof.
  intros (Lt & La & Tt & Ta) Hi. set (insn := ld16 pc) in *.
  assert (Hn : Z.shiftr insn 12 = 0xE).
  { rewrite shiftr_div by lia. change (2 ^ 12) with 4096. Z.div_mod_to_equations. lia. }
  assert (Hb : Z.land insn (Z.shiftl 1 12) = 0).
  { apply Z.bits_inj'. intros n Hn0. rewrite Z.land_spec, Z.bits_0, Z.shiftl_1_l, Z.pow2_bits_eqb by lia.
    destruct (Z.eqb_spec 12 n) as [<-|]; [|apply andb_false_r].
    rewrite andb_true_r. rewrite Z.testbit_odd, Hn. reflexivity. }
  assert (Hk : thumb_kind ld16 pc = (insn, 0)).
  { unfold thumb_kind. fold insn. rewrite Hn, Hb. reflexivity. }
  assert (Hop : arm_opcode insn = Z.shiftr insn 4 mod 16).
  { rewrite arm_opcode_eq, (shiftr_div insn 20), Z.div_small by lia. reflexivity. }
  unfold gen_vemu_info. rewrite Hk. unfold vemu_target_decode_instr. cbn [Z.eqb].
  pose proof (Z.mod_pos_bound (Z.shiftr insn 4) 16 ltac:(lia)).
  destruct (znth_lt (arm_table s) (arm_opcode insn) ltac:(lia)) as [e He].
  unfold massert, bind, gets, arr_get, defined. destruct (Z.leb_spec (arm_opcode insn) 0xfff); [|lia].
  rewrite He. eexists. split; [reflexivity|]. cbn [instr_info]. rewrite <- Hop. split; [exact He|].
  rewrite thumb_opcode_eq, Hn, shiftr_div by lia. change (2 ^ 8) with 256.
  change (0xE mod 16 * 16) with 0xE0. Z.div_mod_to_equations. lia.
Qed.

Lemma thumb_branch_charged_as_arm_witness : exists tb,
  gen_vemu_info (fun _ => 0xE7FE) (fun _ => 0) true 0x8000 initial_st = Done (tb, initial_st) /\
  znth (arm_table initial_st) 15 = Some (instr_info tb) /\ 0xE0 <= thumb_opcode 0xE7FE < 0xE8.
Proof.
  exact (thumb_branch_charged_as_arm (fun _ => 0xE7FE) (fun _ => 0) 0x8000 initial_st initial_tables_ok ltac:(lia)).
Defined.
