(* ===== verification/Energy.v ===== *)
(** * Energy accounting: [vemu_energy.c]

    Energy is integrated lazily: every query multiplies the time since the
    last checkpoint of a class by the current power of the model and adds it
    to the class's energy. *)
From stdpp Require Import base list relations.
From S2P Require Import Prelude Double ArmTable State Power Cycles.
Open Scope Z_scope.

Section Ops.
Context {CLK : VmClock} {PM : PowerModel}.

Definition vemu_get_act_energy (class : Z) : M vemu_st Z :=
  massert (class <? MAX_INSTR_CLASSES) ;;
  let! curr_time := vemu_get_act_time class in
  let! e := gets eng in
  let! ckpt := arr_get (act_time_ckpt e) class in
  let interval := u64 (curr_time - ckpt) in
  let! pm := gets pm_array in
  let energy := d_mul (d_of_Z interval) (pm_act_power pm class) in
  let! a := arr_get (act_energy e) class in
  modify (set_eng {|
    act_time_ckpt := zset (act_time_ckpt e) class curr_time;
    slp_time_ckpt := slp_time_ckpt e;
    act_energy := zset (act_energy e) class (d_add a energy);
    slp_energy := slp_energy e |}) ;;
  defined (d_to_u64 (d_add a energy)).

Definition vemu_get_act_energy_all_classes : M vemu_st Z :=
  mfold all_classes (fun sum i => let! e := vemu_get_act_energy i in ret (u64 (sum + e))) 0.

Definition vemu_get_slp_energy : M vemu_st Z :=
  let! curr_slp_time := vemu_get_slp_time in
  let! e := gets eng in
  let interval := s64 (curr_slp_time - slp_time_ckpt e) in
  let! pm := gets pm_array in
  let energy := d_mul (d_of_Z interval) (pm_slp_power pm) in
  if interval <? 0 then defined (d_to_u64 (slp_energy e))
  else
    modify (set_eng {|
      act_time_ckpt := act_time_ckpt e;
      slp_time_ckpt := curr_slp_time;
      act_energy := act_energy e;
      slp_energy := d_add (slp_energy e) energy |}) ;;
    defined (d_to_u64 (d_add (slp_energy e) energy)).

Definition vemu_energy_init : M vemu_st unit :=
  let! e := gets eng in
  modify (set_eng {|
    act_time_ckpt := fold_left (fun a i => zset a i 0) all_classes (act_time_ckpt e);
    slp_time_ckpt := 0;
    act_energy := fold_left (fun a i => zset a i d_zero) all_classes (act_energy e);
    slp_energy := d_zero |}).

Definition vemu_energy_change_parameter (cc pp : Z) (vv : double) : M vemu_st unit :=
  vemu_get_act_energy_all_classes ;;
  vemu_get_slp_energy ;;
  vemu_pm_change_parameter cc pp vv.
End Ops.

(** ** What a query charges *)

Definition energy_wf (e : energy_st) : Prop :=
  length (act_time_ckpt e) = 4%nat /\ length (act_energy e) = 4%nat.

Section Facts.
Context {CLK : VmClock} {PM : PowerModel}.

(** The energy of class [k] once the time up to [t] is charged at the
    power of the parameters [pm]. *)
Definition charged (pm : list double) (k t ckpt : Z) (a : double) : double :=
  d_add a (d_mul (d_of_Z (u64 (t - ckpt))) (pm_act_power pm k)).

(** The class has a time [t] to charge and the charged energy casts to
    the integer [z]. *)
Record chargeable (s : vemu_st) (k t ckpt : Z) (a : double) (z : Z) : Prop := {
  ch_class : 0 <= k < 4;
  ch_time : exists x, znth (active_time (cyc s)) k = Some x /\ d_to_u64 x = Some t;
  ch_ckpt : znth (act_time_ckpt (eng s)) k = Some ckpt;
  ch_energy : znth (act_energy (eng s)) k = Some a;
  ch_cast : d_to_u64 (charged (pm_array s) k t ckpt a) = Some z
}.

Definition charge (e : energy_st) (k t : Z) (a : double) : energy_st :=
  {| act_time_ckpt := zset (act_time_ckpt e) k t; slp_time_ckpt := slp_time_ckpt e;
     act_energy := zset (act_energy e) k a; slp_energy := slp_energy e |}.

Lemma get_act_time_run s k x t : 0 <= k < 4 -> znth (active_time (cyc s)) k = Some x ->
  d_to_u64 x = Some t -> vemu_get_act_time k s = Done (t, s).
Proof.
  intros Hk Hx Ht. unfold vemu_get_act_time, massert, MAX_INSTR_CLASSES. unfold bind at 1.
  destruct (Z.ltb_spec k 4); [|lia]. unfold bind, gets, arr_get. rewrite Hx. cbn. rewrite Ht. reflexivity.
Qed.

Lemma get_act_energy_run s k t ckpt a z : chargeable s k t ckpt a z ->
  vemu_get_act_energy k s =
    Done (z, set_eng (charge (eng s) k t (charged (pm_array s) k t ckpt a)) s).
Proof.
  intros [Hk (x & Hx & Ht) Hc Ha Hz]. unfold vemu_get_act_energy, massert, MAX_INSTR_CLASSES.
  unfold bind at 1. destruct (Z.ltb_spec k 4); [|lia].
  erewrite bind_run by (eapply get_act_time_run; eassumption). cbn beta.
  erewrite bind_run by reflexivity. cbn beta. unfold arr_get. rewrite Hc, Ha.
  do 4 (erewrite bind_run by reflexivity; cbn beta zeta).
  unfold charged in *. rewrite Hz. reflexivity.
Qed.

(** Charging one class leaves another class chargeable as before. *)
Lemma chargeable_other s k t a' k' t' ckpt' a z : 0 <= k -> k <> k' ->
  chargeable s k' t' ckpt' a z -> chargeable (set_eng (charge (eng s) k t a') s) k' t' ckpt' a z.
Proof.
  intros Hk Hne [H1 H2 H3 H4 H5]. split; try assumption; cbn; rewrite znth_zset_ne; auto.
Qed.

Lemma act_energy_all_run s (t c : Z -> Z) (a : Z -> double) (z : Z -> Z) :
  (forall k, 0 <= k < 4 -> chargeable s k (t k) (c k) (a k) (z k)) ->
  let ch k := charged (pm_array s) k (t k) (c k) (a k) in
  let e k e0 := charge e0 k (t k) (ch k) in
  vemu_get_act_energy_all_classes s =
    Done (u64 (z 0 + z 1 + z 2 + z 3), set_eng (e 3 (e 2 (e 1 (e 0 (eng s))))) s).
Proof.
  intros Hch ch e. unfold vemu_get_act_energy_all_classes, all_classes. cbn [mfold].
  assert (Hstep : forall k acc e0, 0 <= k < 4 -> chargeable (set_eng e0 s) k (t k) (c k) (a k) (z k) ->
    (let! x := vemu_get_act_energy k in ret (u64 (acc + x))) (set_eng e0 s)
      = Done (u64 (acc + z k), set_eng (e k e0) s)).
  { intros k acc e0 Hk Hc. erewrite bind_run by (apply get_act_energy_run; exact Hc). reflexivity. }
  assert (H0 : chargeable (set_eng (eng s) s) 0 (t 0) (c 0) (a 0) (z 0)).
  { destruct (Hch 0 ltac:(lia)) as [? ? ? ? ?]. split; assumption. }
  replace s with (set_eng (eng s) s) at 1 by (destruct s; reflexivity).
  erewrite bind_run by (apply (Hstep 0); [lia|exact H0]). cbn beta.
  erewrite bind_run by (apply (Hstep 1); [lia|];
    apply (chargeable_other s 0); [lia..|]; apply Hch; lia). cbn beta.
  erewrite bind_run by (apply (Hstep 2); [lia|];
    apply (chargeable_other (set_eng (e 0 (eng s)) s) 1); [lia..|];
    apply (chargeable_other s 0); [lia..|]; apply Hch; lia). cbn beta.
  erewrite bind_run by (apply (Hstep 3); [lia|];
    apply (chargeable_other (set_eng (e 1 (e 0 (eng s))) s) 2); [lia..|];
    apply (chargeable_other (set_eng (e 0 (eng s)) s) 1); [lia..|];
    apply (chargeable_other s 0); [lia..|]; apply Hch; lia).
  unfold ret. do 2 f_equal.
  change (u64 (u64 (u64 (u64 (0 + z 0) + z 1) + z 2) + z 3) = u64 (z 0 + z 1 + z 2 + z 3)).
  change (u64 (u64 (u64 (0 + z 0) + z 1) + z 2) + z 3 ≡64 z 0 + z 1 + z 2 + z 3).
  rewrite !u64_eq64_id. reflexivity.
Qed.

(** The sleep time of a state and the clock readings it takes. *)
Definition slp_time_of (s : vemu_st) : option (Z * nat) :=
  let c := cyc s in
  if entered_sleep_mode c then
    match sadd64 (total_sleep_time c) (s64 (u64 (vm_clock_ns (clock_reads s)) - last_sleep_time c)) with
    | Some r => Some (Z.max 0 r, S (clock_reads s))
    | None => None
    end
  else Some (Z.max 0 (total_sleep_time c), clock_reads s).

Lemma get_slp_time_run s : vemu_get_slp_time s =
  match slp_time_of s with Some (t, n) => Done (t, set_clock_reads n s) | None => Undefined end.
Proof.
  unfold vemu_get_slp_time, slp_time_of. erewrite bind_run by reflexivity. cbn beta.
  destruct (entered_sleep_mode (cyc s)).
  - unfold bind, qemu_get_clock_ns, defined. destruct (sadd64 _ _) as [r|]; [|reflexivity]. cbn [ret].
    unfold ret. destruct (Z.ltb_spec r 0); do 2 f_equal; lia.
  - unfold bind, ret. replace (set_clock_reads (clock_reads s) s) with s by (destruct s; reflexivity).
    destruct (Z.ltb_spec (total_sleep_time (cyc s)) 0); do 2 f_equal; lia.
Qed.

Lemma slp_energy_run s t r z : slp_time_of s = Some (t, r) -> 0 <= s64 (t - slp_time_ckpt (eng s)) ->
  let slp := d_add (slp_energy (eng s)) (d_mul (d_of_Z (s64 (t - slp_time_ckpt (eng s)))) (pm_slp_power (pm_array s))) in
  d_to_u64 slp = Some z ->
  vemu_get_slp_energy s = Done (z, set_eng {| act_time_ckpt := act_time_ckpt (eng s); slp_time_ckpt := t;
    act_energy := act_energy (eng s); slp_energy := slp |} (set_clock_reads r s)).
Proof.
  intros Ht Hp slp Hz. unfold vemu_get_slp_energy.
  erewrite bind_run by (rewrite get_slp_time_run, Ht; reflexivity). cbn beta.
  do 2 (erewrite bind_run by reflexivity; cbn beta zeta).
  change (slp_time_ckpt (eng (set_clock_reads r s))) with (slp_time_ckpt (eng s)).
  destruct (Z.ltb_spec (s64 (t - slp_time_ckpt (eng s))) 0); [lia|].
  erewrite bind_run by reflexivity. cbn beta.
  change (slp_energy (eng (set_clock_reads r s))) with (slp_energy (eng s)).
  change (pm_array (set_clock_reads r s)) with (pm_array s).
  fold slp. unfold defined. rewrite Hz. reflexivity.
Qed.
(** Charging no time changes nothing. *)
Lemma charged_same pm k t a : d_nonneg (pm_act_power pm k) -> d_nonneg a -> charged pm k t t a = a.
Proof.
  intros Hp Ha. unfold charged. rewrite Z.sub_diag. change (d_of_Z (u64 0)) with d_zero.
  rewrite d_mul_zero_l by exact Hp. apply d_add_zero_r. exact Ha.
Qed.

Lemma charge_lookup e k t a : energy_wf e -> 0 <= k < 4 ->
  znth (act_time_ckpt (charge e k t a)) k = Some t /\ znth (act_energy (charge e k t a)) k = Some a /\
  energy_wf (charge e k t a).
Proof.
  intros [L1 L2] Hk. cbn. rewrite !znth_zset_eq by lia. unfold energy_wf. cbn. rewrite !length_zset. auto.
Qed.

Lemma charge_lookup_ne e k t a k' : 0 <= k -> k <> k' ->
  znth (act_time_ckpt (charge e k t a)) k' = znth (act_time_ckpt e) k' /\
  znth (act_energy (charge e k t a)) k' = znth (act_energy e) k'.
Proof. intros Hk Hne. cbn. rewrite !znth_zset_ne by auto. auto. Qed.

(** Charging the four classes in order. *)
Lemma charge_all_lookup e0 (t : Z -> Z) (ch : Z -> double) : energy_wf e0 ->
  let e k e1 := charge e1 k (t k) (ch k) in
  let e' := e 3 (e 2 (e 1 (e 0 e0))) in
  energy_wf e' /\ forall k, 0 <= k < 4 ->
    znth (act_time_ckpt e') k = Some (t k) /\ znth (act_energy e') k = Some (ch k).
Proof.
  intros Hwf e e'.
  destruct (charge_lookup e0 0 (t 0) (ch 0) Hwf ltac:(lia)) as (A0 & B0 & W0).
  destruct (charge_lookup _ 1 (t 1) (ch 1) W0 ltac:(lia)) as (A1 & B1 & W1).
  destruct (charge_lookup _ 2 (t 2) (ch 2) W1 ltac:(lia)) as (A2 & B2 & W2).
  destruct (charge_lookup _ 3 (t 3) (ch 3) W2 ltac:(lia)) as (A3 & B3 & W3).
  split; [exact W3|]. intros k Hk. unfold e', e.
  assert (k = 0 \/ k = 1 \/ k = 2 \/ k = 3) as [->|[->|[->| ->]]] by lia;
    repeat match goal with
    | |- context [znth (act_time_ckpt (charge ?x ?i ?u ?v)) ?j] =>
        assert_fails (constr_eq i j);
        destruct (charge_lookup_ne x i u v j ltac:(lia) ltac:(lia)) as [-> ->]
    end; auto.
Qed.
End Facts.

Section Claims.
Context {CLK : VmClock} {PM : PowerModel}.

(** A parameter index of the model, with the array of the model's size. *)
Definition param_ok (s : vemu_st) (pp : Z) : Prop :=
  0 <= pp < pm_size /\ Z.of_nat (length (pm_array s)) = pm_size.

Lemma change_parameter_run s cc pp v : param_ok s pp ->
  vemu_pm_change_parameter cc pp v s = Done (tt, set_pm_array (zset (pm_array s) pp v) s).
Proof.
  intros [Hp Hl]. unfold vemu_pm_change_parameter, massert. unfold bind at 1.
  destruct (Z.ltb_spec pp pm_size); [|lia]. erewrite bind_run by reflexivity. cbn beta.
  unfold in_bounds. destruct (Z.leb_spec 0 pp); [|lia].
  destruct (Z.ltb_spec pp (Z.of_nat (length (pm_array s)))); [|lia]. reflexivity.
Qed.

(** C5.  Changing a power-model parameter through the monitor first
    charges all elapsed time: afterwards every class's energy is the old
    energy plus the time since its checkpoint at the power of the old
    parameters, the checkpoints are at the current times, the sleep energy
    likewise, and only then the parameter has its new value. *)
Theorem change_charges_old_power cc pp v s (t c : Z -> Z) (a : Z -> double) (z : Z -> Z) ts n zs :
  energy_wf (eng s) -> param_ok s pp ->
  (forall k, 0 <= k < 4 -> chargeable s k (t k) (c k) (a k) (z k)) ->
  slp_time_of s = Some (ts, n) -> 0 <= s64 (ts - slp_time_ckpt (eng s)) ->
  let slp := d_add (slp_energy (eng s))
               (d_mul (d_of_Z (s64 (ts - slp_time_ckpt (eng s)))) (pm_slp_power (pm_array s))) in
  d_to_u64 slp = Some zs ->
  exists s', vemu_energy_change_parameter cc pp v s = Done (tt, s') /\
    pm_array s' = zset (pm_array s) pp v /\ cyc s' = cyc s /\
    (forall k, 0 <= k < 4 -> znth (act_energy (eng s')) k = Some (charged (pm_array s) k (t k) (c k) (a k)) /\
                             znth (act_time_ckpt (eng s')) k = Some (t k)) /\
    slp_energy (eng s') = slp /\ slp_time_ckpt (eng s') = ts.
Proof.
  intros Hwf Hpp Hch Hs Hpos slp Hz. unfold vemu_energy_change_parameter.
  erewrite bind_run by (apply act_energy_all_run; exact Hch). cbn beta.
  match goal with |- context [set_eng ?x s] => set (e' := x) end.
  destruct (charge_all_lookup (eng s) t (fun k => charged (pm_array s) k (t k) (c k) (a k)) Hwf) as [_ Hl].
  fold e' in Hl.
  assert (Hslp : exists s1, vemu_get_slp_energy (set_eng e' s) = Done (zs, s1) /\
    pm_array s1 = pm_array s /\ cyc s1 = cyc s /\
    act_energy (eng s1) = act_energy e' /\ act_time_ckpt (eng s1) = act_time_ckpt e' /\
    slp_energy (eng s1) = slp /\ slp_time_ckpt (eng s1) = ts).
  { eexists. split; [apply (slp_energy_run (set_eng e' s) ts n); assumption|]. split_and!; reflexivity. }
  destruct Hslp as (s1 & Hr & Hpm & Hc & Ha & Hk & He & Ht).
  erewrite bind_run by exact Hr. cbn beta.
  eexists. split; [apply change_parameter_run; unfold param_ok in *; rewrite Hpm; exact Hpp|].
  cbn. rewrite Hpm. split_and!; try assumption; try reflexivity.
  intros k Hkr. rewrite Ha, Hk. destruct (Hl k Hkr). auto.
Qed.

(**  Querying is idempotent: a second query of a class's energy with
    no time in between returns the same number and leaves every global
    variable as it was, provided the model's power is a non-negative
    number. *)
Lemma act_energy_idempotent s k t c a z : chargeable s k t c a z ->
  d_nonneg (pm_act_power (pm_array s) k) -> d_nonneg (charged (pm_array s) k t c a) ->
  exists s', vemu_get_act_energy k s = Done (z, s') /\ vemu_get_act_energy k s' = Done (z, s').
Proof.
  intros Hch Hp Hn. eexists. split; [apply get_act_energy_run; exact Hch|].
  set (a' := charged (pm_array s) k t c a) in *.
  assert (Hz : charged (pm_array s) k t t a' = a').
  { apply charged_same; assumption. }
  destruct Hch as [Hk Htm Hc Ha Hcast].
  apply znth_Some in Hc as [Lc _]. apply znth_Some in Ha as [La _].
  assert (Hch' : chargeable (set_eng (charge (eng s) k t a') s) k t t a' z).
  { split; cbn; try assumption; try (rewrite znth_zset_eq; [reflexivity|lia]).
    rewrite Hz. exact Hcast. }
  rewrite (get_act_energy_run _ _ _ _ _ _ Hch'). cbn [pm_array set_eng eng]. rewrite Hz.
  do 2 f_equal. unfold set_eng, charge. cbn. do 2 f_equal; apply zset_id; apply znth_zset_eq; lia.
Qed.

(** Energy never decreases: a class energy that read as [z0] reads as
    at least [z0] at the next query, for any elapsed time and any model
    whose power is a non-negative number. *)
Lemma act_energy_monotone s k t c a z z0 : chargeable s k t c a z ->
  d_nonneg a -> d_nonneg (pm_act_power (pm_array s) k) -> d_to_u64 a = Some z0 ->
  exists s', vemu_get_act_energy k s = Done (z, s') /\ z0 <= z.
Proof.
  intros Hch Ha Hp Hz0. eexists. split; [apply get_act_energy_run; exact Hch|].
  destruct Hch as [_ _ _ _ Hcast]. unfold charged in Hcast.
  assert (Hi : d_nonneg (d_of_Z (u64 (t - c)))) by (apply d_of_Z_u64_nonneg, u64_range).
  destruct (d_add_finite a _ z Ha (d_mul_pos _ _ Hi Hp) Hcast) as [Hm Hs].
  eapply d_to_u64_mono; [| |apply (d_add_ge a _ Ha Hm Hs)|exact Hz0|exact Hcast]; assumption.
Qed.
End Claims.

(** ** Concrete runs *)

(** The state after 100 MULs at 100 MHz: 2000 ns of class 0 to charge. *)
Definition demo_ch (k : Z) : Z := if k =? 0 then 2000 else 0.
Definition demo_z (k : Z) : Z :=
  match d_to_u64 (@charged demo_pm (pm_array demo_s2) k (demo_ch k) 0 d_zero) with Some z => z | None => 0 end.

Lemma demo_chargeable k : 0 <= k < 4 -> @chargeable demo_pm demo_s2 k (demo_ch k) 0 d_zero (demo_z k).
Proof.
  intros Hk. assert (k = 0 \/ k = 1 \/ k = 2 \/ k = 3) as [->|[->|[->| ->]]] by lia;
    (split; [lia|eexists; split; [vm_compute; reflexivity|vm_compute; reflexivity]|vm_compute; reflexivity..]).
Qed.

Lemma change_charges_old_power_witness : exists s',
  @vemu_energy_change_parameter demo_clock demo_pm 0 1 (d_of_Z 1) demo_s2 = Done (tt, s') /\
  znth (act_energy (eng s')) 0 = Some (@charged demo_pm (pm_array demo_s2) 0 2000 0 d_zero).
Proof.
  destruct (@change_charges_old_power demo_clock demo_pm 0 1 (d_of_Z 1) demo_s2 demo_ch (fun _ => 0) (fun _ => d_zero)
    demo_z 0 1%nat 0) as (s' & H1 & _ & _ & H2 & _).
  - split; vm_compute; reflexivity.
  - split; [vm_compute; split; congruence|vm_compute; reflexivity].
  - exact demo_chargeable.
  - vm_compute. reflexivity.
  - vm_compute. congruence.
  - vm_compute. reflexivity.
  - exists s'. split; [exact H1|]. exact (proj1 (H2 0 ltac:(lia))).
Defined.

Lemma act_energy_idempotent_witness : exists s',
  @vemu_get_act_energy demo_pm 0 demo_s2 = Done (demo_z 0, s') /\ @vemu_get_act_energy demo_pm 0 s' = Done (demo_z 0, s').
Proof.
  apply (@act_energy_idempotent demo_pm demo_s2 0 2000 0 d_zero (demo_z 0)).
  - exact (demo_chargeable 0 ltac:(lia)).
  - vm_compute. auto.
  - vm_compute. auto.
Defined.

Lemma act_energy_monotone_witness : exists s',
  @vemu_get_act_energy demo_pm 0 demo_s2 = Done (demo_z 0, s') /\ 0 <= demo_z 0.
Proof.
  apply (@act_energy_monotone demo_pm demo_s2 0 2000 0 d_zero (demo_z 0) 0).
  - exact (demo_chargeable 0 ltac:(lia)).
  - reflexivity.
  - vm_compute. auto.
  - reflexivity.
Defined.
