(* ===== verification/UserIo.v ===== *)
(** * User input and output: [vemu_user_io.c]

    The configuration file gives, on its first line, the classes (their
    index, name and power-model parameters) and, on later lines, the
    instructions of each class; the monitor changes a parameter and reports
    times and energies.  QEMU's JSON objects are values of [qobject]; the
    JSON reader and the C library's number conversions are parameters. *)
From Stdlib Require Import String Ascii.
From stdpp Require Import base list.
From S2P Require Import Prelude Double ArmTable State Power Cycles ArmDecode Energy.
Open Scope Z_scope.

(** A dictionary is listed in the order [qdict_first]/[qdict_next] visit it. *)
Inductive qobject : Type :=
| QInt (z : Z)
| QString (s : string)
| QList (l : list qobject)
| QDict (d : list (string * qobject))
| QNull.

Definition qdict : Type := list (string * qobject).
Definition dict_get (d : qdict) (k : string) : option qobject :=
  snd <$> List.find (fun e => String.eqb (fst e) k) d.
Definition dict_haskey (d : qdict) (k : string) : bool :=
  match dict_get d k with Some _ => true | None => false end.

(** Conversions of the wrong type give a null pointer that the callers
    dereference; the checked accessors assert. *)
Definition to_qdict (o : qobject) : M vemu_st qdict := match o with QDict d => ret d | _ => undefined end.
Definition to_qlist (o : qobject) : M vemu_st (list qobject) := match o with QList l => ret l | _ => undefined end.
Definition to_qstring (o : qobject) : M vemu_st string := match o with QString s => ret s | _ => undefined end.
Definition dict_get_int (d : qdict) (k : string) : M vemu_st Z :=
  match dict_get d k with Some (QInt z) => ret z | _ => fun _ => AssertFailed end.
Definition dict_get_str (d : qdict) (k : string) : M vemu_st string :=
  match dict_get d k with Some (QString s) => ret s | _ => fun _ => AssertFailed end.

(** [qobject_from_json] and [atoi], [atof], [strtol] and [strtod]. *)
Class CInput := {
  qobject_from_json : string -> option qobject;
  c_atoi : string -> Z;
  c_atof : string -> double;
  c_strtol : string -> Z;
  c_strtod : string -> double
}.

(** A [do ... while] over the entries of a dictionary dereferences its first
    entry. *)
Definition do_entries (d : qdict) (body : string * qobject -> M vemu_st unit) : M vemu_st unit :=
  match d with [] => undefined | _ => mfor d body end.

Section Ops.
Context {CLK : VmClock} {PM : PowerModel} {CI : CInput}.

(** The [power_param] list of one class; [idx] is passed as [uint8_t]. *)
Fixpoint set_power_params (class_idx idx : Z) (l : list qobject) : M vemu_st unit :=
  match l with
  | [] => ret tt
  | o :: l' =>
      let! entry := to_qstring o in
      vemu_pm_change_parameter class_idx (u8 idx) (c_atof entry) ;;
      set_power_params class_idx (idx + 1) l'
  end.

Definition vemu_parse_pm_parameters (class : qdict) (class_idx : string) : M vemu_st unit :=
  let class_idx_int := u8 (c_atoi class_idx) in
  do_entries class (fun e =>
    let! pdict := to_qdict (snd e) in
    match dict_get pdict "power_param" with
    | Some params => let! plist := to_qlist params in set_power_params class_idx_int 0 plist
    | None => ret tt
    end).

(** The index of the class called [name], an [int], -1 if there is none:
    the search loop. *)
Fixpoint find_class (d : qdict) (name : string) : M vemu_st Z :=
  match d with
  | [] => ret (-1)
  | e :: d' =>
      let! pdict := to_qdict (snd e) in
      let! idx := dict_get_int pdict "idx" in
      let! str := dict_get_str pdict "class_name" in
      if String.eqb str name then ret (s32 idx) else find_class d' name
  end.

(** [all_instr[i].class = idx] for the instructions called [instr]; [class]
    is a [uint8_t]. *)
Definition assign_class (idx : Z) (instr : string) (e : vemu_instr_info) : vemu_instr_info :=
  if String.eqb (instr_name e) instr then
    {| instr_opcode := instr_opcode e; instr_name := instr_name e; instr_class := u8 idx;
       instr_cycles := instr_cycles e; instr_errors := instr_errors e |}
  else e.

Definition vemu_parse_instr_class (class_info : qdict) (class_name instr : string) : M vemu_st unit :=
  let! idx := match class_info with [] => undefined | _ => find_class class_info class_name end in
  if negb (idx =? -1) then
    modify (fun s => set_tables (thumb_table s) (assign_class idx instr <$> arm_table s) s) ;;
    modify (fun s => set_tables (assign_class idx instr <$> thumb_table s) (arm_table s) s)
  else ret tt.

(** The instruction names of one class. *)
Definition parse_instrs (class_info : qdict) (class : string) (insns : list qobject) : M vemu_st unit :=
  mfor insns (fun o => let! insn := to_qstring o in vemu_parse_instr_class class_info class insn).

(** One line of the file after the first.  The error and register lines are
    walked through without effect. *)
Definition parse_line (class_info : qdict) (line : string) : M vemu_st unit :=
  match qobject_from_json line with
  | None => ret tt
  | Some qobj =>
      let! d := to_qdict qobj in
      if dict_haskey d "y" then
        do_entries d (fun e => let! insn_list := to_qlist (snd e) in ret tt)
      else if dict_haskey d "start_pc" && dict_haskey d "end_pc" then ret tt
      else if dict_haskey d "start_icount" && dict_haskey d "end_icount" then ret tt
      else if dict_haskey d "error_regs" then ret tt
      else if dict_haskey d "mem_errors" then ret tt
      else
        match d with
        | [] => undefined
        | e :: _ =>
            vemu_parse_pm_parameters class_info (fst e) ;;
            do_entries d (fun e => let! insn_list := to_qlist (snd e) in parse_instrs class_info (fst e) insn_list)
        end
  end.

(** The file: the pieces [fgets] returns and whether the last ends in a
    newline.  [feof] holds only after a read hits the end, so after a final
    newline the loop runs once more, the read fails and the buffer still
    holds the last line. *)
Definition vemu_parse_input_file (file : option (list string * bool)) : M vemu_st unit :=
  match file with
  | None => mexit 0
  | Some ([], _) => undefined
  | Some (first :: lines, final_newline) =>
      match qobject_from_json first with
      | Some qobj =>
          match qobj with
          | QDict class_info =>
              massert (0 <? Z.of_nat (length class_info)) ;;
              mfor lines (parse_line class_info) ;;
              if final_newline then parse_line class_info (List.last lines first) else ret tt
          | _ => fun _ => AssertFailed
          end
      | None => undefined
      end
  end.

Definition vemu_init (file : option (list string * bool)) : M vemu_st unit :=
  vemu_parse_input_file file ;; vemu_init_cycles.

(** ** The monitor commands *)

(** [memcpy(cc, c+1, strlen(c)-2)] into [char cc[4096]]; [strlen(c)-2] wraps
    around for a shorter string. *)
Definition unquote (c : string) : M vemu_st string :=
  let n := Z.of_nat (String.length c) in
  if (2 <=? n) && (n - 2 <? 4096) then ret (substring 1 (Z.to_nat (n - 2)) c) else undefined.

Definition vemu_do_change_model_param (q : qdict) : M vemu_st Z :=
  let! c := dict_get_str q "c" in
  let! p := dict_get_str q "p" in
  let! v := dict_get_str q "v" in
  let! cc := unquote c in
  let! pp := unquote p in
  let! vv := unquote v in
  vemu_energy_change_parameter (u8 (c_strtol cc)) (u8 (c_strtol pp)) (c_strtod vv) ;;
  ret 0.

(** An entry [{ 'TIME_TYPE' : 'ACT', 'value' : n }]; the value is printed
    with [PRId64] and read back as a signed integer. *)
Definition info_entry (key kind ty : string) (v : Z) : string * qobject :=
  (key, QDict [(kind, QString ty); ("value"%string, QInt (s64 v))]).

Definition vemu_do_info_time : M vemu_st qobject :=
  let! act_time := vemu_get_act_time_all_classes in
  let! slp_time := vemu_get_slp_time in
  ret (QDict [info_entry "1" "TIME_TYPE" "ACT" act_time; info_entry "2" "TIME_TYPE" "SLP" slp_time]).

Definition vemu_do_info_energy : M vemu_st qobject :=
  let! act_energy := vemu_get_act_energy_all_classes in
  let! slp_energy := vemu_get_slp_energy in
  ret (QDict [info_entry "1" "ENERGY_TYPE" "ACT" act_energy; info_entry "2" "ENERGY_TYPE" "SLP" slp_energy]).

Definition vemu_do_info_all : M vemu_st qobject :=
  let! act_energy := vemu_get_act_energy_all_classes in
  let! slp_energy := vemu_get_slp_energy in
  let! act_time := vemu_get_act_time_all_classes in
  let! slp_time := vemu_get_slp_time in
  ret (QDict [info_entry "1" "ENERGY_TYPE" "ACT" act_energy; info_entry "2" "ENERGY_TYPE" "SLP" slp_energy;
              info_entry "3" "TIME_TYPE" "ACT" act_time; info_entry "4" "TIME_TYPE" "SLP" slp_time]).
End Ops.

(** ** The effect of a line *)

Section Effects.
Context {CLK : VmClock} {PM : PowerModel} {CI : CInput}.

(** A list of parameter assignments and a list of class assignments. *)
Definition effect : Type := list (Z * double) * list (Z * string).

Definition set_all (l : list (Z * double)) (a : list double) : list double :=
  fold_left (fun a '(i, v) => zset a i v) l a.
Definition assign_all (l : list (Z * string)) (e : vemu_instr_info) : vemu_instr_info :=
  fold_left (fun e '(idx, instr) => assign_class idx instr e) l e.
Definition apply_effect (f : effect) (s : vemu_st) : vemu_st :=
  set_tables (assign_all (snd f) <$> thumb_table s) (assign_all (snd f) <$> arm_table s)
    (set_pm_array (set_all (fst f) (pm_array s)) s).

Lemma set_all_length l : forall a, length (set_all l a) = length a.
Proof. induction l as [|[i v] l IH]; intros a; [reflexivity|]. cbn. rewrite IH. apply length_zset. Qed.

Lemma apply_nil s : apply_effect ([], []) s = s.
Proof. destruct s. unfold apply_effect. cbn. rewrite !list_fmap_id. reflexivity. Qed.

Lemma assign_all_app l k (t : list vemu_instr_info) : assign_all (l ++ k) <$> t = assign_all k <$> (assign_all l <$> t).
Proof.
  rewrite <- list_fmap_compose. apply list_fmap_ext. intros i x _. unfold assign_all. apply fold_left_app.
Qed.

Lemma apply_app f g s : apply_effect (fst f ++ fst g, snd f ++ snd g) s = apply_effect g (apply_effect f s).
Proof.
  unfold apply_effect. cbn [fst snd]. rewrite !assign_all_app. unfold set_all. rewrite fold_left_app. reflexivity.
Qed.

(** Re-running assignments that were just run changes nothing. *)
Lemma assign_same idx instr e e' : instr_opcode e = instr_opcode e' -> instr_name e = instr_name e' ->
  instr_cycles e = instr_cycles e' -> instr_errors e = instr_errors e' -> String.eqb (instr_name e) instr = true ->
  assign_class idx instr e = assign_class idx instr e'.
Proof. intros E1 E2 E3 E4 H. unfold assign_class. rewrite <- E2, H, E1, E3, E4. reflexivity. Qed.

Lemma assign_fields i n e : instr_opcode (assign_class i n e) = instr_opcode e /\
  instr_name (assign_class i n e) = instr_name e /\ instr_cycles (assign_class i n e) = instr_cycles e /\
  instr_errors (assign_class i n e) = instr_errors e.
Proof. unfold assign_class. destruct (String.eqb (instr_name e) n); split_and!; reflexivity. Qed.

Lemma assign_all_fields l : forall e, instr_opcode (assign_all l e) = instr_opcode e /\
  instr_name (assign_all l e) = instr_name e /\ instr_cycles (assign_all l e) = instr_cycles e /\
  instr_errors (assign_all l e) = instr_errors e.
Proof.
  unfold assign_all. induction l as [|[i n] l IH]; intros e; [auto|]. cbn [fold_left].
  destruct (IH (assign_class i n e)) as (-> & -> & -> & ->). apply assign_fields.
Qed.

Lemma assign_all_snoc l i n e : assign_all (l ++ [(i, n)]) e = assign_class i n (assign_all l e).
Proof. unfold assign_all. rewrite fold_left_app. reflexivity. Qed.

Lemma assign_all_idem l e : assign_all l (assign_all l e) = assign_all l e.
Proof.
  induction l as [|[i n] l IH] using rev_ind; [reflexivity|]. rewrite !assign_all_snoc.
  destruct (assign_all_fields l e) as (F1 & F2 & F3 & F4). destruct (String.eqb (instr_name e) n) eqn:E.
  - destruct (assign_all_fields l (assign_class i n (assign_all l e))) as (G1 & G2 & G3 & G4).
    destruct (assign_fields i n (assign_all l e)) as (H1 & H2 & H3 & H4). apply assign_same; congruence.
  - assert (Hn : assign_class i n (assign_all l e) = assign_all l e) by (unfold assign_class; rewrite F2, E; reflexivity).
    rewrite Hn, IH. exact Hn.
Qed.

Lemma set_all_snoc l i v a : set_all (l ++ [(i, v)]) a = zset (set_all l a) i v.
Proof. unfold set_all. rewrite fold_left_app. reflexivity. Qed.

(** The last assignment wins, whatever the array held before. *)
Lemma set_all_zset l i (v w : double) : forall a, zset (set_all l (zset a i w)) i v = zset (set_all l a) i v.
Proof.
  induction l as [|[j u] l IH]; intros a; [apply zset_zset|].
  change (zset (set_all l (zset (zset a i w) j u)) i v = zset (set_all l (zset a j u)) i v).
  destruct (decide (Z.to_nat i = Z.to_nat j)) as [E|Hne].
  - do 2 f_equal. unfold zset. rewrite E. apply list_insert_insert_eq.
  - replace (zset (zset a i w) j u) with (zset (zset a j u) i w); [apply IH|]. apply list_insert_insert_ne. exact Hne.
Qed.

Lemma set_all_idem l a : set_all l (set_all l a) = set_all l a.
Proof.
  induction l as [|[i v] l IH] using rev_ind; [reflexivity|]. rewrite !set_all_snoc, set_all_zset, IH. reflexivity.
Qed.

Lemma assign_all_twice l (t : list vemu_instr_info) : assign_all l <$> (assign_all l <$> t) = assign_all l <$> t.
Proof. rewrite <- list_fmap_compose. apply list_fmap_ext. intros i x _. apply assign_all_idem. Qed.

Lemma apply_idem f s : apply_effect f (apply_effect f s) = apply_effect f s.
Proof.
  unfold apply_effect. cbn [pm_array set_pm_array set_tables thumb_table arm_table].
  rewrite set_all_idem, !assign_all_twice. reflexivity.
Qed.

(** [m] did [f] in a state like [s], and does it in every state with as
    many parameters. *)
Definition replays (m : M vemu_st unit) (n : nat) (f : effect) : Prop :=
  forall t, length (pm_array t) = n -> m t = Done (tt, apply_effect f t).
Definition replayable (m : M vemu_st unit) : Prop :=
  forall s s1, m s = Done (tt, s1) -> exists f, replays m (length (pm_array s)) f.

Lemma apply_length f s : length (pm_array (apply_effect f s)) = length (pm_array s).
Proof. apply set_all_length. Qed.

Lemma replays_result m f s s1 : replays m (length (pm_array s)) f -> m s = Done (tt, s1) -> s1 = apply_effect f s.
Proof. intros H E. rewrite (H s eq_refl) in E. congruence. Qed.

Lemma replayable_ret : replayable (ret tt).
Proof. intros s s1 _. exists ([], []). intros t _. rewrite apply_nil. reflexivity. Qed.

Lemma replayable_seq m1 m2 : replayable m1 -> replayable m2 -> replayable (m1 ;; m2).
Proof.
  intros H1 H2 s s2 H. apply bind_Done in H as ([] & s1 & E1 & E2). destruct (H1 _ _ E1) as [f Hf].
  pose proof (replays_result _ _ _ _ Hf E1) as ->. destruct (H2 _ _ E2) as [g Hg]. rewrite apply_length in Hg.
  exists (fst f ++ fst g, snd f ++ snd g). intros t Ht. erewrite bind_run by (apply Hf; exact Ht). cbn beta.
  rewrite (Hg (apply_effect f t)) by (rewrite apply_length; exact Ht). rewrite apply_app. reflexivity.
Qed.

Lemma replayable_fail m : (forall s s1, m s <> Done (tt, s1)) -> replayable m.
Proof. intros H s s1 E. destruct (H _ _ E). Qed.

(** A computation whose value does not depend on the state. *)
Definition stateless {A} (m : M vemu_st A) : Prop :=
  (exists a, forall s, m s = Done (a, s)) \/ (forall s r, m s <> Done r).

Lemma replayable_bind {A} (m : M vemu_st A) k : stateless m -> (forall a, replayable (k a)) -> replayable (bind m k).
Proof.
  intros [[a Ha]|Hn] Hk s s1 H.
  - erewrite bind_run in H by apply Ha. destruct (Hk a _ _ H) as [f Hf]. exists f. intros t Ht.
    erewrite bind_run by apply Ha. apply Hf. exact Ht.
  - apply bind_Done in H as (a & s' & E & _). destruct (Hn _ _ E).
Qed.

Lemma replayable_mfor {A} (l : list A) body : (forall a, replayable (body a)) -> replayable (mfor l body).
Proof. intros H. induction l; cbn [mfor]; auto using replayable_ret, replayable_seq. Qed.

Lemma stateless_qdict o : stateless (to_qdict o).
Proof. destruct o; [right; discriminate..|left; eexists; reflexivity|right; discriminate]. Qed.
Lemma stateless_qlist o : stateless (to_qlist o).
Proof. destruct o; [right; discriminate..|left; eexists; reflexivity|right; discriminate|right; discriminate]. Qed.
Lemma stateless_qstring o : stateless (to_qstring o).
Proof. destruct o; [right; discriminate|left; eexists; reflexivity|right; discriminate..]. Qed.

Lemma stateless_find d name : stateless (find_class d name).
Proof.
  induction d as [|e d IH]; [left; eexists; reflexivity|]. cbn [find_class].
  destruct (snd e) as [| | |p|]; try (right; intros ? ? H; discriminate H). cbn [to_qdict].
  assert (Hret : forall {B} (x : B) (k : B -> M vemu_st Z), stateless (k x) -> stateless (bind (ret x) k)) by (intros B x k H; exact H).
  apply Hret. unfold dict_get_int, dict_get_str.
  destruct (dict_get p "idx") as [[]|]; try (right; intros ? ? H; discriminate H).
  destruct (dict_get p "class_name") as [[]|]; try (right; intros ? ? H; discriminate H).
  do 2 apply Hret. destruct (String.eqb _ _); [left; eexists; reflexivity|exact IH].
Qed.

Lemma replayable_param c p v : replayable (vemu_pm_change_parameter c p v).
Proof.
  intros s s1 H. exists ([(p, v)], []). intros t Ht. unfold vemu_pm_change_parameter in *.
  apply bind_Done in H as (? & ? & H1 & H2). apply massert_Done in H1 as [Ha <-]. mruns.
  erewrite bind_run by (unfold massert; rewrite Ha; reflexivity). erewrite bind_run by reflexivity. cbn beta.
  unfold in_bounds in *. rewrite Ht, Hif. unfold modify, apply_effect. cbn [fst snd set_all assign_all fold_left].
  rewrite !list_fmap_id. destruct t. reflexivity.
Qed.

Lemma replayable_params c l : forall i, replayable (set_power_params c i l).
Proof.
  induction l as [|o l IH]; intros i; cbn [set_power_params]; [apply replayable_ret|].
  apply replayable_bind; [apply stateless_qstring|]. intros e. apply replayable_seq; [apply replayable_param|apply IH].
Qed.

Lemma replayable_entries d body : (forall e, replayable (body e)) -> replayable (do_entries d body).
Proof.
  intros H. destruct d; [apply replayable_fail; discriminate|]. apply replayable_mfor. exact H.
Qed.

Lemma replayable_pm d i : replayable (vemu_parse_pm_parameters d i).
Proof.
  apply replayable_entries. intros e. apply replayable_bind; [apply stateless_qdict|]. intros p.
  destruct (dict_get p "power_param"); [|apply replayable_ret].
  apply replayable_bind; [apply stateless_qlist|]. intros l. apply replayable_params.
Qed.

Lemma replayable_class d c i : replayable (vemu_parse_instr_class d c i).
Proof.
  unfold vemu_parse_instr_class. apply replayable_bind.
  { destruct d; [right; discriminate|apply stateless_find]. }
  intros idx. destruct (negb (idx =? -1)); [|apply replayable_ret].
  intros s s1 _. exists ([], [(idx, i)]). intros t _. destruct t. reflexivity.
Qed.

Lemma replayable_line d line : replayable (parse_line d line).
Proof.
  unfold parse_line. destruct (qobject_from_json line) as [q|]; [|apply replayable_ret].
  apply replayable_bind; [apply stateless_qdict|]. intros p.
  destruct (dict_haskey p "y").
  { apply replayable_entries. intros e. apply replayable_bind; [apply stateless_qlist|]. intros _. apply replayable_ret. }
  do 4 (case_match; [apply replayable_ret|]). destruct p as [|e p]; [apply replayable_fail; discriminate|].
  apply replayable_seq; [apply replayable_pm|]. apply replayable_entries. intros e'.
  apply replayable_bind; [apply stateless_qlist|]. intros l. unfold parse_instrs. apply replayable_mfor. intros o.
  apply replayable_bind; [apply stateless_qstring|]. intros insn. apply replayable_class.
Qed.

(**  The extra iteration of the reading loop is harmless: a line that
    was processed successfully is processed successfully again and leaves
    every table and parameter as it was. *)
Lemma reparse_harmless d line s s1 : parse_line d line s = Done (tt, s1) -> parse_line d line s1 = Done (tt, s1).
Proof.
  intros H. destruct (replayable_line d line s s1 H) as [f Hf]. pose proof (replays_result _ _ _ _ Hf H) as ->.
  rewrite Hf by apply apply_length. rewrite apply_idem. reflexivity.
Qed.

(** ** The parameters and the classes *)

Lemma splice_step {A} (a m : list A) k n v : (k < length a)%nat ->
  take (S k) (<[k := v]> a) ++ m ++ drop (S k + n) (<[k := v]> a) = take k a ++ (v :: m) ++ drop (k + S n) a.
Proof.
  intros Hk. rewrite (take_S_r _ k v) by (apply list_lookup_insert_eq; exact Hk).
  rewrite take_insert_ge by lia. rewrite drop_insert_lt by lia. rewrite <- app_assoc.
  replace (k + S n)%nat with (S k + n)%nat by lia. reflexivity.
Qed.

(** Storing a list of parameters from index [i]. *)
Lemma params_set c l : forall i s, (i + length l <= 256)%nat -> Z.of_nat (length (pm_array s)) = pm_size ->
  set_power_params c (Z.of_nat i) (QString <$> l) s =
    if Z.of_nat (i + length l) <=? pm_size
    then Done (tt, set_pm_array (take i (pm_array s) ++ (c_atof <$> l) ++ drop (i + length l) (pm_array s)) s)
    else match l with [] => Done (tt, s) | _ => AssertFailed end.
Proof.
  induction l as [|x l IH]; intros i s Hl Hs.
  - cbn [fmap list_fmap set_power_params length app]. rewrite Nat.add_0_r, take_drop.
    replace (set_pm_array (pm_array s) s) with s by (destruct s; reflexivity). destruct (_ <=? _); reflexivity.
  - cbn [length] in Hl. change (QString <$> x :: l) with (QString x :: (QString <$> l)). cbn [set_power_params].
    erewrite bind_run by reflexivity. cbn beta.
    assert (Hu : u8 (Z.of_nat i) = Z.of_nat i) by (apply Z.mod_small; lia). rewrite Hu. cbn [length].
    destruct (decide (Z.of_nat i < pm_size)) as [Hlt|Hge].
    + erewrite bind_run by (apply (change_parameter_run s c (Z.of_nat i)); split; [lia|exact Hs]). cbn beta.
      replace (Z.of_nat i + 1) with (Z.of_nat (S i)) by lia.
      rewrite IH by (lia || (cbn; rewrite length_zset; exact Hs)).
      replace (S i + length l)%nat with (i + S (length l))%nat by lia.
      destruct (Z.leb_spec (Z.of_nat (i + S (length l))) pm_size).
      * do 2 f_equal. cbn [pm_array set_pm_array]. unfold zset. rewrite Nat2Z.id.
        replace (i + S (length l))%nat with (S i + length l)%nat by lia. rewrite splice_step by lia.
        replace (i + S (length l))%nat with (S i + length l)%nat by lia. reflexivity.
      * destruct l; [cbn in *; lia|reflexivity].
    + unfold vemu_pm_change_parameter, massert, bind. destruct (Z.ltb_spec (Z.of_nat i) pm_size); [lia|].
      destruct (Z.leb_spec (Z.of_nat (i + S (length l))) pm_size); [lia|]. reflexivity.
Qed.

(** Loading a power model: a class with a parameter list no longer
    than the model's stores the numbers in order from parameter 0 and leaves
    the rest; a longer list (the 16 numbers of the older model's files
    against the 14 of the linked one) fails the assertion and ends the
    emulator. *)
Lemma load_power_model key p l name s : Z.of_nat (length (pm_array s)) = pm_size -> (length l <= 256)%nat ->
  dict_get p "power_param" = Some (QList (QString <$> l)) ->
  vemu_parse_pm_parameters [(key, QDict p)] name s =
    if Z.of_nat (length l) <=? pm_size
    then Done (tt, set_pm_array ((c_atof <$> l) ++ drop (length l) (pm_array s)) s) else AssertFailed.
Proof.
  intros Hs Hl Hp. unfold vemu_parse_pm_parameters, do_entries. cbn [mfor snd to_qdict].
  assert (E : (let! pdict := ret p in match dict_get pdict "power_param" with
      | Some params => let! plist := to_qlist params in set_power_params (u8 (c_atoi name)) 0 plist
      | None => ret tt end) s
    = if Z.of_nat (length l) <=? pm_size
      then Done (tt, set_pm_array ((c_atof <$> l) ++ drop (length l) (pm_array s)) s) else AssertFailed).
  { erewrite bind_run by reflexivity. cbn beta. rewrite Hp. cbn [to_qlist]. erewrite bind_run by reflexivity. cbn beta.
    change 0 with (Z.of_nat 0). rewrite params_set by (cbn; lia || exact Hs). cbn [Nat.add take app].
    destruct (Z.leb_spec (Z.of_nat (length l)) pm_size); [reflexivity|]. destruct l; [|reflexivity].
    rewrite <- Hs in *. cbn in *. lia. }
  rewrite <- E. apply bind_ret_unit.
Qed.

Lemma table_ok_assign idx instr t : 0 <= idx < 4 -> table_ok t = true -> table_ok (assign_class idx instr <$> t) = true.
Proof.
  intros Hi Ht. unfold table_ok. apply forallb_forall. intros [i e] Hin.
  apply list_elem_of_In, list_elem_of_lookup in Hin as [j Hj]. rewrite list_lookup_imap, list_lookup_fmap in Hj.
  destruct (t !! j) as [e0|] eqn:E; [|discriminate]. injection Hj as <- <-. cbn [uncurry].
  pose proof (table_ok_lookup t j e0 Ht E) as Ho. unfold entry_ok in *.
  destruct (assign_fields idx instr e0) as (-> & _ & -> & ->).
  assert (Hc : instr_class (assign_class idx instr e0) = instr_class e0 \/ instr_class (assign_class idx instr e0) = idx).
  { unfold assign_class. destruct (String.eqb _ _); [right|left; reflexivity]. apply Z.mod_small. lia. }
  destruct Hc as [->| ->]; [exact Ho|]. apply andb_prop in Ho as [Ho H4]. apply andb_prop in Ho as [Ho H3].
  apply andb_prop in Ho as [H1 _]. rewrite H1, H3, H4. unfold MAX_INSTR_CLASSES.
  destruct (Z.leb_spec 0 idx), (Z.ltb_spec idx 4); reflexivity || lia.
Qed.

(** Assigning an instruction to a class from the file.  With an index
    below the number of classes both tables stay well formed, so decoding
    and accounting keep working; but the index is not checked, and with one
    from 4 to 255 the first execution of the instruction fails the class
    assertion of the accounting. *)
Lemma class_assignment d name instr idx s : d <> [] -> find_class d name s = Done (idx, s) -> 0 <= idx < 256 ->
  exists s', vemu_parse_instr_class d name instr s = Done (tt, s') /\
    (idx < 4 -> tables_ok s -> tables_ok s') /\
    (4 <= idx -> forall tb, (instr_info tb ∈ arm_table s' \/ instr_info tb ∈ thumb_table s') ->
      instr_name (instr_info tb) = instr -> vemu_increment_cycles tb s' = AssertFailed).
Proof.
  intros Hd Hf Hi. eexists. split; [|split].
  - unfold vemu_parse_instr_class. erewrite bind_run by (destruct d; [contradiction|exact Hf]). cbn beta.
    destruct (Z.eqb_spec idx (-1)); [lia|]. reflexivity.
  - intros Hlt (L1 & L2 & T1 & T2). split_and!; cbn; rewrite ?length_fmap; auto; apply table_ok_assign; auto; lia.
  - intros Hge tb Hin Hn. assert (Hc : instr_class (instr_info tb) = idx).
    { cbn in Hin. destruct Hin as [Hin|Hin]; apply list_elem_of_fmap in Hin as (e & He & _); rewrite He in *;
        destruct (assign_fields idx instr e) as (_ & En & _ & _); rewrite En in Hn; unfold assign_class;
        rewrite Hn, String.eqb_refl; apply Z.mod_small; lia. }
    unfold vemu_increment_cycles, massert, bind. rewrite Hc. unfold MAX_INSTR_CLASSES.
    destruct (Z.ltb_spec idx 4); [lia|reflexivity].
Qed.

(** ** Decoding after the configuration *)

(** The class numbers a configuration declares, as the tables store them. *)
Definition declared (d : qdict) : list Z :=
  omap (fun e => match snd e with QDict p => match dict_get p "idx" with Some (QInt z) => Some (u8 (s32 z)) | _ => None end | _ => None end) d.
Definition config_classes (file : option (list string * bool)) : list Z :=
  match file with
  | Some (first :: _, _) => match qobject_from_json first with Some (QDict d) => declared d | _ => [] end
  | _ => []
  end.

Lemma config_classes_nonneg file c : c ∈ config_classes file -> 0 <= c.
Proof.
  unfold config_classes. intros H. repeat case_match; try (apply elem_of_nil in H; contradiction).
  unfold declared in H. apply list_elem_of_omap in H as (e & _ & H). repeat case_match; simplify_eq. apply Z.mod_pos_bound. lia.
Qed.

(** A row of the source's tables with its class or one of [C]. *)
Definition reclassed (C : list Z) (e0 e : vemu_instr_info) : Prop :=
  instr_opcode e = instr_opcode e0 /\ instr_name e = instr_name e0 /\ instr_cycles e = instr_cycles e0 /\
  instr_errors e = instr_errors e0 /\ (instr_class e = instr_class e0 \/ instr_class e ∈ C).
Definition configured (C : list Z) (s : vemu_st) : Prop :=
  Forall2 (reclassed C) vemu_arm_instr (arm_table s) /\ Forall2 (reclassed C) vemu_thumb_instr (thumb_table s).
(** Code that keeps the tables like this. *)
Definition keeps_tables {A} (C : list Z) (m : M vemu_st A) : Prop := forall s a s', m s = Done (a, s') -> configured C s -> configured C s'.

Lemma reclassed_refl C e : reclassed C e e.
Proof. unfold reclassed. auto 7. Qed.
Lemma configured_initial C : configured C initial_st.
Proof. split; cbn; (apply Forall2_same_length_lookup_2; [reflexivity|]); intros i x y Hx Hy; rewrite Hx in Hy; injection Hy as <-; apply reclassed_refl. Qed.
Lemma reclassed_assign C idx instr e0 e : u8 idx ∈ C -> reclassed C e0 e -> reclassed C e0 (assign_class idx instr e).
Proof.
  intros Hi (H1 & H2 & H3 & H4 & H5). unfold reclassed, assign_class. destruct (String.eqb (instr_name e) instr); cbn; auto 7.
Qed.
Lemma keeps_assign C idx instr t0 t : u8 idx ∈ C -> Forall2 (reclassed C) t0 t -> Forall2 (reclassed C) t0 (assign_class idx instr <$> t).
Proof. intros Hi Ht. apply Forall2_fmap_r. eapply Forall2_impl; [exact Ht|]. intros e0 e. apply reclassed_assign, Hi. Qed.

Lemma keeps_same {A} C (m : M vemu_st A) :
  (forall s a s', m s = Done (a, s') -> arm_table s' = arm_table s /\ thumb_table s' = thumb_table s) -> keeps_tables C m.
Proof. intros H s a s' E [H1 H2]. destruct (H s a s' E) as [Ea Et]. unfold configured. rewrite Ea, Et. split; assumption. Qed.
Lemma tables_bind {A B} C (m : M vemu_st A) (k : A -> M vemu_st B) : keeps_tables C m -> (forall a, keeps_tables C (k a)) -> keeps_tables C (bind m k).
Proof. intros Hm Hk s b s2 H Hs. apply bind_Done in H as (a & s1 & E1 & E2). exact (Hk a _ _ _ E2 (Hm _ _ _ E1 Hs)). Qed.
Lemma keeps_stateless {A} C (m : M vemu_st A) : stateless m -> keeps_tables C m.
Proof. intros [[x Hx]|Hn] s a s' E Hs; [rewrite Hx in E; injection E as _ <-; exact Hs|destruct (Hn _ _ E)]. Qed.
Lemma tables_ret {A} C (a : A) : keeps_tables C (ret a). Proof. intros s x s' [= _ <-] Hs. exact Hs. Qed.
Lemma keeps_mfor {A} C (l : list A) body : (forall a, keeps_tables C (body a)) -> keeps_tables C (mfor l body).
Proof. intros H. induction l; cbn [mfor]; [apply tables_ret|]. apply tables_bind; [apply H|intros []; assumption]. Qed.
Lemma keeps_entries C d body : (forall e, keeps_tables C (body e)) -> keeps_tables C (do_entries d body).
Proof. intros H. destruct d; [discriminate|]. apply keeps_mfor, H. Qed.
Lemma keeps_param C c p v : keeps_tables C (vemu_pm_change_parameter c p v).
Proof. apply keeps_same. intros s [] s' H. unfold vemu_pm_change_parameter in H. mruns. auto. Qed.
Lemma keeps_params C c l : forall i, keeps_tables C (set_power_params c i l).
Proof.
  induction l as [|o l IH]; intros i; cbn [set_power_params]; [apply tables_ret|].
  apply tables_bind; [apply keeps_stateless, stateless_qstring|]. intros e. apply tables_bind; [apply keeps_param|auto].
Qed.
Lemma keeps_pm C d i : keeps_tables C (vemu_parse_pm_parameters d i).
Proof.
  apply keeps_entries. intros e. apply tables_bind; [apply keeps_stateless, stateless_qdict|]. intros p.
  destruct (dict_get p "power_param"); [|apply tables_ret]. apply tables_bind; [apply keeps_stateless, stateless_qlist|]. intros l. apply keeps_params.
Qed.
(** The class that is found is declared. *)
Lemma find_declared d name s idx s' : find_class d name s = Done (idx, s') -> idx <> -1 -> u8 idx ∈ declared d.
Proof.
  revert s. induction d as [|e d IH]; intros s H Hn; cbn [find_class] in H; [injection H as <- _; contradiction|].
  cbn [declared omap list_omap]. destruct (snd e) as [| | |p|]; try discriminate H. cbn [to_qdict] in H.
  unfold dict_get_int, dict_get_str, bind, ret in H. destruct (dict_get p "idx") as [[z| | | |]|]; try discriminate H.
  destruct (dict_get p "class_name") as [[|n| | |]|]; try discriminate H. destruct (String.eqb n name); apply elem_of_cons; [left; injection H as <- _; reflexivity|right; exact (IH _ H Hn)].
Qed.
Lemma keeps_class d c i : keeps_tables (declared d) (vemu_parse_instr_class d c i).
Proof.
  intros s [] s' H [H1 H2]. unfold vemu_parse_instr_class in H. apply bind_Done in H as (idx & s1 & E & H).
  assert (Hf : find_class d c s = Done (idx, s1)) by (destruct d; [discriminate E|exact E]).
  assert (s1 = s) as ->. { destruct (stateless_find d c) as [[x Hx]|Hx]; [rewrite Hx in Hf; congruence|destruct (Hx _ _ Hf)]. }
  destruct (Z.eqb_spec idx (-1)) as [Hm|Hn]; cbn [negb] in H; [injection H as <-; split; assumption|].
  pose proof (find_declared _ _ _ _ _ Hf Hn) as Hi. injection H as <-. split; cbn; apply keeps_assign; assumption.
Qed.
Lemma keeps_line d line : keeps_tables (declared d) (parse_line d line).
Proof.
  unfold parse_line. destruct (qobject_from_json line) as [q|]; [|apply tables_ret].
  apply tables_bind; [apply keeps_stateless, stateless_qdict|]. intros p. destruct (dict_haskey p "y").
  { apply keeps_entries. intros e. apply tables_bind; [apply keeps_stateless, stateless_qlist|]. intros _. apply tables_ret. }
  do 4 (case_match; [apply tables_ret|]). destruct p as [|e p]; [discriminate|].
  apply tables_bind; [apply keeps_pm|intros _]. apply keeps_entries. intros e'. apply tables_bind; [apply keeps_stateless, stateless_qlist|].
  intros l. apply keeps_mfor. intros o. apply tables_bind; [apply keeps_stateless, stateless_qstring|]. intros insn. apply keeps_class.
Qed.
Lemma keeps_file file : keeps_tables (config_classes file) (vemu_parse_input_file file).
Proof.
  unfold vemu_parse_input_file, config_classes. destruct file as [[[|first lines] nl]|]; [discriminate| |discriminate].
  destruct (qobject_from_json first) as [[| | |d|]|]; try discriminate.
  apply tables_bind; [apply keeps_same; intros s [] s' H; apply massert_Done in H as [_ <-]; auto|intros _].
  apply tables_bind; [apply keeps_mfor; intros; apply keeps_line|intros _]. destruct nl; [apply keeps_line|apply tables_ret].
Qed.

(** The table of an instruction set in the source, and the row of an
    instruction in it: bits 27 to 20 and 7 to 4 of an ARM instruction, the
    upper byte of a Thumb one, one row for all 32-bit Thumb instructions. *)
Definition source_table (thumb : Z) : list vemu_instr_info :=
  if thumb =? 0 then vemu_arm_instr else if thumb =? 1 then vemu_thumb_instr else vemu_thumb2_instr.
Definition table_row (thumb instr : Z) : Z :=
  if thumb =? 0 then instr / 2 ^ 20 mod 256 * 16 + instr / 2 ^ 4 mod 16 else if thumb =? 1 then instr / 2 ^ 8 mod 256 else 0.
Lemma arm_row instr : arm_opcode instr = table_row 0 instr.
Proof. rewrite arm_opcode_eq, !Z.shiftr_div_pow2 by lia. reflexivity. Qed.
Lemma thumb_row instr : thumb_opcode instr = table_row 1 instr.
Proof.
  rewrite thumb_opcode_eq, !Z.shiftr_div_pow2 by lia. unfold table_row. cbn [Z.eqb Pos.eqb]. change 256 with (16 * 16).
  rewrite (Z.rem_mul_r (instr / 2 ^ 8) 16 16), Z.div_div by lia. change (2 ^ 8 * 16) with (2 ^ 12). lia.
Qed.

(** A row of a source table, found in the configured one. *)
Definition row_ok (e : vemu_instr_info) : Prop :=
  0 <= instr_class e < MAX_INSTR_CLASSES /\ instr_errors e = false /\ exists k, 0 <= k <= 5 /\ instr_cycles e = d_of_Z k.
Lemma entry_row i e : entry_ok i e = true -> instr_opcode e = Z.of_nat i /\ row_ok e.
Proof.
  intros H. destruct (entry_ok_spec i e 0 H) as (Ho & He & [Hc _] & (_ & H0 & Hk) & H5). split; [exact Ho|].
  split; [exact Hc|]. split; [exact He|]. eexists. split; [split; [exact H0|exact H5]|exact Hk].
Qed.
Lemma configured_row C t0 t i (s : vemu_st) : table_ok t0 = true -> Forall2 (reclassed C) t0 t -> 0 <= i < Z.of_nat (length t0) ->
  exists row e, znth t0 i = Some row /\ arr_get t i s = Done (e, s) /\ instr_opcode row = i /\ row_ok row /\ reclassed C row e.
Proof.
  intros H0 Ht Hi. destruct (znth_lt t0 i Hi) as [row Hr]. destruct (znth_Some _ _ _ Hr) as [_ Hl].
  destruct (Forall2_lookup_l _ _ _ _ _ Ht Hl) as (e & He & Hrc). exists row, e. split; [exact Hr|].
  destruct (entry_row _ _ (table_ok_lookup _ _ _ H0 Hl)) as [Ho Hok]. split; [|split; [lia|split; assumption]].
  unfold arr_get, defined. destruct (znth_lt t i) as [e' He']; [rewrite <- (Forall2_length _ _ _ Ht); exact Hi|].
  rewrite He'. destruct (znth_Some _ _ _ He') as [_ Hl']. rewrite He in Hl'. injection Hl' as <-. reflexivity.
Qed.
Lemma decode_configured C instr thumb s : configured C s -> thumb = 0 \/ thumb = 1 \/ thumb = 2 ->
  exists row e, vemu_target_decode_instr instr thumb s = Done ({| instr_word := instr; instr_info := e |}, s) /\
    znth (source_table thumb) (table_row thumb instr) = Some row /\ (thumb <> 2 -> instr_opcode row = table_row thumb instr) /\
    row_ok row /\ reclassed C row e.
Proof.
  intros [Ha Ht] Hth. destruct initial_tables_ok as (Lt & La & Tt & Ta). cbn [arm_table thumb_table initial_st] in *.
  unfold vemu_target_decode_instr. destruct Hth as [->|[->| ->]]; cbn [Z.eqb Pos.eqb].
  - pose proof (arm_opcode_range instr) as R. destruct (configured_row C _ _ (arm_opcode instr) s Ta Ha) as (row & e & Hr & He & Ho & Hok & Hc); [lia|].
    exists row, e. unfold massert. rewrite (proj2 (Z.leb_le (arm_opcode instr) 0xfff)) by lia. unfold bind, ret, gets. rewrite He, <- arm_row. auto 7.
  - pose proof (thumb_opcode_range instr) as R. destruct (configured_row C _ _ (thumb_opcode instr) s Tt Ht) as (row & e & Hr & He & Ho & Hok & Hc); [lia|].
    exists row, e. unfold massert. rewrite (proj2 (Z.leb_le (thumb_opcode instr) 0xff)) by lia. unfold bind, ret, gets. rewrite He, <- thumb_row. auto 7.
  - eexists _, _. split; [reflexivity|]. split; [reflexivity|]. split; [contradiction|]. split; [|apply reclassed_refl].
    split; [vm_compute; split; congruence|]. split; [reflexivity|]. exists 1. split; [lia|vm_compute; reflexivity].
Qed.

(** C7.  Decoding is total after every configuration: whatever file the
    emulator was started with and accepted, every word decodes in each of the
    three instruction sets without failing an assertion or leaving a table,
    and the globals are unchanged.  The entry is the row of the source's
    table at the encoding bits of the instruction, which lists that opcode,
    with the row's name, cost (an integer from 0 to 5) and no error flag; its
    class is the row's, which the cycle counters accept, or a number the file
    declares.  A file whose class numbers are below 4 therefore leaves every
    class in range. *)
Theorem decode_total file s instr thumb : vemu_init file initial_st = Done (tt, s) -> thumb = 0 \/ thumb = 1 \/ thumb = 2 ->
  exists tb row k, vemu_target_decode_instr instr thumb s = Done (tb, s) /\ instr_word tb = instr /\
    znth (source_table thumb) (table_row thumb instr) = Some row /\ (thumb <> 2 -> instr_opcode row = table_row thumb instr) /\
    reclassed (config_classes file) row (instr_info tb) /\ instr_errors (instr_info tb) = false /\
    0 <= k <= 5 /\ instr_cycles (instr_info tb) = d_of_Z k /\ 0 <= instr_class row < MAX_INSTR_CLASSES /\
    (Forall (fun c => c < 4) (config_classes file) -> tb_ok tb).
Proof.
  intros Hinit Hth. assert (Hs : configured (config_classes file) s).
  { refine (tables_bind _ _ _ (keeps_file file) _ _ _ _ Hinit (configured_initial _)). intros _. apply keeps_same.
    intros s0 [] s1 H. injection H as <-. split; reflexivity. }
  destruct (decode_configured _ instr thumb s Hs Hth) as (row & e & E & Hr & Ho & (Hc & He & k & Hk & Hkc) & Hrc).
  pose proof Hrc as (_ & _ & Ecy & Eer & Ecl). exists {| instr_word := instr; instr_info := e |}, row, k. cbn [instr_info instr_word].
  rewrite Ecy, Eer. split_and!; try assumption; try reflexivity; try lia.
  intros HC. unfold tb_ok. cbn [instr_info]. rewrite Ecy, Hkc. split; [|apply d_of_Z_nonneg; lia].
  destruct Ecl as [->|Hin]; [exact Hc|]. rewrite Forall_forall in HC. specialize (HC _ Hin). split; [|exact HC].
  exact (config_classes_nonneg file _ Hin).
Qed.

(** ** The monitor *)

Definition quote (x : string) : string := String "034"%char (x ++ String "034"%char EmptyString)%string.

Lemma substring_app x y : substring 0 (String.length x) (x ++ y)%string = x.
Proof. induction x as [|c x IH]; [destruct y; reflexivity|]. exact (f_equal (String c) IH). Qed.

Lemma length_append_str x y : String.length (x ++ y)%string = (String.length x + String.length y)%nat.
Proof. induction x as [|c x IH]; [reflexivity|]. exact (f_equal S IH). Qed.

Lemma unquote_quote x s : Z.of_nat (String.length x) < 4096 -> unquote (quote x) s = Done (x, s).
Proof.
  intros Hx. assert (Hl : String.length (quote x) = (String.length x + 2)%nat).
  { unfold quote. cbn [String.length]. rewrite length_append_str. cbn. lia. }
  unfold unquote. rewrite Hl. replace (Z.of_nat (String.length x + 2) - 2) with (Z.of_nat (String.length x)) by lia.
  destruct (Z.leb_spec 2 (Z.of_nat (String.length x + 2))); [|lia].
  destruct (Z.ltb_spec (Z.of_nat (String.length x)) 4096); [|lia]. cbn [andb]. rewrite Nat2Z.id.
  unfold ret, quote. do 2 f_equal. cbn [substring]. apply substring_app.
Qed.

(**  The monitor's parameter command: for arguments in quotes it
    charges the elapsed energy and changes the parameter, with class and
    parameter numbers taken modulo 256; an argument of fewer than two
    characters makes the copy length wrap around and the copy overrun. *)
Lemma monitor_changes_parameter q c p v s :
  dict_get q "c" = Some (QString c) -> dict_get q "p" = Some (QString p) -> dict_get q "v" = Some (QString v) ->
  (forall c' p' v', c = quote c' -> p = quote p' -> v = quote v' ->
     Z.of_nat (String.length c') < 4096 -> Z.of_nat (String.length p') < 4096 -> Z.of_nat (String.length v') < 4096 ->
     vemu_do_change_model_param q s =
       (vemu_energy_change_parameter (u8 (c_strtol c')) (u8 (c_strtol p')) (c_strtod v') ;; ret 0) s) /\
  ((String.length c < 2)%nat -> vemu_do_change_model_param q s = Undefined).
Proof.
  intros Hc Hp Hv. unfold vemu_do_change_model_param, dict_get_str. rewrite Hc, Hp, Hv.
  do 3 (erewrite bind_run by reflexivity; cbn beta). split.
  - intros c' p' v' -> -> -> Lc Lp Lv. do 3 (erewrite bind_run by (apply unquote_quote; assumption); cbn beta). reflexivity.
  - intros Hl. unfold unquote at 1. destruct (Z.leb_spec 2 (Z.of_nat (String.length c))); [lia|]. reflexivity.
Qed.
End Effects.

(** ** Concrete runs *)

(** A reader that knows the lines of a small configuration file. *)
Definition demo_class : qdict :=
  [("0", QDict [("class_name", QString "muls"); ("power_param", QList [QString "1e8"; QString "1.0"]); ("idx", QInt 2)])]%string.
Definition demo_line : qobject := QDict [("muls", QList [QString "MUL"])]%string.
Definition demo_input : CInput := {|
  qobject_from_json := fun l => if String.eqb l "classes" then Some (QDict demo_class)
                                else if String.eqb l "muls" then Some demo_line else None;
  c_atoi := fun _ => 0;
  c_atof := fun x => if String.eqb x "1e8" then d_of_Z 100000000 else d_of_Z 1;
  c_strtol := fun x => if String.eqb x "1" then 1 else 0;
  c_strtod := fun _ => d_lit 9 1
|}.
#[local] Existing Instance demo_clock.
#[local] Existing Instance demo_pm.
#[local] Existing Instance demo_input.

Definition demo_u1 : vemu_st := final demo_s2 (parse_line demo_class "muls" demo_s2).

Lemma reparse_harmless_witness : parse_line demo_class "muls" demo_u1 = Done (tt, demo_u1).
Proof. apply (reparse_harmless demo_class "muls" demo_s2). apply final_Done. vm_compute. reflexivity. Defined.

Lemma load_power_model_witness : exists s', vemu_parse_pm_parameters demo_class "muls" demo_s2 = Done (tt, s') /\
  param (pm_array s') 0 = d_of_Z 100000000.
Proof.
  pose proof (load_power_model (PM := demo_pm) (CI := demo_input) "0" [("class_name", QString "muls"); ("power_param", QList [QString "1e8"; QString "1.0"]);
    ("idx", QInt 2)]%string ["1e8"; "1.0"]%string "muls" demo_s2 ltac:(vm_compute; reflexivity) ltac:(cbn; lia) eq_refl) as H.
  change (Z.of_nat (length ["1e8"; "1.0"]%string) <=? pm_size) with true in H. cbn iota in H.
  eexists. split; [exact H|vm_compute; reflexivity].
Defined.

Lemma class_assignment_witness : exists s', vemu_parse_instr_class demo_class "muls" "MUL" demo_s2 = Done (tt, s') /\
  tables_ok s'.
Proof.
  destruct (class_assignment demo_class "muls" "MUL" 2 demo_s2) as (s' & H1 & H2 & _); [discriminate|reflexivity|lia|].
  exists s'. split; [exact H1|]. apply H2; [lia|]. split_and!; vm_compute; reflexivity.
Defined.

(** The multiplications in class 2: [MUL r0, r1, r2]. *)
Definition demo_file : option (list string * bool) := Some (["classes"; "muls"]%string, false).
Definition demo_configured : vemu_st := final initial_st (vemu_init demo_file initial_st).
Lemma decode_total_witness : exists tb, vemu_target_decode_instr 0xE0000291 0 demo_configured = Done (tb, demo_configured) /\
  table_row 0 0xE0000291 = 0x009 /\ tb_ok tb /\ instr_class (instr_info tb) = 2.
Proof.
  assert (H : vemu_init demo_file initial_st = Done (tt, demo_configured)) by (apply final_Done; vm_compute; reflexivity).
  destruct (decode_total demo_file demo_configured 0xE0000291 0 H (or_introl eq_refl)) as (tb & row & k & E & _ & _ & _ & _ & _ & _ & _ & _ & Hc).
  exists tb. split; [exact E|]. split; [reflexivity|]. split; [apply Hc; repeat constructor|].
  assert (Ec : match vemu_target_decode_instr 0xE0000291 0 demo_configured with Done (t, _) => instr_class (instr_info t) | _ => 0 end = 2)
    by (vm_compute; reflexivity). rewrite E in Ec. exact Ec.
Defined.

Definition demo_query (c : string) : qdict := [("c", QString c); ("p", QString (quote "1")); ("v", QString (quote "0.9"))]%string.

Lemma monitor_changes_parameter_witness :
  vemu_do_change_model_param (demo_query (quote "0")) demo_s2 =
    (vemu_energy_change_parameter (u8 (c_strtol "0")) (u8 (c_strtol "1")) (c_strtod "0.9") ;; ret 0) demo_s2 /\
  vemu_do_change_model_param (demo_query "0") demo_s2 = Undefined.
Proof.
  destruct (monitor_changes_parameter (demo_query (quote "0")) (quote "0") (quote "1") (quote "0.9") demo_s2 eq_refl eq_refl eq_refl)
    as [H _].
  destruct (monitor_changes_parameter (demo_query "0") "0" (quote "1") (quote "0.9") demo_s2 eq_refl eq_refl eq_refl) as [_ H'].
  split; [|apply H'; cbn; lia].
  exact (H "0" "1" "0.9" eq_refl eq_refl eq_refl eq_refl eq_refl eq_refl)%string.
Defined.
