(* ===== verification/Aging.v ===== *)
(** * Transistor aging: [vemu_aging_evaluation] of [vemu_power_45nm.c]

    From the active, clock-gated (class 1) and sleep times, scaled from
    emulated to simulated years, the model computes the threshold shift of
    the transistors, stores it in [delta_vtp] and, when the aged circuit has
    become slower than the nominal one, raises the supply by 5 mV.  [exp]
    and [pow] are parameters. *)
From stdpp Require Import base list.
From S2P Require Import Prelude Double ArmTable State Power Cycles.
Import Power45nm.
Open Scope Z_scope.

Definition TIME_SCALAR : Z := 1051200.
Definition slot_delta_vtp : Z := 11.
Definition slot_Vdd_scalar : Z := 13.

Section Aging.
Context {CLK : VmClock} {LM : Libm}.

Definition scaled_time (ns : Z) : double := (d_of_Z ns / d_of_Z 1000000000 * d_of_Z TIME_SCALAR)%D.

(** The duty factor, limited to 0.99. *)
Definition duty (p : list double) (act_time clk_gated_time slp_time : double) : double :=
  (let omega :=
     if mode p <? d_lit 5 1 then (d_lit 5 1 * act_time + clk_gated_time) / (slp_time + act_time)
     else (act_time + clk_gated_time) / (slp_time + act_time) in
   if d_lit 99 2 <? omega then d_lit 99 2 else omega)%D.

(** The threshold shift after [t] seconds. *)
Definition threshold_shift (p : list double) (omega t : double) : double :=
  (let temp := T p + d_of_Z 273 in
   let C := d_of_Z 100000000 * m_exp (d_opp (d_lit 98642 1) / temp) in
   let Kv := d_lit 29642 48 * (Vdd p - d_lit 65 2) * m_pow C (d_lit 5 1)
             * m_exp ((Vdd p - d_lit 65 2) / d_lit 1008 4) in
   let bt := (d_lit 11902 13 + d_lit 707 4 * m_pow ((d_of_Z 1 - omega) * C) (d_lit 5 1))
             / (d_lit 13224 4 * d_lit 1 9 + m_pow (C * t) (d_lit 5 1)) in
   let bt := d_of_Z 1 - bt in
   d_of_Z 1917400000
   * m_pow (m_pow (d_lit 1 1 * omega) (d_lit 5 1) * Kv / (d_of_Z 1 - m_pow bt (d_lit 36232 4))) (d_lit 276 3))%D.

(** Gate delay at supply [v] with threshold shift [d]. *)
Definition gate_delay (v d : double) : double :=
  (v / m_pow (v - (d_lit 4 1 + d)) (d_lit 11 1) + v / m_pow (v - d_lit 5 1) (d_lit 11 1))%D.

Definition vemu_aging_evaluation : M vemu_st double :=
  let! a := vemu_get_act_time 0 in
  let! g := vemu_get_act_time 1 in
  let! z := vemu_get_slp_time in
  let! p := gets pm_array in
  let act_time := scaled_time a in
  let clk_gated_time := scaled_time g in
  let slp_time := scaled_time z in
  let omega := duty p act_time clk_gated_time slp_time in
  let t := (act_time + slp_time + clk_gated_time)%D in
  let delta_vt := threshold_shift p omega t in
  let nom_delay := gate_delay (Vdd p) (d_of_Z 0) in
  let v := (Vdd_scalar p * Vdd p)%D in
  (if (nom_delay <? gate_delay v delta_vt)%D
   then modify (set_pm_array (zset p slot_Vdd_scalar (Vdd_scalar p + d_lit 5 3)%D)) else ret tt) ;;
  (let! q := gets pm_array in modify (set_pm_array (zset q slot_delta_vtp delta_vt))) ;;
  ret delta_vt.

Lemma act_time_frame k s a s' : vemu_get_act_time k s = Done (a, s') -> s' = s.
Proof. unfold vemu_get_act_time, arr_get. intros Hr. mruns. reflexivity. Qed.

Lemma slp_time_frame s z s' : vemu_get_slp_time s = Done (z, s') -> pm_array s' = pm_array s /\ cyc s' = cyc s.
Proof. unfold vemu_get_slp_time, qemu_get_clock_ns. intros Hr. mruns; split; reflexivity. Qed.

Lemma param_zset a i v j : (j < length a)%nat -> (Z.to_nat i < length a)%nat ->
  param (zset a i v) j = if decide (j = Z.to_nat i) then v else param a j.
Proof.
  intros Hj Hi. unfold param, zset. destruct (decide (j = Z.to_nat i)) as [->|Hne].
  - apply nth_lookup_Some, list_lookup_insert_eq. exact Hi.
  - destruct (lookup_lt_is_Some_2 a j Hj) as [x Hx]. rewrite (nth_lookup_Some _ _ d_zero _ Hx).
    apply nth_lookup_Some. rewrite list_lookup_insert_ne by congruence. exact Hx.
Qed.

(** An evaluation stores the shift it returns, raises the supply scale by
    0.005 or leaves it, and touches no other parameter and no counter. *)
Lemma aging_effect s d s' : length (pm_array s) = 14%nat -> vemu_aging_evaluation s = Done (d, s') ->
  param (pm_array s') 11 = d /\
  (param (pm_array s') 13 = param (pm_array s) 13 \/ param (pm_array s') 13 = d_add (param (pm_array s) 13) (d_lit 5 3)) /\
  (forall i, (i < 14)%nat -> i <> 11%nat -> i <> 13%nat -> param (pm_array s') i = param (pm_array s) i) /\ cyc s' = cyc s.
Proof.
  intros Hl H. unfold vemu_aging_evaluation in H.
  apply bind_Done in H as (a & s1 & H1 & H). apply act_time_frame in H1 as ->.
  apply bind_Done in H as (g & s1 & H1 & H). apply act_time_frame in H1 as ->.
  apply bind_Done in H as (z & s1 & H1 & H). apply slp_time_frame in H1 as [Ep Ec].
  apply bind_Done in H as (p & s2 & H1 & H). apply gets_Done in H1 as [<- <-]. cbv zeta in H.
  rewrite Ep in *. rewrite <- Ec.
  match type of H with context [threshold_shift ?x ?y ?t] => set (dv := threshold_shift x y t) in * end. clearbody dv.
  apply bind_Done in H as (? & s2 & H1 & H). apply bind_Done in H as (? & s3 & H2 & H). mruns.
  all: cbn [pm_array set_pm_array cyc]; rewrite ?Ep.
  all: split_and!; try reflexivity.
  all: try (intros i Hi H11 H13).
  all: rewrite ?param_zset by (rewrite ?length_zset, Hl; unfold slot_delta_vtp, slot_Vdd_scalar; cbn; lia).
  all: unfold slot_delta_vtp, slot_Vdd_scalar; repeat (destruct (decide _); try (exfalso; cbn in *; lia)); auto.
Qed.
End Aging.
