(* ===== verification/HwModule.v ===== *)
(** * The memory-mapped device: [vemu_hw_module.c]

    The guest sees the accounting as a 4 KiB device: a write to [READ_CMD]
    takes a snapshot of the counters into [last_state], reads return bytes
    of the snapshot, and three write offsets set the fault register, the
    frequency and the voltage.  [last_state] is a C union of the register
    struct with byte and word arrays; it is modelled by its bytes, in the
    little-endian order of the host. *)
From stdpp Require Import base list relations.
From S2P Require Import Prelude Double ArmTable State Power Cycles Energy.
Open Scope Z_scope.

Definition SET_FAULTS : Z := 0x000.
Definition SET_FREQUENCY : Z := SET_FAULTS + 8.
Definition SET_VOLTAGE : Z := SET_FREQUENCY + 8.
Definition READ_CMD : Z := 0xD00.
Definition EXIT_CMD : Z := 0xF00.
Definition VEMU_STATE_N_VARS : Z := MAX_INSTR_CLASSES * 3 + 8.

(** ** [vemu_regs]: the index of each field in [array64] *)
Definition reg_act_time (i : Z) : Z := i.
Definition reg_act_energy (i : Z) : Z := 4 + i.
Definition reg_cycles (i : Z) : Z := 8 + i.
Definition reg_total_act_time : Z := 12.
Definition reg_total_act_energy : Z := 13.
Definition reg_total_cycles : Z := 14.
Definition reg_slp_time : Z := 15.
Definition reg_slp_energy : Z := 16.
Definition reg_fault_status : Z := 17.
Definition reg_frequency : Z := 18.
Definition reg_voltage : Z := 19.

Definition set_reg (i v : Z) : M vemu_st unit := modify (fun s => set_last_state (put64 (last_state s) i v) s).

Section Ops.
Context {CLK : VmClock} {PM : PowerModel}.

(** [rv] is uninitialised: [rv0] is its indeterminate value, of which the
    [memcpy] overwrites the low [size] bytes. *)
Definition vemu_mod_read (rv0 : Z) (offset size : Z) : M vemu_st Z :=
  massert (offset <=? VEMU_STATE_N_VARS * 8) ;;
  let! b := gets last_state in
  if (0 <=? offset) && (offset + size <=? Z.of_nat (length b)) then
    ret (le_val (take (Z.to_nat size) (drop (Z.to_nat offset) b))
         + 256 ^ size * (rv0 / 256 ^ size))
  else undefined.

(** The [READ_CMD] case: the loop body, then the totals. *)
Definition read_class (i : Z) : M vemu_st unit :=
  (let! t := vemu_get_act_time i in set_reg (reg_act_time i) t) ;;
  (let! e := vemu_get_act_energy i in set_reg (reg_act_energy i) e) ;;
  (let! c := vemu_get_cycles i in set_reg (reg_cycles i) c).

Definition read_totals : M vemu_st unit :=
  (let! t := vemu_get_act_time_all_classes in set_reg reg_total_act_time t) ;;
  (let! e := vemu_get_act_energy_all_classes in set_reg reg_total_act_energy e) ;;
  (let! c := vemu_get_cycles_all_classes in set_reg reg_total_cycles c) ;;
  (let! t := vemu_get_slp_time in set_reg reg_slp_time t) ;;
  (let! e := vemu_get_slp_energy in set_reg reg_slp_energy e) ;;
  (let! f := gets vemu_errors_enabled in set_reg reg_fault_status f) ;;
  (let! f := vemu_pm_get_parameter 0 0 in let! z := defined (d_to_u64 f) in set_reg reg_frequency z) ;;
  (let! v := vemu_pm_get_parameter 0 1 in
   let! z := defined (d_to_u64 (d_mul v (d_of_Z 1000))) in set_reg reg_voltage z).

Definition read_cmd : M vemu_st unit := mfor all_classes read_class ;; read_totals.

(** [val] is a [uint64_t]; offsets without a case are ignored. *)
Definition vemu_mod_write (offset val size : Z) : M vemu_st unit :=
  if offset =? SET_FAULTS then modify (set_errors_enabled val)
  else if offset =? SET_FREQUENCY then vemu_pm_change_parameter 0 0 (d_of_Z val)
  else if offset =? SET_VOLTAGE then vemu_pm_change_parameter 0 1 (d_div (d_of_Z val) (d_of_Z 1000))
  else if offset =? READ_CMD then read_cmd
  else if offset =? EXIT_CMD then mexit (-1)
  else ret tt.
End Ops.

(** ** The union *)

Definition state_bytes (b : list Z) : Prop := length b = 160%nat /\ Forall is_byte b.

Lemma put64_bytes b i v : state_bytes b -> 0 <= i < 20 -> state_bytes (put64 b i v).
Proof.
  intros [L F] Hi. unfold put64. split.
  - rewrite !length_app, length_take, length_drop, length_le_bytes. lia.
  - repeat apply Forall_app_2; auto using Forall_take, Forall_drop, le_bytes_byte.
Qed.

(** Assigning a register and reading it back. *)
Lemma get_put_eq b i v : state_bytes b -> 0 <= i < 20 -> is_u64 v -> get64 (put64 b i v) i = v.
Proof.
  intros [L F] Hi Hv. unfold get64, put64.
  assert (Hl : length (take (Z.to_nat (8 * i)) b) = Z.to_nat (8 * i)) by (rewrite length_take; lia).
  rewrite <- Hl at 1. rewrite drop_app_length. rewrite take_app_length' by (rewrite length_le_bytes; reflexivity).
  rewrite le_val_bytes. change (256 ^ Z.of_nat 8) with (2 ^ 64). apply Z.mod_small. exact Hv.
Qed.

Lemma get_put_ne b i j v : state_bytes b -> 0 <= i < 20 -> 0 <= j < 20 -> i <> j ->
  get64 (put64 b i v) j = get64 b j.
Proof.
  intros [L F] Hi Hj Hne. unfold get64, put64. f_equal.
  apply list_eq. intros k. destruct (decide (k < 8)%nat) as [Hk|Hk].
  - rewrite !lookup_take, !lookup_drop. destruct (decide _); [|lia].
    set (p := (Z.to_nat (8 * j) + k)%nat). destruct (decide (j < i)) as [Hlt|Hge].
    + rewrite lookup_app_l by (rewrite length_take; lia). rewrite lookup_take. destruct (decide _); [reflexivity|lia].
    + rewrite lookup_app_r by (rewrite length_take; lia).
      rewrite lookup_app_r by (rewrite length_take, length_le_bytes; lia).
      rewrite lookup_drop, length_take, length_le_bytes. f_equal. lia.
  - rewrite !lookup_take. destruct (decide (k < 8)%nat); [lia|reflexivity].
Qed.

(** A sequence of register assignments. *)
Definition puts (b : list Z) (l : list (Z * Z)) : list Z := fold_left (fun b '(i, v) => put64 b i v) l b.

Lemma puts_app b l k : puts b (l ++ k) = puts (puts b l) k.
Proof. apply fold_left_app. Qed.

Lemma puts_bytes l : Forall (fun '(i, _) => 0 <= i < 20) l -> forall b, state_bytes b -> state_bytes (puts b l).
Proof.
  induction 1 as [|[i v] l Hi _ IH]; intros b Hb; [exact Hb|]. apply IH, put64_bytes; assumption.
Qed.

Lemma puts_other l i : Forall (fun '(j, _) => 0 <= j < 20 /\ j <> i) l -> 0 <= i < 20 ->
  forall b, state_bytes b -> get64 (puts b l) i = get64 b i.
Proof.
  induction 1 as [|[j v] l [Hj Hne] _ IH]; intros Hi b Hb; [reflexivity|].
  cbn [puts fold_left]. fold (puts (put64 b j v) l).
  rewrite IH by auto using put64_bytes. apply get_put_ne; auto.
Qed.

(** The last assignment of a register decides what it holds. *)
Lemma puts_get l1 i v l2 b : state_bytes b -> 0 <= i < 20 -> is_u64 v ->
  Forall (fun '(j, _) => 0 <= j < 20) l1 -> Forall (fun '(j, _) => 0 <= j < 20 /\ j <> i) l2 ->
  get64 (puts b (l1 ++ (i, v) :: l2)) i = v.
Proof.
  intros Hb Hi Hv H1 H2. unfold puts. rewrite fold_left_app. cbn [fold_left].
  fold (puts b l1). fold (puts (put64 (puts b l1) i v) l2).
  assert (state_bytes (puts b l1)) by (apply puts_bytes; assumption).
  rewrite puts_other by auto using put64_bytes. apply get_put_eq; assumption.
Qed.

(** ** A snapshot *)

Section Snapshot.
Context {CLK : VmClock} {PM : PowerModel}.

(** What [vemu_get_cycles_all_classes] computes. *)
Definition cyc_all (l : list double) : option Z :=
  fold_left (fun acc x => match acc with Some s => d_to_u64 (d_add (d_of_Z s) x) | None => None end) l (Some 0).

(** The values a snapshot of [s] reads: per class the active time, energy
    and cycles, then the totals, sleep time and energy, frequency, voltage. *)
Record snap : Type := {
  sn_time : Z -> Z; sn_ckpt : Z -> Z; sn_old : Z -> double; sn_energy : Z -> Z; sn_cycles : Z -> Z;
  sn_total_time : Z; sn_total_cycles : Z; sn_slp_time : Z; sn_slp_energy : Z;
  sn_freq : Z; sn_volt : Z; sn_reads : nat; sn_reads2 : nat; sn_slp_time2 : Z
}.

(** The state is ready for a snapshot with the values [n]: every conversion
    to an integer is defined and the model's power is a number. *)
Record snap_ready (s : vemu_st) (n : snap) : Prop := {
  sr_bytes : state_bytes (last_state s);
  sr_energy : energy_wf (eng s);
  sr_params : param_ok s 0 /\ param_ok s 1;
  sr_charge : forall k, 0 <= k < 4 -> chargeable s k (sn_time n k) (sn_ckpt n k) (sn_old n k) (sn_energy n k);
  sr_power : forall k, 0 <= k < 4 -> d_nonneg (pm_act_power (pm_array s) k) /\
               d_nonneg (charged (pm_array s) k (sn_time n k) (sn_ckpt n k) (sn_old n k));
  sr_cycles : length (cycle_count (cyc s)) = 4%nat /\ length (active_time (cyc s)) = 4%nat /\
    forall k, 0 <= k < 4 -> exists x, znth (cycle_count (cyc s)) k = Some x /\ d_to_u64 x = Some (sn_cycles n k);
  sr_total_time : act_all (cyc s) = Some (sn_total_time n);
  sr_total_cycles : cyc_all (cycle_count (cyc s)) = Some (sn_total_cycles n);
  sr_faults : is_u64 (vemu_errors_enabled s);
  sr_slp_u64 : is_u64 (sn_slp_time n);
  sr_slp : slp_time_of s = Some (sn_slp_time n, sn_reads n);
  sr_slp2 : slp_time_of (set_clock_reads (sn_reads n) s) = Some (sn_slp_time2 n, sn_reads2 n);
  sr_slp_energy : 0 <= s64 (sn_slp_time2 n - slp_time_ckpt (eng s)) /\
    d_to_u64 (d_add (slp_energy (eng s))
      (d_mul (d_of_Z (s64 (sn_slp_time2 n - slp_time_ckpt (eng s)))) (pm_slp_power (pm_array s)))) = Some (sn_slp_energy n);
  sr_freq : exists f, znth (pm_array s) 0 = Some f /\ d_to_u64 f = Some (sn_freq n);
  sr_volt : exists v, znth (pm_array s) 1 = Some v /\ d_to_u64 (d_mul v (d_of_Z 1000)) = Some (sn_volt n)
}.

(** The registers of the classes, in the order of the loop. *)
Definition class_regs (n : snap) : list (Z * Z) :=
  concat ((fun k => [(reg_act_time k, sn_time n k); (reg_act_energy k, sn_energy n k); (reg_cycles k, sn_cycles n k)])
            <$> all_classes).

Definition total_regs (n : snap) (faults : Z) : list (Z * Z) :=
  [(reg_total_act_time, sn_total_time n);
   (reg_total_act_energy, u64 (sn_energy n 0 + sn_energy n 1 + sn_energy n 2 + sn_energy n 3));
   (reg_total_cycles, sn_total_cycles n); (reg_slp_time, sn_slp_time n); (reg_slp_energy, sn_slp_energy n);
   (reg_fault_status, faults); (reg_frequency, sn_freq n); (reg_voltage, sn_volt n)].

(** The register assignments of a snapshot, in the order of the code. *)
Definition snap_regs (n : snap) (faults : Z) : list (Z * Z) := class_regs n ++ total_regs n faults.

(** A state that differs from [s] in energy, snapshot bytes and clock reads. *)
Definition upd (s : vemu_st) (e : energy_st) (b : list Z) (r : nat) : vemu_st :=
  set_clock_reads r (set_last_state b (set_eng e s)).

Lemma set_reg_run s e b r i v : set_reg i v (upd s e b r) = Done (tt, upd s e (put64 b i v) r).
Proof. reflexivity. Qed.

Lemma get_cycles_run s k x z : 0 <= k < 4 -> znth (cycle_count (cyc s)) k = Some x -> d_to_u64 x = Some z ->
  vemu_get_cycles k s = Done (z, s).
Proof.
  intros Hk Hx Hz. unfold vemu_get_cycles, massert, MAX_INSTR_CLASSES. unfold bind at 1.
  destruct (Z.ltb_spec k 4); [|lia]. unfold bind, gets, arr_get. rewrite Hx. cbn. rewrite Hz. reflexivity.
Qed.

Lemma get_cycles_all_run s z : length (cycle_count (cyc s)) = 4%nat -> cyc_all (cycle_count (cyc s)) = Some z ->
  vemu_get_cycles_all_classes s = Done (z, s).
Proof.
  intros Hl. destruct (list4 _ Hl) as (a & b & c & d & E). unfold cyc_all. rewrite E. cbn [fold_left].
  intros Hz. destruct (d_to_u64 (d_add (d_of_Z 0) a)) as [z1|] eqn:E1; [|discriminate].
  destruct (d_to_u64 (d_add (d_of_Z z1) b)) as [z2|] eqn:E2; [|discriminate].
  destruct (d_to_u64 (d_add (d_of_Z z2) c)) as [z3|] eqn:E3; [|discriminate].
  assert (Hstep : forall acc i x r, znth (cycle_count (cyc s)) i = Some x -> d_to_u64 (d_add (d_of_Z acc) x) = Some r ->
    (let! c := gets cyc in let! x := arr_get (cycle_count c) i in defined (d_to_u64 (d_add (d_of_Z acc) x))) s = Done (r, s)).
  { intros acc i x r Hx Hr. unfold bind, gets, arr_get. rewrite Hx. cbn [defined]. unfold ret. rewrite Hr. reflexivity. }
  rewrite E in Hstep. unfold vemu_get_cycles_all_classes, all_classes. cbn [mfold].
  erewrite bind_run by (apply (Hstep 0 0 a); [reflexivity|exact E1]). cbn beta.
  erewrite bind_run by (apply (Hstep z1 1 b); [reflexivity|exact E2]). cbn beta.
  erewrite bind_run by (apply (Hstep z2 2 c); [reflexivity|exact E3]). cbn beta.
  erewrite bind_run by (apply (Hstep z3 3 d); [reflexivity|exact Hz]). reflexivity.
Qed.

Lemma get_parameter_run s k v : param_ok s k -> znth (pm_array s) k = Some v ->
  vemu_pm_get_parameter 0 k s = Done (v, s).
Proof.
  intros [Hk _] Hv. unfold vemu_pm_get_parameter, massert. unfold bind at 1.
  destruct (Z.ltb_spec k pm_size); [|lia]. unfold bind, gets, arr_get. rewrite Hv. reflexivity.
Qed.

Lemma set_eng_upd s e b r e' : set_eng e' (upd s e b r) = upd s e' b r.
Proof. reflexivity. Qed.
Lemma set_clock_upd s e b r r' : set_clock_reads r' (upd s e b r) = upd s e b r'.
Proof. reflexivity. Qed.

Lemma chargeable_upd s e b r k t c a z :
  chargeable (set_eng e s) k t c a z -> chargeable (upd s e b r) k t c a z.
Proof. intros [? ? ? ? ?]. split; assumption. Qed.

Lemma chargeable_id s k t c a z : chargeable s k t c a z -> chargeable (set_eng (eng s) s) k t c a z.
Proof. intros [? ? ? ? ?]. split; assumption. Qed.

(** One iteration of the per-class loop. *)
Lemma read_class_run s n e b r k : snap_ready s n -> 0 <= k < 4 ->
  chargeable (set_eng e s) k (sn_time n k) (sn_ckpt n k) (sn_old n k) (sn_energy n k) ->
  read_class k (upd s e b r)
  = Done (tt, upd s (charge e k (sn_time n k) (charged (pm_array s) k (sn_time n k) (sn_ckpt n k) (sn_old n k)))
      (puts b [(reg_act_time k, sn_time n k); (reg_act_energy k, sn_energy n k); (reg_cycles k, sn_cycles n k)]) r).
Proof.
  intros Hs Hk Hch. destruct (ch_time _ _ _ _ _ _ Hch) as (x & Hx & Hxt).
  destruct (sr_cycles s n Hs) as (_ & _ & Hcy). destruct (Hcy k Hk) as (y & Hy & Hyc).
  unfold read_class. erewrite bind_run.
  2:{ erewrite bind_run by (eapply get_act_time_run; [exact Hk|exact Hx|exact Hxt]). apply set_reg_run. }
  cbn beta. erewrite bind_run.
  2:{ erewrite bind_run by (apply get_act_energy_run, chargeable_upd; exact Hch). apply (set_reg_run s (charge e k _ _)). }
  cbn beta. erewrite bind_run by (eapply get_cycles_run; [exact Hk|exact Hy|exact Hyc]). apply (set_reg_run s (charge e k _ _)).
Qed.

(** The loop leaves every class charged up to now. *)
Lemma read_classes_run s n : snap_ready s n ->
  exists e, mfor all_classes read_class s = Done (tt, upd s e (puts (last_state s) (class_regs n)) (clock_reads s)) /\
    slp_energy e = slp_energy (eng s) /\ slp_time_ckpt e = slp_time_ckpt (eng s) /\
    forall k, 0 <= k < 4 -> chargeable (set_eng e s) k (sn_time n k) (sn_time n k)
      (charged (pm_array s) k (sn_time n k) (sn_ckpt n k) (sn_old n k)) (sn_energy n k).
Proof.
  intros Hs. set (t := sn_time n). set (ch k := charged (pm_array s) k (t k) (sn_ckpt n k) (sn_old n k)).
  set (e1 := charge (eng s) 0 (t 0) (ch 0)). set (e2 := charge e1 1 (t 1) (ch 1)).
  set (e3 := charge e2 2 (t 2) (ch 2)). set (e4 := charge e3 3 (t 3) (ch 3)).
  assert (Hc := sr_charge s n Hs).
  destruct (charge_all_lookup (eng s) t ch (sr_energy s n Hs)) as [_ Hlk]. fold e1 e2 e3 e4 in Hlk.
  exists e4. split_and!; try reflexivity.
  - replace s with (upd s (eng s) (last_state s) (clock_reads s)) at 1 by (destruct s; reflexivity).
    unfold all_classes. cbn [mfor].
    erewrite bind_run by (apply (read_class_run s n); [exact Hs|lia|apply chargeable_id, (Hc 0); lia]). cbn beta.
    erewrite bind_run by (apply (read_class_run s n e1); [exact Hs|lia|];
      apply chargeable_other; [lia..|apply Hc; lia]). cbn beta.
    erewrite bind_run by (apply (read_class_run s n e2); [exact Hs|lia|];
      apply (chargeable_other (set_eng e1 s) 1); [lia..|]; apply chargeable_other; [lia..|apply Hc; lia]). cbn beta.
    erewrite bind_run by (apply (read_class_run s n e3); [exact Hs|lia|];
      apply (chargeable_other (set_eng e2 s) 2); [lia..|]; apply (chargeable_other (set_eng e1 s) 1); [lia..|];
      apply chargeable_other; [lia..|apply Hc; lia]). reflexivity.
  - intros k Hk. destruct (Hlk k Hk) as [La Lb], (sr_power s n Hs k Hk) as [Hp Hn], (Hc k Hk) as [? ? _ _ Hz].
    split; try assumption. cbn [pm_array set_eng]. rewrite charged_same by assumption. exact Hz.
Qed.

(** The totals after the loop. *)
Lemma read_totals_run s n e b : snap_ready s n ->
  slp_energy e = slp_energy (eng s) -> slp_time_ckpt e = slp_time_ckpt (eng s) ->
  (forall k, 0 <= k < 4 -> chargeable (set_eng e s) k (sn_time n k) (sn_time n k)
      (charged (pm_array s) k (sn_time n k) (sn_ckpt n k) (sn_old n k)) (sn_energy n k)) ->
  exists e', read_totals (upd s e b (clock_reads s)) = Done (tt, upd s e'
    (puts b (total_regs n (vemu_errors_enabled s))) (sn_reads2 n)).
Proof.
  intros Hs He1 He2 Hch. destruct (sr_cycles s n Hs) as (Lc & La & _).
  destruct (sr_slp_energy s n Hs) as [Hsi Hse]. destruct (sr_params s n Hs) as [P0 P1].
  destruct (sr_freq s n Hs) as (f & Hf & Hfz), (sr_volt s n Hs) as (v & Hv & Hvz).
  unfold read_totals.
  erewrite bind_run.
  2:{ erewrite bind_run by (rewrite act_time_all_run by exact La;
        rewrite (sr_total_time s n Hs : act_all (cyc (upd s e b (clock_reads s))) = _); reflexivity). apply set_reg_run. }
  cbn beta. erewrite bind_run.
  2:{ erewrite bind_run by (apply act_energy_all_run; intros k Hk; apply chargeable_upd, Hch, Hk).
      cbn beta. rewrite set_eng_upd. apply set_reg_run. }
  cbn beta. match goal with |- context [upd s ?x _ _] => set (e' := x) end. erewrite bind_run.
  2:{ erewrite bind_run by (apply get_cycles_all_run; [exact Lc|exact (sr_total_cycles s n Hs)]). apply (set_reg_run s e'). }
  cbn beta. erewrite bind_run.
  2:{ erewrite bind_run by (rewrite get_slp_time_run;
        rewrite (sr_slp s n Hs : slp_time_of (upd s e' _ (clock_reads s)) = _); reflexivity).
      apply (set_reg_run s e' _ (sn_reads n)). }
  cbn beta. erewrite bind_run.
  2:{ erewrite bind_run by (apply (slp_energy_run _ (sn_slp_time2 n) (sn_reads2 n));
        [exact (sr_slp2 s n Hs)|cbn; rewrite He2; exact Hsi|cbn; rewrite He1, He2; exact Hse]).
      cbn beta. rewrite set_clock_upd, set_eng_upd. apply set_reg_run. }
  cbn beta. match goal with |- context [upd s ?x _ _] => set (e'' := x) end. erewrite bind_run.
  2:{ erewrite bind_run by reflexivity. apply (set_reg_run s e''). }
  cbn beta. erewrite bind_run.
  2:{ erewrite bind_run by (apply get_parameter_run; [exact P0|exact Hf]). cbn beta. rewrite Hfz.
      erewrite bind_run by reflexivity. apply (set_reg_run s e''). }
  cbn beta. erewrite bind_run by (apply get_parameter_run; [exact P1|exact Hv]). cbn beta. rewrite Hvz.
  erewrite bind_run by reflexivity. eexists. apply (set_reg_run s e'').
Qed.

Lemma puts_get_in l b i v : NoDup l.*1 -> Forall (fun '(j, w) => 0 <= j < 20 /\ is_u64 w) l ->
  state_bytes b -> (i, v) ∈ l -> get64 (puts b l) i = v.
Proof.
  intros Hnd Hl Hb Hin. apply list_elem_of_split in Hin as (l1 & l2 & ->).
  rewrite fmap_app in Hnd. cbn in Hnd. apply NoDup_app in Hnd as (_ & _ & Hnd).
  apply NoDup_cons in Hnd as [Hni _]. apply Forall_app in Hl as [H1 H2]. apply Forall_cons in H2 as [[Hi Hv] H2].
  apply puts_get; try assumption.
  - eapply Forall_impl; [exact H1|]. intros [j w] [? _]. assumption.
  - apply Forall_forall. intros [j w] Hj. rewrite Forall_forall in H2. destruct (H2 _ Hj). split; [assumption|].
    intros ->. apply Hni, list_elem_of_fmap. exists (i, w). auto.
Qed.

Lemma snap_regs_ok s n : snap_ready s n ->
  NoDup (snap_regs n (vemu_errors_enabled s)).*1 /\
  Forall (fun '(j, w) => 0 <= j < 20 /\ is_u64 w) (snap_regs n (vemu_errors_enabled s)).
Proof.
  intros Hs. split.
  - change ((snap_regs n (vemu_errors_enabled s)).*1) with [0; 4; 8; 1; 5; 9; 2; 6; 10; 3; 7; 11; 12; 13; 14; 15; 16; 17; 18; 19].
    apply (bool_decide_unpack _). vm_compute. exact I.
  - assert (Hk : forall k, 0 <= k < 4 -> is_u64 (sn_time n k) /\ is_u64 (sn_energy n k) /\ is_u64 (sn_cycles n k)).
    { intros k Hk. destruct (sr_charge s n Hs k Hk) as [_ (x & _ & Ht) _ _ Hz].
      destruct (sr_cycles s n Hs) as (_ & _ & Hc). destruct (Hc k Hk) as (y & _ & Hy).
      split_and!; eapply d_to_u64_range; eassumption. }
    destruct (Hk 0 ltac:(lia)) as (? & ? & ?), (Hk 1 ltac:(lia)) as (? & ? & ?),
      (Hk 2 ltac:(lia)) as (? & ? & ?), (Hk 3 ltac:(lia)) as (? & ? & ?).
    assert (Ht : is_u64 (sn_total_time n)) by (eapply d_to_u64_range; exact (sr_total_time s n Hs)).
    assert (Hc : is_u64 (sn_total_cycles n)).
    { pose proof (sr_total_cycles s n Hs) as E. destruct (sr_cycles s n Hs) as (L & _).
      destruct (list4 _ L) as (a & b & c & d & El). rewrite El in E. unfold cyc_all in E. cbn [fold_left] in E.
      repeat (case_match; try discriminate). eapply d_to_u64_range; exact E. }
    assert (He : is_u64 (sn_slp_energy n)) by (eapply d_to_u64_range; exact (proj2 (sr_slp_energy s n Hs))).
    assert (Hf : is_u64 (sn_freq n)) by (destruct (sr_freq s n Hs) as (? & _ & E); eapply d_to_u64_range; exact E).
    assert (Hv : is_u64 (sn_volt n)) by (destruct (sr_volt s n Hs) as (? & _ & E); eapply d_to_u64_range; exact E).
    pose proof (sr_faults s n Hs). pose proof (sr_slp_u64 s n Hs).
    unfold snap_regs, class_regs, total_regs. cbn [all_classes fmap list_fmap concat app].
    repeat (apply Forall_cons; split; [split; [vm_compute; split; congruence|first [assumption|apply u64_range]]|]).
    apply Forall_nil_2.
Qed.

Lemma read_cmd_run s n : snap_ready s n ->
  exists e, read_cmd s = Done (tt, upd s e (puts (last_state s) (snap_regs n (vemu_errors_enabled s))) (sn_reads2 n)).
Proof.
  intros Hs. unfold read_cmd. destruct (read_classes_run s n Hs) as (e & Hr & He1 & He2 & Hch).
  erewrite bind_run by exact Hr. cbn beta.
  destruct (read_totals_run s n e (puts (last_state s) (class_regs n)) Hs He1 He2 Hch) as [e' Ht].
  exists e'. rewrite Ht. unfold snap_regs. rewrite puts_app. reflexivity.
Qed.

Lemma snapshot_get s n i w : snap_ready s n -> (i, w) ∈ snap_regs n (vemu_errors_enabled s) ->
  get64 (puts (last_state s) (snap_regs n (vemu_errors_enabled s))) i = w.
Proof.
  intros Hs Hin. destruct (snap_regs_ok s n Hs) as [Hnd Hall].
  apply puts_get_in; try assumption. apply (sr_bytes s n Hs).
Qed.

Lemma snapshot_bytes s n : snap_ready s n ->
  state_bytes (puts (last_state s) (snap_regs n (vemu_errors_enabled s))).
Proof.
  intros Hs. apply puts_bytes; [|apply (sr_bytes s n Hs)].
  eapply Forall_impl; [exact (proj2 (snap_regs_ok s n Hs))|]. intros [j w] [? _]. assumption.
Qed.

(** C4.  A write to [READ_CMD] takes a complete snapshot: it succeeds
    whenever the conversions to integers are defined, and afterwards each of
    the twenty registers reads as its counter: the per-class times, energies
    and cycles, the totals (the total energy being the sum of the per-class
    energies just stored), the sleep time and energy, the fault register,
    frequency and voltage.  The cycle counters, the fault register and the
    model parameters are unchanged. *)
Theorem read_cmd_snapshot s n v size : snap_ready s n ->
  exists s', vemu_mod_write READ_CMD v size s = Done (tt, s') /\ state_bytes (last_state s') /\
    (forall i w, (i, w) ∈ snap_regs n (vemu_errors_enabled s) -> get64 (last_state s') i = w) /\
    cyc s' = cyc s /\ vemu_errors_enabled s' = vemu_errors_enabled s /\ pm_array s' = pm_array s.
Proof.
  intros Hs. destruct (read_cmd_run s n Hs) as [e Hr]. eexists. split; [exact Hr|].
  split_and!; [exact (snapshot_bytes s n Hs)|intros i w; exact (snapshot_get s n i w Hs)|reflexivity..].
Qed.

(** ** Reading the device *)

Lemma mod_read_run rv0 off size s : state_bytes (last_state s) -> 0 <= off -> 0 <= size -> off + size <= 160 ->
  vemu_mod_read rv0 off size s = Done (le_val (take (Z.to_nat size) (drop (Z.to_nat off) (last_state s)))
    + 256 ^ size * (rv0 / 256 ^ size), s).
Proof.
  intros [L _] H0 Hs Ho. unfold vemu_mod_read, massert.
  change (VEMU_STATE_N_VARS * 8) with 160. unfold bind, gets.
  destruct (Z.leb_spec off 160); [|lia]. destruct (Z.leb_spec 0 off); [|lia]. rewrite L.
  change (Z.of_nat 160) with 160. destruct (Z.leb_spec (off + size) 160); [|lia]. reflexivity.
Qed.

(** What the bus delivers for an access of [size] bytes: the low bytes of
    the returned value, so the indeterminate bytes of [rv] never reach the
    guest. *)
Lemma mod_read_low rv0 off size s : state_bytes (last_state s) -> 0 <= off -> 0 <= size -> off + size <= 160 ->
  exists v, vemu_mod_read rv0 off size s = Done (v, s) /\
    v mod 256 ^ size = le_val (take (Z.to_nat size) (drop (Z.to_nat off) (last_state s))).
Proof.
  intros Hb H0 Hs Ho. eexists. split; [apply mod_read_run; assumption|].
  assert (0 < 256 ^ size) by (apply Z.pow_pos_nonneg; lia).
  rewrite (Z.mul_comm (256 ^ size)), Z.mod_add by lia. apply Z.mod_small. destruct Hb as [L F].
  pose proof (le_val_range (take (Z.to_nat size) (drop (Z.to_nat off) (last_state s)))) as R.
  rewrite length_take, length_drop, L in R.
  replace (Z.of_nat (_ `min` _)%nat) with size in R by lia. apply R. apply Forall_take, Forall_drop, F.
Qed.

(**  A guest that reads a register as two 32-bit words, low word
    first, gets the 64-bit register, whatever the uninitialised [rv] holds
    at either read. *)
Lemma word_reads_give_register s i r1 r2 : state_bytes (last_state s) -> 0 <= i < 20 ->
  exists lo hi, vemu_mod_read r1 (8 * i) 4 s = Done (lo, s) /\ vemu_mod_read r2 (8 * i + 4) 4 s = Done (hi, s) /\
    u32 lo + 2 ^ 32 * u32 hi = get64 (last_state s) i.
Proof.
  intros Hb Hi. destruct (mod_read_low r1 (8 * i) 4 s Hb) as (lo & Hlo & El); [lia..|].
  destruct (mod_read_low r2 (8 * i + 4) 4 s Hb) as (hi & Hhi & Eh); [lia..|].
  exists lo, hi. split_and!; [exact Hlo|exact Hhi|]. unfold u32. change (2 ^ 32) with (256 ^ 4). rewrite El, Eh.
  unfold get64. replace (Z.to_nat (8 * i + 4)) with (Z.to_nat (8 * i) + 4)%nat by lia.
  rewrite <- drop_drop. set (l := drop (Z.to_nat (8 * i)) (last_state s)).
  assert (Hl : length (take 4 l) = 4%nat) by (unfold l; rewrite length_take, length_drop, (proj1 Hb); lia).
  replace (take 8 l) with (take 4 l ++ take 4 (drop 4 l)).
  - rewrite le_val_app, Hl. reflexivity.
  - rewrite <- (take_drop 4 l) at 3. rewrite take_app, take_take, Hl. reflexivity.
Qed.

(** The bounds of the read handler.  An offset beyond 160 fails the
    assertion; an access that starts at or before 160 and ends after the
    160-byte snapshot passes the assertion and reads outside the union. *)
Lemma read_bounds s rv0 off size : state_bytes (last_state s) -> 0 <= off -> 0 < size ->
  (160 < off -> vemu_mod_read rv0 off size s = AssertFailed) /\
  (off <= 160 < off + size -> vemu_mod_read rv0 off size s = Undefined) /\
  (off + size <= 160 -> exists v, vemu_mod_read rv0 off size s = Done (v, s)).
Proof.
  intros Hb H0 Hs. split_and!; intros H.
  - unfold vemu_mod_read, bind, massert. change (VEMU_STATE_N_VARS * 8) with 160.
    destruct (Z.leb_spec off 160); [lia|reflexivity].
  - unfold vemu_mod_read, bind, massert, gets. change (VEMU_STATE_N_VARS * 8) with 160.
    destruct (Z.leb_spec off 160); [|lia]. rewrite (proj1 Hb). change (Z.of_nat 160) with 160.
    destruct (Z.leb_spec (off + size) 160); [lia|]. rewrite andb_false_r. reflexivity.
  - eexists. apply mod_read_run; auto; lia.
Qed.

(** ** Setting the frequency and the voltage *)

Lemma set_frequency_run s v size : param_ok s 0 ->
  vemu_mod_write SET_FREQUENCY v size s = Done (tt, set_pm_array (zset (pm_array s) 0 (d_of_Z v)) s).
Proof. intros H. exact (change_parameter_run s 0 0 (d_of_Z v) H). Qed.

Lemma set_voltage_run s v size : param_ok s 1 ->
  vemu_mod_write SET_VOLTAGE v size s =
    Done (tt, set_pm_array (zset (pm_array s) 1 (d_div (d_of_Z v) (d_of_Z 1000))) s).
Proof. intros H. exact (change_parameter_run s 0 1 _ H). Qed.

(**  A frequency change by the guest is not preceded by a charge: the
    time a class ran since its checkpoint, at the old frequency, is charged
    at the power of the new parameters by the next query.  (The monitor's
    change, [vemu_energy_change_parameter], charges it at the old ones.) *)
Lemma guest_frequency_charges_new_power s k t c a z v size : param_ok s 0 ->
  let pm' := zset (pm_array s) 0 (d_of_Z v) in
  chargeable (set_pm_array pm' s) k t c a z ->
  exists s' s'', vemu_mod_write SET_FREQUENCY v size s = Done (tt, s') /\
    vemu_get_act_energy k s' = Done (z, s'') /\
    znth (act_energy (eng s'')) k = Some (charged pm' k t c a).
Proof.
  intros Hp pm' Hch. do 2 eexists. split; [apply set_frequency_run; exact Hp|].
  split; [apply get_act_energy_run; exact Hch|]. destruct Hch as [_ _ _ Ha _]. cbn.
  apply znth_Some in Ha as [La _]. apply znth_zset_eq. exact La.
Qed.

(**  The frequency register: a 32-bit frequency written by the guest
    is the frequency the next snapshot reports. *)
Lemma frequency_roundtrip s v size n : is_u32 v -> param_ok s 0 ->
  snap_ready (set_pm_array (zset (pm_array s) 0 (d_of_Z v)) s) n ->
  exists s' s'', vemu_mod_write SET_FREQUENCY v size s = Done (tt, s') /\
    vemu_mod_write READ_CMD 0 size s' = Done (tt, s'') /\ get64 (last_state s'') reg_frequency = v.
Proof.
  intros Hv Hp Hs. destruct (read_cmd_run _ n Hs) as [e Hr].
  do 2 eexists. split; [apply set_frequency_run; exact Hp|]. split; [exact Hr|]. cbn [last_state upd set_clock_reads set_last_state].
  apply (snapshot_get _ n); [exact Hs|].
  destruct (sr_freq _ n Hs) as (f & Hf & Hz). cbn [pm_array set_pm_array] in Hf.
  destruct Hp as [Hp0 Hp1]. rewrite znth_zset_eq in Hf by lia. injection Hf as <-.
  rewrite d_to_u64_of_Z in Hz by (unfold is_u32 in Hv; lia). injection Hz as E.
  unfold snap_regs, total_regs. apply elem_of_app. right. rewrite <- E. do 6 apply list_elem_of_further. apply list_elem_of_here.
Qed.
End Snapshot.

(** The register the snapshot shows for a voltage set to [v] millivolts. *)
Definition voltage_readback (v : Z) : option Z :=
  d_to_u64 (d_mul (d_div (d_of_Z v) (d_of_Z 1000)) (d_of_Z 1000)).

Lemma voltage_readback_exact v : 0 <= v <= 1000 -> voltage_readback v = Some v.
Proof.
  intros Hv. assert (Hall : forallb (fun k => match voltage_readback (Z.of_nat k) with
    | Some z => z =? Z.of_nat k | None => false end) (seq 0 1001) = true) by (vm_compute; reflexivity).
  rewrite forallb_forall in Hall. specialize (Hall (Z.to_nat v)). rewrite Z2Nat.id in Hall by lia.
  destruct (voltage_readback v) as [z|]; [|exfalso; discriminate Hall; apply in_seq; lia].
  f_equal. apply Z.eqb_eq, Hall, in_seq. lia.
Qed.

Section Voltage.
Context {CLK : VmClock} {PM : PowerModel}.

(**  The voltage register: a voltage of at most 1000 mV written by
    the guest is the voltage the next snapshot reports. *)
Lemma voltage_roundtrip s v size n : 0 <= v <= 1000 -> param_ok s 1 ->
  snap_ready (set_pm_array (zset (pm_array s) 1 (d_div (d_of_Z v) (d_of_Z 1000))) s) n ->
  exists s' s'', vemu_mod_write SET_VOLTAGE v size s = Done (tt, s') /\
    vemu_mod_write READ_CMD 0 size s' = Done (tt, s'') /\ get64 (last_state s'') reg_voltage = v.
Proof.
  intros Hv Hp Hs. destruct (read_cmd_run _ n Hs) as [e Hr].
  do 2 eexists. split; [apply set_voltage_run; exact Hp|]. split; [exact Hr|]. cbn [last_state upd set_clock_reads set_last_state].
  apply (snapshot_get _ n); [exact Hs|].
  destruct (sr_volt _ n Hs) as (f & Hf & Hz). cbn [pm_array set_pm_array] in Hf.
  destruct Hp as [Hp0 Hp1]. rewrite znth_zset_eq in Hf by lia. injection Hf as <-.
  assert (E : voltage_readback v = Some (sn_volt n)) by exact Hz.
  rewrite voltage_readback_exact in E by exact Hv. injection E as E.
  unfold snap_regs, total_regs. apply elem_of_app. right. rewrite <- E. do 7 apply list_elem_of_further. apply list_elem_of_here.
Qed.
End Voltage.

(**  Above one volt the round trip can lose a millivolt: 1001 mV set
    by the guest on the 45 nm model reads back as 1000 mV, because
    [(1001 / 1000.0) * 1000] rounds below 1001 and is truncated. *)
Lemma voltage_1001_reads_1000 : exists s' s'',
  @vemu_mod_write demo_clock demo_pm SET_VOLTAGE 1001 4 demo_s2 = Done (tt, s') /\
  @vemu_mod_write demo_clock demo_pm READ_CMD 0 4 s' = Done (tt, s'') /\
  get64 (last_state s'') reg_voltage = 1000.
Proof. do 2 eexists. split; [vm_compute; reflexivity|]. split; vm_compute; reflexivity. Qed.

(** ** Concrete runs *)

Lemma zero_state_bytes b : b = replicate 160 0 -> state_bytes b.
Proof. intros ->. split; [reflexivity|]. apply Forall_replicate. unfold is_byte. lia. Qed.

(** The snapshot of the state after 100 MULs, under given parameters. *)
Definition demo_energy (s : vemu_st) (k : Z) : Z :=
  match d_to_u64 (@charged demo_pm (pm_array s) k (demo_ch k) 0 d_zero) with Some z => z | None => 0 end.
Definition demo_snap (s : vemu_st) (f v : Z) : snap := {|
  sn_time := demo_ch; sn_ckpt := fun _ => 0; sn_old := fun _ => d_zero; sn_energy := demo_energy s;
  sn_cycles := fun k => if k =? 0 then 200 else 0; sn_total_time := 2000; sn_total_cycles := 200;
  sn_slp_time := 0; sn_slp_energy := 0; sn_freq := f; sn_volt := v;
  sn_reads := 1%nat; sn_reads2 := 1%nat; sn_slp_time2 := 0 |}.

Ltac classes k H := assert (k = 0 \/ k = 1 \/ k = 2 \/ k = 3) as [->|[->|[->| ->]]] by (clear - H; lia).
Ltac vrefl := vm_compute; reflexivity.
Ltac demo_ready s :=
  split;
  [ apply zero_state_bytes; vrefl
  | split; vrefl
  | split; (split; [split; vm_compute; congruence|vrefl])
  | let k := fresh "k" in let Hk := fresh "Hk" in intros k Hk; destruct (demo_chargeable k Hk) as [A B C D _];
    split; [exact A|exact B|exact C|exact D|]; clear - Hk; classes k Hk; vrefl
  | let k := fresh "k" in let Hk := fresh "Hk" in intros k Hk; classes k Hk; (split; vm_compute; auto)
  | split; [vrefl|]; split; [vrefl|];
    let k := fresh "k" in let Hk := fresh "Hk" in intros k Hk;
    exists (param (cycle_count (cyc s)) (Z.to_nat k)); classes k Hk; (split; vrefl)
  | vrefl
  | vrefl
  | split; vm_compute; congruence
  | split; vm_compute; congruence
  | vrefl
  | vrefl
  | split; [vm_compute; congruence|vrefl]
  | exists (param (pm_array s) 0); split; vrefl
  | exists (param (pm_array s) 1); split; vrefl ].

Lemma demo_snap_ready : @snap_ready demo_clock demo_pm demo_s2 (demo_snap demo_s2 100000000 1000).
Proof. demo_ready demo_s2. Qed.

Lemma read_cmd_snapshot_witness : exists s',
  @vemu_mod_write demo_clock demo_pm READ_CMD 1 4 demo_s2 = Done (tt, s') /\
  get64 (last_state s') reg_total_cycles = 200 /\ get64 (last_state s') (reg_act_time 0) = 2000.
Proof.
  destruct (@read_cmd_snapshot demo_clock demo_pm demo_s2 (demo_snap demo_s2 100000000 1000) 1 4 demo_snap_ready)
    as (s' & H1 & _ & H2 & _).
  exists s'. split; [exact H1|]. split; apply H2; [do 14 apply list_elem_of_further|]; apply list_elem_of_here.
Defined.

Lemma demo_bytes : state_bytes (last_state demo_s2).
Proof. apply zero_state_bytes. vrefl. Qed.

Lemma word_reads_give_register_witness : exists lo hi,
  vemu_mod_read 0xABCDEF (8 * 18) 4 demo_s2 = Done (lo, demo_s2) /\
  vemu_mod_read 5 (8 * 18 + 4) 4 demo_s2 = Done (hi, demo_s2) /\ u32 lo + 2 ^ 32 * u32 hi = get64 (last_state demo_s2) 18.
Proof. exact (word_reads_give_register demo_s2 18 0xABCDEF 5 demo_bytes ltac:(lia)). Defined.

Lemma read_bounds_witness : vemu_mod_read 0 160 4 demo_s2 = Undefined /\ vemu_mod_read 0 161 1 demo_s2 = AssertFailed.
Proof.
  split.
  - apply (read_bounds demo_s2 0 160 4 demo_bytes); lia.
  - apply (read_bounds demo_s2 0 161 1 demo_bytes); lia.
Defined.

(** The clock doubled by the guest before the pending 2000 ns are charged. *)
Definition demo_s2f : vemu_st := set_pm_array (zset (pm_array demo_s2) 0 (d_of_Z 200000000)) demo_s2.
Definition demo_s2v : vemu_st :=
  set_pm_array (zset (pm_array demo_s2) 1 (d_div (d_of_Z 900) (d_of_Z 1000))) demo_s2.

Lemma demo_snap_ready_f : @snap_ready demo_clock demo_pm demo_s2f (demo_snap demo_s2f 200000000 1000).
Proof. demo_ready demo_s2f. Qed.
Lemma demo_snap_ready_v : @snap_ready demo_clock demo_pm demo_s2v (demo_snap demo_s2v 100000000 900).
Proof. demo_ready demo_s2v. Qed.
Lemma demo_param_ok i : 0 <= i < 14 -> @param_ok demo_pm demo_s2 i.
Proof. intros H. split; [exact H|vrefl]. Qed.

Lemma guest_frequency_charges_new_power_witness : exists s' s'',
  @vemu_mod_write demo_clock demo_pm SET_FREQUENCY 200000000 4 demo_s2 = Done (tt, s') /\
  @vemu_get_act_energy demo_pm 0 s' = Done (demo_energy demo_s2f 0, s'') /\
  demo_energy demo_s2 0 < demo_energy demo_s2f 0.
Proof.
  destruct (@guest_frequency_charges_new_power demo_clock demo_pm demo_s2 0 2000 0 d_zero (demo_energy demo_s2f 0)
    200000000 4 (demo_param_ok 0 ltac:(lia))) as (s' & s'' & H1 & H2 & _).
  - exact (sr_charge _ _ demo_snap_ready_f 0 ltac:(lia)).
  - exists s', s''. split; [exact H1|]. split; [exact H2|vrefl].
Defined.

Lemma frequency_roundtrip_witness : exists s' s'',
  @vemu_mod_write demo_clock demo_pm SET_FREQUENCY 200000000 4 demo_s2 = Done (tt, s') /\
  @vemu_mod_write demo_clock demo_pm READ_CMD 0 4 s' = Done (tt, s'') /\ get64 (last_state s'') reg_frequency = 200000000.
Proof.
  apply (@frequency_roundtrip demo_clock demo_pm demo_s2 200000000 4 (demo_snap demo_s2f 200000000 1000)).
  - unfold is_u32. lia.
  - apply demo_param_ok. lia.
  - exact demo_snap_ready_f.
Defined.

Lemma voltage_roundtrip_witness : exists s' s'',
  @vemu_mod_write demo_clock demo_pm SET_VOLTAGE 900 4 demo_s2 = Done (tt, s') /\
  @vemu_mod_write demo_clock demo_pm READ_CMD 0 4 s' = Done (tt, s'') /\ get64 (last_state s'') reg_voltage = 900.
Proof.
  apply (@voltage_roundtrip demo_clock demo_pm demo_s2 900 4 (demo_snap demo_s2v 100000000 900)).
  - lia.
  - apply demo_param_ok. lia.
  - exact demo_snap_ready_v.
Defined.
