(* ===== verification/CpuState.v ===== *)
(** * The processor state: [CPUARMState] of [target-arm/cpu.h]

    The fields of the emulated processor that the modelled code reads or
    writes: the general registers and their banks, the condition flags held
    apart from the CPSR, the v7-M system registers, the SIMD register file
    and the exception and interrupt state.  Coprocessor 15 is in [Sys] and the
    floating-point status in [Vfp]; iwMMXt and ThumbEE are left out.
    Registers are values in [[0, 2^32)], SIMD registers in [[0, 2^64)]. *)
From stdpp Require Import base list.
From S2P Require Import Prelude.
Open Scope Z_scope.

Record cpu_st : Type := {
  regs : list Z;
  uncached_cpsr : Z;
  spsr : Z;
  banked_spsr : list Z;
  banked_r13 : list Z;
  banked_r14 : list Z;
  usr_regs : list Z;
  fiq_regs : list Z;
  CF : Z;
  VF : Z;
  NF : Z;
  ZF : Z;
  QF : Z;
  GE : Z;
  thumb : Z;
  condexec_bits : Z;
  other_sp : Z;
  vecbase : Z;
  basepri : Z;
  control : Z;
  current_sp : Z;
  exception : Z;
  vfp_regs : list Z;
  features : Z;
  exception_index : Z;
  halted : Z;
  interrupt_request : Z
}.

Definition set_regs (x : list Z) (s : cpu_st) : cpu_st :=
  {| regs := x; uncached_cpsr := uncached_cpsr s; spsr := spsr s; banked_spsr := banked_spsr s;
     banked_r13 := banked_r13 s; banked_r14 := banked_r14 s; usr_regs := usr_regs s; fiq_regs :=
     fiq_regs s; CF := CF s; VF := VF s; NF := NF s; ZF := ZF s; QF := QF s; GE := GE s; thumb := thumb
     s; condexec_bits := condexec_bits s; other_sp := other_sp s; vecbase := vecbase s; basepri :=
     basepri s; control := control s; current_sp := current_sp s; exception := exception s; vfp_regs :=
     vfp_regs s; features := features s; exception_index := exception_index s; halted := halted s;
     interrupt_request := interrupt_request s |}.
Definition set_uncached_cpsr (x : Z) (s : cpu_st) : cpu_st :=
  {| regs := regs s; uncached_cpsr := x; spsr := spsr s; banked_spsr := banked_spsr s; banked_r13 :=
     banked_r13 s; banked_r14 := banked_r14 s; usr_regs := usr_regs s; fiq_regs := fiq_regs s; CF := CF
     s; VF := VF s; NF := NF s; ZF := ZF s; QF := QF s; GE := GE s; thumb := thumb s; condexec_bits :=
     condexec_bits s; other_sp := other_sp s; vecbase := vecbase s; basepri := basepri s; control :=
     control s; current_sp := current_sp s; exception := exception s; vfp_regs := vfp_regs s; features
     := features s; exception_index := exception_index s; halted := halted s; interrupt_request :=
     interrupt_request s |}.
Definition set_spsr (x : Z) (s : cpu_st) : cpu_st :=
  {| regs := regs s; uncached_cpsr := uncached_cpsr s; spsr := x; banked_spsr := banked_spsr s;
     banked_r13 := banked_r13 s; banked_r14 := banked_r14 s; usr_regs := usr_regs s; fiq_regs :=
     fiq_regs s; CF := CF s; VF := VF s; NF := NF s; ZF := ZF s; QF := QF s; GE := GE s; thumb := thumb
     s; condexec_bits := condexec_bits s; other_sp := other_sp s; vecbase := vecbase s; basepri :=
     basepri s; control := control s; current_sp := current_sp s; exception := exception s; vfp_regs :=
     vfp_regs s; features := features s; exception_index := exception_index s; halted := halted s;
     interrupt_request := interrupt_request s |}.
Definition set_banked_spsr (x : list Z) (s : cpu_st) : cpu_st :=
  {| regs := regs s; uncached_cpsr := uncached_cpsr s; spsr := spsr s; banked_spsr := x; banked_r13 :=
     banked_r13 s; banked_r14 := banked_r14 s; usr_regs := usr_regs s; fiq_regs := fiq_regs s; CF := CF
     s; VF := VF s; NF := NF s; ZF := ZF s; QF := QF s; GE := GE s; thumb := thumb s; condexec_bits :=
     condexec_bits s; other_sp := other_sp s; vecbase := vecbase s; basepri := basepri s; control :=
     control s; current_sp := current_sp s; exception := exception s; vfp_regs := vfp_regs s; features
     := features s; exception_index := exception_index s; halted := halted s; interrupt_request :=
     interrupt_request s |}.
Definition set_banked_r13 (x : list Z) (s : cpu_st) : cpu_st :=
  {| regs := regs s; uncached_cpsr := uncached_cpsr s; spsr := spsr s; banked_spsr := banked_spsr s;
     banked_r13 := x; banked_r14 := banked_r14 s; usr_regs := usr_regs s; fiq_regs := fiq_regs s; CF :=
     CF s; VF := VF s; NF := NF s; ZF := ZF s; QF := QF s; GE := GE s; thumb := thumb s; condexec_bits
     := condexec_bits s; other_sp := other_sp s; vecbase := vecbase s; basepri := basepri s; control :=
     control s; current_sp := current_sp s; exception := exception s; vfp_regs := vfp_regs s; features
     := features s; exception_index := exception_index s; halted := halted s; interrupt_request :=
     interrupt_request s |}.
Definition set_banked_r14 (x : list Z) (s : cpu_st) : cpu_st :=
  {| regs := regs s; uncached_cpsr := uncached_cpsr s; spsr := spsr s; banked_spsr := banked_spsr s;
     banked_r13 := banked_r13 s; banked_r14 := x; usr_regs := usr_regs s; fiq_regs := fiq_regs s; CF :=
     CF s; VF := VF s; NF := NF s; ZF := ZF s; QF := QF s; GE := GE s; thumb := thumb s; condexec_bits
     := condexec_bits s; other_sp := other_sp s; vecbase := vecbase s; basepri := basepri s; control :=
     control s; current_sp := current_sp s; exception := exception s; vfp_regs := vfp_regs s; features
     := features s; exception_index := exception_index s; halted := halted s; interrupt_request :=
     interrupt_request s |}.
Definition set_usr_regs (x : list Z) (s : cpu_st) : cpu_st :=
  {| regs := regs s; uncached_cpsr := uncached_cpsr s; spsr := spsr s; banked_spsr := banked_spsr s;
     banked_r13 := banked_r13 s; banked_r14 := banked_r14 s; usr_regs := x; fiq_regs := fiq_regs s; CF
     := CF s; VF := VF s; NF := NF s; ZF := ZF s; QF := QF s; GE := GE s; thumb := thumb s;
     condexec_bits := condexec_bits s; other_sp := other_sp s; vecbase := vecbase s; basepri := basepri
     s; control := control s; current_sp := current_sp s; exception := exception s; vfp_regs := vfp_regs
     s; features := features s; exception_index := exception_index s; halted := halted s;
     interrupt_request := interrupt_request s |}.
Definition set_fiq_regs (x : list Z) (s : cpu_st) : cpu_st :=
  {| regs := regs s; uncached_cpsr := uncached_cpsr s; spsr := spsr s; banked_spsr := banked_spsr s;
     banked_r13 := banked_r13 s; banked_r14 := banked_r14 s; usr_regs := usr_regs s; fiq_regs := x; CF
     := CF s; VF := VF s; NF := NF s; ZF := ZF s; QF := QF s; GE := GE s; thumb := thumb s;
     condexec_bits := condexec_bits s; other_sp := other_sp s; vecbase := vecbase s; basepri := basepri
     s; control := control s; current_sp := current_sp s; exception := exception s; vfp_regs := vfp_regs
     s; features := features s; exception_index := exception_index s; halted := halted s;
     interrupt_request := interrupt_request s |}.
Definition set_CF (x : Z) (s : cpu_st) : cpu_st :=
  {| regs := regs s; uncached_cpsr := uncached_cpsr s; spsr := spsr s; banked_spsr := banked_spsr s;
     banked_r13 := banked_r13 s; banked_r14 := banked_r14 s; usr_regs := usr_regs s; fiq_regs :=
     fiq_regs s; CF := x; VF := VF s; NF := NF s; ZF := ZF s; QF := QF s; GE := GE s; thumb := thumb s;
     condexec_bits := condexec_bits s; other_sp := other_sp s; vecbase := vecbase s; basepri := basepri
     s; control := control s; current_sp := current_sp s; exception := exception s; vfp_regs := vfp_regs
     s; features := features s; exception_index := exception_index s; halted := halted s;
     interrupt_request := interrupt_request s |}.
Definition set_VF (x : Z) (s : cpu_st) : cpu_st :=
  {| regs := regs s; uncached_cpsr := uncached_cpsr s; spsr := spsr s; banked_spsr := banked_spsr s;
     banked_r13 := banked_r13 s; banked_r14 := banked_r14 s; usr_regs := usr_regs s; fiq_regs :=
     fiq_regs s; CF := CF s; VF := x; NF := NF s; ZF := ZF s; QF := QF s; GE := GE s; thumb := thumb s;
     condexec_bits := condexec_bits s; other_sp := other_sp s; vecbase := vecbase s; basepri := basepri
     s; control := control s; current_sp := current_sp s; exception := exception s; vfp_regs := vfp_regs
     s; features := features s; exception_index := exception_index s; halted := halted s;
     interrupt_request := interrupt_request s |}.
Definition set_NF (x : Z) (s : cpu_st) : cpu_st :=
  {| regs := regs s; uncached_cpsr := uncached_cpsr s; spsr := spsr s; banked_spsr := banked_spsr s;
     banked_r13 := banked_r13 s; banked_r14 := banked_r14 s; usr_regs := usr_regs s; fiq_regs :=
     fiq_regs s; CF := CF s; VF := VF s; NF := x; ZF := ZF s; QF := QF s; GE := GE s; thumb := thumb s;
     condexec_bits := condexec_bits s; other_sp := other_sp s; vecbase := vecbase s; basepri := basepri
     s; control := control s; current_sp := current_sp s; exception := exception s; vfp_regs := vfp_regs
     s; features := features s; exception_index := exception_index s; halted := halted s;
     interrupt_request := interrupt_request s |}.
Definition set_ZF (x : Z) (s : cpu_st) : cpu_st :=
  {| regs := regs s; uncached_cpsr := uncached_cpsr s; spsr := spsr s; banked_spsr := banked_spsr s;
     banked_r13 := banked_r13 s; banked_r14 := banked_r14 s; usr_regs := usr_regs s; fiq_regs :=
     fiq_regs s; CF := CF s; VF := VF s; NF := NF s; ZF := x; QF := QF s; GE := GE s; thumb := thumb s;
     condexec_bits := condexec_bits s; other_sp := other_sp s; vecbase := vecbase s; basepri := basepri
     s; control := control s; current_sp := current_sp s; exception := exception s; vfp_regs := vfp_regs
     s; features := features s; exception_index := exception_index s; halted := halted s;
     interrupt_request := interrupt_request s |}.
Definition set_QF (x : Z) (s : cpu_st) : cpu_st :=
  {| regs := regs s; uncached_cpsr := uncached_cpsr s; spsr := spsr s; banked_spsr := banked_spsr s;
     banked_r13 := banked_r13 s; banked_r14 := banked_r14 s; usr_regs := usr_regs s; fiq_regs :=
     fiq_regs s; CF := CF s; VF := VF s; NF := NF s; ZF := ZF s; QF := x; GE := GE s; thumb := thumb s;
     condexec_bits := condexec_bits s; other_sp := other_sp s; vecbase := vecbase s; basepri := basepri
     s; control := control s; current_sp := current_sp s; exception := exception s; vfp_regs := vfp_regs
     s; features := features s; exception_index := exception_index s; halted := halted s;
     interrupt_request := interrupt_request s |}.
Definition set_GE (x : Z) (s : cpu_st) : cpu_st :=
  {| regs := regs s; uncached_cpsr := uncached_cpsr s; spsr := spsr s; banked_spsr := banked_spsr s;
     banked_r13 := banked_r13 s; banked_r14 := banked_r14 s; usr_regs := usr_regs s; fiq_regs :=
     fiq_regs s; CF := CF s; VF := VF s; NF := NF s; ZF := ZF s; QF := QF s; GE := x; thumb := thumb s;
     condexec_bits := condexec_bits s; other_sp := other_sp s; vecbase := vecbase s; basepri := basepri
     s; control := control s; current_sp := current_sp s; exception := exception s; vfp_regs := vfp_regs
     s; features := features s; exception_index := exception_index s; halted := halted s;
     interrupt_request := interrupt_request s |}.
Definition set_thumb (x : Z) (s : cpu_st) : cpu_st :=
  {| regs := regs s; uncached_cpsr := uncached_cpsr s; spsr := spsr s; banked_spsr := banked_spsr s;
     banked_r13 := banked_r13 s; banked_r14 := banked_r14 s; usr_regs := usr_regs s; fiq_regs :=
     fiq_regs s; CF := CF s; VF := VF s; NF := NF s; ZF := ZF s; QF := QF s; GE := GE s; thumb := x;
     condexec_bits := condexec_bits s; other_sp := other_sp s; vecbase := vecbase s; basepri := basepri
     s; control := control s; current_sp := current_sp s; exception := exception s; vfp_regs := vfp_regs
     s; features := features s; exception_index := exception_index s; halted := halted s;
     interrupt_request := interrupt_request s |}.
Definition set_condexec_bits (x : Z) (s : cpu_st) : cpu_st :=
  {| regs := regs s; uncached_cpsr := uncached_cpsr s; spsr := spsr s; banked_spsr := banked_spsr s;
     banked_r13 := banked_r13 s; banked_r14 := banked_r14 s; usr_regs := usr_regs s; fiq_regs :=
     fiq_regs s; CF := CF s; VF := VF s; NF := NF s; ZF := ZF s; QF := QF s; GE := GE s; thumb := thumb
     s; condexec_bits := x; other_sp := other_sp s; vecbase := vecbase s; basepri := basepri s; control
     := control s; current_sp := current_sp s; exception := exception s; vfp_regs := vfp_regs s;
     features := features s; exception_index := exception_index s; halted := halted s; interrupt_request
     := interrupt_request s |}.
Definition set_other_sp (x : Z) (s : cpu_st) : cpu_st :=
  {| regs := regs s; uncached_cpsr := uncached_cpsr s; spsr := spsr s; banked_spsr := banked_spsr s;
     banked_r13 := banked_r13 s; banked_r14 := banked_r14 s; usr_regs := usr_regs s; fiq_regs :=
     fiq_regs s; CF := CF s; VF := VF s; NF := NF s; ZF := ZF s; QF := QF s; GE := GE s; thumb := thumb
     s; condexec_bits := condexec_bits s; other_sp := x; vecbase := vecbase s; basepri := basepri s;
     control := control s; current_sp := current_sp s; exception := exception s; vfp_regs := vfp_regs s;
     features := features s; exception_index := exception_index s; halted := halted s; interrupt_request
     := interrupt_request s |}.
Definition set_vecbase (x : Z) (s : cpu_st) : cpu_st :=
  {| regs := regs s; uncached_cpsr := uncached_cpsr s; spsr := spsr s; banked_spsr := banked_spsr s;
     banked_r13 := banked_r13 s; banked_r14 := banked_r14 s; usr_regs := usr_regs s; fiq_regs :=
     fiq_regs s; CF := CF s; VF := VF s; NF := NF s; ZF := ZF s; QF := QF s; GE := GE s; thumb := thumb
     s; condexec_bits := condexec_bits s; other_sp := other_sp s; vecbase := x; basepri := basepri s;
     control := control s; current_sp := current_sp s; exception := exception s; vfp_regs := vfp_regs s;
     features := features s; exception_index := exception_index s; halted := halted s; interrupt_request
     := interrupt_request s |}.
Definition set_basepri (x : Z) (s : cpu_st) : cpu_st :=
  {| regs := regs s; uncached_cpsr := uncached_cpsr s; spsr := spsr s; banked_spsr := banked_spsr s;
     banked_r13 := banked_r13 s; banked_r14 := banked_r14 s; usr_regs := usr_regs s; fiq_regs :=
     fiq_regs s; CF := CF s; VF := VF s; NF := NF s; ZF := ZF s; QF := QF s; GE := GE s; thumb := thumb
     s; condexec_bits := condexec_bits s; other_sp := other_sp s; vecbase := vecbase s; basepri := x;
     control := control s; current_sp := current_sp s; exception := exception s; vfp_regs := vfp_regs s;
     features := features s; exception_index := exception_index s; halted := halted s; interrupt_request
     := interrupt_request s |}.
Definition set_control (x : Z) (s : cpu_st) : cpu_st :=
  {| regs := regs s; uncached_cpsr := uncached_cpsr s; spsr := spsr s; banked_spsr := banked_spsr s;
     banked_r13 := banked_r13 s; banked_r14 := banked_r14 s; usr_regs := usr_regs s; fiq_regs :=
     fiq_regs s; CF := CF s; VF := VF s; NF := NF s; ZF := ZF s; QF := QF s; GE := GE s; thumb := thumb
     s; condexec_bits := condexec_bits s; other_sp := other_sp s; vecbase := vecbase s; basepri :=
     basepri s; control := x; current_sp := current_sp s; exception := exception s; vfp_regs := vfp_regs
     s; features := features s; exception_index := exception_index s; halted := halted s;
     interrupt_request := interrupt_request s |}.
Definition set_current_sp (x : Z) (s : cpu_st) : cpu_st :=
  {| regs := regs s; uncached_cpsr := uncached_cpsr s; spsr := spsr s; banked_spsr := banked_spsr s;
     banked_r13 := banked_r13 s; banked_r14 := banked_r14 s; usr_regs := usr_regs s; fiq_regs :=
     fiq_regs s; CF := CF s; VF := VF s; NF := NF s; ZF := ZF s; QF := QF s; GE := GE s; thumb := thumb
     s; condexec_bits := condexec_bits s; other_sp := other_sp s; vecbase := vecbase s; basepri :=
     basepri s; control := control s; current_sp := x; exception := exception s; vfp_regs := vfp_regs s;
     features := features s; exception_index := exception_index s; halted := halted s; interrupt_request
     := interrupt_request s |}.
Definition set_exception (x : Z) (s : cpu_st) : cpu_st :=
  {| regs := regs s; uncached_cpsr := uncached_cpsr s; spsr := spsr s; banked_spsr := banked_spsr s;
     banked_r13 := banked_r13 s; banked_r14 := banked_r14 s; usr_regs := usr_regs s; fiq_regs :=
     fiq_regs s; CF := CF s; VF := VF s; NF := NF s; ZF := ZF s; QF := QF s; GE := GE s; thumb := thumb
     s; condexec_bits := condexec_bits s; other_sp := other_sp s; vecbase := vecbase s; basepri :=
     basepri s; control := control s; current_sp := current_sp s; exception := x; vfp_regs := vfp_regs
     s; features := features s; exception_index := exception_index s; halted := halted s;
     interrupt_request := interrupt_request s |}.
Definition set_vfp_regs (x : list Z) (s : cpu_st) : cpu_st :=
  {| regs := regs s; uncached_cpsr := uncached_cpsr s; spsr := spsr s; banked_spsr := banked_spsr s;
     banked_r13 := banked_r13 s; banked_r14 := banked_r14 s; usr_regs := usr_regs s; fiq_regs :=
     fiq_regs s; CF := CF s; VF := VF s; NF := NF s; ZF := ZF s; QF := QF s; GE := GE s; thumb := thumb
     s; condexec_bits := condexec_bits s; other_sp := other_sp s; vecbase := vecbase s; basepri :=
     basepri s; control := control s; current_sp := current_sp s; exception := exception s; vfp_regs :=
     x; features := features s; exception_index := exception_index s; halted := halted s;
     interrupt_request := interrupt_request s |}.
Definition set_features (x : Z) (s : cpu_st) : cpu_st :=
  {| regs := regs s; uncached_cpsr := uncached_cpsr s; spsr := spsr s; banked_spsr := banked_spsr s;
     banked_r13 := banked_r13 s; banked_r14 := banked_r14 s; usr_regs := usr_regs s; fiq_regs :=
     fiq_regs s; CF := CF s; VF := VF s; NF := NF s; ZF := ZF s; QF := QF s; GE := GE s; thumb := thumb
     s; condexec_bits := condexec_bits s; other_sp := other_sp s; vecbase := vecbase s; basepri :=
     basepri s; control := control s; current_sp := current_sp s; exception := exception s; vfp_regs :=
     vfp_regs s; features := x; exception_index := exception_index s; halted := halted s;
     interrupt_request := interrupt_request s |}.
Definition set_exception_index (x : Z) (s : cpu_st) : cpu_st :=
  {| regs := regs s; uncached_cpsr := uncached_cpsr s; spsr := spsr s; banked_spsr := banked_spsr s;
     banked_r13 := banked_r13 s; banked_r14 := banked_r14 s; usr_regs := usr_regs s; fiq_regs :=
     fiq_regs s; CF := CF s; VF := VF s; NF := NF s; ZF := ZF s; QF := QF s; GE := GE s; thumb := thumb
     s; condexec_bits := condexec_bits s; other_sp := other_sp s; vecbase := vecbase s; basepri :=
     basepri s; control := control s; current_sp := current_sp s; exception := exception s; vfp_regs :=
     vfp_regs s; features := features s; exception_index := x; halted := halted s; interrupt_request :=
     interrupt_request s |}.
Definition set_halted (x : Z) (s : cpu_st) : cpu_st :=
  {| regs := regs s; uncached_cpsr := uncached_cpsr s; spsr := spsr s; banked_spsr := banked_spsr s;
     banked_r13 := banked_r13 s; banked_r14 := banked_r14 s; usr_regs := usr_regs s; fiq_regs :=
     fiq_regs s; CF := CF s; VF := VF s; NF := NF s; ZF := ZF s; QF := QF s; GE := GE s; thumb := thumb
     s; condexec_bits := condexec_bits s; other_sp := other_sp s; vecbase := vecbase s; basepri :=
     basepri s; control := control s; current_sp := current_sp s; exception := exception s; vfp_regs :=
     vfp_regs s; features := features s; exception_index := exception_index s; halted := x;
     interrupt_request := interrupt_request s |}.
Definition set_interrupt_request (x : Z) (s : cpu_st) : cpu_st :=
  {| regs := regs s; uncached_cpsr := uncached_cpsr s; spsr := spsr s; banked_spsr := banked_spsr s;
     banked_r13 := banked_r13 s; banked_r14 := banked_r14 s; usr_regs := usr_regs s; fiq_regs :=
     fiq_regs s; CF := CF s; VF := VF s; NF := NF s; ZF := ZF s; QF := QF s; GE := GE s; thumb := thumb
     s; condexec_bits := condexec_bits s; other_sp := other_sp s; vecbase := vecbase s; basepri :=
     basepri s; control := control s; current_sp := current_sp s; exception := exception s; vfp_regs :=
     vfp_regs s; features := features s; exception_index := exception_index s; halted := halted s;
     interrupt_request := x |}.

(** A reset processor in mode [mode], with all registers zero. *)
Definition zero_cpu (mode feat : Z) : cpu_st :=
  {| regs := replicate 16 0; uncached_cpsr := mode; spsr := 0; banked_spsr := replicate 7 0;
     banked_r13 := replicate 7 0; banked_r14 := replicate 7 0; usr_regs := replicate 5 0; fiq_regs := replicate 5 0;
     CF := 0; VF := 0; NF := 0; ZF := 0; QF := 0; GE := 0; thumb := 0; condexec_bits := 0; other_sp := 0;
     vecbase := 0; basepri := 0; control := 0; current_sp := 0; exception := 0; vfp_regs := replicate 32 0;
     features := feat; exception_index := 0; halted := 0; interrupt_request := 0 |}.

(** The dimensions of the arrays and the width of their elements. *)
Record cpu_wf (s : cpu_st) : Prop := {
  wf_regs : length (regs s) = 16%nat;
  wf_regs32 : Forall is_u32 (regs s);
  wf_spsr : length (banked_spsr s) = 7%nat;
  wf_r13 : length (banked_r13 s) = 7%nat;
  wf_r14 : length (banked_r14 s) = 7%nat;
  wf_usr : length (usr_regs s) = 5%nat;
  wf_fiq : length (fiq_regs s) = 5%nat;
  wf_vfp : length (vfp_regs s) = 32%nat;
  wf_vfp64 : Forall is_u64 (vfp_regs s);
  wf_usr32 : Forall is_u32 (usr_regs s);
  wf_fiq32 : Forall is_u32 (fiq_regs s);
  wf_r13_32 : Forall is_u32 (banked_r13 s);
  wf_r14_32 : Forall is_u32 (banked_r14 s)
}.

Lemma zero_cpu_wf mode feat : cpu_wf (zero_cpu mode feat).
Proof. split; try reflexivity; apply Forall_replicate; split; vm_compute; congruence. Qed.

(** ** [cpu.h]: constants *)
Definition CPSR_M : Z := 0x1f.
Definition CPSR_T : Z := Z.shiftl 1 5.
Definition CPSR_F : Z := Z.shiftl 1 6.
Definition CPSR_I : Z := Z.shiftl 1 7.
Definition CPSR_IT_2_7 : Z := 0xfc00.
Definition CPSR_GE : Z := Z.shiftl 0xf 16.
Definition CPSR_J : Z := Z.shiftl 1 24.
Definition CPSR_IT_0_1 : Z := Z.shiftl 3 25.
Definition CPSR_Q : Z := Z.shiftl 1 27.
Definition CPSR_V : Z := Z.shiftl 1 28.
Definition CPSR_C : Z := Z.shiftl 1 29.
Definition CPSR_Z : Z := Z.shiftl 1 30.
Definition CPSR_N : Z := Z.shiftl 1 31.
Definition CPSR_NZCV : Z := Z.lor (Z.lor (Z.lor CPSR_N CPSR_Z) CPSR_C) CPSR_V.
Definition CPSR_IT : Z := Z.lor CPSR_IT_0_1 CPSR_IT_2_7.
Definition CACHED_CPSR_BITS : Z :=
  Z.lor (Z.lor (Z.lor (Z.lor CPSR_T CPSR_GE) CPSR_IT) CPSR_Q) CPSR_NZCV.
Definition CPSR_EXEC : Z := Z.lor (Z.lor CPSR_T CPSR_IT) CPSR_J.

Definition ARM_CPU_MODE_USR : Z := 0x10.
Definition ARM_CPU_MODE_FIQ : Z := 0x11.
Definition ARM_CPU_MODE_IRQ : Z := 0x12.
Definition ARM_CPU_MODE_SVC : Z := 0x13.
Definition ARM_CPU_MODE_SMC : Z := 0x16.
Definition ARM_CPU_MODE_ABT : Z := 0x17.
Definition ARM_CPU_MODE_UND : Z := 0x1b.
Definition ARM_CPU_MODE_SYS : Z := 0x1f.

Definition ARM_FEATURE_M : Z := 13.
Definition arm_feature (s : cpu_st) (f : Z) : bool := negb (Z.land (features s) (Z.shiftl 1 f) =? 0).

(** 32-bit complement. *)
Definition not32 (x : Z) : Z := Z.lxor x 0xffffffff.

(** A C truth value: the bits of [x] selected by [m] are not all zero. *)
Definition tst (x m : Z) : bool := negb (Z.land x m =? 0).

(** [cpu_get_tb_cpu_state]: the privilege flag of the translation block. *)
Definition tb_privmode (s : cpu_st) : bool :=
  if arm_feature s ARM_FEATURE_M then negb ((exception s =? 0) && tst (control s) 1)
  else negb (Z.land (uncached_cpsr s) CPSR_M =? ARM_CPU_MODE_USR).

Lemma tst_pow2 x k : 0 <= k -> tst x (2 ^ k) = Z.testbit x k.
Proof.
  intros Hk. unfold tst. rewrite land_pow2 by exact Hk. destruct (Z.testbit x k); [|reflexivity].
  destruct (Z.eqb_spec (2 ^ k) 0); [pose proof (Z.pow_pos_nonneg 2 k); lia|reflexivity].
Qed.
