(* ===== verification/Errors.v ===== *)
(** * Fault injection: [vemu_errors.c] and the translator's replace hook

    When the guest has set the fault register and runs unprivileged code, an
    instruction marked for replacement runs [vemu_error_replace] instead of
    its own semantics: a multiplication becomes an addition, a
    multiply-accumulate keeps its result, a long multiplication does
    nothing. *)
From stdpp Require Import base list.
From S2P Require Import Prelude Double ArmTable State Cycles CpuState.
Open Scope Z_scope.

Definition VEMU_OPCODE_MUL : Z := 0x009.
Definition VEMU_OPCODE_MLA : Z := 0x029.
Definition VEMU_OPCODE_UMULL : Z := 0x089.

(** The processor and the vemu globals, seen together by the helpers. *)
Record machine : Type := { env : cpu_st; vemu : vemu_st }.
Definition set_env (e : cpu_st) (m : machine) : machine := {| env := e; vemu := vemu m |}.
Definition set_vemu (v : vemu_st) (m : machine) : machine := {| env := env m; vemu := v |}.

(** Lifting a computation on one part to the machine. *)
Definition on_env {A} (c : M cpu_st A) : M machine A := fun m =>
  match c (env m) with
  | Done (a, e) => Done (a, set_env e m)
  | AssertFailed => AssertFailed | Undefined => Undefined | Exited z => Exited z
  end.
Definition on_vemu {A} (c : M vemu_st A) : M machine A := fun m =>
  match c (vemu m) with
  | Done (a, v) => Done (a, set_vemu v m)
  | AssertFailed => AssertFailed | Undefined => Undefined | Exited z => Exited z
  end.

(** [env->regs[i]] *)
Definition get_reg (i : Z) : M cpu_st Z := let! r := gets regs in arr_get r i.
Definition put_reg (i v : Z) : M cpu_st unit :=
  let! r := gets regs in
  if in_bounds r i then modify (set_regs (zset r i (u32 v))) else undefined.

(** Register fields of the instruction word. *)
Definition field (w sh : Z) : Z := Z.land (Z.shiftr w sh) 0xf.

Definition vemu_mul (instr_word : Z) : M cpu_st unit :=
  let! m := get_reg (field instr_word 0) in
  let! s := get_reg (field instr_word 8) in
  put_reg (field instr_word 16) (m + s).

Definition vemu_mla (instr_word : Z) : M cpu_st unit :=
  let! m := get_reg (field instr_word 0) in
  let! s := get_reg (field instr_word 8) in
  let! n := get_reg (field instr_word 12) in
  put_reg (field instr_word 16) (m * s + n).

Definition vemu_umull (instr_word : Z) : M cpu_st unit := ret tt.

Definition vemu_error_pre (tb : vemu_tb_info) : M machine Z := ret 0.
Definition vemu_error_post (tb : vemu_tb_info) : M machine Z := ret 0.

(** The privilege test of [vemu_error_replace]. *)
Definition error_privmode (s : cpu_st) : bool :=
  if arm_feature s ARM_FEATURE_M then negb (negb (exception s =? 0) && tst (control s) 1)
  else negb (Z.land (uncached_cpsr s) CPSR_M =? ARM_CPU_MODE_USR).

(** The case of MLA falls through to UMULL; [instr_info->opcode] is the
    opcode of the table entry. *)
Definition vemu_error_replace (tb : vemu_tb_info) : M machine Z :=
  let! e := gets env in
  let! v := gets vemu in
  if negb (negb (error_privmode e) && (0 <? vemu_errors_enabled v)) then ret 0
  else
    let op := instr_opcode (instr_info tb) in
    (if op =? VEMU_OPCODE_MUL then on_env (vemu_mul (instr_word tb))
     else if op =? VEMU_OPCODE_MLA then on_env (vemu_mla (instr_word tb) ;; vemu_umull (instr_word tb))
     else if op =? VEMU_OPCODE_UMULL then on_env (vemu_umull (instr_word tb))
     else ret tt) ;;
    ret 1.

(** ** Facts *)

Lemma field_range w sh : 0 <= field w sh < 16.
Proof. unfold field. change 0xf with (Z.ones 4). apply (land_mask_range _ 4). lia. Qed.

(** The value of a register. *)
Definition reg (s : cpu_st) (i : Z) : Z := nth (Z.to_nat i) (regs s) 0.

Lemma get_reg_run s i : cpu_wf s -> 0 <= i < 16 -> get_reg i s = Done (reg s i, s).
Proof.
  intros Hs Hi. unfold get_reg, bind, gets, arr_get.
  destruct (znth_lt (regs s) i) as [x Hx]; [rewrite (wf_regs s Hs); lia|]. rewrite Hx. cbn.
  apply znth_Some in Hx as [_ Hx]. unfold reg, ret. rewrite (nth_lookup_Some _ _ 0 _ Hx). reflexivity.
Qed.

Lemma put_reg_run s i v : cpu_wf s -> 0 <= i < 16 ->
  put_reg i v s = Done (tt, set_regs (zset (regs s) i (u32 v)) s).
Proof.
  intros Hs Hi. unfold put_reg, bind, gets, in_bounds. rewrite (wf_regs s Hs).
  destruct (Z.leb_spec 0 i); [|lia]. destruct (Z.ltb_spec i (Z.of_nat 16)); [|lia]. reflexivity.
Qed.

Lemma set_regs_wf s r : cpu_wf s -> length r = 16%nat -> Forall is_u32 r -> cpu_wf (set_regs r s).
Proof. intros [] Hl Hr. split; assumption. Qed.

Lemma reg_set s i v j : cpu_wf s -> 0 <= i < 16 -> 0 <= j < 16 ->
  reg (set_regs (zset (regs s) i v) s) j = if j =? i then v else reg s j.
Proof.
  intros Hs Hi Hj. unfold reg, zset. cbn.
  destruct (lookup_lt_is_Some_2 (regs s) (Z.to_nat j)) as [x Hx]; [rewrite (wf_regs s Hs); lia|].
  destruct (Z.eqb_spec j i) as [->|Hne].
  - apply nth_lookup_Some, list_lookup_insert_eq. rewrite (wf_regs s Hs). lia.
  - rewrite (nth_lookup_Some _ _ 0 _ Hx). apply nth_lookup_Some. rewrite list_lookup_insert_ne by lia. exact Hx.
Qed.

(** The faulty result of a replaced instruction and its target register. *)
Definition faulty_result (s : cpu_st) (tb : vemu_tb_info) : option (Z * Z) :=
  let w := instr_word tb in
  if instr_opcode (instr_info tb) =? VEMU_OPCODE_MUL then
    Some (field w 16, u32 (reg s (field w 0) + reg s (field w 8)))
  else if instr_opcode (instr_info tb) =? VEMU_OPCODE_MLA then
    Some (field w 16, u32 (reg s (field w 0) * reg s (field w 8) + reg s (field w 12)))
  else None.

(** Fault injection is confined: with the fault register clear, or in
    privileged mode, the hook changes nothing and returns 0, so the
    instruction executes normally. *)
Lemma error_replace_confined m tb :
  vemu_errors_enabled (vemu m) <= 0 \/ error_privmode (env m) = true ->
  vemu_error_replace tb m = Done (0, m).
Proof.
  intros H. unfold vemu_error_replace, bind, gets.
  destruct (Z.ltb_spec 0 (vemu_errors_enabled (vemu m))), (error_privmode (env m)); cbn; try reflexivity.
  destruct H; [lia|discriminate].
Qed.

(** C35.  When the hook fires it always returns 1 and its only effect is
    the faulty result of MUL (the sum of the operands) or MLA (the correct
    value) in the destination register; every other register, flag and
    counter is unchanged, and an opcode without a replacement is skipped. *)
Theorem error_replace_effect m tb : cpu_wf (env m) ->
  0 < vemu_errors_enabled (vemu m) -> error_privmode (env m) = false ->
  exists r, vemu_error_replace tb m = Done (1, set_env (set_regs r (env m)) m) /\
    cpu_wf (set_regs r (env m)) /\
    forall j, 0 <= j < 16 -> reg (set_regs r (env m)) j =
      match faulty_result (env m) tb with
      | Some (rd, v) => if j =? rd then v else reg (env m) j
      | None => reg (env m) j
      end.
Proof.
  intros Hwf He Hp. unfold vemu_error_replace, faulty_result.
  do 2 (erewrite bind_run by reflexivity; cbn beta). rewrite Hp.
  destruct (Z.ltb_spec 0 (vemu_errors_enabled (vemu m))); [|lia]. cbn [negb andb].
  pose proof (field_range (instr_word tb)) as Hf.
  assert (Hset : forall v, cpu_wf (set_regs (zset (regs (env m)) (field (instr_word tb) 16) (u32 v)) (env m))).
  { intros v. apply set_regs_wf; [exact Hwf|rewrite length_zset; apply (wf_regs _ Hwf)|].
    apply Forall_zset; [apply (wf_regs32 _ Hwf)|apply u32_range]. }
  assert (Hnone : exists r, (ret tt ;; ret 1) m = Done (1, set_env (set_regs r (env m)) m) /\
    cpu_wf (set_regs r (env m)) /\ forall j, 0 <= j < 16 -> reg (set_regs r (env m)) j = reg (env m) j).
  { exists (regs (env m)). assert (E : set_regs (regs (env m)) (env m) = env m) by (destruct (env m); reflexivity).
    rewrite E. split; [destruct m; reflexivity|auto]. }
  destruct (Z.eqb_spec (instr_opcode (instr_info tb)) VEMU_OPCODE_MUL).
  { eexists. split_and!; [|apply Hset|intros; apply reg_set; auto]. unfold vemu_mul, bind, on_env.
    rewrite !get_reg_run, put_reg_run by auto. reflexivity. }
  destruct (Z.eqb_spec (instr_opcode (instr_info tb)) VEMU_OPCODE_MLA).
  { eexists. split_and!; [|apply Hset|intros; apply reg_set; auto]. unfold vemu_mla, vemu_umull, bind, on_env.
    rewrite !get_reg_run, put_reg_run by auto. reflexivity. }
  destruct (_ =? VEMU_OPCODE_UMULL); [|exact Hnone].
  destruct Hnone as (r & Hr & Hwf' & Hreg). exists r. split_and!; try assumption.
  rewrite <- Hr. unfold vemu_umull, on_env, bind, ret. destruct m. reflexivity.
Qed.

(**  On the M profile the hook's privilege test is not the one the
    translator uses: a thread-mode program with [CONTROL.nPRIV] set runs
    unprivileged (its translation block has no privilege flag) and yet its
    faults are never injected, while a handler with that bit set is
    privileged and gets them. *)
Lemma m_profile_privilege_inverted s : arm_feature s ARM_FEATURE_M = true -> tst (control s) 1 = true ->
  error_privmode s = negb (tb_privmode s).
Proof.
  intros HM Hc. unfold error_privmode, tb_privmode. rewrite HM, Hc. destruct (exception s =? 0); reflexivity.
Qed.

(** ** Concrete runs *)
Definition demo_env : cpu_st := set_regs ([0; 7; 5] ++ replicate 13 0) (zero_cpu ARM_CPU_MODE_USR 0).
(** MUL r3, r1, r2 *)
Definition demo_mul : vemu_tb_info :=
  {| instr_word := 0xE0030291; instr_info := instr_info demo_tb |}.
Definition demo_m (e : cpu_st) (en : Z) : machine := {| env := e; vemu := set_errors_enabled en demo_s2 |}.

Lemma demo_env_wf : cpu_wf demo_env.
Proof.
  apply set_regs_wf; [apply zero_cpu_wf|reflexivity|].
  repeat (apply Forall_cons; split; [split; vm_compute; congruence|]). apply Forall_nil_2.
Qed.

Lemma error_replace_confined_witness :
  vemu_error_replace demo_mul (demo_m demo_env 0) = Done (0, demo_m demo_env 0) /\
  vemu_error_replace demo_mul (demo_m (zero_cpu ARM_CPU_MODE_SVC 0) 1) = Done (0, demo_m (zero_cpu ARM_CPU_MODE_SVC 0) 1).
Proof.
  split; apply error_replace_confined; [left; vm_compute; congruence|right; vm_compute; reflexivity].
Defined.

Lemma error_replace_effect_witness : exists r,
  vemu_error_replace demo_mul (demo_m demo_env 1) = Done (1, set_env (set_regs r demo_env) (demo_m demo_env 1)) /\
  reg (set_regs r demo_env) 3 = 12 /\ reg (set_regs r demo_env) 1 = 7.
Proof.
  destruct (error_replace_effect (demo_m demo_env 1) demo_mul demo_env_wf) as (r & H1 & _ & H2).
  - vm_compute. reflexivity.
  - vm_compute. reflexivity.
  - exists r. split; [exact H1|]. split; [exact (H2 3 ltac:(lia))|exact (H2 1 ltac:(lia))].
Defined.

Lemma m_profile_privilege_inverted_witness :
  let s := set_control 1 (zero_cpu 0x1f (Z.shiftl 1 ARM_FEATURE_M)) in error_privmode s = true /\ tb_privmode s = false.
Proof.
  intros s. pose proof (m_profile_privilege_inverted s eq_refl eq_refl) as H.
  split; [rewrite H; reflexivity|reflexivity].
Defined.
