(* ===== verification/OpHelper.v ===== *)
(** * The run-time helpers: [target-arm/op_helper.c]

    Functions the translated code calls: saturating arithmetic with the
    sticky Q flag, the shifter with its carry out, the SIMD table lookup,
    exceptions, and the hooks of the accounting (WFI starts a sleep period,
    [cpu_has_work] of [cpu.h] ends it, every instruction adds its cycles).
    A helper either returns or leaves the translated code through
    [cpu_loop_exit]. *)
From stdpp Require Import base list.
From S2P Require Import Prelude Double ArmTable State Power Cycles CpuState Errors.
Open Scope Z_scope.

Definition SIGNBIT : Z := 0x80000000.

(** ** Saturating arithmetic *)

Definition set_q : M cpu_st unit := modify (set_QF 1).

Definition add_setq (a b : Z) : M cpu_st Z :=
  let res := u32 (a + b) in
  (if tst (Z.lxor res a) SIGNBIT && negb (tst (Z.lxor a b) SIGNBIT) then set_q else ret tt) ;;
  ret res.

Definition add_saturate (a b : Z) : M cpu_st Z :=
  let res := u32 (a + b) in
  if tst (Z.lxor res a) SIGNBIT && negb (tst (Z.lxor a b) SIGNBIT) then
    set_q ;; ret (not32 (Z.lxor (u32 (Z.shiftr (s32 a) 31)) SIGNBIT))
  else ret res.

Definition sub_saturate (a b : Z) : M cpu_st Z :=
  let res := u32 (a - b) in
  if tst (Z.lxor res a) SIGNBIT && tst (Z.lxor a b) SIGNBIT then
    set_q ;; ret (not32 (Z.lxor (u32 (Z.shiftr (s32 a) 31)) SIGNBIT))
  else ret res.

(** [val] is an [int32_t]. *)
Definition double_saturate (val : Z) : M cpu_st Z :=
  if 0x40000000 <=? val then set_q ;; ret (not32 SIGNBIT)
  else if val <=? s32 0xc0000000 then set_q ;; ret SIGNBIT
  else ret (u32 (Z.shiftl val 1)).

Definition add_usaturate (a b : Z) : M cpu_st Z :=
  let res := u32 (a + b) in
  if res <? a then set_q ;; ret (not32 0) else ret res.

Definition sub_usaturate (a b : Z) : M cpu_st Z :=
  let res := u32 (a - b) in
  if a <? res then set_q ;; ret 0 else ret res.

(** [val] is an [int32_t]; the result a [uint32_t]. *)
Definition do_ssat (val shift : Z) : M cpu_st Z :=
  let top := Z.shiftr val shift in
  let mask := u32 (Z.shiftl 1 shift - 1) in
  if 0 <? top then set_q ;; ret mask
  else if top <? -1 then set_q ;; ret (not32 mask)
  else ret (u32 val).

Definition do_usat (val shift : Z) : M cpu_st Z :=
  let max := u32 (Z.shiftl 1 shift - 1) in
  if val <? 0 then set_q ;; ret 0
  else if max <? u32 val then set_q ;; ret max
  else ret (u32 val).

Definition ssat (x shift : Z) : M cpu_st Z := do_ssat (s32 x) shift.
Definition usat (x shift : Z) : M cpu_st Z := do_usat (s32 x) shift.

Definition ssat16 (x shift : Z) : M cpu_st Z :=
  let! lo := do_ssat (s16 x) shift in
  let! hi := do_ssat (Z.shiftr (s32 x) 16) shift in
  ret (Z.lor (u16 lo) (u32 (Z.shiftl hi 16))).

Definition usat16 (x shift : Z) : M cpu_st Z :=
  let! lo := do_usat (s16 x) shift in
  let! hi := do_usat (Z.shiftr (s32 x) 16) shift in
  ret (Z.lor (u16 lo) (u32 (Z.shiftl hi 16))).

(** ** The shifter *)

Definition set_cf (c : Z) : M cpu_st unit := modify (set_CF c).

Definition shl_cc (x i : Z) : M cpu_st Z :=
  let shift := Z.land i 0xff in
  if 32 <=? shift then
    (if shift =? 32 then set_cf (Z.land x 1) else set_cf 0) ;; ret 0
  else if negb (shift =? 0) then
    set_cf (Z.land (Z.shiftr x (32 - shift)) 1) ;; ret (u32 (Z.shiftl x shift))
  else ret x.

Definition shr_cc (x i : Z) : M cpu_st Z :=
  let shift := Z.land i 0xff in
  if 32 <=? shift then
    (if shift =? 32 then set_cf (Z.land (Z.shiftr x 31) 1) else set_cf 0) ;; ret 0
  else if negb (shift =? 0) then
    set_cf (Z.land (Z.shiftr x (shift - 1)) 1) ;; ret (Z.shiftr x shift)
  else ret x.

Definition sar_cc (x i : Z) : M cpu_st Z :=
  let shift := Z.land i 0xff in
  if 32 <=? shift then
    set_cf (Z.land (Z.shiftr x 31) 1) ;; ret (u32 (Z.shiftr (s32 x) 31))
  else if negb (shift =? 0) then
    set_cf (Z.land (Z.shiftr x (shift - 1)) 1) ;; ret (u32 (Z.shiftr (s32 x) shift))
  else ret x.

Definition ror_cc (x i : Z) : M cpu_st Z :=
  let shift1 := Z.land i 0xff in
  let shift := Z.land shift1 0x1f in
  if shift =? 0 then
    (if negb (shift1 =? 0) then set_cf (Z.land (Z.shiftr x 31) 1) else ret tt) ;; ret x
  else
    set_cf (Z.land (Z.shiftr x (shift - 1)) 1) ;;
    ret (Z.lor (Z.shiftr x shift) (u32 (Z.shiftl x (32 - shift)))).

(** ** SIMD table lookup *)

Definition neon_tbl (ireg def rn maxindex : Z) : M cpu_st Z :=
  mfold [0; 8; 16; 24] (fun val shift =>
    let index := Z.land (Z.shiftr ireg shift) 0xff in
    if index <? maxindex then
      let! v := gets vfp_regs in
      let! t := arr_get v (rn + Z.shiftr index 3) in
      let tmp := Z.land (Z.shiftr t (Z.shiftl (Z.land index 7) 3)) 0xff in
      ret (Z.lor val (u32 (Z.shiftl tmp shift)))
    else ret (Z.lor val (Z.land def (u32 (Z.shiftl 0xff shift))))) 0.

(** ** Exceptions and hooks *)

(** How a helper ends. *)
Inductive exit (A : Type) : Type :=
| Returns (a : A)
| LoopExit.
Arguments Returns {A} _.
Arguments LoopExit {A}.

(** Constants of the QEMU core headers. *)
Class QemuConsts := { EXCP_HLT : Z; CPU_INTERRUPT_FIQ : Z; CPU_INTERRUPT_HARD : Z; CPU_INTERRUPT_EXITTB : Z }.

Definition raise_exception (tt : Z) : M cpu_st (exit unit) :=
  modify (set_exception_index tt) ;; ret LoopExit.

Definition helper_exception (excp : Z) : M cpu_st (exit unit) := raise_exception excp.

Section Hooks.
Context {CLK : VmClock} {PM : PowerModel} {QC : QemuConsts}.

Definition wfi : M machine (exit unit) :=
  on_vemu vemu_sleep_start ;;
  on_env (modify (set_exception_index EXCP_HLT) ;; modify (set_halted 1)) ;;
  ret LoopExit.

Definition helper_vemu_info (tb : vemu_tb_info) : M machine unit := on_vemu (vemu_increment_cycles tb).

(** [cpu.h] *)
Definition cpu_has_work : M machine bool :=
  let! e := gets env in
  let rv := tst (interrupt_request e)
              (Z.lor (Z.lor CPU_INTERRUPT_FIQ CPU_INTERRUPT_HARD) CPU_INTERRUPT_EXITTB) in
  (if rv then on_vemu vemu_active_start else ret tt) ;;
  ret rv.
End Hooks.

(** ** Bits of machine words *)

Lemma testbit_sign x : is_u32 x -> Z.testbit x 31 = (2 ^ 31 <=? x).
Proof.
  intros Hx. unfold is_u32 in Hx. apply eq_true_iff_eq. rewrite Z.testbit_true, Z.leb_le by lia.
  assert (x / 2 ^ 31 = if 2 ^ 31 <=? x then 1 else 0) as ->.
  2:{ destruct (Z.leb_spec (2 ^ 31) x); split; intros Hm; try lia; try reflexivity. vm_compute in Hm. discriminate. }
  destruct (Z.leb_spec (2 ^ 31) x); [|apply Z.div_small; lia].
  symmetry. apply (Z.div_unique x (2 ^ 31) 1 (x - 2 ^ 31)); lia.
Qed.

Lemma tst_sign x y : is_u32 x -> is_u32 y -> tst (Z.lxor x y) SIGNBIT = xorb (2 ^ 31 <=? x) (2 ^ 31 <=? y).
Proof.
  intros Hx Hy. unfold tst. change SIGNBIT with (2 ^ 31). rewrite land_pow2, Z.lxor_spec, !testbit_sign by (assumption || lia).
  destruct (xorb _ _); reflexivity.
Qed.

Lemma s32_cases x : is_u32 x -> s32 x = if 2 ^ 31 <=? x then x - 2 ^ 32 else x.
Proof.
  intros Hx. unfold is_u32 in Hx. unfold s32. destruct (Z.leb_spec (2 ^ 31) x).
  - rewrite <- (Z.mod_unique (x + 2 ^ 31) (2 ^ 32) 1 (x - 2 ^ 31)); lia.
  - rewrite Z.mod_small; lia.
Qed.

Lemma u32_cases z : - 2 ^ 32 <= z < 2 ^ 33 ->
  u32 z = if z <? 0 then z + 2 ^ 32 else if 2 ^ 32 <=? z then z - 2 ^ 32 else z.
Proof.
  intros Hz. unfold u32. destruct (Z.ltb_spec z 0); [|destruct (Z.leb_spec (2 ^ 32) z)].
  - symmetry. apply (Z.mod_unique z (2 ^ 32) (-1)); lia.
  - symmetry. apply (Z.mod_unique z (2 ^ 32) 1); lia.
  - apply Z.mod_small. lia.
Qed.

Lemma land1 x k : 0 <= k -> Z.land (Z.shiftr x k) 1 = Z.b2z (Z.testbit x k).
Proof.
  intros Hk. change 1 with (Z.ones 1). rewrite Z.land_ones, Z.shiftr_div_pow2, Z.testbit_spec' by lia. reflexivity.
Qed.

Lemma not32_sub x : is_u32 x -> not32 x = 2 ^ 32 - 1 - x.
Proof.
  intros Hx. assert (Hb : forall n, 32 <= n -> Z.testbit x n = false) by (intros; apply (testbit_above x 32); auto; lia).
  replace (2 ^ 32 - 1) with (Z.ones 32) by reflexivity. unfold not32. change 0xffffffff with (Z.ones 32).
  rewrite Z.sub_nocarry_ldiff; apply Z.bits_inj'; intros n Hn.
  - rewrite Z.ldiff_spec, Z.lxor_spec, Z.testbit_ones_nonneg by lia.
    destruct (Z.ltb_spec n 32); [destruct (Z.testbit x n)|rewrite Hb by lia]; reflexivity.
  - rewrite Z.ldiff_spec, Z.bits_0, Z.testbit_ones_nonneg by lia.
    destruct (Z.ltb_spec n 32); [apply andb_false_r|rewrite Hb by lia; reflexivity].
Qed.

(** ** Saturation is clamping with a sticky flag *)

(** A saturating operation with exact result [z]: the clamped value, and
    the Q flag set when it differs; the flag is never cleared. *)
Definition saturated (lo hi z : Z) (s : cpu_st) : Z * cpu_st :=
  (u32 (clamp lo hi z), if (lo <=? z) && (z <=? hi) then s else set_QF 1 s).

Ltac sat_cases := unfold saturated, clamp; repeat match goal with
  | |- context [?a <=? ?b] => destruct (Z.leb_spec a b)
  | |- context [?a <? ?b] => destruct (Z.ltb_spec a b)
  end.
Ltac sat_done := cbn [xorb andb negb]; unfold bind, set_q, modify, ret; do 2 f_equal;
  first [reflexivity | symmetry; rewrite u32_cases by lia; sat_cases; lia | exfalso; lia].

Lemma sat_value a : is_u32 a -> not32 (Z.lxor (u32 (Z.shiftr (s32 a) 31)) SIGNBIT) = if 2 ^ 31 <=? a then 2 ^ 31 else 2 ^ 31 - 1.
Proof.
  intros Ha. rewrite (s32_cases a Ha). unfold is_u32 in Ha. rewrite Z.shiftr_div_pow2 by lia. destruct (Z.leb_spec (2 ^ 31) a).
  - replace ((a - 2 ^ 32) / 2 ^ 31) with (-1); [reflexivity|]. apply (Z.div_unique _ _ (-1) (a - 2 ^ 31)); lia.
  - rewrite Z.div_small by lia. reflexivity.
Qed.

Lemma add_saturate_spec a b s : is_u32 a -> is_u32 b ->
  add_saturate a b s = Done (saturated (- 2 ^ 31) (2 ^ 31 - 1) (s32 a + s32 b) s).
Proof.
  intros Ha Hb. unfold add_saturate. rewrite !tst_sign by auto using u32_range. rewrite (sat_value a Ha).
  rewrite (s32_cases a Ha), (s32_cases b Hb). unfold is_u32 in *. rewrite (u32_cases (a + b)) by lia. sat_cases; try lia; sat_done.
Qed.

Lemma sub_saturate_spec a b s : is_u32 a -> is_u32 b ->
  sub_saturate a b s = Done (saturated (- 2 ^ 31) (2 ^ 31 - 1) (s32 a - s32 b) s).
Proof.
  intros Ha Hb. unfold sub_saturate. rewrite !tst_sign by auto using u32_range. rewrite (sat_value a Ha).
  rewrite (s32_cases a Ha), (s32_cases b Hb). unfold is_u32 in *. rewrite (u32_cases (a - b)) by lia. sat_cases; try lia; sat_done.
Qed.

(** The flag is also set for the exact result [- 2^31]. *)
Lemma double_saturate_spec v s : - 2 ^ 31 <= v < 2 ^ 31 ->
  double_saturate v s = Done (u32 (clamp (- 2 ^ 31) (2 ^ 31 - 1) (2 * v)),
    if (- 2 ^ 31 <? 2 * v) && (2 * v <=? 2 ^ 31 - 1) then s else set_QF 1 s).
Proof.
  intros Hv. unfold double_saturate. rewrite Z.shiftl_mul_pow2 by lia. change (s32 0xc0000000) with (- 2 ^ 30).
  change (not32 SIGNBIT) with (u32 (2 ^ 31 - 1)). change SIGNBIT with (u32 (- 2 ^ 31)).
  sat_cases; try lia; cbn [andb]; unfold bind, set_q, modify, ret; do 2 f_equal; f_equal; lia.
Qed.

Lemma add_usaturate_spec a b s : is_u32 a -> is_u32 b ->
  add_usaturate a b s = Done (saturated 0 (2 ^ 32 - 1) (a + b) s).
Proof.
  intros Ha Hb. unfold is_u32 in *. unfold add_usaturate. change (not32 0) with (2 ^ 32 - 1). rewrite (u32_cases (a + b)) by lia.
  destruct (Z.ltb_spec (a + b) 0); [lia|]. destruct (Z.leb_spec (2 ^ 32) (a + b)); sat_cases; try lia; sat_done.
Qed.

Lemma sub_usaturate_spec a b s : is_u32 a -> is_u32 b ->
  sub_usaturate a b s = Done (saturated 0 (2 ^ 32 - 1) (a - b) s).
Proof.
  intros Ha Hb. unfold is_u32 in *. unfold sub_usaturate. rewrite (u32_cases (a - b)) by lia.
  destruct (Z.ltb_spec (a - b) 0); destruct (Z.leb_spec (2 ^ 32) (a - b)); try lia; sat_cases; try lia; sat_done.
Qed.

(** The bound of [n]-bit saturation. *)
Lemma shiftr_top v k : 0 <= k -> (0 <? Z.shiftr v k) = (2 ^ k <=? v) /\ (Z.shiftr v k <? -1) = (v <? - 2 ^ k).
Proof.
  intros Hk. rewrite Z.shiftr_div_pow2 by lia. assert (Hp : 0 < 2 ^ k) by (apply Z.pow_pos_nonneg; lia).
  pose proof (Z.div_mod v (2 ^ k) ltac:(lia)) as D. pose proof (Z.mod_pos_bound v (2 ^ k) Hp) as B.
  set (q := v / 2 ^ k) in *. set (p := 2 ^ k) in *. split; apply eq_true_iff_eq.
  - rewrite Z.ltb_lt, Z.leb_le. nia.
  - rewrite !Z.ltb_lt. nia.
Qed.

Lemma pow_le_31 k : 0 <= k < 32 -> 1 <= 2 ^ k <= 2 ^ 31.
Proof.
  intros Hk. split; [|apply Z.pow_le_mono_r; lia].
  change 1 with (2 ^ 0). apply Z.pow_le_mono_r; lia.
Qed.

Lemma do_ssat_spec v k s : - 2 ^ 31 <= v < 2 ^ 31 -> 0 <= k < 32 ->
  do_ssat v k s = Done (saturated (- 2 ^ k) (2 ^ k - 1) v s).
Proof.
  intros Hv Hk. pose proof (pow_le_31 k Hk) as Hp. unfold do_ssat. rewrite Z.shiftl_mul_pow2, Z.mul_1_l by lia.
  destruct (shiftr_top v k) as [-> ->]; [lia|].
  assert (Hn : not32 (u32 (2 ^ k - 1)) = u32 (- 2 ^ k)).
  { rewrite u32_small by (unfold is_u32; lia). rewrite not32_sub by (unfold is_u32; lia).
    rewrite (u32_cases (- 2 ^ k)) by lia. destruct (Z.ltb_spec (- 2 ^ k) 0); lia. }
  rewrite Hn. sat_cases; try lia; cbn [andb]; unfold bind, set_q, modify, ret; do 2 f_equal; f_equal; lia.
Qed.

Lemma do_usat_spec v k s : - 2 ^ 31 <= v < 2 ^ 31 -> 0 <= k < 32 ->
  do_usat v k s = Done (saturated 0 (2 ^ k - 1) v s).
Proof.
  intros Hv Hk. pose proof (pow_le_31 k Hk) as Hp. unfold do_usat. rewrite Z.shiftl_mul_pow2, Z.mul_1_l by lia.
  rewrite (u32_small (2 ^ k - 1)) by (unfold is_u32; lia). unfold saturated, clamp.
  destruct (Z.ltb_spec v 0).
  - destruct (Z.leb_spec 0 v); [lia|]. cbn [andb]. unfold bind, set_q, modify, ret. do 2 f_equal.
    replace (0 `max` _) with 0 by lia. reflexivity.
  - rewrite (u32_small v) by (unfold is_u32; lia). destruct (Z.leb_spec 0 v); [|lia].
    destruct (Z.ltb_spec (2 ^ k - 1) v), (Z.leb_spec v (2 ^ k - 1)); try lia; cbn [andb]; unfold bind, set_q, modify, ret;
      do 2 f_equal; symmetry.
    + replace (0 `max` _) with (2 ^ k - 1) by lia. apply u32_small. unfold is_u32. lia.
    + replace (0 `max` _) with v by lia. apply u32_small. unfold is_u32. lia.
Qed.

(** C36.  The saturating helpers compute the exact result clamped to the
    operation's range and set the sticky Q flag exactly when clamping
    changed it: signed and unsigned addition and subtraction, and the
    [n]-bit signed and unsigned saturation instructions.  Nothing else of
    the processor state changes. *)
Theorem saturation_correct a b k s : is_u32 a -> is_u32 b -> 0 <= k < 32 ->
  add_saturate a b s = Done (saturated (- 2 ^ 31) (2 ^ 31 - 1) (s32 a + s32 b) s) /\
  sub_saturate a b s = Done (saturated (- 2 ^ 31) (2 ^ 31 - 1) (s32 a - s32 b) s) /\
  add_usaturate a b s = Done (saturated 0 (2 ^ 32 - 1) (a + b) s) /\
  sub_usaturate a b s = Done (saturated 0 (2 ^ 32 - 1) (a - b) s) /\
  ssat a k s = Done (saturated (- 2 ^ k) (2 ^ k - 1) (s32 a) s) /\
  usat a k s = Done (saturated 0 (2 ^ k - 1) (s32 a) s).
Proof.
  intros Ha Hb Hk. split_and!; auto using add_saturate_spec, sub_saturate_spec, add_usaturate_spec, sub_usaturate_spec.
  - apply do_ssat_spec; [apply s32_range|exact Hk].
  - apply do_usat_spec; [apply s32_range|exact Hk].
Qed.

(**  The doubling helper clamps like the others, but it reports
    saturation one value early: doubling [- 2^30] gives the exact and
    representable [- 2^31] and still sets the Q flag. *)
Lemma double_saturate_flag v s : - 2 ^ 31 <= v < 2 ^ 31 ->
  double_saturate v s = Done (if v =? - 2 ^ 30 then (2 ^ 31, set_QF 1 s)
                              else saturated (- 2 ^ 31) (2 ^ 31 - 1) (2 * v) s).
Proof.
  intros Hv. rewrite double_saturate_spec by exact Hv. f_equal. destruct (Z.eqb_spec v (- 2 ^ 30)) as [->|Hne]; [reflexivity|].
  unfold saturated. f_equal. replace (- 2 ^ 31 <? 2 * v) with (- 2 ^ 31 <=? 2 * v); [reflexivity|].
  destruct (Z.leb_spec (- 2 ^ 31) (2 * v)), (Z.ltb_spec (- 2 ^ 31) (2 * v)); reflexivity || lia.
Qed.

(** ** The shifter *)

(** A shift by [n] with result [r] whose last bit shifted out is [c]; a
    shift by zero keeps the carry. *)
Definition shifted (n r : Z) (c : bool) (s : cpu_st) : Z * cpu_st :=
  (r, if n =? 0 then s else set_CF (Z.b2z c) s).

Lemma bits_u32 r : 0 <= r -> (forall n, 32 <= n -> Z.testbit r n = false) -> is_u32 r.
Proof.
  intros H0 Hb. replace r with (u32 r); [apply u32_range|]. apply Z.bits_inj'. intros n Hn.
  destruct (Z.lt_ge_cases n 32); [apply Z.mod_pow2_bits_low; lia|].
  rewrite Hb by lia. apply Z.mod_pow2_bits_high. lia.
Qed.

Lemma s32_mod x : s32 x mod 2 ^ 32 = x mod 2 ^ 32.
Proof. unfold s32. rewrite Zminus_mod_idemp_l. f_equal. lia. Qed.

Lemma testbit_s32 x k : 0 <= k < 32 -> Z.testbit (s32 x) k = Z.testbit x k.
Proof.
  intros Hk. rewrite <- (Z.mod_pow2_bits_low (s32 x) 32), <- (Z.mod_pow2_bits_low x 32) by lia.
  rewrite s32_mod. reflexivity.
Qed.

Lemma s32_sign_bits x k : is_u32 x -> 31 <= k -> Z.testbit (s32 x) k = Z.testbit x 31.
Proof.
  intros Hx Hk. rewrite (testbit_sign x Hx), (s32_cases x Hx). unfold is_u32 in Hx. destruct (Z.leb_spec (2 ^ 31) x).
  - rewrite <- (Z.lnot_involutive (x - 2 ^ 32)), Z.lnot_spec by lia.
    rewrite (testbit_above (Z.lnot (x - 2 ^ 32)) 31) by (unfold Z.lnot; lia). reflexivity.
  - apply (testbit_above x 31); lia.
Qed.

Lemma s32_shift_big x n : is_u32 x -> 31 <= n -> Z.shiftr (s32 x) n = Z.shiftr (s32 x) 31.
Proof.
  intros Hx Hn. apply Z.bits_inj'. intros m Hm. rewrite !Z.shiftr_spec by lia.
  rewrite !s32_sign_bits by (assumption || lia). reflexivity.
Qed.

Ltac shift_cases n := unfold shifted; destruct (Z.leb_spec 32 n); [|destruct (Z.eqb_spec n 0)]; cbn [negb].

Lemma shl_cc_spec x i s : is_u32 x -> let n := Z.land i 0xff in
  shl_cc x i s = Done (shifted n (u32 (Z.shiftl x n)) (Z.testbit x (32 - n)) s).
Proof.
  intros Hx n. assert (Hn : 0 <= n) by (apply Z.land_nonneg; lia). unfold shl_cc. fold n. shift_cases n.
  - destruct (Z.eqb_spec n 0); [lia|].
    assert (Hz : u32 (Z.shiftl x n) = 0).
    { unfold u32. rewrite Z.shiftl_mul_pow2 by lia. replace n with (32 + (n - 32)) by lia.
      rewrite Z.pow_add_r by lia. rewrite (Z.mul_comm (2 ^ 32)), Z.mul_assoc. apply Z.mod_mul. lia. }
    rewrite Hz. destruct (Z.eqb_spec n 32) as [E|Hne].
    + rewrite E. unfold bind, set_cf, modify, ret. do 3 f_equal. rewrite <- land1, Z.shiftr_0_r by lia. reflexivity.
    + rewrite Z.testbit_neg_r by lia. reflexivity.
  - rewrite e, Z.shiftl_0_r, u32_small by exact Hx. reflexivity.
  - unfold bind, set_cf, modify, ret. rewrite land1 by lia. reflexivity.
Qed.

Lemma shr_cc_spec x i s : is_u32 x -> let n := Z.land i 0xff in
  shr_cc x i s = Done (shifted n (Z.shiftr x n) (Z.testbit x (n - 1)) s).
Proof.
  intros Hx n. assert (Hn : 0 <= n) by (apply Z.land_nonneg; lia). unfold shr_cc. fold n. shift_cases n.
  - destruct (Z.eqb_spec n 0); [lia|].
    assert (Hz : Z.shiftr x n = 0).
    { apply Z.bits_inj'. intros m Hm. rewrite Z.shiftr_spec, Z.bits_0 by lia. apply (testbit_above x 32); [exact Hx|lia]. }
    rewrite Hz. destruct (Z.eqb_spec n 32) as [E|Hne].
    + rewrite E. unfold bind, set_cf, modify, ret. rewrite land1 by lia. reflexivity.
    + rewrite (testbit_above x 32) by (assumption || lia). reflexivity.
  - rewrite e, Z.shiftr_0_r. reflexivity.
  - unfold bind, set_cf, modify, ret. rewrite land1 by lia. reflexivity.
Qed.

Lemma sar_cc_spec x i s : is_u32 x -> let n := Z.land i 0xff in
  sar_cc x i s = Done (shifted n (u32 (Z.shiftr (s32 x) n)) (Z.testbit (s32 x) (n - 1)) s).
Proof.
  intros Hx n. assert (Hn : 0 <= n) by (apply Z.land_nonneg; lia). unfold sar_cc. fold n. shift_cases n.
  - destruct (Z.eqb_spec n 0); [lia|]. unfold bind, set_cf, modify, ret. rewrite land1 by lia.
    rewrite (s32_sign_bits x (n - 1)), (s32_shift_big x n) by (assumption || lia). reflexivity.
  - rewrite e, Z.shiftr_0_r. unfold ret. do 2 f_equal. unfold u32. rewrite s32_mod. symmetry. apply Z.mod_small. exact Hx.
  - unfold bind, set_cf, modify, ret. rewrite land1, testbit_s32 by lia. reflexivity.
Qed.

(** Rotation to the right. *)
Lemma ror_cc_spec x i s : is_u32 x -> let n := Z.land i 0xff in
  exists r, ror_cc x i s = Done (shifted n r (Z.testbit r 31) s) /\
    is_u32 r /\ forall j, 0 <= j < 32 -> Z.testbit r j = Z.testbit x ((j + n) mod 32).
Proof.
  intros Hx n. assert (Hn : 0 <= n) by (apply Z.land_nonneg; lia). unfold ror_cc. fold n.
  change (Z.land n 0x1f) with (Z.land n (Z.ones 5)). rewrite Z.land_ones by lia. change (2 ^ 5) with 32.
  pose proof (Z.mod_pos_bound n 32 ltac:(lia)) as Hm. set (k := n mod 32) in *.
  assert (Hk : forall j, (j + n) mod 32 = (j + k) mod 32) by (intros; unfold k; rewrite Z.add_mod_idemp_r by lia; reflexivity).
  unfold shifted. destruct (Z.eqb_spec k 0) as [E|Hne].
  - exists x. split_and!; [|exact Hx|].
    + destruct (Z.eqb_spec n 0); cbn [negb]; unfold bind, set_cf, modify, ret; [reflexivity|]. rewrite land1 by lia. reflexivity.
    + intros j Hj. rewrite Hk, E, Z.add_0_r, Z.mod_small by lia. reflexivity.
  - destruct (Z.eqb_spec n 0) as [E|Hn0]; [exfalso; apply Hne; unfold k; rewrite E; reflexivity|].
    assert (Hb : forall j, 0 <= j < 32 ->
      Z.testbit (Z.lor (Z.shiftr x k) (u32 (Z.shiftl x (32 - k)))) j = Z.testbit x ((j + k) mod 32)).
    { intros j Hj. unfold u32. rewrite Z.lor_spec, Z.shiftr_spec, Z.mod_pow2_bits_low, Z.shiftl_spec by lia.
      destruct (Z.lt_ge_cases (j + k) 32).
      - rewrite (Z.mod_small (j + k)) by lia. rewrite (Z.testbit_neg_r x (j - (32 - k))) by lia. apply orb_false_r.
      - rewrite (testbit_above x 32 (j + k)) by (assumption || lia). cbn [orb]. f_equal.
        apply (Z.mod_unique _ _ 1); lia. }
    eexists. split_and!.
    + unfold bind, set_cf, modify, ret. rewrite land1 by lia. rewrite Hb by lia. do 5 f_equal.
      apply (Z.mod_unique _ _ 1); lia.
    + apply bits_u32; [apply Z.lor_nonneg; split; [apply Z.shiftr_nonneg, Hx|apply u32_range]|]. intros m Hm32.
      rewrite Z.lor_spec, Z.shiftr_spec by lia. rewrite (testbit_above x 32) by (assumption || lia).
      apply (testbit_above _ 32); [apply u32_range|lia].
    + intros j Hj. rewrite Hk. apply Hb. exact Hj.
Qed.

(** The shifter: each variable shift by the low byte [n] of its
    operand gives the mathematical shift of the 32-bit word (logical left,
    logical right, arithmetic right, rotation), for every [n] up to 255, and
    the carry is the last bit shifted out, kept when [n] is 0. *)
Lemma shifter_correct x i s : is_u32 x -> let n := Z.land i 0xff in
  shl_cc x i s = Done (shifted n (u32 (Z.shiftl x n)) (Z.testbit x (32 - n)) s) /\
  shr_cc x i s = Done (shifted n (Z.shiftr x n) (Z.testbit x (n - 1)) s) /\
  sar_cc x i s = Done (shifted n (u32 (Z.shiftr (s32 x) n)) (Z.testbit (s32 x) (n - 1)) s) /\
  exists r, ror_cc x i s = Done (shifted n r (Z.testbit r 31) s) /\ is_u32 r /\
    forall j, 0 <= j < 32 -> Z.testbit r j = Z.testbit x ((j + n) mod 32).
Proof.
  intros Hx n. split_and!; [apply shl_cc_spec|apply shr_cc_spec|apply sar_cc_spec|apply ror_cc_spec]; exact Hx.
Qed.

(** ** The SIMD table lookup *)

(** Byte [j] of a word, and byte [k] of the table that starts at register
    [rn]. *)
Definition byte_of (x j : Z) : Z := (x / 256 ^ j) mod 256.
Definition table_byte (s : cpu_st) (rn k : Z) : Z :=
  byte_of (nth (Z.to_nat (rn + k / 8)) (vfp_regs s) 0) (k mod 8).

(** The byte the lookup puts in lane [j]. *)
Definition lane (s : cpu_st) (ireg def rn maxindex j : Z) : Z :=
  let index := byte_of ireg j in
  if index <? maxindex then table_byte s rn index else byte_of def j.

Lemma byte_of_range x j : 0 <= byte_of x j < 256.
Proof. unfold byte_of. apply Z.mod_pos_bound. lia. Qed.

Lemma byte_shift x j : 0 <= j -> Z.land (Z.shiftr x (8 * j)) 0xff = byte_of x j.
Proof.
  intros Hj. change 0xff with (Z.ones 8). rewrite Z.land_ones, Z.shiftr_div_pow2 by lia. unfold byte_of.
  rewrite Z.pow_mul_r by lia. reflexivity.
Qed.

Lemma byte_mask x j : 0 <= j <= 3 -> Z.land x (u32 (Z.shiftl 0xff (8 * j))) = Z.shiftl (byte_of x j) (8 * j).
Proof.
  intros Hj. rewrite u32_small.
  2:{ unfold is_u32. assert (j = 0 \/ j = 1 \/ j = 2 \/ j = 3) as [->|[->|[->| ->]]] by lia; vm_compute; intuition congruence. }
  rewrite <- byte_shift by lia. apply Z.bits_inj'. intros n Hn. rewrite Z.land_spec, !Z.shiftl_spec by lia.
  destruct (Z.lt_ge_cases n (8 * j)).
  - rewrite !(Z.testbit_neg_r _ (n - 8 * j)) by lia. apply andb_false_r.
  - rewrite Z.land_spec, Z.shiftr_spec by lia. do 2 f_equal. lia.
Qed.

Lemma join_byte val b j : 0 <= j <= 3 -> 0 <= val < 256 ^ j -> 0 <= b < 256 ->
  Z.lor val (u32 (Z.shiftl b (8 * j))) = val + 256 ^ j * b.
Proof.
  intros Hj Hv Hb. assert (E : 2 ^ (8 * j) = 256 ^ j) by (rewrite Z.pow_mul_r by lia; reflexivity).
  rewrite u32_small.
  - rewrite Z.lor_comm, lor_shift_add by (rewrite ?E; lia). rewrite E. lia.
  - rewrite Z.shiftl_mul_pow2, E by lia. unfold is_u32.
    assert (j = 0 \/ j = 1 \/ j = 2 \/ j = 3) as [->|[->|[->| ->]]] by lia; cbn; lia.
Qed.

(** One iteration of the loop. *)
Lemma tbl_step s ireg def rn maxindex val j : cpu_wf s -> 0 <= j <= 3 -> 0 <= val < 256 ^ j -> 0 <= rn ->
  rn + (maxindex - 1) / 8 < 32 ->
  (let index := Z.land (Z.shiftr ireg (8 * j)) 0xff in
    if index <? maxindex then
      let! v := gets vfp_regs in
      let! t := arr_get v (rn + Z.shiftr index 3) in
      let tmp := Z.land (Z.shiftr t (Z.shiftl (Z.land index 7) 3)) 0xff in
      ret (Z.lor val (u32 (Z.shiftl tmp (8 * j))))
    else ret (Z.lor val (Z.land def (u32 (Z.shiftl 0xff (8 * j)))))) s
  = Done (val + 256 ^ j * lane s ireg def rn maxindex j, s).
Proof.
  intros Hs Hj Hv Hr Hm. cbn zeta. rewrite byte_shift by lia. unfold lane. pose proof (byte_of_range ireg j) as Hb.
  set (k := byte_of ireg j) in *. destruct (Z.ltb_spec k maxindex).
  - rewrite Z.shiftr_div_pow2 by lia. change (2 ^ 3) with 8.
    assert (Hk : 0 <= k / 8 <= (maxindex - 1) / 8) by (split; [apply Z.div_pos; lia|apply Z.div_le_mono; lia]).
    destruct (znth_lt (vfp_regs s) (rn + k / 8)) as [t Ht]; [rewrite (wf_vfp s Hs); lia|].
    unfold bind, gets, arr_get. rewrite Ht. cbn [defined ret]. unfold ret.
    change (Z.land k 7) with (Z.land k (Z.ones 3)). rewrite (Z.land_ones k 3), (Z.shiftl_mul_pow2 (k mod 2 ^ 3) 3) by lia.
    change (2 ^ 3) with 8. rewrite (Z.mul_comm (k mod 8) 8).
    rewrite byte_shift by (apply Z.mod_pos_bound; lia). rewrite join_byte by auto using byte_of_range.
    apply znth_Some in Ht as [_ Ht]. unfold table_byte. rewrite (nth_lookup_Some _ _ 0 _ Ht). reflexivity.
  - unfold ret. rewrite byte_mask by lia. rewrite <- (u32_small (Z.shiftl (byte_of def j) (8 * j))).
    + rewrite join_byte by auto using byte_of_range. reflexivity.
    + pose proof (byte_of_range def j). unfold is_u32. rewrite Z.shiftl_mul_pow2 by lia.
      assert (j = 0 \/ j = 1 \/ j = 2 \/ j = 3) as [->|[->|[->| ->]]] by lia; cbn; lia.
Qed.

(**  The table lookup: as long as the table lies inside the register
    file, each of the four bytes of the result is the table byte selected by
    the corresponding index byte, or that byte of the default where the
    index is out of range; no access leaves the register file. *)
Lemma neon_tbl_correct s ireg def rn maxindex : cpu_wf s -> 0 <= rn -> rn + (maxindex - 1) / 8 < 32 ->
  neon_tbl ireg def rn maxindex s = Done (le_val (lane s ireg def rn maxindex <$> [0; 1; 2; 3]), s).
Proof.
  intros Hs Hr Hm. unfold neon_tbl. cbn [mfold].
  assert (Hl : forall j, 0 <= lane s ireg def rn maxindex j < 256).
  { intros j. unfold lane, table_byte. destruct (_ <? _); apply byte_of_range. }
  set (L := lane s ireg def rn maxindex) in *. pose proof (Hl 0). pose proof (Hl 1). pose proof (Hl 2). pose proof (Hl 3).
  erewrite bind_run by (apply (tbl_step s ireg def rn maxindex 0 0); auto; lia). cbn beta. fold L.
  erewrite bind_run by (apply (tbl_step s ireg def rn maxindex _ 1); auto; lia). cbn beta. fold L.
  erewrite bind_run by (apply (tbl_step s ireg def rn maxindex _ 2); auto; lia). cbn beta. fold L.
  erewrite bind_run by (apply (tbl_step s ireg def rn maxindex _ 3); auto; lia). fold L.
  unfold ret. do 2 f_equal. cbn [fmap list_fmap le_val].
  change (256 ^ 0) with 1. change (256 ^ 1) with 256. change (256 ^ 2) with 65536. change (256 ^ 3) with 16777216. lia.
Qed.

(** ** Concrete runs *)
Lemma saturation_correct_witness :
  add_saturate 0x7fffffff 1 demo_env = Done (0x7fffffff, set_QF 1 demo_env) /\ usat 300 8 demo_env = Done (255, set_QF 1 demo_env).
Proof.
  destruct (saturation_correct 0x7fffffff 1 8 demo_env) as (H & _); [split; vm_compute; congruence..|lia|].
  destruct (saturation_correct 300 1 8 demo_env) as (_ & _ & _ & _ & _ & H'); [split; vm_compute; congruence..|lia|].
  split; [exact H|exact H'].
Defined.

Lemma double_saturate_flag_witness : double_saturate (- 2 ^ 30) demo_env = Done (2 ^ 31, set_QF 1 demo_env).
Proof. exact (double_saturate_flag (- 2 ^ 30) demo_env ltac:(lia)). Defined.

Lemma shifter_correct_witness : sar_cc 0x80000000 40 demo_env = Done (0xffffffff, set_CF 1 demo_env).
Proof. exact (proj1 (proj2 (proj2 (shifter_correct 0x80000000 40 demo_env ltac:(split; vm_compute; congruence))))). Defined.

Lemma neon_tbl_correct_witness : neon_tbl 0x00080100 0xAABBCCDD 3 8 demo_env = Done (0x00BB0000, demo_env).
Proof. exact (neon_tbl_correct demo_env 0x00080100 0xAABBCCDD 3 8 demo_env_wf ltac:(lia) ltac:(vm_compute; reflexivity)). Defined.
