(* ===== verification/CpuMode.v ===== *)
(** * Processor modes and the status register: [target-arm/helper.c]

    The emulator keeps the registers of the current mode in [regs] and the
    others in banks that [switch_mode] swaps; the status register is split
    into cached flags and [uncached_cpsr].  The refinement below shows that
    the swapping implements the architecture's register file, in which each
    mode simply has its own registers. *)
From stdpp Require Import base list.
From S2P Require Import Prelude Double ArmTable State Cycles CpuState Errors OpHelper.
Open Scope Z_scope.

(** [hw_error] aborts the emulator. *)
Definition mabort {A} : M cpu_st A := fun _ => AssertFailed.

Definition bank_of (mode : Z) : option Z :=
  if (mode =? ARM_CPU_MODE_USR) || (mode =? ARM_CPU_MODE_SYS) then Some 0
  else if mode =? ARM_CPU_MODE_SVC then Some 1
  else if mode =? ARM_CPU_MODE_ABT then Some 2
  else if mode =? ARM_CPU_MODE_UND then Some 3
  else if mode =? ARM_CPU_MODE_IRQ then Some 4
  else if mode =? ARM_CPU_MODE_FIQ then Some 5
  else if mode =? ARM_CPU_MODE_SMC then Some 6
  else None.
Definition bank_number (mode : Z) : M cpu_st Z :=
  match bank_of mode with Some i => ret i | None => mabort end.

(** [memcpy (env->fiq_regs, env->regs + 8, 5 * sizeof(uint32_t))] and back. *)
Definition hi_regs (r : list Z) : list Z := take 5 (drop 8 r).
Definition with_hi (r h : list Z) : list Z := take 8 r ++ h ++ drop 13 r.

Definition switch_mode (mode : Z) : M cpu_st unit :=
  let! old_mode := gets (fun s => Z.land (uncached_cpsr s) CPSR_M) in
  if mode =? old_mode then ret tt
  else
    (if old_mode =? ARM_CPU_MODE_FIQ then
       modify (fun s => set_fiq_regs (hi_regs (regs s)) s) ;;
       modify (fun s => set_regs (with_hi (regs s) (usr_regs s)) s)
     else if mode =? ARM_CPU_MODE_FIQ then
       modify (fun s => set_usr_regs (hi_regs (regs s)) s) ;;
       modify (fun s => set_regs (with_hi (regs s) (fiq_regs s)) s)
     else ret tt) ;;
    let! i := bank_number old_mode in
    modify (fun s => set_banked_r13 (zset (banked_r13 s) i (reg s 13)) s) ;;
    modify (fun s => set_banked_r14 (zset (banked_r14 s) i (reg s 14)) s) ;;
    modify (fun s => set_banked_spsr (zset (banked_spsr s) i (spsr s)) s) ;;
    let! i := bank_number mode in
    (let! b := gets banked_r13 in let! v := arr_get b i in put_reg 13 v) ;;
    (let! b := gets banked_r14 in let! v := arr_get b i in put_reg 14 v) ;;
    (let! b := gets banked_spsr in let! v := arr_get b i in modify (set_spsr v)).

Definition bad_mode_switch (mode : Z) : bool :=
  negb ((mode =? ARM_CPU_MODE_USR) || (mode =? ARM_CPU_MODE_SYS) || (mode =? ARM_CPU_MODE_SVC) ||
        (mode =? ARM_CPU_MODE_ABT) || (mode =? ARM_CPU_MODE_UND) || (mode =? ARM_CPU_MODE_IRQ) ||
        (mode =? ARM_CPU_MODE_FIQ)).

Definition lors (l : list Z) : Z := foldr Z.lor 0 l.

Definition cpsr_read (s : cpu_st) : Z :=
  lors [uncached_cpsr s; Z.land (NF s) 0x80000000; u32 (Z.shiftl (if ZF s =? 0 then 1 else 0) 30);
        u32 (Z.shiftl (CF s) 29); Z.shiftr (Z.land (VF s) 0x80000000) 3; u32 (Z.shiftl (QF s) 27);
        u32 (Z.shiftl (thumb s) 5); u32 (Z.shiftl (Z.land (condexec_bits s) 3) 25);
        u32 (Z.shiftl (Z.land (condexec_bits s) 0xfc) 8); u32 (Z.shiftl (GE s) 16)].

(** The flags part of [cpsr_write]. *)
Definition write_flags (val mask : Z) (s : cpu_st) : cpu_st :=
  let s := if tst mask CPSR_NZCV then
      set_VF (Z.land (u32 (Z.shiftl val 3)) 0x80000000) (set_CF (Z.land (Z.shiftr val 29) 1)
        (set_NF val (set_ZF (Z.land (not32 val) CPSR_Z) s))) else s in
  let s := if tst mask CPSR_Q then set_QF (if tst val CPSR_Q then 1 else 0) s else s in
  let s := if tst mask CPSR_T then set_thumb (if tst val CPSR_T then 1 else 0) s else s in
  let s := if tst mask CPSR_IT_0_1 then
      set_condexec_bits (Z.lor (Z.land (condexec_bits s) (not32 3)) (Z.land (Z.shiftr val 25) 3)) s else s in
  let s := if tst mask CPSR_IT_2_7 then
      set_condexec_bits (Z.lor (Z.land (condexec_bits s) 3) (Z.land (Z.shiftr val 8) 0xfc)) s else s in
  if tst mask CPSR_GE then set_GE (Z.land (Z.shiftr val 16) 0xf) s else s.

Definition cpsr_write (val mask : Z) : M cpu_st unit :=
  modify (write_flags val mask) ;;
  let! u := gets uncached_cpsr in
  let! mask' :=
    if tst (Z.land (Z.lxor u val) mask) CPSR_M then
      if bad_mode_switch (Z.land val CPSR_M) then ret (Z.land mask (not32 CPSR_M))
      else switch_mode (Z.land val CPSR_M) ;; ret mask
    else ret mask in
  let mask'' := Z.land mask' (not32 CACHED_CPSR_BITS) in
  modify (fun s => set_uncached_cpsr (Z.lor (Z.land (uncached_cpsr s) (not32 mask'')) (Z.land val mask'')) s).

(** [op_helper.c]: user-mode registers from privileged modes. *)
Definition mode_of (s : cpu_st) : Z := Z.land (uncached_cpsr s) CPSR_M.

Definition get_user_reg (regno : Z) : M cpu_st Z :=
  let! s := gets id in
  if regno =? 13 then arr_get (banked_r13 s) 0
  else if regno =? 14 then arr_get (banked_r14 s) 0
  else if (8 <=? regno) && (mode_of s =? ARM_CPU_MODE_FIQ) then arr_get (usr_regs s) (regno - 8)
  else arr_get (regs s) regno.

(** An assignment to an array element. *)
Definition aset (l : list Z) (i v : Z) (put : list Z -> cpu_st -> cpu_st) : M cpu_st unit :=
  if in_bounds l i then modify (put (zset l i v)) else undefined.

Definition set_user_reg (regno val : Z) : M cpu_st unit :=
  let! s := gets id in
  if regno =? 13 then aset (banked_r13 s) 0 val set_banked_r13
  else if regno =? 14 then aset (banked_r14 s) 0 val set_banked_r14
  else if (8 <=? regno) && (mode_of s =? ARM_CPU_MODE_FIQ) then aset (usr_regs s) (regno - 8) val set_usr_regs
  else aset (regs s) regno val set_regs.

Definition set_r13_banked (mode val : Z) : M cpu_st unit :=
  let! s := gets id in
  if mode_of s =? mode then aset (regs s) 13 val set_regs
  else let! i := bank_number mode in aset (banked_r13 s) i val set_banked_r13.

Definition get_r13_banked (mode : Z) : M cpu_st Z :=
  let! s := gets id in
  if mode_of s =? mode then arr_get (regs s) 13
  else let! i := bank_number mode in arr_get (banked_r13 s) i.

(** ** The architecture's register file *)

(** Register [r] as mode [m] sees it. *)
Definition view (s : cpu_st) (m r : Z) : Z :=
  let cur := mode_of s in
  let same_bank := match bank_of m, bank_of cur with Some i, Some j => i =? j | _, _ => false end in
  let bank l := match bank_of m with Some i => nth (Z.to_nat i) l 0 | None => 0 end in
  if (8 <=? r) && (r <=? 12) then
    if m =? ARM_CPU_MODE_FIQ then
      if cur =? ARM_CPU_MODE_FIQ then reg s r else nth (Z.to_nat (r - 8)) (fiq_regs s) 0
    else if cur =? ARM_CPU_MODE_FIQ then nth (Z.to_nat (r - 8)) (usr_regs s) 0 else reg s r
  else if r =? 13 then if same_bank then reg s 13 else bank (banked_r13 s)
  else if r =? 14 then if same_bank then reg s 14 else bank (banked_r14 s)
  else reg s r.

(** ** [switch_mode] as a state transformer *)

Definition swap_hi (mode old : Z) (s : cpu_st) : cpu_st :=
  if old =? ARM_CPU_MODE_FIQ then set_regs (with_hi (regs s) (usr_regs s)) (set_fiq_regs (hi_regs (regs s)) s)
  else if mode =? ARM_CPU_MODE_FIQ then set_regs (with_hi (regs s) (fiq_regs s)) (set_usr_regs (hi_regs (regs s)) s)
  else s.
Definition bank_out (i : Z) (s : cpu_st) : cpu_st :=
  set_banked_spsr (zset (banked_spsr s) i (spsr s))
    (set_banked_r14 (zset (banked_r14 s) i (reg s 14)) (set_banked_r13 (zset (banked_r13 s) i (reg s 13)) s)).
Definition nthz (l : list Z) (i : Z) : Z := nth (Z.to_nat i) l 0.
Definition bank_in (j : Z) (s : cpu_st) : cpu_st :=
  set_spsr (nthz (banked_spsr s) j)
    (set_regs (zset (zset (regs s) 13 (nthz (banked_r13 s) j)) 14 (nthz (banked_r14 s) j)) s).

Lemma bank_range m i : bank_of m = Some i -> 0 <= i < 7.
Proof. unfold bank_of. repeat case_match; intros [= <-]; lia. Qed.

Lemma nthz_znth l i : 0 <= i < Z.of_nat (length l) -> znth l i = Some (nthz l i).
Proof.
  intros H. destruct (znth_lt l i H) as [x Hx]. rewrite Hx. apply znth_Some in Hx as [_ Hx].
  unfold nthz. rewrite (nth_lookup_Some _ _ 0 _ Hx). reflexivity.
Qed.

Lemma nthz_zset l i v j : 0 <= i < Z.of_nat (length l) -> 0 <= j < Z.of_nat (length l) ->
  nthz (zset l i v) j = if j =? i then v else nthz l j.
Proof.
  intros Hi Hj. destruct (Z.eqb_spec j i) as [->|Hne].
  - pose proof (nthz_znth (zset l i v) i ltac:(rewrite length_zset; lia)) as E. rewrite znth_zset_eq in E by lia. congruence.
  - pose proof (nthz_znth (zset l i v) j ltac:(rewrite length_zset; lia)) as E.
    rewrite znth_zset_ne in E by lia. rewrite nthz_znth in E by lia. congruence.
Qed.

Lemma Forall_nthz (P : Z -> Prop) l i : Forall P l -> 0 <= i < Z.of_nat (length l) -> P (nthz l i).
Proof. intros Hl Hi. eapply Forall_znth; [exact Hl|]. apply nthz_znth. exact Hi. Qed.

Lemma hi_regs_length r : length r = 16%nat -> length (hi_regs r) = 5%nat.
Proof. intros H. unfold hi_regs. rewrite length_take, length_drop. lia. Qed.

Lemma with_hi_length r h : length r = 16%nat -> length h = 5%nat -> length (with_hi r h) = 16%nat.
Proof. intros H1 H2. unfold with_hi. rewrite !length_app, length_take, length_drop. lia. Qed.

Lemma nthz_hi r k : length r = 16%nat -> 0 <= k < 5 -> nthz (hi_regs r) k = nthz r (k + 8).
Proof.
  intros H Hk. do 17 (destruct r as [|? r]; try discriminate H).
  assert (k = 0 \/ k = 1 \/ k = 2 \/ k = 3 \/ k = 4) as [->|[->|[->|[->| ->]]]] by lia; reflexivity.
Qed.

Lemma nthz_with_hi r h k : length r = 16%nat -> length h = 5%nat -> 0 <= k < 16 ->
  nthz (with_hi r h) k = if (8 <=? k) && (k <=? 12) then nthz h (k - 8) else nthz r k.
Proof.
  intros H1 H2 Hk. do 17 (destruct r as [|? r]; try discriminate H1). do 6 (destruct h as [|? h]; try discriminate H2).
  assert (k = 0 \/ k = 1 \/ k = 2 \/ k = 3 \/ k = 4 \/ k = 5 \/ k = 6 \/ k = 7 \/ k = 8 \/ k = 9 \/ k = 10 \/
    k = 11 \/ k = 12 \/ k = 13 \/ k = 14 \/ k = 15) as Hc by lia.
  repeat destruct Hc as [->|Hc]; [reflexivity..|]. rewrite Hc. reflexivity.
Qed.

Lemma swap_hi_wf mode old s : cpu_wf s -> cpu_wf (swap_hi mode old s).
Proof.
  intros W. pose proof W as [? ? ? ? ? ? ? ? ? ? ? ? ?]. unfold swap_hi.
  assert (forall h, length h = 5%nat -> Forall is_u32 h -> Forall is_u32 (with_hi (regs s) h)).
  { intros h _ Hh. unfold with_hi. repeat apply Forall_app_2; auto using Forall_take, Forall_drop. }
  assert (Forall is_u32 (hi_regs (regs s))) by (unfold hi_regs; auto using Forall_take, Forall_drop).
  repeat case_match; auto; split; cbn; auto using hi_regs_length, with_hi_length.
Qed.

Lemma bank_out_wf i s : cpu_wf s -> cpu_wf (bank_out i s).
Proof.
  intros W. pose proof W as [? ? ? ? ? ? ? ? ? ? ? ? ?].
  assert (forall r, 0 <= r < 16 -> is_u32 (reg s r)) by (intros; apply (Forall_nthz is_u32); [assumption|lia]).
  split; cbn; rewrite ?length_zset; auto; apply Forall_zset; auto with lia.
Qed.

Lemma bank_in_wf j s : 0 <= j < 7 -> cpu_wf s -> cpu_wf (bank_in j s).
Proof.
  intros Hj W. pose proof W as [? ? ? ? ? ? ? ? ? ? ? ? ?]. split; cbn; rewrite ?length_zset; auto.
  repeat apply Forall_zset; auto; apply (Forall_nthz is_u32); auto; lia.
Qed.

Lemma switch_mode_run s mode i j : cpu_wf s -> mode <> mode_of s -> bank_of (mode_of s) = Some i -> bank_of mode = Some j ->
  switch_mode mode s = Done (tt, bank_in j (bank_out i (swap_hi mode (mode_of s) s))).
Proof.
  intros W Hne Hi Hj. pose proof (bank_range _ _ Hj) as Rj. unfold switch_mode.
  erewrite bind_run by reflexivity. cbn beta. fold (mode_of s). destruct (Z.eqb_spec mode (mode_of s)); [contradiction|].
  assert (Hsw : (if mode_of s =? ARM_CPU_MODE_FIQ then
       modify (fun s => set_fiq_regs (hi_regs (regs s)) s) ;; modify (fun s => set_regs (with_hi (regs s) (usr_regs s)) s)
     else if mode =? ARM_CPU_MODE_FIQ then
       modify (fun s => set_usr_regs (hi_regs (regs s)) s) ;; modify (fun s => set_regs (with_hi (regs s) (fiq_regs s)) s)
     else ret tt) s = Done (tt, swap_hi mode (mode_of s) s)) by (unfold swap_hi; repeat case_match; reflexivity).
  erewrite bind_run by exact Hsw. cbn beta. unfold bank_number. rewrite Hi, Hj.
  erewrite bind_run by reflexivity. cbn beta.
  do 3 (erewrite bind_run by reflexivity; cbn beta). erewrite bind_run by reflexivity. cbn beta.
  set (s1 := swap_hi mode (mode_of s) s). change (set_banked_spsr _ _) with (bank_out i s1).
  pose proof (bank_out_wf i s1 (swap_hi_wf mode (mode_of s) s W)) as W2. set (s2 := bank_out i s1) in *.
  assert (Z13 : znth (banked_r13 s2) j = Some (nthz (banked_r13 s2) j)) by (apply nthz_znth; rewrite (wf_r13 _ W2); lia).
  assert (Z14 : znth (banked_r14 s2) j = Some (nthz (banked_r14 s2) j)) by (apply nthz_znth; rewrite (wf_r14 _ W2); lia).
  assert (Zs : znth (banked_spsr s2) j = Some (nthz (banked_spsr s2) j)) by (apply nthz_znth; rewrite (wf_spsr _ W2); lia).
  assert (U13 : is_u32 (nthz (banked_r13 s2) j)) by (apply Forall_nthz; [apply (wf_r13_32 _ W2)|rewrite (wf_r13 _ W2); lia]).
  assert (U14 : is_u32 (nthz (banked_r14 s2) j)) by (apply Forall_nthz; [apply (wf_r14_32 _ W2)|rewrite (wf_r14 _ W2); lia]).
  unfold arr_get. erewrite bind_run.
  2:{ erewrite bind_run by reflexivity. cbn beta. rewrite Z13. erewrite bind_run by reflexivity. apply put_reg_run; [exact W2|lia]. }
  cbn beta. rewrite u32_small by exact U13. erewrite bind_run.
  2:{ erewrite bind_run by reflexivity. cbn [banked_r14 set_regs]. rewrite Z14. erewrite bind_run by reflexivity.
      apply put_reg_run; [|lia]. apply set_regs_wf; [exact W2|rewrite length_zset; apply (wf_regs _ W2)|].
      apply Forall_zset; [apply (wf_regs32 _ W2)|exact U13]. }
  cbn beta. rewrite u32_small by exact U14. erewrite bind_run by reflexivity. cbn [banked_spsr set_regs].
  rewrite Zs. erewrite bind_run by reflexivity. reflexivity.
Qed.

(** ** The switch preserves every mode's registers *)

(** The state after the switch, with the mode field of the CPSR updated. *)
Definition switched (s : cpu_st) (mode i j u : Z) : cpu_st :=
  set_uncached_cpsr u (bank_in j (bank_out i (swap_hi mode (mode_of s) s))).

Section View.
Context (s : cpu_st) (mode i j u : Z).
Hypothesis W : cpu_wf s.
Hypothesis Hne : mode <> mode_of s.
Hypothesis Hi : bank_of (mode_of s) = Some i.
Hypothesis Hj : bank_of mode = Some j.
Hypothesis Hu : Z.land u CPSR_M = mode.
Let s' := switched s mode i j u.

Lemma mode_switched : mode_of s' = mode.
Proof. exact Hu. Qed.

(** Outside r8-r12 the swap leaves [regs] alone. *)
Lemma reg_swap r : 0 <= r < 16 -> ~ (8 <= r <= 12) -> reg (swap_hi mode (mode_of s) s) r = reg s r.
Proof.
  intros Hr Hn. unfold swap_hi. destruct (mode_of s =? _); [|destruct (mode =? _); [|reflexivity]].
  - change (nthz (with_hi (regs s) (usr_regs s)) r = nthz (regs s) r). rewrite nthz_with_hi by (apply W || lia).
    destruct (Z.leb_spec 8 r), (Z.leb_spec r 12); reflexivity || lia.
  - change (nthz (with_hi (regs s) (fiq_regs s)) r = nthz (regs s) r). rewrite nthz_with_hi by (apply W || lia).
    destruct (Z.leb_spec 8 r), (Z.leb_spec r 12); reflexivity || lia.
Qed.

Lemma reg_switched r : 0 <= r < 16 -> r <> 13 -> r <> 14 -> reg s' r = reg (swap_hi mode (mode_of s) s) r.
Proof.
  intros Hr H13 H14. set (s1 := swap_hi mode (mode_of s) s).
  assert (L : length (regs s1) = 16%nat) by (apply wf_regs, swap_hi_wf, W).
  change (nthz (zset (zset (regs s1) 13 (nthz (banked_r13 (bank_out i s1)) j)) 14 (nthz (banked_r14 (bank_out i s1)) j)) r
    = nthz (regs s1) r).
  rewrite !nthz_zset by (rewrite ?length_zset, L; lia).
  destruct (Z.eqb_spec r 14), (Z.eqb_spec r 13); reflexivity || lia.
Qed.

Lemma banks_swap : banked_r13 (swap_hi mode (mode_of s) s) = banked_r13 s /\ banked_r14 (swap_hi mode (mode_of s) s) = banked_r14 s.
Proof. unfold swap_hi. repeat case_match; auto. Qed.

(** Register 13 or 14 and its bank, before and after. *)
Lemma reg13_switched : reg s' 13 = (if j =? i then reg s 13 else nthz (banked_r13 s) j) /\
  forall k, 0 <= k < 7 -> nthz (banked_r13 s') k = if k =? i then reg s 13 else nthz (banked_r13 s) k.
Proof.
  pose proof (bank_range _ _ Hi) as Ri. pose proof (bank_range _ _ Hj) as Rj. destruct banks_swap as [E13 _].
  set (s1 := swap_hi mode (mode_of s) s) in *.
  assert (L : length (regs s1) = 16%nat) by (apply wf_regs, swap_hi_wf, W).
  assert (B : banked_r13 s' = zset (banked_r13 s) i (reg s 13)).
  { change (zset (banked_r13 s1) i (reg s1 13) = zset (banked_r13 s) i (reg s 13)). rewrite E13. f_equal.
    apply reg_swap; lia. }
  assert (K : forall k, 0 <= k < 7 -> nthz (banked_r13 s') k = if k =? i then reg s 13 else nthz (banked_r13 s) k).
  { intros k Hk. rewrite B. apply nthz_zset; rewrite (wf_r13 _ W); lia. }
  split; [|exact K]. rewrite <- (K j Rj).
  change (nthz (zset (zset (regs s1) 13 (nthz (banked_r13 s') j)) 14 (nthz (banked_r14 s') j)) 13 = nthz (banked_r13 s') j).
  rewrite !nthz_zset by (rewrite ?length_zset, L; lia). reflexivity.
Qed.

Lemma reg14_switched : reg s' 14 = (if j =? i then reg s 14 else nthz (banked_r14 s) j) /\
  forall k, 0 <= k < 7 -> nthz (banked_r14 s') k = if k =? i then reg s 14 else nthz (banked_r14 s) k.
Proof.
  pose proof (bank_range _ _ Hi) as Ri. pose proof (bank_range _ _ Hj) as Rj. destruct banks_swap as [_ E14].
  set (s1 := swap_hi mode (mode_of s) s) in *.
  assert (L : length (regs s1) = 16%nat) by (apply wf_regs, swap_hi_wf, W).
  assert (B : banked_r14 s' = zset (banked_r14 s) i (reg s 14)).
  { change (zset (banked_r14 s1) i (reg s1 14) = zset (banked_r14 s) i (reg s 14)). rewrite E14. f_equal.
    apply reg_swap; lia. }
  assert (K : forall k, 0 <= k < 7 -> nthz (banked_r14 s') k = if k =? i then reg s 14 else nthz (banked_r14 s) k).
  { intros k Hk. rewrite B. apply nthz_zset; rewrite (wf_r14 _ W); lia. }
  split; [|exact K]. rewrite <- (K j Rj).
  change (nthz (zset (zset (regs s1) 13 (nthz (banked_r13 s') j)) 14 (nthz (banked_r14 s') j)) 14 = nthz (banked_r14 s') j).
  rewrite !nthz_zset by (rewrite ?length_zset, L; lia). reflexivity.
Qed.

(** r8-r12 *)
Lemma hi_switched m r : 8 <= r <= 12 -> view s' m r = view s m r.
Proof.
  intros Hr. unfold view. rewrite mode_switched. destruct (Z.leb_spec 8 r), (Z.leb_spec r 12); try lia. cbn [andb].
  rewrite reg_switched by lia. unfold swap_hi.
  destruct (Z.eqb_spec (mode_of s) ARM_CPU_MODE_FIQ) as [EF|NF].
  - destruct (Z.eqb_spec mode ARM_CPU_MODE_FIQ); [congruence|]. destruct (m =? ARM_CPU_MODE_FIQ).
    + unfold s', switched, swap_hi. rewrite EF. change (nthz (hi_regs (regs s)) (r - 8) = nthz (regs s) r).
      rewrite nthz_hi by (apply W || lia). f_equal. lia.
    + change (nthz (with_hi (regs s) (usr_regs s)) r = nthz (usr_regs s) (r - 8)). rewrite nthz_with_hi by (apply W || lia).
      destruct (Z.leb_spec 8 r), (Z.leb_spec r 12); reflexivity || lia.
  - destruct (Z.eqb_spec mode ARM_CPU_MODE_FIQ) as [EM|NM]; destruct (m =? ARM_CPU_MODE_FIQ).
    + change (nthz (with_hi (regs s) (fiq_regs s)) r = nthz (fiq_regs s) (r - 8)). rewrite nthz_with_hi by (apply W || lia).
      destruct (Z.leb_spec 8 r), (Z.leb_spec r 12); reflexivity || lia.
    + unfold s', switched, swap_hi. destruct (Z.eqb_spec (mode_of s) ARM_CPU_MODE_FIQ); [contradiction|]. rewrite EM.
      change (nthz (hi_regs (regs s)) (r - 8) = nthz (regs s) r). rewrite nthz_hi by (apply W || lia). f_equal. lia.
    + unfold s', switched, swap_hi. destruct (Z.eqb_spec (mode_of s) ARM_CPU_MODE_FIQ); [contradiction|].
      destruct (Z.eqb_spec mode ARM_CPU_MODE_FIQ); [contradiction|]. reflexivity.
    + reflexivity.
Qed.

Lemma view_switched m r : is_Some (bank_of m) -> 0 <= r < 16 -> view s' m r = view s m r.
Proof.
  intros [k Hk] Hr. pose proof (bank_range _ _ Hk) as Rk. pose proof (bank_range _ _ Hi) as Ri.
  destruct (decide (8 <= r <= 12)) as [Hh|Hh]; [apply hi_switched; exact Hh|].
  unfold view. rewrite mode_switched, Hk, Hi, Hj.
  destruct (Z.leb_spec 8 r), (Z.leb_spec r 12); try lia; cbn [andb];
    (destruct (Z.eqb_spec r 13) as [->|H13]; [|destruct (Z.eqb_spec r 14) as [->|H14]]).
  all: try (rewrite reg_switched, reg_swap by lia; reflexivity).
  all: change (nth (Z.to_nat k) ?l 0) with (nthz l k).
  all: first [destruct reg13_switched as [-> K] | destruct reg14_switched as [-> K]]; rewrite (K k Rk);
    destruct (Z.eqb_spec k j), (Z.eqb_spec j i), (Z.eqb_spec k i); subst; reflexivity || lia.
Qed.
End View.

(** ** Writing the status register *)

Lemma write_flags_frame val mask s :
  regs (write_flags val mask s) = regs s /\ uncached_cpsr (write_flags val mask s) = uncached_cpsr s /\
  banked_r13 (write_flags val mask s) = banked_r13 s /\ banked_r14 (write_flags val mask s) = banked_r14 s /\
  banked_spsr (write_flags val mask s) = banked_spsr s /\
  usr_regs (write_flags val mask s) = usr_regs s /\ fiq_regs (write_flags val mask s) = fiq_regs s /\
  vfp_regs (write_flags val mask s) = vfp_regs s /\ spsr (write_flags val mask s) = spsr s.
Proof. unfold write_flags. repeat case_match; split_and!; reflexivity. Qed.

Lemma write_flags_wf val mask s : cpu_wf s -> cpu_wf (write_flags val mask s).
Proof.
  intros [? ? ? ? ? ? ? ? ? ? ? ? ?]. destruct (write_flags_frame val mask s) as (E1 & _ & E2 & E3 & E4 & E5 & E6 & E7 & _).
  split; rewrite ?E1, ?E2, ?E3, ?E4, ?E5, ?E6, ?E7; assumption.
Qed.

Lemma uncached_wf u s : cpu_wf s -> cpu_wf (set_uncached_cpsr u s).
Proof. intros []. split; assumption. Qed.

Lemma view_ext s t m r : regs t = regs s -> banked_r13 t = banked_r13 s -> banked_r14 t = banked_r14 s ->
  usr_regs t = usr_regs s -> fiq_regs t = fiq_regs s -> mode_of t = mode_of s -> view t m r = view s m r.
Proof. intros E1 E2 E3 E4 E5 E6. unfold view, reg. rewrite E1, E2, E3, E4, E5, E6. reflexivity. Qed.

Lemma testbit_31 n : 0 <= n -> Z.testbit 31 n = (n <? 5).
Proof. intros Hn. change 31 with (Z.ones 5). apply Z.testbit_ones_nonneg; lia. Qed.

(** The final assignment to [uncached_cpsr] updates the mode field or not. *)
Definition merge (u val mask : Z) : Z :=
  let mask := Z.land mask (not32 CACHED_CPSR_BITS) in Z.lor (Z.land u (not32 mask)) (Z.land val mask).

Lemma merge_bit u val mask n : 0 <= n < 5 ->
  Z.testbit (merge u val mask) n = if Z.testbit mask n then Z.testbit val n else Z.testbit u n.
Proof.
  intros Hn. unfold merge. rewrite Z.lor_spec, !Z.land_spec. unfold not32.
  rewrite !Z.lxor_spec, !Z.land_spec, !Z.lxor_spec. change 0xffffffff with (Z.ones 32).
  rewrite !Z.testbit_ones_nonneg by lia. destruct (Z.ltb_spec n 32); [|lia].
  assert (E : Z.testbit CACHED_CPSR_BITS n = false).
  { assert (n = 0 \/ n = 1 \/ n = 2 \/ n = 3 \/ n = 4) as [->|[->|[->|[->| ->]]]] by lia; reflexivity. }
  rewrite E. destruct (Z.testbit mask n), (Z.testbit u n), (Z.testbit val n); reflexivity.
Qed.

Lemma merge_mode u val mask b : (forall n, 0 <= n < 5 -> Z.testbit mask n = b) ->
  Z.land (merge u val mask) CPSR_M = Z.land (if b then val else u) CPSR_M.
Proof.
  intros Hm. apply Z.bits_inj'. intros n Hn. rewrite !Z.land_spec. unfold CPSR_M. rewrite testbit_31 by lia.
  destruct (Z.ltb_spec n 5); [|rewrite !andb_false_r; reflexivity]. rewrite merge_bit, Hm by lia. destruct b; reflexivity.
Qed.

(** The mode field of the mask is all set or all clear. *)
Definition mode_mask (mask : Z) (b : bool) : Prop := forall n, 0 <= n < 5 -> Z.testbit mask n = b.

Lemma mode_mask_clear mask : mode_mask (Z.land mask (not32 CPSR_M)) false.
Proof.
  intros n Hn. unfold not32, CPSR_M. rewrite Z.land_spec, Z.lxor_spec, testbit_31 by lia.
  change 0xffffffff with (Z.ones 32). rewrite Z.testbit_ones_nonneg by lia.
  destruct (Z.ltb_spec n 5), (Z.ltb_spec n 32); try lia. apply andb_false_r.
Qed.

Lemma land_mode_eq u val : Z.land u CPSR_M = Z.land val CPSR_M <-> forall n, 0 <= n < 5 -> Z.testbit u n = Z.testbit val n.
Proof.
  split.
  - intros E n Hn. pose proof (f_equal (fun z => Z.testbit z n) E) as B. cbn beta in B.
    rewrite !Z.land_spec in B. unfold CPSR_M in B. rewrite testbit_31 in B by lia.
    destruct (Z.ltb_spec n 5); [|lia]. rewrite !andb_true_r in B. exact B.
  - intros E. apply Z.bits_inj'. intros n Hn. rewrite !Z.land_spec. unfold CPSR_M. rewrite testbit_31 by lia.
    destruct (Z.ltb_spec n 5); [rewrite E by lia; reflexivity|rewrite !andb_false_r; reflexivity].
Qed.

Lemma tst_mode u val mask b : mode_mask mask b ->
  tst (Z.land (Z.lxor u val) mask) CPSR_M = b && negb (Z.land u CPSR_M =? Z.land val CPSR_M).
Proof.
  intros Hm. assert (Z0 : Z.land (Z.land (Z.lxor u val) mask) CPSR_M = 0 <->
    b = false \/ Z.land u CPSR_M = Z.land val CPSR_M).
  { rewrite land_mode_eq. split.
    - intros E. destruct b; [right|left; reflexivity]. intros n Hn.
      pose proof (f_equal (fun z => Z.testbit z n) E) as B. cbn beta in B.
      rewrite !Z.land_spec, Z.lxor_spec, Z.bits_0, Hm in B by lia. unfold CPSR_M in B. rewrite testbit_31 in B by lia.
      destruct (Z.ltb_spec n 5); [|lia]. rewrite !andb_true_r in B. apply xorb_eq. exact B.
    - intros H. apply Z.bits_inj'. intros n Hn. rewrite !Z.land_spec, Z.lxor_spec, Z.bits_0. unfold CPSR_M.
      rewrite testbit_31 by lia. destruct (Z.ltb_spec n 5); [|rewrite !andb_false_r; reflexivity]. rewrite Hm by lia.
      destruct H as [->|H]; [rewrite andb_false_r; reflexivity|]. rewrite H, xorb_nilpotent by lia. reflexivity. }
  unfold tst. destruct (Z.eqb_spec (Z.land (Z.land (Z.lxor u val) mask) CPSR_M) 0) as [E|E]; cbn [negb].
  - apply Z0 in E as [->|E]; [reflexivity|]. rewrite E, Z.eqb_refl. destruct b; reflexivity.
  - destruct b; [|exfalso; apply E, Z0; auto]. destruct (Z.eqb_spec (Z.land u CPSR_M) (Z.land val CPSR_M)); [|reflexivity].
    exfalso. apply E, Z0. auto.
Qed.

Lemma good_mode_bank m : bad_mode_switch m = false -> is_Some (bank_of m).
Proof.
  unfold bad_mode_switch, bank_of. intros H. apply negb_false_iff in H.
  destruct (m =? ARM_CPU_MODE_USR); [eauto|]. destruct (m =? ARM_CPU_MODE_SYS); [eauto|].
  destruct (m =? ARM_CPU_MODE_SVC); [eauto|]. destruct (m =? ARM_CPU_MODE_ABT); [eauto|].
  destruct (m =? ARM_CPU_MODE_UND); [eauto|]. destruct (m =? ARM_CPU_MODE_IRQ); [eauto|].
  destruct (m =? ARM_CPU_MODE_FIQ); [eauto|discriminate].
Qed.

(** The effect of a write on the registers. *)
Lemma cpsr_write_view s val mask b : cpu_wf s -> is_Some (bank_of (mode_of s)) -> mode_mask mask b ->
  exists s', cpsr_write val mask s = Done (tt, s') /\ cpu_wf s' /\
    mode_of s' = (if b && negb (bad_mode_switch (Z.land val CPSR_M)) then Z.land val CPSR_M else mode_of s) /\
    forall m r, is_Some (bank_of m) -> 0 <= r < 16 -> view s' m r = view s m r.
Proof.
  intros W [i Hi] Hm. unfold cpsr_write. erewrite bind_run by reflexivity. cbn beta.
  pose proof (write_flags_wf val mask s W) as W1. destruct (write_flags_frame val mask s) as (E1 & Eu & E2 & E3 & _ & E5 & E6 & _).
  set (s1 := write_flags val mask s) in *.
  assert (M1 : mode_of s1 = mode_of s) by (unfold mode_of; rewrite Eu; reflexivity).
  assert (V1 : forall m r, view s1 m r = view s m r) by (intros; apply view_ext; assumption).
  erewrite bind_run by reflexivity. cbn beta. rewrite (tst_mode _ _ _ b Hm). fold (mode_of s1). rewrite M1.
  assert (Hkeep : forall mk c, mode_mask mk c -> (c = true -> Z.land val CPSR_M = mode_of s) ->
    let s' := set_uncached_cpsr (merge (uncached_cpsr s1) val mk) s1 in
    cpu_wf s' /\ mode_of s' = mode_of s /\ forall m r, view s' m r = view s m r).
  { intros mk c Hc Hv s'. assert (Ms : mode_of s' = mode_of s).
    { change (Z.land (merge (uncached_cpsr s1) val mk) CPSR_M = mode_of s). rewrite (merge_mode _ _ _ c Hc).
      destruct c; [auto|]. rewrite Eu. reflexivity. }
    split_and!; [apply uncached_wf, W1|exact Ms|].
    intros m r. rewrite <- V1. apply view_ext; try reflexivity. rewrite Ms, M1. reflexivity. }
  destruct (Z.eqb_spec (mode_of s) (Z.land val CPSR_M)) as [Ev|Nv].
  - rewrite andb_false_r. erewrite bind_run by reflexivity. cbn beta zeta.
    destruct (Hkeep mask b Hm (fun _ => eq_sym Ev)) as (K1 & K2 & K3). eexists. split; [reflexivity|].
    split_and!; [exact K1| |auto]. rewrite <- Ev. destruct (b && _); exact K2.
  - rewrite andb_true_r. destruct b; cbn [andb].
    2:{ erewrite bind_run by reflexivity. cbn beta zeta. destruct (Hkeep mask false Hm ltac:(discriminate)) as (K1 & K2 & K3).
        eexists. split; [reflexivity|]. split_and!; [exact K1|exact K2|auto]. }
    destruct (bad_mode_switch (Z.land val CPSR_M)) eqn:Hbad; cbn [negb].
    { erewrite bind_run by reflexivity. cbn beta zeta.
      destruct (Hkeep _ false (mode_mask_clear mask) ltac:(discriminate)) as (K1 & K2 & K3).
      eexists. split; [reflexivity|]. split_and!; [exact K1|exact K2|auto]. }
    destruct (good_mode_bank _ Hbad) as [j Hj].
    assert (Hs : switch_mode (Z.land val CPSR_M) s1 = Done (tt, bank_in j (bank_out i (swap_hi (Z.land val CPSR_M) (mode_of s1) s1)))).
    { apply switch_mode_run; [exact W1|rewrite M1; congruence|rewrite M1; exact Hi|exact Hj]. }
    erewrite bind_run by (erewrite bind_run by exact Hs; reflexivity). cbn beta zeta.
    eexists. split; [reflexivity|]. match goal with |- context [set_uncached_cpsr ?x ?y] => set (u' := x); set (s2 := y) in * end.
    assert (Hu' : Z.land u' CPSR_M = Z.land val CPSR_M).
    { change u' with (merge (uncached_cpsr s2) val mask). exact (merge_mode _ _ _ true Hm). }
    split_and!.
    + apply uncached_wf, bank_in_wf; [eapply bank_range; exact Hj|apply bank_out_wf, swap_hi_wf, W1].
    + exact Hu'.
    + intros m r Hbm Hr. rewrite <- V1. apply (view_switched s1 (Z.land val CPSR_M) i j u'); auto; rewrite M1; auto.
Qed.

(** C6.  Writing the CPSR implements the architecture's register file: the
    write succeeds from any valid mode, the mode changes to the written one
    if the mask covers the mode field and the mode is valid (an invalid mode
    is ignored), and whichever mode the processor was in and goes to, every
    mode still sees the registers it saw before. *)
Theorem cpsr_write_banks s val mask b : cpu_wf s -> is_Some (bank_of (mode_of s)) -> mode_mask mask b ->
  exists s', cpsr_write val mask s = Done (tt, s') /\ cpu_wf s' /\
    mode_of s' = (if b && negb (bad_mode_switch (Z.land val CPSR_M)) then Z.land val CPSR_M else mode_of s) /\
    forall m r, is_Some (bank_of m) -> 0 <= r < 16 -> view s' m r = view s m r.
Proof. exact (cpsr_write_view s val mask b). Qed.

(** The switch alone, for a mode field that is updated afterwards. *)
Lemma switch_spec c nm : cpu_wf c -> is_Some (bank_of (mode_of c)) -> is_Some (bank_of nm) ->
  exists c1, switch_mode nm c = Done (tt, c1) /\ cpu_wf c1 /\ uncached_cpsr c1 = uncached_cpsr c /\
    [NF c1; ZF c1; CF c1; VF c1; QF c1; thumb c1; condexec_bits c1; GE c1] =
    [NF c; ZF c; CF c; VF c; QF c; thumb c; condexec_bits c; GE c] /\
    forall u m r, Z.land u CPSR_M = nm -> is_Some (bank_of m) -> 0 <= r < 16 -> view (set_uncached_cpsr u c1) m r = view c m r.
Proof.
  intros W [i Hi] [j Hj]. destruct (Z.eq_dec nm (mode_of c)) as [E|N].
  - exists c. split_and!; try reflexivity; [|exact W|].
    + unfold switch_mode. erewrite bind_run by reflexivity. fold (mode_of c). rewrite E, Z.eqb_refl. reflexivity.
    + intros u m r Hu _ _. apply view_ext; try reflexivity. rewrite <- E. exact Hu.
  - exists (bank_in j (bank_out i (swap_hi nm (mode_of c) c))). split_and!.
    + apply switch_mode_run; assumption.
    + apply bank_in_wf; [eapply bank_range; exact Hj|apply bank_out_wf, swap_hi_wf, W].
    + unfold swap_hi. repeat case_match; reflexivity.
    + unfold swap_hi. repeat case_match; reflexivity.
    + intros u m r Hu Hm Hr. exact (view_switched c nm i j u W N Hi Hj Hu m r Hm Hr).
Qed.

(** ** User registers from privileged modes *)

Lemma aset_run l i v put s : 0 <= i < Z.of_nat (length l) -> aset l i v put s = Done (tt, put (zset l i v) s).
Proof.
  intros Hi. unfold aset, in_bounds. destruct (Z.leb_spec 0 i); [|lia].
  destruct (Z.ltb_spec i (Z.of_nat (length l))); [reflexivity|lia].
Qed.

(** From a privileged mode with its own bank, the user-register
    helpers access exactly the user mode's view: reading register [r], up to
    r14, gives what user mode sees, and writing it changes that register,
    and no other, of the user's view. *)
Lemma user_regs_correct s i r v : cpu_wf s -> bank_of (mode_of s) = Some i -> i <> 0 -> 0 <= r < 15 ->
  get_user_reg r s = Done (view s ARM_CPU_MODE_USR r, s) /\
  exists s', set_user_reg r v s = Done (tt, s') /\ mode_of s' = mode_of s /\
    forall r', 0 <= r' < 16 -> view s' ARM_CPU_MODE_USR r' = if r' =? r then v else view s ARM_CPU_MODE_USR r'.
Proof.
  intros W Hi Hn Hr. pose proof W as [L _ _ L13 L14 Lu Lf _ _ _ _ _ _].
  assert (Hv : forall t r', mode_of t = mode_of s -> view t ARM_CPU_MODE_USR r' =
    if (8 <=? r') && (r' <=? 12) then if mode_of s =? ARM_CPU_MODE_FIQ then nthz (usr_regs t) (r' - 8) else nthz (regs t) r'
    else if r' =? 13 then nthz (banked_r13 t) 0 else if r' =? 14 then nthz (banked_r14 t) 0 else nthz (regs t) r').
  { intros t r' E. unfold view. rewrite E, Hi. change (bank_of ARM_CPU_MODE_USR) with (Some 0).
    assert (E0 : (0 =? i) = false) by (apply Z.eqb_neq; lia). cbv beta zeta iota. rewrite E0. reflexivity. }
  split.
  - rewrite Hv by reflexivity. unfold get_user_reg. erewrite bind_run by reflexivity. cbn beta. unfold id, arr_get.
    destruct (Z.eqb_spec r 13) as [->|N13]; [rewrite nthz_znth by (rewrite L13; lia); reflexivity|].
    destruct (Z.eqb_spec r 14) as [->|N14]; [rewrite nthz_znth by (rewrite L14; lia); reflexivity|].
    destruct (Z.leb_spec 8 r), (Z.leb_spec r 12), (mode_of s =? ARM_CPU_MODE_FIQ); cbn [andb]; try lia;
      rewrite nthz_znth by (rewrite ?L, ?Lu; lia); reflexivity.
  - unfold set_user_reg. erewrite bind_run by reflexivity. cbn beta. unfold id.
    destruct (Z.eqb_spec r 13) as [->|N13]; [|destruct (Z.eqb_spec r 14) as [->|N14];
      [|destruct (Z.leb_spec 8 r), (mode_of s =? ARM_CPU_MODE_FIQ) eqn:EF; cbn [andb]]].
    all: eexists; split; [apply aset_run; rewrite ?L, ?L13, ?L14, ?Lu; lia|]; split; [reflexivity|].
    all: intros r' Hr'; rewrite !Hv by reflexivity; rewrite ?EF; cbn [usr_regs regs banked_r13 banked_r14 set_usr_regs set_regs set_banked_r13 set_banked_r14].
    all: destruct (Z.leb_spec 8 r'), (Z.leb_spec r' 12), (Z.eqb_spec r' 13), (Z.eqb_spec r' 14); subst; try lia; cbn [andb];
      rewrite ?nthz_zset by (rewrite ?L, ?L13, ?L14, ?Lu; lia);
      repeat match goal with |- context [?a =? ?b] => destruct (Z.eqb_spec a b) end; reflexivity || lia.
Qed.

(** ** Reading back the status register *)

(** A field moved down, masked and moved back is the field. *)
Lemma field_back val k m : 0 <= k -> Z.shiftl (Z.land (Z.shiftr val k) m) k = Z.land val (Z.shiftl m k).
Proof.
  intros Hk. apply Z.bits_inj'. intros n Hn. rewrite Z.land_spec, !Z.shiftl_spec by lia.
  destruct (Z.lt_ge_cases n k).
  - rewrite !(Z.testbit_neg_r _ (n - k)), !andb_false_r by lia. reflexivity.
  - rewrite Z.land_spec, Z.shiftr_spec by lia. do 2 f_equal. lia.
Qed.

Lemma flag_back val k : 0 <= k -> Z.shiftl (if tst val (2 ^ k) then 1 else 0) k = Z.land val (2 ^ k).
Proof.
  intros Hk. unfold tst. rewrite land_pow2 by lia. destruct (Z.testbit val k).
  - destruct (Z.eqb_spec (2 ^ k) 0); [pose proof (Z.pow_pos_nonneg 2 k); lia|]. cbn [negb]. apply Z.shiftl_1_l.
  - cbn [Z.eqb negb]. apply Z.shiftl_0_l.
Qed.

Lemma land_u32 a b : is_u32 b -> 0 <= b -> is_u32 (Z.land a b).
Proof.
  intros Hb H0. apply bits_u32; [apply Z.land_nonneg; lia|]. intros n Hn.
  rewrite Z.land_spec, (testbit_above b 32) by (assumption || lia). apply andb_false_r.
Qed.

(** The cached flags, in place, and the same bits of a value. *)
Definition flag_bits (s : cpu_st) : Z := cpsr_read (set_uncached_cpsr 0 s).
Definition cpsr_parts (val : Z) : list Z :=
  [0; Z.land val CPSR_N; Z.land val CPSR_Z; Z.land val CPSR_C; Z.land val CPSR_V; Z.land val CPSR_Q;
   Z.land val CPSR_T; Z.land val CPSR_IT_0_1; Z.land val CPSR_IT_2_7; Z.land val CPSR_GE].

Lemma zf_back val : is_u32 val -> u32 (Z.shiftl (if Z.land (not32 val) CPSR_Z =? 0 then 1 else 0) 30) = Z.land val CPSR_Z.
Proof.
  intros Hv. assert (E : (Z.land (not32 val) CPSR_Z =? 0) = tst val CPSR_Z).
  { change CPSR_Z with (2 ^ 30). unfold tst. rewrite !land_pow2 by lia. unfold not32. rewrite Z.lxor_spec.
    change 0xffffffff with (Z.ones 32). rewrite Z.testbit_ones_nonneg by lia. destruct (Z.testbit val 30); reflexivity. }
  rewrite E. pose proof (flag_back val 30 ltac:(lia)) as F. change (2 ^ 30) with CPSR_Z in F.
  destruct (tst val CPSR_Z); rewrite <- F; reflexivity.
Qed.

Lemma vf_back val : Z.shiftr (Z.land (Z.land (u32 (Z.shiftl val 3)) 0x80000000) 0x80000000) 3 = Z.land val CPSR_V.
Proof.
  rewrite <- Z.land_assoc, Z.land_diag. change 0x80000000 with (2 ^ 31). change CPSR_V with (2 ^ 28). rewrite !land_pow2 by lia.
  unfold u32. rewrite Z.mod_pow2_bits_low, Z.shiftl_spec by lia. destruct (Z.testbit val (31 - 3)) eqn:E; change (31 - 3) with 28 in E; rewrite E; reflexivity.
Qed.

Lemma cond_lo c val : Z.land (Z.lor (Z.land (Z.lor (Z.land c (not32 3)) (Z.land (Z.shiftr val 25) 3)) 3) (Z.land (Z.shiftr val 8) 0xfc)) 3
  = Z.land (Z.shiftr val 25) 3.
Proof.
  apply Z.bits_inj'. intros n Hn. repeat rewrite ?Z.land_spec, ?Z.lor_spec.
  change 3 with (Z.ones 2). rewrite Z.testbit_ones_nonneg by lia. destruct (Z.ltb_spec n 2); [|rewrite !andb_false_r; reflexivity].
  assert (n = 0 \/ n = 1) as [->| ->] by lia; unfold not32; rewrite Z.lxor_spec;
    change (Z.testbit 0xfc 0) with false; change (Z.testbit 0xfc 1) with false;
    change (Z.testbit (Z.ones 2) 0) with true; change (Z.testbit (Z.ones 2) 1) with true;
    change (Z.testbit 0xffffffff 0) with true; change (Z.testbit 0xffffffff 1) with true; cbn [xorb];
    rewrite ?andb_false_r, ?andb_true_r, ?orb_false_r; reflexivity.
Qed.

Lemma cond_hi c val : Z.land (Z.lor (Z.land c 3) (Z.land (Z.shiftr val 8) 0xfc)) 0xfc = Z.land (Z.shiftr val 8) 0xfc.
Proof.
  rewrite Z.land_lor_distr_l, <- !Z.land_assoc. change (Z.land 3 0xfc) with 0. change (Z.land 0xfc 0xfc) with 0xfc.
  rewrite Z.land_0_r. apply Z.lor_0_l.
Qed.

(** After a write with the full mask, the flags read back as written. *)
Lemma read_flags val s : is_u32 val ->
  flag_bits (write_flags val 0xffffffff s) = lors (cpsr_parts val).
Proof.
  intros Hv. unfold flag_bits, cpsr_read, cpsr_parts. unfold write_flags.
  change (tst 0xffffffff CPSR_NZCV) with true. change (tst 0xffffffff CPSR_Q) with true.
  change (tst 0xffffffff CPSR_T) with true. change (tst 0xffffffff CPSR_IT_0_1) with true.
  change (tst 0xffffffff CPSR_IT_2_7) with true. change (tst 0xffffffff CPSR_GE) with true.
  cbv beta zeta iota.
  cbn [uncached_cpsr NF ZF CF VF QF thumb condexec_bits GE set_uncached_cpsr set_NF set_ZF set_CF set_VF set_QF set_thumb set_condexec_bits set_GE].
  rewrite cond_lo, cond_hi, zf_back, vf_back by exact Hv.
  change (Z.land val 0x80000000) with (Z.land val CPSR_N).
  assert (U : forall m, is_u32 m -> is_u32 (Z.land val m)) by (intros m Hm; apply land_u32; [exact Hm|apply Hm]).
  pose proof (field_back val 29 1 ltac:(lia)) as F29. pose proof (flag_back val 27 ltac:(lia)) as F27.
  pose proof (flag_back val 5 ltac:(lia)) as F5. pose proof (field_back val 25 3 ltac:(lia)) as F25.
  pose proof (field_back val 8 0xfc ltac:(lia)) as F8. pose proof (field_back val 16 0xf ltac:(lia)) as F16.
  change (Z.shiftl 1 29) with CPSR_C in F29. change (2 ^ 27) with CPSR_Q in F27. change (2 ^ 5) with CPSR_T in F5.
  change (Z.shiftl 3 25) with CPSR_IT_0_1 in F25. change (Z.shiftl 0xfc 8) with CPSR_IT_2_7 in F8.
  change (Z.shiftl 0xf 16) with CPSR_GE in F16. rewrite F29, F27, F5, F25, F8, F16.
  rewrite !u32_small by (apply U; split; vm_compute; congruence). reflexivity.
Qed.

Lemma cpsr_split s : cpsr_read s = Z.lor (uncached_cpsr s) (flag_bits s).
Proof. reflexivity. Qed.

(** The cached flags of a state. *)
Definition flags_of (s : cpu_st) : list Z := [NF s; ZF s; CF s; VF s; QF s; thumb s; condexec_bits s; GE s].

Lemma flag_bits_ext s t : flags_of t = flags_of s -> flag_bits t = flag_bits s.
Proof.
  intros H. injection H as E1 E2 E3 E4 E5 E6 E7 E8. unfold flag_bits, cpsr_read.
  cbn [uncached_cpsr NF ZF CF VF QF thumb condexec_bits GE set_uncached_cpsr]. rewrite E1, E2, E3, E4, E5, E6, E7, E8. reflexivity.
Qed.

Lemma switch_flags mode old i j s : flags_of (bank_in j (bank_out i (swap_hi mode old s))) = flags_of s.
Proof. unfold swap_hi. repeat case_match; reflexivity. Qed.

Lemma switch_uncached mode old i j s : uncached_cpsr (bank_in j (bank_out i (swap_hi mode old s))) = uncached_cpsr s.
Proof. unfold swap_hi. repeat case_match; reflexivity. Qed.

Lemma parts_cached val : lors (cpsr_parts val) = Z.land val CACHED_CPSR_BITS.
Proof. unfold cpsr_parts, lors. cbn [foldr]. rewrite Z.lor_0_r, Z.lor_0_l, <- !Z.land_lor_distr_r. reflexivity. Qed.

Lemma merge_join u val : is_u32 val -> Z.land u CACHED_CPSR_BITS = 0 ->
  Z.lor (merge u val 0xffffffff) (Z.land val CACHED_CPSR_BITS) = val.
Proof.
  intros Hv Hu. unfold merge.
  change (Z.land 0xffffffff (not32 CACHED_CPSR_BITS)) with (not32 CACHED_CPSR_BITS).
  change (not32 (not32 CACHED_CPSR_BITS)) with CACHED_CPSR_BITS. rewrite Hu, Z.lor_0_l, <- Z.land_lor_distr_r.
  change (Z.lor (not32 CACHED_CPSR_BITS) CACHED_CPSR_BITS) with (Z.ones 32). rewrite Z.land_ones by lia. apply u32_small. exact Hv.
Qed.

Lemma full_mask : mode_mask 0xffffffff true.
Proof. intros n Hn. change 0xffffffff with (Z.ones 32). rewrite Z.testbit_ones_nonneg by lia. apply Z.ltb_lt. lia. Qed.

(** The status word after a write with the full mask. *)
Lemma cpsr_write_back s val : cpu_wf s -> is_u32 val -> is_Some (bank_of (mode_of s)) ->
  Z.land (uncached_cpsr s) CACHED_CPSR_BITS = 0 -> bad_mode_switch (Z.land val CPSR_M) = false ->
  exists s', cpsr_write val 0xffffffff s = Done (tt, s') /\ cpsr_read s' = val.
Proof.
  intros W Hv [i Hi] Hu Hbad. unfold cpsr_write. erewrite bind_run by reflexivity. cbn beta.
  pose proof (write_flags_wf val 0xffffffff s W) as W1.
  destruct (write_flags_frame val 0xffffffff s) as (_ & Eu & _).
  pose proof (read_flags val s Hv) as Hread. set (s1 := write_flags val 0xffffffff s) in *.
  assert (M1 : mode_of s1 = mode_of s) by (unfold mode_of; rewrite Eu; reflexivity).
  assert (Hfin : forall t, flags_of t = flags_of s1 -> uncached_cpsr t = uncached_cpsr s ->
    cpsr_read (set_uncached_cpsr (merge (uncached_cpsr t) val 0xffffffff) t) = val).
  { intros t Hf Ht. rewrite cpsr_split. change (flag_bits (set_uncached_cpsr _ t)) with (flag_bits t).
    rewrite (flag_bits_ext s1 t Hf), Hread, parts_cached, Ht. apply merge_join; assumption. }
  erewrite bind_run by reflexivity. cbn beta. rewrite (tst_mode _ _ _ true full_mask). fold (mode_of s1). rewrite M1.
  destruct (Z.eqb_spec (mode_of s) (Z.land val CPSR_M)) as [Ev|Nv]; cbn [andb negb].
  - erewrite bind_run by reflexivity. eexists. split; [reflexivity|]. apply (Hfin s1); [reflexivity|exact Eu].
  - rewrite Hbad. destruct (good_mode_bank _ Hbad) as [j Hj].
    assert (Hs : switch_mode (Z.land val CPSR_M) s1 = Done (tt, bank_in j (bank_out i (swap_hi (Z.land val CPSR_M) (mode_of s1) s1)))).
    { apply switch_mode_run; [exact W1|rewrite M1; congruence|rewrite M1; exact Hi|exact Hj]. }
    erewrite bind_run by (erewrite bind_run by exact Hs; reflexivity).
    eexists. split; [reflexivity|]. apply Hfin; [apply switch_flags|rewrite switch_uncached; exact Eu].
Qed.

(** The CPSR reads back as written: from any valid mode, after a
    write of a value with a valid mode and the full mask, the assembled
    status register is that value, bit for bit. *)
Lemma cpsr_roundtrip s val : cpu_wf s -> is_u32 val -> is_Some (bank_of (mode_of s)) ->
  Z.land (uncached_cpsr s) CACHED_CPSR_BITS = 0 -> bad_mode_switch (Z.land val CPSR_M) = false ->
  exists s', cpsr_write val 0xffffffff s = Done (tt, s') /\ cpsr_read s' = val.
Proof. exact (cpsr_write_back s val). Qed.

(** ** Concrete runs: an interrupt-mode processor *)
Definition demo_irq : cpu_st :=
  set_banked_r13 [0x8000; 0; 0; 0; 0; 0; 0] (set_regs ([0; 7; 5] ++ replicate 13 0) (zero_cpu ARM_CPU_MODE_IRQ 0)).

Lemma demo_irq_wf : cpu_wf demo_irq.
Proof.
  assert (Hr : cpu_wf (set_regs ([0; 7; 5] ++ replicate 13 0) (zero_cpu ARM_CPU_MODE_IRQ 0))).
  { apply set_regs_wf; [apply zero_cpu_wf|reflexivity|].
    repeat (apply Forall_cons; split; [split; vm_compute; congruence|]). apply Forall_nil_2. }
  destruct Hr. split; try assumption; try reflexivity.
  repeat (apply Forall_cons; split; [split; vm_compute; congruence|]). apply Forall_nil_2.
Qed.

Lemma cpsr_write_banks_witness : exists s', cpsr_write 0x10 0x1f demo_irq = Done (tt, s') /\
  mode_of s' = ARM_CPU_MODE_USR /\ view s' ARM_CPU_MODE_USR 13 = 0x8000.
Proof.
  destruct (cpsr_write_banks demo_irq 0x10 0x1f true demo_irq_wf) as (s' & H1 & _ & H2 & H3).
  - exists 4. reflexivity.
  - intros n Hn. change 0x1f with (Z.ones 5). rewrite Z.testbit_ones_nonneg by lia. apply Z.ltb_lt. lia.
  - exists s'. split; [exact H1|]. split; [exact H2|]. rewrite H3 by (eauto || lia). reflexivity.
Defined.

Lemma user_regs_correct_witness : get_user_reg 13 demo_irq = Done (0x8000, demo_irq).
Proof. exact (proj1 (user_regs_correct demo_irq 4 13 0 demo_irq_wf eq_refl ltac:(lia) ltac:(lia))). Defined.

Lemma cpsr_roundtrip_witness : exists s', cpsr_write 0xF80F0630 0xffffffff demo_irq = Done (tt, s') /\ cpsr_read s' = 0xF80F0630.
Proof.
  apply (cpsr_roundtrip demo_irq 0xF80F0630 demo_irq_wf).
  - split; vm_compute; congruence.
  - exists 4. reflexivity.
  - reflexivity.
  - reflexivity.
Defined.
