(* ===== verification/Wfi.v ===== *)
(** * Sleeping and waking: WFI and the idle loop

    The helper of WFI ([op_helper.c]) opens a sleep period and halts the
    processor; while it is halted, QEMU's main loop asks [cpu_has_work]
    ([cpu.h]) again and again, and the first pending interrupt ends the
    period.  This file composes the two with the time accounting. *)
From stdpp Require Import base list relations.
From S2P Require Import Prelude Double ArmTable State Power Cycles CpuState Errors OpHelper.
Open Scope Z_scope.

Section Wfi.
Context {CLK : VmClock} {PM : PowerModel} {QC : QemuConsts}.
Hypothesis clock_bound : forall n, 0 <= vm_clock_ns n < 2 ^ 62.

Definition work_bits : Z := Z.lor (Z.lor CPU_INTERRUPT_FIQ CPU_INTERRUPT_HARD) CPU_INTERRUPT_EXITTB.

(** The main loop around a halted processor: before each query the devices
    set the request lines to the next value of [reqs].  The result is the
    number of the query that found work. *)
Fixpoint idle (reqs : list Z) : M machine (option nat) :=
  match reqs with
  | [] => ret None
  | r :: reqs' =>
      on_env (modify (set_interrupt_request r)) ;;
      let! w := cpu_has_work in
      if (w : bool) then ret (Some 0%nat)
      else let! k := idle reqs' in ret (option_map S k)
  end.

Lemma poll_quiet r reqs m : tst r work_bits = false ->
  idle (r :: reqs) m = (let! k := idle reqs in ret (option_map S k)) (set_env (set_interrupt_request r (env m)) m).
Proof. intros H. cbn [idle]. unfold bind at 1, on_env at 1, modify at 1. unfold cpu_has_work, bind at 1 2, gets at 1. cbn [env set_env interrupt_request set_interrupt_request]. fold work_bits. rewrite H. reflexivity. Qed.

Lemma poll_work r reqs m v' : tst r work_bits = true -> vemu_active_start (vemu m) = Done (tt, v') ->
  idle (r :: reqs) m = Done (Some 0%nat, set_vemu v' (set_env (set_interrupt_request r (env m)) m)).
Proof.
  intros H Hv. cbn [idle]. unfold bind at 1, on_env at 1, modify at 1. unfold cpu_has_work, bind at 1 2, gets at 1.
  cbn [env set_env interrupt_request set_interrupt_request]. fold work_bits. rewrite H.
  unfold bind, on_vemu. cbn [vemu set_env]. rewrite Hv. reflexivity.
Qed.

(** Quiet queries do not touch the accounting. *)
Lemma idle_first reqs : forall k r m v', reqs !! k = Some r -> tst r work_bits = true ->
  (forall j q, (j < k)%nat -> reqs !! j = Some q -> tst q work_bits = false) ->
  vemu_active_start (vemu m) = Done (tt, v') -> exists m', idle reqs m = Done (Some k, m') /\ vemu m' = v'.
Proof.
  induction reqs as [|q reqs IH]; intros [|k] r m v' Hk Hr Hq Hv; try discriminate.
  - injection Hk as ->. eexists. split; [apply (poll_work r reqs m v' Hr Hv)|reflexivity].
  - rewrite poll_quiet by exact (Hq 0%nat q ltac:(lia) eq_refl).
    destruct (IH k r (set_env (set_interrupt_request q (env m)) m) v' Hk Hr) as (m' & H1 & H2); [|exact Hv|].
    + intros j x Hj Hx. exact (Hq (S j) x ltac:(lia) Hx).
    + exists m'. split; [|exact H2]. erewrite bind_run by exact H1. reflexivity.
Qed.

Lemma idle_never reqs : forall m, Forall (fun q => tst q work_bits = false) reqs ->
  exists m', idle reqs m = Done (None, m') /\ vemu m' = vemu m.
Proof.
  induction reqs as [|q reqs IH]; intros m H; [exists m; split; reflexivity|]. apply Forall_cons in H as [Hq Hr].
  rewrite poll_quiet by exact Hq. destruct (IH (set_env (set_interrupt_request q (env m)) m) Hr) as (m' & H1 & H2).
  exists m'. split; [|exact H2]. erewrite bind_run by exact H1. reflexivity.
Qed.

Lemma sleep_start_total s act : cycles_wf (cyc s) -> act_all (cyc s) = Some act ->
  exists s', vemu_sleep_start s = Done (tt, s').
Proof.
  intros (_ & Hl & _) Ha. unfold vemu_sleep_start. erewrite bind_run by reflexivity. cbn beta.
  erewrite bind_run by (apply clock_run; exact clock_bound). cbn beta.
  erewrite bind_run; [eexists; reflexivity|]. rewrite act_time_all_run by exact Hl.
  cbn [cyc set_clock_reads]. rewrite Ha. reflexivity.
Qed.

(** C17.  The processor wakes.  In any state the emulator reaches, WFI halts
    the processor and opens a sleep period; as long as no interrupt is
    pending the queries of the main loop change nothing, and the first query
    that finds one, if there ever is one, reports work and closes the
    period, with the total sleep time equal to the emulated clock at that
    moment minus the clock at initialisation minus the active time. *)
Theorem wfi_until_interrupt s0 m act reqs :
  vemu_init_cycles initial_st = Done (tt, s0) -> rtc cpu_step s0 (vemu m) ->
  act_all (cyc (vemu m)) = Some act -> act < 2 ^ 62 ->
  exists m1, wfi m = Done (LoopExit, m1) /\ halted (env m1) = 1 /\ exception_index (env m1) = EXCP_HLT /\
    entered_sleep_mode (cyc (vemu m1)) = true /\
    (Forall (fun q => tst q work_bits = false) reqs -> exists m2, idle reqs m1 = Done (None, m2) /\ vemu m2 = vemu m1) /\
    forall k r, reqs !! k = Some r -> tst r work_bits = true ->
      (forall j q, (j < k)%nat -> reqs !! j = Some q -> tst q work_bits = false) ->
      exists m2, idle reqs m1 = Done (Some k, m2) /\ entered_sleep_mode (cyc (vemu m2)) = false /\
        total_sleep_time (cyc (vemu m2)) = vm_clock_ns (clock_reads (vemu m1)) - last_active_time_vm (cyc s0) - act.
Proof.
  intros Hi Hr Ha Hlt. destruct (init_time_inv clock_bound s0 Hi) as [_ E0].
  destruct (reachable_time_inv clock_bound s0 (vemu m) Hi Hr) as [Hwf _].
  destruct (sleep_start_total (vemu m) act Hwf Ha) as [v1 Hs].
  destruct (sleep_start_run clock_bound (vemu m) v1 Hwf Hs) as (act' & _ & Ec).
  assert (Hr1 : rtc cpu_step s0 v1) by (eapply rtc_r; [exact Hr|apply step_wfi; exact Hs]).
  destruct (reachable_time_inv clock_bound s0 v1 Hi Hr1) as [Hwf1 Hf1].
  assert (Hsl : entered_sleep_mode (cyc v1) = true) by (rewrite Ec; reflexivity).
  assert (Ha1 : act_all (cyc v1) = Some act) by (rewrite Ec; exact Ha).
  pose proof (wake_exact _ _ _ _ (clock_bound 0) (Hf1 act Ha1 Hlt) Hsl (clock_bound (clock_reads v1)) Hlt) as Hw.
  exists (set_env (set_halted 1 (set_exception_index EXCP_HLT (env m))) (set_vemu v1 m)).
  split; [unfold wfi; erewrite bind_run by (unfold on_vemu; rewrite Hs; reflexivity); reflexivity|].
  split; [reflexivity|]. split; [reflexivity|]. split; [exact Hsl|]. split; [intros Hq; apply idle_never, Hq|].
  intros k r Hk Htr Hq.
  edestruct (idle_first reqs k r (set_env (set_halted 1 (set_exception_index EXCP_HLT (env m))) (set_vemu v1 m)))
    as (m2 & H1 & H2); [exact Hk|exact Htr|exact Hq|apply (active_start_run clock_bound); eauto|].
  exists m2. split; [exact H1|]. rewrite H2, E0. split; reflexivity.
Qed.
End Wfi.

(** ** A concrete run: two quiet queries, then an interrupt *)
Definition wfi_consts : QemuConsts :=
  {| EXCP_HLT := 0x10001; CPU_INTERRUPT_FIQ := 0x10; CPU_INTERRUPT_HARD := 2; CPU_INTERRUPT_EXITTB := 4 |}.
Definition demo_awake : machine := {| env := zero_cpu ARM_CPU_MODE_USR 0; vemu := demo_s2 |}.

Lemma demo_awake_reachable : rtc (@cpu_step demo_clock demo_pm) demo_s0 demo_s2.
Proof.
  etransitivity; [eapply (params_reachable (imap (fun i v => (Z.of_nat i, v)) nc_params) _ demo_s1); vm_compute; reflexivity|].
  eapply (execs_reachable demo_tbs _ _ demo_s2); [vm_compute; reflexivity..].
  Unshelve. apply Forall_replicate, demo_tb_ok.
Qed.

Lemma wfi_until_interrupt_witness : exists m1 m2, @wfi demo_clock wfi_consts demo_awake = Done (LoopExit, m1) /\
  @idle demo_clock wfi_consts [0; 8; 2] m1 = Done (Some 2%nat, m2) /\ entered_sleep_mode (cyc (vemu m2)) = false.
Proof.
  destruct (@wfi_until_interrupt demo_clock demo_pm wfi_consts demo_clock_bound demo_s0 demo_awake 2000 [0; 8; 2]
    eq_refl demo_awake_reachable ltac:(vm_compute; reflexivity) ltac:(lia)) as (m1 & H1 & _ & _ & _ & _ & H2).
  destruct (H2 2%nat 2 eq_refl eq_refl) as (m2 & H3 & H4 & _).
  - intros [|[|j]] q Hj Hq; [injection Hq as <-; reflexivity|injection Hq as <-; reflexivity|lia].
  - exists m1, m2. auto.
Defined.
