(* ===== verification/Sys.v ===== *)
(** * The system state of the processor: coprocessor 15, memory, interrupts

    The parts of [CPUARMState] that only system-level code uses, beside
    [cpu_st]: the struct [cp15] of [target-arm/cpu.h] and the objects the
    processor is connected to.  Physical memory ([ldl_phys], [ldq_phys],
    [stl_phys]) and the nested vectored interrupt controller belong to QEMU
    and are class parameters. *)
From stdpp Require Import base list gmap.
From S2P Require Import Prelude Double ArmTable State CpuState Errors.
Open Scope Z_scope.

(** ** [cpu.h]: the fields of [cp15] *)
Inductive cp15_reg : Set :=
| c0_cpuid | c0_cssel | c1_sys | c1_coproc | c1_xscaleauxcr | c1_scr | c1_sedbg | c1_nseac
| c2_base0 | c2_base0_hi | c2_base1 | c2_base1_hi | c2_control | c2_mask | c2_base_mask | c2_data | c2_insn
| c3 | c5_insn | c5_data | c6_region (i : Z) | c6_insn | c6_data | c7_par | c7_par_hi | c9_insn | c9_data
| c9_pmcr | c9_pmcnten | c9_pmovsr | c9_pmxevtyper | c9_pmuserenr | c9_pminten | c12_vbar | c12_mvbar
| c13_fcse | c13_context | c13_tls1 | c13_tls2 | c13_tls3 | c15_cpar | c15_ticonfig | c15_i_max | c15_i_min
| c15_threadid | c15_config_base_address | c15_diagnostic | c15_power_diagnostic | c15_power_control.

#[export] Instance cp15_reg_eq_dec : EqDecision cp15_reg.
Proof. solve_decision. Defined.

(** The struct, as the value of each field. *)
Definition cp15_st : Type := cp15_reg -> Z.
Definition cp15_set (r : cp15_reg) (v : Z) (c : cp15_st) : cp15_st := fun q => if decide (q = r) then v else c q.

Lemma cp15_set_eq r v c : cp15_set r v c r = v.
Proof. unfold cp15_set. rewrite decide_True by reflexivity. reflexivity. Qed.
Lemma cp15_set_ne r q v c : q <> r -> cp15_set r v c q = c q.
Proof. intros H. unfold cp15_set. rewrite decide_False by exact H. reflexivity. Qed.

(** ** QEMU's memory and interrupt controller *)

(** Physical memory as page tables, vectors and stacks use it: 32-bit and
    64-bit loads and 32-bit stores of RAM. *)
Class PhysMem := {
  mem : Type;
  ldl_phys : mem -> Z -> Z;
  ldq_phys : mem -> Z -> Z;
  stl_phys : mem -> Z -> Z -> mem
}.

(** RAM returns at an aligned address the word last stored there. *)
Class PhysMemLaws `{PhysMem} := {
  ldl_range m a : is_u32 (ldl_phys m a);
  ldl_same m a v : is_u32 v -> a mod 4 = 0 -> ldl_phys (stl_phys m a v) a = v;
  ldl_other m a b v : a mod 4 = 0 -> b mod 4 = 0 -> a <> b -> ldl_phys (stl_phys m a v) b = ldl_phys m b
}.

(** The controller may raise or lower the processor's interrupt lines: its
    operations transform its own state and [interrupt_request]. *)
Class Nvic := {
  nvic : Type;
  armv7m_nvic_set_pending : Z -> nvic * Z -> nvic * Z;
  armv7m_nvic_acknowledge_irq : nvic * Z -> Z * (nvic * Z);
  armv7m_nvic_complete_irq : Z -> nvic * Z -> nvic * Z
}.

(** ** The state *)
Section Sys.
Context {PH : PhysMem} {NV : Nvic}.

Record sys_st : Type := { cpu : cpu_st; cp15 : cp15_st; memory : mem; intc : nvic }.

Definition set_cpu (c : cpu_st) (s : sys_st) : sys_st := {| cpu := c; cp15 := cp15 s; memory := memory s; intc := intc s |}.
Definition set_cp15 (c : cp15_st) (s : sys_st) : sys_st := {| cpu := cpu s; cp15 := c; memory := memory s; intc := intc s |}.
Definition set_memory (m : mem) (s : sys_st) : sys_st := {| cpu := cpu s; cp15 := cp15 s; memory := m; intc := intc s |}.
Definition set_intc (n : nvic) (s : sys_st) : sys_st := {| cpu := cpu s; cp15 := cp15 s; memory := memory s; intc := n |}.

(** Code that only touches [cpu_st]. *)
Definition on_cpu {A} (c : M cpu_st A) : M sys_st A := fun s =>
  match c (cpu s) with
  | Done (a, e) => Done (a, set_cpu e s)
  | AssertFailed => AssertFailed | Undefined => Undefined | Exited z => Exited z
  end.

Definition upd_cpu (f : cpu_st -> cpu_st) : M sys_st unit := modify (fun s => set_cpu (f (cpu s)) s).

(** An operation of the interrupt controller. *)
Definition on_nvic {A} (f : nvic * Z -> A * (nvic * Z)) : M sys_st A := fun s =>
  let '(a, (n, irq)) := f (intc s, interrupt_request (cpu s)) in
  Done (a, set_intc n (set_cpu (set_interrupt_request irq (cpu s)) s)).

Lemma on_cpu_run {A} (c : M cpu_st A) s a e : c (cpu s) = Done (a, e) -> on_cpu c s = Done (a, set_cpu e s).
Proof. intros E. unfold on_cpu. rewrite E. reflexivity. Qed.
End Sys.

(** ** [cpu.h]: exception numbers and feature bits *)
Definition EXCP_UDEF : Z := 1.
Definition EXCP_SWI : Z := 2.
Definition EXCP_PREFETCH_ABORT : Z := 3.
Definition EXCP_DATA_ABORT : Z := 4.
Definition EXCP_IRQ : Z := 5.
Definition EXCP_FIQ : Z := 6.
Definition EXCP_BKPT : Z := 7.
Definition EXCP_EXCEPTION_EXIT : Z := 8.
Definition EXCP_KERNEL_TRAP : Z := 9.
Definition EXCP_STREX : Z := 10.
Definition EXCP_SMC : Z := 11.

Definition ARMV7M_EXCP_RESET : Z := 1.
Definition ARMV7M_EXCP_NMI : Z := 2.
Definition ARMV7M_EXCP_HARD : Z := 3.
Definition ARMV7M_EXCP_MEM : Z := 4.
Definition ARMV7M_EXCP_BUS : Z := 5.
Definition ARMV7M_EXCP_USAGE : Z := 6.
Definition ARMV7M_EXCP_SVC : Z := 11.
Definition ARMV7M_EXCP_DEBUG : Z := 12.
Definition ARMV7M_EXCP_PENDSV : Z := 14.
Definition ARMV7M_EXCP_SYSTICK : Z := 15.

(** The feature bits ([ARM_FEATURE_M], 13, is in [CpuState]). *)
Definition ARM_FEATURE_VFP : Z := 0.
Definition ARM_FEATURE_AUXCR : Z := 1.
Definition ARM_FEATURE_XSCALE : Z := 2.
Definition ARM_FEATURE_IWMMXT : Z := 3.
Definition ARM_FEATURE_V6 : Z := 4.
Definition ARM_FEATURE_V6K : Z := 5.
Definition ARM_FEATURE_V7 : Z := 6.
Definition ARM_FEATURE_THUMB2 : Z := 7.
Definition ARM_FEATURE_MPU : Z := 8.
Definition ARM_FEATURE_VFP3 : Z := 9.
Definition ARM_FEATURE_VFP_FP16 : Z := 10.
Definition ARM_FEATURE_NEON : Z := 11.
Definition ARM_FEATURE_THUMB_DIV : Z := 12.
Definition ARM_FEATURE_OMAPCP : Z := 14.
Definition ARM_FEATURE_THUMB2EE : Z := 15.
Definition ARM_FEATURE_V7MP : Z := 16.
Definition ARM_FEATURE_V4T : Z := 17.
Definition ARM_FEATURE_V5 : Z := 18.
Definition ARM_FEATURE_STRONGARM : Z := 19.
Definition ARM_FEATURE_VAPA : Z := 20.
Definition ARM_FEATURE_ARM_DIV : Z := 21.
Definition ARM_FEATURE_VFP4 : Z := 22.
Definition ARM_FEATURE_GENERIC_TIMER : Z := 23.
Definition ARM_FEATURE_MVFR : Z := 24.
Definition ARM_FEATURE_DUMMY_C15_REGS : Z := 25.
Definition ARM_FEATURE_CACHE_TEST_CLEAN : Z := 26.
Definition ARM_FEATURE_CACHE_DIRTY_REG : Z := 27.
Definition ARM_FEATURE_CACHE_BLOCK_OPS : Z := 28.
Definition ARM_FEATURE_MPIDR : Z := 29.
Definition ARM_FEATURE_PXN : Z := 30.
Definition ARM_FEATURE_LPAE : Z := 31.
Definition ARM_FEATURE_TRUSTZONE : Z := 32.

Definition CPSR_A : Z := Z.shiftl 1 8.

(** [cpu_abort] ends the emulator. *)
Definition cpu_abort {S A} : M S A := fun _ => AssertFailed.

(** ** A concrete RAM and interrupt controller *)

(** Word memory, zero where nothing was stored. *)
Definition word_mem : PhysMem := {|
  mem := gmap Z Z;
  ldl_phys m a := u32 (default 0 (m !! (a / 4)));
  ldq_phys m a := u32 (default 0 (m !! (a / 4))) + 2 ^ 32 * u32 (default 0 (m !! (a / 4 + 1)));
  stl_phys m a v := <[a / 4 := v]> m
|}.

Lemma word_mem_laws : @PhysMemLaws word_mem.
Proof.
  split; cbn; intros.
  - apply u32_range.
  - rewrite lookup_insert_eq. apply u32_small. assumption.
  - rewrite lookup_insert_ne; [reflexivity|]. Z.div_mod_to_equations. lia.
Qed.

(** A controller that always acknowledges exception [n]. *)
Definition one_irq (n : Z) : Nvic := {|
  nvic := unit;
  armv7m_nvic_set_pending _ p := p;
  armv7m_nvic_acknowledge_irq p := (n, p);
  armv7m_nvic_complete_irq _ p := p
|}.
