(* ===== verification/V7m.v ===== *)
(** * The microcontroller profile: exceptions and special registers

    [target-arm/helper.c] and the inline functions of [cpu.h].  On a v7-M
    processor the hardware saves eight words on the stack when an exception
    is taken and restores them on return; VarEMU adds the Thumb bit to the
    saved program counter.  Two stack pointers, main and process, share
    [regs[13]] and [other_sp]. *)
From stdpp Require Import base list gmap.
From S2P Require Import Prelude Double ArmTable State CpuState Errors OpHelper CpuMode Sys.
Open Scope Z_scope.

(** ** [cpu.h]: the program status register *)

Definition xpsr_read (s : cpu_st) : Z :=
  lors [Z.land (NF s) 0x80000000; u32 (Z.shiftl (if ZF s =? 0 then 1 else 0) 30);
        u32 (Z.shiftl (CF s) 29); Z.shiftr (Z.land (VF s) 0x80000000) 3; u32 (Z.shiftl (QF s) 27);
        u32 (Z.shiftl (thumb s) 24); u32 (Z.shiftl (Z.land (condexec_bits s) 3) 25);
        u32 (Z.shiftl (Z.land (condexec_bits s) 0xfc) 8); u32 (exception s)].

Definition xpsr_write (val mask : Z) (s : cpu_st) : cpu_st :=
  let s := if tst mask CPSR_NZCV then
      set_VF (Z.land (u32 (Z.shiftl val 3)) 0x80000000) (set_CF (Z.land (Z.shiftr val 29) 1)
        (set_NF val (set_ZF (Z.land (not32 val) CPSR_Z) s))) else s in
  let s := if tst mask CPSR_Q then set_QF (if tst val CPSR_Q then 1 else 0) s else s in
  let s := if tst mask (Z.shiftl 1 24) then set_thumb (if tst val (Z.shiftl 1 24) then 1 else 0) s else s in
  let s := if tst mask CPSR_IT_0_1 then
      set_condexec_bits (Z.lor (Z.land (condexec_bits s) (not32 3)) (Z.land (Z.shiftr val 25) 3)) s else s in
  let s := if tst mask CPSR_IT_2_7 then
      set_condexec_bits (Z.lor (Z.land (condexec_bits s) 3) (Z.land (Z.shiftr val 8) 0xfc)) s else s in
  if tst mask 0x1ff then set_exception (Z.land val 0x1ff) s else s.

(** ** Stacking *)
Section V7m.
Context {PH : PhysMem} {NV : Nvic}.

Definition v7m_push (val : Z) : M sys_st unit :=
  on_cpu (let! sp := get_reg 13 in put_reg 13 (sp - 4)) ;;
  let! sp := on_cpu (get_reg 13) in
  modify (fun s => set_memory (stl_phys (memory s) sp val) s).

Definition v7m_pop : M sys_st Z :=
  let! sp := on_cpu (get_reg 13) in
  let! m := gets memory in
  let val := ldl_phys m sp in
  on_cpu (put_reg 13 (sp + 4)) ;;
  ret val.

Definition switch_v7m_sp (process : Z) : M cpu_st unit :=
  let! s := gets id in
  if negb (current_sp s =? process) then
    let tmp := other_sp s in
    let! sp := get_reg 13 in
    modify (set_other_sp sp) ;;
    put_reg 13 tmp ;;
    modify (set_current_sp process)
  else ret tt.

(** The pops of [do_v7m_exception_exit]. *)
Definition v7m_unstack_frame : M sys_st unit :=
  (let! v := v7m_pop in on_cpu (put_reg 0 v)) ;;
  (let! v := v7m_pop in on_cpu (put_reg 1 v)) ;;
  (let! v := v7m_pop in on_cpu (put_reg 2 v)) ;;
  (let! v := v7m_pop in on_cpu (put_reg 3 v)) ;;
  (let! v := v7m_pop in on_cpu (put_reg 12 v)) ;;
  (let! v := v7m_pop in on_cpu (put_reg 14 v)) ;;
  (let! v := v7m_pop in on_cpu (put_reg 15 v)) ;;
  (let! pc := on_cpu (get_reg 15) in
   upd_cpu (set_thumb (Z.land pc 1)) ;;
   on_cpu (put_reg 15 (Z.land pc (not32 1)))) ;;
  let! xpsr := v7m_pop in
  upd_cpu (xpsr_write xpsr 0xfffffdff) ;;
  if tst xpsr 0x200 then on_cpu (let! sp := get_reg 13 in put_reg 13 (Z.lor sp 4)) else ret tt.

Definition do_v7m_exception_exit : M sys_st unit :=
  let! type := on_cpu (get_reg 15) in
  let! e := gets (fun s => exception (cpu s)) in
  (if negb (e =? 0) then on_nvic (fun p => (tt, armv7m_nvic_complete_irq e p)) else ret tt) ;;
  on_cpu (switch_v7m_sp (if tst type 4 then 1 else 0)) ;;
  v7m_unstack_frame.

(** Semihosting is implemented outside the repository; [arm_lduw_code]
    fetches a halfword of guest code. *)
Class Semihosting := {
  semihosting_enabled : bool;
  do_arm_semihosting : M sys_st Z;
  arm_lduw_code : sys_st -> Z -> Z;
  arm_ldl_code : sys_st -> Z -> Z
}.
Context {SH : Semihosting}.

(** The eight pushes of [arm_v7m_cpu_do_interrupt]. *)
Definition v7m_stack_frame (xpsr : Z) : M sys_st unit :=
  v7m_push xpsr ;;
  (let! pc := on_cpu (get_reg 15) in
   let! t := gets (fun s => thumb (cpu s)) in
   v7m_push (Z.lor pc (if negb (t =? 0) then 1 else 0))) ;;
  (let! r := on_cpu (get_reg 14) in v7m_push r) ;;
  (let! r := on_cpu (get_reg 12) in v7m_push r) ;;
  (let! r := on_cpu (get_reg 3) in v7m_push r) ;;
  (let! r := on_cpu (get_reg 2) in v7m_push r) ;;
  (let! r := on_cpu (get_reg 1) in v7m_push r) ;;
  (let! r := on_cpu (get_reg 0) in v7m_push r).

(** Its jump to the handler. *)
Definition v7m_vector (lr : Z) : M sys_st unit :=
  upd_cpu (set_condexec_bits 0) ;;
  on_cpu (put_reg 14 lr) ;;
  let! s := gets id in
  let addr := ldl_phys (memory s) (u32 (vecbase (cpu s) + exception (cpu s) * 4)) in
  on_cpu (put_reg 15 (Z.land addr 0xfffffffe)) ;;
  upd_cpu (set_thumb (Z.land addr 1)).

(** The second half of [arm_v7m_cpu_do_interrupt], after the exception has
    been acknowledged: stack the registers and enter the handler. *)
Definition v7m_enter (xpsr lr : Z) : M sys_st unit :=
  let! sp := on_cpu (get_reg 13) in
  let! xpsr := if tst sp 4 then on_cpu (put_reg 13 (sp - 4)) ;; ret (Z.lor xpsr 0x200) else ret xpsr in
  v7m_stack_frame xpsr ;;
  on_cpu (switch_v7m_sp 0) ;;
  v7m_vector lr.

Definition arm_v7m_cpu_do_interrupt : M sys_st unit :=
  let! s := gets id in
  let xpsr := xpsr_read (cpu s) in
  let lr := 0xfffffff1 in
  let lr := if negb (current_sp (cpu s) =? 0) then Z.lor lr 4 else lr in
  let lr := if exception (cpu s) =? 0 then Z.lor lr 8 else lr in
  let e := exception_index (cpu s) in
  let pend n := on_nvic (fun p => (tt, armv7m_nvic_set_pending n p)) in
  if e =? EXCP_UDEF then pend ARMV7M_EXCP_USAGE
  else if e =? EXCP_SWI then pend ARMV7M_EXCP_SVC
  else if (e =? EXCP_PREFETCH_ABORT) || (e =? EXCP_DATA_ABORT) then pend ARMV7M_EXCP_MEM
  else if e =? EXCP_BKPT then
    let! pc := on_cpu (get_reg 15) in
    if semihosting_enabled && (Z.land (arm_lduw_code s pc) 0xff =? 0xab) then
      on_cpu (put_reg 15 (pc + 2)) ;;
      let! r := do_arm_semihosting in on_cpu (put_reg 0 r)
    else pend ARMV7M_EXCP_DEBUG
  else if e =? EXCP_IRQ then
    (let! n := on_nvic armv7m_nvic_acknowledge_irq in upd_cpu (set_exception n)) ;;
    v7m_enter xpsr lr
  else if e =? EXCP_EXCEPTION_EXIT then do_v7m_exception_exit
  else cpu_abort.

(** ** [helper.c]: special registers *)

Definition v7m_mrs (reg : Z) : M cpu_st Z :=
  let! s := gets id in
  let! sp := get_reg 13 in
  if reg =? 0 then ret (Z.land (xpsr_read s) 0xf8000000)
  else if reg =? 1 then ret (Z.land (xpsr_read s) 0xf80001ff)
  else if reg =? 2 then ret (Z.land (xpsr_read s) 0xff00fc00)
  else if reg =? 3 then ret (Z.land (xpsr_read s) 0xff00fdff)
  else if reg =? 5 then ret (Z.land (xpsr_read s) 0x000001ff)
  else if reg =? 6 then ret (Z.land (xpsr_read s) 0x0700fc00)
  else if reg =? 7 then ret (Z.land (xpsr_read s) 0x0700edff)
  else if reg =? 8 then ret (if negb (current_sp s =? 0) then other_sp s else sp)
  else if reg =? 9 then ret (if negb (current_sp s =? 0) then sp else other_sp s)
  else if reg =? 16 then ret (if tst (uncached_cpsr s) CPSR_I then 1 else 0)
  else if (reg =? 17) || (reg =? 18) then ret (basepri s)
  else if reg =? 19 then ret (if tst (uncached_cpsr s) CPSR_F then 1 else 0)
  else if reg =? 20 then ret (control s)
  else cpu_abort.

Definition v7m_msr (reg val : Z) : M cpu_st unit :=
  let! s := gets id in
  if (reg =? 0) || (reg =? 1) then modify (xpsr_write val 0xf8000000)
  else if (reg =? 2) || (reg =? 3) then modify (xpsr_write val 0xfe00fc00)
  else if reg =? 5 then ret tt
  else if (reg =? 6) || (reg =? 7) then modify (xpsr_write val 0x0600fc00)
  else if reg =? 8 then
    if negb (current_sp s =? 0) then modify (set_other_sp val) else put_reg 13 val
  else if reg =? 9 then
    if negb (current_sp s =? 0) then put_reg 13 val else modify (set_other_sp val)
  else if reg =? 16 then
    modify (set_uncached_cpsr (if tst val 1 then Z.lor (uncached_cpsr s) CPSR_I
                               else Z.land (uncached_cpsr s) (not32 CPSR_I)))
  else if reg =? 17 then modify (set_basepri (Z.land val 0xff))
  else if reg =? 18 then
    let val := Z.land val 0xff in
    if negb (val =? 0) && ((val <? basepri s) || (basepri s =? 0)) then modify (set_basepri val) else ret tt
  else if reg =? 19 then
    modify (set_uncached_cpsr (if tst val 1 then Z.lor (uncached_cpsr s) CPSR_F
                               else Z.land (uncached_cpsr s) (not32 CPSR_F)))
  else if reg =? 20 then
    modify (set_control (Z.land val 3)) ;;
    switch_v7m_sp (if tst val 2 then 1 else 0)
  else cpu_abort.
End V7m.

(** ** The status word reads back *)

(** The ranges the flag variables have in C. *)
Record flags_ok (s : cpu_st) : Prop := {
  ok_CF : 0 <= CF s <= 1;
  ok_QF : 0 <= QF s <= 1;
  ok_thumb : 0 <= thumb s <= 1;
  ok_exception : 0 <= exception s < 512
}.

(** The bits of the status word that exist. *)
Definition XPSR_BITS : Z := 0xff00fdff.

Lemma xpsr_write_read v s : is_u32 v -> xpsr_read (xpsr_write v 0xfffffdff s) = Z.land v XPSR_BITS.
Proof.
  intros Hv. unfold xpsr_read, xpsr_write.
  change (tst 0xfffffdff CPSR_NZCV) with true. change (tst 0xfffffdff CPSR_Q) with true.
  change (tst 0xfffffdff (Z.shiftl 1 24)) with true. change (tst 0xfffffdff CPSR_IT_0_1) with true.
  change (tst 0xfffffdff CPSR_IT_2_7) with true. change (tst 0xfffffdff 0x1ff) with true. cbv beta zeta iota.
  cbn [NF ZF CF VF QF thumb condexec_bits exception set_NF set_ZF set_CF set_VF set_QF set_thumb set_condexec_bits set_exception].
  rewrite cond_lo, cond_hi, zf_back, vf_back by exact Hv.
  assert (U : forall m, is_u32 m -> is_u32 (Z.land v m)) by (intros m Hm; apply land_u32; [exact Hm|apply Hm]).
  pose proof (field_back v 29 1 ltac:(lia)) as F29. pose proof (flag_back v 27 ltac:(lia)) as F27.
  pose proof (flag_back v 24 ltac:(lia)) as F24. pose proof (field_back v 25 3 ltac:(lia)) as F25.
  pose proof (field_back v 8 0xfc ltac:(lia)) as F8.
  change (2 ^ 27) with CPSR_Q in F27. change (2 ^ 24) with (Z.shiftl 1 24) in F24.
  rewrite F29, F27, F24, F25, F8. rewrite !u32_small by (apply U; split; vm_compute; congruence).
  unfold lors. cbn [foldr]. rewrite Z.lor_0_r, <- !Z.land_lor_distr_r. reflexivity.
Qed.

Lemma xpsr_write_frame v mask s :
  regs (xpsr_write v mask s) = regs s /\ current_sp (xpsr_write v mask s) = current_sp s /\
  other_sp (xpsr_write v mask s) = other_sp s /\ uncached_cpsr (xpsr_write v mask s) = uncached_cpsr s /\
  basepri (xpsr_write v mask s) = basepri s /\ control (xpsr_write v mask s) = control s.
Proof. unfold xpsr_write. repeat case_match; split_and!; reflexivity. Qed.
#[global] Arguments xpsr_write : simpl never.

Lemma xpsr_read_regs r s : xpsr_read (set_regs r s) = xpsr_read s.
Proof. reflexivity. Qed.

Lemma shiftl_land_mask x a k : 0 <= k -> u32 (Z.shiftl (Z.land x a) k) = Z.land (u32 (Z.shiftl x k)) (Z.shiftl a k).
Proof.
  intros Hk. unfold u32. rewrite Z.shiftl_land, <- !Z.land_ones by lia. rewrite <- !Z.land_assoc.
  f_equal. apply Z.land_comm.
Qed.

Lemma xpsr_bits s : flags_ok s -> Z.land (xpsr_read s) XPSR_BITS = xpsr_read s.
Proof.
  intros [Hc Hq Ht He]. unfold xpsr_read, lors. cbn [foldr].
  assert (B : forall x, 0 <= x <= 1 -> x = 0 \/ x = 1) by lia.
  rewrite (Z.shiftr_land (VF s)), !shiftl_land_mask, (u32_small (exception s)) by (unfold is_u32; lia).
  rewrite !Z.land_lor_distr_l, <- !Z.land_assoc. change (Z.land 0x80000000 XPSR_BITS) with 0x80000000.
  change (Z.land (Z.shiftr 0x80000000 3) XPSR_BITS) with (Z.shiftr 0x80000000 3).
  change (Z.land (Z.shiftl 3 25) XPSR_BITS) with (Z.shiftl 3 25). change (Z.land (Z.shiftl 0xfc 8) XPSR_BITS) with (Z.shiftl 0xfc 8).
  assert (E : Z.land (exception s) XPSR_BITS = exception s).
  { rewrite <- (Z.mod_small (exception s) (2 ^ 9)), <- Z.land_ones, <- Z.land_assoc by lia. reflexivity. }
  rewrite E. rewrite !Z.land_0_l.
  destruct (B _ Hc) as [-> | ->], (B _ Hq) as [-> | ->], (B _ Ht) as [-> | ->], (ZF s =? 0); reflexivity.
Qed.

Lemma xpsr_u32 s : flags_ok s -> is_u32 (xpsr_read s).
Proof. intros H. rewrite <- xpsr_bits by exact H. apply land_u32; [split; vm_compute; congruence|vm_compute; congruence]. Qed.

(** ** Runs of the stacking operations *)
Section Runs.
Context {PH : PhysMem} {NV : Nvic}.

(** The state with other registers and another memory. *)
Definition mk (r : list Z) (m : mem) (s : sys_st) : sys_st := set_memory m (set_cpu (set_regs r (cpu s)) s).

Lemma mk_id s : mk (regs (cpu s)) (memory s) s = s.
Proof. destruct s as [c ? ? ?]. destruct c. reflexivity. Qed.

Lemma get_mk r m s i : length r = 16%nat -> 0 <= i < 16 -> on_cpu (get_reg i) (mk r m s) = Done (nthz r i, mk r m s).
Proof.
  intros L Hi. unfold on_cpu, get_reg, bind, gets, arr_get. cbn [cpu mk set_memory set_cpu regs set_regs].
  rewrite nthz_znth by lia. reflexivity.
Qed.

Lemma put_mk r m s i v : length r = 16%nat -> 0 <= i < 16 ->
  on_cpu (put_reg i v) (mk r m s) = Done (tt, mk (zset r i (u32 v)) m s).
Proof.
  intros L Hi. unfold on_cpu, put_reg, bind, gets, in_bounds. cbn [cpu mk set_memory set_cpu regs set_regs].
  rewrite L. destruct (Z.leb_spec 0 i); [|lia]. destruct (Z.ltb_spec i (Z.of_nat 16)); [reflexivity|lia].
Qed.

Lemma push_mk r m s v : length r = 16%nat ->
  v7m_push v (mk r m s) = Done (tt, mk (zset r 13 (u32 (nthz r 13 - 4))) (stl_phys m (u32 (nthz r 13 - 4)) v) s).
Proof.
  intros L. unfold v7m_push. erewrite bind_run.
  2:{ unfold on_cpu. cbn [cpu mk set_memory set_cpu]. unfold get_reg, put_reg, bind, gets, arr_get.
      cbn [regs set_regs]. rewrite nthz_znth by lia. cbn [defined]. unfold ret, in_bounds. cbn [regs set_regs]. rewrite L. reflexivity. }
  cbn beta. change (set_cpu (set_regs ?x (set_regs r (cpu s))) (mk r m s)) with (mk x m s).
  erewrite bind_run by (apply get_mk; [rewrite length_zset|]; lia). cbn beta.
  rewrite nthz_zset, Z.eqb_refl by lia. reflexivity.
Qed.

Lemma pop_mk r m s : length r = 16%nat ->
  v7m_pop (mk r m s) = Done (ldl_phys m (nthz r 13), mk (zset r 13 (u32 (nthz r 13 + 4))) m s).
Proof.
  intros L. unfold v7m_pop. erewrite bind_run by (apply get_mk; lia). cbn beta.
  erewrite bind_run by reflexivity. cbn beta zeta. erewrite bind_run by (apply put_mk; lia). reflexivity.
Qed.

Lemma u32_sub a b : u32 (u32 a - b) = u32 (a - b).
Proof. unfold u32. apply Zminus_mod_idemp_l. Qed.

Lemma u32_add a b : u32 (u32 a + b) = u32 (a + b).
Proof. unfold u32. apply Zplus_mod_idemp_l. Qed.

(** With the stack pointer [k] bytes below [b]. *)
Lemma push_at r m s b k v : length r = 16%nat ->
  v7m_push v (mk (zset r 13 (u32 (b - k))) m s)
  = Done (tt, mk (zset r 13 (u32 (b - (k + 4)))) (stl_phys m (u32 (b - (k + 4))) v) s).
Proof.
  intros L. rewrite push_mk by (rewrite length_zset; lia). rewrite nthz_zset, Z.eqb_refl, u32_sub, zset_zset by lia.
  replace (b - k - 4) with (b - (k + 4)) by lia. reflexivity.
Qed.

Lemma pop_at r m s b k : length r = 16%nat ->
  v7m_pop (mk (zset r 13 (u32 (b - k))) m s)
  = Done (ldl_phys m (u32 (b - k)), mk (zset r 13 (u32 (b - (k - 4)))) m s).
Proof.
  intros L. rewrite pop_mk by (rewrite length_zset; lia). rewrite nthz_zset, Z.eqb_refl, u32_add, zset_zset by lia.
  replace (b - k + 4) with (b - (k - 4)) by lia. reflexivity.
Qed.

Lemma get_at r m s x i : length r = 16%nat -> 0 <= i < 16 -> i <> 13 ->
  on_cpu (get_reg i) (mk (zset r 13 x) m s) = Done (nthz r i, mk (zset r 13 x) m s).
Proof.
  intros L Hi H13. rewrite get_mk by (rewrite ?length_zset; lia). rewrite nthz_zset by lia.
  destruct (Z.eqb_spec i 13); [contradiction|reflexivity].
Qed.

(** Storing words downwards from [b]. *)
Fixpoint push_mem (m : mem) (b : Z) (l : list Z) : mem :=
  match l with
  | [] => m
  | v :: l' => push_mem (stl_phys m (u32 (b - 4)) v) (b - 4) l'
  end.

Definition aligned_sp (sp : Z) : Z := if tst sp 4 then u32 (sp - 4) else sp.
Definition stacked_xpsr (sp xpsr : Z) : Z := if tst sp 4 then Z.lor xpsr 0x200 else xpsr.

(** The words an exception pushes, in order. *)
Definition frame (c : cpu_st) (xpsr : Z) : list Z :=
  let r := regs c in
  [stacked_xpsr (nthz r 13) xpsr; Z.lor (nthz r 15) (if negb (thumb c =? 0) then 1 else 0);
   nthz r 14; nthz r 12; nthz r 3; nthz r 2; nthz r 1; nthz r 0].

(** The state in which the handler starts. *)
Definition entered (s : sys_st) (xpsr lr : Z) : sys_st :=
  let c := cpu s in
  let m := push_mem (memory s) (aligned_sp (nthz (regs c) 13)) (frame c xpsr) in
  let f := u32 (aligned_sp (nthz (regs c) 13) - 32) in
  let addr := ldl_phys m (u32 (vecbase c + exception c * 4)) in
  let main := if current_sp c =? 0 then f else other_sp c in
  let other := if current_sp c =? 0 then other_sp c else f in
  set_memory m (set_cpu (set_thumb (Z.land addr 1)
    (set_regs (zset (zset (zset (regs c) 13 main) 14 lr) 15 (Z.land addr 0xfffffffe))
      (set_condexec_bits 0 (set_current_sp 0 (set_other_sp other c))))) s).

Lemma frame_run r m s xpsr : length r = 16%nat ->
  v7m_stack_frame xpsr (mk r m s)
  = Done (tt, mk (zset r 13 (u32 (nthz r 13 - 32)))
      (push_mem m (nthz r 13) [xpsr; Z.lor (nthz r 15) (if negb (thumb (cpu s) =? 0) then 1 else 0);
         nthz r 14; nthz r 12; nthz r 3; nthz r 2; nthz r 1; nthz r 0]) s).
Proof.
  intros L. unfold v7m_stack_frame. erewrite bind_run by (apply push_mk; exact L). cbn beta.
  erewrite bind_run.
  2:{ erewrite bind_run by (apply get_at; lia). cbn beta. erewrite bind_run by reflexivity. apply push_at; exact L. }
  cbn beta.
  do 5 (erewrite bind_run; [|erewrite bind_run by (apply get_at; lia); apply push_at; exact L]; cbn beta).
  erewrite bind_run by (apply get_at; lia). rewrite push_at by exact L.
  cbn [push_mem]. rewrite <- !Z.sub_add_distr. reflexivity.
Qed.
Lemma switch_sp_mk r m s p : length r = 16%nat -> is_u32 (other_sp (cpu s)) ->
  on_cpu (switch_v7m_sp p) (mk r m s) = Done (tt,
    if current_sp (cpu s) =? p then mk r m s
    else mk (zset r 13 (other_sp (cpu s))) m (set_cpu (set_current_sp p (set_other_sp (nthz r 13) (cpu s))) s)).
Proof.
  intros L Ho. unfold on_cpu, switch_v7m_sp. unfold bind at 1, gets at 1. unfold id.
  cbn [cpu mk set_memory set_cpu current_sp set_regs]. destruct (current_sp (cpu s) =? p); [reflexivity|]. cbn [negb].
  unfold get_reg, put_reg, bind, gets, arr_get. cbn [regs set_regs]. rewrite nthz_znth by lia. cbn [defined].
  unfold ret, modify, in_bounds. cbn [regs set_regs set_other_sp]. rewrite L, u32_small by exact Ho. reflexivity.
Qed.

Lemma aligned_run r m s xpsr : length r = 16%nat ->
  (if tst (nthz r 13) 4 then on_cpu (put_reg 13 (nthz r 13 - 4)) ;; ret (Z.lor xpsr 0x200) else ret xpsr) (mk r m s)
  = Done (stacked_xpsr (nthz r 13) xpsr, mk (zset r 13 (aligned_sp (nthz r 13))) m s).
Proof.
  intros L. unfold stacked_xpsr, aligned_sp. destruct (tst (nthz r 13) 4).
  - erewrite bind_run by (apply put_mk; lia). reflexivity.
  - unfold ret. do 3 f_equal. unfold zset. symmetry. apply list_insert_id.
    pose proof (nthz_znth r 13 ltac:(lia)) as E. apply znth_Some in E as [_ E]. exact E.
Qed.

Lemma vector_run r m s lr : length r = 16%nat -> is_u32 lr ->
  let addr := ldl_phys m (u32 (vecbase (cpu s) + exception (cpu s) * 4)) in
  v7m_vector lr (mk r m s) = Done (tt, mk (zset (zset r 14 lr) 15 (Z.land addr 0xfffffffe)) m
    (set_cpu (set_thumb (Z.land addr 1) (set_condexec_bits 0 (cpu s))) s)).
Proof.
  intros L Hl addr. unfold v7m_vector. erewrite bind_run by reflexivity. cbn beta.
  change (set_cpu (set_condexec_bits 0 (cpu (mk r m s))) (mk r m s)) with
    (mk r m (set_cpu (set_condexec_bits 0 (cpu s)) s)).
  erewrite bind_run by (apply put_mk; [exact L|lia]). cbn beta. rewrite u32_small by exact Hl.
  erewrite bind_run by reflexivity. cbn beta zeta. unfold id.
  erewrite bind_run by (apply put_mk; [rewrite length_zset; exact L|lia]). cbn beta.
  rewrite (u32_small (Z.land _ _)) by (apply land_u32; [split; vm_compute; congruence|vm_compute; congruence]). reflexivity.
Qed.

Lemma same_sp c : current_sp c = 0 -> set_current_sp 0 (set_other_sp (other_sp c) c) = c.
Proof. intros E. destruct c. cbn in *. subst. reflexivity. Qed.

Lemma enter_run s xpsr lr : length (regs (cpu s)) = 16%nat -> is_u32 (other_sp (cpu s)) -> is_u32 lr ->
  v7m_enter xpsr lr s = Done (tt, entered s xpsr lr).
Proof.
  intros L Ho Hl. rewrite <- (mk_id s) at 1. set (r := regs (cpu s)) in *. unfold v7m_enter.
  erewrite bind_run by (apply get_mk; lia). cbn beta. erewrite bind_run by (apply aligned_run; exact L). cbn beta.
  assert (L' : length (zset r 13 (aligned_sp (nthz r 13))) = 16%nat) by (rewrite length_zset; exact L).
  erewrite bind_run by (apply frame_run; exact L'). cbn beta.
  rewrite !nthz_zset by lia. cbn [Z.eqb Pos.eqb]. rewrite zset_zset.
  set (f := u32 (aligned_sp (nthz r 13) - 32)).
  match goal with |- context [mk (zset r 13 f) ?x s] => set (m := x) end.
  erewrite bind_run by (apply switch_sp_mk; [rewrite length_zset; exact L|exact Ho]). cbn beta.
  rewrite zset_zset, nthz_zset, Z.eqb_refl by lia.
  unfold entered. fold r. change (frame (cpu s) xpsr) with
    [stacked_xpsr (nthz r 13) xpsr; Z.lor (nthz r 15) (if negb (thumb (cpu s) =? 0) then 1 else 0);
     nthz r 14; nthz r 12; nthz r 3; nthz r 2; nthz r 1; nthz r 0]. fold m f.
  destruct (Z.eqb_spec (current_sp (cpu s)) 0) as [Ecs|Ncs]; rewrite vector_run by (rewrite ?length_zset; assumption).
  - rewrite same_sp by exact Ecs. reflexivity.
  - reflexivity.
Qed.

Lemma zset_comm {A} (l : list A) i j v w : 0 <= i -> 0 <= j -> i <> j -> zset (zset l i v) j w = zset (zset l j w) i v.
Proof. intros Hi Hj H. unfold zset. apply list_insert_insert_ne. lia. Qed.

Context {LAWS : PhysMemLaws}.

Lemma pop_put r m s b k i : length r = 16%nat -> 0 <= i < 16 -> i <> 13 ->
  (let! v := v7m_pop in on_cpu (put_reg i v)) (mk (zset r 13 (u32 (b - k))) m s)
  = Done (tt, mk (zset (zset r i (ldl_phys m (u32 (b - k)))) 13 (u32 (b - (k - 4)))) m s).
Proof.
  intros L Hi H13. erewrite bind_run by (apply pop_at; exact L). cbn beta.
  rewrite put_mk by (rewrite ?length_zset; lia). rewrite (u32_small (ldl_phys _ _)) by apply ldl_range.
  rewrite zset_comm by lia. reflexivity.
Qed.

Lemma lor_u32 a b : is_u32 a -> is_u32 b -> is_u32 (Z.lor a b).
Proof.
  intros Ha Hb. apply bits_u32; [apply Z.lor_nonneg; unfold is_u32 in *; lia|]. intros n Hn.
  rewrite Z.lor_spec, (testbit_above a 32), (testbit_above b 32) by (assumption || lia). reflexivity.
Qed.

Lemma or_sp_mk r m s : length r = 16%nat -> is_u32 (nthz r 13) ->
  on_cpu (let! sp := get_reg 13 in put_reg 13 (Z.lor sp 4)) (mk r m s)
  = Done (tt, mk (zset r 13 (Z.lor (nthz r 13) 4)) m s).
Proof.
  intros L Hsp. unfold on_cpu, get_reg, put_reg, bind, gets, arr_get, in_bounds. cbn [cpu mk set_memory set_cpu regs set_regs].
  rewrite nthz_znth by lia. cbn [defined]. unfold ret. cbn [regs set_regs]. rewrite L.
  rewrite u32_small by (apply lor_u32; [exact Hsp|split; vm_compute; congruence]). reflexivity.
Qed.

(** The registers after the frame below [b] has been popped. *)
Definition popped_regs (r : list Z) (m : mem) (b : Z) : list Z :=
  let w i := ldl_phys m (u32 (b - i)) in
  let sp := if tst (w 4) 0x200 then Z.lor (u32 b) 4 else u32 b in
  zset (zset (zset (zset (zset (zset (zset (zset r 0 (w 32)) 1 (w 28)) 2 (w 24)) 3 (w 20)) 12 (w 16)) 14 (w 12))
    15 (Z.land (w 8) (not32 1))) 13 sp.

Lemma unstack_run r m s b : length r = 16%nat -> nthz r 13 = u32 (b - 32) ->
  let w i := ldl_phys m (u32 (b - i)) in
  v7m_unstack_frame (mk r m s) = Done (tt, mk (popped_regs r m b) m
    (set_cpu (xpsr_write (w 4) 0xfffffdff (set_thumb (Z.land (w 8) 1) (cpu s))) s)).
Proof.
  intros L Hsp w. assert (Er : r = zset r 13 (u32 (b - 32))).
  { unfold zset. symmetry. apply list_insert_id. pose proof (nthz_znth r 13 ltac:(lia)) as E.
    apply znth_Some in E as [_ E]. rewrite <- Hsp. exact E. }
  rewrite Er at 1. unfold v7m_unstack_frame.
  do 7 (erewrite bind_run by (apply pop_put; rewrite ?length_zset; lia); cbn beta).
  set (r7 := zset _ 15 _). assert (L7 : length r7 = 16%nat) by (unfold r7; rewrite !length_zset; exact L).
  erewrite bind_run.
  2:{ erewrite bind_run by (apply get_at; [exact L7|lia..]). cbn beta. erewrite bind_run by reflexivity. cbn beta.
      match goal with |- on_cpu _ (set_cpu ?c ?s0) = _ =>
        change (set_cpu c s0) with (mk (zset r7 13 (u32 (b - (32 - 4 - 4 - 4 - 4 - 4 - 4 - 4)))) m (set_cpu (set_thumb (Z.land (nthz r7 15) 1) (cpu s)) s)) end.
      apply put_mk; rewrite ?length_zset; lia. }
  cbn beta. rewrite zset_comm by lia. erewrite bind_run by (apply pop_at; rewrite length_zset; exact L7). cbn beta.
  erewrite bind_run by reflexivity. cbn beta. change (32 - 4 - 4 - 4 - 4 - 4 - 4 - 4) with 4.
  assert (E15 : nthz r7 15 = w 8).
  { unfold r7. rewrite nthz_zset, Z.eqb_refl by (rewrite !length_zset; lia). reflexivity. }
  rewrite E15. rewrite (u32_small (Z.land _ _)).
  2:{ apply land_u32; [split; vm_compute; congruence|vm_compute; congruence]. }
  set (c := xpsr_write _ _ _). set (r8 := zset r7 15 _).
  assert (L8 : length r8 = 16%nat) by (unfold r8; rewrite length_zset; exact L7).
  change (set_cpu c _) with (mk (zset r8 13 (u32 (b - 0))) m (set_cpu c s)). rewrite Z.sub_0_r.
  assert (Ep : popped_regs r m b = zset r8 13 (if tst (w 4) 0x200 then Z.lor (u32 b) 4 else u32 b)).
  { unfold popped_regs, r8, r7. rewrite zset_zset. reflexivity. }
  rewrite Ep. fold (w 4) in c |- *. destruct (tst (w 4) 0x200); [|reflexivity].
  assert (E13 : nthz (zset r8 13 (u32 b)) 13 = u32 b) by (rewrite nthz_zset, Z.eqb_refl by lia; reflexivity).
  rewrite or_sp_mk by (rewrite ?length_zset, ?E13; auto with vemu). rewrite E13, zset_zset. reflexivity.
Qed.

(** ** The frame in memory *)

Lemma u32_align a : a mod 4 = 0 -> u32 a mod 4 = 0.
Proof. intros H. unfold u32. rewrite Z.mod_mod_divide; [exact H|]. exists (2 ^ 30). reflexivity. Qed.

Lemma u32_neq a b : 0 < a - b < 2 ^ 32 -> u32 a <> u32 b.
Proof. intros H E. unfold u32 in E. Z.div_mod_to_equations. lia. Qed.

Lemma ldl_push_other l : forall m b a, b mod 4 = 0 -> a mod 4 = 0 ->
  (forall i, 1 <= i <= Z.of_nat (length l) -> u32 (b - 4 * i) <> a) -> ldl_phys (push_mem m b l) a = ldl_phys m a.
Proof.
  induction l as [|v l IH]; intros m b a Hb Ha Hne; [reflexivity|]. cbn [push_mem length] in *.
  rewrite IH.
  - apply ldl_other; [apply u32_align; Z.div_mod_to_equations; lia|exact Ha|]. exact (Hne 1 ltac:(lia)).
  - Z.div_mod_to_equations; lia.
  - exact Ha.
  - intros i Hi. replace (b - 4 - 4 * i) with (b - 4 * (i + 1)) by lia. apply Hne. lia.
Qed.

Lemma ldl_push l : forall m b i v, b mod 4 = 0 -> Z.of_nat (length l) < 2 ^ 29 -> Forall is_u32 l -> l !! i = Some v ->
  ldl_phys (push_mem m b l) (u32 (b - 4 * (Z.of_nat i + 1))) = v.
Proof.
  induction l as [|w l IH]; intros m b [|i] v Hb Hl Hf Hi; try discriminate; cbn [push_mem length] in *;
    apply Forall_cons in Hf as [Hw Hf].
  - injection Hi as ->. change (b - 4 * (Z.of_nat 0 + 1)) with (b - 4).
    rewrite ldl_push_other; [apply ldl_same; [exact Hw|]|..]; try (apply u32_align); try (Z.div_mod_to_equations; lia).
    intros j Hj. apply not_eq_sym, u32_neq. lia.
  - cbn in Hi. rewrite <- (IH (stl_phys m (u32 (b - 4)) w) (b - 4) i v) by (auto; Z.div_mod_to_equations; lia).
    do 2 f_equal. lia.
Qed.

(** ** Returning from an exception *)

Lemma mk_fields r m c s :
  regs (cpu (mk r m (set_cpu c s))) = r /\ xpsr_read (cpu (mk r m (set_cpu c s))) = xpsr_read c /\
  current_sp (cpu (mk r m (set_cpu c s))) = current_sp c /\ other_sp (cpu (mk r m (set_cpu c s))) = other_sp c /\
  memory (mk r m (set_cpu c s)) = m.
Proof. split_and!; reflexivity. Qed.

Lemma unstack_effect r m s b : length r = 16%nat -> nthz r 13 = u32 (b - 32) ->
  exists s', v7m_unstack_frame (mk r m s) = Done (tt, s') /\ regs (cpu s') = popped_regs r m b /\
    xpsr_read (cpu s') = Z.land (ldl_phys m (u32 (b - 4))) XPSR_BITS /\
    current_sp (cpu s') = current_sp (cpu s) /\ other_sp (cpu s') = other_sp (cpu s) /\ memory s' = m.
Proof.
  intros L Hsp. eexists. split; [exact (unstack_run r m s b L Hsp)|].
  set (d := set_thumb _ _). set (w := ldl_phys m (u32 (b - 4))).
  destruct (xpsr_write_frame w 0xfffffdff d) as (_ & E1 & E2 & _). pose proof (xpsr_write_read w d (ldl_range _ _)) as E3.
  destruct (mk_fields (popped_regs r m b) m (xpsr_write w 0xfffffdff d) s) as (F1 & F2 & F3 & F4 & F5).
  rewrite F1, F2, F3, F4, F5, E1, E2, E3. auto.
Qed.

(** What a return restores, from the frame below [b]. *)
Lemma exit_run s b : let c := cpu s in
  let p := if tst (nthz (regs c) 15) 4 then 1 else 0 in
  length (regs c) = 16%nat -> is_u32 (other_sp c) ->
  (if current_sp c =? p then nthz (regs c) 13 else other_sp c) = u32 (b - 32) ->
  exists s', do_v7m_exception_exit s = Done (tt, s') /\
    (forall i, 0 <= i < 16 -> nthz (regs (cpu s')) i = nthz (popped_regs (regs c) (memory s) b) i) /\
    xpsr_read (cpu s') = Z.land (ldl_phys (memory s) (u32 (b - 4))) XPSR_BITS /\
    current_sp (cpu s') = p /\
    other_sp (cpu s') = (if current_sp c =? p then other_sp c else nthz (regs c) 13) /\ memory s' = memory s.
Proof.
  intros c p L Ho Hsp. unfold do_v7m_exception_exit.
  assert (Hn : exists n irq, (if negb (exception c =? 0) then on_nvic (fun q => (tt, armv7m_nvic_complete_irq (exception c) q)) else ret tt) s
    = Done (tt, set_intc n (set_cpu (set_interrupt_request irq c) s))).
  { destruct (exception c =? 0); cbn [negb].
    - exists (intc s), (interrupt_request c). unfold ret. destruct s as [c0 ? ? ?]. destruct c0. reflexivity.
    - unfold on_nvic. destruct (armv7m_nvic_complete_irq _ _) as [n irq]. exists n, irq. reflexivity. }
  destruct Hn as (n & irq & Hn).
  assert (G : on_cpu (get_reg 15) s = Done (nthz (regs c) 15, s)).
  { rewrite <- (mk_id s). apply get_mk; [exact L|lia]. }
  erewrite bind_run by exact G. cbn beta. erewrite bind_run by reflexivity. cbn beta.
  erewrite bind_run by exact Hn. cbn beta. set (s1 := set_intc n _).
  change s1 with (mk (regs c) (memory s) s1). erewrite bind_run by (apply switch_sp_mk; [exact L|exact Ho]). cbn beta.
  fold p. change (current_sp (cpu s1)) with (current_sp c). change (other_sp (cpu s1)) with (other_sp c).
  destruct (current_sp c =? p) eqn:Ecs.
  - destruct (unstack_effect (regs c) (memory s) s1 b L Hsp) as (s' & H & E1 & E2 & E3 & E4 & E5). exists s'.
    split; [exact H|]. rewrite E1, E2, E3, E4, E5. apply Z.eqb_eq in Ecs. auto.
  - set (s2 := set_cpu (set_current_sp p _) s1).
    destruct (unstack_effect (zset (regs c) 13 (other_sp c)) (memory s) s2 b) as (s' & H & E1 & E2 & E3 & E4 & E5).
    { rewrite length_zset. exact L. } { rewrite nthz_zset, Z.eqb_refl by lia. exact Hsp. }
    exists s'. split; [exact H|]. rewrite E1, E2, E3, E4, E5. split_and!; try reflexivity.
    intros i Hi. unfold popped_regs. rewrite !nthz_zset by (rewrite ?length_zset; lia). repeat case_match; reflexivity || lia.
Qed.

(** A processor that can take an exception: registers in range, an aligned
    stack pointer, an even program counter. *)
Record v7m_ready (c : cpu_st) : Prop := {
  rd_wf : cpu_wf c;
  rd_flags : flags_ok c;
  rd_other : is_u32 (other_sp c);
  rd_current : current_sp c = 0 \/ current_sp c = 1;
  rd_sp : nthz (regs c) 13 mod 4 = 0;
  rd_pc : Z.testbit (nthz (regs c) 15) 0 = false
}.

(** The handler may do anything to flags, devices, other memory and the
    caller-saved registers.  It returns through the link value it was given,
    with its stack pointers, the callee-saved registers and the frame as it
    found them. *)
Record handled (b : Z) (s1 s2 : sys_st) : Prop := {
  hd_len : length (regs (cpu s2)) = 16%nat;
  hd_pc : tst (nthz (regs (cpu s2)) 15) 4 = tst (nthz (regs (cpu s1)) 14) 4;
  hd_sp : nthz (regs (cpu s2)) 13 = nthz (regs (cpu s1)) 13;
  hd_current : current_sp (cpu s2) = current_sp (cpu s1);
  hd_other : other_sp (cpu s2) = other_sp (cpu s1);
  hd_saved i : 4 <= i < 12 -> nthz (regs (cpu s2)) i = nthz (regs (cpu s1)) i;
  hd_frame i : 1 <= i <= 8 -> ldl_phys (memory s2) (u32 (b - 4 * i)) = ldl_phys (memory s1) (u32 (b - 4 * i))
}.

Lemma exc_return_bit c : let lr := if negb (current_sp c =? 0) then Z.lor 0xfffffff1 4 else 0xfffffff1 in
  let lr := if exception c =? 0 then Z.lor lr 8 else lr in
  is_u32 lr /\ tst lr 4 = negb (current_sp c =? 0).
Proof. cbv zeta. destruct (current_sp c =? 0), (exception c =? 0); split; try reflexivity; split; vm_compute; congruence. Qed.

(** Undoing the alignment. *)
Lemma realign sp x : is_u32 sp -> sp mod 4 = 0 -> Z.testbit x 9 = false ->
  (if tst (stacked_xpsr sp x) 0x200 then Z.lor (u32 (aligned_sp sp)) 4 else u32 (aligned_sp sp)) = sp.
Proof.
  intros Hu Ha Hx. unfold stacked_xpsr, aligned_sp. change 4 with (2 ^ 2). change 0x200 with (2 ^ 9). rewrite !tst_pow2 by lia.
  destruct (Z.testbit sp 2) eqn:E2.
  - rewrite Z.lor_spec, Hx. change (Z.testbit (2 ^ 9) 9) with true. cbn [orb].
    rewrite Z.testbit_true in E2 by lia.
    rewrite !u32_small by (repeat apply u32_range || unfold is_u32 in *; Z.div_mod_to_equations; lia).
    replace (sp - 2 ^ 2) with (Z.shiftl (sp / 8) 3) by (rewrite Z.shiftl_mul_pow2 by lia; Z.div_mod_to_equations; lia).
    rewrite lor_shift_add by lia. Z.div_mod_to_equations; lia.
  - rewrite Hx. apply u32_small. exact Hu.
Qed.

Lemma frame_words c x : cpu_wf c -> is_u32 x -> Forall is_u32 (frame c x).
Proof.
  intros W Hx. assert (R : forall i, 0 <= i < 16 -> is_u32 (nthz (regs c) i)).
  { intros i Hi. apply Forall_nthz; [apply W|rewrite (wf_regs c W); lia]. }
  unfold frame. repeat (apply Forall_cons; split); auto using Forall_nil_2; try (apply R; lia).
  - unfold stacked_xpsr. destruct (tst _ 4); [apply lor_u32; [exact Hx|split; vm_compute; congruence]|exact Hx].
  - apply lor_u32; [apply R; lia|]. destruct (negb _); split; vm_compute; congruence.
Qed.

Lemma xpsr_bit9 c : flags_ok c -> Z.testbit (xpsr_read c) 9 = false.
Proof. intros H. rewrite <- xpsr_bits, Z.land_spec by exact H. apply andb_false_r. Qed.

(** The saved words, read back. *)
Lemma frame_back m b c x i v : b mod 4 = 0 -> cpu_wf c -> is_u32 x -> frame c x !! i = Some v ->
  ldl_phys (push_mem m b (frame c x)) (u32 (b - 4 * (Z.of_nat i + 1))) = v.
Proof. intros Hb W Hx Hi. apply ldl_push; [exact Hb|cbn; lia|apply frame_words; assumption|exact Hi]. Qed.

Lemma pc_back pc t : Z.testbit pc 0 = false -> is_u32 pc -> Z.land (Z.lor pc (if negb (t =? 0) then 1 else 0)) (not32 1) = pc.
Proof.
  intros H0 Hu. apply Z.bits_inj'. intros n Hn. rewrite Z.land_spec, Z.lor_spec. unfold not32. rewrite Z.lxor_spec.
  change 0xffffffff with (Z.ones 32). rewrite Z.testbit_ones_nonneg by lia.
  destruct (Z.eq_dec n 0) as [->|Hn0].
  - rewrite H0. destruct (negb _); reflexivity.
  - assert (E1 : Z.testbit 1 n = false) by (destruct n as [|[]|]; try reflexivity; lia).
    assert (E2 : Z.testbit (if negb (t =? 0) then 1 else 0) n = false) by (destruct (negb _); [exact E1|apply Z.bits_0]).
    rewrite E1, E2, orb_false_r. destruct (Z.ltb_spec n 32); [apply andb_true_r|].
    rewrite (testbit_above pc 32) by (assumption || lia). reflexivity.
Qed.

Lemma entered_fields s x lr : length (regs (cpu s)) = 16%nat -> let s1 := entered s x lr in
  let f := u32 (aligned_sp (nthz (regs (cpu s)) 13) - 32) in
  memory s1 = push_mem (memory s) (aligned_sp (nthz (regs (cpu s)) 13)) (frame (cpu s) x) /\
  current_sp (cpu s1) = 0 /\ other_sp (cpu s1) = (if current_sp (cpu s) =? 0 then other_sp (cpu s) else f) /\
  nthz (regs (cpu s1)) 13 = (if current_sp (cpu s) =? 0 then f else other_sp (cpu s)) /\
  nthz (regs (cpu s1)) 14 = lr /\
  nthz (regs (cpu s1)) 15 = Z.land (ldl_phys (memory s1) (u32 (vecbase (cpu s) + exception (cpu s) * 4))) 0xfffffffe /\
  forall i, 0 <= i < 13 -> nthz (regs (cpu s1)) i = nthz (regs (cpu s)) i.
Proof.
  intros L s1 f. subst s1. unfold entered. cbn [cpu memory set_memory set_cpu current_sp other_sp regs set_thumb set_regs set_condexec_bits set_current_sp set_other_sp].
  split_and!; try reflexivity; rewrite ?nthz_zset by (rewrite ?length_zset; lia); try reflexivity.
  intros i Hi. rewrite !nthz_zset by (rewrite ?length_zset; lia).
  destruct (Z.eqb_spec i 15), (Z.eqb_spec i 14), (Z.eqb_spec i 13); reflexivity || lia.
Qed.

(** The registers restored from an untouched frame are those that were
    stacked. *)
Lemma popped_same c r m m0 : v7m_ready c -> length r = 16%nat ->
  let b := aligned_sp (nthz (regs c) 13) in
  (forall i, 1 <= i <= 8 -> ldl_phys m (u32 (b - 4 * i)) = ldl_phys (push_mem m0 b (frame c (xpsr_read c))) (u32 (b - 4 * i))) ->
  (forall i, 4 <= i < 12 -> nthz r i = nthz (regs c) i) ->
  Z.land (ldl_phys m (u32 (b - 4))) XPSR_BITS = xpsr_read c /\
  forall i, 0 <= i < 16 -> nthz (popped_regs r m b) i = nthz (regs c) i.
Proof.
  intros [W F _ _ Hsp Hpc] L b Hm Hr. pose proof (xpsr_u32 c F) as Hx.
  assert (Hb : b mod 4 = 0).
  { unfold b, aligned_sp. destruct (tst _ 4); [|exact Hsp]. apply u32_align. Z.div_mod_to_equations; lia. }
  assert (U : forall i, 0 <= i < 16 -> is_u32 (nthz (regs c) i)).
  { intros i Hi. apply Forall_nthz; [apply W|rewrite (wf_regs c W); lia]. }
  assert (B : forall k v, 4 <= k <= 32 -> k mod 4 = 0 -> frame c (xpsr_read c) !! Z.to_nat (k / 4 - 1) = Some v ->
    ldl_phys m (u32 (b - k)) = v).
  { intros k v Hk H4 Hv. replace k with (4 * (Z.of_nat (Z.to_nat (k / 4 - 1)) + 1)) by (Z.div_mod_to_equations; lia).
    rewrite Hm by (Z.div_mod_to_equations; lia). apply frame_back; assumption. }
  split.
  - rewrite (B 4 _ ltac:(lia) eq_refl eq_refl). unfold stacked_xpsr. destruct (tst _ 4); [|apply xpsr_bits, F].
    rewrite Z.land_lor_distr_l, xpsr_bits by exact F. change (Z.land 0x200 XPSR_BITS) with 0. apply Z.lor_0_r.
  - intros i Hi. unfold popped_regs.
    rewrite (B 4 _ ltac:(lia) eq_refl eq_refl), (B 8 _ ltac:(lia) eq_refl eq_refl), (B 12 _ ltac:(lia) eq_refl eq_refl),
      (B 16 _ ltac:(lia) eq_refl eq_refl), (B 20 _ ltac:(lia) eq_refl eq_refl), (B 24 _ ltac:(lia) eq_refl eq_refl),
      (B 28 _ ltac:(lia) eq_refl eq_refl), (B 32 _ ltac:(lia) eq_refl eq_refl).
    rewrite !nthz_zset by (rewrite ?length_zset; lia).
    rewrite (realign (nthz (regs c) 13)) by (auto using xpsr_bit9 with lia). rewrite pc_back by (auto with lia).
    repeat (match goal with |- context [i =? ?k] => destruct (Z.eqb_spec i k) as [->|?] end; [reflexivity|]).
    apply Hr. lia.
Qed.

Context {SH : Semihosting}.

Lemma exit_dispatch s : exception_index (cpu s) = EXCP_EXCEPTION_EXIT -> arm_v7m_cpu_do_interrupt s = do_v7m_exception_exit s.
Proof. intros E. unfold arm_v7m_cpu_do_interrupt. erewrite bind_run by reflexivity. unfold id. rewrite E. reflexivity. Qed.

(** C15.  Exception entry and return are inverse.  An interrupt taken in any
    state stacks eight words and starts the handler on the main stack with
    the acknowledged exception number, at the address in its vector; when
    the handler returns through its link value, with the callee-saved
    registers, the stack pointers and the frame intact, the return restores
    all sixteen registers, the status word (flags, Thumb bit, IT bits and the
    number of the interrupted exception) and both stack pointers, whichever
    stack was in use and whether or not it had to be aligned. *)
Theorem v7m_exception_roundtrip s n q : v7m_ready (cpu s) -> exception_index (cpu s) = EXCP_IRQ ->
  armv7m_nvic_acknowledge_irq (intc s, interrupt_request (cpu s)) = (n, q) ->
  exists s1, arm_v7m_cpu_do_interrupt s = Done (tt, s1) /\
    exception (cpu s1) = n /\ current_sp (cpu s1) = 0 /\
    nthz (regs (cpu s1)) 15 = Z.land (ldl_phys (memory s1) (u32 (vecbase (cpu s) + n * 4))) 0xfffffffe /\
    forall s2, handled (aligned_sp (nthz (regs (cpu s)) 13)) s1 s2 -> exception_index (cpu s2) = EXCP_EXCEPTION_EXIT ->
    exists s3, arm_v7m_cpu_do_interrupt s2 = Done (tt, s3) /\
      (forall i, 0 <= i < 16 -> nthz (regs (cpu s3)) i = nthz (regs (cpu s)) i) /\
      xpsr_read (cpu s3) = xpsr_read (cpu s) /\
      current_sp (cpu s3) = current_sp (cpu s) /\ other_sp (cpu s3) = other_sp (cpu s).
Proof.
  intros R Hi Hq. pose proof R as [W F Ho Hcs Hsp Hpc]. destruct q as [nv irq].
  destruct (exc_return_bit (cpu s)) as [Ulr Blr]. cbv zeta in Ulr, Blr.
  set (lr := if exception (cpu s) =? 0 then _ else _) in *.
  set (s0 := set_cpu (set_exception n (set_interrupt_request irq (cpu s))) (set_intc nv s)).
  assert (Hrun : arm_v7m_cpu_do_interrupt s = v7m_enter (xpsr_read (cpu s)) lr s0).
  { unfold arm_v7m_cpu_do_interrupt. erewrite bind_run by reflexivity. unfold id. rewrite Hi. cbn [Z.eqb Pos.eqb orb EXCP_IRQ EXCP_UDEF EXCP_SWI EXCP_PREFETCH_ABORT EXCP_DATA_ABORT EXCP_BKPT].
    erewrite bind_run; [reflexivity|]. unfold bind, on_nvic. rewrite Hq. reflexivity. }
  rewrite Hrun, (enter_run s0 (xpsr_read (cpu s)) lr (wf_regs _ W) Ho Ulr).
  destruct (entered_fields s0 (xpsr_read (cpu s)) lr (wf_regs _ W)) as (Em & Ec & Eo & E13 & E14 & E15 & Er).
  exists (entered s0 (xpsr_read (cpu s)) lr). split; [reflexivity|]. split; [reflexivity|]. split; [exact Ec|]. split; [exact E15|].
  generalize dependent (entered s0 (xpsr_read (cpu s)) lr). intros s1 Em Ec Eo E13 E14 _ Er s2 [Hl Hp Hs Hc2 Ho2 Hsv Hf] Hx.
  change (regs (cpu s0)) with (regs (cpu s)) in *. change (current_sp (cpu s0)) with (current_sp (cpu s)) in *.
  change (other_sp (cpu s0)) with (other_sp (cpu s)) in *. set (b := aligned_sp (nthz (regs (cpu s)) 13)) in *.
  rewrite exit_dispatch by exact Hx. rewrite E14, Blr in Hp.
  destruct (exit_run s2 b) as (s3 & H3 & R3 & X3 & C3 & O3 & _).
  { exact Hl. } { rewrite Ho2, Eo. destruct (current_sp (cpu s) =? 0); [exact Ho|apply u32_range]. }
  { rewrite Hp, Hc2, Ec, Hs, Ho2, Eo, E13. destruct (current_sp (cpu s) =? 0); reflexivity. }
  destruct (popped_same (cpu s) (regs (cpu s2)) (memory s2) (memory s0) R Hl) as [P1 P2].
  { fold b. intros i Hi'. rewrite Hf, Em by exact Hi'. reflexivity. }
  { intros i Hi'. rewrite Hsv, Er by lia. reflexivity. }
  exists s3. fold b in P1, P2. rewrite X3, C3, O3, Hp, Hc2, Ec, Hs, E13, Ho2, Eo, P1. split_and!; [exact H3| |reflexivity|..].
  - intros i Hi'. rewrite R3, P2 by exact Hi'. reflexivity.
  - destruct Hcs as [-> | ->]; reflexivity.
  - destruct Hcs as [-> | ->]; reflexivity.
Qed.
End Runs.

(** ** Special registers *)

(** What the registers that can be read back return after [v] was written. *)
Definition special_value (reg v : Z) : option Z :=
  if reg =? 0 then Some (Z.land v 0xf8000000)
  else if (reg =? 8) || (reg =? 9) then Some v
  else if (reg =? 16) || (reg =? 19) then Some (Z.land v 1)
  else if reg =? 17 then Some (Z.land v 0xff)
  else if reg =? 20 then Some (Z.land v 3)
  else None.

Lemma apsr_back v s : is_u32 v -> flags_ok s ->
  Z.land (xpsr_read (xpsr_write v 0xf8000000 s)) 0xf8000000 = Z.land v 0xf8000000.
Proof.
  intros Hv [_ _ Ht He]. unfold xpsr_read, xpsr_write.
  change (tst 0xf8000000 CPSR_NZCV) with true. change (tst 0xf8000000 CPSR_Q) with true.
  change (tst 0xf8000000 (Z.shiftl 1 24)) with false. change (tst 0xf8000000 CPSR_IT_0_1) with false.
  change (tst 0xf8000000 CPSR_IT_2_7) with false. change (tst 0xf8000000 0x1ff) with false. cbv beta zeta iota.
  cbn [NF ZF CF VF QF thumb condexec_bits exception set_NF set_ZF set_CF set_VF set_QF].
  rewrite zf_back, vf_back by exact Hv.
  assert (U : forall m, is_u32 m -> is_u32 (Z.land v m)) by (intros m Hm; apply land_u32; [exact Hm|apply Hm]).
  pose proof (field_back v 29 1 ltac:(lia)) as F29. pose proof (flag_back v 27 ltac:(lia)) as F27.
  change (2 ^ 27) with CPSR_Q in F27. rewrite F29, F27. rewrite !(u32_small (Z.land v _)) by (apply U; split; vm_compute; congruence).
  rewrite !shiftl_land_mask, (u32_small (exception s)) by (unfold is_u32; lia).
  assert (E : Z.land (exception s) 0xf8000000 = 0).
  { rewrite <- (Z.mod_small (exception s) (2 ^ 9)), <- Z.land_ones, <- Z.land_assoc by lia. apply Z.land_0_r. }
  assert (Et : Z.land (u32 (Z.shiftl (thumb s) 24)) 0xf8000000 = 0).
  { assert (thumb s = 0 \/ thumb s = 1) as [-> | ->] by lia; reflexivity. }
  unfold lors. cbn [foldr]. rewrite !Z.land_lor_distr_l, E, Et, <- !Z.land_assoc.
  change (Z.land (Z.shiftl 3 25) 0xf8000000) with 0. change (Z.land (Z.shiftl 0xfc 8) 0xf8000000) with 0.
  rewrite !Z.land_0_r, !Z.land_0_l, !Z.lor_0_l, !Z.lor_0_r, <- !Z.land_lor_distr_r. reflexivity.
Qed.

Lemma flag_bit_back u v k : 0 <= k < 32 ->
  (if tst (if tst v 1 then Z.lor u (2 ^ k) else Z.land u (not32 (2 ^ k))) (2 ^ k) then 1 else 0) = Z.land v 1.
Proof.
  intros Hk. rewrite tst_pow2 by lia. change 1 with (2 ^ 0) at 1. change (Z.land v 1) with (Z.land v (2 ^ 0)).
  rewrite tst_pow2, land_pow2 by lia. destruct (Z.testbit v 0).
  - rewrite Z.lor_spec, Z.pow2_bits_true, orb_true_r by lia. reflexivity.
  - unfold not32. rewrite Z.land_spec, Z.lxor_spec, Z.pow2_bits_true by lia. change 0xffffffff with (Z.ones 32).
    rewrite Z.testbit_ones_nonneg by lia. destruct (Z.ltb_spec k 32); [|lia]. rewrite andb_false_r. reflexivity.
Qed.

(** A read only needs the stack pointer to exist. *)
Lemma mrs_run c rg w : length (regs c) = 16%nat ->
  (rg = 0 /\ w = Z.land (xpsr_read c) 0xf8000000) \/
  (rg = 8 /\ w = if negb (current_sp c =? 0) then other_sp c else nthz (regs c) 13) \/
  (rg = 9 /\ w = if negb (current_sp c =? 0) then nthz (regs c) 13 else other_sp c) \/
  (rg = 16 /\ w = if tst (uncached_cpsr c) CPSR_I then 1 else 0) \/ (rg = 17 /\ w = basepri c) \/
  (rg = 19 /\ w = if tst (uncached_cpsr c) CPSR_F then 1 else 0) \/ (rg = 20 /\ w = control c) ->
  v7m_mrs rg c = Done (w, c).
Proof.
  intros L H. unfold v7m_mrs. erewrite bind_run by reflexivity. cbn beta.
  assert (G : get_reg 13 c = Done (nthz (regs c) 13, c)).
  { unfold get_reg, bind, gets, arr_get. rewrite nthz_znth by lia. reflexivity. }
  erewrite bind_run by exact G. unfold id.
  repeat destruct H as [[-> ->]|H]; try reflexivity. destruct H as [-> ->]. reflexivity.
Qed.

Lemma msr_sp c rg v : cpu_wf c -> is_u32 v -> rg = 8 \/ rg = 9 ->
  exists c', v7m_msr rg v c = Done (tt, c') /\ v7m_mrs rg c' = Done (v, c').
Proof.
  intros W Hv Hr. pose proof (wf_regs c W) as L.
  assert (K : put_reg 13 v c = Done (tt, set_regs (zset (regs c) 13 v) c)).
  { rewrite put_reg_run, u32_small by (assumption || lia). reflexivity. }
  destruct (current_sp c =? 0) eqn:E, Hr as [-> | ->]; unfold v7m_msr; (erewrite bind_run by reflexivity);
    cbn [Z.eqb Pos.eqb orb]; unfold id; rewrite E; cbn [negb]; (eexists; split; [first [exact K|reflexivity]|]);
    apply mrs_run; cbn [regs set_regs set_other_sp current_sp other_sp]; rewrite ?length_zset; try exact L;
    rewrite E; cbn [negb]; rewrite ?nthz_zset by lia; auto 10.
Qed.

Lemma switch_sp_keeps p c : cpu_wf c -> is_u32 (other_sp c) ->
  exists c', switch_v7m_sp p c = Done (tt, c') /\ control c' = control c /\ length (regs c') = 16%nat.
Proof.
  intros W Ho. unfold switch_v7m_sp. erewrite bind_run by reflexivity. unfold id.
  destruct (current_sp c =? p); cbn [negb]; [exists c; split_and!; auto; apply W|].
  erewrite bind_run by (apply get_reg_run; [exact W|lia]). cbn beta. erewrite bind_run by reflexivity. cbn beta.
  assert (W' : cpu_wf (set_other_sp (reg c 13) c)) by (destruct W; split; assumption).
  erewrite bind_run by (apply put_reg_run; [exact W'|lia]). eexists. split; [reflexivity|].
  split; [reflexivity|]. cbn. rewrite length_zset. apply W.
Qed.

(** The special registers: a value written to APSR, MSP, PSP, PRIMASK,
    BASEPRI, FAULTMASK or CONTROL reads back through the register's mask,
    whichever stack pointer is in use; a write to IPSR is ignored; and a
    write to BASEPRI_MAX never lowers the priority mask: it keeps it or
    replaces it by a stricter one. *)
Lemma v7m_special_registers c rg v : cpu_wf c -> flags_ok c -> is_u32 (other_sp c) -> is_u32 v ->
  (forall w, special_value rg v = Some w ->
    exists c', v7m_msr rg v c = Done (tt, c') /\ v7m_mrs rg c' = Done (w, c')) /\
  v7m_msr 5 v c = Done (tt, c) /\
  exists c', v7m_msr 18 v c = Done (tt, c') /\
    (c' = c \/ exists b, c' = set_basepri b c /\ 0 < b < 256 /\ (basepri c = 0 \/ b < basepri c)).
Proof.
  intros W F Ho Hv. pose proof (wf_regs c W) as L. split_and!; [|reflexivity|].
  - intros w Hw. unfold special_value in Hw.
    destruct (Z.eqb_spec rg 0) as [->|]; [injection Hw as <-|].
    { eexists. split; [reflexivity|]. destruct (xpsr_write_frame v 0xf8000000 c) as (E & _).
      apply mrs_run; [rewrite E; exact L|]. rewrite apsr_back by assumption. auto. }
    destruct ((rg =? 8) || (rg =? 9)) eqn:E89; [injection Hw as <-; apply msr_sp; auto; apply orb_true_iff in E89 as [?%Z.eqb_eq|?%Z.eqb_eq]; auto|].
    destruct ((rg =? 16) || (rg =? 19)) eqn:Em; [injection Hw as <-|].
    { apply orb_true_iff in Em as [->%Z.eqb_eq | ->%Z.eqb_eq]; eexists; (split; [reflexivity|]); apply mrs_run; try exact L;
        cbn [uncached_cpsr set_uncached_cpsr].
      - rewrite (flag_bit_back _ _ 7) by lia. auto 10.
      - rewrite (flag_bit_back _ _ 6) by lia. auto 10. }
    destruct (Z.eqb_spec rg 17) as [->|]; [injection Hw as <-; eexists; split; [reflexivity|]; apply mrs_run; auto 10|].
    destruct (Z.eqb_spec rg 20) as [->|]; [injection Hw as <-|discriminate].
    assert (W' : cpu_wf (set_control (Z.land v 3) c)) by (destruct W; split; assumption).
    destruct (switch_sp_keeps (if tst v 2 then 1 else 0) _ W' Ho) as (c' & H1 & H2 & H3). exists c'.
    split; [exact H1|]. apply mrs_run; [exact H3|]. rewrite H2. auto 10.
  - unfold v7m_msr. erewrite bind_run by reflexivity. cbn [Z.eqb Pos.eqb orb]. unfold id.
    pose proof (land_mask_range v 8 ltac:(lia)) as R. change (Z.ones 8) with 0xff in R.
    destruct (Z.eqb_spec (Z.land v 0xff) 0) as [E0|E0]; cbn [negb andb]; [eauto|].
    destruct (Z.ltb_spec (Z.land v 0xff) (basepri c)), (Z.eqb_spec (basepri c) 0); cbn [orb];
      (eexists; split; [reflexivity|]); [right; exists (Z.land v 0xff); split_and!; [reflexivity|lia..]..|left; reflexivity].
Qed.

(** The mask of IEPSR is not the union of those of IPSR and EPSR: bit 12, an
    IT bit, is lost. *)
Lemma iepsr_loses_bit c i e ie : v7m_mrs 5 c = Done (i, c) -> v7m_mrs 6 c = Done (e, c) -> v7m_mrs 7 c = Done (ie, c) ->
  ie = Z.ldiff (Z.lor i e) 0x1000.
Proof.
  unfold v7m_mrs, bind, gets, id. destruct (get_reg 13 c) as [[sp c0]| | |]; try discriminate.
  cbn [Z.eqb Pos.eqb]. unfold ret. intros [= <- _] [= <- _] [= <- _].
  rewrite <- Z.land_lor_distr_r, Z.ldiff_land, <- Z.land_assoc. reflexivity.
Qed.

(** ** Concrete runs: a thread on the process stack takes an interrupt *)
Definition demo_thread : cpu_st :=
  set_exception_index EXCP_IRQ (set_current_sp 1 (set_other_sp 0x9000 (set_thumb 1 (set_vecbase 0x100
    (set_regs [10; 11; 12; 13; 14; 15; 16; 17; 18; 19; 20; 21; 22; 0x8004; 24; 0x2000] (zero_cpu 0x1f 0x2000)))))).

Lemma demo_thread_ready : v7m_ready demo_thread.
Proof.
  assert (W : cpu_wf (set_regs [10; 11; 12; 13; 14; 15; 16; 17; 18; 19; 20; 21; 22; 0x8004; 24; 0x2000] (zero_cpu 0x1f 0x2000))).
  { apply set_regs_wf; [apply zero_cpu_wf|reflexivity|].
    repeat (apply Forall_cons; split; [split; vm_compute; congruence|]). apply Forall_nil_2. }
  split; [destruct W; split; assumption|split; cbn; lia|split; vm_compute; congruence|right; reflexivity|reflexivity..].
Qed.

#[local] Existing Instance word_mem.
Definition demo_nvic : Nvic := one_irq 18.
#[local] Existing Instance demo_nvic.
Definition no_semihosting : Semihosting :=
  {| semihosting_enabled := false; do_arm_semihosting := ret 0; arm_lduw_code _ _ := 0; arm_ldl_code _ _ := 0 |}.
Definition demo_sys : sys_st :=
  {| cpu := demo_thread; cp15 := fun _ => 0; memory := (<[82 := 0x3001]> ∅ : gmap Z Z); intc := tt |}.

Lemma v7m_exception_roundtrip_witness : exists s1 s2 s3,
  @arm_v7m_cpu_do_interrupt _ _ no_semihosting demo_sys = Done (tt, s1) /\ nthz (regs (cpu s1)) 15 = 0x3000 /\
  exception_index (cpu s2) = EXCP_EXCEPTION_EXIT /\
  @arm_v7m_cpu_do_interrupt _ _ no_semihosting s2 = Done (tt, s3) /\ nthz (regs (cpu s3)) 13 = 0x8004.
Proof.
  destruct (@v7m_exception_roundtrip _ _ word_mem_laws no_semihosting demo_sys 18 (tt, 0) demo_thread_ready eq_refl eq_refl)
    as (s1 & H1 & _ & _ & H2 & H3).
  assert (L : length (regs (cpu s1)) = 16%nat).
  { apply (f_equal (fun o => match o with Done (_, s) => length (regs (cpu s)) | _ => 0%nat end)) in H1.
    vm_compute in H1. symmetry. exact H1. }
  set (s2 := set_cpu (set_exception_index EXCP_EXCEPTION_EXIT (set_regs (zset (regs (cpu s1)) 15 (nthz (regs (cpu s1)) 14)) (cpu s1))) s1).
  destruct (H3 s2) as (s3 & H4 & H5 & _); [|reflexivity|].
  { split; try reflexivity; cbn [cpu s2 set_cpu regs set_regs set_exception_index].
    - rewrite length_zset. exact L.
    - rewrite nthz_zset by lia. reflexivity.
    - rewrite nthz_zset by lia. reflexivity.
    - intros i Hi. rewrite nthz_zset by lia. destruct (Z.eqb_spec i 15); [lia|reflexivity]. }
  exists s1, s2, s3. split; [exact H1|]. split; [|split; [reflexivity|split; [exact H4|exact (H5 13 ltac:(lia))]]].
  apply (f_equal (fun o => match o with Done (_, s) => nthz (regs (cpu s)) 15 | _ => 0 end)) in H1.
  vm_compute in H1. symmetry. exact H1.
Defined.

Lemma v7m_special_registers_witness : exists c', v7m_msr 9 0x8000 demo_thread = Done (tt, c') /\ v7m_mrs 9 c' = Done (0x8000, c').
Proof.
  destruct demo_thread_ready as [W F Ho _ _ _].
  exact (proj1 (v7m_special_registers demo_thread 9 0x8000 W F Ho ltac:(split; vm_compute; congruence)) 0x8000 eq_refl).
Defined.
