(* ===== verification/Exceptions.v ===== *)
(** * Exceptions of the application profile: [arm_cpu_do_interrupt]

    [target-arm/helper.c] enters an exception by switching to the
    exception's mode, saving the status register in the mode's SPSR and the
    return address in its link register; [gen_exception_return] and
    [gen_rfe] of [translate.c] generate the return.  The theorem shows the
    two are inverse, for every exception and every interrupted mode. *)
From stdpp Require Import base list gmap.
From S2P Require Import Prelude Double ArmTable State CpuState Errors OpHelper CpuMode Sys V7m.
Open Scope Z_scope.

Section Entry.
Context {PH : PhysMem} {NV : Nvic} {SH : Semihosting} {QC : QemuConsts}.

(** The [switch] of [arm_cpu_do_interrupt]: mode, vector offset, interrupt
    mask and return offset of an exception. *)
Definition exception_entry (e : Z) (thumb : bool) : option (Z * Z * Z * Z) :=
  if e =? EXCP_UDEF then Some (ARM_CPU_MODE_UND, 0x04, CPSR_I, if thumb then 2 else 4)
  else if e =? EXCP_SWI then Some (ARM_CPU_MODE_SVC, 0x08, CPSR_I, 0)
  else if (e =? EXCP_BKPT) || (e =? EXCP_PREFETCH_ABORT) then Some (ARM_CPU_MODE_ABT, 0x0c, Z.lor CPSR_A CPSR_I, 4)
  else if e =? EXCP_DATA_ABORT then Some (ARM_CPU_MODE_ABT, 0x10, Z.lor CPSR_A CPSR_I, 8)
  else if e =? EXCP_IRQ then Some (ARM_CPU_MODE_IRQ, 0x18, Z.lor CPSR_A CPSR_I, 4)
  else if e =? EXCP_FIQ then Some (ARM_CPU_MODE_FIQ, 0x1c, Z.lor (Z.lor CPSR_A CPSR_I) CPSR_F, 4)
  else if e =? EXCP_SMC then Some (ARM_CPU_MODE_SMC, 0x08, Z.lor (Z.lor CPSR_A CPSR_I) CPSR_F, if thumb then 2 else 0)
  else None.

(** A semihosting call: [regs[0] = do_arm_semihosting(env); return;]. *)
Definition semihosting_call : M sys_st bool :=
  let! r := do_arm_semihosting in on_cpu (put_reg 0 r) ;; ret true.

(** The effects of the [switch]: semihosting calls, which end the function,
    and the coprocessor registers some exceptions change. *)
Definition exception_effects : M sys_st bool :=
  let! s := gets id in
  let e := exception_index (cpu s) in
  let thumb := negb (thumb (cpu s) =? 0) in
  let user := mode_of (cpu s) =? ARM_CPU_MODE_USR in
  if e =? EXCP_SWI then
    let! pc := on_cpu (get_reg 15) in
    let mask := if thumb then Z.land (arm_lduw_code s (u32 (pc - 2))) 0xff
                else Z.land (arm_ldl_code s (u32 (pc - 4))) 0xffffff in
    if semihosting_enabled
       && (((mask =? 0x123456) && negb thumb) || ((mask =? 0xab) && thumb)) && negb user
    then semihosting_call else ret false
  else if e =? EXCP_BKPT then
    let! pc := on_cpu (get_reg 15) in
    if (thumb && semihosting_enabled) && (Z.land (arm_lduw_code s pc) 0xff =? 0xab) && negb user
    then on_cpu (put_reg 15 (pc + 2)) ;; semihosting_call
    else modify (fun s => set_cp15 (cp15_set c5_insn 2 (cp15 s)) s) ;; ret false
  else if e =? EXCP_SMC then
    if semihosting_enabled then cpu_abort
    else if mode_of (cpu s) =? ARM_CPU_MODE_SMC
    then modify (fun s => set_cp15 (cp15_set c1_scr (Z.land (cp15 s c1_scr) (not32 1)) (cp15 s)) s) ;; ret false
    else ret false
  else ret false.

(** The base added to the vector offset. *)
Definition vector_base (s : sys_st) (new_mode : Z) : Z :=
  if arm_feature (cpu s) ARM_FEATURE_TRUSTZONE then
    if (new_mode =? ARM_CPU_MODE_SMC) || (mode_of (cpu s) =? ARM_CPU_MODE_SMC) then cp15 s c12_mvbar
    else if tst (cp15 s c1_sys) (Z.shiftl 1 13) then 0xffff0000 else cp15 s c12_vbar
  else if tst (cp15 s c1_sys) (Z.shiftl 1 13) then 0xffff0000 else 0.

Definition arm_cpu_do_interrupt : M sys_st unit :=
  let! s := gets id in
  massert (negb (arm_feature (cpu s) ARM_FEATURE_M)) ;;
  match exception_entry (exception_index (cpu s)) (negb (thumb (cpu s) =? 0)) with
  | None => cpu_abort
  | Some (new_mode, addr, mask, offset) =>
      let! done := exception_effects in
      if (done : bool) then ret tt
      else
        let! addr := gets (fun s => u32 (addr + vector_base s new_mode)) in
        on_cpu (switch_mode new_mode) ;;
        upd_cpu (fun c => set_spsr (cpsr_read c) c) ;;
        upd_cpu (set_condexec_bits 0) ;;
        upd_cpu (fun c => set_uncached_cpsr (Z.lor (Z.land (uncached_cpsr c) (not32 CPSR_M)) new_mode) c) ;;
        upd_cpu (fun c => set_uncached_cpsr (Z.lor (uncached_cpsr c) mask) c) ;;
        modify (fun s => if arm_feature (cpu s) ARM_FEATURE_V4T
          then set_cpu (set_thumb (if tst (cp15 s c1_sys) (Z.shiftl 1 30) then 1 else 0) (cpu s)) s else s) ;;
        (let! pc := on_cpu (get_reg 15) in on_cpu (put_reg 14 (pc + offset))) ;;
        on_cpu (put_reg 15 addr) ;;
        upd_cpu (fun c => set_interrupt_request (Z.lor (interrupt_request c) CPU_INTERRUPT_EXITTB) c)
  end.
End Entry.

(** ** [translate.c]: the code generated for an exception return *)

(** [store_reg]: the program counter is kept even. *)
Definition store_pc (pc : Z) : M cpu_st unit := put_reg 15 (Z.land pc (not32 1)).

Definition gen_exception_return (pc : Z) : M cpu_st unit :=
  store_pc pc ;;
  let! tmp := gets spsr in
  cpsr_write tmp 0xffffffff.

Definition gen_rfe (pc cpsr : Z) : M cpu_st unit :=
  cpsr_write cpsr 0xffffffff ;;
  store_pc pc.

(** ** The status word *)

Lemma low_shiftl x k : 5 <= k -> Z.land (u32 (Z.shiftl x k)) CPSR_M = 0.
Proof.
  intros Hk. apply Z.bits_inj'. intros n Hn. rewrite Z.land_spec, Z.bits_0. unfold CPSR_M. rewrite testbit_31 by exact Hn.
  destruct (Z.ltb_spec n 5); [|apply andb_false_r]. unfold u32.
  rewrite Z.mod_pow2_bits_low, Z.shiftl_spec_low by lia. reflexivity.
Qed.

Lemma cpsr_mode c : Z.land (cpsr_read c) CPSR_M = mode_of c.
Proof.
  unfold cpsr_read, lors. cbn [foldr]. rewrite Z.shiftr_land, !Z.land_lor_distr_l, !low_shiftl, <- !Z.land_assoc by lia.
  change (Z.land 0x80000000 CPSR_M) with 0. change (Z.land (Z.shiftr 0x80000000 3) CPSR_M) with 0.
  rewrite !Z.land_0_r, !Z.land_0_l, !Z.lor_0_r. reflexivity.
Qed.

Lemma cpsr_u32 c : is_u32 (uncached_cpsr c) -> is_u32 (cpsr_read c).
Proof.
  intros Hu. unfold cpsr_read, lors. cbn [foldr]. rewrite Z.shiftr_land.
  repeat apply lor_u32; auto using u32_range; try (apply land_u32; [|vm_compute]; try split; vm_compute; congruence).
  split; vm_compute; congruence.
Qed.

Lemma cpsr_flags c c' : uncached_cpsr c' = uncached_cpsr c -> flags_of c' = flags_of c -> cpsr_read c' = cpsr_read c.
Proof. intros Eu Ef. rewrite !cpsr_split, Eu, (flag_bits_ext c c' Ef). reflexivity. Qed.

(** The status register in the handler: new mode, interrupts masked. *)
Lemma entry_mode u nm mask : 0 <= nm < 32 -> Z.land mask CPSR_M = 0 ->
  let u' := Z.lor (Z.lor (Z.land u (not32 CPSR_M)) nm) mask in Z.land u' CPSR_M = nm /\ Z.land u' mask = mask.
Proof.
  intros Hn Hm u'. split.
  - unfold u'. rewrite !Z.land_lor_distr_l, Hm, <- Z.land_assoc. change (Z.land (not32 CPSR_M) CPSR_M) with 0.
    rewrite Z.land_0_r, Z.lor_0_l, Z.lor_0_r. change CPSR_M with (Z.ones 5). rewrite Z.land_ones by lia. apply Z.mod_small. lia.
  - unfold u'. apply Z.bits_inj'. intros n Hn'. rewrite Z.land_spec, Z.lor_spec. destruct (Z.testbit mask n); [|apply andb_false_r].
    rewrite orb_true_r. reflexivity.
Qed.

(** Writing the link register and the program counter of the current mode. *)
Lemma view_link c a b m r : length (regs c) = 16%nat -> 0 <= r < 15 -> (r = 14 -> bank_of m <> bank_of (mode_of c)) ->
  is_Some (bank_of m) -> view (set_regs (zset (zset (regs c) 14 a) 15 b) c) m r = view c m r.
Proof.
  intros L Hr H14 [k Hk]. set (c' := set_regs _ c).
  assert (R : r <> 14 -> reg c' r = reg c r).
  { intros Hn. change (nthz (zset (zset (regs c) 14 a) 15 b) r = nthz (regs c) r).
    rewrite !nthz_zset by (rewrite ?length_zset; lia). destruct (Z.eqb_spec r 15), (Z.eqb_spec r 14); reflexivity || lia. }
  unfold view. change (mode_of c') with (mode_of c). change (banked_r13 c') with (banked_r13 c). change (banked_r14 c') with (banked_r14 c).
  change (usr_regs c') with (usr_regs c). change (fiq_regs c') with (fiq_regs c).
  destruct (Z.eq_dec r 14) as [->|Hn].
  - rewrite Hk. specialize (H14 eq_refl). rewrite Hk in H14. cbn [Z.leb Z.compare Pos.compare Pos.compare_cont andb Z.eqb Pos.eqb].
    destruct (bank_of (mode_of c)) as [j|]; [|reflexivity]. destruct (Z.eqb_spec k j); [congruence|reflexivity].
  - destruct (Z.eqb_spec r 13) as [->|]; rewrite R by exact Hn; [reflexivity|]. destruct (Z.eqb_spec r 14); [contradiction|reflexivity].
Qed.

Section Roundtrip.
Context {PH : PhysMem} {NV : Nvic} {SH : Semihosting} {QC : QemuConsts}.

Lemma entry_ranges e t nm off mask ofs : exception_entry e t = Some (nm, off, mask, ofs) ->
  0 <= nm < 32 /\ Z.land mask CPSR_M = 0 /\ is_Some (bank_of nm).
Proof. unfold exception_entry. repeat case_match; intros [= <- <- <- <-]; (split_and!; [vm_compute; congruence..|vm_compute; eauto]). Qed.

(** Without semihosting the [switch] only touches coprocessor registers that
    do not move the vectors. *)
Lemma effects_run s : semihosting_enabled = false -> length (regs (cpu s)) = 16%nat ->
  exists s', exception_effects s = Done (false, s') /\ cpu s' = cpu s /\ forall nm, vector_base s' nm = vector_base s nm.
Proof.
  intros Hs L. assert (G : on_cpu (get_reg 15) s = Done (nthz (regs (cpu s)) 15, s)).
  { rewrite <- (mk_id s). apply get_mk; [exact L|lia]. }
  unfold exception_effects. erewrite bind_run by reflexivity. unfold id. rewrite Hs.
  destruct (_ =? EXCP_SWI); [erewrite bind_run by exact G; exists s; auto|].
  destruct (_ =? EXCP_BKPT).
  { erewrite bind_run by exact G. cbn beta. rewrite andb_false_r. cbn [andb]. eexists. split; [reflexivity|]. split; reflexivity. }
  destruct (_ =? EXCP_SMC); [|exists s; auto].
  destruct (_ =? ARM_CPU_MODE_SMC); [|exists s; auto]. eexists. split; [reflexivity|]. split; reflexivity.
Qed.

(** The processor as the handler finds it, from the state [c1] after the
    mode switch. *)
Definition in_handler (c1 : cpu_st) (nm mask t lr pc irq : Z) : cpu_st :=
  let u := Z.lor (Z.lor (Z.land (uncached_cpsr c1) (not32 CPSR_M)) nm) mask in
  set_interrupt_request irq (set_regs (zset (zset (regs c1) 14 lr) 15 pc)
    (set_thumb t (set_uncached_cpsr u (set_condexec_bits 0 (set_spsr (cpsr_read c1) c1))))).

Lemma thumb_id c : set_thumb (thumb c) c = c.
Proof. destruct c. reflexivity. Qed.

Lemma entry_run s c1 nm off mask ofs : arm_feature (cpu s) ARM_FEATURE_M = false -> semihosting_enabled = false ->
  exception_entry (exception_index (cpu s)) (negb (thumb (cpu s) =? 0)) = Some (nm, off, mask, ofs) ->
  length (regs (cpu s)) = 16%nat -> switch_mode nm (cpu s) = Done (tt, c1) -> length (regs c1) = 16%nat ->
  exists s1 t irq, arm_cpu_do_interrupt s = Done (tt, s1) /\
    cpu s1 = in_handler c1 nm mask t (u32 (reg c1 15 + ofs)) (u32 (off + vector_base s nm)) irq.
Proof.
  intros HM HS HE L Hsw L1. destruct (effects_run s HS L) as (s' & He & Hc & Hv).
  unfold arm_cpu_do_interrupt. erewrite bind_run by reflexivity. unfold id. rewrite HM, HE.
  erewrite bind_run by reflexivity. cbn beta iota. erewrite bind_run by exact He. cbn beta iota.
  erewrite bind_run by reflexivity. cbn beta. rewrite Hv.
  erewrite bind_run by (apply on_cpu_run; rewrite Hc; exact Hsw). cbn beta.
  do 4 (erewrite bind_run by reflexivity; cbn beta).
  set (c2 := set_uncached_cpsr _ _). cbn [cpu set_cpu] in c2.
  assert (Ht : exists t, (modify (fun s => if arm_feature (cpu s) ARM_FEATURE_V4T
      then set_cpu (set_thumb (if tst (cp15 s c1_sys) (Z.shiftl 1 30) then 1 else 0) (cpu s)) s else s))
      (set_cpu c2 s') = Done (tt, mk (regs c1) (memory s') (set_cpu (set_thumb t c2) s'))).
  { unfold modify. destruct (arm_feature _ ARM_FEATURE_V4T).
    - exists (if tst (cp15 s' c1_sys) (Z.shiftl 1 30) then 1 else 0). reflexivity.
    - exists (thumb c2). rewrite thumb_id. rewrite <- (mk_id (set_cpu c2 s')) at 1. reflexivity. }
  destruct Ht as [t Ht]. erewrite bind_run by exact Ht. cbn beta.
  erewrite bind_run by (erewrite bind_run by (apply get_mk; [exact L1|lia]); apply put_mk; [exact L1|lia]). cbn beta.
  erewrite bind_run by (apply put_mk; [rewrite length_zset; exact L1|lia]). cbn beta. rewrite u32_u32.
  eexists _, t, _. split; [reflexivity|]. reflexivity.
Qed.

Lemma in_handler_view c1 c nm mask t lr pc irq m r : cpu_wf c1 -> 0 <= nm < 32 -> Z.land mask CPSR_M = 0 ->
  (forall u m r, Z.land u CPSR_M = nm -> is_Some (bank_of m) -> 0 <= r < 16 -> view (set_uncached_cpsr u c1) m r = view c m r) ->
  is_Some (bank_of m) -> 0 <= r < 15 -> (r = 14 -> bank_of m <> bank_of nm) ->
  view (in_handler c1 nm mask t lr pc irq) m r = view c m r.
Proof.
  intros W Hn Hm Hv Hb Hr H14. destruct (entry_mode (uncached_cpsr c1) nm mask Hn Hm) as [Em _]. cbv zeta in Em.
  set (u := Z.lor (Z.lor _ nm) mask) in *. rewrite <- (Hv u) by (assumption || lia).
  rewrite <- (view_link (set_uncached_cpsr u c1) lr pc m r); [|apply W|lia| |exact Hb].
  - apply view_ext; reflexivity.
  - change (mode_of (set_uncached_cpsr u c1)) with (Z.land u CPSR_M). rewrite Em. exact H14.
Qed.

(** The return: the status register comes back from the SPSR. *)
Lemma return_run c pc : cpu_wf c -> is_u32 pc -> is_u32 (spsr c) -> is_Some (bank_of (mode_of c)) ->
  Z.land (uncached_cpsr c) CACHED_CPSR_BITS = 0 -> bad_mode_switch (Z.land (spsr c) CPSR_M) = false ->
  exists c', gen_exception_return pc c = Done (tt, c') /\ cpsr_read c' = spsr c /\
    mode_of c' = Z.land (spsr c) CPSR_M /\ reg c' 15 = Z.land pc (not32 1) /\
    forall m r, is_Some (bank_of m) -> 0 <= r < 15 -> view c' m r = view c m r.
Proof.
  intros W Hpc Hs Hb Hu Hbad. unfold gen_exception_return, store_pc.
  erewrite bind_run by (apply put_reg_run; [exact W|lia]). cbn beta. erewrite bind_run by reflexivity. cbn beta.
  assert (Up : is_u32 (Z.land pc (not32 1))) by (apply land_u32; [split; vm_compute; congruence|vm_compute; congruence]).
  rewrite (u32_small _ Up). set (c0 := set_regs _ c).
  assert (W0 : cpu_wf c0).
  { apply set_regs_wf; [exact W|rewrite length_zset; apply W|]. apply Forall_zset; [apply W|exact Up]. }
  destruct (cpsr_write_view c0 (spsr c) 0xffffffff true W0 Hb full_mask) as (c' & H1 & _ & Hmode & Hv).
  destruct (cpsr_write_back c0 (spsr c) W0 Hs Hb Hu Hbad) as (c'' & H2 & Hread).
  rewrite H1 in H2. injection H2 as <-. exists c'. split; [exact H1|]. split; [exact Hread|].
  rewrite Hbad in Hmode. split; [exact Hmode|].
  assert (R15 : forall d m, view d m 15 = reg d 15) by reflexivity.
  split.
  - rewrite <- (R15 c' ARM_CPU_MODE_USR), Hv, R15 by (eexists; reflexivity || lia).
    change (nthz (zset (regs c) 15 (Z.land pc (not32 1))) 15 = Z.land pc (not32 1)).
    rewrite nthz_zset by (rewrite (wf_regs _ W); lia). reflexivity.
  - intros m r Hm Hr. rewrite Hv by (assumption || lia).
    assert (E : forall k, 0 <= k < 15 -> reg c0 k = reg c k).
    { intros k Hk. change (nthz (zset (regs c) 15 (Z.land pc (not32 1))) k = nthz (regs c) k).
      rewrite nthz_zset by (rewrite (wf_regs _ W); lia). destruct (Z.eqb_spec k 15); [lia|reflexivity]. }
    unfold view. rewrite !E by lia. reflexivity.
Qed.

(** C11.  Entering an exception and returning from it are inverse.  From any
    valid mode, every exception switches to its mode, saves the status
    register in the SPSR and the return address in the link register,
    disables the interrupts it must, jumps to its vector, and leaves the
    registers of every mode as they were, except the link register of its
    own bank.  A handler that is back in its mode with the SPSR intact
    restores, by the old-style exception return, the complete status register
    and mode of the interrupted code, without disturbing any mode's
    registers. *)
Theorem exception_roundtrip s nm off mask ofs : let c := cpu s in
  cpu_wf c -> bad_mode_switch (mode_of c) = false -> is_u32 (uncached_cpsr c) ->
  arm_feature c ARM_FEATURE_M = false -> semihosting_enabled = false ->
  exception_entry (exception_index c) (negb (thumb c =? 0)) = Some (nm, off, mask, ofs) ->
  exists s1, arm_cpu_do_interrupt s = Done (tt, s1) /\ let c1 := cpu s1 in
    mode_of c1 = nm /\ Z.land (uncached_cpsr c1) mask = mask /\ spsr c1 = cpsr_read c /\
    reg c1 14 = u32 (reg c 15 + ofs) /\ reg c1 15 = u32 (off + vector_base s nm) /\
    (forall m r, is_Some (bank_of m) -> 0 <= r < 15 -> (r = 14 -> bank_of m <> bank_of nm) -> view c1 m r = view c m r) /\
    forall c2 pc, cpu_wf c2 -> is_u32 pc -> mode_of c2 = nm -> spsr c2 = spsr c1 ->
      Z.land (uncached_cpsr c2) CACHED_CPSR_BITS = 0 ->
      exists c3, gen_exception_return pc c2 = Done (tt, c3) /\ cpsr_read c3 = cpsr_read c /\
        mode_of c3 = mode_of c /\ reg c3 15 = Z.land pc (not32 1) /\
        forall m r, is_Some (bank_of m) -> 0 <= r < 15 -> view c3 m r = view c2 m r.
Proof.
  intros c W Hbad Hu HM HS HE. destruct (entry_ranges _ _ _ _ _ _ HE) as (Rn & Hm & Hb).
  destruct (switch_spec c nm W (good_mode_bank _ Hbad) Hb) as (c1 & Hsw & W1 & Eu & Ef & Hv).
  assert (Ecp : cpsr_read c1 = cpsr_read c) by (apply cpsr_flags; assumption).
  assert (E15 : reg c1 15 = reg c 15) by exact (Hv nm nm 15 ltac:(change CPSR_M with (Z.ones 5); rewrite Z.land_ones, Z.mod_small by lia; reflexivity) Hb ltac:(lia)).
  destruct (entry_run s c1 nm off mask ofs HM HS HE (wf_regs _ W) Hsw (wf_regs _ W1)) as (s1 & t & irq & H1 & E1).
  exists s1. split; [exact H1|]. cbv zeta. rewrite E1, E15 in *.
  destruct (entry_mode (uncached_cpsr c1) nm mask Rn Hm) as [Em Ek].
  assert (Hreg : forall lr pc, reg (in_handler c1 nm mask t lr pc irq) 14 = lr /\ reg (in_handler c1 nm mask t lr pc irq) 15 = pc).
  { intros lr pc. pose proof (wf_regs _ W1) as L1.
    change (nthz (zset (zset (regs c1) 14 lr) 15 pc) 14 = lr /\ nthz (zset (zset (regs c1) 14 lr) 15 pc) 15 = pc).
    rewrite !nthz_zset by (rewrite ?length_zset; lia). auto. }
  split; [exact Em|]. split; [exact Ek|]. split; [exact Ecp|].
  split; [apply Hreg|]. split; [apply Hreg|]. split.
  - intros m r Hbm Hr H14. apply in_handler_view; assumption.
  - change (spsr (in_handler _ _ _ _ _ _ _)) with (cpsr_read c1). rewrite Ecp. intros c2 pc W2 Hpc Hm2 Hsp Hu2.
    destruct (return_run c2 pc W2 Hpc) as (c3 & R1 & R2 & R3 & R4 & R5).
    { rewrite Hsp. apply cpsr_u32, Hu. } { rewrite Hm2. exact Hb. } { exact Hu2. } { rewrite Hsp, cpsr_mode. exact Hbad. }
    exists c3. rewrite Hsp in R2, R3. rewrite cpsr_mode in R3. auto.
Qed.
End Roundtrip.

(** An interrupt taken in monitor mode is saved in the SPSR with mode 0x16,
    which [bad_mode_switch] rejects: the return leaves the processor in the
    handler's mode. *)
Lemma monitor_mode_not_restored : exists c c', mode_of c = ARM_CPU_MODE_IRQ /\ spsr c = ARM_CPU_MODE_SMC /\
  gen_exception_return 0 c = Done (tt, c') /\ mode_of c' = ARM_CPU_MODE_IRQ.
Proof.
  exists (set_spsr ARM_CPU_MODE_SMC (zero_cpu ARM_CPU_MODE_IRQ 0)). eexists.
  split; [reflexivity|]. split; [reflexivity|]. split; vm_compute; reflexivity.
Qed.

(** ** A concrete run: a system call from user mode *)
Definition demo_user : cpu_st :=
  set_exception_index EXCP_SWI (set_regs [1; 2; 3; 4; 5; 6; 7; 8; 9; 10; 11; 12; 13; 0x7000; 0x400; 0x8000] (zero_cpu ARM_CPU_MODE_USR 0)).

Lemma demo_user_wf : cpu_wf demo_user.
Proof.
  assert (W : cpu_wf (set_regs [1; 2; 3; 4; 5; 6; 7; 8; 9; 10; 11; 12; 13; 0x7000; 0x400; 0x8000] (zero_cpu ARM_CPU_MODE_USR 0))).
  { apply set_regs_wf; [apply zero_cpu_wf|reflexivity|].
    repeat (apply Forall_cons; split; [split; vm_compute; congruence|]). apply Forall_nil_2. }
  destruct W; split; assumption.
Qed.

#[local] Existing Instance word_mem.
#[local] Existing Instance demo_nvic.
Definition demo_consts : QemuConsts := {| EXCP_HLT := 0x10001; CPU_INTERRUPT_FIQ := 0x10; CPU_INTERRUPT_HARD := 2; CPU_INTERRUPT_EXITTB := 4 |}.
Definition demo_swi : sys_st := {| cpu := demo_user; cp15 := fun _ => 0; memory := (∅ : gmap Z Z); intc := tt |}.

Definition demo_svc : cpu_st :=
  match @arm_cpu_do_interrupt _ _ no_semihosting demo_consts demo_swi with Done (_, s) => cpu s | _ => demo_user end.

Lemma u32_check l : forallb (fun x => (0 <=? x) && (x <? 2 ^ 32)) l = true -> Forall is_u32 l.
Proof.
  intros H. apply Forall_forall. intros x Hx. rewrite forallb_forall in H.
  apply list_elem_of_In, H, andb_true_iff in Hx as [H1%Z.leb_le H2%Z.ltb_lt]. split; assumption.
Qed.

Lemma demo_svc_wf : cpu_wf demo_svc /\ Z.land (uncached_cpsr demo_svc) CACHED_CPSR_BITS = 0.
Proof.
  assert (V : vfp_regs demo_svc = replicate 32 0) by (vm_compute; reflexivity).
  split; [|vm_compute; reflexivity]. split; lazymatch goal with
  | |- length _ = _ => vm_compute; reflexivity
  | |- Forall is_u32 _ => apply u32_check; vm_compute; reflexivity
  | _ => rewrite V; apply Forall_replicate; split; vm_compute; congruence
  end.
Qed.

Lemma exception_roundtrip_witness : exists s1 c3,
  @arm_cpu_do_interrupt _ _ no_semihosting demo_consts demo_swi = Done (tt, s1) /\ mode_of (cpu s1) = ARM_CPU_MODE_SVC /\
  reg (cpu s1) 15 = 8 /\ gen_exception_return 0x8000 (cpu s1) = Done (tt, c3) /\ mode_of c3 = ARM_CPU_MODE_USR /\ reg c3 15 = 0x8000.
Proof.
  destruct (@exception_roundtrip _ _ no_semihosting demo_consts demo_swi ARM_CPU_MODE_SVC 8 CPSR_I 0 demo_user_wf eq_refl
    ltac:(split; vm_compute; congruence) eq_refl eq_refl eq_refl) as (s1 & H1 & Hm & _ & Hs & _ & H15 & _ & H2).
  assert (Es : cpu s1 = demo_svc) by (unfold demo_svc; rewrite H1; reflexivity).
  assert (W1 : cpu_wf (cpu s1) /\ Z.land (uncached_cpsr (cpu s1)) CACHED_CPSR_BITS = 0) by (rewrite Es; exact demo_svc_wf).
  destruct (H2 (cpu s1) 0x8000 (proj1 W1) ltac:(split; vm_compute; congruence) Hm eq_refl (proj2 W1)) as (c3 & H3 & _ & H4 & H5 & _).
  exists s1, c3. split; [exact H1|]. split; [exact Hm|]. split; [rewrite H15; reflexivity|]. split; [exact H3|]. split; [exact H4|exact H5].
Defined.
