(* ===== verification/Mmu.v ===== *)
(** * Address translation ([target-arm/helper.c])

    The translation of a virtual address: the access check [check_ap], the
    v5, v6 and long-descriptor table walks, the protection unit, their choice
    in [get_phys_addr], the two callers that fill the TLB and serve the
    debugger, and [tlb_fill] of [op_helper.c].  Physical memory and the TLB belong to QEMU; so do the
    [PAGE_*] bits and the field extraction of its headers. *)
From stdpp Require Import base list gmap.
From S2P Require Import Prelude Double ArmTable State CpuState Errors OpHelper Sys.
Open Scope Z_scope.

(** ** What QEMU's headers provide *)
Class MmuEnv := {
  PAGE_READ : Z;
  PAGE_WRITE : Z;
  PAGE_EXEC : Z;
  extract32 : Z -> Z -> Z -> Z;
  extract64 : Z -> Z -> Z -> Z
}.

(** The protection bits are those of [mmap]; [extract32 v start len] is the
    field of [len] bits of [v] that begins at bit [start]. *)
Class MmuEnvLaws `{MmuEnv} := {
  page_bits : PAGE_READ = 1 /\ PAGE_WRITE = 2 /\ PAGE_EXEC = 4;
  extract32_spec v start len :
    is_u32 v -> 0 <= start -> 0 < len -> start + len <= 32 ->
    extract32 v start len = Z.land (Z.shiftr v start) (Z.ones len);
  extract64_spec v start len :
    is_u64 v -> 0 <= start -> 0 < len -> start + len <= 64 ->
    extract64 v start len = Z.land (Z.shiftr v start) (Z.ones len)
}.

(** The TLB: an entry maps the page of an address for one MMU index to a
    physical page and its protection bits. *)
Class Tlb := {
  tlb : Type;
  tlb_set_page : Z -> Z -> Z -> Z -> Z -> tlb -> tlb;
  tlb_flush : Z -> tlb -> tlb;
  tlb_flush_page : Z -> tlb -> tlb;
  tlb_lookup : tlb -> Z -> Z -> option (Z * Z)
}.

(** Setting a page maps the addresses of that page for the given index and may
    evict others; flushing removes entries. *)
Class TlbLaws `{Tlb} := {
  tlb_set_lookup t va pa prot idx size a i p q :
    tlb_lookup (tlb_set_page va pa prot idx size t) a i = Some (p, q) ->
    (Z.shiftr a 10 = Z.shiftr va 10 /\ i = idx /\ p = Z.lor pa (Z.land a 0x3ff) /\ q = prot) \/
    tlb_lookup t a i = Some (p, q);
  tlb_set_hit t va pa prot idx size a :
    Z.shiftr a 10 = Z.shiftr va 10 ->
    tlb_lookup (tlb_set_page va pa prot idx size t) a idx = Some (Z.lor pa (Z.land a 0x3ff), prot);
  tlb_flush_lookup g t a i : tlb_lookup (tlb_flush g t) a i = None;
  tlb_flush_page_lookup va t a i p q :
    tlb_lookup (tlb_flush_page va t) a i = Some (p, q) ->
    Z.shiftr a 10 <> Z.shiftr va 10 /\ tlb_lookup t a i = Some (p, q)
}.

(** ** The walks *)
Definition MMU_USER_IDX : Z := 1.
Definition TARGET_PAGE_SIZE : Z := Z.shiftl 1 10.

(** [cpu_mmu_index] of [cpu.h]. *)
Definition cpu_mmu_index (e : cpu_st) : Z :=
  if Z.land (uncached_cpsr e) CPSR_M =? ARM_CPU_MODE_USR then 1 else 0.

(** The result and the out-parameters of a walk; [None] where the walk did
    not write the parameter. *)
Record xlat : Type := { x_ret : Z; x_phys : option Z; x_prot : option Z; x_size : option Z }.

Definition x_fault (code : Z) (prot size : option Z) : xlat :=
  {| x_ret := code; x_phys := None; x_prot := prot; x_size := size |}.
Definition x_ok (phys prot size : Z) : xlat :=
  {| x_ret := 0; x_phys := Some phys; x_prot := Some prot; x_size := Some size |}.

Section Walks.
Context {PH : PhysMem} {NV : Nvic} {ME : MmuEnv}.
Implicit Types s : sys_st.

(** [check_ap]: the protection bits, or zero; [AssertFailed] is [abort()]. *)
Definition check_ap (s : sys_st) (ap domain_prot access_type : Z) (is_user : bool) : outcome Z :=
  if domain_prot =? 3 then Done (Z.lor PAGE_READ PAGE_WRITE)
  else
    let prot_ro := if access_type =? 1 then 0 else PAGE_READ in
    match ap with
    | 0 =>
        if access_type =? 1 then Done 0
        else match Z.land (Z.shiftr (cp15 s c1_sys) 8) 3 with
             | 1 => Done (if is_user then 0 else PAGE_READ)
             | 2 => Done PAGE_READ
             | _ => Done 0
             end
    | 1 => Done (if is_user then 0 else Z.lor PAGE_READ PAGE_WRITE)
    | 2 => Done (if is_user then prot_ro else Z.lor PAGE_READ PAGE_WRITE)
    | 3 => Done (Z.lor PAGE_READ PAGE_WRITE)
    | 4 => Done 0
    | 5 => Done (if is_user then 0 else prot_ro)
    | 6 => Done prot_ro
    | 7 => Done (if negb (arm_feature (cpu s) ARM_FEATURE_V6K) then 0 else prot_ro)
    | _ => AssertFailed
    end.

Definition get_level1_table_address (s : sys_st) (address : Z) : Z :=
  let table :=
    if tst address (cp15 s c2_mask) then Z.land (cp15 s c2_base1) 0xffffc000
    else Z.land (cp15 s c2_base0) (cp15 s c2_base_mask) in
  Z.lor table (Z.land (Z.shiftr address 18) 0x3ffc).

(** The end of the v5 walk, from the call of [check_ap]. *)
Definition v5_check (s : sys_st) (access_type : Z) (is_user : bool)
    (domain domain_prot code phys_addr ap size : Z) : outcome xlat :=
  match check_ap s ap domain_prot access_type is_user with
  | Done prot =>
      if prot =? 0 then Done (x_fault (Z.lor code (Z.shiftl domain 4)) (Some prot) (Some size))
      else Done (x_ok phys_addr (Z.lor prot PAGE_EXEC) size)
  | _ => AssertFailed
  end.

Definition get_phys_addr_v5 (s : sys_st) (address access_type : Z) (is_user : bool) : outcome xlat :=
  let table := get_level1_table_address s address in
  let desc := ldl_phys (memory s) table in
  let type := Z.land desc 3 in
  let domain := Z.land (Z.shiftr desc 5) 0x0f in
  let domain_prot := Z.land (Z.shiftr (cp15 s c3) (domain * 2)) 3 in
  let do_fault code := Done (x_fault (Z.lor code (Z.shiftl domain 4)) None None) in
  let check := v5_check s access_type is_user domain domain_prot in
  if type =? 0 then do_fault 5
  else if (domain_prot =? 0) || (domain_prot =? 2) then do_fault (if type =? 2 then 9 else 11)
  else if type =? 2 then
    check 13 (Z.lor (Z.land desc 0xfff00000) (Z.land address 0x000fffff))
      (Z.land (Z.shiftr desc 10) 3) (1024 * 1024)
  else
    let table2 :=
      if type =? 1 then Z.lor (Z.land desc 0xfffffc00) (Z.land (Z.shiftr address 10) 0x3fc)
      else Z.lor (Z.land desc 0xfffff000) (Z.land (Z.shiftr address 8) 0xffc) in
    let desc2 := ldl_phys (memory s) table2 in
    match Z.land desc2 3 with
    | 0 => do_fault 7
    | 1 => check 15 (Z.lor (Z.land desc2 0xffff0000) (Z.land address 0xffff))
             (Z.land (Z.shiftr desc2 (4 + Z.land (Z.shiftr address 13) 6)) 3) 0x10000
    | 2 => check 15 (Z.lor (Z.land desc2 0xfffff000) (Z.land address 0xfff))
             (Z.land (Z.shiftr desc2 (4 + Z.land (Z.shiftr address 13) 6)) 3) 0x1000
    | 3 =>
        if type =? 1 then
          if arm_feature (cpu s) ARM_FEATURE_XSCALE then
            check 15 (Z.lor (Z.land desc2 0xfffff000) (Z.land address 0xfff))
              (Z.land (Z.shiftr desc2 4) 3) 0x400
          else do_fault 7
        else check 15 (Z.lor (Z.land desc2 0xfffffc00) (Z.land address 0x3ff))
               (Z.land (Z.shiftr desc2 4) 3) 0x400
    | _ => AssertFailed
    end.

(** The end of the v6 walk, from [if (domain_prot == 3)]. *)
Definition v6_check (s : sys_st) (access_type : Z) (is_user : bool)
    (domain domain_prot code phys_addr ap : Z) (xn0 pxn : bool) (size : Z) : outcome xlat :=
  let do_fault code prot := Done (x_fault (Z.lor code (Z.shiftl domain 4)) prot (Some size)) in
  if domain_prot =? 3 then Done (x_ok phys_addr (Z.lor (Z.lor PAGE_READ PAGE_WRITE) PAGE_EXEC) size)
  else
    let xn := if pxn && negb is_user then true else xn0 in
    if xn && (access_type =? 2) then do_fault code None
    else if tst (cp15 s c1_sys) (Z.shiftl 1 29) && (Z.land ap 1 =? 0)
    then do_fault (if code =? 15 then 6 else 3) None
    else
      match check_ap s ap domain_prot access_type is_user with
      | Done prot =>
          if prot =? 0 then do_fault code (Some prot)
          else Done (x_ok phys_addr (if xn then prot else Z.lor prot PAGE_EXEC) size)
      | _ => AssertFailed
      end.

Definition get_phys_addr_v6 (s : sys_st) (address access_type : Z) (is_user : bool) : outcome xlat :=
  let table := get_level1_table_address s address in
  let desc := ldl_phys (memory s) table in
  let type := Z.land desc 3 in
  if (type =? 0) || ((type =? 3) && negb (arm_feature (cpu s) ARM_FEATURE_PXN))
  then Done (x_fault (Z.lor 5 (Z.shiftl 0 4)) None None)
  else
    let domain := if (type =? 1) || negb (tst desc (Z.shiftl 1 18)) then Z.land (Z.shiftr desc 5) 0x0f else 0 in
    let do_fault code := Done (x_fault (Z.lor code (Z.shiftl domain 4)) None None) in
    let domain_prot := Z.land (Z.shiftr (cp15 s c3) (domain * 2)) 3 in
    if (domain_prot =? 0) || (domain_prot =? 2) then do_fault (if negb (type =? 1) then 9 else 11)
    else if negb (type =? 1) then
      let ap := Z.lor (Z.land (Z.shiftr desc 10) 3) (Z.land (Z.shiftr desc 13) 4) in
      let xn := tst desc (Z.shiftl 1 4) in
      let pxn := tst desc 1 in
      if tst desc (Z.shiftl 1 18) then
        v6_check s access_type is_user domain domain_prot 13
          (Z.lor (Z.land desc 0xff000000) (Z.land address 0x00ffffff)) ap xn pxn 0x1000000
      else
        v6_check s access_type is_user domain domain_prot 13
          (Z.lor (Z.land desc 0xfff00000) (Z.land address 0x000fffff)) ap xn pxn 0x100000
    else
      let pxn := arm_feature (cpu s) ARM_FEATURE_PXN && tst (Z.shiftr desc 2) 1 in
      let table2 := Z.lor (Z.land desc 0xfffffc00) (Z.land (Z.shiftr address 10) 0x3fc) in
      let desc2 := ldl_phys (memory s) table2 in
      let ap := Z.lor (Z.land (Z.shiftr desc2 4) 3) (Z.land (Z.shiftr desc2 7) 4) in
      match Z.land desc2 3 with
      | 0 => do_fault 7
      | 1 => v6_check s access_type is_user domain domain_prot 15
               (Z.lor (Z.land desc2 0xffff0000) (Z.land address 0xffff)) ap
               (tst desc2 (Z.shiftl 1 15)) pxn 0x10000
      | 2 | 3 => v6_check s access_type is_user domain domain_prot 15
               (Z.lor (Z.land desc2 0xfffff000) (Z.land address 0xfff)) ap
               (tst desc2 1) pxn 0x1000
      | _ => AssertFailed
      end.

(** [MMUFaultType]. *)
Inductive MMUFaultType : Set := translation_fault | access_fault | permission_fault.
Definition fault_type_value (f : MMUFaultType) : Z :=
  match f with translation_fault => 1 | access_fault => 2 | permission_fault => 3 end.

(** The region of the address: which base register translates it, or none. *)
Definition lpae_region (address t0sz t1sz : Z) : option bool :=
  if negb (t0sz =? 0) && (extract32 address (32 - t0sz) t0sz =? 0) then Some false
  else if negb (t1sz =? 0) && (extract32 (u32 (Z.lnot address)) (32 - t1sz) t1sz =? 0) then Some true
  else if t0sz =? 0 then Some false
  else if t1sz =? 0 then Some true
  else None.

(** Where the descriptor loop ends: the level it reached, and the address,
    the attributes and the page size unless a descriptor was invalid. *)
Record lpae_leaf : Type := { lf_level : Z; lf_found : option (Z * Z * Z) }.

(** The attributes of a block or page, merged with those of the tables. *)
Definition lpae_attrs (descriptor tableattrs : Z) : Z :=
  let attrs := u32 (Z.lor (extract64 descriptor 2 10) (Z.shiftl (extract64 descriptor 52 12) 10)) in
  let attrs := Z.lor attrs (Z.shiftl (extract32 tableattrs 0 2) 11) in
  let attrs := Z.lor attrs (Z.shiftl (extract32 tableattrs 3 1) 5) in
  if negb (extract32 tableattrs 2 1 =? 0) then Z.land attrs (u32 (Z.lnot (Z.shiftl 1 4))) else attrs.

(** The loop [for (;;)]; [None] when the fuel runs out. *)
Fixpoint lpae_loop (fuel : nat) (m : mem) (address level descaddr tableattrs : Z) : option lpae_leaf :=
  match fuel with
  | O => None
  | S fuel' =>
      let descaddr := Z.lor descaddr (Z.land (Z.shiftr address (9 * (4 - level))) 0xff8) in
      let descriptor := ldq_phys m descaddr in
      if negb (tst descriptor 1) || (negb (tst descriptor 2) && (level =? 3))
      then Some {| lf_level := level; lf_found := None |}
      else
        let descaddr := Z.land descriptor 0xfffffff000 in
        if tst descriptor 2 && (level <? 3)
        then lpae_loop fuel' m address (level + 1) descaddr (u32 (Z.lor tableattrs (extract64 descriptor 59 5)))
        else
          let page_size := Z.shiftl 1 (39 - 9 * level) in
          Some {| lf_level := level;
                  lf_found := Some (Z.lor descaddr (Z.land address (page_size - 1)),
                                    lpae_attrs descriptor tableattrs, page_size) |}
  end.

Definition lpae_fault (f : MMUFaultType) (level : Z) (prot : option Z) : xlat :=
  x_fault (Z.lor (Z.lor (Z.shiftl 1 9) (Z.shiftl (fault_type_value f) 2)) level) prot None.

(** From [fault_type = access_fault] on. *)
Definition lpae_check (access_type : Z) (is_user : bool) (level descaddr attrs page_size : Z) : xlat :=
  if Z.land attrs (Z.shiftl 1 8) =? 0 then lpae_fault access_fault level None
  else if is_user && negb (tst attrs (Z.shiftl 1 4)) then lpae_fault permission_fault level None
  else
    let prot := Z.lor (Z.lor PAGE_READ PAGE_WRITE) PAGE_EXEC in
    let xn := tst attrs (Z.shiftl 1 12) || (negb is_user && tst attrs (Z.shiftl 1 11)) in
    if xn && (access_type =? 2) then lpae_fault permission_fault level (Some prot)
    else
      let prot := if xn then Z.land prot (Z.lnot PAGE_EXEC) else prot in
      if tst attrs (Z.shiftl 1 5) && (access_type =? 1) then lpae_fault permission_fault level (Some prot)
      else
        let prot := if tst attrs (Z.shiftl 1 5) then Z.land prot (Z.lnot PAGE_WRITE) else prot in
        x_ok descaddr prot page_size.

(** [get_phys_addr_lpae]; the loop visits at most the three levels. *)
Definition get_phys_addr_lpae (s : sys_st) (address access_type : Z) (is_user : bool) : outcome xlat :=
  let t0sz := extract32 (cp15 s c2_control) 0 3 in
  let t1sz := extract32 (cp15 s c2_control) 16 3 in
  match lpae_region address t0sz t1sz with
  | None => Done (lpae_fault translation_fault 1 None)
  | Some ttbr_select =>
      let ttbr :=
        if ttbr_select then Z.lor (Z.shiftl (cp15 s c2_base1_hi) 32) (cp15 s c2_base1)
        else Z.lor (Z.shiftl (cp15 s c2_base0_hi) 32) (cp15 s c2_base0) in
      let epd := extract32 (cp15 s c2_control) (if ttbr_select then 23 else 7) 1 in
      let tsz := if ttbr_select then t1sz else t0sz in
      if negb (epd =? 0) then Done (lpae_fault translation_fault 1 None)
      else
        let level := if 1 <? tsz then 2 else 1 in
        let n := if 1 <? tsz then 14 - tsz else 5 - tsz in
        let address := Z.land address (Z.shiftr 0xffffffff tsz) in
        let descaddr := Z.land (extract64 ttbr 0 40) (u64 (Z.lnot (Z.shiftl 1 n - 1))) in
        match lpae_loop 3 (memory s) address level descaddr 0 with
        | None => Undefined
        | Some {| lf_level := level; lf_found := None |} => Done (lpae_fault translation_fault level None)
        | Some {| lf_level := level; lf_found := Some (descaddr, attrs, page_size) |} =>
            Done (lpae_check access_type is_user level descaddr attrs page_size)
        end
  end.

(** The region search of the protection unit: [for (n = 7; n >= 0; n--)];
    -1 when no region matches.  [mask] is computed in 32 bits. *)
Fixpoint mpu_region (s : sys_st) (address : Z) (n : nat) : Z :=
  let base := cp15 s (c6_region (Z.of_nat n)) in
  let mask := u32 (Z.shiftl (u32 (Z.shiftl 1 (Z.land (Z.shiftr base 1) 0x1f))) 1 - 1) in
  if negb (Z.land base 1 =? 0) && (Z.land (Z.lxor base address) (u32 (Z.lnot mask)) =? 0) then Z.of_nat n
  else match n with O => -1 | S n' => mpu_region s address n' end.

Definition get_phys_addr_mpu (s : sys_st) (address access_type : Z) (is_user : bool) : xlat :=
  let res r prot := {| x_ret := r; x_phys := Some address; x_prot := prot; x_size := None |} in
  let n := mpu_region s address 7 in
  if n <? 0 then res 2 None
  else
    let mask := if access_type =? 2 then cp15 s c5_insn else cp15 s c5_data in
    let mask := Z.land (Z.shiftr mask (n * 4)) 0xf in
    let ok prot := res 0 (Some (Z.lor prot PAGE_EXEC)) in
    match mask with
    | 0 => res 1 None
    | 1 => if is_user then res 1 None else ok (Z.lor PAGE_READ PAGE_WRITE)
    | 2 => ok (if negb is_user then Z.lor PAGE_READ PAGE_WRITE else PAGE_READ)
    | 3 => ok (Z.lor PAGE_READ PAGE_WRITE)
    | 5 => if is_user then res 1 None else ok PAGE_READ
    | 6 => ok PAGE_READ
    | _ => res 1 None
    end.

Definition extended_addresses_enabled (s : sys_st) : bool :=
  arm_feature (cpu s) ARM_FEATURE_LPAE && tst (cp15 s c2_control) (Z.shiftl 1 31).

(** The modified virtual address of the fast context switch extension. *)
Definition fcse_address (s : sys_st) (address : Z) : Z :=
  if address <? 0x02000000 then u32 (address + cp15 s c13_fcse) else address.

(** [get_phys_addr] from the test of the MMU enable bit. *)
Definition translate_mva (s : sys_st) (address access_type : Z) (is_user : bool) : outcome xlat :=
  if Z.land (cp15 s c1_sys) 1 =? 0 then
    Done (x_ok address (Z.lor (Z.lor PAGE_READ PAGE_WRITE) PAGE_EXEC) TARGET_PAGE_SIZE)
  else if arm_feature (cpu s) ARM_FEATURE_MPU then
    let r := get_phys_addr_mpu s address access_type is_user in
    Done {| x_ret := x_ret r; x_phys := x_phys r; x_prot := x_prot r; x_size := Some TARGET_PAGE_SIZE |}
  else if extended_addresses_enabled s then get_phys_addr_lpae s address access_type is_user
  else if tst (cp15 s c1_sys) (Z.shiftl 1 23) then get_phys_addr_v6 s address access_type is_user
  else get_phys_addr_v5 s address access_type is_user.

Definition get_phys_addr (s : sys_st) (address access_type : Z) (is_user : bool) : outcome xlat :=
  translate_mva s (fcse_address s address) access_type is_user.

(** [cpu_get_phys_page_debug]: -1 is the all-ones [hwaddr]. *)
Definition cpu_get_phys_page_debug (s : sys_st) (addr : Z) : outcome Z :=
  match get_phys_addr s addr 0 false with
  | Done r =>
      if negb (x_ret r =? 0) then Done (u64 (-1))
      else match x_phys r with Some p => Done p | None => Undefined end
  | AssertFailed => AssertFailed | Undefined => Undefined | Exited z => Exited z
  end.

Context {TL : Tlb}.

(** The fault registers and the exception of a failed translation. *)
Definition mmu_fault_regs (address access_type ret : Z) (s : sys_st) : sys_st :=
  if access_type =? 2 then
    set_cpu (set_exception_index EXCP_PREFETCH_ABORT (cpu s))
      (set_cp15 (cp15_set c6_insn address (cp15_set c5_insn ret (cp15 s))) s)
  else
    let fsr := if (access_type =? 1) && arm_feature (cpu s) ARM_FEATURE_V6
               then Z.lor ret (Z.shiftl 1 11) else ret in
    set_cpu (set_exception_index EXCP_DATA_ABORT (cpu s))
      (set_cp15 (cp15_set c6_data address (cp15_set c5_data fsr (cp15 s))) s).

(** [cpu_arm_handle_mmu_fault]; an out-parameter that was never written is
    read as [Undefined]. *)
Definition cpu_arm_handle_mmu_fault (address access_type mmu_idx : Z) : M (sys_st * tlb) Z := fun '(s, t) =>
  let is_user := mmu_idx =? MMU_USER_IDX in
  match get_phys_addr s address access_type is_user with
  | Done r =>
      if x_ret r =? 0 then
        match x_phys r, x_prot r, x_size r with
        | Some phys_addr, Some prot, Some page_size =>
            let phys_addr := Z.land phys_addr (u64 (Z.lnot 0x3ff)) in
            let va := Z.land address (u32 (Z.lnot 0x3ff)) in
            Done (0, (s, tlb_set_page va phys_addr prot mmu_idx page_size t))
        | _, _, _ => Undefined
        end
      else Done (1, (mmu_fault_regs address access_type (x_ret r) s, t))
  | AssertFailed => AssertFailed | Undefined => Undefined | Exited z => Exited z
  end.

(** [tlb_fill] of [op_helper.c]: a failed translation leaves the translated
    code; [retaddr] is not zero when the access came from translated code,
    whose state QEMU's [cpu_restore_state] then restores. *)
Definition tlb_fill (cpu_restore_state : Z -> cpu_st -> cpu_st) (addr is_write mmu_idx retaddr : Z) :
    M (sys_st * tlb) (exit unit) :=
  let! ret := cpu_arm_handle_mmu_fault addr is_write mmu_idx in
  if negb (ret =? 0) then fun '(s, t) =>
    let c := if negb (retaddr =? 0) then cpu_restore_state retaddr (cpu s) else cpu s in
    match raise_exception (exception_index c) c with
    | Done (x, c') => Done (x, (set_cpu c' s, t))
    | AssertFailed => AssertFailed | Undefined => Undefined | Exited z => Exited z
    end
  else Prelude.ret (Returns tt).
End Walks.

(** ** Pages

    Two addresses of one 1 KiB page agree in every bit a walk uses for its
    look-ups. *)
Definition same_page (a b : Z) : Prop := Z.shiftr a 10 = Z.shiftr b 10.

Lemma page_bit a b n : same_page a b -> 10 <= n -> Z.testbit a n = Z.testbit b n.
Proof.
  intros H Hn. replace n with ((n - 10) + 10) by lia.
  rewrite <- !Z.shiftr_spec by lia. f_equal. exact H.
Qed.

Lemma page_field a b k m :
  same_page a b -> 0 <= k -> Z.land (Z.shiftl m k) 0x3ff = 0 ->
  Z.land (Z.shiftr a k) m = Z.land (Z.shiftr b k) m.
Proof.
  intros H Hk Hm. apply Z.bits_inj'. intros n Hn. rewrite !Z.land_spec, !Z.shiftr_spec by lia.
  destruct (Z.lt_ge_cases (n + k) 10) as [Hlt|Hge].
  - enough (E : Z.testbit m n = false) by (rewrite E, !andb_false_r; reflexivity).
    replace n with ((n + k) - k) by lia. rewrite <- Z.shiftl_spec by lia.
    apply (f_equal (fun z => Z.testbit z (n + k))) in Hm. rewrite Z.land_spec, Z.bits_0 in Hm.
    change 0x3ff with (Z.ones 10) in Hm. rewrite Z.ones_spec_low, andb_true_r in Hm by lia. exact Hm.
  - f_equal. apply page_bit; assumption.
Qed.

Lemma page_land a b m : same_page a b -> Z.land m 0x3ff = 0 -> Z.land a m = Z.land b m.
Proof. intros H Hm. apply (page_field a b 0 m H); [lia|rewrite Z.shiftl_0_r; exact Hm]. Qed.

Lemma page_shift a b k : same_page a b -> 10 <= k -> Z.shiftr a k = Z.shiftr b k.
Proof.
  intros H Hk. apply Z.bits_inj'. intros n Hn. rewrite !Z.shiftr_spec by lia. apply page_bit; [exact H|lia].
Qed.

Lemma same_page_div a b : same_page a b <-> a / 1024 = b / 1024.
Proof. unfold same_page. rewrite !Z.shiftr_div_pow2 by lia. reflexivity. Qed.

(** The page and the offset of a physical address made of a page-aligned
    base and the low bits of the virtual address. *)
Lemma phys_offset base mask b :
  Z.land base 0x3ff = 0 -> Z.land mask 0x3ff = 0x3ff ->
  Z.land (Z.lor base (Z.land b mask)) 0x3ff = Z.land b 0x3ff.
Proof. intros Hb Hm. rewrite Z.land_lor_distr_l, Hb, <- Z.land_assoc, Hm. reflexivity. Qed.

Lemma phys_page base mask a b : same_page a b ->
  same_page (Z.lor base (Z.land a mask)) (Z.lor base (Z.land b mask)).
Proof. unfold same_page. intros H. rewrite !Z.shiftr_lor, !Z.shiftr_land, H. reflexivity. Qed.

(** An address is its page and its offset. *)
Lemma page_split x y : same_page x y -> Z.land x 0x3ff = Z.land y 0x3ff -> x = y.
Proof.
  unfold same_page. change 0x3ff with (Z.ones 10). rewrite !Z.land_ones, !Z.shiftr_div_pow2 by lia.
  intros H1 H2. rewrite (Z.div_mod x (2 ^ 10)), (Z.div_mod y (2 ^ 10)) by lia. rewrite H1, H2. reflexivity.
Qed.

Lemma land3_cases d : Z.land d 3 = 0 \/ Z.land d 3 = 1 \/ Z.land d 3 = 2 \/ Z.land d 3 = 3.
Proof. pose proof (land_mask_range d 2 ltac:(lia)) as H. change (Z.ones 2) with 3 in H. lia. Qed.

Lemma u64_land d m : 0 <= m < 2 ^ 64 -> is_u64 (Z.land d m).
Proof. intros Hm. rewrite Z.land_comm. apply (land_below m d 64); [lia|exact Hm]. Qed.

Lemma u64_phys base mask b : is_u64 base -> is_u32 b -> is_u64 (Z.lor base (Z.land b mask)).
Proof.
  intros Hb Ha. apply (lor_below _ _ 64); [lia|exact Hb|apply (land_below b mask 64); [lia|]].
  unfold is_u32 in Ha. lia.
Qed.

(** ** What a page's descriptor says

    [described f a]: on the page of [a] the walk [f] maps each address to a
    fixed base, with fixed protection bits, or faults; and the accesses that
    fault are exactly those the protection bits do not allow. *)
Definition access_bit `{MmuEnv} (access_type : Z) : Z :=
  if access_type =? 0 then PAGE_READ else if access_type =? 1 then PAGE_WRITE else PAGE_EXEC.
Definition is_access (access_type : Z) : Prop := 0 <= access_type <= 2.

Definition described `{MmuEnv} (f : Z -> Z -> bool -> outcome xlat) (a : Z) : Prop :=
  forall u, exists base mask prot size (flt : Z -> option xlat),
    is_u64 base /\ Z.land base 0x3ff = 0 /\ Z.land mask 0x3ff = 0x3ff /\
    (forall b t, same_page b a -> is_access t ->
       f b t u = Done (match flt t with Some x => x | None => x_ok (Z.lor base (Z.land b mask)) prot size end)) /\
    (forall t x, flt t = Some x -> x_ret x <> 0) /\
    (forall t t', is_access t -> is_access t' -> flt t = None ->
       (flt t' = None <-> tst prot (access_bit t') = true)).

(** The three kinds of access, and closed equivalences of tests. *)
Ltac access_cases t :=
  let H := fresh in
  assert (H : t = 0 \/ t = 1 \/ t = 2) by (unfold is_access in *; lia); destruct H as [->|[->| ->]].
Ltac iff_compute :=
  let N := fresh in let H := fresh in
  intros N; first [discriminate N | split; intros H; first [reflexivity | discriminate H]].

Section Described.
Context {PH : PhysMem} {NV : Nvic} {ME : MmuEnv} {ML : MmuEnvLaws}.

Lemma described_ext f g a :
  (forall b t u, same_page b a -> is_access t -> f b t u = g b t u) -> described g a -> described f a.
Proof.
  intros He Hg u. destruct (Hg u) as (base & mask & prot & size & flt & H0 & H1 & H2 & H3 & H4).
  exists base, mask, prot, size, flt. repeat (split; [assumption|]). split; [|exact H4].
  intros b t Hp Ht. rewrite He by assumption. apply H3; assumption.
Qed.

(** A page that faults for every access. *)
Lemma described_fault x a : x_ret x <> 0 -> described (fun _ _ _ => Done x) a.
Proof.
  intros Hx u. exists 0, 0x3ff, 0, 0, (fun _ => Some x).
  split; [unfold is_u64; lia|]. split; [reflexivity|]. split; [reflexivity|]. split; [reflexivity|]. split; [intros t y [= <-]; exact Hx|]. intros t t' _ _ [=].
Qed.

(** [check_ap] decides by one set of protection bits: it returns them, except
    to a write that they do not allow. *)
Lemma check_ap_view s ap dp u : 0 <= ap <= 7 ->
  exists p, (p = 0 \/ p = 1 \/ p = 3) /\
    forall t, check_ap s ap dp t u = Done (if (t =? 1) && (p =? 1) then 0 else p).
Proof.
  intros Hap. destruct page_bits as (Hr & Hw & _). unfold check_ap. rewrite Hr, Hw.
  assert (Hc : ap = 0 \/ ap = 1 \/ ap = 2 \/ ap = 3 \/ ap = 4 \/ ap = 5 \/ ap = 6 \/ ap = 7) by lia.
  destruct (dp =? 3); [exists 3; split; [lia|]; intros t; destruct (t =? 1); reflexivity|].
  decompose [or] Hc; subst ap.
  1: destruct (land3_cases (Z.shiftr (cp15 s c1_sys) 8)) as [E|[E|[E|E]]]; rewrite E.
  all: try destruct (arm_feature (cpu s) ARM_FEATURE_V6K); destruct u; cbn.
  all: first
    [ exists 0; split; [lia|]; intros t; destruct (t =? 1); reflexivity
    | exists 1; split; [lia|]; intros t; destruct (t =? 1); reflexivity
    | exists 3; split; [lia|]; intros t; destruct (t =? 1); reflexivity ].
Qed.

Lemma lor_code code d : code <> 0 -> Z.lor code d <> 0.
Proof. intros H E. apply Z.lor_eq_0_iff in E as [E _]. contradiction. Qed.

Lemma described_v5_check s a domain dp code base mask ap size :
  is_u64 base -> Z.land base 0x3ff = 0 -> Z.land mask 0x3ff = 0x3ff -> 0 <= ap <= 7 -> code <> 0 ->
  described (fun b t u => v5_check s t u domain dp code (Z.lor base (Z.land b mask)) ap size) a.
Proof.
  intros H64 Hb Hm Ha Hc u. destruct (check_ap_view s ap dp u Ha) as (p & Hp & E).
  destruct page_bits as (Hr & Hw & Hx).
  exists base, mask, (Z.lor p 4), size, (fun t =>
    if (if (t =? 1) && (p =? 1) then 0 else p) =? 0
    then Some (x_fault (Z.lor code (Z.shiftl domain 4)) (Some 0) (Some size)) else None).
  split; [exact H64|]. split; [exact Hb|]. split; [exact Hm|]. split; [|split].
  - intros b t _ _. unfold v5_check. rewrite E, Hx.
    destruct Hp as [->|[->| ->]]; destruct (t =? 1); reflexivity.
  - intros t x. destruct (_ =? 0); intros [= <-]. apply lor_code, Hc.
  - unfold access_bit. rewrite Hr, Hw, Hx. intros t t' Ht Ht'.
    access_cases t; access_cases t'; destruct Hp as [->|[->| ->]]; iff_compute.
Qed.

Lemma described_v6_check s a domain dp code base mask ap xn pxn size :
  is_u64 base -> Z.land base 0x3ff = 0 -> Z.land mask 0x3ff = 0x3ff -> 0 <= ap <= 7 -> code <> 0 ->
  described (fun b t u => v6_check s t u domain dp code (Z.lor base (Z.land b mask)) ap xn pxn size) a.
Proof.
  intros H64 Hb Hm Ha Hc u. destruct (check_ap_view s ap dp u Ha) as (p & Hp & E).
  destruct page_bits as (Hr & Hw & Hx). unfold v6_check.
  destruct (dp =? 3) eqn:Hdp.
  { exists base, mask, 7, size, (fun _ => None). rewrite Hr, Hw, Hx.
    split; [exact H64|]. split; [exact Hb|]. split; [exact Hm|]. split; [reflexivity|]. split; [discriminate|].
    unfold access_bit. rewrite Hr, Hw, Hx. intros t t' Ht Ht'. access_cases t'; iff_compute. }
  set (x := if pxn && negb u then true else xn).
  set (af := tst _ _ && _).
  exists base, mask, (if x then p else Z.lor p 4), size, (fun t =>
    if x && (t =? 2) then Some (x_fault (Z.lor code (Z.shiftl domain 4)) None (Some size))
    else if af then Some (x_fault (Z.lor (if code =? 15 then 6 else 3) (Z.shiftl domain 4)) None (Some size))
    else if (if (t =? 1) && (p =? 1) then 0 else p) =? 0
    then Some (x_fault (Z.lor code (Z.shiftl domain 4)) (Some 0) (Some size)) else None).
  split; [exact H64|]. split; [exact Hb|]. split; [exact Hm|]. split; [|split].
  - intros b t _ _. rewrite E, Hx. destruct (x && (t =? 2)); [reflexivity|]. destruct af; [reflexivity|].
    destruct Hp as [->|[->| ->]]; destruct (t =? 1); reflexivity.
  - intros t y. destruct (x && _); [intros [= <-]; apply lor_code, Hc|].
    destruct af; [intros [= <-]; destruct (code =? 15); apply lor_code; lia|].
    destruct (_ =? 0); intros [= <-]. apply lor_code, Hc.
  - unfold access_bit. rewrite Hr, Hw, Hx. intros t t' Ht Ht'.
    access_cases t; access_cases t'; destruct Hp as [->|[->| ->]]; destruct x, af; iff_compute.
Qed.

Lemma described_lpae_check a level base mask attrs size :
  is_u64 base -> Z.land base 0x3ff = 0 -> Z.land mask 0x3ff = 0x3ff ->
  described (fun b t u => Done (lpae_check t u level (Z.lor base (Z.land b mask)) attrs size)) a.
Proof.
  intros H64 Hb Hm u. destruct page_bits as (Hr & Hw & Hx). unfold lpae_check. rewrite Hr, Hw, Hx.
  destruct (Z.land attrs _ =? 0) eqn:Haf.
  { exists 0, 0x3ff, 0, 0, (fun _ => Some (lpae_fault access_fault level None)).
    split; [unfold is_u64; lia|]. split; [reflexivity|]. split; [reflexivity|]. split; [reflexivity|].
    split; [intros t y [= <-]; apply lor_code; discriminate|discriminate]. }
  destruct (u && _) eqn:Hpl.
  { exists 0, 0x3ff, 0, 0, (fun _ => Some (lpae_fault permission_fault level None)).
    split; [unfold is_u64; lia|]. split; [reflexivity|]. split; [reflexivity|]. split; [reflexivity|].
    split; [intros t y [= <-]; apply lor_code; discriminate|discriminate]. }
  set (x := tst attrs (Z.shiftl 1 12) || _). set (ro := tst attrs (Z.shiftl 1 5)).
  exists base, mask, (if x then if ro then 1 else 3 else if ro then 5 else 7), size, (fun t =>
    if x && (t =? 2) then Some (lpae_fault permission_fault level (Some 7))
    else if ro && (t =? 1) then Some (lpae_fault permission_fault level (Some (if x then 3 else 7))) else None).
  split; [exact H64|]. split; [exact Hb|]. split; [exact Hm|]. split; [|split].
  - intros b t _ _. destruct x, ro, (t =? 2), (t =? 1); reflexivity.
  - intros t y. destruct (x && _); [intros [= <-]; apply lor_code; discriminate|].
    destruct (ro && _); intros [= <-]. apply lor_code; discriminate.
  - unfold access_bit. rewrite Hr, Hw, Hx. intros t t' Ht Ht'.
    access_cases t; access_cases t'; destruct x, ro; iff_compute.
Qed.

(** *** The walks *)

(** Table look-ups use only the page of the address where [c2_mask], which
    selects the base register, does. *)
Definition ttbcr_ok (s : sys_st) : Prop := Z.land (cp15 s c2_mask) 0x3ff = 0.

Lemma level1_page s a b : ttbcr_ok s -> same_page b a ->
  get_level1_table_address s b = get_level1_table_address s a.
Proof.
  intros Hm H. unfold get_level1_table_address, tst.
  rewrite (page_land b a _ H Hm), (page_field b a 18 0x3ffc H) by (lia || reflexivity). reflexivity.
Qed.

Lemma ap_range3 d : 0 <= Z.land d 3 <= 7.
Proof. destruct (land3_cases d) as [E|[E|[E|E]]]; rewrite E; lia. Qed.

Lemma ap_range7 d e : 0 <= Z.lor (Z.land d 3) (Z.land e 4) <= 7.
Proof.
  assert (H : Z.land e 4 = 0 \/ Z.land e 4 = 4).
  { destruct (Z.testbit e 2) eqn:Eb; [right|left]; apply Z.bits_inj'; intros n Hn; rewrite Z.land_spec;
      destruct (decide (n = 2)) as [->|Hne]; rewrite ?Eb; try reflexivity;
      change 4 with (2 ^ 2); rewrite Z.pow2_bits_false, andb_false_r, ?Z.bits_0 by lia; reflexivity. }
  destruct (land3_cases d) as [E|[E|[E|E]]], H as [H|H]; rewrite E, H; cbv; split; discriminate.
Qed.

Lemma land_base d m : Z.land m 0x3ff = 0 -> Z.land (Z.land d m) 0x3ff = 0.
Proof. intros H. rewrite <- Z.land_assoc, H. apply Z.land_0_r. Qed.

(** Splits a described walk on the conditions of its descriptors. *)
Ltac split_walk :=
  repeat match goal with
  | |- described (fun b t u => if ?c then _ else _) _ => let E := fresh "E" in destruct c eqn:E
  | |- described (fun b t u => match Z.land ?d 3 with _ => _ end) _ =>
      let E := fresh "E" in destruct (land3_cases d) as [E|[E|[E|E]]]; rewrite E; cbn iota
  end.
Ltac leaf :=
  first
  [ apply described_fault; apply lor_code; repeat case_match; discriminate
  | apply described_v5_check | apply described_v6_check ];
  first [apply land_base; reflexivity | apply u64_land; lia | reflexivity | apply ap_range3 | apply ap_range7 | discriminate].

Lemma v5_described s a : ttbcr_ok s -> described (get_phys_addr_v5 s) a.
Proof.
  intros Hm. eapply described_ext.
  { intros b t u H _. unfold get_phys_addr_v5. cbv zeta.
    rewrite (level1_page s a b Hm H), (page_field b a 10 0x3fc H), (page_field b a 8 0xffc H),
      (page_field b a 13 6 H) by (lia || reflexivity). reflexivity. }
  cbv beta. split_walk; leaf.
Qed.

Lemma v6_described s a : ttbcr_ok s -> described (get_phys_addr_v6 s) a.
Proof.
  intros Hm. eapply described_ext.
  { intros b t u H _. unfold get_phys_addr_v6. cbv zeta.
    rewrite (level1_page s a b Hm H), (page_field b a 10 0x3fc H) by (lia || reflexivity). reflexivity. }
  cbv beta. split_walk; leaf.
Qed.

(** The descriptor loop ends after at most the levels that are left, at an
    invalid entry or at a leaf whose base is page-aligned. *)
Lemma lpae_loop_view m a : forall fuel level d ta, 1 <= level <= 3 -> 4 - level <= Z.of_nat fuel ->
  exists level' leaf,
    (forall base attrs size, leaf = Some (base, attrs, size) ->
       is_u64 base /\ Z.land base 0x3ff = 0 /\ Z.land (size - 1) 0x3ff = 0x3ff) /\
    forall c, same_page c a ->
      lpae_loop fuel m c level d ta =
      Some {| lf_level := level';
              lf_found := match leaf with
                          | Some (base, attrs, size) => Some (Z.lor base (Z.land c (size - 1)), attrs, size)
                          | None => None
                          end |}.
Proof.
  induction fuel as [|fuel IH]; intros level d ta Hl Hf; [lia|].
  assert (Hk : forall c, same_page c a -> Z.land (Z.shiftr c (9 * (4 - level))) 0xff8
                                        = Z.land (Z.shiftr a (9 * (4 - level))) 0xff8).
  { intros c Hc. apply page_field; [exact Hc|lia|].
    assert (Hv : level = 1 \/ level = 2 \/ level = 3) by lia. destruct Hv as [->|[->| ->]]; reflexivity. }
  cbn [lpae_loop]. set (desc := ldq_phys m (Z.lor d (Z.land (Z.shiftr a (9 * (4 - level))) 0xff8))).
  destruct (negb (tst desc 1) || (negb (tst desc 2) && (level =? 3))) eqn:E1.
  { exists level, None. split; [discriminate|]. intros c Hc. rewrite (Hk c Hc). fold desc. rewrite E1. reflexivity. }
  destruct (tst desc 2 && (level <? 3)) eqn:E2.
  - apply andb_true_iff in E2 as E3. destruct E3 as [_ E3]. apply Z.ltb_lt in E3.
    destruct (IH (level + 1) (Z.land desc 0xfffffff000) (u32 (Z.lor ta (extract64 desc 59 5))))
      as (level' & leaf & Hleaf & Hrun); [lia|lia|].
    exists level', leaf. split; [exact Hleaf|]. intros c Hc. rewrite (Hk c Hc). fold desc. rewrite E1, E2.
    apply Hrun, Hc.
  - exists level, (Some (Z.land desc 0xfffffff000, lpae_attrs desc ta, Z.shiftl 1 (39 - 9 * level))). split.
    + intros base attrs size [= <- <- <-]. split; [apply u64_land; lia|]. split; [apply land_base; reflexivity|].
      assert (Hv : level = 1 \/ level = 2 \/ level = 3) by lia. destruct Hv as [->|[->| ->]]; reflexivity.
    + intros c Hc. rewrite (Hk c Hc). fold desc. rewrite E1, E2. reflexivity.
Qed.

Lemma extract32_3 v start : is_u32 v -> 0 <= start <= 29 -> 0 <= extract32 v start 3 <= 7.
Proof.
  intros Hv Hs. rewrite extract32_spec by (assumption || lia).
  pose proof (land_mask_range (Z.shiftr v start) 3 ltac:(lia)). lia.
Qed.

Lemma page_u32 a b : same_page b a -> is_u32 a -> is_u32 b.
Proof. rewrite same_page_div. unfold is_u32. intros H Ha. Z.div_mod_to_equations. lia. Qed.

Lemma page_not a b : same_page b a -> is_u32 a -> same_page (u32 (Z.lnot b)) (u32 (Z.lnot a)).
Proof.
  intros H Ha. pose proof (page_u32 a b H Ha) as Hb. rewrite same_page_div in *. unfold is_u32, u32, Z.lnot in *.
  replace (Z.pred (- b)) with ((2 ^ 32 - 1 - b) + (-1) * 2 ^ 32) by lia.
  replace (Z.pred (- a)) with ((2 ^ 32 - 1 - a) + (-1) * 2 ^ 32) by lia.
  rewrite !Z.mod_add, !Z.mod_small by lia. Z.div_mod_to_equations. lia.
Qed.

(** The regions are larger than a page. *)
Lemma region_field a b tsz : same_page b a -> is_u32 a -> 0 < tsz <= 7 ->
  extract32 b (32 - tsz) tsz = extract32 a (32 - tsz) tsz.
Proof.
  intros H Ha Ht. rewrite !extract32_spec by (assumption || apply (page_u32 a b H Ha) || lia).
  rewrite (page_shift b a _ H) by lia. reflexivity.
Qed.

Lemma region_page a b t0 t1 : same_page b a -> is_u32 a -> 0 <= t0 <= 7 -> 0 <= t1 <= 7 ->
  lpae_region b t0 t1 = lpae_region a t0 t1.
Proof.
  intros H Ha H0 H1. unfold lpae_region.
  destruct (Z.eqb_spec t0 0) as [->|N0], (Z.eqb_spec t1 0) as [->|N1]; cbn [negb andb];
    rewrite ?(region_field a b t0 H Ha), ?(region_field _ _ t1 (page_not a b H Ha) (u32_range _)) by lia;
    reflexivity.
Qed.

(** The masked address: the loop sees the page of the region. *)
Lemma tsz_mask tsz size : 0 <= tsz <= 7 -> Z.land size 0x3ff = 0x3ff ->
  Z.land (Z.land (Z.shiftr 0xffffffff tsz) size) 0x3ff = 0x3ff.
Proof.
  intros Ht Hs. rewrite <- Z.land_assoc, Hs.
  assert (Hv : tsz = 0 \/ tsz = 1 \/ tsz = 2 \/ tsz = 3 \/ tsz = 4 \/ tsz = 5 \/ tsz = 6 \/ tsz = 7) by lia.
  decompose [or] Hv; subst; reflexivity.
Qed.

Lemma land_page a b m : same_page b a -> same_page (Z.land b m) (Z.land a m).
Proof. intros H. apply (phys_page 0 m b a H). Qed.

Lemma lpae_described s a : is_u32 (cp15 s c2_control) -> is_u32 a -> described (get_phys_addr_lpae s) a.
Proof.
  intros Hc Ha. pose proof (extract32_3 _ 0 Hc ltac:(lia)) as H0. pose proof (extract32_3 _ 16 Hc ltac:(lia)) as H1.
  eapply described_ext.
  { intros b t u H _. unfold get_phys_addr_lpae. cbv zeta. rewrite (region_page a b _ _ H Ha H0 H1). reflexivity. }
  cbv beta. destruct (lpae_region a _ _) as [sel|]; [|apply described_fault, lor_code; discriminate].
  match goal with |- context [1 <? ?x] => set (tsz := x) end. assert (Ht : 0 <= tsz <= 7) by (subst tsz; destruct sel; assumption).
  clearbody tsz. destruct (negb _); [apply described_fault, lor_code; discriminate|].
  match goal with |- context [lpae_loop 3 ?m _ ?l ?d ?ta] =>
    destruct (lpae_loop_view m (Z.land a (Z.shiftr 0xffffffff tsz)) 3 l d ta) as (level' & leaf & Hleaf & Hrun);
      [destruct (1 <? tsz); lia|destruct (1 <? tsz); lia|] end.
  eapply described_ext.
  { intros b t u H _. rewrite Hrun by (apply land_page, H). reflexivity. }
  cbv beta. destruct leaf as [[[base attrs] size]|]; [|apply described_fault, lor_code; discriminate].
  destruct (Hleaf base attrs size eq_refl) as (H64 & Hb & Hm).
  eapply described_ext; [intros b t u _ _; rewrite <- Z.land_assoc; reflexivity|].
  apply described_lpae_check; [exact H64|exact Hb|apply tsz_mask; assumption].
Qed.

(** *** The whole translation *)

(** What the control registers have to satisfy: [c2_control] is a 32-bit
    value, and neither [c2_mask] nor the process identifier reaches into the
    page offset. *)
Definition mmu_ok (s : sys_st) : Prop :=
  is_u32 (cp15 s c2_control) /\ ttbcr_ok s /\ Z.land (cp15 s c13_fcse) 0x3ff = 0.

(** The protection unit is in use. *)
Definition uses_mpu (s : sys_st) : bool :=
  negb (Z.land (cp15 s c1_sys) 1 =? 0) && arm_feature (cpu s) ARM_FEATURE_MPU.

Lemma land_3ff z : Z.land z 0x3ff = z mod 1024.
Proof. change 0x3ff with (Z.ones 10). rewrite Z.land_ones by lia. reflexivity. Qed.

Lemma fcse_page s a b : mmu_ok s -> is_u32 a -> same_page b a ->
  same_page (fcse_address s b) (fcse_address s a) /\ Z.land (fcse_address s b) 0x3ff = Z.land b 0x3ff /\
  is_u32 (fcse_address s a).
Proof.
  intros (_ & _ & Hf) Ha H. pose proof (page_u32 a b H Ha) as Hb. rewrite same_page_div in *. rewrite !land_3ff in *.
  unfold fcse_address. unfold is_u32 in Ha, Hb.
  assert (Hlt : (b <? 0x02000000) = (a <? 0x02000000)).
  { destruct (Z.ltb_spec b 0x02000000), (Z.ltb_spec a 0x02000000); try reflexivity; Z.div_mod_to_equations; lia. }
  rewrite Hlt. destruct (a <? 0x02000000); [|repeat split; unfold is_u32; lia].
  split; [|split; [|apply u32_range]]; unfold u32; Z.div_mod_to_equations; lia.
Qed.

Lemma described_fcse s f a : mmu_ok s -> is_u32 a ->
  described f (fcse_address s a) -> described (fun b t u => f (fcse_address s b) t u) a.
Proof.
  intros Hs Ha Hd u. destruct (Hd u) as (base & mask & prot & size & flt & H0 & H1 & H2 & H3 & H4 & H5).
  set (pa := Z.lor base (Z.land (fcse_address s a) mask)).
  exists (Z.ldiff pa 0x3ff), 0x3ff, prot, size, flt.
  split. { rewrite Z.ldiff_land. apply (land_below pa _ 64); [lia|]. apply u64_phys; [exact H0|]. apply (fcse_page s a a Hs Ha eq_refl). }
  split. { rewrite Z.ldiff_land, <- Z.land_assoc. apply Z.land_0_r. }
  split; [reflexivity|]. split; [|split; assumption]. intros b t Hb Ht.
  destruct (fcse_page s a b Hs Ha Hb) as (Hp & Ho & _).
  rewrite (H3 _ t Hp Ht). destruct (flt t); [reflexivity|]. do 2 f_equal. apply page_split.
  - transitivity (Z.shiftr pa 10); [apply (phys_page base mask _ _ Hp)|].
    rewrite Z.shiftr_lor, Z.shiftr_ldiff, Z.shiftr_land. change (Z.shiftr 0x3ff 10) with 0.
    rewrite Z.land_0_r, Z.lor_0_r, Z.ldiff_0_r. reflexivity.
  - rewrite (phys_offset _ _ _ H1 H2), Ho. rewrite Z.land_lor_distr_l, Z.ldiff_land, <- !Z.land_assoc.
    rewrite (Z.land_comm (Z.lnot _)), Z.land_lnot_diag, Z.land_0_r, Z.lor_0_l, Z.land_diag. reflexivity.
Qed.

Lemma translation_described s a : mmu_ok s -> uses_mpu s = false -> is_u32 a -> described (get_phys_addr s) a.
Proof.
  intros Hs Hmpu Ha. destruct (fcse_page s a a Hs Ha eq_refl) as (_ & _ & Ha').
  apply (described_fcse s (translate_mva s) a Hs Ha). unfold translate_mva. unfold uses_mpu in Hmpu.
  destruct (Z.land (cp15 s c1_sys) 1 =? 0).
  - intros u. destruct page_bits as (Hr & Hw & Hx). unfold access_bit. rewrite Hr, Hw, Hx.
    exists 0, (-1), 7, TARGET_PAGE_SIZE, (fun _ => None).
    split; [unfold is_u64; lia|]. split; [reflexivity|]. split; [reflexivity|].
    split; [intros b t _ _; rewrite Z.lor_0_l, Z.land_m1_r; reflexivity|]. split; [discriminate|].
    intros t t' Ht Ht'. access_cases t'; iff_compute.
  - cbn [negb andb] in Hmpu. rewrite Hmpu.
    destruct (extended_addresses_enabled s); [apply lpae_described; [apply Hs|exact Ha']|].
    destruct (tst _ _); [apply v6_described, Hs|apply v5_described, Hs].
Qed.
End Described.

(** ** Theorems *)
Section Theorems.
Context {PH : PhysMem} {NV : Nvic} {ME : MmuEnv} {ML : MmuEnvLaws} {TL : Tlb} {TLL : TlbLaws}.
Implicit Types (s : sys_st) (tb : tlb).

(** A described page, at one address. *)
Lemma described_at f a t u : described f a -> is_u32 a -> is_access t ->
  exists r, f a t u = Done r /\
    (x_ret r = 0 -> exists p prot size, r = x_ok p prot size /\ is_u64 p /\ Z.land p 0x3ff = Z.land a 0x3ff /\
       forall t' b, is_access t' -> same_page b a ->
         if tst prot (access_bit t')
         then f b t' u = Done (x_ok (Z.lor (Z.ldiff p 0x3ff) (Z.land b 0x3ff)) prot size)
         else exists x, f b t' u = Done x /\ x_ret x <> 0).
Proof.
  intros Hd Ha Ht. destruct (Hd u) as (base & mask & prot & size & flt & H0 & H1 & H2 & H3 & H4 & H5).
  eexists. split; [apply (H3 a t eq_refl Ht)|]. destruct (flt t) eqn:Ef.
  { intros E. exfalso. exact (H4 t _ Ef E). }
  intros _. eexists _, prot, size. split; [reflexivity|]. split; [apply u64_phys; assumption|]. split; [apply phys_offset; assumption|].
  intros t' b Ht' Hb. specialize (H5 t t' Ht Ht' Ef). rewrite (H3 b t' Hb Ht').
  destruct (tst prot (access_bit t')); [|destruct (flt t') eqn:Ef'].
  - rewrite (proj2 H5 eq_refl). do 2 f_equal. apply page_split.
    + transitivity (Z.shiftr (Z.lor base (Z.land a mask)) 10); [apply (phys_page base mask _ _ Hb)|].
      rewrite (Z.shiftr_lor (Z.ldiff _ _)), Z.shiftr_ldiff, (Z.shiftr_land b). change (Z.shiftr 0x3ff 10) with 0.
      rewrite Z.land_0_r, Z.lor_0_r, Z.ldiff_0_r. reflexivity.
    + rewrite (phys_offset _ _ _ H1 H2). rewrite (Z.land_lor_distr_l (Z.ldiff _ _)), Z.ldiff_land, <- !Z.land_assoc.
      rewrite (Z.land_comm (Z.lnot _)), Z.land_lnot_diag, Z.land_0_r, Z.lor_0_l, Z.land_diag. reflexivity.
  - eexists. split; [reflexivity|]. exact (H4 t' _ Ef').
  - discriminate (proj1 H5 eq_refl).
Qed.

(** The protection unit always answers, and writes the protection bits where
    it succeeds. *)
Lemma mpu_written s a t u : x_ret (get_phys_addr_mpu s a t u) = 0 -> is_Some (x_prot (get_phys_addr_mpu s a t u)).
Proof. unfold get_phys_addr_mpu. repeat case_match; cbn; intros E; first [discriminate E | eexists; reflexivity]. Qed.

Lemma mpu_phys s a t u : x_phys (get_phys_addr_mpu s a t u) = Some a.
Proof. unfold get_phys_addr_mpu. repeat case_match; reflexivity. Qed.

Lemma translation_total s a t u : mmu_ok s -> is_u32 a -> is_access t ->
  exists r, get_phys_addr s a t u = Done r /\
    (x_ret r = 0 -> exists p q z, x_phys r = Some p /\ x_prot r = Some q /\ x_size r = Some z).
Proof.
  intros Hs Ha Ht. destruct (uses_mpu s) eqn:Hm.
  - unfold uses_mpu in Hm. apply andb_true_iff in Hm as [H1 H2]. apply negb_true_iff in H1.
    unfold get_phys_addr, translate_mva. rewrite H1, H2. eexists. split; [reflexivity|]. cbn. intros E.
    destruct (mpu_written _ _ _ _ E) as [q Hq]. rewrite Hq, mpu_phys. eauto 6.
  - destruct (described_at _ _ t u (translation_described s a Hs Hm Ha) Ha Ht) as (r & Hr & Hok).
    exists r. split; [exact Hr|]. intros E. destruct (Hok E) as (p & q & z & -> & _). cbn. eauto 6.
Qed.

(** A walk that succeeds allows the access it was made for. *)
Lemma walk_allows s a t u r : mmu_ok s -> uses_mpu s = false -> is_u32 a -> is_access t ->
  get_phys_addr s a t u = Done r -> x_ret r = 0 -> exists p q z, r = x_ok p q z /\ tst q (access_bit t) = true.
Proof.
  intros Hs Hm Ha Ht Hr E. destruct (described_at _ _ t u (translation_described s a Hs Hm Ha) Ha Ht) as (r' & Hr' & Hok).
  rewrite Hr in Hr'. injection Hr' as <-. destruct (Hok E) as (p & q & z & -> & _ & _ & Hall). exists p, q, z. split; [reflexivity|].
  specialize (Hall t a Ht eq_refl). destruct (tst q _); [reflexivity|]. destruct Hall as (f & Hf & Hn). rewrite Hr in Hf. injection Hf as <-. destruct (Hn E).
Qed.

(** C9. The protection bits of a translation are exact: where a walk of the
    page tables succeeds, the page offset is kept, and for each kind of access
    the bits allow, the walk for that access succeeds with the same result,
    while for each one they do not allow it faults.  In particular the access
    that was asked for is allowed. *)
Theorem walk_prot_exact s a t u r :
  mmu_ok s -> uses_mpu s = false -> is_u32 a -> is_access t ->
  get_phys_addr s a t u = Done r -> x_ret r = 0 ->
  exists p prot size, r = x_ok p prot size /\ Z.land p 0x3ff = Z.land a 0x3ff /\ tst prot (access_bit t) = true /\
    forall t', is_access t' ->
      if tst prot (access_bit t') then get_phys_addr s a t' u = Done r
      else exists f, get_phys_addr s a t' u = Done f /\ x_ret f <> 0.
Proof.
  intros Hs Hm Ha Ht Hr E.
  destruct (described_at _ _ t u (translation_described s a Hs Hm Ha) Ha Ht) as (r' & Hr' & Hok).
  rewrite Hr in Hr'. injection Hr' as <-. destruct (Hok E) as (p & prot & size & -> & Hp64 & Ho & Hall).
  assert (Hp : Z.lor (Z.ldiff p 0x3ff) (Z.land a 0x3ff) = p).
  { rewrite <- Ho. apply Z.bits_inj'. intros n Hn. rewrite Z.lor_spec, Z.ldiff_spec, Z.land_spec.
    destruct (Z.testbit p n), (Z.testbit 0x3ff n); reflexivity. }
  exists p, prot, size. split; [reflexivity|]. split; [exact Ho|]. split.
  - specialize (Hall t a Ht eq_refl). destruct (tst prot _); [reflexivity|].
    destruct Hall as (x & Hx & Nx). rewrite Hr in Hx. injection Hx as <-. contradiction.
  - intros t' Ht'. specialize (Hall t' a Ht' eq_refl). rewrite Hp in Hall. exact Hall.
Qed.

(** ** The TLB

    Every entry is what a walk of the page tables gives, for each access the
    entry allows. *)
Definition tlb_ok s tb : Prop := forall a i p q t,
  is_u32 a -> is_access t -> tlb_lookup tb a i = Some (p, q) -> tst q (access_bit t) = true ->
  exists size, get_phys_addr s a t (i =? MMU_USER_IDX) = Done (x_ok p q size).

(** The inputs of a page-table walk. *)
Definition mmu_regs : list cp15_reg :=
  [c1_sys; c2_base0; c2_base0_hi; c2_base1; c2_base1_hi; c2_control; c2_mask; c2_base_mask; c3; c13_fcse].

Definition same_tables s s' : Prop :=
  memory s' = memory s /\ features (cpu s') = features (cpu s) /\ Forall (fun r => cp15 s' r = cp15 s r) mmu_regs.

Lemma same_tables_walk s s' b t u : same_tables s s' -> uses_mpu s = false ->
  get_phys_addr s' b t u = get_phys_addr s b t u.
Proof.
  intros (Hm & Hf & Hr) Hmpu. unfold mmu_regs in Hr.
  repeat match goal with H : Forall _ (_ :: _) |- _ => apply Forall_cons in H as [? H] end.
  unfold uses_mpu in Hmpu.
  unfold get_phys_addr, translate_mva, fcse_address, extended_addresses_enabled, get_phys_addr_lpae,
    get_phys_addr_v6, get_phys_addr_v5, get_level1_table_address, v6_check, v5_check, check_ap, arm_feature in *.
  repeat match goal with H : cp15 s' _ = cp15 s _ |- _ => rewrite H; clear H end. rewrite Hm, Hf.
  destruct (Z.land (cp15 s c1_sys) 1 =? 0); [reflexivity|]. cbn [negb andb] in Hmpu. rewrite Hmpu. reflexivity.
Qed.

Lemma fault_regs_tables s a t r : same_tables s (mmu_fault_regs a t r s).
Proof. unfold mmu_fault_regs. destruct (t =? 2); (split; [reflexivity|split; [reflexivity|]]); repeat constructor. Qed.

Lemma tlb_ok_tables s s' tb : same_tables s s' -> uses_mpu s = false -> tlb_ok s tb -> tlb_ok s' tb.
Proof.
  intros Hs Hm Ht a i p q t Ha Hat Hl Hq. rewrite (same_tables_walk s s' _ _ _ Hs Hm). exact (Ht a i p q t Ha Hat Hl Hq).
Qed.

Lemma page_align a : same_page a (Z.ldiff a 0x3ff).
Proof. unfold same_page. rewrite Z.shiftr_ldiff. change (Z.shiftr 0x3ff 10) with 0. rewrite Z.ldiff_0_r. reflexivity. Qed.

(** Masking with the complement of the offset, in 32 or 64 bits. *)
Lemma align_mask a w : 0 <= w -> 0 <= a < 2 ^ w -> Z.land a ((Z.lnot 0x3ff) mod 2 ^ w) = Z.ldiff a 0x3ff.
Proof.
  intros Hw Ha. rewrite Z.ldiff_land. apply Z.bits_inj'. intros n Hn. rewrite !Z.land_spec.
  destruct (Z.lt_ge_cases n w); [rewrite Z.mod_pow2_bits_low by lia; reflexivity|].
  rewrite (testbit_above a w n) by lia. reflexivity.
Qed.

(** C12. Filling the TLB keeps it right and lets the access proceed: after
    [cpu_arm_handle_mmu_fault] on a system with page tables, every TLB entry
    still is what a walk gives for each access it allows; when the function
    returns 0 the address hits an entry that allows the access, so the
    retried access does not miss again; otherwise the TLB is unchanged, the
    abort exception of the access is selected and the fault address
    recorded. *)
Theorem tlb_refill s tb a t idx v s' tb' :
  mmu_ok s -> uses_mpu s = false -> is_u32 a -> is_access t -> tlb_ok s tb ->
  cpu_arm_handle_mmu_fault a t idx (s, tb) = Done (v, (s', tb')) ->
  tlb_ok s' tb' /\
  (v = 0 -> s' = s /\ exists p q, tlb_lookup tb' a idx = Some (p, q) /\ tst q (access_bit t) = true) /\
  (v <> 0 -> tb' = tb /\ exception_index (cpu s') = (if t =? 2 then EXCP_PREFETCH_ABORT else EXCP_DATA_ABORT) /\
             cp15 s' (if t =? 2 then c6_insn else c6_data) = a).
Proof.
  intros Hs Hm Ha Ht Htb Hrun. unfold cpu_arm_handle_mmu_fault in Hrun.
  destruct (described_at _ _ t (idx =? MMU_USER_IDX) (translation_described s a Hs Hm Ha) Ha Ht) as (r & Hr & Hok).
  rewrite Hr in Hrun. destruct (Z.eqb_spec (x_ret r) 0) as [E|E].
  - destruct (Hok E) as (p & prot & size & -> & Hp64 & Ho & Hall). cbn [x_phys x_prot x_size x_ok] in Hrun.
    apply Done_inj in Hrun as [<- Hst]. injection Hst as <- <-.
    unfold u32, u64. rewrite (align_mask p 64), (align_mask a 32) by (lia || assumption).
    split; [|split; [intros _; split; [reflexivity|]|congruence]].
    + intros b i p' q t' Hb Ht' Hl Hq. apply tlb_set_lookup in Hl as [(Hpage & -> & -> & ->)|Hl].
      * exists size. specialize (Hall t' b Ht' (eq_trans Hpage (eq_sym (page_align a)))).
        rewrite Hq in Hall. exact Hall.
      * exact (Htb b i p' q t' Hb Ht' Hl Hq).
    + eexists _, prot. split; [apply tlb_set_hit, page_align|].
      specialize (Hall t a Ht eq_refl). destruct (tst prot _); [reflexivity|].
      destruct Hall as (x & Hx & Nx). rewrite Hr in Hx. injection Hx as <-. contradiction.
  - apply Done_inj in Hrun as [<- Hst]. injection Hst as <- <-. split; [|split; [discriminate|intros _]].
    + apply (tlb_ok_tables s); [apply fault_regs_tables|exact Hm|exact Htb].
    + unfold mmu_fault_regs. destruct (t =? 2); cbn; rewrite cp15_set_eq; auto.
Qed.
(** C16. Address translation always ends, and with the page in the TLB: with
    every page table, descriptor and access, on MMU and MPU systems,
    [cpu_arm_handle_mmu_fault] returns 0 or 1; neither [abort()] is reached,
    the long-descriptor loop stops within its three levels, and no output that
    was never written is read.  [tlb_fill] returns exactly when the
    translation succeeds; then the address hits the TLB entry of the
    translated page, with its protection bits, and nothing else of the system
    has changed, and on a system with page tables these bits allow the access.
    Otherwise it leaves the translated code with the prefetch or data abort
    selected and the TLB unchanged. *)
Theorem handle_mmu_fault_total s tb a t idx : mmu_ok s -> is_u32 a -> is_access t ->
  exists v s' tb' r, cpu_arm_handle_mmu_fault a t idx (s, tb) = Done (v, (s', tb')) /\
    get_phys_addr s a t (idx =? MMU_USER_IDX) = Done r /\ v = (if x_ret r =? 0 then 0 else 1) /\
    (v = 0 -> s' = s /\ exists p q z, r = x_ok p q z /\ tlb_lookup tb' a idx = Some (Z.lor (Z.land p (u64 (Z.lnot 0x3ff))) (Z.land a 0x3ff), q) /\
      (uses_mpu s = false -> tst q (access_bit t) = true)) /\
    (v = 1 -> tb' = tb) /\
    forall restore retaddr, (forall r c, exception_index (restore r c) = exception_index c) ->
    exists x st', tlb_fill restore a t idx retaddr (s, tb) = Done (x, st') /\ st'.2 = tb' /\
      if v =? 0 then x = Returns tt /\ st' = (s', tb')
      else x = LoopExit /\ exception_index (cpu st'.1) = if t =? 2 then EXCP_PREFETCH_ABORT else EXCP_DATA_ABORT.
Proof.
  intros Hs Ha Ht. destruct (translation_total s a t (idx =? MMU_USER_IDX) Hs Ha Ht) as (r & Hr & Hw).
  assert (H : exists v s' tb', cpu_arm_handle_mmu_fault a t idx (s, tb) = Done (v, (s', tb')) /\ v = (if x_ret r =? 0 then 0 else 1) /\
    (v = 0 -> s' = s /\ exists p q z, r = x_ok p q z /\ tlb_lookup tb' a idx = Some (Z.lor (Z.land p (u64 (Z.lnot 0x3ff))) (Z.land a 0x3ff), q)) /\
    (v = 1 -> tb' = tb /\ exception_index (cpu s') = if t =? 2 then EXCP_PREFETCH_ABORT else EXCP_DATA_ABORT)).
  { unfold cpu_arm_handle_mmu_fault. rewrite Hr. destruct (Z.eqb_spec (x_ret r) 0) as [E|E].
    - destruct (Hw E) as (p & q & z & Ep & Eq & Ez). rewrite Ep, Eq, Ez. do 3 eexists. split; [reflexivity|]. split; [reflexivity|].
      split; [|discriminate]. intros _. split; [reflexivity|]. exists p, q, z. split; [destruct r; cbn in *; subst; reflexivity|].
      apply tlb_set_hit. unfold u32. rewrite (align_mask a 32) by (lia || assumption). apply page_align.
    - do 3 eexists. split; [reflexivity|]. split; [reflexivity|]. split; [discriminate|]. intros _. split; [reflexivity|].
      unfold mmu_fault_regs. destruct (t =? 2); reflexivity. }
  destruct H as (v & s' & tb' & E & Ev & H0 & H1). exists v, s', tb', r. split; [exact E|]. split; [exact Hr|]. split; [exact Ev|].
  split; [|split; [intros V; apply (H1 V)|]].
  - intros V. destruct (H0 V) as (-> & p & q & z & -> & Hl). split; [reflexivity|]. exists p, q, z. split; [reflexivity|]. split; [exact Hl|].
    intros Hm. destruct (walk_allows s a t _ (x_ok p q z) Hs Hm Ha Ht Hr eq_refl) as (p' & q' & z' & E' & Hq). injection E' as _ <- _. exact Hq.
  - intros restore ra Hre. unfold tlb_fill. erewrite bind_run by exact E. rewrite Ev in *.
    destruct (x_ret r =? 0); cbn [Z.eqb negb]; do 2 eexists; (split; [reflexivity|]); [auto|].
    split; [reflexivity|]. split; [reflexivity|]. destruct (H1 eq_refl) as [_ Hx]. cbn. destruct (ra =? 0); cbn; rewrite ?Hre; exact Hx.
Qed.
End Theorems.

(** ** Concrete systems *)
Definition qemu_mmu : MmuEnv := {|
  PAGE_READ := 1; PAGE_WRITE := 2; PAGE_EXEC := 4;
  extract32 v start len := Z.land (Z.shiftr v start) (Z.ones len);
  extract64 v start len := Z.land (Z.shiftr v start) (Z.ones len)
|}.
Lemma qemu_mmu_laws : @MmuEnvLaws qemu_mmu.
Proof. split; [auto|reflexivity|reflexivity]. Qed.

(** A TLB that never evicts. *)
Definition map_tlb : Tlb := {|
  tlb := gmap (Z * Z) (Z * Z);
  tlb_set_page va pa prot idx size t := <[(Z.shiftr va 10, idx) := (pa, prot)]> t;
  tlb_flush _ _ := ∅;
  tlb_flush_page va t := filter (fun e => fst (fst e) <> Z.shiftr va 10) t;
  tlb_lookup t a i := match t !! (Z.shiftr a 10, i) with
                      | Some (pa, prot) => Some (Z.lor pa (Z.land a 0x3ff), prot)
                      | None => None
                      end
|}.
Lemma map_tlb_laws : @TlbLaws map_tlb.
Proof.
  split; cbn -[Z.shiftr Z.land Z.lor]; intros.
  - rewrite lookup_insert in H. case_decide as E; [injection E as -> ->; left|right; exact H].
    injection H as <- <-. auto.
  - rewrite H, lookup_insert_eq. reflexivity.
  - rewrite lookup_empty. reflexivity.
  - destruct (filter _ _ !! _) as [[pa prot]|] eqn:E; [|discriminate H].
    apply map_lookup_filter_Some in E as [E Hne]. rewrite E. auto.
Qed.

#[local] Existing Instance word_mem.
Definition mmu_nvic : Nvic := one_irq 0.
#[local] Existing Instance mmu_nvic.
#[local] Existing Instance qemu_mmu.
#[local] Existing Instance qemu_mmu_laws.
#[local] Existing Instance map_tlb.
#[local] Existing Instance map_tlb_laws.

(** A v6 system whose tables map the page of 0x12345678 to 0x9abcd000, for
    privileged reads and writes. *)
Definition demo_cp15 : cp15_st :=
  cp15_set c1_sys (Z.lor 1 (Z.shiftl 1 23)) (cp15_set c2_base0 0x4000
    (cp15_set c2_base_mask 0xffffc000 (cp15_set c3 1 (fun _ => 0)))).
Definition demo_tables (feat l2 : Z) (c : cp15_st) : sys_st :=
  {| cpu := zero_cpu ARM_CPU_MODE_SVC feat; cp15 := c;
     memory := <[0x448c / 4 := 0x8001]> (<[0x8114 / 4 := l2]> ∅); intc := tt |}.
Definition demo_v6 : sys_st := demo_tables 0 0x9abcd012 demo_cp15.

Lemma demo_v6_ok : mmu_ok demo_v6.
Proof. split; [split; vm_compute; congruence|split; reflexivity]. Qed.

Lemma demo_addr : is_u32 0x12345678.
Proof. split; vm_compute; congruence. Qed.
Lemma demo_write : is_access 1.
Proof. split; vm_compute; congruence. Qed.
Lemma demo_read : is_access 0.
Proof. split; vm_compute; congruence. Qed.

Lemma demo_v6_walk : get_phys_addr demo_v6 0x12345678 1 false = Done (x_ok 0x9abcd678 7 0x1000).
Proof. vm_compute. reflexivity. Qed.

Lemma handle_mmu_fault_total_witness : exists st p q, tlb_fill (fun _ c => c) 0x12345678 1 0 1 (demo_v6, ∅) = Done (Returns tt, st) /\
  tlb_lookup st.2 0x12345678 0 = Some (p, q) /\ tst q (access_bit 1) = true.
Proof.
  destruct (handle_mmu_fault_total demo_v6 ∅ 0x12345678 1 0 demo_v6_ok demo_addr demo_write) as (v & s' & tb' & r & _ & Hr & Hv & H0 & _ & H).
  change (0 =? MMU_USER_IDX) with false in Hr. rewrite demo_v6_walk in Hr. injection Hr as <-. cbn in Hv. subst v. destruct (H0 eq_refl) as (-> & p & q & z & _ & Hl & Hq).
  destruct (H (fun _ c => c) 1 (fun _ _ => eq_refl)) as (x & st' & E & Et & -> & _). eexists st', _, q.
  split; [exact E|]. rewrite Et. split; [exact Hl|exact (Hq eq_refl)].
Defined.

Lemma walk_prot_exact_witness : exists p q z, x_ok 0x9abcd678 7 0x1000 = x_ok p q z /\ tst q (access_bit 1) = true.
Proof.
  pose proof (walk_prot_exact demo_v6 0x12345678 1 false (x_ok 0x9abcd678 7 0x1000) demo_v6_ok eq_refl
    demo_addr demo_write demo_v6_walk eq_refl) as H.
  destruct H as (p & q & z & E & _ & H & _). exists p, q, z. split; [exact E|exact H].
Defined.

Definition demo_filled : @tlb map_tlb := tlb_set_page 0x12345400 0x9abcd400 7 0 0x1000 ∅.
Lemma demo_v6_fill : cpu_arm_handle_mmu_fault 0x12345678 1 0 (demo_v6, ∅) = Done (0, (demo_v6, demo_filled)).
Proof. unfold cpu_arm_handle_mmu_fault. change (0 =? MMU_USER_IDX) with false. cbv zeta. rewrite demo_v6_walk. reflexivity. Qed.
Lemma empty_tlb_ok s : tlb_ok s (∅ : @tlb map_tlb).
Proof. intros a i p q t _ _ H. cbn in H. rewrite lookup_empty in H. discriminate H. Qed.

Lemma tlb_refill_witness : exists p q, tlb_lookup demo_filled 0x12345678 0 = Some (p, q) /\ tst q (access_bit 1) = true.
Proof.
  pose proof (tlb_refill demo_v6 ∅ 0x12345678 1 0 0 demo_v6 demo_filled demo_v6_ok eq_refl demo_addr demo_write
    (empty_tlb_ok demo_v6) demo_v6_fill) as H.
  destruct H as (_ & H & _). destruct (H eq_refl) as [_ H']. exact H'.
Defined.

(** On an MPU system the same fails: a write to a read-only region returns 0
    with protection bits that do not allow it. *)
Definition refill_entry (s : sys_st) (a t idx : Z) : option (Z * option (Z * Z)) :=
  match cpu_arm_handle_mmu_fault a t idx (s, ∅) with Done (v, (_, tb)) => Some (v, tlb_lookup tb a idx) | _ => None end.

Lemma mpu_readonly_write : exists s,
  uses_mpu s = true /\ refill_entry s 0x1000 1 0 = Some (0, Some (0x1000, 5)) /\ tst 5 (access_bit 1) = false.
Proof.
  exists (demo_tables (Z.shiftl 1 ARM_FEATURE_MPU) 0
            (cp15_set c1_sys 1 (cp15_set (c6_region 0) 0x3f (cp15_set c5_data 6 (fun _ => 0))))).
  split; [reflexivity|]. split; vm_compute; reflexivity.
Qed.

(** The v5 walk takes the access bits of a 4 KiB page from bits 14 and 15 of
    the address, not from bits 10 and 11: here the descriptor forbids the
    fourth subpage (AP3 = 0) and a write to it is allowed. *)
Lemma small_page_subpage : exists desc, Z.land desc 3 = 2 /\ Z.land (Z.shiftr desc 10) 3 = 0 /\
  get_phys_addr (demo_tables 0 desc (cp15_set c1_sys 1 demo_cp15)) 0x12345c00 1 true =
  Done (x_ok 0x9abcdc00 7 0x1000).
Proof. exists 0x9abcd0f2. vm_compute. auto. Qed.
