(* ===== verification/CpRegs.v ===== *)
(** * Coprocessor register definitions ([target-arm/cpu.h], [helper.c])

    The descriptions of coprocessor registers and the hash table that finds
    one by its encoding: [define_one_arm_cp_reg_with_opaque] with its
    wildcards and its guard against redefinition, [define_arm_cp_regs] and
    [get_arm_cp_reginfo].  The callbacks of a description are named by an
    enumeration; [Cp15] gives each its code. *)
From stdpp Require Import base list gmap strings.
From S2P Require Import Prelude Double ArmTable State CpuState Errors Sys.
Open Scope Z_scope.

(** ** [cpu.h]: types, access rights, encodings *)
Definition ARM_CP_SPECIAL : Z := 1.
Definition ARM_CP_CONST : Z := 2.
Definition ARM_CP_64BIT : Z := 4.
Definition ARM_CP_SUPPRESS_TB_END : Z := 8.
Definition ARM_CP_OVERRIDE : Z := 16.
Definition ARM_CP_NOP : Z := Z.lor ARM_CP_SPECIAL (Z.shiftl 1 8).
Definition ARM_CP_WFI : Z := Z.lor ARM_CP_SPECIAL (Z.shiftl 2 8).
Definition ARM_LAST_SPECIAL : Z := ARM_CP_WFI.
Definition ARM_CP_FLAG_MASK : Z := 0x1f.

Definition PL3_R : Z := 0x80.
Definition PL3_W : Z := 0x40.
Definition PL2_R : Z := Z.lor 0x20 PL3_R.
Definition PL2_W : Z := Z.lor 0x10 PL3_W.
Definition PL1_R : Z := Z.lor 0x08 PL2_R.
Definition PL1_W : Z := Z.lor 0x04 PL2_W.
Definition PL0_R : Z := Z.lor 0x02 PL1_R.
Definition PL0_W : Z := Z.lor 0x01 PL1_W.
Definition PL1_RW : Z := Z.lor PL1_R PL1_W.
Definition PL0_RW : Z := Z.lor PL0_R PL0_W.

Definition CP_ANY : Z := 0xff.

(** [cptype_valid]. *)
Definition cptype_valid (cptype : Z) : bool :=
  (Z.land cptype (Z.lnot ARM_CP_FLAG_MASK) =? 0) || (tst cptype ARM_CP_SPECIAL && (cptype <=? ARM_LAST_SPECIAL)).

Definition ENCODE_CP_REG (cp is64 crn crm opc1 opc2 : Z) : Z :=
  Z.lor (Z.lor (Z.lor (Z.lor (Z.lor (Z.shiftl cp 16) (Z.shiftl is64 15)) (Z.shiftl crn 11))
    (Z.shiftl crm 7)) (Z.shiftl opc1 3)) opc2.

(** ** The callbacks and the fields *)
Inductive CPReadFn : Set :=
| pmreg_read | ccsidr_read | teehbr_read | pmsav5_data_ap_read | pmsav5_insn_ap_read | arm946_prbs_read
| arm_cp_read_zero | mpidr_read | par64_read | ttbr064_read | ttbr164_read.

Inductive CPWriteFn : Set :=
| dacr_write | fcse_write | contextidr_write | tlbiall_write | tlbimva_write | tlbiasid_write | tlbimvaa_write
| cpacr_write | pmcr_write | pmcntenset_write | pmcntenclr_write | pmovsr_write | pmxevtyper_write | pmuserenr_write
| pmintenset_write | pmintenclr_write | csselr_write | teecr_write | teehbr_write | par_write | ats_write
| pmsav5_data_ap_write | pmsav5_insn_ap_write | arm946_prbs_write | vmsa_ttbcr_write | omap_ticonfig_write
| omap_threadid_write | omap_wfi_write | omap_cachemaint_write | xscale_cpar_write | par64_write | ttbr064_write
| ttbr164_write | vbar_write | sctlr_write | arm_cp_write_ignore.

Inductive CPResetFn : Set := vmsa_ttbcr_reset | par64_reset | ttbr064_reset | ttbr164_reset.

(** The field of [CPUARMState] at a [fieldoffset]. *)
Inductive cp_field : Set := F15 (r : cp15_reg) | Fteecr | Fteehbr.

#[export] Instance cp_field_eq_dec : EqDecision cp_field.
Proof. solve_decision. Defined.

(** [struct ARMCPRegInfo]; the opaque pointer is an address. *)
Record ARMCPRegInfo : Set := {
  cp_name : string; cp_num : Z; crn : Z; crm : Z; opc1 : Z; opc2 : Z;
  cp_type : Z; access : Z; opaque : Z; resetvalue : Z;
  fieldoffset : option cp_field; readfn : option CPReadFn; writefn : option CPWriteFn; resetfn : option CPResetFn
}.

(** The copy that is stored for one register of a wildcard. *)
Definition instance_of (r : ARMCPRegInfo) (op m o1 o2 : Z) : ARMCPRegInfo :=
  {| cp_name := cp_name r; cp_num := cp_num r; crn := crn r; crm := m; opc1 := o1; opc2 := o2;
     cp_type := cp_type r; access := access r; opaque := op; resetvalue := resetvalue r;
     fieldoffset := fieldoffset r; readfn := readfn r; writefn := writefn r; resetfn := resetfn r |}.

Definition set_access (a : Z) (r : ARMCPRegInfo) : ARMCPRegInfo :=
  {| cp_name := cp_name r; cp_num := cp_num r; crn := crn r; crm := crm r; opc1 := opc1 r; opc2 := opc2 r;
     cp_type := cp_type r; access := a; opaque := opaque r; resetvalue := resetvalue r;
     fieldoffset := fieldoffset r; readfn := readfn r; writefn := writefn r; resetfn := resetfn r |}.

Definition set_type (t : Z) (r : ARMCPRegInfo) : ARMCPRegInfo :=
  {| cp_name := cp_name r; cp_num := cp_num r; crn := crn r; crm := crm r; opc1 := opc1 r; opc2 := opc2 r;
     cp_type := t; access := access r; opaque := opaque r; resetvalue := resetvalue r;
     fieldoffset := fieldoffset r; readfn := readfn r; writefn := writefn r; resetfn := resetfn r |}.

(** [arm_current_pl] and [cp_access_ok]. *)
Definition arm_current_pl (e : cpu_st) : Z := if Z.land (uncached_cpsr e) 0x1f =? ARM_CPU_MODE_USR then 0 else 1.
Definition cp_access_ok (e : cpu_st) (ri : ARMCPRegInfo) (isread : Z) : bool :=
  tst (Z.shiftr (access ri) (arm_current_pl e * 2 + isread)) 1.

(** ** Defining registers *)
Notation cp_table := (gmap Z ARMCPRegInfo).

(** The values a field takes: [min .. max]. *)
Definition cp_field_range (f max : Z) : list Z := if f =? CP_ANY then seqZ 0 (max + 1) else [f].
Definition is64_of (r : ARMCPRegInfo) : Z := if tst (cp_type r) ARM_CP_64BIT then 1 else 0.

(** The assertions before the loops. *)
Definition reg_well_defined (r : ARMCPRegInfo) : bool :=
  negb (tst (cp_type r) ARM_CP_64BIT && (negb (opc2 r =? 0) || negb (crn r =? 0))) &&
  (tst (cp_type r) (Z.lor ARM_CP_SPECIAL ARM_CP_CONST) ||
   ((negb (tst (access r) PL3_R) || bool_decide (is_Some (fieldoffset r)) || bool_decide (is_Some (readfn r))) &&
    (negb (tst (access r) PL3_W) || bool_decide (is_Some (fieldoffset r)) || bool_decide (is_Some (writefn r))))) &&
  cptype_valid (cp_type r).

(** The body of the loops, for one [crm], [opc1], [opc2]. *)
Definition define_instance (r : ARMCPRegInfo) (op m o1 o2 : Z) : M cp_table unit :=
  let key := ENCODE_CP_REG (cp_num r) (is64_of r) (crn r) m o1 o2 in
  let! t := gets (fun t => t) in
  (if negb (tst (cp_type r) ARM_CP_OVERRIDE) then
     match t !! key with
     | Some oldreg => massert (tst (cp_type oldreg) ARM_CP_OVERRIDE)
     | None => ret tt
     end
   else ret tt) ;;
  modify (insert key (instance_of r op m o1 o2)).

Definition define_one_arm_cp_reg_with_opaque (r : ARMCPRegInfo) (op : Z) : M cp_table unit :=
  massert (reg_well_defined r) ;;
  mfor (cp_field_range (crm r) 15) (fun m =>
    mfor (cp_field_range (opc1 r) 7) (fun o1 =>
      mfor (cp_field_range (opc2 r) 7) (fun o2 => define_instance r op m o1 o2))).

(** A list stands for an array up to its sentinel. *)
Definition define_arm_cp_regs_with_opaque (regs : list ARMCPRegInfo) (op : Z) : M cp_table unit :=
  mfor regs (fun r => define_one_arm_cp_reg_with_opaque r op).

Definition define_one_arm_cp_reg (r : ARMCPRegInfo) : M cp_table unit := define_one_arm_cp_reg_with_opaque r 0.
Definition define_arm_cp_regs (regs : list ARMCPRegInfo) : M cp_table unit := define_arm_cp_regs_with_opaque regs 0.

Definition get_arm_cp_reginfo (t : cp_table) (encoded_cp : Z) : option ARMCPRegInfo := t !! encoded_cp.

(** ** Encodings *)

(** The place of a register in the coprocessor space. *)
Record cp_addr : Set := { a_cp : Z; a_is64 : Z; a_crn : Z; a_crm : Z; a_opc1 : Z; a_opc2 : Z }.

#[export] Instance cp_addr_eq_dec : EqDecision cp_addr.
Proof. solve_decision. Defined.

Definition enc (A : cp_addr) : Z := ENCODE_CP_REG (a_cp A) (a_is64 A) (a_crn A) (a_crm A) (a_opc1 A) (a_opc2 A).

Record addr_ok (A : cp_addr) : Prop := {
  ok_cp : 0 <= a_cp A < 16; ok_is64 : 0 <= a_is64 A < 2; ok_crn : 0 <= a_crn A < 16;
  ok_crm : 0 <= a_crm A < 16; ok_opc1 : 0 <= a_opc1 A < 16; ok_opc2 : 0 <= a_opc2 A < 8
}.

Lemma enc_value A : addr_ok A ->
  enc A = ((((a_cp A * 2 + a_is64 A) * 16 + a_crn A) * 16 + a_crm A) * 16 + a_opc1 A) * 8 + a_opc2 A.
Proof.
  intros [H1 H2 H3 H4 H5 H6]. unfold enc, ENCODE_CP_REG.
  rewrite (lor_join _ _ 1 15), (lor_join _ _ 4 11), (lor_join _ _ 4 7), (lor_join _ _ 4 3), lor_shift_add by lia.
  reflexivity.
Qed.

Lemma enc_inj A B : addr_ok A -> addr_ok B -> enc A = enc B -> A = B.
Proof.
  intros HA HB. rewrite (enc_value A HA), (enc_value B HB). destruct HA, HB, A, B; cbn in *. intros H.
  f_equal; lia.
Qed.

(** ** What a description covers *)
Definition any_or (f v : Z) : bool := (f =? CP_ANY) || (f =? v).

(** [CP_ANY] stands for 0..15, 0..7 and 0..7. *)
Definition covers (r : ARMCPRegInfo) (A : cp_addr) : bool :=
  (cp_num r =? a_cp A) && (is64_of r =? a_is64 A) && (crn r =? a_crn A) &&
  any_or (crm r) (a_crm A) && (any_or (opc1 r) (a_opc1 A) && (a_opc1 A <? 8)) && any_or (opc2 r) (a_opc2 A).

Definition field_ok (f max : Z) : bool := (f =? CP_ANY) || ((0 <=? f) && (f <=? max)).
Definition fields_ok (r : ARMCPRegInfo) : bool :=
  (0 <=? cp_num r) && (cp_num r <? 16) && (0 <=? crn r) && (crn r <? 16) &&
  field_ok (crm r) 15 && field_ok (opc1 r) 7 && field_ok (opc2 r) 7.

Definition addr_of (r : ARMCPRegInfo) (x : Z * Z * Z) : cp_addr :=
  let '(m, o1, o2) := x in
  {| a_cp := cp_num r; a_is64 := is64_of r; a_crn := crn r; a_crm := m; a_opc1 := o1; a_opc2 := o2 |}.

Definition triples (r : ARMCPRegInfo) : list (Z * Z * Z) :=
  flat_map (fun m => flat_map (fun o1 => map (fun o2 => (m, o1, o2)) (cp_field_range (opc2 r) 7))
    (cp_field_range (opc1 r) 7)) (cp_field_range (crm r) 15).

Lemma cp_field_range_in f max v : field_ok f max = true -> max < CP_ANY ->
  v ∈ cp_field_range f max <-> 0 <= v <= max /\ any_or f v = true.
Proof.
  unfold field_ok, cp_field_range, any_or. destruct (Z.eqb_spec f CP_ANY) as [->|Hne]; cbn [orb].
  - intros _ Hm. rewrite elem_of_seqZ. intuition lia.
  - intros [H1%Z.leb_le H2%Z.leb_le]%andb_true_iff _. rewrite list_elem_of_singleton, Z.eqb_eq. intuition lia.
Qed.

Lemma elem_flat_map {A B} (f : A -> list B) l y : y ∈ flat_map f l <-> exists x, x ∈ l /\ y ∈ f x.
Proof.
  rewrite list_elem_of_In, in_flat_map. setoid_rewrite <- list_elem_of_In. reflexivity.
Qed.

Lemma triples_in r m o1 o2 :
  (m, o1, o2) ∈ triples r <->
  m ∈ cp_field_range (crm r) 15 /\ o1 ∈ cp_field_range (opc1 r) 7 /\ o2 ∈ cp_field_range (opc2 r) 7.
Proof.
  unfold triples. rewrite elem_flat_map. setoid_rewrite elem_flat_map. setoid_rewrite list_elem_of_fmap.
  split.
  - intros (m' & Hm & o1' & Ho1 & o2' & [= -> -> ->] & Ho2). auto.
  - intros (Hm & Ho1 & Ho2). exists m. split; [exact Hm|]. exists o1. split; [exact Ho1|]. exists o2. auto.
Qed.

Lemma is64_range r : 0 <= is64_of r < 2.
Proof. unfold is64_of. destruct (tst _ _); lia. Qed.

Lemma fields_ok_spec r : fields_ok r = true ->
  0 <= cp_num r < 16 /\ 0 <= crn r < 16 /\ field_ok (crm r) 15 = true /\ field_ok (opc1 r) 7 = true /\ field_ok (opc2 r) 7 = true.
Proof. unfold fields_ok. rewrite !andb_true_iff, !Z.leb_le, !Z.ltb_lt. intuition. Qed.

Lemma triples_ok r x : fields_ok r = true -> x ∈ triples r -> addr_ok (addr_of r x).
Proof.
  intros (H1 & H2 & H3 & H4 & H5)%fields_ok_spec Hx. destruct x as [[m o1] o2].
  apply triples_in in Hx as (Hm & Ho1 & Ho2).
  apply cp_field_range_in in Hm, Ho1, Ho2; try assumption; try (unfold CP_ANY; lia).
  pose proof (is64_range r). split; cbn; lia.
Qed.

(** The registers a description covers are those its loops visit. *)
Lemma covers_triples r A : fields_ok r = true -> addr_ok A ->
  covers r A = true <-> (a_crm A, a_opc1 A, a_opc2 A) ∈ triples r /\ addr_of r (a_crm A, a_opc1 A, a_opc2 A) = A.
Proof.
  intros (H1 & H2 & H3 & H4 & H5)%fields_ok_spec HA. rewrite triples_in.
  rewrite !cp_field_range_in by (assumption || unfold CP_ANY; lia). destruct HA, A; cbn in *. unfold covers; cbn.
  rewrite !andb_true_iff, !Z.eqb_eq, Z.ltb_lt. split.
  - intros (((((-> & ->) & ->) & ?) & ?) & ?). repeat split; (assumption || lia || tauto).
  - intros (((_ & ?) & (? & ?) & (_ & ?)) & [= -> -> ->]). repeat split; (assumption || lia).
Qed.

(** ** The loops *)
Section Loops.
Context {S : Type}.

Lemma mfor_app {A} (l k : list A) (body : A -> M S unit) s :
  mfor (l ++ k) body s = (mfor l body ;; mfor k body) s.
Proof.
  revert s. induction l as [|a l IH]; intros s; [reflexivity|]. cbn [app mfor]. unfold bind at 1 2 3.
  destruct (body a s) as [[[] s1]| | |]; try reflexivity. apply IH.
Qed.

Lemma mfor_ext {A} (l : list A) (f g : A -> M S unit) s : (forall a s, f a s = g a s) -> mfor l f s = mfor l g s.
Proof.
  intros H. revert s. induction l as [|a l IH]; intros s; [reflexivity|]. cbn [mfor]. unfold bind.
  rewrite H. destruct (g a s) as [[[] s1]| | |]; try reflexivity. apply IH.
Qed.

Lemma mfor_flat {A B} (f : A -> list B) (l : list A) (body : B -> M S unit) s :
  mfor l (fun a => mfor (f a) body) s = mfor (flat_map f l) body s.
Proof.
  revert s. induction l as [|a l IH]; intros s; [reflexivity|]. cbn [mfor flat_map]. rewrite mfor_app.
  unfold bind. destruct (mfor (f a) body s) as [[[] s1]| | |]; try reflexivity. apply IH.
Qed.

Lemma mfor_map {A B} (f : A -> B) (l : list A) (body : B -> M S unit) s :
  mfor l (fun a => body (f a)) s = mfor (map f l) body s.
Proof.
  revert s. induction l as [|a l IH]; intros s; [reflexivity|]. cbn [mfor map]. unfold bind.
  destruct (body (f a) s) as [[[] s1]| | |]; try reflexivity. apply IH.
Qed.
End Loops.

Definition define_triple (r : ARMCPRegInfo) (op : Z) (x : Z * Z * Z) : M cp_table unit :=
  let '(m, o1, o2) := x in define_instance r op m o1 o2.

Lemma define_one_flat r op t : reg_well_defined r = true ->
  define_one_arm_cp_reg_with_opaque r op t = mfor (triples r) (define_triple r op) t.
Proof.
  intros Hw. unfold define_one_arm_cp_reg_with_opaque, massert. unfold bind at 1. rewrite Hw. unfold triples.
  rewrite <- mfor_flat. apply mfor_ext. intros m t1. rewrite <- mfor_flat. apply mfor_ext. intros o1 t2.
  rewrite <- mfor_map. reflexivity.
Qed.

Definition stored (r : ARMCPRegInfo) (op : Z) (x : Z * Z * Z) : ARMCPRegInfo :=
  let '(m, o1, o2) := x in instance_of r op m o1 o2.

(** A definition may be replaced. *)
Definition overridable (o : option ARMCPRegInfo) : bool :=
  match o with Some old => tst (cp_type old) ARM_CP_OVERRIDE | None => true end.

Lemma define_triple_run r op x t :
  define_triple r op x t =
  if tst (cp_type r) ARM_CP_OVERRIDE || overridable (t !! enc (addr_of r x))
  then Done (tt, <[enc (addr_of r x) := stored r op x]> t) else AssertFailed.
Proof.
  destruct x as [[m o1] o2]. unfold define_triple, define_instance, enc, overridable. cbn.
  unfold bind, gets. destruct (tst (cp_type r) ARM_CP_OVERRIDE); cbn; [reflexivity|].
  destruct (t !! _) as [old|]; [|reflexivity]. unfold massert. destruct (tst _ _); reflexivity.
Qed.

Lemma addr_of_inj r x y : addr_of r x = addr_of r y -> x = y.
Proof. destruct x as [[? ?] ?], y as [[? ?] ?]. intros [= -> -> ->]. reflexivity. Qed.

(** After the loops: the registers visited hold their instances, the others
    what they held. *)
Lemma define_triples_lookup r op l t t' A :
  (forall x, x ∈ l -> addr_ok (addr_of r x)) -> addr_ok A -> mfor l (define_triple r op) t = Done (tt, t') ->
  (forall x, x ∈ l -> addr_of r x = A -> t' !! enc A = Some (stored r op x)) /\
  ((forall x, x ∈ l -> addr_of r x <> A) -> t' !! enc A = t !! enc A).
Proof.
  intros Hl HA. revert t. induction l as [|y l IH]; intros t Hrun.
  - apply ret_Done in Hrun as [_ ->]. split; [intros x Hx; inversion Hx|reflexivity].
  - cbn [mfor] in Hrun. apply bind_Done in Hrun as ([] & t1 & H1 & H2).
    destruct (IH ltac:(intros; apply Hl; set_solver) t1 H2) as [IHa IHb].
    rewrite define_triple_run in H1. destruct (_ || _); [|discriminate]. injection H1 as <-. split.
    + intros x Hx Hxa. destruct (decide (Exists (fun z => addr_of r z = A) l)) as [He|He].
      * apply Exists_exists in He as (z & Hz & Hza). rewrite (IHa z Hz Hza). do 2 f_equal.
        apply (addr_of_inj r). congruence.
      * rewrite IHb. 2:{ intros z Hz Hza. apply He, Exists_exists. eauto. }
        apply elem_of_cons in Hx as [->|Hx]; [rewrite Hxa, lookup_insert_eq; reflexivity|].
        exfalso. apply He, Exists_exists. eauto.
    + intros Hn. rewrite IHb by (intros; apply Hn; set_solver). apply lookup_insert_ne. intros E.
      apply (Hn y); [set_solver|]. apply enc_inj; [apply Hl; set_solver|exact HA|exact E].
Qed.

(** The loops succeed where every register visited is free or may be replaced. *)
Lemma define_triples_run r op l t :
  NoDup l -> (forall x, x ∈ l -> addr_ok (addr_of r x)) ->
  (forall x, x ∈ l -> tst (cp_type r) ARM_CP_OVERRIDE || overridable (t !! enc (addr_of r x)) = true) ->
  exists t', mfor l (define_triple r op) t = Done (tt, t').
Proof.
  intros Hnd Hl. revert t. induction Hnd as [|y l Hy Hnd IH]; intros t Hf; [eexists; reflexivity|].
  cbn [mfor]. unfold bind. rewrite define_triple_run, (Hf y) by set_solver. apply IH; [intros; apply Hl; set_solver|].
  intros x Hx. rewrite lookup_insert_ne; [apply Hf; set_solver|]. intros E.
  apply enc_inj, addr_of_inj in E; [subst; contradiction| |]; apply Hl; set_solver.
Qed.

Lemma seqZ_field_nodup f max : NoDup (cp_field_range f max).
Proof. unfold cp_field_range. destruct (_ =? _); [apply NoDup_seqZ|apply NoDup_singleton]. Qed.

Lemma flat_map_nodup {A B} (f : A -> list B) l :
  NoDup l -> (forall x, NoDup (f x)) -> (forall x y z, z ∈ f x -> z ∈ f y -> x = y) -> NoDup (flat_map f l).
Proof.
  intros Hl Hf Hd. induction Hl as [|x l Hx Hl IH]; cbn; [constructor|]. apply NoDup_app. split; [apply Hf|].
  split; [|exact IH]. intros z Hz (y & Hy & Hzy)%elem_flat_map. rewrite (Hd x y z Hz Hzy) in Hx. contradiction.
Qed.

Lemma triples_nodup r : NoDup (triples r).
Proof.
  apply flat_map_nodup; [apply seqZ_field_nodup| |].
  - intros m. apply flat_map_nodup; [apply seqZ_field_nodup| |].
    + intros o1. apply (NoDup_fmap_2 (fun o2 => (m, o1, o2))), seqZ_field_nodup.
    + intros x y z Hx Hy. apply list_elem_of_fmap in Hx as (? & -> & _). apply list_elem_of_fmap in Hy as (? & [=] & _).
      assumption.
  - intros x y z Hx Hy. apply elem_flat_map in Hx as (? & _ & Hx). apply elem_flat_map in Hy as (? & _ & Hy).
    apply list_elem_of_fmap in Hx as (? & -> & _). apply list_elem_of_fmap in Hy as (? & [=] & _). assumption.
Qed.

(** ** The table after a sequence of definitions

    The abstract table of a list of descriptions, the latest first: the first
    that covers an address defines it. *)
Definition defines (op : Z) (A : cp_addr) (r : ARMCPRegInfo) : ARMCPRegInfo :=
  instance_of r op (a_crm A) (a_opc1 A) (a_opc2 A).

Fixpoint spec_lookup (op : Z) (latest : list ARMCPRegInfo) (A : cp_addr) : option ARMCPRegInfo :=
  match latest with
  | [] => None
  | r :: rest => if covers r A then Some (defines op A r) else spec_lookup op rest A
  end.

(** The concrete table implements the abstract one. *)
Definition implements (op : Z) (t : cp_table) (latest : list ARMCPRegInfo) : Prop :=
  forall A, addr_ok A -> get_arm_cp_reginfo t (enc A) = spec_lookup op latest A.

Lemma define_one_implements r op t t' latest :
  fields_ok r = true -> implements op t latest -> define_one_arm_cp_reg_with_opaque r op t = Done (tt, t') ->
  implements op t' (r :: latest).
Proof.
  intros Hf Ht Hrun A HA. cbn [spec_lookup].
  assert (Hw : reg_well_defined r = true).
  { destruct (reg_well_defined r) eqn:E; [reflexivity|]. unfold define_one_arm_cp_reg_with_opaque, bind, massert in Hrun.
    rewrite E in Hrun. discriminate. }
  rewrite (define_one_flat r op t Hw) in Hrun.
  destruct (define_triples_lookup r op _ _ _ A (fun x Hx => triples_ok r x Hf Hx) HA Hrun) as [Ha Hb].
  unfold get_arm_cp_reginfo. destruct (covers r A) eqn:Hc.
  - apply covers_triples in Hc as [Hin Haddr]; [|exact Hf|exact HA]. exact (Ha _ Hin Haddr).
  - rewrite Hb; [apply Ht, HA|]. intros x Hx Hxa. enough (covers r A = true) by congruence.
    apply covers_triples; [exact Hf|exact HA|]. subst A. destruct x as [[m o1] o2]. split; [exact Hx|reflexivity].
Qed.

(** Two descriptions meet, and may both be defined. *)
Definition meet_field (f g : Z) : bool := (f =? CP_ANY) || (g =? CP_ANY) || (f =? g).
Definition meet (r r' : ARMCPRegInfo) : bool :=
  (cp_num r =? cp_num r') && (is64_of r =? is64_of r') && (crn r =? crn r') &&
  meet_field (crm r) (crm r') && meet_field (opc1 r) (opc1 r') && meet_field (opc2 r) (opc2 r').
Definition compatible (r r' : ARMCPRegInfo) : bool :=
  negb (meet r r') || tst (cp_type r) ARM_CP_OVERRIDE || tst (cp_type r') ARM_CP_OVERRIDE.

Lemma any_or_meet f g v : any_or f v = true -> any_or g v = true -> meet_field f g = true.
Proof. unfold any_or, meet_field. rewrite !orb_true_iff, !Z.eqb_eq. intuition congruence. Qed.

Lemma covers_meet r r' A : covers r A = true -> covers r' A = true -> meet r r' = true.
Proof.
  unfold covers, meet. rewrite !andb_true_iff, !Z.eqb_eq.
  intros (((((? & ?) & ?) & ?) & ? & _) & ?) (((((? & ?) & ?) & ?) & ? & _) & ?).
  repeat split; first [congruence | eapply any_or_meet; eassumption].
Qed.

Definition acceptable (r : ARMCPRegInfo) : bool := fields_ok r && reg_well_defined r.

Lemma spec_lookup_some op latest A d : spec_lookup op latest A = Some d ->
  exists r', r' ∈ latest /\ covers r' A = true /\ d = defines op A r'.
Proof.
  induction latest as [|r latest IH]; cbn; [discriminate|]. destruct (covers r A) eqn:Hc.
  - intros [= <-]. exists r. split; [set_solver|auto].
  - intros (r' & Hr' & H)%IH. exists r'. split; [set_solver|exact H].
Qed.

Lemma define_one_succeeds r op t latest :
  acceptable r = true -> forallb (compatible r) latest = true -> implements op t latest ->
  exists t', define_one_arm_cp_reg_with_opaque r op t = Done (tt, t').
Proof.
  intros [Hf Hw]%andb_true_iff Hc Ht. rewrite (define_one_flat r op t Hw).
  apply define_triples_run; [apply triples_nodup|intros; apply triples_ok; assumption|].
  intros x Hx. destruct (tst (cp_type r) ARM_CP_OVERRIDE) eqn:Ho; [reflexivity|]. cbn [orb].
  pose proof (triples_ok r x Hf Hx) as HA. specialize (Ht _ HA). unfold get_arm_cp_reginfo in Ht. rewrite Ht.
  destruct (spec_lookup op latest (addr_of r x)) as [d|] eqn:E; [|reflexivity].
  apply spec_lookup_some in E as (r' & Hr' & Hcov & ->). cbn.
  rewrite forallb_forall in Hc. apply list_elem_of_In, Hc in Hr'. unfold compatible in Hr'. rewrite Ho, orb_false_r in Hr'.
  rewrite (covers_meet r r' (addr_of r x)) in Hr'; [exact Hr'| |exact Hcov].
  apply covers_triples; [exact Hf|exact HA|]. destruct x as [[m o1] o2]. split; [exact Hx|reflexivity].
Qed.

(** Each description is acceptable and compatible with all before it. *)
Fixpoint consistent (latest regs : list ARMCPRegInfo) : bool :=
  match regs with
  | [] => true
  | r :: rest => acceptable r && forallb (compatible r) latest && consistent (r :: latest) rest
  end.

Lemma define_regs_run op regs t latest :
  consistent latest regs = true -> implements op t latest ->
  exists t', define_arm_cp_regs_with_opaque regs op t = Done (tt, t') /\ implements op t' (rev regs ++ latest).
Proof.
  revert t latest. induction regs as [|r regs IH]; intros t latest Hc Ht; [exists t; auto|].
  cbn [consistent] in Hc. apply andb_true_iff in Hc as [[Ha Hr]%andb_true_iff Hc].
  destruct (define_one_succeeds r op t latest Ha Hr Ht) as (t1 & H1).
  destruct (IH t1 (r :: latest) Hc) as (t2 & H2 & H3).
  { apply (define_one_implements r op t); [|exact Ht|exact H1]. apply andb_true_iff in Ha. apply Ha. }
  exists t2. cbn [rev]. rewrite <- app_assoc. split; [|exact H3].
  unfold define_arm_cp_regs_with_opaque in *. cbn [mfor]. unfold bind. rewrite H1. exact H2.
Qed.

Lemma implements_empty op : implements op ∅ [].
Proof. intros A _. apply lookup_empty. Qed.
