(* ===== verification/CpTables.v ===== *)
(** * The tables of coprocessor registers ([target-arm/helper.c])

    Each array of [ARMCPRegInfo] as the list of its entries up to the
    sentinel, the single descriptions that
    [register_cp_regs_for_features] builds, and that function.  A member the source does not
    initialise is zero. *)
From stdpp Require Import base list gmap strings.
From S2P Require Import Prelude Double ArmTable State CpuState Errors Sys CpRegs.
Open Scope Z_scope.

(** The members of the CPU object that give reset values. *)
Record cpu_ids : Set := {
  id_afr0 : Z; id_clidr : Z; id_ctr : Z; id_dfr0 : Z; id_isar0 : Z; id_isar1 : Z;
  id_isar2 : Z; id_isar3 : Z; id_isar4 : Z; id_isar5 : Z; id_midr : Z; id_mmfr0 : Z;
  id_mmfr1 : Z; id_mmfr2 : Z; id_mmfr3 : Z; id_pfr0 : Z; id_pfr1 : Z; id_reset_auxcr : Z;
  id_reset_sctlr : Z
}.

(** One entry of a table. *)
Definition cpreg (name : string) (cp n m o1 o2 type acc rv : Z)
    (fo : option cp_field) (rf : option CPReadFn) (wf : option CPWriteFn) (rs : option CPResetFn) : ARMCPRegInfo :=
  {| cp_name := name; cp_num := cp; crn := n; crm := m; opc1 := o1; opc2 := o2; cp_type := type; access := acc;
     opaque := 0; resetvalue := rv; fieldoffset := fo; readfn := rf; writefn := wf; resetfn := rs |}.

(** ** The tables of [helper.c] *)
Section Tables.
Variable ids : cpu_ids.

Definition cp_reginfo : list ARMCPRegInfo := [
  cpreg "DBGDIDR" 14 0 0 0 0 ARM_CP_CONST PL0_R 0 None None None None;
  cpreg "DACR" 15 3 CP_ANY CP_ANY CP_ANY 0 PL1_RW 0 (Some (F15 c3)) None (Some dacr_write) None;
  cpreg "FCSEIDR" 15 13 0 0 0 0 PL1_RW 0 (Some (F15 c13_fcse)) None (Some fcse_write) None;
  cpreg "CONTEXTIDR" 15 13 0 0 1 0 PL1_RW 0 (Some (F15 c13_fcse)) None (Some contextidr_write) None;
  cpreg "TLB_LOCKDOWN" 15 10 CP_ANY CP_ANY CP_ANY ARM_CP_NOP PL1_RW 0 None None None None;
  cpreg "TLBIALL" 15 8 CP_ANY CP_ANY 0 0 PL1_W 0 None None (Some tlbiall_write) None;
  cpreg "TLBIMVA" 15 8 CP_ANY CP_ANY 1 0 PL1_W 0 None None (Some tlbimva_write) None;
  cpreg "TLBIASID" 15 8 CP_ANY CP_ANY 2 0 PL1_W 0 None None (Some tlbiasid_write) None;
  cpreg "TLBIMVAA" 15 8 CP_ANY CP_ANY 3 0 PL1_W 0 None None (Some tlbimvaa_write) None;
  cpreg "CACHEMAINT" 15 7 CP_ANY 0 CP_ANY (Z.lor ARM_CP_NOP ARM_CP_OVERRIDE) PL1_W 0 None None None None].

Definition not_v6_cp_reginfo : list ARMCPRegInfo := [
  cpreg "WFI_v5" 15 7 8 0 2 ARM_CP_WFI PL1_W 0 None None None None].

Definition not_v7_cp_reginfo : list ARMCPRegInfo := [
  cpreg "WFI_v6" 15 7 0 0 4 ARM_CP_WFI PL1_W 0 None None None None;
  cpreg "DLOCKDOWN" 15 9 0 0 0 0 PL1_RW 0 (Some (F15 c9_data)) None None None;
  cpreg "ILOCKDOWN" 15 9 0 0 1 0 PL1_RW 0 (Some (F15 c9_insn)) None None None;
  cpreg "DUMMY" 15 0 0 1 CP_ANY ARM_CP_CONST PL1_R 0 None None None None].

Definition v6_cp_reginfo : list ARMCPRegInfo := [
  cpreg "MVA_prefetch" 15 7 13 0 1 ARM_CP_NOP PL1_W 0 None None None None;
  cpreg "ISB" 15 7 5 0 4 ARM_CP_NOP PL0_W 0 None None None None;
  cpreg "DSB" 15 7 10 0 4 ARM_CP_NOP PL0_W 0 None None None None;
  cpreg "DMB" 15 7 10 0 5 ARM_CP_NOP PL0_W 0 None None None None;
  cpreg "IFAR" 15 6 0 0 2 0 PL1_RW 0 (Some (F15 c6_insn)) None None None;
  cpreg "WFAR" 15 6 0 0 1 ARM_CP_CONST PL1_RW 0 None None None None;
  cpreg "CPACR" 15 1 0 0 2 0 PL1_RW 0 (Some (F15 c1_coproc)) None (Some cpacr_write) None].

Definition v7_cp_reginfo : list ARMCPRegInfo := [
  cpreg "DBGDRAR" 14 1 0 0 0 ARM_CP_CONST PL0_R 0 None None None None;
  cpreg "DBGDSAR" 14 2 0 0 0 ARM_CP_CONST PL0_R 0 None None None None;
  cpreg "NOP" 15 7 0 0 4 ARM_CP_NOP PL1_W 0 None None None None;
  cpreg "PMCNTENSET" 15 9 12 0 1 0 PL0_RW 0 (Some (F15 c9_pmcnten)) (Some pmreg_read) (Some pmcntenset_write) None;
  cpreg "PMCNTENCLR" 15 9 12 0 2 0 PL0_RW 0 (Some (F15 c9_pmcnten)) (Some pmreg_read) (Some pmcntenclr_write) None;
  cpreg "PMOVSR" 15 9 12 0 3 0 PL0_RW 0 (Some (F15 c9_pmovsr)) (Some pmreg_read) (Some pmovsr_write) None;
  cpreg "PMSWINC" 15 9 12 0 4 ARM_CP_NOP PL0_W 0 None None None None;
  cpreg "PMSELR" 15 9 12 0 5 ARM_CP_CONST PL0_RW 0 None None None None;
  cpreg "PMCCNTR" 15 9 13 0 0 ARM_CP_CONST PL0_RW 0 None None None None;
  cpreg "PMXEVTYPER" 15 9 13 0 1 0 PL0_RW 0 (Some (F15 c9_pmxevtyper)) (Some pmreg_read) (Some pmxevtyper_write) None;
  cpreg "PMXEVCNTR" 15 9 13 0 2 ARM_CP_CONST PL0_RW 0 None None None None;
  cpreg "PMUSERENR" 15 9 14 0 0 0 (Z.lor PL0_R PL1_RW) 0 (Some (F15 c9_pmuserenr)) None (Some pmuserenr_write) None;
  cpreg "PMINTENSET" 15 9 14 0 1 0 PL1_RW 0 (Some (F15 c9_pminten)) None (Some pmintenset_write) None;
  cpreg "PMINTENCLR" 15 9 14 0 2 0 PL1_RW 0 (Some (F15 c9_pminten)) None (Some pmintenclr_write) None;
  cpreg "CCSIDR" 15 0 0 1 0 0 PL1_R 0 None (Some ccsidr_read) None None;
  cpreg "CSSELR" 15 0 0 2 0 0 PL1_RW 0 (Some (F15 c0_cssel)) None (Some csselr_write) None;
  cpreg "AIDR" 15 0 0 1 7 ARM_CP_CONST PL1_R 0 None None None None].

Definition t2ee_cp_reginfo : list ARMCPRegInfo := [
  cpreg "TEECR" 14 0 0 6 0 0 PL1_RW 0 (Some Fteecr) None (Some teecr_write) None;
  cpreg "TEEHBR" 14 1 0 6 0 0 PL0_RW 0 (Some Fteehbr) (Some teehbr_read) (Some teehbr_write) None].

Definition v6k_cp_reginfo : list ARMCPRegInfo := [
  cpreg "TPIDRURW" 15 13 0 0 2 0 PL0_RW 0 (Some (F15 c13_tls1)) None None None;
  cpreg "TPIDRURO" 15 13 0 0 3 0 (Z.lor PL0_R PL1_W) 0 (Some (F15 c13_tls2)) None None None;
  cpreg "TPIDRPRW" 15 13 0 0 4 0 PL1_RW 0 (Some (F15 c13_tls3)) None None None].

Definition generic_timer_cp_reginfo : list ARMCPRegInfo := [
  cpreg "GENERIC_TIMER" 15 14 CP_ANY CP_ANY CP_ANY ARM_CP_CONST PL1_RW 0 None None None None].

Definition vapa_cp_reginfo : list ARMCPRegInfo := [
  cpreg "PAR" 15 7 4 0 0 0 PL1_RW 0 (Some (F15 c7_par)) None (Some par_write) None;
  cpreg "ATS" 15 7 8 0 CP_ANY 0 PL1_W 0 None None (Some ats_write) None].

Definition pmsav5_cp_reginfo : list ARMCPRegInfo := [
  cpreg "DATA_AP" 15 5 0 0 0 0 PL1_RW 0 (Some (F15 c5_data)) (Some pmsav5_data_ap_read) (Some pmsav5_data_ap_write) None;
  cpreg "INSN_AP" 15 5 0 0 1 0 PL1_RW 0 (Some (F15 c5_insn)) (Some pmsav5_insn_ap_read) (Some pmsav5_insn_ap_write) None;
  cpreg "DATA_EXT_AP" 15 5 0 0 2 0 PL1_RW 0 (Some (F15 c5_data)) None None None;
  cpreg "INSN_EXT_AP" 15 5 0 0 3 0 PL1_RW 0 (Some (F15 c5_insn)) None None None;
  cpreg "DCACHE_CFG" 15 2 0 0 0 0 PL1_RW 0 (Some (F15 c2_data)) None None None;
  cpreg "ICACHE_CFG" 15 2 0 0 1 0 PL1_RW 0 (Some (F15 c2_insn)) None None None;
  cpreg "946_PRBS" 15 6 CP_ANY 0 CP_ANY 0 PL1_RW 0 None (Some arm946_prbs_read) (Some arm946_prbs_write) None].

Definition vmsa_cp_reginfo : list ARMCPRegInfo := [
  cpreg "DFSR" 15 5 0 0 0 0 PL1_RW 0 (Some (F15 c5_data)) None None None;
  cpreg "IFSR" 15 5 0 0 1 0 PL1_RW 0 (Some (F15 c5_insn)) None None None;
  cpreg "TTBR0" 15 2 0 0 0 0 PL1_RW 0 (Some (F15 c2_base0)) None None None;
  cpreg "TTBR1" 15 2 0 0 1 0 PL1_RW 0 (Some (F15 c2_base1)) None None None;
  cpreg "TTBCR" 15 2 0 0 2 0 PL1_RW 0 (Some (F15 c2_control)) None (Some vmsa_ttbcr_write) (Some vmsa_ttbcr_reset);
  cpreg "DFAR" 15 6 0 0 0 0 PL1_RW 0 (Some (F15 c6_data)) None None None].

Definition omap_cp_reginfo : list ARMCPRegInfo := [
  cpreg "DFSR" 15 5 CP_ANY CP_ANY CP_ANY ARM_CP_OVERRIDE PL1_RW 0 (Some (F15 c5_data)) None None None;
  cpreg EmptyString 15 15 0 0 0 ARM_CP_NOP PL1_RW 0 None None None None;
  cpreg "TICONFIG" 15 15 1 0 0 0 PL1_RW 0 (Some (F15 c15_ticonfig)) None (Some omap_ticonfig_write) None;
  cpreg "IMAX" 15 15 2 0 0 0 PL1_RW 0 (Some (F15 c15_i_max)) None None None;
  cpreg "IMIN" 15 15 3 0 0 0 PL1_RW 0xff0 (Some (F15 c15_i_min)) None None None;
  cpreg "THREADID" 15 15 4 0 0 0 PL1_RW 0 (Some (F15 c15_threadid)) None (Some omap_threadid_write) None;
  cpreg "TI925T_STATUS" 15 15 8 0 0 0 PL1_RW 0 None (Some arm_cp_read_zero) (Some omap_wfi_write) None;
  cpreg "OMAP_CACHEMAINT" 15 7 CP_ANY 0 CP_ANY ARM_CP_OVERRIDE PL1_W 0 None None (Some omap_cachemaint_write) None;
  cpreg "C9" 15 9 CP_ANY CP_ANY CP_ANY (Z.lor ARM_CP_CONST ARM_CP_OVERRIDE) PL1_RW 0 None None None None].

Definition xscale_cp_reginfo : list ARMCPRegInfo := [
  cpreg "XSCALE_CPAR" 15 15 1 0 0 0 PL1_RW 0 (Some (F15 c15_cpar)) None (Some xscale_cpar_write) None;
  cpreg "XSCALE_AUXCR" 15 1 0 0 1 0 PL1_RW 0 (Some (F15 c1_xscaleauxcr)) None None None].

Definition dummy_c15_cp_reginfo : list ARMCPRegInfo := [
  cpreg "C15_IMPDEF" 15 15 CP_ANY CP_ANY CP_ANY ARM_CP_CONST PL1_RW 0 None None None None].

Definition cache_dirty_status_cp_reginfo : list ARMCPRegInfo := [
  cpreg "CDSR" 15 7 10 0 6 ARM_CP_CONST PL1_R 0 None None None None].

Definition cache_block_ops_cp_reginfo : list ARMCPRegInfo := [
  cpreg "BXSR" 15 7 12 0 4 ARM_CP_CONST PL0_R 0 None None None None;
  cpreg "IICR" 15 0 5 0 0 (Z.lor ARM_CP_NOP ARM_CP_64BIT) PL1_W 0 None None None None;
  cpreg "IDCR" 15 0 6 0 0 (Z.lor ARM_CP_NOP ARM_CP_64BIT) PL1_W 0 None None None None;
  cpreg "CDCR" 15 0 12 0 0 (Z.lor ARM_CP_NOP ARM_CP_64BIT) PL0_W 0 None None None None;
  cpreg "PIR" 15 0 12 1 0 (Z.lor ARM_CP_NOP ARM_CP_64BIT) PL0_W 0 None None None None;
  cpreg "PDR" 15 0 12 2 0 (Z.lor ARM_CP_NOP ARM_CP_64BIT) PL0_W 0 None None None None;
  cpreg "CIDCR" 15 0 14 0 0 (Z.lor ARM_CP_NOP ARM_CP_64BIT) PL1_W 0 None None None None].

Definition cache_test_clean_cp_reginfo : list ARMCPRegInfo := [
  cpreg "TC_DCACHE" 15 7 10 0 3 ARM_CP_CONST PL0_R (Z.shiftl 1 30) None None None None;
  cpreg "TCI_DCACHE" 15 7 14 0 3 ARM_CP_CONST PL0_R (Z.shiftl 1 30) None None None None].

Definition strongarm_cp_reginfo : list ARMCPRegInfo := [
  cpreg "C9_READBUFFER" 15 9 CP_ANY CP_ANY CP_ANY (Z.lor ARM_CP_CONST ARM_CP_OVERRIDE) PL1_RW 0 None None None None].

Definition mpidr_cp_reginfo : list ARMCPRegInfo := [
  cpreg "MPIDR" 15 0 0 0 5 0 PL1_R 0 None (Some mpidr_read) None None].

Definition lpae_cp_reginfo : list ARMCPRegInfo := [
  cpreg "AMAIR0" 15 10 3 0 0 (Z.lor ARM_CP_CONST ARM_CP_OVERRIDE) PL1_RW 0 None None None None;
  cpreg "AMAIR1" 15 10 3 0 1 (Z.lor ARM_CP_CONST ARM_CP_OVERRIDE) PL1_RW 0 None None None None;
  cpreg "DBGDRAR" 14 0 1 0 0 (Z.lor ARM_CP_CONST ARM_CP_64BIT) PL0_R 0 None None None None;
  cpreg "DBGDSAR" 14 0 2 0 0 (Z.lor ARM_CP_CONST ARM_CP_64BIT) PL0_R 0 None None None None;
  cpreg "PAR" 15 0 7 0 0 ARM_CP_64BIT PL1_RW 0 None (Some par64_read) (Some par64_write) (Some par64_reset);
  cpreg "TTBR0" 15 0 2 0 0 ARM_CP_64BIT PL1_RW 0 None (Some ttbr064_read) (Some ttbr064_write) (Some ttbr064_reset);
  cpreg "TTBR1" 15 0 2 1 0 ARM_CP_64BIT PL1_RW 0 None (Some ttbr164_read) (Some ttbr164_write) (Some ttbr164_reset)].

Definition trustzone_cp_reginfo : list ARMCPRegInfo := [
  cpreg "SCR" 15 1 1 0 0 0 PL1_RW 0 (Some (F15 c1_scr)) None None None;
  cpreg "SDER" 15 1 1 0 1 0 PL1_RW 0 (Some (F15 c1_sedbg)) None None None;
  cpreg "NSACR" 15 1 1 0 2 0 PL1_RW 0 (Some (F15 c1_nseac)) None None None;
  cpreg "VBAR" 15 12 0 0 0 0 PL1_RW 0 (Some (F15 c12_vbar)) None (Some vbar_write) None;
  cpreg "MVBAR" 15 12 0 0 1 0 PL1_RW 0 (Some (F15 c12_mvbar)) None (Some vbar_write) None].

Definition v6_idregs : list ARMCPRegInfo := [
  cpreg "ID_PFR0" 15 0 1 0 0 ARM_CP_CONST PL1_R (id_pfr0 ids) None None None None;
  cpreg "ID_PFR1" 15 0 1 0 1 ARM_CP_CONST PL1_R (id_pfr1 ids) None None None None;
  cpreg "ID_DFR0" 15 0 1 0 2 ARM_CP_CONST PL1_R (id_dfr0 ids) None None None None;
  cpreg "ID_AFR0" 15 0 1 0 3 ARM_CP_CONST PL1_R (id_afr0 ids) None None None None;
  cpreg "ID_MMFR0" 15 0 1 0 4 ARM_CP_CONST PL1_R (id_mmfr0 ids) None None None None;
  cpreg "ID_MMFR1" 15 0 1 0 5 ARM_CP_CONST PL1_R (id_mmfr1 ids) None None None None;
  cpreg "ID_MMFR2" 15 0 1 0 6 ARM_CP_CONST PL1_R (id_mmfr2 ids) None None None None;
  cpreg "ID_MMFR3" 15 0 1 0 7 ARM_CP_CONST PL1_R (id_mmfr3 ids) None None None None;
  cpreg "ID_ISAR0" 15 0 2 0 0 ARM_CP_CONST PL1_R (id_isar0 ids) None None None None;
  cpreg "ID_ISAR1" 15 0 2 0 1 ARM_CP_CONST PL1_R (id_isar1 ids) None None None None;
  cpreg "ID_ISAR2" 15 0 2 0 2 ARM_CP_CONST PL1_R (id_isar2 ids) None None None None;
  cpreg "ID_ISAR3" 15 0 2 0 3 ARM_CP_CONST PL1_R (id_isar3 ids) None None None None;
  cpreg "ID_ISAR4" 15 0 2 0 4 ARM_CP_CONST PL1_R (id_isar4 ids) None None None None;
  cpreg "ID_ISAR5" 15 0 2 0 5 ARM_CP_CONST PL1_R (id_isar5 ids) None None None None;
  cpreg "ID_ISAR6" 15 0 2 0 6 ARM_CP_CONST PL1_R 0 None None None None;
  cpreg "ID_ISAR7" 15 0 2 0 7 ARM_CP_CONST PL1_R 0 None None None None].

Definition id_cp_reginfo : list ARMCPRegInfo := [
  cpreg "MIDR" 15 0 0 0 0 0 PL1_R (id_midr ids) (Some (F15 c0_cpuid)) None (Some arm_cp_write_ignore) None;
  cpreg "CTR" 15 0 0 0 1 ARM_CP_CONST PL1_R (id_ctr ids) None None None None;
  cpreg "TCMTR" 15 0 0 0 2 ARM_CP_CONST PL1_R 0 None None None None;
  cpreg "TLBTR" 15 0 0 0 3 ARM_CP_CONST PL1_R 0 None None None None;
  cpreg "DUMMY" 15 0 3 0 CP_ANY ARM_CP_CONST PL1_R 0 None None None None;
  cpreg "DUMMY" 15 0 4 0 CP_ANY ARM_CP_CONST PL1_R 0 None None None None;
  cpreg "DUMMY" 15 0 5 0 CP_ANY ARM_CP_CONST PL1_R 0 None None None None;
  cpreg "DUMMY" 15 0 6 0 CP_ANY ARM_CP_CONST PL1_R 0 None None None None;
  cpreg "DUMMY" 15 0 7 0 CP_ANY ARM_CP_CONST PL1_R 0 None None None None].

Definition pmcr : ARMCPRegInfo :=
  cpreg "PMCR" 15 9 12 0 0 0 PL0_RW (Z.land (id_midr ids) 0xff000000) (Some (F15 c9_pmcr)) (Some pmreg_read) (Some pmcr_write) None.

Definition clidr : ARMCPRegInfo :=
  cpreg "CLIDR" 15 0 0 1 1 ARM_CP_CONST PL1_R (id_clidr ids) None None None None.

Definition crn0_wi_reginfo : ARMCPRegInfo :=
  cpreg "CRN0_WI" 15 0 CP_ANY CP_ANY CP_ANY (Z.lor ARM_CP_NOP ARM_CP_OVERRIDE) PL1_W 0 None None None None.

Definition auxcr : ARMCPRegInfo :=
  cpreg "AUXCR" 15 1 0 0 1 ARM_CP_CONST PL1_RW (id_reset_auxcr ids) None None None None.

Definition sctlr : ARMCPRegInfo :=
  cpreg "SCTLR" 15 1 0 0 0 0 PL1_RW (id_reset_sctlr ids) (Some (F15 c1_sys)) None (Some sctlr_write) None.

End Tables.

(** ** [register_cp_regs_for_features] *)
Definition when (b : bool) (m : M cp_table unit) : M cp_table unit := if b then m else ret tt.

Definition register_cp_regs_for_features (e : cpu_st) (ids : cpu_ids) : M cp_table unit :=
  let f := arm_feature e in
  if f ARM_FEATURE_M then ret tt
  else
    define_arm_cp_regs cp_reginfo ;;
    (if f ARM_FEATURE_V6 then define_arm_cp_regs (v6_idregs ids) ;; define_arm_cp_regs v6_cp_reginfo
     else define_arm_cp_regs not_v6_cp_reginfo) ;;
    when (f ARM_FEATURE_V6K) (define_arm_cp_regs v6k_cp_reginfo) ;;
    (if f ARM_FEATURE_V7 then
       define_one_arm_cp_reg (pmcr ids) ;; define_one_arm_cp_reg (clidr ids) ;; define_arm_cp_regs v7_cp_reginfo
     else define_arm_cp_regs not_v7_cp_reginfo) ;;
    (if f ARM_FEATURE_MPU then massert (negb (f ARM_FEATURE_V6)) ;; define_arm_cp_regs pmsav5_cp_reginfo
     else define_arm_cp_regs vmsa_cp_reginfo) ;;
    when (f ARM_FEATURE_THUMB2EE) (define_arm_cp_regs t2ee_cp_reginfo) ;;
    when (f ARM_FEATURE_GENERIC_TIMER) (define_arm_cp_regs generic_timer_cp_reginfo) ;;
    when (f ARM_FEATURE_VAPA) (define_arm_cp_regs vapa_cp_reginfo) ;;
    when (f ARM_FEATURE_CACHE_TEST_CLEAN) (define_arm_cp_regs cache_test_clean_cp_reginfo) ;;
    when (f ARM_FEATURE_CACHE_DIRTY_REG) (define_arm_cp_regs cache_dirty_status_cp_reginfo) ;;
    when (f ARM_FEATURE_CACHE_BLOCK_OPS) (define_arm_cp_regs cache_block_ops_cp_reginfo) ;;
    when (f ARM_FEATURE_OMAPCP) (define_arm_cp_regs omap_cp_reginfo) ;;
    when (f ARM_FEATURE_STRONGARM) (define_arm_cp_regs strongarm_cp_reginfo) ;;
    when (f ARM_FEATURE_XSCALE) (define_arm_cp_regs xscale_cp_reginfo) ;;
    when (f ARM_FEATURE_DUMMY_C15_REGS) (define_arm_cp_regs dummy_c15_cp_reginfo) ;;
    when (f ARM_FEATURE_MPIDR) (define_arm_cp_regs mpidr_cp_reginfo) ;;
    when (f ARM_FEATURE_LPAE) (define_arm_cp_regs lpae_cp_reginfo) ;;
    when (f ARM_FEATURE_TRUSTZONE) (define_arm_cp_regs trustzone_cp_reginfo) ;;
    (if f ARM_FEATURE_OMAPCP || f ARM_FEATURE_STRONGARM then
       define_one_arm_cp_reg crn0_wi_reginfo ;;
       mfor (id_cp_reginfo ids) (fun r => define_one_arm_cp_reg (set_access PL1_RW r))
     else define_arm_cp_regs (id_cp_reginfo ids)) ;;
    when (f ARM_FEATURE_AUXCR) (define_one_arm_cp_reg (auxcr ids)) ;;
    define_one_arm_cp_reg
      (if f ARM_FEATURE_XSCALE then set_type (Z.lor (cp_type (sctlr ids)) ARM_CP_SUPPRESS_TB_END) (sctlr ids)
       else sctlr ids).

(** ** The registers of a feature set *)

(** The tables in the order of their registration, each with the condition
    under which it is registered. *)
Definition reg_blocks (f : Z -> bool) (ids : cpu_ids) : list (bool * list ARMCPRegInfo) := [
  (true, cp_reginfo);
  (f ARM_FEATURE_V6, v6_idregs ids ++ v6_cp_reginfo);
  (negb (f ARM_FEATURE_V6), not_v6_cp_reginfo);
  (f ARM_FEATURE_V6K, v6k_cp_reginfo);
  (f ARM_FEATURE_V7, pmcr ids :: clidr ids :: v7_cp_reginfo);
  (negb (f ARM_FEATURE_V7), not_v7_cp_reginfo);
  (f ARM_FEATURE_MPU, pmsav5_cp_reginfo);
  (negb (f ARM_FEATURE_MPU), vmsa_cp_reginfo);
  (f ARM_FEATURE_THUMB2EE, t2ee_cp_reginfo);
  (f ARM_FEATURE_GENERIC_TIMER, generic_timer_cp_reginfo);
  (f ARM_FEATURE_VAPA, vapa_cp_reginfo);
  (f ARM_FEATURE_CACHE_TEST_CLEAN, cache_test_clean_cp_reginfo);
  (f ARM_FEATURE_CACHE_DIRTY_REG, cache_dirty_status_cp_reginfo);
  (f ARM_FEATURE_CACHE_BLOCK_OPS, cache_block_ops_cp_reginfo);
  (f ARM_FEATURE_OMAPCP, omap_cp_reginfo);
  (f ARM_FEATURE_STRONGARM, strongarm_cp_reginfo);
  (f ARM_FEATURE_XSCALE, xscale_cp_reginfo);
  (f ARM_FEATURE_DUMMY_C15_REGS, dummy_c15_cp_reginfo);
  (f ARM_FEATURE_MPIDR, mpidr_cp_reginfo);
  (f ARM_FEATURE_LPAE, lpae_cp_reginfo);
  (f ARM_FEATURE_TRUSTZONE, trustzone_cp_reginfo);
  (f ARM_FEATURE_OMAPCP || f ARM_FEATURE_STRONGARM, crn0_wi_reginfo :: map (set_access PL1_RW) (id_cp_reginfo ids));
  (negb (f ARM_FEATURE_OMAPCP || f ARM_FEATURE_STRONGARM), id_cp_reginfo ids);
  (f ARM_FEATURE_AUXCR, [auxcr ids]);
  (f ARM_FEATURE_XSCALE, [set_type (Z.lor (cp_type (sctlr ids)) ARM_CP_SUPPRESS_TB_END) (sctlr ids)]);
  (negb (f ARM_FEATURE_XSCALE), [sctlr ids])].

Definition chosen (bs : list (bool * list ARMCPRegInfo)) : list ARMCPRegInfo :=
  flat_map (fun '(g, b) => if g : bool then b else []) bs.
Definition reg_list (f : Z -> bool) (ids : cpu_ids) : list ARMCPRegInfo := chosen (reg_blocks f ids).

(** Feature sets whose tables do not define a register twice. *)
Definition features_ok (f : Z -> bool) : bool :=
  negb (f ARM_FEATURE_MPU && f ARM_FEATURE_V6) && negb (negb (f ARM_FEATURE_V6) && f ARM_FEATURE_VAPA) &&
  negb (f ARM_FEATURE_OMAPCP && f ARM_FEATURE_XSCALE) && negb (f ARM_FEATURE_OMAPCP && f ARM_FEATURE_DUMMY_C15_REGS) &&
  negb (f ARM_FEATURE_XSCALE && f ARM_FEATURE_DUMMY_C15_REGS) && negb (f ARM_FEATURE_XSCALE && f ARM_FEATURE_AUXCR).

(** Compatibility, block by block. *)
Definition cross (b c : list ARMCPRegInfo) : bool := forallb (fun r => forallb (compatible r) b) c.

Fixpoint blocks_ok (bs : list (bool * list ARMCPRegInfo)) : bool :=
  match bs with
  | [] => true
  | (g, b) :: rest =>
      consistent [] b && forallb (fun '(g', c) => cross b c || negb (g && g')) rest && blocks_ok rest
  end.

Lemma consistent_weaken regs : forall latest,
  consistent latest regs = consistent [] regs && cross latest regs.
Proof.
  assert (H : forall l1 l2, consistent (l1 ++ l2) regs = consistent l1 regs && cross l2 regs).
  { induction regs as [|r regs IH]; intros l1 l2; [reflexivity|].
    cbn [consistent]. change (r :: l1 ++ l2) with ((r :: l1) ++ l2). rewrite IH, forallb_app. unfold cross. cbn.
    destruct (acceptable r), (forallb (compatible r) l1), (forallb (compatible r) l2), (consistent (r :: l1) regs);
      cbn; rewrite ?andb_true_r, ?andb_false_r; reflexivity. }
  intros latest. apply (H [] latest).
Qed.

Lemma consistent_app latest a b : consistent latest (a ++ b) = consistent latest a && consistent (rev a ++ latest) b.
Proof.
  revert latest. induction a as [|r a IH]; intros latest; [reflexivity|]. cbn [app consistent rev].
  rewrite IH, <- app_assoc, !andb_assoc. reflexivity.
Qed.

Lemma cross_app_l a b c : cross (a ++ b) c = cross a c && cross b c.
Proof.
  unfold cross. induction c as [|r c IH]; [reflexivity|]. cbn. rewrite forallb_app, IH.
  destruct (forallb _ a), (forallb _ b), (forallb _ c); reflexivity || (cbn; rewrite ?andb_false_r; reflexivity).
Qed.

Lemma cross_app_r a b c : cross a (b ++ c) = cross a b && cross a c.
Proof. unfold cross. apply forallb_app. Qed.

Lemma cross_rev_l a c : cross (rev a) c = cross a c.
Proof.
  unfold cross. induction c as [|r c IH]; [reflexivity|]. cbn. rewrite IH. f_equal.
  apply eq_true_iff_eq. rewrite !forallb_forall. setoid_rewrite <- in_rev. reflexivity.
Qed.

Lemma cross_chosen b bs : forallb (fun '(g, c) => cross b c || negb g) bs = true -> cross b (chosen bs) = true.
Proof.
  induction bs as [|[g c] bs IH]; [reflexivity|]. cbn [forallb chosen flat_map].
  intros [Hc Hb]%andb_true_iff. rewrite cross_app_r. apply andb_true_iff. split; [|exact (IH Hb)].
  destruct g; [|reflexivity]. rewrite orb_false_r in Hc. exact Hc.
Qed.

Lemma chosen_consistent bs : blocks_ok bs = true -> consistent [] (chosen bs) = true.
Proof.
  induction bs as [|[g b] bs IH]; [reflexivity|]. cbn [blocks_ok chosen flat_map].
  intros [[Hb Hx]%andb_true_iff Hr]%andb_true_iff. specialize (IH Hr). destruct g; [|exact IH].
  rewrite consistent_app, Hb, app_nil_r, (consistent_weaken (flat_map _ bs)), cross_rev_l.
  fold (chosen bs). rewrite IH. cbn [andb]. apply cross_chosen. exact Hx.
Qed.

Lemma features_blocks f ids : features_ok f = true -> blocks_ok (reg_blocks f ids) = true.
Proof.
  unfold features_ok, reg_blocks.
  generalize (f ARM_FEATURE_V6) (f ARM_FEATURE_V6K) (f ARM_FEATURE_V7) (f ARM_FEATURE_MPU) (f ARM_FEATURE_THUMB2EE)
    (f ARM_FEATURE_GENERIC_TIMER) (f ARM_FEATURE_VAPA) (f ARM_FEATURE_CACHE_TEST_CLEAN)
    (f ARM_FEATURE_CACHE_DIRTY_REG) (f ARM_FEATURE_CACHE_BLOCK_OPS) (f ARM_FEATURE_OMAPCP) (f ARM_FEATURE_STRONGARM)
    (f ARM_FEATURE_XSCALE) (f ARM_FEATURE_DUMMY_C15_REGS) (f ARM_FEATURE_MPIDR) (f ARM_FEATURE_LPAE)
    (f ARM_FEATURE_TRUSTZONE) (f ARM_FEATURE_AUXCR).
  clear f. intros v6 v6k v7 mpu t2 gt vapa ctc cds cbo omap sa xs c15 mp lp tz aux H.
  vm_compute. revert H. destruct v6, v7, mpu, vapa, omap, sa, xs, c15, aux; vm_compute; auto.
Qed.

(** ** Registration follows the list *)
Lemma define_app a b t : define_arm_cp_regs (a ++ b) t = (define_arm_cp_regs a ;; define_arm_cp_regs b) t.
Proof. apply mfor_app. Qed.

Lemma seq_assoc {S} (m k j : M S unit) t : ((m ;; k) ;; j) t = (m ;; k ;; j) t.
Proof. unfold bind. destruct (m t) as [[[] t1]| | |]; reflexivity. Qed.

(** Matching a statement with the block, or the two alternatives, it registers. *)
Lemma register_step (m k : M cp_table unit) b r :
  (forall t, m t = define_arm_cp_regs b t) -> (forall t, k t = define_arm_cp_regs r t) ->
  forall t, (m ;; k) t = define_arm_cp_regs (b ++ r) t.
Proof.
  intros Hm Hk t. rewrite define_app. unfold bind. rewrite Hm. destruct (define_arm_cp_regs b t) as [[[] t1]| | |]; auto.
Qed.

Lemma register_step2 (m k : M cp_table unit) g a c r :
  (forall t, m t = define_arm_cp_regs (if g : bool then a else c) t) -> (forall t, k t = define_arm_cp_regs r t) ->
  forall t, (m ;; k) t = define_arm_cp_regs ((if g then a else []) ++ (if negb g then c else []) ++ r) t.
Proof.
  intros Hm Hk t. rewrite app_assoc. apply register_step; [|exact Hk]. intros t1. rewrite Hm.
  destruct g; cbn [negb]; [rewrite app_nil_r|]; reflexivity.
Qed.

Lemma when_block g b t : when g (define_arm_cp_regs b) t = define_arm_cp_regs (if g then b else []) t.
Proof. destruct g; reflexivity. Qed.

Lemma define_singleton r t : define_one_arm_cp_reg r t = define_arm_cp_regs [r] t.
Proof. symmetry. apply bind_ret_unit. Qed.

Lemma define_cons r rs t : (define_one_arm_cp_reg r ;; define_arm_cp_regs rs) t = define_arm_cp_regs (r :: rs) t.
Proof. reflexivity. Qed.

Lemma register_is_list e ids t :
  arm_feature e ARM_FEATURE_M = false -> features_ok (arm_feature e) = true ->
  register_cp_regs_for_features e ids t = define_arm_cp_regs (reg_list (arm_feature e) ids) t.
Proof.
  intros HM Hok. unfold register_cp_regs_for_features. cbv zeta. rewrite HM.
  unfold reg_list, chosen, reg_blocks. cbn [flat_map]. revert t.
  apply register_step; [reflexivity|].
  apply register_step2; [intros t; destruct (arm_feature e ARM_FEATURE_V6); [rewrite define_app|]; reflexivity|].
  apply register_step; [apply when_block|].
  apply register_step2; [intros t; destruct (arm_feature e ARM_FEATURE_V7); reflexivity|].
  apply register_step2.
  { intros t. unfold features_ok in Hok. destruct (arm_feature e ARM_FEATURE_MPU); [|reflexivity].
    destruct (arm_feature e ARM_FEATURE_V6); [discriminate Hok|reflexivity]. }
  do 13 (apply register_step; [apply when_block|]).
  apply register_step2.
  { intros t. destruct (_ || _); [|reflexivity]. rewrite <- define_cons. unfold bind.
    destruct (define_one_arm_cp_reg crn0_wi_reginfo t) as [[[] t1]| | |]; reflexivity. }
  apply register_step; [intros t; destruct (arm_feature e ARM_FEATURE_AUXCR); [apply define_singleton|reflexivity]|].
  intros t. rewrite app_nil_r. destruct (arm_feature e ARM_FEATURE_XSCALE); cbn [negb];
    rewrite ?app_nil_r; apply define_singleton.
Qed.

Lemma registration_run e ids :
  arm_feature e ARM_FEATURE_M = false -> features_ok (arm_feature e) = true ->
  exists t, register_cp_regs_for_features e ids ∅ = Done (tt, t) /\
    implements 0 t (rev (reg_list (arm_feature e) ids)).
Proof.
  intros HM Hok. rewrite register_is_list by assumption.
  destruct (define_regs_run 0 (reg_list (arm_feature e) ids) ∅ []) as (t & Ht & Hi).
  - apply chosen_consistent, features_blocks, Hok.
  - apply implements_empty.
  - exists t. rewrite app_nil_r in Hi. auto.
Qed.

(** C13. Registering the coprocessor registers succeeds for every processor
    whose feature bits do not ask for two owners of one register, whatever
    its identification values: no description is malformed and none is
    redefined without the override bit.  The table then implements the rule
    that the latest description covering an encoding defines it, with the
    wildcard fields filled in, and an encoding no description covers has no
    register. *)
Theorem cp_registration e ids :
  arm_feature e ARM_FEATURE_M = false -> features_ok (arm_feature e) = true ->
  exists t, register_cp_regs_for_features e ids ∅ = Done (tt, t) /\
    forall A, addr_ok A -> get_arm_cp_reginfo t (enc A) = spec_lookup 0 (rev (reg_list (arm_feature e) ids)) A.
Proof.
  exact (registration_run e ids).
Qed.

(** A v7 processor with Thumb-2EE, MPIDR and TrustZone. *)
Definition bits_of (l : list Z) : Z := fold_right (fun b z => Z.lor (Z.shiftl 1 b) z) 0 l.
Definition demo_v7 : cpu_st := zero_cpu ARM_CPU_MODE_SVC (bits_of
  [ARM_FEATURE_V6; ARM_FEATURE_V6K; ARM_FEATURE_V7; ARM_FEATURE_VAPA; ARM_FEATURE_THUMB2EE; ARM_FEATURE_MPIDR;
   ARM_FEATURE_AUXCR; ARM_FEATURE_DUMMY_C15_REGS; ARM_FEATURE_TRUSTZONE]).
Definition zero_ids : cpu_ids :=
  {| id_afr0 := 0; id_clidr := 0; id_ctr := 0; id_dfr0 := 0; id_isar0 := 0; id_isar1 := 0; id_isar2 := 0;
     id_isar3 := 0; id_isar4 := 0; id_isar5 := 0; id_midr := 0x413fc090; id_mmfr0 := 0; id_mmfr1 := 0; id_mmfr2 := 0;
     id_mmfr3 := 0; id_pfr0 := 0; id_pfr1 := 0; id_reset_auxcr := 0; id_reset_sctlr := 0xc50078 |}.

Lemma cp_registration_witness : exists t d,
  register_cp_regs_for_features demo_v7 zero_ids ∅ = Done (tt, t) /\
  get_arm_cp_reginfo t (ENCODE_CP_REG 15 0 1 0 0 0) = Some d /\ writefn d = Some sctlr_write.
Proof.
  destruct (cp_registration demo_v7 zero_ids eq_refl eq_refl) as (t & Ht & Hl).
  pose proof (Hl {| a_cp := 15; a_is64 := 0; a_crn := 1; a_crm := 0; a_opc1 := 0; a_opc2 := 0 |}
    ltac:(split; cbn; lia)) as H.
  eexists t, _. split; [exact Ht|]. split; [exact H|]. reflexivity.
Defined.
