(* ===== verification/Cp15.v ===== *)
(** * The system control coprocessor ([target-arm/helper.c])

    The access functions of the coprocessor registers, the helpers that call
    them ([op_helper.c]) and the execution of a coprocessor instruction
    ([disas_coproc_insn]).  The flush of the translated code, [cpu_interrupt] and the cache geometry of the CPU
    object belong to QEMU. *)
From stdpp Require Import base list gmap strings.
From S2P Require Import Prelude Double ArmTable State CpuState Errors OpHelper CpuMode Sys Mmu CpRegs CpTables.
Open Scope Z_scope.

(** ** The state the access functions use *)
Class CpEnv := {
  tb_cache : Type;
  tb_flush : tb_cache -> tb_cache;
  CPU_INTERRUPT_HALT : Z;
  cpu_interrupt : Z -> cpu_st -> cpu_st
}.

Section Access.
Context {PH : PhysMem} {NV : Nvic} {ME : MmuEnv} {TL : Tlb} {CE : CpEnv}.

(** [teecr] and [teehbr] of [CPUARMState], [ccsidr] of the CPU object. *)
Record cp_env : Type := {
  ce_sys : sys_st; ce_tlb : tlb; ce_tb : tb_cache; teecr : Z; teehbr : Z; ccsidr : list Z; cpu_index : Z
}.

Definition set_sys (x : sys_st) (e : cp_env) : cp_env :=
  {| ce_sys := x; ce_tlb := ce_tlb e; ce_tb := ce_tb e; teecr := teecr e; teehbr := teehbr e;
     ccsidr := ccsidr e; cpu_index := cpu_index e |}.
Definition set_tlb (x : tlb) (e : cp_env) : cp_env :=
  {| ce_sys := ce_sys e; ce_tlb := x; ce_tb := ce_tb e; teecr := teecr e; teehbr := teehbr e;
     ccsidr := ccsidr e; cpu_index := cpu_index e |}.
Definition set_tb (x : tb_cache) (e : cp_env) : cp_env :=
  {| ce_sys := ce_sys e; ce_tlb := ce_tlb e; ce_tb := x; teecr := teecr e; teehbr := teehbr e;
     ccsidr := ccsidr e; cpu_index := cpu_index e |}.
Definition set_teecr (x : Z) (e : cp_env) : cp_env :=
  {| ce_sys := ce_sys e; ce_tlb := ce_tlb e; ce_tb := ce_tb e; teecr := x; teehbr := teehbr e;
     ccsidr := ccsidr e; cpu_index := cpu_index e |}.
Definition set_teehbr (x : Z) (e : cp_env) : cp_env :=
  {| ce_sys := ce_sys e; ce_tlb := ce_tlb e; ce_tb := ce_tb e; teecr := teecr e; teehbr := x;
     ccsidr := ccsidr e; cpu_index := cpu_index e |}.

Definition c15 (e : cp_env) (r : cp15_reg) : Z := cp15 (ce_sys e) r.
Definition put15 (r : cp15_reg) (v : Z) (e : cp_env) : cp_env :=
  set_sys (set_cp15 (cp15_set r v (cp15 (ce_sys e))) (ce_sys e)) e.

(** Assigning a 64-bit value to a 32-bit field of [cp15]. *)
Definition put (r : cp15_reg) (v : Z) : M cp_env unit := modify (put15 r (u32 v)).
Definition flush_tlb (g : Z) : M cp_env unit := modify (fun e => set_tlb (tlb_flush g (ce_tlb e)) e).
Definition flush_tlb_page (a : Z) : M cp_env unit := modify (fun e => set_tlb (tlb_flush_page a (ce_tlb e)) e).
Definition flush_tb : M cp_env unit := modify (fun e => set_tb (tb_flush (ce_tb e)) e).
Definition ce_cpu (e : cp_env) : cpu_st := cpu (ce_sys e).
Definition has_feature (f : Z) : M cp_env bool := gets (fun e => arm_feature (ce_cpu e) f).

(** [CPREG_FIELD32]. *)
Definition get_field (f : cp_field) (e : cp_env) : Z :=
  match f with F15 r => c15 e r | Fteecr => teecr e | Fteehbr => teehbr e end.
Definition put_field (f : cp_field) (v : Z) : M cp_env unit :=
  match f with F15 r => put r v | Fteecr => modify (set_teecr (u32 v)) | Fteehbr => modify (set_teehbr (u32 v)) end.

(** A read function yields an exception number or the value; a write
    function the exception number, 0 for none. *)
Definition cp_read : Type := M cp_env (Z + Z).
Definition cp_write : Type := M cp_env Z.
Definition rd (f : cp_env -> Z) : cp_read := gets (fun e => inr (f e)).

(** ** Generic registers *)
Definition do_dacr_write (value : Z) : cp_write := put c3 value ;; flush_tlb 1 ;; ret 0.

Definition do_fcse_write (value : Z) : cp_write :=
  let! old := gets (fun e => c15 e c13_fcse) in
  (if negb (old =? value) then flush_tlb 1 ;; put c13_fcse value else ret tt) ;; ret 0.

Definition do_contextidr_write (value : Z) : cp_write :=
  let! old := gets (fun e => c15 e c13_context) in
  let! mpu := has_feature ARM_FEATURE_MPU in
  (if negb (old =? value) && negb mpu then flush_tlb 1 else ret tt) ;;
  put c13_context value ;; ret 0.

(** [TARGET_PAGE_MASK] clears the page offset. *)
Definition TARGET_PAGE_MASK : Z := Z.lnot (TARGET_PAGE_SIZE - 1).

Definition do_tlbiall_write (value : Z) : cp_write := flush_tlb 1 ;; ret 0.
Definition do_tlbimva_write (value : Z) : cp_write := flush_tlb_page (u32 (Z.land value TARGET_PAGE_MASK)) ;; ret 0.
Definition do_tlbiasid_write (value : Z) : cp_write := flush_tlb (if value =? 0 then 1 else 0) ;; ret 0.
Definition do_tlbimvaa_write (value : Z) : cp_write := flush_tlb_page (u32 (Z.land value TARGET_PAGE_MASK)) ;; ret 0.

Definition do_cpacr_write (value : Z) : cp_write :=
  let! old := gets (fun e => c15 e c1_coproc) in
  (if negb (old =? value) then put c1_coproc value ;; flush_tb else ret tt) ;; ret 0.

(** ** Performance monitors *)

(** User mode without PMUSERENR. *)
Definition pm_denied (e : cp_env) : bool := (arm_current_pl (ce_cpu e) =? 0) && (c15 e c9_pmuserenr =? 0).
Definition pm_write (w : M cp_env unit) : cp_write :=
  let! denied := gets pm_denied in if denied then ret EXCP_UDEF else w ;; ret 0.
Definition upd (r : cp15_reg) (f : Z -> Z) : M cp_env unit :=
  let! old := gets (fun e => c15 e r) in put r (f old).
(** [1 << 31] is a negative [int]: its upper half is ones in 64 bits. *)
Definition bit31 : Z := u64 (s32 (Z.shiftl 1 31)).

Definition do_pmreg_read (ri : ARMCPRegInfo) : cp_read :=
  let! denied := gets pm_denied in
  if denied then ret (inl EXCP_UDEF)
  else match fieldoffset ri with Some f => rd (get_field f) | None => undefined end.
Definition do_pmcr_write (value : Z) : cp_write :=
  pm_write (upd c9_pmcr (fun v => Z.land v (u32 (Z.lnot 0x39))) ;; upd c9_pmcr (fun v => Z.lor v (Z.land value 0x39))).
Definition do_pmcntenset_write (value : Z) : cp_write :=
  pm_write (upd c9_pmcnten (fun v => Z.lor v (Z.land value bit31))).
Definition do_pmcntenclr_write (value : Z) : cp_write :=
  pm_write (upd c9_pmcnten (fun v => Z.land v (u64 (Z.lnot (Z.land value bit31))))).
Definition do_pmovsr_write (value : Z) : cp_write :=
  pm_write (upd c9_pmovsr (fun v => Z.land v (u64 (Z.lnot value)))).
Definition do_pmxevtyper_write (value : Z) : cp_write := pm_write (put c9_pmxevtyper (Z.land value 0xff)).
Definition do_pmuserenr_write (value : Z) : cp_write := put c9_pmuserenr (Z.land value 1) ;; ret 0.
Definition do_pmintenset_write (value : Z) : cp_write :=
  upd c9_pminten (fun v => Z.lor v (Z.land value bit31)) ;; ret 0.
Definition do_pmintenclr_write (value : Z) : cp_write :=
  upd c9_pminten (fun v => Z.land v (u64 (Z.lnot (Z.land value bit31)))) ;; ret 0.

Definition do_ccsidr_read : cp_read :=
  let! v := gets (fun e => ccsidr e !! Z.to_nat (c15 e c0_cssel)) in
  match v with Some x => ret (inr x) | None => undefined end.
Definition do_csselr_write (value : Z) : cp_write := put c0_cssel (Z.land value 0xf) ;; ret 0.

(** ** ThumbEE *)
Definition do_teecr_write (value : Z) : cp_write := modify (set_teecr (u32 (Z.land value 1))) ;; ret 0.
Definition tee_denied (e : cp_env) : bool := (arm_current_pl (ce_cpu e) =? 0) && tst (teecr e) 1.
Definition do_teehbr_read : cp_read :=
  let! denied := gets tee_denied in if denied then ret (inl EXCP_UDEF) else rd teehbr.
Definition do_teehbr_write (value : Z) : cp_write :=
  let! denied := gets tee_denied in if denied then ret EXCP_UDEF else modify (set_teehbr (u32 value)) ;; ret 0.

(** ** Address translation operations *)
Definition do_par_write (value : Z) : cp_write :=
  let! lpae := has_feature ARM_FEATURE_LPAE in
  let! v7 := has_feature ARM_FEATURE_V7 in
  put c7_par (if lpae then value else if v7 then Z.land value 0xfffff6ff else Z.land value 0xfffff1ff) ;; ret 0.

(** The result of a walk that only reads the state. *)
Definition walk_result (r : outcome xlat) : M cp_env xlat := fun e =>
  match r with Done x => Done (x, e) | AssertFailed => AssertFailed | Undefined => Undefined | Exited z => Exited z end.

(** The PAR of the long and of the short descriptor format. *)
Definition par_long (r : xlat) : option Z :=
  if x_ret r =? 0 then
    match x_phys r with
    | Some p => Some (Z.lor (Z.shiftl 1 11) (Z.land p (u64 (Z.lnot 0xfff))))
    | None => None
    end
  else Some (Z.lor (Z.lor (Z.shiftl 1 11) 1) (Z.shiftl (Z.land (x_ret r) 0x3f) 1)).

Definition par_short (v7 : bool) (r : xlat) : option Z :=
  if x_ret r =? 0 then
    match x_phys r, x_size r with
    | Some p, Some page_size =>
        Some (if (page_size =? Z.shiftl 1 24) && v7
              then Z.lor (Z.land p 0xff000000) (Z.shiftl 1 1) else Z.land p 0xfffff000)
    | _, _ => None
    end
  else
    Some (Z.lor (Z.lor (Z.lor (Z.shiftr (Z.land (x_ret r) (Z.shiftl 10 1)) 5)
                              (Z.shiftr (Z.land (x_ret r) (Z.shiftl 12 1)) 6))
                       (Z.shiftl (Z.land (x_ret r) 0xf) 1)) 1).

Definition do_ats_write (ri : ARMCPRegInfo) (value : Z) : cp_write :=
  let is_user := tst (opc2 ri) 2 in
  let access_type := Z.land (opc2 ri) 1 in
  if tst (opc2 ri) 4 then ret EXCP_UDEF
  else
    let! s := gets ce_sys in
    let! r := walk_result (get_phys_addr s (u32 value) access_type is_user) in
    if extended_addresses_enabled s then
      let! par64 := defined (par_long r) in
      put c7_par par64 ;; put c7_par_hi (Z.shiftr par64 32) ;; ret 0
    else
      let! v7 := has_feature ARM_FEATURE_V7 in
      let! par := defined (par_short v7 r) in
      put c7_par par ;; put c7_par_hi 0 ;; ret 0.

(** ** The protection unit *)

(** [for (i = 0; i < 16; i += 2)], with [mask = 3 << i]. *)
Definition ap_steps : list Z := [0; 2; 4; 6; 8; 10; 12; 14].
Definition simple_mpu_ap_bits (val : Z) : Z :=
  fold_left (fun r i => Z.lor r (Z.land (Z.shiftr val i) (u32 (Z.shiftl 3 i)))) ap_steps 0.
Definition extended_mpu_ap_bits (val : Z) : Z :=
  fold_left (fun r i => Z.lor r (u32 (Z.shiftl (Z.land val (u32 (Z.shiftl 3 i))) i))) ap_steps 0.

Definition do_pmsav5_data_ap_write (value : Z) : cp_write := put c5_data (extended_mpu_ap_bits (u32 value)) ;; ret 0.
Definition do_pmsav5_data_ap_read : cp_read := rd (fun e => simple_mpu_ap_bits (c15 e c5_data)).
Definition do_pmsav5_insn_ap_write (value : Z) : cp_write := put c5_insn (extended_mpu_ap_bits (u32 value)) ;; ret 0.
Definition do_pmsav5_insn_ap_read : cp_read := rd (fun e => simple_mpu_ap_bits (c15 e c5_insn)).
Definition do_arm946_prbs_read (ri : ARMCPRegInfo) : cp_read :=
  if 8 <=? crm ri then ret (inl EXCP_UDEF) else rd (fun e => c15 e (c6_region (crm ri))).
Definition do_arm946_prbs_write (ri : ARMCPRegInfo) (value : Z) : cp_write :=
  if 8 <=? crm ri then ret EXCP_UDEF else put (c6_region (crm ri)) value ;; ret 0.

(** ** Translation table control *)

(** A shift by 32 or more is undefined. *)
Definition shr32 (a n : Z) : option Z := if n <? 32 then Some (Z.shiftr a n) else None.

Definition do_vmsa_ttbcr_write (value : Z) : cp_write :=
  let! lpae := has_feature ARM_FEATURE_LPAE in
  let value :=
    if lpae then Z.land value (u64 (Z.lnot (Z.lor (Z.lor (Z.shiftl 7 19) (Z.shiftl 3 14)) (Z.shiftl 0xf 3))))
    else Z.land value 7 in
  (if lpae then flush_tlb 1 else ret tt) ;;
  put c2_control value ;;
  let! m := defined (shr32 0xffffffff value) in
  put c2_mask (Z.lnot m) ;;
  let! b := defined (shr32 0x3fff value) in
  put c2_base_mask (Z.lnot b) ;; ret 0.

Definition do_vmsa_ttbcr_reset : M cp_env unit := put c2_base_mask 0xffffc000 ;; put c2_control 0 ;; put c2_mask 0.

(** ** OMAP and XScale *)
Definition ARM_CPUID_TI915T : Z := 0x54029152.
Definition ARM_CPUID_TI925T : Z := 0x54029252.

Definition do_omap_ticonfig_write (value : Z) : cp_write :=
  put c15_ticonfig (Z.land value 0xe7) ;;
  put c0_cpuid (if tst value (Z.shiftl 1 5) then ARM_CPUID_TI915T else ARM_CPUID_TI925T) ;; ret 0.
Definition do_omap_threadid_write (value : Z) : cp_write := put c15_threadid (Z.land value 0xffff) ;; ret 0.
Definition do_omap_wfi_write (value : Z) : cp_write :=
  modify (fun e => set_sys (set_cpu (cpu_interrupt CPU_INTERRUPT_HALT (ce_cpu e)) (ce_sys e)) e) ;; ret 0.
Definition do_omap_cachemaint_write (value : Z) : cp_write := put c15_i_max 0x000 ;; put c15_i_min 0xff0 ;; ret 0.

Definition do_xscale_cpar_write (value : Z) : cp_write :=
  let value := Z.land value 0x3fff in
  let! old := gets (fun e => c15 e c15_cpar) in
  (if negb (old =? value) then flush_tb ;; put c15_cpar value else ret tt) ;; ret 0.

(** ** Identification and 64-bit registers *)
Definition do_mpidr_read : cp_read :=
  let! mp := has_feature ARM_FEATURE_V7MP in
  rd (fun e => let mpidr := u32 (cpu_index e) in if mp then Z.lor mpidr (Z.shiftl 1 31) else mpidr).

Definition read_pair (hi lo : cp15_reg) : cp_read := rd (fun e => Z.lor (Z.shiftl (c15 e hi) 32) (c15 e lo)).
Definition write_pair (hi lo : cp15_reg) (value : Z) : M cp_env unit := put hi (Z.shiftr value 32) ;; put lo value.

Definition do_par64_read : cp_read := read_pair c7_par_hi c7_par.
Definition do_par64_write (value : Z) : cp_write := write_pair c7_par_hi c7_par value ;; ret 0.
Definition do_par64_reset : M cp_env unit := put c7_par_hi 0 ;; put c7_par 0.
Definition do_ttbr064_read : cp_read := read_pair c2_base0_hi c2_base0.
Definition do_ttbr064_write (value : Z) : cp_write := write_pair c2_base0_hi c2_base0 value ;; flush_tlb 1 ;; ret 0.
Definition do_ttbr064_reset : M cp_env unit := put c2_base0_hi 0 ;; put c2_base0 0.
Definition do_ttbr164_read : cp_read := read_pair c2_base1_hi c2_base1.
Definition do_ttbr164_write (value : Z) : cp_write := write_pair c2_base1_hi c2_base1 value ;; ret 0.
Definition do_ttbr164_reset : M cp_env unit := put c2_base1_hi 0 ;; put c2_base1 0.

Definition do_vbar_write (ri : ARMCPRegInfo) (value : Z) : cp_write :=
  match fieldoffset ri with
  | Some f => put_field f (Z.land value (u64 (Z.lnot 0x1f))) ;; ret 0
  | None => undefined
  end.

Definition do_sctlr_write (value : Z) : cp_write := put c1_sys value ;; flush_tlb 1 ;; ret 0.

Definition do_arm_cp_write_ignore (value : Z) : cp_write := ret 0.
Definition do_arm_cp_read_zero : cp_read := ret (inr 0).

(** ** The callbacks of a description *)
Definition run_readfn (f : CPReadFn) (ri : ARMCPRegInfo) : cp_read :=
  match f with
  | pmreg_read => do_pmreg_read ri | ccsidr_read => do_ccsidr_read | teehbr_read => do_teehbr_read
  | pmsav5_data_ap_read => do_pmsav5_data_ap_read | pmsav5_insn_ap_read => do_pmsav5_insn_ap_read
  | arm946_prbs_read => do_arm946_prbs_read ri | arm_cp_read_zero => do_arm_cp_read_zero | mpidr_read => do_mpidr_read
  | par64_read => do_par64_read | ttbr064_read => do_ttbr064_read | ttbr164_read => do_ttbr164_read
  end.

Definition run_writefn (f : CPWriteFn) (ri : ARMCPRegInfo) (value : Z) : cp_write :=
  match f with
  | dacr_write => do_dacr_write value | fcse_write => do_fcse_write value
  | contextidr_write => do_contextidr_write value | tlbiall_write => do_tlbiall_write value
  | tlbimva_write => do_tlbimva_write value | tlbiasid_write => do_tlbiasid_write value
  | tlbimvaa_write => do_tlbimvaa_write value | cpacr_write => do_cpacr_write value
  | pmcr_write => do_pmcr_write value | pmcntenset_write => do_pmcntenset_write value
  | pmcntenclr_write => do_pmcntenclr_write value | pmovsr_write => do_pmovsr_write value
  | pmxevtyper_write => do_pmxevtyper_write value | pmuserenr_write => do_pmuserenr_write value
  | pmintenset_write => do_pmintenset_write value | pmintenclr_write => do_pmintenclr_write value
  | csselr_write => do_csselr_write value | teecr_write => do_teecr_write value | teehbr_write => do_teehbr_write value
  | par_write => do_par_write value | ats_write => do_ats_write ri value
  | pmsav5_data_ap_write => do_pmsav5_data_ap_write value | pmsav5_insn_ap_write => do_pmsav5_insn_ap_write value
  | arm946_prbs_write => do_arm946_prbs_write ri value | vmsa_ttbcr_write => do_vmsa_ttbcr_write value
  | omap_ticonfig_write => do_omap_ticonfig_write value | omap_threadid_write => do_omap_threadid_write value
  | omap_wfi_write => do_omap_wfi_write value | omap_cachemaint_write => do_omap_cachemaint_write value
  | xscale_cpar_write => do_xscale_cpar_write value | par64_write => do_par64_write value
  | ttbr064_write => do_ttbr064_write value | ttbr164_write => do_ttbr164_write value
  | vbar_write => do_vbar_write ri value | sctlr_write => do_sctlr_write value
  | arm_cp_write_ignore => do_arm_cp_write_ignore value
  end.

Definition run_resetfn (f : CPResetFn) : M cp_env unit :=
  match f with
  | vmsa_ttbcr_reset => do_vmsa_ttbcr_reset | par64_reset => do_par64_reset
  | ttbr064_reset => do_ttbr064_reset | ttbr164_reset => do_ttbr164_reset
  end.

(** ** Executing a coprocessor instruction

    Code on the registers of the processor. *)
Definition on_ce_cpu {A} (c : M cpu_st A) : M cp_env A := fun e =>
  match c (ce_cpu e) with
  | Done (a, c') => Done (a, set_sys (set_cpu c' (ce_sys e)) e)
  | AssertFailed => AssertFailed | Undefined => Undefined | Exited z => Exited z
  end.

(** [op_helper.c]: calling the register's own functions. *)
Definition set_cp_reg (ri : ARMCPRegInfo) (f : CPWriteFn) (value : Z) : M cp_env (exit unit) :=
  let! excp := run_writefn f ri value in
  if negb (excp =? 0) then on_ce_cpu (raise_exception excp) else ret (Returns tt).

Definition set_cp_reg64 (ri : ARMCPRegInfo) (f : CPWriteFn) (value : Z) : M cp_env (exit unit) :=
  let! excp := run_writefn f ri value in
  if negb (excp =? 0) then on_ce_cpu (raise_exception excp) else ret (Returns tt).

Definition get_cp_reg64 (ri : ARMCPRegInfo) (f : CPReadFn) : M cp_env (exit Z) :=
  let! r := run_readfn f ri in
  match r with
  | inl excp => on_ce_cpu (raise_exception excp) ;; ret LoopExit
  | inr value => ret (Returns value)
  end.

Definition get_cp_reg (ri : ARMCPRegInfo) (f : CPReadFn) : M cp_env (exit Z) :=
  let! r := get_cp_reg64 ri f in
  ret (match r with Returns v => Returns (u32 v) | LoopExit => LoopExit end).

(** [translate.c]: what the translator knows, and the registers. *)
Record disas_ctx : Type := { d_pc : Z; d_thumb : bool }.

Definition load_reg (s : disas_ctx) (r : Z) : M cp_env Z :=
  if r =? 15 then ret (u32 (d_pc s + (if d_thumb s then 2 else 4))) else on_ce_cpu (get_reg r).
Definition store_reg (r v : Z) : M cp_env unit :=
  on_ce_cpu (put_reg r (if r =? 15 then Z.land v (u32 (Z.lnot 1)) else v)).
Definition gen_set_pc_im (v : Z) : M cp_env unit := on_ce_cpu (put_reg 15 v).
Definition gen_lookup_tb (s : disas_ctx) : M cp_env unit := on_ce_cpu (put_reg 15 (Z.land (d_pc s) (u32 (Z.lnot 1)))).

(** What becomes of the instruction: it is undefined, belongs to another
    decoder, has run (and ends its block or not), waits for an interrupt, or
    raised an exception. *)
Inductive cp_result : Set := CpUndef | CpDecode | CpRan (ends_tb : bool) | CpWfi | CpRaised.

(** The value of a register that is read. *)
Definition cp_value (s : disas_ctx) (ri : ARMCPRegInfo) (is64 : bool) : M cp_env (exit Z) :=
  if tst (cp_type ri) ARM_CP_CONST then ret (Returns (if is64 then u64 (resetvalue ri) else u32 (resetvalue ri)))
  else match readfn ri, fieldoffset ri with
       | Some f, _ => gen_set_pc_im (d_pc s) ;; if is64 then get_cp_reg64 ri f else get_cp_reg ri f
       | None, Some fo => if is64 then undefined else let! v := gets (get_field fo) in ret (Returns v)
       | None, None => undefined
       end.

Definition cp_do_read (s : disas_ctx) (ri : ARMCPRegInfo) (is64 : bool) (rt rt2 : Z) : M cp_env cp_result :=
  let! v := cp_value s ri is64 in
  match v with
  | LoopExit => ret CpRaised
  | Returns v =>
      (if is64 then store_reg rt (u32 v) ;; store_reg rt2 (u32 (Z.shiftr v 32))
       else if rt =? 15 then on_ce_cpu (cpsr_write v CPSR_NZCV)
       else store_reg rt v) ;;
      ret (CpRan false)
  end.

Definition cp_do_write (s : disas_ctx) (ri : ARMCPRegInfo) (is64 : bool) (rt rt2 : Z) : M cp_env cp_result :=
  if tst (cp_type ri) ARM_CP_CONST then ret (CpRan false)
  else
    let! v := (if is64 then
                 let! lo := load_reg s rt in
                 let! hi := load_reg s rt2 in
                 ret (Z.lor (Z.shiftl hi 32) lo)
               else load_reg s rt) in
    let! r :=
      match writefn ri, fieldoffset ri with
      | Some f, _ => gen_set_pc_im (d_pc s) ;; if is64 then set_cp_reg64 ri f v else set_cp_reg ri f v
      | None, Some fo => if is64 then undefined else put_field fo v ;; ret (Returns tt)
      | None, None => undefined
      end in
    match r with
    | LoopExit => ret CpRaised
    | Returns _ =>
        if negb (tst (cp_type ri) ARM_CP_SUPPRESS_TB_END) then gen_lookup_tb s ;; ret (CpRan true)
        else ret (CpRan false)
    end.

(** The register an instruction names. *)
Definition insn_addr (insn : Z) : cp_addr :=
  let is64 := Z.land insn (Z.shiftl 1 25) =? 0 in
  {| a_cp := Z.land (Z.shiftr insn 8) 0xf;
     a_is64 := if is64 then 1 else 0;
     a_crn := if is64 then 0 else Z.land (Z.shiftr insn 16) 0xf;
     a_crm := Z.land insn 0xf;
     a_opc1 := if is64 then Z.land (Z.shiftr insn 4) 0xf else Z.land (Z.shiftr insn 21) 7;
     a_opc2 := if is64 then 0 else Z.land (Z.shiftr insn 5) 7 |}.

(** A generic register access, from the look-up on. *)
Definition cp_access (t : cp_table) (s : disas_ctx) (insn : Z) : M cp_env cp_result :=
  let is64 := Z.land insn (Z.shiftl 1 25) =? 0 in
  let rt2 := if is64 then Z.land (Z.shiftr insn 16) 0xf else 0 in
  let isread := Z.land (Z.shiftr insn 20) 1 in
  let rt := Z.land (Z.shiftr insn 12) 0xf in
  match get_arm_cp_reginfo t (enc (insn_addr insn)) with
  | None => ret CpUndef
  | Some ri =>
      let! ok := gets (fun e => cp_access_ok (ce_cpu e) ri isread) in
      if negb ok then ret CpUndef
      else
        let special := Z.land (cp_type ri) (Z.lnot (Z.land ARM_CP_FLAG_MASK (Z.lnot ARM_CP_SPECIAL))) in
        if special =? ARM_CP_NOP then ret (CpRan false)
        else if special =? ARM_CP_WFI then
          if isread =? 1 then ret CpUndef else gen_set_pc_im (d_pc s) ;; ret CpWfi
        else if isread =? 1 then cp_do_read s ri is64 rt rt2
        else cp_do_write s ri is64 rt rt2
  end.

(** [disas_coproc_insn] and the code it generates, run at once. *)
Definition disas_coproc_insn (t : cp_table) (s : disas_ctx) (insn : Z) : M cp_env cp_result :=
  let cpnum := Z.land (Z.shiftr insn 8) 0xf in
  let! xscale := has_feature ARM_FEATURE_XSCALE in
  let! cpar := gets (fun e => c15 e c15_cpar) in
  let! iwmmxt := has_feature ARM_FEATURE_IWMMXT in
  if xscale && tst (Z.lxor cpar 0x3fff) (Z.shiftl 1 cpnum) then ret CpUndef
  else if (cpnum =? 0) || (cpnum =? 1) then ret (if iwmmxt || xscale then CpDecode else CpUndef)
  else if (cpnum =? 10) || (cpnum =? 11) then ret CpDecode
  else if negb (Z.land insn (Z.shiftl 1 25) =? 0) && (Z.land insn (Z.shiftl 1 4) =? 0) then ret CpUndef
  else cp_access t s insn.
End Access.
