(* ===== verification/Coproc.v ===== *)
(** * Coprocessor accesses: what they may change

    Theorems on the composition of the register tables ([CpTables]), the
    access functions ([Cp15]), address translation and the TLB ([Mmu]). *)
From stdpp Require Import base list gmap strings.
From S2P Require Import Prelude Double ArmTable State CpuState Errors OpHelper CpuMode Sys Mmu CpRegs CpTables Cp15.
Open Scope Z_scope.

Section Keeps.
Context {PH : PhysMem} {NV : Nvic} {ME : MmuEnv} {TL : Tlb} {CE : CpEnv}.
Implicit Types e : cp_env.

(** ** Code that leaves address translation alone *)
Definition same_mmu e e' : Prop := same_tables (ce_sys e) (ce_sys e') /\ ce_tlb e' = ce_tlb e.

#[export] Instance same_mmu_pre : PreOrder same_mmu.
Proof.
  split.
  - intros e. repeat split. apply Forall_true. reflexivity.
  - intros e1 e2 e3 [(M1 & F1 & R1) T1] [(M2 & F2 & R2) T2]. repeat split; try congruence.
    apply Forall_forall. intros r Hr. rewrite Forall_forall in R1, R2. rewrite (R2 r Hr). exact (R1 r Hr).
Qed.

Definition keeps {A} (m : M cp_env A) : Prop := forall e a e', m e = Done (a, e') -> same_mmu e e'.

Lemma keeps_ret {A} (a : A) : keeps (ret a).
Proof. intros e b e' [_ ->]%ret_Done. reflexivity. Qed.
Lemma keeps_gets {A} (f : cp_env -> A) : keeps (gets f).
Proof. intros e b e' [_ ->]%gets_Done. reflexivity. Qed.
Lemma keeps_undefined {A} : keeps (@undefined cp_env A).
Proof. intros e b e' [=]. Qed.
Lemma keeps_defined {A} (o : option A) : keeps (defined o).
Proof. destruct o; [apply keeps_ret|apply keeps_undefined]. Qed.
Lemma keeps_bind {A B} (m : M cp_env A) (k : A -> M cp_env B) : keeps m -> (forall a, keeps (k a)) -> keeps (bind m k).
Proof. intros Hm Hk e b e' (a & e1 & H1 & H2)%bind_Done. etransitivity; [exact (Hm _ _ _ H1)|exact (Hk _ _ _ _ H2)]. Qed.

(** Assigning a field that is no input of a walk. *)
Lemma keeps_put r v : bool_decide (r ∈ mmu_regs) = false -> keeps (put r v).
Proof.
  intros Hr e a e' <-%modify_Done. apply bool_decide_eq_false in Hr. repeat split; cbn.
  apply Forall_forall. intros q Hq. apply cp15_set_ne. intros ->. contradiction.
Qed.

Lemma keeps_modify f : (forall e, same_mmu e (f e)) -> keeps (modify f).
Proof. intros Hf e a e' <-%modify_Done. apply Hf. Qed.

(** Code on the processor's registers that keeps its features. *)
Definition keeps_features {A} (c : M cpu_st A) : Prop := forall s a s', c s = Done (a, s') -> features s' = features s.

Lemma keeps_cpu {A} (c : M cpu_st A) : keeps_features c -> keeps (on_ce_cpu c).
Proof.
  intros Hc e a e'. unfold on_ce_cpu. destruct (c (ce_cpu e)) as [[b s']| | |] eqn:E; intros [= <- <-].
  repeat split; cbn; [exact (Hc _ _ _ E)|]. apply Forall_true. reflexivity.
Qed.

Lemma put_reg_features r v : keeps_features (put_reg r v).
Proof. intros s a s' H. unfold put_reg in H. mruns. reflexivity. Qed.
Lemma get_reg_features r : keeps_features (get_reg r).
Proof. intros s a s' H. unfold get_reg, arr_get in H. mruns; reflexivity. Qed.
Lemma raise_features x : keeps_features (raise_exception x).
Proof. intros s a s' H. unfold raise_exception in H. mruns. reflexivity. Qed.

Lemma write_flags_features v m s : features (write_flags v m s) = features s.
Proof. unfold write_flags. repeat match goal with |- context [if tst ?x ?y then _ else _] => destruct (tst x y) end; reflexivity. Qed.

(** Writing the condition flags switches no mode. *)
Lemma nzcv_features v : keeps_features (cpsr_write v CPSR_NZCV).
Proof.
  intros s a s' H. unfold cpsr_write in H.
  apply bind_Done in H as ([] & s1 & H1 & H). apply modify_Done in H1.
  apply bind_Done in H as (u & s2 & H2 & H). apply gets_Done in H2 as [_ ->].
  assert (E : tst (Z.land (Z.lxor u v) CPSR_NZCV) CPSR_M = false).
  { unfold tst. rewrite <- Z.land_assoc. change (Z.land CPSR_NZCV CPSR_M) with 0. rewrite Z.land_0_r. reflexivity. }
  rewrite E in H. apply bind_Done in H as (m & s3 & H3 & H). apply ret_Done in H3 as [_ ->].
  apply modify_Done in H as <-. rewrite <- H1. cbn [features set_uncached_cpsr]. apply write_flags_features.
Qed.
End Keeps.

Create HintDb keeps.
#[export] Hint Resolve keeps_ret keeps_gets keeps_undefined keeps_defined keeps_bind keeps_cpu put_reg_features
  get_reg_features raise_features nzcv_features : keeps.

(** [keeps_auto] walks the code: sequences, conditions, assignments. *)
Ltac keeps_auto :=
  repeat match goal with
  | |- keeps (bind _ _) => apply keeps_bind; [|intros ?]
  | |- keeps (if ?b then _ else _) => destruct b
  | |- keeps (match ?x with _ => _ end) => destruct x
  | |- keeps (put _ _) => apply keeps_put; reflexivity
  | |- keeps (modify _) => apply keeps_modify; intros ?; repeat split; cbn; try (apply Forall_true; reflexivity)
  | |- keeps _ => solve [auto with keeps]
  end.

(** ** User mode *)
Section User.
Context {PH : PhysMem} {NV : Nvic} {ME : MmuEnv} {TL : Tlb} {CE : CpEnv}.

Lemma readfn_keeps f ri : keeps (run_readfn f ri).
Proof.
  destruct f; cbn [run_readfn]; unfold do_pmreg_read, do_ccsidr_read, do_teehbr_read, do_arm946_prbs_read,
    do_pmsav5_data_ap_read, do_pmsav5_insn_ap_read, do_arm_cp_read_zero, do_par64_read, do_ttbr064_read,
    do_ttbr164_read, read_pair, do_mpidr_read, has_feature, rd; keeps_auto.
Qed.

Lemma load_reg_keeps s r : keeps (load_reg s r).
Proof. unfold load_reg. keeps_auto. Qed.
Lemma store_reg_keeps r v : keeps (store_reg r v).
Proof. unfold store_reg. keeps_auto. Qed.
Lemma set_pc_keeps v : keeps (gen_set_pc_im v).
Proof. unfold gen_set_pc_im. keeps_auto. Qed.
Lemma lookup_tb_keeps s : keeps (gen_lookup_tb s).
Proof. unfold gen_lookup_tb. keeps_auto. Qed.
#[local] Hint Resolve readfn_keeps load_reg_keeps store_reg_keeps set_pc_keeps lookup_tb_keeps : keeps.

Lemma get_cp_reg64_keeps ri f : keeps (get_cp_reg64 ri f).
Proof. unfold get_cp_reg64. keeps_auto. Qed.
#[local] Hint Resolve get_cp_reg64_keeps : keeps.
Lemma get_cp_reg_keeps ri f : keeps (get_cp_reg ri f).
Proof. unfold get_cp_reg. keeps_auto. Qed.
#[local] Hint Resolve get_cp_reg_keeps : keeps.

(** No read changes address translation. *)
Lemma cp_do_read_keeps s ri b rt rt2 : keeps (cp_do_read s ri b rt rt2).
Proof. unfold cp_do_read, cp_value. keeps_auto. Qed.

(** The functions and fields that user mode may write. *)
Definition user_writefn (f : CPWriteFn) : bool :=
  match f with
  | pmcr_write | pmcntenset_write | pmcntenclr_write | pmovsr_write | pmxevtyper_write | teehbr_write => true
  | _ => false
  end.
Definition special_of (r : ARMCPRegInfo) : Z :=
  Z.land (cp_type r) (Z.lnot (Z.land ARM_CP_FLAG_MASK (Z.lnot ARM_CP_SPECIAL))).
Definition harmless (r : ARMCPRegInfo) : bool :=
  (special_of r =? ARM_CP_NOP) || (special_of r =? ARM_CP_WFI) || tst (cp_type r) ARM_CP_CONST ||
  match writefn r, fieldoffset r with
  | Some f, _ => user_writefn f
  | None, Some f => bool_decide (f = F15 c13_tls1)
  | None, None => true
  end.

Lemma pm_write_keeps w : keeps w -> keeps (pm_write w).
Proof. intros H. unfold pm_write. keeps_auto. Qed.

Lemma user_writefn_keeps f ri v : user_writefn f = true -> keeps (run_writefn f ri v).
Proof.
  destruct f; intros [=]; cbn [run_writefn].
  all: unfold do_pmcr_write, do_pmcntenset_write, do_pmcntenclr_write, do_pmovsr_write, do_pmxevtyper_write,
    do_teehbr_write; try apply pm_write_keeps; unfold upd; keeps_auto.
Qed.

Lemma cp_do_write_keeps s ri b rt rt2 : 
  harmless ri = true -> (special_of ri =? ARM_CP_NOP) || (special_of ri =? ARM_CP_WFI) = false ->
  keeps (cp_do_write s ri b rt rt2).
Proof.
  unfold harmless. intros H Hs. rewrite Hs in H. cbn [orb] in H. unfold cp_do_write.
  destruct (tst (cp_type ri) ARM_CP_CONST); [apply keeps_ret|]. cbn [orb] in H.
  destruct (writefn ri) as [f|]; [|destruct (fieldoffset ri) as [fo|]].
  - unfold set_cp_reg, set_cp_reg64. destruct b; keeps_auto; apply user_writefn_keeps, H.
  - apply bool_decide_eq_true in H as ->. cbn [put_field]. keeps_auto.
  - keeps_auto.
Qed.

(** Every description that user mode may write is harmless. *)
Definition user_ok (r : ARMCPRegInfo) : bool := negb (tst (access r) 1) || harmless r.

Lemma tables_user_ok f ids r : r ∈ reg_list f ids -> user_ok r = true.
Proof.
  intros Hr. assert (Hall : forallb (fun p => forallb user_ok (snd p)) (reg_blocks f ids) = true) by (vm_compute; reflexivity).
  rewrite forallb_forall in Hall. apply elem_flat_map in Hr as ([g b] & Hb & Hr).
  apply list_elem_of_In, Hall in Hb. cbn in Hb. rewrite forallb_forall in Hb. apply Hb, list_elem_of_In.
  destruct g; [exact Hr|set_solver].
Qed.

Lemma insn_addr_ok insn : addr_ok (insn_addr insn).
Proof.
  assert (H4 : forall z, 0 <= Z.land z 0xf < 16) by (intros z; apply (land_mask_range z 4); lia).
  assert (H3 : forall z, 0 <= Z.land z 7 < 8) by (intros z; apply (land_mask_range z 3); lia).
  split; cbn; try apply H4; destruct (_ =? 0); first [apply H4 | apply H3 | lia | idtac].
  pose proof (H3 (Z.shiftr insn 21)). lia.
Qed.

Lemma land1_cases z : Z.land z 1 = 0 \/ Z.land z 1 = 1.
Proof. pose proof (land_mask_range z 1 ltac:(lia)) as H. change (Z.ones 1) with 1 in H. lia. Qed.

(** One access, in user mode, to a register of the tables. *)
Lemma cp_access_keeps f ids t s insn e r e' :
  implements 0 t (rev (reg_list f ids)) -> arm_current_pl (ce_cpu e) = 0 ->
  cp_access t s insn e = Done (r, e') -> same_mmu e e'.
Proof.
  intros Himp Hpl Hrun. unfold cp_access in Hrun. rewrite (Himp _ (insn_addr_ok insn)) in Hrun.
  destruct (spec_lookup 0 _ (insn_addr insn)) as [ri|] eqn:El; [|apply ret_Done in Hrun as [_ ->]; reflexivity].
  apply spec_lookup_some in El as (r0 & Hr0 & _ & ->).
  apply list_elem_of_In, in_rev, list_elem_of_In, tables_user_ok in Hr0 as Huser.
  apply bind_Done in Hrun as (ok & e4 & [Hacc ->]%gets_Done & Hrun). unfold cp_access_ok in Hacc. rewrite Hpl in Hacc.
  destruct ok; [|apply ret_Done in Hrun as [_ ->]; reflexivity]. cbn [negb] in Hrun.
  fold (special_of (defines 0 (insn_addr insn) r0)) in Hrun. set (d := defines 0 (insn_addr insn) r0) in *.
  assert (Hd : (Z.land (Z.shiftr insn 20) 1 =? 1) = false -> harmless d = true).
  { intros Hw. destruct (land1_cases (Z.shiftr insn 20)) as [E|E]; rewrite E in Hw, Hacc; [|discriminate Hw].
    unfold user_ok in Huser. change (access r0) with (access d) in Huser. change (harmless r0) with (harmless d) in Huser.
    rewrite Z.shiftr_0_r in Hacc. rewrite Hacc in Huser. exact Huser. }
  destruct (special_of d =? ARM_CP_NOP) eqn:E1; [apply ret_Done in Hrun as [_ ->]; reflexivity|].
  destruct (special_of d =? ARM_CP_WFI) eqn:E2.
  { match type of Hrun with ?m _ = _ => assert (K : keeps m) by keeps_auto; exact (K _ _ _ Hrun) end. }
  destruct (_ =? 1) eqn:E3; [exact (cp_do_read_keeps _ _ _ _ _ _ _ _ Hrun)|].
  refine (cp_do_write_keeps _ _ _ _ _ (Hd eq_refl) _ _ _ _ Hrun). rewrite E1, E2. reflexivity.
Qed.

Lemma registered_implements c ids t :
  arm_feature c ARM_FEATURE_M = false -> features_ok (arm_feature c) = true ->
  register_cp_regs_for_features c ids ∅ = Done (tt, t) -> implements 0 t (rev (reg_list (arm_feature c) ids)).
Proof.
  intros HM Hok Hreg. destruct (registration_run c ids HM Hok) as (t' & Ht & Hi).
  rewrite Ht in Hreg. injection Hreg as <-. exact Hi.
Qed.

(** C10. A program in user mode cannot change address translation through the
    coprocessors: with the registers any processor registers, whatever
    instruction it executes, whether it runs, traps or is undefined, the
    translation control registers, physical memory, the feature bits and the
    TLB are what they were. *)
Theorem user_keeps_translation c ids t s insn e r e' :
  arm_feature c ARM_FEATURE_M = false -> features_ok (arm_feature c) = true ->
  register_cp_regs_for_features c ids ∅ = Done (tt, t) ->
  arm_current_pl (ce_cpu e) = 0 ->
  disas_coproc_insn t s insn e = Done (r, e') ->
  same_tables (ce_sys e) (ce_sys e') /\ ce_tlb e' = ce_tlb e.
Proof.
  intros HM Hok Hreg Hpl Hrun. fold (same_mmu e e').
  unfold disas_coproc_insn, has_feature in Hrun.
  apply bind_Done in Hrun as (xs & e1 & [_ ->]%gets_Done & Hrun).
  apply bind_Done in Hrun as (cpar & e2 & [_ ->]%gets_Done & Hrun).
  apply bind_Done in Hrun as (iw & e3 & [_ ->]%gets_Done & Hrun).
  repeat match type of Hrun with
  | (if ?b then ret _ else _) _ = _ => destruct b; [apply ret_Done in Hrun as [_ ->]; reflexivity|]
  end.
  exact (cp_access_keeps _ _ _ _ _ _ _ _ (registered_implements c ids t HM Hok Hreg) Hpl Hrun).
Qed.
End User.

(** ** Writes and the TLB *)
Section Writes.
Context {PH : PhysMem} {NV : Nvic} {ME : MmuEnv} {TL : Tlb} {TLL : TlbLaws} {CE : CpEnv}.

(** [cpu_interrupt] changes no feature bit. *)
Class CpEnvLaws := { cpu_interrupt_features m c : features (cpu_interrupt m c) = features c }.
Context {CEL : CpEnvLaws}.

Lemma tlb_ok_flushed s g tb : tlb_ok s (tlb_flush g tb).
Proof. intros a i p q t _ _ H. rewrite tlb_flush_lookup in H. discriminate H. Qed.

Lemma tlb_ok_page s a tb : tlb_ok s tb -> tlb_ok s (tlb_flush_page a tb).
Proof. intros Ht b i p q t Hb Hat Hl Hq. apply tlb_flush_page_lookup in Hl as [_ Hl]. exact (Ht b i p q t Hb Hat Hl Hq). Qed.

Definition sound (e : cp_env) : Prop := uses_mpu (ce_sys e) = false /\ tlb_ok (ce_sys e) (ce_tlb e).

Lemma keeps_sound {A} (m : M cp_env A) e a e' : keeps m -> sound e -> m e = Done (a, e') ->
  tlb_ok (ce_sys e') (ce_tlb e').
Proof. intros Hk [Hm Ht] Hr. destruct (Hk _ _ _ Hr) as [Hs ->]. exact (tlb_ok_tables _ _ _ Hs Hm Ht). Qed.

(** The functions that assign an input of the walks and do not flush. *)
Definition stale_writefn (f : CPWriteFn) : bool :=
  match f with vmsa_ttbcr_write | ttbr164_write => true | _ => false end.

(** The functions that flush, entirely or a page, on some path. *)
Definition flushing (f : CPWriteFn) : bool :=
  match f with
  | dacr_write | fcse_write | contextidr_write | tlbiall_write | tlbimva_write | tlbiasid_write | tlbimvaa_write
  | ttbr064_write | sctlr_write => true
  | _ => false
  end.

Lemma writefn_keeps f ri v :
  stale_writefn f = false -> flushing f = false ->
  (f = vbar_write -> exists r, fieldoffset ri = Some (F15 r) /\ bool_decide (r ∈ mmu_regs) = false) ->
  keeps (run_writefn f ri v).
Proof.
  intros Hs Hf Hv. destruct f; try discriminate Hs; try discriminate Hf; clear Hs Hf; cbn [run_writefn].
  all: try (destruct (Hv eq_refl) as (r & Ef & Hr); unfold do_vbar_write; rewrite Ef; cbn [put_field];
            apply keeps_bind; [apply keeps_put, Hr|intros; apply keeps_ret]).
  all: unfold do_pmcr_write, do_pmcntenset_write, do_pmcntenclr_write, do_pmovsr_write, do_pmxevtyper_write,
    do_pmuserenr_write, do_pmintenset_write, do_pmintenclr_write, do_csselr_write, do_teecr_write, do_teehbr_write,
    do_par_write, do_ats_write, do_pmsav5_data_ap_write, do_pmsav5_insn_ap_write, do_arm946_prbs_write,
    do_omap_ticonfig_write, do_omap_threadid_write, do_omap_wfi_write, do_omap_cachemaint_write, do_xscale_cpar_write,
    do_cpacr_write, do_par64_write, write_pair, do_arm_cp_write_ignore, flush_tb, has_feature;
    try apply pm_write_keeps; unfold upd; keeps_auto.
  - intros e b e'. unfold walk_result. destruct (get_phys_addr _ _ _ _); intros [= <- <-]. reflexivity.
  - apply cpu_interrupt_features.
Qed.

Lemma flushing_ok f ri v e x e' :
  flushing f = true -> sound e -> run_writefn f ri v e = Done (x, e') -> tlb_ok (ce_sys e') (ce_tlb e').
Proof.
  intros Hf He Hr. destruct f; try discriminate Hf; cbn [run_writefn] in Hr.
  all: unfold do_dacr_write, do_fcse_write, do_contextidr_write, do_tlbiall_write, do_tlbimva_write,
    do_tlbiasid_write, do_tlbimvaa_write, do_ttbr064_write, do_sctlr_write, write_pair, has_feature, put, flush_tlb,
    flush_tlb_page in Hr.
  all: mruns; cbn [ce_sys ce_tlb put15 set_sys set_tlb]; first
    [ apply tlb_ok_flushed | apply tlb_ok_page, He
    | refine (tlb_ok_tables _ _ _ _ (proj1 He) (proj2 He)); repeat split; repeat constructor ].
Qed.

(** C14. Writing a coprocessor register keeps the TLB right: from a state
    whose TLB agrees with the page tables, after any of the write functions,
    with any value, the TLB agrees with the page tables as the new register
    values select them.  The functions for TTBCR and the 64-bit TTBR1, which
    assign inputs of the walk without a complete flush, are the exceptions. *)
Theorem cp_write_tlb_ok f ri v e x e' :
  stale_writefn f = false ->
  (f = vbar_write -> exists r, fieldoffset ri = Some (F15 r) /\ bool_decide (r ∈ mmu_regs) = false) ->
  uses_mpu (ce_sys e) = false -> tlb_ok (ce_sys e) (ce_tlb e) ->
  run_writefn f ri v e = Done (x, e') -> tlb_ok (ce_sys e') (ce_tlb e').
Proof.
  intros Hs Hv Hm Ht Hr. destruct (flushing f) eqn:Hf.
  - exact (flushing_ok f ri v e x e' Hf (conj Hm Ht) Hr).
  - exact (keeps_sound _ e x e' (writefn_keeps f ri v Hs Hf Hv) (conj Hm Ht) Hr).
Qed.
End Writes.

(** ** The two formats of the MPU access bits *)

(** The bits of a constant mask, evaluated. *)
Ltac mask_bits :=
  repeat match goal with
  | |- context [Z.testbit (u32 ?x) ?n] =>
      let b := eval vm_compute in (Z.testbit (u32 x) n) in change (Z.testbit (u32 x) n) with b
  end;
  rewrite ?andb_false_r, ?andb_true_r, ?orb_false_r, ?orb_false_l.

Lemma simple_bit w n : 0 <= n < 16 -> Z.testbit (simple_mpu_ap_bits w) n = Z.testbit w (n + 2 * (n / 2)).
Proof.
  intros Hn. unfold simple_mpu_ap_bits, ap_steps. cbn [fold_left].
  assert (Hc : n ∈ seqZ 0 16) by (apply elem_of_seqZ; lia). clear Hn. revert n Hc.
  apply Forall_forall. unfold seqZ. cbn [seq map fmap list_fmap Z.to_nat Pos.to_nat Pos.iter_op Nat.add].
  repeat constructor; rewrite !Z.lor_spec, !Z.land_spec, !Z.shiftr_spec by lia; rewrite Z.bits_0; mask_bits; reflexivity.
Qed.

Lemma u32_bit z n : n < 32 -> Z.testbit (u32 z) n = Z.testbit z n.
Proof. intros H. apply Z.mod_pow2_bits_low. exact H. Qed.

Lemma extended_bit v n : 0 <= n < 16 ->
  Z.testbit (extended_mpu_ap_bits v) (n + 2 * (n / 2)) = Z.testbit v n.
Proof.
  intros Hn. unfold extended_mpu_ap_bits, ap_steps. cbn [fold_left].
  assert (Hc : n ∈ seqZ 0 16) by (apply elem_of_seqZ; lia). clear Hn. revert n Hc.
  apply Forall_forall. unfold seqZ. cbn [seq map fmap list_fmap Z.to_nat Pos.to_nat Pos.iter_op Nat.add].
  repeat (apply Forall_cons; split; [rewrite !Z.lor_spec, Z.bits_0; rewrite !u32_bit by (vm_compute; reflexivity);
    rewrite !Z.shiftl_spec, !Z.land_spec by (vm_compute; congruence); mask_bits; reflexivity|]).
  apply Forall_nil_2.
Qed.

Lemma simple_range w : 0 <= simple_mpu_ap_bits w < 2 ^ 16.
Proof.
  unfold simple_mpu_ap_bits, ap_steps. cbn [fold_left].
  repeat (apply (lor_below _ _ 16); [lia| |rewrite Z.land_comm; apply (land_below _ _ 16); [lia|split; vm_compute; congruence]]).
  lia.
Qed.

Lemma simple_extended v : 0 <= v < 2 ^ 16 -> simple_mpu_ap_bits (u32 (extended_mpu_ap_bits v)) = v.
Proof.
  intros Hv. apply Z.bits_inj'. intros n Hn. destruct (Z.lt_ge_cases n 16) as [Hl|Hl].
  - rewrite simple_bit, u32_bit, extended_bit by (Z.div_mod_to_equations; lia). reflexivity.
  - rewrite (testbit_above _ 16), (testbit_above v 16) by (lia || apply simple_range). reflexivity.
Qed.

(** The MPU's short access registers read back what was written: the
    conversion to the extended format that is stored and the conversion back
    are inverse on the sixteen bits of the register, for data and for
    instruction accesses. *)
Lemma mpu_ap_roundtrip {PH : PhysMem} {NV : Nvic} {ME : MmuEnv} {TL : Tlb} {CE : CpEnv} ri v (e : cp_env) :
  0 <= v < 2 ^ 16 ->
  exists e1 e2,
    (run_writefn pmsav5_data_ap_write ri v ;; run_readfn pmsav5_data_ap_read ri) e = Done (inr v, e1) /\
    (run_writefn pmsav5_insn_ap_write ri v ;; run_readfn pmsav5_insn_ap_read ri) e = Done (inr v, e2).
Proof.
  intros Hv. assert (Hu : u32 v = v) by (apply u32_small; unfold is_u32; lia).
  eexists _, _. cbn [run_writefn run_readfn].
  unfold do_pmsav5_data_ap_write, do_pmsav5_insn_ap_write, put, bind, modify, ret.
  unfold do_pmsav5_data_ap_read, do_pmsav5_insn_ap_read, rd, gets, c15, put15. cbn [ce_sys set_sys cp15 set_cp15].
  rewrite !cp15_set_eq, Hu, (simple_extended v Hv). split; reflexivity.
Qed.

(** ** Concrete accesses *)
#[local] Existing Instance word_mem.
#[local] Existing Instance mmu_nvic.
#[local] Existing Instance qemu_mmu.
#[local] Existing Instance qemu_mmu_laws.
#[local] Existing Instance map_tlb.
#[local] Existing Instance map_tlb_laws.
Definition plain_env : CpEnv := {|
  tb_cache := unit; tb_flush _ := tt; CPU_INTERRUPT_HALT := 0x20;
  cpu_interrupt m c := set_interrupt_request (Z.lor (interrupt_request c) m) c
|}.
#[local] Existing Instance plain_env.
Lemma plain_env_laws : @CpEnvLaws plain_env.
Proof. split. reflexivity. Qed.
#[local] Existing Instance plain_env_laws.

Definition demo_env (mode feat : Z) (c : cp15_st) : cp_env :=
  {| ce_sys := {| cpu := zero_cpu mode feat; cp15 := c; memory := (∅ : gmap Z Z); intc := tt |};
     ce_tlb := (∅ : gmap (Z * Z) (Z * Z)); ce_tb := tt; teecr := 0; teehbr := 0; ccsidr := replicate 16 0; cpu_index := 0 |}.

Lemma mpu_ap_roundtrip_witness : exists e1 e2,
  (run_writefn pmsav5_data_ap_write (auxcr zero_ids) 0xa5c3 ;; run_readfn pmsav5_data_ap_read (auxcr zero_ids)) (demo_env 0x13 0 (fun _ => 0))
    = Done (inr 0xa5c3, e1) /\
  (run_writefn pmsav5_insn_ap_write (auxcr zero_ids) 0xa5c3 ;; run_readfn pmsav5_insn_ap_read (auxcr zero_ids)) (demo_env 0x13 0 (fun _ => 0))
    = Done (inr 0xa5c3, e2).
Proof. apply mpu_ap_roundtrip. lia. Defined.

(** [mcr p15, 0, r0, c1, c0, 0] writes SCTLR; in user mode it is undefined. *)
Definition demo_user_env : cp_env := demo_env ARM_CPU_MODE_USR (features demo_v7) (fun _ => 0).
Definition mcr_sctlr : Z := 0xee010f10.

Lemma demo_table_lookup t : register_cp_regs_for_features demo_v7 zero_ids ∅ = Done (tt, t) ->
  get_arm_cp_reginfo t (enc (insn_addr mcr_sctlr)) = Some (sctlr zero_ids).
Proof.
  intros H. rewrite (registered_implements demo_v7 zero_ids t eq_refl eq_refl H _ (insn_addr_ok _)).
  vm_compute. reflexivity.
Qed.

Lemma demo_user_undef t : register_cp_regs_for_features demo_v7 zero_ids ∅ = Done (tt, t) ->
  disas_coproc_insn t {| d_pc := 0x8004; d_thumb := false |} mcr_sctlr demo_user_env = Done (CpUndef, demo_user_env).
Proof.
  intros H. unfold disas_coproc_insn, cp_access. rewrite (demo_table_lookup t H). reflexivity.
Qed.

Lemma user_keeps_translation_witness : exists t,
  register_cp_regs_for_features demo_v7 zero_ids ∅ = Done (tt, t) /\ ce_tlb demo_user_env = ∅.
Proof.
  destruct (registration_run demo_v7 zero_ids eq_refl eq_refl) as (t & Ht & _). exists t. split; [exact Ht|].
  exact (proj2 (user_keeps_translation demo_v7 zero_ids t {| d_pc := 0x8004; d_thumb := false |} mcr_sctlr
    demo_user_env CpUndef demo_user_env eq_refl eq_refl Ht eq_refl (demo_user_undef t Ht))).
Defined.

Lemma cp_write_tlb_ok_witness : exists x e',
  run_writefn dacr_write (auxcr zero_ids) 1 (demo_env 0x13 0 (fun _ => 0)) = Done (x, e') /\ tlb_ok (ce_sys e') (ce_tlb e').
Proof.
  eexists _, _. split; [reflexivity|].
  refine (cp_write_tlb_ok dacr_write (auxcr zero_ids) 1 (demo_env 0x13 0 (fun _ => 0)) 0 _ eq_refl _ eq_refl (empty_tlb_ok _) eq_refl).
  intros [=].
Defined.

(** ** What the accesses show *)

(** CONTEXTIDR is described with the field of FCSEIDR: a write goes to
    [c13_context], a read returns [c13_fcse]. *)
Lemma contextidr_reads_fcse : exists ri, ri ∈ cp_reginfo /\ cp_name ri = "CONTEXTIDR"%string /\
  writefn ri = Some contextidr_write /\ readfn ri = None /\ fieldoffset ri = Some (F15 c13_fcse).
Proof. eexists. split; [do 3 (apply list_elem_of_further); apply list_elem_of_here|]. repeat split. Qed.

(** With LPAE, the shift count of [vmsa_ttbcr_write] is the whole register:
    enabling the long-descriptor format is an undefined shift. *)
Lemma ttbcr_eae_undefined :
  run_writefn vmsa_ttbcr_write (auxcr zero_ids) 0x80000000 (demo_env 0x13 (Z.shiftl 1 ARM_FEATURE_LPAE) (fun _ => 0)) = Undefined.
Proof. reflexivity. Qed.

(** The two upper fault status bits never reach the PAR of the short format:
    the masks 20 and 24 lie below the shifts 5 and 6. *)
Lemma par_short_drops b r : x_ret r <> 0 -> par_short b r = Some (Z.lor (Z.shiftl (Z.land (x_ret r) 0xf) 1) 1).
Proof.
  intros H. unfold par_short. rewrite (proj2 (Z.eqb_neq _ _) H). rewrite !Z.shiftr_land.
  change (Z.shiftr (Z.shiftl 10 1) 5) with 0. change (Z.shiftr (Z.shiftl 12 1) 6) with 0.
  rewrite !Z.land_0_r, !Z.lor_0_l. reflexivity.
Qed.
