(* ===== verification/Dsp.v ===== *)
(** * Arithmetic helpers ([target-arm/helper.c])

    Extension, division, bit reversal, the lane operations of the parallel
    additions and subtractions, sums of absolute differences and byte
    selection.  The header that assembles the lanes ([op_addsub.h]) is not
    part of the repository: a lane yields the value given to its [RESULT] and
    the bits it adds to [ge]. *)
From stdpp Require Import base list.
From S2P Require Import Prelude Double ArmTable State CpuState.
Open Scope Z_scope.

(** ** Extension and division *)
Definition to_signed (w z : Z) : Z := (z + 2 ^ (w - 1)) mod 2 ^ w - 2 ^ (w - 1).
Definition int8 (z : Z) : Z := to_signed 8 z.
Definition int16 (z : Z) : Z := to_signed 16 z.

Definition sxtb16 (x : Z) : Z := Z.lor (u16 (int8 x)) (u32 (Z.shiftl (u32 (int8 (Z.shiftr x 16))) 16)).
Definition uxtb16 (x : Z) : Z := Z.lor (u16 (u8 x)) (u32 (Z.shiftl (u32 (u8 (Z.shiftr x 16))) 16)).

(** C's division truncates; [INT_MIN / -1] would be undefined. *)
Definition sdiv (num den : Z) : Z :=
  if den =? 0 then 0 else if (num =? - 2 ^ 31) && (den =? -1) then - 2 ^ 31 else Z.quot num den.
Definition udiv (num den : Z) : Z := if den =? 0 then 0 else Z.div num den.

(** ** Bit reversal *)
Definition shl32 (x n : Z) : Z := u32 (Z.shiftl x n).
Definition rbit (x : Z) : Z :=
  let x := Z.lor (Z.lor (Z.lor (Z.shiftr (Z.land x 0xff000000) 24) (Z.shiftr (Z.land x 0x00ff0000) 8))
             (shl32 (Z.land x 0x0000ff00) 8)) (shl32 (Z.land x 0x000000ff) 24) in
  let x := Z.lor (Z.shiftr (Z.land x 0xf0f0f0f0) 4) (shl32 (Z.land x 0x0f0f0f0f) 4) in
  Z.lor (Z.lor (Z.lor (Z.shiftr (Z.land x 0x88888888) 3) (Z.shiftr (Z.land x 0x44444444) 1))
    (shl32 (Z.land x 0x22222222) 1)) (shl32 (Z.land x 0x11111111) 3).

(** ** Saturating lanes *)
Definition add16_sat (a b : Z) : Z :=
  let res := u16 (a + b) in
  if tst (Z.lxor res a) 0x8000 && negb (tst (Z.lxor a b) 0x8000)
  then if tst a 0x8000 then 0x8000 else 0x7fff else res.
Definition add8_sat (a b : Z) : Z :=
  let res := u8 (a + b) in
  if tst (Z.lxor res a) 0x80 && negb (tst (Z.lxor a b) 0x80) then if tst a 0x80 then 0x80 else 0x7f else res.
Definition sub16_sat (a b : Z) : Z :=
  let res := u16 (a - b) in
  if tst (Z.lxor res a) 0x8000 && tst (Z.lxor a b) 0x8000
  then if tst a 0x8000 then 0x8000 else 0x7fff else res.
Definition sub8_sat (a b : Z) : Z :=
  let res := u8 (a - b) in
  if tst (Z.lxor res a) 0x80 && tst (Z.lxor a b) 0x80 then if tst a 0x80 then 0x80 else 0x7f else res.

Definition add16_usat (a b : Z) : Z := let res := u16 (a + b) in if res <? a then 0xffff else res.
Definition sub16_usat (a b : Z) : Z := if b <? a then u16 (a - b) else 0.
Definition add8_usat (a b : Z) : Z := let res := u8 (a + b) in if res <? a then 0xff else res.
Definition sub8_usat (a b : Z) : Z := if b <? a then u8 (a - b) else 0.

(** ** Modulo and halving lanes: the value given to [RESULT] and the bits of
    [ge] *)
Definition ge16 (n : Z) (b : bool) : Z := if b then Z.shiftl 3 (n * 2) else 0.
Definition ge8 (n : Z) (b : bool) : Z := if b then Z.shiftl 1 n else 0.

Definition SARITH16 (op : Z -> Z -> Z) (a b n : Z) : Z * Z :=
  let sum := op (int16 a) (int16 b) in (sum, ge16 n (0 <=? sum)).
Definition SARITH8 (op : Z -> Z -> Z) (a b n : Z) : Z * Z :=
  let sum := op (int8 a) (int8 b) in (sum, ge8 n (0 <=? sum)).

Definition u_ADD16 (a b n : Z) : Z * Z := let sum := u32 (u16 a + u16 b) in (sum, ge16 n (Z.shiftr sum 16 =? 1)).
Definition u_ADD8 (a b n : Z) : Z * Z := let sum := u32 (u8 a + u8 b) in (sum, ge8 n (Z.shiftr sum 8 =? 1)).
Definition u_SUB16 (a b n : Z) : Z * Z := let sum := u32 (u16 a - u16 b) in (sum, ge16 n (Z.shiftr sum 16 =? 0)).
Definition u_SUB8 (a b n : Z) : Z * Z := let sum := u32 (u8 a - u8 b) in (sum, ge8 n (Z.shiftr sum 8 =? 0)).

Definition sh_ADD16 (a b : Z) : Z := Z.shiftr (int16 a + int16 b) 1.
Definition sh_SUB16 (a b : Z) : Z := Z.shiftr (int16 a - int16 b) 1.
Definition sh_ADD8 (a b : Z) : Z := Z.shiftr (int8 a + int8 b) 1.
Definition sh_SUB8 (a b : Z) : Z := Z.shiftr (int8 a - int8 b) 1.
Definition uh_ADD16 (a b : Z) : Z := Z.shiftr (u32 (u16 a + u16 b)) 1.
Definition uh_SUB16 (a b : Z) : Z := Z.shiftr (u32 (u16 a - u16 b)) 1.
Definition uh_ADD8 (a b : Z) : Z := Z.shiftr (u32 (u8 a + u8 b)) 1.
Definition uh_SUB8 (a b : Z) : Z := Z.shiftr (u32 (u8 a - u8 b)) 1.

(** ** Absolute differences and selection *)
Definition do_usad (a b : Z) : Z := let a := u8 a in let b := u8 b in if b <? a then u8 (a - b) else u8 (b - a).
Definition usad8 (a b : Z) : Z :=
  let sum := do_usad a b in
  let sum := u32 (sum + do_usad (Z.shiftr a 8) (Z.shiftr b 8)) in
  let sum := u32 (sum + do_usad (Z.shiftr a 16) (Z.shiftr b 16)) in
  u32 (sum + do_usad (Z.shiftr a 24) (Z.shiftr b 24)).

Definition sel_flags (flags a b : Z) : Z :=
  let mask := 0 in
  let mask := if tst flags 1 then Z.lor mask 0xff else mask in
  let mask := if tst flags 2 then Z.lor mask 0xff00 else mask in
  let mask := if tst flags 4 then Z.lor mask 0xff0000 else mask in
  let mask := if tst flags 8 then Z.lor mask 0xff000000 else mask in
  Z.lor (Z.land a mask) (Z.land b (u32 (Z.lnot mask))).

(** ** Bits of masked and shifted words *)

(** Statements about each of the 32 bits of a word. *)
Lemma bits32 (P : Z -> Prop) : Forall P (seqZ 0 32) -> forall n, 0 <= n < 32 -> P n.
Proof. intros H n Hn. rewrite Forall_forall in H. apply H, elem_of_seqZ. lia. Qed.

Lemma shl32_bit x k n : n < 32 -> 0 <= n -> Z.testbit (shl32 x k) n = Z.testbit x (n - k).
Proof. intros H H0. unfold shl32, u32. rewrite Z.mod_pow2_bits_low by exact H. apply Z.shiftl_spec. exact H0. Qed.

(** [word_bits] rewrites the bits of a word expression at a constant index
    into bits of its variables. *)
Ltac const_bits :=
  repeat match goal with
  | |- context [Z.testbit (Zpos ?p) ?n] =>
      let b := eval vm_compute in (Z.testbit (Zpos p) n) in change (Z.testbit (Zpos p) n) with b
  end;
  rewrite ?andb_false_r, ?andb_true_r, ?orb_false_r, ?orb_false_l.
Ltac word_bits :=
  rewrite ?Z.lor_spec, ?Z.shiftr_spec, ?shl32_bit, ?Z.land_spec by (vm_compute; congruence); const_bits.
Ltac each_bit tac :=
  apply bits32; unfold seqZ; cbn [seq map fmap list_fmap Z.to_nat Pos.to_nat Pos.iter_op Nat.add];
  repeat (apply Forall_cons; split; [tac|]); apply Forall_nil_2.

Definition swap_bytes (x : Z) : Z :=
  Z.lor (Z.lor (Z.lor (Z.shiftr (Z.land x 0xff000000) 24) (Z.shiftr (Z.land x 0x00ff0000) 8))
    (shl32 (Z.land x 0x0000ff00) 8)) (shl32 (Z.land x 0x000000ff) 24).
Definition swap_nibbles (x : Z) : Z := Z.lor (Z.shiftr (Z.land x 0xf0f0f0f0) 4) (shl32 (Z.land x 0x0f0f0f0f) 4).
Definition reverse_nibbles (x : Z) : Z :=
  Z.lor (Z.lor (Z.lor (Z.shiftr (Z.land x 0x88888888) 3) (Z.shiftr (Z.land x 0x44444444) 1))
    (shl32 (Z.land x 0x22222222) 1)) (shl32 (Z.land x 0x11111111) 3).

Lemma swap_bytes_bit x : forall n, 0 <= n < 32 -> Z.testbit (swap_bytes x) n = Z.testbit x (24 - 8 * (n / 8) + n mod 8).
Proof. unfold swap_bytes. each_bit ltac:(word_bits; reflexivity). Qed.

Lemma swap_nibbles_bit x :
  forall n, 0 <= n < 32 -> Z.testbit (swap_nibbles x) n = Z.testbit x (n + (if n mod 8 <? 4 then 4 else -4)).
Proof. unfold swap_nibbles. each_bit ltac:(word_bits; reflexivity). Qed.

Lemma reverse_nibbles_bit x :
  forall n, 0 <= n < 32 -> Z.testbit (reverse_nibbles x) n = Z.testbit x (n - n mod 4 + (3 - n mod 4)).
Proof. unfold reverse_nibbles. each_bit ltac:(word_bits; reflexivity). Qed.

Lemma rbit_steps x : rbit x = reverse_nibbles (swap_nibbles (swap_bytes x)).
Proof. reflexivity. Qed.

Lemma rbit_bit x : forall n, 0 <= n < 32 -> Z.testbit (rbit x) n = Z.testbit x (31 - n).
Proof.
  rewrite rbit_steps.
  each_bit ltac:(rewrite reverse_nibbles_bit, swap_nibbles_bit, swap_bytes_bit by (vm_compute; intuition congruence); reflexivity).
Qed.

Lemma rbit_range x : is_u32 (rbit x).
Proof.
  rewrite rbit_steps. unfold reverse_nibbles, is_u32.
  assert (H : forall y m k, 0 <= m < 2 ^ 32 -> 0 <= k -> 0 <= Z.shiftr (Z.land y m) k < 2 ^ 32).
  { intros y m k Hm Hk. rewrite Z.land_comm, Z.shiftr_div_pow2 by exact Hk.
    pose proof (land_below m y 32 ltac:(lia) Hm). pose proof (Z.pow_pos_nonneg 2 k ltac:(lia) Hk).
    split; [apply Z.div_pos; lia|]. apply Z.div_lt_upper_bound; nia. }
  repeat apply (lor_below _ _ 32); try lia; first [apply H; lia | apply u32_range].
Qed.

(** [rbit] reverses a word: bit [n] of the result is bit [31 - n] of the
    argument, so the three steps of byte, nibble and bit swaps are equivalent
    to the definition of the instruction, and applying it twice gives the
    word back. *)
Lemma rbit_reverses x : is_u32 x ->
  (forall n, 0 <= n < 32 -> Z.testbit (rbit x) n = Z.testbit x (31 - n)) /\ is_u32 (rbit x) /\ rbit (rbit x) = x.
Proof.
  intros Hx. split; [apply rbit_bit|]. split; [apply rbit_range|]. apply Z.bits_inj'. intros n Hn.
  destruct (Z.lt_ge_cases n 32) as [Hl|Hl].
  - rewrite !rbit_bit by lia. f_equal. lia.
  - rewrite (testbit_above _ 32), (testbit_above x 32) by (lia || exact Hx || apply rbit_range). reflexivity.
Qed.

Lemma rbit_reverses_witness : Z.testbit (rbit 0x12345678) 3 = Z.testbit 0x12345678 28 /\ rbit (rbit 0x12345678) = 0x12345678.
Proof.
  destruct (rbit_reverses 0x12345678 ltac:(split; vm_compute; congruence)) as (H & _ & H').
  split; [exact (H 3 ltac:(lia))|exact H'].
Defined.

(** ** Saturation *)
(** The sign bit of a [w]-bit word. *)
Lemma sign_bit w x : 0 < w -> 0 <= x < 2 ^ w -> Z.testbit x (w - 1) = (2 ^ (w - 1) <=? x).
Proof.
  intros Hw Hx. assert (Hp : 2 ^ w = 2 * 2 ^ (w - 1)) by (rewrite <- Z.pow_succ_r by lia; f_equal; lia).
  destruct (Z.leb_spec (2 ^ (w - 1)) x) as [Hl|Hl].
  - apply Z.testbit_true; [lia|]. replace (x / 2 ^ (w - 1)) with 1; [reflexivity|].
    apply Z.div_unique with (x - 2 ^ (w - 1)); lia.
  - apply (testbit_above x (w - 1)); lia.
Qed.

Lemma tst_sign_bit w x : 0 < w -> 0 <= x < 2 ^ w -> tst x (2 ^ (w - 1)) = (2 ^ (w - 1) <=? x).
Proof.
  intros Hw Hx. unfold tst. rewrite land_pow2, (sign_bit w x) by (assumption || lia).
  pose proof (Z.pow_pos_nonneg 2 (w - 1) ltac:(lia) ltac:(lia)).
  destruct (_ <=? _); [rewrite (proj2 (Z.eqb_neq _ _)) by lia|]; reflexivity.
Qed.

Lemma tst_sign_xor w x y : 0 < w -> 0 <= x < 2 ^ w -> 0 <= y < 2 ^ w ->
  tst (Z.lxor x y) (2 ^ (w - 1)) = xorb (2 ^ (w - 1) <=? x) (2 ^ (w - 1) <=? y).
Proof.
  intros Hw Hx Hy. unfold tst. rewrite land_pow2, Z.lxor_spec, !(sign_bit w) by (assumption || lia).
  pose proof (Z.pow_pos_nonneg 2 (w - 1) ltac:(lia) ltac:(lia)).
  destruct (xorb _ _); [rewrite (proj2 (Z.eqb_neq _ _)) by lia|]; reflexivity.
Qed.

(** The saturating pattern of the helpers, at width [w]. *)
Definition sat_lane (w a b res : Z) (same : bool) : Z :=
  if tst (Z.lxor res a) (2 ^ (w - 1)) && xorb same (tst (Z.lxor a b) (2 ^ (w - 1)))
  then if tst a (2 ^ (w - 1)) then 2 ^ (w - 1) else 2 ^ (w - 1) - 1 else res.

Lemma to_signed_small w z : 0 < w -> 0 <= z < 2 ^ w ->
  to_signed w z = if 2 ^ (w - 1) <=? z then z - 2 ^ w else z.
Proof.
  intros Hw Hz. assert (Hp : 2 ^ w = 2 * 2 ^ (w - 1)) by (rewrite <- Z.pow_succ_r by lia; f_equal; lia).
  unfold to_signed. destruct (Z.leb_spec (2 ^ (w - 1)) z).
  - replace (z + 2 ^ (w - 1)) with ((z - 2 ^ (w - 1)) + 1 * 2 ^ w) by lia. rewrite Z.mod_add, Z.mod_small by lia. lia.
  - rewrite Z.mod_small by lia. lia.
Qed.

Lemma mod_once z m : 0 < m -> - m <= z < 2 * m -> z mod m = if z <? 0 then z + m else if z <? m then z else z - m.
Proof.
  intros Hm Hz. destruct (Z.ltb_spec z 0); [|destruct (Z.ltb_spec z m)].
  - replace z with ((z + m) + (-1) * m) at 1 by lia. rewrite Z.mod_add by lia. apply Z.mod_small. lia.
  - apply Z.mod_small. lia.
  - replace z with ((z - m) + 1 * m) at 1 by lia. rewrite Z.mod_add by lia. apply Z.mod_small. lia.
Qed.

(** [cmp_cases] splits on the comparisons of a goal. *)
Ltac cmp_cases :=
  repeat match goal with
  | |- context [?x <=? ?y] => destruct (Z.leb_spec x y)
  | |- context [?x <? ?y] => destruct (Z.ltb_spec x y)
  end.

Lemma sat_lane_clamp w a b (add : bool) : 0 < w -> 0 <= a < 2 ^ w -> 0 <= b < 2 ^ w ->
  to_signed w (sat_lane w a b ((if add then a + b else a - b) mod 2 ^ w) add) =
  clamp (- 2 ^ (w - 1)) (2 ^ (w - 1) - 1)
    (if add then to_signed w a + to_signed w b else to_signed w a - to_signed w b).
Proof.
  intros Hw Ha Hb. assert (Hp : 2 ^ w = 2 * 2 ^ (w - 1)) by (rewrite <- Z.pow_succ_r by lia; f_equal; lia).
  pose proof (Z.pow_pos_nonneg 2 (w - 1) ltac:(lia) ltac:(lia)) as H0.
  set (res := _ mod _). assert (Hr : 0 <= res < 2 ^ w) by (apply Z.mod_pos_bound; lia).
  assert (Er : res = let z := if add then a + b else a - b in
                     if z <? 0 then z + 2 ^ w else if z <? 2 ^ w then z else z - 2 ^ w).
  { apply mod_once; [lia|]. destruct add; lia. }
  clearbody res. unfold sat_lane. rewrite (tst_sign_xor w res a), (tst_sign_xor w a b), (tst_sign_bit w a) by assumption.
  rewrite (to_signed_small w a), (to_signed_small w b) by assumption.
  set (H := 2 ^ (w - 1)) in *. cbv zeta in Er. rewrite Hp in *. unfold clamp.
  assert (Hs : forall z, 0 <= z < 2 * H -> to_signed w z = if H <=? z then z - 2 * H else z).
  { intros z Hz. rewrite to_signed_small by lia. fold H. rewrite Hp. reflexivity. }
  destruct add; revert Er; cmp_cases; cbn [xorb andb]; intros ->; rewrite Hs by lia; cmp_cases; lia.
Qed.

Lemma usat_add m a b : 0 <= a < m -> 0 <= b < m ->
  (let r := (a + b) mod m in if r <? a then m - 1 else r) = clamp 0 (m - 1) (a + b).
Proof.
  intros Ha Hb. cbv zeta. set (r := _ mod _).
  assert (Er : r = if a + b <? 0 then a + b + m else if a + b <? m then a + b else a + b - m) by (apply mod_once; lia).
  clearbody r. unfold clamp. revert Er. cmp_cases; lia.
Qed.

Lemma usat_sub m a b : 0 <= a < m -> 0 <= b < m -> (if b <? a then (a - b) mod m else 0) = clamp 0 (m - 1) (a - b).
Proof. intros Ha Hb. unfold clamp. cmp_cases; [rewrite Z.mod_small by lia|]; lia. Qed.

(** C38. The saturating lanes compute exactly: for all operands, the signed
    8 and 16-bit additions and subtractions are the exact sum or difference
    of the signed values, clamped to the range of the type, and the unsigned
    ones that of the unsigned values. *)
Theorem saturating_lanes a b x y :
  0 <= a < 2 ^ 16 -> 0 <= b < 2 ^ 16 -> 0 <= x < 2 ^ 8 -> 0 <= y < 2 ^ 8 ->
  int16 (add16_sat a b) = clamp (-32768) 32767 (int16 a + int16 b) /\
  int16 (sub16_sat a b) = clamp (-32768) 32767 (int16 a - int16 b) /\
  int8 (add8_sat x y) = clamp (-128) 127 (int8 x + int8 y) /\
  int8 (sub8_sat x y) = clamp (-128) 127 (int8 x - int8 y) /\
  add16_usat a b = clamp 0 65535 (a + b) /\ sub16_usat a b = clamp 0 65535 (a - b) /\
  add8_usat x y = clamp 0 255 (x + y) /\ sub8_usat x y = clamp 0 255 (x - y).
Proof.
  intros Ha Hb Hx Hy.
  split; [exact (sat_lane_clamp 16 a b true ltac:(lia) Ha Hb)|].
  split; [exact (sat_lane_clamp 16 a b false ltac:(lia) Ha Hb)|].
  split; [exact (sat_lane_clamp 8 x y true ltac:(lia) Hx Hy)|].
  split; [exact (sat_lane_clamp 8 x y false ltac:(lia) Hx Hy)|].
  split; [exact (usat_add _ a b Ha Hb)|]. split; [exact (usat_sub _ a b Ha Hb)|].
  split; [exact (usat_add _ x y Hx Hy)|exact (usat_sub _ x y Hx Hy)].
Qed.

Lemma saturating_lanes_witness :
  int16 (add16_sat 0x7fff 1) = 32767 /\ int8 (sub8_sat 0x80 1) = -128 /\ add8_usat 0xff 2 = 255 /\ sub16_usat 3 5 = 0.
Proof.
  destruct (saturating_lanes 0x7fff 1 0x80 1 ltac:(lia) ltac:(lia) ltac:(lia) ltac:(lia)) as (H1 & _ & _ & H2 & _).
  destruct (saturating_lanes 3 5 0xff 2 ltac:(lia) ltac:(lia) ltac:(lia) ltac:(lia)) as (_ & _ & _ & _ & _ & H3 & H4 & _).
  split; [exact H1|]. split; [exact H2|]. split; [exact H4|exact H3].
Defined.

(** Division by zero gives zero; otherwise the quotient is truncated, and the
    one quotient that does not fit is its two's complement value. *)
Lemma quot_bound n d : 2 <= Z.abs d -> Z.abs n <= 2 ^ 31 -> Z.abs (Z.quot n d) <= 2 ^ 30.
Proof.
  intros Hd Hn. rewrite <- Z.quot_abs, Z.quot_div_nonneg by lia. apply Z.div_le_upper_bound; [lia|]. nia.
Qed.

Lemma sdiv_spec num den : - 2 ^ 31 <= num < 2 ^ 31 -> - 2 ^ 31 <= den < 2 ^ 31 ->
  sdiv num den = if den =? 0 then 0 else s32 (Z.quot num den).
Proof.
  intros Hn Hd. unfold sdiv. destruct (Z.eqb_spec den 0) as [->|Hz]; [reflexivity|].
  destruct (Z.eqb_spec den 1) as [->|H1]; [rewrite Z.quot_1_r, andb_false_r, s32_small by exact Hn; reflexivity|].
  destruct (Z.eqb_spec den (-1)) as [->|H2].
  - rewrite andb_true_r. replace (Z.quot num (-1)) with (- num) by (change (-1) with (- (1)); rewrite Z.quot_opp_r, Z.quot_1_r; lia).
    destruct (Z.eqb_spec num (- 2 ^ 31)) as [->|Hm]; [reflexivity|]. rewrite s32_small by lia. reflexivity.
  - rewrite andb_false_r. pose proof (quot_bound num den ltac:(lia) ltac:(lia)). rewrite s32_small by lia. reflexivity.
Qed.

(** [usad8] adds the absolute differences of the four bytes. *)
Lemma do_usad_abs a b : do_usad a b = Z.abs (u8 a - u8 b).
Proof.
  unfold do_usad, u8. pose proof (Z.mod_pos_bound a (2 ^ 8) ltac:(lia)). pose proof (Z.mod_pos_bound b (2 ^ 8) ltac:(lia)).
  cbv zeta. cmp_cases; rewrite Z.mod_small by lia; lia.
Qed.

Lemma usad8_sum a b :
  usad8 a b = zsum (map (fun k => Z.abs (u8 (Z.shiftr a k) - u8 (Z.shiftr b k))) [0; 8; 16; 24]).
Proof.
  assert (H : forall k, 0 <= Z.abs (u8 (Z.shiftr a k) - u8 (Z.shiftr b k)) < 256).
  { intros k. unfold u8. pose proof (Z.mod_pos_bound (Z.shiftr a k) (2 ^ 8) ltac:(lia)).
    pose proof (Z.mod_pos_bound (Z.shiftr b k) (2 ^ 8) ltac:(lia)). lia. }
  unfold usad8. rewrite !do_usad_abs. cbn [map zsum foldr].
  pose proof (H 0) as H0. pose proof (H 8). pose proof (H 16). pose proof (H 24).
  rewrite (Z.shiftr_0_r a), (Z.shiftr_0_r b) in *.
  set (d0 := Z.abs (u8 a - u8 b)) in *. set (d1 := Z.abs (u8 (Z.shiftr a 8) - _)) in *.
  set (d2 := Z.abs (u8 (Z.shiftr a 16) - _)) in *. set (d3 := Z.abs (u8 (Z.shiftr a 24) - _)) in *.
  rewrite (u32_small (d0 + d1)), (u32_small (d0 + d1 + d2)), u32_small by (unfold is_u32; lia). lia.
Qed.
