(* ===== verification/Softfloat.v ===== *)
(** * The interface to QEMU's softfloat library

    The floating-point helpers of [target-arm/helper.c] compute with the
    softfloat library, which is not part of the repository.  [Softfloat]
    lists what they use of it: the status word with its modes and sticky
    exception flags, the arithmetic functions on bit patterns, and the
    predicates of its header.  [SoftfloatLaws] states how an operation may
    change the status, [SoftfloatIeee] that the binary64 operations round to
    nearest as IEEE 754 prescribes when that mode is selected. *)
From stdpp Require Import base list.
From Stdlib Require Import SpecFloat ZArith.
From S2P Require Import Prelude Double.
Open Scope Z_scope.

(** ** What the code uses of the library *)

Inductive fsz : Set := F32 | F64.

(** The sticky exception flags [float_flag_*]. *)
Inductive float_flag : Set :=
| flag_invalid | flag_divbyzero | flag_overflow | flag_underflow | flag_inexact
| flag_input_denormal | flag_output_denormal.

(** [float_round_*]. *)
Inductive float_round : Set := round_nearest_even | round_down | round_up | round_to_zero.

(** The members of [float_status] that have a setter. *)
Inductive st_field : Set :=
| exception_flags | rounding_mode | flush_to_zero | flush_inputs_to_zero | default_nan_mode.

#[global] Instance st_field_eq_dec : EqDecision st_field.
Proof. solve_decision. Defined.
#[global] Instance float_flag_eq_dec : EqDecision float_flag.
Proof. solve_decision. Defined.

(** The arithmetic functions: they take bit patterns and a status. *)
Inductive sf_fn : Set :=
| float_add (f : fsz) | float_sub (f : fsz) | float_mul (f : fsz) | float_div (f : fsz)
| float_sqrt (f : fsz) | float_compare (f : fsz) | float_compare_quiet (f : fsz)
| float_muladd (f : fsz) | float_scalbn (f : fsz)
| int32_to_float (f : fsz) | uint32_to_float (f : fsz)
| float_to_int32 (f : fsz) | float_to_uint32 (f : fsz)
| float_to_int32_round_to_zero (f : fsz) | float_to_uint32_round_to_zero (f : fsz)
| float_to_int16_round_to_zero (f : fsz) | float_to_uint16_round_to_zero (f : fsz)
| float32_to_float64 | float64_to_float32 | float16_to_float32 | float32_to_float16
| float64_to_int64_round_to_zero | int64_to_float64 | float64_lt.

Class Softfloat := {
  float_status : Type;
  float_flag_val : float_flag -> Z;
  float_round_val : float_round -> Z;
  st_get : st_field -> float_status -> Z;
  st_set : st_field -> Z -> float_status -> float_status;
  float_raise : Z -> float_status -> float_status;
  sf_run : sf_fn -> list Z -> float_status -> Z * float_status;
  float_chs : fsz -> Z -> Z;
  float_abs : fsz -> Z -> Z;
  float_maybe_silence_nan : fsz -> Z -> Z;
  float16_maybe_silence_nan : Z -> Z;
  float_is_any_nan : fsz -> Z -> bool;
  float32_is_signaling_nan : Z -> bool;
  float32_is_infinity : Z -> bool;
  float32_is_zero : Z -> bool;
  float32_is_zero_or_denormal : Z -> bool;
  float32_is_neg : Z -> bool;
  float32_set_sign : Z -> bool -> Z;
  float32_default_nan : Z;
  float32_zero : Z;
  float32_infinity : Z;
  float64_half : Z;
  float64_one : Z
}.

(** ** What it promises *)

Section Raises.
Context {SF : Softfloat}.

(** An operation keeps the modes and only adds exception flags. *)
Definition raises (s s' : float_status) : Prop :=
  (forall f, f <> exception_flags -> st_get f s' = st_get f s) /\
  (forall n, Z.testbit (st_get exception_flags s) n = true -> Z.testbit (st_get exception_flags s') n = true).

Definition nearest_even (s : float_status) : Prop :=
  st_get rounding_mode s = float_round_val round_nearest_even.

#[global] Instance raises_preorder : PreOrder raises.
Proof.
  split.
  - intros s. split; auto.
  - intros s1 s2 s3 [A B] [C D]. split; [intros f Hf; rewrite C, A by exact Hf; reflexivity|auto].
Qed.

Lemma raises_nearest s s' : raises s s' -> nearest_even s -> nearest_even s'.
Proof. intros [H _] Hn. unfold nearest_even. rewrite H by discriminate. exact Hn. Qed.
End Raises.

Class SoftfloatLaws `{SF : Softfloat} := {
  st_get_set f g v s : st_get f (st_set g v s) = if decide (f = g) then v else st_get f s;
  flag_nonzero x : 0 < float_flag_val x;
  flag_disjoint x y : x <> y -> Z.land (float_flag_val x) (float_flag_val y) = 0;
  float_raise_flags v s : st_get exception_flags (float_raise v s) = Z.lor (st_get exception_flags s) v;
  float_raise_modes f v s : f <> exception_flags -> st_get f (float_raise v s) = st_get f s;
  sf_run_raises fn args s : raises s (sf_run fn args s).2
}.

Lemma float_raise_raises `{SoftfloatLaws} v s : raises s (float_raise v s).
Proof.
  split; [intros f Hf; apply float_raise_modes; exact Hf|].
  intros n Hn. rewrite float_raise_flags, Z.lor_spec, Hn. reflexivity.
Qed.

(** ** Bit patterns of binary64 numbers *)

Definition of_bits (b : Z) : double :=
  let m := b mod 2 ^ 52 in
  let e := (b / 2 ^ 52) mod 2 ^ 11 in
  let s := Z.testbit b 63 in
  if e =? 0 then match m with Zpos p => S754_finite s p (-1074) | _ => S754_zero s end
  else if e =? 2047 then if m =? 0 then S754_infinity s else S754_nan
  else S754_finite s (Z.to_pos (m + 2 ^ 52)) (e - 1075).

(** A positive number with a full significand. *)
Definition pos_normal (x : double) : bool :=
  match x with
  | S754_finite false m e => (2 ^ 52 <=? Zpos m) && (Zpos m <? 2 ^ 53) && (-1074 <=? e) && (e <=? 971)
  | _ => false
  end.

Definition f64_bits (x : double) : Z :=
  match x with
  | S754_finite s m e => (if s then 2 ^ 63 else 0) + (e + 1075) * 2 ^ 52 + (Zpos m - 2 ^ 52)
  | _ => 0
  end.

(** The bit pattern of a normal number determines it. *)
Lemma f64_bits_normal m e : 0 <= m < 2 ^ 52 -> 1 <= e <= 2046 ->
  of_bits (e * 2 ^ 52 + m) = S754_finite false (Z.to_pos (m + 2 ^ 52)) (e - 1075).
Proof.
  intros Hm He. assert (Hb : 0 <= e * 2 ^ 52 + m < 2 ^ 63) by lia. unfold of_bits.
  rewrite (testbit_above _ 63 63 Hb) by lia.
  rewrite (Z.add_comm (e * 2 ^ 52)), Z.mod_add, Z.div_add, (Z.mod_small m), (Z.div_small m), Z.add_0_l by lia.
  rewrite (Z.mod_small e) by lia. destruct (Z.eqb_spec e 0); [lia|]. destruct (Z.eqb_spec e 2047); [lia|]. reflexivity.
Qed.

Lemma of_f64_bits x : pos_normal x = true -> of_bits (f64_bits x) = x.
Proof.
  destruct x as [| | |[] m e]; try discriminate. cbn [pos_normal f64_bits]. rewrite !andb_true_iff. intros [[[A B] C] D].
  apply Z.leb_le in A, C, D. apply Z.ltb_lt in B. rewrite Z.add_0_l, f64_bits_normal by lia.
  replace (Zpos m - 2 ^ 52 + 2 ^ 52) with (Zpos m) by lia. f_equal. lia.
Qed.

(** ** IEEE arithmetic

    In round-to-nearest mode an operation on positive normal numbers whose
    rounded result is a positive normal number returns it. *)
Class SoftfloatIeee `{SF : Softfloat} := {
  ieee_op2 fn (op : double -> double -> double) a b s :
    (fn, op) ∈ [(float_add F64, d_add); (float_mul F64, d_mul); (float_div F64, d_div)] ->
    nearest_even s -> pos_normal (of_bits a) = true -> pos_normal (of_bits b) = true ->
    pos_normal (op (of_bits a) (of_bits b)) = true ->
    (sf_run fn [a; b] s).1 = f64_bits (op (of_bits a) (of_bits b));
  ieee_sqrt a s : nearest_even s -> pos_normal (of_bits a) = true -> pos_normal (SFsqrt 53 1024 (of_bits a)) = true ->
    (sf_run (float_sqrt F64) [a] s).1 = f64_bits (SFsqrt 53 1024 (of_bits a));
  ieee_trunc a s z : pos_normal (of_bits a) = true -> d_trunc (of_bits a) = Some z -> z < 2 ^ 63 ->
    (sf_run float64_to_int64_round_to_zero [a] s).1 = z;
  ieee_of_int z s : 0 < z < 2 ^ 53 -> (sf_run int64_to_float64 [z] s).1 = f64_bits (d_of_Z z);
  ieee_lt a b s : pos_normal (of_bits a) = true -> pos_normal (of_bits b) = true ->
    (sf_run float64_lt [a; b] s).1 = if d_ltb (of_bits a) (of_bits b) then 1 else 0;
  half_bits : float64_half = Z.shiftl 0x3fe 52;
  one_bits : float64_one = Z.shiftl 0x3ff 52
}.

(** The classification of binary32 bit patterns. *)
Definition f32_exp (a : Z) : Z := Z.land (Z.shiftr a 23) 0xff.
Definition f32_frac (a : Z) : Z := Z.land a 0x7fffff.

Class SoftfloatFormat `{SF : Softfloat} := {
  is_nan32 a : is_u32 a -> float_is_any_nan F32 a = (f32_exp a =? 255) && negb (f32_frac a =? 0);
  is_inf32 a : is_u32 a -> float32_is_infinity a = (f32_exp a =? 255) && (f32_frac a =? 0);
  is_zod32 a : is_u32 a -> float32_is_zero_or_denormal a = (f32_exp a =? 0);
  is_zero32 a : is_u32 a -> float32_is_zero a = (f32_exp a =? 0) && (f32_frac a =? 0);
  is_neg32 a : is_u32 a -> float32_is_neg a = Z.testbit a 31;
  set_sign32 a b : is_u32 a -> float32_set_sign a b = Z.lor (Z.land a 0x7fffffff) (if b then 0x80000000 else 0);
  zero32 : float32_zero = 0;
  infinity32 : float32_infinity = 0x7f800000
}.

(** ** A library that keeps the promises

    Binary64 arithmetic by the Standard Library's specification; the flags
    are raised by [float_raise] alone. *)
Definition soft_run (fn : sf_fn) (args : list Z) : Z :=
  match fn, args with
  | float_add F64, [a; b] => f64_bits (d_add (of_bits a) (of_bits b))
  | float_mul F64, [a; b] => f64_bits (d_mul (of_bits a) (of_bits b))
  | float_div F64, [a; b] => f64_bits (d_div (of_bits a) (of_bits b))
  | float_sqrt F64, [a] => f64_bits (SFsqrt 53 1024 (of_bits a))
  | float64_to_int64_round_to_zero, [a] => match d_trunc (of_bits a) with Some z => z | None => 0 end
  | int64_to_float64, [z] => f64_bits (d_of_Z z)
  | float64_lt, [a; b] => if d_ltb (of_bits a) (of_bits b) then 1 else 0
  | _, _ => 0
  end.

Definition soft : Softfloat := {|
  float_status := st_field -> Z;
  float_flag_val f := match f with
    | flag_invalid => 1 | flag_divbyzero => 4 | flag_overflow => 8 | flag_underflow => 16
    | flag_inexact => 32 | flag_input_denormal => 64 | flag_output_denormal => 128 end;
  float_round_val r := match r with round_nearest_even => 0 | round_down => 1 | round_up => 2 | round_to_zero => 3 end;
  st_get f s := s f;
  st_set f v s := fun g => if decide (g = f) then v else s g;
  float_raise v s := fun g => if decide (g = exception_flags) then Z.lor (s g) v else s g;
  sf_run fn args s := (soft_run fn args, s);
  float_chs f a := Z.lxor a (match f with F32 => 2 ^ 31 | F64 => 2 ^ 63 end);
  float_abs f a := Z.land a (match f with F32 => Z.ones 31 | F64 => Z.ones 63 end);
  float_maybe_silence_nan f a := a;
  float16_maybe_silence_nan a := a;
  float_is_any_nan f a := match f with
    | F32 => (f32_exp a =? 255) && negb (f32_frac a =? 0)
    | F64 => match of_bits a with S754_nan => true | _ => false end end;
  float32_is_signaling_nan a := (f32_exp a =? 255) && negb (f32_frac a =? 0) && negb (Z.testbit a 22);
  float32_is_infinity a := (f32_exp a =? 255) && (f32_frac a =? 0);
  float32_is_zero a := (f32_exp a =? 0) && (f32_frac a =? 0);
  float32_is_zero_or_denormal a := f32_exp a =? 0;
  float32_is_neg a := Z.testbit a 31;
  float32_set_sign a b := Z.lor (Z.land a 0x7fffffff) (if b then 0x80000000 else 0);
  float32_default_nan := 0x7fc00000;
  float32_zero := 0;
  float32_infinity := 0x7f800000;
  float64_half := Z.shiftl 0x3fe 52;
  float64_one := Z.shiftl 0x3ff 52
|}.

Lemma soft_laws : @SoftfloatLaws soft.
Proof.
  split.
  - intros f g v s. reflexivity.
  - intros []; reflexivity.
  - intros [] []; try reflexivity; congruence.
  - intros v s. reflexivity.
  - intros f v s Hf. cbn. rewrite decide_False by exact Hf. reflexivity.
  - intros fn args s. reflexivity.
Qed.

Lemma soft_ieee : @SoftfloatIeee soft.
Proof.
  split; try reflexivity.
  - intros fn op a b s Hin _ _ _ _. rewrite !elem_of_cons, elem_of_nil in Hin.
    destruct_or! Hin; try injection Hin as -> ->; done.
  - intros a s z _ Ht _. cbn -[of_bits d_trunc]. rewrite Ht. reflexivity.
Qed.

Lemma soft_format : @SoftfloatFormat soft.
Proof. split; reflexivity. Qed.
