(* ===== verification/Vfp.v ===== *)
(** * The floating-point unit ([target-arm/helper.c], [cpu.h])

    The status and control register FPSCR, whose fields the code keeps in
    three places (the register word, the vector length and stride, and the
    modes and sticky flags of two softfloat statuses), the helpers that
    compute with one of the statuses, the debugger's access, and the flags
    that identify a translation block. *)
From stdpp Require Import base list relations.
From Stdlib Require Import Btauto.
From S2P Require Import Prelude Double ArmTable State CpuState Errors OpHelper CpuMode Sys Softfloat.
Open Scope Z_scope.

Definition ARM_VFP_FPSID : Z := 0.
Definition ARM_VFP_FPSCR : Z := 1.
Definition ARM_VFP_FPEXC : Z := 8.

(** The byte order functions of QEMU's headers. *)
Class GdbBuf := {
  stfq_le_p : Z -> list Z;
  ldfq_le_p : list Z -> Z;
  stl_p : Z -> list Z;
  ldl_p : list Z -> Z
}.

(** A stored word of eight or four bytes is loaded back. *)
Class GdbBufLaws `{GdbBuf} := {
  stfq_length v : length (stfq_le_p v) = 8%nat;
  ldfq_stfq v r : 0 <= v < 2 ^ 64 -> ldfq_le_p (stfq_le_p v ++ r) = v;
  ldl_stl v r : is_u32 v -> ldl_p (stl_p v ++ r) = v
}.

Section Vfp.
Context {SF : Softfloat}.

(** The members of [vfp] beside the data registers, which are in [cpu_st],
    and [bswap_code]. *)
Record vfp_env : Type := {
  vcpu : cpu_st;
  xregs : list Z;
  vec_len : Z;
  vec_stride : Z;
  fp_status : float_status;
  standard_fp_status : float_status;
  bswap_code : Z
}.

Definition set_vcpu (x : cpu_st) (e : vfp_env) : vfp_env :=
  {| vcpu := x; xregs := xregs e; vec_len := vec_len e; vec_stride := vec_stride e; fp_status := fp_status e;
     standard_fp_status := standard_fp_status e; bswap_code := bswap_code e |}.
Definition set_xreg (i v : Z) (e : vfp_env) : vfp_env :=
  {| vcpu := vcpu e; xregs := zset (xregs e) i v; vec_len := vec_len e; vec_stride := vec_stride e; fp_status := fp_status e;
     standard_fp_status := standard_fp_status e; bswap_code := bswap_code e |}.
Definition set_vec (l d : Z) (e : vfp_env) : vfp_env :=
  {| vcpu := vcpu e; xregs := xregs e; vec_len := l; vec_stride := d; fp_status := fp_status e;
     standard_fp_status := standard_fp_status e; bswap_code := bswap_code e |}.
Definition set_fp_status (x : float_status) (e : vfp_env) : vfp_env :=
  {| vcpu := vcpu e; xregs := xregs e; vec_len := vec_len e; vec_stride := vec_stride e; fp_status := x;
     standard_fp_status := standard_fp_status e; bswap_code := bswap_code e |}.
Definition set_standard_fp_status (x : float_status) (e : vfp_env) : vfp_env :=
  {| vcpu := vcpu e; xregs := xregs e; vec_len := vec_len e; vec_stride := vec_stride e; fp_status := fp_status e;
     standard_fp_status := x; bswap_code := bswap_code e |}.

Definition fpscr_reg (e : vfp_env) : Z := nthz (xregs e) ARM_VFP_FPSCR.

(** ** FPSCR *)

Definition set_if (b : bool) (bit v : Z) : Z := if b then Z.lor v bit else v.

Definition vfp_exceptbits_from_host (host_bits : Z) : Z :=
  set_if (tst host_bits (float_flag_val flag_input_denormal)) 0x80
  (set_if (tst host_bits (float_flag_val flag_inexact)) 0x10
  (set_if (tst host_bits (Z.lor (float_flag_val flag_underflow) (float_flag_val flag_output_denormal))) 8
  (set_if (tst host_bits (float_flag_val flag_overflow)) 4
  (set_if (tst host_bits (float_flag_val flag_divbyzero)) 2
  (set_if (tst host_bits (float_flag_val flag_invalid)) 1 0))))).

Definition vfp_exceptbits_to_host (target_bits : Z) : Z :=
  set_if (tst target_bits 0x80) (float_flag_val flag_input_denormal)
  (set_if (tst target_bits 0x10) (float_flag_val flag_inexact)
  (set_if (tst target_bits 8) (float_flag_val flag_underflow)
  (set_if (tst target_bits 4) (float_flag_val flag_overflow)
  (set_if (tst target_bits 2) (float_flag_val flag_divbyzero)
  (set_if (tst target_bits 1) (float_flag_val flag_invalid) 0))))).

Definition vfp_get_fpscr (e : vfp_env) : Z :=
  let fpscr := Z.lor (Z.lor (Z.land (fpscr_reg e) 0xffc8ffff) (Z.shiftl (vec_len e) 16)) (Z.shiftl (vec_stride e) 20) in
  let i := Z.lor (st_get exception_flags (fp_status e)) (st_get exception_flags (standard_fp_status e)) in
  Z.lor fpscr (vfp_exceptbits_from_host i).

Definition fpscr_round (i : Z) : float_round :=
  match i with
  | 0 => round_nearest_even
  | 1 => round_up
  | 2 => round_down
  | _ => round_to_zero
  end.

Definition b2z (b : bool) : Z := if b then 1 else 0.

Definition vfp_set_fpscr (val : Z) (e : vfp_env) : vfp_env :=
  let changed := fpscr_reg e in
  let e := set_xreg ARM_VFP_FPSCR (Z.land val 0xffc8ffff) e in
  let e := set_vec (Z.land (Z.shiftr val 16) 7) (Z.land (Z.shiftr val 20) 3) e in
  let changed := Z.lxor changed val in
  let s := fp_status e in
  let s := if tst changed (Z.shiftl 3 22) then
             st_set rounding_mode (float_round_val (fpscr_round (Z.land (Z.shiftr val 22) 3))) s else s in
  let s := if tst changed (Z.shiftl 1 24) then
             let z := b2z (tst val (Z.shiftl 1 24)) in
             st_set flush_inputs_to_zero z (st_set flush_to_zero z s) else s in
  let s := if tst changed (Z.shiftl 1 25) then st_set default_nan_mode (b2z (tst val (Z.shiftl 1 25))) s else s in
  let s := st_set exception_flags (vfp_exceptbits_to_host val) s in
  set_standard_fp_status (st_set exception_flags 0 (standard_fp_status e)) (set_fp_status s e).

(** ** Helpers that compute with a status *)

(** The status a helper is given ([get_fpstatus_ptr] of [translate.c]). *)
Inductive fpst : Set := Normal | Standard.

Definition get_status (p : fpst) (e : vfp_env) : float_status :=
  match p with Normal => fp_status e | Standard => standard_fp_status e end.
Definition put_status (p : fpst) (s : float_status) (e : vfp_env) : vfp_env :=
  match p with Normal => set_fp_status s e | Standard => set_standard_fp_status s e end.

(** A call of the library on the bit patterns [args]. *)
Definition soft_call (p : fpst) (fn : sf_fn) (args : list Z) : M vfp_env Z := fun e =>
  let '(r, s) := sf_run fn args (get_status p e) in Done (r, put_status p s e).
Definition soft_raise (p : fpst) (f : float_flag) : M vfp_env unit :=
  modify (fun e => put_status p (float_raise (float_flag_val f) (get_status p e)) e).

(** [VFP_BINOP] and the fused multiply-add. *)
Definition vfp_add f a b p := soft_call p (float_add f) [a; b].
Definition vfp_sub f a b p := soft_call p (float_sub f) [a; b].
Definition vfp_mul f a b p := soft_call p (float_mul f) [a; b].
Definition vfp_div f a b p := soft_call p (float_div f) [a; b].
Definition vfp_muladd f a b c p := soft_call p (float_muladd f) [a; b; c; 0].
Definition vfp_neg f a : M vfp_env Z := ret (float_chs f a).
Definition vfp_abs f a : M vfp_env Z := ret (float_abs f a).
Definition vfp_sqrt f a := soft_call Normal (float_sqrt f) [a].

(** [DO_VFP_cmp]: the result of a comparison in the flags of FPSCR. *)
Definition cmp_flags (r : Z) : Z := match r with 0 => 0x6 | -1 => 0x8 | 1 => 0x2 | _ => 0x3 end.
Definition put_cmp (r : Z) : M vfp_env unit :=
  modify (fun e => set_xreg ARM_VFP_FPSCR
    (Z.lor (Z.shiftl (cmp_flags r) 28) (Z.land (fpscr_reg e) 0x0fffffff)) e).
Definition vfp_cmp f a b : M vfp_env unit := let! r := soft_call Normal (float_compare_quiet f) [a; b] in put_cmp r.
Definition vfp_cmpe f a b : M vfp_env unit := let! r := soft_call Normal (float_compare f) [a; b] in put_cmp r.

(** [CONV_ITOF] and [CONV_FTOI]: [sign] is empty or [u]. *)
Inductive isign : Set := si | ui.
Definition conv_itof (sg : isign) f x p : M vfp_env Z :=
  match sg with
  | si => soft_call p (int32_to_float f) [s32 x]
  | ui => soft_call p (uint32_to_float f) [u32 x]
  end.
(** [float_to_int32] and its variants; the result is returned as [uint32_t]. *)
Definition to_int32_fn (sg : isign) (rtz : bool) (f : fsz) : sf_fn :=
  match sg, rtz with
  | si, false => float_to_int32 f | si, true => float_to_int32_round_to_zero f
  | ui, false => float_to_uint32 f | ui, true => float_to_uint32_round_to_zero f
  end.
Definition conv_ftoi (sg : isign) (rtz : bool) f x p : M vfp_env Z :=
  if float_is_any_nan f x then soft_raise p flag_invalid ;; ret 0
  else let! r := soft_call p (to_int32_fn sg rtz f) [x] in ret (u32 r).

Definition vfp_fcvtds x : M vfp_env Z :=
  let! r := soft_call Normal float32_to_float64 [x] in ret (float_maybe_silence_nan F64 r).
Definition vfp_fcvtsd x : M vfp_env Z :=
  let! r := soft_call Normal float64_to_float32 [x] in ret (float_maybe_silence_nan F32 r).

(** [VFP_CONV_FIX]: fixed point with [shift] fraction bits. *)
Inductive itype : Set := int16 | int32 | uint16 | uint32.
Definition to_itype (t : itype) (x : Z) : Z :=
  match t with int16 => s16 x | int32 => s32 x | uint16 => u16 x | uint32 => u32 x end.
Definition fix_to_float_fn (t : itype) (f : fsz) : sf_fn :=
  match t with int16 | int32 => int32_to_float f | uint16 | uint32 => uint32_to_float f end.
Definition float_to_fix_fn (t : itype) (f : fsz) : sf_fn :=
  match t with
  | int16 => float_to_int16_round_to_zero f | int32 => float_to_int32_round_to_zero f
  | uint16 => float_to_uint16_round_to_zero f | uint32 => float_to_uint32_round_to_zero f
  end.
Definition fsz_wrap (f : fsz) (z : Z) : Z := match f with F32 => u32 z | F64 => u64 z end.
Definition conv_fix_to_float (t : itype) f x shift p : M vfp_env Z :=
  let! tmp := soft_call p (fix_to_float_fn t f) [to_itype t x] in
  if s32 shift =? - 2 ^ 31 then undefined else soft_call p (float_scalbn f) [tmp; - s32 shift].
Definition conv_float_to_fix (t : itype) f x shift p : M vfp_env Z :=
  if float_is_any_nan f x then soft_raise p flag_invalid ;; ret 0
  else
    let! tmp := soft_call p (float_scalbn f) [x; s32 shift] in
    let! r := soft_call p (float_to_fix_fn t f) [tmp] in ret (fsz_wrap f r).

(** Half precision: bit 26 of FPSCR selects the alternative format. *)
Definition is_ieee (e : vfp_env) : bool := Z.land (fpscr_reg e) (Z.shiftl 1 26) =? 0.
Definition do_fcvt_f16_to_f32 a p : M vfp_env Z :=
  let! ieee := gets is_ieee in
  let! r := soft_call p float16_to_float32 [a mod 2 ^ 16; b2z ieee] in
  ret (if ieee then float_maybe_silence_nan F32 r else r).
Definition do_fcvt_f32_to_f16 a p : M vfp_env Z :=
  let! ieee := gets is_ieee in
  let! r := soft_call p float32_to_float16 [a; b2z ieee] in
  ret (if ieee then float16_maybe_silence_nan r else r).
Definition neon_fcvt_f16_to_f32 a := do_fcvt_f16_to_f32 a Standard.
Definition neon_fcvt_f32_to_f16 a := do_fcvt_f32_to_f16 a Standard.
Definition vfp_fcvt_f16_to_f32 a := do_fcvt_f16_to_f32 a Normal.
Definition vfp_fcvt_f32_to_f16 a := do_fcvt_f32_to_f16 a Normal.

(** The reciprocal steps. *)
Definition float32_two : Z := 0x40000000.
Definition float32_three : Z := 0x40400000.
Definition float32_one_point_five : Z := 0x3fc00000.
Definition inf_times_zero (a b : Z) : bool :=
  (float32_is_infinity a && float32_is_zero_or_denormal b) || (float32_is_infinity b && float32_is_zero_or_denormal a).
Definition step_special (a b r : Z) : M vfp_env Z :=
  (if negb (float32_is_zero a || float32_is_zero b) then soft_raise Standard flag_input_denormal else ret tt) ;; ret r.
Definition recps_f32 a b : M vfp_env Z :=
  if inf_times_zero a b then step_special a b float32_two
  else let! m := vfp_mul F32 a b Standard in vfp_sub F32 float32_two m Standard.
Definition rsqrts_f32 a b : M vfp_env Z :=
  if inf_times_zero a b then step_special a b float32_one_point_five
  else
    let! product := vfp_mul F32 a b Standard in
    let! d := vfp_sub F32 float32_three product Standard in
    vfp_div F32 d float32_two Standard.

(** ** The estimates

    Both estimates compute with a local copy of the standard status. *)
Definition float64_256 : Z := 0x4070000000000000.
Definition float64_512 : Z := 0x4080000000000000.

Definition local_call (fn : sf_fn) (args : list Z) : M float_status Z := fun s => Done (sf_run fn args s).
(** Run on a copy of the status, which is dropped. *)
Definition with_copy {A} (m : M float_status A) : M vfp_env A := fun e =>
  match m (standard_fp_status e) with
  | Done (a, _) => Done (a, e)
  | AssertFailed => AssertFailed | Undefined => Undefined | Exited z => Exited z
  end.

Definition recip_estimate_local (a : Z) : M float_status Z :=
  let! q := local_call (float_mul F64) [float64_512; a] in
  let! q_int := local_call float64_to_int64_round_to_zero [q] in
  let! q := local_call int64_to_float64 [q_int] in
  let! q := local_call (float_add F64) [q; float64_half] in
  let! q := local_call (float_div F64) [q; float64_512] in
  let! q := local_call (float_div F64) [float64_one; q] in
  let! q := local_call (float_mul F64) [q; float64_256] in
  let! q := local_call (float_add F64) [q; float64_half] in
  let! q_int := local_call float64_to_int64_round_to_zero [q] in
  let! q := local_call int64_to_float64 [q_int] in
  local_call (float_div F64) [q; float64_256].
Definition recip_estimate (a : Z) : M vfp_env Z := with_copy (recip_estimate_local a).

(** One branch of the square-root estimate; [scale] is 512 or 256. *)
Definition sqrt_branch (scale a : Z) : M float_status Z :=
  let! q := local_call (float_mul F64) [scale; a] in
  let! q_int := local_call float64_to_int64_round_to_zero [q] in
  let! q := local_call int64_to_float64 [q_int] in
  let! q := local_call (float_add F64) [q; float64_half] in
  let! q := local_call (float_div F64) [q; scale] in
  let! q := local_call (float_sqrt F64) [q] in
  local_call (float_div F64) [float64_one; q].
Definition recip_sqrt_estimate_local (a : Z) : M float_status Z :=
  let! lt := local_call float64_lt [a; float64_half] in
  let! q := if negb (lt =? 0) then sqrt_branch float64_512 a else sqrt_branch float64_256 a in
  let! q := local_call (float_mul F64) [q; float64_256] in
  let! q := local_call (float_add F64) [q; float64_half] in
  let! q_int := local_call float64_to_int64_round_to_zero [q] in
  let! q := local_call int64_to_float64 [q_int] in
  local_call (float_div F64) [q; float64_256].
Definition recip_sqrt_estimate (a : Z) : M vfp_env Z := with_copy (recip_sqrt_estimate_local a).

(** The exception flags of a NaN and of a zero or denormal operand. *)
Definition est_nan (a : Z) : M vfp_env Z :=
  (if float32_is_signaling_nan a then soft_raise Standard flag_invalid else ret tt) ;; ret float32_default_nan.
Definition est_zero (a : Z) : M vfp_env Z :=
  (if negb (float32_is_zero a) then soft_raise Standard flag_input_denormal else ret tt) ;;
  soft_raise Standard flag_divbyzero ;; ret (float32_set_sign float32_infinity (float32_is_neg a)).

Definition recpe_f32 (a : Z) : M vfp_env Z :=
  let a_exp := Z.shiftr (Z.land a 0x7f800000) 23 in
  let sign := Z.land a 0x80000000 in
  if float_is_any_nan F32 a then est_nan a
  else if float32_is_infinity a then ret (float32_set_sign float32_zero (float32_is_neg a))
  else if float32_is_zero_or_denormal a then est_zero a
  else if 253 <=? a_exp then
    soft_raise Standard flag_underflow ;; ret (float32_set_sign float32_zero (float32_is_neg a))
  else
    let result_exp := 253 - a_exp in
    let! f64 := recip_estimate (Z.lor (Z.shiftl 0x3fe 52) (Z.shiftl (Z.land a 0x7fffff) 29)) in
    ret (Z.lor (Z.lor sign (Z.shiftl (Z.land result_exp 0xff) 23)) (Z.land (Z.shiftr f64 29) 0x7fffff)).

Definition rsqrte_f32 (a : Z) : M vfp_env Z :=
  if float_is_any_nan F32 a then est_nan a
  else if float32_is_zero_or_denormal a then est_zero a
  else if float32_is_neg a then soft_raise Standard flag_invalid ;; ret float32_default_nan
  else if float32_is_infinity a then ret float32_zero
  else
    let f64 := Z.lor (Z.lor (Z.shiftl (Z.land a 0x80000000) 32)
        (Z.shiftl (if Z.land a 0x800000 =? 0 then 0x3fe else 0x3fd) 52)) (Z.shiftl (Z.land a 0x7fffff) 29) in
    let result_exp := (380 - Z.shiftr (Z.land a 0x7f800000) 23) / 2 in
    let! f64 := recip_sqrt_estimate f64 in
    ret (Z.lor (Z.shiftl (Z.land result_exp 0xff) 23) (Z.land (Z.shiftr f64 29) 0x7fffff)).

Definition recpe_u32 (a : Z) : M vfp_env Z :=
  if Z.land a 0x80000000 =? 0 then ret 0xffffffff
  else
    let! f64 := recip_estimate (Z.lor (Z.shiftl 0x3fe 52) (Z.shiftl (Z.land a 0x7fffffff) 21)) in
    ret (Z.lor 0x80000000 (Z.land (Z.shiftr f64 21) 0x7fffffff)).

Definition rsqrte_u32 (a : Z) : M vfp_env Z :=
  if Z.land a 0xc0000000 =? 0 then ret 0xffffffff
  else
    let! f64 := recip_sqrt_estimate
      (if negb (Z.land a 0x80000000 =? 0) then Z.lor (Z.shiftl 0x3fe 52) (Z.shiftl (Z.land a 0x7fffffff) 21)
       else Z.lor (Z.shiftl 0x3fd 52) (Z.shiftl (Z.land a 0x3fffffff) 22)) in
    ret (Z.lor 0x80000000 (Z.land (Z.shiftr f64 21) 0x7fffffff)).

(** ** The debugger's access

    A read yields the bytes put into the buffer; the return value is the
    number of bytes, 0 for an unknown register. *)
Context {GB : GdbBuf}.

Definition gdb_nregs (e : vfp_env) : Z := if arm_feature (vcpu e) ARM_FEATURE_VFP3 then 32 else 16.

Definition vfp_gdb_get_reg (reg : Z) : M vfp_env (list Z * Z) :=
  let! e := gets id in
  let nregs := gdb_nregs e in
  if reg <? nregs then
    let! v := arr_get (vfp_regs (vcpu e)) reg in ret (stfq_le_p v, 8)
  else
    let neon := arm_feature (vcpu e) ARM_FEATURE_NEON in
    let nregs := if neon then nregs + 16 else nregs in
    if neon && (reg <? nregs) then
      let! v := arr_get (vfp_regs (vcpu e)) ((reg - 32) * 2) in
      let! w := arr_get (vfp_regs (vcpu e)) ((reg - 32) * 2 + 1) in
      ret (stfq_le_p v ++ stfq_le_p w, 16)
    else
      match reg - nregs with
      | 0 => ret (stl_p (nthz (xregs e) ARM_VFP_FPSID), 4)
      | 1 => ret (stl_p (nthz (xregs e) ARM_VFP_FPSCR), 4)
      | 2 => ret (stl_p (nthz (xregs e) ARM_VFP_FPEXC), 4)
      | _ => ret ([], 0)
      end.

Definition put_vfp_reg (i v : Z) : M vfp_env unit :=
  let! e := gets id in
  if in_bounds (vfp_regs (vcpu e)) i then modify (set_vcpu (set_vfp_regs (zset (vfp_regs (vcpu e)) i v) (vcpu e)))
  else undefined.

Definition vfp_gdb_set_reg (buf : list Z) (reg : Z) : M vfp_env Z :=
  let! e := gets id in
  let nregs := gdb_nregs e in
  if reg <? nregs then put_vfp_reg reg (ldfq_le_p buf) ;; ret 8
  else
    let neon := arm_feature (vcpu e) ARM_FEATURE_NEON in
    let nregs := if neon then nregs + 16 else nregs in
    if neon && (reg <? nregs) then
      put_vfp_reg ((reg - 32) * 2) (ldfq_le_p buf) ;;
      put_vfp_reg ((reg - 32) * 2 + 1) (ldfq_le_p (drop 8 buf)) ;; ret 16
    else
      match reg - nregs with
      | 0 => modify (set_xreg ARM_VFP_FPSID (ldl_p buf)) ;; ret 4
      | 1 => modify (set_xreg ARM_VFP_FPSCR (ldl_p buf)) ;; ret 4
      | 2 => modify (set_xreg ARM_VFP_FPEXC (Z.land (ldl_p buf) (Z.shiftl 1 30))) ;; ret 4
      | _ => ret 0
      end.

(** ** The flags of a translation block ([cpu_get_tb_cpu_state]) *)
Definition ARM_TBFLAG_THUMB_SHIFT : Z := 0.
Definition ARM_TBFLAG_THUMB_MASK : Z := Z.shiftl 1 ARM_TBFLAG_THUMB_SHIFT.
Definition ARM_TBFLAG_VECLEN_SHIFT : Z := 1.
Definition ARM_TBFLAG_VECLEN_MASK : Z := Z.shiftl 0x7 ARM_TBFLAG_VECLEN_SHIFT.
Definition ARM_TBFLAG_VECSTRIDE_SHIFT : Z := 4.
Definition ARM_TBFLAG_VECSTRIDE_MASK : Z := Z.shiftl 0x3 ARM_TBFLAG_VECSTRIDE_SHIFT.
Definition ARM_TBFLAG_PRIV_SHIFT : Z := 6.
Definition ARM_TBFLAG_PRIV_MASK : Z := Z.shiftl 1 ARM_TBFLAG_PRIV_SHIFT.
Definition ARM_TBFLAG_VFPEN_SHIFT : Z := 7.
Definition ARM_TBFLAG_VFPEN_MASK : Z := Z.shiftl 1 ARM_TBFLAG_VFPEN_SHIFT.
Definition ARM_TBFLAG_CONDEXEC_SHIFT : Z := 8.
Definition ARM_TBFLAG_CONDEXEC_MASK : Z := Z.shiftl 0xff ARM_TBFLAG_CONDEXEC_SHIFT.
Definition ARM_TBFLAG_BSWAP_CODE_SHIFT : Z := 16.
Definition ARM_TBFLAG_BSWAP_CODE_MASK : Z := Z.shiftl 1 ARM_TBFLAG_BSWAP_CODE_SHIFT.

Definition ARM_TBFLAG_THUMB (F : Z) : Z := Z.shiftr (Z.land F ARM_TBFLAG_THUMB_MASK) ARM_TBFLAG_THUMB_SHIFT.
Definition ARM_TBFLAG_VECLEN (F : Z) : Z := Z.shiftr (Z.land F ARM_TBFLAG_VECLEN_MASK) ARM_TBFLAG_VECLEN_SHIFT.
Definition ARM_TBFLAG_VECSTRIDE (F : Z) : Z := Z.shiftr (Z.land F ARM_TBFLAG_VECSTRIDE_MASK) ARM_TBFLAG_VECSTRIDE_SHIFT.
Definition ARM_TBFLAG_PRIV (F : Z) : Z := Z.shiftr (Z.land F ARM_TBFLAG_PRIV_MASK) ARM_TBFLAG_PRIV_SHIFT.
Definition ARM_TBFLAG_VFPEN (F : Z) : Z := Z.shiftr (Z.land F ARM_TBFLAG_VFPEN_MASK) ARM_TBFLAG_VFPEN_SHIFT.
Definition ARM_TBFLAG_CONDEXEC (F : Z) : Z := Z.shiftr (Z.land F ARM_TBFLAG_CONDEXEC_MASK) ARM_TBFLAG_CONDEXEC_SHIFT.
Definition ARM_TBFLAG_BSWAP_CODE (F : Z) : Z := Z.shiftr (Z.land F ARM_TBFLAG_BSWAP_CODE_MASK) ARM_TBFLAG_BSWAP_CODE_SHIFT.

(** The program counter, the code segment base and the flags. *)
Definition cpu_get_tb_cpu_state (e : vfp_env) : Z * Z * Z :=
  let flags := Z.lor (Z.lor (Z.lor (Z.lor (Z.shiftl (thumb (vcpu e)) ARM_TBFLAG_THUMB_SHIFT)
      (Z.shiftl (vec_len e) ARM_TBFLAG_VECLEN_SHIFT))
      (Z.shiftl (vec_stride e) ARM_TBFLAG_VECSTRIDE_SHIFT))
      (Z.shiftl (condexec_bits (vcpu e)) ARM_TBFLAG_CONDEXEC_SHIFT))
      (Z.shiftl (bswap_code e) ARM_TBFLAG_BSWAP_CODE_SHIFT) in
  let flags := if tb_privmode (vcpu e) then Z.lor flags ARM_TBFLAG_PRIV_MASK else flags in
  let flags := if tst (nthz (xregs e) ARM_VFP_FPEXC) (Z.shiftl 1 30) then Z.lor flags ARM_TBFLAG_VFPEN_MASK else flags in
  (nthz (regs (vcpu e)) 15, 0, flags).
End Vfp.

(** ** What a helper may change *)
Section Keeps.
Context {SF : Softfloat} {SL : SoftfloatLaws}.
Implicit Types e : vfp_env.

(** The condition flags of FPSCR may change, exceptions may be recorded. *)
Record vkeep (e e' : vfp_env) : Prop := {
  vk_cpu : vcpu e' = vcpu e;
  vk_len : vec_len e' = vec_len e;
  vk_stride : vec_stride e' = vec_stride e;
  vk_bswap : bswap_code e' = bswap_code e;
  vk_xlen : length (xregs e') = length (xregs e);
  vk_xregs i : 0 <= i -> i <> ARM_VFP_FPSCR -> nthz (xregs e') i = nthz (xregs e) i;
  vk_fpscr : length (xregs e) = 16%nat -> Z.land (fpscr_reg e') 0x0fffffff = Z.land (fpscr_reg e) 0x0fffffff;
  vk_u32 : length (xregs e) = 16%nat -> is_u32 (fpscr_reg e) -> is_u32 (fpscr_reg e');
  vk_status p : raises (get_status p e) (get_status p e')
}.

#[global] Instance vkeep_preorder : PreOrder vkeep.
Proof.
  split.
  - intros e. split; auto; reflexivity.
  - intros e1 e2 e3 [A1 A2 A3 A4 A5 A6 A7 A8 A9] [B1 B2 B3 B4 B5 B6 B7 B8 B9]. split; try congruence.
    + intros i H1 H2. rewrite B6, A6 by assumption. reflexivity.
    + intros Hl. rewrite B7, A7 by congruence. reflexivity.
    + intros Hl Hu. apply B8; [congruence|auto].
    + intros p. etransitivity; [apply A9|apply B9].
Qed.

Definition vkeeps {A} (m : M vfp_env A) : Prop := forall e a e', m e = Done (a, e') -> vkeep e e'.

Lemma vkeeps_ret {A} (a : A) : vkeeps (ret a).
Proof. intros e x e' [= -> ->]. reflexivity. Qed.

Lemma vkeeps_undefined {A} : vkeeps (@undefined vfp_env A).
Proof. intros e x e' E. discriminate. Qed.

Lemma vkeeps_gets {A} (f : vfp_env -> A) : vkeeps (gets f).
Proof. intros e x e' [= _ ->]. reflexivity. Qed.

Lemma vkeeps_bind {A B} (m : M vfp_env A) (k : A -> M vfp_env B) : vkeeps m -> (forall a, vkeeps (k a)) -> vkeeps (bind m k).
Proof. intros Hm Hk e b e' (a & e1 & E1 & E2)%bind_Done. etransitivity; [eapply Hm, E1|eapply Hk, E2]. Qed.

Lemma put_status_keep p s e : raises (get_status p e) s -> vkeep e (put_status p s e).
Proof. intros H. destruct p; split; auto; intros []; auto; reflexivity. Qed.

Lemma vkeeps_call p fn args : vkeeps (soft_call p fn args).
Proof.
  intros e r e' E. unfold soft_call in E. pose proof (sf_run_raises fn args (get_status p e)) as H.
  destruct (sf_run fn args (get_status p e)) as [v s]. injection E as <- <-. apply put_status_keep, H.
Qed.

Lemma vkeeps_raise p f : vkeeps (soft_raise p f).
Proof. intros e r e' [= _ <-]. apply put_status_keep, float_raise_raises. Qed.

Lemma vkeeps_copy {A} (m : M float_status A) : vkeeps (with_copy m).
Proof. intros e r e' E. unfold with_copy in E. destruct (m _) as [[a s]| | |]; try discriminate. injection E as _ <-. reflexivity. Qed.

Lemma cmp_flags_range r : 0 <= cmp_flags r < 16.
Proof. unfold cmp_flags. destruct r as [|[]|[]]; lia. Qed.

Lemma vkeeps_put_cmp r : vkeeps (put_cmp r).
Proof.
  intros e x e' [= _ <-]. pose proof (cmp_flags_range r) as Hr.
  assert (Hv : length (xregs e) = 16%nat -> fpscr_reg (set_xreg ARM_VFP_FPSCR
    (Z.lor (Z.shiftl (cmp_flags r) 28) (Z.land (fpscr_reg e) 0x0fffffff)) e) = 
    cmp_flags r * 2 ^ 28 + Z.land (fpscr_reg e) (Z.ones 28)).
  { intros Hl. unfold fpscr_reg at 1. cbn [xregs set_xreg]. rewrite nthz_zset by (unfold ARM_VFP_FPSCR; lia).
    rewrite Z.eqb_refl. apply lor_shift_add; [lia|]. apply land_mask_range. lia. }
  pose proof (land_mask_range (fpscr_reg e) 28 ltac:(lia)) as Hm.
  split; try reflexivity.
  - apply length_zset.
  - intros i Hi Hne. cbn [xregs set_xreg]. unfold nthz, zset, ARM_VFP_FPSCR in *.
    rewrite !nth_lookup, list_lookup_insert_ne by lia. reflexivity.
  - intros Hl. rewrite Hv by exact Hl. change 0x0fffffff with (Z.ones 28). rewrite !Z.land_ones in * by lia.
    rewrite Z.add_comm, Z.mod_add, Z.mod_mod by lia. reflexivity.
  - intros Hl _. rewrite Hv by exact Hl. unfold is_u32. lia.
Qed.

Create HintDb vkeep.
#[local] Hint Resolve vkeeps_ret vkeeps_undefined vkeeps_gets vkeeps_call vkeeps_raise vkeeps_copy vkeeps_put_cmp : vkeep.
Ltac vkeeps := repeat first
  [ apply vkeeps_bind; [|intros ?] | solve [eauto with vkeep]
  | match goal with |- vkeeps (if ?b then _ else _) => destruct b end ].

(** The helpers the translated code calls. *)
Inductive vhelper : Set :=
| h_add (f : fsz) (a b : Z) (p : fpst) | h_sub (f : fsz) (a b : Z) (p : fpst)
| h_mul (f : fsz) (a b : Z) (p : fpst) | h_div (f : fsz) (a b : Z) (p : fpst)
| h_muladd (f : fsz) (a b c : Z) (p : fpst) | h_neg (f : fsz) (a : Z) | h_abs (f : fsz) (a : Z) | h_sqrt (f : fsz) (a : Z)
| h_cmp (f : fsz) (a b : Z) | h_cmpe (f : fsz) (a b : Z)
| h_itof (sg : isign) (f : fsz) (x : Z) (p : fpst) | h_ftoi (sg : isign) (rtz : bool) (f : fsz) (x : Z) (p : fpst)
| h_fcvtds (x : Z) | h_fcvtsd (x : Z)
| h_fix_to_float (t : itype) (f : fsz) (x shift : Z) (p : fpst) | h_float_to_fix (t : itype) (f : fsz) (x shift : Z) (p : fpst)
| h_f16_to_f32 (a : Z) (p : fpst) | h_f32_to_f16 (a : Z) (p : fpst)
| h_recps (a b : Z) | h_rsqrts (a b : Z) | h_recpe (a : Z) | h_rsqrte (a : Z) | h_recpe_u (a : Z) | h_rsqrte_u (a : Z).

Definition run_vhelper (h : vhelper) : M vfp_env Z :=
  match h with
  | h_add f a b p => vfp_add f a b p | h_sub f a b p => vfp_sub f a b p
  | h_mul f a b p => vfp_mul f a b p | h_div f a b p => vfp_div f a b p
  | h_muladd f a b c p => vfp_muladd f a b c p | h_neg f a => vfp_neg f a | h_abs f a => vfp_abs f a
  | h_sqrt f a => vfp_sqrt f a
  | h_cmp f a b => vfp_cmp f a b ;; ret 0 | h_cmpe f a b => vfp_cmpe f a b ;; ret 0
  | h_itof sg f x p => conv_itof sg f x p | h_ftoi sg rtz f x p => conv_ftoi sg rtz f x p
  | h_fcvtds x => vfp_fcvtds x | h_fcvtsd x => vfp_fcvtsd x
  | h_fix_to_float t f x shift p => conv_fix_to_float t f x shift p
  | h_float_to_fix t f x shift p => conv_float_to_fix t f x shift p
  | h_f16_to_f32 a p => do_fcvt_f16_to_f32 a p | h_f32_to_f16 a p => do_fcvt_f32_to_f16 a p
  | h_recps a b => recps_f32 a b | h_rsqrts a b => rsqrts_f32 a b
  | h_recpe a => recpe_f32 a | h_rsqrte a => rsqrte_f32 a
  | h_recpe_u a => recpe_u32 a | h_rsqrte_u a => rsqrte_u32 a
  end.

Lemma vkeeps_helper h : vkeeps (run_vhelper h).
Proof.
  destruct h; cbn [run_vhelper]; unfold vfp_add, vfp_sub, vfp_mul, vfp_div, vfp_muladd, vfp_neg, vfp_abs, vfp_sqrt,
    vfp_cmp, vfp_cmpe, conv_itof, conv_ftoi, vfp_fcvtds, vfp_fcvtsd, conv_fix_to_float, conv_float_to_fix,
    do_fcvt_f16_to_f32, do_fcvt_f32_to_f16, recps_f32, rsqrts_f32, recpe_f32, rsqrte_f32, recpe_u32, rsqrte_u32,
    est_nan, est_zero, step_special, recip_estimate, recip_sqrt_estimate, vfp_mul, vfp_sub, vfp_div;
    try destruct sg; vkeeps.
Qed.

(** ** The three places of FPSCR agree *)

(** The modes FPSCR [v] selects. *)
Definition modes_of (v : Z) (s : float_status) : Prop :=
  st_get rounding_mode s = float_round_val (fpscr_round (Z.land (Z.shiftr v 22) 3)) /\
  st_get flush_to_zero s = b2z (tst v (Z.shiftl 1 24)) /\
  st_get flush_inputs_to_zero s = b2z (tst v (Z.shiftl 1 24)) /\
  st_get default_nan_mode s = b2z (tst v (Z.shiftl 1 25)).

(** The architecture's standard value: default NaN, flush to zero, round to
    nearest. *)
Definition STANDARD_FPSCR : Z := Z.shiftl 3 24.

Record fpscr_sync (e : vfp_env) : Prop := {
  fs_len : length (xregs e) = 16%nat;
  fs_u32 : is_u32 (fpscr_reg e);
  fs_modes : modes_of (fpscr_reg e) (fp_status e);
  fs_standard : modes_of STANDARD_FPSCR (standard_fp_status e);
  fs_vec : 0 <= vec_len e < 8 /\ 0 <= vec_stride e < 4
}.

Lemma modes_raises v s s' : raises s s' -> modes_of v s -> modes_of v s'.
Proof. intros [H _]. unfold modes_of. rewrite !H by discriminate. auto. Qed.

(** Only bits 22 to 25 select modes. *)
Lemma modes_bits v w s : (forall n, 22 <= n < 26 -> Z.testbit v n = Z.testbit w n) -> modes_of v s -> modes_of w s.
Proof.
  intros H. assert (Hr : Z.land (Z.shiftr v 22) 3 = Z.land (Z.shiftr w 22) 3).
  { apply Z.bits_inj'. intros n Hn. change 3 with (Z.ones 2). rewrite !Z.land_spec, !Z.shiftr_spec, Z.testbit_ones_nonneg by lia.
    destruct (Z.ltb_spec n 2); [rewrite H by lia|]; rewrite ?andb_false_r; reflexivity. }
  assert (Ht : forall k, 22 <= k < 26 -> tst v (Z.shiftl 1 k) = tst w (Z.shiftl 1 k)).
  { intros k Hk. rewrite Z.shiftl_1_l, !tst_pow2, H by lia. reflexivity. }
  unfold modes_of. rewrite Hr, !Ht by lia. auto.
Qed.

(** A write leaves a mode alone only where the new value selects the old one. *)
Lemma fpscr_modes_set old val s : modes_of old s ->
  modes_of val (let changed := Z.lxor old val in
    let s := if tst changed (Z.shiftl 3 22) then
               st_set rounding_mode (float_round_val (fpscr_round (Z.land (Z.shiftr val 22) 3))) s else s in
    let s := if tst changed (Z.shiftl 1 24) then
               let z := b2z (tst val (Z.shiftl 1 24)) in
               st_set flush_inputs_to_zero z (st_set flush_to_zero z s) else s in
    if tst changed (Z.shiftl 1 25) then st_set default_nan_mode (b2z (tst val (Z.shiftl 1 25))) s else s).
Proof.
  intros (A & B & C & D). cbv zeta.
  assert (Hb : forall k, 0 <= k -> tst (Z.lxor old val) (Z.shiftl 1 k) = false -> tst old (Z.shiftl 1 k) = tst val (Z.shiftl 1 k)).
  { intros k Hk. rewrite Z.shiftl_1_l, !tst_pow2, Z.lxor_spec by exact Hk. destruct (Z.testbit old k), (Z.testbit val k); done. }
  assert (Hr : tst (Z.lxor old val) (Z.shiftl 3 22) = false -> Z.land (Z.shiftr old 22) 3 = Z.land (Z.shiftr val 22) 3).
  { unfold tst. rewrite negb_false_iff, Z.eqb_eq. intros H0. apply Z.lxor_eq. apply Z.bits_inj'. intros n Hn.
    apply (f_equal (fun z => Z.testbit z (n + 22))) in H0. rewrite Z.land_spec, Z.shiftl_spec, Z.lxor_spec, Z.bits_0 in H0 by lia.
    rewrite Z.lxor_spec, !Z.land_spec, !Z.shiftr_spec, Z.bits_0 by lia. replace (n + 22 - 22) with n in H0 by lia.
    destruct (Z.testbit old _), (Z.testbit val _), (Z.testbit 3 n); done. }
  unfold modes_of. destruct (tst (Z.lxor old val) (Z.shiftl 3 22)), (tst (Z.lxor old val) (Z.shiftl 1 24)) eqn:E24,
    (tst (Z.lxor old val) (Z.shiftl 1 25)) eqn:E25; rewrite ?st_get_set; cbn [decide decide_rel];
    rewrite ?A, ?B, ?C, ?D; repeat split; try reflexivity; auto; try (rewrite Hr by reflexivity; reflexivity);
    rewrite Hb by (assumption || lia); reflexivity.
Qed.

Lemma set_fpscr_reg val e : length (xregs e) = 16%nat -> fpscr_reg (vfp_set_fpscr val e) = Z.land val 0xffc8ffff.
Proof.
  intros Hl. unfold fpscr_reg, vfp_set_fpscr.
  cbn [xregs set_standard_fp_status set_fp_status set_vec set_xreg]. rewrite nthz_zset by (unfold ARM_VFP_FPSCR; lia). reflexivity.
Qed.

Lemma land_bit_in v m n : 0 <= n -> Z.testbit m n = true -> Z.testbit (Z.land v m) n = Z.testbit v n.
Proof. intros Hn Hm. rewrite Z.land_spec, Hm. apply andb_true_r. Qed.

Lemma set_fpscr_sync val e : is_u32 val -> fpscr_sync e -> fpscr_sync (vfp_set_fpscr val e).
Proof.
  intros Hv [L U Md St V]. split.
  - unfold vfp_set_fpscr. cbn [xregs set_standard_fp_status set_fp_status set_vec set_xreg]. rewrite length_zset. exact L.
  - rewrite set_fpscr_reg by exact L. apply (land_below _ _ 32); [lia|exact Hv].
  - rewrite set_fpscr_reg by exact L. apply (modes_bits val).
    + intros n Hn. symmetry. apply land_bit_in; [lia|]. assert (n = 22 \/ n = 23 \/ n = 24 \/ n = 25) as Hc by lia.
      destruct_or! Hc; subst; reflexivity.
    + pose proof (fpscr_modes_set (fpscr_reg e) val (fp_status e) Md) as H. unfold modes_of in *. cbv zeta in H.
      unfold vfp_set_fpscr. cbn [fp_status set_standard_fp_status set_fp_status set_vec set_xreg].
      rewrite !(st_get_set _ exception_flags). cbn [decide decide_rel]. exact H.
  - unfold modes_of, vfp_set_fpscr in *. cbn [standard_fp_status set_standard_fp_status set_fp_status set_vec set_xreg].
    rewrite !(st_get_set _ exception_flags). exact St.
  - unfold vfp_set_fpscr. cbn [vec_len vec_stride set_standard_fp_status set_fp_status set_vec set_xreg].
    split; [apply (land_mask_range _ 3)|apply (land_mask_range _ 2)]; lia.
Qed.

Lemma helper_sync e e' : vkeep e e' -> fpscr_sync e -> fpscr_sync e'.
Proof.
  intros K [L U Md St V]. destruct K as [_ K2 K3 _ K5 _ K7 K8 K9]. split.
  - congruence.
  - auto.
  - apply (modes_raises _ (fp_status e)); [apply (K9 Normal)|]. apply (modes_bits (fpscr_reg e)); [|exact Md].
    intros n Hn. specialize (K7 L). apply (f_equal (fun z => Z.testbit z n)) in K7.
    rewrite !Z.land_spec in K7. change 0x0fffffff with (Z.ones 28) in K7. rewrite Z.testbit_ones_nonneg in K7 by lia.
    destruct (Z.ltb_spec n 28); [|lia]. rewrite !andb_true_r in K7. congruence.
  - apply (modes_raises _ (standard_fp_status e)); [apply (K9 Standard)|exact St].
  - rewrite K2, K3. exact V.
Qed.

(** ** The exception flags of a read *)

Lemma set_if_bit b k v n : 0 <= k -> Z.testbit (set_if b (2 ^ k) v) n = ((n =? k) && b) || Z.testbit v n.
Proof.
  intros Hk. unfold set_if. destruct b; [|rewrite andb_false_r; reflexivity].
  rewrite Z.lor_spec, Z.pow2_bits_eqb, andb_true_r, orb_comm, (Z.eqb_sym k) by exact Hk. reflexivity.
Qed.

Lemma from_host_bit i n : Z.testbit (vfp_exceptbits_from_host i) n =
  ((n =? 7) && tst i (float_flag_val flag_input_denormal)) || (((n =? 4) && tst i (float_flag_val flag_inexact)) ||
  (((n =? 3) && tst i (Z.lor (float_flag_val flag_underflow) (float_flag_val flag_output_denormal))) ||
  (((n =? 2) && tst i (float_flag_val flag_overflow)) || (((n =? 1) && tst i (float_flag_val flag_divbyzero)) ||
  ((n =? 0) && tst i (float_flag_val flag_invalid)))))).
Proof.
  unfold vfp_exceptbits_from_host.
  pose proof (fun b v => set_if_bit b 7 v n ltac:(lia)) as H7. pose proof (fun b v => set_if_bit b 4 v n ltac:(lia)) as H4.
  pose proof (fun b v => set_if_bit b 3 v n ltac:(lia)) as H3. pose proof (fun b v => set_if_bit b 2 v n ltac:(lia)) as H2.
  pose proof (fun b v => set_if_bit b 1 v n ltac:(lia)) as H1. pose proof (fun b v => set_if_bit b 0 v n ltac:(lia)) as H0.
  cbn [Z.pow Z.pow_pos Pos.iter Z.mul Pos.mul] in *. rewrite H7, H4, H3, H2, H1, H0, Z.bits_0, orb_false_r. reflexivity.
Qed.

(** The FPSCR bit of a host flag; softfloat's output-denormal flag has none. *)
Definition target_bit (x : float_flag) : Z :=
  match x with
  | flag_invalid => 1 | flag_divbyzero => 2 | flag_overflow => 4 | flag_underflow => 8
  | flag_inexact => 0x10 | flag_input_denormal => 0x80 | flag_output_denormal => 0
  end.

Lemma land_set_flag b y v x : Z.land (set_if b (float_flag_val y) v) (float_flag_val x) =
  Z.lor (Z.land v (float_flag_val x)) (if b && bool_decide (x = y) then float_flag_val x else 0).
Proof.
  unfold set_if. destruct b; cbn [andb]; [|rewrite Z.lor_0_r; reflexivity]. rewrite Z.land_lor_distr_l. f_equal.
  case_bool_decide as E; [subst; apply Z.land_diag|apply flag_disjoint; congruence].
Qed.

Lemma to_host_flag v x : tst (vfp_exceptbits_to_host v) (float_flag_val x) = tst v (target_bit x).
Proof.
  assert (H : Z.land (vfp_exceptbits_to_host v) (float_flag_val x) = if tst v (target_bit x) then float_flag_val x else 0).
  { unfold vfp_exceptbits_to_host. rewrite !land_set_flag, Z.land_0_l, Z.lor_0_l.
    destruct x; unfold bool_decide; cbn [decide decide_rel target_bit];
      rewrite ?andb_false_r, ?andb_true_r, ?Z.lor_0_r, ?Z.lor_0_l; try reflexivity.
    unfold tst. rewrite Z.land_0_r. reflexivity. }
  unfold tst at 1. rewrite H. pose proof (flag_nonzero x). destruct (tst v (target_bit x)); [|reflexivity].
  destruct (Z.eqb_spec (float_flag_val x) 0); [lia|reflexivity].
Qed.

Lemma tst_lor i a b : tst i (Z.lor a b) = tst i a || tst i b.
Proof.
  unfold tst. rewrite Z.land_lor_distr_r. destruct (Z.eqb_spec (Z.lor (Z.land i a) (Z.land i b)) 0) as [E|E].
  - apply Z.lor_eq_0_iff in E as [-> ->]. reflexivity.
  - destruct (Z.eqb_spec (Z.land i a) 0) as [Ea|]; [|reflexivity]. destruct (Z.eqb_spec (Z.land i b) 0) as [Eb|]; [|reflexivity].
    rewrite Ea, Eb in E. destruct E; reflexivity.
Qed.

(** The cumulative flags survive the two conversions. *)
Lemma exceptbits_roundtrip v : vfp_exceptbits_from_host (vfp_exceptbits_to_host v) = Z.land v 0x9f.
Proof.
  apply Z.bits_inj'. intros n Hn. rewrite from_host_bit, tst_lor, !to_host_flag, Z.land_spec. cbn [target_bit].
  change 0x80 with (2 ^ 7). change 0x10 with (2 ^ 4). change 8 with (2 ^ 3).
  replace (tst v 0) with false by (unfold tst; rewrite Z.land_0_r; reflexivity).
  replace (tst v 4) with (tst v (2 ^ 2)) by reflexivity. replace (tst v 2) with (tst v (2 ^ 1)) by reflexivity.
  replace (tst v 1) with (tst v (2 ^ 0)) by reflexivity. rewrite !tst_pow2, orb_false_r by lia.
  destruct (Z.lt_ge_cases n 8) as [H8|H8].
  - assert (n = 0 \/ n = 1 \/ n = 2 \/ n = 3 \/ n = 4 \/ n = 5 \/ n = 6 \/ n = 7) as Hc by lia.
    destruct_or! Hc; subst; cbn; rewrite ?andb_true_r, ?andb_false_r, ?orb_false_r; reflexivity.
  - rewrite (testbit_above 0x9f 8 n) by lia. rewrite andb_false_r. repeat (case_match; try lia). 
    destruct (Z.eqb_spec n 7), (Z.eqb_spec n 4), (Z.eqb_spec n 3), (Z.eqb_spec n 2), (Z.eqb_spec n 1), (Z.eqb_spec n 0); try lia; reflexivity.
Qed.

(** Whatever was in the status register, a read after a write returns
    the value written, all 32 bits: the vector fields and the exception
    flags, kept in other places, come back. *)
Lemma fpscr_roundtrip val e : is_u32 val -> length (xregs e) = 16%nat ->
  vfp_get_fpscr (vfp_set_fpscr val e) = val.
Proof.
  intros Hv Hl. unfold vfp_get_fpscr. rewrite set_fpscr_reg by exact Hl.
  unfold vfp_set_fpscr. cbn [vec_len vec_stride fp_status standard_fp_status set_standard_fp_status set_fp_status set_vec set_xreg].
  rewrite !st_get_set. rewrite !decide_True by reflexivity. rewrite Z.lor_0_r, exceptbits_roundtrip, !field_back by lia.
  rewrite <- Z.land_assoc, <- !Z.land_lor_distr_r. change (Z.lor _ _) with (Z.ones 32). 
  rewrite Z.land_ones by lia. apply Z.mod_small, Hv.
Qed.

(** ** Every execution *)

(** Writes of the register and helper calls, in any order. *)
Inductive vstep : vfp_env -> vfp_env -> Prop :=
| vs_write val e : is_u32 val -> vstep e (vfp_set_fpscr val e)
| vs_helper h r e e' : run_vhelper h e = Done (r, e') -> vstep e e'.

Lemma vsteps_sync e e' : rtc vstep e e' -> fpscr_sync e -> fpscr_sync e'.
Proof.
  induction 1 as [|e1 e2 e3 Hs _ IH]; [auto|]. intros H. apply IH. destruct Hs as [val e Hv|h r e e' Hr].
  - apply set_fpscr_sync; assumption.
  - apply (helper_sync e); [apply (vkeeps_helper h e r), Hr|exact H].
Qed.

(** The bits of FPSCR that record exceptions. *)
Definition cumulative : list Z := [0; 1; 2; 3; 4; 7].

Lemma tst_mono i j m : (forall n, Z.testbit i n = true -> Z.testbit j n = true) -> tst i m = true -> tst j m = true.
Proof.
  intros H. unfold tst. rewrite !negb_true_iff, !Z.eqb_neq. intros Hi Hj. apply Hi. apply Z.bits_inj'. intros n Hn.
  apply (f_equal (fun z => Z.testbit z n)) in Hj. rewrite !Z.land_spec, Z.bits_0 in *.
  destruct (Z.testbit i n) eqn:E; [rewrite (H n E) in Hj|]; done.
Qed.

Lemma from_host_mono i j n : (forall k, Z.testbit i k = true -> Z.testbit j k = true) ->
  Z.testbit (vfp_exceptbits_from_host i) n = true -> Z.testbit (vfp_exceptbits_from_host j) n = true.
Proof.
  intros H. rewrite !from_host_bit, !orb_true_iff, !andb_true_iff.
  pose proof (fun m => tst_mono i j m H) as Ht.
  pose proof (Ht (float_flag_val flag_input_denormal)). pose proof (Ht (float_flag_val flag_inexact)).
  pose proof (Ht (Z.lor (float_flag_val flag_underflow) (float_flag_val flag_output_denormal))).
  pose proof (Ht (float_flag_val flag_overflow)). pose proof (Ht (float_flag_val flag_divbyzero)).
  pose proof (Ht (float_flag_val flag_invalid)). clear Ht H. tauto.
Qed.

Lemma get_fpscr_low e n : 0 <= n < 16 -> Z.testbit (vfp_get_fpscr e) n = Z.testbit (fpscr_reg e) n ||
  Z.testbit (vfp_exceptbits_from_host (Z.lor (st_get exception_flags (fp_status e)) (st_get exception_flags (standard_fp_status e)))) n.
Proof.
  intros Hn. unfold vfp_get_fpscr. rewrite !Z.lor_spec, Z.land_spec, !Z.shiftl_spec_low by lia.
  rewrite !orb_false_r. f_equal. replace (Z.testbit 0xffc8ffff n) with true; [apply andb_true_r|].
  change 0xffc8ffff with (Z.lor (Z.shiftl 0xffc8 16) (Z.ones 16)). rewrite Z.lor_spec, Z.testbit_ones_nonneg by lia.
  destruct (Z.ltb_spec n 16); [|lia]. rewrite orb_true_r. reflexivity.
Qed.

Lemma helper_cumulative e e' n : vkeep e e' -> length (xregs e) = 16%nat -> 0 <= n < 16 ->
  Z.testbit (vfp_get_fpscr e) n = true -> Z.testbit (vfp_get_fpscr e') n = true.
Proof.
  intros K Hl Hn. rewrite !get_fpscr_low by exact Hn. rewrite !orb_true_iff. intros [H|H]; [left|right].
  - rewrite <- H. pose proof (vk_fpscr _ _ K Hl) as E. apply (f_equal (fun z => Z.testbit z n)) in E.
    change 0x0fffffff with (Z.ones 28) in E. rewrite !Z.land_spec, Z.testbit_ones_nonneg in E by lia.
    destruct (Z.ltb_spec n 28); [|lia]. rewrite !andb_true_r in E. exact E.
  - revert H. apply from_host_mono. intros k. rewrite !Z.lor_spec, !orb_true_iff.
    pose proof (vk_status _ _ K Normal) as [_ HN]. pose proof (vk_status _ _ K Standard) as [_ HS]. cbn in HN, HS.
    intros [H|H]; [left; apply HN, H|right; apply HS, H].
Qed.

(** The control fields: all but the condition flags and the exceptions. *)
Definition control_mask : Z := 0x0fffff60.

Lemma get_fpscr_control e : Z.land (vfp_get_fpscr e) control_mask =
  Z.lor (Z.land (Z.land (fpscr_reg e) 0x0fffffff) 0xfc8ff60)
    (Z.land (Z.lor (Z.shiftl (vec_len e) 16) (Z.shiftl (vec_stride e) 20)) control_mask).
Proof.
  unfold vfp_get_fpscr. rewrite !Z.land_lor_distr_l.
  assert (Hx : forall i, Z.land (vfp_exceptbits_from_host i) control_mask = 0).
  { intros i. unfold vfp_exceptbits_from_host, set_if. repeat case_match; reflexivity. }
  rewrite Hx, Z.lor_0_r, <- Z.lor_assoc, <- !Z.land_assoc. reflexivity.
Qed.

Lemma helper_control e e' : vkeep e e' -> length (xregs e) = 16%nat ->
  Z.land (vfp_get_fpscr e') control_mask = Z.land (vfp_get_fpscr e) control_mask.
Proof.
  intros K Hl. rewrite !get_fpscr_control, (vk_fpscr _ _ K Hl), (vk_len _ _ K), (vk_stride _ _ K). reflexivity.
Qed.

(** C20. Through any sequence of writes of FPSCR and helper calls, the modes
    softfloat computes with are those the register selects (a write updates
    only what changed), the standard status keeps its modes, and each helper
    leaves the control fields of the register as they were and loses no
    recorded exception. *)
Theorem fpscr_invariant e e' : fpscr_sync e -> rtc vstep e e' ->
  fpscr_sync e' /\
  forall h r e'', run_vhelper h e' = Done (r, e'') ->
    Z.land (vfp_get_fpscr e'') control_mask = Z.land (vfp_get_fpscr e') control_mask /\
    Forall (fun n => Z.testbit (vfp_get_fpscr e') n = true -> Z.testbit (vfp_get_fpscr e'') n = true) cumulative.
Proof.
  intros H Hs. pose proof (vsteps_sync e e' Hs H) as H'. split; [exact H'|]. intros h r e'' Hr.
  pose proof (vkeeps_helper h e' r e'' Hr) as K. destruct H' as [L' _ _ _ _]. split; [apply helper_control; assumption|].
  unfold cumulative. repeat constructor; apply helper_cumulative; (assumption || lia).
Qed.

(** ** Translation block flags *)

Definition tb_wf (e : vfp_env) : Prop :=
  0 <= thumb (vcpu e) < 2 /\ 0 <= vec_len e < 8 /\ 0 <= vec_stride e < 4 /\
  0 <= condexec_bits (vcpu e) < 256 /\ 0 <= bswap_code e < 2.

Lemma tb_flags_sum e : tb_wf e -> (cpu_get_tb_cpu_state e).2 =
  thumb (vcpu e) + 2 * vec_len e + 16 * vec_stride e + 64 * b2z (tb_privmode (vcpu e)) +
  128 * b2z (tst (nthz (xregs e) ARM_VFP_FPEXC) (Z.shiftl 1 30)) + 256 * condexec_bits (vcpu e) + 65536 * bswap_code e.
Proof.
  intros (A & B & C & D & F). unfold cpu_get_tb_cpu_state. cbn [snd].
  set (p := tb_privmode (vcpu e)). set (v := tst _ (Z.shiftl 1 30)).
  assert (Hm : forall (b : bool) x k, 0 <= k -> (if b then Z.lor x (Z.shiftl 1 k) else x) = Z.lor x (Z.shiftl (b2z b) k)).
  { intros b x k Hk. destruct b; cbn [b2z]; [reflexivity|]. rewrite Z.shiftl_0_l, Z.lor_0_r. reflexivity. }
  unfold ARM_TBFLAG_PRIV_MASK, ARM_TBFLAG_VFPEN_MASK, ARM_TBFLAG_PRIV_SHIFT, ARM_TBFLAG_VFPEN_SHIFT, ARM_TBFLAG_THUMB_SHIFT,
    ARM_TBFLAG_VECLEN_SHIFT, ARM_TBFLAG_VECSTRIDE_SHIFT, ARM_TBFLAG_CONDEXEC_SHIFT, ARM_TBFLAG_BSWAP_CODE_SHIFT.
  rewrite !Hm, Z.shiftl_0_r by lia.
  assert (0 <= b2z p < 2 /\ 0 <= b2z v < 2) as [Hp Hv] by (destruct p, v; cbn; lia).
  transitivity (Z.lor (Z.lor (Z.lor (Z.lor (Z.lor (Z.lor (Z.shiftl (bswap_code e) 16) (Z.shiftl (condexec_bits (vcpu e)) 8))
    (Z.shiftl (b2z v) 7)) (Z.shiftl (b2z p) 6)) (Z.shiftl (vec_stride e) 4)) (Z.shiftl (vec_len e) 1)) (thumb (vcpu e))).
  { apply Z.bits_inj'. intros n Hn. rewrite !Z.lor_spec. btauto. }
  rewrite (lor_join _ _ 8 8), (lor_join _ _ 1 7), (lor_join _ _ 1 6), (lor_join _ _ 2 4), (lor_join _ _ 3 1), lor_shift_add by lia.
  lia.
Qed.

Lemma tb_field F k m w : 0 <= k -> m = Z.ones w -> 0 <= w -> Z.shiftr (Z.land F (Z.shiftl m k)) k = (F / 2 ^ k) mod 2 ^ w.
Proof.
  intros Hk -> Hw. rewrite Z.shiftr_land, Z.shiftr_shiftl_l, Z.sub_diag, Z.shiftl_0_r, Z.land_ones, Z.shiftr_div_pow2 by lia. reflexivity.
Qed.

(** C23. The flags stored with a translated block determine everything the
    translator bakes into it: the instruction set, vector length and stride,
    privilege, whether the floating-point unit is enabled, the IT state and
    the byte order decode to the values of the processor the block was
    looked up for. *)
Theorem tb_flags_decode e : tb_wf e -> let F := (cpu_get_tb_cpu_state e).2 in
  ARM_TBFLAG_THUMB F = thumb (vcpu e) /\
  ARM_TBFLAG_VECLEN F = vec_len e /\
  ARM_TBFLAG_VECSTRIDE F = vec_stride e /\
  ARM_TBFLAG_PRIV F = b2z (tb_privmode (vcpu e)) /\
  ARM_TBFLAG_VFPEN F = b2z (tst (nthz (xregs e) ARM_VFP_FPEXC) (Z.shiftl 1 30)) /\
  ARM_TBFLAG_CONDEXEC F = condexec_bits (vcpu e) /\
  ARM_TBFLAG_BSWAP_CODE F = bswap_code e /\
  0 <= F < 2 ^ 17.
Proof.
  intros H. cbv zeta. rewrite tb_flags_sum by exact H. destruct H as (A & B & C & D & G).
  set (p := tb_privmode (vcpu e)). set (v := tst _ (Z.shiftl 1 30)).
  assert (0 <= b2z p < 2 /\ 0 <= b2z v < 2) as [Hp Hv] by (destruct p, v; cbn; lia).
  generalize dependent (b2z p). generalize dependent (b2z v). intros v' Hv p' Hp.
  unfold ARM_TBFLAG_THUMB, ARM_TBFLAG_VECLEN, ARM_TBFLAG_VECSTRIDE, ARM_TBFLAG_PRIV, ARM_TBFLAG_VFPEN, ARM_TBFLAG_CONDEXEC,
    ARM_TBFLAG_BSWAP_CODE, ARM_TBFLAG_THUMB_MASK, ARM_TBFLAG_VECLEN_MASK, ARM_TBFLAG_VECSTRIDE_MASK, ARM_TBFLAG_PRIV_MASK,
    ARM_TBFLAG_VFPEN_MASK, ARM_TBFLAG_CONDEXEC_MASK, ARM_TBFLAG_BSWAP_CODE_MASK.
  rewrite (tb_field _ _ _ 1), (tb_field _ _ _ 3), (tb_field _ _ _ 2), (tb_field _ _ _ 1), (tb_field _ _ _ 1), (tb_field _ _ _ 8),
    (tb_field _ _ _ 1) by (reflexivity || (unfold ARM_TBFLAG_THUMB_SHIFT, ARM_TBFLAG_VECLEN_SHIFT, ARM_TBFLAG_VECSTRIDE_SHIFT,
      ARM_TBFLAG_PRIV_SHIFT, ARM_TBFLAG_VFPEN_SHIFT, ARM_TBFLAG_CONDEXEC_SHIFT, ARM_TBFLAG_BSWAP_CODE_SHIFT; lia)).
  unfold ARM_TBFLAG_THUMB_SHIFT, ARM_TBFLAG_VECLEN_SHIFT, ARM_TBFLAG_VECSTRIDE_SHIFT,
      ARM_TBFLAG_PRIV_SHIFT, ARM_TBFLAG_VFPEN_SHIFT, ARM_TBFLAG_CONDEXEC_SHIFT, ARM_TBFLAG_BSWAP_CODE_SHIFT.
  repeat split; Z.to_euclidean_division_equations; lia.
Qed.
End Keeps.

(** ** The debugger *)

Lemma put_vfp_reg_run `{Softfloat} i v e : 0 <= i < Z.of_nat (length (vfp_regs (vcpu e))) ->
  put_vfp_reg i v e = Done (tt, set_vcpu (set_vfp_regs (zset (vfp_regs (vcpu e)) i v) (vcpu e)) e).
Proof.
  intros Hi. unfold put_vfp_reg, bind, gets, in_bounds, id. destruct (Z.leb_spec 0 i), (Z.ltb_spec i (Z.of_nat (length (vfp_regs (vcpu e))))); try lia.
  reflexivity.
Qed.

(** A data register written by the debugger is read back. *)
Lemma gdb_data_roundtrip `{GdbBufLaws} `{Softfloat} v reg r e : length (vfp_regs (vcpu e)) = 32%nat ->
  0 <= reg < gdb_nregs e -> 0 <= v < 2 ^ 64 ->
  exists e', vfp_gdb_set_reg (stfq_le_p v ++ r) reg e = Done (8, e') /\ vfp_gdb_get_reg reg e' = Done ((stfq_le_p v, 8), e').
Proof.
  intros Hl Hr Hv. assert (Hn : gdb_nregs e <= 32) by (unfold gdb_nregs; destruct (arm_feature _ _); lia).
  set (e' := set_vcpu (set_vfp_regs (zset (vfp_regs (vcpu e)) reg v) (vcpu e)) e). exists e'. split.
  - unfold vfp_gdb_set_reg. erewrite bind_run by reflexivity. cbv beta zeta. unfold id.
    destruct (Z.ltb_spec reg (gdb_nregs e)); [|lia]. rewrite ldfq_stfq by exact Hv.
    erewrite bind_run by (apply put_vfp_reg_run; lia). reflexivity.
  - unfold vfp_gdb_get_reg. erewrite bind_run by reflexivity. cbv beta zeta. unfold id.
    assert (Hn' : gdb_nregs e' = gdb_nregs e) by reflexivity. rewrite Hn'. destruct (Z.ltb_spec reg (gdb_nregs e)); [|lia].
    unfold arr_get. replace (znth _ reg) with (Some v); [reflexivity|].
    symmetry. apply znth_zset_eq. lia.
Qed.

(** ** Examples *)

Definition demo_status : @float_status soft := fun _ => 0.
Definition demo_standard : @float_status soft := fun f =>
  match f with flush_to_zero | flush_inputs_to_zero | default_nan_mode => 1 | _ => 0 end.
Definition demo_vfp : @vfp_env soft := @Build_vfp_env soft (set_vfp_regs (replicate 32 0) (zero_cpu 0x1f 0)) (replicate 16 0) 0 0 demo_status demo_standard 0.

Lemma demo_vfp_sync : @fpscr_sync soft demo_vfp.
Proof. split; try reflexivity; try (split; vm_compute; congruence); repeat split; vm_compute; congruence. Qed.

Definition demo_buf : GdbBuf := {|
  stfq_le_p v := map (fun i => Z.land (Z.shiftr v (8 * i)) 0xff) [0; 1; 2; 3; 4; 5; 6; 7];
  ldfq_le_p b := foldr (fun x acc => x + 256 * acc) 0 (take 8 b);
  stl_p v := map (fun i => Z.land (Z.shiftr v (8 * i)) 0xff) [0; 1; 2; 3];
  ldl_p b := foldr (fun x acc => x + 256 * acc) 0 (take 4 b)
|}.

Lemma byte_step v i j : j = i + 1 -> 0 <= i ->
  Z.land (Z.shiftr v (8 * i)) 0xff + 256 * Z.shiftr v (8 * j) = Z.shiftr v (8 * i).
Proof.
  intros -> Hi. change 0xff with (Z.ones 8). rewrite Z.land_ones, !Z.shiftr_div_pow2 by lia.
  replace (8 * (i + 1)) with (8 * i + 8) by lia. rewrite Z.pow_add_r, <- Z.div_div by lia. change (2 ^ 8) with 256.
  pose proof (Z.div_mod (v / 2 ^ (8 * i)) 256 ltac:(lia)). lia.
Qed.

Lemma demo_buf_laws : @GdbBufLaws demo_buf.
Proof.
  split; [reflexivity| |]; intros v r Hv; cbn -[Z.mul Z.add Z.land Z.shiftr].
  - pose proof (byte_step v 0 1 eq_refl ltac:(lia)). pose proof (byte_step v 1 2 eq_refl ltac:(lia)). pose proof (byte_step v 2 3 eq_refl ltac:(lia)). pose proof (byte_step v 3 4 eq_refl ltac:(lia)).
    pose proof (byte_step v 4 5 eq_refl ltac:(lia)). pose proof (byte_step v 5 6 eq_refl ltac:(lia)). pose proof (byte_step v 6 7 eq_refl ltac:(lia)). pose proof (byte_step v 7 8 eq_refl ltac:(lia)).
    assert (Z.shiftr v (8 * 8) = 0) by (rewrite Z.shiftr_div_pow2, Z.div_small by lia; reflexivity).
    assert (Z.shiftr v (8 * 0) = v) by apply Z.shiftr_0_r. rewrite take_0. cbn [foldr]. lia.
  - unfold is_u32 in Hv.
    pose proof (byte_step v 0 1 eq_refl ltac:(lia)). pose proof (byte_step v 1 2 eq_refl ltac:(lia)). pose proof (byte_step v 2 3 eq_refl ltac:(lia)). pose proof (byte_step v 3 4 eq_refl ltac:(lia)).
    assert (Z.shiftr v (8 * 4) = 0) by (rewrite Z.shiftr_div_pow2, Z.div_small by lia; reflexivity).
    assert (Z.shiftr v (8 * 0) = v) by apply Z.shiftr_0_r. rewrite take_0. cbn [foldr]. lia.
Qed.

(** FPSCR written by the debugger selects rounding toward zero, but
    softfloat goes on rounding to nearest, also after the guest writes the
    same value. *)
Lemma gdb_fpscr_desync : exists e1,
  @vfp_gdb_set_reg soft demo_buf [0; 0; 0xc0; 0] 17 demo_vfp = Done (4, e1) /\
  fpscr_reg e1 = 0xc00000 /\ @nearest_even soft (fp_status e1) /\ ~ @fpscr_sync soft e1 /\
  @nearest_even soft (fp_status (vfp_set_fpscr 0xc00000 e1)).
Proof.
  exists (set_xreg ARM_VFP_FPSCR 0xc00000 demo_vfp). split; [reflexivity|]. split; [reflexivity|]. split; [reflexivity|].
  split; [|reflexivity]. intros [_ _ [H _] _ _]. vm_compute in H. discriminate.
Qed.

Lemma fpscr_roundtrip_witness : @vfp_get_fpscr soft (vfp_set_fpscr 0x00f7009f demo_vfp) = 0x00f7009f.
Proof. apply (@fpscr_roundtrip soft soft_laws); [split; vm_compute; congruence|reflexivity]. Defined.

Lemma demo_vfp_run : rtc (@vstep soft) demo_vfp (vfp_set_fpscr 0x00c00000 demo_vfp).
Proof. apply rtc_once, (@vs_write soft). split; vm_compute; congruence. Qed.

Lemma fpscr_invariant_witness : @fpscr_sync soft (vfp_set_fpscr 0x00c00000 demo_vfp).
Proof. exact (proj1 (@fpscr_invariant soft soft_laws demo_vfp _ demo_vfp_sync demo_vfp_run)). Defined.

Lemma tb_flags_decode_witness : ARM_TBFLAG_VECLEN (@cpu_get_tb_cpu_state soft (vfp_set_fpscr 0x00070000 demo_vfp)).2 = 7.
Proof.
  pose proof (@tb_flags_decode soft (vfp_set_fpscr 0x00070000 demo_vfp)) as H.
  assert (W : @tb_wf soft (vfp_set_fpscr 0x00070000 demo_vfp)) by (repeat split; vm_compute; congruence).
  transitivity (@vec_len soft (vfp_set_fpscr 0x00070000 demo_vfp)); [exact (proj1 (proj2 (H W)))|reflexivity].
Defined.
