(* ===== verification/Estimate.v ===== *)
(** * The reciprocal estimates ([target-arm/helper.c])

    [recip_estimate] and [recip_sqrt_estimate] compute with binary64
    numbers; the architecture also defines the estimates on integers, as
    tables of 8-bit significands.  This file proves that the helpers compute
    the architecture's integers, for every operand, with any softfloat
    library that rounds to nearest. *)
From stdpp Require Import base list.
From Stdlib Require Import SpecFloat ZArith.
From S2P Require Import Prelude Double ArmTable State CpuState OpHelper CpuMode Softfloat Vfp.
Open Scope Z_scope.

(** ** The architecture's definition *)

(** For [256 <= a < 512], the estimate of [2^17 / a]. *)
Definition RecipEstimate (a : Z) : Z :=
  let a := 2 * a + 1 in
  let b := 2 ^ 19 / a in
  (b + 1) / 2.

(** The loop that looks for the last [b] with [a * b * b < 2^28]. *)
Fixpoint sqrt_loop (fuel : nat) (a b : Z) : Z :=
  match fuel with
  | O => b
  | S k => if a * (b + 1) * (b + 1) <? 2 ^ 28 then sqrt_loop k a (b + 1) else b
  end.
Definition RecipSqrtEstimate (a : Z) : Z :=
  let a := if a <? 256 then 2 * a + 1 else (a / 2 * 2 + 1) * 2 in
  (sqrt_loop 512 a 512 + 1) / 2.

(** ** Computations with a local status *)
Section Estimate.
Context {SF : Softfloat} {SL : SoftfloatLaws} {SI : SoftfloatIeee}.

(** In round-to-nearest mode the computation returns [v]. *)
Definition yields {A} (m : M float_status A) (v : A) : Prop :=
  forall s, nearest_even s -> exists s', m s = Done (v, s') /\ nearest_even s'.

Lemma yields_bind {A B} (m : M float_status A) (k : A -> M float_status B) v w :
  yields m v -> yields (k v) w -> yields (bind m k) w.
Proof. intros Hm Hk s Hs. destruct (Hm s Hs) as (s1 & E & H1). erewrite bind_run by exact E. apply Hk, H1. Qed.

Lemma yields_call fn args v : (forall s, nearest_even s -> (sf_run fn args s).1 = v) -> yields (local_call fn args) v.
Proof.
  intros H s Hs. pose proof (sf_run_raises fn args s) as Hr. specialize (H s Hs). unfold local_call.
  destruct (sf_run fn args s) as [r s']. cbn in *. subst. exists s'. split; [reflexivity|]. apply (raises_nearest s); assumption.
Qed.

Lemma yields_op2 fn op x y : (fn, op) ∈ [(float_add F64, d_add); (float_mul F64, d_mul); (float_div F64, d_div)] ->
  pos_normal x = true -> pos_normal y = true -> pos_normal (op x y) = true ->
  yields (local_call fn [f64_bits x; f64_bits y]) (f64_bits (op x y)).
Proof.
  intros Hin Hx Hy Hr. apply yields_call. intros s Hs.
  rewrite (ieee_op2 fn op) by (rewrite ?of_f64_bits by assumption; assumption). rewrite !of_f64_bits by assumption. reflexivity.
Qed.

Lemma yields_sqrt x : pos_normal x = true -> pos_normal (SFsqrt 53 1024 x) = true ->
  yields (local_call (float_sqrt F64) [f64_bits x]) (f64_bits (SFsqrt 53 1024 x)).
Proof.
  intros Hx Hr. apply yields_call. intros s Hs.
  rewrite ieee_sqrt by (rewrite ?of_f64_bits by assumption; assumption). rewrite of_f64_bits by assumption. reflexivity.
Qed.

Lemma yields_trunc x z : pos_normal x = true -> d_trunc x = Some z -> z < 2 ^ 63 ->
  yields (local_call float64_to_int64_round_to_zero [f64_bits x]) z.
Proof. intros Hx Hz Hb. apply yields_call. intros s Hs. apply ieee_trunc; rewrite ?of_f64_bits by assumption; assumption. Qed.

Lemma yields_of_int z : 0 < z < 2 ^ 53 -> yields (local_call int64_to_float64 [z]) (f64_bits (d_of_Z z)).
Proof. intros Hz. apply yields_call. intros s Hs. apply ieee_of_int, Hz. Qed.

Lemma yields_lt x y : pos_normal x = true -> pos_normal y = true ->
  yields (local_call float64_lt [f64_bits x; f64_bits y]) (if d_ltb x y then 1 else 0).
Proof.
  intros Hx Hy. apply yields_call. intros s Hs.
  rewrite ieee_lt by (rewrite of_f64_bits by assumption; assumption). rewrite !of_f64_bits by assumption. reflexivity.
Qed.

(** ** The constants and the scaling *)
Definition pow2_double (k : Z) : double := S754_finite false (2 ^ 52)%positive (k - 52).

Lemma const_half : float64_half = f64_bits (pow2_double (-1)).
Proof. rewrite half_bits. reflexivity. Qed.
Lemma const_one : float64_one = f64_bits (pow2_double 0).
Proof. rewrite one_bits. reflexivity. Qed.
Lemma const_512 : float64_512 = f64_bits (pow2_double 9).
Proof. reflexivity. Qed.
Lemma const_256 : float64_256 = f64_bits (pow2_double 8).
Proof. reflexivity. Qed.

Lemma mul_pow2 k m e : 2 ^ 52 <= Zpos m < 2 ^ 53 -> -1000 <= e + k <= 900 ->
  d_mul (pow2_double k) (S754_finite false m e) = S754_finite false m (e + k).
Proof.
  intros Hm He. unfold d_mul, SFmul, pow2_double. cbn [xorb].
  set (M := Zpos (2 ^ 52 * m)). assert (HM : M = Zpos m * 2 ^ 52) by (unfold M; lia).
  assert (Hd : Zdigits2 M = 105).
  { rewrite HM, Zdigits2_mul_pow2 by lia. rewrite (Zdigits2_unique _ 53) by lia. reflexivity. }
  assert (Hf : fexp 53 1024 (Zdigits2 M + (k - 52 + e)) = k + e) by (rewrite fexp_eq, Hd; lia).
  destruct (round_aux_general false M (k - 52 + e) loc_Exact ltac:(lia) ltac:(rewrite Hf; lia))
    as (q & m'' & e'' & [Hq _] & He' & H0 & Hq' & Hcan & Heq).
  rewrite Hf in *. replace (k + e - (k - 52 + e)) with 52 in * by lia.
  assert (q = Zpos m) as ->.
  { rewrite (Hq eq_refl). unfold rne_at. rewrite HM, Z.div_mul, Z.mod_mul by lia. reflexivity. }
  assert (Hpos : 0 < m'') by (destruct (Z.eq_dec m'' 0); [subst; lia|lia]).
  assert (e'' = k + e) as ->.
  { specialize (Hcan Hpos). rewrite fexp_eq in Hcan.
    assert (Hdm : Zdigits2 m'' + (e'' - (k + e)) = 53).
    { rewrite <- Zdigits2_mul_pow2 by lia. rewrite Hq'. apply Zdigits2_unique; lia. }
    lia. }
  rewrite Z.sub_diag, Z.mul_1_r in Hq'. subst m''. fold M. rewrite Heq.
  destruct (Z.leb_spec (k + e) 971); [|lia]. f_equal. lia.
Qed.

(** The first step: [scale * a] truncated. *)
Lemma yields_scale {A} k m e (K : Z -> M float_status A) w : 2 ^ 52 <= Zpos m < 2 ^ 53 ->
  -1000 <= e + k < 0 -> -1000 <= e <= 900 -> -52 <= k <= 52 -> yields (K (Zpos m / 2 ^ (- (e + k)))) w ->
  yields (let! q := local_call (float_mul F64) [f64_bits (pow2_double k); f64_bits (S754_finite false m e)] in
          let! q_int := local_call float64_to_int64_round_to_zero [q] in K q_int) w.
Proof.
  intros Hm Hek He Hk HK. assert (Hn : forall e', -1000 <= e' <= 900 -> pos_normal (S754_finite false m e') = true).
  { intros e' He'. cbn [pos_normal]. rewrite !andb_true_iff, !Z.leb_le, Z.ltb_lt. lia. }
  eapply yields_bind.
  - apply (yields_op2 _ d_mul); [do 2 constructor| |apply Hn; lia|rewrite mul_pow2 by lia; apply Hn; lia].
    unfold pow2_double, pos_normal. rewrite !andb_true_iff, !Z.leb_le, Z.ltb_lt. lia.
  - rewrite mul_pow2 by lia. eapply yields_bind; [|exact HK]. apply yields_trunc; [apply Hn; lia| |].
    + unfold d_trunc. destruct (Z.leb_spec 0 (e + k)); [lia|]. reflexivity.
    + assert (Zpos m / 2 ^ (- (e + k)) <= Zpos m); [|lia]. apply Z.div_le_upper_bound; [lia|].
      pose proof (Z.pow_pos_nonneg 2 (- (e + k)) ltac:(lia) ltac:(lia)). nia.
Qed.

(** ** The remaining steps, on the doubles themselves

    The checks are the side conditions of the library's promises. *)
Definition ok_normal (x : double) : option double := if pos_normal x then Some x else None.
Definition ok_int (o : option Z) : option Z :=
  match o with Some z => if (0 <? z) && (z <? 2 ^ 53) then Some z else None | None => None end.

(** Rounding [r] to a multiple of 1/256. *)
Definition round256 (r : double) : option double :=
  q ← ok_normal (d_mul r (pow2_double 8));
  q ← ok_normal (d_add q (pow2_double (-1)));
  z ← ok_int (d_trunc q);
  q ← ok_normal (d_of_Z z);
  ok_normal (d_div q (pow2_double 8)).

(** [(q + 0.5) / 2^k]. *)
Definition midpoint (k q : Z) : option double :=
  z ← ok_int (Some q);
  q ← ok_normal (d_of_Z z);
  q ← ok_normal (d_add q (pow2_double (-1)));
  ok_normal (d_div q (pow2_double k)).

Definition recip_chain (q : Z) : option double :=
  q ← midpoint 9 q; r ← ok_normal (d_div (pow2_double 0) q); round256 r.
Definition sqrt_chain (k q : Z) : option double :=
  q ← midpoint k q; q ← ok_normal (SFsqrt 53 1024 q); r ← ok_normal (d_div (pow2_double 0) q); round256 r.

Lemma ok_normal_Some x y : ok_normal x = Some y -> x = y /\ pos_normal y = true.
Proof. unfold ok_normal. destruct (pos_normal x) eqn:E; [intros [= <-]; auto|discriminate]. Qed.

Lemma ok_int_Some o z : ok_int o = Some z -> o = Some z /\ 0 < z < 2 ^ 53.
Proof.
  unfold ok_int. destruct o as [w|]; [|discriminate]. destruct (Z.ltb_spec 0 w), (Z.ltb_spec w (2 ^ 53)); cbn [andb]; try discriminate.
  intros [= <-]. auto.
Qed.

Ltac unchain H := repeat match type of H with
  | (ok_normal ?x ≫= _) = Some _ => let y := fresh "x" in let E := fresh "E" in let N := fresh "N" in
      destruct (ok_normal x) as [y|] eqn:E; cbn [mbind option_bind] in H; [|discriminate];
      apply ok_normal_Some in E as [E N]
  | (ok_int ?x ≫= _) = Some _ => let y := fresh "z" in let E := fresh "E" in let N := fresh "N" in
      destruct (ok_int x) as [y|] eqn:E; cbn [mbind option_bind] in H; [|discriminate];
      apply ok_int_Some in E as [E N]
  | ok_normal _ = Some _ => let N := fresh "N" in apply ok_normal_Some in H as [H N]
  end; subst.

Lemma pow2_normal k : -60 <= k <= 60 -> pos_normal (pow2_double k) = true.
Proof. intros Hk. unfold pow2_double, pos_normal. rewrite !andb_true_iff, !Z.leb_le, Z.ltb_lt. lia. Qed.

(** An operation of a chain. *)
Ltac op2 d := apply (yields_op2 _ d); [repeat constructor; fail|assumption || (apply pow2_normal; lia)..|assumption].

Lemma yields_round256 r x : pos_normal r = true -> round256 r = Some x ->
  yields (let! q := local_call (float_mul F64) [f64_bits r; float64_256] in
    let! q := local_call (float_add F64) [q; float64_half] in
    let! q_int := local_call float64_to_int64_round_to_zero [q] in
    let! q := local_call int64_to_float64 [q_int] in
    local_call (float_div F64) [q; float64_256]) (f64_bits x).
Proof.
  intros Hr H. unfold round256 in H. unchain H. rewrite const_256, const_half.
  eapply yields_bind; [op2 d_mul|]. eapply yields_bind; [op2 d_add|]. eapply yields_bind; [eapply yields_trunc; [assumption|eassumption|lia]|].
  eapply yields_bind; [apply yields_of_int; assumption|]. op2 d_div.
Qed.

Lemma yields_midpoint {A} k q x (K : Z -> M float_status A) w : -60 <= k <= 60 -> midpoint k q = Some x ->
  (pos_normal x = true -> yields (K (f64_bits x)) w) ->
  yields (let! q := local_call int64_to_float64 [q] in
    let! q := local_call (float_add F64) [q; float64_half] in
    let! q := local_call (float_div F64) [q; f64_bits (pow2_double k)] in K q) w.
Proof.
  intros Hk H HK. unfold midpoint in H. unchain H. injection E as <-. rewrite const_half.
  eapply yields_bind; [apply yields_of_int; assumption|]. eapply yields_bind; [op2 d_add|].
  eapply yields_bind; [op2 d_div|]. auto.
Qed.

Lemma yields_recip_tail q x : recip_chain q = Some x ->
  yields (let! q := local_call int64_to_float64 [q] in
    let! q := local_call (float_add F64) [q; float64_half] in
    let! q := local_call (float_div F64) [q; float64_512] in
    let! q := local_call (float_div F64) [float64_one; q] in
    let! q := local_call (float_mul F64) [q; float64_256] in
    let! q := local_call (float_add F64) [q; float64_half] in
    let! q_int := local_call float64_to_int64_round_to_zero [q] in
    let! q := local_call int64_to_float64 [q_int] in
    local_call (float_div F64) [q; float64_256]) (f64_bits x).
Proof.
  unfold recip_chain. destruct (midpoint 9 q) as [y|] eqn:Ey; cbn [mbind option_bind]; [|discriminate]. intros H. unchain H.
  rewrite const_512. eapply yields_midpoint; [lia|exact Ey|]. intros Hy. rewrite const_one.
  eapply yields_bind; [op2 d_div|]. apply yields_round256; assumption.
Qed.

Lemma yields_sqrt_tail k q x : -60 <= k <= 60 -> sqrt_chain k q = Some x -> exists r, pos_normal r = true /\ round256 r = Some x /\
  yields (let! q := local_call int64_to_float64 [q] in
    let! q := local_call (float_add F64) [q; float64_half] in
    let! q := local_call (float_div F64) [q; f64_bits (pow2_double k)] in
    let! q := local_call (float_sqrt F64) [q] in
    local_call (float_div F64) [float64_one; q]) (f64_bits r).
Proof.
  intros Hk. unfold sqrt_chain. destruct (midpoint k q) as [y|] eqn:Ey; cbn [mbind option_bind]; [|discriminate]. intros H. unchain H.
  eexists. split; [eassumption|]. split; [exact H|]. eapply yields_midpoint; [lia|exact Ey|]. intros Hy.
  eapply yields_bind; [apply yields_sqrt; assumption|]. rewrite const_one. op2 d_div.
Qed.
End Estimate.

(** ** The finitely many cases *)

(** The number [s / 256] for [256 <= s < 512]. *)
Definition over256 (s : Z) : Z := 0x3ff * 2 ^ 52 + (s - 256) * 2 ^ 44.

Definition chain_is (o : option double) (s : Z) : bool :=
  match o with Some x => (f64_bits x =? over256 s) && (256 <=? s) && (s <? 512) | None => false end.

Lemma recip_table : forallb (fun q => chain_is (recip_chain q) (RecipEstimate q)) (seqZ 256 256) = true.
Proof. vm_compute. reflexivity. Qed.
Lemma sqrt_table_low : forallb (fun q => chain_is (sqrt_chain 9 q) (RecipSqrtEstimate q)) (seqZ 128 128) = true.
Proof. vm_compute. reflexivity. Qed.
Lemma sqrt_table_high : forallb (fun q => chain_is (sqrt_chain 8 (q / 2)) (RecipSqrtEstimate q)) (seqZ 256 256) = true.
Proof. vm_compute. reflexivity. Qed.

Lemma table_at (f : Z -> bool) lo n q : forallb f (seqZ lo n) = true -> lo <= q < lo + n -> f q = true.
Proof. intros H Hq. rewrite forallb_forall in H. apply H. apply list_elem_of_In, elem_of_seqZ. lia. Qed.

Lemma chain_is_true o s : chain_is o s = true -> 256 <= s < 512 /\ exists x, o = Some x /\ f64_bits x = over256 s.
Proof.
  unfold chain_is. destruct o as [x|]; [|discriminate]. rewrite !andb_true_iff, Z.eqb_eq, Z.leb_le, Z.ltb_lt.
  intros [[E A] B]. split; [lia|eauto].
Qed.

Lemma recip_entry q : 256 <= q < 512 -> 256 <= RecipEstimate q < 512 /\
  exists x, recip_chain q = Some x /\ f64_bits x = over256 (RecipEstimate q).
Proof.
  intros Hq. apply chain_is_true.
  apply (table_at (fun q => chain_is (recip_chain q) (RecipEstimate q)) 256 256 q recip_table). lia.
Qed.

Lemma sqrt_entry_low q : 128 <= q < 256 -> 256 <= RecipSqrtEstimate q < 512 /\
  exists x, sqrt_chain 9 q = Some x /\ f64_bits x = over256 (RecipSqrtEstimate q).
Proof.
  intros Hq. apply chain_is_true.
  apply (table_at (fun q => chain_is (sqrt_chain 9 q) (RecipSqrtEstimate q)) 128 128 q sqrt_table_low). lia.
Qed.

Lemma sqrt_entry_high q : 256 <= q < 512 -> 256 <= RecipSqrtEstimate q < 512 /\
  exists x, sqrt_chain 8 (q / 2) = Some x /\ f64_bits x = over256 (RecipSqrtEstimate q).
Proof.
  intros Hq. apply chain_is_true.
  apply (table_at (fun q => chain_is (sqrt_chain 8 (q / 2)) (RecipSqrtEstimate q)) 256 256 q sqrt_table_high). lia.
Qed.

Lemma rsqrt_range q : 128 <= q < 512 -> 256 <= RecipSqrtEstimate q < 512.
Proof. intros Hq. destruct (Z.lt_ge_cases q 256); [apply sqrt_entry_low|apply sqrt_entry_high]; lia. Qed.

Section Helpers.
Context {SF : Softfloat} {SL : SoftfloatLaws} {SI : SoftfloatIeee}.

(** An operand [m * 2^(e-1075)] with its bit pattern. *)
Lemma operand_bits m e : 2 ^ 52 <= m < 2 ^ 53 ->
  e * 2 ^ 52 + (m - 2 ^ 52) = f64_bits (S754_finite false (Z.to_pos m) (e - 1075)).
Proof. intros Hm. cbn [f64_bits]. rewrite Z2Pos.id by lia. lia. Qed.

Lemma recip_estimate_yields m : 2 ^ 52 <= m < 2 ^ 53 ->
  yields (recip_estimate_local (0x3fe * 2 ^ 52 + (m - 2 ^ 52))) (over256 (RecipEstimate (m / 2 ^ 44))).
Proof.
  intros Hm. assert (Hq : 256 <= m / 2 ^ 44 < 512).
  { split; [apply Z.div_le_lower_bound; lia|apply Z.div_lt_upper_bound; lia]. }
  destruct (recip_entry (m / 2 ^ 44) Hq) as (_ & x & Hx & <-).
  rewrite operand_bits by exact Hm. unfold recip_estimate_local. rewrite const_512 at 1.
  apply yields_scale; rewrite ?Z2Pos.id by lia; try lia. change (- (0x3fe - 1075 + 9)) with 44. apply yields_recip_tail, Hx.
Qed.

Lemma sqrt_branch_yields k m e x : 2 ^ 52 <= m < 2 ^ 53 -> -1000 <= e - 1075 + k < 0 -> -52 <= k <= 52 ->
  -1000 <= e - 1075 <= 900 -> sqrt_chain k (m / 2 ^ (1075 - e - k)) = Some x ->
  exists r, pos_normal r = true /\ round256 r = Some x /\
    yields (sqrt_branch (f64_bits (pow2_double k)) (e * 2 ^ 52 + (m - 2 ^ 52))) (f64_bits r).
Proof.
  intros Hm He Hk He' Hx. destruct (yields_sqrt_tail k _ x ltac:(lia) Hx) as (r & N & R & Y). exists r. split; [exact N|].
  split; [exact R|]. rewrite operand_bits by exact Hm. unfold sqrt_branch.
  apply yields_scale; rewrite ?Z2Pos.id by lia; try lia. replace (- (e - 1075 + k)) with (1075 - e - k) by lia. exact Y.
Qed.

Lemma ltb_same_exp p q e : d_ltb (S754_finite false p e) (S754_finite false q e) = (p <? q)%positive.
Proof. unfold d_ltb, SFltb, SFcompare, Pos.ltb, Pos.compare. rewrite Z.compare_refl. reflexivity. Qed.

Lemma half_lt m e : 2 ^ 52 <= m < 2 ^ 53 -> e = 0x3fe \/ e = 0x3fd ->
  d_ltb (S754_finite false (Z.to_pos m) (e - 1075)) (pow2_double (-1)) = (e =? 0x3fd).
Proof.
  intros Hm [->| ->]; [|reflexivity]. unfold pow2_double. change (0x3fe - 1075) with (-1 - 52).
  rewrite ltb_same_exp. apply Pos.ltb_ge. lia.
Qed.

(** In the lower half the table index has one bit less. *)
Lemma rsqrt_estimate_yields m e : 2 ^ 52 <= m < 2 ^ 53 -> e = 0x3fe \/ e = 0x3fd ->
  yields (recip_sqrt_estimate_local (e * 2 ^ 52 + (m - 2 ^ 52)))
    (over256 (RecipSqrtEstimate (if e =? 0x3fd then m / 2 ^ 45 else m / 2 ^ 44))).
Proof.
  intros Hm He. assert (Hn : pos_normal (S754_finite false (Z.to_pos m) (e - 1075)) = true).
  { cbn [pos_normal]. rewrite !andb_true_iff, !Z.leb_le, Z.ltb_lt, Z2Pos.id by lia. lia. }
  assert (H45 : 128 <= m / 2 ^ 45 < 256) by (split; [apply Z.div_le_lower_bound; lia|apply Z.div_lt_upper_bound; lia]).
  assert (H44 : 256 <= m / 2 ^ 44 < 512) by (split; [apply Z.div_le_lower_bound; lia|apply Z.div_lt_upper_bound; lia]).
  unfold recip_sqrt_estimate_local. eapply yields_bind.
  { rewrite operand_bits by exact Hm. rewrite const_half. apply yields_lt; [exact Hn|reflexivity]. }
  rewrite half_lt by assumption. destruct He as [-> | ->]; cbn -[f64_bits over256 Z.pow Z.div Z.mul local_call sqrt_branch].
  - destruct (sqrt_entry_high (m / 2 ^ 44) H44) as (_ & x & Hx & <-).
    rewrite Z.div_div in Hx by lia. destruct (sqrt_branch_yields 8 m 0x3fe x) as (r & N & R & Y); try lia; [exact Hx|].
    eapply yields_bind; [exact Y|]. apply yields_round256; assumption.
  - destruct (sqrt_entry_low (m / 2 ^ 45) H45) as (_ & x & Hx & <-).
    destruct (sqrt_branch_yields 9 m 0x3fd x) as (r & N & R & Y); try lia; [exact Hx|].
    eapply yields_bind; [exact Y|]. apply yields_round256; assumption.
Qed.

Lemma with_copy_yields (m : M float_status Z) v e : yields m v -> nearest_even (standard_fp_status e) -> with_copy m e = Done (v, e).
Proof. intros H Hn. destruct (H _ Hn) as (s' & E & _). unfold with_copy. rewrite E. reflexivity. Qed.

(** ** The integer helpers *)

(** The top nine bits of the result. *)
Lemma pack_u32 s : 256 <= s < 512 ->
  Z.lor 0x80000000 (Z.land (Z.shiftr (over256 s) 21) 0x7fffffff) = s * 2 ^ 23.
Proof.
  intros Hs. change 0x7fffffff with (Z.ones 31). change 0x80000000 with (Z.shiftl 1 31).
  rewrite lor_shift_add by (try apply land_mask_range; lia). rewrite Z.land_ones, Z.shiftr_div_pow2 by lia.
  unfold over256. replace (0x3ff * 2 ^ 52 + (s - 256) * 2 ^ 44) with ((0x3ff * 2 ^ 31 + (s - 256) * 2 ^ 23) * 2 ^ 21) by lia.
  rewrite Z.div_mul, (Z.add_comm (0x3ff * 2 ^ 31)), Z.mod_add, Z.mod_small by lia. lia.
Qed.

(** An operand made of an exponent and a fraction. *)
Lemma pack_operand e f k : 0 <= f -> 0 <= k -> f * 2 ^ k < 2 ^ 52 ->
  Z.lor (Z.shiftl e 52) (Z.shiftl f k) = e * 2 ^ 52 + ((f * 2 ^ k + 2 ^ 52) - 2 ^ 52).
Proof. intros Hf Hk Hb. rewrite (Z.shiftl_mul_pow2 f) by exact Hk. rewrite lor_shift_add by nia. lia. Qed.

Lemma div_shift a k j : 0 <= k -> 0 <= j -> a * 2 ^ k / 2 ^ (j + k) = a / 2 ^ j.
Proof. intros Hk Hj. rewrite Z.pow_add_r, Z.div_mul_cancel_r by (try apply Z.pow_nonzero; lia). reflexivity. Qed.

(** Removing the leading one. *)
Lemma drop_top a w : 0 <= w -> 2 ^ w <= a < 2 * 2 ^ w -> Z.land a (Z.ones w) = a - 2 ^ w.
Proof.
  intros Hw Ha. rewrite Z.land_ones by exact Hw. symmetry. apply Zmod_unique with 1; lia.
Qed.

Lemma recpe_u32_run a e : nearest_even (standard_fp_status e) -> is_u32 a ->
  recpe_u32 a e = Done (if a <? 2 ^ 31 then 2 ^ 32 - 1 else RecipEstimate (a / 2 ^ 23) * 2 ^ 23, e).
Proof.
  intros Hn Ha. unfold recpe_u32. change 0x80000000 with (2 ^ 31) at 1. rewrite land_pow2, testbit_sign by (assumption || lia).
  unfold is_u32 in Ha. rewrite Z.ltb_antisym. destruct (Z.leb_spec (2 ^ 31) a) as [Hl|Hl]; [|reflexivity].
  change (2 ^ 31 =? 0) with false. cbn [negb].
  change 0x7fffffff with (Z.ones 31) at 1. rewrite drop_top, pack_operand by lia. unfold recip_estimate. erewrite bind_run.
  2:{ apply with_copy_yields; [apply recip_estimate_yields; lia|exact Hn]. }
  replace ((a - 2 ^ 31) * 2 ^ 21 + 2 ^ 52) with (a * 2 ^ 21) by lia. change (2 ^ 44) with (2 ^ (23 + 21)). rewrite div_shift by lia.
  unfold ret. rewrite pack_u32; [reflexivity|]. apply recip_entry. split; [apply Z.div_le_lower_bound; lia|apply Z.div_lt_upper_bound; lia].
Qed.

Lemma top_two a : is_u32 a -> (Z.land a 0xc0000000 =? 0) = (a <? 2 ^ 30).
Proof.
  intros Ha. unfold is_u32 in Ha. change 0xc0000000 with (Z.shiftl (Z.ones 2) 30).
  rewrite <- field_back, Z.land_ones, Z.shiftr_div_pow2, Z.shiftl_mul_pow2, Z.mod_small by
    (try (split; [apply Z.div_pos|apply Z.div_lt_upper_bound]); lia).
  apply Bool.eq_iff_eq_true. rewrite Z.eqb_eq, Z.ltb_lt. pose proof (Z.div_mod a (2 ^ 30) ltac:(lia)).
  pose proof (Z.mod_pos_bound a (2 ^ 30) ltac:(lia)). split; [intros; lia|intros; rewrite Z.div_small by lia; reflexivity].
Qed.

Lemma rsqrte_u32_run a e : nearest_even (standard_fp_status e) -> is_u32 a ->
  rsqrte_u32 a e = Done (if a <? 2 ^ 30 then 2 ^ 32 - 1 else RecipSqrtEstimate (a / 2 ^ 23) * 2 ^ 23, e).
Proof.
  intros Hn Ha. unfold rsqrte_u32. rewrite top_two by exact Ha. destruct (Z.ltb_spec a (2 ^ 30)); [reflexivity|].
  change 0x80000000 with (2 ^ 31) at 1. rewrite land_pow2, testbit_sign by (assumption || lia).
  unfold is_u32 in Ha. unfold recip_sqrt_estimate.
  assert (Hr : 256 <= RecipSqrtEstimate (a / 2 ^ 23) < 512).
  { apply rsqrt_range. split; [apply Z.div_le_lower_bound; lia|apply Z.div_lt_upper_bound; lia]. }
  destruct (Z.leb_spec (2 ^ 31) a) as [Hl|Hl]; [change (2 ^ 31 =? 0) with false|change (0 =? 0) with true]; cbn [negb].
  - change 0x7fffffff with (Z.ones 31) at 1. rewrite drop_top, pack_operand by lia. erewrite bind_run.
    2:{ apply with_copy_yields; [apply rsqrt_estimate_yields; lia|exact Hn]. }
    replace ((a - 2 ^ 31) * 2 ^ 21 + 2 ^ 52) with (a * 2 ^ 21) by lia. cbn [Z.eqb Pos.eqb].
    change (2 ^ 44) with (2 ^ (23 + 21)). rewrite div_shift by lia. unfold ret. rewrite pack_u32 by exact Hr. reflexivity.
  - change 0x3fffffff with (Z.ones 30) at 1. rewrite drop_top, pack_operand by lia. erewrite bind_run.
    2:{ apply with_copy_yields; [apply rsqrt_estimate_yields; lia|exact Hn]. }
    replace ((a - 2 ^ 30) * 2 ^ 22 + 2 ^ 52) with (a * 2 ^ 22) by lia. cbn [Z.eqb Pos.eqb].
    change (2 ^ 45) with (2 ^ (23 + 22)). rewrite div_shift by lia. unfold ret. rewrite pack_u32 by exact Hr. reflexivity.
Qed.

(** ** Accuracy *)

Lemma recip_error_table : forallb (fun q => (Z.abs (RecipEstimate q * q - 2 ^ 17) <=? 2 ^ 9 - 1) &&
  (Z.abs (RecipEstimate q * (q + 1) - 2 ^ 17) <=? 2 ^ 9 - 1)) (seqZ 256 256) = true.
Proof. vm_compute. reflexivity. Qed.

(** The estimate times the operand is within 1/256 of one. *)
Lemma recip_error a : 2 ^ 31 <= a < 2 ^ 32 -> Z.abs (RecipEstimate (a / 2 ^ 23) * 2 ^ 23 * a - 2 ^ 63) * 256 < 2 ^ 63.
Proof.
  intros Ha. set (q := a / 2 ^ 23). assert (Hq : 256 <= q < 512) by (split; [apply Z.div_le_lower_bound; lia|apply Z.div_lt_upper_bound; lia]).
  pose proof (table_at (fun q => (Z.abs (RecipEstimate q * q - 2 ^ 17) <=? 2 ^ 9 - 1) &&
    (Z.abs (RecipEstimate q * (q + 1) - 2 ^ 17) <=? 2 ^ 9 - 1)) 256 256 q recip_error_table ltac:(lia)) as H.
  cbv beta in H. rewrite andb_true_iff, !Z.leb_le in H. destruct (recip_entry q Hq) as [Hr _].
  pose proof (Z.div_mod a (2 ^ 23) ltac:(lia)). pose proof (Z.mod_pos_bound a (2 ^ 23) ltac:(lia)). fold q in H0.
  generalize dependent (RecipEstimate q). intros r Hr' Hr. nia.
Qed.

(** C21. The integer estimate instructions compute the architecture's tables
    for every operand, leave the state alone, and the reciprocal is within
    1/256 of exact. *)
Theorem estimates_u32 a e : nearest_even (standard_fp_status e) -> is_u32 a ->
  recpe_u32 a e = Done (if a <? 2 ^ 31 then 2 ^ 32 - 1 else RecipEstimate (a / 2 ^ 23) * 2 ^ 23, e) /\
  rsqrte_u32 a e = Done (if a <? 2 ^ 30 then 2 ^ 32 - 1 else RecipSqrtEstimate (a / 2 ^ 23) * 2 ^ 23, e) /\
  (2 ^ 31 <= a -> exists r, recpe_u32 a e = Done (r, e) /\ Z.abs (r * a - 2 ^ 63) * 256 < 2 ^ 63).
Proof.
  intros Hn Ha. split; [apply recpe_u32_run; assumption|]. split; [apply rsqrte_u32_run; assumption|]. intros Hl.
  exists (RecipEstimate (a / 2 ^ 23) * 2 ^ 23). unfold is_u32 in Ha. split; [|apply recip_error; lia].
  rewrite recpe_u32_run by (unfold is_u32; assumption). destruct (Z.ltb_spec a (2 ^ 31)); [lia|reflexivity].
Qed.

(** ** The binary32 helpers *)

(** The architecture's [FPRecipEstimate] and [FPRSqrtEstimate] under the
    standard FPSCR value: denormals are zeros. *)
Definition FPRecipEstimate (a : Z) : Z :=
  let sign := Z.land a 0x80000000 in
  let exp := f32_exp a in
  let frac := f32_frac a in
  if (exp =? 255) && negb (frac =? 0) then float32_default_nan
  else if exp =? 255 then sign
  else if exp =? 0 then sign + 0x7f800000
  else if 253 <=? exp then sign
  else sign + (253 - exp) * 2 ^ 23 + (RecipEstimate (256 + frac / 2 ^ 15) - 256) * 2 ^ 15.

Definition FPRSqrtEstimate (a : Z) : Z :=
  let sign := Z.land a 0x80000000 in
  let exp := f32_exp a in
  let frac := f32_frac a in
  if (exp =? 255) && negb (frac =? 0) then float32_default_nan
  else if exp =? 0 then sign + 0x7f800000
  else if negb (sign =? 0) then float32_default_nan
  else if exp =? 255 then 0
  else (380 - exp) / 2 * 2 ^ 23 +
    (RecipSqrtEstimate (if Z.even exp then 256 + frac / 2 ^ 15 else 128 + frac / 2 ^ 16) - 256) * 2 ^ 15.

Lemma pack_f32 s : 256 <= s < 512 -> Z.land (Z.shiftr (over256 s) 29) 0x7fffff = (s - 256) * 2 ^ 15.
Proof.
  intros Hs. change 0x7fffff with (Z.ones 23). rewrite Z.land_ones, Z.shiftr_div_pow2 by lia.
  unfold over256. replace (0x3ff * 2 ^ 52 + (s - 256) * 2 ^ 44) with (((s - 256) * 2 ^ 15 + 0x3ff * 2 ^ 23) * 2 ^ 29) by lia.
  rewrite Z.div_mul, Z.mod_add, Z.mod_small by lia. reflexivity.
Qed.

Lemma sign_field a : is_u32 a -> Z.land a 0x80000000 = Z.shiftl (b2z (Z.testbit a 31)) 31.
Proof. intros Ha. change 0x80000000 with (2 ^ 31). rewrite land_pow2 by lia. destruct (Z.testbit a 31); reflexivity. Qed.

Lemma exp_field a : Z.shiftr (Z.land a 0x7f800000) 23 = f32_exp a.
Proof. rewrite Z.shiftr_land. reflexivity. Qed.

Lemma frac_range a : 0 <= f32_frac a < 2 ^ 23.
Proof. apply (land_mask_range a 23). lia. Qed.
Lemma exp_range a : 0 <= f32_exp a < 256.
Proof. apply (land_mask_range (Z.shiftr a 23) 8). lia. Qed.

Lemma exp_parity a : (Z.land a 0x800000 =? 0) = Z.even (f32_exp a).
Proof.
  change 0x800000 with (2 ^ 23). rewrite land_pow2, <- Z.negb_odd, <- Z.bit0_odd by lia.
  unfold f32_exp. rewrite Z.land_spec, Z.shiftr_spec, andb_true_r by lia. change (0 + 23) with 23.
  destruct (Z.testbit a 23); reflexivity.
Qed.

(** The fields of a result. *)
Lemma pack_fields b x f : 0 <= x < 256 -> 0 <= f < 2 ^ 23 ->
  Z.lor (Z.lor (Z.shiftl (b2z b) 31) (Z.shiftl (Z.land x 0xff) 23)) f = Z.shiftl (b2z b) 31 + x * 2 ^ 23 + f.
Proof.
  intros Hx Hf. change 0xff with (Z.ones 8). rewrite Z.land_ones, Z.mod_small by lia.
  rewrite (lor_join _ _ 8 23), lor_shift_add, Z.shiftl_mul_pow2 by lia. lia.
Qed.

Lemma index_high f : 0 <= f -> (f * 2 ^ 29 + 2 ^ 52) / 2 ^ 44 = 256 + f / 2 ^ 15.
Proof.
  intros Hf. replace (f * 2 ^ 29 + 2 ^ 52) with ((f + 256 * 2 ^ 15) * 2 ^ 29) by lia. change (2 ^ 44) with (2 ^ (15 + 29)).
  rewrite div_shift, Z.div_add by lia. lia.
Qed.

Lemma index_low f : 0 <= f -> (f * 2 ^ 29 + 2 ^ 52) / 2 ^ 45 = 128 + f / 2 ^ 16.
Proof.
  intros Hf. replace (f * 2 ^ 29 + 2 ^ 52) with ((f + 128 * 2 ^ 16) * 2 ^ 29) by lia. change (2 ^ 45) with (2 ^ (16 + 29)).
  rewrite div_shift, Z.div_add by lia. lia.
Qed.

Lemma frac_index a : 0 <= f32_frac a / 2 ^ 15 < 256 /\ 0 <= f32_frac a / 2 ^ 16 < 128.
Proof.
  pose proof (frac_range a). split; (split; [apply Z.div_pos; lia|apply Z.div_lt_upper_bound; lia]).
Qed.

Context {FF : SoftfloatFormat}.

Lemma est_nan_run a e : exists e', est_nan a e = Done (float32_default_nan, e').
Proof. unfold est_nan, bind. destruct (float32_is_signaling_nan a); eexists; reflexivity. Qed.

Lemma signed_const b v : is_u32 v -> v < 2 ^ 31 -> float32_set_sign v b = Z.shiftl (b2z b) 31 + v.
Proof.
  intros Hv Hb. rewrite set_sign32 by exact Hv. change 0x7fffffff with (Z.ones 31). unfold is_u32 in Hv.
  rewrite Z.land_ones, Z.mod_small by lia. replace (if b then 0x80000000 else 0) with (Z.shiftl (b2z b) 31) by (destruct b; reflexivity).
  rewrite Z.lor_comm, lor_shift_add, Z.shiftl_mul_pow2 by lia. reflexivity.
Qed.

Lemma est_zero_run a e : is_u32 a -> exists e', est_zero a e = Done (Z.land a 0x80000000 + 0x7f800000, e').
Proof.
  intros Ha. rewrite sign_field by exact Ha. unfold est_zero, bind. rewrite is_neg32, infinity32, signed_const by (try exact Ha; vm_compute; split; congruence).
  destruct (negb (float32_is_zero a)); eexists; reflexivity.
Qed.

Lemma zero_sign a : is_u32 a -> float32_set_sign float32_zero (float32_is_neg a) = Z.land a 0x80000000.
Proof.
  intros Ha. rewrite sign_field, is_neg32, zero32, signed_const by (try exact Ha; vm_compute; split; congruence). lia.
Qed.

Lemma recpe_f32_run a e : nearest_even (standard_fp_status e) -> is_u32 a ->
  exists e', recpe_f32 a e = Done (FPRecipEstimate a, e') /\ (1 <= f32_exp a < 253 -> e' = e).
Proof.
  intros Hn Ha. pose proof (exp_range a) as He. pose proof (frac_range a) as Hf. pose proof (frac_index a) as [Hi _].
  unfold recpe_f32, FPRecipEstimate. cbv zeta. rewrite exp_field, is_nan32, is_inf32, is_zod32, zero_sign by exact Ha.
  destruct (Z.eqb_spec (f32_exp a) 255) as [E|E].
  { destruct (f32_frac a =? 0); cbn [andb negb]; [eexists; split; [reflexivity|lia]|].
    destruct (est_nan_run a e) as [e' ->]. eexists; split; [reflexivity|lia]. }
  cbn [andb]. destruct (Z.eqb_spec (f32_exp a) 0).
  { destruct (est_zero_run a e Ha) as [e' ->]. eexists; split; [reflexivity|lia]. }
  destruct (Z.leb_spec 253 (f32_exp a)); [eexists; split; [reflexivity|lia]|].
  exists e. split; [|reflexivity]. fold (f32_frac a). rewrite pack_operand by lia. unfold recip_estimate. erewrite bind_run.
  2:{ apply with_copy_yields; [apply recip_estimate_yields; lia|exact Hn]. }
  rewrite index_high by lia. destruct (recip_entry (256 + f32_frac a / 2 ^ 15) ltac:(lia)) as [Hr _].
  unfold ret. rewrite pack_f32, sign_field, pack_fields by (assumption || lia). reflexivity.
Qed.

Lemma rsqrte_f32_run a e : nearest_even (standard_fp_status e) -> is_u32 a ->
  exists e', rsqrte_f32 a e = Done (FPRSqrtEstimate a, e') /\ (1 <= f32_exp a < 255 -> a < 2 ^ 31 -> e' = e).
Proof.
  intros Hn Ha. pose proof (exp_range a) as He. pose proof (frac_range a) as Hf. pose proof (frac_index a) as [Hi Hi'].
  unfold rsqrte_f32, FPRSqrtEstimate. cbv zeta.
  rewrite exp_field, exp_parity, is_nan32, is_inf32, is_zod32, is_neg32 by exact Ha.
  destruct ((f32_exp a =? 255) && negb (f32_frac a =? 0)) eqn:En.
  { apply andb_prop in En as [En _]. apply Z.eqb_eq in En. destruct (est_nan_run a e) as [e' ->]. eexists; split; [reflexivity|lia]. }
  destruct (Z.eqb_spec (f32_exp a) 0).
  { destruct (est_zero_run a e Ha) as [e' ->]. eexists; split; [reflexivity|lia]. }
  rewrite sign_field by exact Ha. pose proof (testbit_sign a Ha) as Ht. destruct (Z.testbit a 31); cbn [b2z].
  { symmetry in Ht. apply Z.leb_le in Ht. eexists; split; [reflexivity|lia]. }
  rewrite !Z.shiftl_0_l. cbn [Z.eqb negb]. rewrite Z.lor_0_l.
  destruct (Z.eqb_spec (f32_exp a) 255) as [E|E].
  { rewrite zero32. destruct (f32_frac a =? 0); [|discriminate]. eexists; split; [reflexivity|lia]. }
  cbn [andb]. exists e. split; [|reflexivity]. fold (f32_frac a). rewrite pack_operand by lia. unfold recip_sqrt_estimate. erewrite bind_run.
  2:{ apply with_copy_yields; [apply rsqrt_estimate_yields; [lia|destruct (Z.even _); auto]|exact Hn]. }
  rewrite index_high, index_low by lia.
  assert (Hx : 0 <= (380 - f32_exp a) / 2 < 256) by (split; [apply Z.div_pos; lia|apply Z.div_lt_upper_bound; lia]).
  pose proof (fun f => pack_fields false ((380 - f32_exp a) / 2) f Hx) as Hp. cbn [b2z] in Hp. rewrite Z.shiftl_0_l in Hp.
  unfold ret. do 2 f_equal. destruct (Z.even (f32_exp a)); cbn [Z.eqb Pos.eqb].
  - pose proof (rsqrt_range (256 + f32_frac a / 2 ^ 15) ltac:(lia)). rewrite pack_f32 by lia.
    specialize (Hp ((RecipSqrtEstimate (256 + f32_frac a / 2 ^ 15) - 256) * 2 ^ 15) ltac:(lia)). rewrite Z.lor_0_l in Hp. exact Hp.
  - pose proof (rsqrt_range (128 + f32_frac a / 2 ^ 16) ltac:(lia)). rewrite pack_f32 by lia.
    specialize (Hp ((RecipSqrtEstimate (128 + f32_frac a / 2 ^ 16) - 256) * 2 ^ 15) ltac:(lia)). rewrite Z.lor_0_l in Hp. exact Hp.
Qed.

(** C22. The binary32 estimate helpers return the architecture's value for
    every bit pattern (NaNs, infinities, zeros, denormals and underflow
    included), and raise no exception on a normal operand of a normal
    result. *)
Theorem estimates_f32 a e : nearest_even (standard_fp_status e) -> is_u32 a ->
  (exists e', recpe_f32 a e = Done (FPRecipEstimate a, e') /\ vkeep e e' /\ (1 <= f32_exp a < 253 -> e' = e)) /\
  (exists e', rsqrte_f32 a e = Done (FPRSqrtEstimate a, e') /\ vkeep e e' /\ (1 <= f32_exp a < 255 -> a < 2 ^ 31 -> e' = e)).
Proof.
  intros Hn Ha. split.
  - destruct (recpe_f32_run a e Hn Ha) as (e' & E & H). exists e'. split; [exact E|]. split; [|exact H].
    apply (vkeeps_helper (h_recpe a) e _ e' E).
  - destruct (rsqrte_f32_run a e Hn Ha) as (e' & E & H). exists e'. split; [exact E|]. split; [|exact H].
    apply (vkeeps_helper (h_rsqrte a) e _ e' E).
Qed.
End Helpers.

Lemma estimates_u32_witness : @recpe_u32 soft 0xc0000000 demo_vfp = Done (341 * 2 ^ 23, demo_vfp).
Proof.
  pose proof (@estimates_u32 soft soft_laws soft_ieee 0xc0000000 demo_vfp eq_refl ltac:(split; vm_compute; congruence)) as (H & _).
  exact H.
Defined.

Lemma estimates_f32_witness : exists e', @rsqrte_f32 soft 0x40800000 demo_vfp = Done (0x3eff8000, e').
Proof.
  pose proof (@estimates_f32 soft soft_laws soft_ieee soft_format 0x40800000 demo_vfp eq_refl ltac:(split; vm_compute; congruence))
    as (_ & e' & H & _).
  exists e'. exact H.
Defined.
