(* ===== verification/Tcg.v ===== *)
(** * Translated code: state, control flow and operations

    [translate.c] turns guest instructions into operations of QEMU's code
    generator (TCG), which then run.  Generation decides on the instruction
    word and the translation context alone, so a function of the translator
    is modelled by the effect of the code it emits: a TCG variable is its
    value, an operation on variables a function on values, and the context
    ([DisasContext]) is threaded with the run-time state.

    The rest of the machine is the class [Guest]: memory as loads and stores
    see it, the instruction stream, and the decoders of the coprocessor
    spaces.  Helpers from files outside the repository are in [HostOps]. *)
From stdpp Require Import base list.
From S2P Require Import Prelude Double ArmTable State CpuState Errors OpHelper CpuMode Sys.
Open Scope Z_scope.

(** ** 32-bit and 64-bit operations *)
Definition add32 (a b : Z) : Z := u32 (a + b).
Definition sub32 (a b : Z) : Z := u32 (a - b).
Definition neg32 (a : Z) : Z := u32 (- a).
Definition mul32 (a b : Z) : Z := u32 (a * b).
Definition andc32 (a b : Z) : Z := Z.land a (not32 b).
Definition orc32 (a b : Z) : Z := Z.lor a (not32 b).
(** Shifts by a constant or a value below 32. *)
Definition shl_i32 (a n : Z) : Z := u32 (Z.shiftl a n).
Definition shr_i32 (a n : Z) : Z := Z.shiftr a n.
Definition sar_i32 (a n : Z) : Z := u32 (Z.shiftr (s32 a) n).
Definition rotr_i32 (a n : Z) : Z := Z.lor (Z.shiftr a n) (u32 (Z.shiftl a (32 - n))).
Definition ext8u (a : Z) : Z := Z.land a 0xff.
Definition ext16u (a : Z) : Z := Z.land a 0xffff.
Definition ext8s (a : Z) : Z := u32 ((a + 2 ^ 7) mod 2 ^ 8 - 2 ^ 7).
Definition ext16s (a : Z) : Z := u32 (s16 a).
(** [tcg_gen_bswap16_i32] of a 16-bit value. *)
Definition bswap16 (a : Z) : Z := Z.lor (Z.shiftl (ext8u a) 8) (ext8u (Z.shiftr a 8)).
Definition bswap32 (a : Z) : Z :=
  Z.lor (Z.lor (Z.shiftl (Z.land a 0xff) 24) (Z.shiftl (Z.land a 0xff00) 8))
    (Z.lor (Z.land (Z.shiftr a 8) 0xff00) (Z.shiftr a 24)).
(** The low and high word of a 64-bit value. *)
Definition lo64 (q : Z) : Z := u32 q.
Definition hi64 (q : Z) : Z := u32 (Z.shiftr q 32).
Definition concat64 (lo hi : Z) : Z := Z.lor lo (Z.shiftl hi 32).
Definition add2_i32 (al ah bl bh : Z) : Z * Z :=
  let q := u64 (concat64 al ah + concat64 bl bh) in (lo64 q, hi64 q).
Definition mulu2_i32 (a b : Z) : Z * Z := let q := a * b in (lo64 q, hi64 q).
Definition muls2_i32 (a b : Z) : Z * Z := let q := u64 (s32 a * s32 b) in (lo64 q, hi64 q).
Definition ext_i32_i64 (a : Z) : Z := u64 (s32 a).
(** [tcg_gen_deposit_i32]: the [len] low bits of [b] at [ofs]; other
    positions and lengths are outside its contract. *)
Definition deposit_i32 (a b ofs len : Z) : option Z :=
  if (0 <=? ofs) && (0 <? len) && (ofs + len <=? 32) then
    Some (Z.lor (Z.land a (not32 (Z.shiftl (Z.ones len) ofs))) (Z.shiftl (Z.land b (Z.ones len)) ofs))
  else None.

(** ** The translation context *)

(** [is_jmp]: how the block goes on after the instruction. *)
Inductive jmp : Set := DISAS_NEXT | DISAS_JUMP | DISAS_UPDATE | DISAS_TB_JUMP | DISAS_WFI | DISAS_SWI | DISAS_SMC.

(** [DisasContext]: [pc] is the address after what has been decoded,
    [insn_pc] the start of the instruction, which [gen_opc_pc] records. *)
Record dctx : Type := {
  pc : Z; insn_pc : Z; is_jmp : jmp; condexec_mask : Z; condexec_cond : Z; singlestep : bool; dthumb : Z;
  dbswap : Z; user : bool; vfp_enabled : Z; dvec_len : Z; dvec_stride : Z
}.
Definition set_pc (x : Z) (d : dctx) : dctx :=
  {| pc := x; insn_pc := insn_pc d; is_jmp := is_jmp d; condexec_mask := condexec_mask d;
     condexec_cond := condexec_cond d; singlestep := singlestep d; dthumb := dthumb d; dbswap := dbswap d; user := user d;
     vfp_enabled := vfp_enabled d; dvec_len := dvec_len d; dvec_stride := dvec_stride d |}.
Definition set_is_jmp (x : jmp) (d : dctx) : dctx :=
  {| pc := pc d; insn_pc := insn_pc d; is_jmp := x; condexec_mask := condexec_mask d;
     condexec_cond := condexec_cond d; singlestep := singlestep d; dthumb := dthumb d; dbswap := dbswap d; user := user d;
     vfp_enabled := vfp_enabled d; dvec_len := dvec_len d; dvec_stride := dvec_stride d |}.
Definition set_condexec (c m : Z) (d : dctx) : dctx :=
  {| pc := pc d; insn_pc := insn_pc d; is_jmp := is_jmp d; condexec_mask := m;
     condexec_cond := c; singlestep := singlestep d; dthumb := dthumb d; dbswap := dbswap d; user := user d;
     vfp_enabled := vfp_enabled d; dvec_len := dvec_len d; dvec_stride := dvec_stride d |}.

(** ** The rest of the machine *)

Inductive memop : Set := MO_8u | MO_8s | MO_16u | MO_16s | MO_32 | MO_64.

(** The decoders of other instruction spaces. *)
Inductive space : Set := NeonData | NeonLs | Iwmmxt | Coprocessor.

(** What became of an instruction of another space: illegal, run (with the
    context's [is_jmp] afterwards), or left through an exception. *)
Inductive space_result : Set := SpIllegal | SpRan (j : jmp) | SpRaised.

Class Guest := {
  bus : Type;
  (** A load yields no value when it faults; the state then carries the
      exception. *)
  bus_ld : memop -> Z -> Z -> cpu_st * bus -> option Z * (cpu_st * bus);
  bus_st : memop -> Z -> Z -> Z -> cpu_st * bus -> bool * (cpu_st * bus);
  (** [cpu_ldl_code] and [cpu_lduw_code]: a fetch may fault like a load. *)
  code_ld : memop -> Z -> cpu_st * bus -> option Z * (cpu_st * bus);
  other_insn : space -> dctx -> Z -> M (cpu_st * bus) space_result;
  (** [env->cp15.c15_cpar], the coprocessor access register of XScale. *)
  cpar : bus -> Z
}.

(** Prefixes and operations of the parallel additions and subtractions. *)
Inductive pas_prefix : Set := P_s | P_q | P_sh | P_u | P_uq | P_uh.
Inductive pas_op : Set := add16 | addsubx | subaddx | sub16 | add8 | sub8.

(** [clz32] of [host-utils.h], the helpers of [op_addsub.h] (the result and,
    for the prefixes [s] and [u], the new GE bits) and whether the host has a
    double-word addition. *)
Class HostOps := {
  TCG_TARGET_HAS_add2_i32 : bool;
  clz32 : Z -> Z;
  pas_helper : pas_prefix -> pas_op -> Z -> Z -> Z * Z
}.

(** ** Running translated code *)
Section Run.
Context {GU : Guest}.

Record rt : Type := { core : cpu_st; excl_addr : Z; excl_val : Z; excl_high : Z; rbus : bus; dc : dctx }.

Definition set_core (x : cpu_st) (r : rt) : rt :=
  {| core := x; excl_addr := excl_addr r; excl_val := excl_val r; excl_high := excl_high r; rbus := rbus r; dc := dc r |}.
Definition set_excl_addr (x : Z) (r : rt) : rt :=
  {| core := core r; excl_addr := x; excl_val := excl_val r; excl_high := excl_high r; rbus := rbus r; dc := dc r |}.
Definition set_excl_val (x : Z) (r : rt) : rt :=
  {| core := core r; excl_addr := excl_addr r; excl_val := x; excl_high := excl_high r; rbus := rbus r; dc := dc r |}.
Definition set_excl_high (x : Z) (r : rt) : rt :=
  {| core := core r; excl_addr := excl_addr r; excl_val := excl_val r; excl_high := x; rbus := rbus r; dc := dc r |}.
Definition set_rbus (x : bus) (r : rt) : rt :=
  {| core := core r; excl_addr := excl_addr r; excl_val := excl_val r; excl_high := excl_high r; rbus := x; dc := dc r |}.
Definition set_dc (x : dctx) (r : rt) : rt :=
  {| core := core r; excl_addr := excl_addr r; excl_val := excl_val r; excl_high := excl_high r; rbus := rbus r; dc := x |}.

(** How a piece of code ends: it goes on, jumps to the label behind the
    instruction, leaves through an exception, leaves the block, or the
    translator found the instruction illegal ([goto illegal_op]). *)
Inductive flow (A : Type) : Type :=
| Go (a : A)
| Skip
| Raised
| ExitTb
| Illegal.
#[global] Arguments Go {A} _.
#[global] Arguments Skip {A}.
#[global] Arguments Raised {A}.
#[global] Arguments ExitTb {A}.
#[global] Arguments Illegal {A}.

Definition T (A : Type) : Type := M rt (flow A).

Definition tret {A} (a : A) : T A := ret (Go a).
Definition tbind {A B} (m : T A) (k : A -> T B) : T B :=
  bind m (fun f => match f with
    | Go a => k a
    | Skip => ret Skip | Raised => ret Raised | ExitTb => ret ExitTb | Illegal => ret Illegal
    end).
Definition illegal_op {A} : T A := ret Illegal.
Definition lift {A} (m : M rt A) : T A := bind m (fun a => ret (Go a)).
Definition abort {A} : T A := fun _ => AssertFailed.
End Run.

Notation "'let*' x ':=' m 'in' k" := (tbind m (fun x => k))
  (at level 10, x name, m at level 100, k at level 200) : vemu_scope.
Notation "'let*' ' p ':=' m 'in' k" := (tbind m (fun x => match x with p => k end))
  (at level 10, p pattern, m at level 100, k at level 200) : vemu_scope.
Notation "m ';*' k" := (tbind m (fun _ => k))
  (at level 100, k at level 200, right associativity) : vemu_scope.

Section Ops.
Context {GU : Guest}.

(** Code on the processor state. *)
Definition on_core {A} (c : M cpu_st A) : T A := fun r =>
  match c (core r) with
  | Done (a, e) => Done (Go a, set_core e r)
  | AssertFailed => AssertFailed | Undefined => Undefined | Exited z => Exited z
  end.
Definition get_core {A} (f : cpu_st -> A) : T A := lift (gets (fun r => f (core r))).
Definition upd_core (f : cpu_st -> cpu_st) : T unit := lift (modify (fun r => set_core (f (core r)) r)).
Definition get_dc {A} (f : dctx -> A) : T A := lift (gets (fun r => f (dc r))).
Definition upd_dc (f : dctx -> dctx) : T unit := lift (modify (fun r => set_dc (f (dc r)) r)).

(** [ARCH(x)]: the instruction needs a feature. *)
Definition feature (f : Z) : T bool := get_core (fun c => arm_feature c f).
Definition ARCH (f : Z) : T unit := let* b := feature f in if (b : bool) then tret tt else illegal_op.
Definition IS_M : T bool := feature ARM_FEATURE_M.
Definition IS_USER : T bool := get_dc user.
(** The MMU index of a data access. *)
Definition mem_index (u : bool) : Z := if u then 1 else 0.

(** [restore_state_to_opc]: after a fault inside a block, the program
    counter and the IT bits of the instruction. *)
Definition condexec_val (d : dctx) : Z := Z.lor (Z.shiftl (condexec_cond d) 4) (Z.shiftr (condexec_mask d) 1).
Definition restore_state_to_opc : T unit :=
  let* d := get_dc id in
  on_core (put_reg 15 (insn_pc d)) ;*
  upd_core (set_condexec_bits (condexec_val d)).

(** [tcg_gen_qemu_ld*] and [tcg_gen_qemu_st*]. *)
Definition qemu_ld (op : memop) (addr : Z) (u : bool) : T Z := fun r =>
  match bus_ld op addr (mem_index u) (core r, rbus r) with
  | (Some v, (c, b)) => Done (Go v, set_rbus b (set_core c r))
  | (None, (c, b)) => (restore_state_to_opc ;* ret Raised) (set_rbus b (set_core c r))
  end.
Definition qemu_st (op : memop) (addr v : Z) (u : bool) : T unit := fun r =>
  match bus_st op addr v (mem_index u) (core r, rbus r) with
  | (true, (c, b)) => Done (Go tt, set_rbus b (set_core c r))
  | (false, (c, b)) => (restore_state_to_opc ;* ret Raised) (set_rbus b (set_core c r))
  end.

(** The exception helper leaves the translated code. *)
Definition gen_exception {A} (excp : Z) : T A := on_core (raise_exception excp) ;* ret Raised.

(** An instruction of another space. *)
Definition run_space (sp : space) (insn : Z) : T bool := fun r =>
  match other_insn sp (dc r) insn (core r, rbus r) with
  | Done (SpIllegal, (c, b)) => Done (Go false, set_rbus b (set_core c r))
  | Done (SpRan j, (c, b)) => Done (Go true, set_dc (set_is_jmp j (dc r)) (set_rbus b (set_core c r)))
  | Done (SpRaised, (c, b)) => Done (Raised, set_rbus b (set_core c r))
  | AssertFailed => AssertFailed | Undefined => Undefined | Exited z => Exited z
  end.

(** A C [for] loop over the given indices, with an accumulator. *)
Fixpoint tfold {A B} (l : list A) (body : B -> A -> T B) (acc : B) : T B :=
  match l with
  | [] => tret acc
  | a :: l' => let* acc' := body acc a in tfold l' body acc'
  end.
End Ops.
