(* ===== verification/TransGen.v ===== *)
(** * The translator's building blocks: the [gen_*] functions of [translate.c]

    Registers and flags, shifts, conditions, memory accesses, status register
    access, exclusives and exception entry, as [disas_arm_insn],
    [disas_thumb2_insn] and [disas_thumb_insn] use them.  A function that
    emits code is modelled by what the code does; variables it overwrites are
    its results. *)
From stdpp Require Import base list.
From S2P Require Import Prelude Double ArmTable State CpuState Errors OpHelper CpuMode Sys V7m Dsp Tcg.
Open Scope Z_scope.

(** [w & (1 << n)] as a truth value, and [(w >> sh) & m]. *)
Definition bit (w n : Z) : bool := Z.testbit w n.
Definition fld (w sh m : Z) : Z := Z.land (Z.shiftr w sh) m.

#[global] Arguments bit : simpl never.
#[global] Arguments fld : simpl never.

Definition CPSR_E : Z := Z.shiftl 1 9.
Definition CPSR_RESERVED : Z := Z.shiftl 0xf 20.
Definition CPSR_USER : Z := Z.lor (Z.lor CPSR_NZCV CPSR_Q) CPSR_GE.

(** ** Values *)

Definition gen_smul_dual (a b : Z) : Z * Z :=
  (mul32 (ext16s a) (ext16s b), mul32 (sar_i32 b 16) (sar_i32 a 16)).
Definition gen_rev16 (var : Z) : Z :=
  let tmp := Z.land (shr_i32 var 8) 0x00ff00ff in
  Z.lor (Z.land (shl_i32 var 8) 0xff00ff00) tmp.
Definition gen_revsh (var : Z) : Z := ext16s (bswap16 (ext16u var)).
Definition gen_ubfx (var shift mask : Z) : Z := Z.land (if shift =? 0 then var else shr_i32 var shift) mask.
Definition gen_sbfx (var shift width : Z) : Z :=
  let var := if shift =? 0 then var else sar_i32 var shift in
  if shift + width <? 32 then
    let signbit := Z.shiftl 1 (width - 1) in
    sub32 (Z.lxor (Z.land var (Z.shiftl 1 width - 1)) signbit) signbit
  else var.
Definition gen_addq_msw (a b : Z) : Z := u64 (Z.shiftl b 32 + a).
Definition gen_subq_msw (a b : Z) : Z := u64 (Z.shiftl b 32 - a).
Definition gen_mulu_i64_i32 (a b : Z) : Z := let '(lo, hi) := mulu2_i32 a b in concat64 lo hi.
Definition gen_muls_i64_i32 (a b : Z) : Z := let '(lo, hi) := muls2_i32 a b in concat64 lo hi.
Definition gen_swap_half (var : Z) : Z := Z.lor (shl_i32 var 16) (shr_i32 var 16).
Definition gen_add16 (t0 t1 : Z) : Z :=
  let tmp := Z.land (Z.lxor t0 t1) 0x8000 in
  Z.lxor (add32 (Z.land t0 (not32 0x8000)) (Z.land t1 (not32 0x8000))) tmp.
Definition gen_mulxy (t0 t1 : Z) (x y : bool) : Z :=
  mul32 (if x then sar_i32 t0 16 else ext16s t0) (if y then sar_i32 t1 16 else ext16s t1).

(** Shifts by the low byte of a register. *)
Definition gen_shl (t0 t1 : Z) : Z :=
  let n := Z.land t1 0xff in shl_i32 (if 0x1f <? n then 0 else t0) (Z.land n 0x1f).
Definition gen_shr (t0 t1 : Z) : Z :=
  let n := Z.land t1 0xff in shr_i32 (if 0x1f <? n then 0 else t0) (Z.land n 0x1f).
Definition gen_sar (t0 t1 : Z) : Z :=
  let n := Z.land t1 0xff in sar_i32 t0 (if 0x1f <? n then 0x1f else n).

Definition table_logic_cc : list Z := [1; 1; 0; 0; 0; 0; 0; 0; 1; 1; 0; 0; 1; 1; 1; 1].

(** The operation codes of the parallel additions, in the ARM and the
    Thumb-2 encoding, and the two tables of prefixes. *)
Definition arm_pas_op (op2 : Z) : option pas_op :=
  match op2 with 0 => Some add16 | 1 => Some addsubx | 2 => Some subaddx | 3 => Some sub16 | 4 => Some add8 | 7 => Some sub8 | _ => None end.
Definition thumb2_pas_op (op1 : Z) : option pas_op :=
  match op1 with 0 => Some add8 | 1 => Some add16 | 2 => Some addsubx | 4 => Some sub8 | 5 => Some sub16 | 6 => Some subaddx | _ => None end.
Definition arm_pas_prefix (op1 : Z) : option pas_prefix :=
  match op1 with 1 => Some P_s | 5 => Some P_u | 2 => Some P_q | 3 => Some P_sh | 6 => Some P_uq | 7 => Some P_uh | _ => None end.
Definition thumb2_pas_prefix (op2 : Z) : option pas_prefix :=
  match op2 with 0 => Some P_s | 4 => Some P_u | 1 => Some P_q | 2 => Some P_sh | 5 => Some P_uq | 6 => Some P_uh | _ => None end.

Section Gen.
Context {GU : Guest} {HO : HostOps}.

(** ** Registers *)

Definition load_reg (n : Z) : T Z :=
  if n =? 15 then
    let* d := get_dc id in tret (u32 (pc d + (if dthumb d =? 0 then 4 else 2)))
  else on_core (get_reg n).

Definition store_reg (n var : Z) : T unit :=
  if n =? 15 then
    upd_dc (set_is_jmp DISAS_JUMP) ;* on_core (put_reg 15 (Z.land var (not32 1)))
  else on_core (put_reg n var).

Definition gen_set_pc_im (val : Z) : T unit := on_core (put_reg 15 val).

Definition gen_bx_im (addr : Z) : T unit :=
  upd_dc (set_is_jmp DISAS_UPDATE) ;*
  let* t := get_dc dthumb in
  (if negb (t =? Z.land addr 1) then upd_core (set_thumb (Z.land addr 1)) else tret tt) ;*
  on_core (put_reg 15 (Z.land addr (not32 1))).

Definition gen_bx (var : Z) : T unit :=
  upd_dc (set_is_jmp DISAS_UPDATE) ;*
  on_core (put_reg 15 (Z.land var (not32 1))) ;*
  upd_core (set_thumb (Z.land var 1)).

Definition store_reg_bx (n var : Z) : T unit :=
  let* v7 := feature ARM_FEATURE_V7 in
  if (n =? 15) && v7 then gen_bx var else store_reg n var.

Definition store_reg_from_load (n var : Z) : T unit :=
  let* v5 := feature ARM_FEATURE_V5 in
  if (n =? 15) && v5 then gen_bx var else store_reg n var.

Definition gen_smc : T unit :=
  let* p := get_dc pc in
  on_core (put_reg 15 p) ;* upd_dc (set_is_jmp DISAS_SMC).

Definition gen_lookup_tb : T unit :=
  let* p := get_dc pc in
  on_core (put_reg 15 (Z.land p (not32 1))) ;* upd_dc (set_is_jmp DISAS_UPDATE).

(** The jump leaves the block through [exit_tb]. *)
Definition gen_goto_tb {A} (dest : Z) : T A := gen_set_pc_im dest ;* ret ExitTb.

Definition gen_jmp (dest : Z) : T unit :=
  let* d := get_dc id in
  if singlestep d then gen_bx_im (if dthumb d =? 0 then dest else Z.lor dest 1)
  else upd_dc (set_is_jmp DISAS_TB_JUMP) ;* gen_goto_tb dest.

(** ** Flags *)

Definition gen_set_CF_bit31 (var : Z) : T unit := upd_core (set_CF (shr_i32 var 31)).
Definition gen_logic_CC (var : Z) : T unit := upd_core (fun c => set_ZF var (set_NF var c)).
Definition gen_adc (t0 t1 : Z) : T Z := let* cf := get_core CF in tret (add32 (add32 t0 t1) cf).
Definition gen_add_carry (t0 t1 : Z) : T Z := let* cf := get_core CF in tret (add32 (add32 t0 t1) cf).
Definition gen_sub_carry (t0 t1 : Z) : T Z := let* cf := get_core CF in tret (sub32 (add32 (sub32 t0 t1) cf) 1).

Definition gen_add_CC (t0 t1 : Z) : T Z :=
  let '(nf, cf) := add2_i32 t0 0 t1 0 in
  upd_core (fun c => set_VF (andc32 (Z.lxor nf t0) (Z.lxor t0 t1)) (set_ZF nf (set_CF cf (set_NF nf c)))) ;*
  tret nf.

(** With and without the host's double-word addition. *)
Definition adc_pair (t0 t1 cf : Z) : Z * Z :=
  if TCG_TARGET_HAS_add2_i32 then
    let '(n1, c1) := add2_i32 t0 0 cf 0 in add2_i32 n1 c1 t1 0
  else let q := u64 (u64 (t0 + t1) + cf) in (lo64 q, hi64 q).
Definition gen_adc_CC (t0 t1 : Z) : T Z :=
  let* cf0 := get_core CF in
  let '(nf, cf) := adc_pair t0 t1 cf0 in
  upd_core (fun c => set_VF (andc32 (Z.lxor nf t0) (Z.lxor t0 t1)) (set_ZF nf (set_CF cf (set_NF nf c)))) ;*
  tret nf.

Definition gen_sub_CC (t0 t1 : Z) : T Z :=
  let nf := sub32 t0 t1 in
  upd_core (fun c => set_VF (Z.land (Z.lxor nf t0) (Z.lxor t0 t1))
                       (set_CF (if t1 <=? t0 then 1 else 0) (set_ZF nf (set_NF nf c)))) ;*
  tret nf.
Definition gen_sbc_CC (t0 t1 : Z) : T Z := gen_adc_CC t0 (not32 t1).

(** ** Shifts *)

Definition shifter_out_im (var shift : Z) : T unit :=
  if shift =? 0 then upd_core (set_CF (Z.land var 1))
  else upd_core (set_CF (if shift =? 31 then shr_i32 var shift else Z.land (shr_i32 var shift) 1)).

Definition when (b : bool) (m : T unit) : T unit := if b then m else tret tt.

Definition gen_arm_shift_im (var shiftop shift : Z) (flags : bool) : T Z :=
  match shiftop with
  | 0 =>
      if negb (shift =? 0) then when flags (shifter_out_im var (32 - shift)) ;* tret (shl_i32 var shift)
      else tret var
  | 1 =>
      if shift =? 0 then when flags (upd_core (set_CF (shr_i32 var 31))) ;* tret 0
      else when flags (shifter_out_im var (shift - 1)) ;* tret (shr_i32 var shift)
  | 2 =>
      let shift := if shift =? 0 then 32 else shift in
      when flags (shifter_out_im var (shift - 1)) ;*
      let shift := if shift =? 32 then 31 else shift in
      tret (sar_i32 var shift)
  | 3 =>
      if negb (shift =? 0) then when flags (shifter_out_im var (shift - 1)) ;* tret (rotr_i32 var shift)
      else
        let* cf := get_core CF in
        let tmp := shl_i32 cf 31 in
        when flags (shifter_out_im var 0) ;*
        tret (Z.lor (shr_i32 var 1) tmp)
  | _ => tret var
  end.

Definition gen_arm_shift_reg (var shiftop shift : Z) (flags : bool) : T Z :=
  if flags then
    match shiftop with
    | 0 => on_core (shl_cc var shift)
    | 1 => on_core (shr_cc var shift)
    | 2 => on_core (sar_cc var shift)
    | 3 => on_core (ror_cc var shift)
    | _ => tret var
    end
  else tret
    match shiftop with
    | 0 => gen_shl var shift
    | 1 => gen_shr var shift
    | 2 => gen_sar var shift
    | 3 => rotr_i32 var (Z.land shift 0x1f)
    | _ => var
    end.

(** ** Parallel additions and subtractions *)

Definition run_pas (p : option pas_prefix) (o : option pas_op) (a b : Z) : T Z :=
  match p, o with
  | Some p, Some o =>
      let '(r, ge) := pas_helper p o a b in
      match p with
      | P_s | P_u => upd_core (set_GE ge) ;* tret r
      | _ => tret r
      end
  | _, _ => tret a
  end.
Definition gen_arm_parallel_addsub (op1 op2 a b : Z) : T Z := run_pas (arm_pas_prefix op1) (arm_pas_op op2) a b.
Definition gen_thumb2_parallel_addsub (op1 op2 a b : Z) : T Z := run_pas (thumb2_pas_prefix op2) (thumb2_pas_op op1) a b.

(** ** Conditions *)

(** Whether [gen_test_cc] jumps to its label; [TCG_COND_LT] and
    [TCG_COND_GE] compare signed values. *)
Definition test_cc (cc : Z) (c : cpu_st) : option bool :=
  let vn := s32 (Z.lxor (VF c) (NF c)) in
  match cc with
  | 0 => Some (ZF c =? 0)
  | 1 => Some (negb (ZF c =? 0))
  | 2 => Some (negb (CF c =? 0))
  | 3 => Some (CF c =? 0)
  | 4 => Some (s32 (NF c) <? 0)
  | 5 => Some (0 <=? s32 (NF c))
  | 6 => Some (s32 (VF c) <? 0)
  | 7 => Some (0 <=? s32 (VF c))
  | 8 => Some (if CF c =? 0 then false else negb (ZF c =? 0))
  | 9 => Some (if CF c =? 0 then true else ZF c =? 0)
  | 10 => Some (0 <=? vn)
  | 11 => Some (vn <? 0)
  | 12 => Some (if ZF c =? 0 then false else 0 <=? vn)
  | 13 => Some (if ZF c =? 0 then true else vn <? 0)
  | _ => None
  end.
(** Whether the emitted branch is taken; a condition code outside 0 to 13
    aborts the translator. *)
Definition branch_cc (cc : Z) : T bool :=
  let* j := get_core (test_cc cc) in
  match j with
  | None => abort
  | Some b => tret b
  end.
(** [gen_test_cc] with the label behind the instruction. *)
Definition gen_test_cc (cc : Z) : T unit :=
  let* j := branch_cc cc in
  if (j : bool) then ret Skip else tret tt.

(** ** Memory *)

Definition gen_ld8s (addr : Z) (u : bool) : T Z := qemu_ld MO_8s addr u.
Definition gen_ld8u (addr : Z) (u : bool) : T Z := qemu_ld MO_8u addr u.
Definition gen_ld16s (addr : Z) (u : bool) : T Z := qemu_ld MO_16s addr u.
Definition gen_ld16u (addr : Z) (u : bool) : T Z := qemu_ld MO_16u addr u.
Definition gen_ld32 (addr : Z) (u : bool) : T Z := qemu_ld MO_32 addr u.
Definition gen_st8 (val addr : Z) (u : bool) : T unit := qemu_st MO_8u addr val u.
Definition gen_st16 (val addr : Z) (u : bool) : T unit := qemu_st MO_16u addr val u.
Definition gen_st32 (val addr : Z) (u : bool) : T unit := qemu_st MO_32 addr val u.

Definition gen_add_data_offset (insn var : Z) : T Z :=
  if negb (bit insn 25) then
    let val := Z.land insn 0xfff in
    let val := if negb (bit insn 23) then - val else val in
    tret (if val =? 0 then var else add32 var val)
  else
    let* offset := load_reg (Z.land insn 0xf) in
    let* offset := gen_arm_shift_im offset (fld insn 5 3) (fld insn 7 0x1f) false in
    tret (if negb (bit insn 23) then sub32 var offset else add32 var offset).

Definition gen_add_datah_offset (insn extra var : Z) : T Z :=
  if bit insn 22 then
    let val := Z.lor (Z.land insn 0xf) (fld insn 4 0xf0) in
    let val := if negb (bit insn 23) then - val else val in
    let val := val + extra in
    tret (if val =? 0 then var else add32 var val)
  else
    let var := if extra =? 0 then var else add32 var extra in
    let* offset := load_reg (Z.land insn 0xf) in
    tret (if negb (bit insn 23) then sub32 var offset else add32 var offset).

(** ** The status registers *)

Definition gen_set_cpsr (var mask : Z) : T unit := on_core (cpsr_write var mask).
Definition gen_set_nzcv (var : Z) : T unit := gen_set_cpsr var CPSR_NZCV.
(** [helper_cpsr_read] *)
Definition helper_cpsr_read : T Z := get_core (fun c => Z.land (cpsr_read c) (not32 CPSR_EXEC)).

Definition mask_unless (b : bool) (bits mask : Z) : Z := if b then mask else Z.land mask (not32 bits).
Definition msr_mask (flags : Z) (spsr : bool) : T Z :=
  let mask := lors [if bit flags 0 then 0xff else 0; if bit flags 1 then 0xff00 else 0;
                    if bit flags 2 then 0xff0000 else 0; if bit flags 3 then 0xff000000 else 0] in
  let mask := Z.land mask (not32 CPSR_RESERVED) in
  let* v4t := feature ARM_FEATURE_V4T in
  let* v5 := feature ARM_FEATURE_V5 in
  let* v6 := feature ARM_FEATURE_V6 in
  let* t2 := feature ARM_FEATURE_THUMB2 in
  let* u := IS_USER in
  let mask := mask_unless v4t CPSR_T mask in
  let mask := mask_unless v5 CPSR_Q mask in
  let mask := mask_unless v6 (Z.lor CPSR_E CPSR_GE) mask in
  let mask := mask_unless t2 CPSR_IT mask in
  let mask := mask_unless spsr CPSR_EXEC mask in
  tret (if (u : bool) then Z.land mask CPSR_USER else mask).

(** A truth value as C has it: false when the access is not permitted. *)
Definition gen_set_psr (mask : Z) (to_spsr : bool) (t0 : Z) : T bool :=
  let* u := IS_USER in
  if to_spsr && u then tret false
  else
    (if to_spsr then upd_core (fun c => set_spsr (Z.lor (Z.land (spsr c) (not32 mask)) (Z.land t0 mask)) c)
     else gen_set_cpsr t0 mask) ;*
    gen_lookup_tb ;* tret true.
Definition gen_set_psr_im (mask : Z) (to_spsr : bool) (val : Z) : T bool := gen_set_psr mask to_spsr val.

Definition gen_exception_return (p : Z) : T unit :=
  store_reg 15 p ;*
  let* tmp := get_core spsr in
  gen_set_cpsr tmp 0xffffffff ;*
  upd_dc (set_is_jmp DISAS_UPDATE).
Definition gen_rfe (p cpsr : Z) : T unit :=
  gen_set_cpsr cpsr 0xffffffff ;*
  store_reg 15 p ;*
  upd_dc (set_is_jmp DISAS_UPDATE).

Definition gen_set_condexec : T unit :=
  let* d := get_dc id in
  if negb (condexec_mask d =? 0) then upd_core (set_condexec_bits (condexec_val d)) else tret tt.

Definition gen_exception_insn {A} (offset excp : Z) : T A :=
  gen_set_condexec ;*
  let* p := get_dc pc in
  gen_set_pc_im (p - offset) ;*
  gen_exception excp.

Definition gen_nop_hint (val : Z) : T unit :=
  if val =? 3 then let* p := get_dc pc in gen_set_pc_im p ;* upd_dc (set_is_jmp DISAS_WFI)
  else tret tt.

(** ** 64-bit accumulation *)

Definition gen_storeq_reg (rlow rhigh val : Z) : T unit :=
  store_reg rlow (lo64 val) ;* store_reg rhigh (hi64 val).
Definition gen_addq_lo (val rlow : Z) : T Z :=
  let* tmp := load_reg rlow in tret (u64 (val + tmp)).
Definition gen_addq (val rlow rhigh : Z) : T Z :=
  let* tmpl := load_reg rlow in
  let* tmph := load_reg rhigh in
  tret (u64 (val + concat64 tmpl tmph)).
Definition gen_logicq_cc (lo hi : Z) : T unit := upd_core (fun c => set_ZF (Z.lor lo hi) (set_NF hi c)).

(** ** Exclusive accesses *)

Definition set_monitor (f : rt -> rt) : T unit := lift (modify f).
(** The load and the store of the sizes 0 to 3; a double word accesses its
    low word first. *)
Definition ld_size (addr size : Z) : T Z :=
  let* u := IS_USER in
  if size =? 0 then gen_ld8u addr u
  else if size =? 1 then gen_ld16u addr u
  else if (size =? 2) || (size =? 3) then gen_ld32 addr u
  else abort.
Definition st_size (val addr size : Z) : T unit :=
  let* u := IS_USER in
  if size =? 0 then gen_st8 val addr u
  else if size =? 1 then gen_st16 val addr u
  else if (size =? 2) || (size =? 3) then gen_st32 val addr u
  else abort.

Definition gen_load_exclusive (rt rt2 addr size : Z) : T unit :=
  let* tmp := ld_size addr size in
  set_monitor (set_excl_val tmp) ;*
  store_reg rt tmp ;*
  (if size =? 3 then
     let* u := IS_USER in
     let* tmp := gen_ld32 (add32 addr 4) u in
     set_monitor (set_excl_high tmp) ;*
     store_reg rt2 tmp
   else tret tt) ;*
  set_monitor (set_excl_addr addr).

Definition gen_clrex : T unit := set_monitor (set_excl_addr 0xffffffff).

(** The tests before the store; false is the jump to [fail_label]. *)
Definition exclusive_held (addr size : Z) : T bool :=
  let* a := lift (gets excl_addr) in
  if negb (addr =? a) then tret false
  else
    let* tmp := ld_size addr size in
    let* v := lift (gets excl_val) in
    if negb (tmp =? v) then tret false
    else if size =? 3 then
      let* u := IS_USER in
      let* tmp := gen_ld32 (add32 addr 4) u in
      let* h := lift (gets excl_high) in
      tret (tmp =? h)
    else tret true.
Definition gen_store_exclusive (rd rt rt2 addr size : Z) : T unit :=
  let* ok := exclusive_held addr size in
  (if (ok : bool) then
     let* tmp := load_reg rt in
     st_size tmp addr size ;*
     (if size =? 3 then
        let* tmp := load_reg rt2 in
        let* u := IS_USER in
        gen_st32 tmp (add32 addr 4) u
      else tret tt) ;*
     on_core (put_reg rd 0)
   else on_core (put_reg rd 1)) ;*
  set_monitor (set_excl_addr 0xffffffff).

Definition gen_srs (mode amode : Z) (writeback : bool) : T unit :=
  let* addr := on_core (get_r13_banked mode) in
  let* offset := match amode with 0 => tret (-4) | 1 => tret 0 | 2 => tret (-8) | 3 => tret 4 | _ => abort end in
  let addr := add32 addr offset in
  let* tmp := load_reg 14 in
  gen_st32 tmp addr false ;*
  let* tmp := get_core spsr in
  let addr := add32 addr 4 in
  gen_st32 tmp addr false ;*
  if writeback then
    let* offset := match amode with 0 => tret (-8) | 1 => tret 4 | 2 => tret (-4) | 3 => tret 0 | _ => abort end in
    on_core (set_r13_banked mode (add32 addr offset))
  else tret tt.
End Gen.
