(* ===== verification/TransArm.v ===== *)
(** * ARM instructions: [disas_arm_insn] of [translate.c]

    The decoder is one function of 1300 lines; it is split here along its
    outer conditionals, in the order of the source.  Every piece is a
    computation of the monad [T]: [illegal_op] is the source's label, which
    [disas_arm_insn] turns into the undefined-instruction exception. *)
From stdpp Require Import base list.
From S2P Require Import Prelude Double ArmTable State CpuState Errors OpHelper CpuMode Sys V7m Dsp Tcg TransGen.
Open Scope Z_scope.

Section Arm.
Context {GU : Guest} {HO : HostOps}.

Definition eqm (insn mask v : Z) : bool := Z.land insn mask =? v.
#[global] Arguments eqm : simpl never.
(** A decoder that returns nonzero: [goto illegal_op]. *)
Definition or_illegal (m : T bool) : T unit := let* ok := m in if (ok : bool) then tret tt else illegal_op.
Definition require (b : bool) : T unit := if b then tret tt else illegal_op.
Definition requiref (f : Z) : T unit := ARCH f.

(** An 8-bit value rotated right by twice a 4-bit count. *)
Definition rotated_imm (insn : Z) : Z * Z :=
  let val := Z.land insn 0xff in
  let shift := fld insn 8 0xf * 2 in
  (if shift =? 0 then val else Z.lor (Z.shiftr val shift) (u32 (Z.shiftl val (32 - shift))), shift).
(** [(((int32_t)insn) << 8) >> 8] *)
Definition branch_offset (insn : Z) : Z := (insn + 2 ^ 23) mod 2 ^ 24 - 2 ^ 23.

(** ** Unconditional instructions *)

Definition arm_uncond_hint (insn : Z) (rest : T unit) : T unit :=
  if fld insn 25 7 =? 1 then requiref ARM_FEATURE_NEON ;* or_illegal (run_space NeonData insn)
  else if eqm insn 0x0f100000 0x04000000 then requiref ARM_FEATURE_NEON ;* or_illegal (run_space NeonLs insn)
  else if eqm insn 0x0f30f000 0x0510f000 || eqm insn 0x0f30f010 0x0710f000 then
    when (negb (bit insn 22)) (requiref ARM_FEATURE_V7MP) ;* ARCH ARM_FEATURE_V5
  else if eqm insn 0x0f70f000 0x0450f000 || eqm insn 0x0f70f010 0x0650f000 then ARCH ARM_FEATURE_V7
  else if eqm insn 0x0f700000 0x04100000 || eqm insn 0x0f700010 0x06100000 then requiref ARM_FEATURE_V7MP
  else rest.

Definition rfe_offset (i : Z) : T Z :=
  match i with 0 => tret (-4) | 1 => tret 0 | 2 => tret (-8) | 3 => tret 4 | _ => abort end.
Definition rfe_writeback (i : Z) : T Z :=
  match i with 0 => tret (-8) | 1 => tret 4 | 2 => tret (-4) | 3 => tret 0 | _ => abort end.
Definition arm_rfe (insn : Z) : T unit :=
  let* u := IS_USER in
  require (negb u) ;* ARCH ARM_FEATURE_V6 ;*
  let rn := fld insn 16 0xf in
  let* addr := load_reg rn in
  let i := fld insn 23 3 in
  let* offset := rfe_offset i in
  let addr := if offset =? 0 then addr else add32 addr offset in
  let* tmp := gen_ld32 addr false in
  let addr := add32 addr 4 in
  let* tmp2 := gen_ld32 addr false in
  (if bit insn 21 then
     let* offset := rfe_writeback i in
     store_reg rn (if offset =? 0 then addr else add32 addr offset)
   else tret tt) ;*
  gen_rfe tmp tmp2.

Definition arm_blx_imm (insn : Z) : T unit :=
  let* val := get_dc pc in
  store_reg 14 val ;*
  let val := u32 (val + Z.lor (Z.lor (Z.shiftl (branch_offset insn) 2) (fld insn 23 2)) 1) in
  gen_bx_im (u32 (val + 4)).

Definition arm_cps (insn : Z) : T unit :=
  let* u := IS_USER in
  if (u : bool) then tret tt
  else
    let mask := if bit insn 19 then
        lors [if bit insn 8 then CPSR_A else 0; if bit insn 7 then CPSR_I else 0; if bit insn 6 then CPSR_F else 0]
      else 0 in
    let val := if bit insn 19 && bit insn 18 then mask else 0 in
    let '(mask, val) := if bit insn 17 then (Z.lor mask CPSR_M, Z.lor val (Z.land insn 0x1f)) else (mask, val) in
    if negb (mask =? 0) then (let* _ := gen_set_psr_im mask false val in tret tt) else tret tt.

(** SRS does not return after its code and reaches the final
    [goto illegal_op]. *)
Definition arm_uncond (insn : Z) : T unit :=
  if eqm insn 0x0ffffdff 0x01010000 then
    ARCH ARM_FEATURE_V6 ;*
    let* b := get_dc dbswap in require (fld insn 9 1 =? b)
  else if eqm insn 0x0fffff00 0x057ff000 then
    match fld insn 4 0xf with
    | 1 => ARCH ARM_FEATURE_V6K ;* gen_clrex
    | 4 | 5 | 6 => ARCH ARM_FEATURE_V7
    | _ => illegal_op
    end
  else if eqm insn 0x0e5fffe0 0x084d0500 then
    let* u := IS_USER in
    require (negb u) ;* ARCH ARM_FEATURE_V6 ;*
    gen_srs (Z.land insn 0x1f) (fld insn 23 3) (bit insn 21) ;*
    illegal_op
  else if eqm insn 0x0e50ffe0 0x08100a00 then arm_rfe insn
  else if eqm insn 0x0e000000 0x0a000000 then arm_blx_imm insn
  else if eqm insn 0x0e000f00 0x0c000100 then
    let* iw := feature ARM_FEATURE_IWMMXT in
    let* en := lift (gets (fun r => bit (cpar (rbus r)) 1)) in
    if iw && en then or_illegal (run_space Iwmmxt insn) else illegal_op
  else if eqm insn 0x0fe00000 0x0c400000 then ARCH ARM_FEATURE_V5 ;* abort
  else if eqm insn 0x0f000010 0x0e000010 then or_illegal (run_space Coprocessor insn)
  else if eqm insn 0x0ff10020 0x01000000 then arm_cps insn
  else illegal_op.

(** ** Immediate moves and status register writes *)

Definition arm_movw_msr (insn : Z) : T unit :=
  if negb (bit insn 21) then
    ARCH ARM_FEATURE_THUMB2 ;*
    let rd := fld insn 12 0xf in
    let val := Z.lor (fld insn 4 0xf000) (Z.land insn 0xfff) in
    let* tmp :=
      if negb (bit insn 22) then tret val
      else let* tmp := load_reg rd in tret (Z.lor (ext16u tmp) (Z.shiftl val 16)) in
    store_reg rd tmp
  else
    require (fld insn 12 0xf =? 0xf) ;*
    if fld insn 16 0xf =? 0 then gen_nop_hint (Z.land insn 0xff)
    else
      let val := (rotated_imm insn).1 in
      let i := bit insn 22 in
      let* mask := msr_mask (fld insn 16 0xf) i in
      or_illegal (gen_set_psr_im mask i val).

(** ** Miscellaneous instructions *)

Definition arm_psr (insn op1 rm : Z) : T unit :=
  if bit op1 0 then
    let* tmp := load_reg rm in
    let i := bit op1 1 in
    let* mask := msr_mask (fld insn 16 0xf) i in
    or_illegal (gen_set_psr mask i tmp)
  else
    let rd := fld insn 12 0xf in
    let* tmp :=
      if bit op1 1 then (let* u := IS_USER in require (negb u) ;* get_core spsr)
      else helper_cpsr_read in
    store_reg rd tmp.

(** [32 * 16 >> 16] and [16 * 16], the halfword multiplications. *)
Definition arm_signed_mul (insn op1 sh rm : Z) : T unit :=
  ARCH ARM_FEATURE_V5 ;*
  let rs := fld insn 8 0xf in
  let rn := fld insn 12 0xf in
  let rd := fld insn 16 0xf in
  let* tmp := load_reg rm in
  let* tmp2 := load_reg rs in
  if op1 =? 1 then
    let tmp2 := if bit sh 2 then sar_i32 tmp2 16 else ext16s tmp2 in
    let tmp := u32 (Z.shiftr (gen_muls_i64_i32 tmp tmp2) 16) in
    let* tmp := if negb (bit sh 1) then (let* tmp2 := load_reg rn in on_core (add_setq tmp tmp2)) else tret tmp in
    store_reg rd tmp
  else
    let tmp := gen_mulxy tmp tmp2 (bit sh 1) (bit sh 2) in
    if op1 =? 2 then
      let* tmp64 := gen_addq (ext_i32_i64 tmp) rn rd in
      gen_storeq_reg rn rd tmp64
    else
      let* tmp := if op1 =? 0 then (let* tmp2 := load_reg rn in on_core (add_setq tmp tmp2)) else tret tmp in
      store_reg rd tmp.

Definition arm_misc (insn : Z) : T unit :=
  let op1 := fld insn 21 3 in
  let sh := fld insn 4 0xf in
  let rm := Z.land insn 0xf in
  match sh with
  | 0x0 => arm_psr insn op1 rm
  | 0x1 =>
      if op1 =? 1 then ARCH ARM_FEATURE_V4T ;* let* tmp := load_reg rm in gen_bx tmp
      else if op1 =? 3 then
        ARCH ARM_FEATURE_V5 ;* let* tmp := load_reg rm in store_reg (fld insn 12 0xf) (clz32 tmp)
      else illegal_op
  | 0x3 =>
      require (op1 =? 1) ;* ARCH ARM_FEATURE_V5 ;*
      let* tmp := load_reg rm in
      let* tmp2 := get_dc pc in
      store_reg 14 tmp2 ;* gen_bx tmp
  | 0x5 =>
      ARCH ARM_FEATURE_V5 ;*
      let* tmp := load_reg rm in
      let* tmp2 := load_reg (fld insn 16 0xf) in
      let* tmp2 := if bit op1 1 then on_core (double_saturate tmp2) else tret tmp2 in
      let* tmp := if bit op1 0 then on_core (sub_saturate tmp tmp2) else on_core (add_saturate tmp tmp2) in
      store_reg (fld insn 12 0xf) tmp
  | 7 =>
      if op1 =? 1 then ARCH ARM_FEATURE_V5 ;* gen_exception_insn 4 EXCP_BKPT
      else if op1 =? 3 then
        let* tz := feature ARM_FEATURE_TRUSTZONE in
        let* u := IS_USER in
        require (tz && negb u) ;* gen_smc
      else illegal_op
  | 0x8 | 0xa | 0xc | 0xe => arm_signed_mul insn op1 sh rm
  (* bxj needs a feature no core has; the others are undefined *)
  | _ => illegal_op
  end.

(** ** Data processing *)

(** The second operand; for logical instructions with flags also the carry. *)
Definition arm_operand2 (insn : Z) (logic_cc : bool) : T Z :=
  if bit insn 25 then
    let '(val, shift) := rotated_imm insn in
    when (logic_cc && negb (shift =? 0)) (gen_set_CF_bit31 val) ;*
    tret val
  else
    let* tmp2 := load_reg (Z.land insn 0xf) in
    let shiftop := fld insn 5 3 in
    if negb (bit insn 4) then gen_arm_shift_im tmp2 shiftop (fld insn 7 0x1f) logic_cc
    else
      let* tmp := load_reg (fld insn 8 0xf) in
      gen_arm_shift_reg tmp2 shiftop tmp logic_cc.

(** The operation proper, on [tmp] and [tmp2]. *)
Definition arm_dp_op (op1 rd tmp tmp2 : Z) (set_cc logic_cc : bool) : T unit :=
  let logic v := when logic_cc (gen_logic_CC v) ;* store_reg_bx rd v in
  match op1 with
  | 0x00 => logic (Z.land tmp tmp2)
  | 0x01 => logic (Z.lxor tmp tmp2)
  | 0x02 =>
      if set_cc && (rd =? 15) then
        let* u := IS_USER in
        require (negb u) ;*
        let* tmp := gen_sub_CC tmp tmp2 in
        gen_exception_return tmp
      else
        let* tmp := if set_cc then gen_sub_CC tmp tmp2 else tret (sub32 tmp tmp2) in
        store_reg_bx rd tmp
  | 0x03 =>
      let* tmp := if set_cc then gen_sub_CC tmp2 tmp else tret (sub32 tmp2 tmp) in store_reg_bx rd tmp
  | 0x04 =>
      let* tmp := if set_cc then gen_add_CC tmp tmp2 else tret (add32 tmp tmp2) in store_reg_bx rd tmp
  | 0x05 =>
      let* tmp := if set_cc then gen_adc_CC tmp tmp2 else gen_add_carry tmp tmp2 in store_reg_bx rd tmp
  | 0x06 =>
      let* tmp := if set_cc then gen_sbc_CC tmp tmp2 else gen_sub_carry tmp tmp2 in store_reg_bx rd tmp
  | 0x07 =>
      let* tmp := if set_cc then gen_sbc_CC tmp2 tmp else gen_sub_carry tmp2 tmp in store_reg_bx rd tmp
  | 0x08 => when set_cc (gen_logic_CC (Z.land tmp tmp2))
  | 0x09 => when set_cc (gen_logic_CC (Z.lxor tmp tmp2))
  | 0x0a => when set_cc (let* _ := gen_sub_CC tmp tmp2 in tret tt)
  | 0x0b => when set_cc (let* _ := gen_add_CC tmp tmp2 in tret tt)
  | 0x0c => logic (Z.lor tmp tmp2)
  | 0x0d =>
      if logic_cc && (rd =? 15) then
        let* u := IS_USER in
        require (negb u) ;* gen_exception_return tmp2
      else logic tmp2
  | 0x0e => logic (andc32 tmp tmp2)
  | _ => logic (not32 tmp2)
  end.

Definition arm_data_proc (insn : Z) : T unit :=
  let op1 := fld insn 21 0xf in
  let set_cc := bit insn 20 in
  let* t := lift (defined (znth table_logic_cc op1)) in
  let logic_cc := negb (t =? 0) && set_cc in
  let* tmp2 := arm_operand2 insn logic_cc in
  let* tmp := if negb (op1 =? 0x0f) && negb (op1 =? 0x0d) then load_reg (fld insn 16 0xf) else tret 0 in
  arm_dp_op op1 (fld insn 12 0xf) tmp tmp2 set_cc logic_cc.

(** ** Multiplications *)

Definition arm_mul (insn : Z) : T unit :=
  let rd := fld insn 16 0xf in
  let rn := fld insn 12 0xf in
  let rs := fld insn 8 0xf in
  let rm := Z.land insn 0xf in
  match fld insn 20 0xf with
  | 0 | 1 | 2 | 3 | 6 =>
      let* tmp := load_reg rs in
      let* tmp2 := load_reg rm in
      let tmp := mul32 tmp tmp2 in
      let* tmp :=
        if bit insn 22 then (ARCH ARM_FEATURE_THUMB2 ;* let* tmp2 := load_reg rn in tret (sub32 tmp2 tmp))
        else if bit insn 21 then (let* tmp2 := load_reg rn in tret (add32 tmp tmp2))
        else tret tmp in
      when (bit insn 20) (gen_logic_CC tmp) ;*
      store_reg rd tmp
  | 4 =>
      ARCH ARM_FEATURE_V6 ;*
      let* tmp := load_reg rs in
      let* tmp2 := load_reg rm in
      let* tmp64 := gen_addq_lo (gen_mulu_i64_i32 tmp tmp2) rn in
      let* tmp64 := gen_addq_lo tmp64 rd in
      gen_storeq_reg rn rd tmp64
  | 5 | 7 => illegal_op
  | _ =>
      let* tmp := load_reg rs in
      let* tmp2 := load_reg rm in
      let '(tmp, tmp2) := if bit insn 22 then muls2_i32 tmp tmp2 else mulu2_i32 tmp tmp2 in
      let* '(tmp, tmp2) :=
        if bit insn 21 then
          let* al := load_reg rn in
          let* ah := load_reg rd in
          tret (add2_i32 tmp tmp2 al ah)
        else tret (tmp, tmp2) in
      when (bit insn 20) (gen_logicq_cc tmp tmp2) ;*
      store_reg rn tmp ;*
      store_reg rd tmp2
  end.

(** ** Exclusive accesses and SWP *)

Definition arm_exclusive (insn rn rd : Z) : T unit :=
  let op1 := fld insn 21 3 in
  ARCH (if negb (op1 =? 0) then ARM_FEATURE_V6K else ARM_FEATURE_V6) ;*
  let* addr := load_reg rn in
  if bit insn 20 then
    match op1 with
    | 0 => gen_load_exclusive rd 15 addr 2
    | 1 => gen_load_exclusive rd (rd + 1) addr 3
    | 2 => gen_load_exclusive rd 15 addr 0
    | 3 => gen_load_exclusive rd 15 addr 1
    | _ => abort
    end
  else
    let rm := Z.land insn 0xf in
    match op1 with
    | 0 => gen_store_exclusive rd rm 15 addr 2
    | 1 => gen_store_exclusive rd rm (rm + 1) addr 3
    | 2 => gen_store_exclusive rd rm 15 addr 0
    | 3 => gen_store_exclusive rd rm 15 addr 1
    | _ => abort
    end.

Definition arm_swp (insn rn rd : Z) : T unit :=
  let* addr := load_reg rn in
  let* tmp := load_reg (Z.land insn 0xf) in
  let* u := IS_USER in
  let* tmp2 :=
    if bit insn 22 then (let* tmp2 := gen_ld8u addr u in gen_st8 tmp addr u ;* tret tmp2)
    else (let* tmp2 := gen_ld32 addr u in gen_st32 tmp addr u ;* tret tmp2) in
  store_reg rd tmp2.

(** ** Halfword, signed and doubleword transfers *)

(** The transfer: the register to load (if any) with its value, the address
    and the correction of the address. *)
Definition misc_transfer (insn sh rd addr : Z) : T (option (Z * Z) * Z * Z) :=
  let* u := IS_USER in
  if bit insn 20 then
    let* tmp := if sh =? 1 then gen_ld16u addr u else if sh =? 2 then gen_ld8s addr u else gen_ld16s addr u in
    tret (Some (rd, tmp), addr, 0)
  else if bit sh 1 then
    ARCH ARM_FEATURE_V5 ;*
    if bit sh 0 then
      let* tmp := load_reg rd in
      gen_st32 tmp addr u ;*
      let addr := add32 addr 4 in
      let* tmp := load_reg (rd + 1) in
      gen_st32 tmp addr u ;*
      tret (None, addr, -4)
    else
      let* tmp := gen_ld32 addr u in
      store_reg rd tmp ;*
      let addr := add32 addr 4 in
      let* tmp := gen_ld32 addr u in
      tret (Some (rd + 1, tmp), addr, -4)
  else
    let* tmp := load_reg rd in
    gen_st16 tmp addr u ;*
    tret (None, addr, 0).

Definition arm_misc_ldst (insn sh : Z) : T unit :=
  let rn := fld insn 16 0xf in
  let rd := fld insn 12 0xf in
  let* addr := load_reg rn in
  let* addr := if bit insn 24 then gen_add_datah_offset insn 0 addr else tret addr in
  let* '(load, addr, address_offset) := misc_transfer insn sh rd addr in
  (if negb (bit insn 24) then
     let* addr := gen_add_datah_offset insn address_offset addr in store_reg rn addr
   else if bit insn 21 then store_reg rn (if address_offset =? 0 then addr else add32 addr address_offset)
   else tret tt) ;*
  match load with Some (rd, tmp) => store_reg rd tmp | None => tret tt end.

(** ** Media instructions *)

Definition media_parallel (insn rn rm rd : Z) : T unit :=
  let op1 := fld insn 20 7 in
  let* tmp := load_reg rn in
  let* tmp2 := load_reg rm in
  let sh := fld insn 5 7 in
  require (negb ((Z.land op1 3 =? 0) || (sh =? 5) || (sh =? 6))) ;*
  let* tmp := gen_arm_parallel_addsub op1 sh tmp tmp2 in
  store_reg rd tmp.

(** Packing, saturation and byte selection; the rest is [media_extend]. *)
Definition media_pack (insn rn rm rd : Z) (rest : T unit) : T unit :=
  if eqm insn 0x00700020 0 then
    let* tmp := load_reg rn in
    let* tmp2 := load_reg rm in
    let shift := fld insn 7 0x1f in
    store_reg rd
      (if bit insn 6 then
         let shift := if shift =? 0 then 31 else shift in
         Z.lor (Z.land tmp 0xffff0000) (ext16u (sar_i32 tmp2 shift))
       else
         let tmp2 := if shift =? 0 then tmp2 else shl_i32 tmp2 shift in
         Z.lor (ext16u tmp) (Z.land tmp2 0xffff0000))
  else if eqm insn 0x00200020 0x00200000 then
    let* tmp := load_reg rm in
    let shift := fld insn 7 0x1f in
    let tmp := if bit insn 6 then sar_i32 tmp (if shift =? 0 then 31 else shift) else shl_i32 tmp shift in
    let sh := fld insn 16 0x1f in
    let* tmp := if bit insn 22 then on_core (usat tmp sh) else on_core (ssat tmp sh) in
    store_reg rd tmp
  else if eqm insn 0x00300fe0 0x00200f20 then
    let* tmp := load_reg rm in
    let sh := fld insn 16 0x1f in
    let* tmp := if bit insn 22 then on_core (usat16 tmp sh) else on_core (ssat16 tmp sh) in
    store_reg rd tmp
  else if eqm insn 0x00700fe0 0x00000fa0 then
    let* tmp := load_reg rn in
    let* tmp2 := load_reg rm in
    let* tmp3 := get_core GE in
    store_reg rd (sel_flags tmp3 tmp tmp2)
  else rest.

Definition extend (op1 tmp : Z) : option Z :=
  match op1 with
  | 0 => Some (sxtb16 tmp) | 2 => Some (ext8s tmp) | 3 => Some (ext16s tmp)
  | 4 => Some (uxtb16 tmp) | 6 => Some (ext8u tmp) | 7 => Some (ext16u tmp)
  | _ => None
  end.
Definition media_extend (insn rn rm rd : Z) : T unit :=
  if eqm insn 0x000003e0 0x00000060 then
    let* tmp := load_reg rm in
    let shift := fld insn 10 3 in
    let tmp := if negb (shift =? 0) then rotr_i32 tmp (shift * 8) else tmp in
    let op1 := fld insn 20 7 in
    match extend op1 tmp with
    | None => illegal_op
    | Some tmp =>
        let* tmp :=
          if negb (rn =? 15) then
            let* tmp2 := load_reg rn in
            tret (if Z.land op1 3 =? 0 then gen_add16 tmp tmp2 else add32 tmp tmp2)
          else tret tmp in
        store_reg rd tmp
    end
  else if eqm insn 0x003f0f60 0x003f0f20 then
    let* tmp := load_reg rm in
    let* tmp :=
      if bit insn 22 then
        if bit insn 7 then tret (gen_revsh tmp) else ARCH ARM_FEATURE_THUMB2 ;* tret (rbit tmp)
      else tret (if bit insn 7 then gen_rev16 tmp else bswap32 tmp) in
    store_reg rd tmp
  else illegal_op.

(** Multiplications (type 3) and divisions. *)
Definition media_mul (insn rn rm rs rd : Z) : T unit :=
  match fld insn 20 7 with
  | 5 =>
      require (negb (bit (Z.lxor (Z.shiftr insn 6) (Z.shiftr insn 7)) 0)) ;*
      let* tmp := load_reg rm in
      let* tmp2 := load_reg rs in
      let tmp64 := gen_muls_i64_i32 tmp tmp2 in
      let* tmp64 :=
        if negb (rd =? 15) then
          let* tmp := load_reg rd in
          tret (if bit insn 6 then gen_subq_msw tmp64 tmp else gen_addq_msw tmp64 tmp)
        else tret tmp64 in
      let tmp64 := if bit insn 5 then u64 (tmp64 + 0x80000000) else tmp64 in
      store_reg rn (u32 (Z.shiftr tmp64 32))
  | 0 | 4 =>
      require (negb (bit insn 7)) ;*
      let* tmp := load_reg rm in
      let* tmp2 := load_reg rs in
      let '(tmp, tmp2) := gen_smul_dual tmp (if bit insn 5 then gen_swap_half tmp2 else tmp2) in
      let* tmp := if bit insn 6 then tret (sub32 tmp tmp2) else on_core (add_setq tmp tmp2) in
      if bit insn 22 then
        let* tmp64 := gen_addq (ext_i32_i64 tmp) rd rn in
        gen_storeq_reg rd rn tmp64
      else
        let* tmp := if negb (rd =? 15) then (let* tmp2 := load_reg rd in on_core (add_setq tmp tmp2)) else tret tmp in
        store_reg rn tmp
  | 1 | 3 =>
      requiref ARM_FEATURE_ARM_DIV ;*
      require (negb (negb (fld insn 5 7 =? 0) || negb (rd =? 15))) ;*
      let* tmp := load_reg rm in
      let* tmp2 := load_reg rs in
      store_reg rn (if bit insn 21 then udiv tmp tmp2 else sdiv tmp tmp2)
  | _ => illegal_op
  end.

(** Sums of differences and bit fields; [bfi_ops] and [bfx_ops] are the
    [case] labels. *)
Definition bfi_ops : list Z := [0x20; 0x24; 0x28; 0x2c].
Definition bfx_ops : list Z := [0x12; 0x16; 0x1a; 0x1e; 0x32; 0x36; 0x3a; 0x3e].
Definition media_bitfield (insn rn rm rs rd : Z) : T unit :=
  let op1 := Z.lor (fld insn 17 0x38) (fld insn 5 7) in
  if op1 =? 0 then
    ARCH ARM_FEATURE_V6 ;*
    let* tmp := load_reg rm in
    let* tmp2 := load_reg rs in
    let tmp := usad8 tmp tmp2 in
    let* tmp := if negb (rd =? 15) then (let* tmp2 := load_reg rd in tret (add32 tmp tmp2)) else tret tmp in
    store_reg rn tmp
  else if bool_decide (op1 ∈ bfi_ops) then
    ARCH ARM_FEATURE_THUMB2 ;*
    let shift := fld insn 7 0x1f in
    let i := fld insn 16 0x1f + 1 - shift in
    let* tmp := if rm =? 15 then tret 0 else load_reg rm in
    let* tmp :=
      if negb (i =? 32) then
        let* tmp2 := load_reg rd in
        lift (defined (deposit_i32 tmp2 tmp shift i))
      else tret tmp in
    store_reg rd tmp
  else if bool_decide (op1 ∈ bfx_ops) then
    ARCH ARM_FEATURE_THUMB2 ;*
    let* tmp := load_reg rm in
    let shift := fld insn 7 0x1f in
    let i := fld insn 16 0x1f + 1 in
    require (negb (32 <? shift + i)) ;*
    store_reg rd
      (if i <? 32 then if bit op1 5 then gen_ubfx tmp shift (Z.shiftl 1 i - 1) else gen_sbfx tmp shift i
       else tmp)
  else illegal_op.

Definition arm_media (insn : Z) : T unit :=
  ARCH ARM_FEATURE_V6 ;*
  let rm := Z.land insn 0xf in
  let rn := fld insn 16 0xf in
  let rd := fld insn 12 0xf in
  let rs := fld insn 8 0xf in
  match fld insn 23 3 with
  | 0 => media_parallel insn rn rm rd
  | 1 => media_pack insn rn rm rd (media_extend insn rn rm rd)
  | 2 => media_mul insn rn rm rs rd
  | _ => media_bitfield insn rn rm rs rd
  end.

(** ** Word and byte transfers *)

Definition arm_ldst (insn op1 : Z) : T unit :=
  let sh := Z.lor (Z.shiftl 0xf 20) (Z.shiftl 0xf 4) in
  require (negb ((op1 =? 7) && eqm insn sh sh)) ;*
  let rn := fld insn 16 0xf in
  let rd := fld insn 12 0xf in
  let* tmp2 := load_reg rn in
  let* u := IS_USER in
  let i := u || eqm insn 0x01200000 0x00200000 in
  let* tmp2 := if bit insn 24 then gen_add_data_offset insn tmp2 else tret tmp2 in
  let* tmp :=
    if bit insn 20 then if bit insn 22 then gen_ld8u tmp2 i else gen_ld32 tmp2 i
    else
      let* tmp := load_reg rd in
      (if bit insn 22 then gen_st8 tmp tmp2 i else gen_st32 tmp tmp2 i) ;* tret tmp in
  (if negb (bit insn 24) then let* tmp2 := gen_add_data_offset insn tmp2 in store_reg rn tmp2
   else if bit insn 21 then store_reg rn tmp2
   else tret tt) ;*
  when (bit insn 20) (store_reg_from_load rd tmp).

(** ** Multiple transfers *)

(** The registers of the list, in the order of the loop. *)
Definition reg_list (insn : Z) : list Z := filter (fun i => bit insn i = true) (seqZ 0 16).

(** The body of the loop for register [i]: the address, the count and the
    value loaded for the base register. *)
Definition ldm_body (insn rn n : Z) (user : bool) (acc : Z * Z * option Z) (i : Z) : T (Z * Z * option Z) :=
  let '(addr, j, loaded) := acc in
  let* u := IS_USER in
  let* loaded :=
    if bit insn 20 then
      let* tmp := gen_ld32 addr u in
      if user then on_core (set_user_reg i tmp) ;* tret loaded
      else if i =? rn then tret (Some tmp)
      else store_reg_from_load i tmp ;* tret loaded
    else
      let* tmp :=
        if i =? 15 then (let* p := get_dc pc in tret (u32 (p + 4)))
        else if user then on_core (get_user_reg i)
        else load_reg i in
      gen_st32 tmp addr u ;* tret loaded in
  let j := j + 1 in
  tret (if negb (j =? n) then add32 addr 4 else addr, j, loaded).

(** The address of the first transfer and the final base. *)
Definition ldm_start (insn n addr : Z) : Z :=
  if bit insn 23 then if bit insn 24 then add32 addr 4 else addr
  else if bit insn 24 then add32 addr (- (n * 4))
  else if negb (n =? 1) then add32 addr (- ((n - 1) * 4)) else addr.
Definition ldm_writeback (insn n addr : Z) : Z :=
  if bit insn 23 then if bit insn 24 then addr else add32 addr 4
  else if bit insn 24 then if negb (n =? 1) then add32 addr (- ((n - 1) * 4)) else addr
  else add32 addr (- (n * 4)).

Definition arm_ldm_stm (insn : Z) : T unit :=
  let* u := IS_USER in
  require (negb (bit insn 22 && u)) ;*
  let user := bit insn 22 && negb (bit insn 15) in
  let rn := fld insn 16 0xf in
  let* addr := load_reg rn in
  let n := Z.of_nat (length (reg_list insn)) in
  let* '(addr, _, loaded) := tfold (reg_list insn) (ldm_body insn rn n user) (ldm_start insn n addr, 0, None) in
  when (bit insn 21) (store_reg rn (ldm_writeback insn n addr)) ;*
  (match loaded with Some v => store_reg rn v | None => tret tt end) ;*
  when (bit insn 22 && negb user)
    (let* tmp := get_core spsr in
     gen_set_cpsr tmp 0xffffffff ;*
     upd_dc (set_is_jmp DISAS_UPDATE)).

(** ** Branches and the remaining classes *)

Definition arm_branch (insn : Z) : T unit :=
  let* val := get_dc pc in
  when (bit insn 24) (store_reg 14 val) ;*
  gen_jmp (u32 (val + (Z.shiftl (branch_offset insn) 2 + 4))).

Definition arm_other (insn : Z) : T unit :=
  let op1 := fld insn 24 0xf in
  match op1 with
  | 0x0 | 0x1 =>
      let sh := fld insn 5 3 in
      if sh =? 0 then
        if op1 =? 0 then arm_mul insn
        else
          let rn := fld insn 16 0xf in
          let rd := fld insn 12 0xf in
          if bit insn 23 then arm_exclusive insn rn rd else arm_swp insn rn rd
      else arm_misc_ldst insn sh
  | 0x4 | 0x5 => arm_ldst insn op1
  | 0x6 | 0x7 => if bit insn 4 then arm_media insn else arm_ldst insn op1
  | 0x8 | 0x9 => arm_ldm_stm insn
  | 0xa | 0xb => arm_branch insn
  | 0xc | 0xd | 0xe => or_illegal (run_space Coprocessor insn)
  | 0xf => (let* p := get_dc pc in gen_set_pc_im p) ;* upd_dc (set_is_jmp DISAS_SWI)
  | _ => illegal_op
  end.

Definition arm_conditional (insn : Z) : T unit :=
  if eqm insn 0x0f900000 0x03000000 then arm_movw_msr insn
  else if eqm insn 0x0f900000 0x01000000 && negb (eqm insn 0x00000090 0x00000090) then arm_misc insn
  else if (eqm insn 0x0e000000 0 && negb (eqm insn 0x00000090 0x90)) || eqm insn 0x0e000000 (Z.shiftl 1 25) then
    arm_data_proc insn
  else arm_other insn.

Definition arm_body (insn : Z) : T unit :=
  let* m := IS_M in
  require (negb m) ;*
  let cond := Z.shiftr insn 28 in
  if cond =? 0xf then ARCH ARM_FEATURE_V5 ;* arm_uncond_hint insn (arm_uncond insn)
  else
    when (negb (cond =? 0xe)) (gen_test_cc (Z.lxor cond 1)) ;*
    arm_conditional insn.

(** The label [illegal_op] of a decoder. *)
Definition catch_illegal (m : T unit) (h : T unit) : T unit :=
  bind m (fun f => match f with
    | Illegal => h
    | Go a => ret (Go a) | Skip => ret Skip | Raised => ret Raised | ExitTb => ret ExitTb
    end).

(** The decoder on the fetched word, with [pc] behind it. *)
Definition disas_arm_insn (insn : Z) : T unit := catch_illegal (arm_body insn) (gen_exception_insn 4 EXCP_UDEF).
End Arm.
