(* ===== verification/TransThumb2.v ===== *)
(** * 32-bit Thumb instructions: [disas_thumb2_insn] of [translate.c]

    Split along the cases of the source's [switch].  A return value other
    than zero is [illegal_op]. *)
From stdpp Require Import base list.
From S2P Require Import Prelude Double ArmTable State CpuState Errors OpHelper CpuMode Sys V7m Dsp Tcg TransGen TransArm.
Open Scope Z_scope.

Definition thumb2_logic_op (op : Z) : bool := op <? 8.

Section Thumb2.
Context {GU : Guest} {HO : HostOps}.

Definition gen_thumb2_data_op (op : Z) (conds shifter_out : bool) (t0 t1 : Z) : T Z :=
  let logic v := when conds (gen_logic_CC v ;* when shifter_out (gen_set_CF_bit31 t1)) ;* tret v in
  match op with
  | 0 => logic (Z.land t0 t1)
  | 1 => logic (andc32 t0 t1)
  | 2 => logic (Z.lor t0 t1)
  | 3 => logic (orc32 t0 t1)
  | 4 => logic (Z.lxor t0 t1)
  | 8 => if conds then gen_add_CC t0 t1 else tret (add32 t0 t1)
  | 10 => if conds then gen_adc_CC t0 t1 else gen_adc t0 t1
  | 11 => if conds then gen_sbc_CC t0 t1 else gen_sub_carry t0 t1
  | 13 => if conds then gen_sub_CC t0 t1 else tret (sub32 t0 t1)
  | 14 => if conds then gen_sub_CC t1 t0 else tret (sub32 t1 t0)
  | _ => illegal_op
  end.

(** ** BL and BLX as pairs of 16-bit instructions *)

(** [TARGET_PAGE_BITS] of this target. *)
Definition TARGET_PAGE_OFFSET : Z := 0x3ff.

(** What the instruction is before the second halfword is read: [None] goes
    on to the 32-bit decoder.  [p] is the address behind the first half. *)
Definition thumb1_half (insn p : Z) : option (T unit) :=
  if negb (bit insn 12) then Some (
    ARCH ARM_FEATURE_V5 ;*
    let* tmp := load_reg 14 in
    let tmp := Z.land (add32 tmp (Z.shiftl (Z.land insn 0x7ff) 1)) 0xfffffffc in
    store_reg 14 (Z.lor p 1) ;* gen_bx tmp)
  else if bit insn 11 then Some (
    let* tmp := load_reg 14 in
    let tmp := add32 tmp (Z.lor (Z.shiftl (Z.land insn 0x7ff) 1) 1) in
    store_reg 14 (Z.lor p 1) ;* gen_bx tmp)
  else if Z.land p TARGET_PAGE_OFFSET =? 0 then Some (
    let offset := Z.shiftr (s32 (Z.shiftl insn 21)) 9 in
    on_core (put_reg 14 (p + 2 + offset)))
  else None.

(** ** Double words, exclusives and table branches *)

Definition t2_dual (insn rn rs rd : Z) : T unit :=
  let* addr := if rn =? 15 then (let* p := get_dc pc in tret (Z.land p (not32 3))) else load_reg rn in
  let offset := Z.land insn 0xff * 4 in
  let offset := if negb (bit insn 23) then - offset else offset in
  let '(addr, offset) := if bit insn 24 then (add32 addr offset, 0) else (addr, offset) in
  let* u := IS_USER in
  (if bit insn 20 then
     let* tmp := gen_ld32 addr u in
     store_reg rs tmp ;*
     let* tmp := gen_ld32 (add32 addr 4) u in
     store_reg rd tmp
   else
     let* tmp := load_reg rs in
     gen_st32 tmp addr u ;*
     let* tmp := load_reg rd in
     gen_st32 tmp (add32 addr 4) u) ;*
  let addr := add32 addr 4 in
  if bit insn 21 then require (negb (rn =? 15)) ;* store_reg rn (add32 addr (offset - 4))
  else tret tt.

Definition t2_table_branch (insn rn rm : Z) : T unit :=
  let* p := get_dc pc in
  let* addr := if rn =? 15 then tret p else load_reg rn in
  let* tmp := load_reg rm in
  let* u := IS_USER in
  let addr := add32 addr tmp in
  let* tmp := if bit insn 4 then gen_ld16u (add32 addr tmp) u else gen_ld8u addr u in
  store_reg 15 (add32 (shl_i32 tmp 1) p).

Definition t2_other_ldst (insn rn rs rd rm : Z) : T unit :=
  if negb (eqm insn 0x01200000 0) then t2_dual insn rn rs rd
  else if negb (bit insn 23) then
    let* addr := load_reg rn in
    let addr := add32 addr (Z.shiftl (Z.land insn 0xff) 2) in
    if bit insn 20 then gen_load_exclusive rs 15 addr 2 else gen_store_exclusive rd rs 15 addr 2
  else if negb (bit insn 6) then t2_table_branch insn rn rm
  else
    ARCH ARM_FEATURE_V7 ;*
    let op := fld insn 4 3 in
    require (negb (op =? 2)) ;*
    let* addr := load_reg rn in
    if bit insn 20 then gen_load_exclusive rs rd addr op else gen_store_exclusive rm rs rd addr op.

(** ** Exception returns and multiple transfers *)

Definition t2_rfe_srs (insn rn : Z) : T unit :=
  let* u := IS_USER in
  let* m := IS_M in
  require (negb (u || m)) ;*
  if bit insn 20 then
    let* addr := load_reg rn in
    let addr := if negb (bit insn 24) then add32 addr (-8) else addr in
    let* tmp := gen_ld32 addr false in
    let addr := add32 addr 4 in
    let* tmp2 := gen_ld32 addr false in
    when (bit insn 21) (store_reg rn (if bit insn 24 then add32 addr 4 else add32 addr (-4))) ;*
    gen_rfe tmp tmp2
  else gen_srs (Z.land insn 0x1f) (if bit insn 24 then 1 else 2) (bit insn 21).

Definition t2_ldm_body (insn rn : Z) (acc : Z * option Z) (i : Z) : T (Z * option Z) :=
  let '(addr, loaded) := acc in
  let* u := IS_USER in
  let* loaded :=
    if bit insn 20 then
      let* tmp := gen_ld32 addr u in
      if i =? 15 then gen_bx tmp ;* tret loaded
      else if i =? rn then tret (Some tmp)
      else store_reg i tmp ;* tret loaded
    else
      let* tmp := load_reg i in
      gen_st32 tmp addr u ;* tret loaded in
  tret (add32 addr 4, loaded).

Definition t2_ldm_stm (insn rn : Z) : T unit :=
  let* addr := load_reg rn in
  let offset := 4 * Z.of_nat (length (reg_list insn)) in
  let addr := if bit insn 24 then add32 addr (- offset) else addr in
  let* '(addr, loaded) := tfold (reg_list insn) (t2_ldm_body insn rn) (addr, None) in
  (match loaded with Some v => store_reg rn v | None => tret tt end) ;*
  if bit insn 21 then
    require (negb (bit insn rn)) ;*
    store_reg rn (if bit insn 24 then add32 addr (- offset) else addr)
  else tret tt.

(** ** Data processing with a shifted register *)

Definition t2_shift (insn : Z) : Z := Z.lor (fld insn 6 3) (fld insn 10 0x1c).

Definition t2_pack (insn rn rm rd : Z) : T unit :=
  let* tmp := load_reg rn in
  let* tmp2 := load_reg rm in
  let shift := t2_shift insn in
  store_reg rd
    (if bit insn 5 then
       Z.lor (Z.land tmp 0xffff0000) (ext16u (sar_i32 tmp2 (if shift =? 0 then 31 else shift)))
     else Z.lor (ext16u tmp) (Z.land (if shift =? 0 then tmp2 else shl_i32 tmp2 shift) 0xffff0000)).

Definition t2_shifted (insn rn rm rd : Z) : T unit :=
  let op := fld insn 21 0xf in
  if op =? 6 then t2_pack insn rn rm rd
  else
    let* tmp := if rn =? 15 then tret 0 else load_reg rn in
    let* tmp2 := load_reg rm in
    let conds := bit insn 20 in
    let logic_cc := conds && thumb2_logic_op op in
    let* tmp2 := gen_arm_shift_im tmp2 (fld insn 4 3) (t2_shift insn) logic_cc in
    let* tmp := gen_thumb2_data_op op conds false tmp tmp2 in
    when (negb (rd =? 15)) (store_reg rd tmp).

(** ** Miscellaneous data processing *)

Definition t2_extend_op (op tmp : Z) : option Z :=
  match op with
  | 0 => Some (ext16s tmp) | 1 => Some (ext16u tmp) | 2 => Some (sxtb16 tmp)
  | 3 => Some (uxtb16 tmp) | 4 => Some (ext8s tmp) | 5 => Some (ext8u tmp)
  | _ => None
  end.
Definition t2_extend (insn rn rm rd : Z) : T unit :=
  let* tmp := load_reg rm in
  let shift := fld insn 4 3 in
  let tmp := if negb (shift =? 0) then rotr_i32 tmp (shift * 8) else tmp in
  let op := fld insn 20 7 in
  match t2_extend_op op tmp with
  | None => illegal_op
  | Some tmp =>
      let* tmp :=
        if negb (rn =? 15) then
          let* tmp2 := load_reg rn in
          tret (if Z.shiftr op 1 =? 1 then gen_add16 tmp tmp2 else add32 tmp tmp2)
        else tret tmp in
      store_reg rd tmp
  end.

Definition t2_other_dp (insn rn rm rd : Z) : T unit :=
  let op := Z.lor (fld insn 17 0x38) (fld insn 4 7) in
  let* tmp := load_reg rn in
  let* tmp :=
    if op <? 4 then
      let* tmp2 := load_reg rm in
      let* tmp := if bit op 0 then on_core (double_saturate tmp) else tret tmp in
      if bit op 1 then on_core (sub_saturate tmp2 tmp) else on_core (add_saturate tmp tmp2)
    else
      match op with
      | 0x0a => tret (rbit tmp)
      | 0x08 => tret (bswap32 tmp)
      | 0x09 => tret (gen_rev16 tmp)
      | 0x0b => tret (gen_revsh tmp)
      | 0x10 =>
          let* tmp2 := load_reg rm in
          let* tmp3 := get_core GE in
          tret (sel_flags tmp3 tmp tmp2)
      | 0x18 => tret (clz32 tmp)
      | _ => illegal_op
      end in
  store_reg rd tmp.

(** 32-bit multiplications and the sum of absolute differences. *)
Definition t2_mul32 (insn rn rm rs rd : Z) : T unit :=
  let op := fld insn 4 0xf in
  let* tmp := load_reg rn in
  let* tmp2 := load_reg rm in
  let accumulate tmp := if negb (rs =? 15) then (let* tmp2 := load_reg rs in on_core (add_setq tmp tmp2)) else tret tmp in
  let* tmp :=
    match fld insn 20 7 with
    | 0 =>
        let tmp := mul32 tmp tmp2 in
        if negb (rs =? 15) then
          let* tmp2 := load_reg rs in
          tret (if negb (op =? 0) then sub32 tmp2 tmp else add32 tmp tmp2)
        else tret tmp
    | 1 => accumulate (gen_mulxy tmp tmp2 (bit op 1) (bit op 0))
    | 2 | 4 =>
        let '(tmp, tmp2) := gen_smul_dual tmp (if negb (op =? 0) then gen_swap_half tmp2 else tmp2) in
        let* tmp := if bit insn 22 then tret (sub32 tmp tmp2) else on_core (add_setq tmp tmp2) in
        accumulate tmp
    | 3 =>
        let tmp2 := if negb (op =? 0) then sar_i32 tmp2 16 else ext16s tmp2 in
        accumulate (u32 (Z.shiftr (gen_muls_i64_i32 tmp tmp2) 16))
    | 5 | 6 =>
        let tmp64 := gen_muls_i64_i32 tmp tmp2 in
        let* tmp64 :=
          if negb (rs =? 15) then
            let* tmp := load_reg rs in
            tret (if bit insn 20 then gen_addq_msw tmp64 tmp else gen_subq_msw tmp64 tmp)
          else tret tmp64 in
        let tmp64 := if bit insn 4 then u64 (tmp64 + 0x80000000) else tmp64 in
        tret (u32 (Z.shiftr tmp64 32))
    | _ =>
        let tmp := usad8 tmp tmp2 in
        if negb (rs =? 15) then (let* tmp2 := load_reg rs in tret (add32 tmp tmp2)) else tret tmp
    end in
  store_reg rd tmp.

(** 64-bit multiplications and divisions. *)
Definition t2_mul64 (insn rn rm rs rd : Z) : T unit :=
  let op := Z.lor (fld insn 4 0xf) (fld insn 16 0x70) in
  let* tmp := load_reg rn in
  let* tmp2 := load_reg rm in
  if eqm op 0x50 0x10 then
    requiref ARM_FEATURE_THUMB_DIV ;*
    store_reg rd (if bit op 5 then udiv tmp tmp2 else sdiv tmp tmp2)
  else if eqm op 0xe 0xc then
    let '(tmp, tmp2) := gen_smul_dual tmp (if bit op 0 then gen_swap_half tmp2 else tmp2) in
    let tmp := if bit op 4 then sub32 tmp tmp2 else add32 tmp tmp2 in
    let* tmp64 := gen_addq (ext_i32_i64 tmp) rs rd in
    gen_storeq_reg rs rd tmp64
  else
    let tmp64 :=
      if bit op 5 then gen_mulu_i64_i32 tmp tmp2
      else if bit op 3 then ext_i32_i64 (gen_mulxy tmp tmp2 (bit op 1) (bit op 0))
      else gen_muls_i64_i32 tmp tmp2 in
    let* tmp64 :=
      if bit op 2 then (let* tmp64 := gen_addq_lo tmp64 rs in gen_addq_lo tmp64 rd)
      else if bit op 6 then gen_addq tmp64 rs rd
      else tret tmp64 in
    gen_storeq_reg rs rd tmp64.

Definition t2_misc_dp (insn rn rm rs rd : Z) : T unit :=
  let op := Z.lor (fld insn 22 6) (fld insn 7 1) in
  require (negb ((op <? 4) && negb (eqm insn 0xf000 0xf000))) ;*
  match op with
  | 0 =>
      let* tmp := load_reg rn in
      let* tmp2 := load_reg rm in
      require (eqm insn 0x70 0) ;*
      let logic_cc := bit insn 20 in
      let* tmp := gen_arm_shift_reg tmp (fld insn 21 3) tmp2 logic_cc in
      when logic_cc (gen_logic_CC tmp) ;*
      store_reg_bx rd tmp
  | 1 => t2_extend insn rn rm rd
  | 2 =>
      let op := fld insn 20 7 in
      let shift := fld insn 4 7 in
      require (negb ((Z.land op 3 =? 3) || (Z.land shift 3 =? 3))) ;*
      let* tmp := load_reg rn in
      let* tmp2 := load_reg rm in
      let* tmp := gen_thumb2_parallel_addsub op shift tmp tmp2 in
      store_reg rd tmp
  | 3 => t2_other_dp insn rn rm rd
  | 4 | 5 => t2_mul32 insn rn rm rs rd
  | _ => t2_mul64 insn rn rm rs rd
  end.

(** ** Coprocessor space *)

Definition t2_coproc (insn : Z) : T unit :=
  if fld insn 24 3 =? 3 then
    let insn := Z.lor (Z.lor (Z.land insn 0xe2ffffff) (Z.shiftr (Z.land insn (Z.shiftl 1 28)) 4)) (Z.shiftl 1 28) in
    or_illegal (run_space NeonData insn)
  else
    require (negb (bit insn 28)) ;*
    or_illegal (run_space Coprocessor insn).

(** ** Branches and control *)

Definition t2_branch_offset (insn : Z) : Z :=
  let offset := Z.land (u32 (Z.shiftr (s32 (Z.shiftl insn 5)) 9)) (not32 0xfff) in
  let offset := Z.lor offset (Z.shiftl (Z.land insn 0x7ff) 1) in
  let offset := Z.lxor offset (Z.shiftl (Z.land (not32 insn) (Z.shiftl 1 13)) 10) in
  Z.lxor offset (Z.shiftl (Z.land (not32 insn) (Z.shiftl 1 11)) 11).

Definition t2_branch (insn : Z) : T unit :=
  let* p := get_dc pc in
  when (bit insn 14) (on_core (put_reg 14 (Z.lor p 1))) ;*
  let offset := add32 (t2_branch_offset insn) p in
  if bit insn 12 then gen_jmp offset
  else gen_bx_im (Z.land offset (not32 2)).

Definition t2_cond_offset (insn : Z) : Z :=
  lors [Z.shiftl (Z.land insn 0x7ff) 1; Z.shiftr (Z.land insn 0x003f0000) 4;
        u32 (Z.shiftr (s32 (Z.land (u32 (Z.shiftl insn 5)) 0x80000000)) 11);
        Z.shiftl (Z.land insn (Z.shiftl 1 13)) 5; Z.shiftl (Z.land insn (Z.shiftl 1 11)) 8].
Definition t2_cond_branch (insn : Z) : T unit :=
  gen_test_cc (Z.lxor (fld insn 22 0xf) 1) ;*
  let* p := get_dc pc in
  gen_jmp (add32 p (t2_cond_offset insn)).

Definition t2_cps (insn : Z) : T unit :=
  when (fld insn 8 7 =? 0) (gen_nop_hint (Z.land insn 0xff)) ;*
  let* u := IS_USER in
  if (u : bool) then tret tt
  else
    let offset := if bit insn 10 then
        lors [if bit insn 7 then CPSR_A else 0; if bit insn 6 then CPSR_I else 0; if bit insn 5 then CPSR_F else 0]
      else 0 in
    let imm := if bit insn 10 && bit insn 9 then Z.lor (Z.lor CPSR_A CPSR_I) CPSR_F else 0 in
    let '(offset, imm) := if bit insn 8 then (Z.lor offset 0x1f, Z.lor imm (Z.land insn 0x1f)) else (offset, imm) in
    if negb (offset =? 0) then (let* _ := gen_set_psr_im offset false imm in tret tt) else tret tt.

Definition t2_msr (insn rn op : Z) : T unit :=
  let* m := IS_M in
  if m && (op =? 0) then
    let* tmp := load_reg rn in
    on_core (v7m_msr (Z.land insn 0xff) tmp) ;* gen_lookup_tb
  else
    require (negb m) ;*
    let* tmp := load_reg rn in
    let* mask := msr_mask (fld insn 8 0xf) (op =? 1) in
    or_illegal (gen_set_psr mask (op =? 1) tmp).

Definition t2_control (insn rn rd : Z) : T unit :=
  require (negb (bit insn 13)) ;*
  let* u := IS_USER in
  let* m := IS_M in
  if bit insn 26 then
    let* tz := feature ARM_FEATURE_TRUSTZONE in
    require (negb (negb tz || u)) ;* gen_smc
  else
    match fld insn 20 7 with
    | (0 | 1) as op => t2_msr insn rn op
    | 2 => t2_cps insn
    | 3 =>
        ARCH ARM_FEATURE_V7 ;*
        match fld insn 4 0xf with
        | 2 => gen_clrex
        | 4 | 5 | 6 => tret tt
        | _ => illegal_op
        end
    | 4 => let* tmp := load_reg rn in gen_bx tmp
    | 5 =>
        require (negb u) ;*
        require (negb (negb (rn =? 14) || negb (rd =? 15))) ;*
        let* tmp := load_reg rn in
        gen_exception_return (sub32 tmp (Z.land insn 0xff))
    | 6 =>
        let* tmp := if (m : bool) then on_core (v7m_mrs (Z.land insn 0xff)) else helper_cpsr_read in
        store_reg rd tmp
    | _ =>
        require (negb (u || m)) ;*
        let* tmp := get_core spsr in
        store_reg rd tmp
    end.

(** ** Immediates *)

Definition t2_saturate (op shift imm tmp : Z) : T Z :=
  let tmp := if shift =? 0 then tmp else if bit op 0 then sar_i32 tmp shift else shl_i32 tmp shift in
  let half := bit op 0 && (shift =? 0) in
  if bit op 2 then if half then on_core (usat16 tmp imm) else on_core (usat tmp imm)
  else if half then on_core (ssat16 tmp imm) else on_core (ssat tmp imm).

Definition t2_bitfield (insn rn rd : Z) : T unit :=
  require (negb (bit insn 20)) ;*
  let op := fld insn 21 7 in
  let imm := Z.land insn 0x1f in
  let shift := t2_shift insn in
  let* tmp := if rn =? 15 then tret 0 else load_reg rn in
  let* tmp :=
    match op with
    | 2 =>
        let imm := imm + 1 in
        require (negb (32 <? shift + imm)) ;*
        tret (if imm <? 32 then gen_sbfx tmp shift imm else tmp)
    | 6 =>
        let imm := imm + 1 in
        require (negb (32 <? shift + imm)) ;*
        tret (if imm <? 32 then gen_ubfx tmp shift (Z.shiftl 1 imm - 1) else tmp)
    | 3 =>
        require (negb (imm <? shift)) ;*
        let imm := imm + 1 - shift in
        if negb (imm =? 32) then
          let* tmp2 := load_reg rd in
          lift (defined (deposit_i32 tmp2 tmp shift imm))
        else tret tmp
    | 7 => illegal_op
    | _ => t2_saturate op shift imm tmp
    end in
  store_reg rd tmp.

Definition t2_plain_imm (insn rn rd : Z) : T unit :=
  let imm := Z.lor (Z.lor (Z.shiftr (Z.land insn 0x04000000) 15) (Z.shiftr (Z.land insn 0x7000) 4)) (Z.land insn 0xff) in
  let* tmp :=
    if bit insn 22 then
      let imm := Z.lor imm (fld insn 4 0xf000) in
      if bit insn 23 then
        let* tmp := load_reg rd in tret (Z.lor (ext16u tmp) (Z.shiftl imm 16))
      else tret imm
    else if rn =? 15 then
      let* p := get_dc pc in
      let offset := Z.land p (not32 3) in
      tret (if bit insn 23 then sub32 offset imm else add32 offset imm)
    else
      let* tmp := load_reg rn in
      tret (if bit insn 23 then sub32 tmp imm else add32 tmp imm) in
  store_reg rd tmp.

(** The modified 12-bit immediate, and whether it is a rotated constant. *)
Definition t2_modified_imm (insn : Z) : Z * bool :=
  let shift := Z.lor (Z.shiftr (Z.land insn 0x04000000) 23) (Z.shiftr (Z.land insn 0x7000) 12) in
  let imm := Z.land insn 0xff in
  match shift with
  | 0 => (imm, false)
  | 1 => (Z.lor imm (Z.shiftl imm 16), false)
  | 2 => (Z.shiftl (Z.lor imm (Z.shiftl imm 16)) 8, false)
  | 3 => let imm := Z.lor imm (Z.shiftl imm 16) in (Z.lor imm (Z.shiftl imm 8), false)
  | _ =>
      let shift := Z.lor (Z.shiftl shift 1) (Z.shiftr imm 7) in
      (u32 (Z.shiftl (Z.lor imm 0x80) (32 - shift)), true)
  end.

Definition t2_modified (insn rn rd : Z) : T unit :=
  let '(imm, shifter_out) := t2_modified_imm insn in
  let* tmp := if rn =? 15 then tret 0 else load_reg rn in
  let* tmp := gen_thumb2_data_op (fld insn 21 0xf) (bit insn 20) shifter_out tmp imm in
  when (negb (rd =? 15)) (store_reg rd tmp).

Definition t2_branch_or_imm (insn rn rd : Z) : T unit :=
  if bit insn 15 then
    if negb (eqm insn 0x5000 0) then t2_branch insn
    else if fld insn 23 7 =? 7 then t2_control insn rn rd
    else t2_cond_branch insn
  else if bit insn 25 then if bit insn 24 then t2_bitfield insn rn rd else t2_plain_imm insn rn rd
  else t2_modified insn rn rd.

(** ** Single transfers *)

(** Memory hints: loads of bytes and halfwords into r15. *)
Definition t2_hint (insn rn op : Z) : T unit :=
  let op1 := fld insn 23 3 in
  let op2 := fld insn 6 0x3f in
  require (negb (bit op 1)) ;*
  if rn =? 15 then tret tt
  else if bit op1 0 then tret tt
  else if (op2 =? 0) || (Z.land op2 0x3c =? 0x30) then tret tt
  else illegal_op.

(** The address, the privilege of the access and the write-back: [None], or
    the value to add to the address after the access. *)
Definition t2_address (insn rn rm : Z) : T (Z * bool * option Z) :=
  let* user := IS_USER in
  if rn =? 15 then
    let* p := get_dc pc in
    let imm := Z.land p 0xfffffffc in
    tret (if bit insn 23 then add32 imm (Z.land insn 0xfff) else sub32 imm (Z.land insn 0xfff), user, None)
  else
    let* addr := load_reg rn in
    if bit insn 23 then tret (add32 addr (Z.land insn 0xfff), user, None)
    else
      let imm := Z.land insn 0xff in
      match fld insn 8 0xf with
      | 0x0 =>
          let shift := fld insn 4 0xf in
          require (negb (3 <? shift)) ;*
          let* tmp := load_reg rm in
          let tmp := if shift =? 0 then tmp else shl_i32 tmp shift in
          tret (add32 addr tmp, user, None)
      | 0xc => tret (add32 addr (- imm), user, None)
      | 0xe => tret (add32 addr imm, true, None)
      | 0x9 => tret (addr, user, Some (- imm))
      | 0xb => tret (addr, user, Some imm)
      | 0xd => tret (add32 addr (- imm), user, Some 0)
      | 0xf => tret (add32 addr imm, user, Some 0)
      | _ => illegal_op
      end.

Definition t2_single (insn rn rs rm : Z) : T unit :=
  if eqm insn 0x01100000 0x01000000 then or_illegal (run_space NeonLs insn)
  else
    let op := Z.lor (fld insn 21 3) (fld insn 22 4) in
    if (rs =? 15) && negb (bit insn 20) then illegal_op
    else if (rs =? 15) && negb (op =? 2) then t2_hint insn rn op
    else
      let* '(addr, user, wb) := t2_address insn rn rm in
      (if bit insn 20 then
         let* tmp := match op with
           | 0 => gen_ld8u addr user
           | 4 => gen_ld8s addr user
           | 1 => gen_ld16u addr user
           | 5 => gen_ld16s addr user
           | 2 => gen_ld32 addr user
           | _ => illegal_op
           end in
         if rs =? 15 then gen_bx tmp else store_reg rs tmp
       else
         let* tmp := load_reg rs in
         match op with
         | 0 => gen_st8 tmp addr user
         | 1 => gen_st16 tmp addr user
         | 2 => gen_st32 tmp addr user
         | _ => illegal_op
         end) ;*
      match wb with Some imm => store_reg rn (add32 addr imm) | None => tret tt end.

(** ** The decoder, on both halfwords *)
Definition disas_thumb2_insn (insn : Z) : T unit :=
  when (negb (eqm insn 0xf800e800 0xf000e800)) (ARCH ARM_FEATURE_THUMB2) ;*
  let rn := fld insn 16 0xf in
  let rs := fld insn 12 0xf in
  let rd := fld insn 8 0xf in
  let rm := Z.land insn 0xf in
  match fld insn 25 0xf with
  | 0 | 1 | 2 | 3 => abort
  | 4 =>
      if bit insn 22 then t2_other_ldst insn rn rs rd rm
      else if Bool.eqb (bit insn 23) (bit insn 24) then t2_rfe_srs insn rn
      else t2_ldm_stm insn rn
  | 5 => t2_shifted insn rn rm rd
  | 13 => t2_misc_dp insn rn rm rs rd
  | 6 | 7 | 14 | 15 => t2_coproc insn
  | 8 | 9 | 10 | 11 => t2_branch_or_imm insn rn rd
  | 12 => t2_single insn rn rs rm
  | _ => illegal_op
  end.
End Thumb2.
