(* ===== verification/TransThumb.v ===== *)
(** * 16-bit Thumb instructions: [disas_thumb_insn] of [translate.c]

    Inside an IT block the instructions here do not set the flags; the
    condition of the block guards the whole instruction.  The decoder fetches
    the instruction itself, since its length is part of the decoding. *)
From stdpp Require Import base list.
From S2P Require Import Prelude Double ArmTable State CpuState Errors OpHelper CpuMode Sys V7m Dsp Tcg TransGen TransArm TransThumb2.
Open Scope Z_scope.

Section Thumb.
Context {GU : Guest} {HO : HostOps}.

(** [s->condexec_mask == 0]: outside an IT block. *)
Definition outside_it : T bool := get_dc (fun d => condexec_mask d =? 0).

Definition thumb_shift_add (insn : Z) : T unit :=
  let* cc := outside_it in
  let rd := Z.land insn 7 in
  let op := fld insn 11 3 in
  if op =? 3 then
    let* tmp := load_reg (fld insn 3 7) in
    let* tmp2 := if bit insn 10 then tret (fld insn 6 7) else load_reg (fld insn 6 7) in
    let* tmp :=
      if bit insn 9 then if (cc : bool) then gen_sub_CC tmp tmp2 else tret (sub32 tmp tmp2)
      else if (cc : bool) then gen_add_CC tmp tmp2 else tret (add32 tmp tmp2) in
    store_reg rd tmp
  else
    let* tmp := load_reg (fld insn 3 7) in
    let* tmp := gen_arm_shift_im tmp op (fld insn 6 0x1f) cc in
    when cc (gen_logic_CC tmp) ;*
    store_reg rd tmp.

Definition thumb_large_imm (insn : Z) : T unit :=
  let* cc := outside_it in
  let op := fld insn 11 3 in
  let rd := fld insn 8 7 in
  let imm := Z.land insn 0xff in
  if op =? 0 then when cc (gen_logic_CC imm) ;* store_reg rd imm
  else
    let* tmp := load_reg rd in
    match op with
    | 1 => let* _ := gen_sub_CC tmp imm in tret tt
    | 2 => let* tmp := if (cc : bool) then gen_add_CC tmp imm else tret (add32 tmp imm) in store_reg rd tmp
    | _ => let* tmp := if (cc : bool) then gen_sub_CC tmp imm else tret (sub32 tmp imm) in store_reg rd tmp
    end.

(** High registers, BX and BLX. *)
Definition thumb_extended (insn : Z) : T unit :=
  let rd := Z.lor (Z.land insn 7) (fld insn 4 8) in
  let rm := fld insn 3 0xf in
  match fld insn 8 3 with
  | 0 =>
      let* tmp := load_reg rd in
      let* tmp2 := load_reg rm in
      store_reg rd (add32 tmp tmp2)
  | 1 =>
      let* tmp := load_reg rd in
      let* tmp2 := load_reg rm in
      let* _ := gen_sub_CC tmp tmp2 in tret tt
  | 2 => let* tmp := load_reg rm in store_reg rd tmp
  | _ =>
      let* tmp := load_reg rm in
      when (bit insn 7) (ARCH ARM_FEATURE_V5 ;* let* p := get_dc pc in store_reg 14 (Z.lor p 1)) ;*
      gen_bx tmp
  end.

(** The result of a data-processing instruction on [tmp] and [tmp2], if it
    has one. *)
Definition thumb_dp_op (op tmp tmp2 : Z) (cc : bool) : T (option Z) :=
  let logic v := when cc (gen_logic_CC v) ;* tret (Some v) in
  let shift (flags : M cpu_st Z) v :=
    if cc then (let* v := on_core flags in gen_logic_CC v ;* tret (Some v)) else tret (Some v) in
  let some (m : T Z) := let* v := m in tret (Some v) in
  match op with
  | 0x0 => logic (Z.land tmp tmp2)
  | 0x1 => logic (Z.lxor tmp tmp2)
  | 0x2 => shift (shl_cc tmp2 tmp) (gen_shl tmp2 tmp)
  | 0x3 => shift (shr_cc tmp2 tmp) (gen_shr tmp2 tmp)
  | 0x4 => shift (sar_cc tmp2 tmp) (gen_sar tmp2 tmp)
  | 0x5 => some (if cc then gen_adc_CC tmp tmp2 else gen_adc tmp tmp2)
  | 0x6 => some (if cc then gen_sbc_CC tmp tmp2 else gen_sub_carry tmp tmp2)
  | 0x7 => shift (ror_cc tmp2 tmp) (rotr_i32 tmp2 (Z.land tmp 0x1f))
  | 0x8 => gen_logic_CC (Z.land tmp tmp2) ;* tret None
  | 0x9 => some (if cc then gen_sub_CC tmp tmp2 else tret (neg32 tmp2))
  | 0xa => let* _ := gen_sub_CC tmp tmp2 in tret None
  | 0xb => let* _ := gen_add_CC tmp tmp2 in tret None
  | 0xc => logic (Z.lor tmp tmp2)
  | 0xd => logic (mul32 tmp tmp2)
  | 0xe => logic (andc32 tmp tmp2)
  | _ => logic (not32 tmp2)
  end.

(** Shifts and rotates take their operands backwards. *)
Definition thumb_data_proc (insn : Z) : T unit :=
  let* cc := outside_it in
  let op := fld insn 6 0xf in
  let swap := (op =? 2) || (op =? 3) || (op =? 4) || (op =? 7) in
  let '(rd, rm) := if swap then (fld insn 3 7, Z.land insn 7) else (Z.land insn 7, fld insn 3 7) in
  let* tmp := if (op =? 9) || (op =? 0xf) then tret 0 else load_reg rd in
  let* tmp2 := load_reg rm in
  let* r := thumb_dp_op op tmp tmp2 cc in
  match r with
  | Some v => store_reg (if swap then rm else rd) v
  | None => tret tt
  end.

Definition thumb_case4 (insn : Z) : T unit :=
  if bit insn 11 then
    let* p := get_dc pc in
    let val := Z.land (u32 (p + 2 + Z.land insn 0xff * 4)) (not32 2) in
    let* u := IS_USER in
    let* tmp := gen_ld32 val u in
    store_reg (fld insn 8 7) tmp
  else if bit insn 10 then thumb_extended insn
  else thumb_data_proc insn.

(** ** Loads and stores *)

Definition thumb_ldst_reg (insn : Z) : T unit :=
  let rd := Z.land insn 7 in
  let op := fld insn 9 7 in
  let* addr := load_reg (fld insn 3 7) in
  let* tmp := load_reg (fld insn 6 7) in
  let addr := add32 addr tmp in
  let* u := IS_USER in
  if op <? 3 then
    let* tmp := load_reg rd in
    match op with
    | 0 => gen_st32 tmp addr u
    | 1 => gen_st16 tmp addr u
    | _ => gen_st8 tmp addr u
    end
  else
    let* tmp :=
      match op with
      | 3 => gen_ld8s addr u
      | 4 => gen_ld32 addr u
      | 5 => gen_ld16u addr u
      | 6 => gen_ld8u addr u
      | _ => gen_ld16s addr u
      end in
    store_reg rd tmp.

(** The forms with an immediate offset differ in the access only. *)
Definition thumb_ldst_at (insn rd addr : Z) (ld : Z -> bool -> T Z) (st : Z -> Z -> bool -> T unit) : T unit :=
  let* u := IS_USER in
  if bit insn 11 then let* tmp := ld addr u in store_reg rd tmp
  else let* tmp := load_reg rd in st tmp addr u.

Definition thumb_ldst_imm (insn : Z) : T unit :=
  let rd := Z.land insn 7 in
  let* addr := load_reg (fld insn 3 7) in
  match Z.shiftr insn 12 with
  | 6 => thumb_ldst_at insn rd (add32 addr (fld insn 4 0x7c)) gen_ld32 gen_st32
  | 7 => thumb_ldst_at insn rd (add32 addr (fld insn 6 0x1f)) gen_ld8u gen_st8
  | _ => thumb_ldst_at insn rd (add32 addr (fld insn 5 0x3e)) gen_ld16u gen_st16
  end.

Definition thumb_ldst_sp (insn : Z) : T unit :=
  let* addr := load_reg 13 in
  thumb_ldst_at insn (fld insn 8 7) (add32 addr (Z.land insn 0xff * 4)) gen_ld32 gen_st32.

Definition thumb_add_high (insn : Z) : T unit :=
  let* tmp := if bit insn 11 then load_reg 13 else (let* p := get_dc pc in tret (Z.land (u32 (p + 2)) (not32 2))) in
  store_reg (fld insn 8 7) (add32 tmp (Z.land insn 0xff * 4)).

(** ** PUSH and POP *)

Definition low_list (insn : Z) : list Z := filter (fun i => bit insn i = true) (seqZ 0 8).

Definition push_pop_body (insn addr i : Z) : T Z :=
  let* u := IS_USER in
  (if bit insn 11 then let* tmp := gen_ld32 addr u in store_reg i tmp
   else let* tmp := load_reg i in gen_st32 tmp addr u) ;*
  tret (add32 addr 4).

Definition thumb_push_pop (insn : Z) : T unit :=
  let* addr := load_reg 13 in
  let offset := (if bit insn 8 then 4 else 0) + 4 * Z.of_nat (length (low_list insn)) in
  let addr := if negb (bit insn 11) then add32 addr (- offset) else addr in
  let* addr := tfold (low_list insn) (push_pop_body insn) addr in
  let* u := IS_USER in
  let* '(tmp, addr) :=
    if bit insn 8 then
      let* tmp :=
        if bit insn 11 then gen_ld32 addr u
        else (let* tmp := load_reg 14 in gen_st32 tmp addr u ;* tret tmp) in
      tret (tmp, add32 addr 4)
    else tret (0, addr) in
  let addr := if negb (bit insn 11) then add32 addr (- offset) else addr in
  store_reg 13 addr ;*
  when (eqm insn 0x0900 0x0900) (store_reg_from_load 15 tmp).

(** ** Miscellaneous *)

Definition thumb_czb (insn : Z) : T unit :=
  let* tmp := load_reg (Z.land insn 7) in
  if (if bit insn 11 then tmp =? 0 else negb (tmp =? 0)) then ret Skip
  else
    let offset := Z.lor (Z.shiftr (Z.land insn 0xf8) 2) (Z.shiftr (Z.land insn 0x200) 3) in
    let* p := get_dc pc in
    gen_jmp (u32 (u32 (p + 2) + offset)).

Definition thumb_cps (insn : Z) : T unit :=
  ARCH ARM_FEATURE_V6 ;*
  let* u := IS_USER in
  if (u : bool) then tret tt
  else
    let* m := IS_M in
    if (m : bool) then
      let tmp := if bit insn 4 then 1 else 0 in
      when (bit insn 0) (on_core (v7m_msr 19 tmp)) ;*
      when (bit insn 1) (on_core (v7m_msr 16 tmp)) ;*
      gen_lookup_tb
    else
      let shift := if bit insn 4 then Z.lor (Z.lor CPSR_A CPSR_I) CPSR_F else 0 in
      let* _ := gen_set_psr_im (Z.shiftl (Z.land insn 7) 6) false shift in tret tt.

(** IT emits no code: its effect on the context is [it_context] below. *)
Definition thumb_misc (insn : Z) : T unit :=
  match fld insn 8 0xf with
  | 0 =>
      let* tmp := load_reg 13 in
      let val := Z.land insn 0x7f * 4 in
      store_reg 13 (add32 tmp (if bit insn 7 then - val else val))
  | 2 =>
      ARCH ARM_FEATURE_V6 ;*
      let* tmp := load_reg (fld insn 3 7) in
      store_reg (Z.land insn 7)
        match fld insn 6 3 with
        | 0 => ext16s tmp | 1 => ext8s tmp | 2 => ext16u tmp | _ => ext8u tmp
        end
  | 4 | 5 | 0xc | 0xd => thumb_push_pop insn
  | 1 | 3 | 9 | 11 => thumb_czb insn
  | 15 => when (eqm insn 0xf 0) (gen_nop_hint (fld insn 4 0xf))
  | 0xe => ARCH ARM_FEATURE_V5 ;* gen_exception_insn 2 EXCP_BKPT
  | 0xa =>
      ARCH ARM_FEATURE_V6 ;*
      let* tmp := load_reg (fld insn 3 7) in
      match fld insn 6 3 with
      | 0 => store_reg (Z.land insn 7) (bswap32 tmp)
      | 1 => store_reg (Z.land insn 7) (gen_rev16 tmp)
      | 3 => store_reg (Z.land insn 7) (gen_revsh tmp)
      | _ => illegal_op
      end
  | 6 =>
      match fld insn 5 7 with
      | 2 => ARCH ARM_FEATURE_V6 ;* let* b := get_dc dbswap in require (fld insn 3 1 =? b)
      | 3 => thumb_cps insn
      | _ => illegal_op
      end
  | _ => illegal_op
  end.

(** The change of the context by an IT instruction. *)
Definition is_it (insn : Z) : bool := (Z.shiftr insn 8 =? 0xbf) && negb (eqm insn 0xf 0).
Definition it_context (insn : Z) (d : dctx) : dctx :=
  if is_it insn then set_condexec (fld insn 4 0xe) (Z.land insn 0x1f) d else d.

(** ** Multiple transfers and branches *)

Definition thumb_ldm_body (insn rn : Z) (acc : Z * option Z) (i : Z) : T (Z * option Z) :=
  let '(addr, loaded) := acc in
  let* u := IS_USER in
  let* loaded :=
    if bit insn 11 then
      let* tmp := gen_ld32 addr u in
      if i =? rn then tret (Some tmp) else store_reg i tmp ;* tret loaded
    else let* tmp := load_reg i in gen_st32 tmp addr u ;* tret loaded in
  tret (add32 addr 4, loaded).

Definition thumb_ldm_stm (insn : Z) : T unit :=
  let rn := fld insn 8 7 in
  let* addr := load_reg rn in
  let* '(addr, loaded) := tfold (low_list insn) (thumb_ldm_body insn rn) (addr, None) in
  if negb (bit insn rn) then store_reg rn addr
  else match loaded with Some v => store_reg rn v | None => tret tt end.

Definition thumb_cond_branch (insn : Z) : T unit :=
  let cond := fld insn 8 0xf in
  if cond =? 0xe then illegal_op
  else if cond =? 0xf then
    (let* p := get_dc pc in gen_set_pc_im p) ;* upd_dc (set_is_jmp DISAS_SWI)
  else
    gen_test_cc (Z.lxor cond 1) ;*
    let* p := get_dc pc in
    let offset := Z.shiftr (s32 (Z.shiftl insn 24)) 24 in
    gen_jmp (u32 (u32 (p + 2) + Z.shiftl offset 1)).

Definition thumb_branch (insn : Z) : T unit :=
  let* p := get_dc pc in
  let offset := Z.shiftr (s32 (Z.shiftl insn 21)) 21 in
  gen_jmp (u32 (p + (Z.shiftl offset 1 + 2))).

(** The cases of the [switch] that are 16-bit instructions. *)
Definition thumb16 (insn : Z) : T unit :=
  match Z.shiftr insn 12 with
  | 0 | 1 => thumb_shift_add insn
  | 2 | 3 => thumb_large_imm insn
  | 4 => thumb_case4 insn
  | 5 => thumb_ldst_reg insn
  | 6 | 7 | 8 => thumb_ldst_imm insn
  | 9 => thumb_ldst_sp insn
  | 10 => thumb_add_high insn
  | 11 => thumb_misc insn
  | 12 => thumb_ldm_stm insn
  | 13 => thumb_cond_branch insn
  | _ => thumb_branch insn
  end.

(** ** Fetching and conditions *)

(** [arm_lduw_code] and [arm_ldl_code], at any address. *)
Definition code_at (op : memop) (swap : Z -> Z) (addr : Z) : T Z := fun r =>
  match code_ld op addr (core r, rbus r) with
  | (Some v, (c, b)) => Done (Go (if dbswap (dc r) =? 0 then v else swap v), set_rbus b (set_core c r))
  | (None, (c, b)) => Done (Raised, set_rbus b (set_core c r))
  end.
Definition arm_ldl_code (addr : Z) : T Z := code_at MO_32 bswap32 addr.
Definition arm_lduw_code (addr : Z) : T Z := code_at MO_16u bswap16 addr.

Definition is_32bit (insn : Z) : bool := ((Z.shiftr insn 12 =? 14) && bit insn 11) || (Z.shiftr insn 12 =? 15).

(** The instructions that place a label of their own behind themselves. *)
Definition relabels16 (insn : Z) : bool :=
  ((Z.shiftr insn 12 =? 13) && (fld insn 8 0xf <? 0xe)) ||
  ((Z.shiftr insn 12 =? 11) && bool_decide (fld insn 8 0xf ∈ [1; 3; 9; 11])).
Definition relabels32 (insn : Z) : bool :=
  (fld insn 27 3 =? 2) && bit insn 15 && eqm insn 0x5000 0 && negb (fld insn 23 7 =? 7).

(** The test at the head of an instruction of an IT block. *)
Definition it_skips : T bool :=
  let* d := get_dc id in
  if negb (condexec_mask d =? 0) && negb (condexec_cond d =? 0x0e) then branch_cc (Z.lxor (condexec_cond d) 1)
  else tret false.

(** The jump over the instruction.  Its label is lost when the instruction
    places another one; [trap] is the [is_jmp] the translator has set for the
    skipped instruction, as far as the end of the block looks at it. *)
Definition skip_over (skips relabelled : bool) (trap : jmp) (m : T unit) : T unit :=
  if skips then if relabelled then lift undefined else upd_dc (set_is_jmp trap) ;* ret Skip else m.

(** SVC and SMC, whose exceptions are raised at the end of the block. *)
Definition thumb_trap (insn : Z) : jmp := if Z.shiftr insn 8 =? 0xdf then DISAS_SWI else DISAS_NEXT.
Definition thumb2_trap (insn : Z) (tz u : bool) : jmp :=
  if (fld insn 27 3 =? 2) && bit insn 15 && eqm insn 0x5000 0 && (fld insn 23 7 =? 7) && negb (bit insn 13) && bit insn 26
     && tz && negb u
  then DISAS_SMC else DISAS_NEXT.

Definition advance_pc (n : Z) : T unit := upd_dc (fun d => set_pc (u32 (pc d + n)) d).

(** The instruction behind the branches: [jumps] says that one of them skips
    it, [lost] that the label of that branch is gone. *)
Definition thumb_decode (jumps lost : bool) : T unit :=
  let* p := get_dc pc in
  let* insn := arm_lduw_code p in
  advance_pc 2 ;*
  let* p := get_dc pc in
  if is_32bit insn then
    let* t2 := feature ARM_FEATURE_THUMB2 in
    let* m := IS_M in
    match (if t2 || m then None else thumb1_half insn p) with
    | Some half =>
        skip_over jumps lost DISAS_NEXT (catch_illegal half (gen_exception_insn 4 EXCP_UDEF))
    | None =>
        let* hw2 := arm_lduw_code p in
        advance_pc 2 ;*
        let insn := Z.lor hw2 (Z.shiftl insn 16) in
        let* tz := feature ARM_FEATURE_TRUSTZONE in
        let* u := IS_USER in
        skip_over jumps (lost || (relabels32 insn && t2)) (thumb2_trap insn tz u)
          (catch_illegal (disas_thumb2_insn insn) (gen_exception_insn 4 EXCP_UDEF))
    end
  else
    upd_dc (it_context insn) ;*
    skip_over jumps (lost || relabels16 insn) (thumb_trap insn)
      (catch_illegal (thumb16 insn) (gen_exception_insn 2 EXCP_UDEF)).

(** [over] says that a branch emitted before the instruction jumps behind
    it; a condition of its own then takes the label away. *)
Definition disas_thumb_insn (over : bool) : T unit :=
  let* skips := it_skips in
  let* cond := get_dc (fun d => negb (condexec_mask d =? 0) && negb (condexec_cond d =? 0x0e)) in
  thumb_decode (over || skips) (over && cond).
End Thumb.
