(* ===== verification/TransStep.v ===== *)
(** * Translation blocks: [gen_intermediate_code_internal] of [translate.c]

    A block of one instruction (the loop body once, as with [max_insns = 1]
    or [singlestep]): the context from the block's flags, the vemu hooks
    before the instruction, the instruction itself, the progress of the IT
    block and the code at the end of the block.  The state pairs the run-time
    state of the translated code with the vemu globals. *)
From stdpp Require Import base list.
From S2P Require Import Prelude Double ArmTable State Power Cycles ArmDecode CpuState Errors OpHelper CpuMode Sys V7m Dsp Softfloat Vfp Tcg TransGen.
From S2P Require Import TransArm TransThumb2 TransThumb.
Open Scope Z_scope.

(** The context at the start of the block [tb]. *)
Definition tb_context (flags start : Z) (ss : bool) : dctx :=
  {| pc := start; insn_pc := start; is_jmp := DISAS_NEXT;
     condexec_mask := Z.shiftl (Z.land (ARM_TBFLAG_CONDEXEC flags) 0xf) 1;
     condexec_cond := Z.shiftr (ARM_TBFLAG_CONDEXEC flags) 4;
     singlestep := ss; dthumb := ARM_TBFLAG_THUMB flags; dbswap := ARM_TBFLAG_BSWAP_CODE flags;
     user := ARM_TBFLAG_PRIV flags =? 0; vfp_enabled := ARM_TBFLAG_VFPEN flags;
     dvec_len := ARM_TBFLAG_VECLEN flags; dvec_stride := ARM_TBFLAG_VECSTRIDE flags |}.

(** The next instruction of an IT block. *)
Definition it_advance (d : dctx) : dctx :=
  if negb (condexec_mask d =? 0) then
    let cond := Z.lor (Z.land (condexec_cond d) 0xe) (fld (condexec_mask d) 4 1) in
    let mask := Z.land (Z.shiftl (condexec_mask d) 1) 0x1f in
    set_condexec (if mask =? 0 then 0 else cond) mask d
  else d.

(** The debugger's exception number, a constant of the QEMU core. *)
Class DebugConsts := { EXCP_DEBUG : Z }.

Section Step.
Context {GU : Guest} {HO : HostOps} {CLK : VmClock} {PM : PowerModel} {QC : QemuConsts} {DB : DebugConsts}.

(** ** The instruction *)

(** [insn] as the skipped instruction of a conditional jump. *)
Definition arm_trap (insn : Z) (tz u : bool) : jmp :=
  if fld insn 24 0xf =? 0xf then DISAS_SWI
  else if eqm insn 0x0f9000f0 0x01000070 && (fld insn 21 3 =? 3) && tz && negb u then DISAS_SMC
  else DISAS_NEXT.

Definition mark_skip (trap : jmp) (m : T unit) : T unit := fun r =>
  match m r with
  | Done (Skip, r') => Done (Skip, set_dc (set_is_jmp trap (dc r')) r')
  | o => o
  end.

Definition arm_insn (over : bool) : T unit :=
  let* p := get_dc pc in
  let* insn := arm_ldl_code p in
  advance_pc 4 ;*
  let* m := IS_M in
  let* tz := feature ARM_FEATURE_TRUSTZONE in
  let* u := IS_USER in
  let conditional := negb m && negb (Z.shiftr insn 28 =? 0xe) && negb (Z.shiftr insn 28 =? 0xf) in
  if over then if conditional then lift undefined else ret Skip
  else mark_skip (arm_trap insn tz u) (disas_arm_insn insn).

(** Translation goes on after an instruction however its code ends. *)
Definition thumb_insn (over : bool) : T unit := fun r =>
  match disas_thumb_insn over r with
  | Done (f, r') => Done (f, set_dc (it_advance (dc r')) r')
  | o => o
  end.

Definition one_insn (over : bool) : T unit :=
  let* t := get_dc dthumb in
  if negb (t =? 0) then thumb_insn over else arm_insn over.

(** ** The vemu hooks *)

Record tb_st : Type := { trt : rt; tvemu : vemu_st }.
Definition set_trt (r : rt) (s : tb_st) : tb_st := {| trt := r; tvemu := tvemu s |}.
Definition set_tvemu (v : vemu_st) (s : tb_st) : tb_st := {| trt := trt s; tvemu := v |}.

Definition TV (A : Type) : Type := M tb_st (flow A).
Definition vbind {A B} (m : TV A) (k : A -> TV B) : TV B :=
  bind m (fun f => match f with
    | Go a => k a
    | Skip => ret Skip | Raised => ret Raised | ExitTb => ret ExitTb | Illegal => ret Illegal
    end).
Definition on_rt {A} (m : T A) : TV A := fun s =>
  match m (trt s) with
  | Done (f, r) => Done (f, set_trt r s)
  | AssertFailed => AssertFailed | Undefined => Undefined | Exited z => Exited z
  end.
(** A helper on the processor and the vemu globals. *)
Definition on_machine {A} (m : M machine A) : TV A := fun s =>
  match m {| env := core (trt s); vemu := tvemu s |} with
  | Done (a, x) => Done (Go a, set_tvemu (vemu x) (set_trt (set_core (env x) (trt s)) s))
  | AssertFailed => AssertFailed | Undefined => Undefined | Exited z => Exited z
  end.

(** The halfwords [gen_vemu_info] reads, and the word of an ARM
    instruction. *)
Definition vemu_fetch : T (Z * Z * bool) :=
  let* d := get_dc id in
  if negb (dthumb d =? 0) then
    let* insn := arm_lduw_code (pc d) in
    if ((Z.shiftr insn 12 =? 0xF) || (Z.shiftr insn 12 =? 0xE)) && bit insn 12 && negb (bit insn 11) then
      let* hw2 := arm_lduw_code (u32 (pc d + 2)) in tret (insn, hw2, true)
    else tret (insn, 0, true)
  else let* insn := arm_ldl_code (pc d) in tret (insn, 0, false).

(** [gen_vemu_info] and [gen_vemu_error_replace] on what was fetched: whether
    the emitted branch jumps over the instruction. *)
Definition vemu_hooks (x : Z * Z * bool) : TV bool :=
  let '(w, hw2, thumb) := x in
  vbind (on_machine (on_vemu (gen_vemu_info (fun a => if a =? 0 then w else hw2) (fun _ => w) thumb 0))) (fun tb =>
  vbind (on_machine (helper_vemu_info tb)) (fun _ =>
  if emits_error_hook tb then
    vbind (on_machine (vemu_error_replace tb)) (fun retval => ret (Go (negb (retval =? 0))))
  else ret (Go false))).

(** ** The block *)

(** What stops translation before the instruction: the return from an
    exception on the M profile, and a breakpoint. *)
Definition insn_start (breakpoints : list Z) : T unit :=
  let* d := get_dc id in
  when (negb (condexec_mask d =? 0) || negb (condexec_cond d =? 0)) (upd_core (set_condexec_bits 0)) ;*
  let* m := IS_M in
  if (0xfffffff0 <=? pc d) && m then gen_exception EXCP_EXCEPTION_EXIT
  else if bool_decide (pc d ∈ breakpoints) then gen_exception_insn 0 EXCP_DEBUG
  else tret tt.

Definition tb_body (breakpoints : list Z) : TV unit :=
  vbind (on_rt (insn_start breakpoints ;* vemu_fetch)) (fun x =>
  vbind (vemu_hooks x) (fun over => on_rt (one_insn over))).

(** The exceptions deferred to the end of the block. *)
Definition deferred (j : jmp) (otherwise : Z) : Z :=
  match j with DISAS_SWI => EXCP_SWI | DISAS_SMC => EXCP_SMC | _ => otherwise end.

(** With the debugger stepping: every instruction ends in an exception. *)
Definition step_end (skipped : bool) : T unit :=
  let* d := get_dc id in
  when (skipped || match is_jmp d with DISAS_NEXT => true | _ => false end) (gen_set_pc_im (pc d)) ;*
  gen_set_condexec ;*
  gen_exception (deferred (is_jmp d) EXCP_DEBUG).

Definition block_end (j : jmp) : TV unit :=
  vbind (on_rt gen_set_condexec) (fun _ =>
  match j with
  | DISAS_NEXT => on_rt (let* p := get_dc pc in gen_goto_tb p)
  | DISAS_JUMP | DISAS_UPDATE | DISAS_TB_JUMP => ret ExitTb
  | DISAS_WFI => bind (on_machine wfi) (fun _ => ret Raised)
  | DISAS_SWI => on_rt (gen_exception EXCP_SWI)
  | DISAS_SMC => on_rt (gen_exception EXCP_SMC)
  end).

Definition tb_end (f : flow unit) : TV unit := fun s =>
  let d := dc (trt s) in
  match f with
  | Go _ => if singlestep d then on_rt (step_end false) s else block_end (is_jmp d) s
  | Skip => if singlestep d then on_rt (step_end true) s else block_end DISAS_NEXT s
  | Raised => ret Raised s
  | ExitTb => ret ExitTb s
  | Illegal => ret Illegal s
  end.

Definition run_tb (breakpoints : list Z) : TV unit := bind (tb_body breakpoints) tb_end.
End Step.
