(* ===== verification/TransUser.v ===== *)
(** * Unprivileged code: what a translated instruction can do in user mode

    Every ARM and Thumb instruction of a user-mode program either completes,
    is skipped, or leaves through an exception; the processor state stays
    well-formed and nothing privileged changes: the mode and the interrupt
    masks, the saved status registers, the banked registers of other modes
    and the v7-M system registers.  The proof walks the decoders once, with
    [uok] as the property of a piece of code. *)
From stdpp Require Import base list.
From S2P Require Import Prelude Double ArmTable State CpuState Errors OpHelper CpuMode Sys V7m Dsp Tcg TransGen TransArm TransThumb2 TransThumb.
Open Scope Z_scope.

(** ** What user code must not change *)
Record ukeep (c c' : cpu_st) : Prop := {
  uk_cpsr : uncached_cpsr c' = uncached_cpsr c;
  uk_spsr : spsr c' = spsr c;
  uk_bspsr : banked_spsr c' = banked_spsr c;
  uk_r13 : banked_r13 c' = banked_r13 c;
  uk_r14 : banked_r14 c' = banked_r14 c;
  uk_usr : usr_regs c' = usr_regs c;
  uk_fiq : fiq_regs c' = fiq_regs c;
  uk_feat : features c' = features c;
  uk_v7m : (other_sp c', vecbase c', basepri c', control c', current_sp c', exception c') =
           (other_sp c, vecbase c, basepri c, control c, current_sp c, exception c)
}.

#[export] Instance ukeep_preorder : PreOrder ukeep.
Proof.
  split; [intros c; split; reflexivity|].
  intros c1 c2 c3 [] []. split; congruence.
Qed.

(** ** Code on the processor state *)
Definition core_wf (c : cpu_st) : Prop := cpu_wf c /\ is_u32 (uncached_cpsr c).
Definition core_ok {A} (m : M cpu_st A) : Prop := forall c, core_wf c -> exists a c', m c = Done (a, c') /\ core_wf c' /\ ukeep c c'.

(** A change that keeps the arrays keeps both. *)
Lemma core_wf_keep c c' : core_wf c -> cpu_wf c' -> ukeep c c' -> core_wf c'.
Proof. intros [_ Hu] Hw Hk. split; [exact Hw|]. rewrite (uk_cpsr _ _ Hk). exact Hu. Qed.

Lemma core_ok_ret {A} (a : A) : core_ok (ret a).
Proof. intros c Hc. exists a, c. split; [reflexivity|]. split; [exact Hc|reflexivity]. Qed.
Lemma core_ok_gets {A} (f : cpu_st -> A) : core_ok (gets f).
Proof. intros c Hc. exists (f c), c. split; [reflexivity|]. split; [exact Hc|reflexivity]. Qed.
Lemma core_ok_bind {A B} (m : M cpu_st A) (k : A -> M cpu_st B) : core_ok m -> (forall a, core_ok (k a)) -> core_ok (bind m k).
Proof.
  intros Hm Hk c Hc. destruct (Hm c Hc) as (a & c1 & E1 & W1 & K1). destruct (Hk a c1 W1) as (b & c2 & E2 & W2 & K2).
  exists b, c2. rewrite (bind_run _ _ _ _ _ E1). split; [exact E2|]. split; [exact W2|]. etransitivity; eassumption.
Qed.
Lemma core_ok_modify f : (forall c, cpu_wf c -> cpu_wf (f c) /\ ukeep c (f c)) -> core_ok (modify f).
Proof.
  intros Hf c Hc. exists tt, (f c). split; [reflexivity|]. destruct (Hf c (proj1 Hc)) as [W K].
  split; [eapply core_wf_keep; eassumption|exact K].
Qed.
Lemma core_ok_get_reg i : 0 <= i < 16 -> core_ok (get_reg i).
Proof. intros Hi c Hc. exists (reg c i), c. split; [apply get_reg_run; [apply Hc|assumption]|]. split; [exact Hc|reflexivity]. Qed.
Lemma core_ok_put_reg i v : 0 <= i < 16 -> core_ok (put_reg i v).
Proof.
  intros Hi c [Hc Hu]. eexists tt, _. split; [apply put_reg_run; assumption|]. split; [split; [|exact Hu]|split; reflexivity].
  apply set_regs_wf; [exact Hc|rewrite length_zset; apply wf_regs, Hc|].
  apply Forall_zset; [apply wf_regs32, Hc|apply u32_range].
Qed.

(** A change of one field that is neither privileged nor an array. *)
Ltac field_ok := let c := fresh "c" in let Hc := fresh "Hc" in intros c Hc; destruct Hc; split; [split; assumption|split; reflexivity].
Ltac core_auto :=
  repeat match goal with
  | |- core_ok (bind _ _) => apply core_ok_bind; [|intros ?]
  | |- core_ok (ret _) => apply core_ok_ret
  | |- core_ok (gets _) => apply core_ok_gets
  | |- core_ok (modify _) => apply core_ok_modify; first [field_ok | intros ? ?; cbn beta; repeat case_match; field_ok]
  | |- core_ok (if ?b then _ else _) => destruct b
  | |- core_ok (match ?x with _ => _ end) => destruct x
  end.

Lemma core_ok_add_setq a b : core_ok (add_setq a b).
Proof. unfold add_setq, set_q. core_auto. Qed.
Lemma core_ok_add_sat a b : core_ok (add_saturate a b).
Proof. unfold add_saturate, set_q. core_auto. Qed.
Lemma core_ok_sub_sat a b : core_ok (sub_saturate a b).
Proof. unfold sub_saturate, set_q. core_auto. Qed.
Lemma core_ok_double a : core_ok (double_saturate a).
Proof. unfold double_saturate, set_q. core_auto. Qed.
Lemma core_ok_ssat x k : core_ok (ssat x k).
Proof. unfold ssat, do_ssat, set_q. core_auto. Qed.
Lemma core_ok_usat x k : core_ok (usat x k).
Proof. unfold usat, do_usat, set_q. core_auto. Qed.
Lemma core_ok_ssat16 x k : core_ok (ssat16 x k).
Proof. unfold ssat16, do_ssat, set_q. core_auto. Qed.
Lemma core_ok_usat16 x k : core_ok (usat16 x k).
Proof. unfold usat16, do_usat, set_q. core_auto. Qed.
Lemma core_ok_shl x i : core_ok (shl_cc x i).
Proof. unfold shl_cc, set_cf. core_auto. Qed.
Lemma core_ok_shr x i : core_ok (shr_cc x i).
Proof. unfold shr_cc, set_cf. core_auto. Qed.
Lemma core_ok_sar x i : core_ok (sar_cc x i).
Proof. unfold sar_cc, set_cf. core_auto. Qed.
Lemma core_ok_ror x i : core_ok (ror_cc x i).
Proof. unfold ror_cc, set_cf. core_auto. Qed.
Lemma core_ok_raise e : core_ok (raise_exception e).
Proof. unfold raise_exception. core_auto. Qed.

(** Writing only flags: the mode does not switch and no privileged bit
    changes. *)
Lemma write_flags_ukeep v m c : ukeep c (write_flags v m c).
Proof.
  unfold write_flags. repeat match goal with |- context [if tst ?x ?y then _ else _] => destruct (tst x y) end; split; reflexivity.
Qed.
Lemma core_ok_cpsr v mask : Z.land mask CPSR_USER = mask -> core_ok (cpsr_write v mask).
Proof.
  intros Hm c [Hc Hu]. unfold cpsr_write.
  erewrite bind_run by reflexivity. erewrite bind_run by reflexivity.
  assert (E : tst (Z.land (Z.lxor (uncached_cpsr (write_flags v mask c)) v) mask) CPSR_M = false).
  { unfold tst. rewrite <- Hm, <- !Z.land_assoc. change (Z.land CPSR_USER CPSR_M) with 0. rewrite !Z.land_0_r. reflexivity. }
  rewrite E. erewrite bind_run by reflexivity. cbn zeta.
  assert (E2 : Z.land mask (not32 CACHED_CPSR_BITS) = 0).
  { rewrite <- Hm, <- Z.land_assoc. change (Z.land CPSR_USER (not32 CACHED_CPSR_BITS)) with 0. apply Z.land_0_r. }
  rewrite E2. eexists tt, _. split; [reflexivity|]. cbn beta.
  pose proof (write_flags_ukeep v mask c) as K. pose proof (write_flags_wf v mask c Hc) as W.
  assert (Es : Z.lor (Z.land (uncached_cpsr (write_flags v mask c)) (not32 0)) (Z.land v 0) = uncached_cpsr c).
  { rewrite (uk_cpsr _ _ K), Z.land_0_r, Z.lor_0_r. change (not32 0) with (Z.ones 32). rewrite Z.land_ones by lia.
    apply Z.mod_small. exact Hu. }
  rewrite Es. split; [split; [apply uncached_wf, W|exact Hu]|]. destruct K. split; assumption || reflexivity.
Qed.

(** ** The rest of the machine *)

(** A memory access reports a fault or an interrupt in the processor state
    and changes nothing else there. *)
Definition mem_effect (c c' : cpu_st) : Prop := exists x y, c' = set_exception_index x (set_interrupt_request y c).

(** What the other components promise to user-mode code: memory accesses and
    fetches only signal, and the coprocessor spaces neither fail nor change
    privileged state. *)
Class GuestLaws `{GU : Guest} := {
  ld_effect op a i c b o c' b' : bus_ld op a i (c, b) = (o, (c', b')) -> mem_effect c c';
  st_effect op a v i c b o c' b' : bus_st op a v i (c, b) = (o, (c', b')) -> mem_effect c c';
  code_effect op a c b o c' b' : code_ld op a (c, b) = (o, (c', b')) -> mem_effect c c';
  code_range op a s v s' : code_ld op a s = (Some v, s') -> 0 <= v < 2 ^ (match op with MO_32 => 32 | _ => 16 end);
  other_user sp d insn c b : user d = true -> arm_feature c ARM_FEATURE_M = false -> core_wf c ->
    exists res c' b', other_insn sp d insn (c, b) = Done (res, (c', b')) /\ core_wf c' /\ ukeep c c'
}.

Lemma mem_effect_ok c c' : mem_effect c c' -> core_wf c -> core_wf c' /\ ukeep c c'.
Proof. intros (x & y & ->) [Hc Hu]. destruct Hc. split; [split; [split; assumption|exact Hu]|split; reflexivity]. Qed.

Section User.
Context {GU : Guest} {GL : GuestLaws} {HO : HostOps}.

Definition uinv (r : rt) : Prop := user (dc r) = true /\ arm_feature (core r) ARM_FEATURE_M = false /\ core_wf (core r).
Definition uok {A} (m : T A) : Prop :=
  forall r, uinv r -> exists f r', m r = Done (f, r') /\ uinv r' /\ ukeep (core r) (core r').

Lemma feature_keep c c' f : ukeep c c' -> arm_feature c' f = arm_feature c f.
Proof. intros K. unfold arm_feature. rewrite (uk_feat _ _ K). reflexivity. Qed.
Lemma uinv_core r c : uinv r -> core_wf c -> ukeep (core r) c -> uinv (set_core c r).
Proof. intros (Hu & Hm & _) Hc K. split; [exact Hu|]. split; [|exact Hc]. cbn. rewrite (feature_keep _ _ _ K). exact Hm. Qed.

(** *** Structure *)
Lemma uok_flow {A} (f : flow A) : uok (ret f).
Proof. intros r Hr. exists f, r. split; [reflexivity|]. split; [exact Hr|reflexivity]. Qed.
Lemma uok_tret {A} (a : A) : uok (tret a).
Proof. apply uok_flow. Qed.
Lemma uok_illegal {A} : uok (@illegal_op GU A).
Proof. apply uok_flow. Qed.
Lemma uok_tbind {A B} (m : T A) (k : A -> T B) : uok m -> (forall a, uok (k a)) -> uok (tbind m k).
Proof.
  intros Hm Hk r Hr. destruct (Hm r Hr) as (f & r1 & E1 & I1 & K1). unfold tbind. rewrite (bind_run _ _ _ _ _ E1).
  destruct f as [a| | | |]; [|eexists _, r1; split; [reflexivity|split; assumption]..].
  destruct (Hk a r1 I1) as (f & r2 & E2 & I2 & K2). exists f, r2. split; [exact E2|]. split; [exact I2|].
  etransitivity; eassumption.
Qed.
(** The same with a property of the value. *)
Definition uokp {A} (m : T A) (P : A -> Prop) : Prop :=
  forall r, uinv r -> exists f r', m r = Done (f, r') /\ uinv r' /\ ukeep (core r) (core r') /\ match f with Go a => P a | _ => True end.
Lemma uokp_tret {A} (P : A -> Prop) a : P a -> uokp (tret a) P.
Proof. intros Ha r Hr. exists (Go a), r. split; [reflexivity|]. split; [exact Hr|]. split; [reflexivity|exact Ha]. Qed.
Lemma uokp_illegal {A} (P : A -> Prop) : uokp illegal_op P.
Proof. intros r Hr. exists Illegal, r. split; [reflexivity|]. split; [exact Hr|]. split; [reflexivity|exact I]. Qed.
Lemma uokp_tbind {A B} (m : T A) (k : A -> T B) P : uok m -> (forall a, uokp (k a) P) -> uokp (tbind m k) P.
Proof.
  intros Hm Hk r Hr. destruct (Hm r Hr) as (f & r1 & E1 & I1 & K1). unfold tbind. rewrite (bind_run _ _ _ _ _ E1).
  destruct f as [a| | | |]; [|eexists _, r1; split; [reflexivity|split; [assumption|split; [assumption|exact I]]]..].
  destruct (Hk a r1 I1) as (f & r2 & E2 & I2 & K2 & HP). exists f, r2. split; [exact E2|]. split; [exact I2|].
  split; [etransitivity; eassumption|exact HP].
Qed.
Lemma uok_post {A B} (m : T A) P (k : A -> T B) : uokp m P -> (forall a, P a -> uok (k a)) -> uok (tbind m k).
Proof.
  intros Hm Hk r Hr. destruct (Hm r Hr) as (f & r1 & E1 & I1 & K1 & HP). unfold tbind. rewrite (bind_run _ _ _ _ _ E1).
  destruct f as [a| | | |]; [|eexists _, r1; split; [reflexivity|split; assumption]..].
  destruct (Hk a HP r1 I1) as (f & r2 & E2 & I2 & K2). exists f, r2. split; [exact E2|]. split; [exact I2|].
  etransitivity; eassumption.
Qed.
Lemma uok_lift_gets {A} (f : rt -> A) : uok (lift (gets f)).
Proof. intros r Hr. exists (Go (f r)), r. split; [reflexivity|]. split; [exact Hr|reflexivity]. Qed.
Lemma uok_get_core {A} (f : cpu_st -> A) : uok (get_core f).
Proof. apply uok_lift_gets. Qed.
Lemma uok_get_dc {A} (f : dctx -> A) : uok (get_dc f).
Proof. apply uok_lift_gets. Qed.
Lemma uok_feature f : uok (feature f).
Proof. apply uok_get_core. Qed.
Lemma uok_ARCH f : uok (ARCH f).
Proof. apply uok_tbind; [apply uok_feature|]. intros []; apply uok_flow. Qed.
Lemma uok_upd_dc f : (forall d, user (f d) = user d) -> uok (upd_dc f).
Proof.
  intros Hf r (Hu & Hm & Hc). eexists _, _. split; [reflexivity|]. split; [|reflexivity].
  split; [cbn; rewrite Hf; exact Hu|split; assumption].
Qed.
Lemma uok_upd_core f : (forall c, cpu_wf c -> cpu_wf (f c) /\ ukeep c (f c)) -> uok (upd_core f).
Proof.
  intros Hf r Hr. destruct (Hf (core r)) as [W K]; [apply Hr|]. eexists _, _. split; [reflexivity|].
  split; [|exact K]. apply uinv_core; [exact Hr| |exact K]. eapply core_wf_keep; [apply Hr|exact W|exact K].
Qed.
Lemma uok_on_core {A} (m : M cpu_st A) : core_ok m -> uok (on_core m).
Proof.
  intros Hm r Hr. destruct (Hm (core r)) as (a & c & E & W & K); [apply Hr|]. unfold on_core. rewrite E.
  eexists _, _. split; [reflexivity|]. split; [|exact K]. apply uinv_core; assumption.
Qed.
Lemma uok_monitor f : (forall r, core (f r) = core r /\ dc (f r) = dc r) -> uok (set_monitor f).
Proof.
  intros Hf r (Hu & Hm & Hc). destruct (Hf r) as [Ec Ed]. eexists _, _. split; [reflexivity|].
  unfold uinv. rewrite Ec, Ed. split; [split; [exact Hu|split; assumption]|reflexivity].
Qed.
(** In user mode [IS_USER] is true, outside the M profile [IS_M] is false. *)
Lemma uok_user {B} (k : bool -> T B) : uok (k true) -> uok (tbind IS_USER k).
Proof. intros Hk r Hr. change (tbind IS_USER k r) with (k (user (dc r)) r). rewrite (proj1 Hr). exact (Hk r Hr). Qed.
Lemma uok_m {B} (k : bool -> T B) : uok (k false) -> uok (tbind IS_M k).
Proof.
  intros Hk r Hr. change (tbind IS_M k r) with (k (arm_feature (core r) ARM_FEATURE_M) r).
  rewrite (proj1 (proj2 Hr)). exact (Hk r Hr).
Qed.
(** The code behind a refused privilege is not reached. *)
Lemma uok_refused {B} (k : unit -> T B) : uok (tbind (require false) k).
Proof. intros r Hr. exists Illegal, r. split; [reflexivity|]. split; [exact Hr|reflexivity]. Qed.
Lemma uok_catch m h : uok m -> uok h -> uok (catch_illegal m h).
Proof.
  intros Hm Hh r Hr. destruct (Hm r Hr) as (f & r1 & E1 & I1 & K1). unfold catch_illegal. rewrite (bind_run _ _ _ _ _ E1).
  destruct f as [a| | | |]; [eexists _, r1; split; [reflexivity|split; assumption]..|].
  destruct (Hh r1 I1) as (f & r2 & E2 & I2 & K2). exists f, r2. split; [exact E2|]. split; [exact I2|].
  etransitivity; eassumption.
Qed.
Lemma uok_tfold {A B} (l : list A) (body : B -> A -> T B) :
  (forall b a, a ∈ l -> uok (body b a)) -> forall acc, uok (tfold l body acc).
Proof.
  induction l as [|a l IH]; intros Hb acc; cbn [tfold]; [apply uok_tret|].
  apply uok_tbind; [apply Hb, elem_of_cons; auto|]. intros b. apply IH. intros; apply Hb, elem_of_cons; auto.
Qed.

(** *** Memory and coprocessors *)
Lemma uok_restore : uok restore_state_to_opc.
Proof.
  unfold restore_state_to_opc. apply uok_tbind; [apply uok_get_dc|]. intros d.
  apply uok_tbind; [apply uok_on_core, core_ok_put_reg; lia|]. intros _. apply uok_upd_core. field_ok.
Qed.
Lemma uok_fault {A} r c b : uinv r -> mem_effect (core r) c ->
  exists f r', ((restore_state_to_opc ;* ret Raised) : T A) (set_rbus b (set_core c r)) = Done (f, r') /\ uinv r' /\ ukeep (core r) (core r').
Proof.
  intros Hr He. destruct (mem_effect_ok _ _ He) as [W K]; [apply Hr|].
  assert (Hx : uok ((restore_state_to_opc ;* ret Raised) : T A)) by (apply uok_tbind; [apply uok_restore|intros; apply uok_flow]).
  destruct (Hx (set_rbus b (set_core c r))) as (f & r' & E & I & K'); [apply (uinv_core r c); assumption|].
  exists f, r'. split; [exact E|]. split; [exact I|]. etransitivity; eassumption.
Qed.
Lemma uok_ld op a u : uok (qemu_ld op a u).
Proof.
  intros r Hr. unfold qemu_ld. destruct (bus_ld op a (mem_index u) (core r, rbus r)) as [[v|] [c b]] eqn:E;
    apply ld_effect in E; [|apply uok_fault; assumption].
  destruct (mem_effect_ok _ _ E) as [W K]; [apply Hr|]. eexists _, _. split; [reflexivity|].
  split; [|exact K]. exact (uinv_core r c Hr W K).
Qed.
Lemma uok_st op a v u : uok (qemu_st op a v u).
Proof.
  intros r Hr. unfold qemu_st. destruct (bus_st op a v (mem_index u) (core r, rbus r)) as [[|] [c b]] eqn:E;
    apply st_effect in E; [|apply uok_fault; assumption].
  destruct (mem_effect_ok _ _ E) as [W K]; [apply Hr|]. eexists _, _. split; [reflexivity|].
  split; [|exact K]. exact (uinv_core r c Hr W K).
Qed.
Lemma uok_code op sw a : uok (code_at op sw a).
Proof.
  intros r Hr. unfold code_at. destruct (code_ld op a (core r, rbus r)) as [o [c b]] eqn:E.
  apply code_effect in E. destruct (mem_effect_ok _ _ E) as [W K]; [apply Hr|]. pose proof (uinv_core r c Hr W K) as I.
  destruct o; eexists _, _; (split; [reflexivity|]); (split; [exact I|exact K]).
Qed.
Lemma uok_space sp insn : uok (run_space sp insn).
Proof.
  intros r Hr. destruct (other_user sp (dc r) insn (core r) (rbus r)) as (res & c & b & E & W & K); [apply Hr..|].
  unfold run_space. rewrite E. pose proof (uinv_core r c Hr W K) as I.
  destruct res; eexists _, _; (split; [reflexivity|]); (split; [exact I|exact K]).
Qed.
End User.

Create HintDb uok.
#[export] Hint Resolve uok_tret uok_flow uok_illegal uok_get_core uok_get_dc uok_feature uok_ARCH uok_ld uok_st uok_code uok_space
  uok_lift_gets core_ok_get_reg core_ok_put_reg core_ok_add_setq core_ok_add_sat core_ok_sub_sat core_ok_double core_ok_ssat
  core_ok_usat core_ok_ssat16 core_ok_usat16 core_ok_shl core_ok_shr core_ok_sar core_ok_ror core_ok_raise : uok.

(** [uok_auto] walks a piece of code: sequences, conditions, assignments to
    unprivileged fields; what remains are register numbers and calls. *)
Ltac uok_step :=
  match goal with
  | |- uok (tbind IS_USER _) => apply uok_user; cbn beta; cbn [negb andb orb]
  | |- uok (tbind IS_M _) => apply uok_m; cbn beta; cbn [negb andb orb]
  | |- uok (tbind (require false) _) => apply uok_refused
  | |- uok _ => solve [auto with uok]
  | |- uok (tbind _ _) => apply uok_tbind; [|intros ?]
  | |- uok (upd_dc _) => apply uok_upd_dc; intros ?; reflexivity
  | |- uok (set_monitor _) => apply uok_monitor; intros ?; split; reflexivity
  | |- uok (upd_core _) => apply uok_upd_core; field_ok
  | |- uok (on_core _) => apply uok_on_core; auto with uok
  | |- uok (when ?b _) => unfold when; destruct b
  | |- uok (require ?b) => unfold require; destruct b
  | |- uok (if ?b then _ else _) => destruct b
  | |- uok (match ?x with _ => _ end) => destruct x
  end.
Ltac uok_auto := repeat uok_step.

(** ** Register numbers *)
Lemma fld_range w sh k : 0 <= k -> 0 <= fld w sh (Z.ones k) < 2 ^ k.
Proof. apply land_mask_range. Qed.
Lemma fld4 w sh : 0 <= fld w sh 0xf < 16.
Proof. apply (fld_range w sh 4). lia. Qed.
Lemma fld3 w sh : 0 <= fld w sh 7 < 16.
Proof. pose proof (fld_range w sh 3) as H. change (Z.ones 3) with 7 in H. lia. Qed.
Lemma low4 w : 0 <= Z.land w 0xf < 16.
Proof. apply (land_mask_range w 4). lia. Qed.
Lemma low3 w : 0 <= Z.land w 7 < 16.
Proof. pose proof (land_mask_range w 3) as H. change (Z.ones 3) with 7 in H. lia. Qed.
Lemma high_reg w : 0 <= Z.lor (Z.land w 7) (fld w 4 8) < 16.
Proof.
  apply (lor_below _ _ 4); [lia|apply low3|]. unfold fld. pose proof (land_pow2 (Z.shiftr w 4) 3) as H.
  change (2 ^ 3) with 8 in H. rewrite H by lia. destruct (Z.testbit _ 3); lia.
Qed.
#[export] Hint Resolve fld4 fld3 low4 low3 high_reg : uok.
#[export] Hint Extern 1 (0 <= _ < 16) => (cbn; lia) : uok.

(** Case analysis on a four-bit field. *)
Lemma nibble_cases (P : Z -> Prop) : P 0 -> P 1 -> P 2 -> P 3 -> P 4 -> P 5 -> P 6 -> P 7 -> P 8 -> P 9 -> P 10 -> P 11 ->
  P 12 -> P 13 -> P 14 -> P 15 -> forall x, 0 <= x < 16 -> P x.
Proof.
  intros. assert (Hx : (Z.to_nat x < 16)%nat) by lia. rewrite <- (Z2Nat.id x) by lia. revert Hx. generalize (Z.to_nat x).
  intros n Hn. do 16 (destruct n as [|n]; [assumption|]). lia.
Qed.
Ltac nibble x := pattern x; apply nibble_cases.

Section UserGen.
Context {GU : Guest} {GL : GuestLaws} {HO : HostOps}.

(** ** The building blocks *)

Lemma uok_load_reg n : 0 <= n < 16 -> uok (load_reg n).
Proof. intros Hn. unfold load_reg. uok_auto. Qed.
Lemma uok_store_reg n v : 0 <= n < 16 -> uok (store_reg n v).
Proof. intros Hn. unfold store_reg. uok_auto. Qed.
Lemma uok_set_pc v : uok (gen_set_pc_im v).
Proof. unfold gen_set_pc_im. uok_auto. Qed.
Lemma uok_bx_im a : uok (gen_bx_im a).
Proof. unfold gen_bx_im. uok_auto. Qed.
Lemma uok_bx v : uok (gen_bx v).
Proof. unfold gen_bx. uok_auto. Qed.
#[local] Hint Resolve uok_load_reg uok_store_reg uok_set_pc uok_bx_im uok_bx : uok.
Lemma uok_store_bx n v : 0 <= n < 16 -> uok (store_reg_bx n v).
Proof. intros Hn. unfold store_reg_bx. uok_auto. Qed.
Lemma uok_store_load n v : 0 <= n < 16 -> uok (store_reg_from_load n v).
Proof. intros Hn. unfold store_reg_from_load. uok_auto. Qed.
Lemma uok_lookup_tb : uok gen_lookup_tb.
Proof. unfold gen_lookup_tb. uok_auto. Qed.
Lemma uok_jmp d : uok (gen_jmp d).
Proof. unfold gen_jmp, gen_goto_tb. uok_auto. Qed.
Lemma uok_exception {A} e : uok (@gen_exception GU A e).
Proof. unfold gen_exception. uok_auto. Qed.
Lemma uok_set_condexec : uok gen_set_condexec.
Proof. unfold gen_set_condexec. uok_auto. Qed.
#[local] Hint Resolve uok_exception uok_set_condexec : uok.
Lemma uok_exception_insn {A} o e : uok (@gen_exception_insn GU A o e).
Proof. unfold gen_exception_insn. uok_auto. Qed.
Lemma uok_nop v : uok (gen_nop_hint v).
Proof. unfold gen_nop_hint. uok_auto. Qed.

Lemma uok_CF31 v : uok (gen_set_CF_bit31 v).
Proof. unfold gen_set_CF_bit31. uok_auto. Qed.
Lemma uok_logic v : uok (gen_logic_CC v).
Proof. unfold gen_logic_CC. uok_auto. Qed.
Lemma uok_logicq l h : uok (gen_logicq_cc l h).
Proof. unfold gen_logicq_cc. uok_auto. Qed.
Lemma uok_adc a b : uok (gen_adc a b).
Proof. unfold gen_adc. uok_auto. Qed.
Lemma uok_add_carry a b : uok (gen_add_carry a b).
Proof. unfold gen_add_carry. uok_auto. Qed.
Lemma uok_sub_carry a b : uok (gen_sub_carry a b).
Proof. unfold gen_sub_carry. uok_auto. Qed.
Lemma uok_add_CC a b : uok (gen_add_CC a b).
Proof. unfold gen_add_CC. uok_auto. Qed.
Lemma uok_adc_CC a b : uok (gen_adc_CC a b).
Proof. unfold gen_adc_CC. uok_auto. Qed.
Lemma uok_sub_CC a b : uok (gen_sub_CC a b).
Proof. unfold gen_sub_CC. uok_auto. Qed.
Lemma uok_sbc_CC a b : uok (gen_sbc_CC a b).
Proof. apply uok_adc_CC. Qed.
#[local] Hint Resolve uok_CF31 uok_logic : uok.
Lemma uok_shifter_out v n : uok (shifter_out_im v n).
Proof. unfold shifter_out_im. uok_auto. Qed.
#[local] Hint Resolve uok_shifter_out : uok.
Lemma uok_shift_im v o n f : uok (gen_arm_shift_im v o n f).
Proof. unfold gen_arm_shift_im. cbn zeta. uok_auto. Qed.
Lemma uok_shift_reg v o n f : uok (gen_arm_shift_reg v o n f).
Proof. unfold gen_arm_shift_reg. uok_auto. Qed.
Lemma uok_pas p o a b : uok (run_pas p o a b).
Proof. unfold run_pas. uok_auto. Qed.
#[local] Hint Resolve uok_shift_im uok_shift_reg : uok.

Lemma uok_ld8s a u : uok (gen_ld8s a u). Proof. apply uok_ld. Qed.
Lemma uok_ld8u a u : uok (gen_ld8u a u). Proof. apply uok_ld. Qed.
Lemma uok_ld16s a u : uok (gen_ld16s a u). Proof. apply uok_ld. Qed.
Lemma uok_ld16u a u : uok (gen_ld16u a u). Proof. apply uok_ld. Qed.
Lemma uok_ld32 a u : uok (gen_ld32 a u). Proof. apply uok_ld. Qed.
Lemma uok_st8 v a u : uok (gen_st8 v a u). Proof. apply uok_st. Qed.
Lemma uok_st16 v a u : uok (gen_st16 v a u). Proof. apply uok_st. Qed.
Lemma uok_st32 v a u : uok (gen_st32 v a u). Proof. apply uok_st. Qed.
#[local] Hint Resolve uok_ld8s uok_ld8u uok_ld16s uok_ld16u uok_ld32 uok_st8 uok_st16 uok_st32 : uok.
Lemma uok_data_offset i v : uok (gen_add_data_offset i v).
Proof. unfold gen_add_data_offset. uok_auto. Qed.
Lemma uok_datah_offset i e v : uok (gen_add_datah_offset i e v).
Proof. unfold gen_add_datah_offset. uok_auto. Qed.

(** In user mode the mask of an MSR selects only user bits. *)
Lemma land_user m : Z.land (Z.land m CPSR_USER) CPSR_USER = Z.land m CPSR_USER.
Proof. rewrite <- Z.land_assoc, Z.land_diag. reflexivity. Qed.
Lemma uok_msr {B} flags sp (k : Z -> T B) :
  (forall mask, Z.land mask CPSR_USER = mask -> uok (k mask)) -> uok (tbind (msr_mask flags sp) k).
Proof.
  intros Hk r Hr.
  assert (E : exists m, msr_mask flags sp r = Done (Go (Z.land m CPSR_USER), r)).
  { eexists. unfold msr_mask. cbn zeta. unfold tbind, feature, IS_USER, get_core, get_dc, lift, bind, gets, tret, ret.
    rewrite (proj1 Hr). reflexivity. }
  destruct E as [m E]. unfold tbind. rewrite (bind_run _ _ _ _ _ E). apply Hk; [apply land_user|exact Hr].
Qed.
Lemma uok_set_psr mask b t : Z.land mask CPSR_USER = mask -> uok (gen_set_psr mask b t).
Proof.
  intros Hm. unfold gen_set_psr, gen_set_cpsr. apply uok_user. destruct b; cbn [andb]; [apply uok_tret|].
  apply uok_tbind; [apply uok_on_core, core_ok_cpsr, Hm|]. intros _.
  apply uok_tbind; [apply uok_lookup_tb|intros; apply uok_tret].
Qed.

Lemma uok_storeq a b v : 0 <= a < 16 -> 0 <= b < 16 -> uok (gen_storeq_reg a b v).
Proof. intros Ha Hb. unfold gen_storeq_reg. uok_auto. Qed.
Lemma uok_addq_lo v a : 0 <= a < 16 -> uok (gen_addq_lo v a).
Proof. intros Ha. unfold gen_addq_lo. uok_auto. Qed.
Lemma uok_addq v a b : 0 <= a < 16 -> 0 <= b < 16 -> uok (gen_addq v a b).
Proof. intros Ha Hb. unfold gen_addq. uok_auto. Qed.

(** Exclusive accesses of the sizes 0 to 3. *)
Lemma size_cases (P : Z -> Prop) n : 0 <= n < 4 -> P 0 -> P 1 -> P 2 -> P 3 -> P n.
Proof. intros Hn H0 H1 H2 H3. assert (n = 0 \/ n = 1 \/ n = 2 \/ n = 3) as [->|[->|[->| ->]]] by lia; assumption. Qed.
Lemma uok_ld_size a n : 0 <= n < 4 -> uok (ld_size a n).
Proof. intros Hn. unfold ld_size. apply uok_user. cbn beta. pattern n. apply size_cases; [exact Hn|cbn; auto with uok..]. Qed.
Lemma uok_st_size v a n : 0 <= n < 4 -> uok (st_size v a n).
Proof. intros Hn. unfold st_size. apply uok_user. cbn beta. pattern n. apply size_cases; [exact Hn|cbn; auto with uok..]. Qed.
#[local] Hint Resolve uok_ld_size uok_st_size : uok.
Lemma uok_load_ex a b ad n : 0 <= a < 16 -> 0 <= b < 16 -> 0 <= n < 4 -> uok (gen_load_exclusive a b ad n).
Proof. intros Ha Hb Hn. unfold gen_load_exclusive. uok_auto. Qed.
Lemma uok_clrex : uok gen_clrex.
Proof. unfold gen_clrex. uok_auto. Qed.
Lemma uok_held ad n : 0 <= n < 4 -> uok (exclusive_held ad n).
Proof. intros Hn. unfold exclusive_held. uok_auto. Qed.
#[local] Hint Resolve uok_held : uok.
Lemma uok_store_ex rd a b ad n : 0 <= rd < 16 -> 0 <= a < 16 -> 0 <= b < 16 -> 0 <= n < 4 -> uok (gen_store_exclusive rd a b ad n).
Proof. intros Hd Ha Hb Hn. unfold gen_store_exclusive. uok_auto. Qed.
Lemma uok_test_cc c : 0 <= c < 14 -> uok (gen_test_cc c).
Proof.
  intros Hc. unfold gen_test_cc. apply uok_tbind; [|intros []; apply uok_flow]. unfold branch_cc.
  intros r Hr.
  assert (E : exists b, test_cc c (core r) = Some b).
  { rewrite <- (Z2Nat.id c) by lia. assert (Z.to_nat c < 14)%nat as Hn by lia. revert Hn. generalize (Z.to_nat c). intros n Hn.
    do 14 (destruct n as [|n]; [eexists; reflexivity|]). lia. }
  destruct E as [b E]. exists (Go b), r. split; [|split; [exact Hr|reflexivity]].
  unfold tbind, get_core, lift, bind, gets, ret. rewrite E. reflexivity.
Qed.
End UserGen.

#[export] Hint Resolve uok_load_reg uok_store_reg uok_set_pc uok_bx_im uok_bx uok_store_bx uok_store_load uok_lookup_tb uok_jmp
  uok_exception_insn uok_nop uok_CF31 uok_logic uok_logicq uok_adc uok_add_carry uok_sub_carry uok_add_CC uok_adc_CC uok_sub_CC
  uok_sbc_CC uok_shift_im uok_shift_reg uok_pas uok_ld8s uok_ld8u uok_ld16s uok_ld16u uok_ld32 uok_st8 uok_st16 uok_st32
  uok_data_offset uok_datah_offset uok_set_psr uok_storeq uok_addq_lo uok_addq uok_load_ex uok_clrex uok_store_ex uok_test_cc : uok.
