(* ===== verification/TransBeside.v ===== *)
(** * Composing guests

    [beside] puts further state next to the bus of a guest, [override] gives
    it decoders for some of its instruction spaces.  Both keep the laws the
    theorems on user-mode code are proved from, so a machine is built up one
    coprocessor at a time. *)
From stdpp Require Import base list.
From S2P Require Import Prelude Double ArmTable State CpuState Errors OpHelper CpuMode Sys V7m Dsp Tcg TransGen TransArm TransThumb2 TransThumb.
From S2P Require Import TransUser.
Open Scope Z_scope.

Section Beside.
Context (S : Type) (G0 : Guest).

Definition beside : Guest := {|
  bus := S * @bus G0;
  bus_ld := fun op a i s => let '(o, (c, b)) := @bus_ld G0 op a i (s.1, s.2.2) in (o, (c, (s.2.1, b)));
  bus_st := fun op a v i s => let '(o, (c, b)) := @bus_st G0 op a v i (s.1, s.2.2) in (o, (c, (s.2.1, b)));
  code_ld := fun op a s => let '(o, (c, b)) := @code_ld G0 op a (s.1, s.2.2) in (o, (c, (s.2.1, b)));
  other_insn := fun sp d insn s =>
    match @other_insn G0 sp d insn (s.1, s.2.2) with
    | Done (x, (c, b)) => Done (x, (c, (s.2.1, b)))
    | AssertFailed => AssertFailed | Undefined => Undefined | Exited z => Exited z
    end;
  cpar := fun b => @cpar G0 b.2 |}.

#[export] Instance beside_laws {GL : @GuestLaws G0} : @GuestLaws beside.
Proof.
  split; cbn [bus_ld bus_st code_ld other_insn beside fst snd].
  - intros op a i c b o c' b'. destruct (@bus_ld G0 op a i (c, b.2)) as [o1 [c1 b1]] eqn:E. intros [= <- <- <-]. exact (ld_effect _ _ _ _ _ _ _ _ E).
  - intros op a v i c b o c' b'. destruct (@bus_st G0 op a v i (c, b.2)) as [o1 [c1 b1]] eqn:E. intros [= <- <- <-]. exact (st_effect _ _ _ _ _ _ _ _ _ E).
  - intros op a c b o c' b'. destruct (@code_ld G0 op a (c, b.2)) as [o1 [c1 b1]] eqn:E. intros [= <- <- <-]. exact (code_effect _ _ _ _ _ _ _ E).
  - intros op a [c b] v s'. cbn [fst snd]. destruct (@code_ld G0 op a (c, b.2)) as [o1 [c1 b1]] eqn:E. intros [= -> _]. exact (code_range _ _ _ _ _ E).
  - intros sp d insn c b Hu Hm Hc. destruct (other_user sp d insn c b.2 Hu Hm Hc) as (res & c' & b' & E & W & K).
    rewrite E. exists res, c', (b.1, b'). split; [reflexivity|]. split; assumption.
Qed.
(** Memory accesses leave the new state alone. *)
Lemma beside_ld op a i c b o c' b' : @bus_ld beside op a i (c, b) = (o, (c', b')) -> b'.1 = b.1.
Proof. cbn. destruct (@bus_ld G0 op a i (c, b.2)) as [o1 [c1 b1]]. intros [= _ _ <-]. reflexivity. Qed.
Lemma beside_st op a v i c b o c' b' : @bus_st beside op a v i (c, b) = (o, (c', b')) -> b'.1 = b.1.
Proof. cbn. destruct (@bus_st G0 op a v i (c, b.2)) as [o1 [c1 b1]]. intros [= _ _ <-]. reflexivity. Qed.
End Beside.

Section Override.
Context (G : Guest).

(** A decoder as the code of a space. *)
Definition run_decoder (m : @T G unit) (d : dctx) : M (cpu_st * @bus G) space_result := fun s =>
  match m {| core := s.1; excl_addr := 0; excl_val := 0; excl_high := 0; rbus := s.2; dc := d |} with
  | Done (f, r) =>
      Done (match f with Go _ | Skip | ExitTb => SpRan (is_jmp (dc r)) | Illegal => SpIllegal | Raised => SpRaised end, (core r, rbus r))
  | AssertFailed => AssertFailed | Undefined => Undefined | Exited z => Exited z
  end.
Definition override (dec : space -> option (Z -> @T G unit)) : Guest := {|
  bus := @bus G; bus_ld := @bus_ld G; bus_st := @bus_st G; code_ld := @code_ld G;
  other_insn := fun sp d insn => match dec sp with Some m => run_decoder (m insn) d | None => @other_insn G sp d insn end;
  cpar := @cpar G |}.

Lemma run_decoder_ok (m : @T G unit) d c b : uok m -> user d = true -> arm_feature c ARM_FEATURE_M = false -> core_wf c ->
  exists res c' b', run_decoder m d (c, b) = Done (res, (c', b')) /\ core_wf c' /\ ukeep c c'.
Proof.
  intros Hm Hu Hf Hc. unfold run_decoder. cbn [fst snd].
  match goal with |- context [m ?s] => destruct (Hm s) as (f & r & E & I & K) end; [split; [exact Hu|split; assumption]|].
  rewrite E. eexists _, _, _. split; [reflexivity|]. split; [apply I|exact K].
Qed.
Lemma override_laws (GL : @GuestLaws G) dec : (forall sp m insn, dec sp = Some m -> uok (m insn)) -> @GuestLaws (override dec).
Proof.
  intros Hd. split; cbn [bus_ld bus_st code_ld other_insn override].
  - exact (@ld_effect _ GL).
  - exact (@st_effect _ GL).
  - exact (@code_effect _ GL).
  - exact (@code_range _ GL).
  - intros sp d insn c b Hu Hm Hc. destruct (dec sp) as [m|] eqn:E; [|exact (@other_user _ GL sp d insn c b Hu Hm Hc)].
    apply run_decoder_ok; [exact (Hd _ _ insn E)|assumption..].
Qed.
End Override.
#[global] Arguments run_decoder {G} _ _ _.
