(* ===== verification/TransConfined.v ===== *)
(** * User mode: the decoders

    [TransUser] has the property of the building blocks; this file walks the
    ARM and Thumb decoders with it.  The instruction words on which the ARM
    decoder itself fails are [arm_hazard]. *)
From stdpp Require Import base list.
From S2P Require Import Prelude Double ArmTable State CpuState Errors OpHelper CpuMode Sys V7m Dsp Tcg TransGen TransArm TransThumb2 TransThumb.
From S2P Require Import TransUser.
Open Scope Z_scope.

(** ** Instruction words outside the decoder's contract *)

(** Register 16 of a pair, and a bit field that ends before it starts. *)
Definition dual_hazard (insn : Z) : bool := negb (bit insn 20) && bit (fld insn 5 3) 1 && (fld insn 12 0xf =? 15).
Definition exclusive_hazard (insn : Z) : bool :=
  (fld insn 21 3 =? 1) && (if bit insn 20 then fld insn 12 0xf =? 15 else Z.land insn 0xf =? 15).
Definition bfi_hazard (insn : Z) : bool :=
  bool_decide (Z.lor (fld insn 17 0x38) (fld insn 5 7) ∈ bfi_ops) && (fld insn 16 0x1f <? fld insn 7 0x1f).

(** The words that reach [arm_other]. *)
Definition arm_is_other (insn : Z) : bool :=
  negb (eqm insn 0x0f900000 0x03000000)
  && negb (eqm insn 0x0f900000 0x01000000 && negb (eqm insn 0x00000090 0x00000090))
  && negb ((eqm insn 0x0e000000 0 && negb (eqm insn 0x00000090 0x90)) || eqm insn 0x0e000000 (Z.shiftl 1 25)).

Definition other_hazard (insn : Z) : bool :=
  match fld insn 24 0xf with
  | 0x0 => negb (fld insn 5 3 =? 0) && dual_hazard insn
  | 0x1 => if fld insn 5 3 =? 0 then bit insn 23 && exclusive_hazard insn else dual_hazard insn
  | 0x6 | 0x7 => bit insn 4 && (fld insn 23 3 =? 3) && bfi_hazard insn
  | _ => false
  end.
(** MCRR2 and MRRC2 end the emulator. *)
Definition mrrc2 (insn : Z) : bool := eqm insn 0x0fe00000 0x0c400000 && negb (eqm insn 0x0e000f00 0x0c000100).
Definition arm_hazard (insn : Z) : bool :=
  if Z.shiftr insn 28 =? 0xf then mrrc2 insn else arm_is_other insn && other_hazard insn.

Section UserArm.
Context {GU : Guest} {GL : GuestLaws} {HO : HostOps}.

(** [unfold]s a decoder and walks it. *)
Lemma uok_or_illegal m : uok m -> uok (or_illegal m).
Proof. intros Hm. unfold or_illegal. uok_auto. Qed.
#[local] Hint Resolve uok_or_illegal : uok.

(** ** Unconditional instructions *)

Lemma uok_blx_imm insn : uok (arm_blx_imm insn).
Proof. unfold arm_blx_imm. uok_auto. Qed.
Lemma uok_uncond insn : mrrc2 insn = false -> uok (arm_uncond insn).
Proof.
  intros Hz. unfold arm_uncond, arm_rfe, arm_cps, mrrc2 in *.
  destruct (eqm insn 0x0ffffdff 0x01010000); [uok_auto|].
  destruct (eqm insn 0x0fffff00 0x057ff000); [uok_auto|].
  destruct (eqm insn 0x0e5fffe0 0x084d0500); [uok_auto|].
  destruct (eqm insn 0x0e50ffe0 0x08100a00); [uok_auto|].
  destruct (eqm insn 0x0e000000 0x0a000000); [apply uok_blx_imm|].
  destruct (eqm insn 0x0e000f00 0x0c000100); [uok_auto|].
  destruct (eqm insn 0x0fe00000 0x0c400000); [discriminate Hz|].
  uok_auto.
Qed.
Lemma uok_uncond_hint insn rest : uok rest -> uok (arm_uncond_hint insn rest).
Proof. intros Hr. unfold arm_uncond_hint, requiref. uok_auto. Qed.

(** ** Status registers and miscellaneous instructions *)

Ltac msr_auto := repeat first [uok_step | match goal with |- uok (tbind (msr_mask _ _) _) => apply uok_msr; intros ? ? end].

Lemma uok_movw_msr insn : uok (arm_movw_msr insn).
Proof.
  unfold arm_movw_msr, gen_set_psr_im. destruct (negb (bit insn 21)); [uok_auto|].
  apply uok_tbind; [uok_auto|intros _]. destruct (fld insn 16 0xf =? 0); [uok_auto|]. cbn zeta.
  apply uok_msr. intros mask Hm. auto with uok.
Qed.
Lemma uok_psr insn op1 rm : 0 <= rm < 16 -> uok (arm_psr insn op1 rm).
Proof.
  intros Hr. unfold arm_psr, helper_cpsr_read. destruct (bit op1 0); [|uok_auto].
  apply uok_tbind; [auto with uok|intros t]. apply uok_msr. intros mask Hm. auto with uok.
Qed.
Lemma uok_signed_mul insn op1 sh rm : 0 <= rm < 16 -> uok (arm_signed_mul insn op1 sh rm).
Proof. intros Hr. unfold arm_signed_mul. uok_auto. Qed.
#[local] Hint Resolve uok_psr uok_signed_mul : uok.
Lemma uok_misc insn : uok (arm_misc insn).
Proof. unfold arm_misc, gen_smc. uok_auto. Qed.

(** ** Data processing and multiplications *)

Lemma uok_operand2 insn l : uok (arm_operand2 insn l).
Proof. unfold arm_operand2. uok_auto. Qed.
Lemma uok_dp_op op rd a b s l : 0 <= rd < 16 -> uok (arm_dp_op op rd a b s l).
Proof. intros Hr. unfold arm_dp_op. uok_auto. Qed.
Lemma logic_cc_some i : 0 <= i < 16 -> exists v, znth table_logic_cc i = Some v.
Proof. intros Hi. apply znth_lt. cbn. lia. Qed.
Lemma uok_data_proc insn : uok (arm_data_proc insn).
Proof.
  unfold arm_data_proc. destruct (logic_cc_some (fld insn 21 0xf) (fld4 _ _)) as [v ->].
  apply uok_tbind; [apply (uok_tret v)|intros t]. apply uok_tbind; [apply uok_operand2|intros b].
  apply uok_tbind; [uok_auto|intros a]. apply uok_dp_op. auto with uok.
Qed.
Lemma uok_mul insn : uok (arm_mul insn).
Proof. unfold arm_mul. uok_auto. Qed.

(** ** Loads and stores *)

Lemma uok_exclusive insn : exclusive_hazard insn = false -> uok (arm_exclusive insn (fld insn 16 0xf) (fld insn 12 0xf)).
Proof.
  intros Hz. unfold arm_exclusive, exclusive_hazard in *. cbn zeta.
  pose proof (fld4 insn 12). pose proof (low4 insn).
  apply uok_tbind; [destruct (negb _); auto with uok|intros _]. apply uok_tbind; [auto with uok|intros addr].
  assert (fld insn 21 3 = 0 \/ fld insn 21 3 = 1 \/ fld insn 21 3 = 2 \/ fld insn 21 3 = 3) as Hop.
  { pose proof (fld_range insn 21 2). change (Z.ones 2) with 3 in *. lia. }
  destruct Hop as [Hop|[Hop|[Hop|Hop]]]; rewrite Hop in *; cbn [Z.eqb andb] in Hz; destruct (bit insn 20);
    try apply Z.eqb_neq in Hz; (apply uok_load_ex || apply uok_store_ex); lia.
Qed.
Lemma uok_swp insn rn rd : 0 <= rn < 16 -> 0 <= rd < 16 -> uok (arm_swp insn rn rd).
Proof. intros Hn Hd. unfold arm_swp. uok_auto. Qed.

(** The register a transfer loads is one of the sixteen. *)
Definition loads_reg (x : option (Z * Z) * Z * Z) : Prop := match x.1.1 with Some (rd, _) => 0 <= rd < 16 | None => True end.
Lemma uok_misc_transfer insn addr : dual_hazard insn = false ->
  uokp (misc_transfer insn (fld insn 5 3) (fld insn 12 0xf) addr) loads_reg.
Proof.
  intros Hz. pose proof (fld4 insn 12) as Hd. unfold misc_transfer, dual_hazard in *.
  apply uokp_tbind; [apply uok_get_dc|intros u].
  destruct (bit insn 20). { apply uokp_tbind; [uok_auto|]. intros. apply uokp_tret. exact Hd. }
  destruct (bit (fld insn 5 3) 1); cbn [negb andb] in Hz.
  - apply Z.eqb_neq in Hz. apply uokp_tbind; [auto with uok|intros _].
    destruct (bit (fld insn 5 3) 0).
    + repeat (apply uokp_tbind; [first [auto with uok | apply uok_load_reg; lia]|intros ?]). apply uokp_tret. exact I.
    + repeat (apply uokp_tbind; [auto with uok|intros ?]). apply uokp_tret. cbn. lia.
  - repeat (apply uokp_tbind; [auto with uok|intros ?]). apply uokp_tret. exact I.
Qed.
Lemma uok_misc_ldst insn : dual_hazard insn = false -> uok (arm_misc_ldst insn (fld insn 5 3)).
Proof.
  intros Hz. unfold arm_misc_ldst. apply uok_tbind; [auto with uok|intros addr]. apply uok_tbind; [uok_auto|intros addr'].
  eapply uok_post; [apply uok_misc_transfer, Hz|]. intros [[load a] off] Hl. cbn in Hl.
  apply uok_tbind; [uok_auto|intros _]. destruct load as [[rd v]|]; auto with uok.
Qed.
Lemma uok_arm_ldst insn op1 : uok (arm_ldst insn op1).
Proof. unfold arm_ldst. uok_auto. Qed.

(** Every register of a list is one of the sixteen. *)
Lemma reg_list_range insn i : i ∈ reg_list insn -> 0 <= i < 16.
Proof. unfold reg_list. rewrite list_elem_of_filter, elem_of_seqZ. lia. Qed.
Lemma uok_ldm_body insn rn n acc i : 0 <= i < 16 -> uok (ldm_body insn rn n false acc i).
Proof. intros Hi. destruct acc as [[a j] l]. unfold ldm_body. uok_auto. Qed.
Lemma uok_ldm_stm insn : uok (arm_ldm_stm insn).
Proof.
  unfold arm_ldm_stm. apply uok_user. cbn beta. rewrite Bool.andb_true_r. destruct (bit insn 22); cbn [negb andb]; [uok_auto|].
  apply uok_tbind; [uok_auto|intros _]. apply uok_tbind; [auto with uok|intros addr]. cbn zeta.
  apply uok_tbind; [apply uok_tfold; intros b i Hi; apply uok_ldm_body, (reg_list_range insn i Hi)|].
  intros [[a j] l]. uok_auto.
Qed.

(** ** Media instructions *)
Lemma uok_parallel insn rn rm rd : 0 <= rn < 16 -> 0 <= rm < 16 -> 0 <= rd < 16 -> uok (media_parallel insn rn rm rd).
Proof. intros. unfold media_parallel, gen_arm_parallel_addsub. uok_auto. Qed.
Lemma uok_pack insn rn rm rd rest : 0 <= rn < 16 -> 0 <= rm < 16 -> 0 <= rd < 16 -> uok rest -> uok (media_pack insn rn rm rd rest).
Proof. intros. unfold media_pack. cbn zeta. uok_auto. Qed.
Lemma uok_extend insn rn rm rd : 0 <= rn < 16 -> 0 <= rm < 16 -> 0 <= rd < 16 -> uok (media_extend insn rn rm rd).
Proof.
  intros. unfold media_extend. destruct (eqm insn 0x000003e0 0x00000060).
  - apply uok_tbind; [auto with uok|intros t]. cbn zeta. destruct (extend _ _); uok_auto.
  - uok_auto.
Qed.
Lemma uok_media_mul insn rn rm rs rd : 0 <= rn < 16 -> 0 <= rm < 16 -> 0 <= rs < 16 -> 0 <= rd < 16 -> uok (media_mul insn rn rm rs rd).
Proof. intros. unfold media_mul, requiref. cbn zeta. uok_auto. Qed.

(** A bit-field insertion whose end is not below its start. *)
Lemma uok_deposit a b ofs len : 0 <= ofs -> 0 < len -> ofs + len <= 32 -> uok (lift (defined (deposit_i32 a b ofs len))).
Proof.
  intros H1 H2 H3. unfold deposit_i32. destruct (Z.leb_spec 0 ofs), (Z.ltb_spec 0 len), (Z.leb_spec (ofs + len) 32); try lia.
  apply uok_tret.
Qed.
Lemma fld5 w sh : 0 <= fld w sh 0x1f < 32.
Proof. apply (fld_range w sh 5). lia. Qed.
Lemma uok_media_bitfield insn rn rm rs rd : 0 <= rn < 16 -> 0 <= rm < 16 -> 0 <= rs < 16 -> 0 <= rd < 16 ->
  bfi_hazard insn = false -> uok (media_bitfield insn rn rm rs rd).
Proof.
  intros Hn Hm Hs Hd Hz. unfold media_bitfield, bfi_hazard in *. cbn zeta.
  pose proof (fld5 insn 16). pose proof (fld5 insn 7).
  destruct (_ =? 0); [uok_auto|]. destruct (bool_decide (_ ∈ bfi_ops)); cbn [andb] in Hz.
  - apply Z.ltb_ge in Hz. apply uok_tbind; [auto with uok|intros _]. apply uok_tbind; [uok_auto|intros t].
    apply uok_tbind; [|auto with uok]. destruct (negb _); [|auto with uok].
    apply uok_tbind; [auto with uok|intros t2]. apply uok_deposit; lia.
  - clear Hz. uok_auto.
Qed.
#[local] Hint Resolve uok_parallel uok_pack uok_extend uok_media_mul uok_media_bitfield uok_mul uok_swp uok_arm_ldst uok_ldm_stm
  uok_exclusive uok_misc_ldst uok_movw_msr uok_misc uok_data_proc : uok.

(** ** The ARM decoder *)

Lemma uok_media insn : (fld insn 23 3 =? 3) = false \/ bfi_hazard insn = false -> uok (arm_media insn).
Proof.
  intros Hz. unfold arm_media. apply uok_tbind; [auto with uok|intros _]. cbn zeta.
  assert (Hr : 0 <= fld insn 23 3 < 4) by (pose proof (fld_range insn 23 2); change (Z.ones 2) with 3 in *; lia).
  assert (fld insn 23 3 = 0 \/ fld insn 23 3 = 1 \/ fld insn 23 3 = 2 \/ fld insn 23 3 = 3) as [E|[E|[E|E]]] by lia;
    rewrite E in *; [auto with uok..|].
  destruct Hz as [Hz|Hz]; [discriminate Hz|auto with uok].
Qed.
Lemma uok_branch insn : uok (arm_branch insn).
Proof. unfold arm_branch. uok_auto. Qed.
Lemma uok_other insn : other_hazard insn = false -> uok (arm_other insn).
Proof.
  unfold arm_other, other_hazard. cbn zeta. nibble (fld insn 24 0xf); [| | | | | | | | | | | | | | | |apply fld4]; intros Hz.
  - destruct (fld insn 5 3 =? 0); cbn in Hz |- *; auto with uok.
  - destruct (fld insn 5 3 =? 0); cbn in Hz |- *; [|auto with uok]. destruct (bit insn 23); cbn in Hz; auto with uok.
  - auto with uok.
  - auto with uok.
  - auto with uok.
  - auto with uok.
  - destruct (bit insn 4); [|auto with uok]. cbn in Hz. apply uok_media, Bool.andb_false_iff, Hz.
  - destruct (bit insn 4); [|auto with uok]. cbn in Hz. apply uok_media, Bool.andb_false_iff, Hz.
  - auto with uok.
  - auto with uok.
  - apply uok_branch.
  - apply uok_branch.
  - auto with uok.
  - auto with uok.
  - auto with uok.
  - uok_auto.
Qed.

Lemma uok_conditional insn : arm_is_other insn && other_hazard insn = false -> uok (arm_conditional insn).
Proof.
  unfold arm_is_other, arm_conditional. intros Hz.
  destruct (eqm insn 0x0f900000 0x03000000); [auto with uok|]. cbn [negb andb] in Hz.
  destruct (eqm insn 0x0f900000 0x01000000 && _); [auto with uok|]. cbn [negb andb] in Hz.
  destruct ((eqm insn 0x0e000000 0 && _) || _); [auto with uok|]. cbn [negb andb] in Hz.
  apply uok_other, Hz.
Qed.

Lemma cond_xor c : 0 <= c < 14 -> 0 <= Z.lxor c 1 < 14.
Proof. intros Hc. assert (Hx : 0 <= c < 16) by lia. revert Hc. nibble c; [intros Hc; first [exfalso; lia | split; [vm_compute; congruence|reflexivity]]..|exact Hx]. Qed.
Lemma uok_arm_body insn : is_u32 insn -> arm_hazard insn = false -> uok (arm_body insn).
Proof.
  intros Hi Hz. unfold arm_body, arm_hazard in *. apply uok_m. cbn [negb]. apply uok_tbind; [uok_auto|intros _]. cbn zeta.
  assert (Hc : 0 <= Z.shiftr insn 28 < 16).
  { rewrite Z.shiftr_div_pow2 by lia. unfold is_u32 in Hi. split; [apply Z.div_pos; lia|apply Z.div_lt_upper_bound; lia]. }
  destruct (Z.eqb_spec (Z.shiftr insn 28) 0xf).
  - apply uok_tbind; [auto with uok|intros _]. apply uok_uncond_hint, uok_uncond, Hz.
  - apply uok_tbind; [|intros _; apply uok_conditional, Hz]. unfold when.
    destruct (Z.eqb_spec (Z.shiftr insn 28) 0xe); cbn [negb]; [uok_auto|]. apply uok_test_cc, cond_xor. lia.
Qed.

Lemma uok_arm insn : is_u32 insn -> arm_hazard insn = false -> uok (disas_arm_insn insn).
Proof. intros Hi Hz. unfold disas_arm_insn. apply uok_catch; [apply uok_arm_body; assumption|auto with uok]. Qed.
End UserArm.

Section UserThumb2.
Context {GU : Guest} {GL : GuestLaws} {HO : HostOps}.
#[local] Hint Resolve uok_or_illegal : uok.

Lemma uok_data_op op c s a b : uok (gen_thumb2_data_op op c s a b).
Proof. unfold gen_thumb2_data_op. cbn zeta. uok_auto. Qed.
#[local] Hint Resolve uok_data_op : uok.

Lemma uok_dual insn rn rs rd : 0 <= rn < 16 -> 0 <= rs < 16 -> 0 <= rd < 16 -> uok (t2_dual insn rn rs rd).
Proof. intros. unfold t2_dual. cbn zeta. uok_auto. Qed.
Lemma uok_table_branch insn rn rm : 0 <= rn < 16 -> 0 <= rm < 16 -> uok (t2_table_branch insn rn rm).
Proof. intros. unfold t2_table_branch. cbn zeta. uok_auto. Qed.
#[local] Hint Resolve uok_dual uok_table_branch : uok.
Lemma fld2 w sh : 0 <= fld w sh 3 < 4.
Proof. apply (fld_range w sh 2). lia. Qed.
Lemma two_range : 0 <= 2 < 4.
Proof. lia. Qed.
#[local] Hint Resolve fld2 two_range : uok.
Lemma uok_other_ldst insn rn rs rd rm : 0 <= rn < 16 -> 0 <= rs < 16 -> 0 <= rd < 16 -> 0 <= rm < 16 ->
  uok (t2_other_ldst insn rn rs rd rm).
Proof. intros. unfold t2_other_ldst. cbn zeta. uok_auto. Qed.
Lemma uok_rfe_srs insn rn : uok (t2_rfe_srs insn rn).
Proof. unfold t2_rfe_srs. uok_auto. Qed.
Lemma uok_t2_ldm_body insn rn acc i : 0 <= i < 16 -> uok (t2_ldm_body insn rn acc i).
Proof. intros Hi. destruct acc as [a l]. unfold t2_ldm_body. uok_auto. Qed.
Lemma uok_t2_ldm insn rn : 0 <= rn < 16 -> uok (t2_ldm_stm insn rn).
Proof.
  intros Hr. unfold t2_ldm_stm. apply uok_tbind; [auto with uok|intros addr]. cbn zeta.
  apply uok_tbind; [apply uok_tfold; intros b i Hi; apply uok_t2_ldm_body, (reg_list_range insn i Hi)|].
  intros [a l]. uok_auto.
Qed.
Lemma uok_shifted insn rn rm rd : 0 <= rn < 16 -> 0 <= rm < 16 -> 0 <= rd < 16 -> uok (t2_shifted insn rn rm rd).
Proof. intros. unfold t2_shifted, t2_pack. cbn zeta. uok_auto. Qed.
Lemma uok_t2_extend insn rn rm rd : 0 <= rn < 16 -> 0 <= rm < 16 -> 0 <= rd < 16 -> uok (t2_extend insn rn rm rd).
Proof.
  intros. unfold t2_extend. apply uok_tbind; [auto with uok|intros t]. cbn zeta. destruct (t2_extend_op _ _); uok_auto.
Qed.
Lemma uok_other_dp insn rn rm rd : 0 <= rn < 16 -> 0 <= rm < 16 -> 0 <= rd < 16 -> uok (t2_other_dp insn rn rm rd).
Proof. intros. unfold t2_other_dp. cbn zeta. uok_auto. Qed.
Lemma uok_mul32 insn rn rm rs rd : 0 <= rn < 16 -> 0 <= rm < 16 -> 0 <= rs < 16 -> 0 <= rd < 16 -> uok (t2_mul32 insn rn rm rs rd).
Proof. intros. unfold t2_mul32. cbn zeta. uok_auto. Qed.
Lemma uok_mul64 insn rn rm rs rd : 0 <= rn < 16 -> 0 <= rm < 16 -> 0 <= rs < 16 -> 0 <= rd < 16 -> uok (t2_mul64 insn rn rm rs rd).
Proof. intros. unfold t2_mul64, requiref. cbn zeta. uok_auto. Qed.
#[local] Hint Resolve uok_t2_extend uok_other_dp uok_mul32 uok_mul64 : uok.
Lemma uok_misc_dp insn rn rm rs rd : 0 <= rn < 16 -> 0 <= rm < 16 -> 0 <= rs < 16 -> 0 <= rd < 16 -> uok (t2_misc_dp insn rn rm rs rd).
Proof. intros. unfold t2_misc_dp, gen_thumb2_parallel_addsub. cbn zeta. uok_auto. Qed.
Lemma uok_coproc insn : uok (t2_coproc insn).
Proof. unfold t2_coproc. cbn zeta. uok_auto. Qed.
Lemma uok_t2_branch insn : uok (t2_branch insn).
Proof. unfold t2_branch. cbn zeta. uok_auto. Qed.

(** The condition of the branch is not 14 or 15: those are the control
    instructions. *)
Lemma t2_cond_range insn : (fld insn 23 7 =? 7) = false -> 0 <= fld insn 22 0xf < 14.
Proof.
  intros H. apply Z.eqb_neq in H.
  assert (E : fld insn 23 7 = fld insn 22 0xf / 2).
  { unfold fld. change 7 with (Z.ones 3). change 0xf with (Z.ones 4). rewrite !Z.land_ones, !Z.shiftr_div_pow2 by lia.
    replace (2 ^ 23) with (2 ^ 22 * 2) by lia. rewrite <- Z.div_div by lia.
    set (q := insn / 2 ^ 22).
    change (2 ^ 3) with 8. change (2 ^ 4) with 16. Z.to_euclidean_division_equations. lia. }
  pose proof (fld4 insn 22) as Hr. split; [lia|]. destruct (Z.lt_ge_cases (fld insn 22 0xf) 14); [assumption|].
  exfalso. apply H. rewrite E. assert (fld insn 22 15 = 14 \/ fld insn 22 15 = 15) as [->| ->] by lia; reflexivity.
Qed.
Lemma uok_cond_branch insn : (fld insn 23 7 =? 7) = false -> uok (t2_cond_branch insn).
Proof.
  intros H. unfold t2_cond_branch. apply uok_tbind; [apply uok_test_cc, cond_xor, t2_cond_range, H|intros _]. uok_auto.
Qed.
Lemma uok_t2_msr insn rn op : 0 <= rn < 16 -> uok (t2_msr insn rn op).
Proof.
  intros Hn. unfold t2_msr. apply uok_m. cbn [andb negb]. apply uok_tbind; [uok_auto|intros _].
  apply uok_tbind; [auto with uok|intros t]. apply uok_msr. intros mask Hm. auto with uok.
Qed.
#[local] Hint Resolve uok_t2_msr : uok.
Lemma uok_control insn rn rd : 0 <= rn < 16 -> 0 <= rd < 16 -> uok (t2_control insn rn rd).
Proof.
  intros. unfold t2_control, t2_cps, helper_cpsr_read.
  apply uok_tbind; [uok_auto|intros _]. apply uok_user. apply uok_m. cbn [negb andb orb]. destruct (bit insn 26).
  { apply uok_tbind; [auto with uok|intros []]; uok_auto. }
  uok_auto.
Qed.
Lemma uok_saturate op sh im t : uok (t2_saturate op sh im t).
Proof. unfold t2_saturate. cbn zeta. uok_auto. Qed.
#[local] Hint Resolve uok_saturate : uok.
Lemma t2_shift_range insn : 0 <= t2_shift insn < 32.
Proof.
  unfold t2_shift. apply (lor_below _ _ 5); [lia|pose proof (fld2 insn 6); lia|].
  unfold fld. rewrite Z.land_comm. apply (land_below 0x1c _ 5); lia.
Qed.
Lemma uok_t2_bitfield insn rn rd : 0 <= rn < 16 -> 0 <= rd < 16 -> uok (t2_bitfield insn rn rd).
Proof.
  intros Hn Hd. unfold t2_bitfield. apply uok_tbind; [uok_auto|intros _]. cbn zeta. apply uok_tbind; [uok_auto|intros t].
  apply uok_tbind; [|auto with uok]. pose proof (t2_shift_range insn).
  assert (Hi : 0 <= Z.land insn 0x1f < 32) by apply (land_mask_range insn 5 ltac:(lia)).
  assert (Hbfi : uok (require (negb (Z.land insn 0x1f <? t2_shift insn)) ;*
    if negb (Z.land insn 0x1f + 1 - t2_shift insn =? 32) then
      let* tmp2 := load_reg rd in lift (defined (deposit_i32 tmp2 t (t2_shift insn) (Z.land insn 0x1f + 1 - t2_shift insn)))
    else tret t)).
  { destruct (Z.ltb_spec (Z.land insn 0x1f) (t2_shift insn)); cbn [negb]; [apply uok_refused|].
    apply uok_tbind; [uok_auto|intros _]. destruct (negb _); [|auto with uok].
    apply uok_tbind; [auto with uok|intros t2]. apply uok_deposit; lia. }
  uok_auto; exact Hbfi.
Qed.
Lemma uok_plain_imm insn rn rd : 0 <= rn < 16 -> 0 <= rd < 16 -> uok (t2_plain_imm insn rn rd).
Proof. intros. unfold t2_plain_imm. cbn zeta. uok_auto. Qed.
Lemma uok_modified insn rn rd : 0 <= rn < 16 -> 0 <= rd < 16 -> uok (t2_modified insn rn rd).
Proof. intros. unfold t2_modified. destruct (t2_modified_imm insn). uok_auto. Qed.
Lemma uok_branch_or_imm insn rn rd : 0 <= rn < 16 -> 0 <= rd < 16 -> uok (t2_branch_or_imm insn rn rd).
Proof.
  intros. unfold t2_branch_or_imm. destruct (bit insn 15).
  - destruct (negb _); [apply uok_t2_branch|]. destruct (fld insn 23 7 =? 7) eqn:E; [auto using uok_control|apply uok_cond_branch, E].
  - destruct (bit insn 25); [destruct (bit insn 24)|]; auto using uok_t2_bitfield, uok_plain_imm, uok_modified.
Qed.
Lemma uok_address insn rn rm : 0 <= rn < 16 -> 0 <= rm < 16 -> uok (t2_address insn rn rm).
Proof. intros. unfold t2_address. cbn zeta. uok_auto. Qed.
#[local] Hint Resolve uok_address : uok.
Lemma uok_single insn rn rs rm : 0 <= rn < 16 -> 0 <= rs < 16 -> 0 <= rm < 16 -> uok (t2_single insn rn rs rm).
Proof. intros. unfold t2_single, t2_hint. cbn zeta. uok_auto. Qed.

(** The first halfword of a 32-bit instruction selects one of the cases from
    4 on. *)
Lemma uok_thumb2 insn : 4 <= fld insn 25 0xf -> uok (disas_thumb2_insn insn).
Proof.
  intros Hp. unfold disas_thumb2_insn. apply uok_tbind; [uok_auto|intros _]. cbn zeta.
  revert Hp. nibble (fld insn 25 0xf); [intros Hp..|apply fld4]; try (exfalso; lia);
    auto using uok_shifted, uok_misc_dp, uok_coproc, uok_branch_or_imm, uok_single, fld4, low4.
  destruct (bit insn 22); [|destruct (Bool.eqb _ _)]; auto using uok_other_ldst, uok_rfe_srs, uok_t2_ldm, fld4, low4.
Qed.
End UserThumb2.

Section UserThumb.
Context {GU : Guest} {GL : GuestLaws} {HO : HostOps}.

Lemma uok_outside : uok outside_it.
Proof. apply uok_get_dc. Qed.
#[local] Hint Resolve uok_outside : uok.
Lemma uok_shift_add insn : uok (thumb_shift_add insn).
Proof. unfold thumb_shift_add. cbn zeta. uok_auto. Qed.
Lemma uok_large_imm insn : uok (thumb_large_imm insn).
Proof. unfold thumb_large_imm. cbn zeta. uok_auto. Qed.
Lemma uok_extended insn : uok (thumb_extended insn).
Proof. unfold thumb_extended. cbn zeta. uok_auto. Qed.
Lemma uok_thumb_dp op a b c : uok (thumb_dp_op op a b c).
Proof. unfold thumb_dp_op. cbn zeta. uok_auto. Qed.
#[local] Hint Resolve uok_thumb_dp : uok.
Lemma uok_thumb_data_proc insn : uok (thumb_data_proc insn).
Proof.
  unfold thumb_data_proc. cbn zeta. apply uok_tbind; [auto with uok|intros cc].
  match goal with |- context [if ?b then (_, _) else _] => destruct b end; uok_auto.
Qed.
#[local] Hint Resolve uok_extended uok_thumb_data_proc : uok.
Lemma uok_case4 insn : uok (thumb_case4 insn).
Proof. unfold thumb_case4. cbn zeta. uok_auto. Qed.
Lemma uok_ldst_reg insn : uok (thumb_ldst_reg insn).
Proof. unfold thumb_ldst_reg. cbn zeta. uok_auto. Qed.
Lemma uok_ldst_imm insn : uok (thumb_ldst_imm insn).
Proof. unfold thumb_ldst_imm, thumb_ldst_at. cbn zeta. uok_auto. Qed.
Lemma uok_ldst_sp insn : uok (thumb_ldst_sp insn).
Proof. unfold thumb_ldst_sp, thumb_ldst_at. cbn zeta. uok_auto. Qed.
Lemma uok_add_high insn : uok (thumb_add_high insn).
Proof. unfold thumb_add_high. cbn zeta. uok_auto. Qed.
Lemma low_list_range insn i : i ∈ low_list insn -> 0 <= i < 8.
Proof. unfold low_list. rewrite list_elem_of_filter, elem_of_seqZ. lia. Qed.
Lemma uok_push_pop insn : uok (thumb_push_pop insn).
Proof.
  unfold thumb_push_pop. apply uok_tbind; [auto with uok|intros a]. cbn zeta.
  apply uok_tbind; [apply uok_tfold; intros b i Hi; apply low_list_range in Hi; unfold push_pop_body|].
  - assert (0 <= i < 16) by lia. uok_auto.
  - intros b. uok_auto.
Qed.
Lemma uok_misc16 insn : uok (thumb_misc insn).
Proof.
  unfold thumb_misc, thumb_czb, thumb_cps. nibble (fld insn 8 0xf); [..|apply fld4]; cbn zeta; try solve [uok_auto]; apply uok_push_pop.
Qed.
Lemma uok_ldm16 insn : uok (thumb_ldm_stm insn).
Proof.
  unfold thumb_ldm_stm. apply uok_tbind; [auto with uok|intros a].
  apply uok_tbind; [apply uok_tfold; intros [b l] i Hi; apply low_list_range in Hi; unfold thumb_ldm_body|].
  - assert (0 <= i < 16) by lia. uok_auto.
  - intros [b l]. uok_auto.
Qed.
Lemma uok_cond16 insn : uok (thumb_cond_branch insn).
Proof.
  unfold thumb_cond_branch. cbn zeta. destruct (Z.eqb_spec (fld insn 8 0xf) 0xe); [auto with uok|].
  destruct (Z.eqb_spec (fld insn 8 0xf) 0xf); [uok_auto|]. pose proof (fld4 insn 8).
  apply uok_tbind; [apply uok_test_cc, cond_xor; lia|intros _]. uok_auto.
Qed.
Lemma uok_branch16 insn : uok (thumb_branch insn).
Proof. unfold thumb_branch. cbn zeta. uok_auto. Qed.
#[local] Hint Resolve uok_shift_add uok_large_imm uok_case4 uok_ldst_reg uok_ldst_imm uok_ldst_sp uok_add_high uok_misc16 uok_ldm16
  uok_cond16 uok_branch16 : uok.
Lemma uok_thumb16 insn : uok (thumb16 insn).
Proof. unfold thumb16. destruct (Z.shiftr insn 12) as [|p|p]; [auto with uok| |auto with uok]. do 4 (destruct p as [p|p|]; auto with uok). Qed.
Lemma uok_half insn p half : thumb1_half insn p = Some half -> uok half.
Proof. unfold thumb1_half. repeat case_match; intros [= <-]; cbn zeta; uok_auto. Qed.

(** The test of an IT block with a condition other than 15. *)
Lemma uok_it_skips r : uinv r -> (condexec_mask (dc r) <> 0 -> 0 <= condexec_cond (dc r) < 15) -> exists b, it_skips r = Done (Go b, r).
Proof.
  intros Hr Hc. unfold it_skips. change (tbind (get_dc id) ?k r) with (k (dc r) r). cbn beta.
  destruct (Z.eqb_spec (condexec_mask (dc r)) 0) as [Hm|Hm]; cbn [negb andb]; [exists false; auto|].
  destruct (Z.eqb_spec (condexec_cond (dc r)) 0x0e) as [He|He]; cbn [negb]; [exists false; auto|]. specialize (Hc Hm).
  destruct (uok_test_cc (Z.lxor (condexec_cond (dc r)) 1)) with (r := r) as (f & r' & E & _); [apply cond_xor; lia|exact Hr|].
  revert E. unfold gen_test_cc, branch_cc, tbind, get_core, lift, bind, gets, ret, abort.
  destruct (test_cc _ (core r)) as [b|]; [|discriminate]. intros _. exists b. reflexivity.
Qed.

Lemma is_32bit_case insn hw2 : 0 <= insn < 2 ^ 16 -> 0 <= hw2 < 2 ^ 16 -> is_32bit insn = true ->
  4 <= fld (Z.lor hw2 (Z.shiftl insn 16)) 25 0xf.
Proof.
  intros Hi H2 H. unfold fld. change 0xf with (Z.ones 4). rewrite Z.lor_comm, lor_shift_add by lia.
  rewrite Z.land_ones, Z.shiftr_div_pow2 by lia. unfold is_32bit, bit in H.
  assert (E : (insn * 2 ^ 16 + hw2) / 2 ^ 25 = insn / 2 ^ 9).
  { replace (2 ^ 25) with (2 ^ 16 * 2 ^ 9) by reflexivity. rewrite <- Z.div_div by lia.
    rewrite Z.div_add_l, (Z.div_small hw2), Z.add_0_r by lia. reflexivity. }
  rewrite E. rewrite Z.shiftr_div_pow2 in H by lia. apply Bool.orb_true_iff in H as [H|H].
  - apply andb_prop in H as [Ha Hb]. apply Z.eqb_eq in Ha. apply Z.testbit_true in Hb; [|lia].
    Z.to_euclidean_division_equations. lia.
  - apply Z.eqb_eq in H. Z.to_euclidean_division_equations. lia.
Qed.

Lemma bswap16_range v : 0 <= bswap16 v < 2 ^ 16.
Proof.
  assert (H8 : forall x, 0 <= ext8u x < 256) by (intros x; apply (land_mask_range x 8); lia).
  unfold bswap16. apply (lor_below _ _ 16); [lia| |pose proof (H8 (Z.shiftr v 8)); lia].
  rewrite Z.shiftl_mul_pow2 by lia. pose proof (H8 v). lia.
Qed.
(** A fetched halfword. *)
Lemma uok_lduw a : uokp (arm_lduw_code a) (fun v => 0 <= v < 2 ^ 16).
Proof.
  intros r Hr. destruct (uok_code MO_16u bswap16 a r Hr) as (f & r' & E & I & K). exists f, r'. split; [exact E|].
  split; [exact I|]. split; [exact K|]. revert E. unfold code_at.
  destruct (code_ld MO_16u a (core r, rbus r)) as [[v|] [c b]] eqn:El; intros [= <- <-]; [|exact Logic.I].
  apply code_range in El. destruct (_ =? 0); [exact El|apply bswap16_range].
Qed.

(** The fetch of an instruction, and whether it is a branch on a condition of
    its own: B with a condition, CBZ or CBNZ, and the 32-bit B with a
    condition. *)
Definition fetch_branch : T bool :=
  let* p := get_dc pc in
  let* insn := arm_lduw_code p in
  advance_pc 2 ;*
  let* p := get_dc pc in
  if is_32bit insn then
    let* t2 := feature ARM_FEATURE_THUMB2 in
    if (t2 : bool) then let* hw2 := arm_lduw_code p in tret (relabels32 (Z.lor hw2 (Z.shiftl insn 16))) else tret false
  else tret (relabels16 insn).
Definition goes_true (m : T bool) (r : rt) : bool := match m r with Done (Go b, _) => b | _ => false end.
(** An IT block skips such a branch. *)
Definition skipped_branch (r : rt) : bool := goes_true it_skips r && goes_true fetch_branch r.

(** Code that is fine unless [lost] computes true, and then undefined. *)
Definition uok_unless (lost : T bool) (m : T unit) : Prop := forall r, uinv r ->
  if goes_true lost r then m r = Undefined else exists f r', m r = Done (f, r') /\ uinv r' /\ ukeep (core r) (core r').
Lemma unless_ok m : uok m -> uok_unless (tret false) m.
Proof. intros Hm r Hr. exact (Hm r Hr). Qed.
Lemma uok_skipped j m : uok (skip_over true false j m).
Proof. unfold skip_over. uok_auto. Qed.
Lemma unless_skip l j m : uok_unless (tret l) (skip_over true l j m).
Proof. destruct l; [intros r _; reflexivity|apply unless_ok, uok_skipped]. Qed.
(** The same step before both. *)
Lemma unless_bind {A} (m : T A) P (l : A -> T bool) (k : A -> T unit) :
  uokp m P -> (forall a, P a -> uok_unless (l a) (k a)) -> uok_unless (tbind m l) (tbind m k).
Proof.
  intros Hm Hk r Hr. destruct (Hm r Hr) as (f & r1 & E1 & I1 & K1 & HP). unfold goes_true, tbind. rewrite !(bind_run _ _ _ _ _ E1).
  destruct f as [a| | | |]; [|eexists _, r1; split; [reflexivity|split; assumption]..].
  specialize (Hk a HP r1 I1). unfold goes_true in Hk. destruct (match l a r1 with Done (Go b, _) => b | _ => false end); [exact Hk|].
  destruct Hk as (f & r2 & E2 & I2 & K2). exists f, r2. split; [exact E2|]. split; [exact I2|]. etransitivity; eassumption.
Qed.
Lemma uokp_true {A} (m : T A) : uok m -> uokp m (fun _ => True).
Proof. intros Hm r Hr. destruct (Hm r Hr) as (f & r' & E & I & K). exists f, r'. repeat split; try assumption; try apply I; try apply K. destruct f; exact Logic.I. Qed.
Lemma unless_step {A} (m : T A) (l : A -> T bool) (k : A -> T unit) : uok m -> (forall a, uok_unless (l a) (k a)) -> uok_unless (tbind m l) (tbind m k).
Proof. intros Hm Hk. eapply unless_bind; [apply uokp_true, Hm|auto]. Qed.
(** A step of the code alone, which always goes on. *)
Definition goes_on {A} (m : T A) : Prop := forall r, uinv r -> exists a r', m r = Done (Go a, r') /\ uinv r' /\ ukeep (core r) (core r').
Lemma unless_const {A} b (m : T A) (k : A -> T unit) : goes_on m -> (forall a, uok_unless (tret b) (k a)) -> uok_unless (tret b) (tbind m k).
Proof.
  intros Hm Hk r Hr. destruct (Hm r Hr) as (a & r1 & E1 & I1 & K1). specialize (Hk a r1 I1). unfold tbind. rewrite (bind_run _ _ _ _ _ E1).
  destruct b; [exact Hk|]. destruct Hk as (f & r2 & E2 & I2 & K2). exists f, r2. split; [exact E2|]. split; [exact I2|]. etransitivity; eassumption.
Qed.
Lemma goes_on_read {A} (m : T A) (g : rt -> A) : (forall r, m r = Done (Go (g r), r)) -> goes_on m.
Proof. intros E r Hr. exists (g r), r. split; [apply E|]. split; [exact Hr|reflexivity]. Qed.
Lemma unless_read {A} l (m : T A) (g : rt -> A) (k : A -> T unit) : (forall r, m r = Done (Go (g r), r)) ->
  (forall a, uok_unless l (k a)) -> uok_unless l (tbind m k).
Proof. intros E Hk r Hr. unfold tbind. rewrite (bind_run _ _ _ _ _ (E r)). exact (Hk (g r) r Hr). Qed.

Lemma uok_advance n : uok (advance_pc n).
Proof. unfold advance_pc. uok_auto. Qed.
Lemma uok_it_context insn : uok (upd_dc (it_context insn)).
Proof. apply uok_upd_dc. intros d. unfold it_context. destruct (is_it insn); reflexivity. Qed.

Lemma goes_on_advance n : goes_on (advance_pc n).
Proof. intros r Hr. eexists _, _. split; [reflexivity|]. split; [exact Hr|reflexivity]. Qed.
Lemma goes_on_it insn : goes_on (upd_dc (it_context insn)).
Proof.
  intros r Hr. destruct (uok_it_context insn r Hr) as (f & r' & E & H). exists tt, r'. split; [|exact H]. rewrite E. injection E as <- _. reflexivity.
Qed.

(** The decoder behind the test of the IT block: an instruction that is not
    skipped, and one that is. *)
Lemma uok_decode : uok (thumb_decode false false).
Proof.
  unfold thumb_decode, skip_over. apply uok_tbind; [auto with uok|intros p0].
  eapply uok_post; [apply uok_lduw|]. intros insn Hi. cbn beta in Hi. apply uok_tbind; [apply uok_advance|intros _].
  apply uok_tbind; [auto with uok|intros p]. destruct (is_32bit insn) eqn:E32.
  2: { apply uok_tbind; [apply uok_it_context|intros _]. apply uok_catch; [apply uok_thumb16|auto with uok]. }
  apply uok_tbind; [auto with uok|intros t2]. apply uok_tbind; [apply uok_feature|intros m].
  destruct (if t2 || m then None else thumb1_half insn p) as [half|] eqn:Eh.
  - apply uok_catch; [|auto with uok]. destruct (t2 || m); [discriminate|]. exact (uok_half _ _ _ Eh).
  - eapply uok_post; [apply uok_lduw|]. intros hw2 H2. cbn beta in H2. apply uok_tbind; [apply uok_advance|intros _]. cbn zeta.
    apply uok_tbind; [auto with uok|intros tz]. apply uok_tbind; [apply uok_get_dc|intros u].
    apply uok_catch; [|auto with uok]. apply uok_thumb2, is_32bit_case; assumption.
Qed.
Lemma uok_decode_skipped : uok_unless fetch_branch (thumb_decode true false).
Proof.
  unfold thumb_decode, fetch_branch. apply unless_step; [auto with uok|intros p0].
  eapply unless_bind; [apply uok_lduw|]. intros insn _. apply unless_step; [apply uok_advance|intros _].
  apply unless_step; [auto with uok|intros p]. destruct (is_32bit insn) eqn:E32.
  2: { apply unless_const; [apply goes_on_it|intros _]. apply (unless_skip (relabels16 insn)). }
  apply unless_step; [auto with uok|intros t2]. apply (unless_read _ _ (fun r => arm_feature (core r) ARM_FEATURE_M)); [reflexivity|intros m].
  destruct t2; cbn [orb].
  - eapply unless_bind; [apply uok_lduw|]. intros hw2 _. apply unless_const; [apply goes_on_advance|intros _]. cbn zeta.
    apply unless_const; [apply (goes_on_read _ (fun r => arm_feature (core r) ARM_FEATURE_TRUSTZONE)); reflexivity|intros tz].
    apply unless_const; [apply (goes_on_read _ (fun r => user (dc r))); reflexivity|intros u].
    rewrite andb_true_r. apply unless_skip.
  - apply unless_ok. destruct (if m : bool then None else thumb1_half insn p) as [half|]; [apply uok_skipped|].
    eapply uok_post; [apply uok_lduw|]. intros hw2 _. apply uok_tbind; [apply uok_advance|intros _]. cbn zeta.
    apply uok_tbind; [auto with uok|intros tz]. apply uok_tbind; [apply uok_get_dc|intros u]. rewrite andb_false_r. apply uok_skipped.
Qed.

(** C24.  User-mode Thumb code is confined: every fetched Thumb instruction of
    a user-mode program on an A or R profile, 16-bit or 32-bit, outside an IT
    block or inside one whose condition is not 15, runs to a defined end (it
    completes, is skipped, leaves the block or raises an exception); the
    register file stays well-formed and the mode, the interrupt masks, every
    saved status register, every banked register and the v7-M registers are
    unchanged.  The one exception, and it is one always: a branch with a
    condition of its own that an IT block skips has lost its label. *)
Theorem user_thumb_confined r : uinv r -> (condexec_mask (dc r) <> 0 -> 0 <= condexec_cond (dc r) < 15) ->
  if skipped_branch r then disas_thumb_insn false r = Undefined
  else exists f r', disas_thumb_insn false r = Done (f, r') /\ uinv r' /\ ukeep (core r) (core r').
Proof.
  intros Hr Hc. destruct (uok_it_skips r Hr Hc) as (b & Eb). unfold skipped_branch. unfold goes_true at 1. rewrite Eb.
  assert (E : disas_thumb_insn false r = thumb_decode b false r).
  { unfold disas_thumb_insn. unfold tbind at 1. rewrite (bind_run _ _ _ _ _ Eb). reflexivity. }
  rewrite E. destruct b; [exact (uok_decode_skipped r Hr)|exact (uok_decode r Hr)].
Qed.

(** C29.  User-mode ARM code is confined: every ARM instruction word except
    the hazards of [arm_hazard] runs to a defined end in user mode; the
    register file stays well-formed and nothing privileged changes. *)
Theorem user_arm_confined r insn : uinv r -> is_u32 insn -> arm_hazard insn = false ->
  exists f r', disas_arm_insn insn r = Done (f, r') /\ uinv r' /\ ukeep (core r) (core r').
Proof. intros Hr Hi Hz. exact (uok_arm insn Hi Hz r Hr). Qed.
End UserThumb.
