(* ===== verification/TransDp.v ===== *)
(** * Data processing against the architecture

    The ARM data-processing instructions are compared with the pseudocode of
    the architecture: [Shift_C] for the second operand, [AddWithCarry] for
    the arithmetic, and the four condition flags as truth values.  The
    translator keeps the flags in another form: N and V in bit 31 of two
    words, Z as a word that is zero, C as 0 or 1. *)
From stdpp Require Import base list.
From S2P Require Import Prelude Double ArmTable State CpuState Errors OpHelper CpuMode Sys V7m Dsp Tcg TransGen TransArm TransThumb2 TransThumb.
From S2P Require Import TransUser TransConfined.
Open Scope Z_scope.

(** ** The pseudocode *)

Inductive SRType : Set := LSL | LSR | ASR | ROR | RRX.

Definition ror (x n : Z) : Z := let m := n mod 32 in x / 2 ^ m + x mod 2 ^ m * 2 ^ (32 - m).

Definition Shift_C (x : Z) (t : SRType) (n : Z) (c : bool) : Z * bool :=
  match t with
  | RRX => (Z.b2z c * 2 ^ 31 + x / 2, Z.odd x)
  | _ =>
      if n =? 0 then (x, c)
      else match t with
        | LSL => (x * 2 ^ n mod 2 ^ 32, Z.testbit (x * 2 ^ n) 32)
        | LSR => (x / 2 ^ n, Z.testbit x (n - 1))
        | ASR => ((s32 x / 2 ^ n) mod 2 ^ 32, Z.testbit (s32 x) (n - 1))
        | _ => (ror x n, Z.testbit (ror x n) 31)
        end
  end.
Definition DecodeImmShift (t imm5 : Z) : SRType * Z :=
  match t with
  | 0 => (LSL, imm5)
  | 1 => (LSR, if imm5 =? 0 then 32 else imm5)
  | 2 => (ASR, if imm5 =? 0 then 32 else imm5)
  | _ => if imm5 =? 0 then (RRX, 1) else (ROR, imm5)
  end.
Definition DecodeRegShift (t : Z) : SRType := match t with 0 => LSL | 1 => LSR | 2 => ASR | _ => ROR end.

(** The sum with its carry and its signed overflow. *)
Definition AddWithCarry (x y : Z) (c : bool) : Z * bool * bool :=
  let unsigned_sum := x + y + Z.b2z c in
  let signed_sum := s32 x + s32 y + Z.b2z c in
  let result := unsigned_sum mod 2 ^ 32 in
  (result, negb (result =? unsigned_sum), negb (s32 result =? signed_sum)).

Record nzcv : Set := { fN : bool; fZ : bool; fC : bool; fV : bool }.
Definition flags (c : cpu_st) : nzcv :=
  {| fN := Z.testbit (NF c) 31; fZ := ZF c =? 0; fC := negb (CF c =? 0); fV := Z.testbit (VF c) 31 |}.

(** The second operand of an instruction, with the carry of the shifter;
    [R] reads a register. *)
Definition ref_operand2 (insn : Z) (R : Z -> Z) (c : bool) : Z * bool :=
  if bit insn 25 then Shift_C (Z.land insn 0xff) ROR (2 * fld insn 8 0xf) c
  else if negb (bit insn 4) then
    let '(t, n) := DecodeImmShift (fld insn 5 3) (fld insn 7 0x1f) in Shift_C (R (Z.land insn 0xf)) t n c
  else Shift_C (R (Z.land insn 0xf)) (DecodeRegShift (fld insn 5 3)) (Z.land (R (fld insn 8 0xf)) 0xff) c.

(** The result of opcode [op] on [a] and the operand [b], and the flags it
    sets; [f] are the flags before. *)
Definition ref_dp (op a b : Z) (shc : bool) (f : nzcv) : Z * nzcv :=
  let logic r := (r, {| fN := Z.testbit r 31; fZ := r =? 0; fC := shc; fV := fV f |}) in
  let arith '(r, c, v) := (r, {| fN := Z.testbit r 31; fZ := r =? 0; fC := c; fV := v |}) in
  match op with
  | 0 | 8 => logic (Z.land a b)
  | 1 | 9 => logic (Z.lxor a b)
  | 2 | 10 => arith (AddWithCarry a (not32 b) true)
  | 3 => arith (AddWithCarry (not32 a) b true)
  | 4 | 11 => arith (AddWithCarry a b false)
  | 5 => arith (AddWithCarry a b (fC f))
  | 6 => arith (AddWithCarry a (not32 b) (fC f))
  | 7 => arith (AddWithCarry (not32 a) b (fC f))
  | 12 => logic (Z.lor a b)
  | 13 => logic b
  | 14 => logic (Z.land a (not32 b))
  | _ => logic (not32 b)
  end.
Definition writes_rd (op : Z) : bool := negb ((8 <=? op) && (op <=? 11)).

(** ** Arithmetic on words *)

Lemma not32_u32 x : is_u32 x -> is_u32 (not32 x).
Proof. intros Hx. rewrite not32_sub by exact Hx. unfold is_u32 in *. lia. Qed.
Lemma testbit31 x : is_u32 x -> Z.testbit x 31 = (2 ^ 31 <=? x).
Proof. apply testbit_sign. Qed.
Lemma lxor_u32 a b : is_u32 a -> is_u32 b -> is_u32 (Z.lxor a b).
Proof.
  intros Ha Hb. apply bits_u32; [apply Z.lxor_nonneg; unfold is_u32 in *; lia|]. intros n Hn.
  rewrite Z.lxor_spec, (testbit_above a 32), (testbit_above b 32) by (assumption || lia). reflexivity.
Qed.
Lemma lor_range32 a b : is_u32 a -> is_u32 b -> is_u32 (Z.lor a b).
Proof. apply (lor_below a b 32). lia. Qed.
Lemma landl_u32 a b : is_u32 a -> is_u32 (Z.land a b).
Proof. apply (land_below a b 32). lia. Qed.

(** The overflow words: bit 31 tells that the operands had one sign and the
    result another. *)
Lemma overflow_add t0 t1 nf : is_u32 t0 -> is_u32 t1 -> is_u32 nf ->
  Z.testbit (andc32 (Z.lxor nf t0) (Z.lxor t0 t1)) 31 =
  negb (Bool.eqb (2 ^ 31 <=? nf) (2 ^ 31 <=? t0)) && Bool.eqb (2 ^ 31 <=? t0) (2 ^ 31 <=? t1).
Proof.
  intros H0 H1 Hn. unfold andc32, not32. rewrite Z.land_spec, !Z.lxor_spec, !testbit31 by assumption.
  change (Z.testbit 0xffffffff 31) with true. destruct (2 ^ 31 <=? nf), (2 ^ 31 <=? t0), (2 ^ 31 <=? t1); reflexivity.
Qed.
Lemma overflow_sub t0 t1 nf : is_u32 t0 -> is_u32 t1 -> is_u32 nf ->
  Z.testbit (Z.land (Z.lxor nf t0) (Z.lxor t0 t1)) 31 =
  negb (Bool.eqb (2 ^ 31 <=? nf) (2 ^ 31 <=? t0)) && negb (Bool.eqb (2 ^ 31 <=? t0) (2 ^ 31 <=? t1)).
Proof.
  intros H0 H1 Hn. rewrite Z.land_spec, !Z.lxor_spec, !testbit31 by assumption.
  destruct (2 ^ 31 <=? nf), (2 ^ 31 <=? t0), (2 ^ 31 <=? t1); reflexivity.
Qed.

Ltac word_cases :=
  repeat match goal with
  | |- context [?a <=? ?b] => destruct (Z.leb_spec a b)
  | |- context [?a =? ?b] => destruct (Z.eqb_spec a b)
  end; cbn; try reflexivity; try lia.

(** [AddWithCarry] of words, with the sum taken apart. *)
Lemma awc_cases x y c : is_u32 x -> is_u32 y -> let s := x + y + Z.b2z c in
  AddWithCarry x y c = (if 2 ^ 32 <=? s then s - 2 ^ 32 else s, 2 ^ 32 <=? s,
    let r := if 2 ^ 32 <=? s then s - 2 ^ 32 else s in
    negb (Bool.eqb (2 ^ 31 <=? r) (2 ^ 31 <=? x)) && Bool.eqb (2 ^ 31 <=? x) (2 ^ 31 <=? y)).
Proof.
  intros Hx Hy s. unfold AddWithCarry. fold s.
  assert (Hc : 0 <= Z.b2z c <= 1) by (destruct c; cbn; lia).
  assert (Hr : s mod 2 ^ 32 = if 2 ^ 32 <=? s then s - 2 ^ 32 else s).
  { destruct (Z.leb_spec (2 ^ 32) s); [symmetry; apply (Z.mod_unique _ _ 1)|apply Z.mod_small]; unfold is_u32, s in *; lia. }
  rewrite Hr. set (r := if 2 ^ 32 <=? s then s - 2 ^ 32 else s).
  assert (Hr32 : is_u32 r) by (unfold r, is_u32, s in *; destruct (Z.leb_spec (2 ^ 32) (x + y + Z.b2z c)); lia).
  f_equal; [f_equal|].
  - unfold r. destruct (Z.leb_spec (2 ^ 32) s); [|rewrite Z.eqb_refl; reflexivity]. apply negb_true_iff, Z.eqb_neq. lia.
  - rewrite !s32_cases by assumption. cbn zeta.
    assert (Hs : s = r \/ s = r + 2 ^ 32) by (unfold r; destruct (_ <=? _); lia).
    unfold is_u32 in *. unfold s in Hs.
    destruct (Z.leb_spec (2 ^ 31) x), (Z.leb_spec (2 ^ 31) y), (Z.leb_spec (2 ^ 31) r); cbn;
      (apply negb_true_iff, Z.eqb_neq; lia) || (apply negb_false_iff, Z.eqb_eq; lia).
Qed.

Lemma concat64_add lo hi : is_u32 lo -> concat64 lo hi = hi * 2 ^ 32 + lo.
Proof. intros Hl. unfold concat64. rewrite Z.lor_comm. apply lor_shift_add; [lia|exact Hl]. Qed.
Lemma split64 q : 0 <= q < 2 ^ 64 -> (lo64 q, hi64 q) = (q mod 2 ^ 32, q / 2 ^ 32).
Proof.
  intros Hq. unfold lo64, hi64. rewrite Z.shiftr_div_pow2 by lia. f_equal. apply u32_small.
  unfold is_u32. split; [apply Z.div_pos; lia|apply Z.div_lt_upper_bound; lia].
Qed.
Lemma add2_sum al ah bl bh s : is_u32 al -> is_u32 bl -> s = ah * 2 ^ 32 + al + (bh * 2 ^ 32 + bl) -> 0 <= s < 2 ^ 64 ->
  add2_i32 al ah bl bh = (s mod 2 ^ 32, s / 2 ^ 32).
Proof.
  intros Ha Hb E Hs. unfold add2_i32. rewrite !concat64_add by assumption. rewrite <- E.
  rewrite u64_small by exact Hs. apply split64, Hs.
Qed.

Section Flags.
Context {GU : Guest} {HO : HostOps}.

(** Both ways to add with carry give the 33-bit sum. *)
Lemma adc_pair_sum t0 t1 cf : is_u32 t0 -> is_u32 t1 -> 0 <= cf <= 1 ->
  adc_pair t0 t1 cf = ((t0 + t1 + cf) mod 2 ^ 32, (t0 + t1 + cf) / 2 ^ 32).
Proof.
  intros H0 H1 Hc. unfold is_u32 in *. unfold adc_pair. destruct TCG_TARGET_HAS_add2_i32.
  - rewrite (add2_sum t0 0 cf 0 (t0 + cf)) by (unfold is_u32; lia).
    pose proof (Z.div_mod (t0 + cf) (2 ^ 32)). apply add2_sum; [apply u32_range|exact H1|lia|lia].
  - rewrite (u64_small (t0 + t1)) by (unfold is_u64; lia). rewrite u64_small by (unfold is_u64; lia). apply split64. lia.
Qed.

Definition cf_ok (c : cpu_st) : Prop := CF c = Z.b2z (fC (flags c)).
Lemma cf_ok_iff c : cf_ok c <-> CF c = 0 \/ CF c = 1.
Proof. unfold cf_ok, flags. cbn. destruct (Z.eqb_spec (CF c) 0) as [->|]; cbn; lia. Qed.

(** The flags as [v] and a word leave them. *)
Definition arith_flags (res : Z) (carry : bool) (v : Z) (c : cpu_st) : cpu_st :=
  set_VF v (set_ZF res (set_CF (Z.b2z carry) (set_NF res c))).

(** What one of the flag-setting additions must do. *)
Definition sets_awc (m : T Z) (x y : Z) (cin : bool) : Prop := forall r, is_u32 x -> is_u32 y ->
  exists v, m r = Done (Go (AddWithCarry x y cin).1.1, set_core (arith_flags (AddWithCarry x y cin).1.1 (AddWithCarry x y cin).1.2 v (core r)) r) /\
    Z.testbit v 31 = (AddWithCarry x y cin).2.

Lemma b2z_div s : 0 <= s < 2 ^ 33 -> s / 2 ^ 32 = Z.b2z (2 ^ 32 <=? s).
Proof.
  intros Hs. destruct (Z.leb_spec (2 ^ 32) s); cbn; [symmetry; apply (Z.div_unique _ _ _ (s - 2 ^ 32)); lia|apply Z.div_small; lia].
Qed.
Lemma mod_wrap s : 0 <= s < 2 ^ 33 -> s mod 2 ^ 32 = if 2 ^ 32 <=? s then s - 2 ^ 32 else s.
Proof. intros Hs. destruct (Z.leb_spec (2 ^ 32) s); [symmetry; apply (Z.mod_unique _ _ 1); lia|apply Z.mod_small; lia]. Qed.
Lemma wrap_u32 s : 0 <= s < 2 ^ 33 -> is_u32 (if 2 ^ 32 <=? s then s - 2 ^ 32 else s).
Proof. intros Hs. rewrite <- mod_wrap by exact Hs. apply u32_range. Qed.

Lemma add_CC_awc x y : sets_awc (gen_add_CC x y) x y false.
Proof.
  intros r Hx Hy. unfold gen_add_CC. rewrite (add2_sum x 0 y 0 (x + y)) by (unfold is_u32 in *; lia).
  assert (Hs : 0 <= x + y < 2 ^ 33) by (unfold is_u32 in *; lia).
  rewrite awc_cases, b2z_div, mod_wrap by assumption. cbn [Z.b2z fst snd]. rewrite Z.add_0_r.
  eexists. split; [reflexivity|]. apply overflow_add; [assumption..|apply wrap_u32, Hs].
Qed.
Lemma adc_CC_awc x y cin : forall r, CF (core r) = Z.b2z cin -> is_u32 x -> is_u32 y ->
  exists v, gen_adc_CC x y r = Done (Go (AddWithCarry x y cin).1.1, set_core (arith_flags (AddWithCarry x y cin).1.1 (AddWithCarry x y cin).1.2 v (core r)) r) /\
    Z.testbit v 31 = (AddWithCarry x y cin).2.
Proof.
  intros r Hc Hx Hy. unfold gen_adc_CC.
  match goal with |- context [tbind (get_core CF) ?k r] => change (tbind (get_core CF) k r) with (k (CF (core r)) r) end. cbn beta.
  assert (Hb : 0 <= Z.b2z cin <= 1) by (destruct cin; cbn; lia).
  rewrite Hc, adc_pair_sum by assumption.
  assert (Hs : 0 <= x + y + Z.b2z cin < 2 ^ 33) by (unfold is_u32 in *; lia).
  rewrite awc_cases, b2z_div, mod_wrap by assumption. cbn [fst snd].
  eexists. split; [reflexivity|]. apply overflow_add; [assumption..|apply wrap_u32, Hs].
Qed.

(** Subtraction is the addition of the complement. *)
Lemma sub_as_awc x y : is_u32 x -> is_u32 y ->
  AddWithCarry x (not32 y) true = (sub32 x y, y <=? x,
    negb (Bool.eqb (2 ^ 31 <=? sub32 x y) (2 ^ 31 <=? x)) && negb (Bool.eqb (2 ^ 31 <=? x) (2 ^ 31 <=? y))).
Proof.
  intros Hx Hy. rewrite awc_cases by (assumption || apply not32_u32; assumption). cbn [Z.b2z].
  rewrite not32_sub by exact Hy. replace (x + (2 ^ 32 - 1 - y) + 1) with (x - y + 2 ^ 32) by lia.
  assert (E : sub32 x y = if 2 ^ 32 <=? x - y + 2 ^ 32 then x - y + 2 ^ 32 - 2 ^ 32 else x - y + 2 ^ 32).
  { unfold sub32. rewrite u32_cases by (unfold is_u32 in *; lia). unfold is_u32 in *.
    destruct (Z.leb_spec (2 ^ 32) (x - y + 2 ^ 32)); repeat case_match; rewrite ?Z.leb_le, ?Z.ltb_lt, ?Z.leb_gt, ?Z.ltb_ge in *; lia. }
  rewrite <- E. unfold is_u32 in *. f_equal; [f_equal|].
  - destruct (Z.leb_spec (2 ^ 32) (x - y + 2 ^ 32)), (Z.leb_spec y x); lia.
  - cbn zeta. f_equal. destruct (Z.leb_spec (2 ^ 31) (2 ^ 32 - 1 - y)), (Z.leb_spec (2 ^ 31) y), (2 ^ 31 <=? x); try lia; reflexivity.
Qed.
Lemma sub_CC_awc x y : is_u32 y -> forall r, is_u32 x ->
  exists v, gen_sub_CC x y r = Done (Go (AddWithCarry x (not32 y) true).1.1,
      set_core (arith_flags (AddWithCarry x (not32 y) true).1.1 (AddWithCarry x (not32 y) true).1.2 v (core r)) r) /\
    Z.testbit v 31 = (AddWithCarry x (not32 y) true).2.
Proof.
  intros Hy r Hx. rewrite sub_as_awc by assumption. cbn [fst snd]. eexists. split.
  - unfold gen_sub_CC. assert (E : (if y <=? x then 1 else 0) = Z.b2z (y <=? x)) by (destruct (y <=? x); reflexivity).
    rewrite E. reflexivity.
  - apply overflow_sub; [assumption..|apply u32_range].
Qed.
End Flags.

(** ** The shifter *)

Lemma ror_rotr x n : is_u32 x -> 0 <= n < 32 -> rotr_i32 x n = ror x n.
Proof.
  intros Hx Hn. unfold rotr_i32, ror. rewrite (Z.mod_small n 32) by exact Hn.
  assert (E : u32 (Z.shiftl x (32 - n)) = Z.shiftl (x mod 2 ^ n) (32 - n)).
  { unfold u32. rewrite !Z.shiftl_mul_pow2 by lia. replace (2 ^ 32) with (2 ^ n * 2 ^ (32 - n)) by (rewrite <- Z.pow_add_r by lia; f_equal; lia).
    apply Z.mul_mod_distr_r; apply Z.pow_nonzero; lia. }
  assert (B : 0 <= Z.shiftr x n < 2 ^ (32 - n)).
  { rewrite Z.shiftr_div_pow2 by lia. pose proof (Z.pow_pos_nonneg 2 n). unfold is_u32 in Hx.
    split; [apply Z.div_pos; lia|]. apply Z.div_lt_upper_bound; [lia|]. rewrite <- Z.pow_add_r by lia. replace (n + (32 - n)) with 32 by lia. lia. }
  rewrite E, Z.lor_comm, lor_shift_add, Z.shiftr_div_pow2 by (exact B || lia). lia.
Qed.
(** The bits of a rotation. *)
Lemma ror_bits x n j : is_u32 x -> 0 <= n -> 0 <= j < 32 -> Z.testbit (ror x n) j = Z.testbit x ((j + n) mod 32).
Proof.
  intros Hx Hn Hj. pose proof (Z.mod_pos_bound n 32 ltac:(lia)) as Hm.
  assert (E : ror x n = rotr_i32 x (n mod 32)) by (rewrite ror_rotr by assumption; unfold ror; rewrite Z.mod_mod by lia; reflexivity).
  rewrite <- Z.add_mod_idemp_r by lia. rewrite E. clear E. set (k := n mod 32) in *. unfold rotr_i32, u32.
  rewrite Z.lor_spec, Z.shiftr_spec, Z.mod_pow2_bits_low, Z.shiftl_spec by lia. destruct (Z.lt_ge_cases (j + k) 32).
  - rewrite (Z.mod_small (j + k)) by lia. rewrite (Z.testbit_neg_r x (j - (32 - k))) by lia. apply orb_false_r.
  - rewrite (testbit_above x 32 (j + k)) by (assumption || lia). cbn [orb]. f_equal. apply (Z.mod_unique _ _ 1); lia.
Qed.
Lemma ror_u32 x n : is_u32 x -> is_u32 (ror x n).
Proof.
  intros Hx. pose proof (Z.mod_pos_bound n 32 ltac:(lia)) as Hm. unfold ror. cbn zeta. set (m := n mod 32) in *.
  pose proof (Z.pow_pos_nonneg 2 m ltac:(lia) ltac:(lia)) as P1. pose proof (Z.pow_pos_nonneg 2 (32 - m) ltac:(lia) ltac:(lia)) as P2.
  assert (E : 2 ^ 32 = 2 ^ m * 2 ^ (32 - m)) by (rewrite <- Z.pow_add_r by lia; f_equal; lia).
  pose proof (Z.mod_pos_bound x (2 ^ m) P1). unfold is_u32 in *.
  assert (x / 2 ^ m < 2 ^ (32 - m)) by (apply Z.div_lt_upper_bound; lia). pose proof (Z.div_pos x (2 ^ m)). nia.
Qed.
Lemma ror_mod x n : ror x (n mod 32) = ror x n.
Proof. unfold ror. rewrite Z.mod_mod by lia. reflexivity. Qed.
Lemma ror_top x n : is_u32 x -> 0 < n < 32 -> Z.testbit (ror x n) 31 = Z.testbit x (n - 1).
Proof. intros Hx Hn. rewrite ror_bits by (assumption || lia). f_equal. symmetry. apply (Z.mod_unique _ _ 1); lia. Qed.

Lemma Shift_C_u32 x t n c : is_u32 x -> 0 <= n -> is_u32 (Shift_C x t n c).1.
Proof.
  intros Hx Hn. unfold Shift_C. assert (Hh : is_u32 (x / 2 ^ n)).
  { pose proof (Z.pow_pos_nonneg 2 n ltac:(lia) Hn). unfold is_u32 in *. split; [apply Z.div_pos; lia|]. apply Z.div_lt_upper_bound; [lia|]. nia. }
  destruct t; try (destruct (n =? 0); cbn [fst]; [exact Hx|]); try apply u32_range; [exact Hh|apply ror_u32, Hx|].
  cbn [fst]. unfold is_u32 in *. destruct c; cbn [Z.b2z]; Z.to_euclidean_division_equations; lia.
Qed.

Section Shifts.
Context {GU : Guest} {HO : HostOps}.

Lemma set_CF_id c : set_CF (CF c) c = c.
Proof. destruct c; reflexivity. Qed.
(** The state after a shift: the carry, when it is asked for. *)
Definition after_shift (fl : bool) (carry : bool) (r : rt) : rt :=
  set_core (if fl then set_CF (Z.b2z carry) (core r) else core r) r.
Lemma set_core_id r : set_core (core r) r = r.
Proof. destruct r; reflexivity. Qed.
Lemma after_keep fl r : cf_ok (core r) -> after_shift fl (fC (flags (core r))) r = r.
Proof. intros Hc. unfold after_shift. rewrite <- Hc, set_CF_id. destruct fl; apply set_core_id. Qed.

Lemma shifter_out_run v k r : is_u32 v -> 0 <= k < 32 ->
  shifter_out_im v k r = Done (Go tt, set_core (set_CF (Z.b2z (Z.testbit v k)) (core r)) r).
Proof.
  intros Hv Hk. unfold shifter_out_im. destruct (Z.eqb_spec k 0) as [->|Hne].
  - rewrite <- land1, Z.shiftr_0_r by lia. reflexivity.
  - rewrite <- land1 by lia. unfold shr_i32. destruct (Z.eqb_spec k 31) as [->|]; [|reflexivity].
    rewrite land1, testbit31, Z.shiftr_div_pow2 by (assumption || lia).
    assert (E : v / 2 ^ 31 = Z.b2z (2 ^ 31 <=? v)).
    { unfold is_u32 in Hv. destruct (Z.leb_spec (2 ^ 31) v); cbn; [symmetry; apply (Z.div_unique _ _ _ (v - 2 ^ 31)); lia|apply Z.div_small; lia]. }
    rewrite E. reflexivity.
Qed.
Lemma out_then fl v k a r : is_u32 v -> 0 <= k < 32 ->
  (when fl (shifter_out_im v k) ;* tret a) r = Done (Go (a : Z), after_shift fl (Z.testbit v k) r).
Proof.
  intros Hv Hk. destruct fl; cbn [when].
  - unfold tbind. rewrite (bind_run _ _ _ _ _ (shifter_out_run v k r Hv Hk)). reflexivity.
  - unfold after_shift. rewrite set_core_id. reflexivity.
Qed.

(** The immediate shifts are [Shift_C] of the decoded amount. *)
Lemma shift_im_spec v t n fl r : is_u32 v -> cf_ok (core r) -> 0 <= t < 4 -> 0 <= n < 32 ->
  let s := Shift_C v (DecodeImmShift t n).1 (DecodeImmShift t n).2 (fC (flags (core r))) in
  gen_arm_shift_im v t n fl r = Done (Go s.1, after_shift fl s.2 r).
Proof.
  intros Hv Hc Ht Hn. unfold gen_arm_shift_im.
  assert (t = 0 \/ t = 1 \/ t = 2 \/ t = 3) as [->|[->|[->| ->]]] by lia; cbn [DecodeImmShift fst snd]; cbn zeta.
  - unfold Shift_C. destruct (Z.eqb_spec n 0); cbn [negb fst snd]; [rewrite after_keep by exact Hc; reflexivity|].
    rewrite out_then by (assumption || lia). unfold shl_i32, u32. rewrite Z.shiftl_mul_pow2 by lia.
    rewrite Z.mul_pow2_bits by lia. reflexivity.
  - destruct (Z.eqb_spec n 0) as [->|]; unfold Shift_C; cbn [Z.eqb fst snd].
    + rewrite (Z.div_small v (2 ^ 32)) by exact Hv. pose proof (out_then fl v 31 0 r Hv ltac:(lia)) as E.
      unfold shifter_out_im in E. exact E.
    + rewrite (proj2 (Z.eqb_neq n 0)) by assumption. cbn [fst snd]. rewrite out_then by (assumption || lia). unfold shr_i32. rewrite Z.shiftr_div_pow2 by lia. reflexivity.
  - set (m := if n =? 0 then 32 else n). assert (Hm : 1 <= m <= 32) by (unfold m; destruct (Z.eqb_spec n 0); lia).
    unfold Shift_C. rewrite (proj2 (Z.eqb_neq m 0)) by lia. cbn [fst snd]. rewrite out_then by (assumption || lia).
    unfold sar_i32. rewrite <- Z.shiftr_div_pow2 by lia. rewrite testbit_s32 by lia. fold (u32 (Z.shiftr (s32 v) m)). do 3 f_equal.
    destruct (Z.eqb_spec m 32) as [->|]; [|reflexivity]. rewrite (s32_shift_big v 32) by (assumption || lia). reflexivity.
  - destruct (Z.eqb_spec n 0) as [->|]; cbn [negb fst snd].
    + match goal with |- context [tbind (get_core CF) ?k r] => change (tbind (get_core CF) k r) with (k (CF (core r)) r) end. cbn beta zeta.
      rewrite out_then by (assumption || lia). rewrite Hc. unfold Shift_C. cbn [fst snd]. rewrite Z.bit0_odd.
      do 4 f_equal. unfold shl_i32, shr_i32, u32. rewrite Z.shiftr_div_pow2, Z.shiftl_mul_pow2 by lia. change (2 ^ 1) with 2.
      assert (Hh : 0 <= v / 2 < 2 ^ 31) by (unfold is_u32 in Hv; Z.to_euclidean_division_equations; lia).
      rewrite (Z.mod_small (_ * 2 ^ 31)) by (destruct (fC _); cbn [Z.b2z]; lia).
      rewrite Z.lor_comm. rewrite <- (Z.shiftl_mul_pow2 (Z.b2z _) 31) at 1 by lia. rewrite lor_shift_add by lia. reflexivity.
    + unfold Shift_C. rewrite (proj2 (Z.eqb_neq n 0)) by assumption. cbn [fst snd]. rewrite out_then, ror_rotr, ror_top by (assumption || lia). reflexivity.
Qed.

(** The low byte of a register as an amount. *)
Lemma low_byte i : 0 <= Z.land i 0xff < 256.
Proof. apply (land_mask_range i 8). lia. Qed.
Lemma land31_small n : 0 <= n < 32 -> Z.land n 0x1f = n.
Proof. intros Hn. change 0x1f with (Z.ones 5). rewrite Z.land_ones by lia. apply Z.mod_small, Hn. Qed.
Lemma shl_big v n : is_u32 v -> 32 <= n -> v * 2 ^ n mod 2 ^ 32 = 0.
Proof.
  intros Hv Hn. replace n with (32 + (n - 32)) by lia. rewrite Z.pow_add_r by lia.
  rewrite (Z.mul_comm (2 ^ 32)), Z.mul_assoc. apply Z.mod_mul. lia.
Qed.
Lemma shr_big v n : is_u32 v -> 32 <= n -> v / 2 ^ n = 0.
Proof. intros Hv Hn. apply Z.div_small. unfold is_u32 in Hv. pose proof (Z.pow_le_mono_r 2 32 n). lia. Qed.
Lemma gen_shl_spec v i : is_u32 v -> gen_shl v i = v * 2 ^ Z.land i 0xff mod 2 ^ 32.
Proof.
  intros Hv. pose proof (low_byte i) as Hn. unfold gen_shl, shl_i32, u32. cbn zeta. set (n := Z.land i 0xff) in *.
  destruct (Z.ltb_spec 0x1f n); [rewrite Z.shiftl_0_l, shl_big by (assumption || lia); reflexivity|].
  rewrite land31_small, Z.shiftl_mul_pow2 by lia. reflexivity.
Qed.
Lemma gen_shr_spec v i : is_u32 v -> gen_shr v i = v / 2 ^ Z.land i 0xff.
Proof.
  intros Hv. pose proof (low_byte i) as Hn. unfold gen_shr, shr_i32. cbn zeta. set (n := Z.land i 0xff) in *.
  destruct (Z.ltb_spec 0x1f n); [rewrite Z.shiftr_0_l, shr_big by (assumption || lia); reflexivity|].
  rewrite land31_small, Z.shiftr_div_pow2 by lia. reflexivity.
Qed.
Lemma gen_sar_spec v i : is_u32 v -> gen_sar v i = (s32 v / 2 ^ Z.land i 0xff) mod 2 ^ 32.
Proof.
  intros Hv. pose proof (low_byte i) as Hn. unfold gen_sar, sar_i32, u32. cbn zeta. set (n := Z.land i 0xff) in *.
  rewrite <- Z.shiftr_div_pow2 by lia. destruct (Z.ltb_spec 0x1f n); [|reflexivity]. rewrite (s32_shift_big v n) by (assumption || lia). reflexivity.
Qed.
Lemma rotr_spec v i : is_u32 v -> rotr_i32 v (Z.land i 0x1f) = ror v (Z.land i 0xff).
Proof.
  intros Hv. change 0x1f with (Z.ones 5). change 0xff with (Z.ones 8). rewrite !Z.land_ones by lia.
  pose proof (Z.mod_pos_bound i (2 ^ 5)). rewrite ror_rotr by (assumption || lia). rewrite <- (ror_mod v (i mod 2 ^ 8)). f_equal.
  change (2 ^ 5) with 32. change (2 ^ 8) with (32 * 8). rewrite Z.rem_mul_r by lia. rewrite Z.mul_comm, Z.mod_add, Z.mod_mod by lia. reflexivity.
Qed.

(** A carry helper, given what it computes. *)
Lemma cc_run (m : M cpu_st Z) n x carry r : m (core r) = Done (shifted n x carry (core r)) -> cf_ok (core r) ->
  on_core m r = Done (Go x, after_shift true (if n =? 0 then fC (flags (core r)) else carry) r).
Proof.
  intros E Hc. unfold on_core. rewrite E. unfold shifted. destruct (n =? 0); [|reflexivity].
  rewrite after_keep, set_core_id by exact Hc. reflexivity.
Qed.
Lemma ror_unique x y n : is_u32 x -> is_u32 y -> 0 <= n -> (forall j, 0 <= j < 32 -> Z.testbit y j = Z.testbit x ((j + n) mod 32)) -> y = ror x n.
Proof.
  intros Hx Hy Hn Hb. apply Z.bits_inj'. intros j Hj. destruct (Z.lt_ge_cases j 32).
  - rewrite Hb, ror_bits by (assumption || lia). reflexivity.
  - rewrite (testbit_above y 32 j Hy ltac:(lia)), (testbit_above (ror x n) 32 j (ror_u32 x n Hx) ltac:(lia)). reflexivity.
Qed.
Lemma ror_0 x : ror x 0 = x.
Proof. unfold ror. change (0 mod 32) with 0. change (2 ^ 0) with 1. rewrite Z.div_1_r, Z.mod_1_r. lia. Qed.

Lemma shift_reg_spec v t i fl r : is_u32 v -> cf_ok (core r) -> 0 <= t < 4 ->
  let s := Shift_C v (DecodeRegShift t) (Z.land i 0xff) (fC (flags (core r))) in
  gen_arm_shift_reg v t i fl r = Done (Go s.1, after_shift fl s.2 r).
Proof.
  intros Hv Hc Ht. pose proof (low_byte i) as Hn. unfold gen_arm_shift_reg. cbn zeta.
  assert (E0 : v * 2 ^ 0 mod 2 ^ 32 = v /\ v / 2 ^ 0 = v /\ (s32 v / 2 ^ 0) mod 2 ^ 32 = v).
  { change (2 ^ 0) with 1. rewrite Z.mul_1_r, !Z.div_1_r, s32_mod. pose proof (u32_small v Hv). unfold u32 in *. auto. }
  destruct E0 as (E1 & E2 & E3).
  assert (t = 0 \/ t = 1 \/ t = 2 \/ t = 3) as [->|[->|[->| ->]]] by lia; cbn [DecodeRegShift]; unfold Shift_C; destruct fl.
  - rewrite (cc_run _ _ _ _ r (shl_cc_spec v i (core r) Hv) Hc). rewrite Z.shiftl_mul_pow2 by lia. unfold u32.
    destruct (Z.eqb_spec (Z.land i 0xff) 0) as [->|]; cbn [fst snd]; [rewrite E1|rewrite Z.mul_pow2_bits by lia]; reflexivity.
  - rewrite gen_shl_spec by exact Hv. unfold after_shift. rewrite set_core_id.
    destruct (Z.eqb_spec (Z.land i 0xff) 0) as [->|]; cbn [fst]; [rewrite E1|]; reflexivity.
  - rewrite (cc_run _ _ _ _ r (shr_cc_spec v i (core r) Hv) Hc). rewrite Z.shiftr_div_pow2 by lia.
    destruct (Z.eqb_spec (Z.land i 0xff) 0) as [->|]; cbn [fst snd]; [rewrite E2|]; reflexivity.
  - rewrite gen_shr_spec by exact Hv. unfold after_shift. rewrite set_core_id.
    destruct (Z.eqb_spec (Z.land i 0xff) 0) as [->|]; cbn [fst]; [rewrite E2|]; reflexivity.
  - rewrite (cc_run _ _ _ _ r (sar_cc_spec v i (core r) Hv) Hc). rewrite Z.shiftr_div_pow2 by lia. unfold u32.
    destruct (Z.eqb_spec (Z.land i 0xff) 0) as [->|]; cbn [fst snd]; [rewrite E3|]; reflexivity.
  - rewrite gen_sar_spec by exact Hv. unfold after_shift. rewrite set_core_id.
    destruct (Z.eqb_spec (Z.land i 0xff) 0) as [->|]; cbn [fst]; [rewrite E3|]; reflexivity.
  - destruct (ror_cc_spec v i (core r) Hv) as (x & Ex & Hx & Hb). rewrite (cc_run _ _ _ _ r Ex Hc).
    assert (Exr : x = ror v (Z.land i 0xff)) by (apply ror_unique; assumption || lia). rewrite Exr.
    destruct (Z.eqb_spec (Z.land i 0xff) 0) as [->|]; cbn [fst snd]; [rewrite ror_0|]; reflexivity.
  - rewrite rotr_spec by exact Hv. unfold after_shift. rewrite set_core_id.
    destruct (Z.eqb_spec (Z.land i 0xff) 0) as [->|]; cbn [fst]; [rewrite ror_0|]; reflexivity.
Qed.
End Shifts.

(** ** The instructions *)
Section DataProc.
Context {GU : Guest} {HO : HostOps}.

(** A register as an instruction reads it. *)
Definition regval (r : rt) (n : Z) : Z :=
  if n =? 15 then u32 (pc (dc r) + (if dthumb (dc r) =? 0 then 4 else 2)) else reg (core r) n.
Lemma load_reg_run n r : cpu_wf (core r) -> 0 <= n < 16 -> load_reg n r = Done (Go (regval r n), r).
Proof.
  intros Hw Hn. unfold load_reg, regval. destruct (n =? 15); [reflexivity|]. unfold on_core. rewrite get_reg_run by assumption.
  rewrite set_core_id. reflexivity.
Qed.
Lemma regval_u32 r n : cpu_wf (core r) -> 0 <= n < 16 -> is_u32 (regval r n).
Proof.
  intros Hw Hn. unfold regval. destruct (n =? 15); [apply u32_range|]. apply (Forall_nthz is_u32 (regs (core r)) n); [apply wf_regs32, Hw|].
  rewrite (wf_regs _ Hw). lia.
Qed.
Lemma run_load {B} n (k : Z -> T B) r : cpu_wf (core r) -> 0 <= n < 16 -> tbind (load_reg n) k r = k (regval r n) r.
Proof. intros Hw Hn. unfold tbind. rewrite (bind_run _ _ _ _ _ (load_reg_run n r Hw Hn)). reflexivity. Qed.
Lemma run_bind {A B} (m : T A) (k : A -> T B) r a r' : m r = Done (Go a, r') -> tbind m k r = k a r'.
Proof. intros E. unfold tbind. rewrite (bind_run _ _ _ _ _ E). reflexivity. Qed.

Lemma operand2_spec insn l r : cpu_wf (core r) -> cf_ok (core r) ->
  let s := ref_operand2 insn (regval r) (fC (flags (core r))) in
  arm_operand2 insn l r = Done (Go s.1, after_shift l s.2 r) /\ is_u32 s.1.
Proof.
  intros Hw Hc. unfold arm_operand2, ref_operand2. pose proof (fld2 insn 5) as Ht. pose proof (fld5 insn 7) as Hn. cbn zeta.
  pose proof (low4 insn) as Hm. pose proof (fld4 insn 8) as Hs. destruct (bit insn 25).
  - assert (Hv : is_u32 (Z.land insn 0xff)) by (unfold is_u32; pose proof (low_byte insn); lia).
    split; [|apply Shift_C_u32; [exact Hv|lia]]. unfold rotated_imm, Shift_C. rewrite (Z.mul_comm 2).
    set (n := fld insn 8 15 * 2) in *. destruct (Z.eqb_spec n 0); cbn [negb fst snd].
    { rewrite Bool.andb_false_r. rewrite after_keep by exact Hc. reflexivity. }
    rewrite Bool.andb_true_r. fold (rotr_i32 (Z.land insn 0xff) n). rewrite ror_rotr by (assumption || lia).
    pose proof (out_then l (ror (Z.land insn 0xff) n) 31 (ror (Z.land insn 0xff) n) r (ror_u32 _ _ Hv) ltac:(lia)) as E. exact E.
  - rewrite run_load by assumption. pose proof (regval_u32 r _ Hw Hm) as Hv. destruct (negb (bit insn 4)).
    + pose proof (shift_im_spec _ (fld insn 5 3) (fld insn 7 0x1f) l r Hv Hc Ht Hn) as E. cbn zeta in E.
      destruct (DecodeImmShift (fld insn 5 3) (fld insn 7 0x1f)) as [t n] eqn:Ed. cbn [fst snd] in E. split; [exact E|].
      apply Shift_C_u32; [exact Hv|]. unfold DecodeImmShift in Ed. repeat case_match; injection Ed as <- <-; lia.
    + rewrite run_load by assumption. split; [apply shift_reg_spec; assumption|]. apply Shift_C_u32; [exact Hv|apply low_byte].
Qed.

(** Everything but the registers and the condition flags. *)
Definition forget (c : cpu_st) : cpu_st := set_regs [] (set_NF 0 (set_ZF 0 (set_CF 0 (set_VF 0 c)))).

(** The state after an instruction that sets register [rd] (if [wr]) to
    [res] and leaves the flags [f]. *)
Definition dp_post (wr : bool) (rd res : Z) (f : nzcv) (r r' : rt) : Prop := exists c',
  r' = set_core c' r /\ (forall j, 0 <= j < 16 -> reg c' j = if wr && (j =? rd) then res else reg (core r) j) /\
  flags c' = f /\ cf_ok c' /\ cpu_wf c' /\ forget c' = forget (core r).

(** A state with other flags. *)
Record reflagged (c c1 : cpu_st) : Prop := { rf_regs : regs c1 = regs c; rf_wf : cpu_wf c1; rf_cf : cf_ok c1; rf_rest : forget c1 = forget c }.

Lemma post_keep rd res r c1 : reflagged (core r) c1 -> dp_post false rd res (flags c1) r (set_core c1 r).
Proof.
  intros [Hr Hw Hc Hf]. exists c1. split_and!; try assumption; try reflexivity. intros j _. unfold reg. rewrite Hr. reflexivity.
Qed.
Lemma post_store rd res r c1 : cpu_wf (core r) -> 0 <= rd < 15 -> is_u32 res -> reflagged (core r) c1 ->
  exists r', store_reg_bx rd res (set_core c1 r) = Done (Go tt, r') /\ dp_post true rd res (flags c1) r r'.
Proof.
  intros Hw Hd Hres [Hr Hw1 Hc Hf]. unfold store_reg_bx.
  match goal with |- context [tbind (feature ?f) ?k ?s] => change (tbind (feature f) k s) with (k (arm_feature (core s) f) s) end. cbn beta.
  rewrite (proj2 (Z.eqb_neq rd 15)) by lia. cbn [andb]. unfold store_reg. rewrite (proj2 (Z.eqb_neq rd 15)) by lia. unfold on_core.
  change (core (set_core c1 r)) with c1. rewrite put_reg_run, u32_small by (assumption || lia). eexists. split; [reflexivity|].
  exists (set_regs (zset (regs c1) rd res) c1). split_and!; [reflexivity| |reflexivity|exact Hc| |].
  - intros j Hj. rewrite reg_set by (assumption || lia). cbn [andb]. unfold reg. rewrite Hr. reflexivity.
  - apply set_regs_wf; [exact Hw1|rewrite length_zset; apply wf_regs, Hw1|apply Forall_zset; [apply wf_regs32, Hw1|exact Hres]].
  - exact Hf.
Qed.

Lemma reflag_refl c : cpu_wf c -> cf_ok c -> reflagged c c.
Proof. intros Hw Hc. split; auto. Qed.
Lemma reflag_arith c res carry v : cpu_wf c -> reflagged c (arith_flags res carry v c).
Proof. intros []. split; [reflexivity|split; assumption|unfold cf_ok; destruct carry; reflexivity|reflexivity]. Qed.
Lemma reflag_CF c carry : cpu_wf c -> reflagged c (set_CF (Z.b2z carry) c).
Proof. intros []. split; [reflexivity|split; assumption|unfold cf_ok; destruct carry; reflexivity|reflexivity]. Qed.
Lemma reflag_logic c c1 v : reflagged c c1 -> reflagged c (set_ZF v (set_NF v c1)).
Proof. intros [Hr [] Hc Hf]. split; [exact Hr|split; assumption|exact Hc|exact Hf]. Qed.
Lemma flags_arith res carry v c : flags (arith_flags res carry v c) = {| fN := Z.testbit res 31; fZ := res =? 0; fC := carry; fV := Z.testbit v 31 |}.
Proof. unfold flags, arith_flags. cbn. destruct carry; reflexivity. Qed.

(** The two forms of an operation, with and without flags. *)
Definition logic_nzcv (res : Z) (shc : bool) (f : nzcv) : nzcv := {| fN := Z.testbit res 31; fZ := res =? 0; fC := shc; fV := fV f |}.
Lemma flags_logic res carry c : flags (set_ZF res (set_NF res (set_CF (Z.b2z carry) c))) = logic_nzcv res carry (flags c).
Proof. unfold flags, logic_nzcv. cbn. destruct carry; reflexivity. Qed.

Lemma logic_store (set : bool) rd res shc r : cpu_wf (core r) -> cf_ok (core r) -> 0 <= rd < 15 -> is_u32 res ->
  exists r', (when set (gen_logic_CC res) ;* store_reg_bx rd res) (after_shift set shc r) = Done (Go tt, r') /\
    dp_post true rd res (if set then logic_nzcv res shc (flags (core r)) else flags (core r)) r r'.
Proof.
  intros Hw Hc Hd Hres. destruct set; cbn [when].
  - rewrite <- (flags_logic res shc (core r)).
    exact (post_store rd res r _ Hw Hd Hres (reflag_logic _ _ res (reflag_CF _ shc Hw))).
  - exact (post_store rd res r _ Hw Hd Hres (reflag_refl _ Hw Hc)).
Qed.
Lemma logic_test (set : bool) rd res shc r : cpu_wf (core r) -> cf_ok (core r) ->
  exists r', when set (gen_logic_CC res) (after_shift set shc r) = Done (Go tt, r') /\
    dp_post false rd res (if set then logic_nzcv res shc (flags (core r)) else flags (core r)) r r'.
Proof.
  intros Hw Hc. destruct set; cbn [when]; eexists; (split; [reflexivity|]).
  - rewrite <- (flags_logic res shc (core r)). exact (post_keep rd res r _ (reflag_logic _ _ res (reflag_CF _ shc Hw))).
  - exact (post_keep rd res r _ (reflag_refl _ Hw Hc)).
Qed.

Definition arith_nzcv (x : Z * bool * bool) : nzcv := {| fN := Z.testbit x.1.1 31; fZ := x.1.1 =? 0; fC := x.1.2; fV := x.2 |}.
(** [m] sets the flags to those of the sum [x] and returns its result. *)
Definition runs_awc (m : T Z) (x : Z * bool * bool) (r : rt) : Prop :=
  exists v, m r = Done (Go x.1.1, set_core (arith_flags x.1.1 x.1.2 v (core r)) r) /\ Z.testbit v 31 = x.2.
Lemma arith_store (set : bool) rd (m m0 : T Z) (x : Z * bool * bool) r : cpu_wf (core r) -> cf_ok (core r) -> 0 <= rd < 15 -> is_u32 x.1.1 ->
  runs_awc m x r -> m0 r = Done (Go x.1.1, r) ->
  exists r', (let* tmp := if set then m else m0 in store_reg_bx rd tmp) r = Done (Go tt, r') /\
    dp_post true rd x.1.1 (if set then arith_nzcv x else flags (core r)) r r'.
Proof.
  intros Hw Hc Hd Hres (v & Em & Ev) E0. destruct set.
  - rewrite (run_bind _ _ _ _ _ Em). unfold arith_nzcv. rewrite <- Ev, <- (flags_arith x.1.1 x.1.2 v (core r)).
    apply post_store; try assumption. apply reflag_arith, Hw.
  - rewrite (run_bind _ _ _ _ _ E0). pose proof (post_store rd x.1.1 r (core r) Hw Hd Hres (reflag_refl _ Hw Hc)) as H.
    rewrite set_core_id in H. exact H.
Qed.
Lemma arith_test (set : bool) rd (m : T Z) (x : Z * bool * bool) r : cpu_wf (core r) -> cf_ok (core r) -> runs_awc m x r ->
  exists r', when set (let* _ := m in tret tt) r = Done (Go tt, r') /\
    dp_post false rd x.1.1 (if set then arith_nzcv x else flags (core r)) r r'.
Proof.
  intros Hw Hc (v & Em & Ev). destruct set; cbn [when].
  - rewrite (run_bind _ _ _ _ _ Em). eexists. split; [reflexivity|]. unfold arith_nzcv. rewrite <- Ev, <- (flags_arith x.1.1 x.1.2 v (core r)).
    apply post_keep, reflag_arith, Hw.
  - eexists. split; [reflexivity|]. pose proof (post_keep rd x.1.1 r (core r) (reflag_refl _ Hw Hc)) as H.
    rewrite set_core_id in H. exact H.
Qed.

(** The sums without flags. *)
Lemma awc_u32 x y c : is_u32 (AddWithCarry x y c).1.1.
Proof. apply u32_range. Qed.
Lemma add_plain x y : add32 x y = (AddWithCarry x y false).1.1.
Proof. unfold AddWithCarry. cbn. unfold add32, u32. f_equal. lia. Qed.
Lemma sub_plain x y : is_u32 x -> is_u32 y -> sub32 x y = (AddWithCarry x (not32 y) true).1.1.
Proof. intros Hx Hy. rewrite sub_as_awc by assumption. reflexivity. Qed.
Lemma awc_comm x y c : AddWithCarry x y c = AddWithCarry y x c.
Proof. unfold AddWithCarry. rewrite (Z.add_comm x y), (Z.add_comm (s32 x) (s32 y)). reflexivity. Qed.
Lemma add_carry_plain x y r : cf_ok (core r) -> gen_add_carry x y r = Done (Go (AddWithCarry x y (fC (flags (core r)))).1.1, r).
Proof.
  intros Hc. unfold gen_add_carry.
  match goal with |- context [tbind (get_core CF) ?k r] => change (tbind (get_core CF) k r) with (k (CF (core r)) r) end. cbn beta.
  rewrite Hc. unfold AddWithCarry, add32, u32. cbn. rewrite Z.add_mod_idemp_l by lia. reflexivity.
Qed.
Lemma sub_carry_plain x y r : is_u32 y -> cf_ok (core r) ->
  gen_sub_carry x y r = Done (Go (AddWithCarry x (not32 y) (fC (flags (core r)))).1.1, r).
Proof.
  intros Hy Hc. unfold gen_sub_carry.
  match goal with |- context [tbind (get_core CF) ?k r] => change (tbind (get_core CF) k r) with (k (CF (core r)) r) end. cbn beta.
  rewrite Hc, not32_sub by exact Hy. unfold AddWithCarry, add32, sub32, u32. cbn [fst snd]. cbn zeta.
  rewrite Z.add_mod_idemp_l, Zminus_mod_idemp_l by lia. set (k := Z.b2z _).
  assert (E : (x - y + k - 1) mod 2 ^ 32 = (x + (2 ^ 32 - 1 - y) + k) mod 2 ^ 32).
  { rewrite <- (Z.mod_add (x - y + k - 1) 1 (2 ^ 32)) by lia. f_equal. lia. }
  rewrite E. reflexivity.
Qed.
Lemma adc_runs x y r : cf_ok (core r) -> is_u32 x -> is_u32 y -> runs_awc (gen_adc_CC x y) (AddWithCarry x y (fC (flags (core r)))) r.
Proof. intros Hc Hx Hy. exact (adc_CC_awc x y _ r Hc Hx Hy). Qed.
Lemma sub_runs x y r : is_u32 x -> is_u32 y -> runs_awc (gen_sub_CC x y) (AddWithCarry x (not32 y) true) r.
Proof. intros Hx Hy. exact (sub_CC_awc x y Hy r Hx). Qed.
Lemma add_runs x y r : is_u32 x -> is_u32 y -> runs_awc (gen_add_CC x y) (AddWithCarry x y false) r.
Proof. intros Hx Hy. exact (add_CC_awc x y r Hx Hy). Qed.

Definition logical (op : Z) : bool := match op with 0 | 1 | 8 | 9 | 12 | 13 | 14 | 15 => true | _ => false end.

Lemma dp_op_spec op rd a b (set : bool) shc r : cpu_wf (core r) -> cf_ok (core r) -> 0 <= op < 16 -> 0 <= rd < 15 -> is_u32 a -> is_u32 b ->
  let l := logical op && set in
  let x := ref_dp op a b shc (flags (core r)) in
  exists r', arm_dp_op op rd a b set l (after_shift l shc r) = Done (Go tt, r') /\
    dp_post (writes_rd op) rd x.1 (if set then x.2 else flags (core r)) r r'.
Proof.
  intros Hw Hc Hop Hd Ha Hb. assert (Hne : (rd =? 15) = false) by (apply Z.eqb_neq; lia).
  assert (Hnl : forall c, after_shift false c r = r) by (intros; apply set_core_id).
  nibble op; [..|exact Hop]; clear op Hop; cbn [logical andb]; rewrite ?Hnl; cbn zeta; unfold arm_dp_op; rewrite ?Hne, ?Bool.andb_false_r; cbn [Z.eqb].
  - apply logic_store; try assumption. apply landl_u32, Ha.
  - apply logic_store; try assumption. apply lxor_u32; assumption.
  - apply (arith_store set rd _ _ (AddWithCarry a (not32 b) true)); try assumption; [apply awc_u32|apply sub_runs; assumption|rewrite sub_plain by assumption; reflexivity].
  - cbn [ref_dp]. rewrite awc_comm.
    apply (arith_store set rd _ _ (AddWithCarry b (not32 a) true)); try assumption; [apply awc_u32|apply sub_runs; assumption|rewrite sub_plain by assumption; reflexivity].
  - apply (arith_store set rd _ _ (AddWithCarry a b false)); try assumption; [apply awc_u32|apply add_runs; assumption|rewrite add_plain; reflexivity].
  - apply (arith_store set rd _ _ (AddWithCarry a b (fC (flags (core r))))); try assumption; [apply awc_u32|apply adc_runs; assumption|apply add_carry_plain, Hc].
  - apply (arith_store set rd _ _ (AddWithCarry a (not32 b) (fC (flags (core r))))); try assumption;
      [apply awc_u32|apply adc_runs; [assumption..|apply not32_u32, Hb]|apply sub_carry_plain; assumption].
  - cbn [ref_dp]. rewrite awc_comm. apply (arith_store set rd _ _ (AddWithCarry b (not32 a) (fC (flags (core r))))); try assumption;
      [apply awc_u32|apply adc_runs; [assumption..|apply not32_u32, Ha]|apply sub_carry_plain; assumption].
  - apply logic_test; assumption.
  - apply logic_test; assumption.
  - apply (arith_test set rd _ (AddWithCarry a (not32 b) true)); try assumption. apply sub_runs; assumption.
  - apply (arith_test set rd _ (AddWithCarry a b false)); try assumption. apply add_runs; assumption.
  - apply logic_store; try assumption. apply lor_range32; assumption.
  - apply logic_store; assumption.
  - apply logic_store; try assumption. apply landl_u32, Ha.
  - apply logic_store; try assumption. apply not32_u32, Hb.
Qed.

Lemma table_logical op : 0 <= op < 16 -> znth table_logic_cc op = Some (Z.b2z (logical op)).
Proof. intros H. nibble op; [reflexivity..|exact H]. Qed.

Lemma regval_shift l c r n : regval (after_shift l c r) n = regval r n.
Proof. unfold regval, after_shift. destruct l; reflexivity. Qed.
Lemma shift_wf l c r : cpu_wf (core r) -> cpu_wf (core (after_shift l c r)).
Proof. intros []. unfold after_shift. destruct l; split; assumption. Qed.
Lemma ref_dp_ignores op a b c f : 0 <= op < 16 -> negb (op =? 0xf) && negb (op =? 0xd) = false -> ref_dp op 0 b c f = ref_dp op a b c f.
Proof. intros Hop. nibble op; [..|exact Hop]; cbn; congruence. Qed.

Lemma data_proc_spec insn r : cpu_wf (core r) -> cf_ok (core r) -> fld insn 12 0xf <> 15 ->
  let s := ref_operand2 insn (regval r) (fC (flags (core r))) in
  let x := ref_dp (fld insn 21 0xf) (regval r (fld insn 16 0xf)) s.1 s.2 (flags (core r)) in
  exists r', arm_data_proc insn r = Done (Go tt, r') /\
    dp_post (writes_rd (fld insn 21 0xf)) (fld insn 12 0xf) x.1 (if bit insn 20 then x.2 else flags (core r)) r r'.
Proof.
  intros Hw Hc Hd s x. pose proof (fld4 insn 12) as Hrd. pose proof (fld4 insn 21) as Hop. unfold arm_data_proc.
  rewrite table_logical by exact Hop. cbn [defined]. rewrite (run_bind _ _ r (Z.b2z (logical (fld insn 21 0xf))) r eq_refl).
  assert (El : negb (Z.b2z (logical (fld insn 21 0xf)) =? 0) = logical (fld insn 21 0xf)) by (destruct (logical _); reflexivity).
  rewrite El. set (l := logical (fld insn 21 0xf) && bit insn 20).
  destruct (operand2_spec insn l r Hw Hc) as [E2 Hb]. fold s in E2, Hb. rewrite (run_bind _ _ _ _ _ E2).
  destruct (negb (fld insn 21 0xf =? 0xf) && negb (fld insn 21 0xf =? 0xd)) eqn:Eop.
  - rewrite run_load by (apply shift_wf, Hw || apply fld4). rewrite regval_shift.
    apply dp_op_spec; try assumption; [lia|apply regval_u32; [exact Hw|apply fld4]].
  - rewrite (run_bind _ _ (after_shift l s.2 r) 0 (after_shift l s.2 r) eq_refl). unfold x.
    rewrite <- (ref_dp_ignores _ (regval r (fld insn 16 0xf)) _ _ _ Hop Eop).
    apply dp_op_spec; try assumption; [lia|unfold is_u32; lia].
Qed.

(** ** Conditions *)

Definition ConditionPassed (cond : Z) (f : nzcv) : bool :=
  let result := match Z.shiftr cond 1 with
    | 0 => fZ f | 1 => fC f | 2 => fN f | 3 => fV f
    | 4 => fC f && negb (fZ f)
    | 5 => Bool.eqb (fN f) (fV f)
    | 6 => Bool.eqb (fN f) (fV f) && negb (fZ f)
    | _ => true
    end in
  if bit cond 0 && negb (cond =? 0xf) then negb result else result.

Lemma sign_test x : (s32 x <? 0) = Z.testbit x 31.
Proof.
  rewrite <- testbit_s32 by lia. pose proof (s32_range x) as H. destruct (Z.ltb_spec (s32 x) 0).
  - rewrite <- (Z.lnot_involutive (s32 x)), Z.lnot_spec by lia. rewrite (testbit_above (Z.lnot (s32 x)) 31) by (unfold Z.lnot; lia). reflexivity.
  - rewrite (testbit_above (s32 x) 31) by lia. reflexivity.
Qed.
Lemma sign_test_ge x : (0 <=? s32 x) = negb (Z.testbit x 31).
Proof. rewrite <- sign_test, Z.ltb_antisym, negb_involutive. reflexivity. Qed.

(** The branch over the instruction is taken exactly when its condition
    fails. *)
Lemma test_cc_spec cond c : 0 <= cond < 14 -> test_cc (Z.lxor cond 1) c = Some (negb (ConditionPassed cond (flags c))).
Proof.
  intros Hc. assert (Hx : 0 <= cond < 16) by lia. revert Hc. nibble cond; [..|exact Hx]; intros Hc; try (exfalso; lia); clear Hc Hx;
    unfold test_cc, ConditionPassed, flags; cbn zeta;
    rewrite ?sign_test, ?sign_test_ge, ?Z.lxor_spec; cbn [fN fZ fC fV];
    generalize (Z.testbit (NF c) 31) (Z.testbit (VF c) 31) (ZF c =? 0) (CF c =? 0); intros [] [] [] []; reflexivity.
Qed.

(** The words of the data-processing space. *)
Definition arm_is_dp (insn : Z) : bool :=
  negb (eqm insn 0x0f900000 0x03000000)
  && negb (eqm insn 0x0f900000 0x01000000 && negb (eqm insn 0x00000090 0x00000090))
  && ((eqm insn 0x0e000000 0 && negb (eqm insn 0x00000090 0x90)) || eqm insn 0x0e000000 (Z.shiftl 1 25)).

Lemma test_cc_runs cond r : 0 <= cond < 14 ->
  gen_test_cc (Z.lxor cond 1) r = Done (if ConditionPassed cond (flags (core r)) then Go tt else Skip, r).
Proof.
  intros Hc. unfold gen_test_cc, branch_cc, tbind, get_core, lift, bind, gets, ret, tret.
  rewrite test_cc_spec by exact Hc. destruct (ConditionPassed cond (flags (core r))); reflexivity.
Qed.

(** C25.  The ARM data-processing instructions are the architecture's: for
    every word of that space with a destination other than the PC, the
    translated code does nothing when the condition fails on N, Z, C and V;
    otherwise the destination gets the pseudocode's result ([Shift_C] of the
    second operand, [AddWithCarry] or the logical operation), compares and
    tests write none, the flags are the pseudocode's when the S bit is set
    and unchanged otherwise, and no other register or field changes. *)
Theorem data_processing_correct insn r : is_u32 insn -> arm_is_dp insn = true -> Z.shiftr insn 28 <> 0xf ->
  arm_feature (core r) ARM_FEATURE_M = false -> cpu_wf (core r) -> cf_ok (core r) -> fld insn 12 0xf <> 15 ->
  let s := ref_operand2 insn (regval r) (fC (flags (core r))) in
  let x := ref_dp (fld insn 21 0xf) (regval r (fld insn 16 0xf)) s.1 s.2 (flags (core r)) in
  if ConditionPassed (Z.shiftr insn 28) (flags (core r)) then
    exists r', disas_arm_insn insn r = Done (Go tt, r') /\
      dp_post (writes_rd (fld insn 21 0xf)) (fld insn 12 0xf) x.1 (if bit insn 20 then x.2 else flags (core r)) r r'
  else disas_arm_insn insn r = Done (Skip, r).
Proof.
  intros Hi Hdp Hf HM Hw Hc Hd s x. unfold disas_arm_insn, catch_illegal.
  assert (Hcond : 0 <= Z.shiftr insn 28 < 16).
  { rewrite Z.shiftr_div_pow2 by lia. unfold is_u32 in Hi. split; [apply Z.div_pos; lia|apply Z.div_lt_upper_bound; lia]. }
  assert (Ec : arm_conditional insn = arm_data_proc insn).
  { unfold arm_is_dp, arm_conditional in *. apply andb_prop in Hdp as [Hdp H3]. apply andb_prop in Hdp as [H1 H2].
    apply negb_true_iff in H1, H2. rewrite H1, H2, H3. reflexivity. }
  assert (Eb : arm_body insn r = (when (negb (Z.shiftr insn 28 =? 0xe)) (gen_test_cc (Z.lxor (Z.shiftr insn 28) 1)) ;* arm_data_proc insn) r).
  { unfold arm_body. rewrite <- Ec.
    match goal with |- context [tbind IS_M ?k r] => change (tbind IS_M k r) with (k (arm_feature (core r) ARM_FEATURE_M) r) end. cbn beta.
    rewrite HM. rewrite (proj2 (Z.eqb_neq _ _) Hf). reflexivity. }
  pose proof (data_proc_spec insn r Hw Hc Hd) as (r' & E & Hp). fold s x in Hp.
  assert (Hpass : ConditionPassed (Z.shiftr insn 28) (flags (core r)) = true -> arm_body insn r = Done (Go tt, r')).
  { intros Hpass. rewrite Eb. destruct (Z.eqb_spec (Z.shiftr insn 28) 0xe) as [He|He]; cbn [negb when]; [exact E|].
    unfold tbind at 1. rewrite (bind_run _ _ _ _ _ (test_cc_runs (Z.shiftr insn 28) r ltac:(lia))), Hpass. exact E. }
  destruct (ConditionPassed (Z.shiftr insn 28) (flags (core r))) eqn:Ep.
  - exists r'. rewrite (bind_run _ _ _ _ _ (Hpass eq_refl)). split; [reflexivity|exact Hp].
  - assert (Hs : arm_body insn r = Done (Skip, r)).
    { rewrite Eb. destruct (Z.eqb_spec (Z.shiftr insn 28) 0xe) as [He|He]; [rewrite He in Ep; discriminate Ep|]. cbn [negb when].
      unfold tbind. rewrite (bind_run _ _ _ _ _ (test_cc_runs (Z.shiftr insn 28) r ltac:(lia))), Ep. reflexivity. }
    rewrite (bind_run _ _ _ _ _ Hs). reflexivity.
Qed.
End DataProc.
