(* ===== verification/TransRam.v ===== *)
(** * Translated code on RAM: PUSH and POP

    On memory that keeps what is stored, a Thumb PUSH followed by the POP of
    the same list restores the registers and the stack pointer, whatever the
    code in between does to the registers. *)
From stdpp Require Import base list.
From S2P Require Import Prelude Double ArmTable State CpuState Errors OpHelper CpuMode Sys V7m Dsp Tcg TransGen TransArm TransThumb2 TransThumb.
From S2P Require Import TransUser TransConfined TransDp.
Open Scope Z_scope.

(** RAM as aligned word accesses see it: loads return what was stored last,
    nothing faults and the processor state is not touched. *)
Class Ram `{GU : Guest} := {
  ram_word : bus -> Z -> Z;
  in_ram : Z -> bool;
  ram_u32 b a : is_u32 (ram_word b a);
  ram_ld a i c b : in_ram a = true -> is_u32 a -> a mod 4 = 0 -> bus_ld MO_32 a i (c, b) = (Some (ram_word b a), (c, b));
  ram_st a v i c b : in_ram a = true -> is_u32 a -> a mod 4 = 0 -> is_u32 v -> exists b',
    bus_st MO_32 a v i (c, b) = (true, (c, b')) /\ ram_word b' a = v /\
    forall a', is_u32 a' -> a' mod 4 = 0 -> a' <> a -> ram_word b' a' = ram_word b a'
}.

Section Ram.
Context {GU : Guest} {RA : Ram} {HO : HostOps}.

Lemma ld32_run a u r : in_ram a = true -> is_u32 a -> a mod 4 = 0 -> gen_ld32 a u r = Done (Go (ram_word (rbus r) a), r).
Proof. intros Hin Ha Hm. unfold gen_ld32, qemu_ld. rewrite ram_ld by assumption. destruct r; reflexivity. Qed.
Lemma st32_run v a u r : in_ram a = true -> is_u32 a -> a mod 4 = 0 -> is_u32 v -> exists b',
  gen_st32 v a u r = Done (Go tt, set_rbus b' r) /\ ram_word b' a = v /\
  forall a', is_u32 a' -> a' mod 4 = 0 -> a' <> a -> ram_word b' a' = ram_word (rbus r) a'.
Proof.
  intros Hin Ha Hm Hv. destruct (ram_st a v (mem_index u) (core r) (rbus r) Hin Ha Hm Hv) as (b' & E & Hw & Ho).
  exists b'. split; [|split; assumption]. unfold gen_st32, qemu_st. rewrite E. destruct r; reflexivity.
Qed.
Lemma run_user {B} (k : bool -> T B) r : tbind IS_USER k r = k (user (dc r)) r.
Proof. reflexivity. Qed.
Lemma reg_low r n : 0 <= n < 15 -> regval r n = reg (core r) n.
Proof. intros Hn. unfold regval. rewrite (proj2 (Z.eqb_neq n 15)) by lia. reflexivity. Qed.
Lemma store_low n v r : cpu_wf (core r) -> 0 <= n < 15 -> is_u32 v ->
  store_reg n v r = Done (Go tt, set_core (set_regs (zset (regs (core r)) n v) (core r)) r).
Proof.
  intros Hw Hn Hv. unfold store_reg. rewrite (proj2 (Z.eqb_neq n 15)) by lia. unfold on_core.
  rewrite put_reg_run, u32_small by (assumption || lia). reflexivity.
Qed.
Lemma reg_wf_set c n v : cpu_wf c -> is_u32 v -> cpu_wf (set_regs (zset (regs c) n v) c).
Proof.
  intros Hw Hv. apply set_regs_wf; [exact Hw|rewrite length_zset; apply wf_regs, Hw|apply Forall_zset; [apply wf_regs32, Hw|exact Hv]].
Qed.

(** ** The loops *)

(** [n] words from the aligned address [a] are RAM and do not wrap. *)
Definition ram_block (a : Z) (n : nat) : Prop :=
  0 <= a /\ a mod 4 = 0 /\ a + 4 * Z.of_nat n <= 2 ^ 32 /\ forall k, (k < n)%nat -> in_ram (a + 4 * Z.of_nat k) = true.
Lemma block_head a n : ram_block a (S n) -> in_ram a = true /\ is_u32 a /\ a mod 4 = 0.
Proof.
  intros (H0 & Hm & Hb & Hin). split; [|split; [unfold is_u32; lia|exact Hm]].
  specialize (Hin 0%nat ltac:(lia)). cbn in Hin. rewrite Z.add_0_r in Hin. exact Hin.
Qed.
Lemma block_tail a n : ram_block a (S n) -> n <> 0%nat -> u32 (a + 4) = a + 4 /\ ram_block (a + 4) n.
Proof.
  intros (H0 & Hm & Hb & Hin) Hn. split; [apply u32_small; unfold is_u32; lia|]. unfold ram_block. split_and!; [lia| |lia|].
  - rewrite Z.add_mod, Hm by lia. reflexivity.
  - intros k Hk. replace (a + 4 + 4 * Z.of_nat k) with (a + 4 * Z.of_nat (S k)) by lia. apply Hin. lia.
Qed.

Lemma push_loop insn l : bit insn 11 = false -> Forall (fun i => 0 <= i < 8) l -> forall a r, cpu_wf (core r) -> ram_block a (length l) ->
  exists b', tfold l (push_pop_body insn) a r = Done (Go (if decide (l = []) then a else u32 (a + 4 * Z.of_nat (length l))), set_rbus b' r) /\
    (forall k i, l !! k = Some i -> ram_word b' (a + 4 * Z.of_nat k) = reg (core r) i) /\
    (forall a', is_u32 a' -> a' mod 4 = 0 -> a' < a \/ a + 4 * Z.of_nat (length l) <= a' -> ram_word b' a' = ram_word (rbus r) a').
Proof.
  intros Hbit. induction l as [|i l IH]; intros Hl a r Hw Hb.
  { exists (rbus r). split; [destruct r; reflexivity|]. split; [intros k j [=]|reflexivity]. }
  apply Forall_cons in Hl as [Hi Hl]. cbn [tfold length]. pose proof (block_head _ _ Hb) as (Hin & Ha & Hm).
  destruct (st32_run (reg (core r) i) a (user (dc r)) r Hin Ha Hm) as (b1 & E1 & W1 & O1).
  { rewrite <- reg_low by lia. apply regval_u32; [exact Hw|lia]. }
  assert (Eb : push_pop_body insn a i r = Done (Go (add32 a 4), set_rbus b1 r)).
  { unfold push_pop_body. rewrite run_user, Hbit. unfold tbind at 1. unfold tbind at 1.
    rewrite (bind_run _ _ _ (Go tt) (set_rbus b1 r)); [reflexivity|]. rewrite (bind_run _ _ _ _ _ (load_reg_run i r Hw ltac:(lia))).
    rewrite reg_low by lia. exact E1. }
  rewrite (run_bind _ _ _ _ _ Eb). rewrite decide_False by discriminate. unfold add32.
  destruct l as [|j l].
  { exists b1. cbn [tfold length]. split; [reflexivity|]. split.
    - intros [|k] j Hk; [|discriminate]. injection Hk as <-. rewrite Z.add_0_r. exact W1.
    - intros a' Ha' Hm' Hout. apply O1; [assumption..|]. cbn in Hout. lia. }
  destruct (block_tail _ _ Hb) as [Eu Hb']; [discriminate|]. rewrite Eu.
  destruct (IH Hl (a + 4) (set_rbus b1 r) Hw Hb') as (b2 & E2 & W2 & O2). exists b2. rewrite E2. rewrite decide_False by discriminate.
  split; [do 3 f_equal; cbn [length]; f_equal; lia|]. split.
  - intros [|k] x Hk.
    + injection Hk as <-. cbn [Z.of_nat Z.mul]. rewrite Z.add_0_r. rewrite O2 by (assumption || lia). exact W1.
    + cbn in Hk. replace (a + 4 * Z.of_nat (S k)) with (a + 4 + 4 * Z.of_nat k) by lia. exact (W2 k x Hk).
  - intros a' Ha' Hm' Hout. rewrite O2 by (try assumption; cbn [length] in *; lia). apply O1; [assumption..|]. cbn [length] in Hout. lia.
Qed.

Lemma pop_loop insn l : bit insn 11 = true -> Forall (fun i => 0 <= i < 8) l -> NoDup l -> forall a r, cpu_wf (core r) -> ram_block a (length l) ->
  exists rg, tfold l (push_pop_body insn) a r = Done (Go (if decide (l = []) then a else u32 (a + 4 * Z.of_nat (length l))), set_core (set_regs rg (core r)) r) /\
    cpu_wf (set_regs rg (core r)) /\
    (forall k i, l !! k = Some i -> reg (set_regs rg (core r)) i = ram_word (rbus r) (a + 4 * Z.of_nat k)) /\
    (forall j, 0 <= j < 16 -> j ∉ l -> reg (set_regs rg (core r)) j = reg (core r) j).
Proof.
  intros Hbit. induction l as [|i l IH]; intros Hl Hd a r Hw Hb.
  { exists (regs (core r)). assert (E : set_regs (regs (core r)) (core r) = core r) by (destruct (core r); reflexivity). rewrite E.
    split; [destruct r; reflexivity|]. split; [exact Hw|]. split; [intros k j [=]|reflexivity]. }
  apply Forall_cons in Hl as [Hi Hl]. apply NoDup_cons in Hd as [Hni Hd]. cbn [tfold]. pose proof (block_head _ _ Hb) as (Hin & Ha & Hm).
  set (v := ram_word (rbus r) a). assert (Hv : is_u32 v) by apply ram_u32.
  set (c1 := set_regs (zset (regs (core r)) i v) (core r)). assert (Hw1 : cpu_wf c1) by (apply reg_wf_set; assumption).
  assert (Eb : push_pop_body insn a i r = Done (Go (add32 a 4), set_core c1 r)).
  { unfold push_pop_body. rewrite run_user, Hbit. unfold tbind at 1. unfold tbind at 1.
    rewrite (bind_run _ _ _ (Go tt) (set_core c1 r)); [reflexivity|]. rewrite (bind_run _ _ _ _ _ (ld32_run a _ r Hin Ha Hm)).
    apply store_low; [exact Hw|lia|exact Hv]. }
  assert (Hreg : forall j, 0 <= j < 16 -> reg c1 j = if j =? i then v else reg (core r) j) by (intros; apply reg_set; [exact Hw|lia|assumption]).
  rewrite (run_bind _ _ _ _ _ Eb). rewrite decide_False by discriminate. unfold add32.
  destruct l as [|j l].
  { exists (zset (regs (core r)) i v). fold c1. split; [reflexivity|]. split; [exact Hw1|]. split.
    - intros [|k] x Hk; [|discriminate]. injection Hk as <-. rewrite Hreg, Z.eqb_refl by lia. unfold v. f_equal. cbn. lia.
    - intros x Hx Hnx. rewrite Hreg by exact Hx. destruct (Z.eqb_spec x i) as [->|]; [|reflexivity]. exfalso. apply Hnx, elem_of_cons. auto. }
  destruct (block_tail _ _ Hb) as [Eu Hb']; [discriminate|]. rewrite Eu.
  destruct (IH Hl Hd (a + 4) (set_core c1 r) Hw1 Hb') as (rg & E2 & W2 & V2 & O2). change (core (set_core c1 r)) with c1 in *.
  change (set_regs rg c1) with (set_regs rg (core r)) in *. exists rg. rewrite E2, decide_False by discriminate. split; [do 3 f_equal; cbn [length]; f_equal; lia|]. split; [exact W2|]. split.
  - intros [|k] x Hk.
    + injection Hk as <-. rewrite (O2 i) by (assumption || lia). rewrite Hreg, Z.eqb_refl by lia. unfold v. f_equal. cbn. lia.
    + cbn in Hk. replace (a + 4 * Z.of_nat (S k)) with (a + 4 + 4 * Z.of_nat k) by lia. exact (V2 k x Hk).
  - intros x Hx Hnx. rewrite elem_of_cons in Hnx. rewrite O2 by tauto. rewrite Hreg by exact Hx.
    destruct (Z.eqb_spec x i) as [->|]; [exfalso; apply Hnx; auto|reflexivity].
Qed.

(** ** PUSH and POP *)

(** The number of words an instruction transfers. *)
Definition push_count (insn : Z) : nat := (length (low_list insn) + (if bit insn 8 then 1 else 0))%nat.
Lemma low_list_ok insn : Forall (fun i => 0 <= i < 8) (low_list insn) /\ NoDup (low_list insn).
Proof.
  split; [|apply NoDup_filter, NoDup_seqZ]. apply Forall_forall. intros i Hi. exact (low_list_range insn i Hi).
Qed.

(** What PUSH leaves: the new stack pointer and the registers in memory. *)
Lemma push_run insn r : bit insn 11 = false -> eqm insn 0x0900 0x0900 = false -> cpu_wf (core r) ->
  let n := push_count insn in let sp := reg (core r) 13 - 4 * Z.of_nat n in ram_block sp n ->
  exists b', thumb_push_pop insn r = Done (Go tt, set_rbus b' (set_core (set_regs (zset (regs (core r)) 13 sp) (core r)) r)) /\
    (forall k i, low_list insn !! k = Some i -> ram_word b' (sp + 4 * Z.of_nat k) = reg (core r) i) /\
    (bit insn 8 = true -> ram_word b' (sp + 4 * Z.of_nat (length (low_list insn))) = reg (core r) 14) /\
    (forall a', is_u32 a' -> a' mod 4 = 0 -> a' < sp \/ reg (core r) 13 <= a' -> ram_word b' a' = ram_word (rbus r) a').
Proof.
  intros Hbit Heq Hw n sp Hb. destruct (low_list_ok insn) as [Hlo _]. set (l := low_list insn) in *.
  assert (Hsp : is_u32 (reg (core r) 13)) by (rewrite <- (reg_low r 13) by lia; apply regval_u32; [exact Hw|lia]).
  assert (Hn : Z.of_nat n = Z.of_nat (length l) + (if bit insn 8 then 1 else 0)).
  { unfold n, push_count. fold l. destruct (bit insn 8); lia. }
  pose proof Hb as (H0 & Hm & Hlim & Hin).
  assert (Hb1 : ram_block sp (length l)) by (split_and!; [lia|exact Hm|destruct (bit insn 8); lia|intros k Hk; apply Hin; destruct (bit insn 8); lia]).
  destruct (push_loop insn l Hbit Hlo sp r Hw Hb1) as (b1 & E1 & W1 & O1).
  assert (Ea : (if decide (l = []) then sp else u32 (sp + 4 * Z.of_nat (length l))) = u32 (sp + 4 * Z.of_nat (length l))).
  { destruct (decide (l = [])) as [->|]; [|reflexivity]. cbn. rewrite Z.add_0_r. symmetry. apply u32_small. unfold is_u32 in *. lia. }
  rewrite Ea in E1.
  unfold thumb_push_pop. rewrite run_load by (assumption || lia). rewrite reg_low by lia. rewrite Hbit, Heq. cbn [negb when]. cbn zeta. fold l.
  assert (Eo : (if bit insn 8 then 4 else 0) + 4 * Z.of_nat (length l) = 4 * Z.of_nat n) by (destruct (bit insn 8); lia). rewrite Eo.
  assert (Es : add32 (reg (core r) 13) (- (4 * Z.of_nat n)) = sp).
  { unfold add32. replace (reg (core r) 13 + - (4 * Z.of_nat n)) with sp by (unfold sp; lia). apply u32_small. unfold is_u32 in *. lia. }
  assert (Eend : add32 (u32 (sp + 4 * Z.of_nat n)) (- (4 * Z.of_nat n)) = sp).
  { unfold add32, u32. rewrite Z.add_mod_idemp_l by lia. replace (sp + 4 * Z.of_nat n + - (4 * Z.of_nat n)) with sp by lia.
    apply u32_small. unfold is_u32 in *. lia. }
  rewrite Es, (run_bind _ _ _ _ _ E1), run_user. change (dc (set_rbus b1 r)) with (dc r).
  destruct (bit insn 8) eqn:E8.
  - set (a1 := sp + 4 * Z.of_nat (length l)) in *. assert (Ha1 : is_u32 a1) by (unfold is_u32 in *; lia).
    assert (Hm1 : a1 mod 4 = 0) by (unfold a1; rewrite Z.add_mod, Hm by lia; rewrite (Z.mul_comm 4), Z.mod_mul by lia; reflexivity).
    destruct (st32_run (reg (core r) 14) a1 (user (dc r)) (set_rbus b1 r)) as (b2 & E2 & W2 & O2); [apply Hin; lia|assumption..| |].
    { rewrite <- (reg_low r 14) by lia. apply regval_u32; [exact Hw|lia]. }
    rewrite (u32_small a1) by exact Ha1.
    erewrite run_bind; [|erewrite run_bind; [|rewrite run_load by (exact Hw || lia); rewrite reg_low by lia; erewrite run_bind; [reflexivity|exact E2]]; reflexivity].
    cbn beta iota.
    assert (Ea2 : add32 a1 4 = u32 (sp + 4 * Z.of_nat n)) by (unfold add32; f_equal; lia). rewrite Ea2, Eend.
    rewrite (run_bind _ _ _ _ _ (store_low 13 sp (set_rbus b2 (set_rbus b1 r)) Hw ltac:(lia) ltac:(unfold is_u32 in *; lia))).
    exists b2. split; [reflexivity|]. cbn [rbus set_rbus] in O2. split_and!.
    + intros k i Hk. apply lookup_lt_Some in Hk as Hlt. rewrite O2; [exact (W1 k i Hk)|unfold is_u32 in *; lia| |lia].
      rewrite Z.add_mod, Hm by lia. rewrite (Z.mul_comm 4), Z.mod_mul by lia. reflexivity.
    + intros _. exact W2.
    + intros a' Ha' Hm' Hout. rewrite O2 by (try assumption; lia). apply O1; [assumption..|lia].
  - rewrite (run_bind _ _ (set_rbus b1 r) (0, u32 (sp + 4 * Z.of_nat (length l))) (set_rbus b1 r) eq_refl). cbn beta iota.
    replace (Z.of_nat (length l)) with (Z.of_nat n) by lia. rewrite Eend.
    rewrite (run_bind _ _ _ _ _ (store_low 13 sp (set_rbus b1 r) Hw ltac:(lia) ltac:(unfold is_u32 in *; lia))).
    exists b1. split; [reflexivity|]. split_and!; [exact W1|discriminate|]. intros a' Ha' Hm' Hout. apply O1; [assumption..|lia].
Qed.

(** A return to [v]: the PC without bit 0, which from v5 on selects the
    instruction set. *)
Lemma pop_return_run v r : cpu_wf (core r) -> is_u32 v -> exists r',
  store_reg_from_load 15 v r = Done (Go tt, r') /\ rbus r' = rbus r /\ cpu_wf (core r') /\
  (forall j, 0 <= j < 16 -> reg (core r') j = if j =? 15 then Z.land v (not32 1) else reg (core r) j) /\
  thumb (core r') = if arm_feature (core r) ARM_FEATURE_V5 then Z.land v 1 else thumb (core r).
Proof.
  intros Hw Hv. assert (Hu : is_u32 (Z.land v (not32 1))) by (apply landl_u32, Hv).
  assert (Hp : put_reg 15 (Z.land v (not32 1)) (core r) = Done (tt, set_regs (zset (regs (core r)) 15 (Z.land v (not32 1))) (core r))).
  { rewrite put_reg_run, u32_small by (assumption || lia). reflexivity. }
  unfold store_reg_from_load.
  match goal with |- context [tbind (feature ?f) ?k ?s] => change (tbind (feature f) k s) with (k (arm_feature (core s) f) s) end. cbn beta.
  pose proof (reg_wf_set (core r) 15 _ Hw Hu) as Hw'. pose proof (reg_set (core r) 15 (Z.land v (not32 1))) as Hreg.
  destruct (arm_feature (core r) ARM_FEATURE_V5); cbn [Z.eqb Pos.eqb andb]; unfold gen_bx, store_reg, on_core; cbn [Z.eqb Pos.eqb];
    unfold tbind, upd_dc, upd_core, lift, bind, modify, ret; cbn [core set_dc]; rewrite Hp; eexists; (split; [reflexivity|]); cbn [rbus core set_core set_dc];
    (split; [reflexivity|]); (split; [destruct Hw'; split; assumption|]); (split; [|reflexivity]); intros j Hj; apply Hreg; assumption || lia.
Qed.

Lemma pop_run insn r : bit insn 11 = true -> eqm insn 0x0900 0x0900 = bit insn 8 -> cpu_wf (core r) ->
  let n := push_count insn in let sp := reg (core r) 13 in ram_block sp n ->
  exists r', thumb_push_pop insn r = Done (Go tt, r') /\ rbus r' = rbus r /\ cpu_wf (core r') /\ reg (core r') 13 = u32 (sp + 4 * Z.of_nat n) /\
    (forall k i, low_list insn !! k = Some i -> reg (core r') i = ram_word (rbus r) (sp + 4 * Z.of_nat k)) /\
    (forall j, 0 <= j < 15 -> j <> 13 -> j ∉ low_list insn -> reg (core r') j = reg (core r) j) /\
    (let ra := ram_word (rbus r) (sp + 4 * Z.of_nat (length (low_list insn))) in
     if bit insn 8 then reg (core r') 15 = Z.land ra (not32 1) /\
       thumb (core r') = if arm_feature (core r) ARM_FEATURE_V5 then Z.land ra 1 else thumb (core r)
     else reg (core r') 15 = reg (core r) 15).
Proof.
  intros Hbit Heq Hw n sp Hb. destruct (low_list_ok insn) as [Hlo Hnd]. set (l := low_list insn) in *.
  assert (Hsp : is_u32 sp) by (unfold sp; rewrite <- (reg_low r 13) by lia; apply regval_u32; [exact Hw|lia]).
  assert (Hn : Z.of_nat n = Z.of_nat (length l) + (if bit insn 8 then 1 else 0)) by (unfold n, push_count; fold l; destruct (bit insn 8); lia).
  pose proof Hb as (H0 & Hm & Hlim & Hin).
  assert (Hb1 : ram_block sp (length l)) by (split_and!; [lia|exact Hm|destruct (bit insn 8); lia|intros k Hk; apply Hin; destruct (bit insn 8); lia]).
  destruct (pop_loop insn l Hbit Hlo Hnd sp r Hw Hb1) as (rg & E1 & W1 & V1 & O1). set (c1 := set_regs rg (core r)) in *.
  assert (Ea : (if decide (l = []) then sp else u32 (sp + 4 * Z.of_nat (length l))) = u32 (sp + 4 * Z.of_nat (length l))).
  { destruct (decide (l = [])) as [->|]; [|reflexivity]. cbn. rewrite Z.add_0_r. symmetry. apply u32_small, Hsp. }
  rewrite Ea in E1. assert (Hl13 : forall j, 8 <= j -> j ∉ l) by (intros j Hj Hx; rewrite Forall_forall in Hlo; apply Hlo in Hx; lia).
  unfold thumb_push_pop. rewrite run_load by (assumption || lia). rewrite reg_low by lia. rewrite Hbit, Heq. cbn [negb when]. cbn zeta. fold l sp.
  rewrite (run_bind _ _ _ _ _ E1), run_user.
  set (c2 := set_regs (zset (regs c1) 13 (u32 (sp + 4 * Z.of_nat n))) c1).
  assert (Hw2 : cpu_wf c2) by (apply reg_wf_set; [exact W1|apply u32_range]).
  assert (R2 : forall j, 0 <= j < 16 -> reg c2 j = if j =? 13 then u32 (sp + 4 * Z.of_nat n) else reg c1 j) by (intros; apply reg_set; [exact W1|lia|assumption]).
  assert (L2 : forall k i, l !! k = Some i -> reg c2 i = ram_word (rbus r) (sp + 4 * Z.of_nat k)).
  { intros k i Hk. assert (Hi : 0 <= i < 8) by exact (Forall_lookup_1 _ _ _ _ Hlo Hk).
    rewrite R2, (proj2 (Z.eqb_neq i 13)) by lia. exact (V1 k i Hk). }
  assert (K2 : forall j, 0 <= j < 16 -> j <> 13 -> j ∉ l -> reg c2 j = reg (core r) j).
  { intros j Hj Hj13 Hjl. rewrite R2, (proj2 (Z.eqb_neq j 13)) by lia. exact (O1 j Hj Hjl). }
  destruct (bit insn 8) eqn:E8.
  - set (a1 := sp + 4 * Z.of_nat (length l)) in *. assert (Ha1 : is_u32 a1) by (unfold is_u32 in *; lia).
    assert (Hm1 : a1 mod 4 = 0) by (unfold a1; rewrite Z.add_mod, Hm by lia; rewrite (Z.mul_comm 4), Z.mod_mul by lia; reflexivity).
    rewrite (u32_small a1) by exact Ha1. cbn [dc set_core].
    erewrite run_bind; [|erewrite run_bind; [|apply ld32_run; [apply Hin; lia|assumption..]]; reflexivity]. cbn beta iota.
    assert (Ea2 : add32 a1 4 = u32 (sp + 4 * Z.of_nat n)) by (unfold add32; f_equal; lia). rewrite Ea2.
    rewrite (run_bind _ _ _ _ _ (store_low 13 _ (set_core c1 r) W1 ltac:(lia) (u32_range _))). cbn [core set_core]. fold c2. cbn [rbus set_core].
    destruct (pop_return_run (ram_word (rbus r) a1) (set_core c2 r) Hw2 (ram_u32 _ _)) as (r' & E' & Hrb & Hw' & Hreg' & Ht'). cbn [core set_core rbus] in *.
    exists r'. split; [exact E'|]. split; [exact Hrb|]. split; [exact Hw'|]. split; [rewrite Hreg', R2 by lia; reflexivity|].
    split; [|split; [|split; [rewrite Hreg' by lia; reflexivity|exact Ht']]].
    + intros k i Hk. assert (Hi : 0 <= i < 8) by exact (Forall_lookup_1 _ _ _ _ Hlo Hk).
      rewrite Hreg', (proj2 (Z.eqb_neq i 15)) by lia. exact (L2 k i Hk).
    + intros j Hj Hj13 Hjl. rewrite Hreg', (proj2 (Z.eqb_neq j 15)) by lia. apply K2; [lia|assumption..].
  - rewrite (run_bind _ _ (set_core c1 r) (0, u32 (sp + 4 * Z.of_nat (length l))) (set_core c1 r) eq_refl). cbn beta iota.
    replace (Z.of_nat (length l)) with (Z.of_nat n) by lia.
    rewrite (run_bind _ _ _ _ _ (store_low 13 _ (set_core c1 r) W1 ltac:(lia) (u32_range _))). cbn [core set_core]. fold c2.
    eexists. split; [reflexivity|]. cbn [rbus core set_core]. split; [reflexivity|]. split; [exact Hw2|]. split; [rewrite R2 by lia; reflexivity|].
    split; [exact L2|]. split; [intros j Hj; apply K2; lia|]. apply K2; [lia|lia|]. apply Hl13. lia.
Qed.

(** PUSH and POP of the registers in the bits of [L], with LR and PC when
    [R] is set. *)
Definition push_insn (L : Z) (R : bool) : Z := 0xb400 + (if R then 0x100 else 0) + L.
Definition pop_insn (L : Z) (R : bool) : Z := 0xbc00 + (if R then 0x100 else 0) + L.
Definition pair_facts (R : bool) (L : Z) : bool :=
  let a := push_insn L R in let b := pop_insn L R in
  negb (bit a 11) && bit b 11 && negb (eqm a 0x0900 0x0900) && Bool.eqb (eqm b 0x0900 0x0900) R && Bool.eqb (bit a 8) R && Bool.eqb (bit b 8) R
  && bool_decide (low_list a = low_list b) && (Z.shiftr a 12 =? 11) && (Z.shiftr b 12 =? 11)
  && ((fld a 8 0xf =? 4) || (fld a 8 0xf =? 5)) && ((fld b 8 0xf =? 0xc) || (fld b 8 0xf =? 0xd))
  && forallb (fun i => Bool.eqb (bool_decide (i ∈ low_list a)) (Z.testbit L i)) (seqZ 0 8).
Lemma pair_facts_all : forallb (fun L => pair_facts true L && pair_facts false L) (seqZ 0 256) = true.
Proof. vm_compute. reflexivity. Qed.
Lemma pair_fact L R : 0 <= L < 256 -> pair_facts R L = true.
Proof.
  intros HL. pose proof pair_facts_all as H. rewrite forallb_forall in H.
  specialize (H L). rewrite <- list_elem_of_In, elem_of_seqZ in H. specialize (H ltac:(lia)). apply andb_prop in H as [H1 H2]. destruct R; assumption.
Qed.

(** The decoder takes both to [thumb_push_pop]. *)
Lemma pair_decode L R : 0 <= L < 256 ->
  thumb16 (push_insn L R) = thumb_push_pop (push_insn L R) /\ thumb16 (pop_insn L R) = thumb_push_pop (pop_insn L R) /\
  bit (push_insn L R) 11 = false /\ bit (pop_insn L R) 11 = true /\ eqm (push_insn L R) 0x0900 0x0900 = false /\
  eqm (pop_insn L R) 0x0900 0x0900 = R /\ bit (push_insn L R) 8 = R /\ bit (pop_insn L R) 8 = R /\ low_list (push_insn L R) = low_list (pop_insn L R) /\
  forall i, 0 <= i < 8 -> i ∈ low_list (push_insn L R) <-> Z.testbit L i = true.
Proof.
  intros HL. pose proof (pair_fact L R HL) as H. unfold pair_facts in H. cbn zeta in H.
  repeat match type of H with _ && _ = true => let F := fresh "F" in apply andb_prop in H as [H F] end.
  repeat match goal with
  | F : Bool.eqb _ _ = true |- _ => apply Bool.eqb_prop in F
  | F : negb _ = true |- _ => apply negb_true_iff in F
  | F : bool_decide _ = true |- _ => apply bool_decide_eq_true in F
  | F : (_ =? _) = true |- _ => apply Z.eqb_eq in F
  end.
  split_and!; try assumption.
  - unfold thumb16, thumb_misc. match goal with F : Z.shiftr (push_insn L R) 12 = 11 |- _ => rewrite F end.
    match goal with F : (fld (push_insn L R) 8 15 =? 4) || _ = true |- _ => apply Bool.orb_true_iff in F as [F|F]; apply Z.eqb_eq in F; rewrite F end; reflexivity.
  - unfold thumb16, thumb_misc. match goal with F : Z.shiftr (pop_insn L R) 12 = 11 |- _ => rewrite F end.
    match goal with F : (fld (pop_insn L R) 8 15 =? 12) || _ = true |- _ => apply Bool.orb_true_iff in F as [F|F]; apply Z.eqb_eq in F; rewrite F end; reflexivity.
  - intros i Hi. match goal with F : forallb _ _ = true |- _ => rewrite forallb_forall in F; specialize (F i) end.
    rewrite <- list_elem_of_In, elem_of_seqZ in *. match goal with F : _ -> Bool.eqb _ _ = true |- _ => specialize (F ltac:(lia)); apply Bool.eqb_prop in F end.
    match goal with F : bool_decide _ = Z.testbit L i |- _ => rewrite <- F, bool_decide_eq_true end. reflexivity.
Qed.

(** C26.  PUSH and POP are inverse: for every list of low registers, with or
    without LR/PC, on RAM below the stack pointer, PUSH lowers SP by the size
    of the list; whatever runs afterwards, if it restores SP and leaves the
    saved words alone, the matching POP gives each listed register the value
    it had at the PUSH, puts SP back, keeps the other registers, and with PC
    in the list returns to the saved LR in its instruction set. *)
Theorem push_pop_roundtrip L R r : 0 <= L < 256 -> cpu_wf (core r) ->
  let n := push_count (push_insn L R) in let sp := reg (core r) 13 - 4 * Z.of_nat n in ram_block sp n ->
  exists r1, thumb16 (push_insn L R) r = Done (Go tt, r1) /\ reg (core r1) 13 = sp /\
    (forall a, is_u32 a -> a mod 4 = 0 -> a < sp \/ reg (core r) 13 <= a -> ram_word (rbus r1) a = ram_word (rbus r) a) /\
    forall r2, cpu_wf (core r2) -> reg (core r2) 13 = sp ->
      (forall k, (k < n)%nat -> ram_word (rbus r2) (sp + 4 * Z.of_nat k) = ram_word (rbus r1) (sp + 4 * Z.of_nat k)) ->
      exists r3, thumb16 (pop_insn L R) r2 = Done (Go tt, r3) /\ reg (core r3) 13 = reg (core r) 13 /\
        (forall i, 0 <= i < 8 -> reg (core r3) i = if Z.testbit L i then reg (core r) i else reg (core r2) i) /\
        (forall j, 8 <= j < 15 -> j <> 13 -> reg (core r3) j = reg (core r2) j) /\
        (if R then reg (core r3) 15 = Z.land (reg (core r) 14) (not32 1) /\
           thumb (core r3) = if arm_feature (core r2) ARM_FEATURE_V5 then Z.land (reg (core r) 14) 1 else thumb (core r2)
         else reg (core r3) 15 = reg (core r2) 15).
Proof.
  intros HL Hw n sp Hb. destruct (pair_decode L R HL) as (D1 & D2 & B1 & B2 & Q1 & Q2 & R1 & R2 & El & Hel).
  rewrite D1, D2. destruct (push_run (push_insn L R) r B1 Q1 Hw Hb) as (b' & E1 & W1 & LR1 & O1). fold n sp in E1, W1, LR1, O1.
  assert (Hsp : is_u32 (reg (core r) 13)) by (rewrite <- (reg_low r 13) by lia; apply regval_u32; [exact Hw|lia]).
  eexists. split; [exact E1|]. cbn [core rbus set_core set_rbus].
  split; [rewrite reg_set by (assumption || lia); reflexivity|]. split; [exact O1|].
  intros r2 Hw2 H13 Hmem.
  assert (En : push_count (pop_insn L R) = n) by (unfold n, push_count; rewrite <- El, R1, R2; reflexivity).
  destruct (pop_run (pop_insn L R) r2 B2 ltac:(rewrite R2; exact Q2) Hw2) as (r3 & E3 & _ & _ & S3 & L3 & K3 & P3); [rewrite En, H13; exact Hb|].
  exists r3. split; [exact E3|]. rewrite En, H13 in *. rewrite R2 in P3. rewrite <- El in *.
  assert (Hlen : (length (low_list (push_insn L R)) <= n)%nat) by (unfold n, push_count; lia).
  split; [rewrite S3; replace (sp + 4 * Z.of_nat n) with (reg (core r) 13) by (unfold sp; lia); apply u32_small, Hsp|].
  split; [|split].
  - intros i Hi. destruct (Z.testbit L i) eqn:Et.
    + apply Hel in Et; [|exact Hi]. apply list_elem_of_lookup in Et as [k Hk]. apply lookup_lt_Some in Hk as Hlt.
      rewrite (L3 k i Hk), Hmem by lia. exact (W1 k i Hk).
    + apply K3; [lia|lia|]. intros Hx. apply Hel in Hx; [congruence|exact Hi].
  - intros j Hj Hj13. apply K3; [lia|exact Hj13|]. intros Hx. apply low_list_range in Hx. lia.
  - destruct R; [|exact P3]. rewrite <- (LR1 R1). rewrite <- Hmem by (unfold n, push_count; rewrite R1; lia). exact P3.
Qed.
End Ram.
