(* ===== verification/TransExcl.v ===== *)
(** * Translated code on RAM: exclusive accesses

    Memory by bytes, and LDREX and STREX in all four sizes: a store-exclusive
    stores exactly when the monitor still has the address and the memory
    still has what the load-exclusive saw. *)
From stdpp Require Import base list.
From S2P Require Import Prelude Double ArmTable State CpuState Errors OpHelper CpuMode Sys V7m Dsp Tcg TransGen TransArm TransThumb2 TransThumb.
From S2P Require Import TransUser TransConfined TransDp TransRam.
Open Scope Z_scope.

(** The bytes of an unsigned access. *)
Definition op_bytes (op : memop) : option nat :=
  match op with MO_8u => Some 1%nat | MO_16u => Some 2%nat | MO_32 => Some 4%nat | _ => None end.
(** Byte [k] of a number, and the number of [n] bytes, lowest first. *)
Definition byte_of (v k : Z) : Z := v / 2 ^ (8 * k) mod 2 ^ 8.
Fixpoint le_bytes (f : Z -> Z) (n : nat) (a : Z) : Z :=
  match n with O => 0 | S n => f a + 2 ^ 8 * le_bytes f n (a + 1) end.

(** RAM by bytes: naturally aligned accesses of one, two and four bytes load
    and store them in little-endian order, nothing faults and the processor
    state is not touched. *)
Class ByteRam `{GU : Guest} := {
  ram_byte : bus -> Z -> Z;
  in_bytes : Z -> bool;
  ram_byte_range b a : 0 <= ram_byte b a < 2 ^ 8;
  bytes_ld op n a i c b : op_bytes op = Some n -> a mod Z.of_nat n = 0 -> is_u32 a ->
    (forall k, 0 <= k < Z.of_nat n -> in_bytes (a + k) = true) -> bus_ld op a i (c, b) = (Some (le_bytes (ram_byte b) n a), (c, b));
  bytes_st op n a v i c b : op_bytes op = Some n -> a mod Z.of_nat n = 0 -> is_u32 a -> is_u32 v ->
    (forall k, 0 <= k < Z.of_nat n -> in_bytes (a + k) = true) -> exists b', bus_st op a v i (c, b) = (true, (c, b')) /\
    forall a', is_u32 a' -> ram_byte b' a' = if (a <=? a') && (a' <? a + Z.of_nat n) then byte_of v (a' - a) else ram_byte b a'
}.

Section Exclusive.
Context {GU : Guest} {BR : ByteRam} {HO : HostOps}.

(** *** Accesses by size *)
Definition size_op (size : Z) : memop := if size =? 0 then MO_8u else if size =? 1 then MO_16u else MO_32.
Definition size_bytes (size : Z) : nat := if size =? 0 then 1%nat else if size =? 1 then 2%nat else 4%nat.
(** The bytes of the whole access: 1, 2, 4 or 8. *)
Definition excl_bytes (size : Z) : Z := Z.of_nat (size_bytes size) + (if size =? 3 then 4 else 0).
(** An access in RAM, aligned to its size or, for two words, to a word. *)
Definition excl_ok (size a : Z) : Prop :=
  0 <= size <= 3 /\ 0 <= a /\ a + excl_bytes size <= 2 ^ 32 /\ a mod Z.of_nat (size_bytes size) = 0 /\
  forall k, 0 <= k < excl_bytes size -> in_bytes (a + k) = true.
Definition lo_val (size : Z) (b : bus) (a : Z) : Z := le_bytes (ram_byte b) (size_bytes size) a.
Definition hi_val (b : bus) (a : Z) : Z := le_bytes (ram_byte b) 4 (a + 4).

Lemma le_bytes_range f n a : (forall x, 0 <= f x < 2 ^ 8) -> 0 <= le_bytes f n a < 2 ^ (8 * Z.of_nat n).
Proof.
  intros Hf. revert a. induction n as [|n IH]; intros a; [cbn; lia|]. cbn [le_bytes]. pose proof (Hf a). pose proof (IH (a + 1)).
  rewrite Nat2Z.inj_succ, Z.mul_succ_r, Z.pow_add_r by lia. nia.
Qed.
Lemma lo_val_u32 size b a : is_u32 (lo_val size b a).
Proof.
  unfold lo_val. pose proof (le_bytes_range (ram_byte b) (size_bytes size) a (ram_byte_range b)) as H. unfold is_u32, size_bytes in *.
  destruct (size =? 0), (size =? 1); cbn in *; lia.
Qed.
Lemma hi_val_u32 b a : is_u32 (hi_val b a).
Proof. exact (le_bytes_range (ram_byte b) 4 (a + 4) (ram_byte_range b)). Qed.

Lemma excl_sizes size : 0 <= size <= 3 -> size = 0 \/ size = 1 \/ size = 2 \/ size = 3. Proof. lia. Qed.
Lemma size_op_bytes size : op_bytes (size_op size) = Some (size_bytes size).
Proof. unfold size_op, size_bytes. destruct (size =? 0), (size =? 1); reflexivity. Qed.
Lemma excl_u32 size a : excl_ok size a -> is_u32 a.
Proof. intros (Hs & H0 & Hb & _). unfold is_u32, excl_bytes, size_bytes in *. destruct (size =? 0), (size =? 1), (size =? 3); cbn in *; lia. Qed.
Lemma excl_lo size a : excl_ok size a -> forall k, 0 <= k < Z.of_nat (size_bytes size) -> in_bytes (a + k) = true.
Proof. intros (_ & _ & _ & _ & H) k Hk. apply H. unfold excl_bytes. destruct (size =? 3); lia. Qed.
Lemma excl_hi a : excl_ok 3 a -> add32 a 4 = a + 4 /\ is_u32 (a + 4) /\ (a + 4) mod 4 = 0 /\ forall k, 0 <= k < 4 -> in_bytes (a + 4 + k) = true.
Proof.
  intros (_ & H0 & Hb & Hm & H). change (excl_bytes 3) with 8 in *. change (Z.of_nat (size_bytes 3)) with 4 in *.
  assert (is_u32 (a + 4)) by (unfold is_u32; lia). split; [apply u32_small; assumption|]. split; [assumption|].
  split; [rewrite Z.add_mod, Hm by lia; reflexivity|]. intros k Hk. replace (a + 4 + k) with (a + (4 + k)) by lia. apply H. lia.
Qed.

Lemma ld_size_run size a r : excl_ok size a -> ld_size a size r = Done (Go (lo_val size (rbus r) a), r).
Proof.
  intros Ha. unfold ld_size. rewrite run_user.
  assert (E : qemu_ld (size_op size) a (user (dc r)) r = Done (Go (lo_val size (rbus r) a), r)).
  { unfold qemu_ld. rewrite (bytes_ld _ _ a _ _ _ (size_op_bytes size)); [destruct r; reflexivity|apply Ha|exact (excl_u32 _ _ Ha)|exact (excl_lo _ _ Ha)]. }
  destruct Ha as (Hs & _). destruct (excl_sizes size Hs) as [->|[->|[->| ->]]]; exact E.
Qed.
Lemma ld_high_run a u r : excl_ok 3 a -> gen_ld32 (add32 a 4) u r = Done (Go (hi_val (rbus r) a), r).
Proof.
  intros Ha. destruct (excl_hi a Ha) as (-> & Hu & Hm & Hin). unfold gen_ld32, qemu_ld. rewrite (bytes_ld MO_32 4 (a + 4)) by (reflexivity || assumption).
  destruct r; reflexivity.
Qed.

(** Storing the low word, and for two words the high one. *)
Lemma st_size_run size a v r : excl_ok size a -> is_u32 v -> exists b', st_size v a size r = Done (Go tt, set_rbus b' r) /\
  forall a', is_u32 a' -> ram_byte b' a' = if (a <=? a') && (a' <? a + Z.of_nat (size_bytes size)) then byte_of v (a' - a) else ram_byte (rbus r) a'.
Proof.
  intros Ha Hv. destruct (bytes_st _ _ a v (mem_index (user (dc r))) (core r) (rbus r) (size_op_bytes size) (proj1 (proj2 (proj2 (proj2 Ha))))
    (excl_u32 _ _ Ha) Hv (excl_lo _ _ Ha)) as (b' & E & W). exists b'. split; [|exact W]. unfold st_size. rewrite run_user.
  assert (Eq : qemu_st (size_op size) a v (user (dc r)) r = Done (Go tt, set_rbus b' r)) by (unfold qemu_st; rewrite E; destruct r; reflexivity).
  destruct Ha as (Hs & _). destruct (excl_sizes size Hs) as [->|[->|[->| ->]]]; exact Eq.
Qed.
Lemma st_high_run a v u r : excl_ok 3 a -> is_u32 v -> exists b', gen_st32 v (add32 a 4) u r = Done (Go tt, set_rbus b' r) /\
  forall a', is_u32 a' -> ram_byte b' a' = if (a + 4 <=? a') && (a' <? a + 8) then byte_of v (a' - (a + 4)) else ram_byte (rbus r) a'.
Proof.
  intros Ha Hv. destruct (excl_hi a Ha) as (-> & Hu & Hm & Hin).
  destruct (bytes_st MO_32 4 (a + 4) v (mem_index u) (core r) (rbus r) eq_refl Hm Hu Hv Hin) as (b' & E & W). exists b'.
  split; [unfold gen_st32, qemu_st; rewrite E; destruct r; reflexivity|]. intros a' Ha'. rewrite W by exact Ha'.
  replace (a + 4 + Z.of_nat 4) with (a + 8) by lia. reflexivity.
Qed.

(** *** The monitor *)

(** The monitor has the address, and the memory what the monitor saw. *)
Definition excl_holds (size a : Z) (r : rt) : bool :=
  (a =? excl_addr r) && (lo_val size (rbus r) a =? excl_val r) && (negb (size =? 3) || (hi_val (rbus r) a =? excl_high r)).
Lemma held_run size a r : excl_ok size a -> exclusive_held a size r = Done (Go (excl_holds size a r), r).
Proof.
  intros Ha. unfold exclusive_held, excl_holds.
  match goal with |- context [tbind (lift (gets excl_addr)) ?k r] => change (tbind (lift (gets excl_addr)) k r) with (k (excl_addr r) r) end. cbn beta.
  destruct (a =? excl_addr r); cbn [negb andb]; [|reflexivity]. rewrite (run_bind _ _ _ _ _ (ld_size_run size a r Ha)).
  match goal with |- context [tbind (lift (gets excl_val)) ?k r] => change (tbind (lift (gets excl_val)) k r) with (k (excl_val r) r) end. cbn beta.
  destruct (_ =? excl_val r); cbn [negb andb]; [|reflexivity]. destruct (Z.eqb_spec size 3) as [->|]; [|reflexivity].
  rewrite run_user, (run_bind _ _ _ _ _ (ld_high_run a _ r Ha)). reflexivity.
Qed.

(** The value in one register, or for two words in two. *)
Definition reg_val (size : Z) (c : cpu_st) (t t2 : Z) : Z := reg c t + (if size =? 3 then 2 ^ 32 * reg c t2 else 0).
Definition mem_val (size : Z) (b : bus) (a : Z) : Z := le_bytes (ram_byte b) (Z.to_nat (excl_bytes size)) a.
Lemma mem_val_split size b a : mem_val size b a = lo_val size b a + (if size =? 3 then 2 ^ 32 * hi_val b a else 0).
Proof.
  unfold mem_val, lo_val, hi_val, excl_bytes. destruct (Z.eqb_spec size 3) as [->|]; [|rewrite !Z.add_0_r, Nat2Z.id; reflexivity].
  cbn [size_bytes Z.eqb Pos.eqb]. change (Z.to_nat (Z.of_nat 4 + 4)) with 8%nat. cbn [le_bytes].
  replace (a + 1 + 1 + 1 + 1) with (a + 4) by lia. lia.
Qed.
Lemma put_run n v r : cpu_wf (core r) -> 0 <= n < 15 -> is_u32 v ->
  on_core (put_reg n v) r = Done (Go tt, set_core (set_regs (zset (regs (core r)) n v) (core r)) r).
Proof. intros Hw Hn Hv. unfold on_core. rewrite put_reg_run, u32_small by (assumption || lia). reflexivity. Qed.

(** The second register of a doubleword access. *)
Definition second (size t t2 : Z) : Prop := size = 3 -> 0 <= t2 < 15 /\ t2 <> t.
Lemma load_exclusive_run size t t2 a r : excl_ok size a -> cpu_wf (core r) -> 0 <= t < 15 -> second size t t2 ->
  exists rg r1, gen_load_exclusive t t2 a size r = Done (Go tt, r1) /\ rbus r1 = rbus r /\
    core r1 = set_regs rg (core r) /\ cpu_wf (core r1) /\ reg_val size (core r1) t t2 = mem_val size (rbus r) a /\
    (forall j, 0 <= j < 16 -> j <> t -> (size = 3 -> j <> t2) -> reg (core r1) j = reg (core r) j) /\ excl_holds size a r1 = true.
Proof.
  intros Ha Hw Ht Ht2. set (v := lo_val size (rbus r) a). assert (Hv : is_u32 v) by apply lo_val_u32.
  set (c1 := set_regs (zset (regs (core r)) t v) (core r)). assert (Hw1 : cpu_wf c1) by (apply reg_wf_set; assumption).
  assert (R1 : forall j, 0 <= j < 16 -> reg c1 j = if j =? t then v else reg (core r) j) by (intros; apply reg_set; [exact Hw|lia|assumption]).
  unfold gen_load_exclusive. rewrite (run_bind _ _ _ _ _ (ld_size_run size a r Ha)). fold v.
  rewrite (run_bind _ _ _ _ _ (eq_refl : set_monitor (set_excl_val v) r = Done (Go tt, set_excl_val v r))).
  rewrite (run_bind _ _ _ _ _ (store_low t _ (set_excl_val v r) Hw Ht Hv)). change (core (set_excl_val v r)) with (core r). fold c1.
  rewrite mem_val_split. unfold reg_val, excl_holds. destruct (Z.eqb_spec size 3) as [->|Hne].
  - destruct (Ht2 eq_refl) as [Hr2 Hn2]. set (h := hi_val (rbus r) a). assert (Hh : is_u32 h) by apply hi_val_u32.
    set (c2 := set_regs (zset (regs c1) t2 h) c1). assert (Hw2 : cpu_wf c2) by (apply reg_wf_set; assumption).
    assert (R2 : forall j, 0 <= j < 16 -> reg c2 j = if j =? t2 then h else reg c1 j) by (intros; apply reg_set; [exact Hw1|lia|assumption]).
    erewrite run_bind; [|rewrite run_user, (run_bind _ _ _ _ _ (ld_high_run a _ (set_core c1 (set_excl_val v r)) Ha));
      rewrite (run_bind _ _ _ _ _ (eq_refl : set_monitor (set_excl_high h) _ = Done (Go tt, set_excl_high h (set_core c1 (set_excl_val v r)))));
      apply (store_low t2 h (set_excl_high h (set_core c1 (set_excl_val v r))) Hw1 Hr2 Hh)].
    eexists (zset (regs c1) t2 h), _. split; [reflexivity|]. cbn [core rbus excl_addr excl_val excl_high set_core set_excl_high set_excl_val set_excl_addr]. fold c2.
    split; [reflexivity|]. split; [reflexivity|]. split; [exact Hw2|]. rewrite !R2, !R1 by lia. rewrite (proj2 (Z.eqb_neq t t2)), !Z.eqb_refl by lia.
    split; [reflexivity|]. split; [|reflexivity].
    intros j Hj N1 N2. specialize (N2 eq_refl). rewrite R2, (proj2 (Z.eqb_neq j t2)), R1, (proj2 (Z.eqb_neq j t)) by lia. reflexivity.
  - eexists (zset (regs (core r)) t v), _. split; [reflexivity|]. cbn [core rbus excl_addr excl_val excl_high set_core set_excl_val set_excl_addr]. fold c1.
    split; [reflexivity|]. split; [reflexivity|]. split; [exact Hw1|]. rewrite R1, Z.eqb_refl by lia. split; [reflexivity|].
    split; [|cbn [negb orb andb]; fold v; rewrite !Z.eqb_refl; reflexivity].
    intros j Hj N1 _. rewrite R1, (proj2 (Z.eqb_neq j t)) by lia. reflexivity.
Qed.

Lemma byte_of_low lo hi k : is_u32 lo -> 0 <= k < 4 -> byte_of (lo + 2 ^ 32 * hi) k = byte_of lo k.
Proof.
  intros Hl Hk. unfold byte_of. replace (2 ^ 32) with (2 ^ (32 - 8 * k) * 2 ^ (8 * k)) by (rewrite <- Z.pow_add_r by lia; f_equal; lia).
  replace (lo + 2 ^ (32 - 8 * k) * 2 ^ (8 * k) * hi) with (lo + 2 ^ (32 - 8 * k) * hi * 2 ^ (8 * k)) by lia. rewrite Z.div_add by lia.
  replace (2 ^ (32 - 8 * k)) with (2 ^ (24 - 8 * k) * 2 ^ 8) by (rewrite <- Z.pow_add_r by lia; f_equal; lia).
  replace (2 ^ (24 - 8 * k) * 2 ^ 8 * hi) with (2 ^ (24 - 8 * k) * hi * 2 ^ 8) by lia. apply Z.mod_add. lia.
Qed.
Lemma byte_of_high lo hi k : is_u32 lo -> 4 <= k -> byte_of (lo + 2 ^ 32 * hi) k = byte_of hi (k - 4).
Proof.
  intros Hl Hk. unfold byte_of. replace (8 * k) with (32 + 8 * (k - 4)) by lia. rewrite Z.pow_add_r, <- Z.div_div by lia.
  rewrite (Z.mul_comm (2 ^ 32)), Z.div_add by lia. rewrite (Z.div_small lo) by exact Hl. reflexivity.
Qed.

(** The store of the register value, behind the test. *)
Definition excl_store (t t2 a size : Z) : T unit :=
  let* tmp := load_reg t in
  st_size tmp a size ;*
  (if size =? 3 then let* tmp := load_reg t2 in let* u := IS_USER in gen_st32 tmp (add32 a 4) u else tret tt).
Lemma excl_store_run size t t2 a r : excl_ok size a -> cpu_wf (core r) -> 0 <= t < 15 -> (size = 3 -> 0 <= t2 < 15) ->
  exists b', excl_store t t2 a size r = Done (Go tt, set_rbus b' r) /\ forall a', is_u32 a' ->
    ram_byte b' a' = if (a <=? a') && (a' <? a + excl_bytes size) then byte_of (reg_val size (core r) t t2) (a' - a) else ram_byte (rbus r) a'.
Proof.
  intros Ha Hw Ht Ht2. assert (Hr : forall n, 0 <= n < 15 -> is_u32 (reg (core r) n)).
  { intros n Hn. rewrite <- (reg_low r n) by exact Hn. apply regval_u32; [exact Hw|lia]. }
  destruct (st_size_run size a (reg (core r) t) r Ha (Hr t Ht)) as (b1 & E1 & W1).
  unfold excl_store. rewrite run_load, reg_low, (run_bind _ _ _ _ _ E1) by (assumption || lia).
  unfold reg_val, excl_bytes. destruct (Z.eqb_spec size 3) as [->|Hne].
  2: { exists b1. rewrite !Z.add_0_r. split; [reflexivity|exact W1]. }
  specialize (Ht2 eq_refl). destruct (st_high_run a (reg (core r) t2) (user (dc r)) (set_rbus b1 r) Ha (Hr t2 Ht2)) as (b2 & E2 & W2).
  exists b2. rewrite run_load by (exact Hw || lia). rewrite reg_low by lia. rewrite run_user. split; [exact E2|]. intros a' Ha'.
  rewrite W2 by exact Ha'. cbn [rbus set_rbus]. rewrite W1 by exact Ha'. change (Z.of_nat (size_bytes 3)) with 4. change (4 + 4) with 8.
  pose proof (Hr t Ht). destruct (Z.leb_spec (a + 4) a'), (Z.ltb_spec a' (a + 8)), (Z.leb_spec a a'), (Z.ltb_spec a' (a + 4)); cbn [andb]; try lia; try reflexivity.
  - rewrite byte_of_high by (assumption || lia). f_equal. lia.
  - rewrite byte_of_low by (assumption || lia). reflexivity.
Qed.
Lemma tbind_assoc_run {A B C} (m : T A) (k : A -> T B) (h : B -> T C) r : tbind (tbind m k) h r = tbind m (fun a => tbind (k a) h) r.
Proof. unfold tbind, bind. destruct (m r) as [[[] ?]| | |]; reflexivity. Qed.
Lemma tbind_ext {A B} (m : T A) (k h : A -> T B) r : (forall a r', k a r' = h a r') -> tbind m k r = tbind m h r.
Proof. intros H. unfold tbind, bind. destruct (m r) as [[[] ?]| | |]; try reflexivity. apply H. Qed.
Lemma excl_store_then size t t2 a d r b' : excl_store t t2 a size r = Done (Go tt, set_rbus b' r) -> cpu_wf (core r) -> 0 <= d < 15 ->
  (let* tmp := load_reg t in st_size tmp a size ;*
   (if size =? 3 then let* tmp := load_reg t2 in let* u := IS_USER in gen_st32 tmp (add32 a 4) u else tret tt) ;* on_core (put_reg d 0)) r =
  Done (Go tt, set_core (set_regs (zset (regs (core r)) d 0) (core r)) (set_rbus b' r)).
Proof.
  intros E Hw Hd. refine (eq_trans _ (eq_trans (run_bind _ (fun _ => on_core (put_reg d 0)) _ _ _ E) (put_run d 0 (set_rbus b' r) Hw Hd _)));
    [|unfold is_u32; lia].
  unfold excl_store. rewrite tbind_assoc_run. apply tbind_ext. intros tmp r'. symmetry. apply tbind_assoc_run.
Qed.
Lemma store_exclusive_run size d t t2 a r : excl_ok size a -> cpu_wf (core r) -> 0 <= d < 15 -> 0 <= t < 15 -> (size = 3 -> 0 <= t2 < 15) ->
  exists r', gen_store_exclusive d t t2 a size r = Done (Go tt, r') /\ excl_addr r' = 0xffffffff /\
    let ok := excl_holds size a r in
    core r' = set_regs (zset (regs (core r)) d (if ok then 0 else 1)) (core r) /\
    forall a', is_u32 a' -> ram_byte (rbus r') a' =
      if ok && (a <=? a') && (a' <? a + excl_bytes size) then byte_of (reg_val size (core r) t t2) (a' - a) else ram_byte (rbus r) a'.
Proof.
  intros Ha Hw Hd Ht Ht2. unfold gen_store_exclusive. rewrite (run_bind _ _ _ _ _ (held_run size a r Ha)).
  destruct (excl_holds size a r); cbn [andb].
  - destruct (excl_store_run size t t2 a r Ha Hw Ht Ht2) as (b' & E & W).
    erewrite run_bind; [|apply (excl_store_then size t t2 a d r b' E Hw Hd)].
    eexists. split; [reflexivity|]. split; [reflexivity|]. split; [reflexivity|exact W].
  - rewrite (run_bind _ _ _ _ _ (put_run d 1 r Hw Hd ltac:(unfold is_u32; lia))). eexists. split; [reflexivity|].
    split; [reflexivity|]. split; reflexivity.
Qed.

(** C27.  Load-exclusive and store-exclusive of a byte, a halfword, a word and
    two words: LDREX loads the value at its address into its one or two
    registers and changes no other register and no memory, and the monitor
    then holds the address and that value.  A later STREX stores its one or
    two registers, byte by byte and nothing else, and returns 0 exactly when
    the monitor has its address and the memory still has the whole monitored
    value; otherwise it returns 1 and memory is unchanged.  Either way the
    monitor is cleared, so that a second STREX fails, except for a byte at
    the address 0xffffffff, which stands for a cleared monitor. *)
Theorem exclusive_pair size t t2 d s s2 a a2 r : excl_ok size a -> excl_ok size a2 -> cpu_wf (core r) ->
  0 <= t < 15 -> second size t t2 -> 0 <= d < 15 -> 0 <= s < 15 -> (size = 3 -> 0 <= s2 < 15) ->
  exists r1, gen_load_exclusive t t2 a size r = Done (Go tt, r1) /\ rbus r1 = rbus r /\ cpu_wf (core r1) /\
    reg_val size (core r1) t t2 = mem_val size (rbus r) a /\
    (forall j, 0 <= j < 16 -> j <> t -> (size = 3 -> j <> t2) -> reg (core r1) j = reg (core r) j) /\ excl_holds size a r1 = true /\
    forall r2, cpu_wf (core r2) -> let ok := excl_holds size a2 r2 in
      exists r3, gen_store_exclusive d s s2 a2 size r2 = Done (Go tt, r3) /\ excl_addr r3 = 0xffffffff /\
        core r3 = set_regs (zset (regs (core r2)) d (if ok then 0 else 1)) (core r2) /\
        (forall a', is_u32 a' -> ram_byte (rbus r3) a' =
           if ok && (a2 <=? a') && (a' <? a2 + excl_bytes size) then byte_of (reg_val size (core r2) s s2) (a' - a2) else ram_byte (rbus r2) a') /\
        forall r4 d4, excl_addr r4 = excl_addr r3 -> cpu_wf (core r4) -> 0 <= d4 < 15 -> a2 <> 0xffffffff ->
          exists r5, gen_store_exclusive d4 s s2 a2 size r4 = Done (Go tt, r5) /\ reg (core r5) d4 = 1 /\
            forall a', is_u32 a' -> ram_byte (rbus r5) a' = ram_byte (rbus r4) a'.
Proof.
  intros Ha Ha2 Hw Ht Ht2 Hd Hs Hs2. destruct (load_exclusive_run size t t2 a r Ha Hw Ht Ht2) as (rg & r1 & E1 & B1 & _ & W1 & V1 & F1 & M1).
  exists r1. split_and!; try assumption. intros r2 Hw2 ok.
  destruct (store_exclusive_run size d s s2 a2 r2 Ha2 Hw2 Hd Hs Hs2) as (r3 & E3 & X3 & C3 & B3). exists r3. split_and!; try assumption.
  intros r4 d4 Hx Hw4 Hd4 Hne. destruct (store_exclusive_run size d4 s s2 a2 r4 Ha2 Hw4 Hd4 Hs Hs2) as (r5 & E5 & _ & C5 & B5).
  assert (Hno : excl_holds size a2 r4 = false) by (unfold excl_holds; rewrite Hx, X3, (proj2 (Z.eqb_neq a2 _) Hne); reflexivity).
  rewrite Hno in *. cbn [andb] in *. exists r5. split; [exact E5|]. split; [|exact B5]. rewrite C5, reg_set, Z.eqb_refl by (assumption || lia). reflexivity.
Qed.
End Exclusive.
