(* ===== verification/TransBlock.v ===== *)
(** * Blocks: IT state, accounting, and a concrete machine

    The IT state of the translator against the architecture's [ITAdvance],
    the effect of a translated block on the vemu counters, and a guest with
    flat memory on which the other theorems are evaluated. *)
From stdpp Require Import base list gmap.
From S2P Require Import Prelude Double ArmTable State Power Cycles ArmDecode CpuState Errors OpHelper CpuMode Sys V7m Dsp Softfloat Vfp Tcg TransGen.
From S2P Require Import TransArm TransThumb2 TransThumb TransStep TransUser TransConfined TransDp TransRam.
Open Scope Z_scope.

(** ** IT blocks *)

(** The architecture's eight bits of IT state. *)
Definition ITAdvance (its : Z) : Z :=
  if Z.land its 7 =? 0 then 0 else Z.lor (Z.land its 0xe0) (Z.land (Z.shiftl its 1) 0x1f).
(** The context the translator derives from them. *)
Definition its_pair (its : Z) : Z * Z := (Z.shiftr its 4, Z.shiftl (Z.land its 0xf) 1).
Definition it_pair (d : dctx) : Z * Z := (condexec_cond d, condexec_mask d).
Definition advance_pair (p : Z * Z) : Z * Z :=
  if negb (p.2 =? 0) then
    let mask := Z.land (Z.shiftl p.2 1) 0x1f in
    (if mask =? 0 then 0 else Z.lor (Z.land p.1 0xe) (fld p.2 4 1), mask)
  else p.
Lemma advance_it d : it_pair (it_advance d) = advance_pair (it_pair d).
Proof. unfold it_advance, advance_pair, it_pair. cbn. destruct (condexec_mask d =? 0); reflexivity. Qed.
Lemma advance_iter k d : it_pair (Nat.iter k it_advance d) = Nat.iter k advance_pair (it_pair d).
Proof. induction k as [|k IH]; [reflexivity|].
  change (it_pair (it_advance (Nat.iter k it_advance d)) = advance_pair (Nat.iter k advance_pair (it_pair d))).
  rewrite advance_it, IH. reflexivity.
Qed.
Lemma context_pair flags start ss : it_pair (tb_context flags start ss) = its_pair (ARM_TBFLAG_CONDEXEC flags).
Proof. reflexivity. Qed.

(** One step, checked on all states inside a block; and the state after each
    IT instruction. *)
Definition pair_val (p : Z * Z) : Z := Z.lor (Z.shiftl p.1 4) (Z.shiftr p.2 1).
Definition it_step_ok (its : Z) : bool :=
  (Z.land its 0xf =? 0) ||
  (bool_decide (advance_pair (its_pair its) = its_pair (ITAdvance its)) && (pair_val (its_pair its) =? its)
   && bool_decide (advance_pair (fld (0xbf00 + its) 4 0xe, Z.land (0xbf00 + its) 0x1f) = its_pair its)
   && bool_decide (Nat.iter 4 advance_pair (its_pair its) = (0, 0)) && is_it (0xbf00 + its)).
Lemma it_steps : forallb it_step_ok (seqZ 0 256) = true.
Proof. vm_compute. reflexivity. Qed.
Lemma it_step its : 0 <= its < 256 -> Z.land its 0xf <> 0 ->
  advance_pair (its_pair its) = its_pair (ITAdvance its) /\ pair_val (its_pair its) = its /\
  advance_pair (fld (0xbf00 + its) 4 0xe, Z.land (0xbf00 + its) 0x1f) = its_pair its /\ Nat.iter 4 advance_pair (its_pair its) = (0, 0) /\
  is_it (0xbf00 + its) = true.
Proof.
  intros Hr Hn. pose proof it_steps as H. rewrite forallb_forall in H. specialize (H its). rewrite <- list_elem_of_In, elem_of_seqZ in H.
  specialize (H ltac:(lia)). unfold it_step_ok in H. apply Z.eqb_neq in Hn. rewrite Hn in H. cbn [orb] in H.
  repeat (apply andb_prop in H as [H ?F]). split_and!; solve [eapply bool_decide_eq_true_1; eassumption | assumption | apply Z.eqb_eq; assumption].
Qed.

(** C30.  IT blocks follow the architecture: after an IT instruction with
    first condition and mask [its] the translator's context is the IT state
    [its]; the context a block derives from saved IT bits is the one it
    saves; each further instruction moves it exactly as [ITAdvance] moves
    the IT state; and after at most four instructions the block is over. *)
Theorem it_state_correct its d : 0 <= its < 256 -> Z.land its 0xf <> 0 ->
  it_pair (it_advance (it_context (0xbf00 + its) d)) = its_pair its /\
  (it_pair d = its_pair its -> condexec_val d = its /\ it_pair (it_advance d) = its_pair (ITAdvance its) /\
     it_pair (Nat.iter 4 it_advance d) = (0, 0)).
Proof.
  intros Hr Hn. destruct (it_step its Hr Hn) as (H1 & H2 & H3 & H4 & H5). split.
  - rewrite advance_it. unfold it_context. rewrite H5. exact H3.
  - intros E. split; [|rewrite advance_it, advance_iter, E; auto].
    rewrite <- H2. unfold condexec_val, pair_val. injection E as -> ->. reflexivity.
Qed.

(** ** Accounting *)
Section Accounting.
Context {GU : Guest} {HO : HostOps} {CLK : VmClock} {PM : PowerModel} {QC : QemuConsts} {DB : DebugConsts}.

(** Code of the translator does not touch the vemu globals. *)
Lemma on_rt_vemu {A} (m : T A) s f s' : on_rt m s = Done (f, s') -> tvemu s' = tvemu s.
Proof. unfold on_rt. destruct (m (trt s)) as [[x r]| | |]; intros [= <- <-]. reflexivity. Qed.
Lemma on_machine_env {A} (m : M machine A) s f s' : (forall x a x', m x = Done (a, x') -> vemu x' = vemu x) ->
  on_machine m s = Done (f, s') -> tvemu s' = tvemu s.
Proof.
  intros Hm. unfold on_machine. destruct (m _) as [[a x]| | |] eqn:E; intros [= <- <-]. exact (Hm _ _ _ E).
Qed.
Lemma on_machine_vemu {A} (m : M vemu_st A) s f s' : on_machine (on_vemu m) s = Done (f, s') ->
  exists a v, f = Go a /\ m (tvemu s) = Done (a, v) /\ tvemu s' = v.
Proof.
  unfold on_machine, on_vemu. cbn [vemu]. destruct (m (tvemu s)) as [[a v]| | |] eqn:E; intros [= <- <-]. exists a, v. auto.
Qed.
Lemma vbind_Done {A B} (m : TV A) (k : A -> TV B) s f s' : vbind m k s = Done (f, s') ->
  exists g s1, m s = Done (g, s1) /\ ((exists a, g = Go a /\ k a s1 = Done (f, s')) \/ ((forall a, g <> Go a) /\ s' = s1)).
Proof.
  unfold vbind. intros (g & s1 & H1 & H2)%bind_Done. exists g, s1. split; [exact H1|].
  destruct g as [a| | | |]; [left; eauto|right; apply ret_Done in H2 as [_ <-]; split; [discriminate|reflexivity]..].
Qed.
Lemma error_replace_vemu tb x a x' : vemu_error_replace tb x = Done (a, x') -> vemu x' = vemu x.
Proof.
  unfold vemu_error_replace. intros (e & x1 & H1 & H)%bind_Done. apply gets_Done in H1 as [_ <-].
  apply bind_Done in H as (v & x2 & H2 & H). apply gets_Done in H2 as [_ <-].
  destruct (negb _); [apply ret_Done in H as [_ <-]; reflexivity|]. cbn zeta in H. apply bind_Done in H as (u & x3 & H3 & H).
  apply ret_Done in H as [_ <-]. revert H3. assert (Hon : forall (m : M cpu_st unit) w, on_env m x = Done (w, x3) -> vemu x3 = vemu x).
  { intros m w. unfold on_env. destruct (m (env x)) as [[b y]| | |]; intros [= <- <-]. reflexivity. }
  repeat (destruct (_ =? _); [apply Hon|]). intros [_ <-]%ret_Done. reflexivity.
Qed.
Lemma decode_pure w t v a v' : vemu_target_decode_instr w t v = Done (a, v') -> v' = v.
Proof. unfold vemu_target_decode_instr, arr_get. intros H. mruns; reflexivity. Qed.

(** The hooks charge the decoded instruction once, whether or not a fault is
    injected. *)
Definition charged (x : Z * Z * bool) (v v1 : vemu_st) : Prop :=
  let '(w, hw2, thumb) := x in exists tb : vemu_tb_info,
  gen_vemu_info (fun a => if a =? 0 then w else hw2) (fun _ => w) thumb 0 v = Done (tb, v) /\ vemu_increment_cycles tb v = Done (tt, v1).
Lemma info_pure l16 l32 th p v tb v' : gen_vemu_info l16 l32 th p v = Done (tb, v') -> v' = v.
Proof. unfold gen_vemu_info. destruct (if th then _ else _). apply decode_pure. Qed.
Lemma hooks_charge x s f s' : vemu_hooks x s = Done (f, s') -> charged x (tvemu s) (tvemu s').
Proof.
  destruct x as [[w hw2] th]. unfold vemu_hooks. intros (g2 & s2 & (tb & v & -> & D & V2)%on_machine_vemu & H)%vbind_Done.
  pose proof (info_pure _ _ _ _ _ _ _ D) as ->.
  destruct H as [(? & [= <-] & H)|[Hn _]]; [|destruct (Hn tb eq_refl)].
  apply vbind_Done in H as (g3 & s3 & ([] & v & -> & I & V3)%on_machine_vemu & H).
  destruct H as [(? & [= <-] & H)|[Hn _]]; [|destruct (Hn tt eq_refl)]. rewrite V2 in I.
  exists tb. split; [exact D|]. rewrite I. do 2 f_equal. rewrite <- V3. symmetry.
  destruct (emits_error_hook tb); [|injection H as _ <-; reflexivity].
  apply vbind_Done in H as (g4 & s4 & H4 & H). apply on_machine_env in H4; [|apply error_replace_vemu].
  destruct H as [(? & _ & [_ <-]%ret_Done)|[_ ->]]; exact H4.
Qed.

(** The end of the block touches the counters only for WFI. *)
Definition slept (f : flow unit) (v : vemu_st) (s' : tb_st) : Prop :=
  f = Raised /\ halted (core (trt s')) = 1 /\ vemu_sleep_start v = Done (tt, tvemu s').
Lemma wfi_slept s f s' : bind (on_machine wfi) (fun _ => ret (Raised : flow unit)) s = Done (f, s') -> slept f (tvemu s) s'.
Proof.
  intros (g & s1 & H1 & [<- <-]%ret_Done)%bind_Done. revert H1. unfold on_machine, wfi, on_vemu. unfold bind at 1. cbn [vemu].
  destruct (vemu_sleep_start (tvemu s)) as [[[] v]| | |] eqn:Es; [|discriminate..]. intros [= <- <-].
  split_and!; [reflexivity..|exact Es].
Qed.
Lemma block_end_vemu j s f s' : block_end j s = Done (f, s') -> tvemu s' = tvemu s \/ slept f (tvemu s) s'.
Proof.
  unfold block_end. intros (g & s1 & V1%on_rt_vemu & H)%vbind_Done. rewrite <- V1.
  destruct H as [(u & -> & H)|[_ ->]]; [|auto].
  destruct j; try (left; exact (on_rt_vemu _ _ _ _ H)); try (left; apply ret_Done in H as [_ <-]; reflexivity).
  right. apply wfi_slept, H.
Qed.
Lemma tb_end_vemu g s f s' : tb_end g s = Done (f, s') -> tvemu s' = tvemu s \/ slept f (tvemu s) s'.
Proof.
  unfold tb_end. destruct g; try (intros [_ <-]%ret_Done; left; reflexivity);
    destruct (singlestep _); first [intros H%on_rt_vemu; left; exact H | apply block_end_vemu].
Qed.

(** Nothing before the instruction jumps to the label behind it. *)
Definition no_skip {A} (m : T A) : Prop := forall r f r', m r = Done (f, r') -> f <> Skip.
Lemma no_skip_bind {A B} (m : T A) (k : A -> T B) : no_skip m -> (forall a, no_skip (k a)) -> no_skip (tbind m k).
Proof.
  intros Hm Hk r f r' (g & r1 & H1 & H2)%bind_Done. apply Hm in H1.
  destruct g as [a| | | |]; [exact (Hk _ _ _ _ H2)|congruence|apply ret_Done in H2 as [<- _]; discriminate..].
Qed.
Lemma no_skip_lift {A} (m : M rt A) : no_skip (lift m).
Proof. intros r f r' (a & r1 & _ & [<- _]%ret_Done)%bind_Done. discriminate. Qed.
Lemma no_skip_flow {A} (f : flow A) : f <> Skip -> no_skip (ret f).
Proof. intros Hf r g r' [<- _]%ret_Done. exact Hf. Qed.
Lemma no_skip_core {A} (m : M cpu_st A) : no_skip (on_core m).
Proof. intros r f r'. unfold on_core. destruct (m (core r)) as [[a c]| | |]; intros [= <- <-]. discriminate. Qed.
Lemma no_skip_code op sw a : no_skip (code_at op sw a).
Proof. intros r f r'. unfold code_at. destruct (code_ld op a (core r, rbus r)) as [[x|] [c b]]; intros [= <- <-]; discriminate. Qed.
Ltac no_skip_auto := repeat (match goal with
  | |- no_skip (tbind _ _) => apply no_skip_bind; [|intros ?]
  | |- no_skip (ret _) => apply no_skip_flow; discriminate
  | |- no_skip (if ?b then _ else _) => destruct b
  | |- no_skip (on_core _) => apply no_skip_core
  | |- no_skip (code_at _ _ _) => apply no_skip_code
  | |- no_skip (lift _) => apply no_skip_lift
  end).
Lemma before_no_skip bps : no_skip (insn_start bps ;* vemu_fetch).
Proof.
  unfold insn_start, vemu_fetch, when, gen_exception_insn, gen_set_condexec, gen_set_pc_im, gen_exception, IS_M, feature, get_core,
    get_dc, upd_core, arm_ldl_code, arm_lduw_code, tret. no_skip_auto.
Qed.
(** C28.  Every executed instruction is charged exactly once: a run of a
    block that gets as far as the instruction (the M-profile return,
    breakpoints and fetch faults stop it before) adds the cycles of the
    decoded instruction to its class once, however the instruction ends:
    completed, skipped by its condition, replaced by an injected fault, or
    stopped by an exception.  Only WFI changes the counters further, by the
    start of sleep; a run stopped before the instruction charges nothing. *)
Theorem tb_accounting breakpoints s f s' : run_tb breakpoints s = Done (f, s') ->
  match (insn_start breakpoints ;* vemu_fetch) (trt s) with
  | Done (Go x, _) => exists v, charged x (tvemu s) v /\ (tvemu s' = v \/ slept f v s')
  | _ => tvemu s' = tvemu s
  end.
Proof.
  unfold run_tb. intros (g & s1 & H & E)%bind_Done. pose proof (tb_end_vemu _ _ _ _ E) as V. revert H.
  pose proof (before_no_skip breakpoints (trt s)) as Hn. unfold tb_body. unfold vbind at 1. intros (g1 & s2 & H1 & H)%bind_Done.
  pose proof (on_rt_vemu _ _ _ _ H1) as V1. revert H1. unfold on_rt.
  destruct ((insn_start breakpoints ;* vemu_fetch) (trt s)) as [[y r1]| | |]; [|discriminate..]. intros [= -> <-].
  specialize (Hn _ _ eq_refl). destruct g1 as [x| | | |]; [|destruct (Hn eq_refl)|..].
  2-4: apply ret_Done in H as [<- <-]; apply ret_Done in E as [_ <-]; exact V1.
  apply vbind_Done in H as (b & s3 & C%hooks_charge & H). exists (tvemu s3). split; [exact C|].
  destruct H as [(a & _ & H%on_rt_vemu)|[_ <-]]; [rewrite H in V|]; exact V.
Qed.
End Accounting.
