(* ===== verification/TransFlat.v ===== *)
(** * A guest with flat memory

    An instance of the classes the translator's theorems are proved over:
    little-endian memory whose first page faults, no coprocessors, and a
    64-bit host.  The laws [GuestLaws] and [Ram] hold of it, and the theorems
    are evaluated on it. *)
From stdpp Require Import base list gmap.
From S2P Require Import Prelude Double ArmTable State Power Cycles ArmDecode CpuState Errors OpHelper CpuMode Wfi Sys V7m Dsp Softfloat Vfp Tcg.
From S2P Require Import TransGen TransArm TransThumb2 TransThumb TransStep TransUser TransConfined TransDp TransRam TransExcl TransBlock.
Open Scope Z_scope.

(** ** Memory *)
#[local] Abbreviation flat := (gmap Z Z).
Definition byte (b : flat) (a : Z) : Z := u8 (default 0 (b !! a)).
Definition half (b : flat) (a : Z) : Z := byte b a + 2 ^ 8 * byte b (a + 1).
Definition word (b : flat) (a : Z) : Z := half b a + 2 ^ 16 * half b (a + 2).
Definition put8 (a v : Z) (b : flat) : flat := <[a := u8 v]> b.
Definition put16 (a v : Z) (b : flat) : flat := put8 a v (put8 (a + 1) (v / 2 ^ 8) b).
Definition put32 (a v : Z) (b : flat) : flat := put16 a v (put16 (a + 2) (v / 2 ^ 16) b).
Definition mapped (a : Z) : bool := 4096 <=? a.

Definition flat_ld (op : memop) (a : Z) (_ : Z) (s : cpu_st * flat) : option Z * (cpu_st * flat) :=
  if mapped a then
    (Some match op with
     | MO_8u => byte s.2 a | MO_8s => ext8s (byte s.2 a) | MO_16u => half s.2 a | MO_16s => ext16s (half s.2 a) | MO_32 => word s.2 a
     | MO_64 => word s.2 a + 2 ^ 32 * word s.2 (a + 4)
     end, s)
  else (None, (set_exception_index EXCP_DATA_ABORT s.1, s.2)).
Definition flat_st (op : memop) (a v : Z) (_ : Z) (s : cpu_st * flat) : bool * (cpu_st * flat) :=
  if mapped a then
    (true, (s.1, match op with MO_8u | MO_8s => put8 a v s.2 | MO_16u | MO_16s => put16 a v s.2 | MO_32 => put32 a v s.2
            | MO_64 => put32 a v (put32 (a + 4) (v / 2 ^ 32) s.2) end))
  else (false, (set_exception_index EXCP_DATA_ABORT s.1, s.2)).
Definition flat_code (op : memop) (a : Z) (s : cpu_st * flat) : option Z * (cpu_st * flat) :=
  if mapped a then (Some match op with MO_32 => word s.2 a | _ => half s.2 a end, s)
  else (None, (set_exception_index EXCP_PREFETCH_ABORT s.1, s.2)).

#[export] Instance flat_guest : Guest := {|
  bus := flat; bus_ld := flat_ld; bus_st := flat_st; code_ld := flat_code;
  other_insn := fun _ _ _ s => Done (SpIllegal, s); cpar := fun _ => 0 |}.
#[export] Instance flat_host : HostOps := {|
  TCG_TARGET_HAS_add2_i32 := true;
  clz32 := fun v => if v =? 0 then 32 else 31 - Z.log2 v;
  pas_helper := fun _ _ a _ => (a, 0) |}.

(** ** Its laws *)
Lemma effect_refl c : mem_effect c c.
Proof. exists (exception_index c), (interrupt_request c). destruct c; reflexivity. Qed.
Lemma effect_fault x c : mem_effect c (set_exception_index x c).
Proof. exists x, (interrupt_request c). destruct c; reflexivity. Qed.
Lemma byte_range b a : 0 <= byte b a < 2 ^ 8.
Proof. apply Z.mod_pos_bound. lia. Qed.
Lemma half_range b a : 0 <= half b a < 2 ^ 16.
Proof. unfold half. pose proof (byte_range b a). pose proof (byte_range b (a + 1)). lia. Qed.
Lemma word_range b a : 0 <= word b a < 2 ^ 32.
Proof. unfold word. pose proof (half_range b a). pose proof (half_range b (a + 2)). lia. Qed.

#[export] Instance flat_laws : GuestLaws.
Proof.
  split; cbn [bus_ld bus_st code_ld other_insn flat_guest].
  - intros op a i c b o c' b'. unfold flat_ld. destruct (mapped a); intros [= <- <- <-]; [apply effect_refl|apply effect_fault].
  - intros op a v i c b o c' b'. unfold flat_st. destruct (mapped a); intros [= <- <- _]; [apply effect_refl|apply effect_fault].
  - intros op a c b o c' b'. unfold flat_code. destruct (mapped a); intros [= <- <- <-]; [apply effect_refl|apply effect_fault].
  - intros op a s v s'. unfold flat_code. destruct (mapped a); [|discriminate]. intros [= <- _].
    destruct op; try apply half_range. apply word_range.
  - intros sp d insn c b _ _ Hc. exists SpIllegal, c, b. split; [reflexivity|]. split; [exact Hc|reflexivity].
Qed.

Lemma byte_put a v b a' : byte (put8 a v b) a' = if decide (a' = a) then u8 v else byte b a'.
Proof.
  unfold byte, put8. case_decide as E; [subst; rewrite lookup_insert_eq|rewrite lookup_insert_ne by congruence; reflexivity].
  cbn. apply Z.mod_mod. lia.
Qed.
Lemma half_put a v b a' : a' = a \/ a' + 1 < a \/ a + 1 < a' -> half (put16 a v b) a' = if decide (a' = a) then u16 v else half b a'.
Proof.
  intros H. unfold half, put16. rewrite !byte_put. destruct (decide (a' = a)) as [->|]; [|repeat (rewrite decide_False by lia); reflexivity].
  rewrite decide_False, decide_True by lia. unfold u8, u16. change (2 ^ 16) with (2 ^ 8 * 2 ^ 8). rewrite (Z.rem_mul_r v (2 ^ 8) (2 ^ 8)) by lia. reflexivity.
Qed.
Lemma word_put a v b a' : a' = a \/ a' + 3 < a \/ a + 3 < a' -> word (put32 a v b) a' = if decide (a' = a) then u32 v else word b a'.
Proof.
  intros H. unfold word, put32. destruct (decide (a' = a)) as [->|]; rewrite !half_put by lia; [|repeat (rewrite decide_False by lia); reflexivity].
  rewrite decide_True, decide_False, decide_True by lia. unfold u16, u32. change (2 ^ 32) with (2 ^ 16 * 2 ^ 16). rewrite (Z.rem_mul_r v (2 ^ 16) (2 ^ 16)) by lia. reflexivity.
Qed.
Lemma aligned_apart a a' : a mod 4 = 0 -> a' mod 4 = 0 -> a' = a \/ a' + 3 < a \/ a + 3 < a'.
Proof. intros H H'. pose proof (Z.div_mod a 4). pose proof (Z.div_mod a' 4). lia. Qed.

#[export] Instance flat_ram : Ram.
Proof.
  refine {| ram_word := word : bus -> Z -> Z; in_ram := mapped |}.
  - intros b a. apply word_range.
  - intros a i c b Hin _ _. cbn. unfold flat_ld. rewrite Hin. reflexivity.
  - intros a v i c b Hin _ Hm Hv. exists (put32 a v b). cbn. unfold flat_st. rewrite Hin. split; [reflexivity|].
    split; [rewrite word_put by auto; rewrite decide_True by reflexivity; apply Z.mod_small; exact Hv|].
    intros a' _ Hm' Hne. rewrite word_put by (apply aligned_apart; assumption). rewrite decide_False by exact Hne. reflexivity.
Defined.

(** The same memory by bytes. *)
Lemma byte_of_0 v : byte_of v 0 = u8 v.
Proof. unfold byte_of. rewrite Z.mul_0_r, Z.div_1_r. reflexivity. Qed.
Lemma byte_put8 a v b a' : byte (put8 a v b) a' = if (a <=? a') && (a' <? a + 1) then byte_of v (a' - a) else byte b a'.
Proof.
  rewrite byte_put. destruct (Z.leb_spec a a'), (Z.ltb_spec a' (a + 1)); cbn [andb]; case_decide; try lia; [|reflexivity..].
  subst. rewrite Z.sub_diag, byte_of_0. reflexivity.
Qed.
Lemma byte_put16 a v b a' : byte (put16 a v b) a' = if (a <=? a') && (a' <? a + 2) then byte_of v (a' - a) else byte b a'.
Proof.
  unfold put16. rewrite !byte_put8. destruct (Z.leb_spec a a'), (Z.ltb_spec a' (a + 1)), (Z.leb_spec (a + 1) a'), (Z.ltb_spec a' (a + 1 + 1)),
    (Z.ltb_spec a' (a + 2)); cbn [andb]; try lia; try reflexivity.
  replace a' with (a + 1) by lia. replace (a + 1 - (a + 1)) with 0 by lia. replace (a + 1 - a) with 1 by lia. rewrite byte_of_0. reflexivity.
Qed.
Lemma byte_put32 a v b a' : byte (put32 a v b) a' = if (a <=? a') && (a' <? a + 4) then byte_of v (a' - a) else byte b a'.
Proof.
  unfold put32. rewrite !byte_put16. destruct (Z.leb_spec a a'), (Z.ltb_spec a' (a + 2)), (Z.leb_spec (a + 2) a'), (Z.ltb_spec a' (a + 2 + 2)),
    (Z.ltb_spec a' (a + 4)); cbn [andb]; try lia; try reflexivity.
  unfold byte_of. rewrite Z.div_div, <- Z.pow_add_r by lia. do 3 f_equal. lia.
Qed.
#[export] Instance flat_bytes : ByteRam.
Proof.
  refine {| ram_byte := byte : bus -> Z -> Z; in_bytes := mapped |}.
  - intros b a. apply byte_range.
  - intros op n a i c b Ho _ _ Hin. cbn. unfold flat_ld. assert (Hn : (0 < n)%nat) by (destruct op; try discriminate Ho; injection Ho as <-; lia).
    specialize (Hin 0 ltac:(lia)). rewrite Z.add_0_r in Hin. rewrite Hin. do 2 f_equal.
    destruct op; try discriminate Ho; injection Ho as <-; cbn [le_bytes snd]; unfold word, half; [lia|lia|].
    replace (a + 1 + 1) with (a + 2) by lia. lia.
  - intros op n a v i c b Ho _ _ Hv Hin. cbn. unfold flat_st. assert (Hn : (0 < n)%nat) by (destruct op; try discriminate Ho; injection Ho as <-; lia).
    specialize (Hin 0 ltac:(lia)). rewrite Z.add_0_r in Hin. rewrite Hin. eexists. split; [reflexivity|]. intros a' _.
    destruct op; try discriminate Ho; injection Ho as <-; [apply byte_put8|apply byte_put16|apply byte_put32].
Defined.

(** ** The theorems at concrete states *)
Definition demo_regs : list Z := [0xd3; 1; 2; 3; 4; 5; 6; 7; 8; 9; 10; 11; 12; 0x20000; 0x9001; 0x8000].
Definition demo_core : cpu_st := set_regs demo_regs (zero_cpu ARM_CPU_MODE_USR 0x3f).
Definition demo_dc (th : Z) : dctx :=
  {| pc := 0x8000; insn_pc := 0x8000; is_jmp := DISAS_NEXT; condexec_mask := 0; condexec_cond := 0; singlestep := false;
     dthumb := th; dbswap := 0; user := true; vfp_enabled := 1; dvec_len := 0; dvec_stride := 0 |}.
Definition demo_rt (th insn : Z) : rt :=
  {| core := demo_core; excl_addr := 0xffffffff; excl_val := 0; excl_high := 0; rbus := put32 0x8000 insn ∅ : bus; dc := demo_dc th |}.
Lemma demo_wf : cpu_wf demo_core.
Proof. apply set_regs_wf; [apply zero_cpu_wf|reflexivity|]. repeat constructor; lia. Qed.
Lemma demo_uinv th insn : uinv (demo_rt th insn).
Proof. split; [reflexivity|]. split; [reflexivity|]. split; [apply demo_wf|]. split; [discriminate|reflexivity].
Qed.
(** Code that keeps the invariant ends in a well-formed state. *)
Lemma uok_wf {A} (m : T A) r f r' : uok m -> uinv r -> m r = Done (f, r') -> cpu_wf (core r').
Proof. intros Hm Hr E. destruct (Hm r Hr) as (g & r1 & E1 & (_ & _ & W & _) & _). rewrite E1 in E. injection E as _ <-. exact W. Qed.

(** [CPSID if] and [MSR CPSR_c, r0] in user mode. *)
Definition in_it (cond : Z) (r : rt) : rt := set_dc (set_condexec cond 8 (dc r)) r.
Lemma user_thumb_confined_witness :
  (exists f r', disas_thumb_insn false (demo_rt 1 0xb673) = Done (f, r') /\ uinv r' /\ ukeep demo_core (core r')) /\
  disas_thumb_insn false (in_it 1 (demo_rt 1 0xd1fe)) = Undefined.
Proof.
  split.
  - apply (user_thumb_confined (demo_rt 1 0xb673) (demo_uinv 1 0xb673)). intros H. destruct (H eq_refl).
  - apply (user_thumb_confined (in_it 1 (demo_rt 1 0xd1fe)) (demo_uinv 1 0xd1fe)). intros _. cbn. lia.
Defined.
Lemma user_arm_confined_witness : exists f r', disas_arm_insn 0xe121f000 (demo_rt 0 0xe121f000) = Done (f, r') /\ uinv r' /\ ukeep demo_core (core r').
Proof. apply (user_arm_confined (demo_rt 0 0xe121f000)); [apply demo_uinv|unfold is_u32; lia|reflexivity]. Defined.

(** [ADDS r4, r1, r2, LSL #3]. *)
Lemma data_processing_correct_witness : exists r', disas_arm_insn 0xe0914182 (demo_rt 0 0) = Done (Go tt, r') /\
  dp_post true 4 17 {| fN := false; fZ := false; fC := false; fV := false |} (demo_rt 0 0) r'.
Proof.
  apply (data_processing_correct 0xe0914182 (demo_rt 0 0));
    [unfold is_u32; lia|reflexivity|discriminate|reflexivity|apply demo_wf|reflexivity|discriminate].
Defined.

(** [PUSH {r4-r6, lr}] and [POP {r4-r6, pc}] with r5 overwritten in between. *)
Lemma push_pop_roundtrip_witness : exists r1, thumb16 (push_insn 0x70 true) (demo_rt 1 0) = Done (Go tt, r1) /\
  reg (core r1) 13 = 0x1fff0 /\ exists r3,
    thumb16 (pop_insn 0x70 true) (set_core (set_regs (zset (regs (core r1)) 5 0) (core r1)) r1) = Done (Go tt, r3) /\
    reg (core r3) 13 = 0x20000 /\ reg (core r3) 5 = 5 /\ reg (core r3) 15 = 0x9000.
Proof.
  destruct (push_pop_roundtrip 0x70 true (demo_rt 1 0)) as (r1 & E1 & S1 & _ & K).
  - lia.
  - apply demo_wf.
  - split_and!; [cbv; discriminate|reflexivity|cbv; discriminate|]. intros k Hk. unfold in_ram, flat_ram, mapped. apply Z.leb_le.
    change (reg (core (demo_rt 1 0)) 13) with 0x20000. change (push_count (push_insn 112 true)) with 4%nat. lia.
  - exists r1. split; [exact E1|]. split; [exact S1|].
    assert (W : cpu_wf (core r1)).
    { refine (uok_wf _ _ _ _ _ (demo_uinv 1 0) E1). apply uok_thumb16. }
    destruct (K (set_core (set_regs (zset (regs (core r1)) 5 0) (core r1)) r1)) as (r3 & E3 & P1 & P2 & _ & P4 & _).
    + apply reg_wf_set; [exact W|unfold is_u32; lia].
    + rewrite <- S1. cbn [core set_core]. rewrite reg_set by (exact W || lia). reflexivity.
    + reflexivity.
    + exists r3. split; [exact E3|]. split; [exact P1|]. split; [rewrite (P2 5) by lia; reflexivity|exact P4].
Defined.


(** [LDREXD] and [STREXD] at the same address, undisturbed. *)
Lemma excl_flat size a : 0 <= size <= 3 -> 4096 <= a -> a + 8 <= 2 ^ 32 -> a mod 4 = 0 -> excl_ok size a.
Proof.
  intros Hs Ha Hb Hm. unfold excl_ok, excl_bytes, size_bytes, in_bytes, flat_bytes, mapped. pose proof (Z.div_mod a 4 ltac:(lia)) as E. rewrite Hm in E.
  assert (size = 0 \/ size = 1 \/ size = 2 \/ size = 3) as [->|[->|[->| ->]]] by lia; cbn;
    (split; [lia|]); (split; [lia|]); (split; [lia|]); (split; [|intros k Hk; apply Z.leb_le; lia]).
  - apply Z.mod_1_r.
  - rewrite E. replace (4 * (a / 4) + 0) with (2 * (a / 4) * 2) by lia. apply Z.mod_mul. lia.
  - exact Hm.
  - exact Hm.
Qed.
Lemma exclusive_pair_witness : exists r1, gen_load_exclusive 0 1 0x8000 3 (demo_rt 0 77) = Done (Go tt, r1) /\
  reg_val 3 (core r1) 0 1 = 77 /\ exists r3, gen_store_exclusive 2 6 7 0x8000 3 r1 = Done (Go tt, r3) /\ reg (core r3) 2 = 0 /\
    byte (rbus r3) 0x8000 = 6 /\ byte (rbus r3) 0x8004 = 7.
Proof.
  assert (Hx : excl_ok 3 0x8000) by (apply excl_flat; lia || reflexivity).
  destruct (exclusive_pair 3 0 1 2 6 7 0x8000 0x8000 (demo_rt 0 77) Hx Hx demo_wf) as (r1 & E1 & _ & W1 & V1 & F1 & M1 & K);
    [lia|intros _; lia|lia|lia|intros _; lia|].
  exists r1. split; [exact E1|]. split; [exact V1|]. destruct (K r1 W1) as (r3 & E3 & _ & C3 & B3 & _). rewrite M1 in *. exists r3. split; [exact E3|].
  split; [rewrite C3, reg_set by (exact W1 || lia); reflexivity|].
  assert (V : reg_val 3 (core r1) 6 7 = 6 + 2 ^ 32 * 7) by (unfold reg_val; rewrite (F1 6), (F1 7) by lia; reflexivity).
  rewrite V in B3. split; [apply (B3 0x8000)|apply (B3 0x8004)]; unfold is_u32; lia.
Defined.
(** A cleared monitor is the address 0xffffffff: a byte store-exclusive there
    succeeds without a load-exclusive. *)
Lemma top_byte_monitor : match (gen_clrex ;* gen_store_exclusive 2 3 15 0xffffffff 0) (demo_rt 0 0) with
  | Done (Go tt, r') => (reg (core r') 2, byte (rbus r') 0xffffffff) | _ => (2, 0) end = (0, 3).
Proof. vm_compute. reflexivity. Qed.

(** [ITTE EQ], then its first instruction. *)
Lemma it_state_correct_witness : it_pair (it_advance (it_context (0xbf00 + 0x06) (demo_dc 1))) = its_pair 0x06.
Proof. apply (it_state_correct 0x06 (demo_dc 1)); [lia|discriminate]. Defined.

(** [ADD r0, r1, r2] in a block. *)
Definition demo_tbst : tb_st := {| trt := demo_rt 0 0xe0810002; tvemu := demo_s1 |}.
#[export] Instance demo_debug : DebugConsts := {| EXCP_DEBUG := 0x10002 |}.
Lemma tb_accounting_witness : exists f s' v, @run_tb _ _ demo_clock demo_pm wfi_consts _ [] demo_tbst = Done (f, s') /\
  @charged demo_pm (0xe0810002, 0, false) (tvemu demo_tbst) v /\ (tvemu s' = v \/ @slept _ demo_clock f v s').
Proof.
  assert (D : match @run_tb _ _ demo_clock demo_pm wfi_consts _ [] demo_tbst with Done _ => true | _ => false end = true)
    by (vm_compute; reflexivity).
  destruct (@run_tb _ _ demo_clock demo_pm wfi_consts _ [] demo_tbst) as [[f s']| | |] eqn:E; [|discriminate D..].
  pose proof (tb_accounting [] demo_tbst f s' E) as H.
  assert (F : match (insn_start [] ;* vemu_fetch) (trt demo_tbst) with Done (Go x, _) => Some x | _ => None end = Some (0xe0810002, 0, false))
    by (vm_compute; reflexivity).
  destruct ((insn_start [] ;* vemu_fetch) (trt demo_tbst)) as [[[x| | | |] r1]| | |]; try discriminate F. injection F as ->.
  destruct H as (v & C & V). exists f, s', v. split; [reflexivity|]. split; [exact C|exact V].
Defined.
