(* ===== verification/TransEdge.v ===== *)
(** * Corners of the translator

    Inputs on which the translated code does something other than the
    architecture or the source's comments say, each on the flat guest. *)
From stdpp Require Import base list gmap.
From S2P Require Import Prelude Double ArmTable State Power Cycles ArmDecode CpuState Errors OpHelper CpuMode Wfi Sys V7m Dsp Softfloat Vfp Tcg.
From S2P Require Import TransGen TransArm TransThumb2 TransThumb TransStep TransUser TransConfined TransDp TransRam TransBlock TransFlat.
Open Scope Z_scope.

(** What one looks at after a piece of code. *)
Definition peek {A B} (m : T A) (r : rt) (g : rt -> B) : option (flow A * B) :=
  match m r with Done (f, r') => Some (f, g r') | _ => None end.
(** Whether code ends in an abort, or in undefined behaviour. *)
Definition fails {A} (m : T A) (r : rt) : option bool :=
  match m r with AssertFailed => Some true | Undefined => Some false | _ => None end.
Definition features_of (l : list Z) : Z := foldr (fun f acc => Z.lor (Z.shiftl 1 f) acc) 0 l.
Definition edge_rt (mode : Z) (feat : list Z) (u : bool) (th insn : Z) : rt :=
  {| core := set_regs demo_regs (zero_cpu mode (features_of feat)); excl_addr := 0xffffffff; excl_val := 0; excl_high := 0;
     rbus := put32 0x8000 insn ∅ : bus;
     dc := {| pc := 0x8000; insn_pc := 0x8000; is_jmp := DISAS_NEXT; condexec_mask := 0; condexec_cond := 0; singlestep := false;
              dthumb := th; dbswap := 0; user := u; vfp_enabled := 1; dvec_len := 0; dvec_stride := 0 |} |}.

(** SRSDB sp!, #19 of privileged code stores LR and SPSR, moves the stack
    pointer, and then raises the undefined-instruction exception. *)
Lemma srs_stores_then_undefined :
  peek (disas_arm_insn 0xf96d0513) (edge_rt ARM_CPU_MODE_SVC [ARM_FEATURE_V5; ARM_FEATURE_V6] false 0 0)
    (fun r => (exception_index (core r), word (rbus r) 0x1fff8, reg (core r) 13)) = Some (Raised, (EXCP_UDEF, 0x9001, 0x1fff8)).
Proof. vm_compute. reflexivity. Qed.

(** The second half of a Thumb-1 BLX, without v5: the exception's return
    address is the halfword before the instruction. *)
Lemma blx_half_reports_previous :
  peek (disas_thumb_insn false) (edge_rt ARM_CPU_MODE_USR [ARM_FEATURE_V4T] true 1 0xe800)
    (fun r => (exception_index (core r), reg (core r) 15)) = Some (Raised, (EXCP_UDEF, 0x7ffe)).
Proof. vm_compute. reflexivity. Qed.

(** Stepping over [SVCNE] with Z set: the skipped instruction raises its
    exception. *)
Definition with_step (ss : bool) (r : rt) : rt := set_dc (tb_context (if dthumb (dc r) =? 0 then 0 else 1) 0x8000 ss) r.
Definition insn_and_end (r : rt) : option (flow unit * (Z * Z)) :=
  match @bind tb_st _ _ (on_rt (one_insn false)) (@tb_end _ demo_clock wfi_consts demo_debug) {| trt := r; tvemu := initial_st |} with
  | Done (f, s') => Some (f, (exception_index (core (trt s')), reg (core (trt s')) 15))
  | _ => None
  end.
Definition svcne : rt := edge_rt ARM_CPU_MODE_USR [ARM_FEATURE_V5] true 0 0x1f000000.
Lemma step_over_skipped_svc :
  option_map fst (insn_and_end (with_step false svcne)) = Some (ExitTb) /\
  insn_and_end (with_step true svcne) = Some (Raised, (EXCP_SWI, 0x8004)).
Proof. split; vm_compute; reflexivity. Qed.

(** Unprivileged M-profile code writes CONTROL ([MSR CONTROL, r4] with
    r4 = 4, so bit 0 clear) and thereby becomes privileged. *)
Definition m_user : rt :=
  let r := edge_rt 0 [ARM_FEATURE_M; ARM_FEATURE_THUMB2] true 1 0x8814f384 in set_core (set_control 1 (core r)) r.
Lemma unprivileged_msr_control : control (core m_user) = 1 /\
  peek (disas_thumb_insn false) m_user (fun r => control (core r)) = Some (Go tt, 0).
Proof. split; vm_compute; reflexivity. Qed.

(** Instructions on which the emulator itself ends, from user mode: MCRR2,
    and any instruction of an IT block with condition 0b1111. *)
Definition it_user : rt := let r := edge_rt ARM_CPU_MODE_USR [ARM_FEATURE_THUMB2] true 1 0xbf00 in set_dc (set_condexec 15 8 (dc r)) r.
Lemma user_code_ends_emulator :
  fails (disas_arm_insn 0xfc400000) (edge_rt ARM_CPU_MODE_USR [ARM_FEATURE_V5] true 0 0) = Some true /\
  fails (disas_thumb_insn false) it_user = Some true.
Proof. split; vm_compute; reflexivity. Qed.

(** ... and on which it leaves the register file or the code generator's
    contract: LDRD to r15, LDREXD to r15, STREXD from r15, and BFI with the
    last bit below the first. *)
Definition v7_user : rt := edge_rt ARM_CPU_MODE_USR [ARM_FEATURE_V5; ARM_FEATURE_V6; ARM_FEATURE_V6K; ARM_FEATURE_THUMB2; ARM_FEATURE_V7] true 0 0.
Definition with_r0 (v : Z) (r : rt) : rt := set_core (set_regs (zset (regs (core r)) 0 v) (core r)) r.
Lemma user_code_out_of_bounds : Forall (fun insn => fails (disas_arm_insn insn) (set_excl_addr 0x8000 (with_r0 0x8000 v7_user)) = Some false /\ arm_hazard insn = true)
  [0xe1c0f0d0; 0xe1b0ff9f; 0xe1a01f9f; 0xe7c10f90].
Proof. repeat (apply Forall_cons; split; [split; vm_compute; reflexivity|]). apply Forall_nil_2. Qed.
