(* ===== verification/TransVfp.v ===== *)
(** * The VFP decoder: [disas_vfp_insn] of [translate.c]

    Transfers between the core and the VFP registers, data processing with
    short vectors, loads and stores.  The floating-point temporaries of the
    translator are a record of values; [return 1] is [illegal_op]. *)
From stdpp Require Import base list.
From S2P Require Import Prelude Double ArmTable State CpuState Errors OpHelper CpuMode Sys V7m Dsp Softfloat Vfp Tcg TransGen TransArm.
Open Scope Z_scope.

(** ** Register numbers *)
Definition ARM_VFP_MVFR1 : Z := 6.
Definition ARM_VFP_MVFR0 : Z := 7.
Definition ARM_VFP_FPINST : Z := 9.
Definition ARM_VFP_FPINST2 : Z := 10.

Definition VFP_REG_SHR (x n : Z) : Z := if 0 <? n then Z.shiftr x n else u32 (Z.shiftl x (- n)).
Definition VFP_SREG (insn bigbit smallbit : Z) : Z := Z.lor (Z.land (VFP_REG_SHR insn (bigbit - 1)) 0x1e) (fld insn smallbit 1).
Definition VFP_SREG_D (insn : Z) : Z := VFP_SREG insn 12 22.
Definition VFP_SREG_N (insn : Z) : Z := VFP_SREG insn 16 7.
Definition VFP_SREG_M (insn : Z) : Z := VFP_SREG insn 0 5.

(** The width of an operation. *)
Definition fsz_of (dp : bool) : fsz := if dp then F64 else F32.

(** ** The floating-point temporaries *)
Record fregs : Type := { F0s : Z; F0d : Z; F1s : Z; F1d : Z }.
Definition F0 (dp : bool) (f : fregs) : Z := if dp then F0d f else F0s f.
Definition F1 (dp : bool) (f : fregs) : Z := if dp then F1d f else F1s f.
Definition put_F0 (dp : bool) (v : Z) (f : fregs) : fregs :=
  if dp then {| F0s := F0s f; F0d := u64 v; F1s := F1s f; F1d := F1d f |}
  else {| F0s := u32 v; F0d := F0d f; F1s := F1s f; F1d := F1d f |}.
Definition put_F1 (dp : bool) (v : Z) (f : fregs) : fregs :=
  if dp then {| F0s := F0s f; F0d := F0d f; F1s := F1s f; F1d := u64 v |}
  else {| F0s := F0s f; F0d := F0d f; F1s := u32 v; F1d := F1d f |}.

(** The VFP part of the machine: the floating-point state beside the data
    registers, which are in the processor state. *)
Class VfpBus `{GU : Guest} `{SF : Softfloat} := { vfp_of : bus -> vfp_env; with_vfp : vfp_env -> bus -> bus }.

Section VfpTrans.
Context {GU : Guest} {SF : Softfloat} {VB : VfpBus} {HO : HostOps}.

Definition VFP_DREG (insn bigbit smallbit : Z) : T Z :=
  let* v3 := feature ARM_FEATURE_VFP3 in
  if (v3 : bool) then tret (Z.lor (fld insn bigbit 0xf) (fld insn (smallbit - 4) 0x10))
  else if bit insn smallbit then illegal_op
  else tret (fld insn bigbit 0xf).
Definition VFP_DREG_D (insn : Z) : T Z := VFP_DREG insn 12 22.
Definition VFP_DREG_N (insn : Z) : T Z := VFP_DREG insn 16 7.
Definition VFP_DREG_M (insn : Z) : T Z := VFP_DREG insn 0 5.
Definition VFP_REG (dp : bool) (insn bigbit smallbit : Z) : T Z :=
  if dp then VFP_DREG insn bigbit smallbit else tret (VFP_SREG insn bigbit smallbit).

(** ** Access to the registers *)

(** A helper on the floating-point state. *)
Definition on_vfp {A} (m : M vfp_env A) : T A := fun r =>
  match m (set_vcpu (core r) (vfp_of (rbus r))) with
  | Done (a, e) => Done (Go a, set_rbus (with_vfp e (rbus r)) (set_core (vcpu e) r))
  | AssertFailed => AssertFailed | Undefined => Undefined | Exited z => Exited z
  end.
Definition load_xreg (n : Z) : T Z := on_vfp (gets (fun e => nthz (xregs e) n)).
Definition store_xreg (n v : Z) : T unit := on_vfp (modify (set_xreg n v)).

(** [vfp_reg_offset]: register [reg] is a whole element of [vfp.regs] or, in
    single precision, its lower or upper word.  The words behind the last
    element are [vfp.xregs], on a little-endian host in order. *)
Definition ld_vreg (dp : bool) (reg : Z) : T Z :=
  if dp then
    if reg <? 32 then on_core (let! v := gets vfp_regs in arr_get v reg)
    else let* lo := load_xreg ((reg - 32) * 2) in let* hi := load_xreg ((reg - 32) * 2 + 1) in tret (concat64 lo hi)
  else if reg <? 64 then
    on_core (let! v := gets vfp_regs in let! x := arr_get v (Z.shiftr reg 1) in
             ret (if bit reg 0 then Z.shiftr x 32 else u32 x))
  else load_xreg (reg - 64).
Definition put_word (hi : bool) (v x : Z) : Z := if hi then Z.lor (u32 x) (Z.shiftl (u32 v) 32) else Z.lor (u32 v) (Z.shiftl (Z.shiftr x 32) 32).
Definition st_vreg (dp : bool) (reg v : Z) : T unit :=
  if dp then
    if reg <? 32 then
      on_core (let! l := gets vfp_regs in let! x := arr_get l reg in modify (set_vfp_regs (zset l reg (u64 v))))
    else store_xreg ((reg - 32) * 2) (lo64 v) ;* store_xreg ((reg - 32) * 2 + 1) (hi64 v)
  else if reg <? 64 then
    on_core (let! l := gets vfp_regs in let! x := arr_get l (Z.shiftr reg 1) in
             modify (set_vfp_regs (zset l (Z.shiftr reg 1) (put_word (bit reg 0) v x))))
  else store_xreg (reg - 64) (u32 v).

Definition neon_load_reg (reg pass : Z) : T Z := ld_vreg false (reg * 2 + pass).
Definition neon_store_reg (reg pass v : Z) : T unit := st_vreg false (reg * 2 + pass) v.
Definition gen_mov_F0_vreg (dp : bool) (reg : Z) (f : fregs) : T fregs := let* v := ld_vreg dp reg in tret (put_F0 dp v f).
Definition gen_mov_F1_vreg (dp : bool) (reg : Z) (f : fregs) : T fregs := let* v := ld_vreg dp reg in tret (put_F1 dp v f).
Definition gen_mov_vreg_F0 (dp : bool) (reg : Z) (f : fregs) : T unit := st_vreg dp reg (F0 dp f).

(** ** Arithmetic *)
Definition gen_vfp_op2 (h : fsz -> Z -> Z -> fpst -> M vfp_env Z) (dp : bool) (f : fregs) : T fregs :=
  let* v := on_vfp (h (fsz_of dp) (F0 dp f) (F1 dp f) Normal) in tret (put_F0 dp v f).
Definition gen_vfp_add := gen_vfp_op2 vfp_add.
Definition gen_vfp_sub := gen_vfp_op2 vfp_sub.
Definition gen_vfp_mul := gen_vfp_op2 vfp_mul.
Definition gen_vfp_div := gen_vfp_op2 vfp_div.
Definition gen_vfp_F1_mul (dp : bool) (f : fregs) : T fregs :=
  let* v := on_vfp (vfp_mul (fsz_of dp) (F0 dp f) (F1 dp f) Normal) in tret (put_F1 dp v f).
Definition gen_vfp_F1_neg (dp : bool) (f : fregs) : T fregs :=
  let* v := on_vfp (vfp_neg (fsz_of dp) (F0 dp f)) in tret (put_F1 dp v f).
Definition gen_vfp_op1 (h : fsz -> Z -> M vfp_env Z) (dp : bool) (f : fregs) : T fregs :=
  let* v := on_vfp (h (fsz_of dp) (F0 dp f)) in tret (put_F0 dp v f).
Definition gen_vfp_abs := gen_vfp_op1 vfp_abs.
Definition gen_vfp_neg := gen_vfp_op1 vfp_neg.
Definition gen_vfp_sqrt := gen_vfp_op1 vfp_sqrt.
Definition gen_vfp_cmp (dp : bool) (f : fregs) : T fregs := on_vfp (vfp_cmp (fsz_of dp) (F0 dp f) (F1 dp f)) ;* tret f.
Definition gen_vfp_cmpe (dp : bool) (f : fregs) : T fregs := on_vfp (vfp_cmpe (fsz_of dp) (F0 dp f) (F1 dp f)) ;* tret f.
Definition gen_vfp_F1_ld0 (dp : bool) (f : fregs) : T fregs := tret (put_F1 dp 0 f).
(** [VFP_GEN_ITOF], [VFP_GEN_FTOI], [VFP_GEN_FIX]. *)
Definition gen_vfp_itof (sg : isign) (dp : bool) (f : fregs) : T fregs :=
  let* v := on_vfp (conv_itof sg (fsz_of dp) (F0s f) Normal) in tret (put_F0 dp v f).
Definition gen_vfp_ftoi (sg : isign) (rtz dp : bool) (f : fregs) : T fregs :=
  let* v := on_vfp (conv_ftoi sg rtz (fsz_of dp) (F0 dp f) Normal) in tret (put_F0 false v f).
Definition gen_vfp_fix_to (t : itype) (dp : bool) (shift : Z) (f : fregs) : T fregs :=
  let* v := on_vfp (conv_fix_to_float t (fsz_of dp) (F0 dp f) shift Normal) in tret (put_F0 dp v f).
Definition gen_vfp_to_fix (t : itype) (dp : bool) (shift : Z) (f : fregs) : T fregs :=
  let* v := on_vfp (conv_float_to_fix t (fsz_of dp) (F0 dp f) shift Normal) in tret (put_F0 dp v f).

Definition gen_vfp_ld (dp : bool) (addr : Z) (f : fregs) : T fregs :=
  let* u := IS_USER in
  let* v := qemu_ld (if dp then MO_64 else MO_32) addr u in tret (put_F0 dp v f).
Definition gen_vfp_st (dp : bool) (addr : Z) (f : fregs) : T unit :=
  let* u := IS_USER in qemu_st (if dp then MO_64 else MO_32) addr (F0 dp f) u.

Definition gen_neon_dup_u8 (var shift : Z) : Z :=
  let var := ext8u (if negb (shift =? 0) then shr_i32 var shift else var) in
  let var := Z.lor var (shl_i32 var 8) in Z.lor var (shl_i32 var 16).
Definition gen_neon_dup_low16 (var : Z) : Z := let var := ext16u var in Z.lor var (shl_i32 var 16).

(** ** Single register transfers *)

(** The lane of a D register: its size and bit offset. *)
Definition vfp_lane (insn : Z) : Z * Z :=
  if bit insn 22 then (0, fld insn 5 3 * 8)
  else if bit insn 5 then (1, if bit insn 6 then 16 else 0)
  else (2, 0).

Definition vmov_from_lane (insn rd rn : Z) : T unit :=
  let '(size, offset) := vfp_lane insn in
  let* tmp := neon_load_reg rn (fld insn 21 1) in
  let u := bit insn 23 in
  store_reg rd
    match size with
    | 0 => let tmp := if negb (offset =? 0) then shr_i32 tmp offset else tmp in if u then ext8u tmp else ext8s tmp
    | 1 => if u then if negb (offset =? 0) then shr_i32 tmp 16 else ext16u tmp
           else if negb (offset =? 0) then sar_i32 tmp 16 else ext16s tmp
    | _ => tmp
    end.

Definition vmov_to_lane (insn rd rn : Z) : T unit :=
  let '(size, offset) := vfp_lane insn in
  let pass := fld insn 21 1 in
  let* tmp := load_reg rd in
  if bit insn 23 then
    let tmp := match size with 0 => gen_neon_dup_u8 tmp 0 | 1 => gen_neon_dup_low16 tmp | _ => tmp end in
    let* _ := tfold (seqZ 0 (pass * 2 + 2)) (fun (_ : unit) n => neon_store_reg rn n tmp) tt in tret tt
  else
    let* tmp :=
      if size =? 2 then tret tmp
      else
        let* tmp2 := neon_load_reg rn pass in
        match deposit_i32 tmp2 tmp offset (if size =? 0 then 8 else 16) with Some v => tret v | None => lift undefined end in
    neon_store_reg rn pass tmp.

Definition vfp_single_dp (insn rd : Z) : T unit :=
  let* rn := VFP_DREG_N insn in
  require (Z.land insn 0xf =? 0) ;*
  let* neon := feature ARM_FEATURE_NEON in
  require ((Z.land insn 0x00c00060 =? 0) || neon) ;*
  if bit insn 20 then vmov_from_lane insn rd rn else vmov_to_lane insn rd rn.

(** [fmrx]: the value of a system register. *)
Definition vfp_read_sys (rn rd : Z) : T Z :=
  let* u := IS_USER in
  let* v3 := feature ARM_FEATURE_VFP3 in
  let* mvfr := feature ARM_FEATURE_MVFR in
  if rn =? ARM_VFP_FPSID then require (negb (u && v3)) ;* load_xreg rn
  else if rn =? ARM_VFP_FPEXC then require (negb u) ;* load_xreg rn
  else if (rn =? ARM_VFP_FPINST) || (rn =? ARM_VFP_FPINST2) then require (negb (u || v3)) ;* load_xreg rn
  else if rn =? ARM_VFP_FPSCR then
    if rd =? 15 then let* tmp := load_xreg ARM_VFP_FPSCR in tret (Z.land tmp 0xf0000000)
    else on_vfp (gets vfp_get_fpscr)
  else if (rn =? ARM_VFP_MVFR0) || (rn =? ARM_VFP_MVFR1) then require (negb (u || negb mvfr)) ;* load_xreg rn
  else illegal_op.

(** [fmxr]. *)
Definition vfp_write_sys (rn rd : Z) : T unit :=
  if (rn =? ARM_VFP_FPSID) || (rn =? ARM_VFP_MVFR0) || (rn =? ARM_VFP_MVFR1) then tret tt
  else if rn =? ARM_VFP_FPSCR then
    let* tmp := load_reg rd in on_vfp (modify (vfp_set_fpscr tmp)) ;* gen_lookup_tb
  else if rn =? ARM_VFP_FPEXC then
    let* u := IS_USER in
    require (negb u) ;*
    let* tmp := load_reg rd in store_xreg rn (Z.land tmp (Z.shiftl 1 30)) ;* gen_lookup_tb
  else if (rn =? ARM_VFP_FPINST) || (rn =? ARM_VFP_FPINST2) then let* tmp := load_reg rd in store_xreg rn tmp
  else illegal_op.

Definition vfp_single_sp (insn rd : Z) : T unit :=
  require (Z.land insn 0x6f =? 0) ;*
  let rn := VFP_SREG_N insn in
  if bit insn 20 then
    let* tmp := if bit insn 21 then vfp_read_sys (Z.shiftr rn 1) rd else ld_vreg false rn in
    if rd =? 15 then gen_set_nzcv tmp else store_reg rd tmp
  else if bit insn 21 then vfp_write_sys (Z.shiftr rn 1) rd
  else let* tmp := load_reg rd in st_vreg false rn tmp.

(** ** Data processing *)

(** The opcode and the register numbers: [rn] is an opcode when [op] is 15. *)
Definition vfp_op (insn : Z) : Z := lors [fld insn 20 8; fld insn 19 6; fld insn 6 1].
Definition int_dest (rn : Z) : bool := Z.land rn 0x1c =? 0x18.
Definition sreg_source (rn : Z) : bool := (Z.land rn 0x1c =? 0x10) || (Z.land rn 0x14 =? 0x14).
Definition vfp_dp_regs (insn op : Z) (dp : bool) : T (Z * Z * Z) :=
  let x := op =? 15 in
  if dp then
    let* rn := if x then tret (Z.lor (fld insn 15 0x1e) (fld insn 7 1)) else VFP_DREG_N insn in
    let* rd := if x && ((rn =? 15) || int_dest rn) then tret (VFP_SREG_D insn) else VFP_DREG_D insn in
    let* rm := if x && sreg_source rn then tret (VFP_SREG_M insn) else VFP_DREG_M insn in
    tret (rd, rn, rm)
  else
    let rn := VFP_SREG_N insn in
    let* rd := if x && (rn =? 15) then VFP_DREG_D insn else tret (VFP_SREG_D insn) in
    tret (rd, rn, VFP_SREG_M insn).

(** The shape of a short-vector operation: length, strides of the
    destination and of the second operand, and the bank mask. *)
Definition bank_mask (dp : bool) : Z := if dp then 0xc else 0x18.
Definition vfp_vector (d : dctx) (op rn rd rm : Z) (dp : bool) : Z * Z * Z :=
  let veclen := if (op =? 15) && (3 <? rn) then 0 else dvec_len d in
  if 0 <? veclen then
    if Z.land rd (bank_mask dp) =? 0 then (0, 0, 0)
    else
      let delta_d := if dp then Z.shiftr (dvec_stride d) 1 + 1 else dvec_stride d + 1 in
      (veclen, delta_d, if Z.land rm (bank_mask dp) =? 0 then 0 else delta_d)
  else (veclen, 0, 0).
Definition vfp_advance (dp : bool) (reg delta : Z) : Z :=
  Z.lor (Z.land (reg + delta) (bank_mask dp - 1)) (Z.land reg (bank_mask dp)).

Definition vfp_load_operands (op rn rd rm : Z) (dp : bool) (f : fregs) : T fregs :=
  if op =? 15 then
    match rn with
    | 16 | 17 => gen_mov_F0_vreg false rm f
    | 8 | 9 => let* f := gen_mov_F0_vreg dp rd f in gen_mov_F1_vreg dp rm f
    | 10 | 11 => let* f := gen_mov_F0_vreg dp rd f in gen_vfp_F1_ld0 dp f
    | 20 | 21 | 22 | 23 | 28 | 29 | 30 | 31 => gen_mov_F0_vreg dp rd f
    | 4 | 5 | 6 | 7 =>
        let* fp16 := feature ARM_FEATURE_VFP_FP16 in
        require (negb dp && fp16) ;* gen_mov_F0_vreg dp rm f
    | _ => gen_mov_F0_vreg dp rm f
    end
  else let* f := gen_mov_F0_vreg dp rn f in gen_mov_F1_vreg dp rm f.

(** Fused multiply-add: bit 0 of [op] negates the product, bit 1 the
    addend. *)
Definition vfp_fused (op rd : Z) (dp : bool) (f : fregs) : T fregs :=
  requiref ARM_FEATURE_VFP4 ;*
  let* f := if bit op 0 then gen_vfp_neg dp f else tret f in
  let* frd := ld_vreg dp rd in
  let* frd := if bit op 1 then on_vfp (vfp_neg (fsz_of dp) frd) else tret frd in
  let* v := on_vfp (vfp_muladd (fsz_of dp) (F0 dp f) (F1 dp f) frd Normal) in tret (put_F0 dp v f).

Definition vfp_const (insn : Z) (dp : bool) : Z :=
  let n := Z.land (u32 (Z.shiftl insn 12)) 0x80000000 in
  let i := Z.lor (fld insn 12 0x70) (Z.land insn 0xf) in
  if dp then Z.shiftl (Z.lor n (Z.shiftl (Z.lor i (if bit i 6 then 0x3f80 else 0x4000)) 16)) 32
  else Z.lor n (Z.shiftl (Z.lor i (if bit i 6 then 0x780 else 0x800)) 19).

(** The half-word conversions keep the other half of the destination. *)
Definition vfp_half (rd : Z) (top : bool) (f : fregs) : T fregs :=
  let* tmp := on_vfp (vfp_fcvt_f32_to_f16 (F0s f)) in
  let tmp := if top then shl_i32 tmp 16 else tmp in
  let* f := gen_mov_F0_vreg false rd f in
  tret (put_F0 false (Z.lor tmp (if top then ext16u (F0s f) else Z.land (F0s f) 0xffff0000)) f).

Definition vfp_extension (rn rd rm : Z) (dp : bool) (f : fregs) : T fregs :=
  let v3 (m : T fregs) := requiref ARM_FEATURE_VFP3 ;* m in
  match rn with
  | 0 => tret f
  | 1 => gen_vfp_abs dp f
  | 2 => gen_vfp_neg dp f
  | 3 => gen_vfp_sqrt dp f
  | 4 => let* v := on_vfp (vfp_fcvt_f16_to_f32 (ext16u (F0s f))) in tret (put_F0 false v f)
  | 5 => let* v := on_vfp (vfp_fcvt_f16_to_f32 (shr_i32 (F0s f) 16)) in tret (put_F0 false v f)
  | 6 => vfp_half rd false f
  | 7 => vfp_half rd true f
  | 8 => gen_vfp_cmp dp f
  | 9 => gen_vfp_cmpe dp f
  | 10 => gen_vfp_cmp dp f
  | 11 => let* f := gen_vfp_F1_ld0 dp f in gen_vfp_cmpe dp f
  | 15 =>
      if dp then let* v := on_vfp (vfp_fcvtsd (F0d f)) in tret (put_F0 false v f)
      else let* v := on_vfp (vfp_fcvtds (F0s f)) in tret (put_F0 true v f)
  | 16 => gen_vfp_itof ui dp f
  | 17 => gen_vfp_itof si dp f
  | 20 => v3 (gen_vfp_fix_to int16 dp (16 - rm) f)
  | 21 => v3 (gen_vfp_fix_to int32 dp (32 - rm) f)
  | 22 => v3 (gen_vfp_fix_to uint16 dp (16 - rm) f)
  | 23 => v3 (gen_vfp_fix_to uint32 dp (32 - rm) f)
  | 24 => gen_vfp_ftoi ui false dp f
  | 25 => gen_vfp_ftoi ui true dp f
  | 26 => gen_vfp_ftoi si false dp f
  | 27 => gen_vfp_ftoi si true dp f
  | 28 => v3 (gen_vfp_to_fix int16 dp (16 - rm) f)
  | 29 => v3 (gen_vfp_to_fix int32 dp (32 - rm) f)
  | 30 => v3 (gen_vfp_to_fix uint16 dp (16 - rm) f)
  | 31 => v3 (gen_vfp_to_fix uint32 dp (32 - rm) f)
  | _ => illegal_op
  end.

Definition vfp_calc (insn op rn rd rm : Z) (dp : bool) (f : fregs) : T fregs :=
  match op with
  | 0 =>
      let* f := gen_vfp_F1_mul dp f in
      let* f := gen_mov_F0_vreg dp rd f in gen_vfp_add dp f
  | 1 =>
      let* f := gen_vfp_mul dp f in
      let* f := gen_vfp_F1_neg dp f in
      let* f := gen_mov_F0_vreg dp rd f in gen_vfp_add dp f
  | 2 =>
      let* f := gen_vfp_F1_mul dp f in
      let* f := gen_mov_F0_vreg dp rd f in
      let* f := gen_vfp_neg dp f in gen_vfp_add dp f
  | 3 =>
      let* f := gen_vfp_mul dp f in
      let* f := gen_vfp_F1_neg dp f in
      let* f := gen_mov_F0_vreg dp rd f in
      let* f := gen_vfp_neg dp f in gen_vfp_add dp f
  | 4 => gen_vfp_mul dp f
  | 5 => let* f := gen_vfp_mul dp f in gen_vfp_neg dp f
  | 6 => gen_vfp_add dp f
  | 7 => gen_vfp_sub dp f
  | 8 => gen_vfp_div dp f
  | 10 | 11 | 12 | 13 => vfp_fused op rd dp f
  | 14 => requiref ARM_FEATURE_VFP3 ;* tret (put_F0 dp (vfp_const insn dp) f)
  | 15 => vfp_extension rn rd rm dp f
  | _ => illegal_op
  end.

Definition vfp_write_result (op rn rd : Z) (dp : bool) (f : fregs) : T unit :=
  if (op =? 15) && (8 <=? rn) && (rn <=? 11) then tret tt
  else if (op =? 15) && dp && int_dest rn then gen_mov_vreg_F0 false rd f
  else if (op =? 15) && (rn =? 15) then gen_mov_vreg_F0 (negb dp) rd f
  else gen_mov_vreg_F0 dp rd f.

(** One source for many destinations. *)
Fixpoint vfp_one_many (veclen : nat) (dp : bool) (rd delta_d : Z) (f : fregs) : T unit :=
  match veclen with
  | O => tret tt
  | S n => let rd := vfp_advance dp rd delta_d in gen_mov_vreg_F0 dp rd f ;* vfp_one_many n dp rd delta_d f
  end.
Fixpoint vfp_loop (veclen : nat) (insn op rn rd rm : Z) (dp : bool) (delta_d delta_m : Z) (f : fregs) : T unit :=
  let* f := vfp_calc insn op rn rd rm dp f in
  vfp_write_result op rn rd dp f ;*
  match veclen with
  | O => tret tt
  | S n =>
      if (op =? 15) && (delta_m =? 0) then vfp_one_many veclen dp rd delta_d f
      else
        let rd := vfp_advance dp rd delta_d in
        if op =? 15 then
          let rm := vfp_advance dp rm delta_m in
          let* f := gen_mov_F0_vreg dp rm f in vfp_loop n insn op rn rd rm dp delta_d delta_m f
        else
          let rn := vfp_advance dp rn delta_d in
          let* f := gen_mov_F0_vreg dp rn f in
          if negb (delta_m =? 0) then
            let rm := vfp_advance dp rm delta_m in
            let* f := gen_mov_F1_vreg dp rm f in vfp_loop n insn op rn rd rm dp delta_d delta_m f
          else vfp_loop n insn op rn rd rm dp delta_d delta_m f
  end.

Definition vfp_data_proc (insn : Z) (dp : bool) : T unit :=
  let op := vfp_op insn in
  let* '(rd, rn, rm) := vfp_dp_regs insn op dp in
  let* d := get_dc id in
  let '(veclen, delta_d, delta_m) := vfp_vector d op rn rd rm dp in
  let* f := vfp_load_operands op rn rd rm dp {| F0s := 0; F0d := 0; F1s := 0; F1d := 0 |} in
  vfp_loop (Z.to_nat veclen) insn op rn rd rm dp delta_d delta_m f.

(** ** Two-register transfers, loads and stores *)
Definition vfp_two_regs (insn : Z) (dp : bool) : T unit :=
  let rn := fld insn 16 0xf in
  let rd := fld insn 12 0xf in
  let* rm := VFP_REG dp insn 0 5 in
  let lo := if dp then rm * 2 else rm in
  if bit insn 20 then
    let* tmp := ld_vreg false lo in
    store_reg rd tmp ;*
    let* tmp := ld_vreg false (lo + 1) in
    store_reg rn tmp
  else
    let* tmp := load_reg rd in
    st_vreg false lo tmp ;*
    let* tmp := load_reg rn in
    st_vreg false (lo + 1) tmp.

Definition vfp_base (rn : Z) : T Z :=
  let* d := get_dc id in
  if negb (dthumb d =? 0) && (rn =? 15) then tret (Z.land (pc d) (not32 2)) else load_reg rn.
Definition vfp_ld_reg (dp : bool) (reg addr : Z) : T unit :=
  let* f := gen_vfp_ld dp addr {| F0s := 0; F0d := 0; F1s := 0; F1d := 0 |} in gen_mov_vreg_F0 dp reg f.
Definition vfp_st_reg (dp : bool) (reg addr : Z) : T unit :=
  let* f := gen_mov_F0_vreg dp reg {| F0s := 0; F0d := 0; F1s := 0; F1d := 0 |} in gen_vfp_st dp addr f.

Definition vfp_ldst_single (insn rn rd : Z) (dp : bool) : T unit :=
  let offset := Z.shiftl (Z.land insn 0xff) 2 in
  let offset := if bit insn 23 then offset else - offset in
  let* addr := vfp_base rn in
  let addr := add32 addr offset in
  if bit insn 20 then vfp_ld_reg dp rd addr else vfp_st_reg dp rd addr.

Definition vfp_ldst_body (insn rd : Z) (dp : bool) (addr i : Z) : T Z :=
  (if bit insn 20 then vfp_ld_reg dp (rd + i) addr else vfp_st_reg dp (rd + i) addr) ;*
  tret (add32 addr (if dp then 8 else 4)).
Definition vfp_ldst_multiple (insn rn rd : Z) (dp : bool) : T unit :=
  let w := bit insn 21 in
  let n := if dp then fld insn 1 0x7f else Z.land insn 0xff in
  require (negb (w && Bool.eqb (bit insn 23) (bit insn 24))) ;*
  require (negb ((n =? 0) || (32 <? rd + n) || (dp && (16 <? n)))) ;*
  require (negb ((rn =? 15) && w)) ;*
  let* addr := vfp_base rn in
  let addr := if bit insn 24 then add32 addr (- Z.shiftl (Z.land insn 0xff) 2) else addr in
  let* addr := tfold (seqZ 0 n) (vfp_ldst_body insn rd dp) addr in
  if w then
    let offset :=
      if bit insn 24 then - (if dp then 8 else 4) * n
      else if dp && bit insn 0 then 4 else 0 in
    store_reg rn (if negb (offset =? 0) then add32 addr offset else addr)
  else tret tt.

(** ** The decoder *)
Definition vfp_allowed (insn : Z) (d : dctx) : bool :=
  negb (vfp_enabled d =? 0) ||
  (eqm insn 0x0fe00fff 0x0ee00a10 &&
   bool_decide (fld insn 16 0xf ∈ [ARM_VFP_FPSID; ARM_VFP_FPEXC; ARM_VFP_MVFR1; ARM_VFP_MVFR0])).

Definition disas_vfp_insn (insn : Z) : T unit :=
  requiref ARM_FEATURE_VFP ;*
  let* d := get_dc id in
  require (vfp_allowed insn d) ;*
  let dp := Z.land insn 0xf00 =? 0xb00 in
  match fld insn 24 0xf with
  | 0xe =>
      if bit insn 4 then
        let rd := fld insn 12 0xf in
        if dp then vfp_single_dp insn rd else vfp_single_sp insn rd
      else vfp_data_proc insn dp
  | 0xc | 0xd =>
      if eqm insn 0x03e00000 0x00400000 then vfp_two_regs insn dp
      else
        let rn := fld insn 16 0xf in
        let* rd := VFP_REG dp insn 12 22 in
        if eqm insn 0x01200000 0x01000000 then vfp_ldst_single insn rn rd dp else vfp_ldst_multiple insn rn rd dp
  | _ => illegal_op
  end.
End VfpTrans.
