(* ===== verification/TransNeonLs.v ===== *)
(** * NEON element loads and stores: [disas_neon_ls_insn] of [translate.c]

    Multiple structures, a structure to all lanes and a single structure,
    with the writeback of the base register. *)
From stdpp Require Import base list.
From S2P Require Import Prelude Double ArmTable State CpuState Errors OpHelper CpuMode Sys V7m Dsp Softfloat Vfp Tcg TransGen TransArm TransVfp.
Open Scope Z_scope.

(** Registers, interleave and spacing of each type. *)
Definition neon_ls_element_type : list (Z * Z * Z) :=
  [(4, 4, 1); (4, 4, 2); (4, 1, 1); (4, 2, 1); (3, 3, 1); (3, 3, 2); (3, 1, 1); (1, 1, 1); (2, 2, 1); (2, 2, 2); (2, 1, 1)].

Section NeonLs.
Context {GU : Guest} {SF : Softfloat} {VB : VfpBus} {HO : HostOps}.

(** ** Multiple structures *)

(** The 32-bit piece [pass] of register [rd], element by element; the result
    is the address behind it. *)
Definition neon_ld_pass (size stride rd : Z) (addr pass : Z) : T Z :=
  let* u := IS_USER in
  if size =? 2 then
    let* tmp := gen_ld32 addr u in
    neon_store_reg rd pass tmp ;* tret (add32 addr stride)
  else if size =? 1 then
    let* tmp := gen_ld16u addr u in
    let addr := add32 addr stride in
    let* tmp2 := gen_ld16u addr u in
    neon_store_reg rd pass (Z.lor tmp (shl_i32 tmp2 16)) ;* tret (add32 addr stride)
  else
    let* '(tmp2, addr) := tfold (seqZ 0 4) (fun acc n =>
      let '(tmp2, addr) := acc in
      let* tmp := gen_ld8u addr u in
      tret (if n =? 0 then tmp else Z.lor tmp2 (shl_i32 tmp (n * 8)), add32 addr stride)) (0, addr) in
    neon_store_reg rd pass tmp2 ;* tret addr.
Definition neon_st_pass (size stride rd : Z) (addr pass : Z) : T Z :=
  let* u := IS_USER in
  if size =? 2 then
    let* tmp := neon_load_reg rd pass in
    gen_st32 tmp addr u ;* tret (add32 addr stride)
  else if size =? 1 then
    let* tmp := neon_load_reg rd pass in
    gen_st16 tmp addr u ;*
    let addr := add32 addr stride in
    gen_st16 (shr_i32 tmp 16) addr u ;* tret (add32 addr stride)
  else
    let* tmp2 := neon_load_reg rd pass in
    tfold (seqZ 0 4) (fun addr n =>
      gen_st8 (if n =? 0 then tmp2 else shr_i32 tmp2 (n * 8)) addr u ;* tret (add32 addr stride)) addr.

(** One register: its address is the running one or, for interleaved
    structures, counted from the base again. *)
Definition neon_ls_reg (load : bool) (rn size nregs interleave stride spacing : Z) (acc : Z * Z) (reg : Z) : T (Z * Z) :=
  let '(addr, rd) := acc in
  let* addr :=
    if (2 <? interleave) || ((interleave =? 2) && (nregs =? 2)) then
      let* b := load_reg rn in tret (add32 b (Z.shiftl 1 size * reg))
    else if (interleave =? 2) && (nregs =? 4) && (reg =? 2) then
      let* b := load_reg rn in tret (add32 b (Z.shiftl 1 size))
    else tret addr in
  let* u := IS_USER in
  let* addr :=
    if size =? 3 then
      (if load then let* tmp64 := qemu_ld MO_64 addr u in st_vreg true rd tmp64
       else let* tmp64 := ld_vreg true rd in qemu_st MO_64 addr tmp64 u) ;*
      tret (add32 addr stride)
    else tfold [0; 1] (if load then neon_ld_pass size stride rd else neon_st_pass size stride rd) addr in
  tret (addr, rd + spacing).

Definition neon_ls_all (insn rd rn : Z) (load : bool) : T Z :=
  let op := fld insn 8 0xf in
  let size := fld insn 6 3 in
  require (op <=? 10) ;*
  require (negb ((Z.land op 0xc =? 4) && bit insn 5)) ;*
  require (negb ((Z.land op 0xc =? 8) && (fld insn 4 3 =? 3))) ;*
  match znth neon_ls_element_type op with
  | Some (nregs, interleave, spacing) =>
      require (negb ((size =? 3) && negb (Z.lor interleave spacing =? 1))) ;*
      let* addr := load_reg rn in
      let stride := Z.shiftl 1 size * interleave in
      let* _ := tfold (seqZ 0 nregs) (neon_ls_reg load rn size nregs interleave stride spacing) (addr, rd) in
      tret (nregs * 8)
  | None => lift undefined
  end.

(** ** One structure to all lanes *)
Definition gen_load_and_replicate (addr size : Z) : T Z :=
  let* u := IS_USER in
  match size with
  | 0 => let* tmp := gen_ld8u addr u in tret (gen_neon_dup_u8 tmp 0)
  | 1 => let* tmp := gen_ld16u addr u in tret (gen_neon_dup_low16 tmp)
  | 2 => gen_ld32 addr u
  | _ => abort
  end.
Definition neon_store_both (rd tmp : Z) : T unit := neon_store_reg rd 0 tmp ;* neon_store_reg rd 1 tmp.

Definition neon_ls_lanes (insn rd rn : Z) (load : bool) : T Z :=
  let a := bit insn 4 in
  require load ;*
  let size := fld insn 6 3 in
  let nregs := fld insn 8 3 + 1 in
  require (negb ((size =? 3) && (negb (nregs =? 4) || negb a))) ;*
  let size := if size =? 3 then 2 else size in
  require (negb ((nregs =? 1) && a && (size =? 0))) ;*
  require (negb ((nregs =? 3) && a)) ;*
  let* addr := load_reg rn in
  (if nregs =? 1 then
     let* tmp := gen_load_and_replicate addr size in
     neon_store_both rd tmp ;*
     (if bit insn 5 then neon_store_both (rd + 1) tmp else tret tt)
   else
     let stride := if bit insn 5 then 2 else 1 in
     let* _ := tfold (seqZ 0 nregs) (fun acc (_ : Z) =>
       let '(addr, rd) := acc in
       let* tmp := gen_load_and_replicate addr size in
       neon_store_both rd tmp ;* tret (add32 addr (Z.shiftl 1 size), rd + stride)) (addr, rd) in
     tret tt) ;*
  tret (Z.shiftl 1 size * nregs).

(** ** A single structure *)

(** Bit offset of the lane and register stride. *)
Definition neon_lane (insn size : Z) : T (Z * Z) :=
  match size with
  | 0 => tret (fld insn 5 3 * 8, 1)
  | 1 => tret (fld insn 6 1 * 16, if bit insn 5 then 2 else 1)
  | 2 => tret (0, if bit insn 6 then 2 else 1)
  | _ => abort
  end.
(** The undefined encodings of the alignment. *)
Definition neon_single_ok (nregs size idx : Z) : bool :=
  let low := Z.land idx 3 in
  match nregs with
  | 1 => negb (negb (Z.land idx (Z.shiftl 1 size) =? 0) || ((size =? 2) && ((low =? 1) || (low =? 2))))
  | 3 => negb (bit idx 0) && negb ((size =? 2) && bit idx 1)
  | 2 => negb ((size =? 2) && bit idx 1)
  | _ => negb ((size =? 2) && (low =? 3))
  end.
Definition neon_single_reg (load : bool) (size shift stride pass : Z) (acc : Z * Z) (_ : Z) : T (Z * Z) :=
  let '(addr, rd) := acc in
  let* u := IS_USER in
  (if load then
     let* tmp := match size with 0 => gen_ld8u addr u | 1 => gen_ld16u addr u | 2 => gen_ld32 addr u | _ => abort end in
     let* tmp :=
       if size =? 2 then tret tmp
       else
         let* tmp2 := neon_load_reg rd pass in
         match deposit_i32 tmp2 tmp shift (if size =? 0 then 8 else 16) with Some v => tret v | None => lift undefined end in
     neon_store_reg rd pass tmp
   else
     let* tmp := neon_load_reg rd pass in
     let tmp := if negb (shift =? 0) then shr_i32 tmp shift else tmp in
     match size with 0 => gen_st8 tmp addr u | 1 => gen_st16 tmp addr u | _ => gen_st32 tmp addr u end) ;*
  tret (add32 addr (Z.shiftl 1 size), rd + stride).

Definition neon_ls_single (insn size rd rn : Z) (load : bool) : T Z :=
  let idx := fld insn 4 0xf in
  let pass := fld insn 7 1 in
  let* '(shift, stride) := neon_lane insn size in
  let nregs := fld insn 8 3 + 1 in
  require (neon_single_ok nregs size idx) ;*
  require (negb (31 <? rd + stride * (nregs - 1))) ;*
  let* addr := load_reg rn in
  let* _ := tfold (seqZ 0 nregs) (neon_single_reg load size shift stride pass) (addr, rd) in
  tret (nregs * Z.shiftl 1 size).

(** ** The decoder *)
Definition disas_neon_ls_insn (insn : Z) : T unit :=
  let* d := get_dc id in
  require (negb (vfp_enabled d =? 0)) ;*
  let* rd := VFP_DREG_D insn in
  let rn := fld insn 16 0xf in
  let rm := Z.land insn 0xf in
  let load := bit insn 21 in
  let* stride :=
    if negb (bit insn 23) then neon_ls_all insn rd rn load
    else
      let size := fld insn 10 3 in
      if size =? 3 then neon_ls_lanes insn rd rn load else neon_ls_single insn size rd rn load in
  if negb (rm =? 15) then
    let* base := load_reg rn in
    let* base := if rm =? 13 then tret (add32 base stride) else (let* index := load_reg rm in tret (add32 base index)) in
    store_reg rn base
  else tret tt.
End NeonLs.
