(* ===== verification/TransVfpUser.v ===== *)
(** * User mode: the VFP decoder, and the machine with a VFP

    [vok] extends the property of [TransUser] by the enable bit of the VFP
    (FPEXC).  The second part shows the same, FPEXC apart, of the NEON
    element loads and stores; the third composes: a guest whose coprocessors
    10 and 11 are the VFP of [TransVfp] and whose NEON loads and stores are
    those of [TransNeonLs] keeps the laws of the guest it extends, so the
    confinement theorems hold of it. *)
From stdpp Require Import base list.
From S2P Require Import Prelude Double ArmTable State CpuState Errors OpHelper CpuMode Sys V7m Dsp Softfloat Vfp Tcg TransGen TransArm.
From S2P Require Import TransThumb2 TransThumb TransUser TransBeside TransVfp TransNeonLs.
Open Scope Z_scope.

(** What the floating-point state promises: it is stored and read back, and
    memory accesses leave it alone. *)
Class VfpBusLaws `{GU : Guest} `{SF : Softfloat} `{VB : !VfpBus} := {
  vfp_get e b : vfp_of (with_vfp e b) = e;
  vfp_ld op a i c b o c' b' : bus_ld op a i (c, b) = (o, (c', b')) -> vfp_of b' = vfp_of b;
  vfp_st op a v i c b o c' b' : bus_st op a v i (c, b) = (o, (c', b')) -> vfp_of b' = vfp_of b
}.

Section VfpUser.
Context {GU : Guest} {GL : GuestLaws} {SF : Softfloat} {VB : VfpBus} {VL : VfpBusLaws} {HO : HostOps}.

Definition fpexc (r : rt) : Z := nthz (xregs (vfp_of (rbus r))) ARM_VFP_FPEXC.
Definition vpost (r r' : rt) : Prop := uinv r' /\ ukeep (core r) (core r') /\ fpexc r' = fpexc r.
Definition vok {A} (m : T A) : Prop := forall r, uinv r -> exists f r', m r = Done (f, r') /\ vpost r r'.
(** ... with a property of the result. *)
Definition vokp {A} (m : T A) (P : A -> Prop) : Prop :=
  forall r, uinv r -> exists f r', m r = Done (f, r') /\ vpost r r' /\ match f with Go a => P a | _ => True end.

Lemma vpost_trans r1 r2 r3 : vpost r1 r2 -> vpost r2 r3 -> vpost r1 r3.
Proof. intros (_ & K & F) (I & K' & F'). split; [exact I|]. split; [etransitivity; eassumption|congruence]. Qed.
Lemma vpost_refl r : uinv r -> vpost r r.
Proof. intros Hr. split; [exact Hr|split; reflexivity]. Qed.
(** Code that does not reach the bus. *)
Lemma vok_lift {A} (m : T A) : uok m -> (forall r f r', m r = Done (f, r') -> rbus r' = rbus r) -> vok m.
Proof.
  intros Hm Hb r Hr. destruct (Hm r Hr) as (f & r' & E & I & K). exists f, r'. split; [exact E|]. split; [exact I|].
  split; [exact K|]. unfold fpexc. rewrite (Hb _ _ _ E). reflexivity.
Qed.
Lemma vok_flow {A} (f : flow A) : vok (ret f).
Proof. intros r Hr. exists f, r. split; [reflexivity|]. apply vpost_refl, Hr. Qed.
Lemma vok_tret {A} (a : A) : vok (tret a).
Proof. apply vok_flow. Qed.
Lemma vok_illegal {A} : vok (@illegal_op _ A).
Proof. apply vok_flow. Qed.
Lemma vokp_bind {A B} (m : T A) (k : A -> T B) P : vokp m P -> (forall a, P a -> vok (k a)) -> vok (tbind m k).
Proof.
  intros Hm Hk r Hr. destruct (Hm r Hr) as (f & r1 & E1 & P1 & Pa). unfold tbind. rewrite (bind_run _ _ _ _ _ E1).
  destruct f as [a| | | |]; [|eexists _, r1; split; [reflexivity|exact P1]..].
  destruct (Hk a Pa r1 (proj1 P1)) as (g & r2 & E2 & P2). exists g, r2. split; [exact E2|]. eapply vpost_trans; eassumption.
Qed.
Lemma vok_any {A} (m : T A) : vok m -> vokp m (fun _ => True).
Proof. intros Hm r Hr. destruct (Hm r Hr) as (f & r' & E & P). exists f, r'. split; [exact E|]. split; [exact P|]. destruct f; exact I. Qed.
Lemma vok_bind {A B} (m : T A) (k : A -> T B) : vok m -> (forall a, vok (k a)) -> vok (tbind m k).
Proof. intros Hm Hk. apply (vokp_bind m k (fun _ => True)); [apply vok_any, Hm|auto]. Qed.
Lemma vokp_step {A B} (m : T A) (k : A -> T B) P : vok m -> (forall a, vokp (k a) P) -> vokp (tbind m k) P.
Proof.
  intros Hm Hk r Hr. destruct (Hm r Hr) as (f & r1 & E1 & P1). unfold tbind. rewrite (bind_run _ _ _ _ _ E1).
  destruct f as [a| | | |]; [|eexists _, r1; split; [reflexivity|split; [exact P1|exact I]]..].
  destruct (Hk a r1 (proj1 P1)) as (g & r2 & E2 & P2 & Pb). exists g, r2. split; [exact E2|]. split; [eapply vpost_trans; eassumption|exact Pb].
Qed.
Lemma vokp_bindp {A B} (m : T A) (k : A -> T B) P Q : vokp m P -> (forall a, P a -> vokp (k a) Q) -> vokp (tbind m k) Q.
Proof.
  intros Hm Hk r Hr. destruct (Hm r Hr) as (f & r1 & E1 & P1 & Pa). unfold tbind. rewrite (bind_run _ _ _ _ _ E1).
  destruct f as [a| | | |]; [|eexists _, r1; split; [reflexivity|split; [exact P1|exact I]]..].
  destruct (Hk a Pa r1 (proj1 P1)) as (g & r2 & E2 & P2 & Pb). exists g, r2. split; [exact E2|]. split; [eapply vpost_trans; eassumption|exact Pb].
Qed.
Lemma vokp_tret {A} (P : A -> Prop) a : P a -> vokp (tret a) P.
Proof. intros Ha r Hr. exists (Go a), r. split; [reflexivity|]. split; [apply vpost_refl, Hr|exact Ha]. Qed.
Lemma vokp_illegal {A} (P : A -> Prop) : vokp illegal_op P.
Proof. intros r Hr. exists Illegal, r. split; [reflexivity|]. split; [apply vpost_refl, Hr|exact I]. Qed.

(** ** The primitives *)
Lemma vok_get_dc {A} (f : dctx -> A) : vok (get_dc f).
Proof. apply vok_lift; [apply uok_get_dc|]. intros r g r' [= _ <-]. reflexivity. Qed.
Lemma vok_feature f : vok (feature f).
Proof. apply vok_lift; [apply uok_feature|]. intros r g r' [= _ <-]. reflexivity. Qed.
Lemma vok_on_core {A} (m : M cpu_st A) : core_ok m -> vok (on_core m).
Proof.
  intros Hm. apply vok_lift; [apply uok_on_core, Hm|]. intros r g r'. unfold on_core.
  destruct (m (core r)) as [[a c]| | |]; intros [= _ <-]. reflexivity.
Qed.
Lemma vok_upd_dc f : (forall d, user (f d) = user d) -> vok (upd_dc f).
Proof. intros Hf. apply vok_lift; [apply uok_upd_dc, Hf|]. intros r g r' [= _ <-]. reflexivity. Qed.
Lemma vok_upd_core f : (forall c, cpu_wf c -> cpu_wf (f c) /\ ukeep c (f c)) -> vok (upd_core f).
Proof. intros Hf. apply vok_lift; [apply uok_upd_core, Hf|]. intros r g r' [= _ <-]. reflexivity. Qed.
Lemma vok_user {B} (k : bool -> T B) : vok (k true) -> vok (tbind IS_USER k).
Proof. intros Hk r Hr. change (tbind IS_USER k r) with (k (user (dc r)) r). rewrite (proj1 Hr). exact (Hk r Hr). Qed.
Lemma vokp_user {B} (k : bool -> T B) P : vokp (k true) P -> vokp (tbind IS_USER k) P.
Proof. intros Hk r Hr. change (tbind IS_USER k r) with (k (user (dc r)) r). rewrite (proj1 Hr). exact (Hk r Hr). Qed.
Lemma vok_refused {B} (k : unit -> T B) : vok (tbind (require false) k).
Proof. intros r Hr. exists Illegal, r. split; [reflexivity|]. apply vpost_refl, Hr. Qed.
Lemma vok_tfold {A B} (l : list A) (body : B -> A -> T B) :
  (forall b a, a ∈ l -> vok (body b a)) -> forall acc, vok (tfold l body acc).
Proof.
  induction l as [|a l IH]; intros Hb acc; cbn [tfold]; [apply vok_tret|].
  apply vok_bind; [apply Hb, elem_of_cons; auto|]. intros b. apply IH. intros; apply Hb, elem_of_cons; auto.
Qed.

(** A memory access leaves the floating-point state alone. *)
Lemma restore_rbus {A} r g r' : ((restore_state_to_opc ;* ret Raised) : T A) r = Done (g, r') -> rbus r' = rbus r.
Proof.
  unfold restore_state_to_opc, get_dc, upd_core, lift, tbind, bind, gets, modify, ret, on_core. cbn [id].
  match goal with |- context [put_reg 15 ?v ?c] => destruct (put_reg 15 v c) as [[a c']| | |] end; intros [= _ <-]. reflexivity.
Qed.
Lemma vok_ld op a u : vok (qemu_ld op a u).
Proof.
  intros r Hr. destruct (uok_ld op a u r Hr) as (f & r' & E & I & K). exists f, r'. split; [exact E|]. split; [exact I|].
  split; [exact K|]. unfold fpexc. do 2 f_equal. revert E. unfold qemu_ld.
  destruct (bus_ld op a (mem_index u) (core r, rbus r)) as [[v|] [c b]] eqn:El; apply vfp_ld in El; [intros [= _ <-]|intros Er%restore_rbus; rewrite Er]; exact El.
Qed.
Lemma vok_st op a v u : vok (qemu_st op a v u).
Proof.
  intros r Hr. destruct (uok_st op a v u r Hr) as (f & r' & E & I & K). exists f, r'. split; [exact E|]. split; [exact I|].
  split; [exact K|]. unfold fpexc. do 2 f_equal. revert E. unfold qemu_st.
  destruct (bus_st op a v (mem_index u) (core r, rbus r)) as [[|] [c b]] eqn:El; apply vfp_st in El; [intros [= _ <-]|intros Er%restore_rbus; rewrite Er]; exact El.
Qed.

(** A helper on the floating-point state that always returns and keeps the
    processor and FPEXC. *)
Definition vtot {A} (m : M vfp_env A) : Prop :=
  forall e, exists a e', m e = Done (a, e') /\ vcpu e' = vcpu e /\ nthz (xregs e') ARM_VFP_FPEXC = nthz (xregs e) ARM_VFP_FPEXC.
Lemma vok_on_vfp {A} (m : M vfp_env A) : vtot m -> vok (on_vfp m).
Proof.
  intros Hm r Hr. destruct (Hm (set_vcpu (core r) (vfp_of (rbus r)))) as (a & e & E & Hc & Hx). unfold on_vfp. rewrite E.
  eexists _, _. split; [reflexivity|]. rewrite Hc. split; [exact Hr|]. split; [reflexivity|].
  unfold fpexc. cbn [rbus set_rbus set_core]. rewrite vfp_get. exact Hx.
Qed.
Lemma vtot_ret {A} (a : A) : vtot (ret a).
Proof. intros e. exists a, e. auto. Qed.
Lemma vtot_gets {A} (f : vfp_env -> A) : vtot (gets f).
Proof. intros e. exists (f e), e. auto. Qed.
Lemma vtot_bind {A B} (m : M vfp_env A) (k : A -> M vfp_env B) : vtot m -> (forall a, vtot (k a)) -> vtot (bind m k).
Proof.
  intros Hm Hk e. destruct (Hm e) as (a & e1 & E1 & C1 & X1). destruct (Hk a e1) as (b & e2 & E2 & C2 & X2).
  exists b, e2. rewrite (bind_run _ _ _ _ _ E1). split; [exact E2|]. split; congruence.
Qed.
Lemma vtot_call p fn args : vtot (soft_call p fn args).
Proof. intros e. unfold soft_call. destruct (sf_run fn args (get_status p e)) as [v s]. eexists _, _. split; [reflexivity|]. destruct p; auto. Qed.
Lemma vtot_raise p f : vtot (soft_raise p f).
Proof. intros e. eexists _, _. split; [reflexivity|]. destruct p; auto. Qed.
Lemma xreg_other n v e : 0 <= n -> n <> ARM_VFP_FPEXC -> nthz (xregs (set_xreg n v e)) ARM_VFP_FPEXC = nthz (xregs e) ARM_VFP_FPEXC.
Proof.
  intros Hn Hne. cbn [xregs set_xreg]. unfold nthz, zset, ARM_VFP_FPEXC in *. rewrite !nth_lookup, list_lookup_insert_ne by lia. reflexivity.
Qed.
Lemma vtot_set_xreg n v : 0 <= n -> n <> ARM_VFP_FPEXC -> vtot (modify (set_xreg n v)).
Proof. intros Hn Hne e. eexists _, _. split; [reflexivity|]. split; [reflexivity|apply xreg_other; assumption]. Qed.
Lemma vtot_put_cmp r : vtot (put_cmp r).
Proof. intros e. eexists _, _. split; [reflexivity|]. split; [reflexivity|apply xreg_other; [cbv|]; discriminate]. Qed.
Lemma vtot_set_fpscr v : vtot (modify (vfp_set_fpscr v)).
Proof.
  intros e. eexists _, _. split; [reflexivity|]. split; [reflexivity|]. apply (xreg_other ARM_VFP_FPSCR); [cbv|]; discriminate.
Qed.

(** ** The registers *)
Lemma core_ok_vreg i : 0 <= i < 32 -> core_ok (let! v := gets vfp_regs in arr_get v i).
Proof.
  intros Hi c Hc. destruct (znth_lt (vfp_regs c) i) as [x Hx]; [rewrite (wf_vfp c (proj1 Hc)); lia|].
  exists x, c. split; [|split; [exact Hc|reflexivity]]. unfold arr_get, bind, gets, defined. rewrite Hx. reflexivity.
Qed.
Lemma core_ok_vreg_part i (g : Z -> Z) : 0 <= i < 32 -> core_ok (let! v := gets vfp_regs in let! x := arr_get v i in ret (g x)).
Proof.
  intros Hi c Hc. destruct (znth_lt (vfp_regs c) i) as [x Hx]; [rewrite (wf_vfp c (proj1 Hc)); lia|].
  exists (g x), c. split; [|split; [exact Hc|reflexivity]]. unfold arr_get, bind, gets, defined. rewrite Hx. reflexivity.
Qed.
Lemma core_ok_put_vreg i (g : Z -> Z) : 0 <= i < 32 -> (forall x, is_u64 x -> is_u64 (g x)) ->
  core_ok (let! l := gets vfp_regs in let! x := arr_get l i in modify (set_vfp_regs (zset l i (g x)))).
Proof.
  intros Hi Hg c [Hc Hu]. destruct (znth_lt (vfp_regs c) i) as [x Hx]; [rewrite (wf_vfp c Hc); lia|].
  exists tt, (set_vfp_regs (zset (vfp_regs c) i (g x)) c). split; [unfold arr_get, bind, gets, defined; rewrite Hx; reflexivity|].
  split; [split; [|exact Hu]|split; reflexivity]. pose proof (Forall_znth _ _ _ _ (wf_vfp64 c Hc) Hx) as Hx64.
  destruct Hc. split; cbn; try assumption; [rewrite length_zset; assumption|]. apply Forall_zset; [assumption|]. apply Hg, Hx64.
Qed.

Lemma put_word_u64 hi v x : is_u64 x -> is_u64 (put_word hi v x).
Proof.
  intros Hx. unfold put_word. pose proof (u32_range v). pose proof (u32_range x).
  assert (0 <= Z.shiftr x 32 < 2 ^ 32).
  { rewrite Z.shiftr_div_pow2 by lia. unfold is_u64 in Hx. split; [apply Z.div_pos; lia|apply Z.div_lt_upper_bound; lia]. }
  unfold is_u32 in *. destruct hi; apply (lor_below _ _ 64); try rewrite Z.shiftl_mul_pow2 by lia; lia.
Qed.
Lemma half_reg reg : 0 <= reg < 64 -> 0 <= Z.shiftr reg 1 < 32.
Proof. intros Hr. rewrite Z.shiftr_div_pow2 by lia. change (2 ^ 1) with 2. split; [apply Z.div_pos; lia|apply Z.div_lt_upper_bound; lia]. Qed.
Definition vreg_ok (dp : bool) (reg : Z) : Prop := 0 <= reg < if dp then 32 else 66.
Lemma vok_load_xreg n : vok (load_xreg n).
Proof. apply vok_on_vfp, vtot_gets. Qed.
Lemma vok_ld_vreg dp reg : vreg_ok dp reg -> vok (ld_vreg dp reg).
Proof.
  intros Hr. unfold ld_vreg, vreg_ok in *. destruct dp.
  { rewrite (proj2 (Z.ltb_lt reg 32)) by lia. apply vok_on_core, core_ok_vreg, Hr. }
  destruct (Z.ltb_spec reg 64); [|apply vok_load_xreg]. apply vok_on_core.
  apply (core_ok_vreg_part _ (fun x => if bit reg 0 then Z.shiftr x 32 else u32 x)), half_reg. lia.
Qed.
Lemma vok_store_xreg n v : 0 <= n -> n <> ARM_VFP_FPEXC -> vok (store_xreg n v).
Proof. intros Hn Hne. apply vok_on_vfp, vtot_set_xreg; assumption. Qed.
Lemma vok_st_vreg dp reg v : vreg_ok dp reg -> vok (st_vreg dp reg v).
Proof.
  intros Hr. unfold st_vreg, vreg_ok in *. destruct dp.
  { rewrite (proj2 (Z.ltb_lt reg 32)) by lia. apply vok_on_core, (core_ok_put_vreg _ (fun _ => u64 v)); [exact Hr|intros; apply u64_range]. }
  destruct (Z.ltb_spec reg 64); [|apply vok_store_xreg; unfold ARM_VFP_FPEXC; lia].
  apply vok_on_core, (core_ok_put_vreg _ (put_word (bit reg 0) v)); [apply half_reg; lia|intros; apply put_word_u64; assumption].
Qed.
End VfpUser.

Create HintDb vok.
#[export] Hint Resolve vok_tret vok_flow vok_illegal vok_get_dc vok_feature vok_ld vok_st vok_load_xreg vtot_ret vtot_gets vtot_call vtot_raise
  vtot_put_cmp vtot_set_fpscr : vok.

(** [vok_auto] walks a piece of code. *)
Ltac vtot_auto := repeat first
  [ apply vtot_bind; [|intros ?] | solve [auto with vok] | match goal with |- vtot (if ?b then _ else _) => destruct b end ].
Ltac vok_step :=
  match goal with
  | |- vok (tbind IS_USER _) => apply vok_user; cbn beta; cbn [negb andb orb]
  | |- vok (tbind (require false) _) => apply vok_refused
  | |- vok _ => solve [auto with vok]
  | |- vok (tbind _ _) => apply vok_bind; [|intros ?]
  | |- vok (upd_dc _) => apply vok_upd_dc; intros ?; reflexivity
  | |- vok (upd_core _) => apply vok_upd_core; field_ok
  | |- vok (on_core _) => apply vok_on_core; auto with uok
  | |- vok (on_vfp _) => apply vok_on_vfp; vtot_auto
  | |- vok (require ?b) => unfold require; destruct b
  | |- vok (requiref _) => unfold requiref, ARCH
  | |- vok (if ?b then _ else _) => destruct b
  | |- vok (match ?x with _ => _ end) => destruct x
  end.
Ltac vok_auto := repeat vok_step.

Section VfpWalk.
Context {GU : Guest} {GL : GuestLaws} {SF : Softfloat} {VB : VfpBus} {VL : VfpBusLaws} {HO : HostOps}.

Lemma vok_load_reg n : 0 <= n < 16 -> vok (load_reg n).
Proof. intros Hn. unfold load_reg. vok_auto. Qed.
Lemma vok_store_reg n v : 0 <= n < 16 -> vok (store_reg n v).
Proof. intros Hn. unfold store_reg. vok_auto. Qed.
Lemma vok_lookup_tb : vok gen_lookup_tb.
Proof. unfold gen_lookup_tb. vok_auto. Qed.
Lemma vok_nzcv v : vok (gen_set_nzcv v).
Proof. unfold gen_set_nzcv, gen_set_cpsr. apply vok_on_core, core_ok_cpsr. reflexivity. Qed.
#[local] Hint Resolve vok_load_reg vok_store_reg vok_lookup_tb vok_nzcv vok_ld_vreg vok_st_vreg fld4 : vok.

(** ** Temporaries and arithmetic *)
Lemma vok_F0 dp reg f : vreg_ok dp reg -> vok (gen_mov_F0_vreg dp reg f).
Proof. intros Hr. unfold gen_mov_F0_vreg. vok_auto. Qed.
Lemma vok_F1 dp reg f : vreg_ok dp reg -> vok (gen_mov_F1_vreg dp reg f).
Proof. intros Hr. unfold gen_mov_F1_vreg. vok_auto. Qed.
Lemma vok_from_F0 dp reg f : vreg_ok dp reg -> vok (gen_mov_vreg_F0 dp reg f).
Proof. intros Hr. apply vok_st_vreg, Hr. Qed.
Lemma vok_op2 h dp f : (forall z a b p, vtot (h z a b p)) -> vok (gen_vfp_op2 h dp f).
Proof. intros Hh. unfold gen_vfp_op2. vok_auto. Qed.
Lemma vok_op1 h dp f : (forall z a, vtot (h z a)) -> vok (gen_vfp_op1 h dp f).
Proof. intros Hh. unfold gen_vfp_op1. vok_auto. Qed.
Lemma vok_add dp f : vok (gen_vfp_add dp f). Proof. apply vok_op2. intros. apply vtot_call. Qed.
Lemma vok_sub dp f : vok (gen_vfp_sub dp f). Proof. apply vok_op2. intros. apply vtot_call. Qed.
Lemma vok_mul dp f : vok (gen_vfp_mul dp f). Proof. apply vok_op2. intros. apply vtot_call. Qed.
Lemma vok_div dp f : vok (gen_vfp_div dp f). Proof. apply vok_op2. intros. apply vtot_call. Qed.
Lemma vok_abs dp f : vok (gen_vfp_abs dp f). Proof. apply vok_op1. intros. apply vtot_ret. Qed.
Lemma vok_neg dp f : vok (gen_vfp_neg dp f). Proof. apply vok_op1. intros. apply vtot_ret. Qed.
Lemma vok_sqrt dp f : vok (gen_vfp_sqrt dp f). Proof. apply vok_op1. intros. apply vtot_call. Qed.
Lemma vok_F1_mul dp f : vok (gen_vfp_F1_mul dp f).
Proof. unfold gen_vfp_F1_mul, vfp_mul. vok_auto. Qed.
Lemma vok_F1_neg dp f : vok (gen_vfp_F1_neg dp f).
Proof. unfold gen_vfp_F1_neg, vfp_neg. vok_auto. Qed.
Lemma vok_cmp dp f : vok (gen_vfp_cmp dp f).
Proof. unfold gen_vfp_cmp, vfp_cmp. vok_auto. Qed.
Lemma vok_cmpe dp f : vok (gen_vfp_cmpe dp f).
Proof. unfold gen_vfp_cmpe, vfp_cmpe. vok_auto. Qed.
Lemma vok_itof sg dp f : vok (gen_vfp_itof sg dp f).
Proof. unfold gen_vfp_itof, conv_itof. destruct sg; vok_auto. Qed.
Lemma vok_ftoi sg rtz dp f : vok (gen_vfp_ftoi sg rtz dp f).
Proof. unfold gen_vfp_ftoi, conv_ftoi. vok_auto. Qed.
Lemma vok_fix_to t dp shift f : - 2 ^ 31 < shift < 2 ^ 31 -> vok (gen_vfp_fix_to t dp shift f).
Proof.
  intros Hs. unfold gen_vfp_fix_to, conv_fix_to_float. rewrite s32_small by lia.
  rewrite (proj2 (Z.eqb_neq shift (- 2 ^ 31))) by lia. vok_auto.
Qed.
Lemma vok_to_fix t dp shift f : vok (gen_vfp_to_fix t dp shift f).
Proof. unfold gen_vfp_to_fix, conv_float_to_fix. vok_auto. Qed.
Lemma vok_vfp_ld dp a f : vok (gen_vfp_ld dp a f).
Proof. unfold gen_vfp_ld. vok_auto. Qed.
Lemma vok_vfp_st dp a f : vok (gen_vfp_st dp a f).
Proof. unfold gen_vfp_st. vok_auto. Qed.
#[local] Hint Resolve vok_F0 vok_F1 vok_from_F0 vok_add vok_sub vok_mul vok_div vok_abs vok_neg vok_sqrt vok_F1_mul vok_F1_neg vok_cmp
  vok_cmpe vok_itof vok_ftoi vok_fix_to vok_to_fix vok_vfp_ld vok_vfp_st : vok.

(** ** Register numbers *)
Definition dreg (n : Z) : Prop := 0 <= n < 32.
Lemma dreg_ok dp n : dreg n -> vreg_ok dp n.
Proof. unfold dreg, vreg_ok. destruct dp; lia. Qed.
Lemma mask_below x m : dreg m -> 0 <= Z.land x m < 2 ^ 5.
Proof. intros Hm. rewrite Z.land_comm. apply land_below; [lia|exact Hm]. Qed.
Lemma SREG_range insn b sm : dreg (VFP_SREG insn b sm).
Proof.
  apply (lor_below _ _ 5); [lia|apply mask_below; unfold dreg; lia|]. unfold fld. pose proof (land_mask_range (Z.shiftr insn sm) 1 ltac:(lia)) as H.
  change (Z.ones 1) with 1 in H. lia.
Qed.
Lemma SREG_N_range insn : dreg (VFP_SREG_N insn). Proof. apply SREG_range. Qed.
Lemma vokp_DREG insn b sm : vokp (VFP_DREG insn b sm) dreg.
Proof.
  unfold VFP_DREG. apply vokp_step; [apply vok_feature|]. intros [].
  - apply vokp_tret, (lor_below _ _ 5); [lia|pose proof (fld4 insn b); lia|]. unfold fld.
    apply mask_below. unfold dreg. lia.
  - destruct (bit insn sm); [apply vokp_illegal|apply vokp_tret]. pose proof (fld4 insn b). unfold dreg. lia.
Qed.
Lemma vokp_REG dp insn b sm : vokp (VFP_REG dp insn b sm) dreg.
Proof. unfold VFP_REG. destruct dp; [apply vokp_DREG|apply vokp_tret, SREG_range]. Qed.
Lemma advance_range dp reg delta : dreg (vfp_advance dp reg delta).
Proof.
  apply (lor_below _ _ 5); [lia|apply mask_below..]; unfold dreg; destruct dp; cbn; lia.
Qed.
#[local] Hint Resolve dreg_ok SREG_range SREG_N_range advance_range : vok.

(** ** Transfers *)
Lemma neon_ok reg pass : dreg reg -> 0 <= pass < 4 -> vreg_ok false (reg * 2 + pass).
Proof. unfold dreg, vreg_ok. lia. Qed.
Lemma pass_range insn : 0 <= fld insn 21 1 < 2.
Proof. apply (fld_range insn 21 1). lia. Qed.
Lemma vok_from_lane insn rd rn : 0 <= rd < 16 -> dreg rn -> vok (vmov_from_lane insn rd rn).
Proof.
  intros Hd Hn. unfold vmov_from_lane, neon_load_reg. destruct (vfp_lane insn) as [size offset].
  pose proof (pass_range insn). pose proof (neon_ok rn (fld insn 21 1) Hn ltac:(lia)). vok_auto.
Qed.
Lemma lane_deposit insn size offset a b : vfp_lane insn = (size, offset) -> size <> 2 ->
  exists v, deposit_i32 a b offset (if size =? 0 then 8 else 16) = Some v.
Proof.
  unfold vfp_lane, deposit_i32. pose proof (fld_range insn 5 2 ltac:(lia)) as H. change (Z.ones 2) with 3 in H.
  destruct (bit insn 22); [intros [= <- <-] _|destruct (bit insn 5); [intros [= <- <-] _|intros [= <- <-] Hn; destruct (Hn eq_refl)]].
  - cbn [Z.eqb]. rewrite (proj2 (Z.leb_le 0 _)), (proj2 (Z.leb_le _ 32)) by lia. eexists. reflexivity.
  - destruct (bit insn 6); eexists; reflexivity.
Qed.
Lemma vok_to_lane insn rd rn : 0 <= rd < 16 -> dreg rn -> vok (vmov_to_lane insn rd rn).
Proof.
  intros Hd Hn. unfold vmov_to_lane. destruct (vfp_lane insn) as [size offset] eqn:El. pose proof (pass_range insn) as Hp.
  apply vok_bind; [apply vok_load_reg, Hd|]. intros tmp. destruct (bit insn 23); cbn zeta.
  - apply vok_bind; [|intros _; apply vok_tret]. apply vok_tfold. intros _ n [Hn0 Hn1]%elem_of_seqZ.
    apply vok_st_vreg, neon_ok; [exact Hn|lia].
  - assert (Hr : vreg_ok false (rn * 2 + fld insn 21 1)) by (apply neon_ok; [exact Hn|lia]).
    apply vok_bind; [|intros v; apply vok_st_vreg, Hr]. destruct (Z.eqb_spec size 2) as [|Hs]; [apply vok_tret|].
    apply vok_bind; [apply vok_ld_vreg, Hr|]. intros tmp2.
    destruct (lane_deposit insn size offset tmp2 tmp El Hs) as [v ->]. apply vok_tret.
Qed.
Lemma vok_single_dp insn rd : 0 <= rd < 16 -> vok (vfp_single_dp insn rd).
Proof.
  intros Hd. unfold vfp_single_dp. eapply vokp_bind; [apply vokp_DREG|]. intros rn Hn.
  pose proof (vok_from_lane insn rd rn Hd Hn). pose proof (vok_to_lane insn rd rn Hd Hn). vok_auto.
Qed.
Lemma vok_read_sys rn rd : vok (vfp_read_sys rn rd).
Proof. unfold vfp_read_sys. vok_auto. Qed.
Lemma vok_write_sys rn rd : 0 <= rd < 16 -> vok (vfp_write_sys rn rd).
Proof.
  intros Hd. unfold vfp_write_sys.
  repeat match goal with |- vok (if ?b then _ else _) => destruct b eqn:? end; vok_auto.
  apply vok_store_xreg; [|intros ->; discriminate].
  match goal with H : (rn =? _) || (rn =? _) = true |- _ => apply Bool.orb_true_iff in H as [H|H]; apply Z.eqb_eq in H; subst; cbv; discriminate end.
Qed.
#[local] Hint Resolve vok_read_sys vok_write_sys : vok.
Lemma vok_single_sp insn rd : 0 <= rd < 16 -> vok (vfp_single_sp insn rd).
Proof. intros Hd. unfold vfp_single_sp. cbn zeta. vok_auto. Qed.

(** ** Data processing *)
Lemma vokp_dp_regs insn op dp : vokp (vfp_dp_regs insn op dp) (fun '(rd, rn, rm) => dreg rd /\ dreg rn /\ dreg rm).
Proof.
  unfold vfp_dp_regs. cbn zeta. destruct dp.
  - eapply vokp_bindp; [instantiate (1 := dreg); destruct (op =? 15); [apply vokp_tret, (SREG_range insn 16 7)|apply vokp_DREG]|].
    intros rn Hn. eapply vokp_bindp; [instantiate (1 := dreg); destruct (_ && _); [apply vokp_tret, SREG_range|apply vokp_DREG]|].
    intros rd Hd. eapply vokp_bindp; [instantiate (1 := dreg); destruct (_ && _); [apply vokp_tret, SREG_range|apply vokp_DREG]|].
    intros rm Hm. apply vokp_tret. auto.
  - eapply vokp_bindp; [instantiate (1 := dreg); destruct (_ && _); [apply vokp_DREG|apply vokp_tret, SREG_range]|].
    intros rd Hd. apply vokp_tret. split; [exact Hd|]. split; apply SREG_range.
Qed.
Lemma vok_load_operands op rn rd rm dp f : dreg rn -> dreg rd -> dreg rm -> vok (vfp_load_operands op rn rd rm dp f).
Proof. intros Hn Hd Hm. unfold vfp_load_operands, gen_vfp_F1_ld0. vok_auto. Qed.
Lemma vok_fused op rd dp f : dreg rd -> vok (vfp_fused op rd dp f).
Proof. intros Hd. unfold vfp_fused, vfp_neg, vfp_muladd. vok_auto. Qed.
Lemma vok_half rd top f : dreg rd -> vok (vfp_half rd top f).
Proof. intros Hd. unfold vfp_half, vfp_fcvt_f32_to_f16, do_fcvt_f32_to_f16. cbn zeta. vok_auto. Qed.
#[local] Hint Resolve vok_fused vok_half : vok.
Lemma vok_extension rn rd rm dp f : dreg rd -> dreg rm -> vok (vfp_extension rn rd rm dp f).
Proof.
  intros Hd Hm. assert (- 2 ^ 31 < 16 - rm < 2 ^ 31 /\ - 2 ^ 31 < 32 - rm < 2 ^ 31) as [? ?] by (unfold dreg in Hm; lia).
  unfold vfp_extension, gen_vfp_F1_ld0, vfp_fcvt_f16_to_f32, do_fcvt_f16_to_f32, vfp_fcvtsd, vfp_fcvtds. cbn zeta. vok_auto.
Qed.
#[local] Hint Resolve vok_extension : vok.
Lemma vok_calc insn op rn rd rm dp f : dreg rd -> dreg rm -> vok (vfp_calc insn op rn rd rm dp f).
Proof. intros Hd Hm. unfold vfp_calc. vok_auto. Qed.
Lemma vok_write_result op rn rd dp f : dreg rd -> vok (vfp_write_result op rn rd dp f).
Proof. intros Hd. unfold vfp_write_result. vok_auto. Qed.
Lemma vok_one_many n dp delta f : forall rd, vok (vfp_one_many n dp rd delta f).
Proof. induction n as [|n IH]; intros rd; cbn [vfp_one_many]; cbn zeta; [apply vok_tret|]. apply vok_bind; [auto with vok|intros _; apply IH]. Qed.
Lemma vok_loop n insn op dp dd dm : forall rn rd rm f, dreg rn -> dreg rd -> dreg rm -> vok (vfp_loop n insn op rn rd rm dp dd dm f).
Proof.
  induction n as [|n IH]; intros rn rd rm f Hn Hd Hm; cbn [vfp_loop]; cbn zeta;
    (apply vok_bind; [apply vok_calc; assumption|intros f1]); (apply vok_bind; [apply vok_write_result, Hd|intros _]); [apply vok_tret|].
  destruct (_ && _); [apply (vok_one_many (S n))|]. destruct (op =? 15).
  - apply vok_bind; [auto with vok|]. intros f2. apply IH; auto with vok.
  - apply vok_bind; [auto with vok|]. intros f2. destruct (negb _); [apply vok_bind; [auto with vok|intros f3]|]; apply IH; auto with vok.
Qed.
Lemma vok_data_proc insn dp : vok (vfp_data_proc insn dp).
Proof.
  unfold vfp_data_proc. cbn zeta. eapply vokp_bind; [apply vokp_dp_regs|]. intros [[rd rn] rm] (Hd & Hn & Hm).
  apply vok_bind; [apply vok_get_dc|]. intros d. destruct (vfp_vector _ _ _ _ _ _) as [[vl dd] dm].
  apply vok_bind; [apply vok_load_operands; assumption|]. intros f. apply vok_loop; assumption.
Qed.

(** ** Loads and stores *)
Lemma vok_two_regs insn dp : vok (vfp_two_regs insn dp).
Proof.
  unfold vfp_two_regs. cbn zeta. eapply vokp_bind; [apply vokp_REG|]. intros rm Hm.
  assert (vreg_ok false (if dp then rm * 2 else rm) /\ vreg_ok false ((if dp then rm * 2 else rm) + 1)) as [? ?]
    by (unfold dreg, vreg_ok in *; destruct dp; lia). vok_auto.
Qed.
Lemma vok_base rn : 0 <= rn < 16 -> vok (vfp_base rn).
Proof. intros Hn. unfold vfp_base. vok_auto. Qed.
Lemma vok_ld_reg dp reg a : vreg_ok dp reg -> vok (vfp_ld_reg dp reg a).
Proof. intros Hr. unfold vfp_ld_reg. vok_auto. Qed.
Lemma vok_st_reg dp reg a : vreg_ok dp reg -> vok (vfp_st_reg dp reg a).
Proof. intros Hr. unfold vfp_st_reg. vok_auto. Qed.
#[local] Hint Resolve vok_base vok_ld_reg vok_st_reg : vok.
Lemma vok_ldst_single insn rn rd dp : 0 <= rn < 16 -> dreg rd -> vok (vfp_ldst_single insn rn rd dp).
Proof. intros Hn Hd. unfold vfp_ldst_single. cbn zeta. vok_auto. Qed.
Lemma vok_ldst_multiple insn rn rd dp : 0 <= rn < 16 -> dreg rd -> vok (vfp_ldst_multiple insn rn rd dp).
Proof.
  intros Hn Hd. unfold vfp_ldst_multiple. cbn zeta. set (n := if dp then _ else _).
  apply vok_bind; [vok_auto|intros _]. destruct (Z.ltb_spec 32 (rd + n)) as [|Hlt].
  { rewrite Bool.orb_true_r. cbn [orb negb]. apply vok_refused. }
  apply vok_bind; [vok_auto|intros _]. apply vok_bind; [vok_auto|intros _]. apply vok_bind; [apply vok_base, Hn|intros addr].
  apply vok_bind; [|intros a; vok_auto]. apply vok_tfold. intros b i [Hi0 Hi1]%elem_of_seqZ.
  assert (vreg_ok dp (rd + i)) by (apply dreg_ok; unfold dreg in *; lia). unfold vfp_ldst_body. vok_auto.
Qed.
Lemma vok_vfp insn : vok (disas_vfp_insn insn).
Proof.
  unfold disas_vfp_insn. apply vok_bind; [vok_auto|intros _]. apply vok_bind; [apply vok_get_dc|intros d].
  apply vok_bind; [vok_auto|intros _]. cbn zeta.
  assert (Hls : vok (if eqm insn 0x03e00000 0x00400000 then vfp_two_regs insn (Z.land insn 0xf00 =? 0xb00) else
    let* rd := VFP_REG (Z.land insn 0xf00 =? 0xb00) insn 12 22 in
    if eqm insn 0x01200000 0x01000000 then vfp_ldst_single insn (fld insn 16 0xf) rd (Z.land insn 0xf00 =? 0xb00)
    else vfp_ldst_multiple insn (fld insn 16 0xf) rd (Z.land insn 0xf00 =? 0xb00))).
  { destruct (eqm _ _ _); [apply vok_two_regs|]. eapply vokp_bind; [apply vokp_REG|]. intros rd Hd. pose proof (fld4 insn 16).
    destruct (eqm _ _ _); [apply vok_ldst_single|apply vok_ldst_multiple]; assumption. }
  pose proof (fld4 insn 12) as Hd. pose proof (vok_single_dp insn _ Hd). pose proof (vok_single_sp insn _ Hd).
  pose proof (vok_data_proc insn). generalize (fld4 insn 24). generalize (fld insn 24 0xf). intros k Hk.
  nibble k; [..|exact Hk]; first [apply vok_illegal | exact Hls | vok_auto].
Qed.
End VfpWalk.

(** ** NEON element loads and stores

    They may leave the register file towards the system registers, but not
    towards the processor. *)
Section NeonWalk.
Context {GU : Guest} {GL : GuestLaws} {SF : Softfloat} {VB : VfpBus} {HO : HostOps}.

Lemma uok_on_vfp {A} (m : M vfp_env A) : (forall e, exists a e', m e = Done (a, e') /\ vcpu e' = vcpu e) -> uok (on_vfp m).
Proof.
  intros Hm r Hr. destruct (Hm (set_vcpu (core r) (vfp_of (rbus r)))) as (a & e & E & Hc). unfold on_vfp. rewrite E.
  eexists _, _. split; [reflexivity|]. rewrite Hc. split; [exact Hr|reflexivity].
Qed.
Lemma uok_load_xreg n : uok (load_xreg n).
Proof. apply uok_on_vfp. intros e. eauto. Qed.
Lemma uok_store_xreg n v : uok (store_xreg n v).
Proof. apply uok_on_vfp. intros e. eexists _, _. split; reflexivity. Qed.
#[local] Hint Resolve uok_load_xreg uok_store_xreg : uok.
Lemma uok_ld_vreg dp reg : 0 <= reg -> uok (ld_vreg dp reg).
Proof.
  intros Hr. unfold ld_vreg. destruct dp; [destruct (Z.ltb_spec reg 32)|destruct (Z.ltb_spec reg 64)]; try solve [uok_auto].
  - apply uok_on_core, core_ok_vreg. lia.
  - apply uok_on_core, (core_ok_vreg_part _ (fun x => if bit reg 0 then Z.shiftr x 32 else u32 x)), half_reg. lia.
Qed.
Lemma uok_st_vreg dp reg v : 0 <= reg -> uok (st_vreg dp reg v).
Proof.
  intros Hr. unfold st_vreg. destruct dp; [destruct (Z.ltb_spec reg 32)|destruct (Z.ltb_spec reg 64)]; try solve [uok_auto].
  - apply uok_on_core, (core_ok_put_vreg _ (fun _ => u64 v)); [lia|intros; apply u64_range].
  - apply uok_on_core, (core_ok_put_vreg _ (put_word (bit reg 0) v)); [apply half_reg; lia|intros; apply put_word_u64; assumption].
Qed.
Lemma uok_neon_ld reg pass : 0 <= reg -> 0 <= pass -> uok (neon_load_reg reg pass).
Proof. intros. apply uok_ld_vreg. lia. Qed.
Lemma uok_neon_st reg pass v : 0 <= reg -> 0 <= pass -> uok (neon_store_reg reg pass v).
Proof. intros. apply uok_st_vreg. lia. Qed.
#[local] Hint Resolve uok_ld_vreg uok_st_vreg uok_neon_ld uok_neon_st : uok.

(** A loop whose accumulator keeps a property. *)
Lemma uokp_tfold {A B} (l : list A) (body : B -> A -> T B) (P : B -> Prop) :
  (forall b a, P b -> a ∈ l -> uokp (body b a) P) -> forall acc, P acc -> uokp (tfold l body acc) P.
Proof.
  induction l as [|a l IH]; intros Hb acc Ha; cbn [tfold]; [apply uokp_tret, Ha|].
  intros r Hr. destruct (Hb acc a Ha ltac:(apply elem_of_cons; auto) r Hr) as (f & r1 & E1 & I1 & K1 & P1).
  unfold tbind. rewrite (bind_run _ _ _ _ _ E1). destruct f as [b| | | |]; [|eexists _, r1; split; [reflexivity|]; auto..].
  destruct (IH ltac:(intros; apply Hb; [assumption|apply elem_of_cons; auto]) b P1 r1 I1) as (g & r2 & E2 & I2 & K2 & P2).
  exists g, r2. split; [exact E2|]. split; [exact I2|]. split; [etransitivity; eassumption|exact P2].
Qed.
Lemma uok_ld_pass size stride rd addr pass : 0 <= rd -> 0 <= pass -> uok (neon_ld_pass size stride rd addr pass).
Proof.
  intros Hd Hp. unfold neon_ld_pass. apply uok_user. destruct (size =? 2); [uok_auto|]. destruct (size =? 1); [uok_auto|].
  apply uok_tbind; [|intros [t a]; uok_auto]. apply uok_tfold. intros [t1 a1] n1 _. uok_auto.
Qed.
Lemma uok_st_pass size stride rd addr pass : 0 <= rd -> 0 <= pass -> uok (neon_st_pass size stride rd addr pass).
Proof.
  intros Hd Hp. unfold neon_st_pass. apply uok_user. destruct (size =? 2); [uok_auto|]. destruct (size =? 1); [uok_auto|].
  apply uok_tbind; [uok_auto|]. intros t. apply uok_tfold. intros a1 n1 _. uok_auto.
Qed.
Definition acc_ok (acc : Z * Z) : Prop := 0 <= acc.2.
Lemma uokp_ls_reg load rn size nregs il stride spacing acc reg : 0 <= rn < 16 -> 0 <= spacing -> acc_ok acc ->
  uokp (neon_ls_reg load rn size nregs il stride spacing acc reg) acc_ok.
Proof.
  intros Hn Hs Ha. destruct acc as [addr rd]. unfold acc_ok in *. cbn in Ha. unfold neon_ls_reg.
  apply uokp_tbind; [uok_auto|]. intros a1. apply uokp_tbind; [apply uok_get_dc|]. intros u.
  apply uokp_tbind; [|intros a2; apply uokp_tret; cbn; lia]. destruct (size =? 3); [uok_auto|].
  apply uok_tfold. intros b p Hp. assert (0 <= p) by (rewrite !elem_of_cons, elem_of_nil in Hp; lia).
  destruct load; [apply uok_ld_pass|apply uok_st_pass]; assumption.
Qed.
Lemma element_spacing op x : znth neon_ls_element_type op = Some x -> 0 <= x.2.
Proof.
  intros H. apply (Forall_znth (fun x => 0 <= x.2) neon_ls_element_type op); [repeat constructor; cbn; lia|exact H].
Qed.
Lemma uok_ls_all insn rd rn load : 0 <= rd -> 0 <= rn < 16 -> uok (neon_ls_all insn rd rn load).
Proof.
  intros Hd Hn. unfold neon_ls_all. cbn zeta. pose proof (fld4 insn 8) as Ho.
  destruct (Z.leb_spec (fld insn 8 0xf) 10) as [Hl|]; [|apply uok_refused].
  apply uok_tbind; [uok_auto|]. intros _. apply uok_tbind; [uok_auto|]. intros _. apply uok_tbind; [uok_auto|]. intros _.
  destruct (znth neon_ls_element_type (fld insn 8 0xf)) as [[[nregs il] sp]|] eqn:E;
    [|destruct (znth_lt neon_ls_element_type (fld insn 8 0xf) ltac:(cbn; lia)) as [x Hx]; congruence].
  apply element_spacing in E. cbn in E. apply uok_tbind; [uok_auto|]. intros _. apply uok_tbind; [uok_auto|]. intros addr.
  eapply uok_post; [apply (uokp_tfold _ _ acc_ok)|intros a _; apply uok_tret]; [intros b a Hb _; apply uokp_ls_reg; assumption|exact Hd].
Qed.
Lemma uok_replicate addr size : 0 <= size < 3 -> uok (gen_load_and_replicate addr size).
Proof. intros Hs. unfold gen_load_and_replicate. apply uok_user. assert (size = 0 \/ size = 1 \/ size = 2) as [->|[->| ->]] by lia; uok_auto. Qed.
Lemma uok_both rd v : 0 <= rd -> uok (neon_store_both rd v).
Proof. intros Hd. apply uok_tbind; [|intros _]; apply uok_neon_st; lia. Qed.
#[local] Hint Resolve uok_replicate uok_both : uok.
Lemma uok_ls_lanes insn rd rn load : 0 <= rd -> 0 <= rn < 16 -> uok (neon_ls_lanes insn rd rn load).
Proof.
  intros Hd Hn. unfold neon_ls_lanes. cbn zeta. do 2 (apply uok_tbind; [uok_auto|]; intros _).
  assert (Hs : 0 <= (if fld insn 6 3 =? 3 then 2 else fld insn 6 3) < 3)
    by (pose proof (fld_range insn 6 2 ltac:(lia)) as Hf; change (Z.ones 2) with 3 in Hf; destruct (Z.eqb_spec (fld insn 6 3) 3); lia).
  revert Hs. generalize (if fld insn 6 3 =? 3 then 2 else fld insn 6 3). intros size Hs.
  do 2 (apply uok_tbind; [uok_auto|]; intros _). apply uok_tbind; [uok_auto|]. intros addr. apply uok_tbind; [|intros; apply uok_tret].
  destruct (_ =? 1).
  - apply uok_tbind; [auto with uok|]. intros t. apply uok_tbind; [auto with uok|]. intros _.
    destruct (bit insn 5); [apply uok_both; lia|apply uok_tret].
  - eapply uok_post; [apply (uokp_tfold _ _ acc_ok)|intros a _; apply uok_tret]; [|exact Hd].
    intros [a1 d1] n Hb _. unfold acc_ok in Hb. cbn in Hb. apply uokp_tbind; [auto with uok|]. intros t. apply uokp_tbind; [auto with uok|].
    intros _. apply uokp_tret. unfold acc_ok. cbn. destruct (bit insn 5); lia.
Qed.

(** The lane of a single structure lies in its word. *)
Definition lane_ok (size : Z) (p : Z * Z) : Prop := 0 <= p.1 /\ p.1 + Z.shiftl 8 size <= 32 /\ 0 <= p.2.
Lemma uokp_lane insn size : 0 <= size < 3 -> uokp (neon_lane insn size) (lane_ok size).
Proof.
  intros Hs. pose proof (fld_range insn 5 2 ltac:(lia)) as H5. pose proof (fld_range insn 6 1 ltac:(lia)) as H6.
  change (Z.ones 2) with 3 in H5. change (Z.ones 1) with 1 in H6.
  assert (size = 0 \/ size = 1 \/ size = 2) as [->|[->| ->]] by lia; apply uokp_tret; unfold lane_ok; cbn [fst snd];
    [change (Z.shiftl 8 0) with 8|change (Z.shiftl 8 1) with 16; destruct (bit insn 5)|change (Z.shiftl 8 2) with 32; destruct (bit insn 6)]; lia.
Qed.
Lemma uok_lane_deposit a b ofs len : 0 <= ofs -> 0 < len -> ofs + len <= 32 ->
  uok (match deposit_i32 a b ofs len with Some v => tret v | None => lift undefined end).
Proof.
  intros H1 H2 H3. unfold deposit_i32. rewrite (proj2 (Z.leb_le 0 ofs) H1), (proj2 (Z.ltb_lt 0 len) H2), (proj2 (Z.leb_le _ 32) H3).
  apply uok_tret.
Qed.
#[local] Hint Extern 1 (uok (match deposit_i32 _ _ _ _ with Some _ => _ | None => _ end)) => (apply uok_lane_deposit; lia) : uok.
Lemma uokp_single_reg load size shift stride pass acc n : 0 <= size < 3 -> 0 <= pass -> lane_ok size (shift, stride) -> acc_ok acc ->
  uokp (neon_single_reg load size shift stride pass acc n) acc_ok.
Proof.
  intros Hs Hp (H1 & H2 & H3) Ha. destruct acc as [addr rd]. unfold acc_ok in *. cbn [fst snd] in *. unfold neon_single_reg.
  apply uokp_tbind; [apply uok_get_dc|]. intros u. apply uokp_tbind; [|intros _; apply uokp_tret; cbn; lia].
  assert (size = 0 \/ size = 1 \/ size = 2) as [->|[->| ->]] by lia;
    [change (Z.shiftl 8 0) with 8 in H2|change (Z.shiftl 8 1) with 16 in H2|]; cbn [Z.eqb Pos.eqb]; destruct load; uok_auto.
Qed.
Lemma uok_ls_single insn size rd rn load : 0 <= size < 3 -> 0 <= rd -> 0 <= rn < 16 -> uok (neon_ls_single insn size rd rn load).
Proof.
  intros Hs Hd Hn. unfold neon_ls_single. cbn zeta. pose proof (fld_range insn 7 1 ltac:(lia)) as Hp. change (Z.ones 1) with 1 in Hp.
  eapply uok_post; [apply uokp_lane, Hs|]. intros [shift stride] Hl. do 2 (apply uok_tbind; [uok_auto|]; intros _).
  apply uok_tbind; [uok_auto|]. intros addr.
  eapply uok_post; [apply (uokp_tfold _ _ acc_ok)|intros a _; apply uok_tret]; [|exact Hd].
  intros b n Hb _. apply uokp_single_reg; [exact Hs|lia|exact Hl|exact Hb].
Qed.
Lemma uokp_DREG insn b sm : uokp (VFP_DREG insn b sm) (fun rd => 0 <= rd).
Proof.
  unfold VFP_DREG. apply uokp_tbind; [apply uok_feature|]. pose proof (fld4 insn b). intros [].
  - apply uokp_tret, Z.lor_nonneg. split; [lia|]. apply Z.land_nonneg. right. lia.
  - destruct (bit insn sm); [apply uokp_illegal|apply uokp_tret; lia].
Qed.
Lemma uok_neon_ls insn : uok (disas_neon_ls_insn insn).
Proof.
  unfold disas_neon_ls_insn. cbn zeta. apply uok_tbind; [apply uok_get_dc|]. intros d. apply uok_tbind; [uok_auto|]. intros _.
  eapply uok_post; [apply uokp_DREG|]. intros rd Hd. pose proof (fld4 insn 16) as Hn. apply uok_tbind; [|intros stride; uok_auto].
  destruct (bit insn 23); cbn [negb]; [|apply uok_ls_all; assumption].
  pose proof (fld_range insn 10 2 ltac:(lia)) as Hs. change (Z.ones 2) with 3 in Hs. destruct (Z.eqb_spec (fld insn 10 3) 3); [apply uok_ls_lanes; assumption|].
  apply uok_ls_single; [lia|assumption..].
Qed.
End NeonWalk.

(** ** The machine with a VFP *)
Section Machine.
Context (G0 : Guest) {SF : Softfloat} {HO : HostOps}.

(** [G0] with a floating-point state beside its bus. *)
Definition vbase : Guest := beside vfp_env G0.
#[export] Instance vbase_vfp : @VfpBus vbase SF := {| vfp_of := fun b : @bus vbase => b.1; with_vfp := fun e b => (e, b.2) : @bus vbase |}.

(** The head of [disas_coproc_insn]: the access register of XScale, then the
    VFP; the other coprocessors are those of [G0]. *)
Definition disas_coproc_space (insn : Z) : @T vbase unit :=
  let cpnum := fld insn 8 0xf in
  let* xs := feature ARM_FEATURE_XSCALE in
  let* cp := lift (gets (fun r => cpar (rbus r))) in
  require (negb (xs && tst (Z.lxor cp 0x3fff) (Z.shiftl 1 cpnum))) ;*
  if (cpnum =? 10) || (cpnum =? 11) then disas_vfp_insn insn
  else or_illegal (run_space Coprocessor insn).

Definition vfp_machine : Guest :=
  override vbase (fun sp => match sp with Coprocessor => Some disas_coproc_space | NeonLs => Some disas_neon_ls_insn | _ => None end).

Context {GL : @GuestLaws G0}.

#[export] Instance vbase_laws : @GuestLaws vbase := beside_laws vfp_env G0.
#[export] Instance vbase_vfp_laws : @VfpBusLaws vbase SF vbase_vfp.
Proof. split; [reflexivity|exact (beside_ld vfp_env G0)|exact (beside_st vfp_env G0)]. Qed.

Lemma uok_coproc_space insn : uok (disas_coproc_space insn).
Proof.
  unfold disas_coproc_space. cbn zeta. apply uok_tbind; [apply uok_feature|]. intros xs. apply uok_tbind; [apply uok_lift_gets|]. intros cp.
  apply uok_tbind; [unfold require; uok_auto|]. intros _. destruct (_ || _); [|unfold or_illegal; apply uok_tbind; [apply uok_space|intros []; uok_auto]].
  intros r Hr. destruct (vok_vfp insn r Hr) as (f & r' & E & I & K & _). exists f, r'. auto.
Qed.
(** The interface of the translator's theorems holds of the machine with its
    VFP, so that they hold of it too. *)
#[export] Instance vfp_machine_laws : @GuestLaws vfp_machine.
Proof. apply override_laws; [exact vbase_laws|]. intros [] m insn [= <-]; [apply uok_neon_ls|apply uok_coproc_space]. Qed.

(** C31.  User-mode VFP code is confined: every VFP instruction, transfers,
    arithmetic on short vectors, loads and stores, runs to a defined end in
    user mode; the register files stay well-formed and neither privileged
    processor state nor the VFP enable register FPEXC changes. *)
Theorem user_vfp_confined insn (r : @rt vbase) : uinv r -> exists f r', disas_vfp_insn insn r = Done (f, r') /\
  uinv r' /\ ukeep (core r) (core r') /\ nthz (xregs (rbus r').1) ARM_VFP_FPEXC = nthz (xregs (rbus r).1) ARM_VFP_FPEXC.
Proof. intros Hr. exact (vok_vfp insn r Hr). Qed.
End Machine.
