(* ===== verification/TransVfpRam.v ===== *)
(** * VPUSH and VPOP

    Storing a list of D registers below the stack pointer and loading it
    back, on memory that keeps what is stored. *)
From stdpp Require Import base list.
From S2P Require Import Prelude Double ArmTable State CpuState Errors OpHelper CpuMode Sys V7m Dsp Softfloat Vfp Tcg TransGen TransArm.
From S2P Require Import TransThumb2 TransThumb TransUser TransConfined TransDp TransRam TransVfp.
Open Scope Z_scope.

(** Double-word accesses as two words. *)
Class Ram64 `{RA : Ram} := {
  ram_ld64 a i c b : in_ram a = true -> in_ram (a + 4) = true -> 0 <= a -> a + 4 < 2 ^ 32 -> a mod 4 = 0 ->
    bus_ld MO_64 a i (c, b) = (Some (ram_word b a + 2 ^ 32 * ram_word b (a + 4)), (c, b));
  ram_st64 a v i c b : in_ram a = true -> in_ram (a + 4) = true -> 0 <= a -> a + 4 < 2 ^ 32 -> a mod 4 = 0 -> is_u64 v -> exists b',
    bus_st MO_64 a v i (c, b) = (true, (c, b')) /\ ram_word b' a + 2 ^ 32 * ram_word b' (a + 4) = v /\
    forall a', is_u32 a' -> a' mod 4 = 0 -> a' <> a -> a' <> a + 4 -> ram_word b' a' = ram_word b a'
}.

Section VfpRam.
Context {GU : Guest} {RA : Ram} {R64 : Ram64} {SF : Softfloat} {VB : VfpBus} {HO : HostOps}.

Definition dword (b : bus) (a : Z) : Z := ram_word b a + 2 ^ 32 * ram_word b (a + 4).
Definition vreg (c : cpu_st) (i : Z) : Z := nthz (vfp_regs c) i.
Lemma vreg_znth c i : cpu_wf c -> 0 <= i < 32 -> znth (vfp_regs c) i = Some (vreg c i) /\ is_u64 (vreg c i).
Proof.
  intros Hw Hi. destruct (znth_lt (vfp_regs c) i) as [x Hx]; [rewrite (wf_vfp c Hw); lia|].
  assert (E : vreg c i = x). { unfold vreg, nthz. apply znth_Some in Hx as [_ Hx]. apply nth_lookup_Some. exact Hx. }
  rewrite E. split; [exact Hx|exact (Forall_znth _ _ _ _ (wf_vfp64 c Hw) Hx)].
Qed.
Lemma set_vreg_wf c i v : cpu_wf c -> is_u64 v -> cpu_wf (set_vfp_regs (zset (vfp_regs c) i v) c).
Proof. intros [] Hv. split; cbn; try assumption; [rewrite length_zset; assumption|apply Forall_zset; assumption]. Qed.
Lemma vreg_set c i v j : cpu_wf c -> 0 <= i < 32 -> 0 <= j < 32 ->
  vreg (set_vfp_regs (zset (vfp_regs c) i v) c) j = if j =? i then v else vreg c j.
Proof. intros Hw Hi Hj. unfold vreg. cbn [vfp_regs set_vfp_regs]. rewrite nthz_zset by (rewrite (wf_vfp c Hw); lia). reflexivity. Qed.

(** [n] D registers from the aligned address [a], below the top of memory. *)
Definition dblock (a : Z) (n : nat) : Prop :=
  0 <= a /\ a mod 4 = 0 /\ a + 8 * Z.of_nat n < 2 ^ 32 /\ forall k, (k < 2 * n)%nat -> in_ram (a + 4 * Z.of_nat k) = true.
Lemma dblock_head a n : dblock a (S n) -> in_ram a = true /\ in_ram (a + 4) = true.
Proof.
  intros (H0 & Hm & Hb & Hin). split; [specialize (Hin 0%nat ltac:(lia))|specialize (Hin 1%nat ltac:(lia))];
    [rewrite Z.add_0_r in Hin|]; exact Hin.
Qed.
Lemma dblock_tail a n : dblock a (S n) -> add32 a 8 = a + 8 /\ dblock (a + 8) n.
Proof.
  intros (H0 & Hm & Hb & Hin). split; [apply u32_small; unfold is_u32; lia|]. unfold dblock. split_and!; [lia| |lia|].
  - rewrite Z.add_mod, Hm by lia. reflexivity.
  - intros k Hk. replace (a + 8 + 4 * Z.of_nat k) with (a + 4 * Z.of_nat (S (S k))) by lia. apply Hin. lia.
Qed.

Lemma st_reg_run reg a r n : cpu_wf (core r) -> 0 <= reg < 32 -> dblock a (S n) -> exists b',
  vfp_st_reg true reg a r = Done (Go tt, set_rbus b' r) /\ dword b' a = vreg (core r) reg /\
  forall a', is_u32 a' -> a' mod 4 = 0 -> a' <> a -> a' <> a + 4 -> ram_word b' a' = ram_word (rbus r) a'.
Proof.
  intros Hw Hr Hb. destruct (dblock_head _ _ Hb) as [Hi1 Hi2]. destruct Hb as (H0 & Hm & Hb & _). destruct (vreg_znth (core r) reg Hw Hr) as [E Hv].
  destruct (ram_st64 a (vreg (core r) reg) (mem_index (user (dc r))) (core r) (rbus r)) as (b' & Es & W & O); try assumption; [lia|].
  exists b'. split; [|split; [exact W|exact O]].
  unfold vfp_st_reg, gen_mov_F0_vreg, ld_vreg. rewrite (proj2 (Z.ltb_lt reg 32)) by lia. unfold gen_vfp_st, qemu_st, on_core, tbind, bind, gets, arr_get, IS_USER, get_dc, lift, bind, gets, tret, ret.
  rewrite E. cbn. rewrite u64_small by exact Hv. rewrite Es. destruct r; reflexivity.
Qed.
Lemma ld_reg_run reg a r n : cpu_wf (core r) -> 0 <= reg < 32 -> dblock a (S n) ->
  vfp_ld_reg true reg a r = Done (Go tt, set_core (set_vfp_regs (zset (vfp_regs (core r)) reg (dword (rbus r) a)) (core r)) r).
Proof.
  intros Hw Hr Hb. destruct (dblock_head _ _ Hb) as [Hi1 Hi2]. destruct Hb as (H0 & Hm & Hb & _). destruct (vreg_znth (core r) reg Hw Hr) as [E Hv].
  assert (Hd : is_u64 (dword (rbus r) a)).
  { unfold dword, is_u64. pose proof (ram_u32 (rbus r) a). pose proof (ram_u32 (rbus r) (a + 4)). unfold is_u32 in *. lia. }
  unfold vfp_ld_reg, gen_vfp_ld, gen_mov_vreg_F0, st_vreg. rewrite (proj2 (Z.ltb_lt reg 32)) by lia. unfold qemu_ld, on_core, tbind, bind, gets, arr_get, IS_USER, get_dc, lift, bind, gets, tret, ret.
  rewrite ram_ld64 by (assumption || lia). cbn. rewrite E. cbn. fold (dword (rbus r) a). rewrite (u64_small (dword (rbus r) a)) by exact Hd. rewrite u64_small by exact Hd. destruct r; reflexivity.
Qed.

(** ** The loops *)
Lemma seqZ_S i n : seqZ i (Z.of_nat (S n)) = i :: seqZ (i + 1) (Z.of_nat n).
Proof. rewrite seqZ_cons by lia. do 2 f_equal; lia. Qed.
Lemma vstore_loop insn rd n : bit insn 20 = false -> forall i a r, cpu_wf (core r) -> 0 <= rd + i -> rd + i + Z.of_nat n <= 32 -> dblock a n ->
  exists b', tfold (seqZ i (Z.of_nat n)) (vfp_ldst_body insn rd true) a r = Done (Go (a + 8 * Z.of_nat n), set_rbus b' r) /\
    (forall k, (k < n)%nat -> dword b' (a + 8 * Z.of_nat k) = vreg (core r) (rd + i + Z.of_nat k)) /\
    (forall a', is_u32 a' -> a' mod 4 = 0 -> a' < a \/ a + 8 * Z.of_nat n <= a' -> ram_word b' a' = ram_word (rbus r) a').
Proof.
  intros Hbit. induction n as [|n IH]; intros i a r Hw H0 H32 Hb.
  { exists (rbus r). split; [cbn [Z.of_nat]; rewrite Z.mul_0_r, Z.add_0_r; destruct r; reflexivity|]. split; [lia|reflexivity]. }
  rewrite seqZ_S. cbn [tfold]. destruct (st_reg_run (rd + i) a r n Hw ltac:(lia) Hb) as (b1 & E1 & W1 & O1).
  destruct (dblock_tail _ _ Hb) as [Ea Hb']. pose proof Hb as (Ha & Hm & Hlim & _).
  assert (Eb : vfp_ldst_body insn rd true a i r = Done (Go (a + 8), set_rbus b1 r)).
  { unfold vfp_ldst_body. rewrite Hbit, (run_bind _ _ _ _ _ E1), Ea. reflexivity. }
  rewrite (run_bind _ _ _ _ _ Eb). destruct (IH (i + 1) (a + 8) (set_rbus b1 r) Hw ltac:(lia) ltac:(lia) Hb') as (b2 & E2 & W2 & O2).
  exists b2. rewrite E2. split; [do 3 f_equal; lia|]. cbn [core rbus set_rbus] in *. split.
  - intros [|k] Hk.
    + rewrite Z.mul_0_r, !Z.add_0_r, <- W1. unfold dword. assert (Hm4 : (a + 4) mod 4 = 0) by (rewrite Z.add_mod, Hm by lia; reflexivity).
      rewrite !O2 by first [assumption | unfold is_u32; lia | lia]. reflexivity.
    + replace (a + 8 * Z.of_nat (S k)) with (a + 8 + 8 * Z.of_nat k) by lia. rewrite W2 by lia. f_equal. lia.
  - intros a' Ha' Hm' Hout. rewrite O2, O1; try assumption; try lia; reflexivity.
Qed.
Lemma vload_loop insn rd n : bit insn 20 = true -> forall i a r, cpu_wf (core r) -> 0 <= rd + i -> rd + i + Z.of_nat n <= 32 -> dblock a n ->
  exists l, tfold (seqZ i (Z.of_nat n)) (vfp_ldst_body insn rd true) a r = Done (Go (a + 8 * Z.of_nat n), set_core (set_vfp_regs l (core r)) r) /\
    cpu_wf (set_vfp_regs l (core r)) /\
    (forall k, (k < n)%nat -> vreg (set_vfp_regs l (core r)) (rd + i + Z.of_nat k) = dword (rbus r) (a + 8 * Z.of_nat k)) /\
    (forall j, 0 <= j < 32 -> j < rd + i \/ rd + i + Z.of_nat n <= j -> vreg (set_vfp_regs l (core r)) j = vreg (core r) j).
Proof.
  intros Hbit. induction n as [|n IH]; intros i a r Hw H0 H32 Hb.
  { exists (vfp_regs (core r)). assert (E : set_vfp_regs (vfp_regs (core r)) (core r) = core r) by (destruct (core r); reflexivity). rewrite E.
    split; [cbn [Z.of_nat]; rewrite Z.mul_0_r, Z.add_0_r; destruct r; reflexivity|]. split; [exact Hw|]. split; [lia|reflexivity]. }
  rewrite seqZ_S. cbn [tfold]. pose proof (ld_reg_run (rd + i) a r n Hw ltac:(lia) Hb) as E1. destruct (dblock_tail _ _ Hb) as [Ea Hb'].
  set (v := dword (rbus r) a) in *. set (c1 := set_vfp_regs (zset (vfp_regs (core r)) (rd + i) v) (core r)) in *.
  assert (Hv : is_u64 v).
  { unfold v, dword, is_u64. pose proof (ram_u32 (rbus r) a). pose proof (ram_u32 (rbus r) (a + 4)). unfold is_u32 in *. lia. }
  pose proof (set_vreg_wf (core r) (rd + i) v Hw Hv) as Hw1.
  assert (Hreg : forall j, 0 <= j < 32 -> vreg c1 j = if j =? rd + i then v else vreg (core r) j) by (intros; apply vreg_set; [exact Hw|lia|assumption]).
  assert (Eb : vfp_ldst_body insn rd true a i r = Done (Go (a + 8), set_core c1 r)).
  { unfold vfp_ldst_body. rewrite Hbit, (run_bind _ _ _ _ _ E1), Ea. reflexivity. }
  rewrite (run_bind _ _ _ _ _ Eb). destruct (IH (i + 1) (a + 8) (set_core c1 r) Hw1 ltac:(lia) ltac:(lia) Hb') as (l & E2 & W2 & V2 & O2).
  change (core (set_core c1 r)) with c1 in *. change (set_vfp_regs l c1) with (set_vfp_regs l (core r)) in *.
  exists l. rewrite E2. split; [do 3 f_equal; lia|]. split; [exact W2|]. split.
  - intros [|k] Hk.
    + rewrite Z.mul_0_r, !Z.add_0_r. rewrite O2, Hreg, Z.eqb_refl by lia. reflexivity.
    + replace (a + 8 * Z.of_nat (S k)) with (a + 8 + 8 * Z.of_nat k) by lia. rewrite <- V2 by lia. f_equal. lia.
  - intros j Hj Hout. rewrite O2, Hreg by lia. rewrite (proj2 (Z.eqb_neq j (rd + i))) by lia. reflexivity.
Qed.

(** ** The instructions *)
Definition vlist_bits (rd n : Z) : Z := Z.lor (Z.shiftl (Z.shiftr rd 4) 22) (Z.lor (Z.shiftl (Z.land rd 0xf) 12) (2 * n)).
Definition vpush_insn (rd n : Z) : Z := Z.lor 0xed2d0b00 (vlist_bits rd n).
Definition vpop_insn (rd n : Z) : Z := Z.lor 0xecbd0b00 (vlist_bits rd n).
(** What the decoder reads from such a word. *)
Definition vlist_word (w rd n k : Z) (load : bool) : bool :=
  (Z.land w 0xf00 =? 0xb00) && (fld w 24 0xf =? k) && negb (eqm w 0x03e00000 0x00400000) && negb (eqm w 0x01200000 0x01000000) &&
  (fld w 16 0xf =? 13) && (Z.lor (fld w 12 0xf) (fld w 18 0x10) =? rd) && (Bool.eqb (bit w 22) (16 <=? rd)) && bit w 21 &&
  (fld w 1 0x7f =? n) && (Z.land w 0xff =? 2 * n) && negb (bit w 0) && Bool.eqb (bit w 24) (negb load) && Bool.eqb (bit w 23) load &&
  Bool.eqb (bit w 20) load && ((fld w 12 0xf =? rd) || (16 <=? rd)).
Lemma vlist_words : forallb (fun rd => forallb (fun n => vlist_word (vpush_insn rd n) rd n 0xd false && vlist_word (vpop_insn rd n) rd n 0xc true)
  (seqZ 1 16)) (seqZ 0 32) = true.
Proof. vm_compute. reflexivity. Qed.
Lemma vlist_decodes rd n : 0 <= rd < 32 -> 1 <= n <= 16 ->
  vlist_word (vpush_insn rd n) rd n 0xd false = true /\ vlist_word (vpop_insn rd n) rd n 0xc true = true.
Proof.
  intros Hd Hn. pose proof vlist_words as H. rewrite forallb_forall in H. specialize (H rd). rewrite <- list_elem_of_In, elem_of_seqZ in H.
  specialize (H ltac:(lia)). rewrite forallb_forall in H. specialize (H n). rewrite <- list_elem_of_In, elem_of_seqZ in H.
  apply andb_prop, H. lia.
Qed.

(** The VFP is there, enabled, and has the registers. *)
Definition vfp_ready (r : rt) (top : Z) : Prop :=
  arm_feature (core r) ARM_FEATURE_VFP = true /\ vfp_enabled (dc r) <> 0 /\ top <= (if arm_feature (core r) ARM_FEATURE_VFP3 then 32 else 16) /\ cpu_wf (core r).

Lemma run_feature {B} f (k : bool -> T B) r : tbind (feature f) k r = k (arm_feature (core r) f) r.
Proof. reflexivity. Qed.
Lemma run_require {B} b (k : unit -> T B) r : b = true -> tbind (require b) k r = k tt r.
Proof. intros ->. reflexivity. Qed.
Lemma run_dc {A B} (g : dctx -> A) (k : A -> T B) r : tbind (get_dc g) k r = k (g (dc r)) r.
Proof. reflexivity. Qed.
Lemma run_requiref {B} f (k : unit -> T B) r : arm_feature (core r) f = true -> tbind (requiref f) k r = k tt r.
Proof. intros H. unfold requiref, ARCH. erewrite run_bind; [reflexivity|]. rewrite run_feature, H. reflexivity. Qed.

(** Both words reach the load/store multiple of [n] doubles from [rd]. *)
Lemma vlist_dreg w rd n k load r : vlist_word w rd n k load = true -> 0 <= rd -> 1 <= n -> vfp_ready r (rd + n) ->
  VFP_REG true w 12 22 r = Done (Go rd, r).
Proof.
  intros Hwd H0 Hn (_ & _ & Htop & _). unfold vlist_word in Hwd. unfold VFP_REG, VFP_DREG. rewrite run_feature. change (22 - 4) with 18.
  repeat match type of Hwd with _ && _ = true => let F := fresh "F" in apply andb_prop in Hwd as [Hwd F] end.
  repeat match goal with H : (_ =? _) = true |- _ => apply Z.eqb_eq in H | H : Bool.eqb _ _ = true |- _ => apply Bool.eqb_prop in H end.
  destruct (arm_feature (core r) ARM_FEATURE_VFP3).
  { match goal with H : Z.lor _ _ = rd |- _ => rewrite H end. reflexivity. }
  match goal with H : bit w 22 = (16 <=? rd) |- _ => rewrite H end. rewrite (proj2 (Z.leb_gt 16 rd)) in * by lia.
  rewrite Bool.orb_false_r in *. match goal with H : (fld w 12 15 =? rd) = true |- _ => apply Z.eqb_eq in H; rewrite H end. reflexivity.
Qed.
Lemma vlist_run w rd n k load r : vlist_word w rd n k load = true -> k = 0xc \/ k = 0xd -> 0 <= rd -> 1 <= n <= 16 -> vfp_ready r (rd + n) ->
  bit w 20 = load /\
  disas_vfp_insn w r =
    (let* addr := tfold (seqZ 0 n) (vfp_ldst_body w rd true) (if load then reg (core r) 13 else add32 (reg (core r) 13) (- (8 * n))) in
     store_reg 13 (if load then addr else add32 addr (- 8 * n))) r.
Proof.
  intros Hwd Hk H0 Hn Hr. pose proof (vlist_dreg w rd n k load r Hwd H0 ltac:(lia) Hr) as Ed. destruct Hr as (Hf & Hen & Htop & Hw).
  assert (Hle : rd + n <= 32) by (destruct (arm_feature _ _) in Htop; lia). unfold vlist_word in Hwd.
  repeat match type of Hwd with _ && _ = true => let F := fresh "F" in apply andb_prop in Hwd as [Hwd F] end.
  repeat match goal with H : (_ =? _) = true |- _ => apply Z.eqb_eq in H | H : Bool.eqb _ _ = true |- _ => apply Bool.eqb_prop in H
    | H : negb _ = true |- _ => apply negb_true_iff in H end.
  split; [assumption|]. unfold disas_vfp_insn. rewrite run_requiref by exact Hf. rewrite run_dc.
  rewrite run_require by (unfold vfp_allowed, id; rewrite (proj2 (Z.eqb_neq _ _) Hen); reflexivity). cbn zeta.
  match goal with H : fld w 24 15 = k |- _ => rewrite H end. rewrite (proj2 (Z.eqb_eq (Z.land w 3840) 2816)) by assumption.
  transitivity (vfp_ldst_multiple w 13 rd true r).
  { destruct Hk as [-> | ->]; cbn iota beta;
      repeat match goal with H : eqm w ?m ?v = false |- context [eqm w ?m ?v] => rewrite H end; cbn iota;
      rewrite (run_bind _ _ _ _ _ Ed); match goal with H : fld w 16 15 = 13 |- _ => rewrite H end; reflexivity. }
  unfold vfp_ldst_multiple. cbn zeta.
  repeat match goal with H : bit w ?i = _ |- context [bit w ?i] => rewrite H | H : fld w 1 127 = n |- _ => rewrite H | H : Z.land w 255 = _ |- _ => rewrite H end.
  rewrite run_require by (destruct load; reflexivity).
  rewrite run_require by (rewrite (proj2 (Z.eqb_neq n 0)), (proj2 (Z.ltb_ge 32 (rd + n))), (proj2 (Z.ltb_ge 16 n)) by lia; reflexivity).
  rewrite run_require by reflexivity.
  assert (Eb : vfp_base 13 r = Done (Go (reg (core r) 13), r)).
  { unfold vfp_base. rewrite run_dc, Bool.andb_false_r. rewrite load_reg_run by (assumption || lia). rewrite reg_low by lia. reflexivity. }
  rewrite (run_bind _ _ _ _ _ Eb). destruct load; cbn [negb andb Z.eqb]; [reflexivity|].
  rewrite (proj2 (Z.eqb_neq (- (8) * n) 0)) by lia. cbn [negb]. rewrite Z.shiftl_mul_pow2 by lia. do 2 f_equal. f_equal. lia.
Qed.
Lemma reg13_u32 r : cpu_wf (core r) -> is_u32 (reg (core r) 13).
Proof. intros Hw. rewrite <- (reg_low r 13) by lia. apply regval_u32; [exact Hw|lia]. Qed.

(** C32.  VPUSH and VPOP are inverse: for every list of up to sixteen D
    registers the VFP has, on RAM below the stack pointer, VPUSH lowers SP by
    the size of the list and changes no register; whatever runs afterwards,
    if it restores SP and leaves the saved words alone, the matching VPOP
    gives each listed register the value it had, puts SP back and keeps the
    other registers of both files. *)
Theorem vpush_vpop_roundtrip rd n r : 0 <= rd -> 1 <= n <= 16 -> vfp_ready r (rd + n) ->
  let sp := reg (core r) 13 - 8 * n in dblock sp (Z.to_nat n) ->
  exists r1, disas_vfp_insn (vpush_insn rd n) r = Done (Go tt, r1) /\ reg (core r1) 13 = sp /\ vfp_regs (core r1) = vfp_regs (core r) /\
    forall r2, vfp_ready r2 (rd + n) -> reg (core r2) 13 = sp ->
      (forall k, 0 <= k < 2 * n -> ram_word (rbus r2) (sp + 4 * k) = ram_word (rbus r1) (sp + 4 * k)) ->
      exists r3, disas_vfp_insn (vpop_insn rd n) r2 = Done (Go tt, r3) /\ reg (core r3) 13 = reg (core r) 13 /\
        (forall i, 0 <= i < 32 -> vreg (core r3) i = if (rd <=? i) && (i <? rd + n) then vreg (core r) i else vreg (core r2) i) /\
        (forall j, 0 <= j < 16 -> j <> 13 -> reg (core r3) j = reg (core r2) j).
Proof.
  intros H0 Hn Hr sp Hb. pose proof Hr as (_ & _ & Htop & Hw). assert (Hle : rd + n <= 32) by (destruct (arm_feature _ _) in Htop; lia).
  destruct (vlist_decodes rd n ltac:(lia) Hn) as [D1 D2]. destruct (vlist_run _ _ _ _ _ r D1 ltac:(lia) H0 Hn Hr) as [B1 E1].
  pose proof (reg13_u32 r Hw) as Hsp. pose proof Hb as (Ha & Hm & Hlim & Hin). rewrite Z2Nat.id in Hlim by lia.
  assert (Es : add32 (reg (core r) 13) (- (8 * n)) = sp) by (unfold sp, add32; apply u32_small; unfold is_u32 in *; lia).
  destruct (vstore_loop _ rd (Z.to_nat n) B1 0 sp r Hw ltac:(lia) ltac:(lia) Hb) as (b1 & L1 & V1 & _). rewrite Z2Nat.id in L1 by lia.
  rewrite E1, Es, (run_bind _ _ _ _ _ L1).
  assert (Ee : add32 (sp + 8 * n) (- 8 * n) = sp) by (unfold add32; replace (sp + 8 * n + - 8 * n) with sp by lia; apply u32_small; unfold is_u32; lia).
  rewrite Ee. rewrite (store_low 13 sp (set_rbus b1 r) Hw ltac:(lia) ltac:(unfold is_u32; lia)). eexists. split; [reflexivity|].
  split; [cbn [core set_core set_rbus]; rewrite reg_set by (assumption || lia); reflexivity|]. split; [reflexivity|].
  intros r2 Hr2 H13 Hmem. cbn [rbus set_core set_rbus] in Hmem. destruct (vlist_run _ _ _ _ _ r2 D2 ltac:(lia) H0 Hn Hr2) as [B2 E2].
  pose proof Hr2 as (_ & _ & _ & Hw2). rewrite E2, H13.
  destruct (vload_loop _ rd (Z.to_nat n) B2 0 sp r2 Hw2 ltac:(lia) ltac:(lia) Hb) as (l & L2 & W2 & V2 & O2). rewrite Z2Nat.id in L2, O2 by lia.
  rewrite (run_bind _ _ _ _ _ L2). replace (sp + 8 * n) with (reg (core r) 13) by (unfold sp; lia).
  rewrite (store_low 13 (reg (core r) 13) (set_core (set_vfp_regs l (core r2)) r2) W2 ltac:(lia) Hsp). eexists. split; [reflexivity|]. cbn [core set_core].
  split; [rewrite reg_set by (exact W2 || lia); reflexivity|]. split.
  - intros i Hi. unfold vreg at 1. cbn [vfp_regs set_regs]. fold (vreg (set_vfp_regs l (core r2)) i).
    destruct (Z.leb_spec rd i), (Z.ltb_spec i (rd + n)); cbn [andb]; try (apply O2; lia).
    replace i with (rd + 0 + Z.of_nat (Z.to_nat (i - rd))) by lia. rewrite V2, <- V1 by lia. unfold dword.
    rewrite Z2Nat.id by lia. replace (sp + 8 * (i - rd)) with (sp + 4 * (2 * (i - rd))) by lia.
    replace (sp + 4 * (2 * (i - rd)) + 4) with (sp + 4 * (2 * (i - rd) + 1)) by lia. rewrite !Hmem by lia. reflexivity.
  - intros j Hj Hne. rewrite reg_set by (exact W2 || lia). rewrite (proj2 (Z.eqb_neq j 13)) by lia. reflexivity.
Qed.
End VfpRam.
