(* ===== verification/TransVfpFlat.v ===== *)
(** * The VFP on the flat guest

    The machine with flat memory and a VFP, on which the theorems about the
    VFP are evaluated; and inputs on which the decoder differs from the
    architecture. *)
From stdpp Require Import base list gmap.
From S2P Require Import Prelude Double ArmTable State CpuState Errors OpHelper CpuMode Sys V7m Dsp Softfloat Vfp Tcg TransGen TransArm.
From S2P Require Import TransThumb2 TransThumb TransUser TransBeside TransConfined TransDp TransRam TransBlock TransFlat TransEdge TransVfp TransNeonLs TransVfpUser TransVfpRam.
Open Scope Z_scope.

(** ** Memory *)
Section FlatVfp.
Context {SF : Softfloat}.

#[export] Instance vflat_ram : @Ram (vbase flat_guest).
Proof.
  refine {| ram_word := fun b : @bus (vbase flat_guest) => @ram_word _ flat_ram b.2; in_ram := mapped |}.
  - intros b a. apply ram_u32.
  - intros a i c b Hin Ha Hm. cbn [bus_ld vbase beside fst snd]. pose proof (@ram_ld _ flat_ram a i c b.2 Hin Ha Hm) as E.
    rewrite E. destruct b. reflexivity.
  - intros a v i c b Hin Ha Hm Hv. destruct (@ram_st _ flat_ram a v i c b.2 Hin Ha Hm Hv) as (b' & E & W & O).
    exists (b.1, b'). cbn [bus_st vbase beside fst snd]. rewrite E. split; [reflexivity|]. split; assumption.
Defined.
#[export] Instance vflat_ram64 : @Ram64 _ vflat_ram.
Proof.
  split; cbn [ram_word in_ram vflat_ram flat_ram].
  - intros a i c b H1 H2 H0 Hl Hm. cbn. unfold flat_ld. rewrite H1. destruct b. reflexivity.
  - intros a v i c b H1 H2 H0 Hl Hm Hv. exists (b.1, put32 a v (put32 (a + 4) (v / 2 ^ 32) b.2)). cbn -[put32]. unfold flat_st. rewrite H1.
    assert (Hm4 : (a + 4) mod 4 = 0) by (rewrite Z.add_mod, Hm by lia; reflexivity).
    split; [reflexivity|]. split.
    + rewrite (word_put a), decide_True, (word_put a), decide_False, word_put, decide_True by lia. unfold u32.
      rewrite (Z.mod_small (v / 2 ^ 32)); [pose proof (Z.div_mod v (2 ^ 32)); lia|]. unfold is_u64 in Hv.
      split; [apply Z.div_pos; lia|apply Z.div_lt_upper_bound; lia].
    + intros a' Ha' Hm' N1 N2. rewrite !word_put by (apply aligned_apart; assumption). rewrite !decide_False by assumption. reflexivity.
Qed.
End FlatVfp.

(** ** The theorems at concrete states *)
#[local] Existing Instance soft.
#[local] Existing Instance soft_laws.
(** A VFP3 with NEON; register [i] holds [f i]. *)
Definition vdemo (u : bool) (len : Z) (f : Z -> Z) : @rt (vbase flat_guest) :=
  {| core := set_vfp_regs (f <$> seqZ 0 32) (set_regs demo_regs (zero_cpu ARM_CPU_MODE_USR
       (features_of [ARM_FEATURE_V5; ARM_FEATURE_V6; ARM_FEATURE_V7; ARM_FEATURE_VFP; ARM_FEATURE_VFP3; ARM_FEATURE_NEON])));
     excl_addr := 0xffffffff; excl_val := 0; excl_high := 0; rbus := (demo_vfp, ∅) : @bus (vbase flat_guest);
     dc := {| pc := 0x8004; insn_pc := 0x8000; is_jmp := DISAS_NEXT; condexec_mask := 0; condexec_cond := 0; singlestep := false;
              dthumb := 0; dbswap := 0; user := u; vfp_enabled := 1; dvec_len := len; dvec_stride := 0 |} |}.
Lemma vdemo_wf u len f : (forall i, is_u64 (f i)) -> cpu_wf (core (vdemo u len f)).
Proof.
  intros Hf. pose proof demo_wf as []. split; cbn; try assumption; try reflexivity. rewrite Forall_fmap. apply Forall_forall. intros i _. apply Hf.
Qed.
Lemma vdemo_id_wf u len : cpu_wf (core (vdemo u len u64)).
Proof. apply vdemo_wf, u64_range. Qed.

(** [VMSR FPEXC, r0] in user mode. *)
Lemma user_vfp_confined_witness : exists f r', disas_vfp_insn 0xeee80a10 (vdemo true 0 u64) = Done (f, r') /\
  uinv r' /\ ukeep (core (vdemo true 0 u64)) (core r') /\ nthz (xregs (rbus r').1) ARM_VFP_FPEXC = 0.
Proof.
  apply (user_vfp_confined flat_guest 0xeee80a10 (vdemo true 0 u64)). split; [reflexivity|]. split; [reflexivity|].
  split; [apply vdemo_id_wf|split; [discriminate|reflexivity]].
Defined.

(** [VPUSH {d8-d15}], then [VPOP {d8-d15}] after all registers were cleared. *)
Definition cleared (b : @bus (vbase flat_guest)) : @rt (vbase flat_guest) :=
  let r := vdemo true 0 (fun _ => 0) in
  set_rbus (GU := vbase flat_guest) b (set_core (GU := vbase flat_guest) (set_regs (zset demo_regs 13 0x1ffc0) (core r)) r).
Lemma cleared_ready b : vfp_ready (cleared b) 16.
Proof.
  split; [reflexivity|]. split; [discriminate|]. split; [cbv; discriminate|]. apply (reg_wf_set (core (vdemo true 0 (fun _ => 0))) 13 0x1ffc0).
  - apply vdemo_wf. intros i. unfold is_u64. lia.
  - unfold is_u32. lia.
Qed.
Lemma vpush_vpop_roundtrip_witness : exists r1 r3, disas_vfp_insn (vpush_insn 8 8) (vdemo true 0 u64) = Done (Go tt, r1) /\
  reg (core r1) 13 = 0x1ffc0 /\ vfp_regs (core r1) = u64 <$> seqZ 0 32 /\
  disas_vfp_insn (vpop_insn 8 8) (cleared (rbus r1)) = Done (Go tt, r3) /\ reg (core r3) 13 = 0x20000 /\
  vreg (core r3) 9 = 9 /\ vreg (core r3) 16 = 0.
Proof.
  destruct (vpush_vpop_roundtrip 8 8 (vdemo true 0 u64)) as (r1 & E & S & V & K).
  - lia.
  - lia.
  - split; [reflexivity|]. split; [discriminate|]. split; [cbv; discriminate|apply vdemo_id_wf].
  - change (reg (core (vdemo true 0 u64)) 13 - 8 * 8) with 0x1ffc0. split_and!; [lia|reflexivity|cbv; reflexivity|].
    intros k Hk. cbn. unfold mapped. apply Z.leb_le. lia.
  - destruct (K (cleared (rbus r1)) (cleared_ready _) eq_refl (fun _ _ => eq_refl)) as (r3 & E3 & S3 & V3 & _).
    exists r1, r3. split; [exact E|]. split; [exact S|]. split; [exact V|]. split; [exact E3|]. split; [exact S3|].
    split; [exact (V3 9 ltac:(lia))|exact (V3 16 ltac:(lia))].
Defined.

(** ** Corners *)
Definition vpeek {B} (insn : Z) (r : @rt (vbase flat_guest)) (g : @rt (vbase flat_guest) -> B) : option (flow unit * B) :=
  match disas_vfp_insn insn r with Done (f, r') => Some (f, g r') | _ => None end.

(** [VDUP.32] of the quad register that starts at d31 is accepted and writes
    the two words behind the registers: FPSID and FPSCR, from user mode. *)
Lemma vdup_overwrites_fpsid : vpeek 0xeeaf7b90 (vdemo true 0 u64) (fun r => (nthz (xregs (rbus r).1) ARM_VFP_FPSID, fpscr_reg (rbus r).1)) =
  Some (Go tt, (7, 7)).
Proof. vm_compute. reflexivity. Qed.

(** FPINST is writable in user mode though it is not readable. *)
Lemma fpinst_user_write :
  vpeek 0xeee94a10 (vdemo true 0 u64) (fun r => nthz (xregs (rbus r).1) ARM_VFP_FPINST) = Some (Go tt, 4) /\
  option_map fst (vpeek 0xeef94a10 (vdemo true 0 u64) (fun _ => tt)) = Some Illegal.
Proof. split; vm_compute; reflexivity. Qed.

(** Registers of a short vector wrap around within their bank; the decoder
    leaves the bank instead. *)
Definition bank_step (dp : bool) (reg delta : Z) : Z :=
  let size := if dp then 4 else 8 in reg / size * size + (reg + delta) mod size.
Definition no_wrap (dp : bool) (reg delta : Z) : bool := (reg mod (if dp then 4 else 8) + delta <? (if dp then 4 else 8)) && ((reg <? 16) || negb dp).
Lemma advance_in_bank : forallb (fun dp => forallb (fun reg => forallb (fun delta =>
  negb (no_wrap dp reg delta) || (vfp_advance dp reg delta =? bank_step dp reg delta)) [1; 2]) (seqZ 0 32)) [true; false] = true.
Proof. vm_compute. reflexivity. Qed.
Lemma advance_leaves_bank : vfp_advance true 7 1 = 12 /\ bank_step true 7 1 = 4 /\ vfp_advance false 15 1 = 24 /\ bank_step false 15 1 = 8 /\
  vfp_advance true 20 1 = 5.
Proof. vm_compute. auto. Qed.

(** [VMLA.F64 d4, d8, d0] on vectors of two with the scalar d0 = 2.0: the
    second element is multiplied by the first product, not by the scalar
    (1.0 + 5.0 * 6.0 instead of 1.0 + 5.0 * 2.0). *)
Definition fdemo (i : Z) : Z :=
  f64_bits (d_of_Z (if i =? 0 then 2 else if (i =? 4) || (i =? 5) then 1 else if i =? 8 then 3 else if i =? 9 then 5 else 0)).
Lemma vmla_scalar_lost : vpeek 0xee084b00 (vdemo true 1 fdemo)
    (fun r => (vreg (core r) 4 =? f64_bits (d_of_Z 7), vreg (core r) 5 =? f64_bits (d_of_Z 31))) = Some (Go tt, (true, true)).
Proof. vm_compute. reflexivity. Qed.

(** ** NEON element loads and stores *)
Definition npeek {B} (insn : Z) (r : @rt (vbase flat_guest)) (g : @rt (vbase flat_guest) -> B) : option (flow unit * B) :=
  match disas_neon_ls_insn insn r with Done (f, r') => Some (f, g r') | _ => None end.
(** Memory from [a] on. *)
Definition with_words (a : Z) (l : list Z) (r : @rt (vbase flat_guest)) : @rt (vbase flat_guest) :=
  set_rbus (GU := vbase flat_guest) ((rbus r).1, foldr (fun p m => put32 (a + 4 * p.1) p.2 m) (rbus r).2 (zip (seqZ 0 (Z.of_nat (length l))) l)) r.

(** [VLD4.16 {d0-d3}, [sp]!] takes four structures apart, and
    [VST4.16 {d0-d3}, [sp]] puts them together again. *)
Definition structures : list Z := [0x00010000; 0x00030002; 0x00110010; 0x00130012; 0x00210020; 0x00230022; 0x00310030; 0x00330032].
Lemma vld4_deinterleaves : npeek 0xf42d004d (with_words 0x20000 structures (vdemo true 0 u64)) (fun r => (vreg (core r) <$> seqZ 0 4, reg (core r) 13)) =
  Some (Go tt, ([0x0030002000100000; 0x0031002100110001; 0x0032002200120002; 0x0033002300130003], 0x20020)).
Proof. vm_compute. reflexivity. Qed.
Lemma vst4_interleaves : npeek 0xf40d004f (vdemo true 0 (fun i => nthz [0x0030002000100000; 0x0031002100110001; 0x0032002200120002; 0x0033002300130003] (Z.min i 3)))
  (fun r => (fun k => word (rbus r).2 (0x20000 + 4 * k)) <$> seqZ 0 8) = Some (Go tt, structures).
Proof. vm_compute. reflexivity. Qed.

(** A single structure that would leave the register file is refused (VLD4
    of one lane from d30 on); multiple structures are not:
    [VLD4.32 {d30, d32, d34, d36}, [sp]] writes the system registers behind
    the register file, FPEXC among them, from user mode. *)
Lemma vld4_overwrites_fpexc :
  option_map fst (npeek 0xf4ede34f (vdemo true 0 u64) (fun _ => tt)) = Some Illegal /\
  npeek 0xf46de18f (with_words 0x20000 [1; 2; 3; 4] (vdemo true 0 u64)) (fun r => (nthz (xregs (rbus r).1) ARM_VFP_FPSID, nthz (xregs (rbus r).1) ARM_VFP_FPEXC)) =
  Some (Go tt, (2, 4)).
Proof. split; vm_compute; reflexivity. Qed.

(** Without NEON an ARM-state NEON load is undefined; the Thumb-2 encoding of
    the same load is executed. *)
Definition no_neon (th insn : Z) : @rt (vfp_machine flat_guest) :=
  let r := edge_rt ARM_CPU_MODE_USR [ARM_FEATURE_V5; ARM_FEATURE_V6; ARM_FEATURE_V7; ARM_FEATURE_THUMB2; ARM_FEATURE_VFP; ARM_FEATURE_VFP3] true th insn in
  {| core := core r; excl_addr := excl_addr r; excl_val := excl_val r; excl_high := excl_high r; rbus := (demo_vfp, put32 0x20000 9 (rbus r)) : @bus (vfp_machine flat_guest); dc := dc r |}.
Lemma thumb_neon_unchecked :
  match @disas_arm_insn (vfp_machine flat_guest) _ 0xf42d078f (no_neon 0 0) with Done (Raised, r') => exception_index (core r') | _ => 0 end = EXCP_UDEF /\
  match @disas_thumb_insn (vfp_machine flat_guest) _ false (no_neon 1 0x078ff92d) with Done (Go tt, r') => vreg (core r') 0 | _ => 0 end = 9.
Proof. split; vm_compute; reflexivity. Qed.
