(* ===== verification/TransNeon.v ===== *)
(** * NEON data processing: the building blocks

    The helpers of [neon_helper.c], which is not part of the repository, as a
    class with the types [helper.h] declares, and the functions of
    [translate.c] that [disas_neon_data_insn] is built from.
    [vfp.scratch] only carries values from one step of an instruction to a
    later one and is passed along. *)
From stdpp Require Import base list.
From S2P Require Import Prelude Double ArmTable State CpuState Errors OpHelper CpuMode Sys V7m Dsp Softfloat Vfp Tcg TransGen TransArm TransVfp.
Open Scope Z_scope.

(** ** The helpers *)

(** The element type in a helper's name. *)
Inductive lane : Set := Ls8 | Lu8 | Ls16 | Lu16 | Ls32 | Lu32 | Ls64 | Lu64.
(** Pure helpers of one and of two operands. *)
Inductive neon_op1 : Set := Ncls | Nclz | Ncnt | Nabs | Nnarrow | Nnarrow_high | Nnarrow_round_high | Nwiden | Nnegl.
Inductive neon_op2 : Set :=
| Nhadd | Nrhadd | Nhsub | Ncgt | Ncge | Nshl | Nrshl | Nmax | Nmin | Npmax | Npmin | Nabd
| Nadd | Nsub | Nmul | Nmul_p | Ntst | Nceq | Npadd | Naddl | Nsubl | Npaddl | Nabdl | Nmull | Nmull_p.
(** Helpers that get [env], for the saturation flag. *)
Inductive neon_env1 : Set := Nqabs | Nqneg | Nnarrow_sat | Nunarrow_sat.
Inductive neon_env2 : Set := Nqadd | Nqsub | Nqshl | Nqrshl | Nqshlu | Nqdmulh | Nqrdmulh | Naddl_saturate.
(** Floating-point helpers, with a status. *)
Inductive neon_float : Set := Nabd_f32 | Nceq_f32 | Ncge_f32 | Ncgt_f32 | Nacge_f32 | Nacgt_f32 | Nmax_f32 | Nmin_f32.
(** [zip] and [unzip], on one or on two D registers. *)
Inductive neon_perm : Set := Nzip | Nunzip.

Class NeonHelpers `{SF : Softfloat} := {
  neon_h1 : neon_op1 -> lane -> Z -> Z;
  neon_h2 : neon_op2 -> lane -> Z -> Z -> Z;
  neon_e1 : neon_env1 -> lane -> Z -> M vfp_env Z;
  neon_e2 : neon_env2 -> lane -> Z -> Z -> M vfp_env Z;
  neon_f2 : neon_float -> Z -> Z -> fpst -> M vfp_env Z;
  neon_p2 : neon_perm -> bool -> lane -> Z -> Z -> M vfp_env unit
}.

(** [(size << 1) | u] *)
Definition lane_of (size : Z) (u : bool) : option lane :=
  if size =? 0 then Some (if u then Lu8 else Ls8)
  else if size =? 1 then Some (if u then Lu16 else Ls16)
  else if size =? 2 then Some (if u then Lu32 else Ls32)
  else None.

(** [tcg_gen_abs_i32] *)
Definition abs_i32 (src : Z) : Z := let tmp := neg32 src in if 0 <? s32 src then src else tmp.
Definition gen_neon_dup_high16 (var : Z) : Z := let var := Z.land var 0xffff0000 in Z.lor var (shr_i32 var 16).
(** [dest = c ? t : f], bit by bit. *)
Definition gen_neon_bsl (t f c : Z) : Z := Z.lor (Z.land t c) (andc32 f c).
Definition gen_neon_trn_u8 (t0 t1 : Z) : Z * Z :=
  (Z.lor (Z.land (shl_i32 t0 8) 0xff00ff00) (Z.land t1 0x00ff00ff), Z.lor (Z.land (shr_i32 t1 8) 0x00ff00ff) (Z.land t0 0xff00ff00)).
Definition gen_neon_trn_u16 (t0 t1 : Z) : Z * Z :=
  (Z.lor (shl_i32 t0 16) (Z.land t1 0xffff), Z.lor (shr_i32 t1 16) (Z.land t0 0xffff0000)).

Section Neon.
Context {GU : Guest} {SF : Softfloat} {VB : VfpBus} {HO : HostOps} {NH : NeonHelpers}.

(** Calls with a 32-bit and with a 64-bit result. *)
Definition h1_32 (op : neon_op1) (l : lane) (a : Z) : T Z := tret (u32 (neon_h1 op l a)).
Definition h1_64 (op : neon_op1) (l : lane) (a : Z) : T Z := tret (u64 (neon_h1 op l a)).
Definition h2_32 (op : neon_op2) (l : lane) (a b : Z) : T Z := tret (u32 (neon_h2 op l a b)).
Definition h2_64 (op : neon_op2) (l : lane) (a b : Z) : T Z := tret (u64 (neon_h2 op l a b)).
Definition e1_32 (op : neon_env1) (l : lane) (a : Z) : T Z := let* v := on_vfp (neon_e1 op l a) in tret (u32 v).
Definition e2_32 (op : neon_env2) (l : lane) (a b : Z) : T Z := let* v := on_vfp (neon_e2 op l a b) in tret (u32 v).
Definition e2_64 (op : neon_env2) (l : lane) (a b : Z) : T Z := let* v := on_vfp (neon_e2 op l a b) in tret (u64 v).
Definition f2_32 (op : neon_float) (a b : Z) : T Z := let* v := on_vfp (neon_f2 op a b Standard) in tret (u32 v).

(** By size: two helpers and an operation on whole words. *)
Definition by_size {A} (size : Z) (b h w : T A) : T A :=
  if size =? 0 then b else if size =? 1 then h else if size =? 2 then w else abort.

(** [GEN_NEON_INTEGER_OP]; on words the pairwise maximum and minimum are the
    elementwise ones. *)
Definition word_op (op : neon_op2) : neon_op2 := match op with Npmax => Nmax | Npmin => Nmin | o => o end.
Definition gen_int_op (op : neon_op2) (size : Z) (u : bool) (a b : Z) : T Z :=
  match lane_of size u with
  | Some l => h2_32 (if size =? 2 then word_op op else op) l a b
  | None => illegal_op
  end.
Definition gen_int_op_env (op : neon_env2) (size : Z) (u : bool) (a b : Z) : T Z :=
  match lane_of size u with Some l => e2_32 op l a b | None => illegal_op end.

Definition gen_neon_add (size t0 t1 : Z) : T Z :=
  by_size size (h2_32 Nadd Lu8 t0 t1) (h2_32 Nadd Lu16 t0 t1) (tret (add32 t0 t1)).
Definition gen_neon_rsb (size t0 t1 : Z) : T Z :=
  if size =? 0 then h2_32 Nsub Lu8 t1 t0 else if size =? 1 then h2_32 Nsub Lu16 t1 t0
  else if size =? 2 then tret (sub32 t1 t0) else tret t0.
Definition gen_neon_sub (size t0 t1 : Z) : T Z :=
  by_size size (h2_32 Nsub Lu8 t0 t1) (h2_32 Nsub Lu16 t0 t1) (tret (sub32 t0 t1)).
Definition gen_neon_mul (size t0 t1 : Z) : T Z :=
  by_size size (h2_32 Nmul Lu8 t0 t1) (h2_32 Nmul Lu16 t0 t1) (tret (mul32 t0 t1)).

Definition neon_load_reg64 (reg : Z) : T Z := ld_vreg true reg.
Definition neon_store_reg64 (var reg : Z) : T unit := st_vreg true reg var.
Definition neon_get_scalar (size reg : Z) : T Z :=
  if size =? 1 then
    let* tmp := neon_load_reg (Z.land reg 7) (Z.shiftr reg 4) in
    tret (if bit reg 3 then gen_neon_dup_high16 tmp else gen_neon_dup_low16 tmp)
  else neon_load_reg (Z.land reg 15) (Z.shiftr reg 4).

(** [gen_neon_unzip] and [gen_neon_zip]. *)
Definition gen_neon_perm (op : neon_perm) (rd rm size : Z) (q : bool) : T unit :=
  require (negb (negb q && (size =? 2))) ;*
  if q then by_size size (on_vfp (neon_p2 op true Lu8 rd rm)) (on_vfp (neon_p2 op true Lu16 rd rm)) (on_vfp (neon_p2 op true Lu32 rd rm))
  else if size =? 0 then on_vfp (neon_p2 op false Lu8 rd rm)
  else if size =? 1 then on_vfp (neon_p2 op false Lu16 rd rm)
  else abort.
Definition gen_neon_unzip : Z -> Z -> Z -> bool -> T unit := gen_neon_perm Nunzip.
Definition gen_neon_zip : Z -> Z -> Z -> bool -> T unit := gen_neon_perm Nzip.

Definition gen_neon_narrow (size src : Z) : T Z :=
  by_size size (h1_32 Nnarrow Lu8 src) (h1_32 Nnarrow Lu16 src) (tret (lo64 src)).
Definition gen_neon_narrow_sats (size src : Z) : T Z :=
  by_size size (e1_32 Nnarrow_sat Ls8 src) (e1_32 Nnarrow_sat Ls16 src) (e1_32 Nnarrow_sat Ls32 src).
Definition gen_neon_narrow_satu (size src : Z) : T Z :=
  by_size size (e1_32 Nnarrow_sat Lu8 src) (e1_32 Nnarrow_sat Lu16 src) (e1_32 Nnarrow_sat Lu32 src).
Definition gen_neon_unarrow_sats (size src : Z) : T Z :=
  by_size size (e1_32 Nunarrow_sat Ls8 src) (e1_32 Nunarrow_sat Ls16 src) (e1_32 Nunarrow_sat Ls32 src).
Definition gen_neon_narrow_op (op u : bool) (size src : Z) : T Z :=
  if op then if u then gen_neon_unarrow_sats size src else gen_neon_narrow size src
  else if u then gen_neon_narrow_satu size src else gen_neon_narrow_sats size src.
Definition gen_neon_shift_narrow (size var shift : Z) (q u : bool) : T Z :=
  let op := if q then Nrshl else Nshl in
  if size =? 1 then h2_32 op (if u then Lu16 else Ls16) var shift
  else if size =? 2 then h2_32 op (if u then Lu32 else Ls32) var shift
  else abort.
Definition gen_neon_widen (src size : Z) (u : bool) : T Z :=
  by_size size (h1_64 Nwiden (if u then Lu8 else Ls8) src) (h1_64 Nwiden (if u then Lu16 else Ls16) src)
    (tret (if u then src else ext_i32_i64 src)).
Definition gen_neon_addl (size v0 v1 : Z) : T Z :=
  by_size size (h2_64 Naddl Lu16 v0 v1) (h2_64 Naddl Lu32 v0 v1) (tret (u64 (v0 + v1))).
Definition gen_neon_subl (size v0 v1 : Z) : T Z :=
  by_size size (h2_64 Nsubl Lu16 v0 v1) (h2_64 Nsubl Lu32 v0 v1) (tret (u64 (v0 - v1))).
Definition gen_neon_negl (var size : Z) : T Z :=
  by_size size (h1_64 Nnegl Lu16 var) (h1_64 Nnegl Lu32 var) (tret (u64 (- var))).
Definition gen_neon_addl_saturate (op0 op1 size : Z) : T Z :=
  if size =? 1 then e2_64 Naddl_saturate Ls32 op0 op1
  else if size =? 2 then e2_64 Naddl_saturate Ls64 op0 op1
  else abort.
Definition gen_neon_mull (a b size : Z) (u : bool) : T Z :=
  by_size size (h2_64 Nmull (if u then Lu8 else Ls8) a b) (h2_64 Nmull (if u then Lu16 else Ls16) a b)
    (tret (if u then gen_mulu_i64_i32 a b else gen_muls_i64_i32 a b)).
End Neon.
