(* ===== verification/TransNeonData.v ===== *)
(** * NEON data processing: [disas_neon_data_insn] of [translate.c]

    Three registers of the same length, shifts by an immediate, an immediate,
    three registers of different lengths, a scalar operand, extraction, two
    registers, table lookup and duplication. *)
From stdpp Require Import base list.
From S2P Require Import Prelude Double ArmTable State CpuState Errors OpHelper CpuMode Sys V7m Dsp Softfloat Vfp Tcg TransGen TransArm TransVfp.
From S2P Require Import TransNeon.
Open Scope Z_scope.

(** ** Operation codes *)
Definition NEON_3R_VHADD : Z := 0.
Definition NEON_3R_VQADD : Z := 1.
Definition NEON_3R_VRHADD : Z := 2.
Definition NEON_3R_LOGIC : Z := 3.
Definition NEON_3R_VHSUB : Z := 4.
Definition NEON_3R_VQSUB : Z := 5.
Definition NEON_3R_VCGT : Z := 6.
Definition NEON_3R_VCGE : Z := 7.
Definition NEON_3R_VSHL : Z := 8.
Definition NEON_3R_VQSHL : Z := 9.
Definition NEON_3R_VRSHL : Z := 10.
Definition NEON_3R_VQRSHL : Z := 11.
Definition NEON_3R_VMAX : Z := 12.
Definition NEON_3R_VMIN : Z := 13.
Definition NEON_3R_VABD : Z := 14.
Definition NEON_3R_VABA : Z := 15.
Definition NEON_3R_VADD_VSUB : Z := 16.
Definition NEON_3R_VTST_VCEQ : Z := 17.
Definition NEON_3R_VML : Z := 18.
Definition NEON_3R_VMUL : Z := 19.
Definition NEON_3R_VPMAX : Z := 20.
Definition NEON_3R_VPMIN : Z := 21.
Definition NEON_3R_VQDMULH_VQRDMULH : Z := 22.
Definition NEON_3R_VPADD : Z := 23.
Definition NEON_3R_VFM : Z := 25.
Definition NEON_3R_FLOAT_ARITH : Z := 26.
Definition NEON_3R_FLOAT_MULTIPLY : Z := 27.
Definition NEON_3R_FLOAT_CMP : Z := 28.
Definition NEON_3R_FLOAT_ACMP : Z := 29.
Definition NEON_3R_FLOAT_MINMAX : Z := 30.
Definition NEON_3R_VRECPS_VRSQRTS : Z := 31.

(** The sizes an operation allows, a bit each. *)
Definition neon_3r_sizes : list Z :=
  [0x7; 0xf; 0x7; 0xf; 0x7; 0xf; 0x7; 0x7; 0xf; 0xf; 0xf; 0xf; 0x7; 0x7; 0x7; 0x7;
   0xf; 0x7; 0x7; 0x7; 0x7; 0x7; 0x6; 0x7; 0; 0x5; 0x5; 0x5; 0x5; 0x5; 0x5; 0x5].

Definition NEON_2RM_VREV64 : Z := 0.
Definition NEON_2RM_VREV32 : Z := 1.
Definition NEON_2RM_VREV16 : Z := 2.
Definition NEON_2RM_VPADDL : Z := 4.
Definition NEON_2RM_VPADDL_U : Z := 5.
Definition NEON_2RM_VCLS : Z := 8.
Definition NEON_2RM_VCLZ : Z := 9.
Definition NEON_2RM_VCNT : Z := 10.
Definition NEON_2RM_VMVN : Z := 11.
Definition NEON_2RM_VPADAL : Z := 12.
Definition NEON_2RM_VPADAL_U : Z := 13.
Definition NEON_2RM_VQABS : Z := 14.
Definition NEON_2RM_VQNEG : Z := 15.
Definition NEON_2RM_VCGT0 : Z := 16.
Definition NEON_2RM_VCGE0 : Z := 17.
Definition NEON_2RM_VCEQ0 : Z := 18.
Definition NEON_2RM_VCLE0 : Z := 19.
Definition NEON_2RM_VCLT0 : Z := 20.
Definition NEON_2RM_VABS : Z := 22.
Definition NEON_2RM_VNEG : Z := 23.
Definition NEON_2RM_VCGT0_F : Z := 24.
Definition NEON_2RM_VCGE0_F : Z := 25.
Definition NEON_2RM_VCEQ0_F : Z := 26.
Definition NEON_2RM_VCLE0_F : Z := 27.
Definition NEON_2RM_VCLT0_F : Z := 28.
Definition NEON_2RM_VABS_F : Z := 30.
Definition NEON_2RM_VNEG_F : Z := 31.
Definition NEON_2RM_VSWP : Z := 32.
Definition NEON_2RM_VTRN : Z := 33.
Definition NEON_2RM_VUZP : Z := 34.
Definition NEON_2RM_VZIP : Z := 35.
Definition NEON_2RM_VMOVN : Z := 36.
Definition NEON_2RM_VQMOVN : Z := 37.
Definition NEON_2RM_VSHLL : Z := 38.
Definition NEON_2RM_VCVT_F16_F32 : Z := 44.
Definition NEON_2RM_VCVT_F32_F16 : Z := 46.
Definition NEON_2RM_VRECPE : Z := 56.
Definition NEON_2RM_VRSQRTE : Z := 57.
Definition NEON_2RM_VRECPE_F : Z := 58.
Definition NEON_2RM_VRSQRTE_F : Z := 59.
Definition NEON_2RM_VCVT_FS : Z := 60.
Definition NEON_2RM_VCVT_FU : Z := 61.
Definition NEON_2RM_VCVT_SF : Z := 62.
Definition NEON_2RM_VCVT_UF : Z := 63.

Definition neon_2rm_sizes : list Z :=
  [0x7; 0x3; 0x1; 0; 0x7; 0x7; 0; 0; 0x7; 0x7; 0x1; 0x1; 0x7; 0x7; 0x7; 0x7;
   0x7; 0x7; 0x7; 0x7; 0x7; 0; 0x7; 0x7; 0x4; 0x4; 0x4; 0x4; 0x4; 0; 0x4; 0x4;
   0x1; 0x7; 0x7; 0x7; 0x7; 0x7; 0x7; 0; 0; 0; 0; 0; 0x2; 0; 0x2; 0;
   0; 0; 0; 0; 0; 0; 0; 0; 0x4; 0x4; 0x4; 0x4; 0x4; 0x4; 0x4; 0x4].
Definition neon_2rm_is_float_op (op : Z) : bool :=
  (op =? NEON_2RM_VABS_F) || (op =? NEON_2RM_VNEG_F) || (NEON_2RM_VRECPE_F <=? op).

Definition odd (r : Z) : bool := bit r 0.
Definition qpasses (q : bool) : list Z := if q then [0; 1; 2; 3] else [0; 1].
Definition qregs (q : bool) : list Z := if q then [0; 1] else [0].

Section NeonData.
Context {GU : Guest} {SF : Softfloat} {VB : VfpBus} {HO : HostOps} {NH : NeonHelpers}.

Definition each (l : list Z) (f : Z -> T unit) : T unit := tfold l (fun _ n => f n) tt.
(** Single-precision arithmetic with the standard status. *)
Definition fcall (m : M vfp_env Z) : T Z := on_vfp m.

(** ** Three registers of the same length *)
Definition neon_3r_64 (op : Z) (u : bool) (v0 v1 : Z) : T Z :=
  let l := if u then Lu64 else Ls64 in
  if op =? NEON_3R_VQADD then e2_64 Nqadd l v0 v1
  else if op =? NEON_3R_VQSUB then e2_64 Nqsub l v0 v1
  else if op =? NEON_3R_VSHL then h2_64 Nshl l v1 v0
  else if op =? NEON_3R_VQSHL then e2_64 Nqshl l v1 v0
  else if op =? NEON_3R_VRSHL then h2_64 Nrshl l v1 v0
  else if op =? NEON_3R_VQRSHL then e2_64 Nqrshl l v1 v0
  else if op =? NEON_3R_VADD_VSUB then tret (if u then u64 (v0 - v1) else u64 (v0 + v1))
  else abort.

(** The checks of an operation, and whether it is pairwise. *)
Definition neon_3r_pairwise (op size : Z) (u : bool) : T bool :=
  if op =? NEON_3R_VPADD then require (negb u) ;* tret true
  else if (op =? NEON_3R_VPMAX) || (op =? NEON_3R_VPMIN) then tret true
  else if op =? NEON_3R_FLOAT_ARITH then tret (u && (size <? 2))
  else if op =? NEON_3R_FLOAT_MINMAX then tret u
  else if op =? NEON_3R_FLOAT_CMP then require (negb (negb u && negb (size =? 0))) ;* tret false
  else if op =? NEON_3R_FLOAT_ACMP then require u ;* tret false
  else if op =? NEON_3R_VRECPS_VRSQRTS then require (negb u) ;* tret false
  else if op =? NEON_3R_VMUL then require (negb (u && negb (size =? 0))) ;* tret false
  else if op =? NEON_3R_VFM then let* v4 := feature ARM_FEATURE_VFP4 in require (negb (negb v4 || u)) ;* tret false
  else tret false.

Definition neon_logic (size : Z) (u : bool) (rd pass tmp tmp2 : Z) : T Z :=
  if u then
    if size =? 0 then tret (Z.lxor tmp tmp2)
    else
      let* tmp3 := neon_load_reg rd pass in
      tret (if size =? 1 then gen_neon_bsl tmp tmp2 tmp3
            else if size =? 2 then gen_neon_bsl tmp tmp3 tmp2
            else gen_neon_bsl tmp3 tmp tmp2)
  else tret (if size =? 0 then Z.land tmp tmp2 else if size =? 1 then andc32 tmp tmp2
             else if size =? 2 then Z.lor tmp tmp2 else orc32 tmp tmp2).

Definition neon_mulh (size : Z) (round : bool) (tmp tmp2 : Z) : T Z :=
  let op := if round then Nqrdmulh else Nqdmulh in
  if size =? 1 then e2_32 op Ls16 tmp tmp2 else if size =? 2 then e2_32 op Ls32 tmp tmp2 else abort.

Definition neon_3r_float (op size : Z) (u : bool) (rd pass tmp tmp2 : Z) : T Z :=
  if op =? NEON_3R_FLOAT_ARITH then
    if size =? 0 then fcall (vfp_add F32 tmp tmp2 Standard)
    else if size =? 2 then if u then f2_32 Nabd_f32 tmp tmp2 else fcall (vfp_sub F32 tmp tmp2 Standard)
    else abort
  else if op =? NEON_3R_FLOAT_MULTIPLY then
    let* tmp := fcall (vfp_mul F32 tmp tmp2 Standard) in
    if negb u then
      let* tmp2 := neon_load_reg rd pass in
      if size =? 0 then fcall (vfp_add F32 tmp tmp2 Standard) else fcall (vfp_sub F32 tmp2 tmp Standard)
    else tret tmp
  else if op =? NEON_3R_FLOAT_CMP then
    f2_32 (if negb u then Nceq_f32 else if size =? 0 then Ncge_f32 else Ncgt_f32) tmp tmp2
  else if op =? NEON_3R_FLOAT_ACMP then f2_32 (if size =? 0 then Nacge_f32 else Nacgt_f32) tmp tmp2
  else if op =? NEON_3R_FLOAT_MINMAX then f2_32 (if size =? 0 then Nmax_f32 else Nmin_f32) tmp tmp2
  else if op =? NEON_3R_VRECPS_VRSQRTS then
    if size =? 0 then fcall (recps_f32 tmp tmp2) else fcall (rsqrts_f32 tmp tmp2)
  else if op =? NEON_3R_VFM then
    let* tmp3 := neon_load_reg rd pass in
    let* tmp := if negb (size =? 0) then fcall (vfp_neg F32 tmp) else tret tmp in
    fcall (vfp_muladd F32 tmp tmp2 tmp3 Standard)
  else abort.

Definition neon_3r_op (op size : Z) (u : bool) (rd pass tmp tmp2 : Z) : T Z :=
  if op =? NEON_3R_VHADD then gen_int_op Nhadd size u tmp tmp2
  else if op =? NEON_3R_VQADD then gen_int_op_env Nqadd size u tmp tmp2
  else if op =? NEON_3R_VRHADD then gen_int_op Nrhadd size u tmp tmp2
  else if op =? NEON_3R_LOGIC then neon_logic size u rd pass tmp tmp2
  else if op =? NEON_3R_VHSUB then gen_int_op Nhsub size u tmp tmp2
  else if op =? NEON_3R_VQSUB then gen_int_op_env Nqsub size u tmp tmp2
  else if op =? NEON_3R_VCGT then gen_int_op Ncgt size u tmp tmp2
  else if op =? NEON_3R_VCGE then gen_int_op Ncge size u tmp tmp2
  else if op =? NEON_3R_VSHL then gen_int_op Nshl size u tmp tmp2
  else if op =? NEON_3R_VQSHL then gen_int_op_env Nqshl size u tmp tmp2
  else if op =? NEON_3R_VRSHL then gen_int_op Nrshl size u tmp tmp2
  else if op =? NEON_3R_VQRSHL then gen_int_op_env Nqrshl size u tmp tmp2
  else if op =? NEON_3R_VMAX then gen_int_op Nmax size u tmp tmp2
  else if op =? NEON_3R_VMIN then gen_int_op Nmin size u tmp tmp2
  else if op =? NEON_3R_VABD then gen_int_op Nabd size u tmp tmp2
  else if op =? NEON_3R_VABA then
    let* tmp := gen_int_op Nabd size u tmp tmp2 in
    let* tmp2 := neon_load_reg rd pass in gen_neon_add size tmp tmp2
  else if op =? NEON_3R_VADD_VSUB then if negb u then gen_neon_add size tmp tmp2 else gen_neon_sub size tmp tmp2
  else if op =? NEON_3R_VTST_VCEQ then
    let o := if negb u then Ntst else Nceq in
    by_size size (h2_32 o Lu8 tmp tmp2) (h2_32 o Lu16 tmp tmp2) (h2_32 o Lu32 tmp tmp2)
  else if op =? NEON_3R_VML then
    let* tmp := gen_neon_mul size tmp tmp2 in
    let* tmp2 := neon_load_reg rd pass in
    if u then gen_neon_rsb size tmp tmp2 else gen_neon_add size tmp tmp2
  else if op =? NEON_3R_VMUL then if u then h2_32 Nmul_p Lu8 tmp tmp2 else gen_neon_mul size tmp tmp2
  else if op =? NEON_3R_VPMAX then gen_int_op Npmax size u tmp tmp2
  else if op =? NEON_3R_VPMIN then gen_int_op Npmin size u tmp tmp2
  else if op =? NEON_3R_VQDMULH_VQRDMULH then neon_mulh size u tmp tmp2
  else if op =? NEON_3R_VPADD then
    by_size size (h2_32 Npadd Lu8 tmp tmp2) (h2_32 Npadd Lu16 tmp tmp2) (tret (add32 tmp tmp2))
  else neon_3r_float op size u rd pass tmp tmp2.

(** One pass; a pairwise result waits in scratch when the destination is
    still an operand. *)
Definition neon_3r_pass (op size : Z) (u pairwise : bool) (rd rn rm : Z) (acc : list (Z * Z)) (pass : Z) : T (list (Z * Z)) :=
  let* tmp := if pairwise then neon_load_reg (if pass <? 1 then rn else rm) 0 else neon_load_reg rn pass in
  let* tmp2 := if pairwise then neon_load_reg (if pass <? 1 then rn else rm) 1 else neon_load_reg rm pass in
  let* tmp := neon_3r_op op size u rd pass tmp tmp2 in
  if pairwise && (rd =? rm) then tret (acc ++ [(pass, tmp)])
  else neon_store_reg rd pass tmp ;* tret acc.

Definition neon_3r (insn : Z) (q u : bool) (rd rn rm size : Z) : T unit :=
  let op := Z.lor (fld insn 7 0x1e) (fld insn 4 1) in
  require (tst (nthz neon_3r_sizes op) (Z.shiftl 1 size)) ;*
  require (negb (q && odd (Z.lor (Z.lor rd rn) rm))) ;*
  if (size =? 3) && negb (op =? NEON_3R_LOGIC) then
    each (qregs q) (fun pass =>
      let* v0 := neon_load_reg64 (rn + pass) in
      let* v1 := neon_load_reg64 (rm + pass) in
      let* v0 := neon_3r_64 op u v0 v1 in
      neon_store_reg64 v0 (rd + pass))
  else
    let shifts := (op =? NEON_3R_VSHL) || (op =? NEON_3R_VQSHL) || (op =? NEON_3R_VRSHL) || (op =? NEON_3R_VQRSHL) in
    let rn' := if shifts then rm else rn in
    let rm' := if shifts then rn else rm in
    let* pairwise := neon_3r_pairwise op size u in
    require (negb (pairwise && q)) ;*
    let* scratch := tfold (qpasses q) (neon_3r_pass op size u pairwise rd rn' rm') [] in
    tfold scratch (fun _ (p : Z * Z) => neon_store_reg rd p.1 p.2) tt.

(** ** Two registers and a shift *)

(** The loop that finds the element size: the highest bit set of 21, 20, 19. *)
Definition shift_size (insn : Z) : Z := if bit insn 21 then 2 else if bit insn 20 then 1 else 0.
Definition rep8 (x : Z) : Z := let x := Z.lor x (Z.shiftl x 8) in u32 (Z.lor x (Z.shiftl x 16)).
Definition rep16 (x : Z) : Z := u32 (Z.lor x (Z.shiftl x 16)).
(** The amount in every element. *)
Definition shift_imm (size shift : Z) : Z :=
  if size =? 0 then rep8 (shift mod 2 ^ 8) else if size =? 1 then rep16 (u16 shift) else u32 shift.
(** The bits an inserting shift takes from the shifted operand. *)
Definition insert_mask (op size shift : Z) : Z :=
  if size =? 0 then rep8 (if op =? 4 then Z.shiftr 0xff (- shift) else Z.shiftl 0xff shift mod 2 ^ 8)
  else if size =? 1 then rep16 (if op =? 4 then Z.shiftr 0xffff (- shift) else u16 (Z.shiftl 0xffff shift))
  else if (shift <? -31) || (31 <? shift) then 0
  else if op =? 4 then Z.shiftr 0xffffffff (- shift) else u32 (Z.shiftl 0xffffffff shift).
Definition insert_mask64 (op shift : Z) : Z :=
  if (shift <? -63) || (63 <? shift) then 0
  else if op =? 4 then Z.shiftr 0xffffffffffffffff (- shift) else u64 (Z.shiftl 0xffffffffffffffff shift).
Definition inserting (op : Z) (u : bool) : bool := (op =? 4) || ((op =? 5) && u).
Definition accumulating (op : Z) : bool := (op =? 1) || (op =? 3).

Definition neon_shift64 (op shift imm : Z) (u : bool) (rd rm pass : Z) : T unit :=
  let l := if u then Lu64 else Ls64 in
  let* v0 := neon_load_reg64 (rm + pass) in
  let* v0 :=
    if (op =? 0) || (op =? 1) then h2_64 Nshl l v0 imm
    else if (op =? 2) || (op =? 3) then h2_64 Nrshl l v0 imm
    else if (op =? 4) || (op =? 5) then h2_64 Nshl Lu64 v0 imm
    else if op =? 6 then e2_64 Nqshlu Ls64 v0 imm
    else e2_64 Nqshl l v0 imm in
  let* v0 :=
    if accumulating op then let* v1 := neon_load_reg64 (rd + pass) in tret (u64 (v0 + v1))
    else if inserting op u then
      let* v1 := neon_load_reg64 (rd + pass) in
      tret (Z.lor v0 (Z.land v1 (Z.lxor (insert_mask64 op shift) 0xffffffffffffffff)))
    else tret v0 in
  neon_store_reg64 v0 (rd + pass).
Definition neon_shift32 (op size shift imm : Z) (u : bool) (rd rm pass : Z) : T unit :=
  let* tmp := neon_load_reg rm pass in
  let* tmp :=
    if (op =? 0) || (op =? 1) then gen_int_op Nshl size u tmp imm
    else if (op =? 2) || (op =? 3) then gen_int_op Nrshl size u tmp imm
    else if (op =? 4) || (op =? 5) then by_size size (h2_32 Nshl Lu8 tmp imm) (h2_32 Nshl Lu16 tmp imm) (h2_32 Nshl Lu32 tmp imm)
    else if op =? 6 then by_size size (e2_32 Nqshlu Ls8 tmp imm) (e2_32 Nqshlu Ls16 tmp imm) (e2_32 Nqshlu Ls32 tmp imm)
    else gen_int_op_env Nqshl size u tmp imm in
  let* tmp :=
    if accumulating op then let* tmp2 := neon_load_reg rd pass in gen_neon_add size tmp tmp2
    else if inserting op u then
      let mask := insert_mask op size shift in
      let* tmp2 := neon_load_reg rd pass in tret (Z.lor (Z.land tmp mask) (Z.land tmp2 (not32 mask)))
    else tret tmp in
  neon_store_reg rd pass tmp.
Definition neon_shift_imm (op size shift : Z) (q u : bool) (rd rm : Z) : T unit :=
  require (negb (q && odd (Z.lor rd rm))) ;*
  require (negb (negb u && ((op =? 4) || (op =? 6)))) ;*
  let shift := if op <=? 4 then shift - Z.shiftl 1 (size + 3) else shift in
  let imm := shift_imm size shift in
  if size =? 3 then each (qregs q) (neon_shift64 op shift imm u rd rm)
  else each (qpasses q) (neon_shift32 op size shift imm u rd rm).

(** Shift and narrow. *)
Definition neon_shift_narrow (op size shift : Z) (q u : bool) (rd rm : Z) : T unit :=
  let input_unsigned := if op =? 8 then negb u else u in
  require (negb (odd rm)) ;*
  let shift := shift - Z.shiftl 1 (size + 3) in
  let size := size + 1 in
  if size =? 3 then
    let* v0 := neon_load_reg64 rm in
    let* v1 := neon_load_reg64 (rm + 1) in
    each [0; 1] (fun pass =>
      let* v := h2_64 (if q then Nrshl else Nshl) (if input_unsigned then Lu64 else Ls64) (if pass =? 0 then v0 else v1) (u64 shift) in
      let* tmp := gen_neon_narrow_op (op =? 8) u (size - 1) v in
      neon_store_reg rd pass tmp)
  else
    let imm := if size =? 1 then rep16 (u16 shift) else u32 shift in
    let* tmp4 := neon_load_reg (rm + 1) 0 in
    let* tmp5 := neon_load_reg (rm + 1) 1 in
    each [0; 1] (fun pass =>
      let* tmp := if pass =? 0 then neon_load_reg rm 0 else tret tmp4 in
      let* tmp := gen_neon_shift_narrow size tmp imm q input_unsigned in
      let* tmp3 := if pass =? 0 then neon_load_reg rm 1 else tret tmp5 in
      let* tmp3 := gen_neon_shift_narrow size tmp3 imm q input_unsigned in
      let* tmp := gen_neon_narrow_op (op =? 8) u (size - 1) (concat64 tmp tmp3) in
      neon_store_reg rd pass tmp).

(** VSHLL, VMOVL: the bits a left neighbour would have shifted in. *)
Definition shll_clear (size shift : Z) : Z :=
  if size =? 0 then
    let imm := Z.shiftr 0xff (8 - shift) in let imm := Z.lor imm (Z.shiftl imm 16) in Z.lor imm (Z.shiftl imm 32)
  else if size =? 1 then let imm := Z.shiftr 0xffff (16 - shift) in Z.lor imm (Z.shiftl imm 32)
  else Z.shiftr 0xffffffff (32 - shift).
Definition neon_shll (size shift : Z) (q u : bool) (rd rm : Z) : T unit :=
  require (negb (q || odd rd)) ;*
  let* tmp := neon_load_reg rm 0 in
  let* tmp2 := neon_load_reg rm 1 in
  each [0; 1] (fun pass =>
    let* v0 := gen_neon_widen (if pass =? 1 then tmp2 else tmp) size u in
    let v0 :=
      if negb (shift =? 0) then
        let v0 := u64 (Z.shiftl v0 shift) in
        if (size <? 2) || negb u then Z.land v0 (Z.lxor (shll_clear size shift) 0xffffffffffffffff) else v0
      else v0 in
    neon_store_reg64 v0 (rd + pass)).

(** VCVT between single precision and fixed point. *)
Definition neon_vcvt_fixed (insn op shift : Z) (q u : bool) (rd rm : Z) : T unit :=
  require (negb (negb (bit insn 21) || (q && odd (Z.lor rd rm)))) ;*
  let shift := 32 - shift in
  each (qpasses q) (fun pass =>
    let* x := neon_load_reg rm pass in
    let* x := fcall (if negb (odd op) then conv_fix_to_float (if u then uint32 else int32) F32 x shift Standard
                     else conv_float_to_fix (if u then uint32 else int32) F32 x shift Standard) in
    neon_store_reg rd pass x).

Definition neon_two_shift (insn : Z) (q u : bool) (rd rm : Z) : T unit :=
  let op := fld insn 8 0xf in
  require (negb (bit insn 7 && (7 <? op))) ;*
  let size := if bit insn 7 then 3 else shift_size insn in
  let shift := fld insn 16 (Z.shiftl 1 (3 + size) - 1) in
  if op <? 8 then neon_shift_imm op size shift q u rd rm
  else if op <? 10 then neon_shift_narrow op size shift q u rd rm
  else if op =? 10 then neon_shll size shift q u rd rm
  else if 14 <=? op then neon_vcvt_fixed insn op shift q u rd rm
  else illegal_op.

(** ** One register and an immediate *)

(** The constant of an operation code before the final inversion; code 14
    with the invert bit is inverted twice. *)
Definition neon_imm_base (op imm : Z) (invert : bool) : Z :=
  match op with
  | 0 | 1 => imm
  | 2 | 3 => Z.shiftl imm 8
  | 4 | 5 => Z.shiftl imm 16
  | 6 | 7 => Z.shiftl imm 24
  | 8 | 9 => Z.lor imm (Z.shiftl imm 16)
  | 10 | 11 => Z.lor (Z.shiftl imm 8) (Z.shiftl imm 24)
  | 12 => Z.lor (Z.shiftl imm 8) 0xff
  | 13 => Z.lor (Z.shiftl imm 16) 0xffff
  | 14 => let x := Z.lor imm (Z.lor (Z.lor (Z.shiftl imm 8) (Z.shiftl imm 16)) (Z.shiftl imm 24)) in if invert then not32 x else x
  | _ => Z.lor (Z.lor (Z.shiftl (Z.land imm 0x80) 24) (Z.shiftl (Z.land imm 0x3f) 19))
           (if tst imm 0x40 then Z.shiftl 0x1f 25 else Z.shiftl 1 30)
  end.
Definition neon_imm (op imm : Z) (invert : bool) : Z :=
  let x := u32 (neon_imm_base op imm invert) in if invert then not32 x else x.
(** Each bit of the byte that belongs to the pass becomes a byte. *)
Definition neon_byte_mask (imm pass : Z) : Z :=
  foldl (fun val n => if tst imm (Z.shiftl 1 (n + Z.land pass 1 * 4)) then Z.lor val (Z.shiftl 0xff (n * 8)) else val) 0 (seqZ 0 4).
Definition neon_one_imm (insn : Z) (q u : bool) (rd : Z) : T unit :=
  require (negb (q && odd rd)) ;*
  let op := fld insn 8 0xf in
  let imm := Z.lor (Z.lor (if u then 0x80 else 0) (fld insn 12 0x70)) (Z.land insn 0xf) in
  let invert := bit insn 5 in
  require (negb ((op =? 15) && invert)) ;*
  let imm := neon_imm op imm invert in
  each (qpasses q) (fun pass =>
    let* tmp :=
      if odd op && (op <? 12) then
        let* tmp := neon_load_reg rd pass in tret (if invert then Z.land tmp imm else Z.lor tmp imm)
      else tret (if (op =? 14) && invert then neon_byte_mask imm pass else imm) in
    neon_store_reg rd pass tmp).

(** ** Three registers of different lengths *)

(** [prewiden], [src1_wide], [src2_wide], [undefreq]. *)
Definition neon_3reg_wide : list (bool * bool * bool * Z) :=
  [(true, false, false, 0); (true, true, false, 0); (true, false, false, 0); (true, true, false, 0);
   (false, true, true, 0); (false, false, false, 0); (false, true, true, 0); (false, false, false, 0);
   (false, false, false, 0); (false, false, false, 6); (false, false, false, 0); (false, false, false, 6);
   (false, false, false, 0); (false, false, false, 2); (false, false, false, 5); (false, false, false, 3)].

(** The operands [tmp], [tmp2] and [cpu_V0], [cpu_V1]; those an operation
    does not use are 0. *)
Definition wide_operand (wide prewiden scratched : bool) (r pass saved size : Z) (u : bool) : T (Z * Z) :=
  if wide then let* v := neon_load_reg64 (r + pass) in tret (0, v)
  else
    let* tmp := if (pass =? 1) && scratched then tret saved else neon_load_reg r pass in
    let* v := if prewiden then gen_neon_widen tmp size u else tret 0 in
    tret (tmp, v).
Definition neon_wide_op (op size : Z) (u : bool) (tmp tmp2 v0 v1 : Z) : T Z :=
  match op with
  | 0 | 1 | 4 => gen_neon_addl size v0 v1
  | 2 | 3 | 6 => gen_neon_subl size v0 v1
  | 5 | 7 => by_size size (h2_64 Nabdl (if u then Lu16 else Ls16) tmp tmp2) (h2_64 Nabdl (if u then Lu32 else Ls32) tmp tmp2)
               (h2_64 Nabdl (if u then Lu64 else Ls64) tmp tmp2)
  | 8 | 9 | 10 | 11 | 12 | 13 => gen_neon_mull tmp tmp2 size u
  | 14 => h2_64 Nmull_p Lu8 tmp tmp2
  | _ => abort
  end.
(** Accumulation of products, as the scalar forms use it too. *)
Definition neon_sat_acc (negate : bool) (size v0 v1 : Z) : T Z :=
  let* v0 := gen_neon_addl_saturate v0 v0 size in
  let* v0 := if negate then gen_neon_negl v0 size else tret v0 in
  gen_neon_addl_saturate v0 v1 size.
Definition neon_acc (op size v0 v1 : Z) : T Z :=
  match op with
  | 10 => let* v0 := gen_neon_negl v0 size in gen_neon_addl size v0 v1
  | 5 | 8 => gen_neon_addl size v0 v1
  | 9 => neon_sat_acc false size v0 v1
  | 11 => neon_sat_acc true size v0 v1
  | _ => abort
  end.
Definition neon_narrow_high (size : Z) (round : bool) (v0 : Z) : T Z :=
  if round then by_size size (h1_32 Nnarrow_round_high Lu8 v0) (h1_32 Nnarrow_round_high Lu16 v0) (tret (hi64 (u64 (v0 + 2 ^ 31))))
  else by_size size (h1_32 Nnarrow_high Lu8 v0) (h1_32 Nnarrow_high Lu16 v0) (tret (hi64 v0)).

(** One pass; the result is the narrowed word of the first one. *)
Definition neon_wide_pass (op size : Z) (u prewiden w1 w2 : bool) (rd rn rm saved : Z) (tmp3 pass : Z) : T Z :=
  let* '(tmp, v0) := wide_operand w1 prewiden (rd =? rn) rn pass saved size u in
  let* '(tmp2, v1) := wide_operand w2 prewiden (rd =? rm) rm pass saved size u in
  let* v0 := neon_wide_op op size u tmp tmp2 v0 v1 in
  if op =? 13 then
    let* v0 := gen_neon_addl_saturate v0 v0 size in neon_store_reg64 v0 (rd + pass) ;* tret tmp3
  else if (op =? 5) || ((8 <=? op) && (op <=? 11)) then
    let* v1 := neon_load_reg64 (rd + pass) in
    let* v0 := neon_acc op size v0 v1 in
    neon_store_reg64 v0 (rd + pass) ;* tret tmp3
  else if (op =? 4) || (op =? 6) then
    let* tmp := neon_narrow_high size u v0 in
    if pass =? 0 then tret tmp
    else neon_store_reg rd 0 tmp3 ;* neon_store_reg rd 1 tmp ;* tret tmp3
  else neon_store_reg64 v0 (rd + pass) ;* tret tmp3.
Definition neon_wide (insn size : Z) (u : bool) (rd rn rm : Z) : T unit :=
  let op := fld insn 8 0xf in
  match znth neon_3reg_wide op with
  | Some (prewiden, w1, w2, undefreq) =>
      require (negb ((bit undefreq 0 && negb (size =? 0)) || (bit undefreq 1 && (size =? 0)) || (bit undefreq 2 && u))) ;*
      require (negb ((w1 && odd rn) || (w2 && odd rm) || (negb w2 && odd rd))) ;*
      let* saved :=
        if (rd =? rm) && negb w2 then neon_load_reg rm 1
        else if (rd =? rn) && negb w1 then neon_load_reg rn 1
        else tret 0 in
      let* _ := tfold [0; 1] (neon_wide_pass op size u prewiden w1 w2 rd rn rm saved) 0 in
      tret tt
  | None => lift undefined
  end.

(** ** Two registers and a scalar *)
Definition neon_scalar_op (op size : Z) (rd pass tmp tmp2 : Z) : T Z :=
  let* tmp :=
    if op =? 12 then (if size =? 1 then e2_32 Nqdmulh Ls16 tmp tmp2 else e2_32 Nqdmulh Ls32 tmp tmp2)
    else if op =? 13 then (if size =? 1 then e2_32 Nqrdmulh Ls16 tmp tmp2 else e2_32 Nqrdmulh Ls32 tmp tmp2)
    else if odd op then fcall (vfp_mul F32 tmp tmp2 Standard)
    else gen_neon_mul size tmp tmp2 in
  if op <? 8 then
    let* tmp2 := neon_load_reg rd pass in
    match op with
    | 0 => gen_neon_add size tmp tmp2
    | 1 => fcall (vfp_add F32 tmp tmp2 Standard)
    | 4 => gen_neon_rsb size tmp tmp2
    | 5 => fcall (vfp_sub F32 tmp2 tmp Standard)
    | _ => abort
    end
  else tret tmp.
Definition neon_scalar_long (op size v0 v1 : Z) : T Z :=
  match op with
  | 6 => let* v0 := gen_neon_negl v0 size in gen_neon_addl size v0 v1
  | 2 => gen_neon_addl size v0 v1
  | 3 => neon_sat_acc false size v0 v1
  | 7 => neon_sat_acc true size v0 v1
  | 10 => tret v0
  | 11 => gen_neon_addl_saturate v0 v0 size
  | _ => abort
  end.
Definition neon_scalar (insn size : Z) (u : bool) (rd rn rm : Z) : T unit :=
  let op := fld insn 8 0xf in
  require (negb (size =? 0)) ;*
  match op with
  | 1 | 5 | 9 | 0 | 4 | 8 | 12 | 13 =>
      require (negb (((op =? 1) || (op =? 5) || (op =? 9)) && (size =? 1))) ;*
      require (negb (u && odd (Z.lor rd rn))) ;*
      let* scalar := neon_get_scalar size rm in
      each (qpasses u) (fun pass =>
        let* tmp2 := neon_load_reg rn pass in
        let* tmp := neon_scalar_op op size rd pass scalar tmp2 in
        neon_store_reg rd pass tmp)
  | 3 | 7 | 11 | 2 | 6 | 10 =>
      require (negb (((op =? 3) || (op =? 7) || (op =? 11)) && u)) ;*
      require (negb (odd rd)) ;*
      let* tmp2 := neon_get_scalar size rm in
      let* tmp3 := neon_load_reg rn 1 in
      each [0; 1] (fun pass =>
        let* tmp := if pass =? 0 then neon_load_reg rn 0 else tret tmp3 in
        let* v0 := gen_neon_mull tmp tmp2 size u in
        let* v1 := if negb (op =? 11) then neon_load_reg64 (rd + pass) else tret 0 in
        let* v0 := neon_scalar_long op size v0 v1 in
        neon_store_reg64 v0 (rd + pass))
  | _ => illegal_op
  end.

(** ** Extraction *)
Definition shl64 (a n : Z) : Z := u64 (Z.shiftl a n).
Definition neon_vext (insn : Z) (q : bool) (rd rn rm : Z) : T unit :=
  let imm := fld insn 8 0xf in
  require (negb ((7 <? imm) && negb q)) ;*
  require (negb (q && odd (Z.lor (Z.lor rd rn) rm))) ;*
  let* '(v0, v1) :=
    if imm =? 0 then
      let* v0 := neon_load_reg64 rn in
      let* v1 := if q then neon_load_reg64 (rn + 1) else tret 0 in tret (v0, v1)
    else if imm =? 8 then
      let* v0 := neon_load_reg64 (rn + 1) in
      let* v1 := if q then neon_load_reg64 rm else tret 0 in tret (v0, v1)
    else if q then
      let* v0 := neon_load_reg64 (if imm <? 8 then rn else rn + 1) in
      let* tmp64 := neon_load_reg64 (if imm <? 8 then rn + 1 else rm) in
      let n := Z.land imm 7 * 8 in
      let v0 := Z.lor (Z.shiftr v0 n) (shl64 tmp64 (64 - n)) in
      let* v1 := neon_load_reg64 (if imm <? 8 then rm else rm + 1) in
      let imm := if imm <? 8 then imm else imm - 8 in
      tret (v0, Z.lor (shl64 v1 (64 - imm * 8)) (Z.shiftr tmp64 (imm * 8)))
    else
      let* v0 := neon_load_reg64 rn in
      let* v1 := neon_load_reg64 rm in
      let v1 := shl64 v1 (64 - imm * 8) in
      tret (Z.lor (Z.shiftr v0 (imm * 8)) v1, v1) in
  neon_store_reg64 v0 rd ;*
  (if q then neon_store_reg64 v1 (rd + 1) else tret tt).

(** ** Two registers *)
Definition neon_rev (size tmp : Z) : T Z := if size =? 0 then tret (bswap32 tmp) else if size =? 1 then tret (gen_swap_half tmp) else abort.
Definition neon_vrev64 (size : Z) (q : bool) (rd rm : Z) : T unit :=
  each (qregs q) (fun pass =>
    let* tmp := neon_load_reg rm (pass * 2) in
    let* tmp2 := neon_load_reg rm (pass * 2 + 1) in
    let* tmp := if size =? 2 then tret tmp else neon_rev size tmp in
    neon_store_reg rd (pass * 2 + 1) tmp ;*
    let* tmp2 := if size =? 2 then tret tmp2 else neon_rev size tmp2 in
    neon_store_reg rd (pass * 2) tmp2).
Definition neon_vpaddl (op size : Z) (q : bool) (rd rm : Z) : T unit :=
  each (qregs q) (fun pass =>
    let* tmp := neon_load_reg rm (pass * 2) in
    let* v0 := gen_neon_widen tmp size (odd op) in
    let* tmp := neon_load_reg rm (pass * 2 + 1) in
    let* v1 := gen_neon_widen tmp size (odd op) in
    let* v0 := by_size size (h2_64 Npaddl Lu16 v0 v1) (h2_64 Npaddl Lu32 v0 v1) (tret (u64 (v0 + v1))) in
    let* v0 := if NEON_2RM_VPADAL <=? op then let* v1 := neon_load_reg64 (rd + pass) in gen_neon_addl size v0 v1 else tret v0 in
    neon_store_reg64 v0 (rd + pass)).
Definition neon_vtrn32 (q : bool) (rd rm : Z) : T unit :=
  each (if q then [0; 2] else [0]) (fun n =>
    let* tmp := neon_load_reg rm n in
    let* tmp2 := neon_load_reg rd (n + 1) in
    neon_store_reg rm n tmp2 ;* neon_store_reg rd (n + 1) tmp).
Definition neon_vmovn (op size : Z) (q : bool) (rd rm : Z) : T unit :=
  require (negb (odd rm)) ;*
  let* v0 := neon_load_reg64 rm in
  let* tmp2 := gen_neon_narrow_op (op =? NEON_2RM_VMOVN) q size v0 in
  let* v0 := neon_load_reg64 (rm + 1) in
  let* tmp := gen_neon_narrow_op (op =? NEON_2RM_VMOVN) q size v0 in
  neon_store_reg rd 0 tmp2 ;* neon_store_reg rd 1 tmp.
Definition neon_2rm_vshll (size : Z) (q : bool) (rd rm : Z) : T unit :=
  require (negb (q || odd rd)) ;*
  let* tmp := neon_load_reg rm 0 in
  let* tmp2 := neon_load_reg rm 1 in
  each [0; 1] (fun pass =>
    let* v0 := gen_neon_widen (if pass =? 1 then tmp2 else tmp) size true in
    neon_store_reg64 (shl64 v0 (Z.shiftl 8 size)) (rd + pass)).
(** The pair in a word, second half above the first. *)
Definition neon_vcvt_f16_f32 (q : bool) (rd rm : Z) : T unit :=
  let* fp16 := feature ARM_FEATURE_VFP_FP16 in
  require (negb (negb fp16 || q || odd rm)) ;*
  let cvt := fun pass => let* x := neon_load_reg rm pass in fcall (neon_fcvt_f32_to_f16 x) in
  let* tmp := cvt 0 in
  let* tmp2 := cvt 1 in
  let first := Z.lor (shl_i32 tmp2 16) tmp in
  let* tmp := cvt 2 in
  let* x := neon_load_reg rm 3 in
  neon_store_reg rd 0 first ;*
  let* tmp2 := fcall (neon_fcvt_f32_to_f16 x) in
  neon_store_reg rd 1 (Z.lor (shl_i32 tmp2 16) tmp).
Definition neon_vcvt_f32_f16 (q : bool) (rd rm : Z) : T unit :=
  let* fp16 := feature ARM_FEATURE_VFP_FP16 in
  require (negb (negb fp16 || q || odd rd)) ;*
  let* tmp := neon_load_reg rm 0 in
  let* tmp2 := neon_load_reg rm 1 in
  let put := fun pass h => let* x := fcall (neon_fcvt_f16_to_f32 h) in neon_store_reg rd pass x in
  put 0 (ext16u tmp) ;* put 1 (shr_i32 tmp 16) ;* put 2 (ext16u tmp2) ;* put 3 (shr_i32 tmp2 16).

(** Comparisons with zero. *)
Definition neon_cmp0 (o : neon_op2) (size tmp : Z) (invert : bool) : T Z :=
  let* tmp := by_size size (h2_32 o Ls8 tmp 0) (h2_32 o Ls16 tmp 0) (h2_32 o Ls32 tmp 0) in
  tret (if invert then not32 tmp else tmp).
(** An element operation on [tmp]; the floating-point ones on [cpu_F0s]. *)
Definition neon_2rm_op (op size : Z) (rd rm pass tmp : Z) : T Z :=
  if op =? NEON_2RM_VREV32 then neon_rev size tmp
  else if op =? NEON_2RM_VREV16 then tret (gen_rev16 tmp)
  else if op =? NEON_2RM_VCLS then by_size size (h1_32 Ncls Ls8 tmp) (h1_32 Ncls Ls16 tmp) (h1_32 Ncls Ls32 tmp)
  else if op =? NEON_2RM_VCLZ then by_size size (h1_32 Nclz Lu8 tmp) (h1_32 Nclz Lu16 tmp) (tret (clz32 tmp))
  else if op =? NEON_2RM_VCNT then h1_32 Ncnt Lu8 tmp
  else if op =? NEON_2RM_VMVN then tret (not32 tmp)
  else if op =? NEON_2RM_VQABS then by_size size (e1_32 Nqabs Ls8 tmp) (e1_32 Nqabs Ls16 tmp) (e1_32 Nqabs Ls32 tmp)
  else if op =? NEON_2RM_VQNEG then by_size size (e1_32 Nqneg Ls8 tmp) (e1_32 Nqneg Ls16 tmp) (e1_32 Nqneg Ls32 tmp)
  else if op =? NEON_2RM_VCGT0 then neon_cmp0 Ncgt size tmp false
  else if op =? NEON_2RM_VCLE0 then neon_cmp0 Ncgt size tmp true
  else if op =? NEON_2RM_VCGE0 then neon_cmp0 Ncge size tmp false
  else if op =? NEON_2RM_VCLT0 then neon_cmp0 Ncge size tmp true
  else if op =? NEON_2RM_VCEQ0 then by_size size (h2_32 Nceq Lu8 tmp 0) (h2_32 Nceq Lu16 tmp 0) (h2_32 Nceq Lu32 tmp 0)
  else if op =? NEON_2RM_VABS then by_size size (h1_32 Nabs Ls8 tmp) (h1_32 Nabs Ls16 tmp) (tret (abs_i32 tmp))
  else if op =? NEON_2RM_VNEG then gen_neon_rsb size tmp 0
  else if op =? NEON_2RM_VCGT0_F then f2_32 Ncgt_f32 tmp 0
  else if op =? NEON_2RM_VCGE0_F then f2_32 Ncge_f32 tmp 0
  else if op =? NEON_2RM_VCEQ0_F then f2_32 Nceq_f32 tmp 0
  else if op =? NEON_2RM_VCLE0_F then f2_32 Ncge_f32 0 tmp
  else if op =? NEON_2RM_VCLT0_F then f2_32 Ncgt_f32 0 tmp
  else if op =? NEON_2RM_VABS_F then fcall (vfp_abs F32 tmp)
  else if op =? NEON_2RM_VNEG_F then fcall (vfp_neg F32 tmp)
  else if op =? NEON_2RM_VSWP then let* tmp2 := neon_load_reg rd pass in neon_store_reg rm pass tmp2 ;* tret tmp
  else if op =? NEON_2RM_VTRN then
    let* tmp2 := neon_load_reg rd pass in
    let* '(tmp, tmp2) := if size =? 0 then tret (gen_neon_trn_u8 tmp tmp2) else if size =? 1 then tret (gen_neon_trn_u16 tmp tmp2) else abort in
    neon_store_reg rm pass tmp2 ;* tret tmp
  else if op =? NEON_2RM_VRECPE then fcall (recpe_u32 tmp)
  else if op =? NEON_2RM_VRSQRTE then fcall (rsqrte_u32 tmp)
  else if op =? NEON_2RM_VRECPE_F then fcall (recpe_f32 tmp)
  else if op =? NEON_2RM_VRSQRTE_F then fcall (rsqrte_f32 tmp)
  else if op =? NEON_2RM_VCVT_FS then fcall (conv_itof si F32 tmp Standard)
  else if op =? NEON_2RM_VCVT_FU then fcall (conv_itof ui F32 tmp Standard)
  else if op =? NEON_2RM_VCVT_SF then fcall (conv_ftoi si true F32 tmp Standard)
  else if op =? NEON_2RM_VCVT_UF then fcall (conv_ftoi ui true F32 tmp Standard)
  else abort.
(** The word is [cpu_F0s] or [tmp]; both are the register's word. *)
Definition neon_elementwise (op size : Z) (q : bool) (rd rm : Z) : T unit :=
  each (qpasses q) (fun pass =>
    let* tmp := neon_load_reg rm pass in
    let* tmp := neon_2rm_op op size rd rm pass tmp in
    neon_store_reg rd pass tmp).
Definition neon_2rm (insn : Z) (q : bool) (rd rm : Z) : T unit :=
  let op := Z.lor (fld insn 12 0x30) (fld insn 7 0xf) in
  let size := fld insn 18 3 in
  require (tst (nthz neon_2rm_sizes op) (Z.shiftl 1 size)) ;*
  require (negb (negb (op =? NEON_2RM_VMOVN) && negb (op =? NEON_2RM_VQMOVN) && q && odd (Z.lor rm rd))) ;*
  if op =? NEON_2RM_VREV64 then neon_vrev64 size q rd rm
  else if (op =? NEON_2RM_VPADDL) || (op =? NEON_2RM_VPADDL_U) || (op =? NEON_2RM_VPADAL) || (op =? NEON_2RM_VPADAL_U) then
    neon_vpaddl op size q rd rm
  else if (op =? NEON_2RM_VTRN) && (size =? 2) then neon_vtrn32 q rd rm
  else if op =? NEON_2RM_VUZP then gen_neon_unzip rd rm size q
  else if op =? NEON_2RM_VZIP then gen_neon_zip rd rm size q
  else if (op =? NEON_2RM_VMOVN) || (op =? NEON_2RM_VQMOVN) then neon_vmovn op size q rd rm
  else if op =? NEON_2RM_VSHLL then neon_2rm_vshll size q rd rm
  else if op =? NEON_2RM_VCVT_F16_F32 then neon_vcvt_f16_f32 q rd rm
  else if op =? NEON_2RM_VCVT_F32_F16 then neon_vcvt_f32_f16 q rd rm
  else neon_elementwise op size q rd rm.

(** ** Table lookup and duplication *)
Definition neon_vtbl (insn rd rn rm : Z) : T unit :=
  let n := fld insn 8 3 + 1 in
  require (negb (32 <? rn + n)) ;*
  let n := Z.shiftl n 3 in
  let dflt := fun pass => if bit insn 6 then neon_load_reg rd pass else tret 0 in
  let* tmp := dflt 0 in
  let* tmp2 := neon_load_reg rm 0 in
  let* tmp2 := on_core (neon_tbl tmp2 tmp rn n) in
  let* tmp := dflt 1 in
  let* tmp3 := neon_load_reg rm 1 in
  let* tmp3 := on_core (neon_tbl tmp3 tmp rn n) in
  neon_store_reg rd 0 tmp2 ;* neon_store_reg rd 1 tmp3.
Definition neon_vdup (insn : Z) (q : bool) (rd rm : Z) : T unit :=
  require (negb ((fld insn 16 7 =? 0) || (q && odd rd))) ;*
  let* tmp := neon_load_reg rm (if bit insn 19 then 1 else 0) in
  let tmp :=
    if bit insn 16 then gen_neon_dup_u8 tmp (fld insn 17 3 * 8)
    else if bit insn 17 then if bit insn 18 then gen_neon_dup_high16 tmp else gen_neon_dup_low16 tmp
    else tmp in
  each (qpasses q) (fun pass => neon_store_reg rd pass tmp).

(** ** The decoder *)
Definition disas_neon_data_insn (insn : Z) : T unit :=
  let* d := get_dc id in
  require (negb (vfp_enabled d =? 0)) ;*
  let q := bit insn 6 in
  let u := bit insn 24 in
  let* rd := VFP_DREG_D insn in
  let* rn := VFP_DREG_N insn in
  let* rm := VFP_DREG_M insn in
  let size := fld insn 20 3 in
  if negb (bit insn 23) then neon_3r insn q u rd rn rm size
  else if bit insn 4 then
    if tst insn 0x00380080 then neon_two_shift insn q u rd rm else neon_one_imm insn q u rd
  else if negb (size =? 3) then
    if negb (bit insn 6) then neon_wide insn size u rd rn rm else neon_scalar insn size u rd rn rm
  else if negb u then neon_vext insn q rd rn rm
  else if negb (bit insn 11) then neon_2rm insn q rd rm
  else if negb (bit insn 10) then neon_vtbl insn rd rn rm
  else if Z.land insn 0x380 =? 0 then neon_vdup insn q rd rm
  else illegal_op.
End NeonData.
