(* ===== verification/TransNeonUser.v ===== *)
(** * User mode: NEON data processing

    Every NEON data-processing instruction stays inside the register file:
    it runs to a defined end, and neither privileged state nor FPEXC
    changes. *)
From stdpp Require Import base list.
From S2P Require Import Prelude Double ArmTable State CpuState Errors OpHelper CpuMode Sys V7m Dsp Softfloat Vfp Tcg TransGen TransArm.
From S2P Require Import TransThumb2 TransThumb TransUser TransBeside TransVfp TransNeonLs TransVfpUser TransNeon TransNeonData.
Open Scope Z_scope.

(** A finite check. *)
Lemma all_below (f : Z -> bool) n x : forallb f (seqZ 0 n) = true -> 0 <= x < n -> f x = true.
Proof. rewrite forallb_forall. intros F Hx. apply F, list_elem_of_In, elem_of_seqZ. lia. Qed.

(** A D register, or with [q] two of them. *)
Definition in_file (q : bool) (r : Z) : Prop := 0 <= r /\ r + (if q then 1 else 0) < 32.

(** What the helpers promise: they return, and of the state they change the
    saturation flag, the status and, for the permutations, the register
    file. *)
Class NeonLaws `{SF : Softfloat} `{NH : !NeonHelpers} := {
  neon_e1_tot op l a : vtot (neon_e1 op l a);
  neon_e2_tot op l a b : vtot (neon_e2 op l a b);
  neon_f2_tot op a b p : vtot (neon_f2 op a b p);
  neon_p2_regs op q l rd rm e : in_file q rd -> in_file q rm -> cpu_wf (vcpu e) -> exists regs e', neon_p2 op q l rd rm e = Done (tt, e') /\
    vcpu e' = set_vfp_regs regs (vcpu e) /\ length regs = 32%nat /\ Forall is_u64 regs /\
    nthz (xregs e') ARM_VFP_FPEXC = nthz (xregs e) ARM_VFP_FPEXC
}.

Section NeonUser.
Context {GU : Guest} {GL : GuestLaws} {SF : Softfloat} {VB : VfpBus} {VL : VfpBusLaws} {HO : HostOps} {NH : NeonHelpers} {NL : NeonLaws}.

Lemma vok_e1 op l a : vok (e1_32 op l a).
Proof. unfold e1_32. apply vok_bind; [apply vok_on_vfp, neon_e1_tot|intros v; apply vok_tret]. Qed.
Lemma vok_e2 op l a b : vok (e2_32 op l a b).
Proof. unfold e2_32. apply vok_bind; [apply vok_on_vfp, neon_e2_tot|intros v; apply vok_tret]. Qed.
Lemma vok_e2_64 op l a b : vok (e2_64 op l a b).
Proof. unfold e2_64. apply vok_bind; [apply vok_on_vfp, neon_e2_tot|intros v; apply vok_tret]. Qed.
Lemma vok_f2 op a b : vok (f2_32 op a b).
Proof. unfold f2_32. apply vok_bind; [apply vok_on_vfp, neon_f2_tot|intros v; apply vok_tret]. Qed.
Lemma vok_h1 op l a : vok (h1_32 op l a). Proof. apply vok_tret. Qed.
Lemma vok_h1_64 op l a : vok (h1_64 op l a). Proof. apply vok_tret. Qed.
Lemma vok_h2 op l a b : vok (h2_32 op l a b). Proof. apply vok_tret. Qed.
Lemma vok_h2_64 op l a b : vok (h2_64 op l a b). Proof. apply vok_tret. Qed.
Lemma vok_fcall m : vtot m -> vok (fcall m). Proof. apply vok_on_vfp. Qed.
Lemma vok_p2 op q l rd rm : in_file q rd -> in_file q rm -> vok (on_vfp (neon_p2 op q l rd rm)).
Proof.
  intros Hd Hm r (Hu & Hf & Hw & Hc). unfold on_vfp.
  destruct (neon_p2_regs op q l rd rm (set_vcpu (core r) (vfp_of (rbus r))) Hd Hm Hw) as (regs & e' & E & Hv & Hl & H64 & Hx).
  rewrite E. eexists _, _. split; [reflexivity|]. rewrite Hv. cbn [vcpu set_vcpu].
  split; [split; [exact Hu|split; [exact Hf|split; [destruct Hw; split; assumption|exact Hc]]]|].
  split; [split; reflexivity|]. unfold fpexc. cbn [rbus set_rbus set_core]. rewrite vfp_get. exact Hx.
Qed.
#[local] Hint Resolve vok_e1 vok_e2 vok_e2_64 vok_f2 vok_h1 vok_h1_64 vok_h2 vok_h2_64 : vok.

(** ** Registers and loops *)
Lemma vok_nld r p : dreg r -> 0 <= p < 4 -> vok (neon_load_reg r p).
Proof. intros. apply vok_ld_vreg, neon_ok; assumption. Qed.
Lemma vok_nst r p v : dreg r -> 0 <= p < 4 -> vok (neon_store_reg r p v).
Proof. intros. apply vok_st_vreg, neon_ok; assumption. Qed.
Lemma vok_nld64 r : dreg r -> vok (neon_load_reg64 r).
Proof. intros Hr. apply vok_ld_vreg. exact Hr. Qed.
Lemma vok_nst64 v r : dreg r -> vok (neon_store_reg64 v r).
Proof. intros Hr. apply vok_st_vreg. exact Hr. Qed.
#[local] Hint Resolve vok_nld vok_nst vok_nld64 vok_nst64 vok_fcall : vok.
#[local] Hint Extern 1 (0 <= _ < 4) => lia : vok.
#[local] Hint Extern 1 (dreg _) => (unfold dreg in *; lia) : vok.

Lemma vok_each l f : (forall n, n ∈ l -> vok (f n)) -> vok (each l f).
Proof. intros Hf. apply vok_tfold. intros _ n Hn. apply Hf, Hn. Qed.
Lemma qpasses_range q n : n ∈ qpasses q -> 0 <= n < 4.
Proof. destruct q; cbn; rewrite !elem_of_cons, elem_of_nil; lia. Qed.
Lemma qregs_range q n : n ∈ qregs q -> 0 <= n <= (if q then 1 else 0).
Proof. destruct q; cbn; rewrite !elem_of_cons, elem_of_nil; lia. Qed.
Lemma pair_range n : n ∈ [0; 1] -> 0 <= n < 2.
Proof. rewrite !elem_of_cons, elem_of_nil. lia. Qed.
Lemma odd_lor a b : odd (Z.lor a b) = odd a || odd b.
Proof. apply Z.lor_spec. Qed.
Lemma even_dreg r : dreg r -> odd r = false -> 0 <= r < 31.
Proof.
  unfold dreg, odd, bit. intros Hr Ho. destruct (decide (r = 31)) as [->|]; [discriminate|lia].
Qed.
(** The alignment of quad registers. *)
Lemma aligned q r : dreg r -> q && odd r = false -> 0 <= r /\ r + (if q then 1 else 0) < 32.
Proof. intros Hr. destruct q; cbn; intros Ho; [pose proof (even_dreg r Hr Ho); lia|unfold dreg in Hr; lia]. Qed.
Lemma vok_require {B} b (k : unit -> T B) : (b = true -> vok (k tt)) -> vok (tbind (require b) k).
Proof. destruct b; intros Hk; [|apply vok_refused]. intros r Hr. exact (Hk eq_refl r Hr). Qed.

(** ** Building blocks *)
Lemma vok_by_size {A} size (b h w : T A) : 0 <= size < 3 -> vok b -> vok h -> vok w -> vok (by_size size b h w).
Proof. intros Hs Hb Hh Hw. unfold by_size. assert (size = 0 \/ size = 1 \/ size = 2) as [->|[->| ->]] by lia; assumption. Qed.
#[local] Hint Resolve vok_by_size : vok.
#[local] Hint Extern 1 (0 <= _ < 3) => lia : vok.
Lemma vok_int_op op size u a b : vok (gen_int_op op size u a b).
Proof. unfold gen_int_op. vok_auto. Qed.
Lemma vok_int_env op size u a b : vok (gen_int_op_env op size u a b).
Proof. unfold gen_int_op_env. vok_auto. Qed.
Lemma vok_neon_add size a b : 0 <= size < 3 -> vok (gen_neon_add size a b). Proof. unfold gen_neon_add. auto with vok. Qed.
Lemma vok_neon_sub size a b : 0 <= size < 3 -> vok (gen_neon_sub size a b). Proof. unfold gen_neon_sub. auto with vok. Qed.
Lemma vok_neon_mul size a b : 0 <= size < 3 -> vok (gen_neon_mul size a b). Proof. unfold gen_neon_mul. auto with vok. Qed.
Lemma vok_neon_rsb size a b : vok (gen_neon_rsb size a b). Proof. unfold gen_neon_rsb. vok_auto. Qed.
Lemma vok_scalar size r : dreg r -> vok (neon_get_scalar size r).
Proof.
  intros Hr. unfold neon_get_scalar, dreg in *.
  assert (0 <= Z.shiftr r 4 < 2) by (rewrite Z.shiftr_div_pow2 by lia; split; [apply Z.div_pos; lia|apply Z.div_lt_upper_bound; lia]).
  pose proof (mask_below r 7 ltac:(unfold dreg; lia)). pose proof (mask_below r 15 ltac:(unfold dreg; lia)). vok_auto.
Qed.
Lemma vok_perm op rd rm size q : 0 <= size < 3 -> in_file q rd -> in_file q rm -> vok (gen_neon_perm op rd rm size q).
Proof.
  intros Hs Hd Hm. unfold gen_neon_perm. apply vok_require. intros Hq. destruct q; cbn in Hq.
  - apply vok_by_size; [exact Hs|apply vok_p2; assumption..].
  - destruct (Z.eqb_spec size 0); [apply vok_p2; assumption|]. destruct (Z.eqb_spec size 1); [apply vok_p2; assumption|].
    destruct (Z.eqb_spec size 2); [discriminate|lia].
Qed.
Lemma vok_narrow_op o u size v : 0 <= size < 3 -> vok (gen_neon_narrow_op o u size v).
Proof.
  intros Hs. unfold gen_neon_narrow_op, gen_neon_unarrow_sats, gen_neon_narrow, gen_neon_narrow_satu, gen_neon_narrow_sats. vok_auto.
Qed.
Lemma vok_shift_narrow size v s q u : 1 <= size < 3 -> vok (gen_neon_shift_narrow size v s q u).
Proof.
  intros Hs. unfold gen_neon_shift_narrow. assert (size = 1 \/ size = 2) as [->| ->] by lia; apply vok_h2.
Qed.
Lemma vok_widen v size u : 0 <= size < 3 -> vok (gen_neon_widen v size u). Proof. unfold gen_neon_widen. auto with vok. Qed.
Lemma vok_addl size a b : 0 <= size < 3 -> vok (gen_neon_addl size a b). Proof. unfold gen_neon_addl. auto with vok. Qed.
Lemma vok_subl size a b : 0 <= size < 3 -> vok (gen_neon_subl size a b). Proof. unfold gen_neon_subl. auto with vok. Qed.
Lemma vok_negl v size : 0 <= size < 3 -> vok (gen_neon_negl v size). Proof. unfold gen_neon_negl. auto with vok. Qed.
Lemma vok_mull a b size u : 0 <= size < 3 -> vok (gen_neon_mull a b size u). Proof. unfold gen_neon_mull. auto with vok. Qed.
Lemma vok_addl_sat a b size : 1 <= size < 3 -> vok (gen_neon_addl_saturate a b size).
Proof. intros Hs. unfold gen_neon_addl_saturate. assert (size = 1 \/ size = 2) as [->| ->] by lia; apply vok_e2_64. Qed.
#[local] Hint Resolve vok_int_op vok_int_env vok_neon_add vok_neon_sub vok_neon_mul vok_neon_rsb vok_scalar vok_narrow_op vok_shift_narrow
  vok_widen vok_addl vok_subl vok_negl vok_mull vok_addl_sat : vok.
#[local] Hint Extern 1 (1 <= _ < 3) => lia : vok.

(** Conditionals on numbers keep their equations. *)
Ltac num_step := match goal with
  | |- vok (if ?a =? ?b then _ else _) => destruct (Z.eqb_spec a b)
  | |- vok (tbind (require _) _) => apply vok_require; intros ?
  | |- vok (fcall _) => apply vok_fcall; vtot_auto
  | _ => vok_step
  end.
Ltac num_auto := repeat num_step.

(** ** Three registers of the same length *)

(** What the table of sizes rules out. *)
Definition ok_3r (op size : Z) : bool :=
  ((op =? 3) || (size <? 3) || existsb (Z.eqb op) [1; 5; 8; 9; 10; 11; 16]) && negb ((op =? 22) && ((size =? 0) || (size =? 3))) &&
  negb ((25 <=? op) && ((size =? 1) || (size =? 3))) && negb (op =? 24).
Lemma sizes_3r : forallb (fun op => forallb (fun size =>
  negb (tst (nthz neon_3r_sizes op) (Z.shiftl 1 size)) || ok_3r op size) (seqZ 0 4)) (seqZ 0 32) = true.
Proof. vm_compute. reflexivity. Qed.
Lemma table_3r op size : 0 <= op < 32 -> 0 <= size < 4 -> tst (nthz neon_3r_sizes op) (Z.shiftl 1 size) = true -> ok_3r op size = true.
Proof.
  intros Ho Hs Ht. pose proof (all_below _ _ _ (all_below _ _ _ sizes_3r Ho) Hs) as F. cbn beta in F. rewrite Ht in F. exact F.
Qed.
Lemma vtot_add f a b p : vtot (vfp_add f a b p). Proof. apply vtot_call. Qed.
Lemma vtot_sub f a b p : vtot (vfp_sub f a b p). Proof. apply vtot_call. Qed.
Lemma vtot_mul f a b p : vtot (vfp_mul f a b p). Proof. apply vtot_call. Qed.
Lemma vtot_div f a b p : vtot (vfp_div f a b p). Proof. apply vtot_call. Qed.
Lemma vtot_muladd f a b c p : vtot (vfp_muladd f a b c p). Proof. apply vtot_call. Qed.
Lemma vtot_neg f a : vtot (vfp_neg f a). Proof. apply vtot_ret. Qed.
Lemma vtot_abs f a : vtot (vfp_abs f a). Proof. apply vtot_ret. Qed.
#[local] Hint Resolve vtot_add vtot_sub vtot_mul vtot_div vtot_muladd vtot_neg vtot_abs : vok.
Lemma vok_logic size u rd pass a b : dreg rd -> 0 <= pass < 4 -> vok (neon_logic size u rd pass a b).
Proof. intros. unfold neon_logic. vok_auto. Qed.
Lemma vok_mulh size u a b : 1 <= size < 3 -> vok (neon_mulh size u a b).
Proof. intros Hs. unfold neon_mulh. assert (size = 1 \/ size = 2) as [->| ->] by lia; apply vok_e2. Qed.
#[local] Hint Resolve vok_logic vok_mulh : vok.
Lemma vok_3r_float op size u rd pass a b : dreg rd -> 0 <= pass < 4 -> 25 <= op < 32 -> size = 0 \/ size = 2 ->
  vok (neon_3r_float op size u rd pass a b).
Proof.
  intros Hd Hp Ho Hs. unfold neon_3r_float, recps_f32, rsqrts_f32, step_special.
  unfold NEON_3R_FLOAT_ARITH, NEON_3R_FLOAT_MULTIPLY, NEON_3R_FLOAT_CMP, NEON_3R_FLOAT_ACMP, NEON_3R_FLOAT_MINMAX, NEON_3R_VRECPS_VRSQRTS, NEON_3R_VFM.
  num_auto; lia.
Qed.
Lemma vok_3r_op op size u rd pass a b : dreg rd -> 0 <= pass < 4 -> 0 <= op < 32 -> 0 <= size < 4 -> ok_3r op size = true ->
  size < 3 \/ op = 3 -> vok (neon_3r_op op size u rd pass a b).
Proof.
  intros Hd Hp Ho Hs Hk H3. unfold ok_3r in Hk.
  unfold neon_3r_op, NEON_3R_VHADD, NEON_3R_VQADD, NEON_3R_VRHADD, NEON_3R_LOGIC, NEON_3R_VHSUB, NEON_3R_VQSUB, NEON_3R_VCGT, NEON_3R_VCGE,
    NEON_3R_VSHL, NEON_3R_VQSHL, NEON_3R_VRSHL, NEON_3R_VQRSHL, NEON_3R_VMAX, NEON_3R_VMIN, NEON_3R_VABD, NEON_3R_VABA, NEON_3R_VADD_VSUB,
    NEON_3R_VTST_VCEQ, NEON_3R_VML, NEON_3R_VMUL, NEON_3R_VPMAX, NEON_3R_VPMIN, NEON_3R_VQDMULH_VQRDMULH, NEON_3R_VPADD.
  repeat (match goal with |- vok (if ?x =? ?y then _ else _) => destruct (Z.eqb_spec x y) end; [solve [vok_auto]|]).
  apply vok_3r_float; [assumption|assumption|lia|lia].
Qed.
Lemma vok_3r_64 op u a b : existsb (Z.eqb op) [1; 5; 8; 9; 10; 11; 16] = true -> vok (neon_3r_64 op u a b).
Proof.
  intros Ho. unfold neon_3r_64, NEON_3R_VQADD, NEON_3R_VQSUB, NEON_3R_VSHL, NEON_3R_VQSHL, NEON_3R_VRSHL, NEON_3R_VQRSHL, NEON_3R_VADD_VSUB.
  cbn in Ho. num_auto. lia.
Qed.
Lemma vok_3r_pairwise op size u : vok (neon_3r_pairwise op size u).
Proof. unfold neon_3r_pairwise. vok_auto. Qed.
Lemma vokp_3r_pass op size u pw rd rn rm acc pass : dreg rd -> dreg rn -> dreg rm -> 0 <= pass < 4 -> 0 <= op < 32 -> 0 <= size < 4 ->
  ok_3r op size = true -> size < 3 \/ op = 3 -> Forall (fun p => 0 <= p.1 < 4) acc ->
  vokp (neon_3r_pass op size u pw rd rn rm acc pass) (Forall (fun p => 0 <= p.1 < 4)).
Proof.
  intros Hd Hn Hm Hp Ho Hs Hk H3 Ha. unfold neon_3r_pass. assert (dreg (if pass <? 1 then rn else rm)) by (destruct (pass <? 1); assumption).
  apply vokp_step; [vok_auto|]. intros t1. apply vokp_step; [vok_auto|]. intros t2.
  apply vokp_step; [apply vok_3r_op; assumption|]. intros t. destruct (pw && (rd =? rm)).
  - apply vokp_tret, Forall_app. split; [exact Ha|]. repeat constructor; apply Hp.
  - apply vokp_step; [auto with vok|]. intros _. apply vokp_tret, Ha.
Qed.
Lemma vokp_tfold {A B} (l : list A) (body : B -> A -> T B) (P : B -> Prop) :
  (forall b a, P b -> a ∈ l -> vokp (body b a) P) -> forall acc, P acc -> vokp (tfold l body acc) P.
Proof.
  induction l as [|a l IHl]; intros Hb acc Ha; cbn [tfold]; [apply vokp_tret, Ha|].
  apply (vokp_bindp _ _ P); [apply Hb; [exact Ha|apply elem_of_cons; auto]|]. intros b Pb. apply IHl; [|exact Pb].
  intros; apply Hb; [assumption|apply elem_of_cons; auto].
Qed.
Lemma op5_range insn : 0 <= Z.lor (fld insn 7 0x1e) (fld insn 4 1) < 32.
Proof.
  apply (lor_below _ _ 5); [lia|apply mask_below; unfold dreg; lia|]. pose proof (fld_range insn 4 1 ltac:(lia)) as H.
  change (Z.ones 1) with 1 in H. lia.
Qed.
Lemma fld_two insn k : 0 <= fld insn k 3 < 4.
Proof. pose proof (fld_range insn k 2 ltac:(lia)) as H. change (Z.ones 2) with 3 in H. lia. Qed.
(** The alignment test on three registers. *)
Lemma aligned3 q a b c : dreg a -> dreg b -> dreg c -> negb (q && odd (Z.lor (Z.lor a b) c)) = true -> in_file q a /\ in_file q b /\ in_file q c.
Proof.
  intros Ha Hb Hc H. rewrite !odd_lor in H. apply negb_true_iff in H. split; [|split]; apply aligned; try assumption; destruct q, (odd a), (odd b), (odd c); cbn in *; congruence.
Qed.
Lemma aligned2 q a b : dreg a -> dreg b -> negb (q && odd (Z.lor a b)) = true -> in_file q a /\ in_file q b.
Proof.
  intros Ha Hb H. rewrite !odd_lor in H. apply negb_true_iff in H. split; apply aligned; try assumption; destruct q, (odd a), (odd b); cbn in *; congruence.
Qed.
Lemma vok_3r_passes op size q u pw rd rn rm : dreg rd -> dreg rn -> dreg rm -> 0 <= op < 32 -> 0 <= size < 4 -> ok_3r op size = true ->
  size < 3 \/ op = 3 ->
  vok (let* scratch := tfold (qpasses q) (neon_3r_pass op size u pw rd rn rm) [] in tfold scratch (fun _ (p : Z * Z) => neon_store_reg rd p.1 p.2) tt).
Proof.
  intros Hd Hn Hm Ho Hs Hk H3. eapply vokp_bind; [apply (vokp_tfold _ _ (Forall (fun p => 0 <= p.1 < 4)))|]; [|apply Forall_nil_2|].
  - intros acc p Ha Hp%qpasses_range. apply vokp_3r_pass; assumption.
  - intros l Hl. apply vok_tfold. intros _ p Hp. rewrite Forall_forall in Hl. specialize (Hl p Hp). auto with vok.
Qed.
Lemma vok_3r insn q u rd rn rm size : dreg rd -> dreg rn -> dreg rm -> 0 <= size < 4 -> vok (neon_3r insn q u rd rn rm size).
Proof.
  intros Hd Hn Hm Hs. unfold neon_3r. cbn zeta. generalize (op5_range insn). generalize (Z.lor (fld insn 7 0x1e) (fld insn 4 1)). intros op Ho.
  apply vok_require. intros Ht. apply (table_3r op size Ho Hs) in Ht. apply vok_require. intros Hq. destruct (aligned3 q rd rn rm Hd Hn Hm Hq) as (Qd & Qn & Qm).
  destruct ((size =? 3) && negb (op =? NEON_3R_LOGIC)) eqn:E64.
  - apply andb_prop in E64 as [->%Z.eqb_eq E3%negb_true_iff].
    assert (H64 : existsb (Z.eqb op) [1; 5; 8; 9; 10; 11; 16] = true)
      by (unfold ok_3r in Ht; change (op =? 3) with (op =? NEON_3R_LOGIC) in Ht; rewrite E3 in Ht; destruct (existsb _ _); [reflexivity|discriminate]).
    pose proof (fun a b => vok_3r_64 op u a b H64). unfold in_file in *. apply vok_each. intros p Hp%qregs_range. vok_auto.
  - apply vok_bind; [apply vok_3r_pairwise|]. intros pw. apply vok_require. intros _. unfold NEON_3R_LOGIC in E64.
    apply vok_3r_passes; try assumption; [destruct (_ || _); assumption..|lia].
Qed.

(** ** Shifts and immediates *)
Lemma vok_shift64 op shift imm u rd rm pass : dreg (rd + pass) -> dreg (rm + pass) -> vok (neon_shift64 op shift imm u rd rm pass).
Proof. intros Hd Hm. unfold neon_shift64. vok_auto. Qed.
Lemma vok_shift32 op size shift imm u rd rm pass : dreg rd -> dreg rm -> 0 <= pass < 4 -> 0 <= size < 3 -> vok (neon_shift32 op size shift imm u rd rm pass).
Proof. intros Hd Hm Hp Hs. unfold neon_shift32. vok_auto. Qed.
Lemma vok_shift_imm op size shift q u rd rm : dreg rd -> dreg rm -> 0 <= size < 4 -> vok (neon_shift_imm op size shift q u rd rm).
Proof.
  intros Hd Hm Hs. unfold neon_shift_imm. apply vok_require. intros Hq. destruct (aligned2 q rd rm Hd Hm Hq) as (Qd & Qm).
  apply vok_require. intros _. cbn zeta. unfold in_file in *. destruct (Z.eqb_spec size 3); apply vok_each.
  - intros p Hp%qregs_range. apply vok_shift64; unfold dreg; lia.
  - intros p Hp%qpasses_range. apply vok_shift32; assumption || lia.
Qed.
Lemma vok_shiftn op size shift q u rd rm : dreg rd -> dreg rm -> 0 <= size < 3 -> vok (neon_shift_narrow op size shift q u rd rm).
Proof.
  intros Hd Hm Hs. unfold neon_shift_narrow. apply vok_require. intros Ho%negb_true_iff. pose proof (even_dreg rm Hm Ho). cbn zeta.
  replace (size + 1 - 1) with size by lia. destruct (Z.eqb_spec (size + 1) 3).
  - do 2 (apply vok_bind; [auto with vok|]; intros ?). apply vok_each. intros p Hp%pair_range. vok_auto.
  - do 2 (apply vok_bind; [auto with vok|]; intros ?). apply vok_each. intros p Hp%pair_range. vok_auto.
Qed.
Lemma vok_shll size shift q u rd rm : dreg rd -> dreg rm -> 0 <= size < 3 -> vok (neon_shll size shift q u rd rm).
Proof.
  intros Hd Hm Hs. unfold neon_shll. apply vok_require. intros Ho. apply negb_true_iff, orb_false_elim in Ho as [_ Ho]. pose proof (even_dreg rd Hd Ho).
  do 2 (apply vok_bind; [auto with vok|]; intros ?). apply vok_each. intros p Hp%pair_range. vok_auto.
Qed.
Lemma vok_vcvt_fixed insn op shift q u rd rm : dreg rd -> dreg rm -> 0 <= shift < 64 -> vok (neon_vcvt_fixed insn op shift q u rd rm).
Proof.
  intros Hd Hm Hs. unfold neon_vcvt_fixed. apply vok_require. intros _. cbn zeta. apply vok_each. intros p Hp%qpasses_range.
  apply vok_bind; [auto with vok|]. intros x. apply vok_bind; [|auto with vok]. apply vok_fcall.
  unfold conv_fix_to_float, conv_float_to_fix. rewrite s32_small by lia. rewrite (proj2 (Z.eqb_neq (32 - shift) (- 2 ^ 31))) by lia. vtot_auto.
Qed.
Lemma vok_two_shift insn q u rd rm : dreg rd -> dreg rm -> vok (neon_two_shift insn q u rd rm).
Proof.
  intros Hd Hm. unfold neon_two_shift. cbn zeta. apply vok_require. intros H7.
  assert (H2 : 0 <= shift_size insn < 3) by (unfold shift_size; destruct (bit insn 21), (bit insn 20); lia).
  destruct (bit insn 7).
  - destruct (Z.ltb_spec (fld insn 8 0xf) 8); [|cbn in H7; lia]. apply vok_shift_imm; assumption || lia.
  - assert (Hf : 0 <= fld insn 16 (Z.shiftl 1 (3 + shift_size insn) - 1) < 64).
    { rewrite Z.shiftl_1_l. pose proof (fld_range insn 16 (3 + shift_size insn) ltac:(lia)) as Hf. rewrite Z.ones_equiv, <- Z.sub_1_r in Hf.
      assert (2 ^ (3 + shift_size insn) <= 2 ^ 6) by (apply Z.pow_le_mono_r; lia). lia. }
    destruct (_ <? 8); [apply vok_shift_imm; assumption || lia|]. destruct (_ <? 10); [apply vok_shiftn; assumption|].
    destruct (_ =? 10); [apply vok_shll; assumption|]. destruct (14 <=? _); [apply vok_vcvt_fixed; assumption|apply vok_illegal].
Qed.
Lemma vok_one_imm insn q u rd : dreg rd -> vok (neon_one_imm insn q u rd).
Proof.
  intros Hd. unfold neon_one_imm. cbn zeta. apply vok_require. intros _. apply vok_require. intros _.
  apply vok_each. intros p Hp%qpasses_range. vok_auto.
Qed.

(** ** Different lengths, scalars, extraction *)
Lemma vok_wide_operand w pre sc r pass saved size u : dreg r -> 0 <= pass < 2 -> (w = true -> r < 31) -> 0 <= size < 3 ->
  vok (wide_operand w pre sc r pass saved size u).
Proof. intros Hr Hp Hw Hs. unfold wide_operand. destruct w; [specialize (Hw eq_refl)|clear Hw]; vok_auto. Qed.
Lemma vok_sat_acc ng size a b : 1 <= size < 3 -> vok (neon_sat_acc ng size a b).
Proof. intros Hs. unfold neon_sat_acc. vok_auto. Qed.
#[local] Hint Resolve vok_sat_acc : vok.
Lemma vok_narrow_high size u v : 0 <= size < 3 -> vok (neon_narrow_high size u v).
Proof. intros Hs. unfold neon_narrow_high. vok_auto. Qed.
#[local] Hint Resolve vok_narrow_high : vok.

(** The refusals of the table by operation. *)
Definition ok_wide (op size : Z) : bool := negb (op =? 15) && negb (((op =? 9) || (op =? 11) || (op =? 13)) && (size =? 0)).
Lemma vok_wide_op op size u a b v0 v1 : 0 <= op < 16 -> 0 <= size < 3 -> ok_wide op size = true -> vok (neon_wide_op op size u a b v0 v1).
Proof.
  intros Ho Hs Hk. revert Hk. nibble op; [..|exact Ho]; intros Hk; unfold neon_wide_op; first [discriminate|auto with vok].
Qed.
Lemma vok_acc op size a b : (op =? 5) || ((8 <=? op) && (op <=? 11)) = true -> 0 <= size < 3 -> ok_wide op size = true -> vok (neon_acc op size a b).
Proof.
  intros Ho Hs Hk. unfold ok_wide in Hk. assert (op = 5 \/ op = 8 \/ op = 9 \/ op = 10 \/ op = 11) as [->|[->|[->|[->| ->]]]] by lia; unfold neon_acc; vok_auto.
Qed.
(** The destination of the operations whose result is wide. *)
Definition narrowing (op : Z) : bool := (op =? 4) || (op =? 6).
Lemma vok_wide_pass op size u pre w1 w2 rd rn rm saved t pass : dreg rd -> dreg rn -> dreg rm -> 0 <= pass < 2 -> 0 <= op < 16 -> 0 <= size < 3 ->
  ok_wide op size = true -> (w1 = true -> rn < 31) -> (w2 = true -> rm < 31) -> (narrowing op = false -> rd < 31) ->
  vok (neon_wide_pass op size u pre w1 w2 rd rn rm saved t pass).
Proof.
  intros Hd Hn Hm Hp Ho Hs Hk H1 H2 Hr. unfold neon_wide_pass, narrowing in *.
  apply vok_bind; [apply vok_wide_operand; assumption|]. intros [t1 v0]. apply vok_bind; [apply vok_wide_operand; assumption|]. intros [t2 v1].
  apply vok_bind; [apply vok_wide_op; assumption|]. intros v. destruct (Z.eqb_spec op 13) as [->|N13].
  { specialize (Hr eq_refl). unfold ok_wide in Hk. vok_auto. }
  destruct ((op =? 5) || ((8 <=? op) && (op <=? 11))) eqn:Ea.
  { assert (Hr' : rd < 31) by (apply Hr; lia). apply vok_bind; [auto with vok|]. intros x.
    apply vok_bind; [apply vok_acc; assumption|]. intros y. vok_auto. }
  destruct ((op =? 4) || (op =? 6)); [|specialize (Hr eq_refl)]; vok_auto.
Qed.
Lemma vok_wide insn size u rd rn rm : dreg rd -> dreg rn -> dreg rm -> 0 <= size < 3 -> vok (neon_wide insn size u rd rn rm).
Proof.
  intros Hd Hn Hm Hs. unfold neon_wide. cbn zeta. generalize (fld4 insn 8). generalize (fld insn 8 0xf). intros op Ho.
  assert (Ht : exists pre w1 w2 un, znth neon_3reg_wide op = Some (pre, w1, w2, un) /\ (w2 = narrowing op) /\
    (negb ((bit un 0 && negb (size =? 0)) || (bit un 1 && (size =? 0)) || (bit un 2 && u)) = true -> ok_wide op size = true)).
  { nibble op; [..|exact Ho]; eexists _, _, _, _; (split; [reflexivity|split; [reflexivity|]]);
      unfold ok_wide, bit; destruct (size =? 0); vm_compute; auto. }
  destruct Ht as (pre & w1 & w2 & un & -> & Hw & Hk). apply vok_require. intros Hu. apply vok_require. intros Ha.
  assert (Hodd : (w1 = true -> rn < 31) /\ (w2 = true -> rm < 31) /\ (narrowing op = false -> rd < 31)).
  { rewrite <- Hw. pose proof (even_dreg rn Hn). pose proof (even_dreg rm Hm). pose proof (even_dreg rd Hd).
    destruct w1, w2, (odd rn), (odd rm), (odd rd); cbn in Ha; try discriminate; split_and!; intros; try discriminate; lia. }
  destruct Hodd as (H1 & H2 & H3). apply vok_bind; [vok_auto|]. intros saved. apply vok_bind; [|intros _; apply vok_tret].
  apply vok_tfold. intros t p Hp%pair_range. apply vok_wide_pass; auto.
Qed.
Lemma vok_scalar_op op size rd pass a b : dreg rd -> 0 <= pass < 4 -> op ∈ [0; 1; 4; 5; 8; 9; 12; 13] -> 1 <= size < 3 ->
  vok (neon_scalar_op op size rd pass a b).
Proof.
  intros Hd Hp Ho Hs. unfold neon_scalar_op. rewrite !elem_of_cons, elem_of_nil in Ho.
  repeat destruct Ho as [->|Ho]; [..|destruct Ho]; cbn [Z.eqb Pos.eqb Z.ltb Z.compare Pos.compare Pos.compare_cont]; num_auto.
Qed.
Lemma vok_scalar_long op size a b : op ∈ [2; 3; 6; 7; 10; 11] -> 1 <= size < 3 -> vok (neon_scalar_long op size a b).
Proof.
  intros Ho Hs. unfold neon_scalar_long. rewrite !elem_of_cons, elem_of_nil in Ho. repeat destruct Ho as [->|Ho]; [..|destruct Ho]; vok_auto.
Qed.
Lemma vok_neon_scalar insn size u rd rn rm : dreg rd -> dreg rn -> dreg rm -> 0 <= size < 3 -> vok (neon_scalar insn size u rd rn rm).
Proof.
  intros Hd Hn Hm Hs. unfold neon_scalar. cbn zeta. apply vok_require. intros H0%negb_true_iff%Z.eqb_neq.
  generalize (fld4 insn 8). generalize (fld insn 8 0xf). intros op Ho. nibble op; [..|exact Ho]; try apply vok_illegal.
  all: apply vok_require; intros _; apply vok_require; intros Ha; apply vok_bind; [auto with vok|]; intros sc.
  all: try (apply vok_each; intros p Hp%qpasses_range; apply vok_bind; [auto with vok|]; intros t2; apply vok_bind; [|auto with vok];
    apply vok_scalar_op; [assumption|assumption|rewrite !elem_of_cons; auto 10|lia]).
  all: apply negb_true_iff in Ha; pose proof (even_dreg rd Hd Ha); apply vok_bind; [auto with vok|]; intros t3; apply vok_each; intros p Hp%pair_range.
  all: apply vok_bind; [vok_auto|]; intros t; apply vok_bind; [auto with vok|]; intros v0; apply vok_bind; [vok_auto|]; intros v1;
    apply vok_bind; [apply vok_scalar_long; [rewrite !elem_of_cons; auto 10|lia]|auto with vok].
Qed.
Lemma vok_vext insn q rd rn rm : dreg rd -> dreg rn -> dreg rm -> vok (neon_vext insn q rd rn rm).
Proof.
  intros Hd Hn Hm. unfold neon_vext. cbn zeta. apply vok_require. intros H8. apply vok_require. intros Hq.
  destruct (aligned3 q rd rn rm Hd Hn Hm Hq) as (Qd & Qn & Qm). unfold in_file in *.
  apply vok_bind; [|intros [v0 v1]; destruct q; vok_auto].
  destruct (fld insn 8 0xf =? 0); [destruct q; vok_auto|]. destruct (Z.eqb_spec (fld insn 8 0xf) 8) as [E8|].
  { rewrite E8 in H8. destruct q; [vok_auto|discriminate]. }
  destruct q; [destruct (fld insn 8 0xf <? 8)|]; vok_auto.
Qed.

(** ** Two registers *)
Definition ok_2rm (op size : Z) : bool :=
  (size <? 3) && negb ((op =? 1) && (size =? 2)) &&
  existsb (Z.eqb op) [0; 1; 2; 4; 5; 8; 9; 10; 11; 12; 13; 14; 15; 16; 17; 18; 19; 20; 22; 23; 24; 25; 26; 27; 28; 30; 31; 32; 33; 34; 35; 36; 37; 38;
                      44; 46; 56; 57; 58; 59; 60; 61; 62; 63].
Lemma sizes_2rm : forallb (fun op => forallb (fun size =>
  negb (tst (nthz neon_2rm_sizes op) (Z.shiftl 1 size)) || ok_2rm op size) (seqZ 0 4)) (seqZ 0 64) = true.
Proof. vm_compute. reflexivity. Qed.
Lemma table_2rm op size : 0 <= op < 64 -> 0 <= size < 4 -> tst (nthz neon_2rm_sizes op) (Z.shiftl 1 size) = true -> ok_2rm op size = true.
Proof.
  intros Ho Hs Ht. pose proof (all_below _ _ _ (all_below _ _ _ sizes_2rm Ho) Hs) as F. cbn beta in F. rewrite Ht in F. exact F.
Qed.
Lemma op6_range insn : 0 <= Z.lor (fld insn 12 0x30) (fld insn 7 0xf) < 64.
Proof.
  apply (lor_below _ _ 6); [lia| |pose proof (fld4 insn 7); lia]. unfold fld. rewrite Z.land_comm. apply land_below; lia.
Qed.
(** The estimates, on their copy of the status. *)
Definition ltot {A} (m : M float_status A) : Prop := forall s, exists a s', m s = Done (a, s').
Lemma ltot_call fn args : ltot (local_call fn args).
Proof. intros s. unfold local_call. destruct (sf_run fn args s) as [v s']. eauto. Qed.
Lemma ltot_bind {A B} (m : M float_status A) (k : A -> M float_status B) : ltot m -> (forall a, ltot (k a)) -> ltot (bind m k).
Proof. intros Hm Hk s. destruct (Hm s) as (a & s1 & E). rewrite (bind_run _ _ _ _ _ E). apply Hk. Qed.
Lemma vtot_copy {A} (m : M float_status A) : ltot m -> vtot (with_copy m).
Proof. intros Hm e. unfold with_copy. destruct (Hm (standard_fp_status e)) as (a & s & ->). exists a, e. auto. Qed.
Ltac ltot_auto := repeat first [apply ltot_bind; [|intros ?] | apply ltot_call | match goal with |- ltot (if ?b then _ else _) => destruct b end].
Lemma vtot_recip a : vtot (recip_estimate a).
Proof. apply vtot_copy. unfold recip_estimate_local. ltot_auto. Qed.
Lemma vtot_rsqrt a : vtot (recip_sqrt_estimate a).
Proof. apply vtot_copy. unfold recip_sqrt_estimate_local, sqrt_branch. ltot_auto. Qed.
#[local] Hint Resolve vtot_recip vtot_rsqrt : vok.
Lemma vtot_estimates a : vtot (recpe_f32 a) /\ vtot (rsqrte_f32 a) /\ vtot (recpe_u32 a) /\ vtot (rsqrte_u32 a).
Proof. split_and!; unfold recpe_f32, rsqrte_f32, recpe_u32, rsqrte_u32, est_nan, est_zero; cbn zeta; vtot_auto. Qed.

Lemma vok_rev size a : 0 <= size < 2 -> vok (neon_rev size a).
Proof. intros Hs. unfold neon_rev. num_auto. lia. Qed.
Lemma vok_vrev64 size q rd rm : dreg rd -> dreg rm -> 0 <= size < 3 -> vok (neon_vrev64 size q rd rm).
Proof.
  intros Hd Hm Hs. apply vok_each. intros p Hp%qregs_range. assert (0 <= p < 2) by (destruct q; lia).
  do 2 (apply vok_bind; [auto with vok|]; intros ?). apply vok_bind; [num_auto; apply vok_rev; lia|]. intros x. apply vok_bind; [auto with vok|].
  intros _. apply vok_bind; [num_auto; apply vok_rev; lia|]. auto with vok.
Qed.
Lemma vok_vpaddl op size q rd rm : dreg rm -> in_file q rd -> 0 <= size < 3 -> vok (neon_vpaddl op size q rd rm).
Proof.
  intros Hm Hd Hs. unfold in_file in *. apply vok_each. intros p Hp%qregs_range. assert (0 <= p < 2) by (destruct q; lia). vok_auto.
Qed.
Lemma vok_vtrn32 q rd rm : dreg rd -> dreg rm -> vok (neon_vtrn32 q rd rm).
Proof.
  intros Hd Hm. apply vok_each. intros p Hp. assert (0 <= p < 3) by (destruct q; rewrite !elem_of_cons, elem_of_nil in Hp; lia). vok_auto.
Qed.
Lemma vok_vmovn op size q rd rm : dreg rd -> dreg rm -> 0 <= size < 3 -> vok (neon_vmovn op size q rd rm).
Proof.
  intros Hd Hm Hs. unfold neon_vmovn. apply vok_require. intros Ho%negb_true_iff. pose proof (even_dreg rm Hm Ho). vok_auto.
Qed.
Lemma vok_2rm_vshll size q rd rm : dreg rd -> dreg rm -> 0 <= size < 3 -> vok (neon_2rm_vshll size q rd rm).
Proof.
  intros Hd Hm Hs. unfold neon_2rm_vshll. apply vok_require. intros Ho. apply negb_true_iff, orb_false_elim in Ho as [_ Ho]. pose proof (even_dreg rd Hd Ho).
  do 2 (apply vok_bind; [auto with vok|]; intros ?). apply vok_each. intros p Hp%pair_range. vok_auto.
Qed.
Lemma vok_vcvt16 q rd rm : dreg rd -> dreg rm -> vok (neon_vcvt_f16_f32 q rd rm) /\ vok (neon_vcvt_f32_f16 q rd rm).
Proof.
  intros Hd Hm. unfold neon_vcvt_f16_f32, neon_vcvt_f32_f16, neon_fcvt_f32_to_f16, neon_fcvt_f16_to_f32, do_fcvt_f32_to_f16, do_fcvt_f16_to_f32.
  split; cbn zeta; num_auto.
Qed.
Lemma vok_cmp0 o size a i : 0 <= size < 3 -> vok (neon_cmp0 o size a i).
Proof. intros Hs. unfold neon_cmp0. vok_auto. Qed.
#[local] Hint Resolve vok_cmp0 vok_rev : vok.
#[local] Hint Extern 1 (0 <= _ < 2) => lia : vok.
Definition elementwise (op : Z) : bool := existsb (Z.eqb op)
  [1; 2; 8; 9; 10; 11; 14; 15; 16; 17; 18; 19; 20; 22; 23; 24; 25; 26; 27; 28; 30; 31; 32; 33; 56; 57; 58; 59; 60; 61; 62; 63].
Lemma vok_2rm_op op size rd rm pass a : dreg rd -> dreg rm -> 0 <= pass < 4 -> 0 <= size < 3 -> (op = 1 \/ op = 33 -> size < 2) ->
  elementwise op = true -> vok (neon_2rm_op op size rd rm pass a).
Proof.
  intros Hd Hm Hp Hs H2 He. destruct (vtot_estimates a) as (E1 & E2 & E3 & E4).
  unfold neon_2rm_op, NEON_2RM_VREV32, NEON_2RM_VREV16, NEON_2RM_VCLS, NEON_2RM_VCLZ, NEON_2RM_VCNT, NEON_2RM_VMVN, NEON_2RM_VQABS, NEON_2RM_VQNEG,
    NEON_2RM_VCGT0, NEON_2RM_VCLE0, NEON_2RM_VCGE0, NEON_2RM_VCLT0, NEON_2RM_VCEQ0, NEON_2RM_VABS, NEON_2RM_VNEG, NEON_2RM_VCGT0_F, NEON_2RM_VCGE0_F,
    NEON_2RM_VCEQ0_F, NEON_2RM_VCLE0_F, NEON_2RM_VCLT0_F, NEON_2RM_VABS_F, NEON_2RM_VNEG_F, NEON_2RM_VSWP, NEON_2RM_VTRN, NEON_2RM_VRECPE,
    NEON_2RM_VRSQRTE, NEON_2RM_VRECPE_F, NEON_2RM_VRSQRTE_F, NEON_2RM_VCVT_FS, NEON_2RM_VCVT_FU, NEON_2RM_VCVT_SF, NEON_2RM_VCVT_UF, conv_itof, conv_ftoi.
  num_auto; [lia|]. unfold elementwise in He. cbn in He. lia.
Qed.
Lemma vok_2rm insn q rd rm : dreg rd -> dreg rm -> vok (neon_2rm insn q rd rm).
Proof.
  intros Hd Hm. unfold neon_2rm. cbn zeta. generalize (op6_range insn) (fld_two insn 18).
  generalize (Z.lor (fld insn 12 0x30) (fld insn 7 0xf)) (fld insn 18 3). intros op size Ho Hs.
  apply vok_require. intros Ht%table_2rm; [|assumption..]. unfold ok_2rm in Ht. apply andb_prop in Ht as [Hz Hl]. apply vok_require. intros Ha.
  assert (Hs3 : 0 <= size < 3) by lia.
  assert (Hq : op <> NEON_2RM_VMOVN -> op <> NEON_2RM_VQMOVN -> in_file q rm /\ in_file q rd).
  { intros N1%Z.eqb_neq N2%Z.eqb_neq. rewrite N1, N2 in Ha. apply aligned2; assumption. }
  unfold NEON_2RM_VREV64, NEON_2RM_VPADDL, NEON_2RM_VPADDL_U, NEON_2RM_VPADAL, NEON_2RM_VPADAL_U, NEON_2RM_VTRN, NEON_2RM_VUZP, NEON_2RM_VZIP,
    NEON_2RM_VMOVN, NEON_2RM_VQMOVN, NEON_2RM_VSHLL, NEON_2RM_VCVT_F16_F32, NEON_2RM_VCVT_F32_F16 in *.
  destruct (Z.eqb_spec op 0); [apply vok_vrev64; assumption|].
  destruct ((op =? 4) || (op =? 5) || (op =? 12) || (op =? 13)) eqn:E1; [apply vok_vpaddl; [assumption|apply Hq; lia|assumption]|].
  destruct ((op =? 33) && (size =? 2)) eqn:E2; [apply vok_vtrn32; assumption|].
  destruct (Z.eqb_spec op 34); [apply vok_perm; [assumption|apply Hq; lia..]|].
  destruct (Z.eqb_spec op 35); [apply vok_perm; [assumption|apply Hq; lia..]|].
  destruct ((op =? 36) || (op =? 37)) eqn:E3; [apply vok_vmovn; assumption|].
  destruct (Z.eqb_spec op 38); [apply vok_2rm_vshll; assumption|]. destruct (vok_vcvt16 q rd rm Hd Hm) as [C1 C2].
  destruct (Z.eqb_spec op 44); [exact C1|]. destruct (Z.eqb_spec op 46); [exact C2|].
  assert (He : elementwise op = true) by (unfold elementwise; cbn in Hl |- *; lia).
  apply vok_each. intros p Hp%qpasses_range. apply vok_bind; [auto with vok|]. intros t. apply vok_bind; [|auto with vok].
  apply vok_2rm_op; try assumption. lia.
Qed.

(** ** Table lookup, duplication, and the decoder *)
Lemma core_ok_tbl ireg def rn n : 0 <= rn -> rn + (n - 1) / 8 < 32 -> core_ok (neon_tbl ireg def rn n).
Proof.
  intros Hr Hn c Hc. eexists _, c. split; [apply neon_tbl_correct; [apply Hc|assumption..]|]. split; [exact Hc|reflexivity].
Qed.
Lemma vok_vtbl insn rd rn rm : dreg rd -> dreg rn -> dreg rm -> vok (neon_vtbl insn rd rn rm).
Proof.
  intros Hd Hn Hm. unfold neon_vtbl. cbn zeta. apply vok_require. intros H32. pose proof (fld_two insn 8).
  assert (Ht : forall i d, core_ok (neon_tbl i d rn (Z.shiftl (fld insn 8 3 + 1) 3))).
  { intros i d. apply core_ok_tbl; [unfold dreg in Hn; lia|]. rewrite Z.shiftl_mul_pow2 by lia. rewrite <- (Z.div_unique _ 8 (fld insn 8 3) 7); lia. }
  assert (Hk : forall i d, vok (on_core (neon_tbl i d rn (Z.shiftl (fld insn 8 3 + 1) 3)))) by (intros; apply vok_on_core, Ht). vok_auto.
Qed.
Lemma vok_vdup insn q rd rm : dreg rd -> dreg rm -> vok (neon_vdup insn q rd rm).
Proof.
  intros Hd Hm. unfold neon_vdup. apply vok_require. intros _. apply vok_bind; [destruct (bit insn 19); auto with vok|]. intros t. cbn zeta.
  apply vok_each. intros p Hp%qpasses_range. auto with vok.
Qed.
Lemma vok_neon_data insn : vok (disas_neon_data_insn insn).
Proof.
  unfold disas_neon_data_insn. cbn zeta. apply vok_bind; [apply vok_get_dc|]. intros d. apply vok_require. intros _.
  eapply vokp_bind; [apply vokp_DREG|]. intros rd Hd. eapply vokp_bind; [apply vokp_DREG|]. intros rn Hn. eapply vokp_bind; [apply vokp_DREG|]. intros rm Hm.
  pose proof (fld_two insn 20) as Hs. destruct (negb (bit insn 23)); [apply vok_3r; assumption|].
  destruct (bit insn 4); [destruct (tst _ _); [apply vok_two_shift; assumption|apply vok_one_imm; assumption]|].
  destruct (Z.eqb_spec (fld insn 20 3) 3); cbn [negb].
  - destruct (negb (bit insn 24)); [apply vok_vext; assumption|]. destruct (negb (bit insn 11)); [apply vok_2rm; assumption|].
    destruct (negb (bit insn 10)); [apply vok_vtbl; assumption|]. destruct (_ =? 0); [apply vok_vdup; assumption|apply vok_illegal].
  - destruct (negb (bit insn 6)); [apply vok_wide|apply vok_neon_scalar]; assumption || lia.
Qed.
End NeonUser.
