(* ===== verification/TransNeonSpec.v ===== *)
(** * NEON: the machine with a NEON unit, extraction and constants

    The NEON decoders as the code of a guest's instruction space; VEXT
    against the bit string it extracts from; the expansion of immediate
    constants against the architecture's table. *)
From stdpp Require Import base list.
From S2P Require Import Prelude Double ArmTable State CpuState Errors OpHelper CpuMode Sys V7m Dsp Softfloat Vfp Tcg TransGen TransArm.
From S2P Require Import TransThumb2 TransThumb TransUser TransBeside TransConfined TransDp TransRam TransVfp TransNeonLs TransVfpUser TransVfpRam.
From S2P Require Import TransNeon TransNeonData TransNeonUser.
Open Scope Z_scope.

(** ** The machine *)
Section NeonMachine.
Context (G0 : Guest) {SF : Softfloat} {HO : HostOps} {NH : NeonHelpers}.

(** The machine of [TransVfpUser] with NEON data processing. *)
#[export] Instance machine_vfp : @VfpBus (vfp_machine G0) SF := {|
  vfp_of := fun b : @bus (vfp_machine G0) => @vfp_of _ _ (vbase_vfp G0) b; with_vfp := fun e b => @with_vfp _ _ (vbase_vfp G0) e b |}.
Definition neon_machine : Guest :=
  override (vfp_machine G0) (fun sp => match sp with NeonData => Some disas_neon_data_insn | _ => None end).

Context {GL : @GuestLaws G0} {NL : NeonLaws}.
#[export] Instance machine_vfp_laws : @VfpBusLaws (vfp_machine G0) SF machine_vfp.
Proof. split; [reflexivity|exact (beside_ld vfp_env G0)|exact (beside_st vfp_env G0)]. Qed.
#[export] Instance neon_machine_laws : @GuestLaws neon_machine.
Proof.
  apply override_laws; [exact (vfp_machine_laws G0)|]. intros [] m insn [= <-].
  intros r Hr.
  destruct (vok_neon_data insn r Hr) as (f & r' & E & I & K & _). exists f, r'. auto.
Qed.

(** C33. User-mode NEON data processing is confined: every instruction word runs
    to a defined end, well-formed states stay well-formed, and neither
    privileged processor state nor the enable register FPEXC changes. *)
Theorem user_neon_confined insn (r : @rt (vbase G0)) : uinv r -> exists f r', disas_neon_data_insn insn r = Done (f, r') /\
  uinv r' /\ ukeep (core r) (core r') /\ nthz (xregs (rbus r').1) ARM_VFP_FPEXC = nthz (xregs (rbus r).1) ARM_VFP_FPEXC.
Proof. intros Hr. exact (vok_neon_data insn r Hr). Qed.
End NeonMachine.

(** ** Extraction *)

(** Bit [k] of registers one after the other. *)
Definition cat_bit (l : list Z) (k : Z) : bool := Z.testbit (nthz l (k / 64)) (k mod 64).
(** 64 bits from bit [n] of [a] followed by [b]. *)
Lemma window_bit a b n k : is_u64 a -> 0 < n < 64 -> 0 <= k < 64 ->
  Z.testbit (Z.lor (Z.shiftr a n) (shl64 b (64 - n))) k = if k + n <? 64 then Z.testbit a (k + n) else Z.testbit b (k + n - 64).
Proof.
  intros Ha Hn Hk. rewrite Z.lor_spec, Z.shiftr_spec by lia. unfold shl64, u64. rewrite Z.mod_pow2_bits_low, Z.shiftl_spec by lia.
  replace (k - (64 - n)) with (k + n - 64) by lia. destruct (Z.ltb_spec (k + n) 64).
  - rewrite (Z.testbit_neg_r b) by lia. apply orb_false_r.
  - rewrite (testbit_above a 64) by (unfold is_u64 in Ha; lia). reflexivity.
Qed.
(** The 64 bits of [l] from bit [n] of register [j] on. *)
Definition window (l : list Z) (j n : Z) : Z :=
  if n =? 0 then nthz l j else Z.lor (Z.shiftr (nthz l j) n) (shl64 (nthz l (j + 1)) (64 - n)).
Lemma window_cat l j n k : Forall is_u64 l -> 0 <= j < Z.of_nat (length l) -> 0 <= n < 64 -> 0 <= k < 64 ->
  Z.testbit (window l j n) k = cat_bit l (64 * j + k + n).
Proof.
  intros Hl Hj Hn Hk. unfold window, cat_bit. pose proof (Forall_nthz is_u64 l j Hl Hj) as H.
  assert (Ez : forall d, 0 <= k + n - 64 * d < 64 -> (64 * j + k + n) / 64 = j + d /\ (64 * j + k + n) mod 64 = k + n - 64 * d).
  { intros d Hd. replace (64 * j + k + n) with (k + n - 64 * d + (j + d) * 64) by lia.
    rewrite Z.div_add, Z.mod_add, Z.div_small, Z.mod_small by lia. lia. }
  destruct (Z.eqb_spec n 0) as [->|].
  { destruct (Ez 0) as [-> ->]; [lia|]. f_equal; [f_equal|]; lia. }
  rewrite window_bit by (assumption || lia). destruct (Z.ltb_spec (k + n) 64).
  - destruct (Ez 0) as [-> ->]; [lia|]. f_equal; [f_equal|]; lia.
  - destruct (Ez 1) as [-> ->]; [lia|]. reflexivity.
Qed.

(** The decoder reads this word as VEXT; the instruction is defined. *)
Definition is_vext (insn : Z) : bool := bit insn 23 && negb (bit insn 4) && (fld insn 20 3 =? 3) && negb (bit insn 24).
Definition dreg_field (insn big small : Z) : Z := Z.lor (fld insn big 0xf) (fld insn (small - 4) 0x10).
Definition vext_defined (q : bool) (imm rd rn rm : Z) : bool := if q then negb (odd rd) && negb (odd rn) && negb (odd rm) else imm <? 8.
(** The registers VEXT extracts from. *)
Definition vext_source (q : bool) (c : cpu_st) (rn rm : Z) : list Z :=
  vreg c <$> (if q then [rn; rn + 1; rm; rm + 1] else [rn; rm]).

Section Vext.
Context {GU : Guest} {SF : Softfloat} {VB : VfpBus} {HO : HostOps} {NH : NeonHelpers}.

Lemma run_ld64 {B} n (k : Z -> T B) r : cpu_wf (core r) -> 0 <= n < 32 -> tbind (neon_load_reg64 n) k r = k (vreg (core r) n) r.
Proof.
  intros Hw Hn. apply run_bind. unfold neon_load_reg64, ld_vreg. rewrite (proj2 (Z.ltb_lt n 32)) by lia.
  unfold on_core, bind, gets, arr_get, ret. rewrite (proj1 (vreg_znth _ _ Hw Hn)). cbn. rewrite set_core_id. reflexivity.
Qed.
Definition put64 (n v : Z) (r : rt) : rt := set_core (set_vfp_regs (zset (vfp_regs (core r)) n (u64 v)) (core r)) r.
Lemma run_st64 n v r : cpu_wf (core r) -> 0 <= n < 32 -> neon_store_reg64 v n r = Done (Go tt, put64 n v r).
Proof.
  intros Hw Hn. unfold neon_store_reg64, st_vreg. rewrite (proj2 (Z.ltb_lt n 32)) by lia.
  unfold on_core, bind, gets, arr_get, modify, ret. rewrite (proj1 (vreg_znth _ _ Hw Hn)). reflexivity.
Qed.
Lemma put64_wf n v r : cpu_wf (core r) -> cpu_wf (core (put64 n v r)).
Proof. intros Hw. apply set_vreg_wf; [exact Hw|apply u64_range]. Qed.
Lemma vreg_put64 n v r j : cpu_wf (core r) -> 0 <= n < 32 -> 0 <= j < 32 ->
  vreg (core (put64 n v r)) j = if j =? n then u64 v else vreg (core r) j.
Proof. apply vreg_set. Qed.
Lemma run_DREG {B} insn big small (k : Z -> T B) r : arm_feature (core r) ARM_FEATURE_VFP3 = true ->
  tbind (VFP_DREG insn big small) k r = k (dreg_field insn big small) r.
Proof. intros Hf. apply run_bind. unfold VFP_DREG. rewrite run_feature, Hf. reflexivity. Qed.
Lemma dreg_field_dreg insn big small : dreg (dreg_field insn big small).
Proof.
  apply (lor_below _ _ 5); [lia|pose proof (fld4 insn big); lia|]. unfold fld. apply mask_below. unfold dreg. lia.
Qed.

(** What VEXT leaves in the register file. *)
Definition after_vext (q : bool) (imm rd rn rm : Z) (r : rt) : rt :=
  let w := fun j => window (vext_source q (core r) rn rm) (j + imm / 8) (imm mod 8 * 8) in
  let r1 := put64 rd (w 0) r in if q then put64 (rd + 1) (w 1) r1 else r1.
(** Loads at a known position. *)
Ltac vext_loads := repeat match goal with |- context [if ?b then _ else _] => let v := eval vm_compute in b in change b with v; cbv iota end;
  rewrite !run_ld64 by (assumption || lia).
Lemma vext_run insn q rd rn rm r : cpu_wf (core r) -> dreg rd -> dreg rn -> dreg rm ->
  neon_vext insn q rd rn rm r =
    if vext_defined q (fld insn 8 0xf) rd rn rm then Done (Go tt, after_vext q (fld insn 8 0xf) rd rn rm r) else Done (Illegal, r).
Proof.
  intros Hw Hd Hn Hm. unfold neon_vext, vext_defined, after_vext. pose proof (fld4 insn 8) as Hi. set (imm := fld insn 8 0xf) in *. clearbody imm.
  rewrite !odd_lor. destruct q.
  - rewrite run_require by (destruct (7 <? imm); reflexivity).
    destruct (odd rd) eqn:Od; [reflexivity|]. destruct (odd rn) eqn:On; [reflexivity|]. destruct (odd rm) eqn:Om; [reflexivity|].
    pose proof (even_dreg rd Hd Od). pose proof (even_dreg rn Hn On). pose proof (even_dreg rm Hm Om). rewrite run_require by reflexivity.
    set (w := fun j => window (vext_source true (core r) rn rm) (j + imm / 8) (imm mod 8 * 8)). cbn [negb andb]. etransitivity; [apply (run_bind _ _ r (w 0, w 1) r); unfold w; clear w|].
    +
      assert (In imm (seqZ 0 16)) as Hin by (apply list_elem_of_In, elem_of_seqZ; lia). cbn in Hin.
      repeat (destruct Hin as [<-|Hin]; [vext_loads; rewrite 1?(Z.lor_comm (shl64 _ _)); reflexivity|]). contradiction.
    + rewrite (run_bind _ _ _ _ _ (run_st64 rd (w 0) r Hw Hd)). apply run_st64; [apply put64_wf, Hw|lia].
  - destruct (Z.ltb_spec 7 imm); [rewrite (proj2 (Z.ltb_ge imm 8)) by lia; reflexivity|]. rewrite (proj2 (Z.ltb_lt imm 8)) by lia.
    rewrite !run_require by reflexivity. set (w := window _ _ _). unfold dreg in *.
    apply (eq_trans (y := (neon_store_reg64 w rd ;* tret tt) r)); [|rewrite (run_bind _ _ _ _ _ (run_st64 rd w r Hw Hd)); reflexivity].
    assert (In imm (seqZ 0 8)) as Hin by (apply list_elem_of_In, elem_of_seqZ; lia). cbn in Hin.
    repeat (destruct Hin as [<-|Hin]; [erewrite run_bind; [|vext_loads; reflexivity]; reflexivity|]). contradiction.
Qed.

Lemma vext_source_wf q c rn rm : cpu_wf c -> in_file q rn -> in_file q rm -> Forall is_u64 (vext_source q c rn rm).
Proof.
  intros Hw [Hn0 Hn] [Hm0 Hm]. unfold vext_source. rewrite Forall_fmap. destruct q; repeat apply Forall_cons_2; try apply Forall_nil_2; cbn; apply (vreg_znth c); (exact Hw || lia).
Qed.
(** A bit of what is written. *)
Lemma put_window_bit l j n k : Forall is_u64 l -> 0 <= j < Z.of_nat (length l) -> 0 <= n < 64 -> 0 <= k < 64 ->
  Z.testbit (u64 (window l j n)) k = cat_bit l (64 * j + k + n).
Proof. intros Hl Hj Hn Hk. unfold u64. rewrite Z.mod_pow2_bits_low by lia. apply window_cat; assumption. Qed.
Lemma after_vext_bits q imm rd rn rm r k : cpu_wf (core r) -> in_file q rd -> in_file q rn -> in_file q rm ->
  0 <= imm < (if q then 16 else 8) -> 0 <= k < (if q then 128 else 64) ->
  let c := core (after_vext q imm rd rn rm r) in
  cat_bit [vreg c rd; vreg c (rd + 1)] k = cat_bit (vext_source q (core r) rn rm) (k + 8 * imm).
Proof.
  intros Hw [Hd0 Hd] Hn Hm Hi Hk c. pose proof (vext_source_wf q (core r) rn rm Hw Hn Hm) as Hl. unfold cat_bit at 1.
  pose proof (Z.div_mod imm 8 ltac:(lia)). pose proof (Z.mod_pos_bound imm 8 ltac:(lia)). pose proof (Z.mod_pos_bound k 64 ltac:(lia)).
  pose proof (Z.div_mod k 64 ltac:(lia)). pose proof (Z.div_pos imm 8 ltac:(lia) ltac:(lia)).
  assert (Hc : forall j, 0 <= j <= (if q then 1 else 0) -> vreg c (rd + j) = u64 (window (vext_source q (core r) rn rm) (j + imm / 8) (imm mod 8 * 8))).
  { intros j Hj. unfold c, after_vext. destruct q.
    - rewrite vreg_put64 by (apply put64_wf, Hw || lia). destruct (Z.eqb_spec (rd + j) (rd + 1)); [replace j with 1 by lia; reflexivity|].
      rewrite vreg_put64, (proj2 (Z.eqb_eq _ _)) by (assumption || lia). replace j with 0 by lia. reflexivity.
    - rewrite vreg_put64, (proj2 (Z.eqb_eq _ _)) by (assumption || lia). replace j with 0 by lia. reflexivity. }
  assert (Hj : 0 <= k / 64 <= (if q then 1 else 0)) by (destruct q; lia).
  replace (nthz [vreg c rd; vreg c (rd + 1)] (k / 64)) with (vreg c (rd + k / 64)).
  2: { assert (k / 64 = 0 \/ k / 64 = 1) as [-> | ->] by (destruct q; lia); [rewrite Z.add_0_r|]; reflexivity. }
  rewrite Hc, put_window_bit by (assumption || unfold vext_source; rewrite ?length_fmap; destruct q; cbn; lia). f_equal. lia.
Qed.
Lemma after_vext_frame q imm rd rn rm r : cpu_wf (core r) -> in_file q rd ->
  let r' := after_vext q imm rd rn rm r in
  r' = set_core (set_vfp_regs (vfp_regs (core r')) (core r)) r /\
  forall j, 0 <= j < 32 -> j <> rd -> (q = true -> j <> rd + 1) -> vreg (core r') j = vreg (core r) j.
Proof.
  intros Hw [Hd0 Hd] r'. split; [unfold r', after_vext; destruct q; reflexivity|]. intros j Hj N1 N2. unfold r', after_vext. destruct q.
  - rewrite !vreg_put64 by (apply put64_wf, Hw || assumption || lia). rewrite !(proj2 (Z.eqb_neq _ _)) by auto. reflexivity.
  - rewrite vreg_put64, (proj2 (Z.eqb_neq _ _)) by (assumption || lia). reflexivity.
Qed.
(** Where VEXT is defined its operands are inside the register file. *)
Lemma vext_defined_in q imm rd rn rm : vext_defined q imm rd rn rm = true -> dreg rd -> dreg rn -> dreg rm -> 0 <= imm < 16 ->
  in_file q rd /\ in_file q rn /\ in_file q rm /\ 0 <= imm < (if q then 16 else 8).
Proof.
  unfold vext_defined, in_file. destruct q; intros V Hd Hn Hm Hi.
  - apply andb_prop in V as [[Od On]%andb_prop Om]. pose proof (even_dreg rd Hd (proj1 (negb_true_iff _) Od)).
    pose proof (even_dreg rn Hn (proj1 (negb_true_iff _) On)). pose proof (even_dreg rm Hm (proj1 (negb_true_iff _) Om)). lia.
  - apply Z.ltb_lt in V. unfold dreg in *. lia.
Qed.

(** C34. VEXT is extraction: the destination register, or register pair with
    Q, receives the consecutive bits that start [8 * imm] bits into the second
    operand's registers behind the first's; no other register changes.  It is
    undefined exactly where a quad operand starts at an odd register, or the
    count leaves a double register; nothing changes then. *)
Theorem vext_correct insn (r : rt) : is_vext insn = true -> cpu_wf (core r) -> vfp_enabled (dc r) <> 0 -> arm_feature (core r) ARM_FEATURE_VFP3 = true ->
  let q := bit insn 6 in let imm := fld insn 8 0xf in
  let rd := dreg_field insn 12 22 in let rn := dreg_field insn 16 7 in let rm := dreg_field insn 0 5 in
  if vext_defined q imm rd rn rm then
    exists r', disas_neon_data_insn insn r = Done (Go tt, r') /\ r' = set_core (set_vfp_regs (vfp_regs (core r')) (core r)) r /\
      (forall k, 0 <= k < (if q then 128 else 64) ->
        cat_bit [vreg (core r') rd; vreg (core r') (rd + 1)] k = cat_bit (vext_source q (core r) rn rm) (k + 8 * imm)) /\
      (forall j, 0 <= j < 32 -> j <> rd -> (q = true -> j <> rd + 1) -> vreg (core r') j = vreg (core r) j)
  else disas_neon_data_insn insn r = Done (Illegal, r).
Proof.
  intros Hv Hw He Hf q imm rd rn rm. apply andb_prop in Hv as [[[H23 H4]%andb_prop Hs]%andb_prop H24].
  assert (E : disas_neon_data_insn insn r = neon_vext insn q rd rn rm r).
  { unfold disas_neon_data_insn, VFP_DREG_D, VFP_DREG_N, VFP_DREG_M. rewrite run_dc, run_require by (cbn; rewrite (proj2 (Z.eqb_neq _ _) He); reflexivity).
    rewrite !run_DREG by exact Hf. rewrite H23, (proj1 (negb_true_iff _) H4), Hs, H24. reflexivity. }
  pose proof (dreg_field_dreg insn 12 22) as Hd. pose proof (dreg_field_dreg insn 16 7) as Hn. pose proof (dreg_field_dreg insn 0 5) as Hm.
  pose proof (vext_run insn q rd rn rm r Hw Hd Hn Hm) as R. fold imm in R. rewrite E, R. clear E R H23 H4 Hs H24.
  destruct (vext_defined q imm rd rn rm) eqn:V; [|reflexivity]. eexists. split; [reflexivity|].
  destruct (vext_defined_in _ _ _ _ _ V Hd Hn Hm (fld4 insn 8)) as (Id & In & Im & Hi). destruct (after_vext_frame q imm rd rn rm r Hw Id) as [F O].
  split; [exact F|]. split; [|exact O]. intros k Hk. apply after_vext_bits; assumption.
Qed.
End Vext.

(** ** Immediate constants *)

(** A field of [w] bits repeated over 64. *)
Definition replicate64 (w x : Z) : Z := foldr (fun i acc => Z.lor acc (Z.shiftl x (w * i))) 0 (seqZ 0 (64 / w)).
(** The architecture's expansion of an 8-bit constant: [cmode] selects the
    field, and with [op] the 64 bits are inverted, except that [cmode] 14 with
    [op] spreads every bit over a byte. *)
Definition expand_imm (cmode imm8 : Z) : Z :=
  match cmode / 2 with
  | 0 => replicate64 32 imm8
  | 1 => replicate64 32 (imm8 * 2 ^ 8)
  | 2 => replicate64 32 (imm8 * 2 ^ 16)
  | 3 => replicate64 32 (imm8 * 2 ^ 24)
  | 4 => replicate64 16 imm8
  | 5 => replicate64 16 (imm8 * 2 ^ 8)
  | 6 => replicate64 32 (if cmode mod 2 =? 0 then imm8 * 2 ^ 8 + 0xff else imm8 * 2 ^ 16 + 0xffff)
  | _ => if cmode mod 2 =? 0 then replicate64 8 imm8
         else replicate64 32 (imm8 / 128 * 2 ^ 31 + (if Z.testbit imm8 6 then 31 * 2 ^ 25 else 2 ^ 30) + imm8 mod 64 * 2 ^ 19)
  end.
Definition arch_imm (cmode imm8 : Z) (op : bool) : Z :=
  if op then if cmode =? 14 then foldr (fun i acc => if Z.testbit imm8 i then acc + 255 * 2 ^ (8 * i) else acc) 0 (seqZ 0 8)
             else 2 ^ 64 - 1 - expand_imm cmode imm8
  else expand_imm cmode imm8.
(** The word the decoder writes or combines in a pass. *)
Definition pass_imm (op imm : Z) (invert : bool) (pass : Z) : Z :=
  let x := neon_imm op imm invert in if (op =? 14) && invert then neon_byte_mask x pass else x.
Lemma neon_constants : forallb (fun op => forallb (fun imm => forallb (fun inv => forallb (fun pass =>
    ((op =? 15) && inv) || (pass_imm op imm inv pass =? u32 (Z.shiftr (arch_imm op imm inv) (32 * (pass mod 2)))))
    [0; 1; 2; 3]) [false; true]) (seqZ 0 256)) (seqZ 0 16) = true.
Proof. vm_compute. reflexivity. Qed.
(** Every constant is the architecture's: in each pass the decoder uses that
    half of the 64-bit constant which belongs to the word. *)
Lemma neon_imm_correct op imm inv pass : 0 <= op < 16 -> 0 <= imm < 256 -> 0 <= pass < 4 -> negb ((op =? 15) && inv) = true ->
  pass_imm op imm inv pass = u32 (Z.shiftr (arch_imm op imm inv) (32 * (pass mod 2))).
Proof.
  intros Ho Hi Hp Hd. pose proof neon_constants as F. apply (all_below _ 16 op) in F; [|exact Ho]. apply (all_below _ 256 imm) in F; [|exact Hi].
  rewrite forallb_forall in F. specialize (F inv ltac:(destruct inv; cbn; auto)). apply (all_below _ 4 pass) in F; [|exact Hp].
  apply orb_prop in F as [F|F]; [rewrite F in Hd; discriminate|]. apply Z.eqb_eq. exact F.
Qed.
