(* ===== verification/TransNeonFlat.v ===== *)
(** * NEON data processing on the flat guest

    The flat machine with a VFP and NEON, on which the theorems about NEON
    are evaluated; and an input on which the decoder differs from the
    architecture. *)
From stdpp Require Import base list gmap.
From S2P Require Import Prelude Double ArmTable State CpuState Errors OpHelper CpuMode Sys V7m Dsp Softfloat Vfp Tcg TransGen TransArm.
From S2P Require Import TransThumb2 TransThumb TransUser TransBeside TransConfined TransDp TransRam TransBlock TransFlat TransEdge TransVfp TransNeonLs TransVfpUser TransVfpRam TransVfpFlat.
From S2P Require Import TransNeon TransNeonData TransNeonUser TransNeonSpec.
Open Scope Z_scope.
#[local] Existing Instance soft.
#[local] Existing Instance soft_laws.

(** Helpers with the types and the laws of the real ones: the pure ones add,
    [zip] and [unzip] exchange two D registers. *)
#[local] Instance demo_neon : NeonHelpers := {|
  neon_h1 := fun _ _ a => a;
  neon_h2 := fun _ _ a b => a + b;
  neon_e1 := fun _ _ a => ret a;
  neon_e2 := fun _ _ a b => ret (a + b);
  neon_f2 := fun _ a b _ => ret (a + b);
  neon_p2 := fun _ _ _ rd rm e =>
    let l := vfp_regs (vcpu e) in Done (tt, set_vcpu (set_vfp_regs (zset (zset l rd (nthz l rm)) rm (nthz l rd)) (vcpu e)) e) |}.
#[local] Instance demo_neon_laws : NeonLaws.
Proof.
  split; try (intros; apply vtot_ret).
  intros op q l rd rm e [Hd0 Hd] [Hm0 Hm] Hw. eexists _, _. split; [reflexivity|]. cbn. split; [reflexivity|]. destruct Hw.
  assert (forall i, 0 <= i < 32 -> is_u64 (nthz (vfp_regs (vcpu e)) i)) by (intros; apply Forall_nthz; [assumption|lia]).
  rewrite !length_zset. split; [assumption|]. split; [|reflexivity].
  apply Forall_zset; [apply Forall_zset; [assumption|]|]; auto; destruct q; auto with lia.
Qed.

Lemma vdemo_uinv f : (forall i, is_u64 (f i)) -> uinv (vdemo true 0 f).
Proof. intros Hf. split; [reflexivity|]. split; [reflexivity|]. split; [apply vdemo_wf, Hf|split; [discriminate|reflexivity]]. Qed.
(** [VZIP.16 d30, d31] in user mode. *)
Lemma user_neon_confined_witness : exists f r', disas_neon_data_insn 0xf3f6e1af (vdemo true 0 u64) = Done (f, r') /\
  uinv r' /\ ukeep (core (vdemo true 0 u64)) (core r') /\ nthz (xregs (rbus r').1) ARM_VFP_FPEXC = 0.
Proof. exact (user_neon_confined flat_guest 0xf3f6e1af (vdemo true 0 u64) (vdemo_uinv u64 u64_range)). Defined.

(** [VEXT.8 q1, q2, q3, #5]; register [i] holds the byte [i] eight times. *)
Definition bytes_of (i : Z) : Z := u64 (i * 0x0101010101010101).
Lemma vext_correct_witness : exists r', disas_neon_data_insn 0xf2b42546 (vdemo true 0 bytes_of) = Done (Go tt, r') /\
  vreg (core r') 1 = bytes_of 1 /\ cat_bit [vreg (core r') 2; vreg (core r') 3] 25 = Z.testbit (bytes_of 5) 1.
Proof.
  destruct (vext_correct 0xf2b42546 (vdemo true 0 bytes_of)) as (r' & E & _ & B & O).
  - reflexivity.
  - apply vdemo_wf. intros i. apply u64_range.
  - discriminate.
  - reflexivity.
  - exists r'. split; [exact E|]. split; [exact (O 1 ltac:(lia) ltac:(discriminate) ltac:(discriminate))|exact (B 25 ltac:(vm_compute; split; [discriminate|reflexivity]))].
Defined.

(** ** Corners *)
Definition dpeek {B} (insn : Z) (r : @rt (vbase flat_guest)) (g : @rt (vbase flat_guest) -> B) : option (flow unit * B) :=
  match disas_neon_data_insn insn r with Done (f, r') => Some (f, g r') | _ => None end.
(** [VEXT.8 q1, q1, q1, #8] exchanges the halves of q1; [VMOV.I64] spreads
    bits over bytes. *)
Lemma vext_swaps : dpeek 0xf2b22842 (vdemo true 0 bytes_of) (fun r => (vreg (core r) 2, vreg (core r) 3)) = Some (Go tt, (bytes_of 3, bytes_of 2)).
Proof. vm_compute. reflexivity. Qed.
Lemma vmov_bytes : dpeek 0xf3820e35 (vdemo true 0 bytes_of) (fun r => vreg (core r) 0) = Some (Go tt, 0xff00ff0000ff00ff).
Proof. vm_compute. reflexivity. Qed.
(** The row of VQDMULL in the table of three registers of different lengths
    lacks the bit that refuses the unsigned form: the word with U set is
    undefined for VQDMLAL and VQDMLSL, and executed for VQDMULL. *)
Lemma vqdmull_unsigned_executes :
  option_map fst (dpeek 0xf3900902 (vdemo true 0 bytes_of) (fun _ => tt)) = Some Illegal /\
  option_map fst (dpeek 0xf3900b02 (vdemo true 0 bytes_of) (fun _ => tt)) = Some Illegal /\
  option_map fst (dpeek 0xf3900d02 (vdemo true 0 bytes_of) (fun _ => tt)) = Some (Go tt).
Proof. split_and!; vm_compute; reflexivity. Qed.
