(* ===== verification/TransIwmmxt.v ===== *)
(** * The iWMMXt and XScale accumulator decoders of [translate.c]

    [disas_iwmmxt_insn] and [disas_dsp_insn].  The register file is that of
    [cpu.h]; the arithmetic helpers live in [iwmmxt_helper.c], which is not
    part of the repository, and are parameters with the types [helper.h]
    declares.  [cpu_M0] is passed from step to step. *)
From stdpp Require Import base list.
From S2P Require Import Prelude Double ArmTable State CpuState Errors OpHelper CpuMode Sys V7m Dsp Tcg TransGen TransArm.
Open Scope Z_scope.

(** ** State *)

(** [env->iwmmxt]: sixteen data and sixteen control registers. *)
Record iw_st : Type := { wregs : list Z; wcregs : list Z }.
Definition set_wreg (n v : Z) (s : iw_st) : iw_st := {| wregs := zset (wregs s) n v; wcregs := wcregs s |}.
Definition set_wcreg (n v : Z) (s : iw_st) : iw_st := {| wregs := wregs s; wcregs := zset (wcregs s) n v |}.

Definition ARM_IWMMXT_wCID : Z := 0.
Definition ARM_IWMMXT_wCon : Z := 1.
Definition ARM_IWMMXT_wCSSF : Z := 2.
Definition ARM_IWMMXT_wCASF : Z := 3.
Definition ARM_IWMMXT_wCGR0 : Z := 8.
Definition ARM_IWMMXT_wCGR1 : Z := 9.
Definition ARM_IWMMXT_wCGR2 : Z := 10.
Definition ARM_IWMMXT_wCGR3 : Z := 11.

(** ** The helpers *)

(** Element sizes: byte, halfword, word, doubleword. *)
Inductive iw_size : Set := Ib | Iw | Il | Iq.
(** [IWMMXT_OP] *)
Inductive iw_op : Set := maddsq | madduq | sadb | sadw | mulslw | mulshw | mululw | muluhw | macsw | macuw.
(** [IWMMXT_OP_ENV] and [IWMMXT_OP_ENV_SIZE] *)
Inductive iw_env_op : Set :=
| unpackl (s : iw_size) | unpackh (s : iw_size)
| cmpeq (s : iw_size) | cmpgtu (s : iw_size) | cmpgts (s : iw_size)
| mins (s : iw_size) | minu (s : iw_size) | maxs (s : iw_size) | maxu (s : iw_size)
| subn (s : iw_size) | addn (s : iw_size) | subu (s : iw_size) | addu (s : iw_size) | subs (s : iw_size) | adds (s : iw_size)
| avgb0 | avgb1 | avgw0 | avgw1
| packu (s : iw_size) | packs (s : iw_size).
(** [IWMMXT_OP_ENV1] *)
Inductive iw_env1_op : Set := unpacklu (s : iw_size) | unpackls (s : iw_size) | unpackhu (s : iw_size) | unpackhs (s : iw_size).
(** Shifts and shuffles by an amount. *)
Inductive iw_shift_op : Set := srl (s : iw_size) | sra (s : iw_size) | sll (s : iw_size) | ror (s : iw_size) | shufh.

(** Of [env] the helpers change the iWMMXt registers (the flags in wCASF). *)
Class IwmmxtHelpers := {
  iwmmxt_op : iw_op -> Z -> Z -> Z;
  iwmmxt_env : iw_env_op -> Z -> Z -> iw_st -> Z * iw_st;
  iwmmxt_env1 : iw_env1_op -> Z -> iw_st -> Z * iw_st;
  iwmmxt_shift : iw_shift_op -> Z -> Z -> iw_st -> Z * iw_st;
  iwmmxt_setpsr_nz : Z -> Z;
  iwmmxt_align : Z -> Z -> Z -> Z;
  iwmmxt_insr : Z -> Z -> Z -> Z -> Z;
  iwmmxt_bcst : iw_size -> Z -> Z;
  iwmmxt_addc : iw_size -> Z -> Z;
  iwmmxt_msb : iw_size -> Z -> Z;
  iwmmxt_muladdsl : Z -> Z -> Z -> Z;
  iwmmxt_muladdsw : Z -> Z -> Z -> Z;
  iwmmxt_muladdswl : Z -> Z -> Z -> Z
}.
(** The iWMMXt registers beside the bus, and what a temporary holds that the
    code has not written. *)
Class IwBus `{GU : Guest} := {
  iw_of : bus -> iw_st;
  with_iw : iw_st -> bus -> bus;
  stale_i32 : rt -> Z;
  stale_i64 : rt -> Z
}.

Section Iwmmxt.
Context {GU : Guest} {HO : HostOps} {IH : IwmmxtHelpers} {IB : IwBus}.

Definition on_iw {A} (f : iw_st -> A * iw_st) : T A := fun r =>
  let '(a, s) := f (iw_of (rbus r)) in Done (Go a, set_rbus (with_iw s (rbus r)) r).
Definition iwmmxt_load_reg (reg : Z) : T Z := on_iw (fun s => (nthz (wregs s) reg, s)).
Definition iwmmxt_store_reg (var reg : Z) : T unit := on_iw (fun s => (tt, set_wreg reg (u64 var) s)).
Definition iwmmxt_load_creg (reg : Z) : T Z := on_iw (fun s => (nthz (wcregs s) reg, s)).
Definition iwmmxt_store_creg (reg var : Z) : T unit := on_iw (fun s => (tt, set_wcreg reg (u32 var) s)).

Definition gen_op_iwmmxt_movq_wRn_M0 (rn M0 : Z) : T unit := iwmmxt_store_reg M0 rn.
Definition gen_op_iwmmxt_movq_M0_wRn (rn : Z) : T Z := iwmmxt_load_reg rn.
Definition gen_op_iwmmxt_orq_M0_wRn (rn M0 : Z) : T Z := let* v := iwmmxt_load_reg rn in tret (Z.lor M0 v).
Definition gen_op_iwmmxt_andq_M0_wRn (rn M0 : Z) : T Z := let* v := iwmmxt_load_reg rn in tret (Z.land M0 v).
Definition gen_op_iwmmxt_xorq_M0_wRn (rn M0 : Z) : T Z := let* v := iwmmxt_load_reg rn in tret (Z.lxor M0 v).
Definition gen_op_iwmmxt_op (op : iw_op) (rn M0 : Z) : T Z := let* v := iwmmxt_load_reg rn in tret (u64 (iwmmxt_op op M0 v)).
Definition gen_op_iwmmxt_env (op : iw_env_op) (rn M0 : Z) : T Z :=
  let* v := iwmmxt_load_reg rn in let* x := on_iw (iwmmxt_env op M0 v) in tret (u64 x).
Definition gen_op_iwmmxt_env1 (op : iw_env1_op) (M0 : Z) : T Z := let* x := on_iw (iwmmxt_env1 op M0) in tret (u64 x).
Definition gen_op_iwmmxt_set_mup : T unit :=
  let* t := iwmmxt_load_creg ARM_IWMMXT_wCon in iwmmxt_store_creg ARM_IWMMXT_wCon (Z.lor t 2).
Definition gen_op_iwmmxt_set_cup : T unit :=
  let* t := iwmmxt_load_creg ARM_IWMMXT_wCon in iwmmxt_store_creg ARM_IWMMXT_wCon (Z.lor t 1).
Definition gen_op_iwmmxt_setpsr_nz (M0 : Z) : T unit := iwmmxt_store_creg ARM_IWMMXT_wCASF (iwmmxt_setpsr_nz M0).
Definition gen_op_iwmmxt_addl_M0_wRn (rn M0 : Z) : T Z := let* v := iwmmxt_load_reg rn in tret (u64 (M0 + u32 v)).

(** An address with optional writeback.  Without indexing and with the U bit
    the destination is left as it is. *)
Definition gen_iwmmxt_address (insn : Z) : T Z :=
  let rd := fld insn 16 0xf in
  let* tmp := load_reg rd in
  let offset := Z.shiftl (Z.land insn 0xff) (fld insn 7 2) in
  let moved := if bit insn 23 then add32 tmp offset else sub32 tmp offset in
  if bit insn 24 then (if bit insn 21 then store_reg rd moved else tret tt) ;* tret moved
  else if bit insn 21 then store_reg rd moved ;* tret tmp
  else if negb (bit insn 23) then illegal_op
  else lift (gets stale_i32).

Definition gen_iwmmxt_shift (insn mask : Z) : T Z :=
  let rd := Z.land insn 0xf in
  let* tmp :=
    if bit insn 8 then
      if (rd <? ARM_IWMMXT_wCGR0) || (ARM_IWMMXT_wCGR3 <? rd) then illegal_op else iwmmxt_load_creg rd
    else let* v := iwmmxt_load_reg rd in tret (lo64 v) in
  tret (Z.land tmp mask).

(** ** Transfers and memory accesses *)

(** TMRRC and TMCRR move a register pair, as [cpu_R] holds it. *)
Definition iw_tmrrc (insn : Z) : T unit :=
  let wrd := Z.land insn 0xf in
  let rdlo := fld insn 12 0xf in
  let rdhi := fld insn 16 0xf in
  if bit insn 20 then
    let* v := iwmmxt_load_reg wrd in
    on_core (put_reg rdlo (lo64 v)) ;* on_core (put_reg rdhi (hi64 v))
  else
    let* lo := on_core (get_reg rdlo) in
    let* hi := on_core (get_reg rdhi) in
    iwmmxt_store_reg (concat64 lo hi) wrd ;* gen_op_iwmmxt_set_mup.

Definition iw_load (insn wrd addr : Z) : T unit :=
  let* u := IS_USER in
  if Z.shiftr insn 28 =? 0xf then let* tmp := gen_ld32 addr u in iwmmxt_store_creg wrd tmp
  else
    let* M0 :=
      if bit insn 8 then if bit insn 22 then qemu_ld MO_64 addr u else gen_ld32 addr u
      else if bit insn 22 then gen_ld16u addr u else gen_ld8u addr u in
    gen_op_iwmmxt_movq_wRn_M0 wrd M0.
Definition iw_store (insn wrd addr : Z) : T unit :=
  let* u := IS_USER in
  if Z.shiftr insn 28 =? 0xf then let* tmp := iwmmxt_load_creg wrd in gen_st32 tmp addr u
  else
    let* M0 := gen_op_iwmmxt_movq_M0_wRn wrd in
    if bit insn 8 then if bit insn 22 then qemu_st MO_64 addr M0 u else gen_st32 (lo64 M0) addr u
    else if bit insn 22 then gen_st16 (lo64 M0) addr u else gen_st8 (lo64 M0) addr u.
Definition iw_ldst (insn : Z) : T unit :=
  let wrd := fld insn 12 0xf in
  let* addr := gen_iwmmxt_address insn in
  if bit insn 20 then iw_load insn wrd addr else iw_store insn wrd addr.

(** ** Data processing *)

(** The result register and the status bits. *)
Definition iw_result (wrd M0 : Z) (cup : bool) : T unit :=
  gen_op_iwmmxt_movq_wRn_M0 wrd M0 ;*
  gen_op_iwmmxt_set_mup ;*
  (if cup then gen_op_iwmmxt_set_cup else tret tt).
(** [rd0] in [cpu_M0], an operation, the result. *)
Definition iw_dp (insn : Z) (op : Z -> Z -> T Z) (cup : bool) : T unit :=
  let* M0 := gen_op_iwmmxt_movq_M0_wRn (fld insn 16 0xf) in
  let* M0 := op (Z.land insn 0xf) M0 in
  iw_result (fld insn 12 0xf) M0 cup.
(** Byte, halfword or word by [(insn >> 22) & 3]. *)
Definition iw_bwl (insn : Z) (op : iw_size -> Z -> Z -> T Z) : Z -> Z -> T Z :=
  match fld insn 22 3 with 0 => op Ib | 1 => op Iw | 2 => op Il | _ => fun _ _ => illegal_op end.

(** WOR, WXOR, WANDN, WAND: the operands are the other way round. *)
Definition iw_logic (op : Z -> Z -> T Z) (insn : Z) : T unit :=
  let* M0 := gen_op_iwmmxt_movq_M0_wRn (Z.land insn 0xf) in
  let* M0 := op (fld insn 16 0xf) M0 in
  gen_op_iwmmxt_setpsr_nz M0 ;*
  iw_result (fld insn 12 0xf) M0 true.
Definition iw_wor : Z -> T unit := iw_logic gen_op_iwmmxt_orq_M0_wRn.
Definition iw_wxor : Z -> T unit := iw_logic gen_op_iwmmxt_xorq_M0_wRn.
Definition iw_wandn : Z -> T unit := iw_logic (fun rn M0 => gen_op_iwmmxt_andq_M0_wRn rn (u64 (- M0))).
Definition iw_wand : Z -> T unit := iw_logic gen_op_iwmmxt_andq_M0_wRn.

Definition iw_tmcr (insn : Z) : T unit :=
  require (Z.land insn 0xf =? 0) ;*
  let rd := fld insn 12 0xf in
  let wrd := fld insn 16 0xf in
  let clear := (let* tmp := iwmmxt_load_creg wrd in let* tmp2 := load_reg rd in iwmmxt_store_creg wrd (Z.land tmp (not32 tmp2))) in
  if (wrd =? ARM_IWMMXT_wCID) || (wrd =? ARM_IWMMXT_wCASF) then tret tt
  else if wrd =? ARM_IWMMXT_wCon then gen_op_iwmmxt_set_cup ;* clear
  else if wrd =? ARM_IWMMXT_wCSSF then clear
  else if (ARM_IWMMXT_wCGR0 <=? wrd) && (wrd <=? ARM_IWMMXT_wCGR3) then
    gen_op_iwmmxt_set_cup ;* let* tmp := load_reg rd in iwmmxt_store_creg wrd tmp
  else illegal_op.
Definition iw_tmrc (insn : Z) : T unit :=
  require (Z.land insn 0xf =? 0) ;*
  let* tmp := iwmmxt_load_creg (fld insn 16 0xf) in
  store_reg (fld insn 12 0xf) tmp.

Definition iw_wmadd (insn : Z) : T unit :=
  let* M0 := gen_op_iwmmxt_movq_M0_wRn (Z.land insn 0xf) in
  let* M0 := gen_op_iwmmxt_op (if bit insn 21 then maddsq else madduq) (fld insn 16 0xf) M0 in
  iw_result (fld insn 12 0xf) M0 false.
Definition iw_wunpckil (insn : Z) : T unit := iw_dp insn (iw_bwl insn (fun s => gen_op_iwmmxt_env (unpackl s))) true.
Definition iw_wunpckih (insn : Z) : T unit := iw_dp insn (iw_bwl insn (fun s => gen_op_iwmmxt_env (unpackh s))) true.
Definition iw_wsad (insn : Z) : T unit :=
  iw_dp insn (fun rd1 M0 =>
    let* M0 := gen_op_iwmmxt_op (if bit insn 22 then sadw else sadb) rd1 M0 in
    if negb (bit insn 20) then gen_op_iwmmxt_addl_M0_wRn (fld insn 12 0xf) M0 else tret M0) false.
Definition iw_wmul (insn : Z) : T unit :=
  iw_dp insn (gen_op_iwmmxt_op (if bit insn 21 then if bit insn 20 then mulshw else mulslw
                                else if bit insn 20 then muluhw else mululw)) false.
Definition iw_wmac (insn : Z) : T unit :=
  iw_dp insn (fun rd1 M0 =>
    let* M0 := gen_op_iwmmxt_op (if bit insn 21 then macsw else macuw) rd1 M0 in
    if negb (bit insn 20) then let* v := iwmmxt_load_reg (fld insn 12 0xf) in tret (u64 (M0 + v)) else tret M0) false.
Definition iw_wcmpeq (insn : Z) : T unit := iw_dp insn (iw_bwl insn (fun s => gen_op_iwmmxt_env (cmpeq s))) true.
Definition iw_wavg2 (insn : Z) : T unit :=
  iw_dp insn (gen_op_iwmmxt_env (if bit insn 22 then if bit insn 20 then avgw1 else avgw0
                                 else if bit insn 20 then avgb1 else avgb0)) true.
Definition iw_align (insn : Z) (amount : T Z) : T unit :=
  iw_dp insn (fun rd1 M0 =>
    let* tmp := amount in let* v := iwmmxt_load_reg rd1 in tret (u64 (iwmmxt_align M0 v tmp))) false.
Definition iw_walignr (insn : Z) : T unit :=
  iw_align insn (let* tmp := iwmmxt_load_creg (ARM_IWMMXT_wCGR0 + fld insn 20 3) in tret (Z.land tmp 7)).
Definition iw_waligni (insn : Z) : T unit := iw_align insn (tret (fld insn 20 3)).

(** ** Lanes and flags *)
Definition iw_tinsr (insn : Z) : T unit :=
  let size := fld insn 6 3 in
  require (negb (size =? 3)) ;*
  let wrd := fld insn 16 0xf in
  let* tmp := load_reg (fld insn 12 0xf) in
  let* M0 := gen_op_iwmmxt_movq_M0_wRn wrd in
  let '(mask, pos) := if size =? 0 then (0xff, Z.shiftl (Z.land insn 7) 3)
                      else if size =? 1 then (0xffff, Z.shiftl (Z.land insn 3) 4)
                      else (0xffffffff, Z.shiftl (Z.land insn 1) 5) in
  iw_result wrd (iwmmxt_insr M0 tmp mask pos) false.
Definition iw_textrm (insn : Z) : T unit :=
  let rd := fld insn 12 0xf in
  let size := fld insn 22 3 in
  require (negb ((rd =? 15) || (size =? 3))) ;*
  let* M0 := gen_op_iwmmxt_movq_M0_wRn (fld insn 16 0xf) in
  let tmp :=
    if size =? 0 then
      let t := lo64 (Z.shiftr M0 (Z.shiftl (Z.land insn 7) 3)) in if bit insn 3 then ext8s t else Z.land t 0xff
    else if size =? 1 then
      let t := lo64 (Z.shiftr M0 (Z.shiftl (Z.land insn 3) 4)) in if bit insn 3 then ext16s t else Z.land t 0xffff
    else lo64 (Z.shiftr M0 (Z.shiftl (Z.land insn 1) 5)) in
  store_reg rd tmp.
Definition iw_textrc (insn : Z) : T unit :=
  let size := fld insn 22 3 in
  require (eqm insn 0x000ff008 0x0003f000 && negb (size =? 3)) ;*
  let* tmp := iwmmxt_load_creg ARM_IWMMXT_wCASF in
  let tmp := shr_i32 tmp (if size =? 0 then Z.shiftl (Z.land insn 7) 2
                          else if size =? 1 then Z.shiftl (Z.land insn 3) 3 + 4
                          else Z.shiftl (Z.land insn 1) 4 + 12) in
  gen_set_nzcv (shl_i32 tmp 28).
Definition iw_tbcst (insn : Z) : T unit :=
  let size := fld insn 6 3 in
  require (negb (size =? 3)) ;*
  let* tmp := load_reg (fld insn 12 0xf) in
  iw_result (fld insn 16 0xf) (iwmmxt_bcst (if size =? 0 then Ib else if size =? 1 then Iw else Il) tmp) false.
(** TANDC and TORC combine the flags of all lanes. *)
Definition iw_fold (f : Z -> Z -> Z) (n sh tmp : Z) : Z :=
  (foldl (fun p (_ : Z) => let t2 := shl_i32 p.2 sh in (f p.1 t2, t2)) (tmp, tmp) (seqZ 0 n)).1.
Definition iw_flags (f : Z -> Z -> Z) (insn : Z) : T unit :=
  let size := fld insn 22 3 in
  require (eqm insn 0x000ff00f 0x0003f000 && negb (size =? 3)) ;*
  let* tmp := iwmmxt_load_creg ARM_IWMMXT_wCASF in
  gen_set_nzcv (if size =? 0 then iw_fold f 7 4 tmp else if size =? 1 then iw_fold f 3 8 tmp else iw_fold f 1 16 tmp).
Definition iw_tandc : Z -> T unit := iw_flags Z.land.
Definition iw_torc : Z -> T unit := iw_flags Z.lor.
Definition iw_wacc (insn : Z) : T unit :=
  iw_dp insn (iw_bwl insn (fun s _ M0 => tret (u64 (iwmmxt_addc s M0)))) false.
Definition iw_tmovmsk (insn : Z) : T unit :=
  let size := fld insn 22 3 in
  require ((Z.land insn 0xf =? 0) && negb (size =? 3)) ;*
  let* M0 := gen_op_iwmmxt_movq_M0_wRn (fld insn 16 0xf) in
  store_reg (fld insn 12 0xf) (u32 (iwmmxt_msb (if size =? 0 then Ib else if size =? 1 then Iw else Il) M0)).

(** ** Comparisons, unpacking, shifts *)
Definition iw_wcmpgt (insn : Z) : T unit :=
  iw_dp insn (iw_bwl insn (fun s => gen_op_iwmmxt_env (if bit insn 21 then cmpgts s else cmpgtu s))) true.
Definition iw_wunpckel (insn : Z) : T unit :=
  iw_dp insn (iw_bwl insn (fun s _ => gen_op_iwmmxt_env1 (if bit insn 21 then unpackls s else unpacklu s))) true.
Definition iw_wunpckeh (insn : Z) : T unit :=
  iw_dp insn (iw_bwl insn (fun s _ => gen_op_iwmmxt_env1 (if bit insn 21 then unpackhs s else unpackhu s))) true.
(** Shifts: halfword, word or doubleword; [mask] limits the amount. *)
Definition iw_wshift (op : iw_size -> iw_shift_op) (mask : iw_size -> Z) (insn : Z) : T unit :=
  let size := fld insn 22 3 in
  require (negb (size =? 0)) ;*
  let s := if size =? 1 then Iw else if size =? 2 then Il else Iq in
  iw_dp insn (fun _ M0 =>
    let* tmp := gen_iwmmxt_shift insn (mask s) in
    let* x := on_iw (iwmmxt_shift (op s) M0 tmp) in tret (u64 x)) true.
Definition iw_wsrl : Z -> T unit := iw_wshift srl (fun _ => 0xff).
Definition iw_wsra : Z -> T unit := iw_wshift sra (fun _ => 0xff).
Definition iw_wsll : Z -> T unit := iw_wshift sll (fun _ => 0xff).
Definition iw_wror : Z -> T unit := iw_wshift ror (fun s => match s with Iw => 0xf | Il => 0x1f | _ => 0x3f end).
Definition iw_wmin (insn : Z) : T unit :=
  iw_dp insn (iw_bwl insn (fun s => gen_op_iwmmxt_env (if bit insn 21 then mins s else minu s))) false.
Definition iw_wmax (insn : Z) : T unit :=
  iw_dp insn (iw_bwl insn (fun s => gen_op_iwmmxt_env (if bit insn 21 then maxs s else maxu s))) false.
Definition iw_wshufh (insn : Z) : T unit :=
  iw_dp insn (fun _ M0 =>
    let* x := on_iw (iwmmxt_shift shufh M0 (Z.lor (fld insn 16 0xf0) (Z.land insn 0x0f))) in tret (u64 x)) true.

(** Additions and subtractions: without saturation, unsigned, signed. *)
Definition iw_arith (n u s : iw_size -> iw_env_op) (insn : Z) : T unit :=
  iw_dp insn (match fld insn 20 0xf with
    | 0x0 => gen_op_iwmmxt_env (n Ib) | 0x1 => gen_op_iwmmxt_env (u Ib) | 0x3 => gen_op_iwmmxt_env (s Ib)
    | 0x4 => gen_op_iwmmxt_env (n Iw) | 0x5 => gen_op_iwmmxt_env (u Iw) | 0x7 => gen_op_iwmmxt_env (s Iw)
    | 0x8 => gen_op_iwmmxt_env (n Il) | 0x9 => gen_op_iwmmxt_env (u Il) | 0xb => gen_op_iwmmxt_env (s Il)
    | _ => fun _ _ => illegal_op
    end) true.
Definition iw_wsub : Z -> T unit := iw_arith subn subu subs.
Definition iw_wadd : Z -> T unit := iw_arith addn addu adds.
Definition iw_wpack (insn : Z) : T unit :=
  let size := fld insn 22 3 in
  require (bit insn 20 && negb (size =? 0)) ;*
  let s := if size =? 1 then Iw else if size =? 2 then Il else Iq in
  iw_dp insn (gen_op_iwmmxt_env (if bit insn 21 then packs s else packu s)) true.

(** Multiply-accumulate with core registers: the operation on [cpu_M0]. *)
Definition iw_muladd (insn M0 tmp tmp2 : Z) : T Z :=
  match fld insn 16 0xf with
  | 0x0 => tret (u64 (iwmmxt_muladdsl M0 tmp tmp2))
  | 0x8 => tret (u64 (iwmmxt_muladdsw M0 tmp tmp2))
  | 0xc | 0xd | 0xe | 0xf =>
      tret (u64 (iwmmxt_muladdswl M0 (if bit insn 16 then shr_i32 tmp 16 else tmp) (if bit insn 17 then shr_i32 tmp2 16 else tmp2)))
  | _ => illegal_op
  end.
Definition iw_tmia (insn : Z) : T unit :=
  let wrd := fld insn 5 0xf in
  let rd0 := fld insn 12 0xf in
  let rd1 := Z.land insn 0xf in
  require (negb ((rd0 =? 0xf) || (rd1 =? 0xf))) ;*
  let* M0 := gen_op_iwmmxt_movq_M0_wRn wrd in
  let* tmp := load_reg rd0 in
  let* tmp2 := load_reg rd1 in
  let* M0 := iw_muladd insn M0 tmp tmp2 in
  iw_result wrd M0 false.

(** ** The decoder *)

(** The labels of [switch (((insn >> 12) & 0xf00) | ((insn >> 4) & 0xff))]. *)
Definition iw_cases : list (list Z * (Z -> T unit)) :=
  [([0x000], iw_wor); ([0x011], iw_tmcr); ([0x100], iw_wxor); ([0x111], iw_tmrc); ([0x300], iw_wandn); ([0x200], iw_wand);
   ([0x810; 0xa10], iw_wmadd);
   ([0x10e; 0x50e; 0x90e; 0xd0e], iw_wunpckil); ([0x10c; 0x50c; 0x90c; 0xd0c], iw_wunpckih);
   ([0x012; 0x112; 0x412; 0x512], iw_wsad); ([0x010; 0x110; 0x210; 0x310], iw_wmul); ([0x410; 0x510; 0x610; 0x710], iw_wmac);
   ([0x006; 0x406; 0x806; 0xc06], iw_wcmpeq); ([0x800; 0x900; 0xc00; 0xd00], iw_wavg2); ([0x802; 0x902; 0xa02; 0xb02], iw_walignr);
   ([0x601; 0x605; 0x609; 0x60d], iw_tinsr); ([0x107; 0x507; 0x907; 0xd07], iw_textrm); ([0x117; 0x517; 0x917; 0xd17], iw_textrc);
   ([0x401; 0x405; 0x409; 0x40d], iw_tbcst); ([0x113; 0x513; 0x913; 0xd13], iw_tandc); ([0x01c; 0x41c; 0x81c; 0xc1c], iw_wacc);
   ([0x115; 0x515; 0x915; 0xd15], iw_torc); ([0x103; 0x503; 0x903; 0xd03], iw_tmovmsk);
   ([0x106; 0x306; 0x506; 0x706; 0x906; 0xb06; 0xd06; 0xf06], iw_wcmpgt);
   ([0x00e; 0x20e; 0x40e; 0x60e; 0x80e; 0xa0e; 0xc0e; 0xe0e], iw_wunpckel);
   ([0x00c; 0x20c; 0x40c; 0x60c; 0x80c; 0xa0c; 0xc0c; 0xe0c], iw_wunpckeh);
   ([0x204; 0x604; 0xa04; 0xe04; 0x214; 0x614; 0xa14; 0xe14], iw_wsrl);
   ([0x004; 0x404; 0x804; 0xc04; 0x014; 0x414; 0x814; 0xc14], iw_wsra);
   ([0x104; 0x504; 0x904; 0xd04; 0x114; 0x514; 0x914; 0xd14], iw_wsll);
   ([0x304; 0x704; 0xb04; 0xf04; 0x314; 0x714; 0xb14; 0xf14], iw_wror);
   ([0x116; 0x316; 0x516; 0x716; 0x916; 0xb16; 0xd16; 0xf16], iw_wmin);
   ([0x016; 0x216; 0x416; 0x616; 0x816; 0xa16; 0xc16; 0xe16], iw_wmax);
   ([0x002; 0x102; 0x202; 0x302; 0x402; 0x502; 0x602; 0x702], iw_waligni);
   ([0x01a; 0x11a; 0x21a; 0x31a; 0x41a; 0x51a; 0x61a; 0x71a; 0x81a; 0x91a; 0xa1a; 0xb1a; 0xc1a; 0xd1a; 0xe1a; 0xf1a], iw_wsub);
   ([0x01e; 0x11e; 0x21e; 0x31e; 0x41e; 0x51e; 0x61e; 0x71e; 0x81e; 0x91e; 0xa1e; 0xb1e; 0xc1e; 0xd1e; 0xe1e; 0xf1e], iw_wshufh);
   ([0x018; 0x118; 0x218; 0x318; 0x418; 0x518; 0x618; 0x718; 0x818; 0x918; 0xa18; 0xb18; 0xc18; 0xd18; 0xe18; 0xf18], iw_wadd);
   ([0x008; 0x108; 0x208; 0x308; 0x408; 0x508; 0x608; 0x708; 0x808; 0x908; 0xa08; 0xb08; 0xc08; 0xd08; 0xe08; 0xf08], iw_wpack);
   ([0x201; 0x203; 0x205; 0x207; 0x209; 0x20b; 0x20d; 0x20f; 0x211; 0x213; 0x215; 0x217; 0x219; 0x21b; 0x21d; 0x21f], iw_tmia)].
Fixpoint iw_case (key : Z) (l : list (list Z * (Z -> T unit))) (insn : Z) : T unit :=
  match l with
  | [] => illegal_op
  | (labels, f) :: l' => if existsb (Z.eqb key) labels then f insn else iw_case key l' insn
  end.

Definition disas_iwmmxt_insn (insn : Z) : T unit :=
  if eqm insn 0x0e000e00 0x0c000000 then
    if eqm insn 0x0fe00ff0 0x0c400000 then iw_tmrrc insn else iw_ldst insn
  else
    require (eqm insn 0x0f000000 0x0e000000) ;*
    iw_case (Z.lor (fld insn 12 0xf00) (fld insn 4 0xff)) iw_cases insn.

(** ** The XScale accumulator *)

(** MIA, MIAPH, MIAxy: [cpu_M0] is not loaded before it is accumulated to. *)
Definition dsp_mia (insn : Z) : T unit :=
  let acc := fld insn 5 7 in
  require (acc =? 0) ;*
  let* tmp := load_reg (fld insn 12 0xf) in
  let* tmp2 := load_reg (Z.land insn 0xf) in
  let* M0 := lift (gets stale_i64) in
  let* M0 := iw_muladd insn M0 tmp tmp2 in
  gen_op_iwmmxt_movq_wRn_M0 acc M0.
Definition dsp_mra (insn : Z) : T unit :=
  let rdhi := fld insn 16 0xf in
  let rdlo := fld insn 12 0xf in
  let acc := Z.land insn 7 in
  require (acc =? 0) ;*
  if bit insn 20 then
    let* v := iwmmxt_load_reg acc in
    on_core (put_reg rdlo (lo64 v)) ;*
    on_core (put_reg rdhi (Z.land (hi64 v) (Z.shiftl 1 (40 - 32) - 1)))
  else
    let* lo := on_core (get_reg rdlo) in
    let* hi := on_core (get_reg rdhi) in
    iwmmxt_store_reg (concat64 lo hi) acc.
Definition disas_dsp_insn (insn : Z) : T unit :=
  if eqm insn 0x0ff00f10 0x0e200010 then dsp_mia insn
  else if eqm insn 0x0fe00ff8 0x0c400000 then dsp_mra insn
  else illegal_op.
End Iwmmxt.
