(* ===== verification/TransIwmmxtSpec.v ===== *)
(** * iWMMXt: what transfers and flag instructions compute

    The register pair transfers are inverse, and TANDC and TORC combine the
    flags of all lanes; then inputs on which the decoders differ from the
    instruction set. *)
From stdpp Require Import base list gmap.
From S2P Require Import Prelude Double ArmTable State CpuState Errors OpHelper CpuMode Sys V7m Dsp Softfloat Vfp Tcg TransGen TransArm.
From S2P Require Import TransThumb2 TransThumb TransUser TransBeside TransConfined TransDp TransRam TransBlock TransFlat TransEdge TransIwmmxt.
From S2P Require Import TransVfp TransNeonLs TransVfpUser TransNeon TransNeonData TransNeonUser TransNeonSpec.
From S2P Require Import TransIwmmxtUser.
Open Scope Z_scope.

(** ** The combined flags *)

(** After [n] steps of [iw_fold], bit [k] combines the bits [k], [k - sh],
    ..., [k - n * sh] of the flags. *)
Lemma iw_fold_bit f g n sh tmp k : (forall a b i, Z.testbit (f a b) i = g (Z.testbit a i) (Z.testbit b i)) -> 0 <= sh -> 0 <= k < 32 ->
  Z.testbit (iw_fold f (Z.of_nat n) sh tmp) k = foldl (fun b i => g b (Z.testbit tmp (k - sh * (i + 1)))) (Z.testbit tmp k) (seqZ 0 (Z.of_nat n)).
Proof.
  intros Hf Hs Hk. unfold iw_fold.
  set (step := fun (p : Z * Z) (_ : Z) => let t2 := shl_i32 p.2 sh in (f p.1 t2, t2)).
  enough (H : Z.testbit (foldl step (tmp, tmp) (seqZ 0 (Z.of_nat n))).1 k =
      foldl (fun b i => g b (Z.testbit tmp (k - sh * (i + 1)))) (Z.testbit tmp k) (seqZ 0 (Z.of_nat n)) /\
    forall j, j < 32 -> Z.testbit (foldl step (tmp, tmp) (seqZ 0 (Z.of_nat n))).2 j = Z.testbit tmp (j - sh * Z.of_nat n)) by apply H.
  induction n as [|n [IH1 IH2]].
  - cbn. split; [reflexivity|]. intros j Hj. f_equal. lia.
  - rewrite seqZ_S, !foldl_app. cbn [foldl]. unfold step at 1 3. cbn [fst snd]. unfold shl_i32, u32. split.
    + rewrite Hf, IH1. f_equal. rewrite Z.mod_pow2_bits_low, Z.shiftl_spec, IH2 by lia. f_equal. lia.
    + intros j Hj. rewrite Z.mod_pow2_bits_low by lia.
      destruct (Z.ltb_spec j 0); [rewrite !Z.testbit_neg_r by nia; reflexivity|].
      rewrite Z.shiftl_spec, IH2 by lia. f_equal. lia.
Qed.

(** Flag [f] (V, C, Z, N from 0) of a lane in wCASF: the flags of an element
    of [4 * 2^size] bits are the upper four of these bits. *)
Definition lane_flag (casf size f lane : Z) : bool := Z.testbit casf ((lane + 1) * (4 * 2 ^ size) - 4 + f).
Definition over_lanes (torc : bool) (casf size f : Z) : bool :=
  let lanes := seqZ 0 (2 ^ (3 - size)) in if torc then existsb (lane_flag casf size f) lanes else forallb (lane_flag casf size f) lanes.
Definition simd_flags (torc : bool) (casf size : Z) : nzcv :=
  {| fN := over_lanes torc casf size 3; fZ := over_lanes torc casf size 2; fC := over_lanes torc casf size 1; fV := over_lanes torc casf size 0 |}.
(** TANDC and TORC. *)
Definition flags_insn (torc : bool) (size : Z) : Z := (if torc then 0xee13f150 else 0xee13f130) + Z.shiftl size 22.

Definition bits_nzcv (w : Z) : nzcv := {| fN := Z.testbit w 31; fZ := Z.testbit w 30; fC := Z.testbit w 29; fV := Z.testbit w 28 |}.
Lemma nzcv_written w c : core_wf c -> exists c', cpsr_write w CPSR_NZCV c = Done (tt, c') /\ flags c' = bits_nzcv w.
Proof.
  intros Hc. unfold cpsr_write. erewrite bind_run by reflexivity. erewrite bind_run by reflexivity.
  assert (E : forall x, tst (Z.land x CPSR_NZCV) CPSR_M = false).
  { intros x. unfold tst. rewrite <- Z.land_assoc. change (Z.land CPSR_NZCV CPSR_M) with 0. rewrite Z.land_0_r. reflexivity. }
  rewrite E. erewrite bind_run by reflexivity. eexists. split; [reflexivity|].
  transitivity {| fN := Z.testbit w 31; fZ := Z.land (not32 w) CPSR_Z =? 0; fC := negb (Z.land (Z.shiftr w 29) 1 =? 0);
                  fV := Z.testbit (Z.land (u32 (Z.shiftl w 3)) 0x80000000) 31 |}; [reflexivity|]. unfold bits_nzcv. f_equal.
  - change CPSR_Z with (2 ^ 30). rewrite land_pow2 by lia. unfold not32. rewrite Z.lxor_spec.
    change (Z.testbit 0xffffffff 30) with true. destruct (Z.testbit w 30); reflexivity.
  - change 1 with (2 ^ 0) at 1. rewrite land_pow2, Z.shiftr_spec by lia. change (0 + 29) with 29. destruct (Z.testbit w 29); reflexivity.
  - rewrite Z.land_spec. change (Z.testbit 0x80000000 31) with true. rewrite andb_true_r. unfold u32.
    rewrite Z.mod_pow2_bits_low, Z.shiftl_spec by lia. reflexivity.
Qed.

(** The words TANDC and TORC set the flags from. *)
Lemma fold_flags (torc : bool) casf size : 0 <= size <= 2 ->
  bits_nzcv (iw_fold (if torc then Z.lor else Z.land) (if size =? 0 then 7 else if size =? 1 then 3 else 1)
    (if size =? 0 then 4 else if size =? 1 then 8 else 16) casf) = simd_flags torc casf size.
Proof.
  intros Hs.
  set (g := if torc then orb else andb).
  assert (Hg : forall a b i, Z.testbit ((if torc then Z.lor else Z.land) a b) i = g (Z.testbit a i) (Z.testbit b i))
    by (intros; unfold g; destruct torc; [apply Z.lor_spec|apply Z.land_spec]).
  unfold bits_nzcv, simd_flags, over_lanes, lane_flag.
  assert (size = 0 \/ size = 1 \/ size = 2) as [->|[->| ->]] by lia; cbn [Z.eqb Pos.eqb].
  1: change 7 with (Z.of_nat 7). 2: change 3 with (Z.of_nat 3) at 1 2 3 4. 3: change 1 with (Z.of_nat 1) at 1 2 3 4.
  all: rewrite !(iw_fold_bit _ g) by (exact Hg || lia); unfold g; generalize (Z.testbit casf); intros b; destruct torc; vm_compute.
  all: f_equal; repeat match goal with b : Z -> bool |- context [?f ?k] => constr_eq f b; destruct (b k) end; reflexivity.
Qed.

Section IwSpec.
Context (G0 : Guest) {HO : HostOps} {IH : IwmmxtHelpers} (stale32 stale64 : cpu_st -> Z).
#[local] Existing Instance iwbase_iw.

(** TANDC and TORC set the flags to the conjunction and the disjunction of
    the flags of all bytes, halfwords or words. *)
Lemma simd_flags_correct (torc : bool) size (r : @rt (iwbase G0)) : 0 <= size <= 2 -> core_wf (core r) ->
  exists r', disas_iwmmxt_insn (IB := iwbase_iw G0 stale32 stale64) (flags_insn torc size) r = Done (Go tt, r') /\
    flags (core r') = simd_flags torc (nthz (wcregs (rbus r).1) ARM_IWMMXT_wCASF) size /\ rbus r' = rbus r.
Proof.
  intros Hs Hc. set (casf := nthz (wcregs (rbus r).1) ARM_IWMMXT_wCASF).
  destruct (nzcv_written (iw_fold (if torc then Z.lor else Z.land) (if size =? 0 then 7 else if size =? 1 then 3 else 1)
    (if size =? 0 then 4 else if size =? 1 then 8 else 16) casf) (core r) Hc) as (c' & E & F).
  exists (set_core c' r). split; [|split; [etransitivity; [exact F|apply fold_flags, Hs]|reflexivity]].
  assert (D : disas_iwmmxt_insn (IB := iwbase_iw G0 stale32 stale64) (flags_insn torc size) r =
    iw_flags (IB := iwbase_iw G0 stale32 stale64) (if torc then Z.lor else Z.land) (flags_insn torc size) r)
    by (assert (size = 0 \/ size = 1 \/ size = 2) as [->|[->| ->]] by lia; destruct torc; reflexivity).
  rewrite D. clear D. unfold iw_flags.
  assert (Q : fld (flags_insn torc size) 22 3 = size /\ eqm (flags_insn torc size) 0x000ff00f 0x0003f000 = true)
    by (assert (size = 0 \/ size = 1 \/ size = 2) as [->|[->| ->]] by lia; destruct torc; split; reflexivity).
  destruct Q as [-> ->]. destruct r as [c ea ev eh [s b] d]. cbn [rbus core fst] in *.
  rewrite (proj2 (Z.eqb_neq size 3)) by lia.
  transitivity (gen_set_nzcv (iw_fold (if torc then Z.lor else Z.land) (if size =? 0 then 7 else if size =? 1 then 3 else 1)
    (if size =? 0 then 4 else if size =? 1 then 8 else 16) casf) {| core := c; excl_addr := ea; excl_val := ev; excl_high := eh; rbus := (s, b) : @bus (iwbase G0); dc := d |}).
  - destruct (size =? 0), (size =? 1); reflexivity.
  - unfold gen_set_nzcv, gen_set_cpsr, on_core. cbn [core]. rewrite E. reflexivity.
Qed.
End IwSpec.

(** ** The machine with both coprocessors *)
Section Media.
Context (G0 : Guest) {SF : Softfloat} {HO : HostOps} {IH : IwmmxtHelpers} {NH : NeonHelpers} (stale32 stale64 : cpu_st -> Z).

(** VFP and NEON over iWMMXt over [G0]: every instruction space the
    decoders of [translate.c] serve; all laws of user-mode code are those of
    [G0]. *)
Definition media_machine : Guest := neon_machine (iw_machine G0 stale32 stale64).
#[export] Instance media_machine_laws {GL : @GuestLaws G0} {NL : NeonLaws} : @GuestLaws media_machine :=
  neon_machine_laws (iw_machine G0 stale32 stale64).
End Media.

(** ** Corners *)

(** Helpers to evaluate with: the multiply-accumulate and the alignment of
    the instruction set; the rest is not used. *)
#[local] Instance demo_iw : IwmmxtHelpers := {|
  iwmmxt_op := fun _ a _ => a; iwmmxt_env := fun _ a _ s => (a, s); iwmmxt_env1 := fun _ a s => (a, s);
  iwmmxt_shift := fun _ a _ s => (a, s); iwmmxt_setpsr_nz := fun _ => 0;
  iwmmxt_align := fun a b n => Z.shiftr (a + b * 2 ^ 64) (n * 8);
  iwmmxt_insr := fun x a mask n => Z.lor (Z.ldiff x (Z.shiftl mask n)) (Z.shiftl (Z.land a mask) n);
  iwmmxt_bcst := fun _ a => a; iwmmxt_addc := fun _ a => a; iwmmxt_msb := fun _ a => a;
  iwmmxt_muladdsl := fun c a b => c + s32 a * s32 b; iwmmxt_muladdsw := fun c _ _ => c; iwmmxt_muladdswl := fun c _ _ => c |}.
#[local] Instance demo_iwbus : @IwBus (iwbase flat_guest) := iwbase_iw flat_guest (fun _ => 0x4440) (fun _ => 0).
(** Register [wRi] holds [f i]. *)
Definition iw_demo (f : Z -> Z) : @rt (iwbase flat_guest) :=
  let r := edge_rt ARM_CPU_MODE_USR [ARM_FEATURE_V5] true 0 0 in
  {| core := core r; excl_addr := excl_addr r; excl_val := excl_val r; excl_high := excl_high r;
     rbus := ({| wregs := f <$> seqZ 0 16; wcregs := replicate 16 0 |}, put32 0x20000 7 (put32 0x4440 5 (rbus r))) : @bus (iwbase flat_guest); dc := dc r |}.
Definition iw_peek {B} (m : @T (iwbase flat_guest) unit) (r : @rt (iwbase flat_guest)) (g : @rt (iwbase flat_guest) -> B) : option (flow unit * B) :=
  match m r with Done (f, r') => Some (f, g r') | _ => None end.
Definition wR (n : Z) (r : @rt (iwbase flat_guest)) : Z := nthz (wregs (rbus r).1) n.

(** TMCRR and TMRRC through wR3; a byte inserted with TINSR is read by
    TEXTRM. *)
Lemma iw_transfers : iw_peek (disas_iwmmxt_insn 0xec410003 ;* disas_iwmmxt_insn 0xec565003) (iw_demo u64)
    (fun r => (reg (core r) 5 =? reg (core r) 0, reg (core r) 6 =? reg (core r) 1)) = Some (Go tt, (true, true)) /\
  iw_peek (disas_iwmmxt_insn 0xee634012 ;* disas_iwmmxt_insn 0xee135072) (iw_demo u64)
    (fun r => (reg (core r) 4, reg (core r) 5, wR 3 r)) = Some (Go tt, (4, 4, 0x40003)).
Proof. split; vm_compute; reflexivity. Qed.

(** WANDN wR2, wR1, wR0 with wR0 = 1 and wR1 = 3: the result is 3 and not 2,
    since the operand is negated, not complemented. *)
Lemma wandn_negates : iw_peek (disas_iwmmxt_insn 0xee312000) (iw_demo (fun i => if i =? 0 then 1 else 3)) (wR 2) = Some (Go tt, 3) /\
  Z.land (Z.lnot 1) 3 = 2.
Proof. split; vm_compute; reflexivity. Qed.

(** WALIGNI by 4 bytes aligns by 0. *)
Lemma waligni_low_bits : iw_peek (disas_iwmmxt_insn 0xee412020) (iw_demo (fun i => 0x0807060504030201)) (wR 2) = Some (Go tt, 0x0807060504030201) /\
  u64 (iwmmxt_align 0x0807060504030201 0x0807060504030201 4) = 0x0403020108070605.
Proof. split; vm_compute; reflexivity. Qed.

(** MIA acc0, r2, r3 with acc0 = 100: the product without the
    accumulator. *)
Lemma mia_drops_accumulator : iw_peek (disas_dsp_insn 0xee202013) (iw_demo (fun i => 100)) (fun r => (reg (core r) 2 * reg (core r) 3, wR 0 r)) =
  Some (Go tt, (6, 6)).
Proof. vm_compute. reflexivity. Qed.

(** WLDRW wR2, [sp] in the unindexed encoding: the word comes from the
    address a temporary happens to hold (here 0x4440), not from [sp]. *)
Lemma unindexed_stale_address :
  iw_peek (disas_iwmmxt_insn 0xed9d2100) (iw_demo u64) (wR 2) = Some (Go tt, 7) /\
  iw_peek (disas_iwmmxt_insn 0xec9d2100) (iw_demo u64) (wR 2) = Some (Go tt, 5).
Proof. split; vm_compute; reflexivity. Qed.
