(* ===== verification/Driver.v ===== *)
(** * The Linux driver: [drivers/misc/variability.c] and its kernel hooks

    The kernel charges the device's counters to processes: on every context
    switch [vemu_process_out] adds the counters accumulated since the last
    switch-in to the task that leaves, [vemu_process_in] adds what the
    switch itself used to the system, and the fault register is saved and
    restored with the task.  Two system calls expose the counters and the
    device registers to user programs.

    The device is seen through the class [VemuDevice]; [DriverHw] shows that
    the emulator's device implements it. *)
From stdpp Require Import base list gmap relations.
From S2P Require Import Prelude State.
Open Scope Z_scope.

(** ** [variability.h] *)
Definition SET_FAULTS : Z := 0x000.
Definition SET_FREQUENCY : Z := SET_FAULTS + 8.
Definition SET_VOLTAGE : Z := SET_FREQUENCY + 8.
Definition READ_CMD : Z := 0xD00.
Definition EXIT_CMD : Z := 0xF00.
Definition READ_HW : Z := 0x1000000.
Definition READ_SYS : Z := 0x0100000.
Definition READ_PROC : Z := 0x0010000.
Definition VEMU_STATE_N_VARS : Z := MAX_INSTR_CLASSES * 3 + 8.
Definition EFAULT : Z := 14.

(** [vemu_state]: the union seen as [array64].  [fault_status],
    [frequency] and [voltage] are the last three words. *)
Definition vemu_state : Type := list Z.
Definition zero_state : vemu_state := replicate 20 0.
Definition word (s : vemu_state) (i : Z) : Z := nth (Z.to_nat i) s 0.
#[global] Arguments word : simpl never.
Definition fault_status : Z := 17.
Definition frequency : Z := 18.
Definition voltage : Z := 19.

(** The words of a byte string copied into the union. *)
Definition words64 (bs : list Z) : vemu_state := get64 bs <$> seqZ 0 20.

(** ** The interfaces to the device and to user memory *)

(** A memory-mapped device: 32-bit writes, byte-string reads, and the
    changes it undergoes by itself while the machine runs. *)
Class VemuDevice := {
  dev : Type;
  dev_write32 : Z -> Z -> dev -> outcome dev;
  dev_read : Z -> Z -> dev -> outcome (list Z);
  dev_run : dev -> dev -> Prop
}.

(** What the driver relies on: the fault register is what was last written
    to it, the other registers, time and snapshots leave it alone, and a
    snapshot shows it.  [dev_ok] is the device's own invariant. *)
Class VemuDeviceLaws `{VemuDevice} := {
  fault_reg : dev -> Z;
  dev_ok : dev -> Prop;
  law_ok_write d d' off v : dev_ok d -> dev_write32 off v d = Done d' -> dev_ok d';
  law_ok_run d d' : dev_ok d -> dev_run d d' -> dev_ok d';
  law_set_faults d d' v : is_u32 v -> dev_write32 SET_FAULTS v d = Done d' -> fault_reg d' = v;
  law_other d d' off v : off <> SET_FAULTS -> dev_write32 off v d = Done d' -> fault_reg d' = fault_reg d;
  law_run d d' : dev_run d d' -> fault_reg d' = fault_reg d;
  law_latch d d' v bs : dev_ok d -> is_u64 (fault_reg d) -> dev_write32 READ_CMD v d = Done d' ->
    dev_read 0 160 d' = Done bs -> get64 bs 17 = fault_reg d
}.

(** [copy_to_user] and [copy_from_user]: a user pointer is writable or not,
    and reads as a 64-bit value or faults. *)
Class UserMem := { user_writable : Z -> bool; user_u64 : Z -> option Z }.

(** ** The driver's variables and the tasks *)
Section Ops.
Context {DEV : VemuDevice} {UM : UserMem}.

Record kst : Type := {
  base_pointer : Z;
  vemu_state_pin : vemu_state;
  vemu_state_pout : vemu_state;
  vemu_state_sys : vemu_state;
  vemu_state_tmp : vemu_state;
  tasks : gmap Z vemu_state;       (* task_struct.vemu, by process id *)
  current : Z;
  device : dev
}.

Definition set_base x (k : kst) : kst :=
  {| base_pointer := x; vemu_state_pin := vemu_state_pin k; vemu_state_pout := vemu_state_pout k;
     vemu_state_sys := vemu_state_sys k; vemu_state_tmp := vemu_state_tmp k; tasks := tasks k;
     current := current k; device := device k |}.
Definition set_pin x (k : kst) : kst :=
  {| base_pointer := base_pointer k; vemu_state_pin := x; vemu_state_pout := vemu_state_pout k;
     vemu_state_sys := vemu_state_sys k; vemu_state_tmp := vemu_state_tmp k; tasks := tasks k;
     current := current k; device := device k |}.
Definition set_pout x (k : kst) : kst :=
  {| base_pointer := base_pointer k; vemu_state_pin := vemu_state_pin k; vemu_state_pout := x;
     vemu_state_sys := vemu_state_sys k; vemu_state_tmp := vemu_state_tmp k; tasks := tasks k;
     current := current k; device := device k |}.
Definition set_sys x (k : kst) : kst :=
  {| base_pointer := base_pointer k; vemu_state_pin := vemu_state_pin k; vemu_state_pout := vemu_state_pout k;
     vemu_state_sys := x; vemu_state_tmp := vemu_state_tmp k; tasks := tasks k;
     current := current k; device := device k |}.
Definition set_tmp x (k : kst) : kst :=
  {| base_pointer := base_pointer k; vemu_state_pin := vemu_state_pin k; vemu_state_pout := vemu_state_pout k;
     vemu_state_sys := vemu_state_sys k; vemu_state_tmp := x; tasks := tasks k;
     current := current k; device := device k |}.
Definition set_tasks x (k : kst) : kst :=
  {| base_pointer := base_pointer k; vemu_state_pin := vemu_state_pin k; vemu_state_pout := vemu_state_pout k;
     vemu_state_sys := vemu_state_sys k; vemu_state_tmp := vemu_state_tmp k; tasks := x;
     current := current k; device := device k |}.
Definition set_current x (k : kst) : kst :=
  {| base_pointer := base_pointer k; vemu_state_pin := vemu_state_pin k; vemu_state_pout := vemu_state_pout k;
     vemu_state_sys := vemu_state_sys k; vemu_state_tmp := vemu_state_tmp k; tasks := tasks k;
     current := x; device := device k |}.
Definition set_device x (k : kst) : kst :=
  {| base_pointer := base_pointer k; vemu_state_pin := vemu_state_pin k; vemu_state_pout := vemu_state_pout k;
     vemu_state_sys := vemu_state_sys k; vemu_state_tmp := vemu_state_tmp k; tasks := tasks k;
     current := current k; device := x |}.

(** [iowrite32] and [ioread32] at an offset of the window that [ioremap]
    mapped, 0x1000 bytes long; elsewhere the address is not mapped. *)
Definition in_window (off n : Z) : bool := (0 <=? off) && (off + n <=? 0x1000).

Definition iowrite32 (val off : Z) : M kst unit :=
  let! d := gets device in
  if in_window off 4 then
    match dev_write32 off (u32 val) d with
    | Done d' => modify (set_device d')
    | AssertFailed => fun _ => AssertFailed
    | Undefined => undefined
    | Exited c => mexit c
    end
  else undefined.

Definition memcpy_fromio (off n : Z) : M kst (list Z) :=
  let! d := gets device in
  if in_window off n then
    match dev_read off n d with
    | Done bs => ret bs
    | AssertFailed => fun _ => AssertFailed
    | Undefined => undefined
    | Exited c => mexit c
    end
  else undefined.

Definition ioread32 (off : Z) : M kst Z := let! bs := memcpy_fromio off 4 in ret (le_val bs).

(** [vemu_read_state(target)]: the new contents of [target]. *)
Definition vemu_read_state (target : vemu_state) : M kst vemu_state :=
  let! b := gets base_pointer in
  if b =? 0 then ret target
  else
    iowrite32 1 READ_CMD ;;
    let! bs := memcpy_fromio 0 (VEMU_STATE_N_VARS * 8) in
    ret (words64 bs).

Definition vemu_reg_read (offset : Z) : M kst Z :=
  let! b := gets base_pointer in
  if b =? 0 then ret 0
  else
    let! lo := ioread32 offset in
    let! hi := ioread32 (offset + 4) in
    ret (u64 (u64 (Z.shiftl hi 32) + lo)).

Definition vemu_reg_write (offset val : Z) : M kst unit :=
  let! b := gets base_pointer in
  if b =? 0 then ret tt else iowrite32 (u32 val) offset.

(** [target->array64[i] += new->array64[i] - old->array64[i]] for
    [i < VEMU_STATE_N_VARS - 3]. *)
Definition vemu_add_delta (target new old : vemu_state) : vemu_state :=
  fold_left (fun t i => zset t i (u64 (word t i + u64 (word new i - word old i))))
    (seqZ 0 (VEMU_STATE_N_VARS - 3)) target.

(** [current->vemu] *)
Definition get_current : M kst vemu_state :=
  let! k := gets id in defined (tasks k !! current k).
Definition put_current (s : vemu_state) : M kst unit :=
  modify (fun k => set_tasks (<[current k := s]> (tasks k)) k).

Definition vemu_process_in : M kst unit :=
  (let! p := gets vemu_state_pin in let! p' := vemu_read_state p in modify (set_pin p')) ;;
  let! k := gets id in
  modify (set_sys (vemu_add_delta (vemu_state_sys k) (vemu_state_pin k) (vemu_state_pout k))) ;;
  let! c := get_current in
  vemu_reg_write SET_FAULTS (word c fault_status).

Definition vemu_process_out : M kst unit :=
  (let! p := gets vemu_state_pout in let! p' := vemu_read_state p in modify (set_pout p')) ;;
  let! k := gets id in
  (let! c := get_current in put_current (vemu_add_delta c (vemu_state_pout k) (vemu_state_pin k))) ;;
  (let! c := get_current in put_current (zset c fault_status (word (vemu_state_pout k) fault_status))) ;;
  (let! c := get_current in put_current (zset c frequency (word (vemu_state_pout k) frequency))) ;;
  (let! c := get_current in put_current (zset c voltage (word (vemu_state_pout k) voltage))).

Definition has_flag (offset flag : Z) : bool := negb (Z.land offset flag =? 0).

(** The result and, on success, the state copied to user memory. *)
Definition copy_out (dest : Z) (src : vemu_state) : M kst (Z * option vemu_state) :=
  if user_writable dest then ret (0, Some src) else ret (- EFAULT, None).

Definition sys_var_reg_read (offset dest : Z) : M kst (Z * option vemu_state) :=
  if has_flag offset READ_HW then
    let! t := gets vemu_state_tmp in
    let! t' := vemu_read_state t in
    modify (set_tmp t') ;;
    copy_out dest t'
  else if has_flag offset READ_PROC then
    vemu_process_out ;;
    vemu_process_in ;;
    let! c := get_current in
    copy_out dest c
  else if has_flag offset READ_SYS then
    let! s := gets vemu_state_sys in
    copy_out dest s
  else ret (- EFAULT, None).

(** [offset] is an [int]; [%] is the C remainder. *)
Definition sys_var_reg_write (offset val : Z) : M kst Z :=
  if (0x1000 <? offset) || negb (Z.rem offset 8 =? 0) then ret (- EFAULT)
  else
    match user_u64 val with
    | None => ret (- EFAULT)
    | Some myval => vemu_reg_write offset myval ;; ret 0
    end.

(** [base] is the address [ioremap] returns, 0 if it fails. *)
Definition variability_init (base : Z) : M kst Z :=
  modify (set_base base) ;;
  modify (set_pin zero_state) ;;
  modify (set_pout zero_state) ;;
  modify (set_sys zero_state) ;;
  modify (set_tmp zero_state) ;;
  ret 0.

(** [dup_task_struct]: the accounting of a new task starts at zero. *)
Definition dup_task_struct (child : Z) : M kst unit :=
  modify (fun k => set_tasks (<[child := zero_state]> (tasks k)) k).
End Ops.
#[global] Arguments vemu_read_state : simpl never.
#[global] Arguments vemu_reg_write : simpl never.
#[global] Arguments vemu_process_in : simpl never.
#[global] Arguments vemu_process_out : simpl never.

(** ** Words of a state *)

Definition state_wf (s : vemu_state) : Prop := length s = 20%nat.

Lemma word_zset s i v j : state_wf s -> 0 <= i < 20 -> 0 <= j < 20 ->
  word (zset s i v) j = if j =? i then v else word s j.
Proof.
  unfold state_wf, word, zset. intros Hs Hi Hj.
  destruct (Z.eqb_spec j i) as [->|Hne].
  - apply nth_lookup_Some, list_lookup_insert_eq. lia.
  - destruct (lookup_lt_is_Some_2 s (Z.to_nat j)) as [x Hx]; [lia|].
    rewrite (nth_lookup_Some _ _ 0 _ Hx). apply nth_lookup_Some. rewrite list_lookup_insert_ne by lia. exact Hx.
Qed.

Lemma words64_wf bs : state_wf (words64 bs).
Proof. unfold state_wf, words64. rewrite length_fmap, length_seqZ. reflexivity. Qed.

Lemma word_words64 bs i : 0 <= i < 20 -> word (words64 bs) i = get64 bs i.
Proof.
  intros Hi. unfold word, words64. apply nth_lookup_Some. rewrite list_lookup_fmap, lookup_seqZ_lt by lia. cbn.
  do 2 f_equal. lia.
Qed.

(** A loop that assigns each listed word a function of its old value. *)
Lemma word_fold (f : Z -> Z -> Z) l : NoDup l -> Forall (fun i => 0 <= i < 20) l -> forall t, state_wf t ->
  let t' := fold_left (fun t i => zset t i (f i (word t i))) l t in
  state_wf t' /\ forall i, 0 <= i < 20 -> word t' i = if decide (i ∈ l) then f i (word t i) else word t i.
Proof.
  induction l as [|a l IH]; intros Hnd Hl t Ht; cbn [fold_left].
  - split; [exact Ht|]. intros i _. rewrite decide_False by apply not_elem_of_nil. reflexivity.
  - apply NoDup_cons in Hnd as [Ha Hnd]. apply Forall_cons in Hl as [Hra Hl].
    destruct (IH Hnd Hl (zset t a (f a (word t a)))) as [W E]; [unfold state_wf; rewrite length_zset; exact Ht|].
    split; [exact W|]. intros i Hi. rewrite E by exact Hi. rewrite word_zset by assumption.
    destruct (Z.eqb_spec i a) as [->|Hne].
    + rewrite decide_False by exact Ha. rewrite decide_True by apply list_elem_of_here. reflexivity.
    + rewrite (decide_ext (i ∈ a :: l) (i ∈ l)); [reflexivity|]. rewrite elem_of_cons. tauto.
Qed.

(** The first [n] words. *)
Lemma word_loop (f : Z -> Z -> Z) n t : state_wf t -> 0 <= n <= 20 ->
  let t' := fold_left (fun t i => zset t i (f i (word t i))) (seqZ 0 n) t in
  state_wf t' /\ forall i, 0 <= i < 20 -> word t' i = if i <? n then f i (word t i) else word t i.
Proof.
  intros Ht Hn. destruct (word_fold f (seqZ 0 n) (NoDup_seqZ 0 n)) with (t := t) as [W E]; [|exact Ht|].
  { apply Forall_forall. intros x Hx. apply elem_of_seqZ in Hx. lia. }
  split; [exact W|]. intros i Hi. rewrite E by exact Hi. destruct (Z.ltb_spec i n).
  - rewrite decide_True by (apply elem_of_seqZ; lia). reflexivity.
  - rewrite decide_False by (rewrite elem_of_seqZ; lia). reflexivity.
Qed.

(** The counters move by the difference, the last three words stay. *)
Lemma add_delta_spec t new old : state_wf t -> state_wf (vemu_add_delta t new old) /\
  forall i, 0 <= i < 20 -> word (vemu_add_delta t new old) i =
    if i <? 17 then u64 (word t i + (word new i - word old i)) else word t i.
Proof.
  intros Ht. destruct (word_loop (fun i x => u64 (x + u64 (word new i - word old i))) 17 t Ht ltac:(lia)) as [W E].
  split; [exact W|]. intros i Hi. unfold vemu_add_delta. change (VEMU_STATE_N_VARS - 3) with 17.
  rewrite E by exact Hi. destruct (Z.ltb_spec i 17); [|reflexivity]. apply u64_eq64. rewrite u64_eq64_id. reflexivity.
Qed.

(** ** What the hooks do *)
Section Facts.
Context {DEV : VemuDevice} {UM : UserMem}.
Implicit Types k : kst.

Lemma iowrite32_Done v off k r k' : iowrite32 v off k = Done (r, k') ->
  exists d, dev_write32 off (u32 v) (device k) = Done d /\ k' = set_device d k.
Proof.
  unfold iowrite32, bind, gets, modify. destruct (in_window off 4); [|discriminate].
  destruct (dev_write32 _ _ _) as [d| | |]; try discriminate. intros [= <- <-]. eauto.
Qed.

Lemma memcpy_fromio_Done off n k bs k' : memcpy_fromio off n k = Done (bs, k') ->
  dev_read off n (device k) = Done bs /\ k' = k.
Proof.
  unfold memcpy_fromio, bind, gets, ret. destruct (in_window off n); [|discriminate].
  destruct (dev_read _ _ _) as [b| | |]; try discriminate. intros [= <- <-]. auto.
Qed.

(** A read either does nothing, before [ioremap], or is a snapshot. *)
Lemma read_state_Done t k t' k' : vemu_read_state t k = Done (t', k') ->
  (base_pointer k = 0 /\ t' = t /\ k' = k) \/
  (base_pointer k <> 0 /\ exists d bs, dev_write32 READ_CMD 1 (device k) = Done d /\ dev_read 0 160 d = Done bs /\
     t' = words64 bs /\ k' = set_device d k).
Proof.
  unfold vemu_read_state. intros H. mruns; [left; apply Z.eqb_eq in Hif; auto|right].
  apply Z.eqb_neq in Hif. split; [exact Hif|].
  match goal with H : iowrite32 _ _ _ = _ |- _ => apply iowrite32_Done in H as (d & Hd & ->) end.
  match goal with H : memcpy_fromio _ _ _ = _ |- _ => apply memcpy_fromio_Done in H as [Hb ->] end.
  exists d. eexists. split; [exact Hd|]. split; [exact Hb|]. split; reflexivity.
Qed.

Lemma read_state_wf t k t' k' : vemu_read_state t k = Done (t', k') -> state_wf t -> state_wf t'.
Proof.
  intros H Ht. apply read_state_Done in H as [(_ & -> & _)|(_ & d & bs & _ & _ & -> & _)]; [exact Ht|apply words64_wf].
Qed.

Lemma read_state_frame t k t' k' : vemu_read_state t k = Done (t', k') -> k' = set_device (device k') k.
Proof.
  intros H. apply read_state_Done in H as [(_ & _ & ->)|(_ & d & bs & _ & _ & _ & ->)]; destruct k; reflexivity.
Qed.

Lemma reg_write_Done off v k r k' : vemu_reg_write off v k = Done (r, k') ->
  (base_pointer k = 0 /\ k' = k) \/
  (base_pointer k <> 0 /\ exists d, dev_write32 off (u32 v) (device k) = Done d /\ k' = set_device d k).
Proof.
  unfold vemu_reg_write. intros H. mruns; [left; apply Z.eqb_eq in Hif; auto|right].
  apply Z.eqb_neq in Hif. split; [exact Hif|].
  match goal with H : iowrite32 _ _ _ = _ |- _ => apply iowrite32_Done in H as (d & Hd & ->) end.
  exists d. split; [|reflexivity]. rewrite <- Hd. f_equal. symmetry. apply u32_u32.
Qed.

(** The task that leaves, after [vemu_process_out]. *)
Definition left_task (c pout pin : vemu_state) : vemu_state :=
  zset (zset (zset (vemu_add_delta c pout pin) fault_status (word pout fault_status))
    frequency (word pout frequency)) voltage (word pout voltage).

Lemma left_task_spec c pout pin : state_wf c -> state_wf (left_task c pout pin) /\
  forall i, 0 <= i < 20 -> word (left_task c pout pin) i =
    if i <? 17 then u64 (word c i + (word pout i - word pin i)) else word pout i.
Proof.
  intros Hc. destruct (add_delta_spec c pout pin Hc) as [W E]. unfold left_task, fault_status, frequency, voltage.
  assert (Hz : forall s i v, state_wf s -> state_wf (zset s i v)) by (intros; unfold state_wf; rewrite length_zset; assumption).
  split; [auto|]. intros i Hi. rewrite !word_zset by (auto; lia). rewrite E by exact Hi.
  destruct (Z.ltb_spec i 17), (Z.eqb_spec i 19), (Z.eqb_spec i 18), (Z.eqb_spec i 17); subst; try reflexivity; lia.
Qed.

Lemma get_current_Done k c k' : get_current k = Done (c, k') -> tasks k !! current k = Some c /\ k' = k.
Proof. unfold get_current. intros H. mruns. auto. Qed.

Lemma process_out_Done k r k' : vemu_process_out k = Done (r, k') ->
  exists pout k1 c, vemu_read_state (vemu_state_pout k) k = Done (pout, k1) /\ tasks k !! current k = Some c /\
    k' = set_tasks (<[current k := left_task c pout (vemu_state_pin k)]> (tasks k)) (set_pout pout k1).
Proof.
  unfold vemu_process_out, put_current. intros H. mruns.
  match goal with H : vemu_read_state _ _ = Done (?p, ?k1) |- _ =>
    exists p, k1; pose proof (read_state_frame _ _ _ _ H) as Ek; rename H into Hread end.
  repeat match goal with H : get_current _ = _ |- _ => apply get_current_Done in H as [? ->] end.
  rewrite Ek in *. cbn in *. rewrite !lookup_insert_eq in *. simplify_eq.
  eexists. split; [exact Hread|]. split; [eassumption|]. cbn.
  unfold left_task. rewrite !insert_insert_eq. reflexivity.
Qed.

Lemma process_in_Done k r k' : vemu_process_in k = Done (r, k') ->
  exists pin k1 c k2, vemu_read_state (vemu_state_pin k) k = Done (pin, k1) /\ tasks k !! current k = Some c /\
    k2 = set_sys (vemu_add_delta (vemu_state_sys k) pin (vemu_state_pout k)) (set_pin pin k1) /\
    vemu_reg_write SET_FAULTS (word c fault_status) k2 = Done (r, k').
Proof.
  unfold vemu_process_in. intros H. mruns.
  match goal with H : vemu_read_state _ _ = Done (?p, ?k1) |- _ =>
    exists p, k1; pose proof (read_state_frame _ _ _ _ H) as Ek; rename H into Hread end.
  match goal with H : get_current _ = _ |- _ => apply get_current_Done in H as [Hc ->] end.
  rewrite Ek in *. cbn in *. do 2 eexists. split; [exact Hread|]. split; [exact Hc|]. split; [reflexivity|assumption].
Qed.
End Facts.

(** ** The kernel as a transition system *)
Section Kernel.
Context {DEV : VemuDevice} {UM : UserMem}.

Inductive kphase : Type := Running | Switching.

(** [reaped] is the accounting of the tasks that were freed. *)
Record world : Type := { kern : kst; phase : kphase; reaped : list vemu_state }.

(** What an outside observer sees of a step. *)
Inductive event : Type :=
| EvTau
| EvWrite (pid offset val : Z)
| EvFork (child : Z)
| EvExit (pid : Z).

(** [prepare_task_switch] runs [vemu_process_out] for the task that leaves,
    [finish_task_switch] runs [vemu_process_in] once [current] is the next
    task; in between, as everywhere, the device runs on.  The module is
    initialised once; a task is freed when it no longer runs. *)
Inductive kstep : event -> world -> world -> Prop :=
| k_run k ph l d : dev_run (device k) d -> kstep EvTau {| kern := k; phase := ph; reaped := l |}
    {| kern := set_device d k; phase := ph; reaped := l |}
| k_out k l k' : vemu_process_out k = Done (tt, k') ->
    kstep EvTau {| kern := k; phase := Running; reaped := l |} {| kern := k'; phase := Switching; reaped := l |}
| k_in k l next k' : vemu_process_in (set_current next k) = Done (tt, k') ->
    kstep EvTau {| kern := k; phase := Switching; reaped := l |} {| kern := k'; phase := Running; reaped := l |}
| k_fork k l ph child k' : tasks k !! child = None -> dup_task_struct child k = Done (tt, k') ->
    kstep (EvFork child) {| kern := k; phase := ph; reaped := l |} {| kern := k'; phase := ph; reaped := l |}
| k_exit k l ph pid v : tasks k !! pid = Some v -> pid <> current k ->
    kstep (EvExit pid) {| kern := k; phase := ph; reaped := l |}
      {| kern := set_tasks (delete pid (tasks k)) k; phase := ph; reaped := v :: l |}
| k_read k l off dest r k' : sys_var_reg_read off dest k = Done (r, k') ->
    kstep EvTau {| kern := k; phase := Running; reaped := l |} {| kern := k'; phase := Running; reaped := l |}
| k_write k l off ptr v k' : user_u64 ptr = Some v -> sys_var_reg_write off ptr k = Done (0, k') ->
    kstep (EvWrite (current k) off v) {| kern := k; phase := Running; reaped := l |}
      {| kern := k'; phase := Running; reaped := l |}
| k_write_err k l off ptr k' : sys_var_reg_write off ptr k = Done (- EFAULT, k') ->
    kstep EvTau {| kern := k; phase := Running; reaped := l |} {| kern := k'; phase := Running; reaped := l |}
| k_init k l base k' : base_pointer k = 0 -> variability_init base k = Done (0, k') ->
    kstep EvTau {| kern := k; phase := Running; reaped := l |} {| kern := k'; phase := Running; reaped := l |}.

Inductive ksteps : list event -> world -> world -> Prop :=
| ks_nil w : ksteps [] w w
| ks_snoc evs e w w1 w2 : ksteps evs w w1 -> kstep e w1 w2 -> ksteps (evs ++ [e]) w w2.

(** The kernel boots with its first task and zeroed variables. *)
Definition boot (pid : Z) (d : dev) : world := {|
  kern := {| base_pointer := 0; vemu_state_pin := zero_state; vemu_state_pout := zero_state;
             vemu_state_sys := zero_state; vemu_state_tmp := zero_state; tasks := {[pid := zero_state]};
             current := pid; device := d |};
  phase := Running; reaped := [] |}.

(** ** Conservation *)

(** Everything charged so far for counter [i]. *)
Definition charged_total (w : world) (i : Z) : Z :=
  msum (fun s => word s i) (tasks (kern w)) + zsum ((fun s => word s i) <$> reaped w) + word (vemu_state_sys (kern w)) i.

(** The device's counter at the last reading. *)
Definition last_reading (w : world) (i : Z) : Z :=
  match phase w with Running => word (vemu_state_pin (kern w)) i | Switching => word (vemu_state_pout (kern w)) i end.

Definition zero_counters (s : vemu_state) : Prop := forall i, 0 <= i < 17 -> word s i = 0.

Record kinv (w : world) : Prop := {
  ki_pin : state_wf (vemu_state_pin (kern w));
  ki_pout : state_wf (vemu_state_pout (kern w));
  ki_sys : state_wf (vemu_state_sys (kern w));
  ki_tasks : map_Forall (fun _ s => state_wf s) (tasks (kern w));
  ki_sum : forall i, 0 <= i < 17 -> charged_total w i ≡64 last_reading w i;
  ki_before : base_pointer (kern w) = 0 ->
    zero_counters (vemu_state_pin (kern w)) /\ zero_counters (vemu_state_pout (kern w)) /\
    zero_counters (vemu_state_sys (kern w)) /\ map_Forall (fun _ s => zero_counters s) (tasks (kern w)) /\
    Forall zero_counters (reaped w)
}.

Lemma zero_counters_zero : zero_counters zero_state.
Proof. intros i Hi. unfold word, zero_state. apply nth_lookup_Some, lookup_replicate. lia. Qed.

Lemma zero_delta t n o : state_wf t -> zero_counters t -> zero_counters n -> zero_counters o ->
  zero_counters (vemu_add_delta t n o).
Proof.
  intros Hw Ht Hn Ho i Hi. destruct (add_delta_spec t n o Hw) as [_ ->]; [|lia].
  destruct (Z.ltb_spec i 17); [|lia]. rewrite Ht, Hn, Ho by exact Hi. reflexivity.
Qed.

Lemma kinv_boot pid d : kinv (boot pid d).
Proof.
  split; try reflexivity.
  - cbn. intros j s Hs. apply lookup_singleton_Some in Hs as [_ <-]. reflexivity.
  - intros i Hi. unfold charged_total, last_reading. cbn -[zero_state word].
    rewrite <- insert_empty, msum_new, msum_empty by reflexivity. rewrite zero_counters_zero by exact Hi. reflexivity.
  - intros _. cbn. split_and!; try apply zero_counters_zero; [|constructor].
    intros j s Hs. apply lookup_singleton_Some in Hs as [_ <-]. apply zero_counters_zero.
Qed.

(** A step that changes only the device and the scratch snapshot. *)
Lemma kinv_scratch k ph l d t : kinv {| kern := k; phase := ph; reaped := l |} ->
  kinv {| kern := set_tmp t (set_device d k); phase := ph; reaped := l |}.
Proof. intros [? ? ? ? ? ?]. split; assumption. Qed.

Lemma kinv_device k ph l d : kinv {| kern := k; phase := ph; reaped := l |} ->
  kinv {| kern := set_device d k; phase := ph; reaped := l |}.
Proof. intros [? ? ? ? ? ?]. split; assumption. Qed.

Lemma kinv_out k l k' : kinv {| kern := k; phase := Running; reaped := l |} -> vemu_process_out k = Done (tt, k') ->
  kinv {| kern := k'; phase := Switching; reaped := l |}.
Proof.
  intros [Wi Wo Ws Wt HS HB] H. cbn in *. apply process_out_Done in H as (pout & k1 & c & Hr & Hc & ->).
  pose proof (read_state_wf _ _ _ _ Hr Wo) as Wp. pose proof (read_state_frame _ _ _ _ Hr) as Ek.
  pose proof (Wt _ _ Hc) as Wc. destruct (left_task_spec c pout (vemu_state_pin k) Wc) as [Wl El].
  rewrite Ek. split; cbn; try assumption.
  - apply map_Forall_insert_2; assumption.
  - intros i Hi. specialize (HS i Hi). unfold charged_total, last_reading in *. cbn in *.
    rewrite (msum_update _ _ _ _ _ Hc), El by lia. destruct (Z.ltb_spec i 17); [|lia].
    rewrite u64_eq64_id. eapply eq64_move; [exact HS|lia].
  - intros Hb. destruct (HB Hb) as (B1 & B2 & B3 & B4 & B5).
    apply read_state_Done in Hr as [(_ & -> & _)|(Hne & _)]; [|contradiction].
    split_and!; try assumption. apply map_Forall_insert_2; [|assumption].
    intros i Hi. rewrite El by lia. destruct (Z.ltb_spec i 17); [|lia].
    rewrite (B4 _ _ Hc), B1, B2 by exact Hi. reflexivity.
Qed.

Lemma kinv_in k l next k' : kinv {| kern := k; phase := Switching; reaped := l |} ->
  vemu_process_in (set_current next k) = Done (tt, k') -> kinv {| kern := k'; phase := Running; reaped := l |}.
Proof.
  intros [Wi Wo Ws Wt HS HB] H. cbn in *. apply process_in_Done in H as (pin & k1 & c & k2 & Hr & Hc & -> & Hw).
  pose proof (read_state_wf _ _ _ _ Hr Wi) as Wp. pose proof (read_state_frame _ _ _ _ Hr) as Ek. cbn in *.
  assert (E' : exists d, k' = set_device d (set_sys (vemu_add_delta (vemu_state_sys k) pin (vemu_state_pout k)) (set_pin pin (set_current next k)))).
  { rewrite Ek in Hw. apply reg_write_Done in Hw as [[_ ->]|(_ & d & _ & ->)]; eexists; reflexivity. }
  destruct E' as [d ->]. destruct (add_delta_spec (vemu_state_sys k) pin (vemu_state_pout k) Ws) as [Wd Ed].
  split; cbn; try assumption.
  - intros i Hi. specialize (HS i Hi). unfold charged_total, last_reading in *. cbn in *.
    rewrite Ed by lia. destruct (Z.ltb_spec i 17); [|lia].
    rewrite u64_eq64_id. eapply eq64_move; [exact HS|lia].
  - intros Hb. destruct (HB Hb) as (B1 & B2 & B3 & B4 & B5).
    apply read_state_Done in Hr as [(_ & -> & _)|(Hne & _)]; [|contradiction]. cbn.
    split_and!; try assumption. apply zero_delta; assumption.
Qed.

Lemma kinv_read k l off dest r k' : kinv {| kern := k; phase := Running; reaped := l |} ->
  sys_var_reg_read off dest k = Done (r, k') -> kinv {| kern := k'; phase := Running; reaped := l |}.
Proof.
  intros Hk H. unfold sys_var_reg_read, copy_out in H. mruns; try exact Hk.
  1,2: match goal with H : vemu_read_state _ _ = _ |- _ => apply read_state_frame in H as -> end;
    apply kinv_scratch, Hk.
  all: match goal with H : get_current _ = _ |- _ => apply get_current_Done in H as [_ ->] end;
    match goal with Hin : vemu_process_in ?s = Done (?u, ?x), Hout : vemu_process_out _ = Done (?v, ?s) |- kinv {| kern := ?x |} =>
      destruct u, v; eapply (kinv_in s _ (current s)); [exact (kinv_out _ _ _ Hk Hout)|];
      replace (set_current (current s) s) with s by (destruct s; reflexivity); exact Hin end.
Qed.

Lemma kinv_write k l off ptr r k' : kinv {| kern := k; phase := Running; reaped := l |} ->
  sys_var_reg_write off ptr k = Done (r, k') -> kinv {| kern := k'; phase := Running; reaped := l |}.
Proof.
  intros Hk H. unfold sys_var_reg_write in H. mruns; [exact Hk|]. destruct (user_u64 ptr); mruns; [|exact Hk].
  match goal with H : vemu_reg_write _ _ _ = _ |- _ => apply reg_write_Done in H as [[_ ->]|(_ & d & _ & ->)] end;
    [exact Hk|apply kinv_device, Hk].
Qed.

Lemma kinv_fork k ph l child : kinv {| kern := k; phase := ph; reaped := l |} -> tasks k !! child = None ->
  kinv {| kern := set_tasks (<[child := zero_state]> (tasks k)) k; phase := ph; reaped := l |}.
Proof.
  intros [Wi Wo Ws Wt HS HB] Hc. cbn in *. split; cbn; try assumption.
  - apply map_Forall_insert_2; [reflexivity|assumption].
  - intros i Hi. specialize (HS i Hi). unfold charged_total, last_reading in *. cbn in *.
    rewrite msum_new by exact Hc. rewrite zero_counters_zero by exact Hi. exact HS.
  - intros Hb. destruct (HB Hb) as (B1 & B2 & B3 & B4 & B5). split_and!; try assumption.
    apply map_Forall_insert_2; [apply zero_counters_zero|assumption].
Qed.

Lemma kinv_exit k ph l pid v : kinv {| kern := k; phase := ph; reaped := l |} -> tasks k !! pid = Some v ->
  kinv {| kern := set_tasks (delete pid (tasks k)) k; phase := ph; reaped := v :: l |}.
Proof.
  intros [Wi Wo Ws Wt HS HB] Hc. cbn in *. split; cbn; try assumption.
  - apply map_Forall_delete. assumption.
  - intros i Hi. specialize (HS i Hi). unfold charged_total, last_reading in *. cbn in *.
    rewrite (msum_delete _ _ _ _ Hc) in HS. rewrite <- HS. unfold eq64. f_equal. lia.
  - intros Hb. destruct (HB Hb) as (B1 & B2 & B3 & B4 & B5). split_and!; try assumption.
    + apply map_Forall_delete. assumption.
    + constructor; [exact (B4 _ _ Hc)|assumption].
Qed.

Lemma msum_zero f (m : gmap Z vemu_state) : map_Forall (fun _ s => f s = 0) m -> msum f m = 0.
Proof.
  intros H. unfold msum. induction m as [|j s m Hj Hm IH] using map_first_key_ind.
  - apply map_fold_empty.
  - fold (msum f (<[j := s]> m)). rewrite msum_new by exact Hj. apply map_Forall_insert in H as [H1 H2]; [|exact Hj].
    unfold msum. rewrite H1, IH by exact H2. reflexivity.
Qed.

Lemma kinv_init k l base k' : kinv {| kern := k; phase := Running; reaped := l |} -> base_pointer k = 0 ->
  variability_init base k = Done (0, k') -> kinv {| kern := k'; phase := Running; reaped := l |}.
Proof.
  intros [Wi Wo Ws Wt HS HB] Hb H. cbn in *. unfold variability_init in H. mruns.
  destruct (HB Hb) as (B1 & B2 & B3 & B4 & B5).
  split; cbn; try reflexivity; try assumption.
  - intros i Hi. unfold charged_total, last_reading. cbn -[zero_state].
    rewrite zero_counters_zero by exact Hi. rewrite (msum_zero (fun s => word s i)).
    + change (foldr Z.add 0) with zsum. assert (Hz : zsum ((fun s => word s i) <$> l) = 0).
      { clear -B5 Hi. induction B5 as [|s l Hs _ IH]; [reflexivity|]. cbn. rewrite (Hs i Hi). exact IH. }
      rewrite Hz. reflexivity.
    + intros j s Hs. exact (B4 j s Hs i Hi).
  - intros _. split_and!; try apply zero_counters_zero; assumption.
Qed.

Lemma kstep_inv e w w' : kinv w -> kstep e w w' -> kinv w'.
Proof.
  intros Hk H. destruct H; eauto using kinv_device, kinv_out, kinv_in, kinv_exit, kinv_read, kinv_write, kinv_init.
  match goal with H : dup_task_struct _ _ = _ |- _ => unfold dup_task_struct in H; mruns end. apply kinv_fork; assumption.
Qed.

Lemma ksteps_inv evs w w' : ksteps evs w w' -> kinv w -> kinv w'.
Proof. induction 1; eauto using kstep_inv. Qed.

(** C1.  Nothing is lost and nothing is charged twice: at any point of any
    execution of the kernel, for each of the seventeen counters, the
    charges to all live tasks, to the tasks already freed and to the system
    add up, modulo 2^64, to the device's counter at the last reading; in
    particular context switches, forks, exits and system calls in any order
    neither create nor drop a count. *)
Theorem accounting_conserved pid d evs w i : ksteps evs (boot pid d) w -> 0 <= i < 17 ->
  u64 (charged_total w i) = u64 (last_reading w i).
Proof. intros H Hi. exact (ki_sum w (ksteps_inv evs _ w H (kinv_boot pid d)) i Hi). Qed.
End Kernel.

(** ** The fault register is virtualised per process *)
Section Faults.
Context {DEV : VemuDevice} {LAWS : VemuDeviceLaws} {UM : UserMem}.

(** The abstract machine: one fault register per process, written only by
    its owner, zero in a new process. *)
Definition apply_event (a : gmap Z Z) (e : event) : gmap Z Z :=
  match e with
  | EvTau => a
  | EvWrite pid off v => if off =? SET_FAULTS then <[pid := u32 v]> a else a
  | EvFork child => <[child := 0]> a
  | EvExit pid => delete pid a
  end.

(** The kernel implements it: the running process's register is in the
    device, the others are saved in their tasks. *)
Record faults_rel (w : world) (a : gmap Z Z) : Prop := {
  fr_base : base_pointer (kern w) <> 0;
  fr_ok : dev_ok (device (kern w));
  fr_wf : map_Forall (fun _ s => state_wf s) (tasks (kern w));
  fr_dom : forall t, is_Some (tasks (kern w) !! t) <-> is_Some (a !! t);
  fr_u32 : map_Forall (fun _ v => is_u32 v) a;
  fr_saved : forall t s v, phase w = Switching \/ t <> current (kern w) ->
    tasks (kern w) !! t = Some s -> a !! t = Some v -> word s fault_status = v;
  fr_hw : phase w = Running -> a !! current (kern w) = Some (fault_reg (device (kern w)))
}.

Lemma is_u32_u64 v : is_u32 v -> is_u64 v.
Proof. unfold is_u32, is_u64. lia. Qed.

(** A reading shows the fault register and leaves it alone. *)
Lemma read_state_faults t k t' k' : base_pointer k <> 0 -> dev_ok (device k) -> is_u32 (fault_reg (device k)) ->
  vemu_read_state t k = Done (t', k') ->
  word t' fault_status = fault_reg (device k) /\ fault_reg (device k') = fault_reg (device k) /\ dev_ok (device k').
Proof.
  intros Hb Hok Hf H. apply read_state_Done in H as [(? & _)|(_ & d & bs & Hw & Hr & -> & ->)]; [contradiction|].
  rewrite word_words64 by (unfold fault_status; lia). cbn. split_and!.
  - apply (law_latch _ d 1 bs); auto using is_u32_u64.
  - eapply law_other; [|exact Hw]. discriminate.
  - eapply law_ok_write; eassumption.
Qed.

Lemma faults_out k l a k' : faults_rel {| kern := k; phase := Running; reaped := l |} a ->
  vemu_process_out k = Done (tt, k') -> faults_rel {| kern := k'; phase := Switching; reaped := l |} a.
Proof.
  intros [Hb Hok Hw Hd Hu Hs Hh] H. cbn in *. specialize (Hh eq_refl).
  apply process_out_Done in H as (pout & k1 & c & Hr & Hc & ->).
  destruct (read_state_faults _ _ _ _ Hb Hok (Hu _ _ Hh) Hr) as (Hp & _ & Hok').
  pose proof (read_state_frame _ _ _ _ Hr) as Ek. destruct (left_task_spec c pout (vemu_state_pin k) (Hw _ _ Hc)) as [Wl El].
  rewrite Ek. split; cbn; try assumption; try discriminate.
  - apply map_Forall_insert_2; assumption.
  - intros t. rewrite <- Hd, lookup_insert_is_Some'. split; [|tauto]. intros [<-|?]; [rewrite Hc; eauto|assumption].
  - intros t s v _ Ht Ha. destruct (decide (t = current k)) as [->|Hne].
    + rewrite lookup_insert_eq in Ht. simplify_eq. rewrite El by (unfold fault_status; lia). exact Hp.
    + rewrite lookup_insert_ne in Ht by congruence. apply (Hs t); auto.
Qed.

Lemma faults_in k l a next k' : faults_rel {| kern := k; phase := Switching; reaped := l |} a ->
  vemu_process_in (set_current next k) = Done (tt, k') -> faults_rel {| kern := k'; phase := Running; reaped := l |} a.
Proof.
  intros [Hb Hok Hw Hd Hu Hs _] H. cbn in *. apply process_in_Done in H as (pin & k1 & c & k2 & Hr & Hc & -> & Hwr).
  cbn in Hc. destruct (proj1 (Hd next)) as [v Hv]; [eauto|].
  pose proof (Hs next c v (or_introl eq_refl) Hc Hv) as Ev. pose proof (Hu _ _ Hv) as Uv.
  assert (Hok1 : dev_ok (device k1)).
  { apply read_state_Done in Hr as [(_ & _ & ->)|(_ & d & bs & Hd' & _ & _ & ->)]; [exact Hok|].
    eapply law_ok_write; [exact Hok|exact Hd']. }
  pose proof (read_state_frame _ _ _ _ Hr) as Ek. rewrite Ek in Hwr.
  apply reg_write_Done in Hwr as [[? _]|(_ & d & Hd' & ->)]; [contradiction|].
  pose proof (law_ok_write _ _ _ _ Hok1 Hd') as Hok'. apply law_set_faults in Hd'; [|apply u32_range]. rewrite Ev, u32_small in Hd' by exact Uv.
  split; cbn; try assumption; rewrite ?Hd'; auto.
  intros t s u [?|_] Ht Hu'; [discriminate|]. apply (Hs t); auto.
Qed.

(** Replacing the device by one with the same fault register. *)
Lemma faults_device k ph l a d : faults_rel {| kern := k; phase := ph; reaped := l |} a ->
  fault_reg d = fault_reg (device k) -> dev_ok d -> faults_rel {| kern := set_device d k; phase := ph; reaped := l |} a.
Proof. intros [? ? ? ? ? ? ?] E ?. split; cbn in *; try assumption; rewrite E; assumption. Qed.

Lemma faults_tmp k ph l a t : faults_rel {| kern := k; phase := ph; reaped := l |} a ->
  faults_rel {| kern := set_tmp t k; phase := ph; reaped := l |} a.
Proof. intros [? ? ? ? ? ? ?]. split; assumption. Qed.

Lemma faults_dev_u32 k l a : faults_rel {| kern := k; phase := Running; reaped := l |} a -> is_u32 (fault_reg (device k)).
Proof. intros H. exact (fr_u32 _ _ H _ _ (fr_hw _ _ H eq_refl)). Qed.

Lemma faults_read k l a off dest r k' : faults_rel {| kern := k; phase := Running; reaped := l |} a ->
  sys_var_reg_read off dest k = Done (r, k') -> faults_rel {| kern := k'; phase := Running; reaped := l |} a.
Proof.
  intros Hf H. unfold sys_var_reg_read, copy_out in H. mruns; try exact Hf.
  1,2: match goal with H : vemu_read_state _ _ = _ |- _ =>
    pose proof (read_state_faults _ _ _ _ (fr_base _ _ Hf) (fr_ok _ _ Hf) (faults_dev_u32 _ _ _ Hf) H) as (_ & E & Eok);
    apply read_state_frame in H as -> end; apply faults_tmp, faults_device; [exact Hf|exact E|exact Eok].
  all: match goal with H : get_current _ = _ |- _ => apply get_current_Done in H as [_ ->] end;
    match goal with Hin : vemu_process_in ?s = Done (?u, ?x), Hout : vemu_process_out _ = Done (?v, ?s) |- faults_rel {| kern := ?x |} _ =>
      destruct u, v; eapply (faults_in s _ _ (current s)); [exact (faults_out _ _ _ _ Hf Hout)|];
      replace (set_current (current s) s) with s by (destruct s; reflexivity); exact Hin end.
Qed.

Lemma faults_write k l a off ptr v k' : faults_rel {| kern := k; phase := Running; reaped := l |} a ->
  user_u64 ptr = Some v -> sys_var_reg_write off ptr k = Done (0, k') ->
  faults_rel {| kern := k'; phase := Running; reaped := l |} (apply_event a (EvWrite (current k) off v)).
Proof.
  intros Hf Hv H. unfold sys_var_reg_write in H. rewrite Hv in H. mruns; [discriminate|].
  match goal with H : vemu_reg_write _ _ _ = _ |- _ => apply reg_write_Done in H as [[? _]|(_ & d & Hd & ->)] end;
    [destruct (fr_base _ _ Hf); assumption|].
  pose proof (law_ok_write _ _ _ _ (fr_ok _ _ Hf) Hd) as Hok'.
  cbn [apply_event]. destruct (Z.eqb_spec off SET_FAULTS) as [->|Hne].
  - apply law_set_faults in Hd; [|apply u32_range]. destruct Hf as [Hb Hok Hw Hdm Hu Hs Hh]. cbn in *.
    split; cbn; try assumption.
    + intros t. rewrite Hdm, lookup_insert_is_Some'. specialize (Hh eq_refl). split; [tauto|].
      intros [<-|?]; [rewrite Hh; eauto|assumption].
    + apply map_Forall_insert_2; [apply u32_range|assumption].
    + intros t s u [?|Hne] Ht Ha; [discriminate|]. rewrite lookup_insert_ne in Ha by congruence. apply (Hs t); auto.
    + intros _. rewrite lookup_insert_eq, Hd. reflexivity.
  - eapply faults_device; [exact Hf| |exact Hok']. eapply law_other; [exact Hne|exact Hd].
Qed.

Lemma faults_fork k ph l a child : faults_rel {| kern := k; phase := ph; reaped := l |} a ->
  tasks k !! child = None -> faults_rel {| kern := set_tasks (<[child := zero_state]> (tasks k)) k; phase := ph; reaped := l |} (<[child := 0]> a).
Proof.
  intros [Hb Hok Hw Hd Hu Hs Hh] Hc. cbn in *.
  assert (Hna : a !! child = None).
  { apply eq_None_not_Some. rewrite <- Hd, Hc. by intros [? [=]]. }
  split; cbn; try assumption.
  - apply map_Forall_insert_2; [reflexivity|assumption].
  - intros t. rewrite !lookup_insert_is_Some', Hd. tauto.
  - apply map_Forall_insert_2; [split; vm_compute; congruence|assumption].
  - intros t s v Ht Hs' Ha. destruct (decide (child = t)) as [->|Hne].
    + rewrite lookup_insert_eq in Hs'. rewrite lookup_insert_eq in Ha. by simplify_eq.
    + rewrite lookup_insert_ne in Hs' by exact Hne. rewrite lookup_insert_ne in Ha by exact Hne. eauto.
  - intros Hp. specialize (Hh Hp). rewrite lookup_insert_ne; [exact Hh|]. intros Ec. congruence.
Qed.

Lemma faults_exit k ph l a pid v : faults_rel {| kern := k; phase := ph; reaped := l |} a ->
  pid <> current k ->
  faults_rel {| kern := set_tasks (delete pid (tasks k)) k; phase := ph; reaped := v :: l |} (delete pid a).
Proof.
  intros [Hb Hok Hw Hd Hu Hs Hh] Hc. cbn in *. split; cbn; try assumption.
  - apply map_Forall_delete. assumption.
  - intros t. rewrite !lookup_delete_is_Some, Hd. reflexivity.
  - apply map_Forall_delete. assumption.
  - intros t s u Ht Hs' Ha. apply lookup_delete_Some in Hs' as [_ Hs']. apply lookup_delete_Some in Ha as [_ Ha]. eauto.
  - intros Hp. rewrite lookup_delete_ne by exact Hc. auto.
Qed.

Lemma faults_step e w w' a : faults_rel w a -> kstep e w w' -> faults_rel w' (apply_event a e).
Proof.
  intros Hf H. destruct H; try (cbn [apply_event]; eauto using faults_out, faults_in, faults_read, faults_write, faults_exit).
  - eapply faults_device; [exact Hf|apply law_run; assumption|].
    eapply law_ok_run; [exact (fr_ok _ _ Hf)|assumption].
  - match goal with H : dup_task_struct _ _ = _ |- _ => unfold dup_task_struct in H; mruns end. apply faults_fork; assumption.
  - match goal with H : sys_var_reg_write _ _ _ = _ |- _ => unfold sys_var_reg_write in H; mruns end; [assumption|].
    destruct (user_u64 ptr); mruns; [discriminate|assumption].
  - destruct (fr_base _ _ Hf). assumption.
Qed.

(** C3.  The fault register is virtualised: the kernel with the one
    hardware register refines the machine with one register per process.
    After any sequence of switches, forks, exits and system calls, the
    hardware register is that of the running process and every other
    process's register is saved, each holding exactly the last 32-bit value
    its own process wrote (0 if none); no process changes another's. *)
Theorem faults_virtualised evs w w' a : ksteps evs w w' -> faults_rel w a ->
  faults_rel w' (fold_left apply_event evs a).
Proof.
  intros H. revert a. induction H as [|evs e w w1 w2 _ IH Hs]; intros a Hf; [exact Hf|].
  rewrite fold_left_app. cbn [fold_left]. eapply faults_step; [apply IH; exact Hf|exact Hs].
Qed.
End Faults.

(** ** The system calls *)
Section Syscalls.
Context {DEV : VemuDevice} {UM : UserMem}.

(** The device answers a snapshot request with the bytes [bs]. *)
Definition answers (d d' : dev) (bs : list Z) : Prop :=
  dev_write32 READ_CMD 1 d = Done d' /\ dev_read 0 160 d' = Done bs.

Lemma read_state_run t k d bs : base_pointer k <> 0 -> answers (device k) d bs ->
  vemu_read_state t k = Done (words64 bs, set_device d k).
Proof.
  intros Hb [Hw Hr]. unfold vemu_read_state. erewrite bind_run by reflexivity. cbn beta.
  destruct (Z.eqb_spec (base_pointer k) 0); [contradiction|].
  erewrite bind_run by (unfold iowrite32, bind, gets; cbn; change (u32 1) with 1; rewrite Hw; reflexivity).
  cbn beta. change (VEMU_STATE_N_VARS * 8) with 160. unfold memcpy_fromio, bind, gets.
  change (in_window 0 160) with true. cbn [device set_device]. rewrite Hr. reflexivity.
Qed.

Lemma reg_write_run off v k d : base_pointer k <> 0 -> in_window off 4 = true ->
  dev_write32 off (u32 v) (device k) = Done d -> vemu_reg_write off v k = Done (tt, set_device d k).
Proof.
  intros Hb Hw Hd. unfold vemu_reg_write. erewrite bind_run by reflexivity. cbn beta.
  destruct (Z.eqb_spec (base_pointer k) 0); [contradiction|].
  unfold iowrite32, bind, gets. rewrite Hw. rewrite u32_u32, Hd. reflexivity.
Qed.

Lemma process_out_run k d bs c : base_pointer k <> 0 -> answers (device k) d bs -> tasks k !! current k = Some c ->
  vemu_process_out k = Done (tt, set_tasks (<[current k := left_task c (words64 bs) (vemu_state_pin k)]> (tasks k))
    (set_pout (words64 bs) (set_device d k))).
Proof.
  intros Hb Ha Hc. unfold vemu_process_out.
  erewrite bind_run by (erewrite bind_run by reflexivity; cbn beta;
    erewrite bind_run by (apply read_state_run; eassumption); reflexivity).
  cbn beta. unfold get_current, put_current, bind, gets, modify, defined, ret. cbn. rewrite Hc.
  cbn. rewrite !lookup_insert_eq. cbn. rewrite !lookup_insert_eq. cbn. rewrite !lookup_insert_eq. cbn.
  unfold left_task. rewrite !insert_insert_eq. reflexivity.
Qed.

Lemma process_in_run k d bs c d' : base_pointer k <> 0 -> answers (device k) d bs -> tasks k !! current k = Some c ->
  dev_write32 SET_FAULTS (u32 (word c fault_status)) d = Done d' ->
  vemu_process_in k = Done (tt, set_device d'
    (set_sys (vemu_add_delta (vemu_state_sys k) (words64 bs) (vemu_state_pout k)) (set_pin (words64 bs) k))).
Proof.
  intros Hb Ha Hc Hd. unfold vemu_process_in.
  erewrite bind_run by (erewrite bind_run by reflexivity; cbn beta;
    erewrite bind_run by (apply read_state_run; eassumption); reflexivity).
  cbn beta. do 2 (erewrite bind_run by reflexivity; cbn beta).
  erewrite bind_run by (unfold get_current, bind, gets, defined; cbn; rewrite Hc; reflexivity). cbn beta.
  erewrite reg_write_run; [reflexivity|exact Hb|reflexivity|exact Hd].
Qed.

Lemma word_out_of_fault c pout pin : state_wf c -> word (left_task c pout pin) fault_status = word pout fault_status.
Proof. intros H. destruct (left_task_spec c pout pin H) as [_ ->]; [reflexivity|unfold fault_status; lia]. Qed.

(** C18.  A process that reads its own counters gets, for each, its
    previous total plus what the device counted since it was switched in,
    and the device's fault, frequency and voltage registers; the call
    restarts the interval (so nothing is charged twice), leaves the total in
    the task, restores its fault register and returns 0. *)
Theorem read_proc_total k dest c d1 b1 d2 b2 d3 : base_pointer k <> 0 -> user_writable dest = true ->
  tasks k !! current k = Some c -> state_wf c ->
  answers (device k) d1 b1 -> answers d1 d2 b2 -> dev_write32 SET_FAULTS (u32 (get64 b1 17)) d2 = Done d3 ->
  exists out k', sys_var_reg_read READ_PROC dest k = Done ((0, Some out), k') /\
    (forall i, 0 <= i < 17 -> word out i = u64 (word c i + (get64 b1 i - word (vemu_state_pin k) i))) /\
    (forall i, 17 <= i < 20 -> word out i = get64 b1 i) /\
    tasks k' = <[current k := out]> (tasks k) /\ vemu_state_pin k' = words64 b2 /\ device k' = d3.
Proof.
  intros Hb Hu Hc Wc Ha1 Ha2 Hf. destruct (left_task_spec c (words64 b1) (vemu_state_pin k) Wc) as [_ El].
  exists (left_task c (words64 b1) (vemu_state_pin k)). eexists. split.
  - unfold sys_var_reg_read. change (has_flag READ_PROC READ_HW) with false. change (has_flag READ_PROC READ_PROC) with true.
    cbn iota. erewrite bind_run by (apply process_out_run; eassumption). cbn beta.
    erewrite bind_run.
    2:{ eapply process_in_run; [exact Hb|exact Ha2|apply lookup_insert_eq|].
        rewrite word_out_of_fault, word_words64 by (assumption || (unfold fault_status; lia)). exact Hf. }
    cbn beta. erewrite bind_run by (unfold get_current, bind, gets, defined; cbn; rewrite lookup_insert_eq; reflexivity).
    cbn beta. unfold copy_out. rewrite Hu. reflexivity.
  - split_and!; try reflexivity; intros i Hi; rewrite El, word_words64 by lia; destruct (Z.ltb_spec i 17); reflexivity || lia.
Qed.

(**  Refused reads: without a selector the call fails and touches
    nothing; with a bad destination it fails and hands nothing out. *)
Lemma read_refused k off dest : has_flag off READ_HW = false -> has_flag off READ_PROC = false ->
  (has_flag off READ_SYS = false -> sys_var_reg_read off dest k = Done ((- EFAULT, None), k)) /\
  (has_flag off READ_SYS = true -> sys_var_reg_read off dest k =
     Done (if user_writable dest then (0, Some (vemu_state_sys k)) else (- EFAULT, None), k)).
Proof.
  intros H1 H2. unfold sys_var_reg_read. rewrite H1, H2. split; intros H3; rewrite H3; [reflexivity|].
  unfold bind, gets, copy_out. destruct (user_writable dest); reflexivity.
Qed.

(** C40.  The offset check of the write call.  Offsets above 0x1000 or not
    a multiple of 8 are refused with nothing changed, and so is an
    unreadable pointer.  An accepted offset inside the device's window
    writes the low 32 bits of the value.  The check also lets 0x1000 and
    every negative multiple of 8 through, for which the access is outside
    the mapped window. *)
Theorem write_offset_check k off ptr v : base_pointer k <> 0 ->
  (0x1000 < off \/ Z.rem off 8 <> 0 -> sys_var_reg_write off ptr k = Done (- EFAULT, k)) /\
  (user_u64 ptr = None -> sys_var_reg_write off ptr k = Done (- EFAULT, k)) /\
  (0 <= off < 0x1000 -> Z.rem off 8 = 0 -> user_u64 ptr = Some v ->
     forall d, dev_write32 off (u32 v) (device k) = Done d -> sys_var_reg_write off ptr k = Done (0, set_device d k)) /\
  (off = 0x1000 \/ off < 0 -> Z.rem off 8 = 0 -> user_u64 ptr = Some v -> sys_var_reg_write off ptr k = Undefined).
Proof.
  intros Hb. unfold sys_var_reg_write. split_and!.
  - intros H. destruct (Z.ltb_spec 0x1000 off), (Z.eqb_spec (Z.rem off 8) 0); try reflexivity. lia.
  - intros ->. destruct ((0x1000 <? off) || _); reflexivity.
  - intros Ho Hr -> d Hd. rewrite Hr. destruct (Z.ltb_spec 0x1000 off); [lia|]. cbn [orb negb Z.eqb].
    erewrite bind_run; [reflexivity|]. apply reg_write_run; [exact Hb| |exact Hd].
    unfold in_window. destruct (Z.leb_spec 0 off); [|lia]. apply Z.leb_le.
    pose proof (Z.quot_rem' off 8). rewrite Hr in *. lia.
  - intros Ho Hr ->. rewrite Hr. destruct (Z.ltb_spec 0x1000 off); [lia|]. cbn [orb negb Z.eqb].
    unfold vemu_reg_write, bind, gets. destruct (Z.eqb_spec (base_pointer k) 0); [contradiction|].
    unfold iowrite32, bind, gets. replace (in_window off 4) with false; [reflexivity|].
    unfold in_window. destruct (Z.leb_spec 0 off), (Z.leb_spec (off + 4) 0x1000); reflexivity || lia.
Qed.
End Syscalls.
