(* ===== verification/DriverHw.v ===== *)
(** * The emulator's device implements the driver's interface

    [hw_device] is the [VemuDevice] whose state is the emulator's globals:
    32-bit writes and byte reads go to [vemu_mod_write] and [vemu_mod_read],
    and the machine running is the relation [cpu_step].  [hw_laws]
    discharges the laws, so the driver's theorems hold of the two programs
    together. *)
From stdpp Require Import base list gmap relations.
From S2P Require Import Prelude Double ArmTable State Power Cycles Energy HwModule Driver.
Open Scope Z_scope.

(** ** Frames of the emulator's queries *)
Section Frames.
Context {CLK : VmClock} {PM : PowerModel}.

(** Neither the fault register nor the latched bytes change. *)
Definition dev_same (s s' : vemu_st) : Prop :=
  last_state s' = last_state s /\ vemu_errors_enabled s' = vemu_errors_enabled s.

Lemma dev_same_refl s : dev_same s s.
Proof. split; reflexivity. Qed.
Lemma dev_same_trans a b c : dev_same a b -> dev_same b c -> dev_same a c.
Proof. unfold dev_same. intros [-> ->] [-> ->]. auto. Qed.

(** A computation that leaves the device's registers alone. *)
Definition quiet {A} (m : M vemu_st A) : Prop := forall s a s', m s = Done (a, s') -> dev_same s s'.

Lemma quiet_bind {A B} (m : M vemu_st A) (k : A -> M vemu_st B) : quiet m -> (forall a, quiet (k a)) -> quiet (bind m k).
Proof. intros Hm Hk s a s' H. mruns. eapply dev_same_trans; [eapply Hm; eassumption|eapply Hk; eassumption]. Qed.
Lemma quiet_ret {A} (a : A) : quiet (ret a).
Proof. intros s x s' H. mruns. apply dev_same_refl. Qed.
Lemma quiet_gets {A} (f : vemu_st -> A) : quiet (gets f).
Proof. intros s x s' H. mruns. apply dev_same_refl. Qed.
Lemma quiet_assert b : quiet (massert b).
Proof. intros s x s' H. mruns. apply dev_same_refl. Qed.
Lemma quiet_defined {A} (o : option A) : quiet (defined o).
Proof. intros s x s' H. mruns. apply dev_same_refl. Qed.
Lemma quiet_undefined {A} : quiet (@undefined vemu_st A).
Proof. intros s x s' H. discriminate. Qed.
Lemma quiet_if {A} (b : bool) (m1 m2 : M vemu_st A) : quiet m1 -> quiet m2 -> quiet (if b then m1 else m2).
Proof. destruct b; auto. Qed.
Lemma quiet_eng (f : vemu_st -> energy_st) : quiet (modify (fun s => set_eng (f s) s)).
Proof. intros s x s' H. mruns. split; reflexivity. Qed.
Lemma quiet_set_eng e : quiet (modify (set_eng e)).
Proof. intros s x s' H. mruns. split; reflexivity. Qed.
Lemma quiet_set_cyc e : quiet (modify (set_cyc e)).
Proof. intros s x s' H. mruns. split; reflexivity. Qed.
Lemma quiet_set_pm e : quiet (modify (set_pm_array e)).
Proof. intros s x s' H. mruns. split; reflexivity. Qed.
Lemma quiet_clock : quiet qemu_get_clock_ns.
Proof. intros s x s' H. injection H as <- <-. split; reflexivity. Qed.
Lemma quiet_mfold {A B} (l : list A) (body : B -> A -> M vemu_st B) : (forall b a, quiet (body b a)) ->
  forall acc, quiet (mfold l body acc).
Proof. intros H. induction l as [|a l IH]; intros acc; cbn [mfold]; [apply quiet_ret|apply quiet_bind; auto]. Qed.
End Frames.

Create HintDb quiet.
#[export] Hint Resolve quiet_ret quiet_gets quiet_assert quiet_defined quiet_undefined quiet_set_eng quiet_set_cyc
  quiet_set_pm quiet_clock : quiet.
Ltac quiet_tac :=
  repeat first [ solve [auto with quiet] | progress cbv zeta | apply quiet_bind; [|intros ?] | apply quiet_if
               | apply quiet_mfold; intros ? ? ].

Section Queries.
Context {CLK : VmClock} {PM : PowerModel}.

Lemma quiet_get_parameter c p : quiet (vemu_pm_get_parameter c p).
Proof. unfold vemu_pm_get_parameter, arr_get. quiet_tac. Qed.
Lemma quiet_change_parameter c p v : quiet (vemu_pm_change_parameter c p v).
Proof. unfold vemu_pm_change_parameter. quiet_tac. Qed.
Lemma quiet_get_cycles k : quiet (vemu_get_cycles k).
Proof. unfold vemu_get_cycles, arr_get. quiet_tac. Qed.
Lemma quiet_cycles_all : quiet vemu_get_cycles_all_classes.
Proof. unfold vemu_get_cycles_all_classes, arr_get. quiet_tac. Qed.
Lemma quiet_act_time k : quiet (vemu_get_act_time k).
Proof. unfold vemu_get_act_time, arr_get. quiet_tac. Qed.
Lemma quiet_act_time_all : quiet vemu_get_act_time_all_classes.
Proof. unfold vemu_get_act_time_all_classes, arr_get. quiet_tac. Qed.
Lemma quiet_slp_time : quiet vemu_get_slp_time.
Proof. unfold vemu_get_slp_time. quiet_tac. Qed.
#[local] Hint Resolve quiet_get_parameter quiet_change_parameter quiet_get_cycles quiet_cycles_all quiet_act_time
  quiet_act_time_all quiet_slp_time : quiet.

Lemma quiet_act_energy k : quiet (vemu_get_act_energy k).
Proof. unfold vemu_get_act_energy, arr_get. quiet_tac. Qed.
#[local] Hint Resolve quiet_act_energy : quiet.
Lemma quiet_act_energy_all : quiet vemu_get_act_energy_all_classes.
Proof. unfold vemu_get_act_energy_all_classes. quiet_tac. Qed.
Lemma quiet_slp_energy : quiet vemu_get_slp_energy.
Proof. unfold vemu_get_slp_energy. quiet_tac. Qed.
Lemma quiet_increment tb : quiet (vemu_increment_cycles tb).
Proof. unfold vemu_increment_cycles, period_ns, arr_get. quiet_tac. Qed.
Lemma quiet_sleep : quiet vemu_sleep_start.
Proof. unfold vemu_sleep_start. quiet_tac. Qed.
Lemma quiet_wake : quiet vemu_active_start.
Proof. unfold vemu_active_start. quiet_tac. Qed.
#[local] Hint Resolve quiet_act_energy_all quiet_slp_energy : quiet.

Lemma cpu_step_quiet s s' : cpu_step s s' -> dev_same s s'.
Proof.
  destruct 1 as [tb _ _ H|H|H|z H|c p v H].
  - exact (quiet_increment tb _ _ _ H).
  - exact (quiet_sleep _ _ _ H).
  - exact (quiet_wake _ _ _ H).
  - exact (quiet_slp_time _ _ _ H).
  - exact (quiet_change_parameter c p v _ _ _ H).
Qed.

(** ** The snapshot *)

(** [m] runs a query and stores its result in register [i]. *)
Lemma store_run {A} (m : M vemu_st A) (f : A -> Z) i s r s' : quiet m ->
  (let! x := m in set_reg i (f x)) s = Done (r, s') ->
  vemu_errors_enabled s' = vemu_errors_enabled s /\ exists v, last_state s' = put64 (last_state s) i v.
Proof.
  intros Hq H. unfold set_reg in H. mruns.
  match goal with H : m _ = Done _ |- _ => destruct (Hq _ _ _ H) as [El Ee] end. cbn. rewrite El, Ee. eauto.
Qed.

(** The effect of a run on the device's registers: it preserves the fault
    register and the invariant, and register 17 once it shows it. *)
Definition keeps (s s' : vemu_st) : Prop :=
  vemu_errors_enabled s' = vemu_errors_enabled s /\
  (state_bytes (last_state s) -> state_bytes (last_state s')).
Definition keeps17 (s s' : vemu_st) : Prop := keeps s s' /\
  (state_bytes (last_state s) -> get64 (last_state s') reg_fault_status = get64 (last_state s) reg_fault_status).

Lemma keeps_trans a b c : keeps a b -> keeps b c -> keeps a c.
Proof. unfold keeps. intros [-> H1] [-> H2]. auto. Qed.

Lemma store_keeps {A} (m : M vemu_st A) (f : A -> Z) i s r s' : quiet m -> 0 <= i < 20 ->
  (let! x := m in set_reg i (f x)) s = Done (r, s') -> keeps s s'.
Proof.
  intros Hq Hi H. destruct (store_run m f i s r s' Hq H) as [Ee [v El]]. split; [exact Ee|].
  rewrite El. intros Hb. apply put64_bytes; assumption.
Qed.

Lemma store_keeps17 {A} (m : M vemu_st A) (f : A -> Z) i s r s' : quiet m -> 0 <= i < 20 -> i <> reg_fault_status ->
  (let! x := m in set_reg i (f x)) s = Done (r, s') -> keeps17 s s'.
Proof.
  intros Hq Hi Hne H. split; [exact (store_keeps m f i s r s' Hq Hi H)|].
  destruct (store_run m f i s r s' Hq H) as [_ [v El]]. rewrite El. intros Hb.
  apply get_put_ne; auto. unfold reg_fault_status. lia.
Qed.

Lemma read_class_keeps k s r s' : k ∈ all_classes -> read_class k s = Done (r, s') -> keeps s s'.
Proof.
  intros Hk H. assert (Hr : 0 <= k < 4).
  { unfold all_classes in Hk. repeat (apply elem_of_cons in Hk as [->|Hk]; [lia|]). by apply not_elem_of_nil in Hk. }
  unfold read_class in H. apply bind_Done in H as (? & s1 & H1 & H). apply bind_Done in H as (? & s2 & H2 & H3).
  eapply keeps_trans; [|eapply keeps_trans].
  - eapply (store_keeps _ (fun x => x)); [| |exact H1]; [auto with quiet|unfold reg_act_time; lia].
  - eapply (store_keeps _ (fun x => x)); [| |exact H2]; [auto with quiet|unfold reg_act_energy; lia].
  - eapply (store_keeps _ (fun x => x)); [| |exact H3]; [auto with quiet|unfold reg_cycles; lia].
Qed.

Lemma read_classes_keeps s r s' : mfor all_classes read_class s = Done (r, s') -> keeps s s'.
Proof.
  intros H. destruct r. eapply (mfor_inv (fun t => keeps s t)); [| |exact H].
  - intros a t t' Ha Ht Hc. eapply keeps_trans; [exact Ht|]. eapply read_class_keeps; eassumption.
  - split; auto.
Qed.
End Queries.

Section Latch.
Context {CLK : VmClock} {PM : PowerModel}.
#[local] Hint Resolve quiet_get_parameter quiet_change_parameter quiet_get_cycles quiet_cycles_all quiet_act_time
  quiet_act_time_all quiet_slp_time quiet_act_energy_all quiet_slp_energy : quiet.

(** The registers stored after the fault register. *)
Lemma keeps17_trans a b c : keeps17 a b -> keeps17 b c -> keeps17 a c.
Proof.
  intros [K1 E1] [K2 E2]. split; [exact (keeps_trans _ _ _ K1 K2)|]. intros Hb.
  rewrite E2 by (apply K1; exact Hb). auto.
Qed.

(** The totals: the fault register is stored as it is. *)
Lemma read_totals_keeps s r s' : read_totals s = Done (r, s') -> keeps s s' /\
  (state_bytes (last_state s) -> is_u64 (vemu_errors_enabled s) ->
   get64 (last_state s') reg_fault_status = vemu_errors_enabled s).
Proof.
  unfold read_totals. intros H.
  apply bind_Done in H as (? & s1 & H1 & H). apply bind_Done in H as (? & s2 & H2 & H).
  apply bind_Done in H as (? & s3 & H3 & H). apply bind_Done in H as (? & s4 & H4 & H).
  apply bind_Done in H as (? & s5 & H5 & H). apply bind_Done in H as (? & s6 & H6 & H).
  apply bind_Done in H as (? & s7 & H7 & H8).
  apply (store_keeps _ (fun x => x)) in H1; [|auto with quiet|vm_compute; intuition congruence].
  apply (store_keeps _ (fun x => x)) in H2; [|auto with quiet|vm_compute; intuition congruence].
  apply (store_keeps _ (fun x => x)) in H3; [|auto with quiet|vm_compute; intuition congruence].
  apply (store_keeps _ (fun x => x)) in H4; [|auto with quiet|vm_compute; intuition congruence].
  apply (store_keeps _ (fun x => x)) in H5; [|auto with quiet|vm_compute; intuition congruence].
  assert (K5 : keeps s s5) by (repeat (eapply keeps_trans; [eassumption|]); assumption || (split; auto)).
  assert (K7 : keeps17 s6 s7).
  { eapply (store_keeps17 (let! f := vemu_pm_get_parameter 0 0 in defined (d_to_u64 f)) (fun x => x) reg_frequency);
      [quiet_tac| | |]; [vm_compute; intuition congruence|discriminate|].
    rewrite <- H7. unfold bind. destruct (vemu_pm_get_parameter 0 0 s6) as [[f t]| | |]; [|reflexivity..].
    destruct (defined (d_to_u64 f) t) as [[? ?]| | |]; reflexivity. }
  assert (K8 : keeps17 s7 s').
  { eapply (store_keeps17 (let! v := vemu_pm_get_parameter 0 1 in defined (d_to_u64 (d_mul v (d_of_Z 1000)))) (fun x => x) reg_voltage);
      [quiet_tac| | |]; [vm_compute; intuition congruence|discriminate|].
    rewrite <- H8. unfold bind. destruct (vemu_pm_get_parameter 0 1 s7) as [[f t]| | |]; [|reflexivity..].
    destruct (defined (d_to_u64 (d_mul f (d_of_Z 1000))) t) as [[? ?]| | |]; reflexivity. }
  unfold set_reg, bind, gets, modify in H6. injection H6 as _ <-. pose proof (keeps17_trans _ _ _ K7 K8) as [[Ke Kb] K17]. cbn in Ke, Kb, K17.
  assert (Hreg : 0 <= reg_fault_status < 20) by (vm_compute; intuition congruence).
  split.
  - split; [rewrite Ke; apply K5|]. intros Hb. apply Kb, put64_bytes; [apply K5, Hb|exact Hreg].
  - intros Hb Hu. assert (Hb5 : state_bytes (last_state s5)) by (apply K5, Hb).
    rewrite K17 by (apply put64_bytes; assumption). destruct K5 as [E5 _]. rewrite <- E5 in *.
    apply get_put_eq; assumption.
Qed.

Lemma mod_write_keeps off v s r s' : vemu_mod_write off v 4 s = Done (r, s') ->
  (state_bytes (last_state s) -> state_bytes (last_state s')) /\
  (off = HwModule.SET_FAULTS -> vemu_errors_enabled s' = v) /\
  (off <> HwModule.SET_FAULTS -> vemu_errors_enabled s' = vemu_errors_enabled s) /\
  (off = HwModule.READ_CMD -> state_bytes (last_state s) -> is_u64 (vemu_errors_enabled s) ->
     get64 (last_state s') reg_fault_status = vemu_errors_enabled s).
Proof.
  unfold vemu_mod_write. intros H.
  destruct (Z.eqb_spec off HwModule.SET_FAULTS) as [->|H0]; [mruns; cbn; split_and!; auto; solve [congruence|discriminate]|].
  destruct (Z.eqb_spec off HwModule.SET_FREQUENCY) as [->|H1].
  { apply quiet_change_parameter in H as [El Ee]. rewrite El, Ee. split_and!; auto; solve [congruence|discriminate]. }
  destruct (Z.eqb_spec off HwModule.SET_VOLTAGE) as [->|H2].
  { apply quiet_change_parameter in H as [El Ee]. rewrite El, Ee. split_and!; auto; solve [congruence|discriminate]. }
  destruct (Z.eqb_spec off HwModule.READ_CMD) as [->|H3].
  { unfold read_cmd in H. apply bind_Done in H as (? & s1 & Hc & Ht).
    apply read_classes_keeps in Hc as [Ec Kc]. apply read_totals_keeps in Ht as [[Et Kt] K17].
    rewrite Ec in *. split_and!; auto; intros; contradiction. }
  destruct (off =? HwModule.EXIT_CMD); mruns; split_and!; auto; intros; contradiction.
Qed.
End Latch.

(** ** The instance *)
Section Instance.
Context {CLK : VmClock} {PM : PowerModel}.

(** [memcpy_fromio] of ARM reads byte by byte; the bus delivers the low
    byte of what the handler returns ([rv] starts as an arbitrary value,
    here 0). *)
Fixpoint read_bytes (off : Z) (n : nat) (s : vemu_st) : outcome (list Z) :=
  match n with
  | O => Done []
  | S n' =>
      match vemu_mod_read 0 off 1 s with
      | Done (v, _) =>
          match read_bytes (off + 1) n' s with
          | Done bs => Done (u8 v :: bs)
          | AssertFailed => AssertFailed | Undefined => Undefined | Exited c => Exited c
          end
      | AssertFailed => AssertFailed | Undefined => Undefined | Exited c => Exited c
      end
  end.

#[export] Instance hw_device : VemuDevice := {
  dev := vemu_st;
  dev_write32 off v s :=
    match vemu_mod_write off v 4 s with
    | Done (_, s') => Done s'
    | AssertFailed => AssertFailed | Undefined => Undefined | Exited c => Exited c
    end;
  dev_read off n s := read_bytes off (Z.to_nat n) s;
  dev_run := rtc cpu_step
}.

Lemma read_bytes_run s n : state_bytes (last_state s) -> forall off, 0 <= off -> off + Z.of_nat n <= 160 ->
  read_bytes off n s = Done (take n (drop (Z.to_nat off) (last_state s))).
Proof.
  intros Hb. induction n as [|n IH]; intros off H0 Hn; [reflexivity|]. cbn [read_bytes].
  destruct (mod_read_low 0 off 1 s Hb) as (v & Hv & Ev); [lia..|]. rewrite Hv, IH by lia.
  destruct (lookup_lt_is_Some_2 (last_state s) (Z.to_nat off)) as [x Hx]; [rewrite (proj1 Hb); lia|].
  rewrite (drop_S _ x _ Hx) in *. cbn [take]. replace (Z.to_nat (off + 1)) with (S (Z.to_nat off)) by lia.
  do 2 f_equal. unfold u8. change (2 ^ 8) with (256 ^ 1). rewrite Ev. change (Z.to_nat 1) with 1%nat.
  cbn [take le_val]. rewrite take_0. cbn [le_val]. lia.
Qed.

Lemma hw_write_inv off v (s s' : vemu_st) : dev_write32 off v s = Done s' -> exists r, vemu_mod_write off v 4 s = Done (r, s').
Proof. cbn. destruct (vemu_mod_write off v 4 s) as [[r t]| | |]; intros [= <-]. eauto. Qed.

Lemma run_same (s s' : vemu_st) : rtc cpu_step s s' -> dev_same s s'.
Proof. induction 1; [apply dev_same_refl|]. eapply dev_same_trans; [apply cpu_step_quiet; eassumption|assumption]. Qed.

#[export] Program Instance hw_laws : VemuDeviceLaws := {
  fault_reg := vemu_errors_enabled;
  dev_ok := fun s => state_bytes (last_state s)
}.
Next Obligation. intros d d' off v Hok H. apply hw_write_inv in H as [r H]. apply mod_write_keeps in H as [H _]. auto. Qed.
Next Obligation. intros d d' Hok H. apply run_same in H as [-> _]. exact Hok. Qed.
Next Obligation. intros d d' v Hv H. apply hw_write_inv in H as [r H]. apply mod_write_keeps in H as (_ & H & _). auto. Qed.
Next Obligation.
  intros d d' off v Hne H. apply hw_write_inv in H as [r H]. apply mod_write_keeps in H as (_ & _ & H & _). auto.
Qed.
Next Obligation. intros d d' H. apply run_same in H as [_ H]. exact H. Qed.
Next Obligation.
  intros d d' v bs Hok Hu Hw Hr. apply hw_write_inv in Hw as [r Hw].
  apply mod_write_keeps in Hw as (Hb & _ & _ & H). cbn in Hr.
  rewrite read_bytes_run in Hr by (auto; cbn; lia). injection Hr as <-.
  rewrite take_ge by (rewrite drop_0, (proj1 (Hb Hok)); lia). rewrite drop_0. auto.
Qed.
End Instance.

(** ** Concrete runs: two processes on the emulator of [demo_s2] *)
#[local] Existing Instance demo_clock.
#[local] Existing Instance demo_pm.

Definition demo_user : UserMem :=
  {| user_writable := fun p => 0x8000 <=? p; user_u64 := fun p => if 0x8000 <=? p then Some 1 else None |}.
#[local] Existing Instance demo_user.

(** The kernel once the module is initialised, with the device of [s]. *)
Definition demo_k0 : kst := kern (boot 1 demo_s2).
Definition demo_k1 : kst := final demo_k0 (variability_init 0xC8000000 demo_k0).
Definition demo_w (k : kst) (ph : kphase) : world := {| kern := k; phase := ph; reaped := [] |}.
(** A child is created, process 1 sets its fault register, and the child
    is switched in. *)
Definition demo_k2 : kst := final demo_k0 (dup_task_struct 2 demo_k1).
Definition demo_k3 : kst := final demo_k0 (sys_var_reg_write 0 0x8000 demo_k2).
Definition demo_k4 : kst := final demo_k0 (vemu_process_out demo_k3).
Definition demo_k5 : kst := final demo_k0 (vemu_process_in (set_current 2 demo_k4)).

Definition demo_events : list event := [EvTau; EvFork 2; EvWrite 1 0 1; EvTau; EvTau].

Lemma demo_tail : ksteps [EvFork 2; EvWrite 1 0 1; EvTau; EvTau] (demo_w demo_k1 Running) (demo_w demo_k5 Running).
Proof.
  change [EvFork 2; EvWrite 1 0 1; EvTau; EvTau] with (((([] ++ [EvFork 2]) ++ [EvWrite 1 0 1]) ++ [EvTau]) ++ [EvTau]).
  eapply ks_snoc; [eapply ks_snoc; [eapply ks_snoc; [eapply ks_snoc; [apply ks_nil|]|]|]|].
  - apply (k_fork demo_k1 [] Running 2 demo_k2); [vm_compute; reflexivity|apply final_Done; vm_compute; reflexivity].
  - apply (k_write demo_k2 [] 0 0x8000 1 demo_k3); [reflexivity|apply final_Done; vm_compute; reflexivity].
  - apply (k_out demo_k3 [] demo_k4). apply final_Done. vm_compute. reflexivity.
  - apply (k_in demo_k4 [] 2 demo_k5). apply final_Done. vm_compute. reflexivity.
Qed.

Lemma ksteps_cons e w w1 evs w2 : kstep e w w1 -> ksteps evs w1 w2 -> ksteps (e :: evs) w w2.
Proof.
  intros He H. induction H as [w1|evs e' w1 w2 w3 _ IH Hs].
  - apply (ks_snoc [] e w w w1); [apply ks_nil|exact He].
  - apply (ks_snoc (e :: evs) e' w w2 w3); [apply IH; exact He|exact Hs].
Qed.

Lemma demo_run : ksteps demo_events (boot 1 demo_s2) (demo_w demo_k5 Running).
Proof.
  eapply ksteps_cons; [|exact demo_tail].
  apply (k_init demo_k0 [] 0xC8000000 demo_k1); [reflexivity|]. apply final_Done. vm_compute. reflexivity.
Qed.

Lemma demo_faults : faults_rel (demo_w demo_k1 Running) {[1 := 0]}.
Proof.
  split.
  - vm_compute. congruence.
  - apply zero_state_bytes. vm_compute. reflexivity.
  - intros j s Hs. change (tasks (kern (demo_w demo_k1 Running))) with ({[1 := zero_state]} : gmap Z vemu_state) in Hs.
    apply lookup_singleton_Some in Hs as [_ <-]. reflexivity.
  - intros t. change (tasks (kern (demo_w demo_k1 Running))) with ({[1 := zero_state]} : gmap Z vemu_state).
    rewrite !lookup_singleton_is_Some. reflexivity.
  - apply map_Forall_singleton. split; vm_compute; congruence.
  - intros t s v Ht Hs Ha. exfalso. change (tasks (kern (demo_w demo_k1 Running))) with ({[1 := zero_state]} : gmap Z vemu_state) in Hs.
    apply lookup_singleton_Some in Hs as [<- _]. destruct Ht as [Ht|Ht]; [discriminate|]. apply Ht. reflexivity.
  - intros _. vm_compute. reflexivity.
Qed.

Lemma accounting_conserved_witness :
  u64 (charged_total (demo_w demo_k5 Running) 14) = u64 (last_reading (demo_w demo_k5 Running) 14) /\
  last_reading (demo_w demo_k5 Running) 14 = 200.
Proof.
  split; [exact (accounting_conserved 1 demo_s2 demo_events (demo_w demo_k5 Running) 14 demo_run ltac:(lia))|].
  vm_compute. reflexivity.
Defined.

Lemma faults_virtualised_witness : faults_rel (demo_w demo_k5 Running) (<[1 := 1]> (<[2 := 0]> {[1 := 0]})) /\
  vemu_errors_enabled (device demo_k5) = 0.
Proof.
  split; [exact (faults_virtualised _ _ _ _ demo_tail demo_faults)|]. vm_compute. reflexivity.
Defined.

(** The two snapshots of a [READ_PROC] call. *)
Definition snapshot_of (d : vemu_st) : vemu_st := final d (vemu_mod_write HwModule.READ_CMD 1 4 d).
Definition demo_d1 : vemu_st := snapshot_of (device demo_k1).

Lemma hw_answers (d : vemu_st) : state_bytes (last_state d) -> result (vemu_mod_write HwModule.READ_CMD 1 4 d) = Some tt ->
  answers (DEV := hw_device) d (snapshot_of d) (last_state (snapshot_of d)) /\ state_bytes (last_state (snapshot_of d)).
Proof.
  intros Hb H. apply (final_Done d) in H. fold (snapshot_of d) in H.
  assert (Hb' : state_bytes (last_state (snapshot_of d))) by (apply mod_write_keeps in H as [K _]; auto).
  split; [|exact Hb']. split.
  - cbn [dev_write32 hw_device]. change READ_CMD with HwModule.READ_CMD. rewrite H. reflexivity.
  - cbn [dev_read hw_device]. rewrite read_bytes_run by (auto; cbn; lia).
    rewrite take_ge by (rewrite drop_0, (proj1 Hb'); lia). rewrite drop_0. reflexivity.
Qed.

Lemma demo_answers1 : answers (DEV := hw_device) (device demo_k1) demo_d1 (last_state demo_d1) /\ state_bytes (last_state demo_d1).
Proof.
  unfold demo_d1. apply hw_answers; [apply zero_state_bytes; vm_compute; reflexivity|vm_compute; reflexivity].
Qed.

Lemma demo_answers2 : answers (DEV := hw_device) demo_d1 (snapshot_of demo_d1) (last_state (snapshot_of demo_d1)).
Proof. apply hw_answers; [apply demo_answers1|vm_compute; reflexivity]. Qed.

Lemma read_proc_total_witness : exists out k',
  sys_var_reg_read READ_PROC 0x8000 demo_k1 = Done ((0, Some out), k') /\ word out 14 = 200.
Proof.
  destruct (read_proc_total demo_k1 0x8000 zero_state demo_d1 (last_state demo_d1) (snapshot_of demo_d1)
    (last_state (snapshot_of demo_d1)) (set_errors_enabled 0 (snapshot_of demo_d1))) as (out & k' & H & Hw & _).
  - vm_compute. congruence.
  - vm_compute. reflexivity.
  - vm_compute. reflexivity.
  - reflexivity.
  - exact (proj1 demo_answers1).
  - exact demo_answers2.
  - replace (u32 (get64 (last_state demo_d1) 17)) with 0 by (vm_compute; reflexivity). reflexivity.
  - exists out, k'. split; [exact H|]. rewrite Hw by lia. vm_compute. reflexivity.
Defined.

Lemma read_refused_witness : sys_var_reg_read 0 0x8000 demo_k1 = Done ((- EFAULT, None), demo_k1).
Proof. apply (read_refused demo_k1 0 0x8000 eq_refl eq_refl). reflexivity. Defined.

Lemma write_offset_check_witness : sys_var_reg_write 0x1008 0x8000 demo_k1 = Done (- EFAULT, demo_k1) /\
  sys_var_reg_write 0x1000 0x8000 demo_k1 = Undefined /\ sys_var_reg_write (-8) 0x8000 demo_k1 = Undefined.
Proof.
  assert (Hb : base_pointer demo_k1 <> 0) by (vm_compute; congruence).
  destruct (write_offset_check demo_k1 0x1008 0x8000 1 Hb) as (H1 & _).
  destruct (write_offset_check demo_k1 0x1000 0x8000 1 Hb) as (_ & _ & _ & H2).
  destruct (write_offset_check demo_k1 (-8) 0x8000 1 Hb) as (_ & _ & _ & H3).
  split_and!; [apply H1; lia|apply H2; [lia|reflexivity..]|apply H3; [lia|reflexivity..]].
Defined.
