(* ===== verification/User.v ===== *)
(** * The user library: [linux/fs/home/default/src/vemu.h]

    Programs reach the device through two system calls.  The library is
    modelled on top of the driver, so its theorems are about the whole path
    from a library call through the kernel to the device and back. *)
From stdpp Require Import base list gmap relations.
From S2P Require Import Prelude Double ArmTable State Power Cycles Energy HwModule Driver DriverHw.
Open Scope Z_scope.

Section Library.
Context {DEV : VemuDevice}.

(** The process passes the address of a local variable that holds [v]. *)
Definition stack_var (v : Z) : UserMem := {| user_writable := fun _ => true; user_u64 := fun _ => Some v |}.
Definition sp : Z := 0x8000.

(** [syscall(VAR_SYSCALL_WRITE, reg, &tempv)]; the result is dropped and the
    kernel takes the register as an [int]. *)
Definition vemu_write (reg val : Z) : M kst unit :=
  @sys_var_reg_write DEV (stack_var (u64 val)) (s32 reg) sp ;; ret tt.

(** The contents of [*regs] after the call. *)
Definition vemu_read (regtype : Z) (regs : vemu_state) : M kst vemu_state :=
  let! r := @sys_var_reg_read DEV (stack_var 0) (s32 regtype) sp in
  ret (match snd r with Some out => out | None => regs end).

(** [i < VEMU_STATE_N_VARS - 1]: the last word is not assigned. *)
Definition vemu_delta (target new old : vemu_state) : vemu_state :=
  fold_left (fun t i => zset t i (u64 (word new i - word old i))) (seqZ 0 (VEMU_STATE_N_VARS - 1)) target.

Definition vemu_enable_errors (idx : Z) : M kst unit := vemu_write SET_FAULTS idx.
Definition vemu_disable_errors : M kst unit := vemu_write SET_FAULTS 0.
Definition vemu_dvfs (freq voltagemv : Z) : M kst unit :=
  vemu_write SET_FREQUENCY freq ;; vemu_write SET_VOLTAGE voltagemv.
Definition vemu_kill : M kst unit := vemu_write EXIT_CMD 1.

(** A library write to a register of the device. *)
Lemma vemu_write_run reg v k d : base_pointer k <> 0 -> 0 <= reg < 0x1000 -> Z.rem reg 8 = 0 ->
  dev_write32 reg (u32 v) (device k) = Done d -> vemu_write reg v k = Done (tt, set_device d k).
Proof.
  intros Hb Hr H8 Hd. unfold vemu_write, sys_var_reg_write. rewrite s32_small by lia. rewrite H8.
  destruct (Z.ltb_spec 0x1000 reg); [lia|]. cbn [orb negb Z.eqb user_u64 stack_var].
  assert (Hw : vemu_reg_write reg (u64 v) k = Done (tt, set_device d k)).
  { apply reg_write_run; [exact Hb| |].
    - unfold in_window. destruct (Z.leb_spec 0 reg); [|lia]. apply Z.leb_le.
      pose proof (Z.quot_rem' reg 8). rewrite H8 in *. lia.
    - rewrite u32_u64. exact Hd. }
  unfold bind, ret. rewrite Hw. reflexivity.
Qed.
End Library.

(** ** The difference of two readings *)

(**  [vemu_delta] stores the difference of the two readings, modulo
    2^64, in the first nineteen registers; the voltage of the target keeps
    its old contents. *)
Lemma delta_words target new old : state_wf target ->
  state_wf (vemu_delta target new old) /\
  (forall i, 0 <= i < 19 -> word (vemu_delta target new old) i = u64 (word new i - word old i)) /\
  word (vemu_delta target new old) voltage = word target voltage.
Proof.
  intros Ht. destruct (word_loop (fun i _ => u64 (word new i - word old i)) 19 target Ht ltac:(lia)) as [W E].
  unfold vemu_delta. change (VEMU_STATE_N_VARS - 1) with 19. split_and!; [exact W| |].
  - intros i Hi. rewrite E by lia. destruct (Z.ltb_spec i 19); [reflexivity|lia].
  - rewrite E by (unfold voltage; lia). reflexivity.
Qed.

(** ** Through the kernel to the device *)
Section EndToEnd.
Context {CLK : VmClock} {PM : PowerModel}.
#[local] Existing Instance hw_device.

Lemma hw_write_run off v (d d' : vemu_st) : vemu_mod_write off v 4 d = Done (tt, d') -> dev_write32 off v d = Done d'.
Proof. intros H. cbn [dev_write32 hw_device]. rewrite H. reflexivity. Qed.

(** C37.  Frequency and voltage scaling from a program: [vemu_dvfs] sets
    the frequency and the voltage parameters of the emulator's power model
    to the low 32 bits of its arguments (volts from millivolts) and changes
    nothing else in the kernel or the emulator. *)
Theorem dvfs_reaches_power_model freq mv k : base_pointer k <> 0 ->
  param_ok (device k) 0 -> param_ok (device k) 1 ->
  vemu_dvfs freq mv k = Done (tt, set_device (set_pm_array
    (zset (zset (pm_array (device k)) 0 (d_of_Z (u32 freq))) 1 (d_div (d_of_Z (u32 mv)) (d_of_Z 1000))) (device k)) k).
Proof.
  intros Hb P0 P1. unfold vemu_dvfs.
  erewrite bind_run by (apply vemu_write_run; [exact Hb|vm_compute; intuition congruence|reflexivity|];
    apply hw_write_run, set_frequency_run; exact P0). cbn beta.
  erewrite vemu_write_run; [|exact Hb|vm_compute; intuition congruence|reflexivity|].
  2:{ apply hw_write_run, set_voltage_run. destruct P1 as [P1 L]. split; [exact P1|]. cbn. rewrite length_zset. exact L. }
  reflexivity.
Qed.

(**  [vemu_kill] ends the emulator. *)
Lemma kill_exits k : base_pointer k <> 0 -> vemu_kill k = Exited (-1).
Proof.
  intros Hb. assert (Hw : vemu_reg_write EXIT_CMD (u64 1) k = Exited (-1)).
  { unfold vemu_reg_write, bind, gets. destruct (Z.eqb_spec (base_pointer k) 0); [contradiction|]. reflexivity. }
  unfold vemu_kill, vemu_write, sys_var_reg_write. change (s32 EXIT_CMD) with EXIT_CMD.
  change ((0x1000 <? EXIT_CMD) || negb (Z.rem EXIT_CMD 8 =? 0)) with false. cbn iota.
  cbn [user_u64 stack_var]. unfold bind. rewrite Hw. reflexivity.
Qed.
End EndToEnd.

Section Faults.
Context {DEV : VemuDevice} {LAWS : VemuDeviceLaws}.

(**  Enabling faults is visible to the program: the index it enables,
    taken modulo 2^32, is the fault status of its next hardware reading. *)
Lemma enable_errors_visible idx regs k d1 d2 bs : base_pointer k <> 0 -> dev_ok (device k) ->
  dev_write32 SET_FAULTS (u32 idx) (device k) = Done d1 -> answers d1 d2 bs ->
  exists k1 k2 regs', vemu_enable_errors idx k = Done (tt, k1) /\ vemu_read READ_HW regs k1 = Done (regs', k2) /\
  word regs' fault_status = u32 idx.
Proof.
  intros Hb Hok Hw Ha. exists (set_device d1 k). do 2 eexists.
  split; [apply vemu_write_run; [exact Hb|vm_compute; intuition congruence|reflexivity|exact Hw]|].
  split.
  - unfold vemu_read. erewrite bind_run; [reflexivity|]. unfold sys_var_reg_read.
    change (has_flag (s32 READ_HW) READ_HW) with true. cbn iota.
    erewrite bind_run by reflexivity. cbn beta.
    erewrite bind_run by (apply read_state_run; [exact Hb|exact Ha]). reflexivity.
  - cbn [snd]. rewrite word_words64 by (unfold fault_status; lia). destruct Ha as [Hl Hr].
    pose proof (law_set_faults _ _ _ (u32_range idx) Hw) as Hf.
    rewrite <- Hf. eapply (law_latch d1 d2 1); [eapply law_ok_write; eassumption| |exact Hl|exact Hr].
    rewrite Hf. apply is_u32_u64, u32_range.
Qed.
End Faults.

(** ** Concrete runs on the kernel of [demo_k1] *)
#[local] Existing Instance demo_clock.
#[local] Existing Instance demo_pm.

Lemma delta_words_witness : word (vemu_delta zero_state (replicate 20 7) (replicate 20 5)) 14 = 2.
Proof. destruct (delta_words zero_state (replicate 20 7) (replicate 20 5) eq_refl) as (_ & H & _). exact (H 14 ltac:(lia)). Defined.

Lemma demo_base : base_pointer demo_k1 <> 0.
Proof. vm_compute. congruence. Qed.

Lemma dvfs_reaches_power_model_witness : exists k', vemu_dvfs 200000000 900 demo_k1 = Done (tt, k') /\
  param (pm_array (device k')) 0 = d_of_Z 200000000.
Proof.
  eexists. split.
  - apply (dvfs_reaches_power_model 200000000 900 demo_k1 demo_base); apply (demo_param_ok _); lia.
  - vm_compute. reflexivity.
Defined.

Lemma kill_exits_witness : vemu_kill demo_k1 = Exited (-1).
Proof. exact (kill_exits demo_k1 demo_base). Defined.

Definition demo_f1 : vemu_st := set_errors_enabled 3 (device demo_k1).
Lemma demo_answers_f : answers (DEV := hw_device) demo_f1 (snapshot_of demo_f1) (last_state (snapshot_of demo_f1)).
Proof. apply hw_answers; [apply zero_state_bytes; vm_compute; reflexivity|vm_compute; reflexivity]. Qed.

Lemma enable_errors_visible_witness : exists k1 k2 regs', vemu_enable_errors 3 demo_k1 = Done (tt, k1) /\
  vemu_read READ_HW zero_state k1 = Done (regs', k2) /\ word regs' fault_status = 3.
Proof.
  apply (enable_errors_visible (LAWS := hw_laws) 3 zero_state demo_k1 demo_f1 (snapshot_of demo_f1) (last_state (snapshot_of demo_f1))).
  - exact demo_base.
  - apply zero_state_bytes. vm_compute. reflexivity.
  - reflexivity.
  - exact demo_answers_f.
Defined.
