(* ===== verification/Display.v ===== *)
(** * Display of the registers ([fs/home/default/src/vemu_display.h])

    [vemu_prepare_display] scales each register to at most three digits
    before the decimal point and picks an SI prefix.  The structs are the
    arrays the code casts them to; the values are doubles. *)
From stdpp Require Import base list.
From Stdlib Require Import Floats.SpecFloat ZArith.
From S2P Require Import Prelude Double.
Open Scope Z_scope.

(** ** The code *)

(** [int decimal_power[20]]: the first twenty of the initialisers. *)
Definition decimal_power : list Z := replicate 16 (-3) ++ replicate 4 0.
(** ['n', 'u', 'm', ' ', 'K', 'M', 'G'] *)
Definition si_prefix : list Z := [110; 117; 109; 32; 75; 77; 71].

(** The loop [while (display_array[i] > 999)]; [None] when the fuel runs out. *)
Fixpoint scale_loop (fuel : nat) (x : double) (power : Z) : option (double * Z) :=
  match fuel with
  | O => None
  | S fuel' => if d_ltb (d_of_Z 999) x then scale_loop fuel' (d_div x (d_of_Z 1000)) (power + 1) else Some (x, power)
  end.
Definition scale_fuel : nat := 7.

(** The display and the prefix arrays: eighteen elements each. *)
Record display_st : Type := { display_array : list double; prefix_ptr : list Z }.

Definition display_step (regs : list Z) (i : Z) : M display_st unit :=
  let! r := defined (regs !! Z.to_nat i) in
  let! p := defined (decimal_power !! Z.to_nat i) in
  let! res := defined (scale_loop scale_fuel (d_of_Z r) p) in
  let! d := gets display_array in
  let! _ := defined (d !! Z.to_nat i) in
  modify (fun s => {| display_array := <[Z.to_nat i := fst res]> (display_array s); prefix_ptr := prefix_ptr s |}) ;;
  let! c := defined (if snd res + 3 <? 0 then None else si_prefix !! Z.to_nat (snd res + 3)) in
  let! pr := gets prefix_ptr in
  let! _ := defined (pr !! Z.to_nat i) in
  modify (fun s => {| display_array := display_array s; prefix_ptr := <[Z.to_nat i := c]> (prefix_ptr s) |}).

(** [for (i = 0; i < VEMU_STATE_N_VARS - 1; i++)] *)
Definition vemu_prepare_display (regs : list Z) : M display_st unit := mfor (seqZ 0 19) (display_step regs).

(** ** Scaling by a thousand *)
Definition U : Z := 2 ^ 1074.

Lemma d_999 : d_of_Z 999 = S754_finite false 8787296929185792 (-43).
Proof. vm_compute. reflexivity. Qed.
Lemma d_1000 : d_of_Z 1000 = S754_finite false 8796093022208000 (-43).
Proof. vm_compute. reflexivity. Qed.

(** A canonical number above the subnormal range has 53 bits. *)
Lemma normal_digits p e : d_nonneg (S754_finite false p e) -> -1074 < e -> 2 ^ 52 <= Zpos p < 2 ^ 53.
Proof.
  intros H He. apply d_nonneg_exp in H as (_ & _ & Hc).
  assert (Hd : Zdigits2 (Zpos p) = 53) by lia.
  pose proof (Zdigits2_bounds (Zpos p) ltac:(lia)) as Hb. rewrite Hd in Hb. exact Hb.
Qed.

Lemma pow_split e : -1074 <= e -> forall k, e <= k -> 2 ^ (k + 1074) = 2 ^ (k - e) * 2 ^ (e + 1074).
Proof. intros He k Hk. rewrite <- Z.pow_add_r by lia. f_equal. lia. Qed.

Lemma mantissa_bound p e : d_nonneg (S754_finite false p e) -> Zpos p < 2 ^ 53.
Proof.
  intros H. apply d_nonneg_exp in H as (_ & _ & Hc). assert (Hd : Zdigits2 (Zpos p) <= 53) by lia.
  pose proof (Zdigits2_bounds (Zpos p) ltac:(lia)) as Hb. pose proof (Zdigits2_pos (Zpos p) ltac:(lia)).
  pose proof (Z.pow_le_mono_r 2 (Zdigits2 (Zpos p)) 53 ltac:(lia) Hd). lia.
Qed.

(** 999 in units, with the exponent of its double. *)
Lemma limit_units : 999 * U = 8787296929185792 * 2 ^ 1031.
Proof. vm_compute. reflexivity. Qed.

(** Numbers with a smaller exponent are below 999, with a larger one above. *)
Lemma exponent_below p e : d_nonneg (S754_finite false p e) -> -1074 <= e < -43 -> Zpos p * 2 ^ (e + 1074) < 999 * U.
Proof.
  intros H He. pose proof (mantissa_bound p e H). rewrite limit_units.
  pose proof (pow2_pos (e + 1074) ltac:(lia)).
  assert (2 * 2 ^ (e + 1074) <= 2 ^ 1031) by (rewrite <- Z.pow_succ_r by lia; apply Z.pow_le_mono_r; lia). nia.
Qed.

Lemma exponent_above p e : d_nonneg (S754_finite false p e) -> -43 < e -> 999 * U < Zpos p * 2 ^ (e + 1074).
Proof.
  intros H He. pose proof (normal_digits p e H ltac:(lia)). rewrite limit_units.
  assert (2 * 2 ^ 1031 <= 2 ^ (e + 1074)) by (rewrite <- Z.pow_succ_r by lia; apply Z.pow_le_mono_r; lia).
  pose proof (pow2_pos 1031 ltac:(lia)). nia.
Qed.

(** The loop's test, on the values. *)
Lemma above_999 x : d_nonneg x -> d_ltb (d_of_Z 999) x = (999 * U <? d_val x).
Proof.
  intros Hx. rewrite d_999. destruct (d_val_unit x Hx) as [->|(p & e & -> & He & Hv)]; [reflexivity|].
  rewrite Hv. unfold d_ltb, SFltb, SFcompare. symmetry.
  destruct (Z.compare_spec (-43) e) as [E|E|E].
  - subst e. rewrite limit_units. change (-43 + 1074) with 1031. pose proof (pow2_pos 1031 ltac:(lia)).
    change (PosDef.Pos.compare_cont Eq) with Pos.compare.
    generalize dependent (2 ^ 1031). intros K HK.
    destruct (Pos.compare_spec 8787296929185792 p) as [<-|Hc|Hc]; [apply Z.ltb_irrefl|apply Z.ltb_lt|apply Z.ltb_ge].
    + apply Z.mul_lt_mono_pos_r; [exact HK|exact Hc].
    + apply Z.mul_le_mono_pos_r; [exact HK|]. apply Z.lt_le_incl. exact Hc.
  - apply Z.ltb_lt, exponent_above; assumption.
  - apply Z.ltb_ge, Z.lt_le_incl, exponent_below; [assumption|lia].
Qed.

(** The rounding of the quotient: a quotient [q] of at least 53 bits, rounded
    to [q'] units of [2 ^ n], gains at most one unit. *)
Lemma round_quotient q e l : 2 ^ 52 <= q < 2 ^ 54 -> -1074 <= e <= 961 ->
  exists n q' x, (n = 0 \/ n = 1) /\ q / 2 ^ n <= q' <= q / 2 ^ n + 1 /\
    binary_round_aux 53 1024 false q e l = x /\ d_nonneg x /\ d_val x = q' * 2 ^ n * 2 ^ (e + 1074).
Proof.
  intros Hq He.
  assert (Hd : 53 <= Zdigits2 q <= 54).
  { pose proof (Zdigits2_mono (2 ^ 52) q ltac:(lia)) as H1. pose proof (Zdigits2_mono q (2 ^ 54 - 1) ltac:(lia)) as H2.
    change (Zdigits2 (2 ^ 52)) with 53 in H1. change (Zdigits2 (2 ^ 54 - 1)) with 54 in H2. lia. }
  assert (HF : fexp 53 1024 (Zdigits2 q + e) = e + (Zdigits2 q - 53)) by (rewrite fexp_eq; lia).
  destruct (round_aux_general false q e l ltac:(lia) ltac:(rewrite HF; lia))
    as (q' & m & e' & [_ Hq'] & He' & Hm0 & Hm & Hcan & Heq).
  pose proof (round_aux_pos q e l ltac:(lia) ltac:(rewrite HF; lia)) as Hpos. rewrite HF in *.
  replace (e + (Zdigits2 q - 53) - e) with (Zdigits2 q - 53) in * by lia. set (n := Zdigits2 q - 53) in *.
  assert (Hn : n = 0 \/ n = 1) by lia. clearbody n.
  assert (Hq2 : q / 2 ^ n <= 2 ^ 54 /\ 1 <= q / 2 ^ n)
    by (destruct Hn as [->| ->]; change (2 ^ 0) with 1; change (2 ^ 1) with 2; Z.div_mod_to_equations; lia).
  pose proof (pow2_pos (e' - (e + n)) ltac:(lia)) as Hp. assert (Hmpos : 0 < m) by nia.
  specialize (Hcan Hmpos). rewrite fexp_eq in Hcan. pose proof (Zdigits2_bounds m Hmpos) as Hmd.
  assert (He2 : e' <= 971).
  { destruct (Z.le_gt_cases e' 971) as [H|H]; [exact H|]. exfalso.
    assert (Zdigits2 m = 53) as Hm53 by lia. rewrite Hm53 in Hmd. change (53 - 1) with 52 in Hmd.
    assert (2 ^ 9 <= 2 ^ (e' - (e + n))) by (apply Z.pow_le_mono_r; lia). nia. }
  exists n, q', (binary_round_aux 53 1024 false q e l).
  split; [exact Hn|]. split; [exact Hq'|]. split; [reflexivity|]. rewrite Heq in *.
  destruct m as [|p|p]; [lia| |lia]. rewrite (proj2 (Z.leb_le _ _) He2) in *.
  split; [destruct Hpos as [H|H]; [exact H|discriminate H]|]. cbn [d_val]. rewrite <- Hm, Z.mul_1_l, <- !Z.mul_assoc. f_equal.
  rewrite <- !Z.pow_add_r by lia. f_equal. lia.
Qed.

(** Dividing by 1000 is exact up to a relative error of [2 ^ -50]. *)
Lemma div_1000 x : d_nonneg x -> 999 * U < d_val x -> let y := d_val (d_div x (d_of_Z 1000)) in
  d_nonneg (d_div x (d_of_Z 1000)) /\ (2 ^ 50 - 1) * d_val x <= 1000 * 2 ^ 50 * y <= (2 ^ 50 + 1) * d_val x.
Proof.
  intros Hx Hlim y. subst y. rewrite d_1000. destruct (d_val_unit x Hx) as [->|(p & e & -> & He & Hv)].
  { exfalso. cbn [d_val] in Hlim. assert (0 < U) by reflexivity. lia. }
  rewrite Hv in *. assert (He43 : -43 <= e).
  { destruct (Z.le_gt_cases (-43) e) as [H|H]; [exact H|]. pose proof (exponent_below p e Hx ltac:(lia)). lia. }
  pose proof (normal_digits p e Hx ltac:(lia)) as Hp.
  assert (Hd : Zdigits2 (Zpos p) = 53) by (apply Zdigits2_unique; lia).
  unfold d_div. cbn [SFdiv xorb]. unfold SFdiv_core_binary. rewrite Hd, fexp_eq.
  change (Zdigits2 8796093022208000) with 53.
  replace (Z.min (Z.max (53 + e - (53 + -43) - 53) (-1074)) (e - -43)) with (e - 10) by lia.
  replace (e - -43 - (e - 10)) with 53 by lia. rewrite Z.shiftl_mul_pow2 by lia.
  pose proof (Z_div_mod (Zpos p * 2 ^ 53) 8796093022208000 ltac:(lia)) as Hdm.
  destruct (Z.div_eucl (Zpos p * 2 ^ 53) 8796093022208000) as [q r]. destruct Hdm as [Hq Hr].
  assert (Hq1 : 1000 * q <= 1024 * Zpos p < 1000 * q + 1000) by lia.
  destruct (round_quotient q (e - 10) (new_location 8796093022208000 r) ltac:(lia) ltac:(lia))
    as (n & q' & y & Hn & Hq' & -> & Hy & Hyv).
  split; [exact Hy|]. rewrite Hyv. replace (e + 1074) with (10 + (e - 10 + 1074)) by lia. rewrite (Z.pow_add_r 2 10) by lia.
  pose proof (pow2_pos (e - 10 + 1074) ltac:(lia)) as HW. generalize dependent (2 ^ (e - 10 + 1074)). intros W _ HW.
  change (2 ^ 10) with 1024. rewrite !Z.mul_assoc.
  split; (apply Z.mul_le_mono_nonneg_r; [lia|]);
    destruct Hn as [->| ->]; [change (2 ^ 0) with 1 in *|change (2 ^ 1) with 2 in *|change (2 ^ 0) with 1 in *|change (2 ^ 1) with 2 in *];
    Z.div_mod_to_equations; lia.
Qed.

(** ** The loop *)

(** After [n] divisions of [x], the last of them needed: the value is at most
    999 and [x / 1000 ^ n] up to [n] roundings. *)
Definition scaled (x y : double) (n : Z) : Prop :=
  d_nonneg y /\ d_val y <= 999 * U /\
  (2 ^ 50 - 1) ^ n * d_val x <= (1000 * 2 ^ 50) ^ n * d_val y <= (2 ^ 50 + 1) ^ n * d_val x /\
  (n = 0 \/ 999 * U * (1000 * 2 ^ 50) ^ (n - 1) < (2 ^ 50 + 1) ^ (n - 1) * d_val x).
Lemma scaled_0 x : d_nonneg x -> d_val x <= 999 * U -> scaled x x 0.
Proof. intros Hx Hv. unfold scaled. rewrite !Z.pow_0_r. split_and!; try assumption; try lia. Qed.
Lemma scaled_step x y n : d_nonneg x -> 999 * U < d_val x -> 0 <= n -> scaled (d_div x (d_of_Z 1000)) y n -> scaled x y (n + 1).
Proof.
  intros Hx Hlim Hn (Hy & Hv & He & Hl). destruct (div_1000 x Hx Hlim) as [_ Hd]. unfold scaled.
  rewrite !Z.pow_add_r, !Z.pow_1_r by lia. replace (n + 1 - 1) with n by lia.
  pose proof (Z.pow_pos_nonneg (2 ^ 50 - 1) n ltac:(lia) Hn). pose proof (Z.pow_pos_nonneg (2 ^ 50 + 1) n ltac:(lia) Hn).
  split; [exact Hy|]. split; [exact Hv|]. split; [nia|]. right. destruct Hl as [->|Hl]; [rewrite !Z.pow_0_r; lia|].
  replace n with (n - 1 + 1) at 1 2 by lia. destruct (decide (n = 0)) as [->|]; [cbn in *; lia|].
  rewrite !Z.pow_add_r, !Z.pow_1_r by lia. pose proof (Z.pow_pos_nonneg (2 ^ 50 + 1) (n - 1) ltac:(lia) ltac:(lia)). nia.
Qed.

Lemma scale_loop_run k : forall x power, d_nonneg x -> d_val x <= 999 ^ (Z.of_nat k + 1) * U ->
  exists y n, scale_loop (S k) x power = Some (y, power + n) /\ 0 <= n <= Z.of_nat k /\ scaled x y n.
Proof.
  induction k as [|k IH]; intros x power Hx Hv; cbn [scale_loop]; rewrite (above_999 x Hx).
  - rewrite Z.pow_1_r in Hv. rewrite (proj2 (Z.ltb_ge _ _) Hv). exists x, 0. rewrite Z.add_0_r.
    split; [reflexivity|]. split; [lia|apply scaled_0; assumption].
  - destruct (Z.ltb_spec (999 * U) (d_val x)) as [H|H].
    + destruct (div_1000 x Hx H) as [Hd Hdv].
      destruct (IH (d_div x (d_of_Z 1000)) (power + 1) Hd) as (y & n & Hr & Hn & Hy).
      { rewrite Nat2Z.inj_succ, <- Z.add_1_r, Z.pow_add_r, Z.pow_1_r in Hv by lia. nia. }
      exists y, (n + 1). replace (power + (n + 1)) with (power + 1 + n) by lia. split; [exact Hr|]. split; [lia|].
      apply scaled_step; (assumption || lia).
    + exists x, 0. rewrite Z.add_0_r. split; [reflexivity|]. split; [lia|apply scaled_0; assumption].
Qed.

(** A register as a double is at most 2^64. *)
Lemma d_of_u64_le v : 0 <= v < 2 ^ 64 -> d_val (d_of_Z v) <= 2 ^ 64 * U.
Proof.
  intros Hv. destruct v as [|p|p]; [vm_compute; discriminate| |lia]. unfold d_of_Z. cbn [binary_normalize].
  destruct (binary_round_spec p 0 ltac:(lia)) as [[-> _]|[_ ->]]; [vm_compute; discriminate|].
  assert (E : rne (2 ^ 64 * U) = 2 ^ 64 * U) by (apply rne_multiple; exists (2 ^ 52); vm_compute; reflexivity).
  rewrite <- E. apply rne_mono. split; [apply Z.mul_nonneg_nonneg; [lia|apply Z.pow_nonneg; lia]|].
  change (2 ^ (0 + 1074)) with U. apply Z.mul_le_mono_nonneg_r; [vm_compute; discriminate|lia].
Qed.

(** The loop visits nineteen registers; the nineteenth is not in the structs,
    so the call is undefined whatever the registers hold. *)
Definition eighteen (s : display_st) : Prop := length (display_array s) = 18%nat /\ length (prefix_ptr s) = 18%nat.

Lemma bind_defined {S A B} (o : option A) (k : A -> M S B) s :
  bind (defined o) k s = match o with Some a => k a s | None => Undefined end.
Proof. destruct o; reflexivity. Qed.

(** A register of 2^53 or more is a double of at least 2^53. *)
Lemma d_of_u64_ge v : 2 ^ 53 <= v < 2 ^ 64 -> 2 ^ 53 * U <= d_val (d_of_Z v).
Proof.
  intros Hv. destruct v as [|p|p]; [lia| |lia]. unfold d_of_Z. cbn [binary_normalize].
  assert (E : rne (2 ^ 53 * U) = 2 ^ 53 * U) by (apply rne_multiple; exists (2 ^ 52); vm_compute; reflexivity).
  destruct (binary_round_spec p 0 ltac:(lia)) as [[_ H]|[_ ->]]; change (2 ^ (0 + 1074)) with U in *.
  - exfalso. assert (rne (Zpos p * U) <= rne (2 ^ 64 * U)).
    { apply rne_mono. split; [apply Z.mul_nonneg_nonneg; [lia|vm_compute; discriminate]|].
      apply Z.mul_le_mono_nonneg_r; [vm_compute; discriminate|lia]. }
    assert (E' : rne (2 ^ 64 * U) = 2 ^ 64 * U) by (apply rne_multiple; exists (2 ^ 52); vm_compute; reflexivity).
    rewrite E' in *. assert (2 ^ 64 * U < 2 ^ (1024 + 1074)) by reflexivity. lia.
  - rewrite <- E. apply rne_mono. split; [vm_compute; discriminate|]. apply Z.mul_le_mono_nonneg_r; [vm_compute; discriminate|lia].
Qed.

(** The number of divisions is at most three exactly up to 999 * 10^9. *)
Definition prefix_limit : Z := 999 * 10 ^ 9.
Lemma divisions_limit v y n : 0 <= v < 2 ^ 64 -> v <> prefix_limit -> 0 <= n <= 6 -> scaled (d_of_Z v) y n ->
  n <= 3 <-> v <= prefix_limit.
Proof.
  unfold prefix_limit. intros Hv Hne Hn (_ & Hy & He & Hl). assert (HU : 0 < U) by reflexivity. split; intros H.
  - destruct (Z.le_gt_cases v (999 * 10 ^ 9)) as [|Hgt]; [assumption|exfalso].
    assert (Hx : 999000000001 * U <= d_val (d_of_Z v)).
    { destruct (Z.le_gt_cases (2 ^ 53) v) as [H'|H'].
      - etransitivity; [|apply d_of_u64_ge; lia]. apply Z.mul_le_mono_nonneg_r; lia.
      - rewrite (proj2 (d_of_Z_spec v ltac:(lia))). change (2 ^ 1074) with U. apply Z.mul_le_mono_nonneg_r; lia. }
    generalize dependent (d_val (d_of_Z v)). generalize dependent (d_val y). generalize dependent U. intros W HW Y HY X E L HX.
    assert (n = 0 \/ n = 1 \/ n = 2 \/ n = 3) as [->|[->|[->| ->]]] by lia; cbn in E; lia.
  - assert (Hx : d_val (d_of_Z v) <= 998999999999 * U).
    { rewrite (proj2 (d_of_Z_spec v ltac:(lia))). change (2 ^ 1074) with U. apply Z.mul_le_mono_nonneg_r; lia. }
    generalize dependent (d_val (d_of_Z v)). generalize dependent U. intros W HW HY X E L HX.
    assert (n <= 3 \/ n = 4 \/ n = 5 \/ n = 6) as [?|[->|[->| ->]]] by lia; [lia|cbn in L; lia..].
Qed.

Lemma scaled_accurate x y n : 0 <= d_val x -> 0 <= n <= 6 -> scaled x y n -> 2 ^ 45 * Z.abs (1000 ^ n * d_val y - d_val x) <= d_val x.
Proof.
  intros Hx Hn (_ & _ & He & _). generalize dependent (d_val x). generalize dependent (d_val y). intros Y X HX He.
  assert (- X <= 2 ^ 45 * (1000 ^ n * Y - X) <= X); [|lia].
  assert (n = 0 \/ n = 1 \/ n = 2 \/ n = 3 \/ n = 4 \/ n = 5 \/ n = 6) as [->|[->|[->|[->|[->|[->| ->]]]]]] by lia; rewrite ?Z.pow_0_r in *; lia.
Qed.
Lemma power_of i : 0 <= i < 18 -> decimal_power !! Z.to_nat i = Some (if i <? 16 then -3 else 0).
Proof.
  intros Hi. assert (In i (seqZ 0 18)) as H by (apply list_elem_of_In, elem_of_seqZ; lia). cbn in H.
  repeat (destruct H as [<-|H]; [reflexivity|]). contradiction.
Qed.
(** One register, up to the choice of the prefix. *)
Lemma display_step_run regs i v s : eighteen s -> 0 <= i < 18 -> regs !! Z.to_nat i = Some v -> 0 <= v < 2 ^ 64 ->
  let p := if i <? 16 then -3 else 0 in
  exists y n, scale_loop scale_fuel (d_of_Z v) p = Some (y, p + n) /\ 0 <= n <= 6 /\ scaled (d_of_Z v) y n /\
    display_step regs i s = match si_prefix !! Z.to_nat (p + n + 3) with
      | Some c => Done (tt, {| display_array := <[Z.to_nat i := y]> (display_array s); prefix_ptr := <[Z.to_nat i := c]> (prefix_ptr s) |})
      | None => Undefined
      end.
Proof.
  intros [Hd Hp] Hi Hr Hv p. destruct (scale_loop_run 6 (d_of_Z v) p) as (y & n & E & Hn & Hs).
  - apply d_of_Z_u64_nonneg, Hv.
  - etransitivity; [apply d_of_u64_le, Hv|]. apply Z.mul_le_mono_nonneg_r; vm_compute; discriminate.
  - exists y, n. split; [exact E|]. split; [exact Hn|]. split; [exact Hs|]. unfold display_step.
    rewrite bind_defined, Hr, bind_defined, (power_of i Hi), bind_defined. fold p. change scale_fuel with 7%nat. rewrite E.
    erewrite bind_run by reflexivity. rewrite bind_defined.
    destruct (lookup_lt_is_Some_2 (display_array s) (Z.to_nat i) ltac:(lia)) as [d ->].
    erewrite bind_run by reflexivity. rewrite bind_defined. cbn [fst snd].
    rewrite (proj2 (Z.ltb_ge (p + n + 3) 0)) by (unfold p; destruct (i <? 16); lia).
    destruct (si_prefix !! _) as [c|]; [|reflexivity]. erewrite bind_run by reflexivity. rewrite bind_defined. cbn [prefix_ptr].
    destruct (lookup_lt_is_Some_2 (prefix_ptr s) (Z.to_nat i) ltac:(lia)) as [q ->]. reflexivity.
Qed.
Lemma limit_value : scale_loop scale_fuel (d_of_Z prefix_limit) 0 = Some (d_of_Z 999, 3).
Proof. vm_compute. reflexivity. Qed.

(** C39. Preparing one register for display.  The scaling loop ends for every
    register value after at most six divisions, with a number of at most 999
    that is the register divided by [1000 ^ n] up to rounding.  For the
    sixteen registers that start at the prefix n the prefix after [n]
    divisions always exists, and the step stores the number and the prefix
    and nothing else.  The two that start without a prefix (sleep energy and
    fault status) have one exactly up to 999 * 10^9; above, the code reads
    behind the array of prefixes. *)
Theorem display_scaling regs i v s : eighteen s -> 0 <= i < 18 -> regs !! Z.to_nat i = Some v -> 0 <= v < 2 ^ 64 ->
  if (i <? 16) || (v <=? prefix_limit) then
    exists y n c, 0 <= n <= 6 /\ d_val y <= 999 * U /\ 2 ^ 45 * Z.abs (1000 ^ n * d_val y - d_val (d_of_Z v)) <= d_val (d_of_Z v) /\
      si_prefix !! Z.to_nat (if i <? 16 then n else n + 3) = Some c /\
      display_step regs i s = Done (tt, {| display_array := <[Z.to_nat i := y]> (display_array s); prefix_ptr := <[Z.to_nat i := c]> (prefix_ptr s) |})
  else display_step regs i s = Undefined /\
    exists y n, scale_loop scale_fuel (d_of_Z v) 0 = Some (y, n) /\ 4 <= n <= 6 /\ si_prefix !! Z.to_nat (n + 3) = None.
Proof.
  intros Hs Hi Hr Hv. destruct (display_step_run regs i v s Hs Hi Hr Hv) as (y & n & E & Hn & Hsc & ->).
  assert (Hp : forall k, si_prefix !! Z.to_nat k = None <-> 7 <= k) by (intros k; rewrite lookup_ge_None; cbn; lia).
  assert (Hlim : (i <? 16) = false -> (n <= 3 <-> v <= prefix_limit)).
  { intros Ei. rewrite Ei in E. destruct (decide (v = prefix_limit)) as [->|Hne]; [|apply (divisions_limit v y); assumption].
    rewrite limit_value in E. injection E as _ E. lia. }
  set (p := if i <? 16 then -3 else 0) in *. assert (Ep : Z.to_nat (p + n + 3) = Z.to_nat (if i <? 16 then n else n + 3)).
  { unfold p. destruct (i <? 16); f_equal; lia. }
  rewrite Ep. destruct (si_prefix !! _) as [c|] eqn:Ec.
  - replace ((i <? 16) || (v <=? prefix_limit)) with true.
    + exists y, n, c. split; [exact Hn|]. split; [apply Hsc|]. split; [apply scaled_accurate; [apply d_val_nonneg, d_of_Z_u64_nonneg, Hv|assumption..]|]. auto.
    + destruct (i <? 16); [reflexivity|]. symmetry. apply Z.leb_le, Hlim; [reflexivity|].
      destruct (Z.le_gt_cases n 3); [assumption|]. rewrite (proj2 (Hp (n + 3))) in Ec by lia. discriminate.
  - apply Hp in Ec. destruct (i <? 16); [lia|]. cbn [orb]. rewrite (proj2 (Z.leb_gt v prefix_limit)).
    + split; [reflexivity|]. exists y, n. rewrite Z.add_0_l in E. split; [exact E|]. split; [lia|]. apply Hp. lia.
    + destruct (Z.le_gt_cases v prefix_limit) as [H|H]; [|exact H]. apply Hlim in H; [lia|reflexivity].
Qed.

(** A register file whose registers all hold [v]. *)
Definition demo_display : display_st := {| display_array := replicate 18 d_zero; prefix_ptr := replicate 18 0 |}.
Lemma display_scaling_witness :
  (exists y n c, 0 <= n <= 6 /\ d_val y <= 999 * U /\ si_prefix !! Z.to_nat n = Some c /\
    display_step (replicate 20 12345678901) 12 demo_display =
      Done (tt, {| display_array := <[12%nat := y]> (replicate 18 d_zero); prefix_ptr := <[12%nat := c]> (replicate 18 0) |})) /\
  display_step (replicate 20 (10 ^ 12)) 16 demo_display = Undefined.
Proof.
  split.
  - destruct (display_scaling (replicate 20 12345678901) 12 12345678901 demo_display) as (y & n & c & H1 & H2 & _ & H3 & H4);
      [split; reflexivity|lia|reflexivity|lia|]. exists y, n, c. auto.
  - pose proof (display_scaling (replicate 20 (10 ^ 12)) 16 (10 ^ 12) demo_display (conj eq_refl eq_refl) ltac:(lia) eq_refl ltac:(lia)) as H.
    change ((16 <? 16) || (10 ^ 12 <=? prefix_limit)) with false in H. exact (proj1 H).
Defined.

Lemma display_step_cases regs i s : eighteen s ->
  display_step regs i s = Undefined \/ exists s', display_step regs i s = Done (tt, s') /\ eighteen s' /\ (Z.to_nat i < 18)%nat.
Proof.
  intros [Hd Hp]. unfold display_step. rewrite !bind_defined.
  destruct (regs !! _) as [r|]; [|left; reflexivity]. rewrite bind_defined.
  destruct (decimal_power !! _) as [p|]; [|left; reflexivity]. rewrite bind_defined.
  destruct (scale_loop _ _ _) as [res|]; [|left; reflexivity].
  erewrite bind_run by reflexivity. rewrite bind_defined.
  destruct (display_array s !! Z.to_nat i) as [d|] eqn:E; [|left; reflexivity].
  erewrite bind_run by reflexivity. rewrite bind_defined. destruct (if snd res + 3 <? 0 then None else _) as [c|]; [|left; reflexivity].
  erewrite bind_run by reflexivity. rewrite bind_defined. cbn [prefix_ptr].
  destruct (prefix_ptr s !! Z.to_nat i) as [x|]; [|left; reflexivity].
  right. eexists. split; [reflexivity|]. apply lookup_lt_Some in E. unfold eighteen. cbn [display_array prefix_ptr].
  rewrite !length_insert. repeat split; (assumption || lia).
Qed.

Lemma prepare_display_undefined regs s : eighteen s -> vemu_prepare_display regs s = Undefined.
Proof.
  unfold vemu_prepare_display. change (seqZ 0 19) with (seqZ 0 18 ++ [18]). generalize (seqZ 0 18) as l.
  intros l. revert s. induction l as [|i l IH]; intros s Hs; cbn [app mfor].
  - unfold bind. destruct (display_step_cases regs 18 s Hs) as [->|(s' & _ & _ & H)]; [reflexivity|].
    exfalso. change (Z.to_nat 18) with 18%nat in H. lia.
  - unfold bind. destruct (display_step_cases regs i s Hs) as [->|(s' & -> & Hs' & _)]; [reflexivity|]. apply IH, Hs'.
Qed.

(** The cycle counts are displayed with the prefixes of nano units: a count of
    five reads as 5 n. *)
Lemma cycles_prefix : decimal_power !! 8%nat = Some (-3) /\ scale_loop scale_fuel (d_of_Z 5) (-3) = Some (d_of_Z 5, -3) /\
  si_prefix !! 0%nat = Some 110.
Proof. split; [reflexivity|]. split; [vm_compute; reflexivity|reflexivity]. Qed.
